(* ===== verification/_CoqProject ===== *)
-Q . S2P
Prelude.v
TextScan.v
Gob.v
PorcBitset.v
Porcupine.v
PorcList.v
PorcupineSpec.v
PorcSearch.v
PorcCheck.v
PorcEvents.v
PorcVisual.v
LabGobCheck.v
LabRpc.v
Persister.v
RaftState.v
RaftLog.v
RaftVote.v
RaftCommit.v
RaftAppend.v
RaftSnapshot.v
RaftNode.v
RaftWorld.v
RaftSafety.v
RaftScenarios.v
RaftElection.v
RaftOracle.v
RaftService.v
KvServer.v
ReplyServer.v
KvSpec.v
KvModel.v
KvLinear.v
KvTestChecks.v
KvAppendTest.v
KvReplica.v
KvSystem.v
KvClerk.v
ShardConfig.v
ShardBalance.v
ShardCtrler.v
ShardCtrlerSpec.v
ShardCtrlerSystem.v
ShardCtrlerTest.v
ShardMinimal.v
ShardKv.v
ShardKvSpec.v
ShardKvSystem.v
ShardSystem.v
ShardContents.v
ShardProgress.v
ShardCatchUp.v
RecordedRun.v
RecordedRun1.v
RecordedRun2.v
RecordedRun3.v
RecordedRun4.v
RecordedRun5.v
RunCheck.v
RunLog.v
MrCoordinator.v
MrWorker.v
MrJson.v
MrApps.v
MrObservers.v
MrSystem.v
