(* ===== verification/Prelude.v ===== *)
(** * A verification of the cs651_raft repository

    The repository holds the laboratories of a course on distributed systems,
    in Go, under code/src: MapReduce (mr, with applications in mrapps and
    programs in main), a Raft library (raft), a key/value service on top of it
    (kvraft), a controller that assigns shards of keys to groups of servers
    (shardctrler), and a key/value service whose groups serve the shards the
    controller gives them and hand shards to one another (shardkv).  The tests
    of the key/value services judge what their clients saw by a linearizability
    checker (porcupine) and a model of the service (models).  This library
    models these packages and proves what makes them correct, and where they
    are not.

    ** How the parts fit together

    A service starts its operations with [Start] at its Raft peer; the peers
    replicate a log and send the committed commands, in order, on a channel;
    each replica applies them to its state, answers the client whose handler
    waits, and from time to time gives its peer a snapshot that stands for the
    commands before it.  The groups of shardkv ask the controller for the next
    configuration and put it, and the shards they fetch from other groups,
    through their own logs.

    MapReduce stands apart: a coordinator hands the map tasks, then the reduce
    tasks, to workers that ask for them over RPC; the workers exchange their
    data through files, which they write under temporary names and rename.

    ** Files

    - [Prelude]: outcomes of Go code ([Res]: a value, [log.Fatal], a panic),
      record update, slices, maps, loops, the tactics of the library and its
      hint database [go].
    - [Gob], [Persister]: what the program uses of labgob, as a class with a
      concrete instance; raft/persister.go.
    - [LabGobCheck] (labgob/labgob.go): the checks labgob makes of types and
      values before it encodes and decodes.  [LabRpc] (labrpc/labrpc.go): the
      simulated network, its servers and the goroutines of every call, as a
      step relation.  The files below it take from it that a call runs its
      handler at most once per request, that a positive reply is the
      handler's, and that everything else can get lost.
    - [PorcBitset] (porcupine/bitset.go), [Porcupine] (porcupine/model.go,
      checker.go, porcupine.go): the checker, with its linked list in a heap and
      its goroutines' answers in the order of a schedule.  [PorcList]: the list.
      [PorcupineSpec]: what linearizable means for entries, and what is left of
      a history after some operations.  [PorcSearch]: the search decides it.
      [PorcCheck], [PorcEvents]: histories of operations and of events.
      [PorcVisual] (visualization.go): the data of a drawing.
    - [RaftState] (raft.go, raftUtils.go), [RaftLog] (logUtils.go), [RaftVote]
      (requestVotes.go, the ticker), [RaftAppend] (appendEntities.go, [Start]),
      [RaftCommit] (commitAndApplyUtils.go), [RaftSnapshot]
      (installSnapshot.go): one peer.  A critical section under the peer's lock
      is one function of its state; a goroutine that sends an RPC is split
      where it releases the lock ([sendAppendEntriesPre], [...Post]).
    - [RaftNode]: every critical section as an event of one peer, and what all
      of them preserve.  [RaftWorld]: a cluster of peers, with messages and
      replies that are lost, delayed and overtaken by others, applies, crashes
      and restarts, as a step relation; as in [LabRpc], a request is executed
      at most once.  [RaftSafety]: invariants of every reachable cluster.
      [RaftScenarios]: runs of the cluster, evaluated, that reach states Raft
      excludes.  [RaftElection]: votes on their way, and when there is at most
      one leader in a term.  [RaftOracle] (raft/config.go): how the tests
      judge what a cluster applies, and who leads it.
    - [RaftService]: what the services rely on from a peer, as a class; the
      peer of [RaftState] is an instance.  The services are modelled over it.
    - [ReplyServer]: what the servers of kvraft, shardctrler and shardkv have
      in common: handlers that start an operation and wait on a channel of a
      table, timers, and an apply loop that sends on it with the lock held, as
      concurrent steps.  A server is an instance of the class [ReplyServer] and
      proves the laws [ReplyLaws]; it gets the invariants in return.
    - [KvServer] (kvraft, the server), [KvSpec] (the abstract service it
      refines), [KvModel] (models/kv.go, the model the tests use), [KvLinear]
      (that checking by key is right, and that a server passes), [KvReplica]
      (replicas and snapshots), [KvSystem] (the server as an instance of
      [ReplyServer]), [KvClerk] (the client).  [KvTestChecks]
      (kvraft/test_test.go): how the tests judge appended values;
      [KvAppendTest]: TestUnreliableOneKey3A on the modelled server.
    - [ShardConfig], [ShardBalance] (configurations and their rebalancing,
      shardctrler/util.go), [ShardCtrler] (the controller), [ShardCtrlerSpec],
      [ShardCtrlerSystem] (an instance of [ReplyServer]).
      [ShardCtrlerTest] (shardctrler/test_test.go): what the tests check of
      configurations; [ShardMinimal]: how many shards a Join and a Leave move.
    - [ShardKv] (shardkv), [ShardKvSpec]; [ShardKvSystem]: a server with its
      tickers, an instance of [ReplyServer]; [ShardSystem]: the controller and
      any number of groups as a step relation, over one log per group;
      [ShardContents]: what the shards hold as they move between groups;
      [ShardProgress]: the groups can always catch up; [ShardCatchUp]: and,
      under the schedule of [ShardContents], with the contents of all shards.
    - [MrCoordinator] (mr/coordinator.go, rpc.go), [MrWorker] (mr/worker.go,
      main/mrsequential.go), [MrApps] (mrapps), [MrObservers] (the applications
      that watch the workers: processes that share a directory), [MrJson] (an instance of the
      JSON codec [MrWorker] takes as a class), [MrSystem]: coordinator, workers
      and files as a step relation.
    - [RecordedRun], [RecordedRun1] to [RecordedRun5]: the debugging output of
      a failed test, raft/2timesvote.ts, a file of the repository, line by line
      as records.  [RunLog]: the formats of its lines; the records print the
      text of the file, and no others do.  [RunCheck]: the model evaluated on
      the votes, vote counts and commits it records.  It was recorded with an
      earlier revision of the package, and the defects of that run (a vote of
      an earlier term is counted) and of the present code show in the
      differences.
    - [TextScan]: numbers and fixed texts read from a text, for [RunLog] and
      [MrObservers].

    ** What is proved

    - Raft, one peer: the decision tables of the RequestVote and AppendEntries
      handlers on every branch; a leader commits exactly the largest index on
      a majority with an entry of its term; what is sent to the service; the
      four ways the log behind the compacted one can change; who changes role,
      term and vote, and when; which requests and states make a handler reach
      a [log.Fatal].
    - Raft, the cluster: stable storage is always current, so that a crash
      loses nothing; terms, snapshots, commit and applied indices do not go
      back; a peer applies the log in order, without gaps.  At most one peer
      leads in a term in every run in which no peer changes its vote within a
      term and no goroutine of an earlier election is left when a peer stands
      again.
    - Raft, the defects: a cluster reaches two leaders of one term, two peers
      apply different commands at one index, and a delayed heartbeat ends a
      follower's process.  The cause is in the code ([becomeLeader] moves to a
      new term without an election in it, requests of a term erase votes of
      that term, a candidate gives its own vote away, a vote can be asked for
      and counted twice, stale requests truncate the log), so agreement of the
      logs is not, and cannot be, a theorem here.
    - Every server with handlers (kvraft, shardctrler, shardkv), whatever the
      order in which handlers, timers and the apply loop run: a reply reaches
      the handler of its request, no channel is closed twice or used after it
      was closed, and nothing panics as long as operations are of the known
      types and the Raft peer can take the snapshots the server makes (or it
      makes none); unless the apply loop waits in a send, every handler can
      reply; and a state in which the apply loop is blocked for ever.
    - Key/value service: requests are executed exactly once; replicas that
      apply the same history agree and a snapshot stands for the operations
      before it, under the same two conditions; the clerk returns.
    - Controller: Join and Leave end with a balanced configuration in which
      every shard has a group; the order in which Go iterates over a map does
      not matter; the history of configurations; the exceptions.  No balanced
      configuration moves fewer shards than a Join does; a Leave may move more
      than it has to.
    - The judgements of the tests: the harness of the Raft tests ends a test
      exactly if a server skips an index or two servers differ at one, so that
      it accepts what a cluster without snapshots sends if and only if the peers
      agree, and it catches the runs of [RaftScenarios]; the checks of appended
      values accept them exactly if every append is there once and in its
      client's order, and the modelled server passes; the checks of
      configurations are exact, and the modelled controller passes.
    - Sharded service: an operation is served by the owner of its shard and
      only when the group is up to date; configurations are installed in
      order; a transfer copies a shard; three runs that lose or repeat
      acknowledged writes.  Under a schedule that excludes them (a group goes
      on to the next configuration only when every group has installed the one
      before and has its shards, and a request for a shard is answered while
      the asker still lacks it) all groups together are one map, whatever
      configurations the controller makes, a client's requests from 1 on are
      executed at most once on each shard, and from every reachable state the
      tickers can bring every group to the last configuration, with the
      contents of all its shards.
    - Controller and groups together: what every replica of every group has
      installed is a prefix of the controller's history; a group that is given
      a shard nobody had before never serves again; and without the schedule,
      as long as every shard has an owner that can be reached, all groups can
      reach the latest configuration and lack no shard by their time stamps,
      so that every shard is served.
    - The network: a call runs its handler at most once, exactly once when it
      returns true, and then with the caller's argument and the handler's
      reply; a server that was deleted does not answer; a call on a reliable
      network succeeds; a call can always return.  labgob complains exactly
      once about every field it would leave out.
    - The checker: the search ends, without a panic, with the answer whether
      the entries are linearizable; [unlift] restores the heap from before
      [lift]; the answers of the partitions are put together in any order of
      arrival; events may have any ids.  A history of the key/value service is
      linearizable against one map exactly if it is by key, so the tests check
      what they mean to; the replies of a kvraft server pass; an empty history,
      which has no key, is never answered; and what a check returns can always
      be drawn.
    - MapReduce: the coordinator's answers on every branch and its invariant; a
      reduce task writes one line per key, in order; whatever workers crash,
      lose replies or do the same task twice, a finished job leaves the lines
      that the sequential program writes; and a job can always be finished.
      jobcount counts the map tasks that were run; [nparallel] counts all that
      stay at work while it looks, and nobody who did not live in that time.

    ** Bounds and fuel

    Go's [int] is [Z]; counters grow by one per event and are not wrapped.
    [redistributeShards] runs with fuel 100, enough because each round lowers
    the sum of the squares of ten counts ([redistribute_ok]).  The retry loops
    of the clerks take fuel and an oracle for the network; that they return
    when some call succeeds is proved for every fuel that reaches it.  The
    loops of a reduce task take the number of pairs as fuel, enough because
    each step moves an index up ([reduceLoop_groups]).  [checkType] takes the
    number of types as fuel, enough because each is entered once
    ([checkType_total]).  The search of [n] operations takes fuel
    [(2n + 2) ^ (n + 2)], in binary: each of its iterations makes a number of
    [n + 1] digits in base [2n + 2] grow ([search_decides]).  A 32-bit hash is
    computed modulo [2^32], and the statistics of the network wrap around at 32
    and 64 bits.  All other recursion is structural.

    ** What is not modelled

    encoding/gob and reflection (classes state what is used of them), the tests
    and their harnesses beyond the judgements above (they start, stop, connect
    and time servers), the page that porcupine's visualization.go writes around
    its data, and the command line programs around MapReduce (plug-ins,
    sockets).  The time stamps of mtiming, the order of a directory's names and
    the signal 0 are variables.  Errors of the file system other than a missing
    file are left out; they end a worker, as a crash does.  Time is what each
    critical section reads from [Env]; that a time-out ever fires is not
    stated.  A handler is one step of [LabRpc], although handlers of one server
    overlap.  [ShardSystem] takes from Raft that the peers of a group agree on
    one log.  [ShardContents] takes a group as one replicated machine and states
    its schedule as a condition of the steps: the code does not enforce it, and
    without it acknowledged writes can be lost. *)

From stdpp Require Export base option list numbers gmap strings sorting.
From Stdlib Require Export ZArith Lia.
#[export] Set Default Proof Using "Type".
#[export] Set Warnings "-clear-no-such-hyp".

(** ** Outcomes of Go code *)

(** [Res A] is the outcome of a piece of Go code: a value, a [log.Fatal]
    (which ends the process) or a run-time panic. *)
Inductive Res (A : Type) : Type :=
  | Ok (a : A)
  | Fatal (why : string)
  | Panic (why : string).
Arguments Ok {A} _.
Arguments Fatal {A} _.
Arguments Panic {A} _.

#[export] Instance Res_ret : MRet Res := @Ok.
#[export] Instance Res_bind : MBind Res := λ A B f m,
  match m with Ok a => f a | Fatal s => Fatal s | Panic s => Panic s end.
#[export] Instance Res_fmap : FMap Res := λ A B f m,
  match m with Ok a => Ok (f a) | Fatal s => Fatal s | Panic s => Panic s end.

#[export] Instance Res_eq_dec `{EqDecision A} : EqDecision (Res A).
Proof. solve_decision. Defined.

Definition is_ok {A} (m : Res A) : bool :=
  match m with Ok _ => true | _ => false end.

Lemma bind_Ok {A B} (m : Res A) (f : A → Res B) (b : B) :
  m ≫= f = Ok b ↔ ∃ a, m = Ok a ∧ f a = Ok b.
Proof. destruct m; cbn; split; try done; [by eauto|by intros (? & [= ->] & ?)|..]; by intros (? & ? & ?). Qed.

Lemma fmap_Ok {A B} (m : Res A) (f : A → B) (b : B) :
  f <$> m = Ok b ↔ ∃ a, m = Ok a ∧ b = f a.
Proof. destruct m; cbn; split; try done; [intros [= <-]; eauto|by intros (? & [= ->] & ->)|..]; by intros (? & ? & ?). Qed.

(** ** Record update

    [r <| f := x |>] is the record [r] with the field [f] set to [x]: a Go
    assignment [r.f = x].  A record type declares its eta expansion once
    ([Settable]) and one [Setter] per field. *)
Class Settable (R : Type) := eta : R → R.
Class Setter {R T : Type} (f : R → T) := setf : T → R → R.

Ltac derive_setter :=
  lazymatch goal with
  | |- @Setter ?R ?T ?f =>
      let x := fresh "x" in
      let r := fresh "r" in
      intros x r;
      let e := constr:(@eta R _ r) in
      let b := eval hnf in e in
      lazymatch eval pattern (f r) in b with
      | ?P _ => let res := eval cbv beta in (P x) in exact res
      end
  end.

Declare Scope go_scope.
Notation "r <| f := x |>" := (setf (f := f) x r)
  (at level 1, left associativity, format "r  <| f  :=  x |>") : go_scope.
#[global] Open Scope go_scope.

(** ** Go slices and integers *)

(** [s[i]] reads a slice; an index out of range panics. *)
Definition go_index {A} (l : list A) (i : Z) : Res A :=
  if decide (i < 0)%Z then Panic "index out of range"
  else match l !! Z.to_nat i with
       | Some a => Ok a
       | None => Panic "index out of range"
       end.

(** [s[i] = x]. *)
Definition go_store {A} (l : list A) (i : Z) (x : A) : Res (list A) :=
  if decide (0 ≤ i < Z.of_nat (length l))%Z then Ok (<[Z.to_nat i := x]> l)
  else Panic "index out of range".

(** [s[:n]] and [s[n:]], for bounds inside the length (every slice
    expression of the program is used there; outside it is a panic here). *)
Definition go_slice_to {A} (l : list A) (n : Z) : Res (list A) :=
  if decide (0 ≤ n ≤ Z.of_nat (length l))%Z then Ok (take (Z.to_nat n) l)
  else Panic "slice bounds out of range".

Definition go_slice_from {A} (l : list A) (n : Z) : Res (list A) :=
  if decide (0 ≤ n ≤ Z.of_nat (length l))%Z then Ok (drop (Z.to_nat n) l)
  else Panic "slice bounds out of range".

(** [len(s)] as a Go int. *)
Abbreviation zlen l := (Z.of_nat (length l)).

Lemma go_index_Ok {A} (l : list A) (i : Z) (a : A) :
  go_index l i = Ok a ↔ (0 ≤ i)%Z ∧ l !! Z.to_nat i = Some a.
Proof. unfold go_index. case_decide; [|case_match]; naive_solver lia. Qed.

Lemma go_index_in_range {A} (l : list A) (i : Z) :
  (0 ≤ i < zlen l)%Z → ∃ a, go_index l i = Ok a ∧ l !! Z.to_nat i = Some a.
Proof.
  intros Hi. destruct (lookup_lt_is_Some_2 l (Z.to_nat i)) as [a Ha]; [lia|].
  exists a. rewrite go_index_Ok. split_and!; [lia|done|done].
Qed.

Lemma go_store_Ok {A} (l l' : list A) (i : Z) (x : A) :
  go_store l i x = Ok l' ↔
  (0 ≤ i < zlen l)%Z ∧ l' = <[Z.to_nat i := x]> l.
Proof. unfold go_store. case_decide; naive_solver. Qed.

Lemma go_slice_to_Ok {A} (l l' : list A) (n : Z) :
  go_slice_to l n = Ok l' ↔ (0 ≤ n ≤ zlen l)%Z ∧ l' = take (Z.to_nat n) l.
Proof. unfold go_slice_to. case_decide; naive_solver. Qed.

Lemma go_slice_from_Ok {A} (l l' : list A) (n : Z) :
  go_slice_from l n = Ok l' ↔ (0 ≤ n ≤ zlen l)%Z ∧ l' = drop (Z.to_nat n) l.
Proof. unfold go_slice_from. case_decide; naive_solver. Qed.

(** A [for ... range] loop whose body updates a value and can fail. *)
Fixpoint go_for {A B} (f : A → B → Res A) (a : A) (l : list B) : Res A :=
  match l with
  | [] => Ok a
  | b :: l' => a' ← f a b; go_for f a' l'
  end.

(** A loop keeps an invariant indexed by what it has consumed. *)
Lemma go_for_inv {A B} (I : A → list B → Prop) (f : A → B → Res A) (l : list B) (a : A) :
  I a [] →
  (∀ a pre b post, l = pre ++ b :: post → I a pre →
     ∃ a', f a b = Ok a' ∧ I a' (pre ++ [b])) →
  ∃ a', go_for f a l = Ok a' ∧ I a' l.
Proof.
  intros Ha Hstep. cut (∀ post pre a, l = pre ++ post → I a pre →
    ∃ a', go_for f a post = Ok a' ∧ I a' l).
  { intros Hc. apply (Hc l [] a); done. }
  intros post. induction post as [|b post IH]; intros pre a0 Hl HI; cbn.
  - rewrite app_nil_r in Hl. subst. eauto.
  - destruct (Hstep a0 pre b post Hl HI) as (a' & Hf & HI'). rewrite Hf. cbn.
    apply (IH (pre ++ [b])); [|done]. by rewrite <- app_assoc.
Qed.

(** A loop whose body cannot fail is a [foldl]. *)
Lemma go_for_foldl {A B} (f : A → B → Res A) (g : A → B → A) (l : list B) (a : A) :
  (∀ a b, b ∈ l → f a b = Ok (g a b)) → go_for f a l = Ok (foldl g a l).
Proof.
  revert a. induction l as [|b l IH]; intros a Hf; cbn; [done|].
  rewrite Hf by left. cbn. apply IH. intros. apply Hf. by right.
Qed.

(** A loop of checks. *)
Lemma go_for_check {A} (f : A → Res unit) (P : A → Prop) (l : list A) :
  (∀ x, x ∈ l → (f x = Ok tt ∧ P x) ∨ ((∃ why, f x = Fatal why) ∧ ¬ P x)) →
  (go_for (λ _ x, f x) tt l = Ok tt ∧ ∀ x, x ∈ l → P x) ∨
  ((∃ why, go_for (λ _ x, f x) tt l = Fatal why) ∧ ¬ ∀ x, x ∈ l → P x).
Proof.
  induction l as [|x l IH]; intros Hf; cbn; [left; split; [done|]; by intros x ?%elem_of_nil|].
  destruct (Hf x) as [[-> Hx]|[(why & ->) Hx]]; [left| |]; cbn.
  - destruct IH as [[-> Hl]|[Hw Hl]]; [intros; apply Hf; by right| |].
    + left. split; [done|]. by intros y [->|Hy]%elem_of_cons; [|apply Hl].
    + right. split; [done|]. intros Hn. apply Hl. intros y Hy. apply Hn. by right.
  - right. split; [by eexists|]. intros Hn. apply Hx, Hn. left.
Qed.

Lemma go_for_ok {A} (f : A → Res unit) (l : list A) : (∀ x, x ∈ l → f x = Ok tt) → go_for (λ _ x, f x) tt l = Ok tt.
Proof. intros Hf. destruct (go_for_check f (λ _, True) l) as [[? _]|[_ Hn]]; [by auto|done|by destruct Hn]. Qed.

(** ** Filters and places in lists *)

Lemma filter_ext_in {A} (P Q : A → Prop) `{!∀ x, Decision (P x), !∀ x, Decision (Q x)} (l : list A) :
  (∀ x, x ∈ l → P x ↔ Q x) → filter P l = filter Q l.
Proof.
  induction l as [|x l IH]; intros Hl; [done|]. rewrite !filter_cons, IH by (intros; apply Hl; by right).
  pose proof (Hl x (list_elem_of_here _ _)). do 2 case_decide; tauto.
Qed.

Lemma split_two {A} (l : list A) j k x y :
  (j < k)%nat → l !! j = Some x → l !! k = Some y → ∃ U V W, l = U ++ x :: V ++ y :: W.
Proof.
  intros Hjk Hj Hk. set (U := take j l). set (D := drop (S j) l).
  assert (l = U ++ x :: D) as E by (unfold U, D; by rewrite take_drop_middle).
  assert (D !! (k - S j)%nat = Some y) as HD by (unfold D; rewrite lookup_drop; by replace (S j + (k - S j))%nat with k by lia).
  exists U, (take (k - S j) D), (drop (S (k - S j)) D). by rewrite take_drop_middle.
Qed.

Lemma Forall_filter {A} (P Q : A → Prop) `{!∀ x, Decision (P x)} l : Forall Q l → Forall Q (filter P l).
Proof. rewrite !Forall_forall. intros Hl x [_ Hx]%list_elem_of_filter. by apply Hl. Qed.

Lemma foldl_eq {A B} (f g : A → B → A) l a : (∀ x y, f x y = g x y) → foldl f a l = foldl g a l.
Proof. intros Hfg. revert a. induction l as [|y l IH]; intros a; cbn; [done|]. by rewrite Hfg. Qed.

(** ** Strings *)

Lemma append_cons c (s t : string) : String c s +:+ t = String c (s +:+ t).
Proof. reflexivity. Qed.

Lemma append_nil_r (s : string) : s +:+ "" = s.
Proof. induction s as [|c s IH]; [done|]. by rewrite !append_cons, IH. Qed.

Lemma append_assoc (a b c : string) : a +:+ b +:+ c = (a +:+ b) +:+ c.
Proof. induction a as [|x a IH]; [done|]. by rewrite !append_cons, IH. Qed.

Lemma length_app_str (a b : string) : String.length (a +:+ b) = (String.length a + String.length b)%nat.
Proof. induction a as [|c a IH]; [done|]. rewrite append_cons. cbn [String.length]. by rewrite IH. Qed.

(** ** Go maps

    A loop that copies the entries of a map into another, in any order. *)

Lemma range_insert_lookup `{Countable K} {V} (l : list (K * V)) (m0 : gmap K V) k :
  NoDup l.*1 →
  foldl (λ r kv, <[kv.1 := kv.2]> r) m0 l !! k =
  match (list_to_map l : gmap K V) !! k with Some v => Some v | None => m0 !! k end.
Proof.
  revert m0. induction l as [|[k1 v1] l IH]; intros m0 Hnd; cbn; [by rewrite lookup_empty|].
  apply NoDup_cons in Hnd as [Hn Hnd]. rewrite IH by done. cbn.
  destruct (decide (k = k1)) as [->|Hne].
  - rewrite !lookup_insert_eq. by rewrite (not_elem_of_list_to_map_1 l k1 Hn).
  - by rewrite !lookup_insert_ne by done.
Qed.

Lemma range_insert `{Countable K} {V} (m m0 : gmap K V) (l : list (K * V)) :
  l ≡ₚ map_to_list m → foldl (λ r kv, <[kv.1 := kv.2]> r) m0 l = m ∪ m0.
Proof.
  intros Hl. assert (NoDup l.*1) as Hnd by (rewrite Hl; apply NoDup_fst_map_to_list).
  apply map_eq. intros k. rewrite range_insert_lookup by done.
  rewrite (list_to_map_proper l (map_to_list m)) by done. rewrite list_to_map_to_list.
  rewrite lookup_union. destruct (m !! k), (m0 !! k); done.
Qed.

(** ** Automation

    [go_ok] rewrites the operations on slices and the monad to what it means
    that they return. *)
Create HintDb go.
Create Rewrite HintDb go_ok.
#[export] Hint Rewrite @bind_Ok @fmap_Ok @go_index_Ok @go_store_Ok @go_slice_to_Ok @go_slice_from_Ok : go_ok.
#[export] Hint Resolve go_index_in_range : go.

(** Decompose hypotheses [m = Ok x] built from the monad's operations. *)
Ltac go_inv :=
  repeat match goal with
  | H : Ok _ = Ok _ |- _ => injection H as H; try subst
  | H : Fatal _ = Ok _ |- _ => discriminate H
  | H : Panic _ = Ok _ |- _ => discriminate H
  | H : mret _ = Ok _ |- _ => unfold mret, Res_ret in H
  | H : (_ ≫= _) = Ok _ |- _ => apply bind_Ok in H as (? & ? & H)
  | H : (_ <$> _) = Ok _ |- _ => apply fmap_Ok in H as (? & H & ?)
  | H : _ ∧ _ |- _ => destruct H
  | H : (_, _) = (_, _) |- _ => injection H as H; try subst
  end.

(** Case analysis on every [if decide] and [match] of a hypothesis
    [m = Ok x], keeping the branches that return. *)
Ltac go_cases H :=
  repeat (go_inv; first
    [ discriminate H
    | match type of H with
      | context [decide ?P] => destruct (decide P)
      | context [match ?x with _ => _ end] => destruct x eqn:?
      end ]).
