(* ===== verification/TextScan.v ===== *)
(** * Reading texts

    What the readers of printed texts share ([RunLog] for the debugging
    output, [MrObservers] for fmt.Sscanf): a text that is expected, and a
    decimal number, each with what follows it. *)

From Stdlib Require Import Ascii.
From stdpp Require Import pretty.
From S2P Require Import Prelude.
Open Scope Z_scope.

(** What follows the text [pat], when [s] begins with it. *)
Fixpoint afterPrefix (pat s : string) : option string :=
  match pat, s with
  | "", _ => Some s
  | String c pat, String d s => if Ascii.eqb c d then afterPrefix pat s else None
  | _, "" => None
  end%string.

Lemma afterPrefix_app pat s : afterPrefix pat (pat +:+ s) = Some s.
Proof. induction pat as [|c pat IH]; [done|]. rewrite append_cons. cbn [afterPrefix]. by rewrite Ascii.eqb_refl. Qed.

Lemma afterPrefix_Some pat s r : afterPrefix pat s = Some r → s = pat +:+ r.
Proof.
  revert s. induction pat as [|c pat IH]; intros [|d s] H; cbn [afterPrefix] in H; [by injection H as <-..|done|].
  destruct (Ascii.eqb c d) eqn:E; [|done]. apply Ascii.eqb_eq in E as ->. by rewrite append_cons, (IH s).
Qed.

(** Two texts that begin the same text: one begins with the other. *)
Lemma afterPrefix_comparable a b s r r' :
  afterPrefix a s = Some r → afterPrefix b s = Some r' →
  is_Some (afterPrefix a b) ∨ is_Some (afterPrefix b a).
Proof.
  revert b s. induction a as [|c a IH]; intros b s Ha Hb; [left; by eexists|].
  destruct b as [|d b]; [right; by eexists|]. destruct s as [|e s]; [done|]. cbn [afterPrefix] in *.
  destruct (Ascii.eqb c e) eqn:E1; [|done]. destruct (Ascii.eqb d e) eqn:E2; [|done].
  apply Ascii.eqb_eq in E1 as ->, E2 as ->. rewrite !Ascii.eqb_refl. by eapply IH.
Qed.

(** ** Decimal numbers *)

Definition digitOf (c : ascii) : option Z :=
  let n := Z.of_N (N_of_ascii c) - 48 in if decide (0 ≤ n < 10) then Some n else None.

(** The value of the digits at the front, after [acc], and what follows. *)
Fixpoint readDigits (acc : Z) (s : string) : Z * string :=
  match s with
  | "" => (acc, "")
  | String c s' => match digitOf c with Some d => readDigits (10 * acc + d)%Z s' | None => (acc, s) end
  end%string.

(** The text does not go on with a digit. *)
Definition stops (s : string) : Prop := match s with "" => True | String c _ => digitOf c = None end%string.

Lemma digits_stops acc s : stops s → readDigits acc s = (acc, s).
Proof. destruct s as [|c s]; [done|]. cbn. by intros ->. Qed.

Lemma digitOf_pretty x : (x < 10)%N → digitOf (pretty_N_char x) = Some (Z.of_N x).
Proof.
  intros Hx. assert (x = 0 ∨ x = 1 ∨ x = 2 ∨ x = 3 ∨ x = 4 ∨ x = 5 ∨ x = 6 ∨ x = 7 ∨ x = 8 ∨ x = 9)%N
    as Hc by lia. by destruct_or! Hc; subst x.
Qed.

Lemma pretty_go_app x s r : pretty_N_go x s +:+ r = pretty_N_go x (s +:+ r).
Proof.
  revert s. induction (N.lt_wf_0 x) as [x _ IH]; intros s.
  destruct (decide (x = 0)%N) as [->|Hx]; [by rewrite !pretty_N_go_0|].
  rewrite (pretty_N_go_step x s), (pretty_N_go_step x (s +:+ r)) by lia. rewrite IH by (apply N.div_lt; lia).
  by rewrite append_cons.
Qed.

Lemma readDigits_go x s : readDigits 0 (pretty_N_go x s) = readDigits (Z.of_N x) s.
Proof.
  revert s. induction (N.lt_wf_0 x) as [x _ IH]; intros s.
  destruct (decide (x = 0)%N) as [->|Hx]; [by rewrite pretty_N_go_0|].
  rewrite pretty_N_go_step, IH by (try apply N.div_lt; lia). cbn [readDigits].
  rewrite digitOf_pretty by (apply N.mod_lt; lia). f_equal.
  pose proof (N.div_mod' x 10). lia.
Qed.

(** A printed number that is not negative is its digits, at least one. *)
Lemma pretty_head (n : N) : ∃ x s, (x < 10)%N ∧ pretty n = String (pretty_N_char x) s.
Proof.
  assert (∀ m s, (∃ x s', (x < 10)%N ∧ s = String (pretty_N_char x) s') →
    ∃ x s', (x < 10)%N ∧ pretty_N_go m s = String (pretty_N_char x) s') as Hgo.
  { intros m. induction (N.lt_wf_0 m) as [m _ IH]; intros s Hs.
    destruct (decide (m = 0)%N) as [->|Hm]; [by rewrite pretty_N_go_0|].
    rewrite pretty_N_go_step by lia. apply IH; [apply N.div_lt; lia|].
    eexists _, _. split; [|done]. apply N.mod_lt. lia. }
  unfold pretty, pretty_N. case_decide as Hn; [by exists 0%N, ""%string|].
  rewrite pretty_N_go_step by lia. apply Hgo. eexists _, _. split; [|done]. apply N.mod_lt. lia.
Qed.

Lemma digits_pretty (n : N) r : stops r → readDigits 0 (pretty n +:+ r) = (Z.of_N n, r).
Proof.
  intros Hr. unfold pretty, pretty_N. case_decide as Hn.
  - subst n. rewrite append_cons. cbn. by apply digits_stops.
  - rewrite pretty_go_app, readDigits_go. by apply digits_stops.
Qed.

(** A number with its sign. *)
Definition scanZ (s : string) : option (Z * string) :=
  match s with
  | "" => None
  | String c s' =>
      if Ascii.eqb c "-"
      then match s' with
           | String d _ => _ ← digitOf d; Some (- (readDigits 0 s').1, (readDigits 0 s').2)
           | "" => None
           end
      else _ ← digitOf c; Some (readDigits 0 s)
  end%string.

Lemma pretty_Z_nonneg z : 0 ≤ z → pretty z = pretty (Z.to_N z).
Proof. intros Hz. by destruct z. Qed.

Lemma pretty_Z_neg z : z < 0 → pretty z = String "-" (pretty (Z.to_N (- z))).
Proof. intros Hz. by destruct z. Qed.

Lemma digit_not_minus x : (x < 10)%N → Ascii.eqb (pretty_N_char x) "-" = false.
Proof.
  intros Hx. assert (x = 0 ∨ x = 1 ∨ x = 2 ∨ x = 3 ∨ x = 4 ∨ x = 5 ∨ x = 6 ∨ x = 7 ∨ x = 8 ∨ x = 9)%N
    as Hc by lia. by destruct_or! Hc; subst x.
Qed.

(** The round trip of a number. *)
Lemma scanZ_pretty z r : stops r → scanZ (pretty z +:+ r) = Some (z, r).
Proof.
  intros Hr. destruct (decide (0 ≤ z)) as [Hz|Hz].
  - rewrite pretty_Z_nonneg by done. pose proof (digits_pretty (Z.to_N z) r Hr) as Hd.
    destruct (pretty_head (Z.to_N z)) as (x & s & Hx & E). rewrite E, append_cons in Hd |- *.
    cbn [scanZ]. rewrite digit_not_minus, digitOf_pretty by done. cbn [mbind option_bind]. rewrite Hd.
    by rewrite Z2N.id.
  - rewrite pretty_Z_neg by lia. rewrite append_cons. cbn [scanZ]. cbn [Ascii.eqb Bool.eqb].
    pose proof (digits_pretty (Z.to_N (- z)) r Hr) as Hd.
    destruct (pretty_head (Z.to_N (- z))) as (x & s & Hx & E). rewrite E, append_cons in Hd |- *.
    rewrite digitOf_pretty by done. cbn [mbind option_bind]. rewrite Hd. cbn [fst snd]. by rewrite Z2N.id, Z.opp_involutive by lia.
Qed.
