(* ===== verification/Gob.v ===== *)
(** * Encoding: what the program uses of [labgob] (code/src/labgob/labgob.go)

    Raft, the key/value servers and the shard controller turn their state
    into bytes with a [labgob] encoder over a [bytes.Buffer] and read it back
    with a decoder.  [labgob] wraps the standard library's [encoding/gob]; the
    clients rely on two documented facts about it, stated here as the laws of
    a class: decoding what was encoded gives the value back, and an encoding
    is never empty (an empty buffer is how the clients recognise "no state
    yet").  Client theorems are proved against the class; [countable_gob]
    shows that the laws can hold for every type the program encodes. *)

From S2P Require Import Prelude.
From Stdlib Require Import Strings.Byte.

Abbreviation bytes := (list Byte.byte).

#[export] Instance byte_eq_dec : EqDecision Byte.byte := Byte.byte_eq_dec.

Class LabGob (A : Type) := {
  gob_encode : A → bytes;
  gob_decode : bytes → option A;
  gob_decode_encode : ∀ x, gob_decode (gob_encode x) = Some x;
  gob_encode_nonempty : ∀ x, gob_encode x ≠ [];
}.

(** ** A concrete codec *)

(** The binary digits of a positive number, most significant last. *)
Fixpoint pos_bytes (p : positive) : bytes :=
  match p with
  | xH => [x01]
  | xO q => x00 :: pos_bytes q
  | xI q => x02 :: pos_bytes q
  end.

Fixpoint bytes_pos (b : bytes) : option positive :=
  match b with
  | [x01] => Some xH
  | x00 :: b' => xO <$> bytes_pos b'
  | x02 :: b' => xI <$> bytes_pos b'
  | _ => None
  end.

Lemma bytes_pos_bytes p : bytes_pos (pos_bytes p) = Some p.
Proof. induction p as [p IH|p IH|]; cbn; [by rewrite IH..|done]. Qed.

Lemma pos_bytes_nonempty p : pos_bytes p ≠ [].
Proof. by destruct p. Qed.

Definition countable_decode `{Countable A} (b : bytes) : option A :=
  p ← bytes_pos b; decode p.

Lemma countable_decode_encode `{Countable A} (x : A) :
  countable_decode (pos_bytes (encode x)) = Some x.
Proof. unfold countable_decode. rewrite bytes_pos_bytes. cbn. apply decode_encode. Qed.

#[export] Instance countable_gob `{Countable A} : LabGob A := {|
  gob_encode x := pos_bytes (encode x);
  gob_decode := countable_decode;
  gob_decode_encode := countable_decode_encode;
  gob_encode_nonempty x := pos_bytes_nonempty (encode x);
|}.
