(* ===== verification/PorcBitset.v ===== *)
(** * Sets of small numbers (code/src/porcupine/bitset.go)

    The checker keeps the set of operations it has linearized as words of 64
    bits.  A [bitset] is a list of words; [set] and [clear] change a word in
    place, which the checker only does to a bitset nobody else holds, so they
    are functions here. *)

From S2P Require Import Prelude.
Open Scope Z_scope.

Abbreviation bitset := (list Z).

Definition newBitset (bits : Z) : bitset :=
  let extra := if decide (bits `mod` 64 ≠ 0) then 1 else 0 in
  replicate (Z.to_nat (bits `div` 64 + extra)) 0.

Definition bitsetIndex (pos : Z) : Z * Z := (pos `div` 64, pos `mod` 64).

Definition set (pos : Z) (b : bitset) : Res bitset :=
  let '(major, minor) := bitsetIndex pos in
  w ← go_index b major; go_store b major (Z.lor w (Z.shiftl 1 minor)).

Definition clear (pos : Z) (b : bitset) : Res bitset :=
  let '(major, minor) := bitsetIndex pos in
  w ← go_index b major; go_store b major (Z.ldiff w (Z.shiftl 1 minor)).

Definition get (pos : Z) (b : bitset) : Res bool :=
  let '(major, minor) := bitsetIndex pos in
  w ← go_index b major; Ok (bool_decide (Z.land w (Z.shiftl 1 minor) ≠ 0)).

(** [bits.OnesCount64]. *)
Definition OnesCount64 (w : Z) : Z := zlen (filter (λ i, Z.testbit w i = true) (seqZ 0 64)).

Definition popcnt (b : bitset) : Z := foldl (λ total v, total + OnesCount64 v) 0 b.

Definition hash (b : bitset) : Z := foldl Z.lxor (popcnt b) b.

Definition equals (b b2 : bitset) : bool :=
  if decide (zlen b ≠ zlen b2) then false
  else forallb (λ p, bool_decide (p.1 = p.2)) (zip b b2).

(** ** The set a bitset stands for *)

(** Bit [i], false outside. *)
Definition bit (b : bitset) (i : Z) : bool := Z.testbit (default 0 (b !! Z.to_nat (i `div` 64))) (i `mod` 64).

Definition word_ok (w : Z) : Prop := 0 ≤ w < 2 ^ 64.

(** [b] stands for the members of [l], all below [n]. *)
Record stands (n : Z) (b : bitset) (l : list Z) : Prop := mkStands {
  st_length : zlen b = (n + 63) `div` 64;
  st_words : Forall word_ok b;
  st_range : Forall (λ i, 0 ≤ i < n) l;
  st_bits : ∀ i, 0 ≤ i → bit b i = bool_decide (i ∈ l);
}.

Lemma equals_true b b2 : equals b b2 = true ↔ b = b2.
Proof.
  unfold equals. case_decide as Hl.
  { split; [done|]. intros ->. done. }
  assert (length b = length b2) as Hlen by lia. clear Hl.
  revert b2 Hlen. induction b as [|w b IH]; intros [|w2 b2] [=]; cbn; [done|].
  rewrite andb_true_iff, bool_decide_eq_true, IH by done. naive_solver.
Qed.

Lemma word_testbit w : 0 ≤ w → word_ok w ↔ ∀ i, 64 ≤ i → Z.testbit w i = false.
Proof.
  intros Hw. unfold word_ok. split.
  - intros [_ Hlt] i Hi. destruct (decide (w = 0)) as [->|Hne]; [apply Z.testbit_0_l|].
    apply Z.bits_above_log2; [done|]. apply Z.log2_lt_pow2; [lia|].
    eapply Z.lt_le_trans; [exact Hlt|]. by apply Z.pow_le_mono_r.
  - intros Hb. split; [done|]. destruct (decide (w = 0)) as [->|Hne]; [lia|].
    apply Z.log2_lt_pow2; [lia|]. apply Z.nle_gt. intros Hl.
    pose proof (Z.bit_log2 w ltac:(lia)) as Ht. rewrite Hb in Ht by done. done.
Qed.

Lemma word_high w i : word_ok w → 64 ≤ i → Z.testbit w i = false.
Proof. intros Hw Hi. pose proof Hw as [H0 _]. by apply word_testbit. Qed.

(** A bitset is determined by its bits. *)
Lemma bits_eq b b2 :
  length b = length b2 → Forall word_ok b → Forall word_ok b2 →
  (∀ i, 0 ≤ i → bit b i = bit b2 i) → b = b2.
Proof.
  intros Hl Hb Hb2 Hbit. apply list_eq_same_length with (n := length b); [done..|].
  intros k w w2 Hk Hw Hw2.
  assert (word_ok w) as Hok by by eapply Forall_lookup_1 in Hb.
  assert (word_ok w2) as Hok2 by by eapply Forall_lookup_1 in Hb2.
  apply Z.bits_inj'. intros j Hj. destruct (decide (64 ≤ j)) as [Hge|Hlt].
  { by rewrite !word_high. }
  specialize (Hbit (64 * Z.of_nat k + j) ltac:(lia)). unfold bit in Hbit.
  replace ((64 * Z.of_nat k + j) `div` 64) with (Z.of_nat k) in Hbit by
    (apply (Z.div_unique _ _ _ j); lia).
  replace ((64 * Z.of_nat k + j) `mod` 64) with j in Hbit by
    (apply (Z.mod_unique _ _ (Z.of_nat k)); lia).
  rewrite Nat2Z.id in Hbit. by rewrite Hw, Hw2 in Hbit.
Qed.

Lemma stands_eq n b b2 l l2 :
  stands n b l → stands n b2 l2 → b = b2 ↔ (∀ i, i ∈ l ↔ i ∈ l2).
Proof.
  intros [L W R B] [L2 W2 R2 B2]. split.
  - intros <- i. destruct (decide (0 ≤ i)) as [Hi|Hi].
    + specialize (B i Hi). rewrite (B2 i Hi) in B.
      destruct (decide (i ∈ l)), (decide (i ∈ l2)); [done|..|done]; exfalso.
      * rewrite bool_decide_eq_false_2, bool_decide_eq_true_2 in B by done. done.
      * rewrite bool_decide_eq_true_2, bool_decide_eq_false_2 in B by done. done.
    + rewrite Forall_forall in R, R2. split; intros Hin; exfalso; [specialize (R i Hin)|specialize (R2 i Hin)]; lia.
  - intros Hll. apply bits_eq; [lia|done..|]. intros i Hi. rewrite B, B2 by done. by apply bool_decide_ext.
Qed.

(** Reading and writing one word. *)
Lemma in_words n b l i : stands n b l → 0 ≤ i < n → 0 ≤ i `div` 64 < zlen b.
Proof.
  intros [-> _ _ _] Hi. split; [by apply Z.div_pos; lia|].
  apply Z.div_lt_upper_bound; [lia|]. pose proof (Z.div_mod (n + 63) 64 ltac:(lia)).
  pose proof (Z.mod_pos_bound (n + 63) 64 ltac:(lia)). lia.
Qed.

Lemma bit_insert b k w i :
  (k < length b)%nat → 0 ≤ i →
  bit (<[k := w]> b) i = if decide (i `div` 64 = Z.of_nat k) then Z.testbit w (i `mod` 64) else bit b i.
Proof.
  intros Hk Hi. unfold bit. pose proof (Z.div_pos i 64 Hi ltac:(lia)). case_decide as Heq.
  - rewrite Heq, Nat2Z.id. by rewrite list_lookup_insert_eq.
  - rewrite list_lookup_insert_ne by lia. done.
Qed.

(** [1 << minor]. *)
Lemma testbit_one k j : 0 ≤ k → 0 ≤ j → Z.testbit (Z.shiftl 1 k) j = bool_decide (j = k).
Proof.
  intros Hk Hj. rewrite Z.shiftl_1_l, Z.pow2_bits_eqb by done.
  case_bool_decide; [by apply Z.eqb_eq|by apply Z.eqb_neq; congruence].
Qed.

Lemma same_place i j : i `div` 64 = j `div` 64 → i `mod` 64 = j `mod` 64 → i = j.
Proof. intros Hd Hm. rewrite (Z.div_mod i 64), (Z.div_mod j 64) by lia. congruence. Qed.

Lemma word_ok_bits w f : word_ok w → 0 ≤ f → (∀ i, 64 ≤ i → Z.testbit f i = false) → word_ok f.
Proof. intros _ Hf Hb. by apply word_testbit. Qed.

(** Both writes: a word replaced by one with bit [pos] changed to [v]. *)
Lemma write_stands n b l l' pos w f :
  stands n b l → 0 ≤ pos < n → b !! Z.to_nat (pos `div` 64) = Some w → 0 ≤ f →
  (∀ j, 0 ≤ j → Z.testbit f j = if decide (j = pos `mod` 64) then bool_decide (pos ∈ l') else Z.testbit w j) →
  Forall (λ i, 0 ≤ i < n) l' → (∀ i, i ≠ pos → i ∈ l' ↔ i ∈ l) →
  stands n (<[Z.to_nat (pos `div` 64) := f]> b) l'.
Proof.
  intros S Hpos Hw Hf Hbits Hr Hl. pose proof (in_words _ _ _ _ S Hpos) as Hin. pose proof S as [L W R B].
  pose proof (Z.mod_pos_bound pos 64 ltac:(lia)) as Hm.
  assert (word_ok w) as Hok by by eapply Forall_lookup_1 in W.
  split; [by rewrite length_insert|..|done|].
  - apply Forall_insert; [done|]. apply word_testbit; [done|]. intros j Hj. rewrite Hbits by lia.
    rewrite decide_False by lia. by apply word_high.
  - intros i Hi. rewrite bit_insert by lia. rewrite Z2Nat.id by lia.
    destruct (decide (i `div` 64 = pos `div` 64)) as [Hd|Hd].
    + rewrite Hbits by (apply Z.mod_pos_bound; lia).
      destruct (decide (i `mod` 64 = pos `mod` 64)) as [Hmod|Hmod].
      * by rewrite (same_place i pos).
      * assert (i ≠ pos) as Hne by congruence. rewrite (bool_decide_ext _ _ (Hl i Hne)), <- B by done.
        unfold bit. rewrite Hd. by rewrite Hw.
    + assert (i ≠ pos) as Hne by congruence. by rewrite (bool_decide_ext _ _ (Hl i Hne)), B.
Qed.

Lemma read_word n b l pos :
  stands n b l → 0 ≤ pos < n → ∃ w, go_index b (pos `div` 64) = Ok w ∧
    b !! Z.to_nat (pos `div` 64) = Some w ∧ word_ok w ∧ Z.testbit w (pos `mod` 64) = bool_decide (pos ∈ l).
Proof.
  intros S Hpos. pose proof (in_words _ _ _ _ S Hpos) as Hin.
  destruct (go_index_in_range b (pos `div` 64) Hin) as (w & Hw & Hl). exists w. split_and!; [done..| |].
  - destruct S as [_ W _ _]. by eapply Forall_lookup_1 in W.
  - rewrite <- (st_bits _ _ _ S) by lia. unfold bit. by rewrite Hl.
Qed.

Lemma set_stands n b l pos :
  stands n b l → 0 ≤ pos < n → ∃ b', set pos b = Ok b' ∧ stands n b' (pos :: l).
Proof.
  intros S Hpos. pose proof (in_words _ _ _ _ S Hpos) as Hin. pose proof (Z.mod_pos_bound pos 64 ltac:(lia)) as Hm.
  destruct (read_word _ _ _ _ S Hpos) as (w & Hw & Hl & [Hw0 _] & _).
  unfold set, bitsetIndex. rewrite Hw. cbn [mbind Res_bind]. eexists. split; [by apply go_store_Ok|].
  eapply write_stands; [exact S|done|exact Hl|..].
  - apply Z.lor_nonneg. split; [done|]. by apply Z.shiftl_nonneg.
  - intros j Hj. rewrite Z.lor_spec, testbit_one by lia.
    destruct (decide (j = pos `mod` 64)) as [Hj'|Hj'].
    + rewrite bool_decide_eq_true_2, orb_true_r by done. symmetry. apply bool_decide_eq_true_2. left.
    + by rewrite bool_decide_eq_false_2, orb_false_r.
  - constructor; [done|apply S].
  - intros i Hi. rewrite elem_of_cons. naive_solver.
Qed.

Lemma clear_stands n b l pos :
  stands n b (pos :: l) → pos ∉ l → ∃ b', clear pos b = Ok b' ∧ stands n b' l.
Proof.
  intros S Hn. pose proof (st_range _ _ _ S) as [Hpos Hr]%Forall_cons.
  pose proof (in_words _ _ _ _ S Hpos) as Hin. pose proof (Z.mod_pos_bound pos 64 ltac:(lia)) as Hm.
  destruct (read_word _ _ _ _ S Hpos) as (w & Hw & Hl & [Hw0 _] & _).
  unfold clear, bitsetIndex. rewrite Hw. cbn [mbind Res_bind]. eexists. split; [by apply go_store_Ok|].
  eapply write_stands; [exact S|done|exact Hl|..].
  - apply Z.ldiff_nonneg. by left.
  - intros j Hj. rewrite Z.ldiff_spec, testbit_one by lia.
    destruct (decide (j = pos `mod` 64)) as [Hj'|Hj'].
    + rewrite bool_decide_eq_true_2, andb_false_r by done. symmetry. by apply bool_decide_eq_false_2.
    + by rewrite bool_decide_eq_false_2, andb_true_r.
  - done.
  - intros i Hi. rewrite elem_of_cons. naive_solver.
Qed.

(** Only the members matter. *)
Lemma stands_ext n b l l' : stands n b l → (∀ i, i ∈ l' ↔ i ∈ l) → stands n b l'.
Proof.
  intros [L W R B] Hl. split; [done|done|..].
  - rewrite Forall_forall in *. intros i Hi. by apply R, Hl.
  - intros i Hi. rewrite B by done. by apply bool_decide_ext.
Qed.

Lemma newBitset_stands n : 0 ≤ n → stands n (newBitset n) [].
Proof.
  intros Hn. unfold newBitset. set (k := Z.to_nat _). split.
  - rewrite length_replicate. unfold k. pose proof (Z.div_mod n 64 ltac:(lia)) as E.
    pose proof (Z.mod_pos_bound n 64 ltac:(lia)). pose proof (Z.div_pos n 64 Hn ltac:(lia)).
    rewrite Z2Nat.id by (case_decide; lia). case_decide as Hm.
    + apply (Z.div_unique _ _ _ (n `mod` 64 - 1)); lia.
    + apply (Z.div_unique _ _ _ 63); lia.
  - apply Forall_replicate. done.
  - constructor.
  - intros i Hi. unfold bit. symmetry. rewrite bool_decide_eq_false_2 by (apply not_elem_of_nil).
    destruct (decide (Z.to_nat (i `div` 64) < k)%nat) as [Hlt|Hge].
    + rewrite lookup_replicate_2 by done. by rewrite Z.testbit_0_l.
    + rewrite lookup_ge_None_2 by (rewrite length_replicate; lia). by rewrite Z.testbit_0_l.
Qed.
