(* ===== verification/Porcupine.v ===== *)
(** * The linearizability checker (code/src/porcupine)

    The tests of the services record what their clients see -- operations with
    the times of call and return -- and ask porcupine whether the history is
    linearizable: whether the operations can be put in an order that respects
    time and that a sequential [Model] accepts (model.go, checker.go,
    porcupine.go).  [checkSingle] searches for such an order, depth first, over
    a doubly linked list of calls and returns from which it unlinks the
    operations it has placed ([lift]) and puts them back ([unlift]).

    Pointers to nodes are places in a [Heap]; a [nil] dereference is a panic.
    The search runs with binary fuel [searchFuel], which is always enough
    ([PorcSearch.search_decides]).  [kill], set by another goroutine, is what
    each iteration of the loop reads.  [checkParallel] takes the order in which
    the searches of the partitions answer; one whose answer is not received
    before [kill] is set can see it at any iteration.  States are compared by
    decidable equality where Go compares interfaces.  The functions that
    describe operations and states are not part of [Model] ([PorcVisual] has
    them as parameters). *)

From S2P Require Import Prelude PorcBitset.
Open Scope Z_scope.

(** ** model.go *)

Record Operation (In Out : Type) := mkOperation {
  O_ClientId : Z;
  Input : In;
  Call : Z;
  Output : Out;
  Return : Z;
}.
Arguments mkOperation {In Out}.
Arguments O_ClientId {In Out}.
Arguments Input {In Out}.
Arguments Call {In Out}.
Arguments Output {In Out}.
Arguments Return {In Out}.

Inductive EventKind := CallEvent | ReturnEvent.

(** A value, [interface{}] in Go, is an input or an output. *)
Record Event (In Out : Type) := mkEvent {
  E_ClientId : Z;
  E_Kind : EventKind;
  E_Value : In + Out;
  E_Id : Z;
}.
Arguments mkEvent {In Out}.
Arguments E_ClientId {In Out}.
Arguments E_Kind {In Out}.
Arguments E_Value {In Out}.
Arguments E_Id {In Out}.

(** [None] is a [nil] function. *)
Record Model (In Out State : Type) := mkModel {
  Partition : option (list (Operation In Out) → list (list (Operation In Out)));
  PartitionEvent : option (list (Event In Out) → list (list (Event In Out)));
  Init : State;
  Step : State → In → Out → bool * State;
  Equal : option (State → State → bool);
}.
Arguments mkModel {In Out State}.
Arguments Partition {In Out State}.
Arguments PartitionEvent {In Out State}.
Arguments Init {In Out State}.
Arguments Step {In Out State}.
Arguments Equal {In Out State}.

Definition NoPartition {In Out} (history : list (Operation In Out)) := [history].
Definition NoPartitionEvent {In Out} (history : list (Event In Out)) := [history].
Definition ShallowEqual {State} `{EqDecision State} (s1 s2 : State) : bool := bool_decide (s1 = s2).

Inductive CheckResult := Unknown | Legal | Illegal.

(** ** checker.go: entries *)

Inductive entryKind := callEntry | returnEntry.

#[export] Instance entryKind_eq_dec : EqDecision entryKind.
Proof. solve_decision. Defined.

Record entry (In Out : Type) := mkEntry {
  kind : entryKind;
  value : In + Out;
  id : Z;
  time : Z;
  clientId : Z;
}.
Arguments mkEntry {In Out}.
Arguments kind {In Out}.
Arguments value {In Out}.
Arguments id {In Out}.
Arguments time {In Out}.
Arguments clientId {In Out}.

Definition time_le {In Out} (a b : entry In Out) : Prop := time a ≤ time b.

#[export] Instance time_le_dec {In Out} (a b : entry In Out) : Decision (time_le a b).
Proof. unfold time_le. apply _. Defined.
#[export] Instance time_le_trans {In Out} : Transitive (@time_le In Out).
Proof. intros a b c. unfold time_le. lia. Qed.
#[export] Instance time_le_total {In Out} : Total (@time_le In Out).
Proof. intros a b. unfold time_le. lia. Qed.

(** [sort.Sort(byTime(entries))]: entries of the same time come in any order. *)
Class SortByTime (In Out : Type) := {
  sort_by_time : list (entry In Out) → list (entry In Out);
  sort_by_time_perm : ∀ l, sort_by_time l ≡ₚ l;
  sort_by_time_sorted : ∀ l, StronglySorted time_le (sort_by_time l);
}.

#[export] Instance merge_sort_by_time {In Out} : SortByTime In Out := {|
  sort_by_time := merge_sort time_le;
  sort_by_time_perm := merge_sort_Permutation time_le;
  sort_by_time_sorted := StronglySorted_merge_sort time_le;
|}.

Section checker.
Context {In Out State : Type} `{!SortByTime In Out}.
Local Abbreviation Op := (Operation In Out).
Local Abbreviation E := (entry In Out).
Implicit Types (m : Model In Out State).

(** The entries of the operations of [history], numbered from [i]. *)
Fixpoint entriesFrom (i : Z) (history : list Op) : list E :=
  match history with
  | [] => []
  | elem :: history =>
      mkEntry callEntry (inl (Input elem)) i (Call elem) (O_ClientId elem) ::
      mkEntry returnEntry (inr (Output elem)) i (Return elem) (O_ClientId elem) ::
      entriesFrom (i + 1) history
  end.

Definition makeEntries (history : list Op) : list E := sort_by_time (entriesFrom 0 history).

(** Events with ids from 0 on, in the order in which they appear first. *)
Definition renumber (events : list (Event In Out)) : list (Event In Out) :=
  (foldl (λ '(e, m, i) v,
     match (m : gmap Z Z) !! E_Id v with
     | Some r => (e ++ [mkEvent (E_ClientId v) (E_Kind v) (E_Value v) r], m, i)
     | None => (e ++ [mkEvent (E_ClientId v) (E_Kind v) (E_Value v) i], <[E_Id v := i]> m, i + 1)
     end) ([], ∅, 0) events).1.1.

(** The index of an event is its time. *)
Definition convertEntries (events : list (Event In Out)) : list E :=
  imap (λ i elem,
    mkEntry (match E_Kind elem with CallEvent => callEntry | ReturnEvent => returnEntry end)
      (E_Value elem) (E_Id elem) (Z.of_nat i) (E_ClientId elem)) events.
End checker.

(** ** The linked list *)

Record node (In Out : Type) := mkNode {
  nvalue : option (In + Out);
  nmatch : option nat;
  nid : Z;
  next : option nat;
  prev : option nat;
}.
Arguments mkNode {In Out}.
Arguments nvalue {In Out}.
Arguments nmatch {In Out}.
Arguments nid {In Out}.
Arguments next {In Out}.
Arguments prev {In Out}.
#[export] Instance node_eta {In Out} : Settable (node In Out) := λ n,
  mkNode (nvalue n) (nmatch n) (nid n) (next n) (prev n).
#[export] Instance set_next {In Out} : Setter (@next In Out) := ltac:(derive_setter).
#[export] Instance set_prev {In Out} : Setter (@prev In Out) := ltac:(derive_setter).

Abbreviation Heap In Out := (list (node In Out)).

Section linked.
Context {In Out : Type}.
Implicit Types (h : Heap In Out) (p n mark : option nat).

Definition nil {A} : Res A := Panic "nil pointer dereference".

Definition load p h : Res (node In Out) :=
  match p with
  | Some a => match h !! a with Some nd => Ok nd | None => nil end
  | None => nil
  end.

(** [p.next = n] and [p.prev = n]. *)
Definition setNext p n h : Res (Heap In Out) :=
  match p with Some a => Ok (alter (λ nd, nd <| next := n |>) a h) | None => nil end.
Definition setPrev p n h : Res (Heap In Out) :=
  match p with Some a => Ok (alter (λ nd, nd <| prev := n |>) a h) | None => nil end.

(** [p.prev = n] unless [p] is nil. *)
Definition setPrevIf p n h : Res (Heap In Out) :=
  match p with Some _ => setPrev p n h | None => Ok h end.

Definition insertBefore (n : nat) mark h : Res (Heap In Out) :=
  match mark with
  | None => Ok h
  | Some _ =>
      mk ← load mark h;
      let beforeMark := prev mk in
      h ← setPrev mark (Some n) h;
      h ← setNext (Some n) mark h;
      match beforeMark with
      | None => Ok h
      | Some _ => h ← setPrev (Some n) beforeMark h; setNext beforeMark (Some n) h
      end
  end.

(** The number of nodes from [n] on; the list is not longer than the heap. *)
Fixpoint lengthFrom (fuel : nat) n h : Res Z :=
  match n with
  | None => Ok 0
  | Some _ =>
      match fuel with
      | O => Panic "circular list"
      | S fuel => nd ← load n h; l ← lengthFrom fuel (next nd) h; Ok (l + 1)
      end
  end.

Definition length_ n h : Res Z := lengthFrom (length h) n h.

(** One entry in front of the list: the heap, the root and [match]. *)
Definition linkEntry (elem : entry In Out) (st : Heap In Out * option nat * gmap Z nat)
    : Res (Heap In Out * option nat * gmap Z nat) :=
  let '(h, root, mtch) := st in
  let a := length h in
  match kind elem with
  | returnEntry =>
      h ← insertBefore a root (h ++ [mkNode (Some (value elem)) None (id elem) None None]);
      Ok (h, Some a, <[id elem := a]> mtch)
  | callEntry =>
      h ← insertBefore a root (h ++ [mkNode (Some (value elem)) (mtch !! id elem) (id elem) None None]);
      Ok (h, Some a, mtch)
  end.

(** From the last entry to the first. *)
Definition makeLinkedEntries (entries : list (entry In Out)) : Res (Heap In Out * option nat) :=
  '(h, root, _) ← foldr (λ elem r, st ← r; linkEntry elem st) (Ok ([], None, ∅)) entries;
  Ok (h, root).

Definition lift (e : nat) h : Res (Heap In Out) :=
  nd ← load (Some e) h; h ← setNext (prev nd) (next nd) h;
  nd ← load (Some e) h; h ← setPrev (next nd) (prev nd) h;
  nd ← load (Some e) h; let mtch := nmatch nd in
  mt ← load mtch h; h ← setNext (prev mt) (next mt) h;
  mt ← load mtch h; setPrevIf (next mt) (prev mt) h.

Definition unlift (e : nat) h : Res (Heap In Out) :=
  nd ← load (Some e) h; let mtch := nmatch nd in
  mt ← load mtch h; h ← setNext (prev mt) mtch h;
  mt ← load mtch h; h ← setPrevIf (next mt) mtch h;
  nd ← load (Some e) h; h ← setNext (prev nd) (Some e) h;
  nd ← load (Some e) h; setPrev (next nd) (Some e) h.
End linked.

(** ** The search *)

Record cacheEntry (State : Type) := mkCacheEntry { c_linearized : bitset; c_state : State }.
Arguments mkCacheEntry {State}.
Arguments c_linearized {State}.
Arguments c_state {State}.

(** A pointer to a sequence of ids: [longest] shares and compares them. *)
Abbreviation seqPtr := (nat * list Z)%type.

Record Search (In Out State : Type) := mkSearch {
  heap : Heap In Out;
  cursor : option nat;
  linearized : bitset;
  cache : gmap Z (list (cacheEntry State));
  calls : list (nat * State);
  state : State;
  longest : list (option seqPtr);
  (** iterations so far *)
  tick : nat;
}.
Arguments mkSearch {In Out State}.
Arguments heap {In Out State}.
Arguments cursor {In Out State}.
Arguments linearized {In Out State}.
Arguments cache {In Out State}.
Arguments calls {In Out State}.
Arguments state {In Out State}.
Arguments longest {In Out State}.
Arguments tick {In Out State}.

(** Runs [f] at most [p] times, until it gives a result. *)
Fixpoint iterate {A B} (f : A → A + B) (p : positive) (s : A + B) : A + B :=
  match s with
  | inr _ => s
  | inl a =>
      match p with
      | xH => f a
      | xO p => iterate f p (iterate f p s)
      | xI p => iterate f p (iterate f p (f a))
      end
  end.

Section search.
Context {In Out State : Type}.
Local Abbreviation M := (Model In Out State).
Local Abbreviation S_ := (Search In Out State).
Local Abbreviation Result := (Res (bool * list (option seqPtr))).
Implicit Types (s : S_).

Definition cacheContains (equal : State → State → bool) (c : gmap Z (list (cacheEntry State)))
    (e : cacheEntry State) : bool :=
  existsb (λ elem, equals (c_linearized e) (c_linearized elem) && equal (c_state e) (c_state elem))
    (default [] (c !! hash (c_linearized e))).

(** The ids of the calls on the stack. *)
Definition callIds (cs : list (nat * State)) (h : Heap In Out) : Res (list Z) :=
  go_for (λ l c, nd ← load (Some c.1) h; Ok (l ++ [nid nd])) [] cs.

(** [longest] for every call on the stack, where this one is longer. *)
Definition recordLongest (fresh : nat) (cs : list (nat * State)) (h : Heap In Out)
    (l : list (option seqPtr)) : Res (list (option seqPtr)) :=
  seq ← callIds cs h;
  go_for (λ l i,
    cur ← go_index l i;
    if match cur with None => true | Some p => bool_decide ((length p.2 < length cs)%nat) end
    then go_store l i (Some (fresh, seq)) else Ok l) l seq.

(** [model.Step] on the values of a call and of its return. *)
Definition stepNode (m : M) (st : State) (call ret : node In Out) : Res (bool * State) :=
  match nvalue call, nvalue ret with
  | Some (inl i), Some (inr o) => Ok (Step m st i o)
  | _, _ => Panic "interface conversion"
  end.

(** The entry is a call: place it next, or go on to the next entry. *)
Definition tryCall (m : M) (equal : State → State → bool) (hd e : nat) (nd : node In Out) s : Res S_ :=
  mt ← load (nmatch nd) (heap s);
  '(ok, newState) ← stepNode m (state s) nd mt;
  if ok : bool then
    newLinearized ← set (nid nd) (linearized s);
    let newCacheEntry := mkCacheEntry newLinearized newState in
    if cacheContains equal (cache s) newCacheEntry
    then Ok (mkSearch (heap s) (next nd) (linearized s) (cache s) (calls s) (state s) (longest s) (S (tick s)))
    else
      let key := hash newLinearized in
      let cache' := <[key := default [] (cache s !! key) ++ [newCacheEntry]]> (cache s) in
      lin ← set (nid nd) (linearized s);
      h ← lift e (heap s);
      hn ← load (Some hd) h;
      Ok (mkSearch h (next hn) lin cache' (calls s ++ [(e, state s)]) newState (longest s) (S (tick s)))
  else Ok (mkSearch (heap s) (next nd) (linearized s) (cache s) (calls s) (state s) (longest s) (S (tick s))).

(** The entry is a return: take the last call back and go on behind it. *)
Definition backtrack (computePartial : bool) s : Res (S_ + bool * list (option seqPtr)) :=
  match last (calls s) with
  | None => Ok (inr (false, longest s))
  | Some (e, st) =>
      longest' ← (if computePartial then recordLongest (S (tick s)) (calls s) (heap s) (longest s)
                  else Ok (longest s));
      nd ← load (Some e) (heap s);
      lin ← clear (nid nd) (linearized s);
      h ← unlift e (heap s);
      nd ← load (Some e) h;
      Ok (inl (mkSearch h (next nd) lin (cache s) (take (length (calls s) - 1) (calls s)) st longest' (S (tick s))))
  end.

(** One iteration of the loop; [hd] is [headEntry]. *)
Definition iteration (m : M) (equal : State → State → bool) (computePartial : bool) (kill : nat → bool)
    (n : Z) (hd : nat) s : Res (S_ + bool * list (option seqPtr)) :=
  hn ← load (Some hd) (heap s);
  match next hn with
  | None =>
      seq ← callIds (calls s) (heap s);
      Ok (inr (true, replicate (Z.to_nat n) (Some (0%nat, seq))))
  | Some _ =>
      if kill (tick s) then Ok (inr (false, longest s))
      else
        nd ← load (cursor s) (heap s);
        match cursor s, nmatch nd with
        | Some e, Some _ => s ← tryCall m equal hd e nd s; Ok (inl s)
        | _, _ => backtrack computePartial s
        end
  end.

Definition iterationF m equal computePartial kill n hd s : S_ + Result :=
  match iteration m equal computePartial kill n hd s with
  | Ok (inl s) => inl s
  | Ok (inr r) => inr (Ok r)
  | Fatal why => inr (Fatal why)
  | Panic why => inr (Panic why)
  end.

(** More iterations than the search of [n] operations can take. *)
Definition searchFuel (n : Z) : positive := Z.to_pos ((2 * n + 2) ^ (n + 2)).

Definition checkSingle (m : M) (equal : State → State → bool) (history : list (entry In Out))
    (computePartial : bool) (kill : nat → bool) : Result :=
  '(h, root) ← makeLinkedEntries history;
  l ← length_ root h;
  let n := l `quot` 2 in
  let hd := length h in
  h ← insertBefore hd root (h ++ [mkNode None None (-1) None None]);
  match iterate (iterationF m equal computePartial kill n hd) (searchFuel n)
          (inl (mkSearch h root (newBitset n) ∅ [] (Init m) (replicate (Z.to_nat n) None) 0)) with
  | inl _ => Panic "search not finished"
  | inr r => r
  end.
End search.

(** ** Partitions in parallel *)

(** What [select] receives: the result of the search of a partition, or the
    timer.  The order in which they come is the schedule's. *)
Inductive Received := FromSearch (i : nat) | FromTimer.

Record linearizationInfo (In Out : Type) := mkLinearizationInfo {
  history : list (list (entry In Out));
  partialLinearizations : list (list (list Z));
}.
Arguments mkLinearizationInfo {In Out}.
Arguments history {In Out}.
Arguments partialLinearizations {In Out}.

Section parallel.
Context {In Out State : Type} `{!SortByTime In Out, !EqDecision State}.
Local Abbreviation M := (Model In Out State).
Local Abbreviation Info := (linearizationInfo In Out).

Definition fillDefault (m : M) : M :=
  mkModel (Some (default NoPartition (Partition m))) (Some (default NoPartitionEvent (PartitionEvent m)))
    (Init m) (Step m) (Some (default ShallowEqual (Equal m))).

Definition equalOf (m : M) (st st' : State) : bool := default ShallowEqual (Equal m) st st'.

(** The arrivals in the order of the schedule, and the [kill] the goroutines
    see after it is set. *)
Context (arrivals : list Received) (kill : nat → nat → bool).

(** The goroutine of partition [i]; [never] while [kill] is not set. *)
Definition never (_ : nat) : bool := false.

Definition searchOf (m : M) (hs : list (list (entry In Out))) (computeInfo : bool) (i : nat) (k : nat → bool) :
    Res (bool * list (option seqPtr)) :=
  subhistory ← go_index hs (Z.of_nat i); checkSingle m (equalOf m) subhistory computeInfo k.

(** [None]: the loop waits for ever.  The indexes are the searches received. *)
Fixpoint receive (m : M) (hs : list (list (entry In Out))) (computeInfo : bool) (timeout : Z)
    (arr : list Received) (got : list nat) (ok : bool) : Res (option (bool * bool * list nat)) :=
  match arr with
  | [] => Ok None
  | FromSearch i :: arr =>
      '(result, _) ← searchOf m hs computeInfo i never;
      let got := got ++ [i] in
      let ok := ok && result in
      if negb ok && negb computeInfo then Ok (Some (ok, false, got))
      else if zlen hs <=? zlen got then Ok (Some (ok, false, got))
      else receive m hs computeInfo timeout arr got ok
  | FromTimer :: arr =>
      if 0 <? timeout then Ok (Some (ok, true, got))
      else receive m hs computeInfo timeout arr got ok
  end.

(** The different sequences of [longest], in the order of the map. *)
Definition partials (l : list (option seqPtr)) : list (list Z) :=
  let set := foldl (λ set v, match v with Some (p, xs) => <[p := xs]> set | None => set end) (∅ : gmap nat (list Z)) l in
  (map_to_list set).*2.

Definition collectInfo (m : M) (hs : list (list (entry In Out))) (got : list nat) : Res Info :=
  ps ← go_for (λ ps i,
    '(_, longest) ← searchOf m hs true i (if decide (i ∈ got) then never else kill i);
    Ok (ps ++ [partials longest])) [] (seq 0 (length hs));
  Ok (mkLinearizationInfo hs ps).

(** [None]: the call does not return. *)
Definition checkParallel (m : M) (hs : list (list (entry In Out))) (computeInfo : bool) (timeout : Z) :
    Res (option (CheckResult * Info)) :=
  r ← receive m hs computeInfo timeout arrivals [] true;
  match r with
  | None => Ok None
  | Some (ok, timedOut, got) =>
      info ← (if computeInfo then collectInfo m hs got else Ok (mkLinearizationInfo [] []));
      let result := if negb ok then Illegal else if timedOut : bool then Unknown else Legal in
      Ok (Some (result, info))
  end.

Definition checkEvents (m : M) (h : list (Event In Out)) (verbose : bool) (timeout : Z) :
    Res (option (CheckResult * Info)) :=
  let m := fillDefault m in
  match PartitionEvent m with
  | None => nil
  | Some partition => checkParallel m ((λ sub, convertEntries (renumber sub)) <$> partition h) verbose timeout
  end.

Definition checkOperations (m : M) (h : list (Operation In Out)) (verbose : bool) (timeout : Z) :
    Res (option (CheckResult * Info)) :=
  let m := fillDefault m in
  match Partition m with
  | None => nil
  | Some partition => checkParallel m (makeEntries <$> partition h) verbose timeout
  end.

(** ** porcupine.go *)

#[export] Instance CheckResult_eq_dec : EqDecision CheckResult.
Proof. solve_decision. Defined.

Definition resultOf (r : option (CheckResult * Info)) : option CheckResult := fst <$> r.
Definition isOk (r : option (CheckResult * Info)) : option bool := (λ p, bool_decide (p.1 = Legal)) <$> r.

Definition CheckOperations (m : M) (h : list (Operation In Out)) : Res (option bool) :=
  r ← checkOperations m h false 0; Ok (isOk r).
Definition CheckOperationsTimeout (m : M) (h : list (Operation In Out)) (timeout : Z) : Res (option CheckResult) :=
  r ← checkOperations m h false timeout; Ok (resultOf r).
Definition CheckOperationsVerbose (m : M) (h : list (Operation In Out)) (timeout : Z) :
    Res (option (CheckResult * Info)) :=
  checkOperations m h true timeout.

Definition CheckEvents (m : M) (h : list (Event In Out)) : Res (option bool) :=
  r ← checkEvents m h false 0; Ok (isOk r).
Definition CheckEventsTimeout (m : M) (h : list (Event In Out)) (timeout : Z) : Res (option CheckResult) :=
  r ← checkEvents m h false timeout; Ok (resultOf r).
Definition CheckEventsVerbose (m : M) (h : list (Event In Out)) (timeout : Z) : Res (option (CheckResult * Info)) :=
  checkEvents m h true timeout.
End parallel.
