(* ===== verification/PorcList.v ===== *)
(** * The checker's linked list

    [linked h l]: the nodes of [l] are a doubly linked list in [h].  [lift]
    takes a call and its return out of the list and leaves their own pointers
    alone, so [unlift] finds its way back: it restores the very heap from
    before ([lift_ok]).  [makeLinkedEntries] builds the list of the entries
    with every call pointing to its return ([makeLinkedEntries_ok]). *)

From S2P Require Import Prelude PorcBitset Porcupine.
Open Scope Z_scope.

Section linked_proofs.
Context {In Out : Type}.
Implicit Types (h : Heap In Out) (nd : node In Out).

Definition linked h (l : list nat) : Prop :=
  ∀ X p Y, l = X ++ p :: Y → ∃ nd, h !! p = Some nd ∧ next nd = head Y ∧ prev nd = last X.

(** What does not change: values, matches and ids. *)
Definition sig h : list (option (In + Out) * option nat * Z) := map (λ nd, (nvalue nd, nmatch nd, nid nd)) h.

Lemma sig_alter_next h p n : sig (alter (λ nd, nd <| next := n |>) p h) = sig h.
Proof. unfold sig. revert p. induction h as [|nd h IH]; intros [|p]; cbn; [done..|]. f_equal. apply IH. Qed.

Lemma sig_alter_prev h p n : sig (alter (λ nd, nd <| prev := n |>) p h) = sig h.
Proof. unfold sig. revert p. induction h as [|nd h IH]; intros [|p]; cbn; [done..|]. f_equal. apply IH. Qed.

Lemma sig_length h h' : sig h' = sig h → length h' = length h.
Proof. intros H. apply (f_equal length) in H. unfold sig in H. by rewrite !length_map in H. Qed.

Lemma sig_lookup h h' p nd :
  sig h' = sig h → h !! p = Some nd →
  ∃ nd', h' !! p = Some nd' ∧ nvalue nd' = nvalue nd ∧ nmatch nd' = nmatch nd ∧ nid nd' = nid nd.
Proof.
  intros H Hp. assert (sig h !! p = Some (nvalue nd, nmatch nd, nid nd)) as Hs.
  { unfold sig. by rewrite list_lookup_fmap, Hp. }
  rewrite <- H in Hs. unfold sig in Hs. apply list_lookup_fmap_Some in Hs as (nd' & Heq & Hnd').
  injection Heq as -> -> ->. eauto.
Qed.

Lemma linked_node h l p : linked h l → p ∈ l → ∃ nd, h !! p = Some nd.
Proof. intros Hl (X & Y & ->)%list_elem_of_split. destruct (Hl X p Y eq_refl) as (nd & ? & _). eauto. Qed.

Lemma NoDup_without {A} (X Y : list A) a c : NoDup (X ++ a :: c :: Y) → NoDup (X ++ a :: Y).
Proof.
  intros H. replace (X ++ a :: c :: Y) with ((X ++ [a]) ++ c :: Y) in H by (by rewrite <- app_assoc).
  rewrite <- Permutation_middle, <- app_assoc in H. by apply NoDup_cons in H as [_ H].
Qed.

(** ** One node *)

Definition unlink (c : nat) h : Res (Heap In Out) :=
  nd ← load (Some c) h; h ← setNext (prev nd) (next nd) h;
  nd ← load (Some c) h; setPrevIf (next nd) (prev nd) h.

Definition relink (c : nat) h : Res (Heap In Out) :=
  nd ← load (Some c) h; h ← setNext (prev nd) (Some c) h;
  nd ← load (Some c) h; setPrevIf (next nd) (Some c) h.

Lemma split_unique {A} (X X' Y Y' : list A) p :
  NoDup (X ++ p :: Y) → X ++ p :: Y = X' ++ p :: Y' → X = X' ∧ Y = Y'.
Proof.
  revert X'. induction X as [|x X IH]; intros [|x' X'] Hnd Heq; cbn in *; simplify_eq; [done|..].
  - apply NoDup_cons in Hnd as [Hn _]. exfalso. apply Hn, elem_of_app. right. left.
  - apply NoDup_cons in Hnd as [Hn _]. exfalso. apply Hn, elem_of_app. right. left.
  - apply NoDup_cons in Hnd as [_ Hnd]. by destruct (IH X' Hnd) as [-> ->].
Qed.

(** The neighbours' pointers before and after. *)
Lemma unlink_eq h A a c B :
  NoDup (A ++ a :: c :: B) → linked h (A ++ a :: c :: B) →
  unlink c h = Ok (let h1 := alter (λ nd, nd <| next := head B |>) a h in
                   match head B with
                   | Some b => alter (λ nd, nd <| prev := Some a |>) b h1
                   | None => h1
                   end).
Proof.
  intros Hnd Hl. destruct (Hl (A ++ [a]) c B) as (nd & Hc & Hn & Hp); [by rewrite <- app_assoc|].
  rewrite last_snoc in Hp. unfold unlink, load. rewrite Hc. cbn [mbind Res_bind]. rewrite Hn, Hp. cbn [setNext mbind Res_bind].
  assert (a ≠ c) as Hac by (apply NoDup_app in Hnd as (_ & _ & Hnd); apply NoDup_cons in Hnd as [Hnd _]; set_solver).
  rewrite list_lookup_alter_ne by done. rewrite Hc. cbn [mbind Res_bind]. rewrite Hn, Hp.
  unfold setPrevIf, setPrev. by destruct (head B).
Qed.

Lemma relink_unlink_eq h A a c B :
  NoDup (A ++ a :: c :: B) → linked h (A ++ a :: c :: B) →
  let h1 := alter (λ nd, nd <| next := head B |>) a h in
  let h2 := match head B with Some b => alter (λ nd, nd <| prev := Some a |>) b h1 | None => h1 end in
  h2 !! c = h !! c ∧ relink c h2 = Ok h.
Proof.
  intros Hnd Hl h1 h2.
  destruct (Hl (A ++ [a]) c B) as (nd & Hc & Hn & Hp); [by rewrite <- app_assoc|]. rewrite last_snoc in Hp.
  destruct (Hl A a (c :: B) eq_refl) as (na & Ha & Han & Hap). cbn [head] in Han.
  apply NoDup_app in Hnd as (_ & _ & Hnd). apply NoDup_cons in Hnd as [Hna Hnd]. apply NoDup_cons in Hnd as [Hnc _].
  assert (a ≠ c) as Hac by set_solver.
  destruct B as [|b B]; cbn [head] in *; subst h1 h2; cbn zeta.
  - split; [by rewrite list_lookup_alter_ne|].
    unfold relink, load. rewrite list_lookup_alter_ne, Hc by done. cbn [mbind Res_bind]. rewrite Hp. cbn [setNext mbind Res_bind].
    rewrite !list_lookup_alter_ne, Hc by done. cbn [mbind Res_bind]. rewrite Hn. cbn [setPrevIf]. f_equal.
    apply list_eq. intros k. destruct (decide (k = a)) as [->|Hka]; [|by rewrite !list_lookup_alter_ne].
    rewrite !list_lookup_alter_eq, Ha. cbn. f_equal. by destruct na; cbn in *; subst.
  - assert (b ≠ c ∧ a ≠ b) as [Hbc Hab] by set_solver.
    destruct (Hl (A ++ [a; c]) b B) as (nb & Hb & Hbn & Hbp); [by rewrite <- app_assoc|].
    replace (A ++ [a; c]) with ((A ++ [a]) ++ [c]) in Hbp by (by rewrite <- app_assoc). rewrite last_snoc in Hbp.
    split; [by rewrite !list_lookup_alter_ne|].
    unfold relink, load. rewrite !list_lookup_alter_ne, Hc by done. cbn [mbind Res_bind]. rewrite Hp. cbn [setNext mbind Res_bind].
    rewrite !list_lookup_alter_ne, Hc by done. cbn [mbind Res_bind]. rewrite Hn. cbn [setPrevIf setPrev]. f_equal.
    apply list_eq. intros k.
    destruct (decide (k = b)) as [->|Hkb]; [|destruct (decide (k = a)) as [->|Hka]].
    + rewrite list_lookup_alter_eq, list_lookup_alter_ne, list_lookup_alter_eq, list_lookup_alter_ne, Hb by done.
      cbn. f_equal. by destruct nb; cbn in *; subst.
    + rewrite list_lookup_alter_ne, list_lookup_alter_eq, list_lookup_alter_ne, list_lookup_alter_eq, Ha by done.
      cbn. f_equal. by destruct na; cbn in *; subst.
    + by rewrite !list_lookup_alter_ne by done.
Qed.

(** A node of what is left. *)
Lemma split_without {A} (X0 B X Y : list A) (c p : A) :
  X0 ++ B = X ++ p :: Y →
  (∃ Z, X0 = X ++ p :: Z ∧ Y = Z ++ B) ∨ (∃ Z, B = Z ++ p :: Y ∧ X = X0 ++ Z).
Proof.
  intros [(k & -> & Hk)|(k & -> & ->)]%app_eq_inv.
  - destruct k as [|q k]; cbn in Hk; [right; exists []; by rewrite !app_nil_r|].
    injection Hk as -> ->. left. eauto.
  - right. eauto.
Qed.

Lemma unlink_linked h A a c B :
  NoDup (A ++ a :: c :: B) → linked h (A ++ a :: c :: B) →
  let h1 := alter (λ nd, nd <| next := head B |>) a h in
  let h2 := match head B with Some b => alter (λ nd, nd <| prev := Some a |>) b h1 | None => h1 end in
  linked h2 (A ++ a :: B).
Proof.
  intros Hnd Hl h1 h2 X p Y Heq.
  assert (∀ q, h2 !! q = (λ nd, nd <| next := if decide (q = a) then head B else next nd |>
      <| prev := if decide (head B = Some q) then Some a else prev nd |>) <$> h !! q) as Hh2.
  { intros q. subst h2 h1. destruct (head B) as [b|]; rewrite !list_lookup_alter;
      repeat case_decide; simplify_eq; try congruence; by destruct (h !! _) as [[]|]. }
  assert (∀ nd nx pv, h !! p = Some nd → (if decide (p = a) then head B else next nd) = nx →
    (if decide (head B = Some p) then Some a else prev nd) = pv →
    ∃ nd', h2 !! p = Some nd' ∧ next nd' = nx ∧ prev nd' = pv) as Hdo.
  { intros nd nx pv Hp <- <-. rewrite Hh2, Hp. cbn. eauto. }
  clear Hh2. clearbody h2. clear h1.
  replace (A ++ a :: B) with ((A ++ [a]) ++ B) in Heq by (by rewrite <- app_assoc).
  replace (A ++ a :: c :: B) with ((A ++ [a]) ++ c :: B) in Hnd, Hl by (by rewrite <- app_assoc).
  apply NoDup_app in Hnd as (HndA & HAB & HndB). apply NoDup_cons in HndB as [HcB HndB].
  apply split_without in Heq as [(Z & HX & ->)|(Z & -> & ->)]; [..|exact c].
  - assert (p ∉ B) as HpB.
    { intros Hp. apply (HAB p); [rewrite HX; set_solver|set_solver]. }
    destruct (Hl X p (Z ++ c :: B)) as (nd & Hp & Hn & Hv); [by rewrite HX, <- app_assoc|].
    apply (Hdo nd); [done|..].
    + destruct Z as [|z Z].
      * apply app_inj_tail in HX as [_ ->]. by rewrite decide_True.
      * cbn in *. rewrite decide_False; [done|]. intros ->.
        by destruct (split_unique _ _ _ _ _ HndA HX).
    + rewrite decide_False; [done|]. intros Hb. apply HpB. destruct B; [done|]. injection Hb as ->. left.
  - assert (p ≠ a) as Hpa.
    { intros ->. apply (HAB a); set_solver. }
    destruct (Hl ((A ++ [a]) ++ c :: Z) p Y) as (nd & Hp & Hn & Hv); [by rewrite <- (app_assoc (A ++ [a]) (c :: Z))|].
    apply (Hdo nd); [done|by rewrite decide_False|].
    destruct Z as [|z Z]; cbn [app head].
    + rewrite decide_True by done. by rewrite app_nil_r, last_snoc.
    + rewrite decide_False.
      * rewrite Hv, !last_app_cons. done.
      * intros [= ->]. apply NoDup_cons in HndB as [Hn' _]. apply Hn'. set_solver.
Qed.

(** Everything about one [unlink]. *)
Lemma unlink_ok h A a c B :
  NoDup (A ++ a :: c :: B) → linked h (A ++ a :: c :: B) →
  ∃ h', unlink c h = Ok h' ∧ linked h' (A ++ a :: B) ∧ sig h' = sig h ∧ h' !! c = h !! c ∧ relink c h' = Ok h.
Proof.
  intros Hnd Hl. eexists. split; [by apply (unlink_eq h A a c B)|].
  destruct (relink_unlink_eq h A a c B Hnd Hl) as [H1 H2]. cbn zeta in *. split_and!; [|..|exact H1|exact H2].
  - by apply (unlink_linked h A a c B).
  - destruct (head B); by rewrite ?sig_alter_prev, sig_alter_next.
Qed.

(** ** [lift] and [unlift] *)

Lemma load_Ok h a nd : h !! a = Some nd → load (Some a) h = Ok nd.
Proof. unfold load. by intros ->. Qed.

Lemma setNext_other p n h h1 c nd :
  setNext p n h = Ok h1 → p ≠ Some c → h !! c = Some nd → h1 !! c = Some nd.
Proof.
  intros H1 Hp Hc. destruct p as [a|]; [|done]. cbn in H1. injection H1 as <-.
  rewrite list_lookup_alter_ne; [done|congruence].
Qed.

Lemma lift_unlinks c h nd nx m :
  h !! c = Some nd → next nd = Some nx → nmatch nd = Some m → prev nd ≠ Some c →
  (∀ h1, unlink c h = Ok h1 → h1 !! c = Some nd) →
  lift c h = (h1 ← unlink c h; unlink m h1).
Proof.
  intros Hc Hnx Hm Hp Hkeep. unfold lift, unlink in *. rewrite (load_Ok h c nd Hc) in *. cbn [mbind Res_bind] in *.
  destruct (setNext (prev nd) (next nd) h) as [h1| |] eqn:H1; [|done..]. cbn [mbind Res_bind] in *.
  assert (h1 !! c = Some nd) as Hc1 by by eapply setNext_other.
  rewrite (load_Ok h1 c nd Hc1) in *. cbn [mbind Res_bind] in *. rewrite Hnx in *. cbn [setPrevIf] in *.
  cbn [setPrev mbind Res_bind] in *. specialize (Hkeep _ eq_refl). rewrite (load_Ok _ c nd Hkeep).
  cbn [mbind Res_bind]. by rewrite Hm.
Qed.

Lemma unlift_relinks c h h1 nd nd1 nx m :
  h !! c = Some nd → nmatch nd = Some m → relink m h = Ok h1 →
  h1 !! c = Some nd1 → next nd1 = Some nx → prev nd1 ≠ Some c →
  unlift c h = relink c h1.
Proof.
  intros Hc Hm Hr Hc1 Hnx Hp. unfold unlift, relink in *. rewrite (load_Ok h c nd Hc). cbn [mbind Res_bind]. rewrite Hm.
  destruct (load (Some m) h) as [mt| |]; [|done..]. cbn [mbind Res_bind] in *.
  destruct (setNext (prev mt) (Some m) h) as [h2| |]; [|done..]. cbn [mbind Res_bind] in *.
  destruct (load (Some m) h2) as [mt2| |]; [|done..]. cbn [mbind Res_bind] in *. rewrite Hr. cbn [mbind Res_bind].
  rewrite (load_Ok h1 c nd1 Hc1). cbn [mbind Res_bind].
  destruct (setNext (prev nd1) (Some c) h1) as [h3| |] eqn:H3; [|done..]. cbn [mbind Res_bind].
  rewrite (load_Ok h3 c nd1); [cbn [mbind Res_bind]; by rewrite Hnx|by eapply setNext_other].
Qed.

Lemma lift_ok h A a c B m C nd :
  NoDup (A ++ a :: c :: B ++ m :: C) → linked h (A ++ a :: c :: B ++ m :: C) →
  h !! c = Some nd → nmatch nd = Some m →
  ∃ h', lift c h = Ok h' ∧ linked h' (A ++ a :: B ++ C) ∧ sig h' = sig h ∧ unlift c h' = Ok h.
Proof.
  intros Hnd Hl Hc Hm.
  destruct (Hl (A ++ [a]) c (B ++ m :: C)) as (nd' & Hc' & Hn & Hp); [by rewrite <- app_assoc|].
  rewrite Hc in Hc'. injection Hc' as <-. rewrite last_snoc in Hp.
  assert (a ≠ c) as Hac by (apply NoDup_app in Hnd as (_ & _ & Hnd); apply NoDup_cons in Hnd as [Hnd' _]; set_solver).
  assert (∃ nx, next nd = Some nx) as [nx Hnx] by (rewrite Hn; destruct B; cbn; eauto).
  destruct (unlink_ok h A a c _ Hnd Hl) as (h1 & H1 & L1 & S1 & K1 & R1).
  assert (NoDup (A ++ a :: B ++ m :: C)) as Hnd1.
  { by apply (NoDup_without A _ a c). }
  assert (∃ D d, A ++ a :: B = D ++ [d]) as (D & d & HD).
  { destruct (last (A ++ a :: B)) as [d|] eqn:Hd; [apply last_Some in Hd as [D ?]; eauto|].
    apply last_None in Hd. by destruct A. }
  assert (∀ T, A ++ a :: B ++ T = D ++ d :: T) as Hsplit.
  { intros T. replace (A ++ a :: B ++ T) with ((A ++ a :: B) ++ T) by (by rewrite <- app_assoc). by rewrite HD, <- app_assoc. }
  rewrite Hsplit in L1, Hnd1.
  destruct (unlink_ok h1 D d m C Hnd1 L1) as (h2 & H2 & L2 & S2 & K2 & R2).
  rewrite <- Hsplit in L2. exists h2. split_and!; [|done|congruence|].
  - rewrite (lift_unlinks c h nd nx m); [by rewrite H1|done|done|done|rewrite Hp; congruence|].
    intros h1' H1'. rewrite H1 in H1'. injection H1' as <-. by rewrite K1.
  - destruct (sig_lookup h h2 c nd) as (nd2 & Hc2 & _ & Hm2 & _); [congruence|done|].
    rewrite (unlift_relinks c h2 h1 nd2 nd nx m); [done|done|congruence|done|by rewrite K1|done|rewrite Hp; congruence].
Qed.

(** ** Building the list *)

Lemma linked_nil h : linked h [].
Proof. by intros [|] ? ?. Qed.

(** A new node in front. *)
Lemma insertBefore_ok h l nd :
  NoDup l → linked h l → next nd = None → prev nd = None →
  ∃ h', insertBefore (length h) (head l) (h ++ [nd]) = Ok h' ∧ linked h' (length h :: l) ∧ sig h' = sig (h ++ [nd]).
Proof.
  intros Hnd Hl Hn Hp. set (a := length h). set (h0 := h ++ [nd]).
  assert (h0 !! a = Some nd) as Ha by (unfold h0, a; by rewrite list_lookup_middle).
  assert (∀ p nd', h !! p = Some nd' → h0 !! p = Some nd' ∧ p ≠ a) as Hold.
  { intros p nd' Hp'. split; [by apply lookup_app_l_Some|]. apply lookup_lt_Some in Hp'. unfold a. lia. }
  destruct l as [|m l].
  { exists h0. split_and!; [done| |done]. intros [|x X] p Y Heq; cbn in Heq; simplify_eq; [|by destruct X].
    exists nd. done. }
  destruct (Hl [] m l eq_refl) as (mk & Hmk & Hmkn & Hmkp). cbn [head last] in *.
  destruct (Hold _ _ Hmk) as [Hmk0 Hma].
  exists (alter (λ nd, nd <| next := Some m |>) a (alter (λ nd, nd <| prev := Some a |>) m h0)).
  unfold insertBefore, load. rewrite Hmk0. cbn [mbind Res_bind]. rewrite Hmkp. cbn [setPrev setNext mbind Res_bind].
  split_and!; [done| |by rewrite sig_alter_next, sig_alter_prev].
  intros X p Y Heq. destruct X as [|x X]; cbn in Heq; injection Heq as <- Heq.
  - exists (nd <| next := Some m |>). rewrite list_lookup_alter_eq, list_lookup_alter_ne, Ha by done. subst Y. done.
  - destruct (Hl X p Y Heq) as (nd' & Hnd' & Hn' & Hp'). destruct (Hold _ _ Hnd') as [Hnd0 Hpa].
    rewrite list_lookup_alter_ne by done. destruct X as [|x' X].
    + cbn in Heq. injection Heq as -> ->. exists (nd' <| prev := Some a |>). by rewrite list_lookup_alter_eq, Hnd0.
    + cbn in Heq. injection Heq as -> ->. exists nd'. rewrite list_lookup_alter_ne; [done|].
      intros ->. apply NoDup_cons in Hnd as [Hnd _]. apply Hnd. set_solver.
Qed.

(** The pointers of [k] nodes, the last one made first. *)
Definition ptrs (k : nat) : list nat := reverse (seq 0 k).

Lemma ptrs_S k : ptrs (S k) = k :: ptrs k.
Proof. unfold ptrs. by rewrite seq_S, reverse_snoc. Qed.

Lemma ptrs_elem k p : p ∈ ptrs k ↔ (p < k)%nat.
Proof. unfold ptrs. rewrite elem_of_reverse, elem_of_seq. lia. Qed.

Lemma ptrs_NoDup k : NoDup (ptrs k).
Proof. unfold ptrs. rewrite reverse_Permutation. apply NoDup_seq. Qed.

Lemma ptrs_length k : length (ptrs k) = k.
Proof. unfold ptrs. by rewrite length_reverse, length_seq. Qed.

Lemma ptrs_lookup k j : (j < k)%nat → ptrs k !! j = Some (k - S j)%nat.
Proof.
  revert j. induction k as [|k IH]; intros j Hj; [lia|]. rewrite ptrs_S. destruct j as [|j]; cbn [lookup list_lookup]; [f_equal; lia|].
  by rewrite IH by lia.
Qed.

(** Every call has its return behind it. *)
Definition matched (es : list (entry In Out)) : Prop :=
  ∀ j e, es !! j = Some e → kind e = callEntry →
    ∃ k r, (j < k)%nat ∧ es !! k = Some r ∧ kind r = returnEntry ∧ id r = id e.

(** The node of the entry at [j]. *)
Definition nodeOf (es : list (entry In Out)) (j : nat) (e : entry In Out)
    (s : option (In + Out) * option nat * Z) : Prop :=
  s.1.1 = Some (value e) ∧ s.2 = id e ∧
  match kind e with
  | returnEntry => s.1.2 = None
  | callEntry => ∃ k r, (j < k)%nat ∧ es !! k = Some r ∧ kind r = returnEntry ∧ id r = id e ∧
                   s.1.2 = Some (length es - S k)%nat
  end.

Record built (es : list (entry In Out)) h : Prop := mkBuilt {
  bu_length : length h = length es;
  bu_linked : linked h (ptrs (length es));
  bu_nodes : ∀ j e, es !! j = Some e → ∃ s, sig h !! (length es - S j)%nat = Some s ∧ nodeOf es j e s;
}.

(** [match] has the returns linked so far. *)
Definition matchOk (es : list (entry In Out)) (mtch : gmap Z nat) : Prop :=
  (∀ i a, mtch !! i = Some a → ∃ k r, es !! k = Some r ∧ kind r = returnEntry ∧ id r = i ∧ a = (length es - S k)%nat) ∧
  (∀ k r, es !! k = Some r → kind r = returnEntry → is_Some (mtch !! id r)).

Lemma nodeOf_cons es j e e0 s : nodeOf es j e s → nodeOf (e0 :: es) (S j) e s.
Proof.
  intros (H1 & H2 & H3). split; [done|]. split; [done|]. destruct (kind e); [|done].
  destruct H3 as (k & r & Hk & Hr & Hkind & Hid & Hm). exists (S k), r. cbn. split_and!; [lia|done..|]. done.
Qed.

Lemma matched_tail e es : matched (e :: es) → matched es.
Proof.
  intros Hm j e' Hj Hk. destruct (Hm (S j) e' Hj Hk) as (k & r & Hlt & Hr & ?). destruct k as [|k]; [lia|].
  exists k, r. split; [lia|done].
Qed.

Lemma linkEntry_ok e es h mtch :
  matched (e :: es) → built es h → matchOk es mtch →
  ∃ h' mtch', linkEntry e (h, head (ptrs (length es)), mtch) = Ok (h', Some (length es), mtch') ∧
    built (e :: es) h' ∧ matchOk (e :: es) mtch'.
Proof.
  intros Hmt [Hlen Hl Hn] [Hm1 Hm2].
  assert (∃ mt mtch', linkEntry e (h, head (ptrs (length es)), mtch) =
      (h' ← insertBefore (length h) (head (ptrs (length es))) (h ++ [mkNode (Some (value e)) mt (id e) None None]);
       Ok (h', Some (length h), mtch')) ∧
    nodeOf (e :: es) 0 e (Some (value e), mt, id e) ∧ matchOk (e :: es) mtch') as (mt & mtch' & -> & Hnode & Hmok).
  { unfold linkEntry. destruct (kind e) eqn:Hk.
    - exists (mtch !! id e), mtch. split; [done|]. split.
      + split; [done|]. split; [done|]. rewrite Hk.
        destruct (Hmt 0%nat e eq_refl Hk) as (k & r & Hlt & Hr & Hkr & Hid). destruct k as [|k]; [lia|].
        destruct (Hm2 k r Hr Hkr) as [a Ha]. rewrite Hid in Ha.
        destruct (Hm1 _ _ Ha) as (k' & r' & Hr' & Hkr' & Hid' & ->).
        exists (S k'), r'. split_and!; [lia|done..|]. cbn. by rewrite Ha.
      + split.
        * intros i a (k & r & ? & ? & ? & ?)%Hm1. by exists (S k), r.
        * intros [|k] r Hr Hkr; cbn in Hr; [simplify_eq; congruence|eauto].
    - exists None, (<[id e := length h]> mtch). split; [done|]. split; [split; [done|]; split; [done|]; by rewrite Hk|]. split.
      + intros i a [[<- <-]|[_ (k & r & ? & ? & ? & ?)%Hm1]]%lookup_insert_Some; [|by exists (S k), r].
        exists 0%nat, e. cbn. split_and!; [done..|lia].
      + intros [|k] r Hr Hkr; cbn in Hr; [simplify_eq; rewrite lookup_insert_eq; eauto|].
        destruct (decide (id e = id r)) as [->|]; [rewrite lookup_insert_eq; eauto|rewrite lookup_insert_ne by done; eauto]. }
  destruct (insertBefore_ok h (ptrs (length es)) (mkNode (Some (value e)) mt (id e) None None)
    (ptrs_NoDup _) Hl eq_refl eq_refl) as (h' & -> & Hl' & Hs').
  exists h', mtch'. cbn [mbind Res_bind]. rewrite Hlen in *. split; [done|]. split; [|done].
  assert (sig h' = sig h ++ [(Some (value e), mt, id e)]) as Hsig by (rewrite Hs'; unfold sig; by rewrite map_app).
  assert (length (sig h) = length es) as Hsl by (unfold sig; by rewrite length_map).
  split.
  - apply sig_length in Hs'. rewrite length_app in Hs'. cbn in *. lia.
  - cbn [length]. by rewrite ptrs_S.
  - rewrite Hsig. intros [|j] e' He'; cbn in He'.
    + injection He' as <-. cbn [length]. eexists. split; [|exact Hnode].
      rewrite lookup_app_r by lia. rewrite Hsl. by replace (S (length es) - 1 - length es)%nat with 0%nat by lia.
    + destruct (Hn j e' He') as (s & Hs & Hno). exists s. cbn. split; [|by apply nodeOf_cons].
      by apply lookup_app_l_Some.
Qed.

Lemma makeLinkedEntries_ok es :
  matched es → ∃ h, makeLinkedEntries es = Ok (h, head (ptrs (length es))) ∧ built es h.
Proof.
  intros Hm. cut (∃ h mtch, foldr (λ elem r, st ← r; linkEntry elem st) (Ok ([], None, ∅)) es =
      Ok (h, head (ptrs (length es)), mtch) ∧ built es h ∧ matchOk es mtch).
  { intros (h & mtch & Hf & Hb & _). exists h. unfold makeLinkedEntries. by rewrite Hf. }
  induction es as [|e es IH]; cbn [foldr].
  - exists [], ∅. split; [done|]. split; [split; [done|apply linked_nil|done]|]. split; [|done].
    intros i a Ha. by rewrite lookup_empty in Ha.
  - destruct (IH (matched_tail _ _ Hm)) as (h & mtch & -> & Hb & Hmo). cbn [mbind Res_bind].
    destruct (linkEntry_ok e es h mtch Hm Hb Hmo) as (h' & mtch' & -> & ? & ?).
    exists h', mtch'. cbn [length]. by rewrite ptrs_S.
Qed.

(** The length of the list is what [length] counts. *)
Lemma lengthFrom_ok h l fuel : linked h l → (length l ≤ fuel)%nat → lengthFrom fuel (head l) h = Ok (zlen l).
Proof.
  intros Hl. cut (∀ Y X fuel, l = X ++ Y → (length Y ≤ fuel)%nat → lengthFrom fuel (head Y) h = Ok (zlen Y)).
  { intros Hc. by apply (Hc l []). }
  induction Y as [|p Y IH]; intros X f HX Hf; [by destruct f|]. cbn [head]. destruct f as [|f]; [cbn in Hf; lia|].
  cbn [lengthFrom]. destruct (Hl X p Y HX) as (nd & Hp & Hn & _). rewrite (load_Ok h p nd Hp). cbn [mbind Res_bind].
  rewrite Hn, (IH (X ++ [p])); [|by rewrite <- app_assoc|cbn in Hf; lia]. cbn [mbind Res_bind]. f_equal. cbn. lia.
Qed.
End linked_proofs.

(** [unlift] undoes [lift].  In a doubly linked list with a call [c] that is
    not the first node and its return [m] behind it, [lift c] leaves the list
    without the two, and [unlift c] gives back the very heap from before: the
    nodes taken out still know where they were. *)
Theorem lift_unlift {In Out} (h : Heap In Out) A a c B m C nd :
  NoDup (A ++ a :: c :: B ++ m :: C) → linked h (A ++ a :: c :: B ++ m :: C) →
  h !! c = Some nd → nmatch nd = Some m →
  ∃ h', lift c h = Ok h' ∧ linked h' (A ++ a :: B ++ C) ∧ unlift c h' = Ok h.
Proof.
  intros Hnd Hl Hc Hm. destruct (lift_ok h A a c B m C nd Hnd Hl Hc Hm) as (h' & ? & ? & _ & ?). by exists h'.
Qed.

(** A head, a call, another call, the first one's return and the other's. *)
Definition sampleHeap : Heap Z Z :=
  [mkNode None None (-1) (Some 1%nat) None; mkNode (Some (inl 5)) (Some 3%nat) 0 (Some 2%nat) (Some 0%nat);
   mkNode (Some (inl 6)) (Some 4%nat) 1 (Some 3%nat) (Some 1%nat); mkNode (Some (inr 7)) None 0 (Some 4%nat) (Some 2%nat);
   mkNode (Some (inr 8)) None 1 None (Some 3%nat)].

Lemma lift_unlift_witness :
  ∃ h', lift 1 sampleHeap = Ok h' ∧ linked h' [0; 2; 4]%nat ∧ unlift 1 h' = Ok sampleHeap.
Proof.
  apply (lift_unlift sampleHeap [] 0 1 [2%nat] 3 [4%nat] (mkNode (Some (inl 5)) (Some 3%nat) 0 (Some 2%nat) (Some 0%nat))).
  - apply NoDup_ListNoDup. repeat constructor; cbn; intuition congruence.
  - intros X p Y HX. do 5 (destruct X as [|x X]; cbn in HX; [injection HX as <- <-; by eexists|injection HX as <- HX]).
    by destruct X.
  - reflexivity.
  - reflexivity.
Defined.
