(* ===== verification/PorcupineSpec.v ===== *)
(** * What linearizable means

    Entries are in the order of time.  An operation precedes another when its
    return comes before the other's call.  A history is [linearizable] when its
    operations can be put in an order that the model accepts and in which no
    operation comes after one it precedes.  [Good] is the same of what is left
    after some operations have been placed; it is what the search decides. *)

From S2P Require Import Prelude PorcBitset Porcupine PorcList.
Open Scope Z_scope.

Section spec.
Context {In Out State : Type} (m : Model In Out State).
Local Abbreviation E := (entry In Out).
Implicit Types (es : list E) (st : State) (L xs : list Z).

(** The value of the entry of kind [k] of operation [i]. *)
Definition valueOf es (k : entryKind) (i : Z) : option (In + Out) :=
  value <$> head (filter (λ e, kind e = k ∧ id e = i) es).

Definition opOf es (i : Z) : option (In * Out) :=
  match valueOf es callEntry i, valueOf es returnEntry i with
  | Some (inl x), Some (inr o) => Some (x, o)
  | _, _ => None
  end.

(** The model takes an operation, or refuses it. *)
Definition take1 st (x : In * Out) : option State :=
  let '(ok, st') := Step m st x.1 x.2 in if ok : bool then Some st' else None.

Fixpoint runOps st (l : list (In * Out)) : option State :=
  match l with [] => Some st | x :: l => st ← take1 st x; runOps st l end.

(** The operations with ids [xs], in that order. *)
Fixpoint runIds es st xs : option State :=
  match xs with
  | [] => Some st
  | i :: xs => x ← opOf es i; st ← take1 st x; runIds es st xs
  end.

(** Operation [a] returned before [b] was called. *)
Definition precedes es (a b : Z) : Prop :=
  ∃ j k r c, (j < k)%nat ∧ es !! j = Some r ∧ kind r = returnEntry ∧ id r = a ∧
    es !! k = Some c ∧ kind c = callEntry ∧ id c = b.

(** No operation comes after one it precedes. *)
Definition respects es xs : Prop :=
  ∀ i j a b, (i < j)%nat → xs !! i = Some a → xs !! j = Some b → ¬ precedes es b a.

Definition linearizable es (n : Z) : Prop :=
  ∃ xs, xs ≡ₚ seqZ 0 n ∧ is_Some (runIds es (Init m) xs) ∧ respects es xs.

(** Entries of [n] operations, numbered from 0, each called before it
    returns. *)
Record well_formed es (n : Z) : Prop := mkWellFormed {
  wf_ids : (λ e, (kind e, id e)) <$> es ≡ₚ seqZ 0 n ≫= (λ i, [(callEntry, i); (returnEntry, i)]);
  wf_order : ∀ j r, es !! j = Some r → kind r = returnEntry →
    ∃ k c, (k < j)%nat ∧ es !! k = Some c ∧ kind c = callEntry ∧ id c = id r;
  wf_values : ∀ e, e ∈ es → match kind e, value e with
                            | callEntry, inl _ | returnEntry, inr _ => True
                            | _, _ => False
                            end;
  wf_n : 0 ≤ n;
}.

(** ** Consequences of being well formed *)

Definition bothEntries (i : Z) : list (entryKind * Z) := [(callEntry, i); (returnEntry, i)].

Lemma bothEntries_NoDup l : NoDup l → NoDup (l ≫= bothEntries).
Proof.
  induction 1 as [|i l Hi Hl IH]; [constructor|]. cbn.
  assert (∀ k, (k, i) ∉ l ≫= bothEntries) as Hn.
  { intros k (j & Hj & Hin)%list_elem_of_bind. unfold bothEntries in Hj. 
    assert (j = i) as -> by set_solver. done. }
  repeat constructor; [|apply Hn|done]. apply not_elem_of_cons. split; [done|apply Hn].
Qed.

Section wf.
Context {es : list E} {n : Z} (Hwf : well_formed es n).
#[local] Set Default Proof Using "Hwf".

Lemma wf_length : zlen es = 2 * n.
Proof.
  pose proof (Permutation_length (wf_ids _ _ Hwf)) as Hl. rewrite length_fmap in Hl.
  assert (∀ l : list Z, length (l ≫= bothEntries) = (2 * length l)%nat) as Hb.
  { induction l as [|i l IH]; [done|]. cbn. rewrite IH. lia. }
  rewrite Hl, Hb, length_seqZ. pose proof (wf_n _ _ Hwf). lia.
Qed.

Lemma wf_in_range e : e ∈ es → 0 ≤ id e < n.
Proof.
  intros He. assert ((kind e, id e) ∈ seqZ 0 n ≫= bothEntries) as Hin.
  { rewrite <- (wf_ids _ _ Hwf). apply list_elem_of_fmap. by exists e. }
  apply list_elem_of_bind in Hin as (i & Hi & Hs). apply elem_of_seqZ in Hs.
  unfold bothEntries in Hi. assert (id e = i) by set_solver. lia.
Qed.

Lemma wf_entry i k : 0 ≤ i < n → ∃ j e, es !! j = Some e ∧ kind e = k ∧ id e = i.
Proof.
  intros Hi. assert ((k, i) ∈ (λ e, (kind e, id e)) <$> es) as Hin.
  { rewrite (wf_ids _ _ Hwf). apply list_elem_of_bind. exists i. split; [destruct k; set_solver|].
    apply elem_of_seqZ. lia. }
  apply list_elem_of_fmap in Hin as (e & [= -> ->] & He). apply list_elem_of_lookup in He as [j Hj]. eauto.
Qed.

Lemma wf_unique j k e e' :
  es !! j = Some e → es !! k = Some e' → kind e = kind e' → id e = id e' → j = k.
Proof.
  intros Hj Hk Hkind Hid.
  assert (NoDup ((λ e, (kind e, id e)) <$> es)) as Hnd.
  { rewrite (wf_ids _ _ Hwf). apply bothEntries_NoDup, NoDup_seqZ. }
  eapply NoDup_lookup; [exact Hnd|..]; rewrite list_lookup_fmap; [by rewrite Hj|rewrite Hk; cbn; congruence].
Qed.

Lemma wf_matched : matched es.
Proof.
  intros j c Hc Hkc. pose proof (wf_in_range c (list_elem_of_lookup_2 _ _ _ Hc)) as Hr.
  destruct (wf_entry (id c) returnEntry Hr) as (k & r & Hk & Hkr & Hid).
  destruct (wf_order _ _ Hwf k r Hk Hkr) as (j' & c' & Hlt & Hc' & Hkc' & Hid').
  exists k, r. split_and!; [|done..]. by rewrite (wf_unique j j' c c') by congruence.
Qed.

Lemma valueOf_Some k j e : es !! j = Some e → kind e = k → valueOf es k (id e) = Some (value e).
Proof.
  intros Hj Hk. unfold valueOf. pose proof Hj as He%list_elem_of_lookup_2.
  destruct (filter _ es) as [|e' l] eqn:Hf.
  - assert (e ∈ filter (λ e0, kind e0 = k ∧ id e0 = id e) es) as Hin by by apply list_elem_of_filter.
    rewrite Hf in Hin. by apply elem_of_nil in Hin.
  - assert (e' ∈ filter (λ e0, kind e0 = k ∧ id e0 = id e) es) as Hin by (rewrite Hf; left).
    apply list_elem_of_filter in Hin as [[Hk' Hid'] [j' Hj']%list_elem_of_lookup]. cbn.
    assert (j = j') as <- by (apply (wf_unique j j' e e'); congruence). congruence.
Qed.

Lemma opOf_Some j k c r :
  es !! j = Some c → kind c = callEntry → es !! k = Some r → kind r = returnEntry → id r = id c →
  ∃ x o, value c = inl x ∧ value r = inr o ∧ opOf es (id c) = Some (x, o).
Proof.
  intros Hj Hc Hk Hr Hid. unfold opOf. rewrite (valueOf_Some callEntry j c) by done.
  rewrite <- Hid, (valueOf_Some returnEntry k r) by done.
  pose proof (wf_values _ _ Hwf c (list_elem_of_lookup_2 _ _ _ Hj)) as Hvc. rewrite Hc in Hvc.
  pose proof (wf_values _ _ Hwf r (list_elem_of_lookup_2 _ _ _ Hk)) as Hvr. rewrite Hr in Hvr.
  destruct (value c), (value r); [done|eauto|done..].
Qed.

(** No operation precedes itself. *)
Lemma precedes_irrefl a : ¬ precedes es a a.
Proof.
  intros (j & k & r & c & Hlt & Hj & Hr & Hra & Hk & Hc & Hca).
  destruct (wf_order _ _ Hwf j r Hj Hr) as (k' & c' & Hlt' & Hk' & Hc' & Hid).
  rewrite (wf_unique k' k c' c) in Hlt' by congruence. lia.
Qed.

Lemma precedes_range a b : precedes es a b → 0 ≤ a < n ∧ 0 ≤ b < n.
Proof.
  intros (j & k & r & c & _ & Hj & _ & <- & Hk & _ & <-).
  split; apply wf_in_range; by eapply list_elem_of_lookup_2.
Qed.

(** ** What is left *)

(** All operations that precede [c] have been placed. *)
Definition cand L (c : Z) : Prop := ∀ x, x ∉ L → ¬ precedes es x c.

Definition Good L st : Prop :=
  ∃ xs, L ++ xs ≡ₚ seqZ 0 n ∧ is_Some (runIds es st xs) ∧
    ∀ i c, xs !! i = Some c → cand (L ++ take i xs) c.

Lemma cand_perm L L' c : L ≡ₚ L' → cand L c → cand L' c.
Proof. intros HL Hc x Hx. apply Hc. by rewrite HL. Qed.

Lemma Good_all L st : L ≡ₚ seqZ 0 n → Good L st.
Proof. intros HL. exists []. rewrite app_nil_r. split; [done|]. split; [by eexists|]. intros i c Hc. done. Qed.

(** The next operation, and what is left then. *)
Lemma Good_step L c x st st' :
  opOf es c = Some x → take1 st x = Some st' → cand L c → Good (L ++ [c]) st' → Good L st.
Proof.
  intros Hx Ht Hc (xs & HP & Hr & Hcs). exists (c :: xs). split; [by rewrite <- app_assoc in HP|]. split.
  - cbn. rewrite Hx. cbn. by rewrite Ht.
  - intros [|i] d Hd; cbn in Hd; [injection Hd as <-; cbn; by rewrite app_nil_r|].
    specialize (Hcs i d Hd). cbn [take]. by rewrite <- app_assoc in Hcs.
Qed.

Lemma Good_inv L st :
  Good L st → L ≡ₚ seqZ 0 n ∨
    ∃ c x st', (c ∉ L) ∧ 0 ≤ c < n ∧ cand L c ∧ opOf es c = Some x ∧
      take1 st x = Some st' ∧ Good (L ++ [c]) st'.
Proof.
  intros (xs & HP & Hr & Hc). destruct xs as [|c xs]; [left; by rewrite app_nil_r in HP|right].
  cbn in Hr. destruct (opOf es c) as [x|] eqn:Hx; [|by destruct Hr]. cbn in Hr.
  destruct (take1 st x) as [st'|] eqn:Ht; [|by destruct Hr]. cbn in Hr.
  assert (NoDup (L ++ c :: xs)) as Hnd by (rewrite HP; apply NoDup_seqZ).
  exists c, x, st'. split; [|split; [|split; [|split; [done|split; [done|]]]]].
  - apply NoDup_app in Hnd as (_ & Hnd & _). intros HcL. apply (Hnd c HcL). left.
  - assert (c ∈ seqZ 0 n) as Hin%elem_of_seqZ; [|lia]. rewrite <- HP. set_solver.
  - specialize (Hc 0%nat c eq_refl). cbn in Hc. by rewrite app_nil_r in Hc.
  - exists xs. rewrite <- app_assoc. split_and!; [done..|]. intros i d Hd. specialize (Hc (S i) d Hd).
    by rewrite <- app_assoc.
Qed.

Lemma Good_perm L L' st : L ≡ₚ L' → Good L st → Good L' st.
Proof.
  intros HL (xs & HP & Hr & Hc). exists xs. rewrite <- HL. split_and!; [done..|].
  intros i c Hi. apply (cand_perm (L ++ take i xs)); [by rewrite HL|by apply Hc].
Qed.

(** States the model's [Equal] does not tell apart. *)
Definition same_future st st' : Prop := ∀ l, is_Some (runOps st l) ↔ is_Some (runOps st' l).

Lemma runIds_runOps st xs :
  runIds es st xs = (l ← mapM (opOf es) xs; runOps st l).
Proof using Type.
  revert st. induction xs as [|i xs IH]; intros st; [done|]. cbn. destruct (opOf es i) as [x|]; [|done]. cbn.
  destruct (take1 st x) as [st'|] eqn:Ht; cbn.
  - rewrite IH. destruct (mapM (opOf es) xs); cbn; [by rewrite Ht|done].
  - destruct (mapM (opOf es) xs); cbn; [by rewrite Ht|done].
Qed.

Lemma Good_future L st st' : same_future st st' → Good L st → Good L st'.
Proof.
  intros Hf (xs & HP & Hr & Hc). exists xs. split_and!; [done| |done].
  rewrite runIds_runOps in *. destruct (mapM (opOf es) xs); [by apply Hf|done].
Qed.

Lemma runIds_app st xs ys : runIds es st (xs ++ ys) = (st ← runIds es st xs; runIds es st ys).
Proof using Type.
  revert st. induction xs as [|i xs IH]; intros st; [done|]. cbn. destruct (opOf es i); [|done]. cbn.
  destruct (take1 st p); [|done]. cbn. apply IH.
Qed.

(** Every operation comes after all that precede it. *)
Definition path xs : Prop := ∀ i c, xs !! i = Some c → cand (take i xs) c.

(** The first operations of an order the model accepts. *)
Record legal_prefix xs : Prop := mkLegalPrefix {
  lp_NoDup : NoDup xs;
  lp_range : Forall (λ i, 0 ≤ i < n) xs;
  lp_run : is_Some (runIds es (Init m) xs);
  lp_path : path xs;
}.

Lemma path_respects xs : xs ≡ₚ seqZ 0 n → path xs ↔ respects es xs.
Proof.
  intros HP. assert (NoDup xs) as Hnd by (rewrite HP; apply NoDup_seqZ). split.
  - intros Hp i j a b Hij Ha Hb. apply (Hp i a Ha). intros Hin.
    apply elem_of_take in Hin as (k & Hk & Hlt). rewrite (NoDup_lookup xs k j b) in Hlt by done. lia.
  - intros Hr i c Hi x Hx Hpr. assert (x ∈ xs) as [j Hj]%list_elem_of_lookup.
    { rewrite HP. apply elem_of_seqZ. pose proof (precedes_range x c Hpr) as [? _]. lia. }
    destruct (decide (j < i)%nat) as [Hlt|Hge].
    + apply Hx, elem_of_take. eauto.
    + destruct (decide (j = i)) as [->|Hne].
      * rewrite Hi in Hj. injection Hj as ->. by eapply precedes_irrefl.
      * eapply (Hr i j c x); [lia|done..].
Qed.

Lemma Good_linearizable : Good [] (Init m) ↔ linearizable es n.
Proof.
  split; intros (xs & HP & Hr & Hc); exists xs; split_and!; try done; by apply path_respects.
Qed.
End wf.
End spec.

Arguments cand {In Out} es L c.
Arguments path {In Out} es xs.
Arguments Good {In Out State} m es n L st.
Arguments legal_prefix {In Out State} m es n xs.
