(* ===== verification/PorcSearch.v ===== *)
(** * The search decides linearizability

    The proof that [checkSingle] is right ([checkSingle_ok]).  The state of the
    search is described by the operations on its stack: the list in the heap
    is what is left of the entries ([remaining]), every stack frame leads back to
    its heap by [unlift] ([frames]), what was tried at a frame without success
    cannot be completed ([tried]), and a cached pair of a set and a state is on
    the stack or cannot be completed ([cache_ok]).  Every iteration makes a
    number grow that the positions of the stack and the cursor are the digits
    of ([measure]), so the search ends. *)

From S2P Require Import Prelude PorcBitset Porcupine PorcList PorcupineSpec.
Open Scope Z_scope.

Section search_proofs.
Context {In Out State : Type} (m : Model In Out State) (equal : State → State → bool).
Context {es : list (entry In Out)} {n : Z} (Hwf : well_formed es n).
Context (h1 : Heap In Out).
Local Abbreviation N := (length es).
Context (Hlinked : linked h1 (N :: ptrs N)).
Context (Hnodes : ∀ j e, es !! j = Some e → ∃ s, sig h1 !! (N - S j)%nat = Some s ∧ nodeOf es j e s).
#[local] Set Default Proof Using "Hwf Hnodes Hlinked".

(** The entry of a node. *)
Definition entAt (p : nat) : option (entry In Out) := if decide (p < N)%nat then es !! (N - S p)%nat else None.
Definition idp (p : nat) : Z := match entAt p with Some e => id e | None => -1 end.
Definition isCall (p : nat) : Prop := ∃ e, entAt p = Some e ∧ kind e = callEntry.

(** The nodes of the operations that are not in [L]. *)
Definition remaining (L : list Z) : list nat := filter (λ p, idp p ∉ L) (ptrs N).

Lemma entAt_index p e : entAt p = Some e → (p < N)%nat ∧ es !! (N - S p)%nat = Some e.
Proof using Type. unfold entAt. by case_decide. Qed.

Lemma entAt_ptr p : p ∈ ptrs N → ∃ e, entAt p = Some e.
Proof using Type.
  intros Hp%ptrs_elem. unfold entAt. rewrite decide_True by done.
  destruct (lookup_lt_is_Some_2 es (N - S p)) as [e He]; [lia|eauto].
Qed.

Lemma entAt_at j e : es !! j = Some e → entAt (N - S j) = Some e.
Proof using Type.
  intros Hj. pose proof (lookup_lt_Some _ _ _ Hj). unfold entAt. rewrite decide_True by lia.
  by replace (N - S (N - S j))%nat with j by lia.
Qed.

Lemma entAt_unique p q e e' :
  entAt p = Some e → entAt q = Some e' → kind e = kind e' → id e = id e' → p = q.
Proof.
  intros [Hp He]%entAt_index [Hq He']%entAt_index Hk Hi.
  pose proof (wf_unique Hwf _ _ _ _ He He' Hk Hi). lia.
Qed.

Lemma idp_range p : p ∈ ptrs N → 0 ≤ idp p < n.
Proof.
  intros (e & He)%entAt_ptr. unfold idp. rewrite He. apply (wf_in_range Hwf).
  apply entAt_index in He as [_ He]. by eapply list_elem_of_lookup_2.
Qed.

Lemma ptr_order p q : (q < p < N)%nat → ∃ U V W, ptrs N = U ++ p :: V ++ q :: W.
Proof using Type.
  intros Hpq. apply (split_two _ (N - S p) (N - S q)); [lia|..]; rewrite ptrs_lookup by lia; f_equal; lia.
Qed.

(** A node in any heap of the search. *)
Lemma node_at h p e :
  sig h = sig h1 → entAt p = Some e →
  ∃ nd, h !! p = Some nd ∧ nvalue nd = Some (value e) ∧ nid nd = id e ∧
    match kind e with
    | returnEntry => nmatch nd = None
    | callEntry => ∃ q r, nmatch nd = Some q ∧ (q < p)%nat ∧ entAt q = Some r ∧ kind r = returnEntry ∧ id r = id e
    end.
Proof.
  intros Hsig Hp. apply entAt_index in Hp as [Hlt He]. destruct (Hnodes _ _ He) as (s & Hs & Hv & Hid & Hm).
  replace (N - S (N - S p))%nat with p in Hs by lia. rewrite <- Hsig in Hs. unfold sig in Hs.
  apply list_lookup_fmap_Some in Hs as (nd & -> & Hnd). cbn in *. exists nd. split_and!; [done..|].
  destruct (kind e); [|done]. destruct Hm as (k & r & Hk & Hr & Hkr & Hrid & Hm).
  exists (N - S k)%nat, r. split_and!; [done| |by apply entAt_at|done..]. apply lookup_lt_Some in Hr. lia.
Qed.

Lemma remaining_elem L p : p ∈ remaining L ↔ (p < N)%nat ∧ idp p ∉ L.
Proof using Type. unfold remaining. rewrite list_elem_of_filter, ptrs_elem. tauto. Qed.

Lemma remaining_NoDup L : NoDup (remaining L).
Proof using Type. apply NoDup_filter, ptrs_NoDup. Qed.

Lemma remaining_cons L U p V : ptrs N = U ++ p :: V → idp p ∉ L →
  remaining L = filter (λ p, idp p ∉ L) U ++ p :: filter (λ p, idp p ∉ L) V.
Proof using Type. intros E Hp. unfold remaining. by rewrite E, filter_app, filter_cons_True. Qed.

(** The order of what is left is the order of the entries. *)
Lemma remaining_before L A p B q : remaining L = A ++ p :: B → q ∈ remaining L → (p < q)%nat → q ∈ A.
Proof.
  intros HL Hq Hpq. assert (p ∈ remaining L) as Hp by (rewrite HL; set_solver).
  apply remaining_elem in Hq as [Hq1 Hq2], Hp as [Hp1 Hp2].
  destruct (ptr_order q p) as (U & V & W & E); [lia|]. pose proof (remaining_NoDup L) as Hnd.
  rewrite app_comm_cons, app_assoc in E. rewrite (remaining_cons L _ _ _ E Hp2) in HL, Hnd.
  destruct (split_unique _ _ _ _ _ Hnd HL) as [<- _]. rewrite list_elem_of_filter. set_solver.
Qed.

(** Taking an operation out. *)
Lemma remaining_lift L A c B :
  remaining L = A ++ c :: B → isCall c →
  ∃ B1 q C, B = B1 ++ q :: C ∧ remaining (L ++ [idp c]) = A ++ B1 ++ C ∧
    ∀ h nd, sig h = sig h1 → h !! c = Some nd → nmatch nd = Some q.
Proof.
  intros HL (e & He & Hk). assert (c ∈ remaining L) as [Hc1 Hc2]%remaining_elem by (rewrite HL; set_solver).
  destruct (node_at h1 c e eq_refl He) as (nd & Hnd & _ & _ & Hm). rewrite Hk in Hm.
  destruct Hm as (q & r & Hm & Hq & Hr & Hkr & Hid).
  assert (idp c = id e) as Hidc by (unfold idp; by rewrite He).
  assert (idp q = id e) as Hidq by (unfold idp; by rewrite Hr).
  destruct (ptr_order c q) as (U & V & W & E); [lia|].
  pose proof (remaining_NoDup L) as Hnd0. rewrite (remaining_cons L _ _ _ E Hc2) in HL, Hnd0.
  destruct (split_unique _ _ _ _ _ Hnd0 HL) as [HA HB]. rewrite filter_app, filter_cons_True in HB by congruence.
  exists (filter (λ p, idp p ∉ L) V), q, (filter (λ p, idp p ∉ L) W). split; [done|]. split.
  - pose proof (ptrs_NoDup N) as Hnp. rewrite E in Hnp.
    assert (∀ p, p ∈ U ++ V ++ W → idp p ∉ L ++ [idp c] ↔ idp p ∉ L) as Hsame.
    { intros p Hp. rewrite not_elem_of_app, list_elem_of_singleton. split; [tauto|]. intros Hn. split; [done|].
      intros Heq. assert (p ∈ ptrs N) as [e' He']%entAt_ptr by (rewrite E; set_solver).
      assert (p = c ∨ p = q) as Hpq.
      { unfold idp in Heq. rewrite He', He in Heq.
        destruct (kind e') eqn:Hk'; [left; eapply entAt_unique; eauto; congruence|].
        right. eapply entAt_unique; eauto; congruence. }
      assert (NoDup (c :: q :: U ++ V ++ W)) as Hn2.
      { eapply NoDup_Permutation_proper; [|exact Hnp]. rewrite <- Permutation_middle. constructor.
        rewrite !app_assoc. apply Permutation_middle. }
      apply NoDup_cons in Hn2 as [Hn2 [Hn3 _]%NoDup_cons]. destruct Hpq as [->| ->]; [apply Hn2; by right|done]. }
    unfold remaining. rewrite E, filter_app, filter_cons_False by set_solver.
    rewrite filter_app, filter_cons_False by (rewrite Hidq, Hidc; set_solver).
    rewrite <- HA. f_equal; [|f_equal]; apply filter_ext_in; intros p Hp; apply Hsame; set_solver.
  - intros h nd' Hsig Hnd'. destruct (sig_lookup h1 h c nd Hsig Hnd) as (nd2 & Hnd2 & _ & Hm2 & _). congruence.
Qed.

(** In front of the first return, only candidates. *)
Lemma front_cand L A p B :
  remaining L = A ++ p :: B → Forall isCall A → isCall p → cand es L (idp p).
Proof.
  intros HL HA (e & He & Hk) x Hx (j & k & r & c & Hlt & Hj & Hr & Hid & Hk' & Hc & Hidc).
  assert ((N - S k)%nat = p) as Hp.
  { eapply (entAt_unique _ _ c e); [by apply entAt_at|done|congruence|]. unfold idp in Hidc. by rewrite He in Hidc. }
  assert ((N - S j)%nat ∈ A) as HjA.
  { pose proof (lookup_lt_Some _ _ _ Hj). pose proof (lookup_lt_Some _ _ _ Hk').
    apply (remaining_before L A p B); [done| |lia]. apply remaining_elem. split; [lia|].
    unfold idp. rewrite (entAt_at j r Hj). congruence. }
  rewrite Forall_forall in HA. destruct (HA _ HjA) as (e' & He' & Hke').
  rewrite (entAt_at j r Hj) in He'. congruence.
Qed.

(** The call of an operation that is left. *)
Lemma remaining_call L i : 0 ≤ i < n → i ∉ L → ∃ q, q ∈ remaining L ∧ isCall q ∧ idp q = i.
Proof.
  intros Hi HL. destruct (wf_entry Hwf i callEntry Hi) as (j & e & Hj & Hk & Hid).
  exists (N - S j)%nat. pose proof (entAt_at j e Hj) as He. pose proof (lookup_lt_Some _ _ _ Hj).
  assert (idp (N - S j) = i) as Hidp by (unfold idp; by rewrite He).
  split; [apply remaining_elem; split; [lia|congruence]|]. split; [by exists e|done].
Qed.

Lemma remaining_nil L : remaining L = [] → ∀ i, 0 ≤ i < n → i ∈ L.
Proof.
  intros HL i Hi. destruct (decide (i ∈ L)) as [|Hn]; [done|].
  destruct (remaining_call L i Hi Hn) as (q & Hq & _). rewrite HL in Hq. by apply elem_of_nil in Hq.
Qed.

(** ** The stack *)

Hypothesis Hequal : ∀ st st', equal st st' = true → same_future m st st'.
Implicit Types (cs : list (nat * State)) (h : Heap In Out) (st : State) (A B : list nat).
Local Abbreviation good := (Good m es n).

Definition ids cs : list Z := map (λ c, idp c.1) cs.

Lemma ids_snoc cs e st : ids (cs ++ [(e, st)]) = ids cs ++ [idp e].
Proof using Type. unfold ids. by rewrite map_app. Qed.

(** No operation of [A] leads to a linearization. *)
Definition tried L st A : Prop :=
  ∀ a x st', a ∈ A → opOf es (idp a) = Some x → take1 m st x = Some st' → ¬ good (L ++ [idp a]) st'.

Inductive frames : list (nat * State) → Heap In Out → State → Prop :=
| frames_nil : frames [] h1 (Init m)
| frames_snoc cs h st e x st' h' A B :
    frames cs h st → remaining (ids cs) = A ++ e :: B → Forall isCall A → isCall e → tried (ids cs) st A →
    opOf es (idp e) = Some x → take1 m st x = Some st' → lift e h = Ok h' → unlift e h' = Ok h →
    frames (cs ++ [(e, st)]) h' st'.

Lemma frames_inv cs e st0 h' st' :
  frames (cs ++ [(e, st0)]) h' st' → ∃ h x A B, frames cs h st0 ∧ remaining (ids cs) = A ++ e :: B ∧
    Forall isCall A ∧ isCall e ∧ tried (ids cs) st0 A ∧ opOf es (idp e) = Some x ∧ take1 m st0 x = Some st' ∧
    lift e h = Ok h' ∧ unlift e h' = Ok h.
Proof using Type.
  intros H. remember (cs ++ [(e, st0)]) as cs' eqn:Hcs. destruct H as [|cs2 h st e' x st' h' A B]; [by destruct cs|].
  apply app_inj_tail in Hcs as [-> [= -> ->]]. exists h, x, A, B. done.
Qed.

(** The list of a heap without the operations on the stack. *)
Lemma lift_remaining h L A c B :
  linked h (N :: remaining L) → sig h = sig h1 → remaining L = A ++ c :: B → isCall c →
  ∃ h', lift c h = Ok h' ∧ unlift c h' = Ok h ∧ linked h' (N :: remaining (L ++ [idp c])) ∧ sig h' = sig h1.
Proof.
  intros Hl Hs HL Hc. destruct (remaining_lift L A c B HL Hc) as (B1 & q & C & -> & HL' & Hm).
  pose proof (remaining_NoDup L) as Hnd. assert (N ∉ remaining L) as HN by (intros [? _]%remaining_elem; lia).
  assert (NoDup (N :: remaining L)) as Hnd' by by constructor.
  destruct Hc as (e & He & _). destruct (node_at h c e Hs He) as (nd & Hnd0 & _). specialize (Hm h nd Hs Hnd0).
  assert (∃ D d, N :: A = D ++ [d]) as (D & d & HD).
  { destruct (last (N :: A)) as [d|] eqn:Hd; [apply last_Some in Hd as [D ?]; eauto|by apply last_None in Hd]. }
  assert (∀ T, N :: A ++ T = D ++ d :: T) as Hsplit.
  { intros T. change (N :: A ++ T) with ((N :: A) ++ T). by rewrite HD, <- app_assoc. }
  rewrite HL, Hsplit in Hl, Hnd'. destruct (lift_ok h D d c B1 q C nd Hnd' Hl Hnd0 Hm) as (h' & H1 & H2 & H3 & H4).
  exists h'. rewrite HL', Hsplit. split_and!; [done..|congruence].
Qed.

Record stack_ok cs h st : Prop := mkStackOk {
  so_linked : linked h (N :: remaining (ids cs));
  so_sig : sig h = sig h1;
  so_run : runIds m es (Init m) (ids cs) = Some st;
  so_path : path es (ids cs);
  so_NoDup : NoDup (ids cs);
  so_range : Forall (λ i, 0 ≤ i < n) (ids cs);
  so_calls : Forall (λ c, isCall c.1) cs;
}.

Lemma remaining_all : remaining [] = ptrs N.
Proof using Type.
  unfold remaining. assert (∀ l : list nat, filter (λ p, idp p ∉ []) l = l) as Hf; [|apply Hf].
  induction l as [|p l IH]; [done|]. rewrite filter_cons_True; [by f_equal|apply not_elem_of_nil].
Qed.

Lemma path_snoc xs c : path es xs → cand es xs c → path es (xs ++ [c]).
Proof using Type.
  intros Hp Hc i d Hi. apply lookup_app_Some in Hi as [Hi|[Hge Hi]].
  - pose proof (lookup_lt_Some _ _ _ Hi). rewrite take_app_le by lia. by apply Hp.
  - destruct (i - length xs)%nat as [|k] eqn:Hk; [|done]. injection Hi as <-.
    rewrite take_app_ge by lia. rewrite Hk. cbn. by rewrite app_nil_r.
Qed.

Lemma frames_ok cs h st : frames cs h st → stack_ok cs h st.
Proof.
  induction 1 as [|cs h st e x st' h' A B Hf [Hl Hs Hr Hp Hnd Hrg Hcs] HL HA He Ht Hx Htk Hlift Hun].
  - split; try done; [change (ids []) with ([] : list Z); by rewrite remaining_all|..]; repeat constructor.
  - assert (e ∈ remaining (ids cs)) as Hin by (rewrite HL; apply elem_of_app; right; left).
    apply remaining_elem in Hin as [HeN Hids].
    destruct (lift_remaining h _ A e B Hl Hs HL He) as (h2 & Hl2 & _ & Hlk & Hsg).
    rewrite Hlift in Hl2. injection Hl2 as <-. split; rewrite ?ids_snoc; try done.
    + rewrite runIds_app, Hr. cbn. rewrite Hx. cbn. by rewrite Htk.
    + apply path_snoc; [done|]. by apply (front_cand _ A e B).
    + apply NoDup_app. split; [done|]. split; [|apply NoDup_singleton]. intros y Hy ->%list_elem_of_singleton. done.
    + apply Forall_app. split; [done|]. constructor; [|constructor]. apply idp_range, ptrs_elem, HeN.
    + apply Forall_app. split; [done|]. by repeat constructor.
Qed.

Lemma callIds_ok cs h : sig h = sig h1 → Forall (λ c, isCall c.1) cs → callIds cs h = Ok (ids cs).
Proof.
  intros Hs Hcs. unfold callIds. rewrite (go_for_foldl _ (λ l c, l ++ [idp c.1])).
  - f_equal. unfold ids. clear Hcs. cut (∀ l, foldl (λ l c, l ++ [idp c.1]) l cs = l ++ map (λ c, idp c.1) cs).
    { intros Hc. by rewrite Hc. }
    induction cs as [|c cs IH]; intros l; cbn; [by rewrite app_nil_r|]. by rewrite IH, <- app_assoc.
  - intros l c Hc. rewrite Forall_forall in Hcs. destruct (Hcs c Hc) as (e & He & _).
    destruct (node_at h c.1 e Hs He) as (nd & Hnd & _ & Hid & _). rewrite (load_Ok _ _ _ Hnd). cbn.
    unfold idp. by rewrite He, Hid.
Qed.

(** ** The cache *)

(** A cached set and state: on the stack, or a dead end. *)
Definition cached_ok cs (ce : cacheEntry State) : Prop :=
  ∃ L, stands n (c_linearized ce) L ∧ NoDup L ∧
    ((∃ k, L = take k (ids cs) ∧ runIds m es (Init m) L = Some (c_state ce)) ∨ ¬ good L (c_state ce)).

Definition cache_ok cs (c : gmap Z (list (cacheEntry State))) : Prop :=
  ∀ key l ce, c !! key = Some l → ce ∈ l → cached_ok cs ce.

Lemma cached_push cs e st ce : cached_ok cs ce → cached_ok (cs ++ [(e, st)]) ce.
Proof using Type.
  intros (L & HL & Hnd & Hc). exists L. split; [done|]. split; [done|]. destruct Hc as [(k & Hk & Hr)|Hg]; [left|by right].
  exists (min k (length (ids cs))). split; [|done]. rewrite ids_snoc, take_app_le by lia. rewrite Hk.
  destruct (decide (k ≤ length (ids cs))%nat); [by rewrite Nat.min_l by lia|].
  rewrite Nat.min_r, !take_ge by lia. done.
Qed.

Lemma cached_pop cs e st0 h st ce :
  stack_ok (cs ++ [(e, st0)]) h st → ¬ good (ids (cs ++ [(e, st0)])) st →
  cached_ok (cs ++ [(e, st0)]) ce → cached_ok cs ce.
Proof using Type.
  intros Hst Hg (L & HL & Hnd & Hc). exists L. split; [done|]. split; [done|].
  destruct Hc as [(k & Hk & Hr)|]; [|by right]. destruct (decide (k ≤ length (ids cs))%nat) as [Hle|Hgt].
  - left. exists k. split; [|done]. by rewrite ids_snoc, take_app_le in Hk by lia.
  - right. rewrite take_ge in Hk by (rewrite ids_snoc, length_app; cbn; lia). subst L.
    rewrite (so_run _ _ _ Hst) in Hr. by injection Hr as <-.
Qed.

Lemma cache_push cs h st c e x lin' st' :
  stack_ok cs h st → e ∈ remaining (ids cs) → opOf es (idp e) = Some x → take1 m st x = Some st' →
  stands n lin' (idp e :: ids cs) → cache_ok cs c →
  cache_ok (cs ++ [(e, st)]) (<[hash lin' := default [] (c !! hash lin') ++ [mkCacheEntry lin' st']]> c).
Proof using Type.
  intros Hst [_ He]%remaining_elem Hx Htk Hlin Hc.
  assert (cached_ok (cs ++ [(e, st)]) (mkCacheEntry lin' st')) as Hnew.
  { exists (ids cs ++ [idp e]). cbn. split; [|split; [|left; exists (S (length (ids cs))); split]].
    - eapply stands_ext; [exact Hlin|]. intros i. rewrite elem_of_cons, elem_of_app, list_elem_of_singleton. tauto.
    - apply NoDup_app. split; [apply Hst|]. split; [|apply NoDup_singleton]. by intros y Hy ->%list_elem_of_singleton.
    - rewrite ids_snoc, take_ge; [done|]. rewrite length_app. cbn. lia.
    - rewrite runIds_app, (so_run _ _ _ Hst). cbn. rewrite Hx. cbn. by rewrite Htk. }
  intros key l ce Hl Hce. apply lookup_insert_Some in Hl as [[<- <-]|[_ Hl]]; [|apply cached_push; by eapply Hc].
  apply elem_of_app in Hce as [Hce| ->%list_elem_of_singleton]; [|done].
  destruct (c !! hash lin') as [l|] eqn:Hl; [|by apply elem_of_nil in Hce]. apply cached_push. by eapply Hc.
Qed.

(** What the cache knows is not worth a second try. *)
Lemma cache_hit cs h st c e x lin' st' :
  stack_ok cs h st → cache_ok cs c → e ∈ remaining (ids cs) → opOf es (idp e) = Some x →
  stands n lin' (idp e :: ids cs) → cacheContains equal c (mkCacheEntry lin' st') = true →
  ¬ good (ids cs ++ [idp e]) st'.
Proof using Hwf Hequal.
  intros Hst Hc He Hx Hlin Hhit Hg. unfold cacheContains in Hhit. apply existsb_exists in Hhit as (ce & Hin & Heq).
  cbn [c_linearized c_state] in *. apply andb_true_iff in Heq as [Hl%equals_true Hq%Hequal].
  apply list_elem_of_In in Hin. destruct (c !! hash lin') as [l|] eqn:Hk; [|by apply elem_of_nil in Hin].
  destruct (Hc _ _ _ Hk Hin) as (L & HL & Hnd & Hcase). rewrite <- Hl in HL.
  pose proof (proj1 (stands_eq _ _ _ _ _ Hlin HL) eq_refl) as Hsame.
  apply remaining_elem in He as [_ He].
  assert (L ≡ₚ ids cs ++ [idp e]) as HP.
  { apply NoDup_Permutation; [done| |].
    - apply NoDup_app. split; [apply Hst|]. split; [|apply NoDup_singleton]. by intros y Hy ->%list_elem_of_singleton.
    - intros y. rewrite <- Hsame, elem_of_cons, elem_of_app, list_elem_of_singleton. tauto. }
  destruct Hcase as [(k & -> & _)|Hn].
  - apply He. rewrite <- (take_drop k (ids cs)). apply elem_of_app. left. rewrite HP. apply elem_of_app. right. left.
  - apply Hn, (Good_perm m Hwf _ _ _ (symmetry HP)). by apply (Good_future m Hwf _ st').
Qed.

(** ** The measure *)

(** [ds] read in base [b], the first digit at place [k]. *)
Fixpoint place (b k : Z) (ds : list Z) : Z :=
  match ds with [] => 0 | d :: ds => d * b ^ k + place b (k - 1) ds end.

Lemma place_app b k ds ds' : place b k (ds ++ ds') = place b k ds + place b (k - zlen ds) ds'.
Proof using Type.
  revert k. induction ds as [|d ds IH]; intros k; cbn [app place length].
  - by rewrite Z.sub_0_r.
  - rewrite IH. replace (k - 1 - zlen ds) with (k - Z.of_nat (S (length ds))) by lia. lia.
Qed.

Lemma place_bound b k ds :
  0 < b → zlen ds ≤ k + 1 → Forall (λ d, 0 ≤ d < b) ds → 0 ≤ place b k ds < b ^ (k + 1).
Proof using Type.
  intros Hb Hk Hds. revert k Hk. induction Hds as [|d ds Hd Hds IH]; intros k Hk; cbn [place length] in *.
  - split; [lia|]. by apply Z.pow_pos_nonneg; lia.
  - specialize (IH (k - 1) ltac:(lia)). replace (k - 1 + 1) with k in IH by lia.
    rewrite Z.pow_add_r, Z.pow_1_r by lia. nia.
Qed.

(** A digit that grows outweighs all behind it. *)
Lemma carry b c x y d : 0 < b → 0 < c → x < y → d < b → x * (b * c) + d * c < y * (b * c).
Proof using Type.
  intros Hb Hc Hxy Hd. assert (d * c < b * c) by (by apply Z.mul_lt_mono_pos_r).
  assert ((x + 1) * (b * c) ≤ y * (b * c)); [|lia]. apply Z.mul_le_mono_nonneg_r; lia.
Qed.

(** How far the entry at the cursor is from the first. *)
Definition digit (c : option nat) : Z := match c with Some p => zlen es - Z.of_nat p | None => zlen es + 1 end.

Definition measure (s : Search In Out State) : Z :=
  place (2 * n + 2) n (map (λ c, digit (Some c.1)) (calls s) ++ [digit (cursor s)]).

Lemma digit_range L B A : remaining L = A ++ B → 1 ≤ digit (head B) < 2 * n + 2.
Proof.
  intros HL. pose proof (wf_length Hwf). pose proof (wf_n _ _ Hwf). destruct B as [|p B]; cbn; [lia|].
  assert (p ∈ remaining L) as [? _]%remaining_elem by (rewrite HL; apply elem_of_app; right; left). lia.
Qed.

Lemma remaining_after L A p B q : remaining L = A ++ p :: B → q ∈ B → (q < p)%nat.
Proof.
  intros HL Hq. pose proof (remaining_NoDup L) as Hnd. rewrite HL in Hnd.
  apply NoDup_app in Hnd as (_ & HA & [Hp _]%NoDup_cons).
  destruct (decide (p < q)%nat) as [Hlt|]; [|destruct (decide (p = q)) as [->|]; [done|lia]].
  exfalso. apply (HA q); [|by right]. apply (remaining_before L A p B); [done| |done].
  rewrite HL. apply elem_of_app. by right; right.
Qed.

Lemma digit_next L A p B : remaining L = A ++ p :: B → digit (Some p) < digit (head B).
Proof.
  intros HL. destruct B as [|q B]; cbn; [lia|]. pose proof (remaining_after L A p (q :: B) q HL ltac:(left)). lia.
Qed.

Lemma ids_length cs h st : stack_ok cs h st → zlen cs ≤ n.
Proof.
  intros Hst. assert (ids cs ⊆+ seqZ 0 n) as Hs.
  { apply NoDup_submseteq; [apply Hst|]. intros i Hi. apply elem_of_seqZ.
    pose proof (so_range _ _ _ Hst) as Hr. rewrite Forall_forall in Hr. specialize (Hr i Hi). lia. }
  apply submseteq_length in Hs. unfold ids in Hs. rewrite length_map, length_seqZ in Hs.
  pose proof (wf_n _ _ Hwf). lia.
Qed.

(** ** One iteration *)

Definition longest_ok (l : list (option seqPtr)) : Prop :=
  length l = Z.to_nat n ∧
  ∀ i p xs, l !! i = Some (Some (p, xs)) → Z.of_nat i ∈ xs ∧ legal_prefix m es n xs.

(** The operations of [A], in front of the cursor, have been tried; [B] is
    from the cursor on. *)
Record inv (s : Search In Out State) A B : Prop := mkInv {
  i_frames : frames (calls s) (heap s) (state s);
  i_split : remaining (ids (calls s)) = A ++ B;
  i_cursor : cursor s = head B;
  i_calls : Forall isCall A;
  i_tried : tried (ids (calls s)) (state s) A;
  i_lin : stands n (linearized s) (ids (calls s));
  i_cache : cache_ok (calls s) (cache s);
  i_longest : longest_ok (longest s);
}.

(** An iteration that goes on. *)
Definition progress (s s' : Search In Out State) : Prop :=
  (∃ A B, inv s' A B) ∧ measure s < measure s'.

Lemma stack_prefix cs h st : stack_ok cs h st → legal_prefix m es n (ids cs).
Proof using Type. intros []. split; [done|done|by eexists|done]. Qed.

Lemma tried_snoc L st A p :
  tried L st A → (∀ x st', opOf es (idp p) = Some x → take1 m st x = Some st' → ¬ good (L ++ [idp p]) st') →
  tried L st (A ++ [p]).
Proof using Type. intros HA Hp a x st' [Ha| ->%list_elem_of_singleton]%elem_of_app; [by apply HA|apply Hp]. Qed.

(** The node at the cursor. *)
Lemma cursor_node s A p B :
  inv s A (p :: B) → ∃ nd e, heap s !! p = Some nd ∧ next nd = head B ∧ entAt p = Some e ∧
    nvalue nd = Some (value e) ∧ nid nd = idp p ∧
    match kind e with
    | returnEntry => nmatch nd = None
    | callEntry => ∃ q r, nmatch nd = Some q ∧ entAt q = Some r ∧ kind r = returnEntry ∧ id r = id e
    end.
Proof.
  intros Hi. pose proof (frames_ok _ _ _ (i_frames _ _ _ Hi)) as Hst.
  assert (p ∈ remaining (ids (calls s))) as [Hp _]%remaining_elem.
  { rewrite (i_split _ _ _ Hi). apply elem_of_app. right. left. }
  apply ptrs_elem, entAt_ptr in Hp as [e He].
  destruct (node_at (heap s) p e (so_sig _ _ _ Hst) He) as (nd & Hnd & Hv & Hid & Hm).
  exists nd, e. split; [done|]. split.
  - pose proof (so_linked _ _ _ Hst) as Hl. rewrite (i_split _ _ _ Hi) in Hl.
    destruct (Hl (N :: A) p B eq_refl) as (nd' & Hnd' & Hn & _). congruence.
  - split_and!; [done..| |].
    + unfold idp. by rewrite He.
    + destruct (kind e); [|done]. destruct Hm as (q & r & ? & ? & ? & ? & ?). by exists q, r.
Qed.

(** On to the next entry. *)
Lemma inv_skip s A p B :
  inv s A (p :: B) → isCall p →
  (∀ x st', opOf es (idp p) = Some x → take1 m (state s) x = Some st' → ¬ good (ids (calls s) ++ [idp p]) st') →
  progress s (mkSearch (heap s) (head B) (linearized s) (cache s) (calls s) (state s) (longest s) (S (tick s))).
Proof.
  intros [Hf Hs Hc HA Ht Hl Hca Hlo] Hp Hno. split.
  - exists (A ++ [p]), B. split; cbn; try done.
    + by rewrite <- app_assoc.
    + apply Forall_app. split; [done|]. by repeat constructor.
    + by apply tried_snoc.
  - unfold measure. cbn. rewrite !place_app. cbn [place]. rewrite Hc. cbn [head].
    pose proof (digit_next _ _ _ _ Hs). pose proof (ids_length _ _ _ (frames_ok _ _ _ Hf)).
    pose proof (wf_n _ _ Hwf). rewrite !length_map.
    assert (0 < (2 * n + 2) ^ (n - zlen (calls s))) by (apply Z.pow_pos_nonneg; lia). nia.
Qed.

(** The operation at the cursor is placed. *)
Lemma inv_push s A p B x st' lin' c' :
  inv s A (p :: B) → isCall p → opOf es (idp p) = Some x → take1 m (state s) x = Some st' →
  stands n lin' (idp p :: ids (calls s)) → cache_ok (calls s ++ [(p, state s)]) c' →
  ∃ h' hn, lift p (heap s) = Ok h' ∧ h' !! N = Some hn ∧
    progress s (mkSearch h' (next hn) lin' c' (calls s ++ [(p, state s)]) st' (longest s) (S (tick s))).
Proof.
  intros [Hf Hs Hc HA Ht Hl Hca Hlo] Hp Hx Htk Hlin Hc'. pose proof (frames_ok _ _ _ Hf) as Hst.
  destruct (lift_remaining (heap s) _ A p B (so_linked _ _ _ Hst) (so_sig _ _ _ Hst) Hs Hp) as (h' & Hlift & Hun & Hlk & _).
  destruct (Hlk [] N _ eq_refl) as (hn & Hhn & Hnext & _). exists h', hn. split; [done|]. split; [done|].
  assert (frames (calls s ++ [(p, state s)]) h' st') as Hf' by by eapply frames_snoc. split.
  - exists [], (remaining (ids (calls s) ++ [idp p])). split; cbn; rewrite ?ids_snoc; try done.
    + by intros a ? ? ?%elem_of_nil.
    + eapply stands_ext; [exact Hlin|]. intros i. rewrite elem_of_cons, elem_of_app, list_elem_of_singleton. tauto.
  - pose proof (ids_length _ _ _ (frames_ok _ _ _ Hf')) as Hlen. rewrite length_app in Hlen. cbn in Hlen.
    unfold measure. cbn. rewrite Hc. cbn [head]. rewrite map_app, !place_app. cbn [place map fst]. rewrite length_app, !length_map.
    cbn [length]. rewrite Hnext.
    pose proof (digit_range _ (remaining (ids (calls s) ++ [idp p])) [] eq_refl) as Hd.
    replace (n - Z.of_nat (length (calls s) + 1)) with (n - zlen (calls s) - 1) by lia.
    assert (0 < (2 * n + 2) ^ (n - zlen (calls s) - 1)) by (apply Z.pow_pos_nonneg; pose proof (wf_n _ _ Hwf); lia).
    change (digit (Some p)) with (zlen es - Z.of_nat p). nia.
Qed.

Lemma tryCall_ok s A p B nd :
  inv s A (p :: B) → heap s !! p = Some nd → is_Some (nmatch nd) →
  ∃ s', tryCall m equal N p nd s = Ok s' ∧ progress s s'.
Proof using All.
  intros Hi Hnd [q0 Hq0]. destruct (cursor_node s A p B Hi) as (nd' & e & Hnd' & Hnext & He & Hv & Hid & Hm).
  replace nd' with nd in * by congruence. clear Hnd'.
  pose proof (frames_ok _ _ _ (i_frames _ _ _ Hi)) as Hst.
  destruct (kind e) eqn:Hk; [|congruence]. destruct Hm as (q & r & Hq & Hr & Hkr & Hrid).
  assert (isCall p) as Hp by by exists e.
  destruct (node_at (heap s) q r (so_sig _ _ _ Hst) Hr) as (mt & Hmt & Hvr & _).
  assert (p ∈ remaining (ids (calls s))) as Hin by (rewrite (i_split _ _ _ Hi); apply elem_of_app; right; left).
  pose proof (entAt_index _ _ He) as [_ Hei]. pose proof (entAt_index _ _ Hr) as [_ Hri].
  destruct (opOf_Some Hwf _ _ _ _ Hei Hk Hri Hkr Hrid) as (x & o & Hx & Ho & Hop).
  assert (idp p = id e) as Hidp by (unfold idp; by rewrite He). rewrite <- Hidp in Hop.
  unfold tryCall. rewrite Hq, (load_Ok _ _ _ Hmt). cbn [mbind Res_bind]. unfold stepNode. rewrite Hv, Hvr, Hx, Ho.
  cbn [mbind Res_bind]. destruct (Step m (state s) x o) as [ok st'] eqn:Hstep.
  assert (∀ y, opOf es (idp p) = Some y → take1 m (state s) y = if ok then Some st' else None) as Htk.
  { intros y Hy. rewrite Hop in Hy. injection Hy as <-. unfold take1. cbn. by rewrite Hstep. }
  rewrite Hnext. destruct ok.
  - destruct (set_stands _ _ _ (idp p) (i_lin _ _ _ Hi)) as (lin' & Hset & Hlin); [apply idp_range, ptrs_elem; by apply remaining_elem in Hin as [? _]|].
    rewrite Hid, Hset. cbn [mbind Res_bind].
    destruct (cacheContains equal (cache s) (mkCacheEntry lin' st')) eqn:Hhit.
    + eexists. split; [done|]. apply (inv_skip s A p B); [done|done|]. intros y st2 Hy Hy2.
      rewrite (Htk y Hy) in Hy2. injection Hy2 as <-.
      eapply (cache_hit _ _ _ (cache s) p y lin'); try done. apply Hi.
    + cbn [mbind Res_bind].
      destruct (inv_push s A p B (x, o) st' lin'
        (<[hash lin' := default [] (cache s !! hash lin') ++ [mkCacheEntry lin' st']]> (cache s)) Hi Hp Hop (Htk _ Hop) Hlin)
        as (h' & hn & Hlift & Hhn & Hpr).
      { apply (cache_push _ (heap s) _ _ _ (x, o)); try done; [by apply Htk|apply Hi]. }
      rewrite Hlift. cbn [mbind Res_bind]. rewrite (load_Ok _ _ _ Hhn). cbn [mbind Res_bind]. eexists. split; [done|exact Hpr].
  - eexists. split; [done|]. apply (inv_skip s A p B); [done|done|]. intros y st2 Hy Hy2. by rewrite (Htk y Hy) in Hy2.
Qed.

(** The sequence of the stack goes to the longest of its operations. *)
Lemma recordLongest_ok fresh cs h st l :
  stack_ok cs h st → longest_ok l → ∃ l', recordLongest fresh cs h l = Ok l' ∧ longest_ok l'.
Proof.
  intros Hst Hl. unfold recordLongest. rewrite (callIds_ok cs h) by apply Hst. cbn [mbind Res_bind].
  match goal with |- context [go_for ?f l ?xs] =>
    destruct (go_for_inv (λ l (_ : list Z), longest_ok l) f xs l) as (l' & Hf & Hl'); [exact Hl| |by exists l'] end.
  intros l1 pre i post Hids [Hlen H1]. cbn.
  assert (i ∈ ids cs) as Hi by (rewrite Hids; apply elem_of_app; right; left).
  pose proof (so_range _ _ _ Hst) as Hr. rewrite Forall_forall in Hr. specialize (Hr i Hi).
  destruct (go_index_in_range l1 i) as (cur & Hcur & Hlk); [lia|]. rewrite Hcur. cbn [mbind Res_bind].
  destruct (match cur with Some p => _ | None => true end); [|by exists l1].
  eexists. split; [by apply go_store_Ok; split; [lia|]|]. split; [by rewrite length_insert|].
  intros j p xs Hj. destruct (decide (j = Z.to_nat i)) as [->|Hne].
  - rewrite list_lookup_insert_eq in Hj by (by eapply lookup_lt_Some). injection Hj as <- <-.
    rewrite Z2Nat.id by lia. split; [done|]. by eapply stack_prefix.
  - rewrite list_lookup_insert_ne in Hj by done. by apply (H1 j p).
Qed.

(** At a return that is left, what is on the stack is a dead end. *)
Lemma stuck L st A p B :
  remaining L = A ++ p :: B → ¬ isCall p → tried L st A → ¬ good L st.
Proof.
  intros HL Hp Ht Hg. assert (p ∈ remaining L) as [HpN HpL]%remaining_elem by (rewrite HL; apply elem_of_app; right; left).
  apply (Good_inv m Hwf) in Hg as [HP|(c & x & st' & HcL & Hc & Hcand & Hx & Htk & Hg)].
  { apply HpL. rewrite HP. apply elem_of_seqZ. pose proof (idp_range p). rewrite ptrs_elem in *. lia. }
  destruct (remaining_call L c Hc HcL) as (q & Hq & Hcall & <-). pose proof Hq as Hq'. rewrite HL in Hq'.
  apply elem_of_app in Hq' as [Hq'|[->|Hq']%elem_of_cons]; [by eapply Ht|done|].
  pose proof (remaining_after L A p B q HL Hq') as Hlt.
  apply ptrs_elem, entAt_ptr in HpN as [r Hr]. apply (Hcand (idp p) HpL).
  destruct Hcall as (e & He & Hk). pose proof (entAt_index _ _ Hr) as [? Hri]. pose proof (entAt_index _ _ He) as [? Hei].
  exists (N - S p)%nat, (N - S q)%nat, r, e. unfold idp. rewrite Hr, He. split_and!; try done; [lia|].
  destruct (kind r) eqn:Hkr; [|done]. exfalso. apply Hp. by exists r.
Qed.

Lemma backtrack_ok computePartial s A p B :
  inv s A (p :: B) → ¬ isCall p →
  (∃ s', backtrack computePartial s = Ok (inl s') ∧ progress s s') ∨
  (backtrack computePartial s = Ok (inr (false, longest s)) ∧ ¬ linearizable m es n).
Proof.
  intros Hi Hp. pose proof (stuck _ _ _ _ _ (i_split _ _ _ Hi) Hp (i_tried _ _ _ Hi)) as Hstuck.
  pose proof (frames_ok _ _ _ (i_frames _ _ _ Hi)) as Hst. unfold backtrack.
  destruct s as [h cur lin c cs0 st' lo tk].
  cbn [heap cursor linearized cache calls state longest tick] in *.
  destruct cs0 as [|[e st] cs _] using rev_ind; [right; split; [done|]|left].
  { rewrite <- (Good_linearizable m Hwf). pose proof (i_frames _ _ _ Hi) as Hf. cbn in Hf.
    inversion Hf as [Hnil|? ? ? ? ? ? ? ? ? ? ? ? ? ? ? ? ? ? Hnil]; [by subst|by destruct cs]. }
  rewrite last_snoc. destruct Hi as [Hf Hs Hc HA Ht Hl Hca Hlo].
  cbn [heap cursor linearized cache calls state longest tick] in *.
  assert (∃ lo', (if computePartial then recordLongest (S tk) (cs ++ [(e, st)]) h lo else Ok lo) = Ok lo' ∧ longest_ok lo')
    as (lo' & -> & Hlo').
  { destruct computePartial; [by eapply recordLongest_ok|eauto]. }
  cbn [mbind Res_bind]. apply frames_inv in Hf as (h0 & x & A0 & B0 & Hf0 & HL & HA0 & He & Ht0 & Hx & Htk & Hlift & Hun).
  pose proof (frames_ok _ _ _ Hf0) as Hst0. destruct He as (en & Hen & Hk).
  destruct (node_at h e en (so_sig _ _ _ Hst) Hen) as (nd & Hnd & _ & Hid & _). rewrite (load_Ok _ _ _ Hnd). cbn [mbind Res_bind].
  pose proof (so_NoDup _ _ _ Hst) as Hnd1. rewrite ids_snoc in *.
  assert (idp e ∉ ids cs) as Hnew.
  { apply NoDup_app in Hnd1 as (_ & Hd & _). intros Hin. apply (Hd _ Hin). left. }
  assert (nid nd = idp e) as -> by (unfold idp; by rewrite Hen).
  destruct (clear_stands n lin (ids cs) (idp e)) as (lin' & -> & Hlin); [|done|].
  { eapply stands_ext; [exact Hl|]. intros i. rewrite elem_of_cons, elem_of_app, list_elem_of_singleton. tauto. }
  cbn [mbind Res_bind]. rewrite Hun. cbn [mbind Res_bind].
  pose proof (so_linked _ _ _ Hst0) as Hlk. rewrite HL in Hlk. destruct (Hlk (N :: A0) e B0 eq_refl) as (nd0 & Hnd0 & Hnext & _).
  rewrite (load_Ok _ _ _ Hnd0). cbn [mbind Res_bind]. eexists. split; [done|].
  rewrite length_app. cbn [length]. rewrite Nat.add_sub, take_app_length. split.
  - exists (A0 ++ [e]), B0. split; cbn; try done.
    + by rewrite <- app_assoc.
    + apply Forall_app. split; [done|]. repeat constructor. by exists en.
    + apply tried_snoc; [done|]. intros y st2 Hy Hy2. rewrite Hx in Hy. injection Hy as <-. rewrite Htk in Hy2. by injection Hy2 as <-.
    + intros key l ce Hk' Hce. apply (cached_pop _ e st h st'); [done|by rewrite ids_snoc|by eapply Hca].
  - pose proof (ids_length _ _ _ Hst) as Hlen. rewrite length_app in Hlen. cbn in Hlen. unfold measure. cbn [calls cursor].
    rewrite map_app, !place_app, length_app, !length_map. cbn [map place fst length]. rewrite Hnext.
    pose proof (digit_next _ _ _ _ HL) as Hd. rewrite Hc. pose proof (digit_range _ _ _ Hs) as Hd2.
    replace (n - Z.of_nat (length cs + 1)) with (n - zlen cs - 1) by lia.
    replace ((2 * n + 2) ^ (n - zlen cs)) with ((2 * n + 2) * (2 * n + 2) ^ (n - zlen cs - 1)).
    + pose proof (carry (2 * n + 2) ((2 * n + 2) ^ (n - zlen cs - 1)) _ _ (digit (head (p :: B)))
        ltac:(lia) ltac:(apply Z.pow_pos_nonneg; lia) Hd ltac:(lia)). lia.
    + rewrite <- Z.pow_succ_r by lia. f_equal. lia.
Qed.

(** The last return left is not in front of its call. *)
Lemma calls_end L A : remaining L = A → Forall isCall A → A = [].
Proof.
  intros HL HA. destruct A as [|c A _] using rev_ind; [done|]. apply Forall_app in HA as [_ [Hc _]%Forall_cons].
  destruct (remaining_lift L A c [] HL Hc) as (B1 & q & C & Hq & _). by destruct B1.
Qed.

Definition result_ok (killed : Prop) (r : Res (bool * list (option seqPtr))) : Prop :=
  ∃ b l, r = Ok (b, l) ∧ longest_ok l ∧
    if b : bool then linearizable m es n else killed ∨ ¬ linearizable m es n.

Lemma finished s A B :
  inv s A B → remaining (ids (calls s)) = [] → linearizable m es n ∧ ids (calls s) ≡ₚ seqZ 0 n.
Proof.
  intros Hi Hr. pose proof (frames_ok _ _ _ (i_frames _ _ _ Hi)) as Hst.
  assert (ids (calls s) ≡ₚ seqZ 0 n) as HP.
  { apply NoDup_Permutation; [apply Hst|apply NoDup_seqZ|]. intros i. rewrite elem_of_seqZ. split.
    - intros Hin. pose proof (so_range _ _ _ Hst) as Hrg. rewrite Forall_forall in Hrg. specialize (Hrg i Hin). lia.
    - intros Hin. apply (remaining_nil _ Hr). lia. }
  split; [|done]. exists (ids (calls s)). split; [done|]. split; [by eexists; apply Hst|].
  apply (path_respects Hwf); [done|apply Hst].
Qed.

Lemma iteration_ok computePartial kill s A B :
  inv s A B →
  match iterationF m equal computePartial kill n N s with
  | inl s' => progress s s'
  | inr r => result_ok (∃ t, kill t = true) r
  end.
Proof using All.
  intros Hi. pose proof (frames_ok _ _ _ (i_frames _ _ _ Hi)) as Hst. unfold iterationF, iteration.
  destruct (so_linked _ _ _ Hst [] N _ eq_refl) as (hn & Hhn & Hnext & _).
  rewrite (load_Ok _ _ _ Hhn). cbn [mbind Res_bind]. rewrite Hnext.
  destruct (head (remaining (ids (calls s)))) as [p0|] eqn:Hhead.
  - destruct (kill (tick s)) eqn:Hkill.
    { exists false, (longest s). split; [done|]. split; [apply Hi|]. left. eauto. }
    destruct B as [|p B].
    { pose proof (i_split _ _ _ Hi) as Hs. rewrite app_nil_r in Hs.
      rewrite (calls_end _ _ Hs (i_calls _ _ _ Hi)) in Hs. by rewrite Hs in Hhead. }
    destruct (cursor_node s A p B Hi) as (nd & e & Hnd & _ & He & _ & _ & Hm).
    rewrite (i_cursor _ _ _ Hi). cbn [head]. rewrite (load_Ok _ _ _ Hnd). cbn [mbind Res_bind].
    destruct (kind e) eqn:Hk.
    + destruct Hm as (q & r & Hq & _). destruct (tryCall_ok s A p B nd Hi Hnd) as (s' & Hs' & Hpr); [by eexists|].
      rewrite Hq, Hs'. done.
    + rewrite Hm. destruct (backtrack_ok computePartial s A p B Hi) as [(s' & -> & Hpr)|[-> Hno]].
      * intros (e' & He' & Hk'). congruence.
      * done.
      * exists false, (longest s). split; [done|]. split; [apply Hi|by right].
  - apply head_None in Hhead. destruct (finished s A B Hi Hhead) as [Hlin HP].
    rewrite (callIds_ok _ _ (so_sig _ _ _ Hst) (so_calls _ _ _ Hst)). cbn [mbind Res_bind].
    eexists true, _. split; [done|]. split; [|done]. split; [by rewrite length_replicate|].
    intros i p xs Hx. apply lookup_replicate in Hx as [Heq Hlt]. injection Heq as -> ->. split; [|by eapply stack_prefix].
    rewrite HP. apply elem_of_seqZ. lia.
Qed.
End search_proofs.

Arguments longest_ok {In Out State} m es n l.
Arguments inv {In Out State} m es n h1 s A B.
Arguments result_ok {In Out State} m es n killed r.
Arguments measure {In Out State} es n s.

(** ** The whole search *)

(** A loop that keeps [I] and makes [mu] grow comes to an end. *)
Lemma iterate_done {A B} (f : A → A + B) (I : A → Prop) (Q : B → Prop) (mu : A → Z) bound p s :
  (∀ a, I a → match f a with inl a' => I a' ∧ mu a < mu a' | inr b => Q b end) →
  (∀ a, I a → 0 ≤ mu a < bound) → I s → bound ≤ Z.pos p →
  ∃ b, iterate f p (inl s) = inr b ∧ Q b.
Proof.
  intros Hf Hmu Hs Hp. set (P k r := match r with inl a => I a ∧ k ≤ mu a | inr b => Q b end).
  assert (∀ k a, P k (inl a) → P (k + 1) (f a)) as Hstep.
  { intros k a [Ha Hk]. specialize (Hf a Ha). unfold P. destruct (f a); [|done]. split; [tauto|lia]. }
  assert (∀ q k r, P k r → P (k + Z.pos q) (iterate f q r)) as Hit.
  { induction q as [q IH|q IH|]; intros k [a|b] Hr; cbn [iterate]; try done; [..|by apply Hstep].
    - replace (k + Z.pos q~1) with (k + 1 + Z.pos q + Z.pos q) by lia. apply IH, IH, Hstep, Hr.
    - replace (k + Z.pos q~0) with (k + Z.pos q + Z.pos q) by lia. apply IH, IH, Hr. }
  specialize (Hit p 0 (inl s) (conj Hs (proj1 (Hmu s Hs)))). unfold P in Hit.
  destruct (iterate f p (inl s)) as [a|b]; [|eauto]. destruct Hit as [Ha Hk]. pose proof (Hmu a Ha). lia.
Qed.

Section checked.
Context {In Out State : Type} (m : Model In Out State) (equal : State → State → bool).
Context (Hequal : ∀ st st', equal st st' = true → same_future m st st').
Context {es : list (entry In Out)} {n : Z} (Hwf : well_formed es n).

(** The search of well-formed entries always ends, without a panic, in the
    right answer. *)
Lemma search_decides computePartial kill :
  result_ok m es n (∃ t, kill t = true) (checkSingle m equal es computePartial kill).
Proof using All.
  destruct (makeLinkedEntries_ok es (wf_matched Hwf)) as (h0 & Hmk & [Hlen Hl0 Hn0]).
  pose proof (wf_length Hwf) as Hes. pose proof (wf_n _ _ Hwf) as Hn.
  unfold checkSingle. rewrite Hmk. cbn [mbind Res_bind]. unfold length_.
  rewrite (lengthFrom_ok h0 _ _ Hl0) by (rewrite ptrs_length; lia). cbn [mbind Res_bind]. rewrite ptrs_length, Hlen.
  assert (zlen es `quot` 2 = n) as -> by (rewrite Hes, Z.mul_comm; by apply Z.quot_mul).
  destruct (insertBefore_ok h0 (ptrs (length es)) (mkNode None None (-1) None None) (ptrs_NoDup _) Hl0 eq_refl eq_refl)
    as (h1 & Hin & Hl1 & Hs1). rewrite Hlen in *. rewrite Hin. cbn [mbind Res_bind].
  assert (∀ j e, es !! j = Some e → ∃ s, sig h1 !! (length es - S j)%nat = Some s ∧ nodeOf es j e s) as Hnodes.
  { intros j e He. destruct (Hn0 j e He) as (s & Hs & Hno). exists s. split; [|done]. rewrite Hs1. unfold sig in *.
    rewrite map_app. by apply lookup_app_l_Some. }
  set (s0 := mkSearch _ _ _ _ _ _ _ _).
  assert (inv m es n h1 s0 [] (ptrs (length es))) as Hinit.
  { split; cbn; try done.
    - constructor.
    - apply remaining_all.
    - by intros a ? ? ?%elem_of_nil.
    - by apply newBitset_stands.
    - split; [by rewrite length_replicate|]. intros i p xs Hx. by apply lookup_replicate in Hx as [Heq _]. }
  destruct (iterate_done (iterationF m equal computePartial kill n (length es))
    (λ s, ∃ A B, inv m es n h1 s A B) (result_ok m es n (∃ t, kill t = true)) (measure es n)
    ((2 * n + 2) ^ (n + 1)) (searchFuel n) s0) as (r & -> & Hr); [..|done].
  - intros s (A & B & Hi). pose proof (iteration_ok m equal Hwf h1 Hl1 Hnodes Hequal computePartial kill s A B Hi) as Hit.
    by destruct (iterationF _ _ _ _ _ _ _).
  - intros s (A & B & Hi). pose proof (frames_ok m Hwf h1 Hl1 Hnodes _ _ _ (i_frames _ _ _ _ _ Hi)) as Hst.
    unfold measure. apply place_bound; [lia|..].
    + rewrite length_app, length_map. pose proof (ids_length m Hwf h1 Hl1 Hnodes _ _ _ Hst). cbn. lia.
    + apply Forall_app. split.
      * apply Forall_map, Forall_forall. intros c Hc. pose proof (so_calls _ _ _ _ _ Hst) as Hcs.
        rewrite Forall_forall in Hcs. destruct (Hcs c Hc) as (e & He & _). apply entAt_index in He as [? _].
        cbn. lia.
      * constructor; [|constructor]. rewrite (i_cursor _ _ _ _ _ Hi).
        pose proof (digit_range Hwf h1 Hl1 Hnodes _ _ _ (i_split _ _ _ _ _ Hi)). lia.
  - by exists [], (ptrs (length es)).
  - unfold searchFuel. rewrite Z2Pos.id by (apply Z.pow_pos_nonneg; lia).
    apply Z.pow_le_mono_r; lia.
Qed.
End checked.
