(* ===== verification/PorcCheck.v ===== *)
(** * What the checker answers

    For operations that return after they are called, [makeEntries] is well
    formed and its order of entries is the order of time, except that a return
    and a call of the same time come in any order.  So [checkSingle] finds an
    order of the operations in which none comes after one that began when it
    had returned, and [checkParallel] puts the answers of the partitions
    together. *)

From S2P Require Import Prelude PorcBitset Porcupine PorcList PorcupineSpec PorcSearch.
Open Scope Z_scope.

Section ops.
Context {In Out State : Type} `{!SortByTime In Out} (m : Model In Out State).
Local Abbreviation Op := (Operation In Out).
Implicit Types (h l : list Op) (o : Op).

Definition io o : In * Out := (Input o, Output o).

(** [h] has an order that the model accepts and in which no operation comes
    after one that is called [before] it returns. *)
Definition linearizableOps (before : Z → Z → Prop) h : Prop :=
  ∃ l, l ≡ₚ h ∧ is_Some (runOps m (Init m) (io <$> l)) ∧
    ∀ i j a b, (i < j)%nat → l !! i = Some a → l !! j = Some b → ¬ before (Return b) (Call a).

Definition timed h : Prop := Forall (λ o, Call o < Return o) h.

(** ** The entries of a history *)

Definition callOf (i : Z) o : entry In Out := mkEntry callEntry (inl (Input o)) i (Call o) (O_ClientId o).
Definition returnOf (i : Z) o : entry In Out := mkEntry returnEntry (inr (Output o)) i (Return o) (O_ClientId o).

Lemma entriesFrom_elem i h e :
  e ∈ entriesFrom i h ↔ ∃ k o, h !! k = Some o ∧ (e = callOf (i + Z.of_nat k) o ∨ e = returnOf (i + Z.of_nat k) o).
Proof using Type.
  revert i. induction h as [|o h IH]; intros i; cbn [entriesFrom].
  - rewrite elem_of_nil. split; [done|]. by intros (k & o & Hk & _).
  - rewrite !elem_of_cons, IH. split.
    + intros [->|[->|(k & o' & Hk & He)]]; [exists 0%nat, o; rewrite Z.add_0_r; auto..|].
      exists (S k), o'. replace (i + Z.of_nat (S k)) with (i + 1 + Z.of_nat k) by lia. done.
    + intros ([|k] & o' & Hk & He); cbn in Hk.
      * injection Hk as ->. rewrite Z.add_0_r in He. destruct He as [->| ->]; auto.
      * right; right. exists k, o'. replace (i + 1 + Z.of_nat k) with (i + Z.of_nat (S k)) by lia. done.
Qed.

Lemma makeEntries_elem h e :
  e ∈ makeEntries h ↔ ∃ i o, 0 ≤ i ∧ h !! Z.to_nat i = Some o ∧ (e = callOf i o ∨ e = returnOf i o).
Proof using Type.
  unfold makeEntries. rewrite (sort_by_time_perm (entriesFrom 0 h)), entriesFrom_elem. split.
  - intros (k & o & Hk & He). exists (Z.of_nat k), o. rewrite Nat2Z.id. split_and!; [lia|done..].
  - intros (i & o & Hi & Hk & He). exists (Z.to_nat i), o. split; [done|]. by rewrite Z.add_0_l, Z2Nat.id.
Qed.

Lemma entriesFrom_ids i h :
  (λ e, (kind e, id e)) <$> entriesFrom i h = seqZ i (zlen h) ≫= (λ i, [(callEntry, i); (returnEntry, i)]).
Proof using Type.
  revert i. induction h as [|o h IH]; intros i; [done|]. cbn [entriesFrom length fmap list_fmap].
  rewrite seqZ_cons by lia. cbn [mbind list_bind app kind id]. do 2 f_equal.
  replace (Z.pred (Z.of_nat (S (length h)))) with (zlen h) by lia. rewrite <- Z.add_1_r. apply IH.
Qed.

(** In the order of time. *)
Lemma makeEntries_before h j k e e' :
  makeEntries h !! j = Some e → makeEntries h !! k = Some e' → time e < time e' → (j < k)%nat.
Proof using Type.
  intros Hj Hk Ht. destruct (decide (j < k)%nat) as [|Hn]; [done|exfalso].
  destruct (decide (j = k)) as [->|Hne]; [rewrite Hj in Hk; injection Hk as ->; lia|].
  pose proof (sort_by_time_sorted (entriesFrom 0 h)) as Hs.
  destruct (split_two _ k j _ _ ltac:(lia) Hk Hj) as (U & V & W & E). unfold makeEntries in E. rewrite E in Hs.
  apply StronglySorted_app_1_r in Hs. apply StronglySorted_inv in Hs as [_ Hf]. rewrite Forall_forall in Hf.
  specialize (Hf e ltac:(apply elem_of_app; right; left)). unfold time_le in Hf. lia.
Qed.

Lemma makeEntries_sorted h j k e e' :
  makeEntries h !! j = Some e → makeEntries h !! k = Some e' → (j < k)%nat → time e ≤ time e'.
Proof using Type.
  intros Hj Hk Hlt. destruct (decide (time e' < time e)) as [Ht|]; [|lia].
  pose proof (makeEntries_before h k j e' e Hk Hj Ht). lia.
Qed.

Lemma makeEntries_wf h : timed h → well_formed (makeEntries h) (zlen h).
Proof using Type.
  intros Ht. split; [| |..|lia].
  - unfold makeEntries. rewrite (sort_by_time_perm (entriesFrom 0 h)). by rewrite entriesFrom_ids.
  - intros j r Hj Hr. pose proof Hj as (i & o & Hi & Ho & [->| ->])%list_elem_of_lookup_2%makeEntries_elem; [done|].
    assert (callOf i o ∈ makeEntries h) as [k Hk]%list_elem_of_lookup by (apply makeEntries_elem; eauto 6).
    exists k, (callOf i o). split_and!; [|done..].
    eapply makeEntries_before; [done..|]. cbn. eapply Forall_lookup_1 in Ht; [|done]. done.
  - intros e (i & o & _ & _ & [->| ->])%makeEntries_elem; done.
Qed.

Lemma opOf_makeEntries h i o : timed h → 0 ≤ i → h !! Z.to_nat i = Some o → opOf (makeEntries h) i = Some (io o).
Proof using Type.
  intros Ht Hi Ho. assert (callOf i o ∈ makeEntries h) as [j Hj]%list_elem_of_lookup by (apply makeEntries_elem; eauto 6).
  assert (returnOf i o ∈ makeEntries h) as [k Hk]%list_elem_of_lookup by (apply makeEntries_elem; eauto 6).
  destruct (opOf_Some (makeEntries_wf h Ht) j k _ _ Hj eq_refl Hk eq_refl eq_refl) as (x & y & Hx & Hy & Hop).
  cbn in *. injection Hx as <-. injection Hy as <-. done.
Qed.

(** [precedes] is the order of time, up to ties. *)
Lemma precedes_time h a b :
  precedes (makeEntries h) a b →
  ∃ oa ob, h !! Z.to_nat a = Some oa ∧ h !! Z.to_nat b = Some ob ∧ Return oa ≤ Call ob.
Proof using Type.
  intros (j & k & r & c & Hlt & Hj & Hr & Ha & Hk & Hc & Hb).
  pose proof (makeEntries_sorted _ _ _ _ _ Hj Hk Hlt) as Ht.
  apply list_elem_of_lookup_2, makeEntries_elem in Hj as (i & oa & _ & Hoa & [->| ->]); [done|].
  apply list_elem_of_lookup_2, makeEntries_elem in Hk as (i' & ob & _ & Hob & [->| ->]); [|done].
  cbn in *. subst. eauto.
Qed.

Lemma time_precedes h a b oa ob :
  0 ≤ a → 0 ≤ b → h !! Z.to_nat a = Some oa → h !! Z.to_nat b = Some ob → Return oa < Call ob →
  precedes (makeEntries h) a b.
Proof using Type.
  intros Ha Hb Hoa Hob Hlt.
  assert (returnOf a oa ∈ makeEntries h) as [j Hj]%list_elem_of_lookup by (apply makeEntries_elem; eauto 6).
  assert (callOf b ob ∈ makeEntries h) as [k Hk]%list_elem_of_lookup by (apply makeEntries_elem; eauto 6).
  exists j, k, (returnOf a oa), (callOf b ob). split_and!; try done. by eapply makeEntries_before.
Qed.

(** The operations [l] have the places [xs] in [h]. *)
Definition picks h (xs : list Z) l : Prop := (λ i, h !! Z.to_nat i) <$> xs = Some <$> l.

Lemma picks_all h : picks h (seqZ 0 (zlen h)) h.
Proof using Type.
  unfold picks. apply list_eq. intros i. rewrite !list_lookup_fmap. destruct (h !! i) as [o|] eqn:Ho.
  - rewrite lookup_seqZ_lt by (apply lookup_lt_Some in Ho; lia). cbn. by rewrite Z.add_0_l, Nat2Z.id, Ho.
  - rewrite lookup_seqZ_ge by (apply lookup_ge_None in Ho; lia). done.
Qed.

Lemma picks_perm h l : l ≡ₚ h → ∃ xs, xs ≡ₚ seqZ 0 (zlen h) ∧ picks h xs l.
Proof using Type.
  intros HP. assert (Some <$> l ≡ₚ (λ i, h !! Z.to_nat i) <$> seqZ 0 (zlen h)) as HP2.
  { rewrite (picks_all h). by apply fmap_Permutation. }
  destruct (Permutation_map_inv _ _ HP2) as (xs & Hxs & HP3). exists xs. split; [done|]. by unfold picks.
Qed.

Lemma perm_picks h xs : xs ≡ₚ seqZ 0 (zlen h) → ∃ l, l ≡ₚ h ∧ picks h xs l.
Proof using Type.
  intros HP. assert ((λ i, h !! Z.to_nat i) <$> xs ≡ₚ Some <$> h) as HP2.
  { rewrite <- (picks_all h). by apply fmap_Permutation. }
  destruct (Permutation_map_inv _ _ HP2) as (l & Hl & HP3). by exists l.
Qed.

Lemma picks_lookup h xs l i a : picks h xs l → xs !! i = Some a → ∃ o, l !! i = Some o ∧ h !! Z.to_nat a = Some o.
Proof using Type.
  unfold picks. intros Hp Hi. apply (f_equal (lookup i)) in Hp. rewrite !list_lookup_fmap, Hi in Hp. cbn in Hp.
  destruct (l !! i) as [o|]; [|done]. injection Hp as Hp. eauto.
Qed.

Lemma lookup_picks h xs l i o : picks h xs l → l !! i = Some o → ∃ a, xs !! i = Some a ∧ h !! Z.to_nat a = Some o.
Proof using Type.
  unfold picks. intros Hp Hi. apply (f_equal (lookup i)) in Hp. rewrite !list_lookup_fmap, Hi in Hp. cbn in Hp.
  destruct (xs !! i) as [a|]; [|done]. injection Hp as Hp. eauto.
Qed.

Lemma runIds_picks h xs l st :
  timed h → Forall (λ i, 0 ≤ i) xs → picks h xs l → runIds m (makeEntries h) st xs = runOps m st (io <$> l).
Proof using Type.
  intros Ht Hxs Hp. rewrite runIds_runOps.
  assert (mapM (opOf (makeEntries h)) xs = Some (io <$> l)) as ->; [|done].
  revert l Hp. induction Hxs as [|i xs Hi Hxs IH]; intros [|o l] Hp; unfold picks in Hp; cbn in Hp; simplify_eq; [done|].
  cbn. rewrite (opOf_makeEntries h i o) by done. cbn. by rewrite (IH l).
Qed.

Lemma range_nonneg xs n : xs ≡ₚ seqZ 0 n → Forall (λ i, 0 ≤ i) xs.
Proof using Type. intros HP. rewrite HP. apply Forall_forall. intros i Hi%elem_of_seqZ. lia. Qed.

(** What the entries say is what the times say, up to ties. *)
Lemma linearizable_lt h : timed h → linearizable m (makeEntries h) (zlen h) → linearizableOps Z.lt h.
Proof using Type.
  intros Ht (xs & HP & Hr & Ho). destruct (perm_picks h xs HP) as (l & Hl & Hp). exists l.
  pose proof (range_nonneg _ _ HP) as Hn.
  split; [done|]. split; [by rewrite <- (runIds_picks h xs)|]. intros i j a b Hij Ha Hb Hlt.
  destruct (lookup_picks _ _ _ _ _ Hp Ha) as (x & Hx & Hxa). destruct (lookup_picks _ _ _ _ _ Hp Hb) as (y & Hy & Hyb).
  apply (Ho i j x y Hij Hx Hy). eapply time_precedes; [..|done]; try done; by eapply Forall_lookup_1 in Hn.
Qed.

Lemma linearizable_le h : timed h → linearizableOps Z.le h → linearizable m (makeEntries h) (zlen h).
Proof using Type.
  intros Ht (l & Hl & Hr & Ho). destruct (picks_perm h l Hl) as (xs & HP & Hp). exists xs.
  pose proof (range_nonneg _ _ HP) as Hn.
  split; [done|]. split; [by rewrite (runIds_picks h xs l)|]. intros i j x y Hij Hx Hy Hpr.
  destruct (picks_lookup _ _ _ _ _ Hp Hx) as (a & Ha & Hxa). destruct (picks_lookup _ _ _ _ _ Hp Hy) as (b & Hb & Hyb).
  destruct (precedes_time h y x Hpr) as (ob & oa & Hob & Hoa & Hle). simplify_eq. by apply (Ho i j a b).
Qed.

(** Without ties the two agree. *)
Definition no_ties h : Prop := ∀ a b, a ∈ h → b ∈ h → Return a ≠ Call b.

Lemma lt_le h : no_ties h → linearizableOps Z.lt h → linearizableOps Z.le h.
Proof using Type.
  intros Hn (l & Hl & Hr & Ho). exists l. split_and!; [done..|]. intros i j a b Hij Ha Hb Hle.
  apply (Ho i j a b Hij Ha Hb). assert (Return b ≠ Call a); [|lia].
  apply Hn; rewrite <- Hl; by eapply list_elem_of_lookup_2.
Qed.
End ops.

(** ** Partitions *)

Section parts.
Context {In Out State : Type} `{!EqDecision State} (m : Model In Out State).

(** What [Equal] is for. *)
Definition equal_ok : Prop :=
  ∀ eq, Equal m = Some eq → ∀ st st', eq st st' = true → same_future m st st'.

Lemma equalOf_ok : equal_ok → ∀ st st', equalOf m st st' = true → same_future m st st'.
Proof using Type.
  intros He st st'. unfold equalOf. destruct (Equal m) as [eq|] eqn:Heq; cbn; [by apply He|].
  unfold ShallowEqual. intros ->%bool_decide_eq_true. done.
Qed.

Definition searches (arr : list Received) : list nat :=
  omap (λ r, match r with FromSearch i => Some i | FromTimer => None end) arr.

(** Every search answers at most once. *)
Definition schedule (k : nat) (arr : list Received) : Prop :=
  NoDup (searches arr) ∧ Forall (λ i, (i < k)%nat) (searches arr).

Context (hs : list (list (entry In Out))) (Hhs : Forall (λ es, ∃ n, well_formed es n) hs) (Heq : equal_ok).

(** Partition [i] is linearizable. *)
Definition lin (i : nat) : Prop := ∃ es n, hs !! i = Some es ∧ well_formed es n ∧ linearizable m es n.

Definition partials_ok (ps : list (list Z)) (i : nat) : Prop :=
  ∃ es n, hs !! i = Some es ∧ well_formed es n ∧ Forall (legal_prefix m es n) ps.

Lemma partials_from es n l : longest_ok m es n l → Forall (legal_prefix m es n) (partials l).
Proof using Type.
  intros [_ Hl]. unfold partials. set (f := λ _, _).
  assert (∀ l set, Forall (λ v, ∀ p xs, v = Some (p, xs) → legal_prefix m es n xs) l →
    map_Forall (λ _, legal_prefix m es n) set → map_Forall (λ _, legal_prefix m es n) (foldl f set l)) as Hf.
  { clear. intros l. induction l as [|v l IH]; intros set Hl Hs; [done|]. apply Forall_cons in Hl as [Hv Hl]. cbn.
    apply IH; [done|]. destruct v as [[p xs]|]; [|done]. cbn. apply map_Forall_insert_2; [by eapply Hv|done]. }
  apply Forall_fmap, Forall_forall. intros [p xs] Hp%elem_of_map_to_list. cbn. revert Hp. apply Hf; [|apply map_Forall_empty].
  apply Forall_forall. intros v [i Hi]%list_elem_of_lookup p' xs' ->. by eapply Hl.
Qed.

Lemma searchOf_ok computeInfo i k :
  (i < length hs)%nat →
  ∃ b l, searchOf m hs computeInfo i k = Ok (b, l) ∧ partials_ok (partials l) i ∧
    (if b : bool then lin i else (∃ t, k t = true) ∨ ¬ lin i).
Proof using All.
  intros Hi. destruct (lookup_lt_is_Some_2 _ _ Hi) as [es Hes].
  pose proof Hhs as Hwf. eapply Forall_lookup_1 in Hwf as [n Hwf]; [|exact Hes].
  unfold searchOf. assert (go_index hs (Z.of_nat i) = Ok es) as ->.
  { apply go_index_Ok. rewrite Nat2Z.id. split; [lia|done]. }
  cbn [mbind Res_bind].
  destruct (search_decides m (equalOf m) (equalOf_ok Heq) Hwf computeInfo k) as (b & l & -> & Hl & Hb).
  exists b, l. split; [done|]. split; [exists es, n; split_and!; [done..|by apply partials_from]|].
  destruct b; [by exists es, n|]. destruct Hb as [Hk|Hn]; [by left|right]. intros (es' & n' & Hes' & Hwf' & Hlin).
  rewrite Hes in Hes'. injection Hes' as <-. assert (n' = n) as -> by (pose proof (wf_length Hwf); pose proof (wf_length Hwf'); lia).
  done.
Qed.

Lemma searchOf_never computeInfo i :
  (i < length hs)%nat → ∃ b l, searchOf m hs computeInfo i never = Ok (b, l) ∧ (b = true ↔ lin i).
Proof using All.
  intros Hi. destruct (searchOf_ok computeInfo i never Hi) as (b & l & Hs & _ & Hb). exists b, l. split; [done|].
  destruct b; [done|]. destruct Hb as [[t Ht]|Hn]; [done|]. by split.
Qed.

(** What the loop has when it ends. *)
Definition received (computeInfo : bool) (timeout : Z) (r : bool * bool * list nat) : Prop :=
  let '(ok, timedOut, got) := r in
  (ok = true → timedOut = false → ∀ i, (i < length hs)%nat → lin i) ∧
  (ok = false → ∃ i, (i < length hs)%nat ∧ ¬ lin i) ∧
  (timedOut = true → 0 < timeout).

Lemma all_got (got : list nat) :
  NoDup got → Forall (λ i, (i < length hs)%nat) got → (length hs ≤ length got)%nat → ∀ i, (i < length hs)%nat → i ∈ got.
Proof using Type.
  intros Hnd Hr Hl i Hi. assert (got ≡ₚ seq 0 (length hs)) as ->; [|apply elem_of_seq; lia].
  apply submseteq_length_Permutation; [|by rewrite length_seq]. apply NoDup_submseteq; [done|].
  intros j Hj. rewrite Forall_forall in Hr. apply elem_of_seq. specialize (Hr j Hj). lia.
Qed.

Lemma receive_ok computeInfo timeout arr got ok :
  NoDup (got ++ searches arr) → Forall (λ i, (i < length hs)%nat) (got ++ searches arr) →
  (ok = true → ∀ i, i ∈ got → lin i) → (ok = false → ∃ i, (i < length hs)%nat ∧ ¬ lin i) →
  ∃ r, receive m hs computeInfo timeout arr got ok = Ok r ∧
    match r with
    | None => (length (searches arr) = 0 ∨ length got + length (searches arr) < length hs)%nat
    | Some r => received computeInfo timeout r
    end.
Proof using All.
  revert got ok. induction arr as [|[i|] arr IH]; intros got ok Hnd Hr Hok Hno; cbn [receive].
  - exists None. split; [done|]. by left.
  - change (searches (FromSearch i :: arr)) with (i :: searches arr) in *.
    replace (got ++ i :: searches arr) with ((got ++ [i]) ++ searches arr) in Hnd, Hr by (by rewrite <- app_assoc).
    pose proof (proj1 (proj1 (Forall_app _ _ _) Hr)) as Hrg. 
    assert (i < length hs)%nat as Hi by (apply Forall_app in Hrg as [_ Hrg]; by apply Forall_cons in Hrg as [? _]).
    destruct (searchOf_never computeInfo i Hi) as (b & l & -> & Hb). cbn [mbind Res_bind].
    assert (ok && b = true → ∀ j, j ∈ got ++ [i] → lin j) as Hok'.
    { intros [-> ->]%andb_true_iff j [Hj| ->%list_elem_of_singleton]%elem_of_app; [by apply Hok|by apply Hb]. }
    assert (ok && b = false → ∃ i, (i < length hs)%nat ∧ ¬ lin i) as Hno'.
    { intros [Ho|Ho]%andb_false_iff; [by apply Hno|]. exists i. split; [done|]. rewrite <- Hb. congruence. }
    destruct (negb (ok && b) && negb computeInfo) eqn:Hend.
    { eexists. split; [done|]. split; [|done]. intros Ho. by rewrite Ho in Hend. }
    case_match eqn:Hall.
    + eexists. split; [done|]. split; [|done]. intros Ho _ j Hj. apply (Hok' Ho).
      apply Z.leb_le in Hall. apply (all_got _ (proj1 (proj1 (NoDup_app _ _) Hnd)) Hrg); [lia|done].
    + apply Z.leb_gt in Hall. destruct (IH (got ++ [i]) (ok && b) Hnd Hr Hok' Hno') as (r & Hr' & Hres).
      exists r. split; [done|]. destruct r as [r|]; [done|]. right. rewrite length_app in *. cbn [length] in *. lia.
  - destruct (0 <? timeout) eqn:Ht; [|by apply IH]. apply Z.ltb_lt in Ht. eexists. split; [done|]. split; [done|]. done.
Qed.

Context (arrivals : list Received) (kill : nat → nat → bool) (Hsch : schedule (length hs) arrivals).

Lemma collectInfo_ok got :
  ∃ info, collectInfo kill m hs got = Ok info ∧ history info = hs ∧
    length (partialLinearizations info) = length hs ∧
    ∀ i ps, partialLinearizations info !! i = Some ps → partials_ok ps i.
Proof using Hhs Heq.
  unfold collectInfo. match goal with |- context [go_for ?f ?a ?l] =>
    destruct (go_for_inv (λ ps pre, length ps = length pre ∧ ∀ i p, ps !! i = Some p → partials_ok p i) f l a)
      as (ps & -> & Hlen & Hps) end.
  - done.
  - intros ps pre i post Hl [Hlen Hps].
    assert (i = length pre) as ->.
    { assert (seq 0 (length hs) !! length pre = Some i) as Hi by (rewrite Hl; by apply list_lookup_middle).
      by apply lookup_seq in Hi as [-> _]. }
    assert (length pre < length hs)%nat as Hi.
    { apply (f_equal length) in Hl. rewrite length_seq, length_app in Hl. cbn in Hl. lia. }
    destruct (searchOf_ok true (length pre) (if decide (length pre ∈ got) then never else kill (length pre)) Hi)
      as (b & l & -> & Hp & _). cbn [mbind Res_bind]. eexists. split; [done|]. split; [rewrite !length_app; cbn; lia|].
    intros j p Hj. apply lookup_app_Some in Hj as [Hj|[Hge Hj]]; [by apply Hps|].
    apply list_lookup_singleton_Some in Hj as [Hj <-]. by replace j with (length pre) by lia.
  - cbn [mbind Res_bind]. eexists. split; [done|]. cbn. rewrite length_seq in Hlen. done.
Qed.

Lemma checkParallel_ok computeInfo timeout :
  ∃ r, checkParallel arrivals kill m hs computeInfo timeout = Ok r ∧
    (hs ≠ [] → length (searches arrivals) = length hs → r ≠ None) ∧
    ∀ res info, r = Some (res, info) →
      (res = Legal → ∀ i, (i < length hs)%nat → lin i) ∧
      (res = Illegal → ∃ i, (i < length hs)%nat ∧ ¬ lin i) ∧
      (res = Unknown → 0 < timeout) ∧
      (computeInfo = true → history info = hs ∧ length (partialLinearizations info) = length hs ∧
         ∀ i ps, partialLinearizations info !! i = Some ps → partials_ok ps i).
Proof using Hhs Heq Hsch.
  destruct Hsch as [Hnd Hr]. unfold checkParallel.
  destruct (receive_ok computeInfo timeout arrivals [] true Hnd Hr) as (r & -> & Hres); [by intros _ i ?%elem_of_nil|done|].
  cbn [mbind Res_bind]. destruct r as [[[ok timedOut] got]|].
  - destruct Hres as (H1 & H2 & H3).
    assert (∃ info, (if computeInfo then collectInfo kill m hs got else Ok (mkLinearizationInfo [] [])) = Ok info ∧
      (computeInfo = true → history info = hs ∧ length (partialLinearizations info) = length hs ∧
         ∀ i ps, partialLinearizations info !! i = Some ps → partials_ok ps i)) as (info & -> & Hinfo).
    { destruct computeInfo; [destruct (collectInfo_ok got) as (info & ? & ?); by exists info|by eexists]. }
    cbn [mbind Res_bind]. eexists. split; [done|]. split; [done|]. intros res inf [= <- <-].
    split; [|split; [|split; [|done]]]; destruct ok, timedOut; cbn; try done; auto.
  - exists None. split; [done|]. split; [|done]. intros Hne Hall _.
    assert (0 < length hs)%nat by (destruct hs; [done|cbn; lia]). cbn in Hres. lia.
Qed.
End parts.

Section answers.
Context {In Out State : Type} `{!SortByTime In Out, !EqDecision State} (m : Model In Out State) (Heq : equal_ok m).
Context (arrivals : list Received) (kill : nat → nat → bool).
Implicit Types (h : list (Operation In Out)).

(** The partitions of a history, as [fillDefault] has them. *)
Definition partsOf h : list (list (Operation In Out)) := default NoPartition (Partition m) h.

Lemma fillDefault_equal_ok : equal_ok (fillDefault m).
Proof using Heq.
  intros eq [= <-] st st' Hst. apply (equalOf_ok m Heq). exact Hst.
Qed.

Lemma lin_parts h :
  Forall timed (partsOf h) →
  ((∀ i, (i < length (partsOf h))%nat → lin (fillDefault m) (makeEntries <$> partsOf h) i) →
    Forall (linearizableOps m Z.lt) (partsOf h)) ∧
  (Forall (linearizableOps m Z.le) (partsOf h) →
    ∀ i, (i < length (partsOf h))%nat → lin (fillDefault m) (makeEntries <$> partsOf h) i).
Proof using Type.
  intros Ht. split.
  - intros Hl. apply Forall_lookup. intros i p Hp. destruct (Hl i) as (es & n & Hes & Hwf & Hlin); [by eapply lookup_lt_Some|].
    rewrite list_lookup_fmap, Hp in Hes. injection Hes as <-. eapply Forall_lookup_1 in Ht; [|exact Hp].
    assert (n = zlen p) as -> by (pose proof (wf_length Hwf); pose proof (wf_length (makeEntries_wf p Ht)); lia).
    by apply (linearizable_lt m).
  - intros Hl i Hi. destruct (lookup_lt_is_Some_2 _ _ Hi) as [p Hp]. eapply Forall_lookup_1 in Ht; [|exact Hp].
    eapply Forall_lookup_1 in Hl; [|exact Hp]. exists (makeEntries p), (zlen p).
    rewrite list_lookup_fmap, Hp. split; [done|]. split; [by apply makeEntries_wf|]. by apply (linearizable_le m).
Qed.

(** What [checkOperations] answers, with and without a timeout. *)
Lemma checkOperations_answer h verbose timeout :
  Forall timed (partsOf h) → schedule (length (partsOf h)) arrivals →
  ∃ r, checkOperations arrivals kill m h verbose timeout = Ok r ∧
    (partsOf h ≠ [] → length (searches arrivals) = length (partsOf h) → r ≠ None) ∧
    ∀ res info, r = Some (res, info) →
      (res = Legal → Forall (linearizableOps m Z.lt) (partsOf h)) ∧
      (res = Illegal → ¬ Forall (linearizableOps m Z.le) (partsOf h)) ∧
      (res = Unknown → 0 < timeout) ∧
      (verbose = true → history info = makeEntries <$> partsOf h ∧
        length (partialLinearizations info) = length (partsOf h) ∧
        ∀ i ps, partialLinearizations info !! i = Some ps →
          ∃ p, partsOf h !! i = Some p ∧ Forall (legal_prefix m (makeEntries p) (zlen p)) ps).
Proof using Heq.
  intros Ht Hs. destruct (lin_parts h Ht) as [Hlt Hle]. unfold checkOperations. cbn [fillDefault Partition].
  fold (partsOf h). change (default NoPartition (Partition m) h) with (partsOf h).
  destruct (checkParallel_ok (fillDefault m) (makeEntries <$> partsOf h)) with (arrivals := arrivals) (kill := kill)
    (computeInfo := verbose) (timeout := timeout) as (r & -> & Hret & Hres).
  - apply Forall_fmap, Forall_forall. intros p Hp. rewrite Forall_forall in Ht. eexists. by apply makeEntries_wf, Ht.
  - apply fillDefault_equal_ok.
  - by rewrite length_fmap.
  - exists r. rewrite length_fmap in *. split; [done|]. split.
    { intros Hne Hl. apply Hret; [|done]. intros Hnil. by apply fmap_nil_inv in Hnil. }
    intros res info Hr. destruct (Hres res info Hr) as (H1 & H2 & H3 & H4). split_and!; [auto| |auto|].
    + intros Hi Hall. destruct (H2 Hi) as (i & Hlt' & Hn). by apply Hn, Hle.
    + intros Hv. destruct (H4 Hv) as (H5h & H5l & H5). split; [done|]. split; [done|].
      intros i ps Hps. destruct (H5 i ps Hps) as (es & n & Hes & Hwf & Hall).
      rewrite list_lookup_fmap in Hes. destruct (partsOf h !! i) as [p|] eqn:Hp; [|done]. injection Hes as <-.
      exists p. split; [done|]. eapply Forall_lookup_1 in Ht; [|exact Hp].
      assert (n = zlen p) as -> by (pose proof (wf_length Hwf); pose proof (wf_length (makeEntries_wf p Ht)); lia).
      eapply Forall_impl; [exact Hall|]. intros xs [? ? ? ?]. by split.
Qed.
End answers.

(** [CheckOperations] has no timeout.  If there is a partition, every operation
    returns after it is called and every search answers, it returns: true, only
    if every partition is linearizable; and true, if every partition is even when
    an operation called at the time another returns counts as called later.
    (Without such ties the two are the same, [lt_le].) *)
Lemma CheckOperations_answer {In Out State : Type} `{!SortByTime In Out, !EqDecision State}
    (m : Model In Out State) arrivals kill h :
  equal_ok m → Forall timed (partsOf m h) → partsOf m h ≠ [] →
  schedule (length (partsOf m h)) arrivals → length (searches arrivals) = length (partsOf m h) →
  ∃ b, CheckOperations arrivals kill m h = Ok (Some b) ∧
    (b = true → Forall (linearizableOps m Z.lt) (partsOf m h)) ∧
    (Forall (linearizableOps m Z.le) (partsOf m h) → b = true).
Proof.
  intros Heq Ht Hne Hs Hall. unfold CheckOperations.
  destruct (checkOperations_answer m Heq arrivals kill h false 0 Ht Hs) as (r & -> & Hret & Hres).
  specialize (Hret Hne Hall). destruct r as [[res info]|]; [|done]. destruct (Hres res info eq_refl) as (H1 & H2 & H3 & _).
  exists (bool_decide (res = Legal)). split; [done|]. split; [intros H%bool_decide_eq_true; auto|].
  intros Hp. apply bool_decide_eq_true. destruct res; [|done|]; [specialize (H3 eq_refl); lia|by destruct (H2 eq_refl)].
Qed.

(** ** Properties *)

(** C18: the search decides linearizability.  For entries of [n] operations,
    numbered and each called before it returns, and states that [Equal] takes
    for the same only if they accept the same operations, [checkSingle] ends
    without a panic, and if it is not killed its answer is whether the entries
    are linearizable; what it records as the longest partial linearization with
    an operation in it is an order of some operations that the model accepts,
    in which every operation comes after all that precede it. *)
Theorem checkSingle_decides {In Out State : Type} (m : Model In Out State) equal es n computePartial kill :
  (∀ st st', equal st st' = true → same_future m st st') → well_formed es n → (∀ t, kill t = false) →
  ∃ b longest, checkSingle m equal es computePartial kill = Ok (b, longest) ∧
    (b = true ↔ linearizable m es n) ∧
    length longest = Z.to_nat n ∧
    ∀ i p xs, longest !! i = Some (Some (p, xs)) → Z.of_nat i ∈ xs ∧ legal_prefix m es n xs.
Proof.
  intros He Hwf Hk. destruct (search_decides m equal He Hwf computePartial kill) as (b & l & -> & [Hl1 Hl2] & Hb).
  exists b, l. split; [done|]. split; [|done]. destruct b; [done|]. split; [done|].
  intros Hlin. destruct Hb as [[t Ht]|Hn]; [by rewrite Hk in Ht|done].
Qed.

(** A register, read by [None]. *)
Definition sampleModel : Model (option Z) Z Z :=
  mkModel None None 0 (λ st i o, match i with Some v => (true, v) | None => (bool_decide (o = st), st) end) None.

(** A write, a read that overlaps it and one after it. *)
Definition sampleHistory : list (Operation (option Z) Z) :=
  [mkOperation 0 (Some 7) 0 0 10; mkOperation 1 None 5 0 6; mkOperation 1 None 11 7 12].

Lemma sampleHistory_timed : timed sampleHistory.
Proof. repeat constructor. Qed.

Lemma checkSingle_decides_witness :
  ∃ b longest, checkSingle sampleModel ShallowEqual (makeEntries sampleHistory) true never = Ok (b, longest) ∧
    (b = true ↔ linearizable sampleModel (makeEntries sampleHistory) 3) ∧
    length longest = 3%nat ∧
    ∀ i p xs, longest !! i = Some (Some (p, xs)) → Z.of_nat i ∈ xs ∧ legal_prefix sampleModel (makeEntries sampleHistory) 3 xs.
Proof.
  apply (checkSingle_decides sampleModel ShallowEqual (makeEntries sampleHistory) 3 true never).
  - intros st st' H. apply bool_decide_eq_true in H as ->. done.
  - exact (makeEntries_wf sampleHistory sampleHistory_timed).
  - reflexivity.
Defined.

Example sample_checked : CheckOperations [FromSearch 0] (λ _, never) sampleModel sampleHistory = Ok (Some true).
Proof. vm_compute. reflexivity. Qed.

(** A history with no partition is never decided: the loop of
    [checkParallel] counts the answers only after one has come. *)
Lemma no_partition_waits {In Out State : Type} `{!SortByTime In Out, !EqDecision State}
    (m : Model In Out State) arrivals kill h :
  partsOf m h = [] → schedule 0 arrivals → CheckOperations arrivals kill m h = Ok None.
Proof.
  intros Hp [_ Hr]. unfold CheckOperations, checkOperations. cbn [fillDefault Partition].
  change (default NoPartition (Partition m) h) with (partsOf m h). rewrite Hp. unfold checkParallel.
  assert (∀ got ok, receive (fillDefault m) (makeEntries <$> []) false 0 arrivals got ok = Ok None) as ->; [|done].
  induction arrivals as [|[i|] arr IH]; intros got ok; [done| |by apply IH].
  by apply Forall_cons in Hr as [Hr _]; lia.
Qed.
