(* ===== verification/PorcEvents.v ===== *)
(** * Histories of events

    A history can also be a list of calls and returns in the order in which
    they happened, with ids that match a return to its call.  [renumber] gives
    the operations numbers from 0 on ([renumber_ok]), which changes nothing for
    the search but the names ([rename_linearizable]), so [CheckEvents] answers
    whether the events are linearizable ([CheckEvents_decides]). *)

From S2P Require Import Prelude PorcBitset Porcupine PorcList PorcupineSpec PorcSearch PorcCheck.
Open Scope Z_scope.

(** ** Other ids *)

Section rename.
Context {In Out State : Type} (m : Model In Out State) (f : Z → Z).
Implicit Types (es : list (entry In Out)) (xs : list Z).

Definition rename (e : entry In Out) : entry In Out := mkEntry (kind e) (value e) (f (id e)) (time e) (clientId e).

Context (es : list (entry In Out)).
Definition idsOf : list Z := remove_dups (id <$> es).
Context (Hinj : ∀ i j, i ∈ idsOf → j ∈ idsOf → f i = f j → i = j).

Lemma idsOf_elem e : e ∈ es → id e ∈ idsOf.
Proof using Type. intros He. apply elem_of_remove_dups, list_elem_of_fmap. eauto. Qed.

Lemma valueOf_rename k i : i ∈ idsOf → valueOf (rename <$> es) k (f i) = valueOf es k i.
Proof using Hinj.
  intros Hi. unfold valueOf. assert (∀ l, l ⊆ es →
    filter (λ e, kind e = k ∧ id e = f i) (rename <$> l) = rename <$> filter (λ e, kind e = k ∧ id e = i) l) as Hf.
  { induction l as [|e l IH]; intros Hl; [done|]. cbn [fmap list_fmap]. rewrite !filter_cons, IH by set_solver.
    assert (kind (rename e) = k ∧ id (rename e) = f i ↔ kind e = k ∧ id e = i) as Hiff.
    { cbn. split; [|by intros [? ->]]. intros [Hk He]. split; [done|]. apply Hinj; [apply idsOf_elem; set_solver|done..]. }
    rewrite (decide_ext _ _ _ _ Hiff). by case_decide. }
  rewrite (Hf es) by done. by destruct (filter _ es).
Qed.

Lemma runIds_rename st xs : xs ⊆ idsOf → runIds m (rename <$> es) st (f <$> xs) = runIds m es st xs.
Proof using Hinj.
  revert st. induction xs as [|i xs IH]; intros st Hxs; [done|]. cbn [fmap list_fmap runIds].
  unfold opOf. rewrite !valueOf_rename by set_solver. fold (opOf es i). destruct (opOf es i); [|done]. cbn.
  destruct (take1 m st p); [|done]. cbn. apply IH. set_solver.
Qed.

Lemma precedes_rename a b : a ∈ idsOf → b ∈ idsOf → precedes (rename <$> es) (f a) (f b) ↔ precedes es a b.
Proof using Hinj.
  intros Ha Hb. split.
  - intros (j & k & r & c & Hlt & Hj & Hr & Hra & Hk & Hc & Hcb).
    apply list_lookup_fmap_Some in Hj as (r' & -> & Hj). apply list_lookup_fmap_Some in Hk as (c' & -> & Hk). cbn in *.
    exists j, k, r', c'. split_and!; try done; (apply Hinj; [apply idsOf_elem; by eapply list_elem_of_lookup_2|done..]).
  - intros (j & k & r & c & Hlt & Hj & Hr & <- & Hk & Hc & <-). exists j, k, (rename r), (rename c).
    rewrite !list_lookup_fmap, Hj, Hk. done.
Qed.

(** The operations [xs] of [es], by their own ids. *)
Definition linearizableIds : Prop :=
  ∃ xs, xs ≡ₚ idsOf ∧ is_Some (runIds m es (Init m) xs) ∧ respects es xs.

Lemma rename_linearizable n : f <$> idsOf ≡ₚ seqZ 0 n → linearizable m (rename <$> es) n ↔ linearizableIds.
Proof using Hinj.
  intros Hn. assert (∀ ys, ys ≡ₚ idsOf → ys ⊆ idsOf) as Hsub by (intros ys Hys i; by rewrite Hys).
  assert (∀ ys, ys ≡ₚ idsOf → respects (rename <$> es) (f <$> ys) ↔ respects es ys) as Hresp.
  { intros ys Hys. split.
    - intros Hr i j a b Hij Ha Hb Hpr. apply (Hr i j (f a) (f b) Hij); [by rewrite list_lookup_fmap, ?Ha, ?Hb..|].
      apply precedes_rename; [..|done]; rewrite <- Hys; by eapply list_elem_of_lookup_2.
    - intros Hr i j a b Hij Ha Hb Hpr. apply list_lookup_fmap_Some in Ha as (a' & -> & Ha), Hb as (b' & -> & Hb).
      apply (Hr i j a' b' Hij Ha Hb). apply precedes_rename; [..|done]; rewrite <- Hys; by eapply list_elem_of_lookup_2. }
  split.
  - intros (xs & HP & Hr & Ho). rewrite <- Hn in HP. apply Permutation_map_inv in HP as (ys & -> & HP).
    symmetry in HP. exists ys. split; [done|].
    change (map f ys) with (f <$> ys) in *. rewrite runIds_rename in Hr by auto. by rewrite Hresp in Ho.
  - intros (ys & HP & Hr & Ho). exists (f <$> ys). split; [by rewrite HP|].
    rewrite runIds_rename by auto. by rewrite Hresp.
Qed.
End rename.

(** ** [renumber] *)

Section events.
Context {In Out State : Type} (m : Model In Out State).
Implicit Types (ev : list (Event In Out)).

Definition renameEvent (f : Z → Z) (v : Event In Out) : Event In Out :=
  mkEvent (E_ClientId v) (E_Kind v) (E_Value v) (f (E_Id v)).

Lemma renumber_ok ev :
  ∃ f n, renumber ev = renameEvent f <$> ev ∧
    (∀ i j, i ∈ E_Id <$> ev → j ∈ E_Id <$> ev → f i = f j → i = j) ∧
    f <$> remove_dups (E_Id <$> ev) ≡ₚ seqZ 0 n ∧ 0 ≤ n.
Proof using Type.
  unfold renumber. match goal with |- context [foldl ?s] => set (step := s) end.
  cut (∃ (mp : gmap Z Z) n, foldl step ([], ∅, 0) ev = (renameEvent (λ i, default 0 (mp !! i)) <$> ev, mp, n) ∧
    (∀ i, i ∈ E_Id <$> ev ↔ is_Some (mp !! i)) ∧ (map_to_list mp).*2 ≡ₚ seqZ 0 n ∧ 0 ≤ n).
  { intros (mp & n & -> & Hdom & Hval & Hn). exists (λ i, default 0 (mp !! i)), n. cbn. split; [done|].
    assert (NoDup (map_to_list mp).*2) as Hnd by (rewrite Hval; apply NoDup_seqZ). split; [|split; [|done]].
    - intros i j [x Hx]%Hdom [y Hy]%Hdom. rewrite Hx, Hy. cbn. intros ->.
      apply elem_of_map_to_list in Hx, Hy. apply list_elem_of_lookup in Hx as [a Ha], Hy as [b Hb].
      assert (a = b) as ->; [|congruence]. eapply (NoDup_lookup _ a b y Hnd); by rewrite list_lookup_fmap, ?Ha, ?Hb.
    - rewrite <- Hval. assert (remove_dups (E_Id <$> ev) ≡ₚ (map_to_list mp).*1) as ->.
      { apply NoDup_Permutation; [apply NoDup_remove_dups|apply NoDup_fst_map_to_list|]. intros i.
        rewrite elem_of_remove_dups, Hdom, list_elem_of_fmap. split.
        - intros [x Hx]. exists (i, x). split; [done|]. by apply elem_of_map_to_list.
        - intros ([i' x] & -> & Hx%elem_of_map_to_list). by eexists. }
      rewrite <- list_fmap_compose. match goal with |- ?a ≡ₚ ?b => assert (a = b) as ->; [|done] end. apply list_fmap_ext. intros k [i x] Hk. cbn.
      apply list_elem_of_lookup_2, elem_of_map_to_list in Hk. by rewrite Hk. }
  induction ev as [|v ev IH] using rev_ind.
  { exists ∅, 0. cbn. split; [done|]. split; [|by rewrite map_to_list_empty]. intros i. rewrite lookup_empty.
    split; [by intros ?%elem_of_nil|by intros []]. }
  destruct IH as (mp & n & Hfold & Hdom & Hval & Hn). rewrite foldl_snoc, Hfold. unfold step at 1.
  setoid_rewrite fmap_app. setoid_rewrite elem_of_app. cbn [fmap list_fmap]. setoid_rewrite list_elem_of_singleton.
  destruct (mp !! E_Id v) as [r|] eqn:Hv.
  - exists mp, n. split_and!; [|intros i; rewrite Hdom|done..].
    + unfold renameEvent at 3. by rewrite Hv.
    + split; [intros [?| ->]; [done|by eexists]|auto].
  - exists (<[E_Id v := n]> mp), (n + 1). split_and!; [|intros i|..|lia].
    + do 3 f_equal; [|unfold renameEvent; by rewrite lookup_insert_eq].
      apply list_fmap_ext. intros k w Hw. unfold renameEvent. f_equal.
      assert (E_Id w ≠ E_Id v); [|by rewrite lookup_insert_ne]. intros Heq.
      destruct (proj1 (Hdom (E_Id w))) as [x Hx]; [|congruence].
      apply list_elem_of_fmap. exists w. split; [done|]. by eapply list_elem_of_lookup_2.
    + rewrite Hdom, lookup_insert_is_Some. destruct (decide (i = E_Id v)); naive_solver.
    + rewrite map_to_list_insert by done. cbn. rewrite Hval, seqZ_app by lia. cbn. 
      rewrite (Permutation_app_comm (seqZ 0 n)). cbn. rewrite Z.add_0_l. done.
Qed.

(** Every operation has a call, and behind it a return. *)
Record well_formed_events ev : Prop := mkWellFormedEvents {
  we_once : NoDup ((λ v, (E_Kind v, E_Id v)) <$> ev);
  we_call : ∀ j r, ev !! j = Some r → E_Kind r = ReturnEvent →
    ∃ k c, (k < j)%nat ∧ ev !! k = Some c ∧ E_Kind c = CallEvent ∧ E_Id c = E_Id r;
  we_return : ∀ c, c ∈ ev → E_Kind c = CallEvent → ∃ r, r ∈ ev ∧ E_Kind r = ReturnEvent ∧ E_Id r = E_Id c;
  we_values : ∀ v, v ∈ ev → match E_Kind v, E_Value v with
                            | CallEvent, inl _ | ReturnEvent, inr _ => True
                            | _, _ => False
                            end;
}.

Definition entryKindOf (k : EventKind) : entryKind := match k with CallEvent => callEntry | ReturnEvent => returnEntry end.

Lemma convertEntries_lookup ev j :
  convertEntries ev !! j =
  (λ v, mkEntry (entryKindOf (E_Kind v)) (E_Value v) (E_Id v) (Z.of_nat j) (E_ClientId v)) <$> ev !! j.
Proof using Type. unfold convertEntries. apply list_lookup_imap. Qed.

Lemma convertEntries_ids ev : id <$> convertEntries ev = E_Id <$> ev.
Proof using Type.
  apply list_eq. intros j. rewrite !list_lookup_fmap, convertEntries_lookup. by destruct (ev !! j).
Qed.

Lemma convertEntries_rename f ev : convertEntries (renameEvent f <$> ev) = rename f <$> convertEntries ev.
Proof using Type.
  apply list_eq. intros j. rewrite list_lookup_fmap, !convertEntries_lookup, list_lookup_fmap. by destruct (ev !! j).
Qed.

Lemma convertEntries_elem ev e :
  e ∈ convertEntries ev → ∃ v, v ∈ ev ∧ kind e = entryKindOf (E_Kind v) ∧ value e = E_Value v ∧ id e = E_Id v.
Proof using Type.
  intros [j Hj]%list_elem_of_lookup. rewrite convertEntries_lookup in Hj. destruct (ev !! j) as [v|] eqn:Hv; [|done].
  injection Hj as <-. exists v. split; [by eapply list_elem_of_lookup_2|done].
Qed.

(** Both events of every operation. *)
Lemma both_events ev k v : well_formed_events ev → v ∈ ev → ∃ w, w ∈ ev ∧ E_Kind w = k ∧ E_Id w = E_Id v.
Proof using Type.
  intros [_ Hc Hr _] Hv. destruct (E_Kind v) eqn:Hk, k; [by exists v|by apply Hr| |by exists v].
  apply list_elem_of_lookup in Hv as [j Hj]. destruct (Hc j v Hj Hk) as (i & c & _ & Hi & ? & ?).
  exists c. split; [by eapply list_elem_of_lookup_2|done].
Qed.

Lemma convertEntries_wf f n ev :
  well_formed_events ev → (∀ i j, i ∈ E_Id <$> ev → j ∈ E_Id <$> ev → f i = f j → i = j) →
  f <$> remove_dups (E_Id <$> ev) ≡ₚ seqZ 0 n → 0 ≤ n →
  well_formed (rename f <$> convertEntries ev) n.
Proof using Type.
  intros Hwe Hinj HP Hn. assert (∀ v, v ∈ ev → E_Id v ∈ E_Id <$> ev) as Hin by (intros v Hv; apply list_elem_of_fmap; eauto).
  assert ((λ e, (kind e, id e)) <$> (rename f <$> convertEntries ev) = (λ v, (entryKindOf (E_Kind v), f (E_Id v))) <$> ev) as Hids.
  { apply list_eq. intros j. rewrite !list_lookup_fmap, convertEntries_lookup. by destruct (ev !! j). }
  split; [|..|done].
  - rewrite Hids. apply NoDup_Permutation; [|apply bothEntries_NoDup, NoDup_seqZ|].
    + apply NoDup_alt. intros a b x Ha Hb. apply list_lookup_fmap_Some in Ha as (v & -> & Ha), Hb as (w & Hvw & Hb).
      injection Hvw as Hk Hf. assert (E_Id v = E_Id w) as Hid by (apply Hinj; [apply Hin; by eapply list_elem_of_lookup_2..|done]).
      eapply (NoDup_lookup _ a b (E_Kind v, E_Id v) (we_once _ Hwe)); rewrite list_lookup_fmap; [by rewrite Ha|].
      rewrite Hb. cbn. rewrite Hid. by destruct (E_Kind v), (E_Kind w).
    + intros [k i]. rewrite list_elem_of_bind, list_elem_of_fmap. setoid_rewrite <- HP. setoid_rewrite list_elem_of_fmap.
      setoid_rewrite elem_of_remove_dups. split.
      * intros (v & [= -> ->] & Hv). exists (f (E_Id v)). split; [|eauto]. destruct (E_Kind v); set_solver.
      * intros (i' & Hk & x & -> & Hx). apply list_elem_of_fmap in Hx as (v & -> & Hv).
        destruct (both_events ev (if decide (k = callEntry) then CallEvent else ReturnEvent) v Hwe Hv) as (w & Hw & Hkw & Hidw).
        exists w. split; [|done]. rewrite Hkw, Hidw. destruct k; cbn; set_solver.
  - intros j r Hj Hr. apply list_lookup_fmap_Some in Hj as (r0 & -> & Hj). rewrite convertEntries_lookup in Hj.
    destruct (ev !! j) as [v|] eqn:Hv; [|done]. injection Hj as <-. cbn in Hr.
    destruct (we_call _ Hwe j v Hv) as (k & c & Hlt & Hc & Hkc & Hidc); [by destruct (E_Kind v)|].
    eexists k, _. rewrite list_lookup_fmap, convertEntries_lookup, Hc. split; [done|]. split; [done|]. cbn. by rewrite Hkc, Hidc.
  - intros e (e0 & -> & (v & Hv & Hk & Hval & _)%convertEntries_elem)%list_elem_of_fmap. cbn. rewrite Hk, Hval.
    pose proof (we_values _ Hwe v Hv) as H. by destruct (E_Kind v), (E_Value v).
Qed.

Definition linearizableEvents ev : Prop := linearizableIds m (convertEntries ev).

(** What the search is given. *)
Lemma events_entries ev :
  well_formed_events ev →
  ∃ n, well_formed (convertEntries (renumber ev)) n ∧
    (linearizable m (convertEntries (renumber ev)) n ↔ linearizableEvents ev).
Proof using Type.
  intros Hwe. destruct (renumber_ok ev) as (f & n & -> & Hinj & HP & Hn). rewrite convertEntries_rename.
  exists n. split; [by apply convertEntries_wf|]. apply rename_linearizable; unfold idsOf; rewrite convertEntries_ids; [|done].
  intros i j Hi Hj. apply Hinj; by apply elem_of_remove_dups.
Qed.
End events.

Definition eventParts {In Out State} (m : Model In Out State) (h : list (Event In Out)) : list (list (Event In Out)) :=
  default NoPartitionEvent (PartitionEvent m) h.

(** [CheckEvents] decides a history of events.  If there is a partition, in
    every one each operation has one call and, behind it, one return, and every
    search answers, it returns whether every partition is linearizable: the ids
    may be any numbers, [renumber] changes nothing. *)
Theorem CheckEvents_decides {In Out State : Type} `{!EqDecision State} (m : Model In Out State) arrivals kill h :
  equal_ok m → Forall well_formed_events (eventParts m h) → eventParts m h ≠ [] →
  schedule (length (eventParts m h)) arrivals → length (searches arrivals) = length (eventParts m h) →
  ∃ b, CheckEvents arrivals kill m h = Ok (Some b) ∧ (b = true ↔ Forall (linearizableEvents m) (eventParts m h)).
Proof.
  intros Heq Hwf Hne Hs Hall. set (f := λ sub : list (Event In Out), convertEntries (renumber sub)).
  assert (∀ i, lin (fillDefault m) (f <$> eventParts m h) i ↔ ∃ p, eventParts m h !! i = Some p ∧ linearizableEvents m p) as Hlin.
  { intros i. unfold lin. rewrite list_lookup_fmap. destruct (eventParts m h !! i) as [p|] eqn:Hp.
    - eapply Forall_lookup_1 in Hwf as Hp2; [|exact Hp]. destruct (events_entries m p Hp2) as (n & Hn & Hiff). split.
      + intros (es & n' & [= <-] & Hwf' & Hl). exists p. split; [done|]. apply Hiff.
        unfold f in Hwf'. assert (n' = n) as -> by (pose proof (wf_length Hwf'); pose proof (wf_length Hn); lia). exact Hl.
      + intros (p' & [= <-] & Hl). exists (f p), n. split; [done|]. split; [done|]. by apply Hiff.
    - split; [by intros (es & n & ? & _)|by intros (p & ? & _)]. }
  destruct (checkParallel_ok (fillDefault m) (f <$> eventParts m h)) with (arrivals := arrivals) (kill := kill)
    (computeInfo := false) (timeout := 0) as (r & Hr & Hret & Hres).
  - apply Forall_fmap. eapply Forall_impl; [exact Hwf|]. intros p Hp. destruct (events_entries m p Hp) as (n & Hn & _). by exists n.
  - by apply fillDefault_equal_ok.
  - by rewrite length_fmap.
  - rewrite length_fmap in *. unfold CheckEvents, checkEvents. cbn [fillDefault PartitionEvent].
    change (default NoPartitionEvent (PartitionEvent m) h) with (eventParts m h). fold f. rewrite Hr. cbn [mbind Res_bind].
    destruct r as [[res info]|]; [|destruct Hret; [intros Hnil; by apply fmap_nil_inv in Hnil|done..]].
    destruct (Hres res info eq_refl) as (H1 & H2 & H3 & _). exists (bool_decide (res = Legal)). split; [done|].
    rewrite bool_decide_eq_true, Forall_lookup. split.
    + intros HL i p Hp. destruct (proj1 (Hlin i) (H1 HL i ltac:(by eapply lookup_lt_Some))) as (p' & Hp' & Hl). congruence.
    + intros HF. destruct res; [specialize (H3 eq_refl); lia|done|]. destruct (H2 eq_refl) as (i & Hi & Hn).
      destruct Hn. apply Hlin. destruct (lookup_lt_is_Some_2 _ _ Hi) as [p Hp]. exists p. split; [done|by eapply HF].
Qed.

(** A write and a read that overlap, with ids of their own. *)
Definition sampleEvents : list (Event (option Z) Z) :=
  [mkEvent 0 CallEvent (inl (Some 7)) 40; mkEvent 1 CallEvent (inl None) 13;
   mkEvent 1 ReturnEvent (inr 7) 13; mkEvent 0 ReturnEvent (inr 0) 40].

Lemma sampleEvents_wf : well_formed_events sampleEvents.
Proof.
  split.
  - apply NoDup_ListNoDup. repeat constructor; cbn; intuition congruence.
  - intros [|[|[|[|j]]]] r Hj Hr; cbn in Hj; simplify_eq; [exists 1%nat|exists 0%nat]; eexists; (split; [lia|done]).
  - intros c Hc Hk. exists (mkEvent (E_ClientId c) ReturnEvent (if decide (E_Id c = 40) then inr 0 else inr 7) (E_Id c)).
    split; [|done]. unfold sampleEvents in *.
    repeat (apply elem_of_cons in Hc as [->|Hc]; [first [discriminate Hk|cbn; repeat first [left|right]]|]);
      by apply elem_of_nil in Hc.
  - intros v Hv. unfold sampleEvents in Hv. repeat (apply elem_of_cons in Hv as [->|Hv]; [exact I|]). by apply elem_of_nil in Hv.
Qed.

Lemma CheckEvents_decides_witness :
  ∃ b, CheckEvents [FromSearch 0] (λ _, never) sampleModel sampleEvents = Ok (Some b) ∧
    (b = true ↔ Forall (linearizableEvents sampleModel) (eventParts sampleModel sampleEvents)).
Proof.
  apply (CheckEvents_decides sampleModel [FromSearch 0] (λ _, never) sampleEvents).
  - by intros eq Hq.
  - constructor; [exact sampleEvents_wf|constructor].
  - done.
  - split; repeat constructor. apply not_elem_of_nil.
  - reflexivity.
Defined.
