(* ===== verification/PorcVisual.v ===== *)
(** * What is drawn (code/src/porcupine/visualization.go)

    When a check fails, the tests draw the history and the partial
    linearizations that [CheckOperationsVerbose] found.
    [computeVisualizationData] runs the model along every partial
    linearization and panics if the model refuses a step; for what the checker
    returns it never does ([visualization_of_check]).  The functions that
    describe operations and states are parameters, for values of the model's
    types; a return without its call is a failed conversion.  The page around
    the data and its encoding are left out. *)

From S2P Require Import Prelude PorcBitset Porcupine PorcList PorcupineSpec PorcSearch PorcCheck.
Open Scope Z_scope.

Record historyElement := mkHistoryElement {
  v_ClientId : Z;
  Start : Z;
  End_ : Z;
  Description : string;
}.

Record linearizationStep := mkLinearizationStep { Index : Z; StateDescription : string }.

Record partitionVisualizationData := mkPartitionVisualizationData {
  History : list historyElement;
  PartialLinearizations : list (list linearizationStep);
  Largest : gmap Z Z;
}.

(** [sort.Slice], the longest first: sequences of one length come in any order. *)
Definition longer (xs ys : list Z) : Prop := (length ys ≤ length xs)%nat.

#[export] Instance longer_dec xs ys : Decision (longer xs ys).
Proof. unfold longer. apply _. Defined.
#[export] Instance longer_trans : Transitive longer.
Proof. intros xs ys zs. unfold longer. lia. Qed.
#[export] Instance longer_total : Total longer.
Proof. intros xs ys. unfold longer. lia. Qed.

Class SortPartials := {
  sort_partials : list (list Z) → list (list Z);
  sort_partials_perm : ∀ l, sort_partials l ≡ₚ l;
  sort_partials_sorted : ∀ l, StronglySorted longer (sort_partials l);
}.

#[export] Instance merge_sort_partials : SortPartials := {|
  sort_partials := merge_sort longer;
  sort_partials_perm := merge_sort_Permutation longer;
  sort_partials_sorted := StronglySorted_merge_sort longer;
|}.

Section visual.
Context {In Out State : Type} `{!SortPartials} (m : Model In Out State).
(** [model.DescribeOperation] and [model.DescribeState]. *)
Context (DescribeOperation : In → Out → string) (DescribeState : State → string).
Local Abbreviation Values := (gmap Z (In + Out)).

(** The values of a call and of its return, as the model takes them. *)
Definition operands (call ret : option (In + Out)) : Res (In * Out) :=
  match call, ret with
  | Some (inl i), Some (inr o) => Ok (i, o)
  | _, _ => Panic "interface conversion"
  end.

Definition drawEntry (s : list historyElement * Values * Values) (elem : entry In Out) :
    Res (list historyElement * Values * Values) :=
  let '(history, callValue, returnValue) := s in
  cur ← go_index history (id elem);
  match kind elem with
  | callEntry =>
      history ← go_store history (id elem) (mkHistoryElement (clientId elem) (time elem) (End_ cur) (Description cur));
      Ok (history, <[id elem := value elem]> callValue, returnValue)
  | returnEntry =>
      '(i, o) ← operands (callValue !! id elem) (Some (value elem));
      history ← go_store history (id elem)
        (mkHistoryElement (v_ClientId cur) (Start cur) (time elem) (DescribeOperation i o));
      Ok (history, callValue, <[id elem := value elem]> returnValue)
  end.

(** One operation of the partial linearization [i]. *)
Definition drawStep (callValue returnValue : Values) (i : Z) (partial : list Z)
    (s : State * list linearizationStep * gmap Z Z * gmap Z Z) (histId : Z) :
    Res (State * list linearizationStep * gmap Z Z * gmap Z Z) :=
  let '(state, linearization, largestIndex, largestSize) := s in
  '(x, o) ← operands (callValue !! histId) (returnValue !! histId);
  let '(ok, state) := Step m state x o in
  if negb ok then Panic "valid partial linearization returned non-ok result from model step"
  else
    let linearization := linearization ++ [mkLinearizationStep histId (DescribeState state)] in
    if decide (default 0 (largestSize !! histId) < zlen partial)
    then Ok (state, linearization, <[histId := i]> largestIndex, <[histId := zlen partial]> largestSize)
    else Ok (state, linearization, largestIndex, largestSize).

Definition drawPartial (callValue returnValue : Values)
    (s : list (list linearizationStep) * gmap Z Z * gmap Z Z) (p : Z * list Z) :
    Res (list (list linearizationStep) * gmap Z Z * gmap Z Z) :=
  let '(linearizations, largestIndex, largestSize) := s in
  let '(i, partial) := p in
  '(_, linearization, largestIndex, largestSize) ←
    go_for (drawStep callValue returnValue i partial) (Init m, [], largestIndex, largestSize) partial;
  Ok (linearizations ++ [linearization], largestIndex, largestSize).

Definition drawPartition (es : list (entry In Out)) (partials : list (list Z)) : Res partitionVisualizationData :=
  let n := zlen es `quot` 2 in
  '(history, callValue, returnValue) ←
    go_for drawEntry (replicate (Z.to_nat n) (mkHistoryElement 0 0 0 ""), ∅, ∅) es;
  '(linearizations, largestIndex, _) ←
    go_for (drawPartial callValue returnValue) ([], ∅, ∅) (imap (λ i p, (Z.of_nat i, p)) (sort_partials partials));
  Ok (mkPartitionVisualizationData history linearizations largestIndex).

Definition drawPartitions (info : linearizationInfo In Out) : Res (list partitionVisualizationData) :=
  go_for (λ data partition,
    es ← go_index (history info) (Z.of_nat partition);
    ps ← go_index (partialLinearizations info) (Z.of_nat partition);
    d ← drawPartition es ps; Ok (data ++ [d])) [] (seq 0 (length (history info))).

(** ** The history *)

Context {es : list (entry In Out)} {n : Z} (Hwf : well_formed es n).
Implicit Types (pre : list (entry In Out)) (xs : list Z).

(** What the entries so far have set. *)
Definition entry_drawn (s : list historyElement * Values * Values) (e : entry In Out) : Prop :=
  ∃ he, s.1.1 !! Z.to_nat (id e) = Some he ∧
  match kind e with
  | callEntry => v_ClientId he = clientId e ∧ Start he = time e ∧ s.1.2 !! id e = Some (value e)
  | returnEntry => End_ he = time e ∧ s.2 !! id e = Some (value e) ∧
      ∃ x o, opOf es (id e) = Some (x, o) ∧ Description he = DescribeOperation x o
  end.

Definition history_drawn (s : list historyElement * Values * Values) pre : Prop :=
  length s.1.1 = Z.to_nat n ∧ Forall (entry_drawn s) pre.

(** The call of a return, and what the two hold. *)
Lemma call_before j e :
  es !! j = Some e → kind e = returnEntry → ∃ k c x o, (k < j)%nat ∧ es !! k = Some c ∧ kind c = callEntry ∧ id c = id e ∧
    value c = inl x ∧ value e = inr o ∧ opOf es (id e) = Some (x, o).
Proof using Hwf.
  intros Hj Hk. destruct (wf_order _ _ Hwf j e Hj Hk) as (k & c & Hlt & Hc & Hkc & Hid).
  destruct (opOf_Some Hwf k j c e Hc Hkc Hj Hk) as (x & o & Hx & Ho & Hop); [done|].
  rewrite Hid in Hop. exists k, c, x, o. done.
Qed.

(** Entries drawn stay drawn when another one is. *)
Lemma drawn_keeps s s' e he' pre :
  history_drawn s pre → e ∉ pre → (∀ e', e' ∈ pre → e' ∈ es) → e ∈ es →
  s'.1.1 = <[Z.to_nat (id e) := he']> s.1.1 → (Z.to_nat (id e) < length s.1.1)%nat →
  (∀ he, s.1.1 !! Z.to_nat (id e) = Some he → match kind e with
    | callEntry => End_ he' = End_ he ∧ Description he' = Description he
    | returnEntry => v_ClientId he' = v_ClientId he ∧ Start he' = Start he end) →
  (∀ i, i ≠ id e ∨ kind e = returnEntry → s'.1.2 !! i = s.1.2 !! i) →
  (∀ i, i ≠ id e ∨ kind e = callEntry → s'.2 !! i = s.2 !! i) →
  entry_drawn s' e → history_drawn s' (pre ++ [e]).
Proof using Hwf.
  intros [Hlen Hall] Hne Hes He Hs Hlt Hkeep Hcv Hrv Hnew. split; [by rewrite Hs, length_insert|].
  apply Forall_app. split; [|by repeat constructor]. rewrite Forall_forall in *. intros e' He'.
  destruct (Hall e' He') as (he & Hhe & Hm).
  assert (id e' = id e → kind e' ≠ kind e) as Hdiff.
  { intros Hid Hk. apply Hne. pose proof (Hes e' He') as [j Hj]%list_elem_of_lookup. apply list_elem_of_lookup in He as [k Hk'].
    assert (j = k) as <- by (eapply (wf_unique Hwf); eauto). by simplify_eq. }
  assert (0 ≤ id e ∧ 0 ≤ id e') as [??].
  { pose proof (wf_in_range Hwf e He). pose proof (wf_in_range Hwf e' (Hes e' He')). lia. }
  unfold entry_drawn. rewrite Hs. destruct (decide (id e' = id e)) as [Hid|Hid].
  - rewrite Hid, list_lookup_insert_eq by done. rewrite Hid in Hhe. exists he'. split; [done|]. specialize (Hkeep he Hhe).
    specialize (Hdiff Hid). destruct (kind e), (kind e'); try done; rewrite Hid in *.
    + destruct Hkeep as [-> ->]. rewrite Hrv by (by right). exact Hm.
    + destruct Hkeep as [-> ->]. rewrite Hcv by (by right). exact Hm.
  - rewrite list_lookup_insert_ne by lia. exists he. split; [done|].
    rewrite Hcv, Hrv by (by left). exact Hm.
Qed.

Lemma drawHistory_ok :
  ∃ s, go_for drawEntry (replicate (Z.to_nat n) (mkHistoryElement 0 0 0 ""), ∅, ∅) es = Ok s ∧
    history_drawn s es.
Proof using Hwf.
  match goal with |- context [go_for ?f ?a ?l] => apply (go_for_inv history_drawn f l a) end.
  { split; [cbn; by rewrite length_replicate|constructor]. }
  intros [[hs cv] rv] pre e post Hes Hd. pose proof Hd as [Hlen Hall]. cbn [fst snd] in Hlen.
  assert (es !! length pre = Some e) as Hj by (rewrite Hes; by apply list_lookup_middle).
  assert (e ∈ es) as He by by eapply list_elem_of_lookup_2.
  assert (∀ e', e' ∈ pre → e' ∈ es) as Hpre by (intros e' He'; rewrite Hes; apply elem_of_app; by left).
  assert (e ∉ pre) as Hne.
  { intros [k Hk]%list_elem_of_lookup. pose proof (lookup_lt_Some _ _ _ Hk).
    assert (es !! k = Some e) as Hk' by (rewrite Hes; by apply lookup_app_l_Some).
    pose proof (wf_unique Hwf _ _ _ _ Hk' Hj eq_refl eq_refl). lia. }
  pose proof (wf_in_range Hwf e He) as Hr.
  destruct (go_index_in_range hs (id e)) as (cur & Hcur & Hlk); [lia|]. unfold drawEntry. rewrite Hcur. cbn [mbind Res_bind].
  assert (Z.to_nat (id e) < length hs)%nat as Hlt by by eapply lookup_lt_Some.
  assert (∀ x, go_store hs (id e) x = Ok (<[Z.to_nat (id e) := x]> hs)) as Hst by (intros x; apply go_store_Ok; split; [lia|done]).
  destruct (kind e) eqn:Hk.
  - rewrite Hst. cbn [mbind Res_bind]. eexists. split; [done|].
    eapply (drawn_keeps (hs, cv, rv) _ e); [exact Hd|done..| | | |]; cbn [fst snd].
    + intros he Hhe. rewrite Hk. rewrite Hlk in Hhe. by injection Hhe as ->.
    + intros i [Hi|Hi]; [by rewrite lookup_insert_ne|congruence].
    + done.
    + eexists. cbn [fst snd]. rewrite list_lookup_insert_eq by done. split; [done|]. rewrite Hk. by rewrite lookup_insert_eq.
  - destruct (call_before _ _ Hj Hk) as (k & c & x & o & Hlt' & Hc & Hkc & Hid & Hx & Ho & Hop).
    assert (c ∈ pre) as Hcp by (rewrite Hes in Hc; rewrite lookup_app_l in Hc by done; by eapply list_elem_of_lookup_2).
    rewrite Forall_forall in Hall. destruct (Hall c Hcp) as (he & Hhe & Hm). rewrite Hkc in Hm. cbn [fst snd] in Hm.
    destruct Hm as (_ & _ & Hcv). rewrite Hid in Hcv. rewrite Hcv, Hx, Ho. cbn [operands mbind Res_bind].
    rewrite Hst. cbn [mbind Res_bind]. eexists. split; [done|].
    eapply (drawn_keeps (hs, cv, rv) _ e); [exact Hd|done..| | | |]; cbn [fst snd].
    + intros he' Hhe'. rewrite Hk. rewrite Hlk in Hhe'. by injection Hhe' as ->.
    + done.
    + intros i [Hi|Hi]; [by rewrite lookup_insert_ne|congruence].
    + eexists. cbn [fst snd]. rewrite list_lookup_insert_eq by done. split; [done|]. rewrite Hk, lookup_insert_eq, Ho.
      split; [done|]. split; [done|]. exists x, o. done.
Qed.

(** ** The partial linearizations *)

(** The states the model goes through, described. *)
Fixpoint stepsOf (st : State) xs : list linearizationStep :=
  match xs with
  | [] => []
  | i :: xs =>
      match x ← opOf es i; take1 m st x with
      | Some st' => mkLinearizationStep i (DescribeState st') :: stepsOf st' xs
      | None => []
      end
  end.

(** The operations seen so far, with the sequence they were seen in: every one
    has the index and the size of a longest. *)
Definition largest_ok (li ls : gmap Z Z) (seen : list (Z * list Z * Z)) : Prop :=
  ∀ h, match ls !! h with
       | None => li !! h = None ∧ ∀ k xs, (k, xs, h) ∉ seen
       | Some s => ∃ k xs, (k, xs, h) ∈ seen ∧ li !! h = Some k ∧ s = zlen xs ∧
                     ∀ k' xs', (k', xs', h) ∈ seen → zlen xs' ≤ s
       end.

Lemma largest_step li ls seen k xs h :
  0 < zlen xs → largest_ok li ls seen →
  if decide (default 0 (ls !! h) < zlen xs) then largest_ok (<[h := k]> li) (<[h := zlen xs]> ls) (seen ++ [(k, xs, h)])
  else largest_ok li ls (seen ++ [(k, xs, h)]).
Proof using Type.
  intros Hpos Hl.
  assert (∀ j k' xs', (k', xs', j) ∈ seen ++ [(k, xs, h)] ↔ (k', xs', j) ∈ seen ∨ k' = k ∧ xs' = xs ∧ j = h) as Hin.
  { intros j k' xs'. rewrite elem_of_app, list_elem_of_singleton. naive_solver. }
  case_decide as Hd; intros j; specialize (Hl j); destruct (decide (j = h)) as [->|Hne].
  - rewrite !lookup_insert_eq. exists k, xs. rewrite Hin. split_and!; [by right|done..|]. intros k' xs' [Hk|(-> & -> & _)]%Hin; [|done].
    destruct (ls !! h) as [s|]; [|by destruct Hl as [_ Hl]; destruct (Hl k' xs')].
    destruct Hl as (? & ? & _ & _ & _ & Hl). specialize (Hl _ _ Hk). cbn in Hd. lia.
  - rewrite !lookup_insert_ne by done. destruct (ls !! j) as [s|].
    + destruct Hl as (k' & xs' & ? & ? & ? & Hl). exists k', xs'. rewrite Hin. split_and!; [by left|done..|].
      intros k2 xs2 [Hk|(_ & _ & ?)]%Hin; [by apply (Hl k2)|done].
    + destruct Hl as [? Hl]. split; [done|]. intros k' xs' [Hk|(_ & _ & ?)]%Hin; [by apply (Hl k' xs')|done].
  - destruct (ls !! h) as [s|]; [|cbn in Hd; lia]. cbn in Hd. destruct Hl as (k' & xs' & ? & ? & -> & Hl).
    exists k', xs'. rewrite Hin. split_and!; [by left|done..|]. intros k2 xs2 [Hk|(_ & -> & _)]%Hin; [by apply (Hl k2)|lia].
  - destruct (ls !! j) as [s|].
    + destruct Hl as (k' & xs' & ? & ? & ? & Hl). exists k', xs'. rewrite Hin. split_and!; [by left|done..|].
      intros k2 xs2 [Hk|(_ & _ & ?)]%Hin; [by apply (Hl k2)|done].
    + destruct Hl as [? Hl]. split; [done|]. intros k' xs' [Hk|(_ & _ & ?)]%Hin; [by apply (Hl k' xs')|done].
Qed.

(** The values are those of the operations. *)
Definition values_ok (cv rv : Values) : Prop :=
  ∀ i x o, opOf es i = Some (x, o) → cv !! i = Some (inl x) ∧ rv !! i = Some (inr o).

Lemma drawn_values hs cv rv : history_drawn (hs, cv, rv) es → values_ok cv rv.
Proof using Hwf.
  intros [_ Hall] i x o Hop. rewrite Forall_forall in Hall. unfold opOf, valueOf in Hop.
  destruct (filter _ es) as [|c lc] eqn:Hc; [done|]. cbn in Hop. destruct (value c) as [x'|] eqn:Hx; [|done].
  destruct (filter (λ e, kind e = returnEntry ∧ id e = i) es) as [|r lr] eqn:Hr; [done|]. cbn in Hop.
  destruct (value r) as [|o'] eqn:Ho; [done|]. injection Hop as -> ->.
  assert (c ∈ filter (λ e, kind e = callEntry ∧ id e = i) es) as [[Hkc <-] Hce]%list_elem_of_filter by (rewrite Hc; left).
  assert (r ∈ filter (λ e, kind e = returnEntry ∧ id e = id c) es) as [[Hkr Hid] Hre]%list_elem_of_filter by (rewrite Hr; left).
  destruct (Hall c Hce) as (h1 & _ & H1). rewrite Hkc in H1. destruct (Hall r Hre) as (h2 & _ & H2). rewrite Hkr in H2.
  cbn [fst snd] in *. destruct H1 as (_ & _ & ->), H2 as (_ & H2 & _). rewrite <- Hid, H2. by rewrite Hx, Ho.
Qed.

Lemma drawStep_ok cv rv i partial xs st lin li ls seen :
  values_ok cv rv → 0 < zlen partial → is_Some (runIds m es st xs) → largest_ok li ls seen →
  ∃ st' li' ls', go_for (drawStep cv rv i partial) (st, lin, li, ls) xs = Ok (st', lin ++ stepsOf st xs, li', ls') ∧
    largest_ok li' ls' (seen ++ ((λ h, (i, partial, h)) <$> xs)).
Proof using Type.
  intros Hv Hpos. revert st lin li ls seen. induction xs as [|h xs IH]; intros st lin li ls seen Hr Hl; cbn [go_for stepsOf].
  { exists st, li, ls. rewrite !app_nil_r. done. }
  cbn [runIds] in Hr. destruct (opOf es h) as [[x o]|] eqn:Hop; [|by destruct Hr]. cbn [mbind option_bind] in *.
  destruct (Hv h x o Hop) as [Hx Ho]. unfold take1 in *. cbn [fst snd] in *.
  destruct (Step m st x o) as [ok st1] eqn:Hstep. destruct ok; [|by destruct Hr]. cbn [mbind option_bind] in *.
  pose proof (largest_step li ls seen i partial h Hpos Hl) as Hl1.
  assert (∃ li1 ls1, drawStep cv rv i partial (st, lin, li, ls) h =
    Ok (st1, lin ++ [mkLinearizationStep h (DescribeState st1)], li1, ls1) ∧ largest_ok li1 ls1 (seen ++ [(i, partial, h)]))
    as (li1 & ls1 & -> & Hl2).
  { unfold drawStep. rewrite Hx, Ho. cbn [operands mbind Res_bind]. rewrite Hstep. cbn [negb]. case_decide; eauto. }
  cbn [mbind Res_bind]. destruct (IH st1 (lin ++ [mkLinearizationStep h (DescribeState st1)]) li1 ls1 _ Hr Hl2)
    as (st' & li' & ls' & -> & Hl'). exists st', li', ls'. rewrite <- !app_assoc in *. done.
Qed.

Lemma drawPartial_ok cv rv (qs : list (Z * list Z)) lins li ls seen :
  values_ok cv rv → Forall (λ q, is_Some (runIds m es (Init m) q.2)) qs → largest_ok li ls seen →
  ∃ li' ls', go_for (drawPartial cv rv) (lins, li, ls) qs = Ok (lins ++ (stepsOf (Init m) <$> qs.*2), li', ls') ∧
    largest_ok li' ls' (seen ++ (qs ≫= λ q, (λ h, (q.1, q.2, h)) <$> q.2)).
Proof using Type.
  intros Hv Hqs. revert lins li ls seen. induction Hqs as [|[i partial] qs Hq Hqs IH]; intros lins li ls seen Hl; cbn [go_for].
  { exists li, ls. cbn. rewrite !app_nil_r. done. }
  cbn [snd] in Hq.
  assert (∃ st' li' ls', go_for (drawStep cv rv i partial) (Init m, [], li, ls) partial =
    Ok (st', [] ++ stepsOf (Init m) partial, li', ls') ∧ largest_ok li' ls' (seen ++ ((λ h, (i, partial, h)) <$> partial)))
    as (st' & li1 & ls1 & Hgo & Hl1).
  { destruct partial as [|h partial]; [|by apply drawStep_ok; [|cbn; lia|..]].
    exists (Init m), li, ls. cbn. rewrite app_nil_r. done. }
  assert (drawPartial cv rv (lins, li, ls) (i, partial) = Ok (lins ++ [stepsOf (Init m) partial], li1, ls1)) as ->.
  { unfold drawPartial. rewrite Hgo. done. }
  cbn [mbind Res_bind]. destruct (IH (lins ++ [stepsOf (Init m) partial]) li1 ls1 _ Hl1) as (li2 & ls2 & -> & Hl2).
  exists li2, ls2. cbn. rewrite <- !app_assoc in *. done.
Qed.

(** ** A partition *)

Record drawing (ps : list (list Z)) (d : partitionVisualizationData) : Prop := mkDrawing {
  dr_length : length (History d) = Z.to_nat n;
  dr_entries : ∀ e, e ∈ es → ∃ he, History d !! Z.to_nat (id e) = Some he ∧
    match kind e with
    | callEntry => v_ClientId he = clientId e ∧ Start he = time e
    | returnEntry => End_ he = time e ∧ ∃ x o, opOf es (id e) = Some (x, o) ∧ Description he = DescribeOperation x o
    end;
  dr_steps : PartialLinearizations d = stepsOf (Init m) <$> sort_partials ps;
  dr_largest : ∀ h, match Largest d !! h with
    | None => ∀ xs, xs ∈ ps → h ∉ xs
    | Some k => ∃ xs, sort_partials ps !! Z.to_nat k = Some xs ∧ h ∈ xs ∧
                  ∀ xs', xs' ∈ ps → h ∈ xs' → zlen xs' ≤ zlen xs
    end;
}.

Lemma seen_elem (l : list (list Z)) k xs h :
  (k, xs, h) ∈ (imap (λ i p, (Z.of_nat i, p)) l ≫= λ q, (λ h, (q.1, q.2, h)) <$> q.2) ↔
  ∃ i, k = Z.of_nat i ∧ l !! i = Some xs ∧ h ∈ xs.
Proof using Type.
  rewrite list_elem_of_bind. split.
  - intros ([k' xs'] & Hh & [i Hi]%list_elem_of_lookup). apply list_elem_of_fmap in Hh as (h' & [= -> -> ->] & Hh).
    rewrite list_lookup_imap in Hi. destruct (l !! i) as [p|] eqn:Hp; [|done]. injection Hi as <- <-. cbn in *. eauto.
  - intros (i & -> & Hi & Hh). exists (Z.of_nat i, xs). split; [apply list_elem_of_fmap; by exists h|].
    apply (list_elem_of_lookup_2 _ i). by rewrite list_lookup_imap, Hi.
Qed.

Lemma drawPartition_ok ps :
  Forall (legal_prefix m es n) ps → ∃ d, drawPartition es ps = Ok d ∧ drawing ps d.
Proof using Hwf.
  intros Hps. unfold drawPartition.
  assert (zlen es `quot` 2 = n) as -> by (rewrite (wf_length Hwf), Z.mul_comm; by apply Z.quot_mul).
  destruct drawHistory_ok as ([[hs cv] rv] & -> & Hd). cbn [mbind Res_bind].
  set (qs := imap (λ i p, (Z.of_nat i, p)) (sort_partials ps)).
  assert (qs.*2 = sort_partials ps) as Hqs.
  { unfold qs. apply list_eq. intros i. rewrite list_lookup_fmap, list_lookup_imap. by destruct (sort_partials ps !! i). }
  destruct (drawPartial_ok cv rv qs [] ∅ ∅ []) as (li & ls & -> & Hl).
  - by eapply drawn_values.
  - change (Forall ((λ xs, is_Some (runIds m es (Init m) xs)) ∘ snd) qs). rewrite <- Forall_fmap, Hqs, sort_partials_perm.
    eapply Forall_impl; [exact Hps|]. by intros xs [].
  - intros h. rewrite !lookup_empty. split; [done|]. intros. apply not_elem_of_nil.
  - cbn [mbind Res_bind app]. eexists. split; [done|]. split; cbn.
    + apply Hd.
    + intros e He. destruct Hd as [_ Hall]. rewrite Forall_forall in Hall. destruct (Hall e He) as (he & Hhe & Hm).
      exists he. split; [done|]. cbn in Hm. destruct (kind e); naive_solver.
    + by rewrite Hqs.
    + intros h. specialize (Hl h). cbn [app] in Hl. destruct (ls !! h) as [s|].
      * destruct Hl as (k & xs & Hin & -> & -> & Hmax). apply seen_elem in Hin as (i & -> & Hi & Hh).
        exists xs. rewrite Nat2Z.id. split; [done|]. split; [done|]. intros xs' Hxs' Hh'.
        rewrite <- (sort_partials_perm ps) in Hxs'. apply list_elem_of_lookup in Hxs' as [j Hj].
        apply (Hmax (Z.of_nat j)), seen_elem. eauto.
      * destruct Hl as [-> Hno]. intros xs Hxs Hh. rewrite <- (sort_partials_perm ps) in Hxs.
        apply list_elem_of_lookup in Hxs as [j Hj]. apply (Hno (Z.of_nat j) xs), seen_elem. eauto.
Qed.
End visual.

Arguments stepsOf {In Out State} m DescribeState es st xs.
Arguments drawing {In Out State _} m DescribeOperation DescribeState es n ps d.

Definition computeVisualizationData {In Out State} `{!SortPartials, !EqDecision State} (m : Model In Out State)
    (DescribeOperation : In → Out → string) (DescribeState : State → string) (info : linearizationInfo In Out) :
    Res (list partitionVisualizationData) :=
  drawPartitions (fillDefault m) DescribeOperation DescribeState info.

(** ** What the checker returns *)

Section drawn.
Context {In Out State : Type} `{!SortPartials, !SortByTime In Out, !EqDecision State} (m : Model In Out State).
Context (DescribeOperation : In → Out → string) (DescribeState : State → string).

Lemma drawPartitions_ok (info : linearizationInfo In Out) :
  length (partialLinearizations info) = length (history info) →
  (∀ i es ps, history info !! i = Some es → partialLinearizations info !! i = Some ps →
    ∃ n, well_formed es n ∧ Forall (legal_prefix m es n) ps) →
  ∃ data, drawPartitions m DescribeOperation DescribeState info = Ok data ∧
    length data = length (history info) ∧
    ∀ i d, data !! i = Some d → ∃ es ps n, history info !! i = Some es ∧ partialLinearizations info !! i = Some ps ∧
      well_formed es n ∧ drawing m DescribeOperation DescribeState es n ps d.
Proof using Type.
  intros Hlen Hall. unfold drawPartitions. match goal with |- context [go_for ?f ?a ?l] =>
    destruct (go_for_inv (λ data pre, length data = length pre ∧ ∀ i d, data !! i = Some d →
      ∃ es ps n, history info !! i = Some es ∧ partialLinearizations info !! i = Some ps ∧
        well_formed es n ∧ drawing m DescribeOperation DescribeState es n ps d) f l a) as (data & -> & Hl & Hd) end.
  - done.
  - intros data pre i post Hl [Hdl Hd].
    assert (i = length pre) as ->.
    { assert (seq 0 (length (history info)) !! length pre = Some i) as Hi by (rewrite Hl; by apply list_lookup_middle).
      by apply lookup_seq in Hi as [-> _]. }
    assert (length pre < length (history info))%nat as Hi.
    { apply (f_equal length) in Hl. rewrite length_seq, length_app in Hl. cbn in Hl. lia. }
    destruct (go_index_in_range (history info) (Z.of_nat (length pre))) as (es & -> & Hes); [lia|].
    destruct (go_index_in_range (partialLinearizations info) (Z.of_nat (length pre))) as (ps & -> & Hps); [lia|].
    rewrite Nat2Z.id in *. cbn [mbind Res_bind]. destruct (Hall _ _ _ Hes Hps) as (n & Hwf & Hlp).
    destruct (drawPartition_ok m DescribeOperation DescribeState Hwf ps Hlp) as (d & -> & Hdr). cbn [mbind Res_bind].
    eexists. split; [done|]. split; [rewrite !length_app; cbn; lia|]. intros j d' Hj.
    apply lookup_app_Some in Hj as [Hj|[Hge Hj]]; [by apply Hd|]. apply list_lookup_singleton_Some in Hj as [Hj <-].
    replace j with (length pre) by lia. by exists es, ps, n.
  - exists data. rewrite length_seq in Hl. done.
Qed.

(** The bars of the drawing are the operations. *)
Lemma drawing_operations p n ps d :
  timed p → well_formed (makeEntries p) n → drawing m DescribeOperation DescribeState (makeEntries p) n ps d →
  History d = (λ o, mkHistoryElement (O_ClientId o) (Call o) (Return o) (DescribeOperation (Input o) (Output o))) <$> p.
Proof using Type.
  intros Ht Hwf [Hdl Hde _ _]. assert (n = zlen p) as -> by (pose proof (wf_length Hwf); pose proof (wf_length (makeEntries_wf p Ht)); lia).
  apply list_eq. intros i. rewrite list_lookup_fmap. destruct (p !! i) as [o|] eqn:Ho.
  - assert (p !! Z.to_nat (Z.of_nat i) = Some o) as Ho' by (by rewrite Nat2Z.id).
    destruct (Hde (callOf (Z.of_nat i) o)) as (he & Hhe & Hc & Hs);
      [apply makeEntries_elem; exists (Z.of_nat i), o; split_and!; [lia|done|auto]|].
    destruct (Hde (returnOf (Z.of_nat i) o)) as (he' & Hhe' & He & x & y & Hop & Hdesc);
      [apply makeEntries_elem; exists (Z.of_nat i), o; split_and!; [lia|done|auto]|].
    cbn in *. rewrite (opOf_makeEntries p _ o Ht (Nat2Z.is_nonneg i) Ho') in Hop. injection Hop as <- <-. rewrite Nat2Z.id in *.
    rewrite Hhe in Hhe'. injection Hhe' as <-. rewrite Hhe. f_equal. destruct he; cbn in *. by subst.
  - apply lookup_ge_None. rewrite Hdl. apply lookup_ge_None in Ho. lia.
Qed.
End drawn.

(** What the tests draw when a check fails.  For a history whose operations
    return after they are called, whatever [CheckOperationsVerbose] returns, and
    in whatever order the searches end or are killed: [computeVisualizationData]
    returns, so that the model takes every step of every partial linearization
    once more.  Of each partition it shows every operation from its call to its
    return, the partial linearizations with the states the model goes through,
    and for each operation a longest partial linearization it is in. *)
Theorem visualization_of_check {In Out State : Type} `{!SortPartials, !SortByTime In Out, !EqDecision State}
    (m : Model In Out State) DescribeOperation DescribeState arrivals kill h timeout res info :
  equal_ok m → Forall timed (partsOf m h) → schedule (length (partsOf m h)) arrivals →
  CheckOperationsVerbose arrivals kill m h timeout = Ok (Some (res, info)) →
  ∃ data, computeVisualizationData m DescribeOperation DescribeState info = Ok data ∧
    length data = length (partsOf m h) ∧
    ∀ i p d, partsOf m h !! i = Some p → data !! i = Some d →
      History d = (λ o, mkHistoryElement (O_ClientId o) (Call o) (Return o) (DescribeOperation (Input o) (Output o))) <$> p ∧
      ∃ ps, partialLinearizations info !! i = Some ps ∧
        PartialLinearizations d = stepsOf m DescribeState (makeEntries p) (Init m) <$> sort_partials ps ∧
        ∀ j, match Largest d !! j with
             | None => ∀ xs, xs ∈ ps → j ∉ xs
             | Some k => ∃ xs, sort_partials ps !! Z.to_nat k = Some xs ∧ j ∈ xs ∧
                           ∀ xs', xs' ∈ ps → j ∈ xs' → zlen xs' ≤ zlen xs
             end.
Proof.
  intros Heq Ht Hs Hr. unfold CheckOperationsVerbose in Hr.
  destruct (checkOperations_answer m Heq arrivals kill h true timeout Ht Hs) as (r & Hr' & _ & Hres).
  rewrite Hr in Hr'. injection Hr' as <-. destruct (Hres _ _ eq_refl) as (_ & _ & _ & Hinfo).
  destruct (Hinfo eq_refl) as (Hh & Hlen & Hps). rewrite Forall_lookup in Ht.
  destruct (drawPartitions_ok (fillDefault m) DescribeOperation DescribeState info) as (data & Hdata & Hdl & Hd).
  - by rewrite Hh, length_fmap.
  - intros i es ps Hes Hp. destruct (Hps i ps Hp) as (p & Hpi & Hlp). rewrite Hh, list_lookup_fmap, Hpi in Hes.
    injection Hes as <-. exists (zlen p). split; [apply makeEntries_wf; by eapply Ht|].
    eapply Forall_impl; [exact Hlp|]. intros xs [? ? ? ?]. by split.
  - exists data. split; [done|]. split; [by rewrite Hdl, Hh, length_fmap|]. intros i p d Hp Hdi.
    destruct (Hd i d Hdi) as (es & ps & n & Hes & Hpsi & Hwf & Hdr). rewrite Hh, list_lookup_fmap, Hp in Hes. injection Hes as <-.
    split; [eapply (drawing_operations (fillDefault m)); [by eapply Ht|done..]|].
    exists ps. split; [done|]. destruct Hdr as [_ _ Hst Hlg]. split; [exact Hst|exact Hlg].
Qed.

Lemma visualization_of_check_witness :
  ∃ res info, CheckOperationsVerbose [FromSearch 0] (λ _, never) sampleModel sampleHistory 0 = Ok (Some (res, info)) ∧
    ∃ data, computeVisualizationData sampleModel (λ _ _, "op") (λ _, "state") info = Ok data ∧ length data = 1%nat.
Proof.
  eexists _, _. split; [vm_compute; reflexivity|].
  edestruct (visualization_of_check sampleModel (λ _ _, "op") (λ _, "state") [FromSearch 0] (λ _, never) sampleHistory 0)
    as (data & Hdata & Hlen & _).
  - by intros eq Hq.
  - repeat constructor.
  - split; repeat constructor. apply not_elem_of_nil.
  - vm_compute. reflexivity.
  - exists data. split; [exact Hdata|exact Hlen].
Defined.
