(* ===== verification/LabGobCheck.v ===== *)
(** * The checks of labgob (code/src/labgob/labgob.go)

    Before a value goes to [encoding/gob] labgob looks at its type, with
    everything the type mentions, and complains once about every struct field
    whose name is not capitalized, which gob would leave out
    ([checkType]); before it decodes into a value it complains when the value
    already holds something ([checkDefault]).

    A type is its place in a table, as a [reflect.Type] is a pointer: types may
    mention each other and themselves.  So is what a pointer of a value points
    to.  [checkType] recurses once per type it has not seen, so the number of
    types bounds its depth; [checkDefault1] stops at depth three by itself.
    The checks of different goroutines are taken one after the other. *)

From S2P Require Import Prelude Gob.
Open Scope Z_scope.

(** ** Types *)

Inductive Kind :=
  | Struct (fields : list (string * nat))
  | Slice (elem : nat)
  | Array (elem : nat)
  | Ptr (elem : nat)
  | Map (key elem : nat)
  (** the kinds the checks do not look into *)
  | Other.

Record GoType := mkType { typeName : string; kind : Kind }.

Abbreviation Types := (gmap nat GoType).

Definition kindOf (types : Types) (t : nat) : Kind :=
  match types !! t with Some ty => kind ty | None => Other end.

(** The package's variables, and what was printed: the type and the field of
    each complaint. *)
Record Checks := mkChecks {
  errorCount : Z;
  checked : gset nat;
  complaints : list (nat * string);
}.

Section check_type.
(** [unicode.IsUpper] of the first rune. *)
Context (startsUpper : string → bool).
Context (types : Types).

(** One field: the complaint, then its type. *)
Definition complain (t : nat) (f : string) (st : Checks) : Checks :=
  if startsUpper f then st
  else mkChecks (errorCount st + 1) (checked st) (complaints st ++ [(t, f)]).

(** [None]: out of fuel. *)
Fixpoint checkType (fuel : nat) (t : nat) (st : Checks) : option Checks :=
  match fuel with
  | O => None
  | S fuel =>
      if decide (t ∈ checked st) then Some st
      else
        let st := mkChecks (errorCount st) ({[ t ]} ∪ checked st) (complaints st) in
        match kindOf types t with
        | Struct fields =>
            foldl (λ r f, st ← r; checkType fuel f.2 (complain t f.1 st)) (Some st) fields
        | Slice e | Array e | Ptr e => checkType fuel e st
        | Map k e => st ← checkType fuel e st; checkType fuel k st
        | Other => Some st
        end
  end.

(** ** What it has to find *)

(** The types a type mentions, with the field for a struct. *)
Definition mentions (t : nat) : list (option string * nat) :=
  match kindOf types t with
  | Struct fields => map (λ f, (Some f.1, f.2)) fields
  | Slice e | Array e | Ptr e => [(None, e)]
  | Map k e => [(None, e); (None, k)]
  | Other => []
  end.

Inductive reaches : nat → nat → Prop :=
  | reaches_refl t : reaches t t
  | reaches_step t m u : m ∈ mentions t → reaches m.2 u → reaches t u.

(** The complaints about one type. *)
Definition lowerCase (t : nat) : list (nat * string) :=
  omap (λ m, match m.1 with Some f => if startsUpper f then None else Some (t, f) | None => None end)
    (mentions t).

(** Every type mentioned by a checked one is checked. *)
Definition closed (s : gset nat) : Prop :=
  ∀ t m, t ∈ s → m ∈ mentions t → m.2 ∈ s.

(** ** One loop for all kinds *)

Definition visit (fuel : nat) (t : nat) (r : option Checks) (m : option string * nat) : option Checks :=
  st ← r; checkType fuel m.2 (match m.1 with Some f => complain t f st | None => st end).

Lemma checkType_mentions fuel t st :
  checkType (S fuel) t st =
  if decide (t ∈ checked st) then Some st
  else foldl (visit fuel t) (Some (mkChecks (errorCount st) ({[ t ]} ∪ checked st) (complaints st))) (mentions t).
Proof.
  cbn [checkType]. case_decide; [done|]. unfold mentions.
  destruct (kindOf types t) as [fields| | | | |]; try done. by rewrite foldl_fmap.
Qed.

(** The complaint about one mention in type [t]. *)
Definition lowerOne (t : nat) (m : option string * nat) : list (nat * string) :=
  match m.1 with Some f => if startsUpper f then [] else [(t, f)] | None => [] end.

Definition allLower (s : gset nat) : list (nat * string) := elements s ≫= lowerCase.

(** What one visit of types does: the new types are reached from them and
    finished; there is one complaint for each of their fields, next to the
    complaints [own] about the type the visit comes from. *)
Record visited (own : list (nat * string)) (roots : list nat) (st st' : Checks) : Prop := mkVisited {
  vi_grows : checked st ⊆ checked st';
  vi_roots : ∀ t, t ∈ roots → t ∈ checked st';
  vi_reached : ∀ u, u ∈ checked st' → u ∉ checked st → ∃ t, t ∈ roots ∧ reaches t u;
  vi_finished : ∀ u m, u ∈ checked st' → u ∉ checked st → m ∈ mentions u → m.2 ∈ checked st';
  vi_complaints : ∃ l, complaints st' = complaints st ++ l ∧ errorCount st' = errorCount st + zlen l ∧
    l ≡ₚ own ++ allLower (checked st' ∖ checked st);
}.

(** Nothing new is checked. *)
Lemma visited_same own roots st st' l :
  checked st' = checked st → (∀ t, t ∈ roots → t ∈ checked st) →
  complaints st' = complaints st ++ l → errorCount st' = errorCount st + zlen l → l = own →
  visited own roots st st'.
Proof.
  intros E HR HC HE ->. split; rewrite ?E; try done; try (by intros; exfalso; eauto).
  exists own. split_and!; [done..|]. unfold allLower. by rewrite difference_diag_L, elements_empty, app_nil_r.
Qed.

Lemma visited_nothing st : visited [] [] st st.
Proof.
  apply (visited_same _ _ _ _ []); [done|by intros t ?%elem_of_nil|by rewrite app_nil_r|cbn; lia|done].
Qed.

Lemma allLower_union s1 s2 : s1 ## s2 → allLower (s1 ∪ s2) ≡ₚ allLower s1 ++ allLower s2.
Proof. intros Hd. unfold allLower. by rewrite elements_disj_union, bind_app. Qed.

Lemma difference_split (s s1 s2 : gset nat) : s ⊆ s1 → s1 ⊆ s2 → s2 ∖ s = (s1 ∖ s) ∪ (s2 ∖ s1).
Proof.
  intros H1 H2. apply set_eq. intros x. destruct (decide (x ∈ s1)); set_solver.
Qed.

Lemma visited_trans o1 o2 r1 r2 st st1 st2 :
  visited o1 r1 st st1 → visited o2 r2 st1 st2 → visited (o1 ++ o2) (r1 ++ r2) st st2.
Proof.
  intros [G1 R1 Re1 F1 (l1 & C1 & E1 & P1)] [G2 R2 Re2 F2 (l2 & C2 & E2 & P2)]. split.
  - set_solver.
  - set_solver.
  - intros u Hu Hn. destruct (decide (u ∈ checked st1)) as [Hu1|Hu1].
    + destruct (Re1 u Hu1 Hn) as (t & Ht & ?). exists t. split; [set_solver|done].
    + destruct (Re2 u Hu Hu1) as (t & Ht & ?). exists t. split; [set_solver|done].
  - intros u m Hu Hn Hm. destruct (decide (u ∈ checked st1)) as [Hu1|Hu1]; [|by eapply F2].
    apply G2. by eapply F1.
  - exists (l1 ++ l2). rewrite C2, C1, app_assoc, length_app. split_and!; [done|lia|]. rewrite P1, P2.
    rewrite (difference_split (checked st) (checked st1) (checked st2)) by done. rewrite allLower_union by set_solver.
    rewrite <- !app_assoc. apply Permutation_app_head, Permutation_app_swap_app.
Qed.

Lemma visited_complain t m st :
  visited (lowerOne t m) [] st (match m.1 with Some f => complain t f st | None => st end).
Proof.
  unfold lowerOne, complain. destruct m.1 as [f|]; [destruct (startsUpper f)|]; try apply visited_nothing.
  by apply (visited_same _ _ _ _ [(t, f)]); [|intros ? ?%elem_of_nil|..].
Qed.

Lemma foldl_none fuel t ms : foldl (visit fuel t) None ms = None.
Proof. induction ms; cbn; done. Qed.

Lemma visit_loop fuel t ms st st' :
  (∀ u st st', checkType fuel u st = Some st' → visited [] [u] st st') →
  foldl (visit fuel t) (Some st) ms = Some st' → visited (ms ≫= lowerOne t) (map snd ms) st st'.
Proof.
  intros IH. revert st. induction ms as [|m ms IHms]; intros st Hf; cbn in Hf.
  { injection Hf as <-. apply visited_nothing. }
  destruct (checkType fuel m.2 _) as [st1|] eqn:H1; [|by rewrite foldl_none in Hf].
  apply IH in H1. specialize (IHms _ Hf).
  pose proof (visited_trans _ _ _ _ _ _ _ (visited_complain t m st) H1) as Hm. rewrite app_nil_r in Hm.
  exact (visited_trans _ _ _ _ _ _ _ Hm IHms).
Qed.

Lemma lowerCase_mentions t : lowerCase t = mentions t ≫= lowerOne t.
Proof.
  unfold lowerCase. induction (mentions t) as [|[[f|] u] ms IH]; cbn; [done| |done].
  destruct (startsUpper f); cbn; by rewrite IH.
Qed.

(** A type that was not checked: first itself, then what it mentions. *)
Lemma visited_node t st st' (st0 := mkChecks (errorCount st) ({[ t ]} ∪ checked st) (complaints st)) :
  t ∉ checked st → visited (lowerCase t) (map snd (mentions t)) st0 st' → visited [] [t] st st'.
Proof.
  intros Ht [G R Re F (l & C & E & P)]. cbn [checked complaints errorCount st0] in *. split.
  - set_solver.
  - intros u ->%list_elem_of_singleton. set_solver.
  - intros u Hu Hn. exists t. split; [by apply list_elem_of_singleton|].
    destruct (decide (u = t)) as [->|Hne]; [constructor|].
    destruct (Re u Hu) as (v & Hv & Hr); [set_solver|].
    apply list_elem_of_fmap in Hv as (m & -> & Hm). by eapply reaches_step.
  - intros u m Hu Hn Hm. destruct (decide (u = t)) as [->|Hne].
    + apply R, list_elem_of_fmap. by exists m.
    + eapply F; [done|set_solver|done].
  - exists l. split_and!; [done..|]. rewrite P. cbn [app].
    rewrite (difference_split (checked st) ({[ t ]} ∪ checked st) (checked st')) by set_solver.
    replace (({[ t ]} ∪ checked st) ∖ checked st) with ({[ t ]} : gset nat) by set_solver.
    rewrite allLower_union by set_solver. unfold allLower at 2. by rewrite elements_singleton, bind_singleton.
Qed.

Lemma checkType_visited fuel t st st' : checkType fuel t st = Some st' → visited [] [t] st st'.
Proof.
  revert t st st'. induction fuel as [|fuel IH]; intros t st st' H; [done|].
  rewrite checkType_mentions in H. case_decide as Ht.
  - injection H as <-. apply (visited_same _ _ _ _ []); [done| |by rewrite app_nil_r|cbn; lia|done].
    by intros u ->%list_elem_of_singleton.
  - apply visited_node; [done|]. rewrite lowerCase_mentions. by eapply visit_loop.
Qed.

(** ** Termination *)

Definition unseen (st : Checks) : nat := size (dom types ∖ checked st).

Lemma unseen_grows st st' : checked st ⊆ checked st' → (unseen st' ≤ unseen st)%nat.
Proof. intros H. unfold unseen. apply subseteq_size. set_solver. Qed.

Lemma complain_checked t f st : checked (complain t f st) = checked st.
Proof. unfold complain. by destruct (startsUpper f). Qed.

Lemma visit_loop_total fuel t ms st :
  (∀ u st, (unseen st < fuel)%nat → is_Some (checkType fuel u st)) →
  (unseen st < fuel)%nat → is_Some (foldl (visit fuel t) (Some st) ms).
Proof.
  intros IH. revert st. induction ms as [|m ms IHms]; intros st Hst; cbn; [by eexists|].
  set (st0 := match m.1 with Some f => _ | None => _ end).
  assert (checked st0 = checked st) as E by (unfold st0; destruct m.1; [apply complain_checked|done]).
  destruct (IH m.2 st0) as [st1 H1]; [unfold unseen in *; by rewrite E|]. rewrite H1. apply IHms.
  apply checkType_visited, vi_grows, unseen_grows in H1. unfold unseen in *. rewrite E in H1. lia.
Qed.

Lemma enough_fuel fuel st : (size types < fuel)%nat → (unseen st < fuel)%nat.
Proof.
  intros Hf. unfold unseen. eapply Nat.le_lt_trans; [|exact Hf]. rewrite <- size_dom.
  apply subseteq_size. set_solver.
Qed.

Lemma checkType_total fuel t st : (unseen st < fuel)%nat → is_Some (checkType fuel t st).
Proof.
  revert t st. induction fuel as [|fuel IH]; intros t st Hst; [lia|].
  rewrite checkType_mentions. case_decide as Ht; [by eexists|].
  destruct (decide (t ∈ dom types)) as [Hd|Hd].
  - apply visit_loop_total; [done|]. unfold unseen in *. cbn [checked].
    assert (dom types ∖ ({[ t ]} ∪ checked st) ⊂ dom types ∖ checked st) as Hlt%subset_size by set_solver. lia.
  - assert (mentions t = []) as ->; [|by eexists].
    unfold mentions, kindOf. by apply not_elem_of_dom in Hd as ->.
Qed.

(** C29: labgob complains once about every field that gob would leave out.
    [checkType] returns, whatever the types look like (mutually recursive
    types too), after going at most as deep as there are types; the types
    checked afterwards are those checked before and those the given type
    mentions, directly or not; and there is exactly one complaint, counted in
    [errorCount], for every field with a lower-case name of a type checked now
    for the first time. *)
Theorem checkType_complains_once fuel t st :
  closed (checked st) → (size types < fuel)%nat →
  ∃ st', checkType fuel t st = Some st' ∧ closed (checked st') ∧
    (∀ u, u ∈ checked st' ↔ u ∈ checked st ∨ reaches t u) ∧
    ∃ l, complaints st' = complaints st ++ l ∧ errorCount st' = errorCount st + zlen l ∧
      l ≡ₚ elements (checked st' ∖ checked st) ≫= lowerCase.
Proof.
  intros Hcl Hf. destruct (checkType_total fuel t st (enough_fuel _ _ Hf)) as [st' Hst'].
  exists st'. split; [done|]. apply checkType_visited in Hst' as [G R Re F C].
  assert (closed (checked st')) as Hcl'.
  { intros u m Hu Hm. destruct (decide (u ∈ checked st)) as [Hs|Hs]; [|by eapply F]. apply G. by eapply Hcl. }
  split_and!; [done| |exact C]. intros u. split.
  - intros Hu. destruct (decide (u ∈ checked st)) as [|Hs]; [by left|right].
    destruct (Re u Hu Hs) as (v & ->%list_elem_of_singleton & ?). done.
  - intros [Hs|Hr]; [by apply G|]. assert (t ∈ checked st') as Ht by (apply R; left).
    clear -Hcl' Hr Ht. induction Hr as [|t m u Hm _ IH]; [done|]. apply IH. by eapply Hcl'.
Qed.
End check_type.

(** A type that mentions itself:
    [type Node struct { Val int; next *Node }]. *)
Definition nodeTypes : Types :=
  {[ 0%nat := mkType "Node" (Struct [("Val", 1%nat); ("next", 2%nat)]);
     1%nat := mkType "int" Other; 2%nat := mkType "" (Ptr 0) ]}.

Definition asciiUpper (s : string) : bool :=
  match s with
  | EmptyString => false
  | String c _ => let n := Ascii.nat_of_ascii c in Nat.leb 65 n && Nat.leb n 90
  end.

Definition noChecks : Checks := mkChecks 0 ∅ [].

Example node_checked_once :
  (st ← checkType asciiUpper nodeTypes 4 0 noChecks; complaints <$> checkType asciiUpper nodeTypes 4 2 st) =
  Some [(0%nat, "next")].
Proof. vm_compute. reflexivity. Qed.

Lemma checkType_complains_once_witness :
  ∃ st', checkType asciiUpper nodeTypes 4 0 noChecks = Some st' ∧ closed nodeTypes (checked st') ∧
    (∀ u, u ∈ checked st' ↔ u ∈ checked noChecks ∨ reaches nodeTypes 0 u) ∧
    ∃ l, complaints st' = complaints noChecks ++ l ∧ errorCount st' = errorCount noChecks + zlen l ∧
      l ≡ₚ elements (checked st' ∖ checked noChecks) ≫= lowerCase asciiUpper nodeTypes.
Proof.
  apply (checkType_complains_once asciiUpper nodeTypes 4 0 noChecks).
  - intros t m Ht. by apply elem_of_empty in Ht.
  - vm_compute. lia.
Defined.

(** ** Decoding into a value that holds something *)

(** A value of a basic kind shows its type's name and what it holds. *)
Inductive Value :=
  | VBool (ty : string) (b : bool)
  | VInt (ty : string) (n : Z)
  | VString (ty s : string)
  | VFloat (ty : string) (isZero : bool)
  | VStruct (fields : list (string * Value))
  | VPtr (to : option nat)
  (** slices, maps and the other kinds *)
  | VOther.

(** The comparison with [reflect.Zero]; [None]: not of a basic kind. *)
Definition holdsSomething (v : Value) : option (string * bool) :=
  match v with
  | VBool ty b => Some (ty, b)
  | VInt ty n => Some (ty, bool_decide (n ≠ 0))
  | VString ty s => Some (ty, bool_decide (s ≠ EmptyString))
  | VFloat ty z => Some (ty, negb z)
  | _ => None
  end.

Section check_default.
Context (heap : gmap nat Value).

(** [errorCount] and the warnings printed. *)
Abbreviation Warned := (Z * list string)%type.

Definition warn (what : string) (st : Warned) : Warned :=
  (st.1 + 1, if decide (st.1 < 1) then st.2 ++ [what] else st.2).

(** [levels] is [4 - depth]: nothing below depth 3 is looked at. *)
Fixpoint checkDefault1 (levels : nat) (v : Value) (name : string) (st : Warned) : Warned :=
  match levels with
  | O => st
  | S levels =>
      match v with
      | VStruct fields =>
          foldl (λ st f, checkDefault1 levels f.2
                   (if decide (name = "") then f.1 else name +:+ "." +:+ f.1) st) st fields
      | VPtr None => st
      | VPtr (Some p) =>
          match heap !! p with Some v => checkDefault1 levels v name st | None => st end
      | _ =>
          match holdsSomething v with
          | Some (ty, true) => warn (if decide (name = "") then ty else name) st
          | _ => st
          end
      end
  end.

(** [None] is [nil]. *)
Definition checkDefault (v : option Value) (st : Warned) : Warned :=
  match v with Some v => checkDefault1 3 v "" st | None => st end.

(** Only the first finding of the process is printed. *)
Lemma checkDefault1_warns levels v name st :
  st.1 ≤ (checkDefault1 levels v name st).1 ∧
  (1 ≤ st.1 → (checkDefault1 levels v name st).2 = st.2) ∧
  (0 ≤ st.1 → (length (checkDefault1 levels v name st).2 ≤ S (length st.2))%nat).
Proof.
  cut (let st' := checkDefault1 levels v name st in st.1 ≤ st'.1 ∧
    ((1 ≤ st.1 ∨ st'.1 = st.1) → st'.2 = st.2) ∧
    (0 ≤ st.1 → (length st'.2 ≤ S (length st.2))%nat)); [naive_solver|].
  revert v name st. induction levels as [|levels IH]; intros v name st; cbn; [split_and!; [done..|lia]|].
  assert (∀ what (s : Warned), s.1 ≤ (warn what s).1 ∧ ((1 ≤ s.1 ∨ (warn what s).1 = s.1) → (warn what s).2 = s.2) ∧
    (0 ≤ s.1 → (length (warn what s).2 ≤ S (length s.2))%nat)) as Hwarn.
  { intros what s. unfold warn. cbn. case_decide; rewrite ?length_app; cbn; split_and!; try lia; intros [?|?]; first [lia|done]. }
  assert (st.1 ≤ st.1 ∧ ((1 ≤ st.1 ∨ st.1 = st.1) → st.2 = st.2) ∧
    (0 ≤ st.1 → (length st.2 ≤ S (length st.2))%nat)) as Hsame by (split_and!; [done..|lia]).
  destruct v as [ty b|ty n|ty s|ty z|fields|[p|]|]; cbn; try (case_match; [apply Hwarn|exact Hsame]);
    try exact Hsame; [|destruct (heap !! p); [apply IH|exact Hsame]].
  revert st Hsame. induction fields as [|f fields IHf]; intros st _; cbn; [split_and!; [done..|lia]|].
  set (st1 := checkDefault1 _ _ _ _). pose proof (IH f.2 (if decide (name = "") then f.1 else name +:+ "." +:+ f.1) st)
    as (A1 & A2 & A3). fold st1 in A1, A2, A3.
  destruct (IHf st1) as (B1 & B2 & B3); [split_and!; [done..|lia]|].
  split_and!; [lia| |].
  - intros H. rewrite B2, A2; [done|..]; lia.
  - intros H. destruct (decide (1 ≤ st1.1)) as [Hge|Hlt]; [rewrite B2 by auto; auto|].
    assert (st1.2 = st.2) as <- by (apply A2; lia). apply B3. lia.
Qed.
End check_default.

Example reused_reply_is_reported :
  checkDefault {[ 0%nat := VStruct [("Term", VInt "int" 3); ("Success", VBool "bool" true)] ]}
    (Some (VPtr (Some 0%nat))) (0, []) = (2, ["Term"]).
Proof. vm_compute. reflexivity. Qed.

(** The contents of a slice, and what is four levels down, are not seen. *)
Example deep_value_is_not_seen :
  checkDefault {[ 0%nat := VStruct [("A", VStruct [("B", VInt "int" 3)]); ("C", VOther)] ]}
    (Some (VPtr (Some 0%nat))) (0, []) = (0, []).
Proof. vm_compute. reflexivity. Qed.

(** ** The encoder and the decoder

    They make their checks, and then leave the work to [encoding/gob]. *)
Section codec.
Context (startsUpper : string → bool) (types : Types) (heap : gmap nat Value).
Context {A : Type} `{!LabGob A}.

(** [x] has type [t]. *)
Definition Encode (fuel t : nat) (x : A) (st : Checks) : option (Checks * bytes) :=
  st ← checkType startsUpper types fuel t st; Some (st, gob_encode x).

(** Decodes into a variable of type [t] that holds [into]; the result has the
    warnings printed, and what gob has read. *)
Definition Decode (fuel t : nat) (into : option Value) (b : bytes) (st : Checks)
    : option (Checks * list string * option A) :=
  st ← checkType startsUpper types fuel t st;
  let '(n, printed) := checkDefault heap into (errorCount st, []) in
  Some (mkChecks n (checked st) (complaints st), printed, gob_decode b).

Lemma checkType_enough fuel t st :
  (size types < fuel)%nat →
  ∃ st', checkType startsUpper types fuel t st = Some st' ∧ errorCount st ≤ errorCount st'.
Proof.
  intros Hf. destruct (checkType_total startsUpper types fuel t st (enough_fuel _ _ _ Hf)) as [st' Hst'].
  exists st'. split; [done|]. apply checkType_visited in Hst' as [_ _ _ _ (l & _ & -> & _)]. lia.
Qed.

(** Whatever the checks find, what was encoded is read back, and at most one
    warning is printed. *)
Lemma Decode_Encode fuel t t' into x st :
  0 ≤ errorCount st → (size types < fuel)%nat →
  ∃ st1 b st2 printed, Encode fuel t x st = Some (st1, b) ∧
    Decode fuel t' into b st1 = Some (st2, printed, Some x) ∧ (length printed ≤ 1)%nat.
Proof.
  intros H0 Hf. destruct (checkType_enough fuel t st Hf) as (st1 & H1 & Hle1).
  destruct (checkType_enough fuel t' st1 Hf) as (st2 & H2 & Hle2).
  destruct (checkDefault heap into (errorCount st2, [])) as [n printed] eqn:Hd.
  exists st1, (gob_encode x), (mkChecks n (checked st2) (complaints st2)), printed.
  unfold Encode, Decode. rewrite H1, H2. cbn. rewrite Hd, gob_decode_encode. split_and!; [done..|].
  destruct into as [v|]; [|injection Hd as <- <-; cbn; lia].
  pose proof (checkDefault1_warns heap 3 v "" (errorCount st2, [])) as (_ & _ & Hlen).
  unfold checkDefault in Hd. rewrite Hd in Hlen. apply Hlen. cbn. lia.
Qed.
End codec.
