(* ===== verification/LabRpc.v ===== *)
(** * The network of the laboratories (code/src/labrpc/labrpc.go)

    Raft, the services and their clients call each other with [ClientEnd.Call];
    a [Network] carries the request to the server the end is connected to, runs
    the handler and carries the reply back, losing, delaying and reordering
    messages as the tests ask.  Here a [World] holds the network, the servers
    with their services, the objects the services call, and every call with
    the goroutines that work for it; [step] is one [Label]: an operation of
    the network, or what the goroutines of one call do up to the next point at
    which another goroutine can come in between.  A label that is not possible
    changes nothing.

    A handler is code outside labrpc: a method is any function of the argument
    and the object, and [executions] records the calls of methods, in order.
    [Runtime] states what is used of reflection, [LabGob] what is used of
    labgob.  Names, [interface{}] in Go, are strings.  Waiting times are left
    out: a timer may fire at any moment. *)

From Stdlib Require Import Ascii.
From S2P Require Import Prelude Gob.
Open Scope Z_scope.

(** ** Requests, services, servers *)

(** The run-time types of Go values and their zero values. *)
Class Runtime (Val : Type) := {
  GoType : Type;
  TypeOf : Val → GoType;
  Zero : GoType → Val;
}.

Record reqMsg (T : Type) := mkReq {
  endname : string;
  svcMeth : string;
  argsType : T;
  args : bytes;
}.
Arguments mkReq {T}.
Arguments endname {T}.
Arguments svcMeth {T}.
Arguments argsType {T}.
Arguments args {T}.

Record replyMsg := mkReplyMsg { ok : bool; reply : bytes }.

Definition noReply : replyMsg := mkReplyMsg false [].

(** A method as reflection shows it: its name, whether it is exported, the
    number of its inputs (the receiver is one), whether the third is a
    pointer, the number of its outputs, and what it does. *)
Record GoMethod (Val Obj : Type) := mkMethod {
  Name : string;
  exported : bool;
  NumIn : Z;
  in2IsPtr : bool;
  NumOut : Z;
  Func : Val → Obj → Res (Obj * Val);
}.
Arguments mkMethod {Val Obj}.
Arguments Name {Val Obj}.
Arguments exported {Val Obj}.
Arguments NumIn {Val Obj}.
Arguments in2IsPtr {Val Obj}.
Arguments NumOut {Val Obj}.
Arguments Func {Val Obj}.

(** [rcvr] is the place of the receiver in [objects]. *)
Record Service (Val Obj : Type) := mkService {
  name : string;
  rcvr : nat;
  methods : gmap string (GoMethod Val Obj);
}.
Arguments mkService {Val Obj}.
Arguments name {Val Obj}.
Arguments rcvr {Val Obj}.
Arguments methods {Val Obj}.

Definition MakeService {Val Obj} (typeName : string) (obj : nat) (ms : list (GoMethod Val Obj))
    : Service Val Obj :=
  mkService typeName obj
    (foldl (λ m meth,
       if negb (exported meth) || bool_decide (NumIn meth ≠ 3) || negb (in2IsPtr meth)
            || bool_decide (NumOut meth ≠ 0)
       then m else <[Name meth := meth]> m) ∅ ms).

Record Server (Val Obj : Type) := mkServer {
  services : gmap string (Service Val Obj);
  scount : Z;
}.
Arguments mkServer {Val Obj}.
Arguments services {Val Obj}.
Arguments scount {Val Obj}.

Definition MakeServer {Val Obj} : Server Val Obj := mkServer ∅ 0.

Definition AddService {Val Obj} (svc : Service Val Obj) (rs : Server Val Obj) : Server Val Obj :=
  mkServer (<[name svc := svc]> (services rs)) (scount rs).

(** [strings.LastIndex(s, ".")]. *)
Fixpoint lastDot (s : string) : option nat :=
  match s with
  | EmptyString => None
  | String c s =>
      match lastDot s with
      | Some n => Some (S n)
      | None => if decide (c = "."%char) then Some 0%nat else None
      end
  end.

(** "Raft.AppendEntries" into service and method; without a dot the slice
    expression [[:-1]] panics. *)
Definition splitMeth (s : string) : Res (string * string) :=
  match lastDot s with
  | Some dot => Ok (String.substring 0 dot s,
                    String.substring (dot + 1) (String.length s - (dot + 1)) s)
  | None => Panic "slice bounds out of range"
  end.

(** The part of [Server.dispatch] under the server's lock. *)
Definition dispatchServer {Val Obj T} (req : reqMsg T) (rs : Server Val Obj)
    : Res (Server Val Obj * (Service Val Obj * string)) :=
  '(serviceName, methodName) ← splitMeth (svcMeth req);
  let rs := mkServer (services rs) (scount rs + 1) in
  match services rs !! serviceName with
  | Some svc => Ok (rs, (svc, methodName))
  | None => Fatal "labrpc.Server.dispatch(): unknown service"
  end.

(** [Service.dispatch]: the argument read, the reply, and what is sent back.
    The error of [ad.Decode] is ignored; the argument is then zero. *)
Definition dispatchService {Val Obj} `{!Runtime Val, !LabGob Val} (methname : string)
    (req : reqMsg GoType) (svc : Service Val Obj) (obj : Obj) : Res (Obj * (Val * Val * replyMsg)) :=
  match methods svc !! methname with
  | Some method =>
      let arg := default (Zero (argsType req)) (gob_decode (args req)) in
      '(obj, replyv) ← Func method arg obj;
      Ok (obj, (arg, replyv, mkReplyMsg true (gob_encode replyv)))
  | None => Fatal "labrpc.Service.dispatch(): unknown method"
  end.

(** ** The network *)

(** [servers] holds pointers: places in [heap], [None] for [nil].
    The ends differ by their name only. *)
Record Network := mkNetwork {
  reliable : bool;
  longDelays : bool;
  longReordering : bool;
  ends : gset string;
  enabled : gmap string bool;
  servers : gmap string (option nat);
  connections : gmap string (option string);
  doneClosed : bool;
  count : Z;
  nbytes : Z;
}.
#[export] Instance Network_eta : Settable Network := λ n,
  mkNetwork (reliable n) (longDelays n) (longReordering n) (ends n) (enabled n) (servers n)
    (connections n) (doneClosed n) (count n) (nbytes n).
#[export] Instance set_reliable : Setter reliable := ltac:(derive_setter).
#[export] Instance set_longDelays : Setter longDelays := ltac:(derive_setter).
#[export] Instance set_longReordering : Setter longReordering := ltac:(derive_setter).
#[export] Instance set_ends : Setter ends := ltac:(derive_setter).
#[export] Instance set_enabled : Setter enabled := ltac:(derive_setter).
#[export] Instance set_servers : Setter servers := ltac:(derive_setter).
#[export] Instance set_connections : Setter connections := ltac:(derive_setter).
#[export] Instance set_doneClosed : Setter doneClosed := ltac:(derive_setter).
#[export] Instance set_count : Setter count := ltac:(derive_setter).
#[export] Instance set_nbytes : Setter nbytes := ltac:(derive_setter).

Definition MakeNetwork : Network := mkNetwork true false false ∅ ∅ ∅ ∅ false 0 0.

(** [close] of a closed channel panics. *)
Definition Cleanup (rn : Network) : Res Network :=
  if doneClosed rn then Panic "close of closed channel" else Ok (rn <| doneClosed := true |>).

Definition Reliable (yes : bool) (rn : Network) : Network := rn <| reliable := yes |>.
Definition LongReordering (yes : bool) (rn : Network) : Network := rn <| longReordering := yes |>.
Definition LongDelays (yes : bool) (rn : Network) : Network := rn <| longDelays := yes |>.

Definition MakeEnd (e : string) (rn : Network) : Res Network :=
  if decide (e ∈ ends rn) then Fatal "MakeEnd: already exists"
  else Ok (rn <| ends := {[ e ]} ∪ ends rn |> <| enabled := <[e := false]> (enabled rn) |>
              <| connections := <[e := None]> (connections rn) |>).

Definition AddServer (servername : string) (rs : nat) (rn : Network) : Network :=
  rn <| servers := <[servername := Some rs]> (servers rn) |>.
Definition DeleteServer (servername : string) (rn : Network) : Network :=
  rn <| servers := <[servername := None]> (servers rn) |>.
Definition Connect (e servername : string) (rn : Network) : Network :=
  rn <| connections := <[e := Some servername]> (connections rn) |>.
Definition Enable (e : string) (yes : bool) (rn : Network) : Network :=
  rn <| enabled := <[e := yes]> (enabled rn) |>.

(** Reads of the maps give the zero value for a missing key. *)
Definition isEnabled (e : string) (rn : Network) : bool := default false (enabled rn !! e).
Definition serverOf (servername : string) (rn : Network) : option nat := mjoin (servers rn !! servername).
Definition connectedTo (e : string) (rn : Network) : option string := mjoin (connections rn !! e).

(** [int32] and [int64] counters wrap around. *)
Definition wrap (bits z : Z) : Z := (z + 2 ^ (bits - 1)) `mod` 2 ^ bits - 2 ^ (bits - 1).
Definition addCount (rn : Network) : Network := rn <| count := wrap 32 (count rn + 1) |>.
Definition addBytes (n : Z) (rn : Network) : Network := rn <| nbytes := wrap 64 (nbytes rn + n) |>.

(** What [readEndnameInfo] reads. *)
Record EndInfo := mkInfo {
  i_enabled : bool;
  i_servername : option string;
  i_server : option nat;
  i_reliable : bool;
  i_longreordering : bool;
}.

Definition readEndnameInfo (e : string) (rn : Network) : EndInfo :=
  let servername := connectedTo e rn in
  mkInfo (isEnabled e rn) servername
    (match servername with Some n => serverOf n rn | None => None end)
    (reliable rn) (longReordering rn).

Definition isServerDead (e servername : string) (server : nat) (rn : Network) : bool :=
  negb (isEnabled e rn) || bool_decide (serverOf servername rn ≠ Some server).

(** [Network.GetCount]: the method of a [nil] server panics. *)
Definition GetCount {Val Obj} (heap : list (Server Val Obj)) (servername : string) (rn : Network) : Res Z :=
  match serverOf servername rn with
  | Some p => match heap !! p with Some rs => Ok (scount rs) | None => Panic "nil pointer" end
  | None => Panic "nil pointer"
  end.

(** ** Calls and their goroutines *)

(** What [processReq] has read of a request it carries to a server. *)
Record Route := mkRoute {
  r_servername : string;
  r_server : nat;
  r_reliable : bool;
  r_longreordering : bool;
}.

(** Where the call is: in [Call], in [processReq], or in a timer. *)
Inductive Pc (Val : Type) :=
  (** [Call], before the request is sent *)
  | Sending
  (** [processReq], before [readEndnameInfo] *)
  | Received
  (** a timer that will report failure *)
  | Lost
  (** an unreliable network, before the request is dropped or goes on *)
  | Short (rt : Route)
  (** in the loop that waits for the handler *)
  | Waiting (rt : Route)
  (** after the loop, with [reply] if [replyOK] *)
  | Deciding (rt : Route) (got : option replyMsg)
  (** a timer that will send the reply *)
  | Delayed (r : replyMsg)
  (** sending on [replyCh] *)
  | Replying (r : replyMsg)
  (** [Call] has returned, with the value decoded into its reply if true *)
  | Returned (v : option Val).
Arguments Sending {Val}.
Arguments Received {Val}.
Arguments Lost {Val}.
Arguments Short {Val}.
Arguments Waiting {Val}.
Arguments Deciding {Val}.
Arguments Delayed {Val}.
Arguments Replying {Val}.
Arguments Returned {Val}.

(** The goroutine that runs the handler. *)
Inductive Thread (Val Obj : Type) :=
  | NotStarted
  (** before [Server.dispatch] *)
  | Started (server : nat)
  (** before the method is called *)
  | Dispatched (server : nat) (svc : Service Val Obj) (methodName : string)
  (** sending on [ech] *)
  | Executed (r : replyMsg)
  | Ended.
Arguments NotStarted {Val Obj}.
Arguments Started {Val Obj}.
Arguments Dispatched {Val Obj}.
Arguments Executed {Val Obj}.
Arguments Ended {Val Obj}.

Record CallState (Val Obj T : Type) := mkCall {
  argument : Val;
  req : reqMsg T;
  pc : Pc Val;
  thread : Thread Val Obj;
}.
Arguments mkCall {Val Obj T}.
Arguments argument {Val Obj T}.
Arguments req {Val Obj T}.
Arguments pc {Val Obj T}.
Arguments thread {Val Obj T}.

(** Call [e_call] ran a method at server [e_server]. *)
Record Execution (Val : Type) := mkExecution {
  e_call : nat;
  e_server : nat;
  e_arg : Val;
  e_reply : Val;
}.
Arguments mkExecution {Val}.
Arguments e_call {Val}.
Arguments e_server {Val}.
Arguments e_arg {Val}.
Arguments e_reply {Val}.

(** [loop]: the goroutine of [MakeNetwork] still receives requests. *)
Record World (Val Obj T : Type) := mkWorld {
  net : Network;
  loop : bool;
  heap : list (Server Val Obj);
  objects : list Obj;
  calls : list (CallState Val Obj T);
  executions : list (Execution Val);
}.
Arguments mkWorld {Val Obj T}.
Arguments net {Val Obj T}.
Arguments loop {Val Obj T}.
Arguments heap {Val Obj T}.
Arguments objects {Val Obj T}.
Arguments calls {Val Obj T}.
Arguments executions {Val Obj T}.
#[export] Instance World_eta {Val Obj T} : Settable (World Val Obj T) := λ w,
  mkWorld (net w) (loop w) (heap w) (objects w) (calls w) (executions w).
#[export] Instance set_net {Val Obj T} : Setter (@net Val Obj T) := ltac:(derive_setter).
#[export] Instance set_loop {Val Obj T} : Setter (@loop Val Obj T) := ltac:(derive_setter).
#[export] Instance set_heap {Val Obj T} : Setter (@heap Val Obj T) := ltac:(derive_setter).
#[export] Instance set_objects {Val Obj T} : Setter (@objects Val Obj T) := ltac:(derive_setter).
#[export] Instance set_calls {Val Obj T} : Setter (@calls Val Obj T) := ltac:(derive_setter).
#[export] Instance set_executions {Val Obj T} : Setter (@executions Val Obj T) := ltac:(derive_setter).

Ltac rpc_simpl :=
  cbn [setf set_net set_loop set_heap set_objects set_calls set_executions
       net loop heap objects calls executions argument req pc thread] in *.

(** What becomes of the reply of a live server. *)
Inductive Choice := DropReply | DelayReply | SendReply.

Inductive Label (Val Obj : Type) :=
  (** operations of the tests *)
  | LReliable (yes : bool)
  | LLongDelays (yes : bool)
  | LLongReordering (yes : bool)
  | LMakeEnd (e : string)
  | LConnect (e servername : string)
  | LEnable (e : string) (yes : bool)
  | LMakeServer
  | LMakeObject (o : Obj)
  | LAddService (server : nat) (svc : Service Val Obj)
  | LAddServer (servername : string) (server : nat)
  | LDeleteServer (servername : string)
  | LCleanup
  (** the goroutine of the network ends *)
  | LLoopExit
  (** [Call] is called *)
  | LCall (e meth : string) (arg : Val)
  (** it sends the request, or finds the network destroyed *)
  | LSend (k : nat)
  | LClosed (k : nat)
  (** [processReq] *)
  | LRead (k : nat)
  | LDropRequest (k : nat)
  | LStartHandler (k : nat)
  | LTakeReply (k : nat)
  | LTick (k : nat)
  | LFinish (k : nat) (c : Choice)
  (** the goroutine of the handler *)
  | LDispatch (k : nat)
  | LExecute (k : nat)
  | LDrain (k : nat)
  (** a timer fires; [Call] returns *)
  | LTimer (k : nat)
  | LReturn (k : nat).
Arguments LReliable {Val Obj}.
Arguments LLongDelays {Val Obj}.
Arguments LLongReordering {Val Obj}.
Arguments LMakeEnd {Val Obj}.
Arguments LConnect {Val Obj}.
Arguments LEnable {Val Obj}.
Arguments LMakeServer {Val Obj}.
Arguments LMakeObject {Val Obj}.
Arguments LAddService {Val Obj}.
Arguments LAddServer {Val Obj}.
Arguments LDeleteServer {Val Obj}.
Arguments LCleanup {Val Obj}.
Arguments LLoopExit {Val Obj}.
Arguments LCall {Val Obj}.
Arguments LSend {Val Obj}.
Arguments LClosed {Val Obj}.
Arguments LRead {Val Obj}.
Arguments LDropRequest {Val Obj}.
Arguments LStartHandler {Val Obj}.
Arguments LTakeReply {Val Obj}.
Arguments LTick {Val Obj}.
Arguments LFinish {Val Obj}.
Arguments LDispatch {Val Obj}.
Arguments LExecute {Val Obj}.
Arguments LDrain {Val Obj}.
Arguments LTimer {Val Obj}.
Arguments LReturn {Val Obj}.

Section labrpc.
Context {Val Obj : Type} `{!Runtime Val, !LabGob Val}.
Local Abbreviation W := (World Val Obj GoType).
Local Abbreviation C := (CallState Val Obj GoType).
Implicit Types (w : W) (c : C).

(** The start of [Call]: the request with the argument encoded. *)
Definition makeReq (e meth : string) (arg : Val) : reqMsg GoType :=
  mkReq e meth (TypeOf arg) (gob_encode arg).

Definition setCall (k : nat) c w : W := w <| calls := <[k := c]> (calls w) |>.
Definition goto (k : nat) c (p : Pc Val) w : W := setCall k (mkCall (argument c) (req c) p (thread c)) w.
Definition become (k : nat) c (t : Thread Val Obj) w : W := setCall k (mkCall (argument c) (req c) (pc c) t) w.

(** [processReq] up to where it waits. *)
Definition stepRead (k : nat) c w : W :=
  let info := readEndnameInfo (endname (req c)) (net w) in
  match i_enabled info, i_servername info, i_server info with
  | true, Some n, Some p =>
      let rt := mkRoute n p (i_reliable info) (i_longreordering info) in
      if i_reliable info then setCall k (mkCall (argument c) (req c) (Waiting rt) (Started p)) w
      else goto k c (Short rt) w
  | _, _, _ => goto k c Lost w
  end.

(** [processReq] after the loop. *)
Definition stepFinish (k : nat) c (rt : Route) (got : option replyMsg) (ch : Choice) w : W :=
  match got with
  | Some r =>
      if isServerDead (endname (req c)) (r_servername rt) (r_server rt) (net w)
      then goto k c (Replying noReply) w
      else match ch with
           | DropReply => if r_reliable rt then w else goto k c (Replying noReply) w
           | DelayReply => if r_longreordering rt then goto k c (Delayed r) w else w
           | SendReply => goto k c (Replying r) (w <| net := addBytes (zlen (reply r)) (net w) |>)
           end
  | None => goto k c (Replying noReply) w
  end.

(** The last lines of [Call]. *)
Definition stepReturn (k : nat) c (r : replyMsg) w : Res W :=
  if ok r then
    match gob_decode (reply r) with
    | Some v => Ok (goto k c (Returned (Some v)) w)
    | None => Fatal "ClientEnd.Call(): decode reply"
    end
  else Ok (goto k c (Returned None) w).

(** [Server.dispatch] up to the method, and the method. *)
Definition stepDispatch (k : nat) c (p : nat) w : Res W :=
  match heap w !! p with
  | Some rs =>
      '(rs, (svc, methodName)) ← dispatchServer (req c) rs;
      Ok (become k c (Dispatched p svc methodName) (w <| heap := <[p := rs]> (heap w) |>))
  | None => Ok w
  end.

Definition stepExecute (k : nat) c (p : nat) (svc : Service Val Obj) (methodName : string) w : Res W :=
  match objects w !! rcvr svc with
  | Some obj =>
      '(obj, (arg, replyv, r)) ← dispatchService methodName (req c) svc obj;
      Ok (become k c (Executed r)
            (w <| objects := <[rcvr svc := obj]> (objects w) |>
               <| executions := executions w ++ [mkExecution k p arg replyv] |>))
  | None => Ok w
  end.

(** One step of the goroutines that work for call [k]. *)
Definition stepCall (l : Label Val Obj) (k : nat) c w : Res W :=
  match l, pc c, thread c with
  | LSend _, Sending, _ =>
      if loop w
      then Ok (goto k c Received (w <| net := addBytes (zlen (args (req c))) (addCount (net w)) |>))
      else Ok w
  | LClosed _, Sending, _ => if doneClosed (net w) then Ok (goto k c (Returned None) w) else Ok w
  | LRead _, Received, _ => Ok (stepRead k c w)
  | LDropRequest _, Short _, _ => Ok (goto k c (Replying noReply) w)
  | LStartHandler _, Short rt, _ =>
      Ok (setCall k (mkCall (argument c) (req c) (Waiting rt) (Started (r_server rt))) w)
  | LTakeReply _, Waiting rt, Executed r =>
      Ok (setCall k (mkCall (argument c) (req c) (Deciding rt (Some r)) Ended) w)
  | LTick _, Waiting rt, _ =>
      if isServerDead (endname (req c)) (r_servername rt) (r_server rt) (net w)
      then Ok (goto k c (Deciding rt None) w) else Ok w
  | LFinish _ ch, Deciding rt got, _ => Ok (stepFinish k c rt got ch w)
  | LDispatch _, _, Started p => stepDispatch k c p w
  | LExecute _, _, Dispatched p svc m => stepExecute k c p svc m w
  | LDrain _, Waiting _, _ => Ok w
  | LDrain _, _, Executed _ => Ok (become k c Ended w)
  | LTimer _, Lost, _ => Ok (goto k c (Replying noReply) w)
  | LTimer _, Delayed r, _ =>
      Ok (goto k c (Replying r) (w <| net := addBytes (zlen (reply r)) (net w) |>))
  | LReturn _, Replying r, _ => stepReturn k c r w
  | _, _, _ => Ok w
  end.

(** The call a label is of. *)
Definition callOf (l : Label Val Obj) : option nat :=
  match l with
  | LSend k | LClosed k | LRead k | LDropRequest k | LStartHandler k | LTakeReply k | LTick k
  | LFinish k _ | LDispatch k | LExecute k | LDrain k | LTimer k | LReturn k => Some k
  | _ => None
  end.

(** The operations of the tests; a [ClientEnd] comes from [MakeEnd]. *)
Definition stepNet (l : Label Val Obj) w : Res W :=
  match l with
  | LReliable yes => Ok (w <| net := Reliable yes (net w) |>)
  | LLongDelays yes => Ok (w <| net := LongDelays yes (net w) |>)
  | LLongReordering yes => Ok (w <| net := LongReordering yes (net w) |>)
  | LMakeEnd e => n ← MakeEnd e (net w); Ok (w <| net := n |>)
  | LConnect e s => Ok (w <| net := Connect e s (net w) |>)
  | LEnable e yes => Ok (w <| net := Enable e yes (net w) |>)
  | LMakeServer => Ok (w <| heap := heap w ++ [MakeServer] |>)
  | LMakeObject o => Ok (w <| objects := objects w ++ [o] |>)
  | LAddService p svc => Ok (w <| heap := alter (AddService svc) p (heap w) |>)
  | LAddServer s p => Ok (w <| net := AddServer s p (net w) |>)
  | LDeleteServer s => Ok (w <| net := DeleteServer s (net w) |>)
  | LCleanup => n ← Cleanup (net w); Ok (w <| net := n |>)
  | LLoopExit => Ok (if doneClosed (net w) then w <| loop := false |> else w)
  | LCall e meth arg =>
      if decide (e ∈ ends (net w))
      then Ok (w <| calls := calls w ++ [mkCall arg (makeReq e meth arg) Sending NotStarted] |>)
      else Ok w
  | _ => Ok w
  end.

Definition step (l : Label Val Obj) w : Res W :=
  match callOf l with
  | Some k => match calls w !! k with Some c => stepCall l k c w | None => Ok w end
  | None => stepNet l w
  end.

Definition runs (tr : list (Label Val Obj)) w : Res W := go_for (λ w l, step l w) w tr.

Definition initial : W := mkWorld MakeNetwork true [] [] [] [].

(** ** A call and what was executed for it *)

Definition executionsOf (k : nat) w : list (Execution Val) :=
  filter (λ e, e_call e = k) (executions w).

Implicit Types (es : list (Execution Val)).

(** The one execution for call [k], with reply [r]. *)
Definition answered (k : nat) c es (r : replyMsg) : Prop :=
  ∃ p v, es = [mkExecution k p (argument c) v] ∧ r = mkReplyMsg true (gob_encode v).

Definition thread_ok (k : nat) c es : Prop :=
  match thread c with
  | NotStarted | Started _ | Dispatched _ _ _ => es = []
  | Executed r => answered k c es r
  | Ended => ∃ r, answered k c es r
  end.

Definition pc_ok (k : nat) c es : Prop :=
  match pc c with
  | Sending | Received | Lost | Short _ => thread c = NotStarted
  | Waiting _ => thread c ≠ NotStarted ∧ thread c ≠ Ended
  | Deciding _ None => True
  | Deciding _ (Some r) | Delayed r => answered k c es r
  | Replying r => ok r = true → answered k c es r
  | Returned None => True
  | Returned (Some v) => ∃ p, es = [mkExecution k p (argument c) v]
  end.

Record call_ok (k : nat) c es : Prop := mkCallOk {
  co_args : args (req c) = gob_encode (argument c);
  co_thread : thread_ok k c es;
  co_pc : pc_ok k c es;
}.

Record rpc_inv w : Prop := mkRpcInv {
  ri_calls : ∀ k c, calls w !! k = Some c → call_ok k c (executionsOf k w);
  ri_executions : ∀ e, e ∈ executions w → (e_call e < length (calls w))%nat;
}.

Lemma inv_ext w w' : calls w' = calls w → executions w' = executions w → rpc_inv w → rpc_inv w'.
Proof. intros Hc He [I1 I2]. split; unfold executionsOf; rewrite ?Hc, He; [exact I1|exact I2]. Qed.

(** One call moves; nothing is executed. *)
Lemma inv_setCall k c c' w w' :
  rpc_inv w → calls w !! k = Some c → calls w' = calls w → executions w' = executions w →
  call_ok k c' (executionsOf k w) → rpc_inv (setCall k c' w').
Proof.
  intros [I1 I2] Hc Hcs Hes Hok. split; unfold executionsOf, setCall; rpc_simpl; rewrite Hcs, Hes.
  - intros j cj [(-> & <- & _)|[_ Hj]]%list_lookup_insert_Some; [exact Hok|by apply I1].
  - intros e He. rewrite length_insert. by apply I2.
Qed.

(** A new call. *)
Lemma inv_call w e meth arg :
  rpc_inv w → rpc_inv (w <| calls := calls w ++ [mkCall arg (makeReq e meth arg) Sending NotStarted] |>).
Proof.
  intros [I1 I2]. split; unfold executionsOf; rpc_simpl.
  - intros k c [Hk|[Hk Hc]]%lookup_app_Some; [by apply I1|].
    apply list_lookup_singleton_Some in Hc as [Hk0 <-]. split; [done| |done]. unfold thread_ok. cbn.
    apply elem_of_nil_inv. intros ex [Heq Hex]%list_elem_of_filter. apply I2 in Hex. lia.
  - intros ex Hex. rewrite length_app. apply I2 in Hex. lia.
Qed.

(** The handler of one call runs. *)
Lemma inv_execute k c p w v r objs :
  rpc_inv w → calls w !! k = Some c → executionsOf k w = [] → r = mkReplyMsg true (gob_encode v) →
  pc_ok k c [] →
  thread c ≠ NotStarted →
  rpc_inv (become k c (Executed r)
    (w <| objects := objs |> <| executions := executions w ++ [mkExecution k p (argument c) v] |>)).
Proof.
  intros [I1 I2] Hc Hes -> Hpc Ht. pose proof (I1 k c Hc) as [Ha _ _].
  split; unfold executionsOf, become, setCall; rpc_simpl.
  - intros j cj [(-> & <- & _)|[Hne Hj]]%list_lookup_insert_Some; rewrite filter_app.
    + rewrite filter_cons_True by done. rewrite filter_nil. unfold executionsOf in Hes. rewrite Hes. cbn [app].
      split; [done| |].
      * unfold thread_ok. cbn. by eexists _, _.
      * unfold pc_ok in *. rpc_simpl. destruct (pc c) as [| | |rt|rt|rt [r|]|r|r|[x|]]; try done.
        -- destruct Hpc as (? & ? & ? & _). done.
        -- destruct Hpc as (? & ? & ? & _). done.
        -- intros Hr. destruct (Hpc Hr) as (? & ? & ? & _). done.
        -- destruct Hpc as (? & ?). done.
    + rewrite filter_cons_False by (cbn; congruence). rewrite filter_nil, app_nil_r. by apply I1.
  - intros ex [Hex|Hex]%elem_of_app; rewrite length_insert; [by apply I2|].
    apply list_elem_of_singleton in Hex as ->. cbn. by apply lookup_lt_Some in Hc.
Qed.

(** Between two points of the same call nothing but the call, the network and
    its servers changes. *)
Lemma dispatchService_Ok m (r : reqMsg GoType) svc obj obj' x :
  dispatchService m r svc obj = Ok (obj', x) →
  ∃ (meth : GoMethod Val Obj) v, methods svc !! m = Some meth ∧
    Func meth (default (Zero (argsType r)) (gob_decode (args r))) obj = Ok (obj', v) ∧
    x = (default (Zero (argsType r)) (gob_decode (args r)), v, mkReplyMsg true (gob_encode v)).
Proof.
  unfold dispatchService. destruct (methods svc !! m) as [meth|]; [|done].
  intros ([o v] & Hf & Heq)%bind_Ok. injection Heq as <- <-. eauto 6.
Qed.

Lemma inv_goto k c p w w' :
  rpc_inv w → calls w !! k = Some c → calls w' = calls w → executions w' = executions w →
  pc_ok k (mkCall (argument c) (req c) p (thread c)) (executionsOf k w) → rpc_inv (goto k c p w').
Proof. intros I Hc Hcs Hes Hpc. pose proof (ri_calls w I k c Hc) as [Ha Ht _]. by eapply inv_setCall. Qed.

(** Giving up is always right. *)
Lemma inv_noReply k c w : rpc_inv w → calls w !! k = Some c → rpc_inv (goto k c (Replying noReply) w).
Proof. intros I Hc. by apply (inv_goto k c _ w). Qed.

Lemma stepExecute_inv k c p svc m w w' :
  rpc_inv w → calls w !! k = Some c → thread c = Dispatched p svc m →
  stepExecute k c p svc m w = Ok w' → rpc_inv w'.
Proof.
  intros I Hc Hth Hs. unfold stepExecute in Hs. destruct (objects w !! _) as [obj|]; [|by injection Hs as <-].
  apply bind_Ok in Hs as ([o [[a v] r]] & Hd & Heq). injection Heq as <-.
  apply dispatchService_Ok in Hd as (meth & v' & _ & _ & Heq). injection Heq as -> -> ->.
  pose proof (ri_calls w I k c Hc) as [Ha Ht Hp]. rewrite Ha, gob_decode_encode. cbn [default].
  unfold thread_ok in Ht. rewrite Hth in Ht. rewrite Ht in Hp. apply inv_execute; [done..|congruence].
Qed.

Lemma stepDispatch_inv k c p w w' :
  rpc_inv w → calls w !! k = Some c → thread c = Started p → stepDispatch k c p w = Ok w' → rpc_inv w'.
Proof.
  intros I Hc Hth Hs. unfold stepDispatch in Hs. destruct (heap w !! p) as [rs|]; [|by injection Hs as <-].
  apply bind_Ok in Hs as ([rs' [svc m]] & _ & Heq). injection Heq as <-.
  pose proof (ri_calls w I k c Hc) as [Ha Ht Hp]. unfold thread_ok in Ht. rewrite Hth in Ht.
  apply (inv_setCall k c _ w); [done..|]. split; [done|exact Ht|].
  unfold pc_ok in *. rpc_simpl. rewrite Hth in Hp. destruct (pc c); try done.
Qed.

Lemma stepRead_inv k c w :
  rpc_inv w → calls w !! k = Some c → pc c = Received → rpc_inv (stepRead k c w).
Proof.
  intros I Hc Hpc. pose proof (ri_calls w I k c Hc) as [Ha Ht Hp].
  unfold thread_ok, pc_ok in *. rewrite Hpc in Hp. rewrite Hp in Ht. unfold stepRead.
  set (info := readEndnameInfo _ _). clearbody info.
  assert (rpc_inv (goto k c Lost w)) as Hlost by (apply (inv_goto k c _ w); done).
  destruct (i_enabled info), (i_servername info), (i_server info); try exact Hlost.
  destruct (i_reliable info); [|by apply (inv_goto k c _ w)].
  apply (inv_setCall k c _ w); [done..|]. split; [done|done|]. by split.
Qed.

Lemma stepFinish_inv k c rt got ch w :
  rpc_inv w → calls w !! k = Some c → pc c = Deciding rt got → rpc_inv (stepFinish k c rt got ch w).
Proof.
  intros I Hc Hpc. pose proof (co_pc _ _ _ (ri_calls w I k c Hc)) as Hp. unfold pc_ok in Hp.
  rewrite Hpc in Hp. unfold stepFinish. destruct got as [r|]; [|by apply inv_noReply].
  destruct (isServerDead _ _ _ _); [by apply inv_noReply|].
  destruct ch; [destruct (r_reliable rt)|destruct (r_longreordering rt)|]; try done;
    [by apply inv_noReply|apply (inv_goto k c _ w); [done..|]; first [exact Hp|intros _; exact Hp]..].
Qed.

Lemma answered_decode k c es r :
  answered k c es r → ok r = true ∧ ∃ v, gob_decode (reply r) = Some v ∧ ∃ p, es = [mkExecution k p (argument c) v].
Proof. intros (p & v & -> & ->). cbn. rewrite gob_decode_encode. eauto 6. Qed.

Lemma stepReturn_inv k c r w w' :
  rpc_inv w → calls w !! k = Some c → pc c = Replying r → stepReturn k c r w = Ok w' → rpc_inv w'.
Proof.
  intros I Hc Hpc Hs. pose proof (co_pc _ _ _ (ri_calls w I k c Hc)) as Hp. unfold pc_ok in Hp.
  rewrite Hpc in Hp. unfold stepReturn in Hs.
  destruct (ok r) eqn:Hr; [|injection Hs as <-; by apply (inv_goto k c _ w)].
  destruct (answered_decode _ _ _ _ (Hp eq_refl)) as (_ & v & Hd & Hes). rewrite Hd in Hs.
  injection Hs as <-. by apply (inv_goto k c _ w).
Qed.

Lemma drain_inv k c r w :
  rpc_inv w → calls w !! k = Some c → thread c = Executed r → (∀ rt, pc c ≠ Waiting rt) →
  rpc_inv (become k c Ended w).
Proof.
  intros I Hc Hth Hnw. pose proof (ri_calls w I k c Hc) as [Ha Ht Hp]. unfold thread_ok in Ht.
  rewrite Hth in Ht. apply (inv_setCall k c _ w); [done..|]. split; [done|by exists r|].
  unfold pc_ok in *. rewrite Hth in Hp. rpc_simpl.
  destruct (pc c) as [| | |rt|rt|rt [r'|]|r'|r'|[v|]] eqn:Hpc; try done. by destruct (Hnw rt).
Qed.

(** The handler's reply is taken, or waiting for it begins. *)
Lemma take_inv k c r rt w :
  rpc_inv w → calls w !! k = Some c → thread c = Executed r →
  rpc_inv (setCall k (mkCall (argument c) (req c) (Deciding rt (Some r)) Ended) w).
Proof.
  intros I Hc Hth. pose proof (ri_calls w I k c Hc) as [Ha Ht _]. unfold thread_ok in Ht.
  rewrite Hth in Ht. apply (inv_setCall k c _ w); [done..|]. split; [done|by exists r|exact Ht].
Qed.

Lemma start_inv k c rt p w :
  rpc_inv w → calls w !! k = Some c → pc c = Short rt →
  rpc_inv (setCall k (mkCall (argument c) (req c) (Waiting rt) (Started p)) w).
Proof.
  intros I Hc Hpc. pose proof (ri_calls w I k c Hc) as [Ha Ht Hp]. unfold thread_ok, pc_ok in *.
  rewrite Hpc in Hp. rewrite Hp in Ht. apply (inv_setCall k c _ w); [done..|]. split; [done|done|]. by split.
Qed.

Lemma stepCall_inv l k c w w' :
  rpc_inv w → calls w !! k = Some c → stepCall l k c w = Ok w' → rpc_inv w'.
Proof.
  intros I Hc Hs. pose proof (co_pc _ _ _ (ri_calls w I k c Hc)) as Hp.
  destruct l; cbn [stepCall] in Hs.
  all: repeat match type of Hs with
    | Ok _ = Ok _ => fail 1
    | context [match ?x with _ => _ end] => destruct x eqn:?
    end.
  all: try (eauto using stepExecute_inv, stepDispatch_inv, stepReturn_inv; fail).
  all: injection Hs as <-;
    try (eauto using stepRead_inv, stepFinish_inv, inv_noReply, take_inv, start_inv; fail).
  all: try (eapply drain_inv; [done..|congruence]).
  all: apply (inv_goto k c _ w); try done; unfold pc_ok in Hp; rewrite Heqp in Hp; try exact Hp.
  intros _. exact Hp.
Qed.

Lemma stepNet_inv l w w' : rpc_inv w → stepNet l w = Ok w' → rpc_inv w'.
Proof.
  intros I Hs. destruct l; cbn [stepNet] in Hs; go_inv; subst;
    try done; try (by eapply inv_ext; [..|exact I]).
  - destruct (doneClosed (net w)); [|done]. by eapply inv_ext; [..|exact I].
  - case_decide; [|by injection Hs as <-]. injection Hs as <-. by apply inv_call.
Qed.

Lemma step_inv l w w' : rpc_inv w → step l w = Ok w' → rpc_inv w'.
Proof.
  intros I. unfold step. destruct (callOf l) as [k|]; [|by apply stepNet_inv].
  destruct (calls w !! k) as [c|] eqn:Hc; [by apply stepCall_inv|by intros [= <-]].
Qed.

Lemma rpc_initial_inv : rpc_inv initial.
Proof. split; [done|]. intros e He. by apply elem_of_nil in He. Qed.

(** What every step keeps, every run keeps. *)
Lemma runs_keep (P : W → Prop) (Q : Label Val Obj → Prop) tr w w' :
  (∀ l w w', Q l → P w → step l w = Ok w' → P w') →
  Forall Q tr → P w → runs tr w = Ok w' → P w'.
Proof.
  intros Hstep Htr. revert w. induction Htr as [|l tr Hl _ IH]; intros w HP Hr; [by injection Hr as <-|].
  apply bind_Ok in Hr as (w1 & Hs & Hr). eauto.
Qed.

Lemma runs_inv tr w w' : rpc_inv w → runs tr w = Ok w' → rpc_inv w'.
Proof.
  apply (runs_keep rpc_inv (λ _, True)); [intros l ? ? _; apply step_inv|]. by apply Forall_true.
Qed.

(** ** What the steps of a call leave alone *)

Definition same_net (n n' : Network) : Prop :=
  reliable n' = reliable n ∧ longReordering n' = longReordering n ∧ ends n' = ends n ∧
  enabled n' = enabled n ∧ servers n' = servers n ∧ connections n' = connections n ∧
  doneClosed n' = doneClosed n.

(** The services of a server do not change when a request arrives. *)
Definition same_services (h h' : list (Server Val Obj)) : Prop :=
  ∀ p, (services <$> h' !! p) = (services <$> h !! p).

Record frame (k : nat) c w w' : Prop := mkFrame {
  fr_net : same_net (net w) (net w');
  fr_loop : loop w' = loop w;
  fr_heap : same_services (heap w) (heap w');
  fr_objects : length (objects w') = length (objects w);
  fr_calls : ∃ c', calls w' = <[k := c']> (calls w) ∧ argument c' = argument c ∧ req c' = req c;
}.

Lemma same_net_refl n : same_net n n.
Proof. by split_and!. Qed.

Lemma frame_setCall k c c' w w' :
  same_net (net w) (net w') → loop w' = loop w → same_services (heap w) (heap w') →
  length (objects w') = length (objects w) → calls w' = calls w →
  argument c' = argument c → req c' = req c → frame k c w (setCall k c' w').
Proof.
  intros Hn Hl Hh Ho Hc Ha Hr. split; try done. exists c'. unfold setCall. rpc_simpl. by rewrite Hc.
Qed.

Lemma frame_refl k c w : calls w !! k = Some c → frame k c w w.
Proof.
  intros Hc. split; try done. exists c. by rewrite list_insert_id.
Qed.

Lemma dispatchServer_Ok {T} (r : reqMsg T) (rs rs' : Server Val Obj) svc m :
  dispatchServer r rs = Ok (rs', (svc, m)) →
  rs' = mkServer (services rs) (scount rs + 1) ∧
  ∃ s, splitMeth (svcMeth r) = Ok (s, m) ∧ services rs !! s = Some svc.
Proof.
  unfold dispatchServer. intros ([s m'] & Hsp & Heq)%bind_Ok. cbn [services] in Heq.
  destruct (services rs !! s) as [svc'|] eqn:Hsv; [|done]. injection Heq as <- <- <-. eauto.
Qed.

Lemma stepCall_frame l k c w w' : calls w !! k = Some c → stepCall l k c w = Ok w' → frame k c w w'.
Proof.
  intros Hc Hs.
  assert (frame k c w w) as Hrefl by by apply frame_refl.
  assert (∀ p, frame k c w (goto k c p w)) as Hgoto by (intros; by apply frame_setCall).
  assert (∀ p n, frame k c w (goto k c p (w <| net := addBytes n (net w) |>))) as Hbytes
    by (intros; by apply frame_setCall).
  assert (∀ p t, frame k c w (setCall k (mkCall (argument c) (req c) p t) w)) as Hset
    by (intros; by apply frame_setCall).
  destruct l; cbn [stepCall] in Hs; unfold stepRead, stepFinish, stepReturn, stepDispatch, stepExecute in Hs.
  all: repeat match type of Hs with
    | Ok _ = Ok _ => fail 1
    | Fatal _ = Ok _ => discriminate Hs
    | (_ ≫= _) = Ok _ => let y := fresh in let Hy := fresh in apply bind_Ok in Hs as (y & Hy & Hs)
    | context [match ?x with _ => _ end] => destruct x eqn:?
    end.
  all: injection Hs as <-; try (by auto); try (by apply frame_setCall).
  - repeat case_match; auto.
  - repeat case_match; auto.
  - match goal with H : dispatchServer _ _ = _ |- _ => apply dispatchServer_Ok in H as (-> & _) end.
    apply frame_setCall; try done. intros q. rpc_simpl. rewrite list_lookup_insert.
    case_decide as Hq; [|done]. destruct Hq as [<- _]. by rewrite Heqo.
  - apply frame_setCall; try done. rpc_simpl. by rewrite length_insert.
Qed.

(** What the tests do to the network leaves the calls alone. *)
Lemma stepNet_calls l w w' k c : stepNet l w = Ok w' → calls w !! k = Some c → calls w' !! k = Some c.
Proof.
  intros Hs Hc. destruct l; cbn [stepNet] in Hs; go_inv; subst; rpc_simpl; try done.
  - by destruct (doneClosed (net w)).
  - case_decide; injection Hs as <-; [|done]. rpc_simpl. by apply lookup_app_l_Some.
Qed.

Lemma step_other l w w' k c :
  step l w = Ok w' → callOf l ≠ Some k → calls w !! k = Some c → calls w' !! k = Some c.
Proof.
  unfold step. destruct (callOf l) as [j|]; intros Hs Hne Hc; [|by eapply stepNet_calls].
  destruct (calls w !! j) as [cj|] eqn:Hj; [|by injection Hs as <-].
  destruct (fr_calls _ _ _ _ (stepCall_frame _ _ _ _ _ Hj Hs)) as (c' & -> & _).
  rewrite list_lookup_insert_ne; [done|congruence].
Qed.

Lemma same_net_serverOf n n' s : same_net n n' → serverOf s n' = serverOf s n.
Proof. intros (_ & _ & _ & _ & E & _). unfold serverOf. by rewrite E. Qed.

Lemma same_net_dead n n' e s p : same_net n n' → isServerDead e s p n' = isServerDead e s p n.
Proof. intros H. unfold isServerDead, isEnabled. rewrite (same_net_serverOf n n') by done. by destruct H as (_ & _ & _ & -> & _). Qed.

(** ** The automaton of a call *)

(** Where a call may go next. *)
Inductive next (n : Network) c : Pc Val → Prop :=
  | next_stay : next n c (pc c)
  | next_send : pc c = Sending → next n c Received
  | next_closed : pc c = Sending → doneClosed n = true → next n c (Returned None)
  | next_lost : pc c = Received →
      isEnabled (endname (req c)) n = false ∨ i_server (readEndnameInfo (endname (req c)) n) = None →
      next n c Lost
  | next_route rt : pc c = Received →
      isEnabled (endname (req c)) n = true → connectedTo (endname (req c)) n = Some (r_servername rt) →
      serverOf (r_servername rt) n = Some (r_server rt) →
      r_reliable rt = reliable n → r_longreordering rt = longReordering n →
      next n c (if r_reliable rt then Waiting rt else Short rt)
  | next_drop rt : pc c = Short rt → next n c (Replying noReply)
  | next_start rt : pc c = Short rt → next n c (Waiting rt)
  | next_take rt r : pc c = Waiting rt → thread c = Executed r → next n c (Deciding rt (Some r))
  | next_tick rt : pc c = Waiting rt →
      isServerDead (endname (req c)) (r_servername rt) (r_server rt) n = true → next n c (Deciding rt None)
  | next_fail rt got : pc c = Deciding rt got →
      got = None ∨ isServerDead (endname (req c)) (r_servername rt) (r_server rt) n = true ∨
        r_reliable rt = false →
      next n c (Replying noReply)
  | next_delay rt r : pc c = Deciding rt (Some r) →
      isServerDead (endname (req c)) (r_servername rt) (r_server rt) n = false →
      r_longreordering rt = true → next n c (Delayed r)
  | next_reply rt r : pc c = Deciding rt (Some r) →
      isServerDead (endname (req c)) (r_servername rt) (r_server rt) n = false →
      next n c (Replying r)
  | next_timeout : pc c = Lost → next n c (Replying noReply)
  | next_timer r : pc c = Delayed r → next n c (Replying r)
  | next_false r : pc c = Replying r → ok r = false → next n c (Returned None)
  | next_true r v : pc c = Replying r → ok r = true → gob_decode (reply r) = Some v →
      next n c (Returned (Some v)).

Lemma setCall_lookup k c c' w w' :
  calls w !! k = Some c → calls w' = calls w → calls (setCall k c' w') !! k = Some c'.
Proof.
  intros Hc Hcs. unfold setCall. rpc_simpl. rewrite Hcs. apply list_lookup_insert_eq. by eapply lookup_lt_Some.
Qed.

Definition moves (k : nat) c w w' : Prop := ∃ c', calls w' !! k = Some c' ∧ next (net w) c (pc c').

Lemma moves_setCall k c c' w w' :
  calls w !! k = Some c → calls w' = calls w → next (net w) c (pc c') → moves k c w (setCall k c' w').
Proof. intros Hc Hcs Hn. exists c'. split; [by eapply setCall_lookup|done]. Qed.

Lemma stepRead_moves k c w : calls w !! k = Some c → pc c = Received → moves k c w (stepRead k c w).
Proof.
  intros Hc Hpc. unfold stepRead, readEndnameInfo. cbn [i_enabled i_servername i_server i_reliable i_longreordering].
  destruct (isEnabled _ _) eqn:He; [|apply moves_setCall; [done..|]; apply next_lost; auto].
  destruct (connectedTo _ _) as [s|] eqn:Hs.
  2:{ apply moves_setCall; [done..|]. apply next_lost; [done|]. right. unfold readEndnameInfo. by rewrite Hs. }
  destruct (serverOf s (net w)) as [p|] eqn:Hp.
  2:{ apply moves_setCall; [done..|]. apply next_lost; [done|]. right. unfold readEndnameInfo. by rewrite Hs. }
  pose proof (next_route (net w) c (mkRoute s p (reliable (net w)) (longReordering (net w)))
    Hpc He Hs Hp eq_refl eq_refl) as Hn. cbn [r_reliable] in Hn.
  destruct (reliable (net w)); by apply moves_setCall.
Qed.

Lemma stepFinish_moves k c rt got ch w :
  calls w !! k = Some c → pc c = Deciding rt got → moves k c w (stepFinish k c rt got ch w).
Proof.
  intros Hc Hpc. assert (moves k c w w) as Hstay by (exists c; split; [done|constructor]).
  unfold stepFinish. destruct got as [r|]; [|apply moves_setCall; eauto using next].
  destruct (isServerDead _ _ _ _) eqn:Hd; [apply moves_setCall; eauto using next|].
  destruct ch; [destruct (r_reliable rt) eqn:?|destruct (r_longreordering rt) eqn:?|]; try done;
    apply moves_setCall; eauto using next.
Qed.

Lemma stepReturn_moves k c r w w' :
  calls w !! k = Some c → pc c = Replying r → stepReturn k c r w = Ok w' → moves k c w w'.
Proof.
  intros Hc Hpc. unfold stepReturn. destruct (ok r) eqn:Hr; [destruct (gob_decode _) eqn:Hd; [|done]|];
    intros [= <-]; apply moves_setCall; eauto using next.
Qed.

Lemma stepCall_moves l k c w w' : calls w !! k = Some c → stepCall l k c w = Ok w' → moves k c w w'.
Proof.
  intros Hc Hs. assert (moves k c w w) as Hstay by (exists c; split; [done|constructor]).
  assert (∀ t w', calls w' = calls w → moves k c w (become k c t w')) as Hbecome.
  { intros t w1 Hcs. apply moves_setCall; [done..|]. exact (next_stay _ c). }
  destruct l; cbn [stepCall] in Hs; unfold stepDispatch, stepExecute in Hs.
  all: repeat match type of Hs with
    | Ok _ = Ok _ => fail 1
    | Fatal _ = Ok _ => discriminate Hs
    | (_ ≫= _) = Ok _ => let y := fresh in let Hy := fresh in apply bind_Ok in Hs as (y & Hy & Hs)
    | context [match ?x with _ => _ end] => destruct x eqn:?
    end.
  all: try (by eapply stepReturn_moves).
  all: injection Hs as <-; auto using stepRead_moves, stepFinish_moves.
  all: apply moves_setCall; [done..|]; eauto using next.
Qed.

(** One step, seen from call [k]. *)
Lemma step_next l w w' k c :
  step l w = Ok w' → calls w !! k = Some c →
  ∃ c', calls w' !! k = Some c' ∧ next (net w) c (pc c') ∧ argument c' = argument c ∧ req c' = req c.
Proof.
  intros Hs Hc. destruct (decide (callOf l = Some k)) as [Hl|Hl].
  - unfold step in Hs. rewrite Hl, Hc in Hs.
    destruct (stepCall_moves _ _ _ _ _ Hc Hs) as (c' & Hc' & Hn).
    destruct (fr_calls _ _ _ _ (stepCall_frame _ _ _ _ _ Hc Hs)) as (c2 & Hcs & Ha & Hr).
    rewrite Hcs, list_lookup_insert_eq in Hc' by (by eapply lookup_lt_Some). injection Hc' as ->.
    exists c'. rewrite Hcs, list_lookup_insert_eq by (by eapply lookup_lt_Some). done.
  - exists c. split; [by eapply step_other|]. split; [constructor|done].
Qed.

(** ** A server that was deleted *)

(** [processReq] is at work for the call, with the server it has read. *)
Definition onRoute c (rt : Route) : Prop :=
  pc c = Short rt ∨ pc c = Waiting rt ∨ ∃ got, pc c = Deciding rt got.

Definition failed c : Prop := (∃ r, pc c = Replying r ∧ ok r = false) ∨ pc c = Returned None.

Record deleted (k : nat) (rt : Route) w : Prop := mkDeleted {
  de_server : serverOf (r_servername rt) (net w) ≠ Some (r_server rt);
  de_call : ∃ c, calls w !! k = Some c ∧ (onRoute c rt ∨ failed c);
}.

Ltac same_pc :=
  repeat match goal with
  | H1 : pc ?c = _, H2 : pc ?c = _ |- _ => rewrite H1 in H2; simplify_eq
  end; try discriminate.

Lemma next_deleted rt n c c' :
  serverOf (r_servername rt) n ≠ Some (r_server rt) → onRoute c rt ∨ failed c →
  next n c (pc c') → onRoute c' rt ∨ failed c'.
Proof.
  intros Hdel Hst Hn. unfold onRoute, failed in *.
  assert (∀ e, isServerDead e (r_servername rt) (r_server rt) n = true) as Hdead.
  { intros e. unfold isServerDead. by rewrite bool_decide_eq_true_2, orb_true_r. }
  inversion Hn; subst; destruct Hst as [[Hp|[Hp|[g Hp]]]|[(r0 & Hp & Hok)|Hp]]; same_pc;
    rewrite ?Hdead in *; try congruence; try (by eauto 6); right; left; by exists noReply.
Qed.

Lemma step_server l w w' s p :
  l ≠ LAddServer s p → serverOf s (net w) ≠ Some p → step l w = Ok w' → serverOf s (net w') ≠ Some p.
Proof.
  intros Hl Hs Hst. unfold step in Hst. destruct (callOf l) as [k|].
  - destruct (calls w !! k) as [c|] eqn:Hc; [|by injection Hst as <-].
    by rewrite (same_net_serverOf _ _ _ (fr_net _ _ _ _ (stepCall_frame _ _ _ _ _ Hc Hst))).
  - destruct l; cbn [stepNet] in Hst; unfold MakeEnd, Cleanup in Hst; try case_decide;
      try destruct (doneClosed (net w)); try discriminate; injection Hst as <-; try exact Hs;
      unfold serverOf, AddServer, DeleteServer in *; rpc_simpl; cbn;
      rewrite lookup_insert; case_decide; subst; cbn; congruence.
Qed.

Lemma step_deleted k rt l w w' :
  l ≠ LAddServer (r_servername rt) (r_server rt) → deleted k rt w → step l w = Ok w' → deleted k rt w'.
Proof.
  intros Hl [Hdel (c & Hc & Hst)] Hs. split; [by eapply step_server|].
  destruct (step_next _ _ _ _ _ Hs Hc) as (c' & Hc' & Hn & _). exists c'. split; [done|].
  by eapply next_deleted.
Qed.

(** ** A reliable network *)

(** A step of a call, or a new call. *)
Definition quiet (l : Label Val Obj) : Prop :=
  match l with LCall _ _ _ => True | _ => is_Some (callOf l) end.

(** Reliable, and end [e] reaches the server of [rt]. *)
Record healthy (e : string) (rt : Route) w : Prop := mkHealthy {
  he_loop : loop w = true;
  he_done : doneClosed (net w) = false;
  he_reliable : reliable (net w) = true;
  he_order : longReordering (net w) = false;
  he_enabled : isEnabled e (net w) = true;
  he_connected : connectedTo e (net w) = Some (r_servername rt);
  he_server : serverOf (r_servername rt) (net w) = Some (r_server rt);
}.

Lemma healthy_step e rt l w w' : quiet l → healthy e rt w → step l w = Ok w' → healthy e rt w'.
Proof.
  intros Hq [H1 H2 H3 H4 H5 H6 H7] Hs. unfold step in Hs. destruct (callOf l) as [k|] eqn:Hk.
  - destruct (calls w !! k) as [c|] eqn:Hc; [|by injection Hs as <-].
    pose proof (stepCall_frame _ _ _ _ _ Hc Hs) as [Hn Hl _ _ _].
    pose proof (same_net_serverOf _ _ (r_servername rt) Hn) as Hso.
    destruct Hn as (E1 & E2 & E3 & E4 & E5 & E6 & E7).
    by split; unfold isEnabled, connectedTo; rewrite ?E1, ?E2, ?E4, ?E6, ?E7, ?Hl, ?Hso.
  - destruct l; cbn [callOf quiet] in *; try (by destruct Hq). cbn [stepNet] in Hs.
    case_decide; by injection Hs as <-.
Qed.

(** The call is on its way to a positive return. *)
Definition onTrack c (rt : Route) : Prop :=
  pc c = Sending ∨ pc c = Received ∨ pc c = Waiting rt ∨
  (∃ r, ok r = true ∧ (pc c = Deciding rt (Some r) ∨ pc c = Replying r)) ∨ ∃ v, pc c = Returned (Some v).

Lemma next_onTrack rt k w c c' :
  rpc_inv w → calls w !! k = Some c → healthy (endname (req c)) rt w →
  r_reliable rt = true → r_longreordering rt = false →
  onTrack c rt → next (net w) c (pc c') → onTrack c' rt.
Proof.
  intros I Hc [_ H2 H3 H4 H5 H6 H7] Hr Hlr Hst Hn. unfold onTrack in *.
  pose proof (co_thread _ _ _ (ri_calls w I k c Hc)) as Ht. unfold thread_ok in Ht.
  assert (isServerDead (endname (req c)) (r_servername rt) (r_server rt) (net w) = false) as Hlive.
  { unfold isServerDead. rewrite H5, H7. by rewrite bool_decide_eq_false_2 by auto. }
  inversion Hn; subst; destruct Hst as [Hp|[Hp|[Hp|[(r0 & Hok & [Hp|Hp])|[v0 Hp]]]]]; same_pc;
    try congruence; try (by eauto 8).
  - destruct H1 as [?|Hs]; [congruence|]. unfold readEndnameInfo in Hs. rewrite H6 in Hs. cbn in Hs. congruence.
  - assert (rt0 = rt) as -> by (destruct rt0, rt; cbn in *; congruence). rewrite Hr. auto.
  - match goal with H : thread c = _ |- _ => rewrite H in Ht end.
    destruct Ht as (p & v & _ & ->). right. right. right. left. eexists. split; [|by left]. done.
  - match goal with H : _ ∨ _ ∨ _ |- _ => destruct H as [?|[?|?]] end; congruence.
Qed.

(** The state of call [k] in a healthy network. *)
Record tracked (k : nat) (e : string) (rt : Route) w : Prop := mkTracked {
  tr_inv : rpc_inv w;
  tr_healthy : healthy e rt w;
  tr_call : ∃ c, calls w !! k = Some c ∧ endname (req c) = e ∧ onTrack c rt;
}.

Lemma step_tracked k e rt l w w' :
  r_reliable rt = true → r_longreordering rt = false →
  quiet l → tracked k e rt w → step l w = Ok w' → tracked k e rt w'.
Proof.
  intros Hr Hlr Hq [I Hh (c & Hc & He & Hst)] Hs. split; [by eapply step_inv|by eapply healthy_step|].
  destruct (step_next _ _ _ _ _ Hs Hc) as (c' & Hc' & Hn & _ & Hreq).
  exists c'. split; [done|]. split; [by rewrite Hreq|].
  eapply next_onTrack; [exact I|exact Hc|by rewrite He|done..].
Qed.

(** ** A call returns *)

(** The network's goroutine ends only when the network was destroyed. *)
Definition loop_ok w : Prop := loop w = false → doneClosed (net w) = true.

Lemma step_loop_ok l w w' : loop_ok w → step l w = Ok w' → loop_ok w'.
Proof.
  unfold loop_ok. intros I Hs. unfold step in Hs. destruct (callOf l) as [k|].
  - destruct (calls w !! k) as [c|] eqn:Hc; [|by injection Hs as <-].
    pose proof (stepCall_frame _ _ _ _ _ Hc Hs) as [(_ & _ & _ & _ & _ & _ & E7) Hl _ _ _].
    by rewrite E7, Hl.
  - destruct l; cbn [stepNet] in Hs; unfold MakeEnd, Cleanup in Hs; try case_decide;
      destruct (doneClosed (net w)) eqn:Hd; try discriminate; injection Hs as <-;
      first [rewrite Hd; exact I|intros _; exact Hd|intros _; reflexivity|intros Hl; discriminate (I Hl)].
Qed.

(** Some steps for call [k] make it return. *)
Definition returns (k : nat) w : Prop :=
  ∃ tr w' c v, Forall (λ l, callOf l = Some k) tr ∧ runs tr w = Ok w' ∧
    calls w' !! k = Some c ∧ pc c = Returned v.

Lemma returns_step k l w w' : callOf l = Some k → step l w = Ok w' → returns k w' → returns k w.
Proof.
  intros Hl Hs (tr & w2 & c & v & Htr & Hr & Hc & Hpc). exists (l :: tr), w2, c, v.
  split_and!; [by constructor|cbn; unfold runs; cbn; by rewrite Hs|done..].
Qed.

(** A method that always returns. *)
Definition works (svc : Service Val Obj) (m : string) : Prop :=
  ∃ meth, methods svc !! m = Some meth ∧ ∀ arg obj, is_ok (Func meth arg obj) = true.

Definition serves w (p : nat) (r : reqMsg GoType) : Prop :=
  ∃ rs s m svc, heap w !! p = Some rs ∧ splitMeth (svcMeth r) = Ok (s, m) ∧
    services rs !! s = Some svc ∧ (rcvr svc < length (objects w))%nat ∧ works svc m.

(** The handler the call has reached, or will reach, works. *)
Definition handlerWorks w c : Prop :=
  match thread c with
  | Started p => serves w p (req c)
  | Dispatched _ svc m => (rcvr svc < length (objects w))%nat ∧ works svc m
  | NotStarted =>
      match pc c with
      | Sending | Received => ∀ p, i_server (readEndnameInfo (endname (req c)) (net w)) = Some p → serves w p (req c)
      | Short rt => serves w (r_server rt) (req c)
      | _ => True
      end
  | _ => True
  end.

Section returning.
Context (k : nat).

Lemma step_at l w c : callOf l = Some k → calls w !! k = Some c → step l w = stepCall l k c w.
Proof. intros Hl Hc. unfold step. by rewrite Hl, Hc. Qed.

Lemma returned_returns w c v : calls w !! k = Some c → pc c = Returned v → returns k w.
Proof. intros Hc Hpc. by exists [], w, c, v. Qed.

Lemma replying_returns w c r : rpc_inv w → calls w !! k = Some c → pc c = Replying r → returns k w.
Proof.
  intros I Hc Hpc. pose proof (co_pc _ _ _ (ri_calls w I k c Hc)) as Hp. unfold pc_ok in Hp. rewrite Hpc in Hp.
  assert (∃ v, stepReturn k c r w = Ok (goto k c (Returned v) w)) as [v Hs].
  { unfold stepReturn. destruct (ok r) eqn:Hr; [|by eexists].
    destruct (answered_decode _ _ _ _ (Hp eq_refl)) as (_ & v & -> & _). by eexists. }
  eapply (returns_step k (LReturn k)); [done|..].
  - rewrite (step_at _ w c) by done. cbn [stepCall]. rewrite Hpc. exact Hs.
  - eapply returned_returns; [by eapply setCall_lookup|done].
Qed.

Lemma to_replying l w w' c c' r :
  callOf l = Some k → rpc_inv w → calls w !! k = Some c → stepCall l k c w = Ok w' →
  calls w' !! k = Some c' → pc c' = Replying r → returns k w.
Proof.
  intros Hl I Hc Hs Hc' Hpc. eapply returns_step; [done|by rewrite (step_at _ w c)|].
  eapply replying_returns; [|done..]. by eapply stepCall_inv.
Qed.

Lemma deciding_returns w c rt got : rpc_inv w → calls w !! k = Some c → pc c = Deciding rt got → returns k w.
Proof.
  intros I Hc Hpc.
  assert (∃ r w1, stepCall (LFinish k SendReply) k c w = Ok (goto k c (Replying r) w1) ∧ calls w1 = calls w)
    as (r & w1 & Hs & Hcs).
  { cbn [stepCall]. rewrite Hpc. unfold stepFinish. destruct got as [r|]; [|by eexists _, w].
    destruct (isServerDead _ _ _ _); [by eexists _, w|]. by eexists _, _. }
  eapply (to_replying (LFinish k SendReply)); [done|exact I|exact Hc|exact Hs|by eapply setCall_lookup|done].
Qed.

Lemma lost_returns w c : rpc_inv w → calls w !! k = Some c → pc c = Lost → returns k w.
Proof.
  intros I Hc Hpc. eapply (to_replying (LTimer k)); [done|exact I|exact Hc| | |].
  - cbn [stepCall]. rewrite Hpc. done.
  - by eapply setCall_lookup.
  - done.
Qed.

Lemma delayed_returns w c r : rpc_inv w → calls w !! k = Some c → pc c = Delayed r → returns k w.
Proof.
  intros I Hc Hpc. eapply (to_replying (LTimer k)); [done|exact I|exact Hc| | |].
  - cbn [stepCall]. rewrite Hpc. done.
  - by eapply setCall_lookup.
  - done.
Qed.

Lemma executed_returns w c rt r :
  rpc_inv w → calls w !! k = Some c → pc c = Waiting rt → thread c = Executed r → returns k w.
Proof.
  intros I Hc Hpc Hth.
  assert (step (LTakeReply k) w = Ok (setCall k (mkCall (argument c) (req c) (Deciding rt (Some r)) Ended) w)) as Hs.
  { rewrite (step_at _ w c) by done. cbn [stepCall]. by rewrite Hpc, Hth. }
  eapply (returns_step k (LTakeReply k)); [done|exact Hs|].
  eapply deciding_returns; [by eapply step_inv|by eapply setCall_lookup|done].
Qed.

Lemma dispatched_returns w c rt p svc m :
  rpc_inv w → calls w !! k = Some c → pc c = Waiting rt → thread c = Dispatched p svc m →
  (rcvr svc < length (objects w))%nat → works svc m → returns k w.
Proof.
  intros I Hc Hpc Hth [obj Hobj]%lookup_lt_is_Some_2 (meth & Hm & Hok).
  assert (∃ r w1, step (LExecute k) w = Ok (become k c (Executed r) w1) ∧ calls w1 = calls w) as (r & w1 & Hs & Hcs).
  { rewrite (step_at _ w c) by done. cbn [stepCall]. rewrite Hth.
    unfold stepExecute, dispatchService. rewrite Hobj, Hm.
    specialize (Hok (default (Zero (argsType (req c))) (gob_decode (args (req c)))) obj).
    destruct (Func meth _ obj) as [[obj' v]| |]; try done. by eexists _, _. }
  eapply (returns_step k (LExecute k)); [done|exact Hs|].
  eapply executed_returns; [by eapply step_inv|by eapply setCall_lookup|exact Hpc|done].
Qed.

Lemma started_returns w c rt p :
  rpc_inv w → calls w !! k = Some c → pc c = Waiting rt → thread c = Started p →
  serves w p (req c) → returns k w.
Proof.
  intros I Hc Hpc Hth (rs & s & m & svc & Hrs & Hsp & Hsv & Hlt & Hw).
  assert (∃ w1, step (LDispatch k) w = Ok (become k c (Dispatched p svc m) w1) ∧
    calls w1 = calls w ∧ objects w1 = objects w) as (w1 & Hs & Hcs & Hob).
  { rewrite (step_at _ w c) by done. cbn [stepCall]. rewrite Hth. unfold stepDispatch, dispatchServer.
    rewrite Hrs, Hsp. cbn [mbind Res_bind services]. rewrite Hsv. by eexists. }
  eapply (returns_step k (LDispatch k)); [done|exact Hs|].
  eapply dispatched_returns; [by eapply step_inv|by eapply setCall_lookup|exact Hpc|done| |exact Hw].
  unfold become, setCall. rpc_simpl. by rewrite Hob.
Qed.

Lemma short_returns w c rt :
  rpc_inv w → calls w !! k = Some c → pc c = Short rt → serves w (r_server rt) (req c) → returns k w.
Proof.
  intros I Hc Hpc Hsv.
  assert (step (LStartHandler k) w =
    Ok (setCall k (mkCall (argument c) (req c) (Waiting rt) (Started (r_server rt))) w)) as Hs.
  { rewrite (step_at _ w c) by done. cbn [stepCall]. by rewrite Hpc. }
  eapply (returns_step k (LStartHandler k)); [done|exact Hs|].
  eapply started_returns; [by eapply step_inv|by eapply setCall_lookup|done|done|exact Hsv].
Qed.

Lemma received_returns w c :
  rpc_inv w → calls w !! k = Some c → pc c = Received →
  (∀ p, i_server (readEndnameInfo (endname (req c)) (net w)) = Some p → serves w p (req c)) → returns k w.
Proof.
  intros I Hc Hpc Hsv.
  assert (step (LRead k) w = Ok (stepRead k c w)) as Hs.
  { rewrite (step_at _ w c) by done. cbn [stepCall]. by rewrite Hpc. }
  eapply (returns_step k (LRead k)); [done|exact Hs|]. pose proof (step_inv _ _ _ I Hs) as I1. clear Hs. unfold stepRead in *.
  set (info := readEndnameInfo (endname (req c)) (net w)) in *. clearbody info.
  destruct (i_enabled info), (i_servername info), (i_server info) as [p|];
    try (by eapply lost_returns; [exact I1|by eapply setCall_lookup|]).
  destruct (i_reliable info).
  - eapply started_returns; [exact I1|by eapply setCall_lookup|done|done|by apply Hsv].
  - eapply short_returns; [exact I1|by eapply setCall_lookup|done|by apply Hsv].
Qed.

Lemma call_returns w c :
  rpc_inv w → loop_ok w → calls w !! k = Some c → handlerWorks w c → returns k w.
Proof.
  intros I Il Hc Hh. unfold handlerWorks in Hh.
  pose proof (co_pc _ _ _ (ri_calls w I k c Hc)) as Hp. unfold pc_ok in Hp.
  destruct (pc c) as [| | |rt|rt|rt got|r|r|v] eqn:Hpc; try rewrite Hp in Hh.
  - destruct (loop w) eqn:Hl.
    + eapply (returns_step k (LSend k)); [done| |].
      * rewrite (step_at _ w c) by done. cbn [stepCall]. by rewrite Hpc, Hl.
      * eapply received_returns; [|by eapply setCall_lookup|done|exact Hh].
        eapply (inv_goto k c _ w); try done.
    + eapply (returns_step k (LClosed k)); [done| |].
      * rewrite (step_at _ w c) by done. cbn [stepCall]. by rewrite Hpc, (Il Hl).
      * eapply returned_returns; [by eapply setCall_lookup|done].
  - by eapply received_returns.
  - by eapply lost_returns.
  - by eapply short_returns.
  - destruct (thread c) as [|p|p svc m|r|] eqn:Hth; try (by destruct Hp).
    + by eapply started_returns.
    + destruct Hh. by eapply dispatched_returns.
    + by eapply executed_returns.
  - by eapply deciding_returns.
  - by eapply delayed_returns.
  - by eapply replying_returns.
  - by eapply returned_returns.
Qed.
End returning.

Lemma thread_ok_once k c es : thread_ok k c es → (length es ≤ 1)%nat.
Proof.
  unfold thread_ok, answered. destruct (thread c); [intros ->; cbn; lia..|naive_solver|naive_solver].
Qed.

(** C28: a call runs its handler at most once, whatever the network does and
    however the goroutines are interleaved; and when [Call] returns true the
    handler has run exactly once, with the caller's argument, and the value
    [Call] has decoded is the one the handler put in its reply.  When it
    returns false the handler may have run, may be running, or may run yet. *)
Theorem call_runs_handler_once tr w k c :
  runs tr initial = Ok w → calls w !! k = Some c →
  (length (executionsOf k w) ≤ 1)%nat ∧
  ∀ v, pc c = Returned (Some v) → ∃ p, executionsOf k w = [mkExecution k p (argument c) v].
Proof.
  intros Hr Hc. destruct (ri_calls w (runs_inv tr _ _ rpc_initial_inv Hr) k c Hc) as [_ Ht Hp].
  split; [by eapply thread_ok_once|]. intros v Hpc. unfold pc_ok in Hp. by rewrite Hpc in Hp.
Qed.

(** A server that was deleted does not answer.  [processReq] has read which
    server a call goes to; from the moment that server is no longer registered
    under its name, and as long as it is not registered again, [Call] does not
    return true -- even when the handler runs, or has run, to its end. *)
Theorem deleted_server_never_answers tr w w' k c rt :
  calls w !! k = Some c → onRoute c rt →
  serverOf (r_servername rt) (net w) ≠ Some (r_server rt) →
  Forall (λ l, l ≠ LAddServer (r_servername rt) (r_server rt)) tr →
  runs tr w = Ok w' →
  ∃ c', calls w' !! k = Some c' ∧ ∀ v, pc c' ≠ Returned (Some v).
Proof.
  intros Hc Hrt Hdel Htr Hr.
  assert (deleted k rt w) as Hw by (split; [done|]; exists c; auto).
  destruct (runs_keep (deleted k rt) _ tr w w' (λ l w w', step_deleted k rt l w w') Htr Hw Hr) as [_ (c' & Hc' & Hst)].
  exists c'. split; [done|]. intros v Hpc. unfold onRoute, failed in Hst. rewrite Hpc in Hst. naive_solver.
Qed.

(** On a reliable network a call does not fail.  When the network is
    reliable and does not reorder, and the caller's end is enabled and
    connected to a registered server, a call sent now never returns false as
    long as nobody changes the network, whatever other calls do. *)
Theorem reliable_call_succeeds tr tr' w w' k c s p :
  runs tr initial = Ok w → calls w !! k = Some c → pc c = Sending →
  healthy (endname (req c)) (mkRoute s p true false) w →
  Forall quiet tr' → runs tr' w = Ok w' →
  ∃ c', calls w' !! k = Some c' ∧ pc c' ≠ Returned None.
Proof.
  intros Hr Hc Hpc Hh Hq Hr'. set (rt := mkRoute s p true false) in *.
  assert (tracked k (endname (req c)) rt w) as Hw.
  { split; [by eapply runs_inv, Hr; apply rpc_initial_inv|done|]. exists c. split_and!; [done..|by left]. }
  destruct (runs_keep (tracked k (endname (req c)) rt) quiet tr' w w'
    (λ l w w', step_tracked k _ rt l w w' eq_refl eq_refl) Hq Hw Hr') as [_ _ (c' & Hc' & _ & Hst)].
  exists c'. split; [done|]. intros Hp. unfold onTrack in Hst. rewrite Hp in Hst. naive_solver.
Qed.

(** A call can always return.  In every reachable state -- network up or
    destroyed, reliable or not, server connected, deleted or unknown -- the
    goroutines of a call can go on by themselves until [Call] returns,
    provided that the handler the request has reached, or is about to reach,
    is registered and returns. *)
Theorem call_can_return tr w k c :
  runs tr initial = Ok w → calls w !! k = Some c → handlerWorks w c → returns k w.
Proof.
  intros Hr Hc Hh. apply (call_returns k w c); [by eapply runs_inv, Hr; apply rpc_initial_inv| |done..].
  apply (runs_keep loop_ok (λ _, True) tr initial w); [intros l ? ? _; apply step_loop_ok|by apply Forall_true|done..].
Qed.
End labrpc.

(** ** A counter behind a network *)

#[export] Instance counter_runtime : Runtime Z := {| GoType := unit; TypeOf _ := tt; Zero _ := 0 |}.

(** [func (c *Counter) Add(n int, reply *int)], and a method that is not a
    handler. *)
Definition addMethod : GoMethod Z Z := mkMethod "Add" true 3 true 0 (λ n c, Ok (c + n, c + n)).
Definition otherMethod : GoMethod Z Z := mkMethod "reset" false 1 false 0 (λ _ _, Panic "not a handler").

Definition setUp : list (Label Z Z) :=
  [LMakeObject 10; LMakeServer; LAddService 0 (MakeService "Counter" 0 [addMethod; otherMethod]);
   LAddServer "s" 0; LMakeEnd "e"; LConnect "e" "s"; LEnable "e" true].

Definition oneCall : list (Label Z Z) :=
  [LCall "e" "Counter.Add" 5; LSend 0; LRead 0; LDispatch 0; LExecute 0].

Definition after (tr : list (Label Z Z)) : World Z Z (GoType (Val := Z)) :=
  match runs tr initial with Ok w => w | _ => initial end.

Definition callZero (tr : list (Label Z Z)) : CallState Z Z (GoType (Val := Z)) :=
  default (mkCall 0 (mkReq "" "" tt []) Sending NotStarted) (calls (after tr) !! 0%nat).

Lemma after_runs tr : is_ok (runs tr (initial (Val := Z) (Obj := Z))) = true → runs tr initial = Ok (after tr).
Proof. unfold after. by destruct (runs tr initial). Qed.

Definition answeredTrace : list (Label Z Z) := setUp ++ oneCall ++ [LTakeReply 0; LFinish 0 SendReply; LReturn 0].

Lemma call_runs_handler_once_witness :
  ∃ p, executionsOf 0 (after answeredTrace) = [mkExecution 0 p 5 15].
Proof.
  exact (proj2 (call_runs_handler_once answeredTrace (after answeredTrace) 0 (callZero answeredTrace)
    (after_runs answeredTrace ltac:(vm_compute; reflexivity)) ltac:(vm_compute; reflexivity)) 15
    ltac:(vm_compute; reflexivity)).
Defined.

(** The server is deleted while the handler runs. *)
Lemma deleted_server_never_answers_witness :
  let w := after (setUp ++ oneCall ++ [LDeleteServer "s"]) in
  ∃ w' c', runs [LTakeReply 0; LFinish 0 SendReply; LReturn 0] w = Ok w' ∧
    calls w' !! 0%nat = Some c' ∧ ∀ v, pc c' ≠ Returned (Some v).
Proof.
  set (w := after (setUp ++ oneCall ++ [LDeleteServer "s"])).
  set (tr := [LTakeReply 0; LFinish 0 SendReply; LReturn 0]).
  set (w' := match runs tr w with Ok w' => w' | _ => w end).
  destruct (deleted_server_never_answers tr w w' 0 (callZero (setUp ++ oneCall ++ [LDeleteServer "s"]))
    (mkRoute "s" 0 true false)) as (c' & Hc' & Hpc).
  - vm_compute. reflexivity.
  - right. left. vm_compute. reflexivity.
  - vm_compute. discriminate.
  - repeat constructor; discriminate.
  - vm_compute. reflexivity.
  - exists w', c'. split; [vm_compute; reflexivity|done].
Defined.

Lemma reliable_call_succeeds_witness :
  let w := after (setUp ++ [LCall "e" "Counter.Add" 5]) in
  ∃ w' c', runs [LCall "e" "Counter.Add" 1; LSend 0; LRead 0; LSend 1] w = Ok w' ∧
    calls w' !! 0%nat = Some c' ∧ pc c' ≠ Returned None.
Proof.
  set (tr := setUp ++ [LCall "e" "Counter.Add" 5]). set (w := after tr).
  set (tr' := [LCall "e" "Counter.Add" 1; LSend 0; LRead 0; LSend 1]).
  set (w' := match runs tr' w with Ok w' => w' | _ => w end).
  destruct (reliable_call_succeeds tr tr' w w' 0 (callZero tr) "s" 0) as (c' & Hc' & Hpc).
  - apply after_runs. vm_compute. reflexivity.
  - vm_compute. reflexivity.
  - vm_compute. reflexivity.
  - split; vm_compute; reflexivity.
  - repeat constructor; cbn; eauto.
  - vm_compute. reflexivity.
  - exists w', c'. split; [vm_compute; reflexivity|done].
Defined.

Lemma call_can_return_witness : returns 0 (after (setUp ++ oneCall ++ [LDeleteServer "s"])).
Proof.
  apply (call_can_return (setUp ++ oneCall ++ [LDeleteServer "s"]) _ 0
    (callZero (setUp ++ oneCall ++ [LDeleteServer "s"]))).
  - apply after_runs. vm_compute. reflexivity.
  - vm_compute. reflexivity.
  - vm_compute. exact I.
Defined.
