(* ===== verification/Persister.v ===== *)
(** * The persister (code/src/raft/persister.go)

    Stable storage of one server: the encoded Raft state and the encoded
    service snapshot.  Every method runs under the persister's own mutex, so
    each is one atomic function here; [clone] copies a byte slice, which for
    an immutable list is the list itself. *)

From S2P Require Import Prelude Gob.

Record Persister := mkPersister {
  raftstate : bytes;
  snapshot : bytes;
}.

#[export] Instance Persister_eta : Settable Persister :=
  λ p, mkPersister (raftstate p) (snapshot p).
#[export] Instance set_raftstate : Setter raftstate := ltac:(derive_setter).
#[export] Instance set_snapshot : Setter snapshot := ltac:(derive_setter).

Definition MakePersister : Persister := mkPersister [] [].

Definition clone (orig : bytes) : bytes := orig.

Definition Copy (ps : Persister) : Persister :=
  mkPersister (raftstate ps) (snapshot ps).

Definition SaveRaftState (state : bytes) (ps : Persister) : Persister :=
  ps <| raftstate := clone state |>.

Definition ReadRaftState (ps : Persister) : bytes := clone (raftstate ps).

Definition RaftStateSize (ps : Persister) : Z := zlen (raftstate ps).

Definition SaveStateAndSnapshot (state snap : bytes) (ps : Persister) : Persister :=
  ps <| raftstate := clone state |> <| snapshot := clone snap |>.

Definition ReadSnapshot (ps : Persister) : bytes := clone (snapshot ps).

Definition SnapshotSize (ps : Persister) : Z := zlen (snapshot ps).

Lemma Copy_id ps : Copy ps = ps.
Proof. by destruct ps. Qed.
