(* ===== verification/RaftState.v ===== *)
(** * The Raft peer: state, persistence, role changes

    Models code/src/raft/raft.go (types, [persist], [readPersist], [GetState],
    [Kill], [Make]) and code/src/raft/raftUtils.go (time-outs, votes, role
    changes).  The log operations are in [RaftLog], the RPC handlers in
    [RaftVote], [RaftAppend] and [RaftSnapshot].

    Conventions of the model.  A Go [int] is a [Z]: the counters of the
    program (terms, indices) grow by one per event and the model does not wrap
    them at 2^63.  [peers] is only used for its length and its indices, so it
    is the number of RPC end points.  [applyCh] and the mutexes are not
    fields: a critical section under [rf.mu] is one function, and what the
    peer sends on [applyCh] is the result of [commitToApplyChannel].  The
    clock and the random source enter a critical section as one [Env]: within
    one critical section only the last time-out drawn is observable. *)

From S2P Require Import Prelude Gob Persister.
Open Scope Z_scope.

(** ** Values *)

(** [interface{}]: nil, an [int] (the filler entry of every log holds -1), or
    a command of the service above. *)
Inductive Iface (Cmd : Type) : Type :=
  | INil
  | IInt (z : Z)
  | ICmd (c : Cmd).
Arguments INil {Cmd}.
Arguments IInt {Cmd} z.
Arguments ICmd {Cmd} c.

Record ApplyMsg (Cmd : Type) := mkApplyMsg {
  CommandValid : bool;
  Command : Iface Cmd;
  CommandIndex : Z;
  SnapshotValid : bool;
  Snapshot : bytes;
  SnapshotTerm : Z;
  SnapshotIndex : Z;
}.
Arguments mkApplyMsg {Cmd}.
Arguments CommandValid {Cmd}.
Arguments Command {Cmd}.
Arguments CommandIndex {Cmd}.
Arguments SnapshotValid {Cmd}.
Arguments Snapshot {Cmd}.
Arguments SnapshotTerm {Cmd}.
Arguments SnapshotIndex {Cmd}.

Record LogEntity (Cmd : Type) := mkLogEntity {
  Term : Z;
  Action : Iface Cmd;
}.
Arguments mkLogEntity {Cmd}.
Arguments Term {Cmd}.
Arguments Action {Cmd}.

Inductive RaftStatus := Follower | Candidate | Leader.

#[export] Instance Iface_eq_dec `{EqDecision Cmd} : EqDecision (Iface Cmd).
Proof. solve_decision. Defined.
#[export] Instance LogEntity_eq_dec `{EqDecision Cmd} : EqDecision (LogEntity Cmd).
Proof. solve_decision. Defined.
#[export] Instance ApplyMsg_eq_dec `{EqDecision Cmd} : EqDecision (ApplyMsg Cmd).
Proof. solve_decision. Defined.
#[export] Instance RaftStatus_eq_dec : EqDecision RaftStatus.
Proof. solve_decision. Defined.

#[export] Instance Iface_countable `{Countable Cmd} : Countable (Iface Cmd).
Proof.
  refine (inj_countable'
    (λ i, match i with INil => inl (inl ()) | IInt z => inl (inr z) | ICmd c => inr c end)
    (λ s, match s with inl (inl _) => INil | inl (inr z) => IInt z | inr c => ICmd c end) _).
  by intros [].
Defined.
#[export] Instance LogEntity_countable `{Countable Cmd} : Countable (LogEntity Cmd).
Proof.
  refine (inj_countable' (λ e, (Term e, Action e)) (λ p, mkLogEntity p.1 p.2) _).
  by intros [].
Defined.

(** What the environment provides to one critical section: the current time
    in milliseconds and the result of [rand.Intn(151)]. *)
Record Env := mkEnv { now : Z; intn : Z }.

(** The five values [getPersistData] encodes, in its order. *)
Definition PersistData (Cmd : Type) : Type :=
  Z * Z * list (LogEntity Cmd) * Z * Z.

(** A goroutine the peer starts with [go]. *)
Inductive Spawn :=
  | GoSendRequestVote (server : nat)
  | GoSendAppendEntries (server : nat)
  | GoSendInstallSnapshot (server : nat).

(** ** The peer *)

Record Raft (Cmd : Type) := mkRaft {
  peers : nat;
  persister : Persister;
  me : Z;
  dead : bool;
  status : RaftStatus;
  numVoteGathered : Z;
  nextElectionTimeout : Z;
  currentTerm : Z;
  votedFor : Z;
  logs : list (LogEntity Cmd);
  snapshotEntriesAmount : Z;
  lastSnapshotTerm : Z;
  commitIndex : Z;
  lastApplied : Z;
  nextIndex : list Z;
  matchIndex : list Z;
}.
Arguments mkRaft {Cmd}.
Arguments peers {Cmd}.
Arguments persister {Cmd}.
Arguments me {Cmd}.
Arguments dead {Cmd}.
Arguments status {Cmd}.
Arguments numVoteGathered {Cmd}.
Arguments nextElectionTimeout {Cmd}.
Arguments currentTerm {Cmd}.
Arguments votedFor {Cmd}.
Arguments logs {Cmd}.
Arguments snapshotEntriesAmount {Cmd}.
Arguments lastSnapshotTerm {Cmd}.
Arguments commitIndex {Cmd}.
Arguments lastApplied {Cmd}.
Arguments nextIndex {Cmd}.
Arguments matchIndex {Cmd}.

#[export] Instance Raft_eta {Cmd} : Settable (Raft Cmd) := λ r,
  mkRaft (peers r) (persister r) (me r) (dead r) (status r)
    (numVoteGathered r) (nextElectionTimeout r) (currentTerm r) (votedFor r)
    (logs r) (snapshotEntriesAmount r) (lastSnapshotTerm r) (commitIndex r)
    (lastApplied r) (nextIndex r) (matchIndex r).
#[export] Instance set_persister {Cmd} : Setter (@persister Cmd) := ltac:(derive_setter).
#[export] Instance set_dead {Cmd} : Setter (@dead Cmd) := ltac:(derive_setter).
#[export] Instance set_status {Cmd} : Setter (@status Cmd) := ltac:(derive_setter).
#[export] Instance set_numVoteGathered {Cmd} : Setter (@numVoteGathered Cmd) := ltac:(derive_setter).
#[export] Instance set_nextElectionTimeout {Cmd} : Setter (@nextElectionTimeout Cmd) := ltac:(derive_setter).
#[export] Instance set_currentTerm {Cmd} : Setter (@currentTerm Cmd) := ltac:(derive_setter).
#[export] Instance set_votedFor {Cmd} : Setter (@votedFor Cmd) := ltac:(derive_setter).
#[export] Instance set_logs {Cmd} : Setter (@logs Cmd) := ltac:(derive_setter).
#[export] Instance set_snapshotEntriesAmount {Cmd} : Setter (@snapshotEntriesAmount Cmd) := ltac:(derive_setter).
#[export] Instance set_lastSnapshotTerm {Cmd} : Setter (@lastSnapshotTerm Cmd) := ltac:(derive_setter).
#[export] Instance set_commitIndex {Cmd} : Setter (@commitIndex Cmd) := ltac:(derive_setter).
#[export] Instance set_lastApplied {Cmd} : Setter (@lastApplied Cmd) := ltac:(derive_setter).
#[export] Instance set_nextIndex {Cmd} : Setter (@nextIndex Cmd) := ltac:(derive_setter).
#[export] Instance set_matchIndex {Cmd} : Setter (@matchIndex Cmd) := ltac:(derive_setter).

(** Compute field reads over field writes. *)
Ltac raft_simpl :=
  cbn [setf set_persister set_dead set_status set_numVoteGathered
       set_nextElectionTimeout set_currentTerm set_votedFor set_logs
       set_snapshotEntriesAmount set_lastSnapshotTerm set_commitIndex
       set_lastApplied set_nextIndex set_matchIndex
       peers persister me dead status numVoteGathered nextElectionTimeout
       currentTerm votedFor logs snapshotEntriesAmount lastSnapshotTerm
       commitIndex lastApplied nextIndex matchIndex fst snd] in *.

(** ** Time-outs (raftUtils.go) *)

Definition HeartBeatInterval : Z := 25.

Definition getTimeoutValue (env : Env) : Z := 150 + intn env.

(** A [time.Duration] of so many milliseconds; times are in milliseconds. *)
Definition getTimeoutDuration (env : Env) : Z := getTimeoutValue env.

Definition getNewTimeoutTime (env : Env) : Z := now env + getTimeoutDuration env.

Section raft_state.
Context {Cmd : Type} `{!LabGob (PersistData Cmd)}.
Implicit Types rf : Raft Cmd.

Definition setNewElectionTime (env : Env) (rf : Raft Cmd) : Raft Cmd :=
  rf <| nextElectionTimeout := getNewTimeoutTime env |>.

(** ** Persistence (raft.go) *)

Definition pdata (rf : Raft Cmd) : PersistData Cmd :=
  (currentTerm rf, votedFor rf, logs rf, snapshotEntriesAmount rf,
   lastSnapshotTerm rf).

Definition getPersistData (rf : Raft Cmd) : bytes := gob_encode (pdata rf).

Definition persist (rf : Raft Cmd) : Raft Cmd :=
  rf <| persister := SaveRaftState (getPersistData rf) (persister rf) |>.

Definition persistAndSnapshot (snap : bytes) (rf : Raft Cmd) : Raft Cmd :=
  rf <| persister := SaveStateAndSnapshot (getPersistData rf) snap (persister rf) |>.

Definition readPersist (data : bytes) (rf : Raft Cmd) : Res (Raft Cmd) :=
  match data with
  | [] => Ok rf
  | _ =>
    match gob_decode data : option (PersistData Cmd) with
    | None => Fatal "read persist error"
    | Some (t, v, l, n, lt) =>
        Ok (rf <| currentTerm := t |> <| votedFor := v |> <| logs := l |>
               <| snapshotEntriesAmount := n |> <| lastSnapshotTerm := lt |>)
    end
  end.

(** ** Queries and flags *)

Definition isLeader (rf : Raft Cmd) : bool := bool_decide (status rf = Leader).

Definition GetState (rf : Raft Cmd) : Z * bool :=
  (currentTerm rf, bool_decide (status rf = Leader)).

Definition Kill (rf : Raft Cmd) : Raft Cmd := rf <| dead := true |>.

Definition killed (rf : Raft Cmd) : bool := dead rf.

(** -1 means "has not voted yet". *)
Definition hasVotedFor (candidateId : Z) (rf : Raft Cmd) : bool :=
  bool_decide (votedFor rf = candidateId).

Definition hasntVote (rf : Raft Cmd) : bool := hasVotedFor (-1) rf.

Definition grandOtherVote (voteForId : Z) (rf : Raft Cmd) : Raft Cmd :=
  rf <| votedFor := voteForId |>.

Definition gainVote (rf : Raft Cmd) : Raft Cmd :=
  if decide (status rf = Candidate)
  then rf <| numVoteGathered := numVoteGathered rf + 1 |>
  else rf.

(** ** Role changes (raftUtils.go) *)

Definition becomeCandidate (rf : Raft Cmd) : Raft Cmd :=
  persist (rf <| currentTerm := currentTerm rf + 1 |>
              <| status := Candidate |>
              <| votedFor := me rf |>
              <| numVoteGathered := 1 |>).

Definition becomeFollower (env : Env) (newTerm votedForId : Z) (rf : Raft Cmd) : Raft Cmd :=
  persist (rf <| currentTerm := newTerm |>
              <| votedFor := votedForId |>
              <| status := Follower |>
              <| numVoteGathered := 0 |>
              <| nextElectionTimeout := getNewTimeoutTime env |>).

(** The goroutines of a loop over [rf.peers] that skips [rf.me]. *)
Definition forOthers (go : nat → Spawn) (rf : Raft Cmd) : list Spawn :=
  go <$> filter (λ i, Z.of_nat i ≠ me rf) (seq 0 (peers rf)).

Definition broadcastAppendEntries (rf : Raft Cmd) : list Spawn :=
  forOthers GoSendAppendEntries rf.

Definition candidateGatherVotes (rf : Raft Cmd) : list Spawn :=
  forOthers GoSendRequestVote rf.

(** ** [Make] *)

Definition fillerEntry : LogEntity Cmd := mkLogEntity (-1) (IInt (-1)).

(** The peer before [readPersist]. *)
Definition freshRaft (npeers : nat) (me : Z) (ps : Persister) (env : Env) : Raft Cmd := {|
  peers := npeers;
  persister := ps;
  RaftState.me := me;
  dead := false;
  status := Follower;
  numVoteGathered := 0;
  nextElectionTimeout := getNewTimeoutTime env;
  currentTerm := 0;
  votedFor := -1;
  logs := [fillerEntry];
  snapshotEntriesAmount := 0;
  lastSnapshotTerm := -1;
  commitIndex := -1;
  lastApplied := -1;
  nextIndex := [];
  matchIndex := [];
|}.

Definition Make (npeers : nat) (me : Z) (ps : Persister) (env : Env) : Res (Raft Cmd) :=
  readPersist (ReadRaftState ps) (freshRaft npeers me ps env).
(** ** A sample peer *)

(** A leader of three peers with two entries behind a snapshot of two. *)
Definition samplePeer (c : Cmd) : Raft Cmd :=
  persist (mkRaft 3 MakePersister 0 false Leader 0 0 5 (-1)
    [mkLogEntity 4 (ICmd c); mkLogEntity 5 (ICmd c)] 2 3 1 1 [4; 2; 4] [-1; 1; 3]).
End raft_state.


