(* ===== verification/RaftLog.v ===== *)
(** * The Raft log with snapshots (code/src/raft/logUtils.go)

    A peer keeps the entries after its last snapshot in [logs], the number of
    entries the snapshot covers in [snapshotEntriesAmount] and the term of
    the last covered entry in [lastSnapshotTerm].  All indices of the program
    are indices into the whole log; [getOffsetIndex] turns them into indices
    of [logs].

    [rep L rf] is the abstract specification: the peer [rf] holds the full
    log [L], of which the first [snapshotEntriesAmount] entries are
    compacted.  The lemmas after it say that every operation of the file
    reads and writes the full log, and exactly when it ends the process. *)

From S2P Require Import Prelude Gob Persister RaftState.
Open Scope Z_scope.

Section raft_log.
Context {Cmd : Type}.
Implicit Types (rf : Raft Cmd) (L : list (LogEntity Cmd)).

(** ** The operations *)

Definition getLastLogEntryIndex (rf : Raft Cmd) : Z :=
  zlen (logs rf) - 1 + snapshotEntriesAmount rf.

Definition getLogFullLength (rf : Raft Cmd) : Z :=
  zlen (logs rf) + snapshotEntriesAmount rf.

Definition getLogLengthWithoutSnapshot (rf : Raft Cmd) : Z := zlen (logs rf).

Definition logIndexCheck (index : Z) (lowerBoundCheck upperBoundCheck : bool)
    (rf : Raft Cmd) : Res unit :=
  if decide (lowerBoundCheck = true ∧ index < snapshotEntriesAmount rf)
  then Fatal "trying to access index in snapshot"
  else if decide (upperBoundCheck = true ∧ index > getLastLogEntryIndex rf)
  then Fatal "trying to access index in bigger than log"
  else Ok tt.

Definition getOffsetIndex (index : Z) (rf : Raft Cmd) : Z :=
  index - snapshotEntriesAmount rf.

Definition getLogEntryAtIndex (index : Z) (rf : Raft Cmd) : Res (LogEntity Cmd) :=
  _ ← logIndexCheck index true true rf;
  if decide (index = -1) then Fatal "trying to access index at -1"
  else go_index (logs rf) (getOffsetIndex index rf).

Definition getLastLogEntryTerm (rf : Raft Cmd) : Res Z :=
  if decide (zlen (logs rf) = 0) then Ok (lastSnapshotTerm rf)
  else Term <$> getLogEntryAtIndex (getLastLogEntryIndex rf) rf.

Definition getLogIndexBeforeIndex (index : Z) : Z :=
  if decide (index = -1) then -1 else index - 1.

Definition getLogTermAtIndex (index : Z) (rf : Raft Cmd) : Res Z :=
  if decide (index + 1 = snapshotEntriesAmount rf) then Ok (lastSnapshotTerm rf)
  else (_ ← logIndexCheck index true true rf;
        Term <$> getLogEntryAtIndex index rf).

Definition getIndexFromOffsetIndex (offsetIndex : Z) (rf : Raft Cmd) : Res Z :=
  let index := offsetIndex + snapshotEntriesAmount rf in
  _ ← logIndexCheck index true true rf;
  Ok index.

Definition candidateIsUpToDate (candidateLastTerm candidateLastIndex : Z)
    (rf : Raft Cmd) : Res bool :=
  t ← getLastLogEntryTerm rf;
  if decide (candidateLastTerm > t) then Ok true
  else if decide (candidateLastTerm = t ∧ candidateLastIndex >= getLastLogEntryIndex rf)
  then Ok true
  else Ok false.

Definition removeLogFromIndex (index : Z) (rf : Raft Cmd) : Res (Raft Cmd) :=
  _ ← (if decide (index + 1 ≠ snapshotEntriesAmount rf)
       then logIndexCheck index true true rf else Ok tt);
  if decide (index = -1) then Fatal "removeLogFromIndex(), index at -1"
  else (l ← go_slice_to (logs rf) (getOffsetIndex index rf + 1);
        Ok (rf <| logs := l |>)).

Definition logMatches (term index : Z) (rf : Raft Cmd) : Res bool :=
  _ ← logIndexCheck index false true rf;
  if decide (index = -1) then Ok true
  else if decide (index > getLastLogEntryIndex rf) then Ok false
  else (t ← getLogTermAtIndex index rf;
        Ok (bool_decide (t = term))).

(** The [index == -1] branch replaces the log by an empty slice before the
    slice expression, which then panics or not on that empty slice. *)
Definition copyStaringIndex (index : Z) (rf : Raft Cmd) : Res (Raft Cmd) :=
  _ ← logIndexCheck index true true rf;
  let rf := if decide (index = -1) then rf <| logs := [] |> else rf in
  l ← go_slice_to (logs rf) (getOffsetIndex index rf + 1);
  Ok (rf <| logs := l |>).

Definition appendToLogEntries (command : Iface Cmd) (rf : Raft Cmd) : Raft Cmd :=
  rf <| logs := logs rf ++ [mkLogEntity (currentTerm rf) command] |>.

Definition getLogEntryStartingAt (index : Z) (rf : Raft Cmd) : Res (list (LogEntity Cmd)) :=
  _ ← logIndexCheck index true false rf;
  if decide (getOffsetIndex index rf + 1 > zlen (logs rf)) then Ok []
  else go_slice_from (logs rf) (getOffsetIndex index rf).

Definition appendEntries (entries : list (LogEntity Cmd)) (rf : Raft Cmd) : Raft Cmd :=
  rf <| logs := logs rf ++ entries |>.

(** ** The full log *)

(** The term of the last of the first [n] entries, -1 when there is none. *)
Definition term_before (L : list (LogEntity Cmd)) (n : nat) : Z :=
  match n with
  | O => -1
  | S k => match L !! k with Some e => Term e | None => -1 end
  end.

Record rep (L : list (LogEntity Cmd)) (rf : Raft Cmd) : Prop := mkRep {
  rep_nonempty : L ≠ [];
  rep_bounds : 0 ≤ snapshotEntriesAmount rf ≤ zlen L;
  rep_logs : logs rf = drop (Z.to_nat (snapshotEntriesAmount rf)) L;
  rep_term : lastSnapshotTerm rf = term_before L (Z.to_nat (snapshotEntriesAmount rf));
}.

(** The same log up to [me], roles and indices. *)
Definition same_log rf rf' : Prop :=
  logs rf' = logs rf ∧
  snapshotEntriesAmount rf' = snapshotEntriesAmount rf ∧
  lastSnapshotTerm rf' = lastSnapshotTerm rf.

Lemma rep_same_log L rf rf' : same_log rf rf' → rep L rf → rep L rf'.
Proof. intros (E1 & E2 & E3) []. split; rewrite ?E1, ?E2, ?E3; done. Qed.

Lemma rep_zlen L rf : rep L rf → zlen (logs rf) = zlen L - snapshotEntriesAmount rf.
Proof. intros [? ? E ?]. rewrite E, length_drop. lia. Qed.

Lemma rep_last L rf : rep L rf → getLastLogEntryIndex rf = zlen L - 1.
Proof. intros R. unfold getLastLogEntryIndex. rewrite (rep_zlen _ _ R). lia. Qed.

Lemma rep_full_length L rf : rep L rf → getLogFullLength rf = zlen L.
Proof. intros R. unfold getLogFullLength. rewrite (rep_zlen _ _ R). lia. Qed.

Lemma rep_length_pos L rf : rep L rf → 0 < zlen L.
Proof. intros [H _ _ _]. destruct L; [done|]. cbn. lia. Qed.

Lemma rep_lookup L rf i :
  rep L rf → snapshotEntriesAmount rf ≤ i →
  logs rf !! Z.to_nat (getOffsetIndex i rf) = L !! Z.to_nat i.
Proof.
  intros [_ B E _] Hi. rewrite E, lookup_drop. unfold getOffsetIndex.
  f_equal. lia.
Qed.

(** The index check passes exactly on the bounds it is asked to check. *)
Lemma logIndexCheck_ok i lo up rf :
  (lo = true → snapshotEntriesAmount rf ≤ i) →
  (up = true → i ≤ getLastLogEntryIndex rf) →
  logIndexCheck i lo up rf = Ok tt.
Proof. intros. unfold logIndexCheck. repeat case_decide; naive_solver lia. Qed.

Lemma logIndexCheck_fatal i lo up rf :
  (lo = true ∧ i < snapshotEntriesAmount rf) ∨
  (up = true ∧ getLastLogEntryIndex rf < i) →
  ∃ why, logIndexCheck i lo up rf = Fatal why.
Proof. intros. unfold logIndexCheck. repeat case_decide; naive_solver lia. Qed.

(** Reading an entry of the full log: in range it is the entry, outside it
    ends the process. *)
Lemma getLogEntryAtIndex_rep L rf i :
  rep L rf →
  (snapshotEntriesAmount rf ≤ i < zlen L →
     ∃ e, L !! Z.to_nat i = Some e ∧ getLogEntryAtIndex i rf = Ok e) ∧
  (¬ (snapshotEntriesAmount rf ≤ i < zlen L) →
     ∃ why, getLogEntryAtIndex i rf = Fatal why).
Proof.
  intros R. pose proof (rep_bounds _ _ R). split; intros Hi.
  - destruct (lookup_lt_is_Some_2 L (Z.to_nat i)) as [e He]; [lia|].
    exists e. split; [done|].
    unfold getLogEntryAtIndex. pose proof (rep_last _ _ R).
    rewrite logIndexCheck_ok by lia. cbn. rewrite decide_False by lia. apply go_index_Ok.
    rewrite (rep_lookup _ _ _ R) by lia. unfold getOffsetIndex. split; [lia|done].
  - unfold getLogEntryAtIndex. pose proof (rep_last _ _ R).
    destruct (logIndexCheck_fatal i true true rf) as [? ->]; [lia|eauto].
Qed.

Lemma getLogEntryAtIndex_Ok L rf i e :
  rep L rf → snapshotEntriesAmount rf ≤ i → L !! Z.to_nat i = Some e →
  getLogEntryAtIndex i rf = Ok e.
Proof.
  intros R Hi He. pose proof (lookup_lt_Some _ _ _ He). pose proof (rep_bounds _ _ R).
  destruct (getLogEntryAtIndex_rep L rf i R) as [Hok _].
  destruct Hok as (e' & He' & Hok); [lia|]. congruence.
Qed.

Lemma term_before_lookup L (i : Z) e :
  0 ≤ i → L !! Z.to_nat i = Some e → term_before L (Z.to_nat (i + 1)) = Term e.
Proof.
  intros Hi He. replace (Z.to_nat (i + 1)) with (S (Z.to_nat i)) by lia.
  cbn. by rewrite He.
Qed.

(** The term lookup also answers for the last compacted entry. *)
Lemma getLogTermAtIndex_rep L rf i :
  rep L rf →
  (snapshotEntriesAmount rf - 1 ≤ i < zlen L →
     getLogTermAtIndex i rf = Ok (term_before L (Z.to_nat (i + 1)))) ∧
  (¬ (snapshotEntriesAmount rf - 1 ≤ i < zlen L) →
     ∃ why, getLogTermAtIndex i rf = Fatal why).
Proof.
  intros R. pose proof (rep_bounds _ _ R). unfold getLogTermAtIndex. split; intros Hi.
  - case_decide as E; [by rewrite E, (rep_term _ _ R)|].
    destruct (getLogEntryAtIndex_rep L rf i R) as [Hok _].
    destruct Hok as (e & He & Hok); [lia|].
    pose proof (rep_last _ _ R).
    rewrite logIndexCheck_ok by lia. cbn. rewrite Hok. cbn.
    by rewrite (term_before_lookup _ _ e) by (lia || done).
  - case_decide as E; [lia|]. pose proof (rep_last _ _ R).
    destruct (logIndexCheck_fatal i true true rf) as [? ->]; [lia|eauto].
Qed.

Lemma getLastLogEntryTerm_rep L rf :
  rep L rf → getLastLogEntryTerm rf = Ok (term_before L (length L)).
Proof.
  intros R. pose proof (rep_bounds _ _ R). pose proof (rep_zlen _ _ R) as Hz.
  pose proof (rep_length_pos _ _ R).
  unfold getLastLogEntryTerm. case_decide as E.
  - rewrite (rep_term _ _ R). do 2 f_equal. lia.
  - rewrite (rep_last _ _ R).
    destruct (getLogEntryAtIndex_rep L rf (zlen L - 1) R) as [Hok _].
    destruct Hok as (e & He & Hok); [lia|]. rewrite Hok. cbn. f_equal.
    replace (length L) with (Z.to_nat (zlen L - 1 + 1)) at 1 by lia.
    symmetry. apply term_before_lookup; [lia|done].
Qed.

(** Section 5.4.1 of the Raft paper: the comparison of last terms, then of
    last indices. *)
Definition up_to_date L (t i : Z) : bool :=
  bool_decide (term_before L (length L) < t) ||
  (bool_decide (t = term_before L (length L)) && bool_decide (zlen L - 1 ≤ i)).

Lemma candidateIsUpToDate_rep L rf t i :
  rep L rf → candidateIsUpToDate t i rf = Ok (up_to_date L t i).
Proof.
  intros R. unfold candidateIsUpToDate, up_to_date.
  rewrite (getLastLogEntryTerm_rep _ _ R), (rep_last _ _ R). cbn.
  repeat case_decide; repeat case_bool_decide; cbn; done || lia.
Qed.

Lemma term_before_take L k n :
  (n ≤ k)%nat → term_before (take k L) n = term_before L n.
Proof. intros. destruct n; [done|]. cbn. by rewrite lookup_take_lt by lia. Qed.

Lemma term_before_app L L' n :
  (n ≤ length L)%nat → term_before (L ++ L') n = term_before L n.
Proof. intros. destruct n; [done|]. cbn. by rewrite lookup_app_l by lia. Qed.

(** Truncating after index [i]. *)
Lemma removeLogFromIndex_rep L rf i :
  rep L rf → snapshotEntriesAmount rf - 1 ≤ i < zlen L → 0 ≤ i →
  removeLogFromIndex i rf =
    Ok (rf <| logs := take (Z.to_nat (i + 1 - snapshotEntriesAmount rf)) (logs rf) |>) ∧
  rep (take (Z.to_nat (i + 1)) L)
    (rf <| logs := take (Z.to_nat (i + 1 - snapshotEntriesAmount rf)) (logs rf) |>).
Proof.
  intros R Hi Hpos. pose proof (rep_bounds _ _ R). pose proof (rep_zlen _ _ R) as Hz.
  split.
  - unfold removeLogFromIndex. pose proof (rep_last _ _ R).
    assert ((if decide (i + 1 ≠ snapshotEntriesAmount rf)
             then logIndexCheck i true true rf else Ok tt) = Ok tt) as ->.
    { case_decide; [apply logIndexCheck_ok; lia|done]. }
    cbn. rewrite decide_False by lia.
    assert (go_slice_to (logs rf) (getOffsetIndex i rf + 1) =
      Ok (take (Z.to_nat (i + 1 - snapshotEntriesAmount rf)) (logs rf))) as ->; [|done].
    apply go_slice_to_Ok. unfold getOffsetIndex. split; [lia|]. f_equal. lia.
  - destruct R as [Hne HB HE HT]. split; raft_simpl.
    + intros Hnil%(f_equal length). rewrite length_take in Hnil. cbn in Hnil. lia.
    + rewrite length_take. lia.
    + rewrite HE. rewrite take_drop_commute. do 2 f_equal. lia.
    + rewrite HT, term_before_take by lia. done.
Qed.

Lemma appendEntries_rep L rf es : rep L rf → rep (L ++ es) (appendEntries es rf).
Proof.
  intros [Hne HB HE HT]. split; unfold appendEntries; raft_simpl.
  - by destruct L.
  - rewrite length_app. lia.
  - rewrite HE, drop_app_le by lia. done.
  - rewrite HT, term_before_app by lia. done.
Qed.

Lemma appendToLogEntries_rep L rf c :
  rep L rf → rep (L ++ [mkLogEntity (currentTerm rf) c]) (appendToLogEntries c rf).
Proof. apply appendEntries_rep. Qed.

Lemma getLogEntryStartingAt_rep L rf i :
  rep L rf →
  (snapshotEntriesAmount rf ≤ i → getLogEntryStartingAt i rf = Ok (drop (Z.to_nat i) L)) ∧
  (i < snapshotEntriesAmount rf → ∃ why, getLogEntryStartingAt i rf = Fatal why).
Proof.
  intros R. pose proof (rep_bounds _ _ R). pose proof (rep_zlen _ _ R) as Hz.
  unfold getLogEntryStartingAt. split; intros Hi.
  - rewrite logIndexCheck_ok by (done || lia). cbn. unfold getOffsetIndex.
    case_decide as E.
    + by rewrite drop_ge by lia.
    + apply go_slice_from_Ok. split; [lia|].
      rewrite (rep_logs _ _ R), drop_drop. f_equal. lia.
  - destruct (logIndexCheck_fatal i true false rf) as [? ->]; [lia|eauto].
Qed.

Lemma logMatches_rep L rf t i :
  rep L rf → snapshotEntriesAmount rf - 1 ≤ i < zlen L →
  logMatches t i rf =
    Ok (bool_decide (i = -1 ∨ term_before L (Z.to_nat (i + 1)) = t)).
Proof.
  intros R Hi. unfold logMatches. pose proof (rep_last _ _ R).
  rewrite logIndexCheck_ok by (done || lia). cbn.
  case_decide as E; [by rewrite bool_decide_true by auto|].
  rewrite decide_False by lia.
  rewrite (proj1 (getLogTermAtIndex_rep L rf i R)) by done. cbn. f_equal.
  apply bool_decide_ext. naive_solver.
Qed.

(** Compacting the first [k] entries keeps the full log. *)
Lemma compact_rep L rf (k : Z) :
  rep L rf → snapshotEntriesAmount rf ≤ k ≤ zlen L → 0 < k →
  rep L (rf <| lastSnapshotTerm := term_before L (Z.to_nat k) |>
            <| logs := drop (Z.to_nat k) L |>
            <| snapshotEntriesAmount := k |>).
Proof.
  intros [Hne HB HE HT] Hk Hpos. split; raft_simpl; [done|lia|done|done].
Qed.
(** ** The refinement theorem *)

(** The queries of logUtils.go read the full log behind the compacted
    one.  [getLogEntryAtIndex] returns exactly the entries that are not
    compacted and ends the process on any other index; [getLogTermAtIndex]
    answers for the last compacted entry too; the last index, the last term
    and the suffix from an index are those of the full log. *)
Theorem log_queries_read_full_log L rf :
  rep L rf →
  (∀ i e, getLogEntryAtIndex i rf = Ok e ↔
     snapshotEntriesAmount rf ≤ i ∧ L !! Z.to_nat i = Some e) ∧
  (∀ i t, getLogTermAtIndex i rf = Ok t ↔
     snapshotEntriesAmount rf - 1 ≤ i < zlen L ∧ t = term_before L (Z.to_nat (i + 1))) ∧
  getLastLogEntryIndex rf = zlen L - 1 ∧
  getLogFullLength rf = zlen L ∧
  getLastLogEntryTerm rf = Ok (term_before L (length L)) ∧
  (∀ i l, getLogEntryStartingAt i rf = Ok l ↔
     snapshotEntriesAmount rf ≤ i ∧ l = drop (Z.to_nat i) L).
Proof.
  intros R. pose proof (rep_bounds _ _ R). split_and!.
  - intros i e. destruct (getLogEntryAtIndex_rep L rf i R) as [Hin Hout]. split.
    + intros Ho. destruct (decide (snapshotEntriesAmount rf ≤ i < zlen L)) as [Hi|Hi].
      * destruct (Hin Hi) as (e' & He' & Ho'). split; [lia|]. congruence.
      * destruct (Hout Hi) as [why Hw]. congruence.
    + intros [Hi He]. by apply (getLogEntryAtIndex_Ok L).
  - intros i t. destruct (getLogTermAtIndex_rep L rf i R) as [Hin Hout]. split.
    + intros Ho. destruct (decide (snapshotEntriesAmount rf - 1 ≤ i < zlen L)) as [Hi|Hi].
      * split; [done|]. specialize (Hin Hi). congruence.
      * destruct (Hout Hi) as [why Hw]. congruence.
    + intros [Hi ->]. auto.
  - by apply rep_last.
  - by apply rep_full_length.
  - by apply getLastLogEntryTerm_rep.
  - intros i l. destruct (getLogEntryStartingAt_rep L rf i R) as [Hin Hout]. split.
    + intros Ho. destruct (decide (snapshotEntriesAmount rf ≤ i)) as [Hi|Hi].
      * split; [done|]. specialize (Hin Hi). congruence.
      * destruct (Hout ltac:(lia)) as [why Hw]. congruence.
    + intros [Hi ->]. auto.
Qed.
End raft_log.

(** The full log of [samplePeer]. *)
Definition sampleLog : list (LogEntity Z) :=
  [fillerEntry; mkLogEntity 3 (ICmd 6); mkLogEntity 4 (ICmd 7); mkLogEntity 5 (ICmd 7)].

Lemma sample_rep : rep sampleLog (samplePeer 7).
Proof. split; cbn; [done|lia|done|done]. Qed.

Lemma log_queries_read_full_log_witness :
  getLogEntryAtIndex 3 (samplePeer 7) = Ok (mkLogEntity 5 (ICmd 7)).
Proof.
  apply (log_queries_read_full_log sampleLog (samplePeer 7)); [exact sample_rep|].
  split; [vm_compute; discriminate|reflexivity].
Defined.
