(* ===== verification/RaftVote.v ===== *)
(** * Elections (code/src/raft/requestVotes.go, the ticker of raft.go)

    The RequestVote RPC: its handler, the goroutine that sends it (split where
    the code releases the lock: building the request, and treating the
    reply), the ticker that starts elections, and the change to leader.

    [RequestVote_spec] gives the handler's effect as a decision table. *)

From S2P Require Import Prelude Gob Persister RaftState RaftLog.
Open Scope Z_scope.

Record RequestVoteArgs := mkRequestVoteArgs {
  RV_Term : Z;
  RV_CandidateId : Z;
  RV_LastLogIndex : Z;
  RV_LastLogTerm : Z;
}.

Record RequestVoteReply := mkRequestVoteReply {
  RVR_Term : Z;
  RVR_VoteGranted : bool;
}.

Section raft_vote.
Context {Cmd : Type} `{!LabGob (PersistData Cmd)}.
Implicit Types (rf : Raft Cmd) (L : list (LogEntity Cmd)).

(** ** Becoming leader (raftUtils.go) *)

Definition becomeLeader (env : Env) (rf : Raft Cmd) : Raft Cmd * list Spawn :=
  let rf := rf <| status := Leader |>
               <| currentTerm := currentTerm rf + 1 |>
               <| votedFor := -1 |>
               <| numVoteGathered := 0 |>
               <| nextElectionTimeout := getNewTimeoutTime env |> in
  let rf := rf <| nextIndex := replicate (peers rf) (getLastLogEntryIndex rf + 1) |> in
  let rf := rf <| matchIndex := replicate (peers rf) (-1) |> in
  (persist rf, broadcastAppendEntries rf).

(** ** Receiver *)

(** The arguments of the first [DPrintf] are evaluated whether or not
    debugging is on, hence the call of [getLastLogEntryTerm]. *)
Definition RequestVote (env : Env) (args : RequestVoteArgs) (rf : Raft Cmd)
    : Res (Raft Cmd * RequestVoteReply) :=
  let reply := mkRequestVoteReply (currentTerm rf) false in
  _ ← getLastLogEntryTerm rf;
  if decide (currentTerm rf > RV_Term args) then Ok (rf, reply)
  else
    let rf := if decide (currentTerm rf < RV_Term args)
              then becomeFollower env (RV_Term args) (RV_CandidateId args) rf
              else rf in
    upToDate ← candidateIsUpToDate (RV_LastLogTerm args) (RV_LastLogIndex args) rf;
    if negb upToDate then Ok (rf, reply)
    else
      let rf := if decide (votedFor rf = me rf ∧ status rf = Candidate)
                then becomeFollower env (RV_Term args) (RV_CandidateId args) rf
                else rf in
      let rf := if hasntVote rf then grandOtherVote (RV_CandidateId args) rf else rf in
      if hasVotedFor (RV_CandidateId args) rf then
        let rf := becomeFollower env (RV_Term args) (RV_CandidateId args) rf in
        Ok (rf, mkRequestVoteReply (currentTerm rf) true)
      else Ok (rf, reply).

(** ** Sender *)

Definition checkElectionStatus (env : Env) (rf : Raft Cmd) : Raft Cmd * list Spawn :=
  if decide (status rf = Follower ∨ status rf = Leader) then (rf, [])
  else if decide (numVoteGathered rf > Z.of_nat (peers rf) / 2)
  then becomeLeader env rf
  else (rf, []).

Definition getRequestVoteArgs (rf : Raft Cmd) : Res RequestVoteArgs :=
  t ← getLastLogEntryTerm rf;
  Ok (mkRequestVoteArgs (currentTerm rf) (me rf) (getLastLogEntryIndex rf) t).

(** [handleSendRequestVote] after [sendRequestVote] returned [ok]. *)
Definition handleSendRequestVote (env : Env) (ok : bool) (reply : RequestVoteReply)
    (rf : Raft Cmd) : Raft Cmd * list Spawn :=
  if negb ok then (rf, [])
  else if decide (RVR_Term reply > currentTerm rf)
  then (becomeFollower env (RVR_Term reply) (-1) rf, [])
  else
    let rf := if RVR_VoteGranted reply then
                if decide (RVR_Term reply = currentTerm rf) then gainVote rf else rf
              else rf in
    checkElectionStatus env rf.

(** ** The ticker (raft.go) *)

Definition startElection (rf : Raft Cmd) : Raft Cmd * list Spawn :=
  let rf := becomeCandidate rf in
  (rf, candidateGatherVotes rf).

(** One iteration of the loop body of [ticker], under the lock.
    [time.Now().After(t)] is [t < now]. *)
Definition ticker (env : Env) (rf : Raft Cmd) : Raft Cmd * list Spawn :=
  if killed rf then (rf, [])
  else if isLeader rf then (rf, broadcastAppendEntries rf)
  else if decide (nextElectionTimeout rf < now env)
  then startElection (setNewElectionTime env rf)
  else (rf, []).

(** ** What the role changes leave alone *)

Lemma becomeFollower_same_log env t v rf : same_log rf (becomeFollower env t v rf).
Proof. done. Qed.
Lemma becomeCandidate_same_log rf : same_log rf (becomeCandidate rf).
Proof. done. Qed.
Lemma becomeLeader_same_log env rf : same_log rf (becomeLeader env rf).1.
Proof. done. Qed.

(** The last role change wins: an earlier one in the same critical section
    leaves no trace. *)
Lemma becomeFollower_twice env t v t' v' rf :
  becomeFollower env t v (becomeFollower env t' v' rf) = becomeFollower env t v rf.
Proof. by destruct rf as [? []]. Qed.

Lemma becomeFollower_grand env t v v' rf :
  becomeFollower env t v (grandOtherVote v' rf) = becomeFollower env t v rf.
Proof. done. Qed.

(** ** The decision table of RequestVote *)

(** A vote is granted when the candidate's term is not behind, its log is
    up to date, and this term's vote is free: the term is new, or no vote
    was cast, or it was cast for this candidate, or the peer is itself a
    candidate voting for itself. *)
Definition grants L (args : RequestVoteArgs) rf : bool :=
  bool_decide (currentTerm rf ≤ RV_Term args) &&
  up_to_date L (RV_LastLogTerm args) (RV_LastLogIndex args) &&
  bool_decide (currentTerm rf < RV_Term args ∨ votedFor rf = -1 ∨
               votedFor rf = RV_CandidateId args ∨
               (votedFor rf = me rf ∧ status rf = Candidate)).

Definition RequestVote_table env L (args : RequestVoteArgs) rf
    : Raft Cmd * RequestVoteReply :=
  let follow := becomeFollower env (RV_Term args) (RV_CandidateId args) rf in
  if grants L args rf then (follow, mkRequestVoteReply (RV_Term args) true)
  else ((if decide (currentTerm rf < RV_Term args) then follow else rf),
        mkRequestVoteReply (currentTerm rf) false).

(** The end of the handler: cast a free vote, then grant it if it is now
    the candidate's. *)
Lemma cast_vote env t c reply rf :
  (let rf := if hasntVote rf then grandOtherVote c rf else rf in
   if hasVotedFor c rf then
     let rf := becomeFollower env t c rf in
     Ok (rf, mkRequestVoteReply (currentTerm rf) true)
   else Ok (rf, reply)) =
  if decide (votedFor rf = -1 ∨ votedFor rf = c)
  then Ok (becomeFollower env t c rf, mkRequestVoteReply t true)
  else Ok (rf, reply).
Proof.
  cbn zeta. unfold hasntVote.
  destruct (hasVotedFor (-1) rf) eqn:E; unfold hasVotedFor in *.
  - apply bool_decide_eq_true in E. rewrite decide_True by auto.
    by rewrite bool_decide_true by done.
  - apply bool_decide_eq_false in E. case_bool_decide as E'.
    + by rewrite decide_True by auto.
    + by rewrite decide_False by naive_solver.
Qed.

Lemma RequestVote_eq env L args rf :
  rep L rf → RequestVote env args rf = Ok (RequestVote_table env L args rf).
Proof.
  intros R. unfold RequestVote, RequestVote_table, grants.
  rewrite (getLastLogEntryTerm_rep _ _ R). cbn [mbind Res_bind].
  destruct (decide (currentTerm rf > RV_Term args)) as [Hgt|Hge].
  { rewrite bool_decide_false by lia. cbn. by rewrite decide_False by lia. }
  rewrite (bool_decide_true (currentTerm rf ≤ _)) by lia. cbn zeta.
  rewrite (candidateIsUpToDate_rep L) by
    (case_decide; [eapply rep_same_log; [apply becomeFollower_same_log|]|]; exact R).
  cbn [mbind Res_bind].
  destruct (up_to_date _ _ _); cbn [negb andb]; [|by case_decide].
  rewrite cast_vote.
  destruct (decide (currentTerm rf < RV_Term args)) as [Hlt|Heq].
  - rewrite (decide_False (P := votedFor _ = me _ ∧ _)) by (intros [_ E]; discriminate E).
    rewrite (bool_decide_true (_ ∨ _)) by auto.
    by rewrite decide_True, becomeFollower_twice by (by right).
  - destruct (decide (votedFor rf = me rf ∧ status rf = Candidate)) as [Hc|Hc].
    + rewrite (bool_decide_true (_ ∨ _)) by auto.
      by rewrite decide_True, becomeFollower_twice by (by right).
    + case_decide as Hv.
      * by rewrite bool_decide_true by tauto.
      * by rewrite bool_decide_false by tauto.
Qed.

(** ** Counting votes *)

Lemma checkElectionStatus_cases env rf :
  checkElectionStatus env rf =
  if decide (status rf = Candidate ∧ numVoteGathered rf > Z.of_nat (peers rf) / 2)
  then becomeLeader env rf else (rf, []).
Proof. unfold checkElectionStatus. destruct (status rf); repeat case_decide; naive_solver. Qed.
(** ** The theorem *)

(** C4: RequestVote on every branch.  It always answers; it grants the vote
    exactly when the candidate's term is not behind, its log is at least as
    up to date and this term's vote is free; a granted vote makes the peer a
    follower of the candidate in the candidate's term; a refusal in a newer
    term still consumes the vote of that term; any other refusal changes
    nothing. *)
Theorem RequestVote_decides env L args rf :
  rep L rf →
  ∃ rf' reply, RequestVote env args rf = Ok (rf', reply) ∧
    RVR_VoteGranted reply = grants L args rf ∧
    rep L rf' ∧
    (RVR_VoteGranted reply = true →
       RVR_Term reply = RV_Term args ∧ currentTerm rf' = RV_Term args ∧
       votedFor rf' = RV_CandidateId args ∧ status rf' = Follower) ∧
    (RVR_VoteGranted reply = false → RVR_Term reply = currentTerm rf) ∧
    (RVR_VoteGranted reply = false → currentTerm rf < RV_Term args →
       currentTerm rf' = RV_Term args ∧ votedFor rf' = RV_CandidateId args) ∧
    (RVR_VoteGranted reply = false → RV_Term args ≤ currentTerm rf → rf' = rf).
Proof.
  intros R. rewrite (RequestVote_eq _ _ _ _ R). unfold RequestVote_table.
  destruct (grants L args rf); eexists _, _; (split; [done|]); cbn.
  - split_and!; first [done | by apply (rep_same_log L rf) | intros; by split_and!].
  - case_decide; split_and!; intros; first [by split | by apply (rep_same_log L rf) | done | lia].
Qed.
End raft_vote.

Lemma RequestVote_decides_witness :
  ∃ rf' reply, RequestVote (mkEnv 0 0) (mkRequestVoteArgs 6 1 3 5) (samplePeer 7) = Ok (rf', reply) ∧
    RVR_VoteGranted reply = grants sampleLog (mkRequestVoteArgs 6 1 3 5) (samplePeer 7).
Proof.
  destruct (RequestVote_decides (mkEnv 0 0) sampleLog (mkRequestVoteArgs 6 1 3 5)
    (samplePeer 7) sample_rep) as (rf' & reply & H1 & H2 & _).
  exists rf', reply. exact (conj H1 H2).
Defined.
