(* ===== verification/RaftCommit.v ===== *)
(** * Committing and applying (code/src/raft/commitAndApplyUtils.go)

    [leaderUpdateCommit] moves a leader's commit index;
    [commitToApplyChannelWithLock] turns committed entries (or a snapshot that
    is ahead) into the messages [commitToApplyChannel] then sends on
    [applyCh], in order, under [applyMu]. *)

From S2P Require Import Prelude Gob Persister RaftState RaftLog.
Open Scope Z_scope.

Section raft_commit.
Context {Cmd : Type} `{!LabGob (PersistData Cmd)}.
Implicit Types (rf : Raft Cmd) (L : list (LogEntity Cmd)).

(** ** The operations *)

(** The inner loop: this peer and every other peer whose [matchIndex]
    reaches [i]. *)
Definition countReplicas (i : Z) (rf : Raft Cmd) : Res Z :=
  go_for (λ count j,
    if decide (Z.of_nat j = me rf) then Ok count
    else (m ← go_index (matchIndex rf) (Z.of_nat j);
          Ok (if decide (m >= i) then count + 1 else count)))
    1 (seq 0 (peers rf)).

Definition commitCandidate (rf : Raft Cmd) (newCommitIndex : Z) (j : nat) : Res Z :=
  i ← getIndexFromOffsetIndex (Z.of_nat j) rf;
  if decide (i < newCommitIndex) then Ok newCommitIndex
  else
    count ← countReplicas i rf;
    if decide (count > Z.of_nat (peers rf) / 2) then
      e ← getLogEntryAtIndex i rf;
      Ok (if decide (Term e = currentTerm rf) then i else newCommitIndex)
    else Ok newCommitIndex.

Definition leaderUpdateCommit (rf : Raft Cmd) : Res (Raft Cmd) :=
  newCommitIndex ←
    go_for (commitCandidate rf) (commitIndex rf)
      (seq 0 (Z.to_nat (getLogLengthWithoutSnapshot rf)));
  if decide (newCommitIndex < commitIndex rf)
  then Fatal "new commit smaller than previous commit"
  else
    _ ← (if decide (newCommitIndex > -1 ∧ commitIndex rf ≠ newCommitIndex) then
           e ← getLogEntryAtIndex newCommitIndex rf;
           if decide (Term e ≠ currentTerm rf)
           then Fatal "against 5.4.2, not committing the ones at current term"
           else Ok tt
         else Ok tt);
    Ok (rf <| commitIndex := newCommitIndex |>).

Definition snapshotMsg (rf : Raft Cmd) : ApplyMsg Cmd := {|
  CommandValid := false;
  Command := INil;
  CommandIndex := 0;
  SnapshotValid := true;
  Snapshot := ReadSnapshot (persister rf);
  SnapshotTerm := lastSnapshotTerm rf;
  SnapshotIndex := snapshotEntriesAmount rf - 1;
|}.

Definition commandMsg (i : Z) (e : LogEntity Cmd) : ApplyMsg Cmd := {|
  CommandValid := negb (bool_decide (i = 0));
  Command := Action e;
  CommandIndex := i;
  SnapshotValid := false;
  Snapshot := [];
  SnapshotTerm := 0;
  SnapshotIndex := 0;
|}.

Definition commitToApplyChannelWithLock (rf : Raft Cmd) : Res (Raft Cmd * list (ApplyMsg Cmd)) :=
  let rf := persist rf in
  if decide (lastApplied rf + 1 < snapshotEntriesAmount rf) then
    let applyMsg := snapshotMsg rf in
    Ok (rf <| lastApplied := snapshotEntriesAmount rf - 1 |>, [applyMsg])
  else if decide (lastApplied rf >= commitIndex rf) then Ok (rf, [])
  else
    applyMsgs ←
      go_for (λ applyMsgs i,
        e ← getLogEntryAtIndex i rf;
        Ok (applyMsgs ++ [commandMsg i e]))
        [] (seqZ (lastApplied rf + 1) (commitIndex rf - lastApplied rf));
    Ok (rf <| lastApplied := commitIndex rf |>, applyMsgs).

(** ** Replicas *)

(** How many peers hold entry [i], as the leader knows. *)
Definition replicas (i : Z) rf : Z :=
  foldl (λ count j,
    if decide (Z.of_nat j = me rf) then count
    else match matchIndex rf !! j with
         | Some m => if decide (m >= i) then count + 1 else count
         | None => count
         end) 1 (seq 0 (peers rf)).

Lemma countReplicas_eq i rf :
  length (matchIndex rf) = peers rf → countReplicas i rf = Ok (replicas i rf).
Proof.
  intros Hlen. apply go_for_foldl. intros count j Hj%elem_of_seq.
  case_decide; [done|].
  destruct (go_index_in_range (matchIndex rf) (Z.of_nat j)) as (m & -> & Hm); [lia|].
  rewrite Nat2Z.id in Hm. cbn. by rewrite Hm.
Qed.

(** ** What a leader may commit *)

(** Entry [i] is in the uncompacted log, not behind the commit index, on a
    majority, and of the current term (Raft's section 5.4.2). *)
Definition committable L rf (i : Z) : Prop :=
  snapshotEntriesAmount rf ≤ i < zlen L ∧ commitIndex rf ≤ i ∧
  replicas i rf > Z.of_nat (peers rf) / 2 ∧
  ∃ e, L !! Z.to_nat i = Some e ∧ Term e = currentTerm rf.

(** [c] is the largest committable index, or the old commit index. *)
Definition commit_point L rf (c : Z) : Prop :=
  (c = commitIndex rf ∨ committable L rf c) ∧
  (∀ i, committable L rf i → i ≤ c).

Lemma commitCandidate_step L rf (c : Z) (j : nat) :
  rep L rf → length (matchIndex rf) = peers rf →
  (j < length (logs rf))%nat →
  (c = commitIndex rf ∨ committable L rf c) →
  commitIndex rf ≤ c →
  ∃ c', commitCandidate rf c j = Ok c' ∧ c ≤ c' ∧
    (c' = commitIndex rf ∨ committable L rf c') ∧
    (committable L rf (Z.of_nat j + snapshotEntriesAmount rf) →
       Z.of_nat j + snapshotEntriesAmount rf ≤ c').
Proof.
  intros R Hlen Hj Hc Hle.
  pose proof (rep_zlen _ _ R) as Hz. pose proof (rep_last _ _ R) as Hlast.
  pose proof (rep_bounds _ _ R) as Hb.
  unfold commitCandidate, getIndexFromOffsetIndex.
  rewrite logIndexCheck_ok by lia. cbn.
  set (i := Z.of_nat j + snapshotEntriesAmount rf).
  case_decide as Hlt; [exists c; split_and!; done || lia|].
  rewrite countReplicas_eq by done. cbn.
  case_decide as Hmaj.
  - destruct (proj1 (getLogEntryAtIndex_rep L rf i R)) as (e & He & ->); [lia|]. cbn.
    case_decide as Ht.
    + exists i. split_and!; [done|lia| |done].
      right. split_and!; [lia..|by exists e].
    + exists c. split_and!; [done|lia|done|].
      intros (_ & _ & _ & e' & He' & ?). congruence.
  - exists c. split_and!; [done|lia|done|]. by intros (_ & _ & ? & _).
Qed.

Lemma leaderUpdateCommit_spec L rf :
  rep L rf → length (matchIndex rf) = peers rf →
  ∃ c, leaderUpdateCommit rf = Ok (rf <| commitIndex := c |>) ∧
       commitIndex rf ≤ c ∧ commit_point L rf c.
Proof.
  intros R Hlen. pose proof (rep_zlen _ _ R) as Hz. pose proof (rep_bounds _ _ R) as Hb.
  set (I := λ (c : Z) (pre : list nat),
    commitIndex rf ≤ c ∧ (c = commitIndex rf ∨ committable L rf c) ∧
    ∀ j, j ∈ pre → committable L rf (Z.of_nat j + snapshotEntriesAmount rf) →
         Z.of_nat j + snapshotEntriesAmount rf ≤ c).
  unfold leaderUpdateCommit, getLogLengthWithoutSnapshot. rewrite Nat2Z.id.
  destruct (go_for_inv I (commitCandidate rf) (seq 0 (length (logs rf))) (commitIndex rf))
    as (c & -> & Hle & Hc & Hmax).
  - split_and!; [lia|by left|]. by intros j ?%elem_of_nil.
  - intros c pre j post Hl (Hle & Hc & Hmax).
    assert (j ∈ seq 0 (length (logs rf))) as Hj%elem_of_seq by (rewrite Hl; set_solver).
    destruct (commitCandidate_step L rf c j) as (c' & Hok & Hcc & Hc' & Hj'); [done..|lia|done|done|].
    exists c'. split; [done|]. split_and!; [lia|done|].
    intros k [Hk|Hk%list_elem_of_singleton]%elem_of_app Hcom; [|by subst; apply Hj'].
    specialize (Hmax k Hk Hcom). lia.
  - exists c. cbn. rewrite decide_False by lia. split_and!; [|done|split; [done|]].
    + case_decide as Hch; [|done]. destruct Hc as [?|Hcom]; [lia|].
      destruct Hcom as (Hr & _ & _ & e & He & Ht).
      rewrite (getLogEntryAtIndex_Ok L _ _ e) by (done || lia). cbn.
      by rewrite decide_False by auto.
    + intros i Hcom. pose proof Hcom as (Hr & _).
      specialize (Hmax (Z.to_nat (i - snapshotEntriesAmount rf))).
      replace (Z.of_nat (Z.to_nat (i - snapshotEntriesAmount rf)) +
               snapshotEntriesAmount rf) with i in Hmax by lia.
      apply Hmax; [|done]. apply elem_of_seq. lia.
Qed.

(** ** What is applied *)

(** The messages for the entries [lo .. hi] of the full log. *)
Definition commands L (lo hi : Z) : list (ApplyMsg Cmd) :=
  zip_with commandMsg (seqZ lo (hi + 1 - lo)) (drop (Z.to_nat lo) L).

Lemma seqZ_S (lo : Z) (n : nat) : seqZ lo (Z.of_nat (S n)) = lo :: seqZ (lo + 1) (Z.of_nat n).
Proof. rewrite seqZ_cons by lia. f_equal. f_equal; lia. Qed.

Lemma apply_loop L rf (n : nat) (lo : Z) acc :
  rep L rf → snapshotEntriesAmount rf ≤ lo → lo + Z.of_nat n ≤ zlen L →
  go_for (λ applyMsgs i, e ← getLogEntryAtIndex i rf; Ok (applyMsgs ++ [commandMsg i e]))
    acc (seqZ lo (Z.of_nat n)) =
  Ok (acc ++ commands L lo (lo + Z.of_nat n - 1)).
Proof.
  intros R Hlo Hn.
  pose proof (rep_bounds _ _ R) as Hb. unfold commands.
  replace (lo + Z.of_nat n - 1 + 1 - lo) with (Z.of_nat n) by lia.
  revert lo acc Hlo Hn. induction n as [|n IH]; intros lo acc Hlo Hn.
  - cbn. by rewrite app_nil_r.
  - rewrite seqZ_S. cbn [go_for].
    destruct (proj1 (getLogEntryAtIndex_rep L rf lo R)) as (e & He & ->); [lia|]. cbn.
    rewrite IH by lia. rewrite <- app_assoc. do 2 f_equal.
    rewrite (drop_S _ _ _ He). cbn. do 3 f_equal. lia.
Qed.

Lemma apply_loop_fatal L rf (n : nat) (lo : Z) acc :
  rep L rf → snapshotEntriesAmount rf ≤ lo → n ≠ 0%nat → zlen L < lo + Z.of_nat n →
  ∃ why, go_for (λ applyMsgs i, e ← getLogEntryAtIndex i rf; Ok (applyMsgs ++ [commandMsg i e]))
    acc (seqZ lo (Z.of_nat n)) = Fatal why.
Proof.
  intros R. revert lo acc. induction n as [|n IH]; intros lo acc Hlo Hn Hlen; [done|].
  rewrite seqZ_S. cbn [go_for].
  destruct (decide (lo < zlen L)) as [Hin|Hout].
  - destruct (proj1 (getLogEntryAtIndex_rep L rf lo R)) as (e & He & ->); [lia|]. cbn.
    apply IH; lia.
  - destruct (proj2 (getLogEntryAtIndex_rep L rf lo R)) as [why ->]; [lia|]. by exists why.
Qed.

(** The whole critical section, case by case; the last case is the only
    one that ends the process. *)
Definition apply_table L rf : option (Z * list (ApplyMsg Cmd)) :=
  if decide (lastApplied rf + 1 < snapshotEntriesAmount rf)
  then Some (snapshotEntriesAmount rf - 1, [snapshotMsg rf])
  else if decide (lastApplied rf >= commitIndex rf) then Some (lastApplied rf, [])
  else if decide (commitIndex rf < zlen L)
  then Some (commitIndex rf, commands L (lastApplied rf + 1) (commitIndex rf))
  else None.

Lemma rep_persist L rf : rep L rf → rep L (persist rf).
Proof. by apply rep_same_log. Qed.

Lemma commitToApplyChannelWithLock_eq L rf :
  rep L rf →
  match apply_table L rf with
  | Some (a, msgs) =>
      commitToApplyChannelWithLock rf = Ok ((persist rf) <| lastApplied := a |>, msgs)
  | None => ∃ why, commitToApplyChannelWithLock rf = Fatal why
  end.
Proof.
  intros R. pose proof (rep_persist _ _ R) as Rp. pose proof (rep_bounds _ _ R) as Hb.
  unfold apply_table, commitToApplyChannelWithLock.
  change (lastApplied (persist rf)) with (lastApplied rf).
  change (commitIndex (persist rf)) with (commitIndex rf).
  change (snapshotEntriesAmount (persist rf)) with (snapshotEntriesAmount rf).
  case_decide; [done|]. case_decide; [by destruct rf|].
  replace (commitIndex rf - lastApplied rf)
    with (Z.of_nat (Z.to_nat (commitIndex rf - lastApplied rf))) by lia.
  case_decide as Hin.
  - rewrite (apply_loop L) by (done || (unfold persist; raft_simpl; lia)).
    cbn. do 3 f_equal. lia.
  - destruct (apply_loop_fatal L (persist rf) (Z.to_nat (commitIndex rf - lastApplied rf))
      (lastApplied rf + 1) []) as [why ->]; [done|unfold persist; raft_simpl; lia|lia|lia|].
    by exists why.
Qed.

(** The indices of the applied commands are consecutive. *)
Lemma commands_indices L lo hi :
  0 ≤ lo → hi < zlen L → CommandIndex <$> commands L lo hi = seqZ lo (hi + 1 - lo).
Proof.
  intros Hlo Hhi. apply fmap_zip_with_l; [done|].
  rewrite length_seqZ, length_drop. lia.
Qed.

Lemma commands_lookup L lo hi i msg :
  0 ≤ lo → commands L lo hi !! i = Some msg →
  ∃ e, L !! Z.to_nat (lo + Z.of_nat i) = Some e ∧ msg = commandMsg (lo + Z.of_nat i) e.
Proof.
  intros Hlo (j & e & -> & Hj & He)%lookup_zip_with_Some.
  apply lookup_seqZ in Hj as [-> Hi]. exists e. split; [|done].
  rewrite lookup_drop in He. rewrite <- He. f_equal. lia.
Qed.
(** ** The theorems *)

(** C5: a leader moves its commit index exactly to the largest index that is
    on a majority of the peers and whose entry is of its current term (Raft's
    section 5.4.2), or leaves it; it never moves back, never fails, and
    changes nothing else. *)
Theorem leader_commits_majority L rf :
  rep L rf → length (matchIndex rf) = peers rf →
  ∃ c, leaderUpdateCommit rf = Ok (rf <| commitIndex := c |>) ∧
       commitIndex rf ≤ c ∧ commit_point L rf c.
Proof. apply leaderUpdateCommit_spec. Qed.

(** Applying.  When the commit index is inside the log, the messages sent
    are the entries after [lastApplied] up to the commit index, in order,
    each with its index (the filler entry at index 0 marked not valid), and
    nothing is left to apply. *)
Theorem apply_sends_committed_entries L rf :
  rep L rf → -1 ≤ lastApplied rf →
  snapshotEntriesAmount rf ≤ lastApplied rf + 1 →
  lastApplied rf < commitIndex rf < zlen L →
  ∃ rf' msgs, commitToApplyChannelWithLock rf = Ok (rf', msgs) ∧
    lastApplied rf' = commitIndex rf ∧
    zlen msgs = commitIndex rf - lastApplied rf ∧
    (∀ i e, lastApplied rf < i ≤ commitIndex rf → L !! Z.to_nat i = Some e →
       msgs !! Z.to_nat (i - lastApplied rf - 1) = Some (commandMsg i e)) ∧
    snd <$> commitToApplyChannelWithLock rf' = Ok [].
Proof.
  intros R Hla Hs Hc. pose proof (commitToApplyChannelWithLock_eq L rf R) as He.
  unfold apply_table in He.
  rewrite decide_False, decide_False, decide_True in He by lia.
  eexists _, _. split; [exact He|]. cbn. split_and!; [done|..].
  - unfold commands. rewrite length_zip_with, length_seqZ, length_drop. lia.
  - intros i e Hi Hl. unfold commands.
    apply lookup_zip_with_Some. exists i, e. split_and!; [done|..].
    + apply lookup_seqZ. lia.
    + rewrite lookup_drop, <- Hl. f_equal. lia.
  - unfold commitToApplyChannelWithLock. cbn zeta.
    rewrite decide_False, decide_True by (unfold persist; raft_simpl; lia). done.
Qed.
End raft_commit.

Lemma leader_commits_majority_witness :
  ∃ c, leaderUpdateCommit (samplePeer 7) = Ok ((samplePeer 7) <| commitIndex := c |>) ∧
       commitIndex (samplePeer 7) ≤ c ∧ commit_point sampleLog (samplePeer 7) c.
Proof. apply (leader_commits_majority sampleLog (samplePeer 7) sample_rep). reflexivity. Defined.

Lemma apply_sends_committed_entries_witness :
  ∃ rf' msgs, commitToApplyChannelWithLock ((samplePeer 7) <| commitIndex := 3 |>) = Ok (rf', msgs) ∧
    zlen msgs = 2.
Proof.
  destruct (apply_sends_committed_entries sampleLog ((samplePeer 7) <| commitIndex := 3 |>))
    as (rf' & msgs & H & _ & Hn & _).
  - split; cbn; [discriminate|lia|reflexivity|reflexivity].
  - vm_compute. discriminate.
  - vm_compute. discriminate.
  - split; vm_compute; reflexivity.
  - exists rf', msgs. exact (conj H Hn).
Defined.
