(* ===== verification/RaftAppend.v ===== *)
(** * Log replication (code/src/raft/appendEntities.go, [Start] of raft.go)

    The AppendEntries RPC: its handler, the goroutine that sends it (split
    where the code releases the lock), the back-off of [nextIndex] after a
    refusal, and [Start], by which the service appends a command.

    [AppendEntriesWithLock_eq] gives the handler's effect as a decision table
    over the full log. *)

From S2P Require Import Prelude Gob Persister RaftState RaftLog RaftCommit.
Open Scope Z_scope.

Record AppendEntriesArgs (Cmd : Type) := mkAppendEntriesArgs {
  AE_Term : Z;
  AE_LeaderId : Z;
  AE_PrevLogIndex : Z;
  AE_PrevLogTerm : Z;
  AE_Entries : list (LogEntity Cmd);
  AE_LeaderCommit : Z;
}.
Arguments mkAppendEntriesArgs {Cmd}.
Arguments AE_Term {Cmd}.
Arguments AE_LeaderId {Cmd}.
Arguments AE_PrevLogIndex {Cmd}.
Arguments AE_PrevLogTerm {Cmd}.
Arguments AE_Entries {Cmd}.
Arguments AE_LeaderCommit {Cmd}.

Record AppendEntriesReply := mkAppendEntriesReply {
  AER_Term : Z;
  AER_Success : bool;
  AER_InSnapshot : bool;
  AER_SnapshotAmount : Z;
}.

Section raft_append.
Context {Cmd : Type} `{!LabGob (PersistData Cmd)}.
Implicit Types (rf : Raft Cmd) (L : list (LogEntity Cmd)) (args : AppendEntriesArgs Cmd).

(** ** The service appends a command *)

Definition Start (command : Iface Cmd) (rf : Raft Cmd) : Raft Cmd * (Z * Z * bool) :=
  let index := getLastLogEntryIndex rf + 1 in
  let term := currentTerm rf in
  let isLeader := bool_decide (status rf = Leader) in
  if decide (status rf ≠ Leader) then (rf, (index, term, isLeader))
  else (persist (appendToLogEntries command rf), (index, term, isLeader)).

(** ** Receiver *)

(** The Boolean result tells [AppendEntries] whether to apply. *)
Definition AppendEntriesWithLock (env : Env) (args : AppendEntriesArgs Cmd) (rf : Raft Cmd)
    : Res (Raft Cmd * AppendEntriesReply * bool) :=
  if decide (currentTerm rf > AE_Term args)
  then Ok (rf, mkAppendEntriesReply (currentTerm rf) false false 0, false)
  else
    let rf := becomeFollower env (AE_Term args) (-1) rf in
    let rf := persist rf in
    if decide (AE_PrevLogIndex args < snapshotEntriesAmount rf - 1)
    then Ok (rf, mkAppendEntriesReply (currentTerm rf) false true (snapshotEntriesAmount rf), false)
    else if decide (AE_PrevLogIndex args > getLastLogEntryIndex rf)
    then Ok (rf, mkAppendEntriesReply (currentTerm rf) false false 0, false)
    else
      matches ← logMatches (AE_PrevLogTerm args) (AE_PrevLogIndex args) rf;
      if negb matches
      then Ok (rf, mkAppendEntriesReply (currentTerm rf) false false 0, false)
      else
        rf ← removeLogFromIndex (AE_PrevLogIndex args) rf;
        let rf := appendEntries (AE_Entries args) rf in
        let reply := mkAppendEntriesReply (currentTerm rf) true false 0 in
        let rf := if decide (commitIndex rf < AE_LeaderCommit args)
                  then rf <| commitIndex := AE_LeaderCommit args |> else rf in
        let rf := persist rf in
        _ ← getLastLogEntryTerm rf;
        Ok (rf, reply, true).

(** ** Sender *)

Definition createAppendEntriesArgs (server : nat) (rf : Raft Cmd) : Res (AppendEntriesArgs Cmd) :=
  next ← go_index (nextIndex rf) (Z.of_nat server);
  let prev := getLogIndexBeforeIndex next in
  prevTerm ← getLogTermAtIndex prev rf;
  entries ← getLogEntryStartingAt (prev + 1) rf;
  Ok (mkAppendEntriesArgs (currentTerm rf) (me rf) prev prevTerm entries (commitIndex rf)).

(** [handleSendAppendEntries] up to the RPC: the request to send, if any,
    and the goroutines started. *)
Definition sendAppendEntriesPre (server : nat) (rf : Raft Cmd)
    : Res (Raft Cmd * option (AppendEntriesArgs Cmd) * list Spawn) :=
  next ← go_index (nextIndex rf) (Z.of_nat server);
  if decide (next < snapshotEntriesAmount rf) then
    ni ← go_store (nextIndex rf) (Z.of_nat server) (snapshotEntriesAmount rf);
    Ok (rf <| nextIndex := ni |>, None, [GoSendInstallSnapshot server])
  else if decide (status rf ≠ Leader) then Ok (rf, None, [])
  else
    args ← createAppendEntriesArgs server rf;
    Ok (rf, Some args, []).

(** The loop that moves back to the first entry of a term.  It only moves
    while [preCurIndex > 1], so [Z.to_nat preCurIndex] iterations suffice
    ([backoff_terminates]). *)
Fixpoint backoff (fuel : nat) (curTerm preCurIndex : Z) (rf : Raft Cmd) : Res (option Z) :=
  match fuel with
  | O => Ok None
  | S fuel' =>
    if decide (preCurIndex > 1 ∧ preCurIndex > snapshotEntriesAmount rf) then
      e ← getLogEntryAtIndex preCurIndex rf;
      if decide (Term e = curTerm) then backoff fuel' curTerm (preCurIndex - 1) rf
      else Ok (Some preCurIndex)
    else Ok (Some preCurIndex)
  end.

(** The last branch of [handleSendAppendEntries]: the follower refused. *)
Definition refused (server : nat) (rf : Raft Cmd) : Res (Raft Cmd * list Spawn) :=
  next ← go_index (nextIndex rf) (Z.of_nat server);
  let next := next - 1 in
  let next := if decide (next < snapshotEntriesAmount rf) then snapshotEntriesAmount rf else next in
  let next := if decide (next < 1) then 1 else next in
  let preCurIndex := next - 1 in
  curTerm ← getLogTermAtIndex preCurIndex rf;
  stop ← backoff (S (Z.to_nat preCurIndex)) curTerm preCurIndex rf;
  let next := default preCurIndex stop + 1 in
  ni ← go_store (nextIndex rf) (Z.of_nat server) next;
  Ok (rf <| nextIndex := ni |>,
      if decide (next ≤ snapshotEntriesAmount rf ∧ snapshotEntriesAmount rf > 0)
      then [GoSendInstallSnapshot server] else []).

(** [handleSendAppendEntries] after the RPC.  The Boolean result tells
    whether [commitToApplyChannel] runs next. *)
Definition sendAppendEntriesPost (env : Env) (server : nat) (args : AppendEntriesArgs Cmd)
    (ok : bool) (reply : AppendEntriesReply) (rf : Raft Cmd)
    : Res (Raft Cmd * list Spawn * bool) :=
  if negb ok then Ok (rf, [], false)
  else if decide (status rf ≠ Leader) then Ok (rf, [], false)
  else if AER_Success reply then
    let match_ := AE_PrevLogIndex args + zlen (AE_Entries args) in
    ni ← go_store (nextIndex rf) (Z.of_nat server) (match_ + 1);
    mi ← go_store (matchIndex rf) (Z.of_nat server) match_;
    rf ← leaderUpdateCommit (rf <| nextIndex := ni |> <| matchIndex := mi |>);
    Ok (rf, [], true)
  else if AER_InSnapshot reply then
    ni ← go_store (nextIndex rf) (Z.of_nat server) (AER_SnapshotAmount reply);
    Ok (rf <| nextIndex := ni |>, [], false)
  else if decide (currentTerm rf < AER_Term reply)
  then Ok (becomeFollower env (AER_Term reply) (-1) rf, [], false)
  else
    '(rf, spawned) ← refused server rf;
    Ok (rf, spawned, false).

(** ** The handler as a table over the full log *)

(** The consistency check: the term is not behind, the previous entry is
    in the uncompacted part (or is the last compacted one) and agrees. *)
Definition consistent L args rf : bool :=
  bool_decide (snapshotEntriesAmount rf - 1 ≤ AE_PrevLogIndex args < zlen L) &&
  bool_decide (term_before L (Z.to_nat (AE_PrevLogIndex args + 1)) = AE_PrevLogTerm args).

(** The full log after an accepted request. *)
Definition replace_suffix L args : list (LogEntity Cmd) :=
  take (Z.to_nat (AE_PrevLogIndex args + 1)) L ++ AE_Entries args.

(** The peer after an accepted request. *)
Definition accepted env args rf : Raft Cmd :=
  let keep := Z.to_nat (AE_PrevLogIndex args + 1 - snapshotEntriesAmount rf) in
  persist ((becomeFollower env (AE_Term args) (-1) rf)
    <| logs := take keep (logs rf) ++ AE_Entries args |>
    <| commitIndex := Z.max (commitIndex rf) (AE_LeaderCommit args) |>).

Definition AppendEntries_table env L args rf : Raft Cmd * AppendEntriesReply * bool :=
  if decide (AE_Term args < currentTerm rf)
  then (rf, mkAppendEntriesReply (currentTerm rf) false false 0, false)
  else
    let follow := becomeFollower env (AE_Term args) (-1) rf in
    if consistent L args rf
    then (accepted env args rf, mkAppendEntriesReply (AE_Term args) true false 0, true)
    else if decide (AE_PrevLogIndex args < snapshotEntriesAmount rf - 1)
    then (follow, mkAppendEntriesReply (AE_Term args) false true (snapshotEntriesAmount rf), false)
    else (follow, mkAppendEntriesReply (AE_Term args) false false 0, false).

Lemma persist_becomeFollower env t v rf :
  persist (becomeFollower env t v rf) = becomeFollower env t v rf.
Proof. by destruct rf as [? []]. Qed.

Lemma becomeFollower_rep env t v L rf : rep L rf → rep L (becomeFollower env t v rf).
Proof. by apply rep_same_log. Qed.

Lemma accepted_rep env L args rf :
  rep L rf → 0 ≤ AE_PrevLogIndex args → consistent L args rf = true →
  rep (replace_suffix L args) (accepted env args rf).
Proof.
  intros R Hpos Hcon. apply andb_prop in Hcon as [Hr%bool_decide_eq_true_1 _].
  destruct (removeLogFromIndex_rep L rf (AE_PrevLogIndex args) R Hr Hpos) as [_ R'].
  eapply rep_same_log; [|apply (appendEntries_rep _ _ (AE_Entries args) R')].
  done.
Qed.

Lemma AppendEntriesWithLock_eq env L args rf :
  rep L rf → 0 ≤ AE_PrevLogIndex args →
  AppendEntriesWithLock env args rf = Ok (AppendEntries_table env L args rf).
Proof.
  intros R Hpos. unfold AppendEntriesWithLock, AppendEntries_table.
  destruct (decide (currentTerm rf > AE_Term args)) as [Ht|Ht];
    destruct (decide (AE_Term args < currentTerm rf)) as [Ht'|Ht']; [done|lia..|].
  cbn zeta. rewrite persist_becomeFollower.
  pose proof (becomeFollower_rep env (AE_Term args) (-1) _ _ R) as Rf.
  assert (snapshotEntriesAmount (becomeFollower env (AE_Term args) (-1) rf) = snapshotEntriesAmount rf) as Es by done.
  assert (currentTerm (becomeFollower env (AE_Term args) (-1) rf) = AE_Term args) as Et by done.
  remember (becomeFollower env (AE_Term args) (-1) rf) as rf1 eqn:Erf1.
  rewrite (rep_last _ _ Rf), Es, Et. unfold consistent.
  destruct (decide (AE_PrevLogIndex args < snapshotEntriesAmount rf - 1)) as [Hs|Hs].
  { by rewrite bool_decide_false by lia. }
  destruct (decide (AE_PrevLogIndex args > zlen L - 1)) as [Hl|Hl].
  { by rewrite bool_decide_false by lia. }
  rewrite (bool_decide_true (_ ≤ _ < _)) by lia.
  rewrite (logMatches_rep L) by (done || lia).
  cbn [mbind Res_bind andb].
  rewrite (bool_decide_ext (AE_PrevLogIndex args = -1 ∨ _)
    (term_before L (Z.to_nat (AE_PrevLogIndex args + 1)) = AE_PrevLogTerm args))
    by (split; [intros [?|?]; [lia|done]|auto]).
  case_bool_decide as Hm; cbn [negb]; [|done].
  destruct (removeLogFromIndex_rep L rf1 (AE_PrevLogIndex args) Rf) as [-> R'];
    [lia|lia|].
  cbn [mbind Res_bind].
  pose proof (appendEntries_rep _ _ (AE_Entries args) R') as R''.
  rewrite (getLastLogEntryTerm_rep (replace_suffix L args))
    by (case_decide; apply rep_persist; (done || (eapply rep_same_log; [|exact R'']; done))).
  cbn [mbind Res_bind]. do 3 f_equal; [|f_equal; exact Et]. unfold accepted. subst rf1.
  case_decide as Hc; unfold appendEntries, becomeFollower, persist in *; raft_simpl.
  - by rewrite Z.max_r by lia.
  - by rewrite Z.max_l by lia.
Qed.

(** Without a previous entry, a request either starts in the compacted part or
    ends the process of a peer that is not ahead of it. *)
Lemma AppendEntriesWithLock_negative env L args rf :
  rep L rf → AE_PrevLogIndex args < 0 →
  (currentTerm rf ≤ AE_Term args → AE_PrevLogIndex args = -1 → snapshotEntriesAmount rf = 0 →
     ∃ why, AppendEntriesWithLock env args rf = Fatal why) ∧
  (AE_Term args < currentTerm rf ∨ AE_PrevLogIndex args < snapshotEntriesAmount rf - 1 →
     AppendEntriesWithLock env args rf = Ok (AppendEntries_table env L args rf)).
Proof.
  intros R Hneg. pose proof (rep_bounds _ _ R). unfold AppendEntriesWithLock, AppendEntries_table. split.
  - intros Ht Hp Hs. rewrite decide_False by lia. cbn zeta. rewrite persist_becomeFollower.
    pose proof (becomeFollower_rep env (AE_Term args) (-1) _ _ R) as Rf.
    assert (snapshotEntriesAmount (becomeFollower env (AE_Term args) (-1) rf) = 0) as Es by exact Hs.
    revert Rf Es. generalize (becomeFollower env (AE_Term args) (-1) rf). intros rf1 Rf Es.
    rewrite (rep_last _ _ Rf), !decide_False by lia.
    rewrite (logMatches_rep L) by (done || lia).
    cbn [mbind Res_bind]. rewrite bool_decide_true by auto. cbn [negb]. unfold removeLogFromIndex.
    rewrite (decide_False (P := AE_PrevLogIndex args + 1 ≠ _)) by lia.
    cbn [mbind Res_bind]. rewrite decide_True by done. by eexists.
  - intros Hc. destruct (decide (AE_Term args < currentTerm rf)).
    { by rewrite decide_True by lia. }
    rewrite decide_False by lia. cbn zeta. rewrite persist_becomeFollower. unfold consistent.
    assert (snapshotEntriesAmount (becomeFollower env (AE_Term args) (-1) rf) = snapshotEntriesAmount rf) as Es by done.
    assert (currentTerm (becomeFollower env (AE_Term args) (-1) rf) = AE_Term args) as Et by done.
    rewrite bool_decide_false by lia. cbn [andb].
    rewrite (decide_True (P := _ < snapshotEntriesAmount rf - 1)) by lia. revert Es Et.
    generalize (becomeFollower env (AE_Term args) (-1) rf). intros rf1 -> ->. by rewrite decide_True by lia.
Qed.

(** ** The request a leader builds *)

Lemma createAppendEntriesArgs_eq L rf server next :
  rep L rf → nextIndex rf !! server = Some next →
  (snapshotEntriesAmount rf ≤ next ≤ zlen L → next ≠ -1 →
    createAppendEntriesArgs server rf =
    Ok (mkAppendEntriesArgs (currentTerm rf) (me rf) (next - 1)
          (term_before L (Z.to_nat next)) (drop (Z.to_nat next) L) (commitIndex rf))) ∧
  (zlen L < next → ∃ why, createAppendEntriesArgs server rf = Fatal why).
Proof.
  intros R Hn. unfold createAppendEntriesArgs, getLogIndexBeforeIndex.
  assert (go_index (nextIndex rf) (Z.of_nat server) = Ok next) as ->
    by (apply go_index_Ok; rewrite Nat2Z.id; split; [lia|done]).
  cbn [mbind Res_bind]. split.
  - intros Hb Hne. rewrite decide_False by done.
    rewrite (proj1 (getLogTermAtIndex_rep L rf (next - 1) R)) by lia.
    cbn [mbind Res_bind]. replace (next - 1 + 1) with next by lia.
    rewrite (proj1 (getLogEntryStartingAt_rep L rf next R)) by lia. done.
  - intros Hb. pose proof (rep_bounds _ _ R). rewrite decide_False by lia.
    destruct (proj2 (getLogTermAtIndex_rep L rf (next - 1) R)) as [why ->]; [lia|].
    by exists why.
Qed.

(** ** The back-off *)

(** The loop returns, at or below where it started; it skipped only entries
    of [curTerm], and stopped at the floor or at an entry of another term. *)
Lemma backoff_spec L rf curTerm fuel p :
  rep L rf → 0 ≤ p < zlen L → p < Z.of_nat fuel →
  ∃ q, backoff fuel curTerm p rf = Ok (Some q) ∧
    q ≤ p ∧ (q = p ∨ 1 ≤ q ∧ snapshotEntriesAmount rf ≤ q) ∧
    (∀ i, q < i ≤ p → ∃ e, L !! Z.to_nat i = Some e ∧ Term e = curTerm) ∧
    (q ≤ 1 ∨ q ≤ snapshotEntriesAmount rf ∨
     ∃ e, L !! Z.to_nat q = Some e ∧ Term e ≠ curTerm).
Proof.
  intros R. revert p. induction fuel as [|fuel IH]; intros p Hp Hf.
  - lia.
  - cbn [backoff]. case_decide as Hgo.
    + destruct (proj1 (getLogEntryAtIndex_rep L rf p R)) as (e & He & ->); [lia|].
      cbn [mbind Res_bind]. case_decide as Ht.
      * destruct (IH (p - 1)) as (q & Hq & Hle & Hlow & Hskip & Hstop); [lia..|].
        exists q. split_and!; [done|lia|lia| |done].
        intros i Hi. destruct (decide (i = p)) as [->|]; [by exists e|apply Hskip; lia].
      * exists p. split_and!; [done|lia|by left|lia|]. right. right. by exists e.
    + exists p. split_and!; [done|lia|by left|lia|lia].
Qed.

(** After a refusal the next index moves down, strictly unless it is at the
    bottom already, and a snapshot goes out when it reaches the compacted
    part.  [next] is the index the request was built with, or a smaller
    one. *)
Lemma refused_spec L rf server next :
  rep L rf → nextIndex rf !! server = Some next → 1 ≤ next ≤ zlen L →
  ∃ next' sp,
    refused server rf =
      Ok (rf <| nextIndex := <[server := next']> (nextIndex rf) |>, sp) ∧
    1 ≤ next' ∧ snapshotEntriesAmount rf ≤ next' ≤ zlen L ∧
    (next' < next ∨ next ≤ Z.max 1 (snapshotEntriesAmount rf)) ∧
    (sp = if decide (next' ≤ snapshotEntriesAmount rf ∧ snapshotEntriesAmount rf > 0)
          then [GoSendInstallSnapshot server] else []).
Proof.
  intros R Hn Hb. pose proof (rep_bounds _ _ R) as Hs. pose proof (rep_length_pos _ _ R).
  pose proof (lookup_lt_Some _ _ _ Hn) as Hlen.
  unfold refused.
  assert (go_index (nextIndex rf) (Z.of_nat server) = Ok next) as ->
    by (apply go_index_Ok; rewrite Nat2Z.id; split; [lia|done]).
  cbn [mbind Res_bind]. cbn zeta.
  set (n1 := if decide (next - 1 < _) then _ else next - 1).
  set (n2 := if decide (n1 < 1) then 1 else n1).
  assert (n2 = Z.max 1 (Z.max (snapshotEntriesAmount rf) (next - 1))) as En2
    by (unfold n2, n1; repeat case_decide; lia).
  clearbody n1 n2. rewrite (proj1 (getLogTermAtIndex_rep L rf (n2 - 1) R)) by lia.
  cbn [mbind Res_bind].
  destruct (backoff_spec L rf (term_before L (Z.to_nat (n2 - 1 + 1)))
    (S (Z.to_nat (n2 - 1))) (n2 - 1)) as (q & -> & Hq & Hlow & _); [done|lia|lia|].
  cbn [mbind Res_bind default from_option id].
  assert (go_store (nextIndex rf) (Z.of_nat server) (q + 1) =
    Ok (<[server := q + 1]> (nextIndex rf))) as ->
    by (apply go_store_Ok; rewrite Nat2Z.id; split; [lia|done]).
  cbn [mbind Res_bind]. eexists _, _. split_and!; [done|lia..|done].
Qed.

(** ** Replication copies the leader's log *)

(** A request built from the leader's log [Ll] at [next], accepted by a
    follower whose log agrees with the leader's below [next], leaves the
    follower with exactly the leader's log. *)
Lemma replicate_copies Ll Lf rl rf server next args :
  rep Ll rl → rep Lf rf →
  nextIndex rl !! server = Some next →
  snapshotEntriesAmount rl ≤ next ≤ zlen Ll → 1 ≤ next →
  createAppendEntriesArgs server rl = Ok args →
  take (Z.to_nat next) Lf = take (Z.to_nat next) Ll →
  replace_suffix Lf args = Ll.
Proof.
  intros Rl Rf Hn Hb Hpos Hargs Hagree.
  rewrite (proj1 (createAppendEntriesArgs_eq Ll rl server next Rl Hn)) in Hargs by lia.
  injection Hargs as <-. unfold replace_suffix. cbn [AE_PrevLogIndex AE_Entries].
  replace (next - 1 + 1) with next by lia.
  rewrite Hagree. apply take_drop.
Qed.

Lemma Start_rep L rf c :
  rep L rf → status rf = Leader →
  rep (L ++ [mkLogEntity (currentTerm rf) c]) (Start c rf).1.
Proof.
  intros R Hl. unfold Start. rewrite decide_False by (intros []; done).
  apply rep_persist, appendToLogEntries_rep, R.
Qed.
(** ** The theorems *)

(** When the handler ends the process: a peer that is not ahead and has
    compacted nothing is sent a request for the whole log. *)
Definition whole_log args rf : Prop :=
  currentTerm rf ≤ AE_Term args ∧ AE_PrevLogIndex args = -1 ∧ snapshotEntriesAmount rf = 0.

(** C3: AppendEntries on every branch, for a peer whose compacted log is well
    formed and any request.  The handler ends the process exactly when the
    term is not behind, the previous index is -1 and nothing is compacted
    ([whole_log]).  Otherwise it succeeds
    exactly when the term is not behind and the previous entry matches; then
    the log is the old one up to the previous entry followed by the entries
    of the request, and the commit index the larger of the two; a refused
    request leaves log and commit index alone, and tells the sender exactly
    when the previous entry is in the compacted part; a request that is not
    behind makes the peer a follower of its term that has not voted, one that
    is behind changes nothing; the reply carries the peer's term. *)
Theorem AppendEntries_decides env L args rf :
  rep L rf →
  (whole_log args rf → ∃ why, AppendEntriesWithLock env args rf = Fatal why) ∧
  (¬ whole_log args rf →
  ∃ rf' reply apply, AppendEntriesWithLock env args rf = Ok (rf', reply, apply) ∧
    (AER_Success reply = true ↔ currentTerm rf ≤ AE_Term args ∧ consistent L args rf = true) ∧
    (AER_InSnapshot reply = true ↔
       currentTerm rf ≤ AE_Term args ∧ AE_PrevLogIndex args < snapshotEntriesAmount rf - 1) ∧
    AER_Term reply = currentTerm rf' ∧ apply = AER_Success reply ∧
    (AER_Success reply = true →
       rep (take (Z.to_nat (AE_PrevLogIndex args + 1)) L ++ AE_Entries args) rf' ∧
       commitIndex rf' = Z.max (commitIndex rf) (AE_LeaderCommit args)) ∧
    (AER_Success reply = false → rep L rf' ∧ commitIndex rf' = commitIndex rf) ∧
    (currentTerm rf ≤ AE_Term args →
       currentTerm rf' = AE_Term args ∧ status rf' = Follower ∧ votedFor rf' = -1) ∧
    (AE_Term args < currentTerm rf → rf' = rf)).
Proof.
  intros R. split.
  { intros (Ht & Hp & Hs). apply (AppendEntriesWithLock_negative env L); [done|lia|done..]. }
  intros Hw. pose proof (rep_bounds _ _ R).
  assert (AppendEntriesWithLock env args rf = Ok (AppendEntries_table env L args rf)) as ->.
  { destruct (decide (0 ≤ AE_PrevLogIndex args)); [by apply AppendEntriesWithLock_eq|].
    apply AppendEntriesWithLock_negative; [done|lia|]. unfold whole_log in Hw. lia. }
  pose proof (becomeFollower_rep env (AE_Term args) (-1) _ _ R) as Rf.
  pose proof (accepted_rep env L args rf R) as Ra.
  unfold AppendEntries_table. case_decide as Ht.
  { eexists _, _, _. split; [done|]. cbn. split_and!; done || lia. }
  destruct (consistent L args rf) eqn:Hc.
  - assert (snapshotEntriesAmount rf - 1 ≤ AE_PrevLogIndex args) as Hi.
    { apply andb_prop in Hc as [Hc%bool_decide_eq_true _]. lia. }
    eexists _, _, _. split; [done|]. cbn. unfold replace_suffix in Ra. unfold whole_log in Hw.
    specialize (Ra ltac:(lia) eq_refl). split_and!; naive_solver lia.
  - case_decide; eexists _, _, _; (split; [done|]); cbn; split_and!; naive_solver lia.
Qed.

(** The back-off after a refusal ends, and makes progress: the next index
    stays in range, goes strictly down unless it is at the bottom (1, or the
    first entry that is not compacted) already, and a snapshot is sent
    exactly when it has reached the compacted part. *)
Theorem refused_makes_progress L rf server next :
  rep L rf → nextIndex rf !! server = Some next → 1 ≤ next ≤ zlen L →
  ∃ next' sp,
    refused server rf =
      Ok (rf <| nextIndex := <[server := next']> (nextIndex rf) |>, sp) ∧
    1 ≤ next' ∧ snapshotEntriesAmount rf ≤ next' ≤ zlen L ∧
    (next' < next ∨ next ≤ Z.max 1 (snapshotEntriesAmount rf)) ∧
    (sp = if decide (next' ≤ snapshotEntriesAmount rf ∧ snapshotEntriesAmount rf > 0)
          then [GoSendInstallSnapshot server] else []).
Proof. apply refused_spec. Qed.

(** C25: one round of replication.  Let a follower be at most in the leader's
    term, let its log agree with the leader's below its next index [next], let
    [next] be at least 1 and at most the length of the leader's log, and let
    neither of the two have compacted an entry at [next] or behind it.  Then
    the request the leader builds for it is accepted, and leaves the follower
    with exactly the leader's log. *)
Theorem replication_copies_leader_log env Ll Lf rl rf server next :
  rep Ll rl → rep Lf rf → status rl = Leader →
  nextIndex rl !! server = Some next →
  1 ≤ next ≤ zlen Ll → snapshotEntriesAmount rl ≤ next → snapshotEntriesAmount rf ≤ next →
  currentTerm rf ≤ currentTerm rl →
  take (Z.to_nat next) Lf = take (Z.to_nat next) Ll →
  ∃ args rf' reply,
    sendAppendEntriesPre server rl = Ok (rl, Some args, []) ∧
    AppendEntriesWithLock env args rf = Ok (rf', reply, true) ∧
    AER_Success reply = true ∧ rep Ll rf'.
Proof.
  intros Rl Rf Hl Hn Hb Hsl Hsf Ht Hagree.
  pose proof (proj1 (createAppendEntriesArgs_eq Ll rl server next Rl Hn)) as Hargs.
  specialize (Hargs ltac:(lia) ltac:(lia)).
  match type of Hargs with _ = Ok ?a => set (args := a) in * end.
  assert (Z.to_nat next ≤ length Lf)%nat as Hlf.
  { apply (f_equal length) in Hagree. rewrite !length_take in Hagree. lia. }
  assert (consistent Lf args rf = true) as Hcon.
  { unfold consistent, args. cbn. replace (next - 1 + 1) with next by lia.
    apply andb_true_intro. split; apply bool_decide_eq_true; [lia|].
    rewrite <- (term_before_take Lf (Z.to_nat next)) by lia.
    rewrite <- (term_before_take Ll (Z.to_nat next)) by lia. by rewrite Hagree. }
  pose proof (accepted_rep env Lf args rf Rf ltac:(cbn; lia) Hcon) as Ra.
  rewrite (replicate_copies Ll Lf rl rf server next args) in Ra by done || lia.
  exists args, (accepted env args rf), (mkAppendEntriesReply (AE_Term args) true false 0).
  split_and!; [..|done|done].
  - unfold sendAppendEntriesPre.
    assert (go_index (nextIndex rl) (Z.of_nat server) = Ok next) as ->
      by (apply go_index_Ok; rewrite Nat2Z.id; split; [lia|done]).
    cbn [mbind Res_bind]. rewrite decide_False by lia.
    rewrite decide_False by (intros []; done). by rewrite Hargs.
  - rewrite (AppendEntriesWithLock_eq _ Lf) by (done || (cbn; lia)).
    unfold AppendEntries_table. rewrite decide_False by (cbn; lia). by rewrite Hcon.
Qed.
End raft_append.

Lemma AppendEntries_decides_witness :
  ∃ rf' reply apply,
    AppendEntriesWithLock (mkEnv 0 0) (mkAppendEntriesArgs 6 1 2 4 [] 2) (samplePeer 7) =
    Ok (rf', reply, apply) ∧
    (AER_Success reply = true ↔ 5 ≤ 6 ∧
     consistent sampleLog (mkAppendEntriesArgs 6 1 2 4 [] 2) (samplePeer 7) = true).
Proof.
  destruct (proj2 (AppendEntries_decides (mkEnv 0 0) sampleLog (mkAppendEntriesArgs 6 1 2 4 [] 2)
    (samplePeer 7) sample_rep)) as (rf' & reply & apply & H1 & H2 & _).
  - intros (_ & Hp & _). discriminate Hp.
  - exists rf', reply, apply. exact (conj H1 H2).
Defined.

Lemma refused_makes_progress_witness :
  ∃ next' sp, refused 0 (samplePeer 7) =
    Ok ((samplePeer 7) <| nextIndex := <[0%nat := next']> [4; 2; 4] |>, sp) ∧ 1 ≤ next'.
Proof.
  destruct (refused_makes_progress sampleLog (samplePeer 7) 0 4 sample_rep) as
    (n & sp & H1 & H2 & _).
  - reflexivity.
  - split; vm_compute; discriminate.
  - exists n, sp. exact (conj H1 H2).
Defined.

Lemma replication_copies_leader_log_witness :
  ∃ args rf' reply,
    sendAppendEntriesPre 1 (samplePeer 7) = Ok (samplePeer 7, Some args, []) ∧
    AppendEntriesWithLock (mkEnv 0 0) args (samplePeer 7) = Ok (rf', reply, true) ∧
    AER_Success reply = true ∧ rep sampleLog rf'.
Proof.
  apply (replication_copies_leader_log (mkEnv 0 0) sampleLog sampleLog (samplePeer 7)
    (samplePeer 7) 1 2 sample_rep sample_rep);
    first [reflexivity | vm_compute; discriminate | split; vm_compute; discriminate].
Defined.
