(* ===== verification/RaftSnapshot.v ===== *)
(** * Snapshots (code/src/raft/installSnapshot.go)

    [Snapshot] compacts the log on the service's order; the InstallSnapshot
    RPC sends a leader's snapshot to a follower that is too far behind. *)

From S2P Require Import Prelude Gob Persister RaftState RaftLog RaftCommit RaftAppend.
Open Scope Z_scope.

Record InstallSnapshotArgs := mkInstallSnapshotArgs {
  IS_Term : Z;
  IS_LeaderId : Z;
  IS_LastIncludedIndex : Z;
  IS_LastIncludedTerm : Z;
  IS_Data : bytes;
}.

Record InstallSnapshotReply := mkInstallSnapshotReply { ISR_Term : Z }.

Section raft_snapshot.
Context {Cmd : Type} `{!LabGob (PersistData Cmd)}.
Implicit Types (rf : Raft Cmd) (L : list (LogEntity Cmd)).

(** ** The operations *)

(** The whole body of the function is commented out. *)
Definition CondInstallSnapshot (lastIncludedTerm lastIncludedIndex : Z)
    (snapshot : bytes) (rf : Raft Cmd) : bool := true.

Definition SnapshotAt (index : Z) (snapshot : bytes) (rf : Raft Cmd) : Res (Raft Cmd) :=
  if decide (snapshotEntriesAmount rf - 1 >= index ∨ index > commitIndex rf) then Ok rf
  else
    e ← getLogEntryAtIndex index rf;
    let rf := rf <| lastSnapshotTerm := Term e |> in
    l ← getLogEntryStartingAt (index + 1) rf;
    let rf := rf <| logs := l |> in
    let rf := rf <| snapshotEntriesAmount := index + 1 |> in
    let rf := if decide (index > lastApplied rf) then rf <| lastApplied := index |> else rf in
    Ok (persistAndSnapshot snapshot rf).

(** The Boolean tells whether the snapshot was installed; the message is
    built but [InstallSnapshot] drops it. *)
Definition InstallSnapshotLocked (env : Env) (args : InstallSnapshotArgs) (rf : Raft Cmd)
    : Res (Raft Cmd * InstallSnapshotReply * bool) :=
  if decide (IS_Term args < currentTerm rf)
  then Ok (rf, mkInstallSnapshotReply (currentTerm rf), false)
  else
    let rf := becomeFollower env (IS_Term args) (-1) rf in
    let rf := persist rf in
    let reply := mkInstallSnapshotReply (currentTerm rf) in
    if decide (snapshotEntriesAmount rf > IS_LastIncludedIndex args)
    then Ok (rf, reply, false)
    else
      let rf := rf <| lastSnapshotTerm := IS_LastIncludedTerm args |> in
      l ← getLogEntryStartingAt (IS_LastIncludedIndex args + 1) rf;
      let rf := rf <| logs := l |> in
      let rf := rf <| snapshotEntriesAmount := IS_LastIncludedIndex args + 1 |> in
      Ok (persistAndSnapshot (IS_Data args) rf, reply, true).

Definition createInstallSnapshotArgs (rf : Raft Cmd) : InstallSnapshotArgs := {|
  IS_Term := currentTerm rf;
  IS_LeaderId := me rf;
  IS_LastIncludedIndex := snapshotEntriesAmount rf - 1;
  IS_LastIncludedTerm := lastSnapshotTerm rf;
  IS_Data := ReadSnapshot (persister rf);
|}.

(** [handleSendInstallSnapshot] after the RPC.  The indices are written in
    the branch where the call failed. *)
Definition sendInstallSnapshotPost (env : Env) (server : nat) (args : InstallSnapshotArgs)
    (ok : bool) (reply : InstallSnapshotReply) (rf : Raft Cmd) : Res (Raft Cmd) :=
  if ok then
    Ok (if decide (currentTerm rf < ISR_Term reply)
        then becomeFollower env (ISR_Term reply) (-1) rf else rf)
  else
    ni ← go_store (nextIndex rf) (Z.of_nat server) (IS_LastIncludedIndex args + 1);
    mi ← go_store (matchIndex rf) (Z.of_nat server) (IS_LastIncludedIndex args);
    Ok (rf <| nextIndex := ni |> <| matchIndex := mi |>).

(** ** Compaction keeps the full log *)

Definition compacted (index : Z) (snapshot : bytes) L rf : Raft Cmd :=
  persistAndSnapshot snapshot
    (rf <| lastSnapshotTerm := term_before L (Z.to_nat (index + 1)) |>
        <| logs := drop (Z.to_nat (index + 1)) L |>
        <| snapshotEntriesAmount := index + 1 |>
        <| lastApplied := Z.max (lastApplied rf) index |>).

Lemma SnapshotAt_eq L rf index snapshot :
  rep L rf →
  (snapshotEntriesAmount rf ≤ index ≤ commitIndex rf → index < zlen L →
     SnapshotAt index snapshot rf = Ok (compacted index snapshot L rf) ∧
     rep L (compacted index snapshot L rf)) ∧
  (index < snapshotEntriesAmount rf ∨ commitIndex rf < index →
     SnapshotAt index snapshot rf = Ok rf) ∧
  (snapshotEntriesAmount rf ≤ index ≤ commitIndex rf → zlen L ≤ index →
     ∃ why, SnapshotAt index snapshot rf = Fatal why).
Proof.
  intros R. pose proof (rep_bounds _ _ R) as Hb. unfold SnapshotAt. split_and!.
  - intros Hi HL. rewrite decide_False by lia.
    destruct (proj1 (getLogEntryAtIndex_rep L rf index R)) as (e & He & ->); [lia|].
    cbn [mbind Res_bind].
    assert (getLogEntryStartingAt (index + 1) (rf <| lastSnapshotTerm := Term e |>) =
            Ok (drop (Z.to_nat (index + 1)) L)) as ->.
    { change (getLogEntryStartingAt (index + 1) rf = Ok (drop (Z.to_nat (index + 1)) L)).
      apply (getLogEntryStartingAt_rep L rf); [done|lia]. }
    cbn [mbind Res_bind]. split.
    + f_equal. unfold compacted. f_equal.
      rewrite (term_before_lookup L index e) by (done || lia).
      case_decide; raft_simpl; [by rewrite Z.max_r by lia|rewrite Z.max_l by lia].
      by destruct rf.
    + eapply rep_same_log; [|apply (compact_rep L rf (index + 1) R); lia]. done.
  - intros Hi. by rewrite decide_True by lia.
  - intros Hi HL. rewrite decide_False by lia.
    destruct (proj2 (getLogEntryAtIndex_rep L rf index R)) as [why ->]; [lia|].
    by exists why.
Qed.

(** ** Installing a leader's snapshot *)

(** The peer's full log when the installed snapshot covers the entries
    [Ls]: the snapshot, then whatever the peer held behind it. *)
Definition install_suffix Ls L : list (LogEntity Cmd) := Ls ++ drop (length Ls) L.

Definition installed env args (L : list (LogEntity Cmd)) rf : Raft Cmd :=
  persistAndSnapshot (IS_Data args)
    ((becomeFollower env (IS_Term args) (-1) rf)
      <| lastSnapshotTerm := IS_LastIncludedTerm args |>
      <| logs := drop (Z.to_nat (IS_LastIncludedIndex args + 1)) L |>
      <| snapshotEntriesAmount := IS_LastIncludedIndex args + 1 |>).

Lemma InstallSnapshotLocked_eq env L args rf :
  rep L rf →
  InstallSnapshotLocked env args rf =
  Ok (if decide (IS_Term args < currentTerm rf)
      then (rf, mkInstallSnapshotReply (currentTerm rf), false)
      else if decide (snapshotEntriesAmount rf > IS_LastIncludedIndex args)
      then (becomeFollower env (IS_Term args) (-1) rf,
            mkInstallSnapshotReply (IS_Term args), false)
      else (installed env args L rf, mkInstallSnapshotReply (IS_Term args), true)).
Proof.
  intros R. pose proof (rep_bounds _ _ R) as Hb. unfold InstallSnapshotLocked.
  destruct (decide (IS_Term args < _)); [done|]. cbn zeta.
  rewrite persist_becomeFollower. unfold installed.
  assert (snapshotEntriesAmount (becomeFollower env (IS_Term args) (-1) rf) = snapshotEntriesAmount rf) as Es by done.
  assert (currentTerm (becomeFollower env (IS_Term args) (-1) rf) = IS_Term args) as Et by done.
  assert (logs (becomeFollower env (IS_Term args) (-1) rf) = logs rf) as El by done.
  revert Es Et El. generalize (becomeFollower env (IS_Term args) (-1) rf). intros rf2 Es Et El. rewrite Es, Et.
  destruct (decide (snapshotEntriesAmount rf > _)); [done|].
  assert (∀ rf1, logs rf1 = logs rf → snapshotEntriesAmount rf1 = snapshotEntriesAmount rf →
    getLogEntryStartingAt (IS_LastIncludedIndex args + 1) rf1 =
    Ok (drop (Z.to_nat (IS_LastIncludedIndex args + 1)) L)) as E.
  { intros rf1 El1 Es1. rewrite <- (proj1 (getLogEntryStartingAt_rep L rf (IS_LastIncludedIndex args + 1) R)) by lia.
    unfold getLogEntryStartingAt, logIndexCheck, getOffsetIndex, getLastLogEntryIndex. by rewrite El1, Es1. }
  by rewrite E by (cbn; by rewrite ?El, ?Es).
Qed.

Lemma installed_rep env L Ls args rf :
  rep L rf → Ls ≠ [] →
  IS_LastIncludedIndex args = zlen Ls - 1 →
  IS_LastIncludedTerm args = term_before Ls (length Ls) →
  rep (install_suffix Ls L) (installed env args L rf).
Proof.
  intros R Hne Hi Ht. unfold installed, install_suffix.
  assert (0 < zlen Ls) by (destruct Ls; [done|cbn; lia]).
  split; unfold persistAndSnapshot; raft_simpl.
  - by destruct Ls.
  - rewrite length_app. lia.
  - rewrite Hi. replace (Z.to_nat (zlen Ls - 1 + 1)) with (length Ls) by lia.
    by rewrite drop_app_length.
  - rewrite Ht, Hi. replace (Z.to_nat (zlen Ls - 1 + 1)) with (length Ls) by lia.
    by rewrite term_before_app by lia.
Qed.
(** ** The theorems *)

(** Compaction.  For an index that is committed, in the log and not
    compacted yet, [Snapshot] drops the entries up to it, keeps the full log
    and the committed prefix, marks the entry applied, and saves state and
    snapshot together; for any other index that is behind the snapshot or
    not committed it does nothing. *)
Theorem Snapshot_keeps_log L rf index snapshot :
  rep L rf → index < zlen L →
  ∃ rf', SnapshotAt index snapshot rf = Ok rf' ∧ rep L rf' ∧
    commitIndex rf' = commitIndex rf ∧ currentTerm rf' = currentTerm rf ∧
    votedFor rf' = votedFor rf ∧
    (snapshotEntriesAmount rf ≤ index ≤ commitIndex rf →
       snapshotEntriesAmount rf' = index + 1 ∧
       lastApplied rf' = Z.max (lastApplied rf) index ∧
       ReadSnapshot (persister rf') = snapshot ∧
       ReadRaftState (persister rf') = getPersistData rf') ∧
    (¬ snapshotEntriesAmount rf ≤ index ≤ commitIndex rf → rf' = rf).
Proof.
  intros R HL. destruct (SnapshotAt_eq L rf index snapshot R) as (H1 & H2 & _).
  destruct (decide (snapshotEntriesAmount rf ≤ index ≤ commitIndex rf)) as [Hi|Hi].
  - destruct (H1 Hi HL) as [-> R']. exists (compacted index snapshot L rf). by split_and!.
  - rewrite H2 by lia. exists rf. by split_and!.
Qed.

(** C26: catching up.  The snapshot a leader sends, installed by a follower
    whose own snapshot is shorter, leaves the follower with the leader's
    compacted prefix (followed by what the follower held behind it) and the
    leader's snapshot on stable storage. *)
Theorem InstallSnapshot_copies_prefix env Ll Lf rl rf :
  rep Ll rl → rep Lf rf →
  snapshotEntriesAmount rf < snapshotEntriesAmount rl →
  currentTerm rf ≤ currentTerm rl →
  ∃ rf' reply,
    InstallSnapshotLocked env (createInstallSnapshotArgs rl) rf = Ok (rf', reply, true) ∧
    rep (take (Z.to_nat (snapshotEntriesAmount rl)) Ll ++
         drop (Z.to_nat (snapshotEntriesAmount rl)) Lf) rf' ∧
    snapshotEntriesAmount rf' = snapshotEntriesAmount rl ∧
    ReadSnapshot (persister rf') = ReadSnapshot (persister rl) ∧
    currentTerm rf' = currentTerm rl.
Proof.
  intros Rl Rf Hs Ht. pose proof (rep_bounds _ _ Rl). pose proof (rep_bounds _ _ Rf).
  rewrite (InstallSnapshotLocked_eq _ Lf) by done. cbn.
  rewrite decide_False, decide_False by lia.
  eexists _, _. split; [done|]. split_and!; [|cbn; lia|done|done].
  set (k := Z.to_nat (snapshotEntriesAmount rl)).
  assert (length (take k Ll) = k) as Hk by (rewrite length_take; lia).
  replace (drop k Lf) with (drop (length (take k Ll)) Lf) by by rewrite Hk.
  apply (installed_rep env Lf (take k Ll)); [done|..].
  - intros E. rewrite E in Hk. cbn in Hk. lia.
  - cbn. lia.
  - cbn. rewrite Hk, term_before_take by lia. apply (rep_term _ _ Rl).
Qed.
End raft_snapshot.

Lemma Snapshot_keeps_log_witness :
  ∃ rf', SnapshotAt 2 [] ((samplePeer 7) <| commitIndex := 3 |>) = Ok rf' ∧ rep sampleLog rf'.
Proof.
  destruct (Snapshot_keeps_log sampleLog ((samplePeer 7) <| commitIndex := 3 |>) 2 [])
    as (rf' & H1 & H2 & _).
  - split; cbn; [discriminate|lia|reflexivity|reflexivity].
  - reflexivity.
  - exists rf'. exact (conj H1 H2).
Defined.

Lemma InstallSnapshot_copies_prefix_witness :
  ∃ rf' reply,
    InstallSnapshotLocked (mkEnv 0 0) (createInstallSnapshotArgs (samplePeer 7))
      (freshRaft (Cmd := Z) 3 1 MakePersister (mkEnv 0 0)) = Ok (rf', reply, true) ∧
    snapshotEntriesAmount rf' = 2.
Proof.
  destruct (InstallSnapshot_copies_prefix (mkEnv 0 0) sampleLog [fillerEntry] (samplePeer 7)
    (freshRaft 3 1 MakePersister (mkEnv 0 0)) sample_rep) as (rf' & reply & H1 & _ & H2 & _).
  - split; cbn; [discriminate|lia|reflexivity|reflexivity].
  - reflexivity.
  - vm_compute. discriminate.
  - exists rf', reply. exact (conj H1 H2).
Defined.
