(* ===== verification/RaftNode.v ===== *)
(** * One Raft peer as a state machine

    Everything that changes a peer happens in a critical section under
    [rf.mu].  [Event] lists those critical sections with their inputs and
    [run_event] runs one; an RPC argument or reply is arbitrary here, so what
    this file proves holds whatever the network and the other peers do.

    [effect] classifies what a critical section can do to the peer
    ([run_event_effect]); the invariants of the peer are then proved by cases
    on it. *)

From S2P Require Import Prelude Gob Persister RaftState RaftLog RaftVote RaftCommit RaftAppend RaftSnapshot.
Open Scope Z_scope.

Inductive Event (Cmd : Type) :=
  | EvTick
  | EvStart (command : Iface Cmd)
  | EvRequestVote (args : RequestVoteArgs)
  | EvRequestVoteReply (ok : bool) (reply : RequestVoteReply)
  | EvSendAppendEntries (server : nat)
  | EvAppendEntries (args : AppendEntriesArgs Cmd)
  | EvAppendEntriesReply (server : nat) (args : AppendEntriesArgs Cmd) (ok : bool)
      (reply : AppendEntriesReply)
  | EvApply
  | EvSnapshot (index : Z) (snapshot : bytes)
  | EvInstallSnapshot (args : InstallSnapshotArgs)
  | EvInstallSnapshotReply (server : nat) (args : InstallSnapshotArgs) (ok : bool)
      (reply : InstallSnapshotReply)
  | EvKill.
Arguments EvTick {Cmd}.
Arguments EvStart {Cmd}.
Arguments EvRequestVote {Cmd}.
Arguments EvRequestVoteReply {Cmd}.
Arguments EvSendAppendEntries {Cmd}.
Arguments EvAppendEntries {Cmd}.
Arguments EvAppendEntriesReply {Cmd}.
Arguments EvApply {Cmd}.
Arguments EvSnapshot {Cmd}.
Arguments EvInstallSnapshot {Cmd}.
Arguments EvInstallSnapshotReply {Cmd}.
Arguments EvKill {Cmd}.

Section raft_node.
Context {Cmd : Type} `{!LabGob (PersistData Cmd)}.
Implicit Types (rf : Raft Cmd) (L : list (LogEntity Cmd)) (ev : Event Cmd).

Definition run_event (env : Env) (ev : Event Cmd) (rf : Raft Cmd) : Res (Raft Cmd) :=
  match ev with
  | EvTick => Ok (ticker env rf).1
  | EvStart c => Ok (Start c rf).1
  | EvRequestVote args => fst <$> RequestVote env args rf
  | EvRequestVoteReply ok reply => Ok (handleSendRequestVote env ok reply rf).1
  | EvSendAppendEntries server => (λ r, r.1.1) <$> sendAppendEntriesPre server rf
  | EvAppendEntries args => (λ r, r.1.1) <$> AppendEntriesWithLock env args rf
  | EvAppendEntriesReply server args ok reply =>
      (λ r, r.1.1) <$> sendAppendEntriesPost env server args ok reply rf
  | EvApply => fst <$> commitToApplyChannelWithLock rf
  | EvSnapshot index snapshot => SnapshotAt index snapshot rf
  | EvInstallSnapshot args => (λ r, r.1.1) <$> InstallSnapshotLocked env args rf
  | EvInstallSnapshotReply server args ok reply =>
      sendInstallSnapshotPost env server args ok reply rf
  | EvKill => Ok (Kill rf)
  end.

(** ** Effects *)

(** Only volatile bookkeeping changes. *)
Record volatile rf rf' : Prop := {
  vol_me : me rf' = me rf;
  vol_peers : peers rf' = peers rf;
  vol_pdata : pdata rf' = pdata rf;
  vol_persister : persister rf' = persister rf;
  vol_status : status rf' = status rf;
  vol_commit : commitIndex rf ≤ commitIndex rf';
  vol_applied : lastApplied rf' = lastApplied rf;
  vol_next : length (nextIndex rf') = length (nextIndex rf);
  vol_match : length (matchIndex rf') = length (matchIndex rf);
}.

(** How [becomeFollower t v] can be called: for a newer term, or in the
    current term with a vote that respects the rules of [event]. *)
Definition follow_ok ev rf (t v : Z) : Prop :=
  currentTerm rf < t ∨
  (t = currentTerm rf ∧
    match ev with
    | EvRequestVote args =>
        v = RV_CandidateId args ∧
        (votedFor rf = -1 ∨ votedFor rf = v ∨ (votedFor rf = me rf ∧ status rf = Candidate))
    | EvAppendEntries args => v = -1 ∧ AE_Term args = t
    | EvInstallSnapshot args => v = -1 ∧ IS_Term args = t
    | _ => False
    end).

Inductive effect (ev : Event Cmd) L rf : Raft Cmd → Prop :=
  | eff_volatile rf' : volatile rf rf' → effect ev L rf rf'
  | eff_follow env t v : follow_ok ev rf t v → effect ev L rf (becomeFollower env t v rf)
  | eff_candidate env :
      ev = EvTick → status rf ≠ Leader →
      effect ev L rf (becomeCandidate (setNewElectionTime env rf))
  | eff_leader env rf1 reply :
      ev = EvRequestVoteReply true reply → status rf = Candidate →
      rf1 = (if decide (RVR_VoteGranted reply = true ∧ RVR_Term reply = currentTerm rf)
             then gainVote rf else rf) →
      numVoteGathered rf1 > Z.of_nat (peers rf1) / 2 →
      effect ev L rf (becomeLeader env rf1).1
  | eff_start c :
      status rf = Leader → effect ev L rf (persist (appendToLogEntries c rf))
  | eff_accept env args :
      ev = EvAppendEntries args → currentTerm rf ≤ AE_Term args →
      0 ≤ AE_PrevLogIndex args → consistent L args rf = true →
      effect ev L rf (accepted env args rf)
  | eff_apply a msgs :
      ev = EvApply → apply_table L rf = Some (a, msgs) →
      effect ev L rf ((persist rf) <| lastApplied := a |>)
  | eff_compact index snapshot :
      snapshotEntriesAmount rf ≤ index ≤ commitIndex rf → index < zlen L →
      effect ev L rf (compacted index snapshot L rf)
  | eff_install env args :
      ev = EvInstallSnapshot args → currentTerm rf ≤ IS_Term args →
      snapshotEntriesAmount rf ≤ IS_LastIncludedIndex args →
      effect ev L rf (installed env args L rf).

Lemma volatile_refl rf : volatile rf rf.
Proof. by split. Qed.
Hint Resolve volatile_refl : core.

Lemma effect_same ev L rf : effect ev L rf rf.
Proof. by apply eff_volatile. Qed.
Hint Resolve effect_same : core.

Lemma volatile_gainVote rf : volatile rf (gainVote rf).
Proof. unfold gainVote. case_decide; by split. Qed.

Lemma volatile_rep L rf rf' : volatile rf rf' → rep L rf → rep L rf'.
Proof.
  intros Hv. pose proof (vol_pdata _ _ Hv) as E. unfold pdata in E.
  injection E as _ _ ? ? ?. by apply rep_same_log.
Qed.

(** ** Every critical section has one of the effects *)

Ltac volatile_tac :=
  go_inv; apply eff_volatile; split; raft_simpl; rewrite ?length_insert; done || lia.

Lemma RequestVote_effect env args L rf rf' :
  rep L rf → fst <$> RequestVote env args rf = Ok rf' →
  effect (EvRequestVote args) L rf rf'.
Proof.
  intros R H. rewrite (RequestVote_eq _ _ _ _ R) in H. cbn in H. go_inv.
  unfold RequestVote_table, grants.
  destruct (bool_decide (currentTerm rf ≤ RV_Term args)) eqn:Hle; cbn.
  2: { apply bool_decide_eq_false in Hle. rewrite decide_False by lia. auto. }
  apply bool_decide_eq_true in Hle.
  assert (Hlt : currentTerm rf < RV_Term args →
    effect (EvRequestVote args) L rf (becomeFollower env (RV_Term args) (RV_CandidateId args) rf)).
  { intros. apply eff_follow. by left. }
  destruct (up_to_date _ _ _); cbn; [|case_decide; auto].
  case_bool_decide as Hv; cbn; [|case_decide; auto].
  destruct (decide (currentTerm rf < RV_Term args)); [auto|].
  apply eff_follow. right. split; [lia|]. split; [done|].
  destruct Hv as [?|Hv]; [lia|]. naive_solver.
Qed.

Lemma handleSendRequestVote_effect env ok reply L rf :
  effect (EvRequestVoteReply ok reply) L rf (handleSendRequestVote env ok reply rf).1.
Proof.
  unfold handleSendRequestVote. destruct ok; cbn [negb]; [|by apply effect_same].
  case_decide; [apply eff_follow; left; lia|].
  rewrite checkElectionStatus_cases.
  set (rf1 := if RVR_VoteGranted reply then _ else rf).
  assert (rf1 = if decide (RVR_VoteGranted reply = true ∧ RVR_Term reply = currentTerm rf)
                then gainVote rf else rf) as E1.
  { unfold rf1. destruct (RVR_VoteGranted reply); repeat case_decide; naive_solver. }
  assert (volatile rf rf1) as Hv.
  { rewrite E1. case_decide; [apply volatile_gainVote|done]. }
  clearbody rf1. destruct (decide (status rf1 = Candidate ∧ _)) as [[Hc Hm]|_].
  - rewrite (vol_status _ _ Hv) in Hc.
    by eapply eff_leader.
  - by apply eff_volatile.
Qed.

Lemma ticker_effect env L rf : effect EvTick L rf (ticker env rf).1.
Proof.
  unfold ticker. case_match; [done|]. unfold isLeader. case_bool_decide; [done|].
  case_decide; [|done]. by apply eff_candidate.
Qed.

Lemma AppendEntries_effect env args L rf rf' :
  rep L rf → (λ r, r.1.1) <$> AppendEntriesWithLock env args rf = Ok rf' →
  effect (EvAppendEntries args) L rf rf'.
Proof.
  intros R H.
  assert (Hf : currentTerm rf ≤ AE_Term args →
    effect (EvAppendEntries args) L rf (becomeFollower env (AE_Term args) (-1) rf)).
  { intros. apply eff_follow. destruct (decide (currentTerm rf < AE_Term args)); [by left|].
    right. split; [lia|done]. }
  destruct (decide (0 ≤ AE_PrevLogIndex args)) as [Hpos|Hneg].
  - rewrite (AppendEntriesWithLock_eq _ L _ _ R Hpos) in H. cbn in H. go_inv.
    unfold AppendEntries_table. case_decide; [done|].
    destruct (consistent L args rf) eqn:Hc; [by eapply eff_accept; [..|exact Hc]; try done; lia|].
    case_decide; cbn; apply Hf; lia.
  - apply fmap_Ok in H as ([[rf1 reply] b] & H & ->). cbn.
    unfold AppendEntriesWithLock in H.
    case_decide; [by go_inv|]. cbn zeta in H. rewrite persist_becomeFollower in H.
    case_decide as Hs; [go_inv; apply Hf; lia|].
    case_decide as Hl; [go_inv; apply Hf; lia|].
    pose proof (rep_bounds _ _ R) as Hb.
    unfold snapshotEntriesAmount, becomeFollower, persist in Hs. raft_simpl.
    go_inv. case_match; [go_inv; apply Hf; lia|]. go_inv.
    match goal with H : removeLogFromIndex _ _ = Ok _ |- _ => rename H into Hr end.
    unfold removeLogFromIndex in Hr. go_inv. rewrite decide_True in Hr by lia. done.
Qed.

Lemma leaderUpdateCommit_Ok rf rf' :
  leaderUpdateCommit rf = Ok rf' →
  ∃ c, rf' = rf <| commitIndex := c |> ∧ commitIndex rf ≤ c.
Proof.
  unfold leaderUpdateCommit. intros H. go_inv. case_decide; [done|]. go_inv.
  eexists. split; [done|lia].
Qed.

Lemma refused_Ok server rf rf' sp :
  refused server rf = Ok (rf', sp) →
  ∃ n, rf' = rf <| nextIndex := <[server := n]> (nextIndex rf) |>.
Proof.
  unfold refused. intros H. go_inv.
  match goal with H : go_store _ _ _ = Ok _ |- _ => apply go_store_Ok in H as [? ->] end.
  rewrite Nat2Z.id. eauto.
Qed.

Lemma sendAppendEntriesPre_effect server L rf rf' :
  (λ r, r.1.1) <$> sendAppendEntriesPre server rf = Ok rf' →
  effect (EvSendAppendEntries server) L rf rf'.
Proof.
  intros ([[rf1 a] sp] & H & ->)%fmap_Ok. unfold sendAppendEntriesPre in H. go_inv.
  case_decide; [|case_decide]; go_inv; [|by apply effect_same..].
  match goal with H : go_store _ _ _ = Ok _ |- _ => apply go_store_Ok in H as [? ->] end.
  volatile_tac.
Qed.

Lemma sendAppendEntriesPost_effect env server args ok reply L rf rf' :
  (λ r, r.1.1) <$> sendAppendEntriesPost env server args ok reply rf = Ok rf' →
  effect (EvAppendEntriesReply server args ok reply) L rf rf'.
Proof.
  intros ([[rf1 sp] b] & H & ->)%fmap_Ok. unfold sendAppendEntriesPost in H. cbn.
  destruct ok; cbn in H; [|by go_inv; apply effect_same].
  case_decide; [by go_inv; apply effect_same|].
  case_match; [|case_match; [|case_decide]]; go_inv.
  - match goal with H : leaderUpdateCommit _ = Ok _ |- _ =>
      apply leaderUpdateCommit_Ok in H as (c & -> & Hc) end.
    repeat match goal with H : go_store _ _ _ = Ok _ |- _ => apply go_store_Ok in H as [? ->] end.
    volatile_tac.
  - match goal with H : go_store _ _ _ = Ok _ |- _ => apply go_store_Ok in H as [? ->] end.
    volatile_tac.
  - apply eff_follow. by left.
  - match goal with x : prod _ _ |- _ => destruct x as [rf2 sp2] end. go_inv.
    match goal with H : refused _ _ = Ok _ |- _ => apply refused_Ok in H as [n ->] end.
    volatile_tac.
Qed.

Lemma run_event_effect env ev L rf rf' :
  rep L rf → run_event env ev rf = Ok rf' → effect ev L rf rf'.
Proof.
  intros R H. destruct ev as [|c|args|ok reply|server|args|server args ok reply| |index snapshot
    |args|server args ok reply|]; cbn [run_event] in H.
  - go_inv. apply ticker_effect.
  - go_inv. unfold Start. destruct (decide (status rf ≠ Leader)) as [|Hl]; [done|].
    apply eff_start. by apply dec_stable.
  - by eapply RequestVote_effect.
  - go_inv. apply handleSendRequestVote_effect.
  - by apply sendAppendEntriesPre_effect.
  - by eapply AppendEntries_effect.
  - by eapply sendAppendEntriesPost_effect.
  - pose proof (commitToApplyChannelWithLock_eq L rf R) as He.
    destruct (apply_table L rf) as [[a msgs]|] eqn:Ea.
    + rewrite He in H. cbn in H. go_inv. by eapply eff_apply.
    + destruct He as [why He]. by rewrite He in H.
  - destruct (SnapshotAt_eq L rf index snapshot R) as (H1 & H2 & H3).
    destruct (decide (snapshotEntriesAmount rf ≤ index ≤ commitIndex rf)).
    + destruct (decide (index < zlen L)).
      * rewrite (proj1 (H1 ltac:(done) ltac:(done))) in H. go_inv. by apply eff_compact.
      * destruct (H3 ltac:(done) ltac:(lia)) as [why Hw]. by rewrite Hw in H.
    + rewrite H2 in H by lia. go_inv. apply effect_same.
  - rewrite (InstallSnapshotLocked_eq _ L _ _ R) in H. cbn in H. go_inv.
    case_decide; [done|]. case_decide.
    + apply eff_follow. destruct (decide (currentTerm rf < IS_Term args)); [by left|].
      right. split; [lia|done].
    + eapply eff_install; [done|lia..].
  - unfold sendInstallSnapshotPost in H. destruct ok; go_inv.
    + case_decide; [apply eff_follow; by left|done].
    + repeat match goal with H : go_store _ _ _ = Ok _ |- _ => apply go_store_Ok in H as [? ->] end.
      volatile_tac.
  - go_inv. volatile_tac.
Qed.

(** ** The log *)

(** [Ls] is a log up to the last entry a snapshot includes: as long as the
    request says, and ending in an entry of the term it says. *)
Definition covered (args : InstallSnapshotArgs) (Ls : list (LogEntity Cmd)) : Prop :=
  zlen Ls = IS_LastIncludedIndex args + 1 ∧ IS_LastIncludedTerm args = term_before Ls (length Ls).

(** The full log after a critical section that was given the log [L]. *)
Lemma effect_rep ev L rf rf' :
  rep L rf → effect ev L rf rf' →
  rep L rf' ∨
  (∃ c, status rf = Leader ∧ status rf' = Leader ∧ currentTerm rf' = currentTerm rf ∧
     rep (L ++ [mkLogEntity (currentTerm rf) c]) rf') ∨
  (∃ args, ev = EvAppendEntries args ∧ status rf' = Follower ∧
     currentTerm rf ≤ AE_Term args ∧ consistent L args rf = true ∧
     rep (replace_suffix L args) rf') ∨
  (∃ args, ev = EvInstallSnapshot args ∧ status rf' = Follower ∧
     currentTerm rf ≤ IS_Term args ∧
     snapshotEntriesAmount rf ≤ IS_LastIncludedIndex args ∧
     snapshotEntriesAmount rf' = IS_LastIncludedIndex args + 1 ∧
     ∀ Ls, covered args Ls → rep (install_suffix Ls L) rf').
Proof.
  intros R He.
  destruct He as [rf' Hv|env t v Hok|env -> Hs|env rf1 reply -> Hs -> Hm|c Hs
    |env args -> Ht Hpos Hc|a msgs -> Ha|index snapshot Hi HL|env args -> Ht Hi].
  - left. by eapply volatile_rep.
  - left. by apply becomeFollower_rep.
  - left. by apply (rep_same_log L rf).
  - left. eapply rep_same_log; [apply becomeLeader_same_log|].
    case_decide; [eapply volatile_rep; [apply volatile_gainVote|]|]; exact R.
  - right. left. exists c. split_and!; [done..|].
    apply rep_persist, appendToLogEntries_rep, R.
  - right. right. left. exists args. split_and!; [done..|]. by apply accepted_rep.
  - left. eapply rep_same_log; [|exact R]. done.
  - left. eapply (SnapshotAt_eq L rf index snapshot R); lia.
  - right. right. right. pose proof (rep_bounds _ _ R).
    exists args. split_and!; [done..|]. intros Ls [Hlen Hterm].
    apply installed_rep; [done| |lia|done]. intros ->. cbn in Hlen. lia.
Qed.

(** There is a prefix that a snapshot can stand for. *)
Lemma covered_exists args : 0 ≤ IS_LastIncludedIndex args → ∃ Ls, covered args Ls.
Proof.
  intros Hi.
  exists (replicate (S (Z.to_nat (IS_LastIncludedIndex args))) (mkLogEntity (Cmd := Cmd) (IS_LastIncludedTerm args) INil)).
  split; rewrite length_replicate; [lia|]. unfold term_before. by rewrite lookup_replicate_2 by lia.
Qed.

(** A peer is well formed when its compacted log represents some log. *)
Definition wf rf : Prop := ∃ L, rep L rf.

Lemma wf_run_event env ev rf rf' : wf rf → run_event env ev rf = Ok rf' → wf rf'.
Proof.
  intros [L R] H. apply (run_event_effect _ _ L) in H; [|done].
  apply (effect_rep _ L) in H as [?|[(c & _ & _ & _ & ?)|[(args & _ & _ & _ & _ & ?)|
    (args & _ & _ & _ & Hi & _ & Hr)]]]; [by eexists..| |done].
  pose proof (rep_bounds _ _ R). destruct (covered_exists args) as [Ls Hc]; [lia|]. by eexists; apply Hr.
Qed.

(** ** Durability *)

Definition default_pdata : PersistData Cmd := (0, -1, [fillerEntry], 0, -1).

(** What [Make] would recover from a persister. *)
Definition recovered (ps : Persister) : option (PersistData Cmd) :=
  match ReadRaftState ps with
  | [] => Some default_pdata
  | b => gob_decode b
  end.

(** Stable storage holds exactly the persistent fields. *)
Definition durable rf : Prop := recovered (persister rf) = Some (pdata rf).

Lemma recovered_encoded rf (ps : Persister) :
  raftstate ps = getPersistData rf → recovered ps = Some (pdata rf).
Proof.
  intros E. unfold recovered, ReadRaftState, clone. rewrite E.
  unfold getPersistData. destruct (gob_encode (pdata rf)) eqn:Eg.
  - by apply gob_encode_nonempty in Eg.
  - by rewrite <- Eg, gob_decode_encode.
Qed.

Lemma durable_persist rf : durable (persist rf).
Proof. unfold durable. change (pdata (persist rf)) with (pdata rf). by apply recovered_encoded. Qed.

Lemma durable_persistAndSnapshot snap rf : durable (persistAndSnapshot snap rf).
Proof.
  unfold durable. change (pdata (persistAndSnapshot snap rf)) with (pdata rf).
  by apply recovered_encoded.
Qed.
Hint Resolve durable_persist durable_persistAndSnapshot : core.

Lemma durable_effect ev L rf rf' : effect ev L rf rf' → durable rf → durable rf'.
Proof.
  intros He Hd.
  destruct He as [rf' Hv|env t v Hok|env -> Hs|env rf1 reply -> Hs -> Hm|c Hs
    |env args -> Ht Hpos Hc|a msgs -> Ha|index snapshot Hi HL|env args -> Ht Hi].
  - unfold durable. rewrite (vol_persister _ _ Hv), (vol_pdata _ _ Hv). exact Hd.
  - unfold becomeFollower. apply durable_persist.
  - unfold becomeCandidate. apply durable_persist.
  - unfold becomeLeader. cbn [fst]. apply durable_persist.
  - apply durable_persist.
  - unfold accepted. apply durable_persist.
  - exact (durable_persist rf).
  - unfold compacted. apply durable_persistAndSnapshot.
  - unfold installed. apply durable_persistAndSnapshot.
Qed.

(** ** Monotone counters *)

Lemma effect_monotone ev L rf rf' :
  rep L rf → effect ev L rf rf' →
  me rf' = me rf ∧ peers rf' = peers rf ∧
  currentTerm rf ≤ currentTerm rf' ∧
  commitIndex rf ≤ commitIndex rf' ∧
  lastApplied rf ≤ lastApplied rf' ∧
  snapshotEntriesAmount rf ≤ snapshotEntriesAmount rf'.
Proof.
  intros R He.
  destruct He as [rf' Hv|env t v Hok|env -> Hs|env rf1 reply -> Hs -> Hm|c Hs
    |env args -> Ht Hpos Hc|a msgs -> Ha|index snapshot Hi HL|env args -> Ht Hi].
  - destruct Hv as [-> -> E _ _ ? -> _ _]. unfold pdata in E. injection E as -> _ _ -> _. lia.
  - unfold follow_ok in Hok. cbn. lia.
  - cbn. lia.
  - case_decide; unfold gainVote; [case_decide|]; cbn; lia.
  - cbn. lia.
  - cbn. lia.
  - unfold apply_table in Ha. cbn. repeat case_decide; simplify_eq; lia.
  - cbn. lia.
  - cbn. lia.
Qed.

(** ** Leader bookkeeping *)

(** A leader has one next and one match index per peer. *)
Definition leader_arrays rf : Prop :=
  status rf = Leader →
  length (nextIndex rf) = peers rf ∧ length (matchIndex rf) = peers rf.

Lemma leader_arrays_effect ev L rf rf' :
  effect ev L rf rf' → leader_arrays rf → leader_arrays rf'.
Proof.
  intros He Hl.
  destruct He as [rf' Hv|env t v Hok|env -> Hs|env rf1 reply -> Hs -> Hm|c Hs
    |env args -> Ht Hpos Hc|a msgs -> Ha|index snapshot Hi HL|env args -> Ht Hi].
  - unfold leader_arrays. destruct Hv as [_ -> _ _ -> _ _ -> ->]. exact Hl.
  - by intros ?.
  - by intros ?.
  - intros _. cbn. by rewrite !length_replicate.
  - exact Hl.
  - by intros ?.
  - exact Hl.
  - exact Hl.
  - by intros ?.
Qed.

(** ** Recovery *)

Definition same_volatile rf rf' : Prop :=
  peers rf' = peers rf ∧ me rf' = me rf ∧ persister rf' = persister rf ∧
  dead rf' = dead rf ∧ status rf' = status rf ∧ commitIndex rf' = commitIndex rf ∧
  lastApplied rf' = lastApplied rf.

(** [Make] from the persister of a durable peer gets its persistent fields
    back; everything else starts afresh. *)
Lemma Make_durable n (me : Z) rf env :
  durable rf →
  ∃ rf', Make n me (Copy (persister rf)) env = Ok rf' ∧
    pdata rf' = pdata rf ∧
    same_volatile (freshRaft n me (Copy (persister rf)) env) rf'.
Proof.
  unfold durable, recovered, Make, readPersist. intros Hd.
  change (ReadRaftState (Copy (persister rf))) with (ReadRaftState (persister rf)).
  destruct (ReadRaftState (persister rf)) as [|b bs].
  - eexists. split; [done|]. split; [|done].
    change (default_pdata = pdata rf). congruence.
  - assert (gob_decode (b :: bs) = Some (pdata rf)) as -> by exact Hd.
    eexists. split; [reflexivity|]. done.
Qed.

Lemma rep_pdata L rf rf' : pdata rf' = pdata rf → rep L rf → rep L rf'.
Proof. unfold pdata. intros E. injection E as _ _ ? ? ?. by apply rep_same_log. Qed.

Lemma wf_freshRaft n (me : Z) ps env : wf (freshRaft n me ps env).
Proof. exists [fillerEntry]. split; cbn; [done|lia|done|done]. Qed.

Lemma durable_freshRaft n (me : Z) env : durable (freshRaft n me MakePersister env).
Proof. done. Qed.

(** ** What one critical section does *)

Lemma wf_effect env ev rf rf' :
  wf rf → run_event env ev rf = Ok rf' → ∃ L, rep L rf ∧ effect ev L rf rf'.
Proof. intros [L R] H. exists L. split; [done|]. by eapply run_event_effect. Qed.

(** Role changes: what they need, and what they do to the term. *)
Lemma effect_roles ev L rf rf' :
  effect ev L rf rf' → status rf' ≠ status rf →
  match status rf' with
  | Leader =>
      status rf = Candidate ∧ currentTerm rf' = currentTerm rf + 1 ∧ votedFor rf' = -1 ∧
      ∃ reply, ev = EvRequestVoteReply true reply
  | Candidate =>
      ev = EvTick ∧ status rf = Follower ∧ currentTerm rf' = currentTerm rf + 1 ∧
      votedFor rf' = me rf ∧ numVoteGathered rf' = 1
  | Follower => currentTerm rf ≤ currentTerm rf'
  end.
Proof.
  intros He Hne.
  destruct He as [rf' Hv|env t v Hok|env -> Hs|env rf1 reply -> Hs -> Hm|c Hs
    |env args -> Ht Hpos Hc|a msgs -> Ha|index snapshot Hi HL|env args -> Ht Hi].
  - by rewrite (vol_status _ _ Hv) in Hne.
  - cbn. unfold follow_ok in Hok. lia.
  - cbn. cbn in Hne. destruct (status rf); [done|done|done].
  - cbn. split; [done|]. case_decide; unfold gainVote; [case_decide|]; naive_solver.
  - done.
  - cbn. lia.
  - done.
  - done.
  - cbn. lia.
Qed.

(** The vote of a term: it changes within the term only when it was free,
    when a candidate gives up its vote for itself, or when a request of a
    leader of the same term erases it. *)
Definition vote_released ev rf : Prop :=
  match ev with
  | EvRequestVote args => votedFor rf = me rf ∧ status rf = Candidate
  | EvAppendEntries args => AE_Term args = currentTerm rf
  | EvInstallSnapshot args => IS_Term args = currentTerm rf
  | _ => False
  end.

Lemma effect_vote ev L rf rf' :
  effect ev L rf rf' → currentTerm rf' = currentTerm rf → votedFor rf' ≠ votedFor rf →
  votedFor rf = -1 ∨ vote_released ev rf.
Proof.
  intros He Ht Hne.
  destruct He as [rf' Hv|env t v Hok|env -> Hs|env rf1 reply -> Hs -> Hm|c Hs
    |env args -> Hle Hpos Hc|a msgs -> Ha|index snapshot Hi HL|env args -> Hle Hi].
  - destruct Hv as [_ _ E _ _ _ _ _ _]. unfold pdata in E. by injection E.
  - cbn in *. destruct Hok as [?|[-> Hok]]; [lia|]. destruct ev; naive_solver.
  - cbn in Ht. lia.
  - cbn in Ht. case_decide; unfold gainVote in Ht; [case_decide|]; cbn in Ht; lia.
  - done.
  - right. cbn in *. lia.
  - done.
  - done.
  - right. cbn in *. lia.
Qed.

Lemma effect_leader ev L rf rf' :
  rep L rf → effect ev L rf rf' → status rf = Leader → status rf' = Leader →
  currentTerm rf' = currentTerm rf ∧
  (rep L rf' ∨ ∃ c, rep (L ++ [mkLogEntity (currentTerm rf) c]) rf').
Proof.
  intros R He Hl Hl'. pose proof (effect_rep _ _ _ _ R He) as Hr. split.
  - destruct He as [rf' Hv|env t v Hok|env -> Hs|env rf1 reply -> Hs -> Hm|c Hs
      |env args -> Hle Hpos Hc|a msgs -> Ha|index snapshot Hi HL|env args -> Hle Hi];
      try done; [|congruence].
    destruct Hv as [_ _ E _ _ _ _ _ _]. unfold pdata in E. by injection E.
  - destruct Hr as [?|[(c & _ & _ & _ & ?)|[(? & _ & E & _)|(? & _ & E & _)]]];
      [by left|right; by exists c|congruence..].
Qed.

(** ** Which critical sections can end the process *)

Definition never_fatal ev : Prop :=
  match ev with
  | EvTick | EvStart _ | EvRequestVote _ | EvRequestVoteReply _ _
  | EvInstallSnapshot _ | EvKill => True
  | EvAppendEntries args => 0 ≤ AE_PrevLogIndex args
  | _ => False
  end.

Lemma never_fatal_Ok env ev rf :
  wf rf → never_fatal ev → ∃ rf', run_event env ev rf = Ok rf'.
Proof.
  intros [L R] Hev. destruct ev; cbn in *; try done; eauto.
  - rewrite (RequestVote_eq _ _ _ _ R). cbn. eauto.
  - rewrite (AppendEntriesWithLock_eq _ _ _ _ R Hev). cbn. eauto.
  - rewrite (InstallSnapshotLocked_eq _ _ _ _ R). cbn. eauto.
Qed.
(** ** The theorems *)

(** C2: every critical section keeps the compacted log well formed, and the
    full log behind it changes in four ways only: not at all; a leader
    appends one entry of its term; a peer that is not ahead of an AppendEntries
    request, and has its previous entry, becomes a follower and takes the
    entries of the request in place of what followed that entry; a peer that
    is not ahead of an InstallSnapshot request, and has not compacted its last
    index, becomes a follower, compacts exactly the entries up to that index,
    and then stands for any log that has that many entries of the leader's,
    the last of the term the request says, followed by the peer's own entries
    behind them. *)
Theorem critical_section_log env ev L rf rf' :
  rep L rf → run_event env ev rf = Ok rf' →
  rep L rf' ∨
  (∃ c, status rf = Leader ∧ status rf' = Leader ∧ currentTerm rf' = currentTerm rf ∧
     rep (L ++ [mkLogEntity (currentTerm rf) c]) rf') ∨
  (∃ args, ev = EvAppendEntries args ∧ status rf' = Follower ∧
     currentTerm rf ≤ AE_Term args ∧ consistent L args rf = true ∧
     rep (replace_suffix L args) rf') ∨
  (∃ args, ev = EvInstallSnapshot args ∧ status rf' = Follower ∧
     currentTerm rf ≤ IS_Term args ∧
     snapshotEntriesAmount rf ≤ IS_LastIncludedIndex args ∧
     snapshotEntriesAmount rf' = IS_LastIncludedIndex args + 1 ∧
     ∀ Ls, covered args Ls → rep (install_suffix Ls L) rf').
Proof. intros R H. apply (effect_rep ev L rf rf' R). by eapply run_event_effect. Qed.

(** role changes.  A peer becomes leader only as a candidate treating a
    vote reply, and moves to the next term, with a free vote; it becomes
    candidate only when its timer fires, in the next term, with its own vote;
    it becomes follower without its term going back. *)
Theorem role_changes env ev rf rf' :
  wf rf → run_event env ev rf = Ok rf' → status rf' ≠ status rf →
  match status rf' with
  | Leader =>
      status rf = Candidate ∧ currentTerm rf' = currentTerm rf + 1 ∧ votedFor rf' = -1 ∧
      ∃ reply, ev = EvRequestVoteReply true reply
  | Candidate =>
      ev = EvTick ∧ status rf = Follower ∧ currentTerm rf' = currentTerm rf + 1 ∧
      votedFor rf' = me rf ∧ numVoteGathered rf' = 1
  | Follower => currentTerm rf ≤ currentTerm rf'
  end.
Proof.
  intros Hwf H Hne. destruct (wf_effect _ _ _ _ Hwf H) as (L & R & He).
  by eapply effect_roles.
Qed.

(** The vote of a term changes within that term only if it was free, if
    the peer is a candidate giving its own vote to another one, or if an
    AppendEntries or InstallSnapshot request of the same term erases it: the
    three ways [vote_released] lists are the only ones. *)
Theorem vote_kept env ev rf rf' :
  wf rf → run_event env ev rf = Ok rf' →
  currentTerm rf' = currentTerm rf → votedFor rf ≠ -1 → ¬ vote_released ev rf →
  votedFor rf' = votedFor rf.
Proof.
  intros Hwf H Ht Hv Hr. destruct (wf_effect _ _ _ _ Hwf H) as (L & R & He).
  destruct (decide (votedFor rf' = votedFor rf)) as [|Hne]; [done|].
  by destruct (effect_vote _ _ _ _ He Ht Hne).
Qed.

(** A leader that stays leader keeps its term and only appends to its
    log, one entry of its term at a time. *)
Theorem leader_append_only env ev L rf rf' :
  rep L rf → run_event env ev rf = Ok rf' → status rf = Leader → status rf' = Leader →
  currentTerm rf' = currentTerm rf ∧
  (rep L rf' ∨ ∃ c, rep (L ++ [mkLogEntity (currentTerm rf) c]) rf').
Proof. intros R H. eapply effect_leader; [done|]. by eapply run_event_effect. Qed.

(** C27: no [log.Fatal] and no out-of-range index can be reached from the
    ticker, [Start], [Kill], both RequestVote steps, the InstallSnapshot
    handler, and the AppendEntries handler for a request with a previous
    index (a leader's requests have one). *)
Theorem handlers_never_fatal env ev rf :
  wf rf → never_fatal ev → ∃ rf', run_event env ev rf = Ok rf' ∧ wf rf'.
Proof.
  intros Hwf Hev. destruct (never_fatal_Ok env ev rf Hwf Hev) as [rf' H].
  exists rf'. split; [done|]. by eapply wf_run_event.
Qed.

(** Recovery.  A peer whose stable storage is current, restarted from a
    copy of its persister, has its term, vote, log and snapshot bounds back
    and starts as a follower that has applied nothing. *)
Theorem Make_recovers n (i : Z) rf env :
  durable rf →
  ∃ rf', Make n i (Copy (persister rf)) env = Ok rf' ∧
    pdata rf' = pdata rf ∧ durable rf' ∧
    status rf' = Follower ∧ commitIndex rf' = -1 ∧ lastApplied rf' = -1 ∧
    dead rf' = false ∧ peers rf' = n ∧ me rf' = i.
Proof.
  intros Hd. destruct (Make_durable n i rf env Hd) as (rf' & H & Hpd & Hv).
  exists rf'. destruct Hv as (E1 & E2 & E3 & E4 & E5 & E6 & E7). cbn in *.
  split_and!; try done. unfold durable. rewrite E3, Hpd. exact Hd.
Qed.
End raft_node.

Lemma sample_wf : wf (samplePeer 7).
Proof. exists sampleLog. exact sample_rep. Qed.

Definition sampleCandidate : Raft Z :=
  (freshRaft 3 0 MakePersister (mkEnv 0 0)) <| status := Candidate |>
    <| currentTerm := 4 |> <| votedFor := 0 |> <| numVoteGathered := 1 |>.

Lemma sampleCandidate_rep : rep [fillerEntry] sampleCandidate.
Proof. split; cbn; [discriminate|lia|reflexivity|reflexivity]. Qed.

Lemma critical_section_log_witness :
  let rf := samplePeer 7 in
  let request := mkInstallSnapshotArgs 6 1 2 4 [] in
  let rf' := installed (mkEnv 0 0) request sampleLog rf in
  run_event (mkEnv 0 0) (EvInstallSnapshot request) rf = Ok rf' ∧
  (rep sampleLog rf' ∨
   (∃ c, status rf = Leader ∧ status rf' = Leader ∧ currentTerm rf' = currentTerm rf ∧
      rep (sampleLog ++ [mkLogEntity (currentTerm rf) c]) rf') ∨
   (∃ args, EvInstallSnapshot request = EvAppendEntries args ∧ status rf' = Follower ∧
      currentTerm rf ≤ AE_Term args ∧ consistent sampleLog args rf = true ∧
      rep (replace_suffix sampleLog args) rf') ∨
   (∃ args, EvInstallSnapshot (Cmd := Z) request = EvInstallSnapshot args ∧ status rf' = Follower ∧
      currentTerm rf ≤ IS_Term args ∧
      snapshotEntriesAmount rf ≤ IS_LastIncludedIndex args ∧
      snapshotEntriesAmount rf' = IS_LastIncludedIndex args + 1 ∧
      ∀ Ls, covered args Ls → rep (install_suffix Ls sampleLog) rf')).
Proof.
  intros rf request rf'. split; [vm_compute; reflexivity|].
  apply (critical_section_log (mkEnv 0 0) (EvInstallSnapshot request) sampleLog rf);
    [exact sample_rep|vm_compute; reflexivity].
Defined.

Lemma role_changes_witness :
  currentTerm (becomeLeader (mkEnv 0 0) (gainVote sampleCandidate)).1 = 4 + 1.
Proof.
  destruct (role_changes (mkEnv 0 0) (EvRequestVoteReply true (mkRequestVoteReply 4 true))
    sampleCandidate (becomeLeader (mkEnv 0 0) (gainVote sampleCandidate)).1)
    as (_ & H & _).
  - exists [fillerEntry]. exact sampleCandidate_rep.
  - reflexivity.
  - discriminate.
  - exact H.
Defined.

Lemma vote_kept_witness :
  let rf := sampleCandidate <| numVoteGathered := 0 |> in
  votedFor (gainVote rf) = votedFor rf.
Proof.
  intros rf.
  apply (vote_kept (mkEnv 0 0) (EvRequestVoteReply true (mkRequestVoteReply 4 true)) rf (gainVote rf)).
  - exists [fillerEntry]. exact (rep_same_log _ sampleCandidate rf (conj eq_refl (conj eq_refl eq_refl)) sampleCandidate_rep).
  - reflexivity.
  - reflexivity.
  - discriminate.
  - intros [].
Defined.

Lemma leader_append_only_witness :
  currentTerm (Start (ICmd 8) (samplePeer 7)).1 = 5.
Proof.
  apply (leader_append_only (mkEnv 0 0) (EvStart (ICmd 8)) sampleLog (samplePeer 7));
    [exact sample_rep|reflexivity|reflexivity|reflexivity].
Defined.

Lemma handlers_never_fatal_witness :
  ∃ rf', run_event (mkEnv 0 0) (EvAppendEntries (mkAppendEntriesArgs 6 1 0 (-1) [] 0))
    (samplePeer 7) = Ok rf' ∧ wf rf'.
Proof.
  apply (handlers_never_fatal (mkEnv 0 0) (EvAppendEntries (mkAppendEntriesArgs 6 1 0 (-1) [] 0))
    (samplePeer 7)); [exact sample_wf|vm_compute; discriminate].
Defined.

Lemma Make_recovers_witness :
  ∃ rf', Make 3 0 (Copy (persister (samplePeer 7))) (mkEnv 0 0) = Ok rf' ∧
    pdata rf' = pdata (samplePeer 7).
Proof.
  destruct (Make_recovers 3 0 (samplePeer 7) (mkEnv 0 0)) as (rf' & H1 & H2 & _).
  - apply durable_persist.
  - exists rf'. exact (conj H1 H2).
Defined.
