(* ===== verification/RaftWorld.v ===== *)
(** * A cluster of Raft peers over an unreliable network

    The peers run their critical sections one at a time, in any order; RPCs
    (code/src/labrpc) are delayed, reordered and lost, but executed at most
    once.  A goroutine is a [Task] between two critical sections.  [exec]
    executes one [Label] (which task runs, which packet is delivered or lost,
    which peer's timer fires, crashes, ...); [reachable] closes the initial
    cluster under it.  Runs are lists of labels, so scenarios evaluate.

    labrpc itself is not modelled beyond this: a [Call] either returns the
    reply of one execution of the handler, or fails, with the handler executed
    or not. *)

From S2P Require Import Prelude Gob Persister RaftState RaftLog RaftVote RaftCommit RaftAppend RaftSnapshot RaftNode.
Open Scope Z_scope.

Inductive Request (Cmd : Type) :=
  | RqVote (args : RequestVoteArgs)
  | RqAppend (args : AppendEntriesArgs Cmd)
  | RqSnapshot (args : InstallSnapshotArgs).
Arguments RqVote {Cmd}.
Arguments RqAppend {Cmd}.
Arguments RqSnapshot {Cmd}.

(** A goroutine waiting for its next critical section. *)
Inductive Work (Cmd : Type) :=
  | WSpawn (s : Spawn)
  | WVoteReply (ok : bool) (reply : RequestVoteReply)
  | WAppendReply (server : nat) (args : AppendEntriesArgs Cmd) (ok : bool) (reply : AppendEntriesReply)
  | WSnapshotReply (server : nat) (args : InstallSnapshotArgs) (ok : bool) (reply : InstallSnapshotReply)
  (** [commitToApplyChannel] after a successful reply, or after
      [AppendEntriesWithLock] when the caller no longer waits *)
  | WApply
  (** [AppendEntries] between [AppendEntriesWithLock] and its return *)
  | WServe (src srcEpoch : nat) (args : AppendEntriesArgs Cmd) (reply : AppendEntriesReply).
Arguments WSpawn {Cmd}.
Arguments WVoteReply {Cmd}.
Arguments WAppendReply {Cmd}.
Arguments WSnapshotReply {Cmd}.
Arguments WApply {Cmd}.
Arguments WServe {Cmd}.

(** The goroutines of a peer die with its incarnation ([epoch]). *)
Record Task (Cmd : Type) := mkTask { owner : nat; taskEpoch : nat; work : Work Cmd }.
Arguments mkTask {Cmd}.
Arguments owner {Cmd}.
Arguments taskEpoch {Cmd}.
Arguments work {Cmd}.

Record Packet (Cmd : Type) := mkPacket {
  source : nat; sourceEpoch : nat; destination : nat; request : Request Cmd }.
Arguments mkPacket {Cmd}.
Arguments source {Cmd}.
Arguments sourceEpoch {Cmd}.
Arguments destination {Cmd}.
Arguments request {Cmd}.

(** A peer with its incarnation and everything it sent on [applyCh] since
    that incarnation started. *)
Record Server (Cmd : Type) := mkServer {
  raft : Raft Cmd; epoch : nat; applyCh : list (ApplyMsg Cmd) }.
Arguments mkServer {Cmd}.
Arguments raft {Cmd}.
Arguments epoch {Cmd}.
Arguments applyCh {Cmd}.

Record World (Cmd : Type) := mkWorld {
  servers : list (Server Cmd); tasks : list (Task Cmd); packets : list (Packet Cmd) }.
Arguments mkWorld {Cmd}.
Arguments servers {Cmd}.
Arguments tasks {Cmd}.
Arguments packets {Cmd}.

Inductive Label (Cmd : Type) :=
  | LTick (i : nat)
  | LTask (k : nat)
  | LDeliver (k : nat) (replyLost : bool)
  | LLose (k : nat)
  | LStart (i : nat) (c : Cmd)
  | LSnapshot (i : nat) (index : Z) (data : bytes)
  | LKill (i : nat)
  | LCrash (i : nat).
Arguments LTick {Cmd}.
Arguments LTask {Cmd}.
Arguments LDeliver {Cmd}.
Arguments LLose {Cmd}.
Arguments LStart {Cmd}.
Arguments LSnapshot {Cmd}.
Arguments LKill {Cmd}.
Arguments LCrash {Cmd}.

Definition noReplyV : RequestVoteReply := mkRequestVoteReply 0 false.
Definition noReplyA : AppendEntriesReply := mkAppendEntriesReply 0 false false 0.
Definition noReplyS : InstallSnapshotReply := mkInstallSnapshotReply 0.

Section raft_world.
Context {Cmd : Type} `{!LabGob (PersistData Cmd)}.
Implicit Types (w : World Cmd) (s : Server Cmd) (l : Label Cmd).

Definition disabled {A} : Res A := Panic "label not enabled".

Definition getServer (i : nat) (w : World Cmd) : Res (Server Cmd) :=
  match servers w !! i with Some s => Ok s | None => disabled end.

(** Replace the state of server [i]; add goroutines and packets. *)
Definition update (i : nat) (s : Server Cmd) (ts : list (Task Cmd)) (ps : list (Packet Cmd))
    (w : World Cmd) : World Cmd :=
  mkWorld (<[i := s]> (servers w)) (tasks w ++ ts) (packets w ++ ps).

Definition withRaft (rf : Raft Cmd) (s : Server Cmd) : Server Cmd :=
  mkServer rf (epoch s) (applyCh s).

Definition spawned (i : nat) (s : Server Cmd) (sp : list Spawn) : list (Task Cmd) :=
  (λ x, mkTask i (epoch s) (WSpawn x)) <$> sp.

(** One critical section of a goroutine of server [i]. *)
Definition runWork (env : Env) (i : nat) (s : Server Cmd) (wk : Work Cmd) (w : World Cmd)
    : Res (World Cmd) :=
  let rf := raft s in
  match wk with
  | WSpawn (GoSendRequestVote server) =>
      args ← getRequestVoteArgs rf;
      Ok (update i s [] [mkPacket i (epoch s) server (RqVote args)] w)
  | WSpawn (GoSendAppendEntries server) =>
      '(rf, args, sp) ← sendAppendEntriesPre server rf;
      Ok (update i (withRaft rf s) (spawned i s sp)
            (match args with
             | Some a => [mkPacket i (epoch s) server (RqAppend a)] | None => [] end) w)
  | WSpawn (GoSendInstallSnapshot server) =>
      Ok (update i s [] [mkPacket i (epoch s) server (RqSnapshot (createInstallSnapshotArgs rf))] w)
  | WVoteReply ok reply =>
      let '(rf, sp) := handleSendRequestVote env ok reply rf in
      Ok (update i (withRaft rf s) (spawned i s sp) [] w)
  | WAppendReply server args ok reply =>
      '(rf, sp, apply) ← sendAppendEntriesPost env server args ok reply rf;
      Ok (update i (withRaft rf s)
            (spawned i s sp ++ (if apply : bool then [mkTask i (epoch s) WApply] else [])) [] w)
  | WSnapshotReply server args ok reply =>
      rf ← sendInstallSnapshotPost env server args ok reply rf;
      Ok (update i (withRaft rf s) [] [] w)
  | WApply =>
      '(rf, msgs) ← commitToApplyChannelWithLock rf;
      Ok (update i (mkServer rf (epoch s) (applyCh s ++ msgs)) [] [] w)
  | WServe src srcEpoch args reply =>
      '(rf, msgs) ← commitToApplyChannelWithLock rf;
      Ok (update i (mkServer rf (epoch s) (applyCh s ++ msgs))
            [mkTask src srcEpoch (WAppendReply i args true reply)] [] w)
  end.

(** The handler of a request at server [i], and what its caller sees. *)
Definition serve (env : Env) (i : nat) (s : Server Cmd) (p : Packet Cmd) (lost : bool)
    (w : World Cmd) : Res (World Cmd) :=
  let back wk := [mkTask (source p) (sourceEpoch p) wk] in
  match request p with
  | RqVote args =>
      '(rf, reply) ← RequestVote env args (raft s);
      Ok (update i (withRaft rf s) (back (WVoteReply (negb lost) reply)) [] w)
  | RqAppend args =>
      '(rf, reply, apply) ← AppendEntriesWithLock env args (raft s);
      Ok (update i (withRaft rf s)
        (if apply : bool then
           if lost then mkTask i (epoch s) WApply :: back (WAppendReply i args false noReplyA)
           else [mkTask i (epoch s) (WServe (source p) (sourceEpoch p) args reply)]
         else back (WAppendReply i args (negb lost) reply)) [] w)
  | RqSnapshot args =>
      '(rf, reply, _) ← InstallSnapshotLocked env args (raft s);
      Ok (update i (withRaft rf s) (back (WSnapshotReply i args (negb lost) reply)) [] w)
  end.

(** A request that is never executed: the call fails. *)
Definition failedCall (p : Packet Cmd) : Task Cmd :=
  mkTask (source p) (sourceEpoch p)
    match request p with
    | RqVote _ => WVoteReply false noReplyV
    | RqAppend args => WAppendReply (destination p) args false noReplyA
    | RqSnapshot args => WSnapshotReply (destination p) args false noReplyS
    end.

Definition exec (env : Env) (l : Label Cmd) (w : World Cmd) : Res (World Cmd) :=
  match l with
  | LTick i =>
      s ← getServer i w;
      let '(rf, sp) := ticker env (raft s) in
      Ok (update i (withRaft rf s) (spawned i s sp) [] w)
  | LTask k =>
      match tasks w !! k with
      | None => disabled
      | Some t =>
          let w := mkWorld (servers w) (delete k (tasks w)) (packets w) in
          s ← getServer (owner t) w;
          if decide (taskEpoch t = epoch s) then runWork env (owner t) s (work t) w
          else Ok w
      end
  | LDeliver k lost =>
      match packets w !! k with
      | None => disabled
      | Some p =>
          let w := mkWorld (servers w) (tasks w) (delete k (packets w)) in
          s ← getServer (destination p) w;
          serve env (destination p) s p lost w
      end
  | LLose k =>
      match packets w !! k with
      | None => disabled
      | Some p => Ok (mkWorld (servers w) (tasks w ++ [failedCall p]) (delete k (packets w)))
      end
  | LStart i c =>
      s ← getServer i w;
      Ok (update i (withRaft (Start (ICmd c) (raft s)).1 s) [] [] w)
  | LSnapshot i index data =>
      s ← getServer i w;
      rf ← SnapshotAt index data (raft s);
      Ok (update i (withRaft rf s) [] [] w)
  | LKill i =>
      s ← getServer i w;
      Ok (update i (withRaft (Kill (raft s)) s) [] [] w)
  | LCrash i =>
      s ← getServer i w;
      rf ← Make (length (servers w)) (Z.of_nat i) (Copy (persister (raft s))) env;
      Ok (update i (mkServer rf (S (epoch s)) []) [] [] w)
  end.

(** Running a schedule. *)
Fixpoint run (sched : list (Env * Label Cmd)) (w : World Cmd) : Res (World Cmd) :=
  match sched with
  | [] => Ok w
  | (env, l) :: sched => w ← exec env l w; run sched w
  end.

(** A cluster of [n] peers that start from empty persisters. *)
Definition initial (n : nat) (env : Env) : World Cmd :=
  mkWorld ((λ i, mkServer (freshRaft n (Z.of_nat i) MakePersister env) 0 []) <$> seq 0 n) [] [].

Inductive reachable (n : nat) : World Cmd → Prop :=
  | reachable_init env : reachable n (initial n env)
  | reachable_step env l w w' : reachable n w → exec env l w = Ok w' → reachable n w'.

Lemma reachable_run n w sched w' :
  reachable n w → run sched w = Ok w' → reachable n w'.
Proof.
  revert w. induction sched as [|[env l] sched IH]; intros w Hw H; cbn in H; go_inv; [done|].
  eapply IH; [|done]. by eapply reachable_step.
Qed.

(** ** One label, seen by one server *)

Inductive server_step (n i : nat) (env : Env) : Server Cmd → Server Cmd → Prop :=
  | ss_same s : server_step n i env s s
  | ss_event ev rf ep h rf' :
      ev ≠ EvApply → run_event env ev rf = Ok rf' →
      server_step n i env (mkServer rf ep h) (mkServer rf' ep h)
  | ss_apply rf ep h rf' msgs :
      commitToApplyChannelWithLock rf = Ok (rf', msgs) →
      server_step n i env (mkServer rf ep h) (mkServer rf' ep (h ++ msgs))
  | ss_crash rf ep h rf' :
      Make n (Z.of_nat i) (Copy (persister rf)) env = Ok rf' →
      server_step n i env (mkServer rf ep h) (mkServer rf' (S ep) []).

Definition steps_from (env : Env) (ss ss' : list (Server Cmd)) : Prop :=
  length ss' = length ss ∧
  ∀ j s', ss' !! j = Some s' →
    ∃ s, ss !! j = Some s ∧ server_step (length ss) j env s s'.

Lemma steps_from_refl env ss : steps_from env ss ss.
Proof. split; [done|]. intros j s' Hs. exists s'. split; [done|constructor]. Qed.

Lemma steps_from_update env i s s' ts ps w :
  servers w !! i = Some s → server_step (length (servers w)) i env s s' →
  steps_from env (servers w) (servers (update i s' ts ps w)).
Proof.
  intros Hi Hstep. cbn. split; [apply length_insert|]. intros j s1.
  destruct (decide (i = j)) as [->|Hne].
  - rewrite list_lookup_insert_eq by (by eapply lookup_lt_Some).
    intros [= <-]. by exists s.
  - rewrite list_lookup_insert_ne by done. intros Hs. exists s1. split; [done|constructor].
Qed.

Lemma getServer_Ok i w s : getServer i w = Ok s → servers w !! i = Some s.
Proof. unfold getServer. case_match; intros; by go_inv. Qed.

(** Replacing the peer by what an event makes of it is a step. *)
Lemma step_withRaft n i env ev s rf :
  ev ≠ EvApply → run_event env ev (raft s) = Ok rf → server_step n i env s (withRaft rf s).
Proof. destruct s. apply ss_event. Qed.

Lemma step_apply n i env s rf msgs :
  commitToApplyChannelWithLock (raft s) = Ok (rf, msgs) →
  server_step n i env s (mkServer rf (epoch s) (applyCh s ++ msgs)).
Proof. destruct s. apply ss_apply. Qed.

Ltac close_step ev :=
  eapply steps_from_update; [done|];
  first [ apply ss_same
        | eapply step_apply; eassumption
        | eapply (step_withRaft _ _ _ ev); [discriminate|]; cbn;
          repeat match goal with H : _ = _ |- _ => rewrite H end; reflexivity ].

Lemma runWork_step env i s wk w w' :
  servers w !! i = Some s → runWork env i s wk w = Ok w' →
  steps_from env (servers w) (servers w').
Proof.
  intros Hi H. destruct wk as [[]| | | | |]; cbn in H; go_inv.
  - close_step (@EvTick Cmd).
  - match goal with x : prod (prod _ _) _ |- _ => destruct x as [[rf a] sp] end. go_inv.
    close_step (EvSendAppendEntries (Cmd := Cmd) server).
  - close_step (@EvTick Cmd).
  - destruct (handleSendRequestVote env ok reply (raft s)) as [rf sp] eqn:E. go_inv.
    close_step (EvRequestVoteReply (Cmd := Cmd) ok reply).
  - match goal with x : prod (prod _ _) _ |- _ => destruct x as [[rf sp] a] end. go_inv.
    close_step (EvAppendEntriesReply server args ok reply).
  - close_step (EvInstallSnapshotReply (Cmd := Cmd) server args ok reply).
  - match goal with x : prod _ _ |- _ => destruct x as [rf msgs] end. go_inv.
    close_step (@EvTick Cmd).
  - match goal with x : prod _ _ |- _ => destruct x as [rf msgs] end. go_inv.
    close_step (@EvTick Cmd).
Qed.

Lemma serve_step env i s p lost w w' :
  servers w !! i = Some s → serve env i s p lost w = Ok w' →
  steps_from env (servers w) (servers w').
Proof.
  intros Hi H. unfold serve in H. destruct (request p) as [args|args|args]; go_inv.
  - match goal with x : prod _ _ |- _ => destruct x as [rf reply] end. go_inv.
    close_step (EvRequestVote (Cmd := Cmd) args).
  - match goal with x : prod (prod _ _) _ |- _ => destruct x as [[rf reply] a] end. go_inv.
    close_step (EvAppendEntries args).
  - match goal with x : prod (prod _ _) _ |- _ => destruct x as [[rf reply] a] end. go_inv.
    close_step (EvInstallSnapshot (Cmd := Cmd) args).
Qed.

Lemma exec_step env l w w' :
  exec env l w = Ok w' → steps_from env (servers w) (servers w').
Proof.
  intros H. destruct l as [i|k|k lost|k|i c|i index data|i|i]; cbn in H.
  - go_inv. match goal with H : getServer _ _ = _ |- _ => apply getServer_Ok in H end.
    destruct (ticker env _) as [rf sp] eqn:E. go_inv. close_step (@EvTick Cmd).
  - destruct (tasks w !! k) as [t|]; [|done]. go_inv.
    match goal with H : getServer _ _ = _ |- _ => apply getServer_Ok in H; cbn in H end.
    case_decide; [by eapply (runWork_step _ _ _ _ (mkWorld _ _ _)) in H|].
    go_inv. apply steps_from_refl.
  - destruct (packets w !! k) as [p|]; [|done]. go_inv.
    match goal with H : getServer _ _ = _ |- _ => apply getServer_Ok in H; cbn in H end.
    by eapply (serve_step _ _ _ _ _ (mkWorld _ _ _)) in H.
  - destruct (packets w !! k) as [p|]; [|done]. go_inv. apply steps_from_refl.
  - go_inv. match goal with H : getServer _ _ = _ |- _ => apply getServer_Ok in H end.
    close_step (EvStart (ICmd c)).
  - go_inv. match goal with H : getServer _ _ = _ |- _ => apply getServer_Ok in H end.
    close_step (EvSnapshot (Cmd := Cmd) index data).
  - go_inv. match goal with H : getServer _ _ = _ |- _ => apply getServer_Ok in H end.
    close_step (@EvKill Cmd).
  - go_inv. match goal with H : getServer _ _ = _ |- _ => apply getServer_Ok in H end.
    match goal with s : Server Cmd |- _ => destruct s as [rf ep h] end.
    eapply steps_from_update; [done|]. by eapply ss_crash.
Qed.

(** ** Invariants of one server lift to the cluster *)

Lemma reachable_forall n (P : nat → Server Cmd → Prop) w :
  (∀ i env, P i (mkServer (freshRaft n (Z.of_nat i) MakePersister env) 0 [])) →
  (∀ i env s s', P i s → server_step n i env s s' → P i s') →
  reachable n w →
  length (servers w) = n ∧ ∀ i s, servers w !! i = Some s → P i s.
Proof.
  intros Hinit Hstep. induction 1 as [env|env l w w' _ [Hlen IH] Hexec].
  - cbn. split; [by rewrite length_fmap, length_seq|].
    intros i s Hs. rewrite list_lookup_fmap in Hs. apply fmap_Some in Hs as (j & Hj & ->).
    apply lookup_seq in Hj as [-> _]. apply Hinit.
  - apply exec_step in Hexec as [Hlen' Hs]. split; [congruence|].
    intros i s' Hs'. destruct (Hs i s' Hs') as (s & Hi & Hst).
    rewrite Hlen in Hst. eauto.
Qed.
End raft_world.
