(* ===== verification/RaftSafety.v ===== *)
(** * What holds in every reachable cluster

    [server_inv] is the invariant of one server of a reachable cluster: its
    identity, the well-formedness of its compacted log, the durability of its
    persistent fields, the size of its leader arrays, and [history]: what it
    has sent on [applyCh] so far.  It is preserved by every [server_step]
    ([server_inv_step]), so it holds in every reachable cluster
    ([reachable_inv]). *)

From S2P Require Import Prelude Gob Persister RaftState RaftLog RaftVote RaftCommit RaftAppend RaftSnapshot RaftNode RaftWorld.
Open Scope Z_scope.

Section raft_safety.
Context {Cmd : Type} `{!LabGob (PersistData Cmd)}.
Implicit Types (w : World Cmd) (s : Server Cmd) (rf : Raft Cmd) (m : ApplyMsg Cmd).

(** ** What was applied *)

(** The log index a message of [applyCh] brings the service to. *)
Definition msgIndex m : Z :=
  if SnapshotValid m then SnapshotIndex m else CommandIndex m.

(** The history sent on [applyCh] by a peer: strictly increasing indices, up
    to [lastApplied], and every index up to there was sent or is covered by
    the peer's snapshot. *)
Record history (h : list (ApplyMsg Cmd)) rf : Prop := mkHistory {
  hist_sorted : StronglySorted Z.lt (msgIndex <$> h);
  hist_bound : ∀ i, i ∈ msgIndex <$> h → 0 ≤ i ≤ lastApplied rf;
  hist_covered : ∀ i, 0 ≤ i ≤ lastApplied rf →
    i < snapshotEntriesAmount rf ∨ i ∈ msgIndex <$> h;
}.

Lemma seqZ_sorted a n : StronglySorted Z.lt (seqZ a n).
Proof.
  destruct (decide (n ≤ 0)) as [|Hn]; [rewrite seqZ_nil by lia; constructor|].
  replace n with (Z.of_nat (Z.to_nat n)) by lia. clear Hn.
  generalize (Z.to_nat n). clear n. intros n. revert a.
  induction n as [|n IH]; intros a; [constructor|].
  rewrite seqZ_S. constructor; [done|].
  apply Forall_forall. intros i ?%elem_of_seqZ. lia.
Qed.

Lemma commands_msgIndex L lo hi : msgIndex <$> commands L lo hi = CommandIndex <$> commands L lo hi.
Proof.
  apply list_fmap_ext. intros i m (j & e & -> & _)%lookup_zip_with_Some. done.
Qed.

Lemma history_extend h rf a (msgs : list (ApplyMsg Cmd)) :
  history h rf → -1 ≤ lastApplied rf ≤ a →
  StronglySorted Z.lt (msgIndex <$> msgs) →
  (∀ i, i ∈ msgIndex <$> msgs → lastApplied rf < i ≤ a) →
  (∀ i, 0 ≤ i → lastApplied rf < i ≤ a → i < snapshotEntriesAmount rf ∨ i ∈ msgIndex <$> msgs) →
  history (h ++ msgs) ((persist rf) <| lastApplied := a |>).
Proof.
  intros [Hs Hb Hc] Ha Hs' Hb' Hc'. split; rewrite ?fmap_app; cbn.
  - apply StronglySorted_app_2; [|done..]. intros i j Hi%Hb Hj%Hb'. lia.
  - intros i [Hi%Hb|Hi%Hb']%elem_of_app; lia.
  - intros i Hi. rewrite elem_of_app.
    destruct (decide (i ≤ lastApplied rf)) as [Hle|Hgt].
    + destruct (Hc i); [lia|by left|auto].
    + destruct (Hc' i); [lia..|by left|auto].
Qed.

Lemma history_apply h L rf rf' msgs :
  rep L rf → -1 ≤ lastApplied rf → history h rf →
  commitToApplyChannelWithLock rf = Ok (rf', msgs) → history (h ++ msgs) rf'.
Proof.
  intros R Hla Hh H. pose proof (commitToApplyChannelWithLock_eq L rf R) as He.
  unfold apply_table in He. repeat case_decide; [..|destruct He; congruence];
    rewrite He in H; go_inv; apply history_extend; try done || lia.
  - repeat constructor.
  - intros i Hi%list_elem_of_singleton. cbn in Hi. lia.
  - constructor.
  - intros i Hi. by apply elem_of_nil in Hi.
  - rewrite commands_msgIndex, commands_indices by lia. apply seqZ_sorted.
  - intros i. rewrite commands_msgIndex, commands_indices, elem_of_seqZ by lia. lia.
  - intros i _ Hi. right. rewrite commands_msgIndex, commands_indices, elem_of_seqZ by lia. lia.
Qed.

Lemma history_effect h ev L rf rf' :
  ev ≠ EvApply → effect ev L rf rf' → history h rf → history h rf'.
Proof.
  intros Hev He [Hs Hb Hc].
  destruct He as [rf' Hv|env t v Hok|env -> Hst|env rf1 reply -> Hst -> Hm|c Hst
    |env args -> Ht Hpos Hcon|a msgs -> Ha|index snapshot Hi HL|env args -> Ht Hi]; try by split.
  - destruct Hv as [_ _ E _ _ _ Ela _ _]. unfold pdata in E. injection E as _ _ _ Esn _.
    split; rewrite ?Ela, ?Esn; done.
  - split; [done|..]; case_decide; unfold gainVote; [case_decide|..|case_decide|]; done.
  - split; [done|..]; cbn; intros i.
    + intros Hi'%Hb. lia.
    + intros Hi'. destruct (decide (i ≤ index)); [left; lia|].
      destruct (Hc i); [lia|left; lia|by right].
  - split; [done|done|]; cbn. intros i Hi'. destruct (Hc i Hi'); [left; lia|by right].
Qed.

(** ** The invariant of a server *)

Record server_inv (n i : nat) s : Prop := mkServerInv {
  inv_peers : peers (raft s) = n;
  inv_me : me (raft s) = Z.of_nat i;
  inv_wf : wf (raft s);
  inv_durable : durable (raft s);
  inv_arrays : leader_arrays (raft s);
  inv_commit : -1 ≤ commitIndex (raft s);
  inv_applied : -1 ≤ lastApplied (raft s);
  inv_history : history (applyCh s) (raft s);
}.

Lemma history_fresh (rf : Raft Cmd) : lastApplied rf = -1 → history [] rf.
Proof. intros E. split; cbn; [constructor|set_solver|lia]. Qed.

Lemma server_inv_fresh n i env :
  server_inv n i (mkServer (freshRaft n (Z.of_nat i) MakePersister env) 0 []).
Proof.
  split; cbn; try done; [apply wf_freshRaft|apply history_fresh; done].
Qed.

Lemma server_inv_event n i env ev rf ep h rf' :
  ev ≠ EvApply → server_inv n i (mkServer rf ep h) → run_event env ev rf = Ok rf' →
  server_inv n i (mkServer rf' ep h).
Proof.
  intros Hev [Hp Hme Hwf Hd Ha Hc Hla Hh] H. cbn in *.
  pose proof (wf_run_event _ _ _ _ Hwf H) as Hwf'.
  destruct (wf_effect _ _ _ _ Hwf H) as (L & R & He).
  pose proof (effect_monotone _ _ _ _ R He) as (Eme & Ep & _ & ? & ? & _).
  split; cbn; try done; try lia; try congruence.
  - by eapply durable_effect.
  - by eapply leader_arrays_effect.
  - by eapply history_effect.
Qed.

Lemma server_inv_apply n i rf ep h rf' msgs :
  server_inv n i (mkServer rf ep h) → commitToApplyChannelWithLock rf = Ok (rf', msgs) →
  server_inv n i (mkServer rf' ep (h ++ msgs)).
Proof.
  intros [Hp Hme Hwf Hd Ha Hc Hla Hh] H. cbn in *.
  assert (run_event (mkEnv 0 0) EvApply rf = Ok rf') as Hr by (cbn; by rewrite H).
  pose proof (wf_run_event _ _ _ _ Hwf Hr) as Hwf'.
  destruct (wf_effect _ _ _ _ Hwf Hr) as (L & R & He).
  pose proof (effect_monotone _ _ _ _ R He) as (Eme & Ep & _ & ? & ? & _).
  split; cbn; try done; try lia; try congruence.
  - by eapply durable_effect.
  - by eapply leader_arrays_effect.
  - by eapply history_apply.
Qed.

Lemma server_inv_crash n i env rf ep h rf' :
  server_inv n i (mkServer rf ep h) → Make n (Z.of_nat i) (Copy (persister rf)) env = Ok rf' →
  server_inv n i (mkServer rf' (S ep) []) ∧ pdata rf' = pdata rf.
Proof.
  intros [Hp Hme [L R] Hd Ha Hc Hla Hh] H. cbn in *.
  destruct (Make_durable n (Z.of_nat i) rf env Hd) as (rf1 & H1 & Hpd & Hv).
  rewrite H in H1. injection H1 as <-.
  destruct Hv as (E1 & E2 & E3 & E4 & E5 & E6 & E7). cbn in *. split; [|done].
  split; cbn; try done; try lia.
  - exists L. by eapply rep_pdata.
  - unfold durable. rewrite E3, Hpd. exact Hd.
  - unfold leader_arrays. by rewrite E5.
  - by apply history_fresh.
Qed.

Lemma server_inv_step n i env s s' :
  server_inv n i s → server_step n i env s s' → server_inv n i s'.
Proof.
  intros Hs. destruct 1; [done|by eapply server_inv_event|by eapply server_inv_apply|].
  by eapply server_inv_crash.
Qed.

Lemma reachable_inv n w :
  reachable n w → length (servers w) = n ∧ ∀ i s, servers w !! i = Some s → server_inv n i s.
Proof.
  apply reachable_forall; [intros; apply server_inv_fresh|].
  intros. by eapply server_inv_step.
Qed.

(** ** Steps never go back *)

Lemma server_step_terms n i env s s' :
  server_inv n i s → server_step n i env s s' →
  currentTerm (raft s) ≤ currentTerm (raft s') ∧
  snapshotEntriesAmount (raft s) ≤ snapshotEntriesAmount (raft s') ∧
  (epoch s' = epoch s →
   commitIndex (raft s) ≤ commitIndex (raft s') ∧
   lastApplied (raft s) ≤ lastApplied (raft s') ∧ applyCh s `prefix_of` applyCh s').
Proof.
  intros Hinv. destruct 1 as [s|ev rf ep h rf' Hev H|rf ep h rf' msgs H|rf ep h rf' H]; cbn.
  - done.
  - destruct (wf_effect _ _ _ _ (inv_wf _ _ _ Hinv) H) as (L & R & He).
    apply (effect_monotone _ L) in He; [|done]. cbn in He.
    destruct He as (_ & _ & ? & ? & ? & ?). split_and!; [done..|].
    done.
  - assert (run_event (mkEnv 0 0) EvApply rf = Ok rf') as Hr by (cbn; by rewrite H).
    destruct (wf_effect _ _ _ _ (inv_wf _ _ _ Hinv) Hr) as (L & R & He).
    apply (effect_monotone _ L) in He; [|done]. cbn in He.
    destruct He as (_ & _ & ? & ? & ? & ?). split_and!; [done..|].
    intros _. split_and!; [done..|]. by apply prefix_app_r.
  - pose proof (inv_wf _ _ _ Hinv) as [L R].
    destruct (server_inv_crash _ _ _ _ _ _ _ Hinv H) as [_ E].
    unfold pdata in E. injection E as -> _ _ -> _. split_and!; [lia..|].
    intros Hep. cbn in Hep. lia.
Qed.
(** ** The theorems *)

(** C1: in every reachable cluster, stable storage holds exactly the term,
    vote, log and snapshot bounds of every peer, so that a crash of any peer
    at any point succeeds in restarting it with all of them. *)
Theorem crash_recovers_state n env w i s :
  reachable n w → servers w !! i = Some s →
  durable (raft s) ∧
  ∃ w' s', exec env (LCrash i) w = Ok w' ∧ servers w' !! i = Some s' ∧
    pdata (raft s') = pdata (raft s) ∧ status (raft s') = Follower ∧ applyCh s' = [].
Proof.
  intros Hw Hi. destruct (reachable_inv n w Hw) as [Hlen Hinv].
  pose proof (Hinv i s Hi) as Hs. pose proof (inv_durable _ _ _ Hs) as Hd.
  split; [done|]. cbn. unfold getServer. rewrite Hi. cbn.
  destruct (Make_durable (length (servers w)) (Z.of_nat i) (raft s) env Hd)
    as (rf' & -> & Hpd & Hv).
  eexists _, _. split; [done|]. cbn.
  rewrite list_lookup_insert_eq by (by eapply lookup_lt_Some).
  split; [done|]. split_and!; [done| |done]. apply Hv.
Qed.

(** Across every step of the cluster, crashes and restarts included, no
    peer's term and no peer's snapshot go back; between two restarts neither
    does its commit index nor what it has applied, and the messages sent on
    its [applyCh] are only added to. *)
Theorem counters_monotone n env l w w' i s s' :
  reachable n w → exec env l w = Ok w' →
  servers w !! i = Some s → servers w' !! i = Some s' →
  currentTerm (raft s) ≤ currentTerm (raft s') ∧
  snapshotEntriesAmount (raft s) ≤ snapshotEntriesAmount (raft s') ∧
  (epoch s' = epoch s →
   commitIndex (raft s) ≤ commitIndex (raft s') ∧
   lastApplied (raft s) ≤ lastApplied (raft s') ∧ applyCh s `prefix_of` applyCh s').
Proof.
  intros Hw Hexec Hi Hi'. destruct (reachable_inv n w Hw) as [Hlen Hinv].
  apply exec_step in Hexec as [_ Hst]. destruct (Hst i s' Hi') as (s0 & Hi0 & Hstep).
  assert (s0 = s) as -> by congruence. rewrite Hlen in Hstep.
  eapply server_step_terms; [|exact Hstep]. by apply Hinv.
Qed.

(** C7: what a peer of a reachable cluster has sent on [applyCh] since it
    (re)started is strictly increasing in the log index, never exceeds
    [lastApplied], and leaves no gap: every index up to [lastApplied] was
    sent or is covered by the peer's snapshot. *)
Theorem applied_in_order n w i s :
  reachable n w → servers w !! i = Some s →
  StronglySorted Z.lt (msgIndex <$> applyCh s) ∧
  (∀ k, k ∈ msgIndex <$> applyCh s → 0 ≤ k ≤ lastApplied (raft s)) ∧
  (∀ k, 0 ≤ k ≤ lastApplied (raft s) →
     k < snapshotEntriesAmount (raft s) ∨ k ∈ msgIndex <$> applyCh s).
Proof.
  intros Hw Hi. destruct (reachable_inv n w Hw) as [_ Hinv].
  by destruct (inv_history _ _ _ (Hinv i s Hi)).
Qed.
End raft_safety.

Lemma crash_recovers_state_witness :
  ∃ w' s', exec (mkEnv 9 0) (LCrash 0) (initial (Cmd := Z) 1 (mkEnv 0 0)) = Ok w' ∧
    servers w' !! 0%nat = Some s' ∧ status (raft s') = Follower.
Proof.
  destruct (crash_recovers_state 1 (mkEnv 9 0) (initial (Cmd := Z) 1 (mkEnv 0 0)) 0
    (mkServer (freshRaft 1 0 MakePersister (mkEnv 0 0)) 0 []))
    as (_ & w' & s' & H1 & H2 & _ & H3 & _).
  - apply reachable_init.
  - reflexivity.
  - exists w', s'. exact (conj H1 (conj H2 H3)).
Defined.

Lemma counters_monotone_witness :
  let s := mkServer (freshRaft (Cmd := Z) 1 0 MakePersister (mkEnv 0 0)) 0 [] in
  currentTerm (raft s) ≤ currentTerm (becomeCandidate (setNewElectionTime (mkEnv 900 0) (raft s))).
Proof.
  intros s.
  destruct (counters_monotone 1 (mkEnv 900 0) (LTick 0) (initial (Cmd := Z) 1 (mkEnv 0 0))
    (mkWorld [withRaft (becomeCandidate (setNewElectionTime (mkEnv 900 0) (raft s))) s] [] []) 0 s
    (withRaft (becomeCandidate (setNewElectionTime (mkEnv 900 0) (raft s))) s)) as [H _].
  - apply reachable_init.
  - vm_compute. reflexivity.
  - reflexivity.
  - reflexivity.
  - exact H.
Defined.

Lemma applied_in_order_witness :
  let s := mkServer (freshRaft (Cmd := Z) 1 0 MakePersister (mkEnv 0 0)) 0 [] in
  StronglySorted Z.lt (msgIndex <$> applyCh s).
Proof.
  intros s.
  destruct (applied_in_order 1 (initial (Cmd := Z) 1 (mkEnv 0 0)) 0 s) as [H _].
  - apply reachable_init.
  - reflexivity.
  - exact H.
Defined.
