(* ===== verification/RaftScenarios.v ===== *)
(** * Runs of the cluster, evaluated

    Concrete schedules of [RaftWorld], found by their actions rather than by
    task and packet numbers ([Act], [play]) and evaluated by the kernel.  They
    show what the election and replication rules allow in the code as it is:
    two leaders in one term, two peers applying different commands at one
    index, and a delayed AppendEntries that ends a follower's process. *)

From S2P Require Import Prelude Gob Persister RaftState RaftLog RaftVote RaftCommit RaftAppend RaftSnapshot RaftNode RaftWorld.
Open Scope Z_scope.

(** ** Scripts *)

Inductive Act (Cmd : Type) :=
  (** the timer of [i] fires *)
  | Tick (i : nat)
  (** a goroutine of [i] asks [j] for its vote *)
  | Ask (i j : nat)
  (** a goroutine of [i] sends its entries to [j] *)
  | Send (i j : nat)
  (** the newest request from [i] to [j] is delivered *)
  | Deliver (i j : nat)
  (** the oldest one is *)
  | DeliverOld (i j : nat)
  (** [i] treats its oldest unread reply *)
  | Reply (i : nat)
  (** [i] runs its oldest [commitToApplyChannel] *)
  | Apply (i : nat)
  | Submit (i : nat) (c : Cmd).
Arguments Tick {Cmd}.
Arguments Ask {Cmd}.
Arguments Send {Cmd}.
Arguments Deliver {Cmd}.
Arguments DeliverOld {Cmd}.
Arguments Reply {Cmd}.
Arguments Apply {Cmd}.
Arguments Submit {Cmd}.

Section scripts.
Context {Cmd : Type} `{!LabGob (PersistData Cmd)}.

Definition position {A} (f : A → bool) (l : list A) : option nat :=
  fst <$> list_find (λ x, f x = true) l.

Definition last_position {A} (f : A → bool) (l : list A) : option nat :=
  (λ k, (length l - 1 - k)%nat) <$> position f (reverse l).

Definition ownedBy (i : nat) (f : Work Cmd → bool) (t : Task Cmd) : bool :=
  bool_decide (owner t = i) && f (work t).

Definition between (i j : nat) (p : Packet Cmd) : bool :=
  bool_decide (source p = i) && bool_decide (destination p = j).

(** The label an action stands for in a cluster. *)
Definition label_of (a : Act Cmd) (w : World Cmd) : option (Label Cmd) :=
  match a with
  | Tick i => Some (LTick i)
  | Ask i j => LTask <$> position (ownedBy i (λ wk,
      match wk with WSpawn (GoSendRequestVote k) => bool_decide (k = j) | _ => false end)) (tasks w)
  | Send i j => LTask <$> position (ownedBy i (λ wk,
      match wk with WSpawn (GoSendAppendEntries k) => bool_decide (k = j) | _ => false end)) (tasks w)
  | Deliver i j => (λ k, LDeliver k false) <$> last_position (between i j) (packets w)
  | DeliverOld i j => (λ k, LDeliver k false) <$> position (between i j) (packets w)
  | Reply i => LTask <$> position (ownedBy i (λ wk,
      match wk with WVoteReply _ _ | WAppendReply _ _ _ _ | WSnapshotReply _ _ _ _ => true
                  | _ => false end)) (tasks w)
  | Apply i => LTask <$> position (ownedBy i (λ wk,
      match wk with WApply | WServe _ _ _ _ => true | _ => false end)) (tasks w)
  | Submit i c => Some (LStart i c)
  end.

(** Run a script; each action has the time at which it happens. *)
Fixpoint play (script : list (Z * Act Cmd)) (w : World Cmd) : Res (World Cmd) :=
  match script with
  | [] => Ok w
  | (t, a) :: script =>
      match label_of a w with
      | None => Panic "script"
      | Some l => w ← exec (mkEnv t 0) l w; play script w
      end
  end.

Lemma play_reachable n script w w' :
  reachable n w → play script w = Ok w' → reachable n w'.
Proof.
  revert w. induction script as [|[t a] script IH]; intros w Hw H; cbn in H; [by go_inv|].
  destruct (label_of a w) as [l|]; [|done]. go_inv.
  eapply IH; [|done]. by eapply reachable_step.
Qed.

(** Does the world satisfy [f] after the script? *)
Definition after (n : nat) (script : list (Z * Act Cmd)) (f : World Cmd → bool) : bool :=
  match play script (initial n (mkEnv 0 0)) with Ok w => f w | _ => false end.

Lemma after_reachable n script f :
  after n script f = true → ∃ w, reachable n w ∧ f w = true.
Proof.
  unfold after. destruct (play _ _) as [w| |] eqn:E; [|done..].
  intros Hf. exists w. split; [|done]. eapply play_reachable; [apply reachable_init|exact E].
Qed.
End scripts.

(** ** Two leaders in one term *)

Definition Script := list (Z * Act Z).

(** Peer 0 wins the election of term 1 and, as leader, is in term 2. *)
Definition elect0 : Script :=
  [(1000, Tick 0); (1000, Ask 0 1); (1000, Ask 0 2); (1000, Deliver 0 1); (1000, Deliver 0 2);
   (1000, Reply 0); (1000, Reply 0)].

(** Peer 3 stands in term 2 and gets the votes of 1 and 2. *)
Definition elect3 : Script :=
  [(2000, Tick 3); (3000, Tick 3); (3000, Ask 3 1); (3000, Ask 3 2);
   (3000, Deliver 3 1); (3000, Deliver 3 2); (3000, Reply 3); (3000, Reply 3)].

(** The first heartbeats of leader 0, of term 2, reach 1 and 2 afterwards. *)
Definition heartbeat0 : Script :=
  [(3000, Send 0 1); (3000, Send 0 2); (3000, Deliver 0 1); (3000, Deliver 0 2);
   (3000, Apply 1); (3000, Apply 2)].

(** Peer 4 stands in term 2 too. *)
Definition elect4 : Script :=
  [(2000, Tick 4); (3000, Tick 4); (3000, Ask 4 1); (3000, Ask 4 2);
   (3000, Deliver 4 1); (3000, Deliver 4 2); (3000, Reply 4); (3000, Reply 4)].

Definition leaders_of_term (t : Z) (w : World Z) : list nat :=
  imap (λ i s, (i, raft s)) (servers w) ≫= λ p,
    if decide (status p.2 = Leader ∧ currentTerm p.2 = t) then [p.1] else [].

(** ** Two different commands at one index *)

(** Leader [i] gets command [c] onto peers 1 and 2, and applies it. *)
Definition replicate_from (i : nat) (c : Z) : Script :=
  [(3000, Submit i c);
   (3000, Send i 1); (3000, Send i 2); (3000, Deliver i 1); (3000, Deliver i 2);
   (3000, Apply 1); (3000, Apply 2); (3000, Reply i); (3000, Reply i); (3000, Apply i)].

Definition applied_at (i : nat) (k : Z) (w : World Z) : list (Iface Z) :=
  match servers w !! i with
  | None => []
  | Some s => Command <$> filter (λ m, CommandValid m = true ∧ CommandIndex m = k) (applyCh s)
  end.

(** ** A delayed AppendEntries *)

(** Peer 0 of three leads; its first heartbeat to 1 is delayed; a command is
    replicated to 1, committed, and the commit index reaches 1; then the
    delayed heartbeat arrives, before 1 has applied the command. *)
Definition delayed_heartbeat : Script :=
  [(1000, Tick 0); (1000, Ask 0 1); (1000, Deliver 0 1); (1000, Reply 0);
   (1000, Send 0 1); (1000, Submit 0 7); (1025, Tick 0); (1025, Send 0 1); (1025, Deliver 0 1);
   (1025, Apply 1); (1025, Reply 0); (1050, Tick 0); (1050, Send 0 1); (1050, Deliver 0 1);
   (1050, DeliverOld 0 1)].

Definition delivery_fatal (w : World Z) : bool :=
  match label_of (Apply 1) w with
  | Some l => match exec (mkEnv 1050 0) l w with Fatal _ => true | _ => false end
  | None => false
  end.

(** ** The theorems *)

(** Election safety does not hold: a cluster of five peers can reach a
    state with two leaders of the same term.  The leader of term [t] has been
    elected in term [t - 1] ([becomeLeader] increments the term), and its
    requests erase, in every peer they reach, the vote that peer has cast in
    term [t]. *)
Theorem two_leaders_reachable :
  ∃ w, reachable 5 w ∧ leaders_of_term 3 w = [3%nat; 4%nat].
Proof.
  destruct (after_reachable 5 (elect0 ++ elect3 ++ heartbeat0 ++ elect4)
    (λ w, bool_decide (leaders_of_term 3 w = [3%nat; 4%nat]))) as (w & Hw & Hf).
  - vm_compute. reflexivity.
  - exists w. split; [exact Hw|]. by apply bool_decide_eq_true in Hf.
Qed.

(** C38: state machine safety does not hold: continuing with the two leaders,
    two peers of the cluster apply different commands at log index 1. *)
Theorem different_commands_applied :
  ∃ w, reachable 5 w ∧ applied_at 3 1 w = [ICmd 10] ∧ applied_at 4 1 w = [ICmd 20].
Proof.
  destruct (after_reachable 5
    (elect0 ++ elect3 ++ heartbeat0 ++ elect4 ++ replicate_from 3 10 ++ replicate_from 4 20)
    (λ w, bool_decide (applied_at 3 1 w = [ICmd 10] ∧ applied_at 4 1 w = [ICmd 20])))
    as (w & Hw & Hf).
  - vm_compute. reflexivity.
  - exists w. split; [exact Hw|]. by apply bool_decide_eq_true in Hf.
Qed.

(** A delayed heartbeat removes entries the follower has acknowledged, and
    leaves its commit index beyond its log: in a reachable cluster of three
    peers, the next [commitToApplyChannel] of the follower ends its
    process. *)
Theorem delayed_heartbeat_fatal :
  ∃ w, reachable 3 w ∧ delivery_fatal w = true.
Proof.
  apply (after_reachable 3 delayed_heartbeat). vm_compute. reflexivity.
Qed.
