(* ===== verification/RaftElection.v ===== *)
(** * Elections of a cluster

    How votes travel in the cluster of [RaftWorld]: the goroutines that have
    still to ask ([pendOf]), the requests on their way ([flightOf]), and the
    granted replies not yet read ([grantOf]).  [exec_election] says what a
    step of the cluster does to them.

    Election safety, at most one leader in a term, holds in every run in
    which no peer loses its vote within a term ([votes_kept]) and no goroutine
    of an earlier election is left when a peer stands again
    ([elections_apart]): [election_safety].  The code establishes neither:
    [effect_vote] of [RaftNode] says which requests take a vote away and
    [RaftScenarios.two_leaders_reachable] is a run where one does;
    [vote_counted_twice] is a run where one peer's vote makes a leader of a
    cluster of five because [getRequestVoteArgs] reads the term when the
    goroutine runs. *)

From S2P Require Import Prelude Gob Persister RaftState RaftLog RaftVote RaftCommit RaftAppend RaftSnapshot RaftNode RaftWorld RaftSafety RaftScenarios.
Open Scope Z_scope.

Section raft_election.
Context {Cmd : Type} `{!LabGob (PersistData Cmd)}.
Implicit Types (w : World Cmd) (s : Server Cmd) (rf : Raft Cmd) (tr : list (World Cmd)).

(** ** Votes on their way *)

(** Incarnation [e] of peer [i] has still to ask this peer. *)
Definition pendOf (i e : nat) (t : Task Cmd) : list nat :=
  match work t with
  | WSpawn (GoSendRequestVote j) => if decide (owner t = i ∧ taskEpoch t = e) then [j] else []
  | _ => []
  end.

(** Its request for term [T] is on the way to this peer. *)
Definition flightOf (i e : nat) (T : Z) (p : Packet Cmd) : list nat :=
  match request p with
  | RqVote args =>
      if decide (source p = i ∧ sourceEpoch p = e ∧ RV_Term args = T) then [destination p] else []
  | _ => []
  end.

(** It has a vote of term [T] to read. *)
Definition grantOf (i e : nat) (T : Z) (t : Task Cmd) : list unit :=
  match work t with
  | WVoteReply true reply =>
      if decide (owner t = i ∧ taskEpoch t = e ∧ RVR_VoteGranted reply = true ∧ RVR_Term reply = T)
      then [tt] else []
  | _ => []
  end.

Definition outstanding (i e : nat) (T : Z) w : list nat :=
  (packets w ≫= flightOf i e T) ++ (tasks w ≫= pendOf i e).

Definition unread (i e : nat) (T : Z) w : Z := zlen (tasks w ≫= grantOf i e T).

(** A goroutine that neither asks for a vote nor brings one. *)
Definition silent (t : Task Cmd) : Prop :=
  match work t with
  | WSpawn (GoSendRequestVote _) => False
  | WVoteReply true reply => RVR_VoteGranted reply = false
  | _ => True
  end.

Definition no_vote_request (p : Packet Cmd) : Prop :=
  match request p with RqVote _ => False | _ => True end.

Lemma silent_none t i e T : silent t → pendOf i e t = [] ∧ grantOf i e T t = [].
Proof using Type.
  unfold silent, pendOf, grantOf. intros H. destruct (work t) as [[]|[] r| | | |]; try done.
  split; [done|]. rewrite decide_False; [done|]. rewrite H. naive_solver.
Qed.

Lemma no_vote_none p i e T : no_vote_request p → flightOf i e T p = [].
Proof using Type. unfold no_vote_request, flightOf. by destruct (request p). Qed.

(** ** The role of a peer under the events that are not about votes *)

Definition same_role rf rf' : Prop :=
  status rf' = status rf ∧ currentTerm rf' = currentTerm rf ∧ numVoteGathered rf' = numVoteGathered rf.

Definition stays rf rf' : Prop := same_role rf rf' ∨ status rf' = Follower.

Lemma stays_refl rf : stays rf rf.
Proof using Type. by left. Qed.
Hint Resolve stays_refl : core.

Definition about_votes (ev : Event Cmd) : bool :=
  match ev with EvTick | EvRequestVoteReply _ _ => true | _ => false end.

Lemma RequestVote_role env args rf rf' reply :
  wf rf → RequestVote env args rf = Ok (rf', reply) →
  stays rf rf' ∧
  (RVR_VoteGranted reply = true →
     RVR_Term reply = RV_Term args ∧ currentTerm rf' = RV_Term args ∧ votedFor rf' = RV_CandidateId args).
Proof using Type.
  intros [L R] H. rewrite (RequestVote_eq _ _ _ _ R) in H. unfold RequestVote_table in H.
  destruct (grants L args rf); simplify_eq.
  - split; [by right|done].
  - split; [|done]. case_decide; [by right|done].
Qed.

Lemma AppendEntries_role env args rf rf' reply b :
  wf rf → AppendEntriesWithLock env args rf = Ok (rf', reply, b) → stays rf rf'.
Proof using Type.
  intros [L R] H. destruct (decide (0 ≤ AE_PrevLogIndex args)) as [Hpos|Hneg].
  - rewrite (AppendEntriesWithLock_eq _ L _ _ R Hpos) in H. unfold AppendEntries_table in H.
    case_decide; [by simplify_eq|]. right.
    destruct (consistent L args rf); [by simplify_eq|]. case_decide; by simplify_eq.
  - unfold AppendEntriesWithLock in H.
    case_decide; [by simplify_eq|]. cbn zeta in H. rewrite persist_becomeFollower in H.
    case_decide as Hs; [by simplify_eq; right|].
    case_decide as Hl; [by simplify_eq; right|].
    pose proof (rep_bounds _ _ R) as Hb.
    unfold snapshotEntriesAmount, becomeFollower, persist in Hs. raft_simpl.
    go_inv. case_match; [go_inv; by right|]. go_inv.
    match goal with H : removeLogFromIndex _ _ = Ok _ |- _ => rename H into Hr end.
    unfold removeLogFromIndex in Hr. go_inv. rewrite decide_True in Hr by lia. done.
Qed.

(** Only the ticker and the replies to vote requests make candidates and
    leaders, and count votes. *)
Lemma event_role env ev rf rf' :
  wf rf → about_votes ev = false → run_event env ev rf = Ok rf' → stays rf rf'.
Proof using Type.
  intros Hwf Hev H. pose proof Hwf as [L R].
  destruct ev as [|c|args|ok reply|server|args|server args ok reply| |index snapshot
    |args|server args ok reply|]; cbn [run_event] in H; try done.
  - go_inv. unfold Start. case_decide; [done|by left].
  - apply fmap_Ok in H as ([rf1 r] & H & ->). by eapply RequestVote_role.
  - apply fmap_Ok in H as ([[rf1 a] sp] & H & ->). unfold sendAppendEntriesPre in H. go_inv.
    case_decide; [|case_decide]; go_inv; by left.
  - apply fmap_Ok in H as ([[rf1 a] sp] & H & ->). by eapply AppendEntries_role.
  - apply fmap_Ok in H as ([[rf1 sp] b] & H & ->). unfold sendAppendEntriesPost in H. cbn.
    destruct ok; cbn in H; [|by go_inv]. case_decide; [by go_inv|].
    case_match; [|case_match; [|case_decide]]; go_inv.
    + match goal with H : leaderUpdateCommit _ = Ok _ |- _ =>
        apply leaderUpdateCommit_Ok in H as (c & -> & Hc) end. by left.
    + by left.
    + by right.
    + match goal with x : prod _ _ |- _ => destruct x as [rf2 sp2] end. go_inv.
      match goal with H : refused _ _ = Ok _ |- _ => apply refused_Ok in H as [m ->] end. by left.
  - pose proof (commitToApplyChannelWithLock_eq L rf R) as He.
    destruct (apply_table L rf) as [[a msgs]|] eqn:Ea.
    + rewrite He in H. cbn in H. go_inv. by left.
    + destruct He as [why He]. by rewrite He in H.
  - destruct (SnapshotAt_eq L rf index snapshot R) as (H1 & H2 & H3).
    destruct (decide (snapshotEntriesAmount rf ≤ index ≤ commitIndex rf)).
    + destruct (decide (index < zlen L)).
      * rewrite (proj1 (H1 ltac:(done) ltac:(done))) in H. go_inv. by left.
      * destruct (H3 ltac:(done) ltac:(lia)) as [why Hw]. by rewrite Hw in H.
    + rewrite H2 in H by lia. go_inv. done.
  - rewrite (InstallSnapshotLocked_eq _ L _ _ R) in H. cbn in H. go_inv.
    case_decide; [done|]. case_decide; by right.
  - unfold sendInstallSnapshotPost in H. destruct ok; go_inv; [case_decide; [by right|done]|by left].
  - go_inv. by left.
Qed.

(** What a reply to a vote request does to a candidate. *)
Definition counts (ok : bool) (reply : RequestVoteReply) rf : bool :=
  ok && RVR_VoteGranted reply && bool_decide (RVR_Term reply = currentTerm rf).

Lemma VoteReply_role env ok reply rf rf' sp :
  handleSendRequestVote env ok reply rf = (rf', sp) →
  status rf' = Follower ∨
  (status rf' = status rf ∧ currentTerm rf' = currentTerm rf ∧
     numVoteGathered rf' ≤ numVoteGathered rf + Z.b2z (counts ok reply rf)) ∨
  (status rf = Candidate ∧ status rf' = Leader ∧ currentTerm rf' = currentTerm rf + 1 ∧
     Z.of_nat (peers rf) / 2 < numVoteGathered rf + Z.b2z (counts ok reply rf)).
Proof using Type.
  unfold handleSendRequestVote, counts. destruct ok; cbn [negb andb].
  2: { intros [= <- <-]. right; left. cbn. split_and!; done || lia. }
  case_decide as Ht; [intros [= <- <-]; by left|].
  set (c := RVR_VoteGranted reply && bool_decide (RVR_Term reply = currentTerm rf)).
  set (rf1 := if RVR_VoteGranted reply then _ else rf).
  assert (status rf1 = status rf ∧ currentTerm rf1 = currentTerm rf ∧ peers rf1 = peers rf ∧
    numVoteGathered rf1 ≤ numVoteGathered rf + Z.b2z c) as (E1 & E2 & E3 & E4).
  { unfold rf1, c. destruct (RVR_VoteGranted reply); cbn; [|split_and!; done || lia].
    case_bool_decide; [rewrite decide_True by done|rewrite decide_False by done; split_and!; cbn; done || lia].
    unfold gainVote. case_decide; cbn; split_and!; done || lia. }
  clearbody rf1 c. rewrite checkElectionStatus_cases.
  destruct (decide _) as [[Hc Hm]|_]; intros H.
  - assert (rf' = (becomeLeader env rf1).1) as -> by (by rewrite H).
    right; right. rewrite <- E1, <- E2, <- E3. split_and!; [done|done|done|lia].
  - assert (rf1 = rf') as <- by congruence. right; left. by split_and!.
Qed.

(** The goroutines that replication starts. *)
Lemma sendPre_silent server rf rf' a sp i s :
  sendAppendEntriesPre server rf = Ok (rf', a, sp) → Forall silent (spawned (Cmd := Cmd) i s sp).
Proof using Type.
  unfold sendAppendEntriesPre. intros H. go_inv. repeat case_decide; go_inv; cbn.
  all: by repeat constructor.
Qed.

Lemma sendPost_silent env server args ok reply rf rf' sp b i s :
  sendAppendEntriesPost env server args ok reply rf = Ok (rf', sp, b) →
  Forall silent (spawned (Cmd := Cmd) i s sp).
Proof using Type.
  unfold sendAppendEntriesPost. intros H. destruct ok; cbn in H; [|go_inv; constructor].
  case_decide; [go_inv; constructor|]. case_match; [go_inv; constructor|].
  case_match; [go_inv; constructor|]. case_decide; [go_inv; constructor|]. go_inv.
  match goal with x : prod _ _ |- _ => destruct x as [rf2 sp2] end. go_inv.
  match goal with H : refused _ _ = Ok _ |- _ => unfold refused in H end. go_inv.
  match goal with |- context [if ?b then [_] else []] => destruct b end; cbn; by repeat constructor.
Qed.

Lemma broadcast_silent rf i s : Forall silent (spawned (Cmd := Cmd) i s (broadcastAppendEntries rf)).
Proof using Type.
  unfold spawned, broadcastAppendEntries, forOthers. rewrite !Forall_fmap. apply Forall_true. done.
Qed.

Lemma VoteReply_silent env ok reply rf rf' sp i s :
  handleSendRequestVote env ok reply rf = (rf', sp) → Forall silent (spawned (Cmd := Cmd) i s sp).
Proof using Type.
  unfold handleSendRequestVote. destruct ok; cbn [negb]; [|intros [= <- <-]; constructor].
  case_decide; [intros [= <- <-]; constructor|]. rewrite checkElectionStatus_cases.
  destruct (decide (_ ∧ _)) as [_|_]; intros Hs.
  - assert (sp = (becomeLeader env (if RVR_VoteGranted reply then
      if decide (RVR_Term reply = currentTerm rf) then gainVote rf else rf else rf)).2) as -> by (by rewrite Hs).
    apply broadcast_silent.
  - assert (sp = []) as -> by congruence. constructor.
Qed.

(** ** What a step of the cluster does to the votes *)

Definition stands s s' : Prop :=
  same_role (raft s) (raft s') ∧ epoch s' = epoch s ∨ status (raft s') = Follower.

Inductive election_step w w' : Prop :=
  (** no vote is asked for, given or counted *)
  | es_quiet ts ps :
      (∀ i s', servers w' !! i = Some s' → ∃ s, servers w !! i = Some s ∧ stands s s') →
      tasks w' ⊆+ tasks w ++ ts → Forall silent ts →
      packets w' ⊆+ packets w ++ ps → Forall no_vote_request ps → election_step w w'
  (** [i] stands *)
  | es_stand i s rf :
      servers w !! i = Some s → servers w' = <[i := withRaft rf s]> (servers w) →
      status rf = Candidate → currentTerm rf = currentTerm (raft s) + 1 →
      me rf = me (raft s) → votedFor rf = me (raft s) → numVoteGathered rf = 1 →
      tasks w' = tasks w ++ spawned i s (candidateGatherVotes rf) → packets w' = packets w →
      election_step w w'
  (** [i] asks [j] *)
  | es_ask i s j args :
      servers w !! i = Some s → servers w' = servers w →
      RV_Term args = currentTerm (raft s) → RV_CandidateId args = me (raft s) →
      tasks w ≡ₚ mkTask i (epoch s) (WSpawn (GoSendRequestVote j)) :: tasks w' →
      packets w' ≡ₚ mkPacket i (epoch s) j (RqVote args) :: packets w → election_step w w'
  (** a request is answered *)
  | es_answer p args s rf ok reply :
      request p = RqVote args → servers w !! destination p = Some s →
      servers w' = <[destination p := withRaft rf s]> (servers w) → stays (raft s) rf →
      (RVR_VoteGranted reply = true →
         RVR_Term reply = RV_Term args ∧ currentTerm rf = RV_Term args ∧ votedFor rf = RV_CandidateId args) →
      tasks w' = tasks w ++ [mkTask (source p) (sourceEpoch p) (WVoteReply ok reply)] →
      packets w ≡ₚ p :: packets w' → election_step w w'
  (** [i] reads a reply *)
  | es_count i s ok reply rf rest ts :
      servers w !! i = Some s → servers w' = <[i := withRaft rf s]> (servers w) →
      status rf = Follower ∨
      (status rf = status (raft s) ∧ currentTerm rf = currentTerm (raft s) ∧
         numVoteGathered rf ≤ numVoteGathered (raft s) + Z.b2z (counts ok reply (raft s))) ∨
      (status (raft s) = Candidate ∧ status rf = Leader ∧ currentTerm rf = currentTerm (raft s) + 1 ∧
         Z.of_nat (peers (raft s)) / 2 < numVoteGathered (raft s) + Z.b2z (counts ok reply (raft s))) →
      tasks w ≡ₚ mkTask i (epoch s) (WVoteReply ok reply) :: rest → tasks w' = rest ++ ts →
      Forall silent ts → packets w' = packets w → election_step w w'.

(** Server [i] is replaced; goroutines and packets are used up or added. *)
Lemma quiet_update i s s' ts ps w0 w :
  servers w !! i = Some s → servers w0 = servers w → stands s s' →
  tasks w0 ⊆+ tasks w → packets w0 ⊆+ packets w → Forall silent ts → Forall no_vote_request ps →
  election_step w (update i s' ts ps w0).
Proof using Type.
  intros Hi Hs Hst Ht Hp Hts Hps. apply (es_quiet _ _ ts ps); cbn; try done.
  - intros j s1. rewrite Hs. intros [(<- & <- & _)|[_ Hj]]%list_lookup_insert_Some; [by exists s|].
    exists s1. split; [done|]. by left.
  - by apply submseteq_app.
  - by apply submseteq_app.
Qed.

Lemma delete_submseteq {A} k (l : list A) : delete k l ⊆+ l.
Proof using Type. apply sublist_submseteq, sublist_delete. Qed.

Lemma stands_withRaft rf s : stays (raft s) rf → stands s (withRaft rf s).
Proof using Type. intros [?|?]; [by left|by right]. Qed.

Lemma runWork_election env i s wk k t w w' :
  tasks w !! k = Some t → owner t = i → taskEpoch t = epoch s → work t = wk →
  servers w !! i = Some s → wf (raft s) →
  runWork env i s wk (mkWorld (servers w) (delete k (tasks w)) (packets w)) = Ok w' →
  election_step w w'.
Proof using Type.
  intros Hk Ho He Hwk Hi Hwf H. assert (t = mkTask i (epoch s) wk) as -> by (destruct t; cbn in *; congruence).
  clear Ho He Hwk.
  pose proof (delete_Permutation _ _ _ Hk) as Hperm.
  pose proof (delete_submseteq k (tasks w)) as Hsub.
  destruct wk as [[]|ok reply| | | |]; cbn [runWork] in H; go_inv.
  - match goal with H : getRequestVoteArgs _ = Ok _ |- _ => unfold getRequestVoteArgs in H end. go_inv.
    match goal with |- context [RqVote ?a] => apply (es_ask _ _ i s server a) end; cbn; [done| |done|done| |].
    + by apply list_insert_id.
    + by rewrite app_nil_r.
    + by rewrite Permutation_app_comm.
  - match goal with x : prod (prod _ _) _ |- _ => destruct x as [[rf a] sp] end. go_inv.
    match goal with H : sendAppendEntriesPre _ _ = Ok _ |- _ => rename H into Hpre end.
    eapply quiet_update; [exact Hi|done| |exact Hsub|done|by eapply sendPre_silent|].
    + apply stands_withRaft. eapply (event_role env (EvSendAppendEntries server)); [done..|].
      cbn. by rewrite Hpre.
    + destruct a; by repeat constructor.
  - eapply quiet_update; [exact Hi|done|by left|exact Hsub|done|by repeat constructor..].
  - destruct (handleSendRequestVote env ok reply (raft s)) as [rf sp] eqn:E. go_inv.
    eapply (es_count _ _ i s ok reply rf (delete k (tasks w)) (spawned i s sp)); cbn; try done.
    + by eapply VoteReply_role.
    + by eapply VoteReply_silent.
    + by rewrite app_nil_r.
  - match goal with x : prod (prod _ _) _ |- _ => destruct x as [[rf sp] a] end. go_inv.
    match goal with H : sendAppendEntriesPost _ _ _ _ _ _ = Ok _ |- _ => rename H into Hpost end.
    eapply quiet_update; [exact Hi|done| |exact Hsub|done| |constructor].
    + apply stands_withRaft. eapply (event_role env (EvAppendEntriesReply server args ok reply)); [done..|].
      cbn. by rewrite Hpost.
    + apply Forall_app. split; [by eapply sendPost_silent|]. destruct a; by repeat constructor.
  - match goal with H : sendInstallSnapshotPost _ _ _ _ _ _ = Ok _ |- _ => rename H into Hpost end.
    eapply quiet_update; [exact Hi|done| |exact Hsub|done|constructor|constructor].
    apply stands_withRaft. by eapply (event_role env (EvInstallSnapshotReply server args ok reply)).
  - match goal with x : prod _ _ |- _ => destruct x as [rf msgs] end. go_inv.
    match goal with H : commitToApplyChannelWithLock _ = Ok _ |- _ => rename H into Ha end.
    eapply quiet_update; [exact Hi|done| |exact Hsub|done|constructor|constructor].
    destruct (event_role env EvApply (raft s) rf) as [?|?]; [done..|cbn; by rewrite Ha|by left|by right].
  - match goal with x : prod _ _ |- _ => destruct x as [rf msgs] end. go_inv.
    match goal with H : commitToApplyChannelWithLock _ = Ok _ |- _ => rename H into Ha end.
    eapply quiet_update; [exact Hi|done| |exact Hsub|done|by repeat constructor|constructor].
    destruct (event_role env EvApply (raft s) rf) as [?|?]; [done..|cbn; by rewrite Ha|by left|by right].
Qed.

Lemma serve_election env p s k lost w w' :
  packets w !! k = Some p → servers w !! destination p = Some s → wf (raft s) →
  serve env (destination p) s p lost (mkWorld (servers w) (tasks w) (delete k (packets w))) = Ok w' →
  election_step w w'.
Proof using Type.
  intros Hk Hi Hwf H. pose proof (delete_Permutation _ _ _ Hk) as Hperm.
  pose proof (delete_submseteq k (packets w)) as Hsub.
  unfold serve in H. destruct (request p) as [args|args|args] eqn:Hreq; go_inv.
  - match goal with x : prod _ _ |- _ => destruct x as [rf reply] end. go_inv.
    match goal with H : RequestVote _ _ _ = Ok _ |- _ => apply RequestVote_role in H as [? ?]; [|done] end.
    eapply (es_answer _ _ p args s rf (negb lost) reply); cbn; try done. by rewrite app_nil_r.
  - match goal with x : prod (prod _ _) _ |- _ => destruct x as [[rf reply] a] end. go_inv.
    match goal with H : AppendEntriesWithLock _ _ _ = Ok _ |- _ => apply AppendEntries_role in H; [|done] end.
    eapply quiet_update; [exact Hi|done|by apply stands_withRaft|done|exact Hsub| |constructor].
    destruct a, lost; by repeat constructor.
  - match goal with x : prod (prod _ _) _ |- _ => destruct x as [[rf reply] a] end. go_inv.
    match goal with H : InstallSnapshotLocked _ _ _ = Ok _ |- _ => rename H into Hins end.
    eapply quiet_update; [exact Hi|done| |done|exact Hsub|by repeat constructor|constructor].
    apply stands_withRaft. eapply (event_role env (EvInstallSnapshot args)); [done..|]. cbn. by rewrite Hins.
Qed.

Lemma Make_follower n me ps env rf : Make n me ps env = Ok rf → status rf = Follower.
Proof using Type.
  unfold Make, readPersist. intros H. case_match; go_inv; [done|].
  destruct (gob_decode _) as [[[[[? ?] ?] ?] ?]|]; by go_inv.
Qed.

Lemma ticker_election env i s w :
  servers w !! i = Some s →
  election_step w (update i (withRaft (ticker env (raft s)).1 s) (spawned i s (ticker env (raft s)).2) [] w).
Proof using Type.
  intros Hi. assert (∀ ts, Forall silent ts → election_step w (update i (withRaft (raft s) s) ts [] w)) as Hq.
  { intros ts Hts. by eapply quiet_update; [exact Hi|done|by left|done..|constructor]. }
  unfold ticker. case_match; [by apply Hq|]. case_match; [apply Hq, broadcast_silent|].
  case_decide; [|by apply Hq].
  eapply (es_stand _ _ i s (becomeCandidate (setNewElectionTime env (raft s)))); try done.
  cbn. by rewrite app_nil_r.
Qed.

Lemma exec_election env l w w' :
  (∀ i s, servers w !! i = Some s → wf (raft s)) → exec env l w = Ok w' → election_step w w'.
Proof using Type.
  intros Hwf H. destruct l as [i|k|k lost|k|i c|i index data|i|i]; cbn [exec] in H.
  - go_inv. match goal with H : getServer _ _ = _ |- _ => apply getServer_Ok in H as Hi end.
    pose proof (ticker_election env i _ w Hi) as Ht.
    destruct (ticker env _) as [rf sp] eqn:E. by go_inv.
  - destruct (tasks w !! k) as [t|] eqn:Hk; [|done]. go_inv.
    match goal with H : getServer _ _ = _ |- _ => apply getServer_Ok in H as Hi; cbn in Hi end.
    case_decide; [by eapply runWork_election; [..|by eauto|eassumption]|].
    go_inv. apply (es_quiet _ _ [] []); cbn; rewrite ?app_nil_r; try done; [|apply delete_submseteq].
    intros j s' Hj. exists s'. split; [done|by left].
  - destruct (packets w !! k) as [p|] eqn:Hk; [|done]. go_inv.
    match goal with H : getServer _ _ = _ |- _ => apply getServer_Ok in H as Hi; cbn in Hi end.
    by eapply serve_election; [..|by eauto|eassumption].
  - destruct (packets w !! k) as [p|] eqn:Hk; [|done]. go_inv.
    apply (es_quiet _ _ [failedCall p] []); cbn; rewrite ?app_nil_r; try done.
    + intros j s' Hj. exists s'. split; [done|by left].
    + unfold failedCall. destruct (request p); by repeat constructor.
    + apply delete_submseteq.
  - go_inv. match goal with H : getServer _ _ = _ |- _ => apply getServer_Ok in H as Hi end.
    eapply quiet_update; [exact Hi|done| |done..|constructor|constructor].
    apply stands_withRaft. by eapply (event_role env (EvStart (ICmd c))); [by eauto|..].
  - go_inv. match goal with H : getServer _ _ = _ |- _ => apply getServer_Ok in H as Hi end.
    eapply quiet_update; [exact Hi|done| |done..|constructor|constructor].
    apply stands_withRaft. by eapply (event_role env (EvSnapshot index data)); [by eauto|..].
  - go_inv. match goal with H : getServer _ _ = _ |- _ => apply getServer_Ok in H as Hi end.
    eapply quiet_update; [exact Hi|done| |done..|constructor|constructor].
    apply stands_withRaft. by eapply (event_role env EvKill); [by eauto|..].
  - go_inv. match goal with H : getServer _ _ = _ |- _ => apply getServer_Ok in H as Hi end.
    eapply quiet_update; [exact Hi|done| |done..|constructor|constructor].
    right. cbn. by eapply Make_follower.
Qed.

(** ** Runs in which votes are kept *)

(** No peer changes its vote within a term. *)
Definition votes_kept w w' : Prop :=
  ∀ i s s', servers w !! i = Some s → servers w' !! i = Some s' →
    currentTerm (raft s') = currentTerm (raft s) → votedFor (raft s) ≠ -1 →
    votedFor (raft s') = votedFor (raft s).

(** A peer that stands has no goroutine of an earlier election that has still
    to ask. *)
Definition elections_apart w w' : Prop :=
  ∀ i s s', servers w !! i = Some s → servers w' !! i = Some s' →
    status (raft s') = Candidate → currentTerm (raft s) < currentTerm (raft s') →
    (tasks w ≫= pendOf i (epoch s)) = [].

(** The clusters of such a run of [n] peers, the latest first. *)
Inductive orderly (n : nat) : list (World Cmd) → Prop :=
  | orderly_start env : orderly n [initial n env]
  | orderly_step env l w w' tr :
      orderly n (w :: tr) → exec env l w = Ok w' → votes_kept w w' → elections_apart w w' →
      orderly n (w' :: w :: tr).

Lemma orderly_reachable n w tr : orderly n (w :: tr) → reachable n w.
Proof using Type.
  remember (w :: tr) as tr1 eqn:E. intros H. revert w tr E.
  induction H as [env|env l w w' tr H IH Hex _ _]; intros w1 tr1 [= <- <-]; [constructor|].
  eapply reachable_step; [by eapply IH|done].
Qed.

(** In some cluster of [tr], peer [j] was in term [t] with a vote for [c]. *)
Definition cast tr (j : nat) (t c : Z) : Prop :=
  ∃ w s, w ∈ tr ∧ servers w !! j = Some s ∧ currentTerm (raft s) = t ∧ votedFor (raft s) = c ∧ c ≠ -1.

Lemma cast_cons w tr j t c : cast tr j t c → cast (w :: tr) j t c.
Proof using Type. intros (w1 & s & Hw & ?). exists w1, s. split; [by right|done]. Qed.

Lemma cast_here w tr j s t c :
  servers w !! j = Some s → currentTerm (raft s) = t → votedFor (raft s) = c → c ≠ -1 → cast (w :: tr) j t c.
Proof using Type. intros. exists w, s. split; [by left|done]. Qed.

(** [B] has given candidate [i] of [w] its votes, which are the ones counted
    and the ones not yet read; nobody else is asked twice. *)
Definition ballot tr i s w (B : list nat) : Prop :=
  NoDup (i :: B ++ outstanding i (epoch s) (currentTerm (raft s)) w) ∧
  (∀ j, j ∈ i :: B → cast tr j (currentTerm (raft s)) (Z.of_nat i)) ∧
  numVoteGathered (raft s) - 1 + unread i (epoch s) (currentTerm (raft s)) w ≤ zlen B.

(** A majority has voted for [i] in term [t]. *)
Definition majority tr n (i : nat) (t : Z) : Prop :=
  ∃ B, NoDup B ∧ (∀ j, j ∈ B → cast tr j t (Z.of_nat i)) ∧ Z.of_nat n / 2 < zlen B.

Record votes_inv n tr w : Prop := mkVotesInv {
  vi_terms : ∀ w0 i s0 s, w0 ∈ tr → servers w0 !! i = Some s0 → servers w !! i = Some s →
    currentTerm (raft s0) ≤ currentTerm (raft s);
  vi_now : ∀ j s c, cast tr j (currentTerm (raft s)) c → servers w !! j = Some s → votedFor (raft s) = c;
  vi_once : ∀ j t c c', cast tr j t c → cast tr j t c' → c = c';
  vi_packets : ∀ p args, p ∈ packets w → request p = RqVote args →
    destination p ≠ source p ∧ RV_CandidateId args = Z.of_nat (source p) ∧
    ∀ s, servers w !! source p = Some s → RV_Term args ≤ currentTerm (raft s);
  vi_replies : ∀ t reply s, t ∈ tasks w → work t = WVoteReply true reply → RVR_VoteGranted reply = true →
    servers w !! owner t = Some s → RVR_Term reply ≤ currentTerm (raft s);
  vi_asks : ∀ t j, t ∈ tasks w → work t = WSpawn (GoSendRequestVote j) → j ≠ owner t;
  vi_candidate : ∀ i s, servers w !! i = Some s → status (raft s) = Candidate → ∃ B, ballot tr i s w B;
  vi_leader : ∀ i s, servers w !! i = Some s → status (raft s) = Leader →
    majority tr n i (currentTerm (raft s) - 1);
}.

(** *** The part about terms and votes *)

Section step.
Context (n : nat) (w w' : World Cmd) (tr : list (World Cmd)).
Context (Hlen : length (servers w) = n) (Hinv : votes_inv n (w :: tr) w).
Context (Hsrv : ∀ i s, servers w !! i = Some s → server_inv n i s).
Context (Hback : ∀ i s', servers w' !! i = Some s' →
  ∃ s, servers w !! i = Some s ∧ currentTerm (raft s) ≤ currentTerm (raft s')).
Context (Hkept : votes_kept w w') (Hapart : elections_apart w w').

Lemma step_terms w0 i s0 s' : w0 ∈ w' :: w :: tr → servers w0 !! i = Some s0 → servers w' !! i = Some s' →
  currentTerm (raft s0) ≤ currentTerm (raft s').
Proof using All.
  intros [->|Hw]%elem_of_cons H0 H'; [by simplify_eq|]. destruct (Hback i s' H') as (s & Hs & ?).
  pose proof (vi_terms _ _ _ Hinv w0 i s0 s Hw H0 Hs). lia.
Qed.

Lemma step_now j s' c : cast (w' :: w :: tr) j (currentTerm (raft s')) c → servers w' !! j = Some s' →
  votedFor (raft s') = c.
Proof using All.
  intros (w0 & s0 & Hw & H0 & Ht & Hv & Hc) H'. apply elem_of_cons in Hw as [->|Hw]; [by simplify_eq|].
  destruct (Hback j s' H') as (s & Hs & ?). pose proof (vi_terms _ _ _ Hinv w0 j s0 s Hw H0 Hs).
  assert (currentTerm (raft s') = currentTerm (raft s)) as E by lia.
  assert (votedFor (raft s) = c) as Hc'.
  { eapply (vi_now _ _ _ Hinv); [|exact Hs]. exists w0, s0. split_and!; try done. lia. }
  rewrite <- Hc'. apply (Hkept j); try done. congruence.
Qed.

Lemma step_once j t c c' : cast (w' :: w :: tr) j t c → cast (w' :: w :: tr) j t c' → c = c'.
Proof using All.
  assert (∀ c c', cast (w' :: w :: tr) j t c → cast [w'] j t c' → c' = c) as H.
  { intros d d' Hd (w0 & s0 & ->%list_elem_of_singleton & H0 & <- & <- & _). by eapply step_now. }
  assert (∀ c, cast (w' :: w :: tr) j t c → cast [w'] j t c ∨ cast (w :: tr) j t c) as Hor.
  { intros d (w0 & s0 & [->|Hw]%elem_of_cons & H0).
    - left. exists w', s0. split; [by left|done].
    - right. by exists w0, s0. }
  intros H1 H2. destruct (Hor _ H1) as [H1'|H1']; [by eapply (H c' c)|].
  destruct (Hor _ H2) as [H2'|H2']; [symmetry; by eapply (H c c')|].
  by eapply (vi_once _ _ _ Hinv).
Qed.

(** *** The messages *)

Lemma packets_keep :
  (∀ p, p ∈ packets w' → p ∈ packets w ∨ no_vote_request p) →
  ∀ p args, p ∈ packets w' → request p = RqVote args →
    destination p ≠ source p ∧ RV_CandidateId args = Z.of_nat (source p) ∧
    ∀ s, servers w' !! source p = Some s → RV_Term args ≤ currentTerm (raft s).
Proof using All.
  intros Hp p args Hin Hreq. destruct (Hp p Hin) as [Hin'|Hno]; [|unfold no_vote_request in Hno; by rewrite Hreq in Hno].
  destruct (vi_packets _ _ _ Hinv p args Hin' Hreq) as (H1 & H2 & H3). split_and!; [done..|].
  intros s' Hs'. destruct (Hback _ _ Hs') as (s & Hs & ?). specialize (H3 s Hs). lia.
Qed.

Lemma replies_keep :
  (∀ t, t ∈ tasks w' → t ∈ tasks w ∨ ∀ reply, work t = WVoteReply true reply → RVR_VoteGranted reply = false) →
  ∀ t reply s, t ∈ tasks w' → work t = WVoteReply true reply → RVR_VoteGranted reply = true →
    servers w' !! owner t = Some s → RVR_Term reply ≤ currentTerm (raft s).
Proof using All.
  intros Ht t reply s' Hin Hwk Hg Hs'. destruct (Ht t Hin) as [Hin'|Hno]; [|rewrite (Hno _ Hwk) in Hg; done].
  destruct (Hback _ _ Hs') as (s & Hs & ?). pose proof (vi_replies _ _ _ Hinv t reply s Hin' Hwk Hg Hs). lia.
Qed.

Lemma asks_keep :
  (∀ t, t ∈ tasks w' → t ∈ tasks w ∨ ∀ j, work t = WSpawn (GoSendRequestVote j) → j ≠ owner t) →
  ∀ t j, t ∈ tasks w' → work t = WSpawn (GoSendRequestVote j) → j ≠ owner t.
Proof using All.
  intros Ht t j Hin Hwk. destruct (Ht t Hin) as [Hin'|Hno]; [by eapply (vi_asks _ _ _ Hinv)|by apply Hno].
Qed.

Lemma silent_reply t reply : silent t → work t = WVoteReply true reply → RVR_VoteGranted reply = false.
Proof using All. unfold silent. intros H E. by rewrite E in H. Qed.

Lemma silent_ask t j : silent t → work t = WSpawn (GoSendRequestVote j) → j ≠ owner t.
Proof using All. unfold silent. intros H E. by rewrite E in H. Qed.

(** The peers a candidate asks. *)
Lemma elem_gather t i s rf : t ∈ spawned i s (candidateGatherVotes rf) →
  ∃ j, t = mkTask i (epoch s) (WSpawn (GoSendRequestVote j)) ∧ Z.of_nat j ≠ me rf.
Proof using All.
  unfold spawned, candidateGatherVotes, forOthers. rewrite list_elem_of_fmap. intros (sp & -> & Hsp).
  apply list_elem_of_fmap in Hsp as (j & -> & Hj). apply list_elem_of_filter in Hj as [? _]. eauto.
Qed.

Lemma step_messages : election_step w w' →
  (∀ p args, p ∈ packets w' → request p = RqVote args →
    destination p ≠ source p ∧ RV_CandidateId args = Z.of_nat (source p) ∧
    ∀ s, servers w' !! source p = Some s → RV_Term args ≤ currentTerm (raft s)) ∧
  (∀ t reply s, t ∈ tasks w' → work t = WVoteReply true reply → RVR_VoteGranted reply = true →
    servers w' !! owner t = Some s → RVR_Term reply ≤ currentTerm (raft s)) ∧
  (∀ t j, t ∈ tasks w' → work t = WSpawn (GoSendRequestVote j) → j ≠ owner t).
Proof using All.
  destruct 1 as [ts ps Hst Ht Hts Hp Hps|i s rf Hi Hs' Hc Htm Hme Hv Hnv Ht Hp|i s j args Hi Hs' Htm Hid Ht Hp
    |p args s rf ok reply Hreq Hi Hs' Hst Hg Ht Hp|i s ok reply rf rest ts Hi Hs' Hcase Ht Ht' Hts Hp].
  - assert (∀ t, t ∈ tasks w' → t ∈ tasks w ∨ silent t) as Hin.
    { intros t Htt. apply (λ H, elem_of_submseteq _ _ _ H Ht) in Htt. apply elem_of_app in Htt as [?|Htt]; [by left|].
      right. by eapply Forall_forall in Hts. }
    split_and!.
    + apply packets_keep. intros p Hpp. apply (λ H, elem_of_submseteq _ _ _ H Hp) in Hpp.
      apply elem_of_app in Hpp as [?|Hpp]; [by left|]. right. by eapply Forall_forall in Hps.
    + apply replies_keep. intros t [?|?]%Hin; [by left|right]. intros. by eapply silent_reply.
    + apply asks_keep. intros t [?|?]%Hin; [by left|right]. intros. by eapply silent_ask.
  - split_and!.
    + apply packets_keep. rewrite Hp. auto.
    + apply replies_keep. rewrite Ht. intros t [?|(j & -> & _)%elem_gather]%elem_of_app; [by left|by right].
    + apply asks_keep. rewrite Ht. intros t [?|(j & -> & Hj)%elem_gather]%elem_of_app; [by left|right].
      intros k [= <-]. cbn. intros ->. apply Hj.
      by rewrite Hme, (inv_me _ _ _ (Hsrv _ _ Hi)).
  - assert (∀ t, t ∈ tasks w' → t ∈ tasks w) as Hin by (intros t; rewrite Ht; by right).
    split_and!.
    + intros p a Hin' Hreq. rewrite Hp in Hin'. apply elem_of_cons in Hin' as [->|Hin'].
      * cbn in *. simplify_eq. split_and!.
        -- apply (vi_asks _ _ _ Hinv (mkTask i (epoch s) (WSpawn (GoSendRequestVote j)))); [|done].
           rewrite Ht. by left.
        -- by rewrite Hid, (inv_me _ _ _ (Hsrv _ _ Hi)).
        -- intros s1. rewrite Hs', Hi. intros [= <-]. lia.
      * destruct (vi_packets _ _ _ Hinv p a Hin' Hreq) as (H1 & H2 & H3). split_and!; [done..|].
        by rewrite Hs'.
    + apply replies_keep. auto.
    + apply asks_keep. auto.
  - split_and!.
    + apply packets_keep. intros q Hq. left. rewrite Hp. by right.
    + intros t r s1. rewrite Ht. intros [Hin| ->%list_elem_of_singleton]%elem_of_app Hwk Hgr Hs1.
      * destruct (Hback _ _ Hs1) as (s2 & Hs2 & ?). pose proof (vi_replies _ _ _ Hinv t r s2 Hin Hwk Hgr Hs2). lia.
      * cbn in *. simplify_eq. destruct (Hg Hgr) as (-> & _).
        destruct (vi_packets _ _ _ Hinv p args) as (_ & _ & H3); [rewrite Hp; by left|done|].
        destruct (Hback _ _ Hs1) as (s2 & Hs2 & ?). specialize (H3 _ Hs2). lia.
    + apply asks_keep. rewrite Ht. intros t [?| ->%list_elem_of_singleton]%elem_of_app; [by left|by right].
  - assert (∀ t, t ∈ tasks w' → t ∈ tasks w ∨ silent t) as Hin.
    { intros t. rewrite Ht', Ht. intros [?|Htt]%elem_of_app; [left; by right|].
      right. by eapply Forall_forall in Hts. }
    split_and!.
    + apply packets_keep. rewrite Hp. auto.
    + apply replies_keep. intros t [?|?]%Hin; [by left|right]. intros. by eapply silent_reply.
    + apply asks_keep. intros t [?|?]%Hin; [by left|right]. intros. by eapply silent_ask.
Qed.

(** *** The ballots *)

Lemma bind_submseteq {A B} (f : A → list B) l k : l ⊆+ k → (l ≫= f) ⊆+ (k ≫= f).
Proof using All.
  intros [k' ->]%submseteq_Permutation. rewrite bind_app. by apply submseteq_inserts_r.
Qed.

Lemma NoDup_submseteq_l {A} (l k : list A) : l ⊆+ k → NoDup k → NoDup l.
Proof using All. intros [k' ->]%submseteq_Permutation. by intros [? _]%NoDup_app. Qed.

Lemma silent_binds ts i e T : Forall silent ts → (ts ≫= pendOf i e) = [] ∧ (ts ≫= grantOf i e T) = [].
Proof using All.
  induction 1 as [|t ts Ht _ [IH1 IH2]]; [done|]. destruct (silent_none t i e T Ht) as [E1 E2].
  cbn. by rewrite E1, E2, IH1, IH2.
Qed.

Lemma no_vote_binds ps i e T : Forall no_vote_request ps → (ps ≫= flightOf i e T) = [].
Proof using All.
  induction 1 as [|p ps Hp _ IH]; [done|]. cbn. by rewrite (no_vote_none p i e T Hp), IH.
Qed.

(** A candidate that is still one: nobody new is asked, and the votes counted
    or not yet read have been given. *)
Lemma ballot_keep i s s' B B' :
  ballot (w :: tr) i s w B →
  epoch s' = epoch s → currentTerm (raft s') = currentTerm (raft s) →
  B' ++ outstanding i (epoch s) (currentTerm (raft s)) w' ⊆+ B ++ outstanding i (epoch s) (currentTerm (raft s)) w →
  (∀ j, j ∈ B' → j ∈ B ∨ cast (w' :: w :: tr) j (currentTerm (raft s)) (Z.of_nat i)) →
  numVoteGathered (raft s') - 1 + unread i (epoch s) (currentTerm (raft s)) w' ≤ zlen B' →
  ballot (w' :: w :: tr) i s' w' B'.
Proof using All.
  intros (Hnd & Hc & Hn) He Ht Hsub HB Hn'. unfold ballot. rewrite He, Ht. split_and!; [| |done].
  - eapply NoDup_submseteq_l; [|exact Hnd]. by apply submseteq_skip.
  - intros j [->|Hj]%elem_of_cons; [apply cast_cons, Hc; by left|].
    destruct (HB j Hj) as [?|?]; [|done]. apply cast_cons, Hc. by right.
Qed.

(** The same ballot, when no message matters. *)
Lemma ballot_same i s s' B :
  ballot (w :: tr) i s w B → stands s s' → status (raft s') = Candidate →
  outstanding i (epoch s) (currentTerm (raft s)) w' ⊆+ outstanding i (epoch s) (currentTerm (raft s)) w →
  unread i (epoch s) (currentTerm (raft s)) w' ≤ unread i (epoch s) (currentTerm (raft s)) w →
  ballot (w' :: w :: tr) i s' w' B.
Proof using All.
  intros Hb [[(E1 & E2 & E3) He]|Hf] Hc Hsub Hu; [|congruence].
  eapply ballot_keep; [exact Hb|done|done|by apply submseteq_app|by left|].
  destruct Hb as (_ & _ & ?). rewrite E3. lia.
Qed.

Lemma stands_refl s : stands s s.
Proof using All. by left. Qed.

(** What a list of goroutines adds to those it is appended to. *)
Lemma outstanding_app ts ps i e T :
  tasks w' = tasks w ++ ts → packets w' = packets w ++ ps →
  outstanding i e T w' ≡ₚ (ps ≫= flightOf i e T) ++ (ts ≫= pendOf i e) ++ outstanding i e T w.
Proof using All. intros Et Ep. unfold outstanding. rewrite Et, Ep, !bind_app. solve_Permutation. Qed.

(** The others are asked once. *)
Lemma gather_asks i s rf e k : 
  (spawned i s (candidateGatherVotes rf) ≫= pendOf k e) =
  if decide (i = k ∧ epoch s = e) then filter (λ j, Z.of_nat j ≠ me rf) (seq 0 (peers rf)) else [].
Proof using All.
  unfold spawned, candidateGatherVotes, forOthers.
  induction (filter _ (seq 0 (peers rf))) as [|j l IH]; cbn; [by case_decide|].
  rewrite IH. by case_decide.
Qed.

Lemma gather_grants i s rf e k T : (spawned i s (candidateGatherVotes rf) ≫= grantOf k e T) = [].
Proof using All.
  unfold spawned, candidateGatherVotes, forOthers.
  by induction (filter _ (seq 0 (peers rf))).
Qed.

Lemma bind_nil_iff {A B} (f : A → list B) l : (∀ x, x ∈ l → f x = []) → (l ≫= f) = [].
Proof using All.
  induction l as [|x l IH]; intros H; [done|]. cbn. rewrite H by (by left).
  apply IH. intros y Hy. apply H. by right.
Qed.

(** No request and no vote is of a term its peer has not reached. *)
Lemma no_flight i s T : servers w !! i = Some s → currentTerm (raft s) < T →
  (packets w ≫= flightOf i (epoch s) T) = [].
Proof using All.
  intros Hi HT. apply bind_nil_iff. intros p Hp. unfold flightOf.
  destruct (request p) as [args| |] eqn:E; try done. rewrite decide_False; [done|].
  intros (<- & _ & HT'). destruct (vi_packets _ _ _ Hinv p args Hp E) as (_ & _ & H3).
  specialize (H3 s Hi). lia.
Qed.

Lemma no_grant i s T : servers w !! i = Some s → currentTerm (raft s) < T →
  (tasks w ≫= grantOf i (epoch s) T) = [].
Proof using All.
  intros Hi HT. apply bind_nil_iff. intros t Htk. unfold grantOf.
  destruct (work t) as [|[] reply| | | |] eqn:E; try done. rewrite decide_False; [done|].
  intros (<- & _ & Hg & HT'). pose proof (vi_replies _ _ _ Hinv t reply s Htk E Hg Hi). lia.
Qed.

(** One lemma for each kind of step: the candidates after it have ballots. *)
Definition candidates_ok : Prop :=
  ∀ i s', servers w' !! i = Some s' → status (raft s') = Candidate →
    ∃ B, ballot (w' :: w :: tr) i s' w' B.

Lemma stands_candidate s s' : stands s s' → status (raft s') = Candidate → status (raft s) = Candidate.
Proof using All. intros [[(E & _ & _) _]|E] H; congruence. Qed.

(** The steps that leave the candidates standing, and ask and bring nothing
    new. *)
Lemma candidates_quiet :
  (∀ i s', servers w' !! i = Some s' → ∃ s, servers w !! i = Some s ∧ stands s s') →
  (∀ i e T, outstanding i e T w' ⊆+ outstanding i e T w) → (∀ i e T, unread i e T w' ≤ unread i e T w) →
  candidates_ok.
Proof using All.
  intros Hst Ho Hu i s' Hi' Hc. destruct (Hst i s' Hi') as (s & Hi & Hs).
  destruct (vi_candidate _ _ _ Hinv i s Hi) as [B HB]; [by eapply stands_candidate|].
  exists B. by eapply ballot_same.
Qed.

Lemma insert_stands i s s1 : servers w !! i = Some s → servers w' = <[i := s1]> (servers w) → stands s s1 →
  ∀ k s', servers w' !! k = Some s' → ∃ s0, servers w !! k = Some s0 ∧ stands s0 s'.
Proof using All.
  intros Hi -> Hs k s' [(<- & <- & _)|[_ Hk]]%list_lookup_insert_Some; eauto using stands_refl.
Qed.

Lemma candidates_stand i s rf :
  servers w !! i = Some s → servers w' = <[i := withRaft rf s]> (servers w) →
  status rf = Candidate → currentTerm rf = currentTerm (raft s) + 1 →
  me rf = me (raft s) → votedFor rf = me (raft s) → numVoteGathered rf = 1 →
  tasks w' = tasks w ++ spawned i s (candidateGatherVotes rf) → packets w' = packets w → candidates_ok.
Proof using All.
  intros Hi Hs' Hc Htm Hme Hv Hn Ht Hp k s' Hk Hck. pose proof (inv_me _ _ _ (Hsrv _ _ Hi)) as Hmei.
  assert (servers w' !! i = Some (withRaft rf s)) as Hi'.
  { rewrite Hs'. apply list_lookup_insert_eq. by eapply lookup_lt_Some. }
  destruct (decide (k = i)) as [->|Hne].
  - assert (s' = withRaft rf s) as -> by congruence. exists []. unfold ballot, outstanding, unread.
    cbn [withRaft raft epoch]. rewrite Ht, Hp, !bind_app, gather_asks, gather_grants, decide_True by done.
    rewrite (no_flight i s), (no_grant i s) by (done || lia). cbn [app].
    assert ((tasks w ≫= pendOf i (epoch s)) = []) as ->.
    { apply (Hapart i s (withRaft rf s)); cbn; done || lia. }
    cbn [app]. split_and!.
    + constructor; [|apply NoDup_filter, NoDup_seq]. rewrite list_elem_of_filter. intros [Hne _]. apply Hne. congruence.
    + intros j ->%list_elem_of_singleton. eapply cast_here; [exact Hi'|done|cbn; congruence|lia].
    + cbn. lia.
  - rewrite Hs', list_lookup_insert_ne in Hk by done.
    destruct (vi_candidate _ _ _ Hinv k s' Hk Hck) as [B HB]. exists B.
    apply (ballot_same k s' s'); [done|apply stands_refl|done|..].
    + unfold outstanding. rewrite Ht, Hp, bind_app, gather_asks, decide_False by naive_solver. by rewrite app_nil_r.
    + unfold unread. by rewrite Ht, bind_app, gather_grants, app_nil_r.
Qed.

Lemma candidates_ask i s j args :
  servers w' = servers w → RV_Term args = currentTerm (raft s) → servers w !! i = Some s →
  tasks w ≡ₚ mkTask i (epoch s) (WSpawn (GoSendRequestVote j)) :: tasks w' →
  packets w' ≡ₚ mkPacket i (epoch s) j (RqVote args) :: packets w → candidates_ok.
Proof using All.
  intros Hs' Htm Hi Ht Hp k sk Hk Hc. rewrite Hs' in Hk.
  destruct (vi_candidate _ _ _ Hinv k sk Hk Hc) as [B HB]. exists B.
  apply (ballot_same k sk sk); [done|apply stands_refl|done|..].
  - unfold outstanding. rewrite Ht, Hp. cbn. unfold flightOf at 1, pendOf at 2. cbn. rewrite Htm.
    destruct (decide (i = k)) as [->|Hne].
    + assert (sk = s) as -> by congruence. rewrite !decide_True by done. cbn.
      by rewrite Permutation_middle.
    + rewrite !decide_False by naive_solver. done.
  - unfold unread. rewrite Ht. done.
Qed.

(** A request of candidate [k] is on its way to [d], or it is somebody else's. *)
Lemma candidates_answer p args s rf ok reply :
  request p = RqVote args → servers w !! destination p = Some s →
  servers w' = <[destination p := withRaft rf s]> (servers w) → stays (raft s) rf →
  (RVR_VoteGranted reply = true →
     RVR_Term reply = RV_Term args ∧ currentTerm rf = RV_Term args ∧ votedFor rf = RV_CandidateId args) →
  tasks w' = tasks w ++ [mkTask (source p) (sourceEpoch p) (WVoteReply ok reply)] →
  packets w ≡ₚ p :: packets w' → candidates_ok.
Proof using All.
  intros Hreq Hi Hs' Hst Hg Ht Hp k s' Hk Hc.
  destruct (insert_stands _ _ _ Hi Hs' (stands_withRaft _ _ Hst) k s' Hk) as (sk & Hk0 & Hstk).
  destruct (vi_candidate _ _ _ Hinv k sk Hk0) as [B HB]; [by eapply stands_candidate|].
  destruct (vi_packets _ _ _ Hinv p args) as (_ & Hid & _); [rewrite Hp; by left|done|].
  assert (∀ e T, outstanding k e T w ≡ₚ flightOf k e T p ++ outstanding k e T w') as Ho.
  { intros e T. unfold outstanding. rewrite Hp, Ht, bind_app. cbn.
    by rewrite app_nil_r, app_assoc. }
  assert (∀ e T, unread k e T w' = unread k e T w + zlen (grantOf k e T (mkTask (source p) (sourceEpoch p) (WVoteReply ok reply)))) as Hu.
  { intros e T. unfold unread. rewrite Ht, bind_app, length_app. cbn. rewrite app_nil_r. lia. }
  set (e := epoch sk) in *. set (T := currentTerm (raft sk)) in *.
  destruct (decide (grantOf k e T (mkTask (source p) (sourceEpoch p) (WVoteReply ok reply)) = [])) as [E|E].
  - exists B. apply (ballot_same k sk s'); [done..| |].
    + rewrite Ho. by apply submseteq_inserts_l.
    + fold e T. rewrite Hu, E. cbn. lia.
  - unfold grantOf in E, Hu. cbn in E, Hu. destruct ok; [|done].
    destruct (decide (source p = k ∧ _)) as [(Hsrc & Hep & Hgr & HT)|]; [|done]. clear E.
    destruct (Hg Hgr) as (Hrt & Hct & Hvf). destruct Hstk as [[(E1 & E2 & E3) He]|Hf]; [|congruence].
    exists (destination p :: B). eapply ballot_keep; [exact HB|done|done| | |].
    + fold e T. rewrite Ho. unfold flightOf. rewrite Hreq, decide_True by (split_and!; congruence).
      cbn. by rewrite Permutation_middle.
    + intros j [->|Hj]%elem_of_cons; [right|by left]. fold T.
      eapply (cast_here _ _ _ (withRaft rf s)); [|cbn; congruence|cbn; congruence|lia].
      rewrite Hs'. apply list_lookup_insert_eq. by eapply lookup_lt_Some.
    + fold e T. rewrite E3, Hu. rewrite decide_True by done. destruct HB as (_ & _ & Hn). fold e T in Hn.
      cbn [length]. lia.
Qed.

(** A reply is read. *)
Lemma unread_cons k e T i s ok reply rest :
  tasks w ≡ₚ mkTask i (epoch s) (WVoteReply ok reply) :: rest →
  unread k e T w = zlen (grantOf k e T (mkTask i (epoch s) (WVoteReply ok reply))) + zlen (rest ≫= grantOf k e T).
Proof using All. intros Ht. unfold unread. rewrite Ht. cbn. rewrite length_app. lia. Qed.

Lemma grantOf_counts i s ok reply :
  zlen (grantOf i (epoch s) (currentTerm (raft s)) (mkTask i (epoch s) (WVoteReply ok reply))) =
  Z.b2z (counts ok reply (raft s)).
Proof using All.
  unfold grantOf, counts. cbn. destruct ok; [|done]. cbn.
  destruct (RVR_VoteGranted reply); cbn; [|by rewrite decide_False by naive_solver].
  case_bool_decide; [by rewrite decide_True|by rewrite decide_False by naive_solver].
Qed.

Lemma candidates_count i s ok reply rf rest ts :
  servers w !! i = Some s → servers w' = <[i := withRaft rf s]> (servers w) →
  status rf = Follower ∨
  (status rf = status (raft s) ∧ currentTerm rf = currentTerm (raft s) ∧
     numVoteGathered rf ≤ numVoteGathered (raft s) + Z.b2z (counts ok reply (raft s))) ∨
  (status (raft s) = Candidate ∧ status rf = Leader ∧ currentTerm rf = currentTerm (raft s) + 1 ∧
     Z.of_nat (peers (raft s)) / 2 < numVoteGathered (raft s) + Z.b2z (counts ok reply (raft s))) →
  tasks w ≡ₚ mkTask i (epoch s) (WVoteReply ok reply) :: rest → tasks w' = rest ++ ts →
  Forall silent ts → packets w' = packets w → candidates_ok.
Proof using All.
  intros Hi Hs' Hcase Ht Ht' Hts Hp k s' Hk Hc.
  assert (∀ e T, outstanding k e T w' ≡ₚ outstanding k e T w) as Ho.
  { intros e T. unfold outstanding. rewrite Hp, Ht', Ht, bind_app. destruct (silent_binds ts k e T Hts) as [-> _].
    by rewrite app_nil_r. }
  assert (∀ e T, unread k e T w' = zlen (rest ≫= grantOf k e T)) as Hu.
  { intros e T. unfold unread. rewrite Ht', bind_app. destruct (silent_binds ts k e T Hts) as [_ ->].
    by rewrite app_nil_r. }
  destruct (decide (k = i)) as [->|Hne].
  - assert (s' = withRaft rf s) as ->.
    { rewrite Hs', list_lookup_insert_eq in Hk by (by eapply lookup_lt_Some). by injection Hk. }
    cbn in Hc. destruct Hcase as [Hf|[(E1 & E2 & E3)|(_ & Hl & _)]]; [congruence| |congruence].
    destruct (vi_candidate _ _ _ Hinv i s Hi) as [B HB]; [congruence|]. exists B.
    eapply ballot_keep; [exact HB|done|done| |by left|].
    + by rewrite Ho.
    + destruct HB as (_ & _ & Hn). rewrite (unread_cons _ _ _ i s ok reply rest Ht), grantOf_counts in Hn.
      rewrite Hu. cbn. lia.
  - rewrite Hs', list_lookup_insert_ne in Hk by done.
    destruct (vi_candidate _ _ _ Hinv k s' Hk Hc) as [B HB]. exists B.
    apply (ballot_same k s' s'); [done|apply stands_refl|done|by rewrite Ho|].
    rewrite Hu, (unread_cons _ _ _ i s ok reply rest Ht). lia.
Qed.

Lemma step_candidates : election_step w w' → candidates_ok.
Proof using All.
  destruct 1 as [ts ps Hst Ht Hts Hp Hps| | | |].
  - apply candidates_quiet; [done| |].
    + intros i e T. apply (bind_submseteq (flightOf i e T)) in Hp. apply (bind_submseteq (pendOf i e)) in Ht.
      rewrite bind_app, (no_vote_binds ps) in Hp by done. rewrite bind_app, (proj1 (silent_binds ts i e T Hts)) in Ht.
      rewrite app_nil_r in Hp, Ht. by apply submseteq_app.
    + intros i e T. apply (bind_submseteq (grantOf i e T)) in Ht.
      rewrite bind_app, (proj2 (silent_binds ts i e T Hts)), app_nil_r in Ht.
      apply submseteq_length in Ht. unfold unread. lia.
  - by eapply candidates_stand.
  - by eapply candidates_ask.
  - by eapply candidates_answer.
  - by eapply candidates_count.
Qed.

(** *** The leaders *)

Lemma majority_cons k t : majority (w :: tr) n k t → majority (w' :: w :: tr) n k t.
Proof using All. intros (B & H1 & H2 & H3). exists B. split_and!; auto using cast_cons. Qed.

(** A leader that was one. *)
Lemma leader_keep k s s' : servers w !! k = Some s → status (raft s) = Leader →
  currentTerm (raft s') = currentTerm (raft s) → majority (w' :: w :: tr) n k (currentTerm (raft s') - 1).
Proof using All. intros Hk Hl ->. apply majority_cons. by eapply (vi_leader _ _ _ Hinv). Qed.

Lemma leader_stands k s s' : servers w !! k = Some s → stands s s' → status (raft s') = Leader →
  majority (w' :: w :: tr) n k (currentTerm (raft s') - 1).
Proof using All.
  intros Hk [[(E1 & E2 & _) _]|E] Hl; [|congruence]. eapply leader_keep; [exact Hk|congruence|done].
Qed.

(** A candidate whose last vote makes it leader. *)
Lemma leader_elected i s c : servers w !! i = Some s → status (raft s) = Candidate →
  c ≤ unread i (epoch s) (currentTerm (raft s)) w → Z.of_nat n / 2 < numVoteGathered (raft s) + c →
  majority (w' :: w :: tr) n i (currentTerm (raft s)).
Proof using All.
  intros Hi Hc Hu Hn. destruct (vi_candidate _ _ _ Hinv i s Hi Hc) as (B & Hnd & Hcast & Hlb).
  apply majority_cons. exists (i :: B). split_and!; [|done|cbn [length]; lia].
  rewrite app_comm_cons in Hnd. by apply NoDup_app in Hnd as [? _].
Qed.

Lemma step_leaders : election_step w w' → ∀ k s', servers w' !! k = Some s' → status (raft s') = Leader →
  majority (w' :: w :: tr) n k (currentTerm (raft s') - 1).
Proof using All.
  destruct 1 as [ts ps Hst Ht Hts Hp Hps|i s rf Hi Hs' Hc _ _ _ _ _ _|i s j args Hi Hs' _ _ _ _
    |p args s rf ok reply Hreq Hi Hs' Hst Hg Ht Hp|i s ok reply rf rest ts Hi Hs' Hcase Ht Ht' Hts Hp]; intros k s' Hk Hl.
  - destruct (Hst k s' Hk) as (s & ? & ?). by eapply leader_stands.
  - rewrite Hs' in Hk. apply list_lookup_insert_Some in Hk as [(<- & <- & _)|[_ Hk]]; [cbn in Hl; congruence|].
    by eapply leader_keep.
  - rewrite Hs' in Hk. by eapply leader_keep.
  - destruct (insert_stands _ _ _ Hi Hs' (stands_withRaft _ _ Hst) k s' Hk) as (sk & ? & ?). by eapply leader_stands.
  - rewrite Hs' in Hk. apply list_lookup_insert_Some in Hk as [(<- & <- & _)|[_ Hk]]; [|by eapply leader_keep].
    cbn in Hl |- *. destruct Hcase as [Hf|[(E1 & E2 & _)|(Hc & _ & Htm & Hn)]]; [congruence| |].
    + eapply (leader_keep i s (withRaft rf s)); [done|congruence|done].
    + replace (currentTerm rf - 1) with (currentTerm (raft s)) by lia.
      eapply leader_elected; [done|done| |].
      * rewrite (unread_cons _ _ _ i s ok reply rest Ht), grantOf_counts.
        instantiate (1 := Z.b2z (counts ok reply (raft s))). lia.
      * by rewrite <- (inv_peers _ _ _ (Hsrv _ _ Hi)).
Qed.
End step.

(** *** All runs *)

Lemma votes_inv_start n env : votes_inv n [initial n env] (initial n env).
Proof using Type.
  assert (∀ i s, servers (initial n env) !! i = Some s →
    currentTerm (raft s) = 0 ∧ votedFor (raft s) = -1 ∧ status (raft s) = Follower) as H0.
  { intros i s Hs. cbn in Hs. apply list_lookup_fmap_Some in Hs as (j & -> & _). done. }
  assert (∀ j t c, ¬ cast [initial n env] j t c) as Hcast.
  { intros j t c (w & s & ->%list_elem_of_singleton & Hs & _ & Hv & Hc). destruct (H0 j s Hs) as (_ & ? & _). congruence. }
  split.
  - intros w i s0 s ->%list_elem_of_singleton Hs0 Hs. by simplify_eq.
  - by intros j s c ?%Hcast.
  - by intros j t c c' ?%Hcast.
  - by intros p args ?%elem_of_nil.
  - by intros t reply s ?%elem_of_nil.
  - by intros t j ?%elem_of_nil.
  - intros i s Hs Hc. destruct (H0 i s Hs) as (_ & _ & ?). congruence.
  - intros i s Hs Hc. destruct (H0 i s Hs) as (_ & _ & ?). congruence.
Qed.

Lemma orderly_inv n w tr : orderly n (w :: tr) → votes_inv n (w :: tr) w.
Proof using Type.
  remember (w :: tr) as tr1 eqn:E. intros H. revert w tr E.
  induction H as [env|env l w w' tr H IH Hex Hkept Hapart]; intros w1 tr1 [= <- <-]; [apply votes_inv_start|].
  specialize (IH w tr eq_refl). pose proof (orderly_reachable _ _ _ H) as Hr.
  destruct (reachable_inv n w Hr) as [Hlen Hsrv].
  assert (∀ i s', servers w' !! i = Some s' →
    ∃ s, servers w !! i = Some s ∧ currentTerm (raft s) ≤ currentTerm (raft s')) as Hback.
  { intros i s' Hs'. pose proof (exec_step _ _ _ _ Hex) as [_ Hst]. destruct (Hst i s' Hs') as (s & Hs & Hstep).
    exists s. split; [done|]. rewrite Hlen in Hstep. by eapply server_step_terms; [apply Hsrv|]. }
  assert (election_step w w') as Hstep.
  { eapply exec_election; [|done]. intros i s Hs. by apply (inv_wf n i), Hsrv. }
  destruct (step_messages n w w' tr Hlen IH Hsrv Hback Hkept Hapart Hstep) as (H1 & H2 & H3).
  split; [by eapply step_terms|by eapply step_now|by eapply step_once|done..| |].
  - by apply (step_candidates n w w' tr).
  - by apply (step_leaders n w w' tr).
Qed.

Lemma orderly_tail n tr1 w tr : orderly n (tr1 ++ w :: tr) → orderly n (w :: tr).
Proof using Type.
  induction tr1 as [|w1 tr1 IH]; [done|]. cbn. intros H. apply IH.
  remember (w1 :: tr1 ++ w :: tr) as l eqn:E. destruct H; [by destruct tr1|by injection E as -> <-].
Qed.

Lemma cast_app tr1 tr j t c : cast tr j t c → cast (tr1 ++ tr) j t c.
Proof using Type. intros (w & s & Hw & ?). exists w, s. split; [set_solver|done]. Qed.

(** Whoever is a leader at some point of the run has been voted for by a
    majority, in the term before. *)
Lemma orderly_leader n tr w i s :
  orderly n tr → w ∈ tr → servers w !! i = Some s → status (raft s) = Leader →
  majority tr n i (currentTerm (raft s) - 1).
Proof using Type.
  intros Ho (tr1 & tr2 & ->)%list_elem_of_split Hi Hl. apply orderly_tail in Ho.
  destruct (vi_leader _ _ _ (orderly_inv _ _ _ Ho) i s Hi Hl) as (B & H1 & H2 & H3).
  exists B. split_and!; auto using cast_app.
Qed.

(** Two majorities of [n] peers have a peer in common. *)
Lemma quorums_meet n (B B' : list nat) :
  NoDup B → NoDup B' → (∀ j, j ∈ B → (j < n)%nat) → (∀ j, j ∈ B' → (j < n)%nat) →
  Z.of_nat n / 2 < zlen B → Z.of_nat n / 2 < zlen B' → ∃ j, j ∈ B ∧ j ∈ B'.
Proof using Type.
  intros H1 H2 Hb Hb' HB HB'. destruct (decide (Exists (λ j, j ∈ B') B)) as [(j & ? & ?)%Exists_exists|Hno]; [eauto|].
  assert (length (B ++ B') ≤ n)%nat as Hle.
  { rewrite <- (length_seq n 0). apply submseteq_length, NoDup_submseteq.
    - apply NoDup_app. split_and!; [done| |done]. intros j Hj Hj'. apply Hno, Exists_exists. eauto.
    - intros j [?|?]%elem_of_app; apply elem_of_seq; naive_solver lia. }
  rewrite length_app in Hle. pose proof (Z.div_mod (Z.of_nat n) 2). pose proof (Z.mod_pos_bound (Z.of_nat n) 2). lia.
Qed.

(** C6: election safety.  In every run of a cluster in which peers crash, restart
    and compact their logs, and messages are lost, delayed and reordered, if
    no peer changes its vote within a term and no goroutine of an earlier
    election has still to ask when a peer stands again, then at most one peer
    is ever leader in a term, at whatever points of the run. *)
Theorem election_safety n tr w w' i j s s' :
  orderly n tr → w ∈ tr → w' ∈ tr →
  servers w !! i = Some s → servers w' !! j = Some s' →
  status (raft s) = Leader → status (raft s') = Leader →
  currentTerm (raft s) = currentTerm (raft s') → i = j.
Proof using Type.
  intros Ho Hw Hw' Hi Hj Hl Hl' Ht.
  destruct (orderly_leader _ _ _ _ _ Ho Hw Hi Hl) as (B & H1 & H2 & H3).
  destruct (orderly_leader _ _ _ _ _ Ho Hw' Hj Hl') as (B' & H1' & H2' & H3').
  assert (∀ k t c, cast tr k t c → (k < n)%nat) as Hlt.
  { intros k t c (w0 & s0 & Hw0 & Hs0 & _). apply list_elem_of_split in Hw0 as (tr1 & tr2 & ->).
    apply orderly_tail, orderly_reachable, reachable_inv in Ho as [<- _]. by eapply lookup_lt_Some. }
  destruct (quorums_meet n B B') as (k & Hk & Hk'); [done|done|by eauto..|done|done|].
  destruct tr as [|w0 tr]; [by apply elem_of_nil in Hw|]. pose proof (orderly_inv _ _ _ Ho) as Hinv.
  rewrite <- Ht in H2'. pose proof (vi_once _ _ _ Hinv k _ _ _ (H2 k Hk) (H2' k Hk')). lia.
Qed.

(** ** Scripts with the conditions checked *)

Definition orderlyb w w' : bool :=
  forallb (λ i,
    match servers w !! i, servers w' !! i with
    | Some s, Some s' =>
        bool_decide (currentTerm (raft s') = currentTerm (raft s) → votedFor (raft s) ≠ -1 →
                     votedFor (raft s') = votedFor (raft s)) &&
        bool_decide (status (raft s') = Candidate → currentTerm (raft s) < currentTerm (raft s') →
                     (tasks w ≫= pendOf i (epoch s)) = [])
    | _, _ => true
    end) (seq 0 (length (servers w))).

Lemma orderlyb_ok w w' : orderlyb w w' = true → votes_kept w w' ∧ elections_apart w w'.
Proof using Type.
  unfold orderlyb. rewrite forallb_forall. intros H.
  assert (∀ i s s', servers w !! i = Some s → servers w' !! i = Some s' →
    (currentTerm (raft s') = currentTerm (raft s) → votedFor (raft s) ≠ -1 → votedFor (raft s') = votedFor (raft s)) ∧
    (status (raft s') = Candidate → currentTerm (raft s) < currentTerm (raft s') →
       (tasks w ≫= pendOf i (epoch s)) = [])) as Hi.
  { intros i s s' Hs Hs'. specialize (H i). rewrite Hs, Hs', andb_true_iff, !bool_decide_eq_true in H.
    apply H, list_elem_of_In, elem_of_seq. apply lookup_lt_Some in Hs. lia. }
  split; intros i s s' Hs Hs'; by apply (Hi i s s').
Qed.

(** The clusters of a script from [w] on, the latest first. *)
Fixpoint orderlyPlay (script : list (Z * Act Cmd)) w tr : option (list (World Cmd)) :=
  match script with
  | [] => Some (w :: tr)
  | (t, a) :: script =>
      l ← label_of a w;
      match exec (mkEnv t 0) l w with
      | Ok w' => if orderlyb w w' then orderlyPlay script w' (w :: tr) else None
      | _ => None
      end
  end.

Lemma orderlyPlay_ok n script w tr tr' :
  orderly n (w :: tr) → orderlyPlay script w tr = Some tr' → orderly n tr'.
Proof using Type.
  revert w tr. induction script as [|[t a] script IH]; intros w tr Hw H; cbn in H; [by simplify_eq|].
  destruct (label_of a w) as [l|]; [|done]. cbn in H.
  destruct (exec (mkEnv t 0) l w) as [w'| |] eqn:E; [|done..].
  destruct (orderlyb w w') eqn:Eb; [|done]. apply orderlyb_ok in Eb as [? ?].
  eapply IH; [|exact H]. by eapply orderly_step.
Qed.
End raft_election.

(** ** Runs *)

(** Peer 3 stands in term 1 and, none of its requests being delivered, again
    in term 2, where 1 and 2 vote for it. *)
Definition stand3 : Script :=
  [(2000, Tick 3); (2000, Ask 3 0); (2000, Ask 3 1); (2000, Ask 3 2); (2000, Ask 3 4);
   (3000, Tick 3); (3000, Ask 3 1); (3000, Ask 3 2); (3000, Deliver 3 1); (3000, Deliver 3 2);
   (3000, Reply 3); (3000, Reply 3); (3025, Tick 3)].

Definition sampleRun : list (World Z) :=
  default [] (orderlyPlay (elect0 ++ stand3) (initial 5 (mkEnv 0 0)) []).

Definition leaderAt (k i : nat) (t : Z) (tr : list (World Z)) : bool :=
  match tr !! k ≫= λ w, servers w !! i with
  | Some s => bool_decide (status (raft s) = Leader ∧ currentTerm (raft s) = t)
  | None => false
  end.

Lemma leaderAt_ok k i t tr : leaderAt k i t tr = true →
  ∃ w s, w ∈ tr ∧ servers w !! i = Some s ∧ status (raft s) = Leader ∧ currentTerm (raft s) = t.
Proof.
  unfold leaderAt. destruct (tr !! k) as [w|] eqn:E; cbn; [|done]. apply list_elem_of_lookup_2 in E.
  destruct (servers w !! i) as [s|] eqn:Ei; [|done]. intros [? ?]%bool_decide_eq_true. eauto 6.
Qed.

(** In [sampleRun] peer 0 leads term 2 and peer 3 leads term 3, from its
    election to the end. *)
Lemma election_safety_witness :
  orderly 5 sampleRun ∧ leaderAt 0 0 2 sampleRun = true ∧ leaderAt 0 3 3 sampleRun = true ∧
  leaderAt 1 3 3 sampleRun = true ∧ 3%nat = 3%nat.
Proof.
  assert (orderly 5 sampleRun) as Ho.
  { apply (orderlyPlay_ok 5 (elect0 ++ stand3) (initial 5 (mkEnv 0 0)) []); [constructor|].
    vm_compute. reflexivity. }
  assert (leaderAt 0 0 2 sampleRun = true) as H0 by (vm_compute; reflexivity).
  assert (leaderAt 0 3 3 sampleRun = true) as H1 by (vm_compute; reflexivity).
  assert (leaderAt 1 3 3 sampleRun = true) as H2 by (vm_compute; reflexivity).
  split; [exact Ho|]. split; [exact H0|]. split; [exact H1|]. split; [exact H2|].
  destruct (leaderAt_ok _ _ _ _ H1) as (w & s & Hw & Hs & Hl & Ht).
  destruct (leaderAt_ok _ _ _ _ H2) as (w' & s' & Hw' & Hs' & Hl' & Ht').
  apply (election_safety 5 sampleRun w w' 3 3 s s' Ho Hw Hw' Hs Hs' Hl Hl'). congruence.
Defined.

(** Peer 0 of five stands in term 1 and again in term 2 before its goroutines
    have asked; two of them ask peer 1, both for term 2. *)
Definition asked_twice : Script :=
  [(1000, Tick 0); (2000, Tick 0); (2000, Ask 0 1); (2000, Ask 0 1); (2000, Deliver 0 1);
   (2000, Deliver 0 1); (2000, Reply 0); (2000, Reply 0)].

Definition terms (w : World Z) : list Z := (λ s, currentTerm (raft s)) <$> servers w.

(** One vote makes a leader of a cluster of five: [getRequestVoteArgs] reads
    the term when the goroutine runs, so that a goroutine of an earlier
    election asks for the present one; the peer that has voted for the
    candidate grants it again, and it is counted again. *)
Theorem vote_counted_twice :
  ∃ w, reachable 5 w ∧ leaders_of_term 3 w = [0%nat] ∧ terms w = [3; 2; 0; 0; 0].
Proof.
  destruct (after_reachable 5 asked_twice
    (λ w, bool_decide (leaders_of_term 3 w = [0%nat] ∧ terms w = [3; 2; 0; 0; 0]))) as (w & Hw & Hf).
  - vm_compute. reflexivity.
  - exists w. split; [exact Hw|]. by apply bool_decide_eq_true in Hf.
Qed.
