(* ===== verification/RaftOracle.v ===== *)
(** * What the tests of Raft check (code/src/raft/config.go)

    The harness of the raft tests reads [applyCh] of every peer and ends the
    test when a peer skips an index or when two peers apply different entries
    at one index ([apply], [checkConsistency]); it also asks the peers who
    leads ([checkOneLeader]) and in which term they are ([checkTerms]).  This
    file models these judgements; how the harness starts, crashes and connects
    peers is the network's business.

    The harness complains exactly if one of the two is the case
    ([harness_complains_exactly]).  A cluster never skips an index, so the
    harness accepts a run if and only if the peers agree
    ([harness_judges_agreement]); and it rejects the run of [RaftScenarios] in
    which they do not ([harness_finds_divergence]). *)

From S2P Require Import Prelude Gob Persister RaftState RaftLog RaftVote RaftCommit RaftAppend RaftSnapshot RaftNode.
From S2P Require Import RaftWorld RaftSafety RaftScenarios.
Open Scope Z_scope.

Record logEntry (Cmd : Type) := mkLogEntry { valid : bool; command : Iface Cmd }.
Arguments mkLogEntry {Cmd}.
Arguments valid {Cmd}.
Arguments command {Cmd}.

#[export] Instance logEntry_eq_dec `{EqDecision Cmd} : EqDecision (logEntry Cmd).
Proof. solve_decision. Defined.

(** What the harness keeps about the servers. *)
Record config (Cmd : Type) := mkConfig {
  c_logs : list (gmap Z (logEntry Cmd));
  c_nextIndex : list Z;
  numCommands : list Z;
  maxIndex : Z;
}.
Arguments mkConfig {Cmd}.
Arguments c_logs {Cmd}.
Arguments c_nextIndex {Cmd}.
Arguments numCommands {Cmd}.
Arguments maxIndex {Cmd}.

Section harness.
Context {Cmd : Type} `{EqDecision Cmd}.
Implicit Types (m : ApplyMsg Cmd) (e : logEntry Cmd) (cfg : config Cmd).

Definition make_config (n : nat) : config Cmd :=
  mkConfig (replicate n ∅) (replicate n 0) (replicate n 0) 0.

(** What starting or restarting a server sets. *)
Definition start1 (i : Z) cfg : Res (config Cmd) :=
  next ← go_store (c_nextIndex cfg) i 0; Ok (mkConfig (c_logs cfg) next (numCommands cfg) (maxIndex cfg)).

Definition checkConsistency (index : Z) (entry : logEntry Cmd) cfg : Res unit :=
  go_for (λ _ log,
    match (log : gmap Z (logEntry Cmd)) !! index with
    | Some e => if decide (e ≠ entry) then Fatal "has already committed another entry for the same index" else Ok tt
    | None => Ok tt
    end) tt (c_logs cfg).

Definition apply (server : Z) m cfg : Res (config Cmd) :=
  next ← go_index (c_nextIndex cfg) server;
  if decide (CommandIndex m ≠ next) then Fatal "server applied another index than expected"
  else
    nextIndex' ← go_store (c_nextIndex cfg) server (next + 1);
    let entry := mkLogEntry (CommandValid m) (Command m) in
    _ ← checkConsistency (CommandIndex m) entry cfg;
    log ← go_index (c_logs cfg) server;
    logs' ← go_store (c_logs cfg) server (<[CommandIndex m := entry]> log);
    let maxIndex' := if decide (CommandIndex m > maxIndex cfg) then CommandIndex m else maxIndex cfg in
    numCommands' ←
      (if CommandValid m then
         k ← go_index (numCommands cfg) server; go_store (numCommands cfg) server (k + 1)
       else Ok (numCommands cfg));
    Ok (mkConfig logs' nextIndex' numCommands' maxIndex').

(** [command] has been committed at [index]: the first log that has it decides. *)
Definition checkCommitted (index : Z) (cmd : Iface Cmd) cfg : Res unit :=
  match omap (λ log : gmap Z (logEntry Cmd), log !! index) (c_logs cfg) with
  | e :: _ =>
      if negb (valid e) then Fatal "stores a dummy entry for this index"
      else if decide (command e ≠ cmd) then Fatal "stores another command for this index"
      else Ok tt
  | [] => Fatal "no log entry has been found for snapshot index"
  end.

Definition SnapshotInterval : Z := 10.

(** How many servers have applied an entry at [index], and which. *)
Definition nCommitted (index : Z) cfg : nat * option (logEntry Cmd) :=
  foldl (λ '(count, entry) '(log, next),
    match (log : gmap Z (logEntry Cmd)) !! index with
    | Some e => if decide (index < next) then (S count, Some e) else (count, entry)
    | None => (count, entry)
    end) (0%nat, None) (zip (c_logs cfg) (c_nextIndex cfg)).
End harness.

(** ** Snapshots *)

Section snapshots.
Context {Cmd : Type} `{EqDecision Cmd, !LabGob (PersistData Cmd), !LabGob Cmd}.
Implicit Types (m : ApplyMsg Cmd) (cfg : config Cmd) (rf : Raft Cmd).

(** A command or a snapshot of [applyCh] of the peer [rf]; after every tenth
    command the peer is asked to take a snapshot, which is the command. *)
Definition applySnap (server : Z) m (rf : Raft Cmd) cfg : Res (config Cmd * Raft Cmd) :=
  if SnapshotValid m then
    match gob_decode (Snapshot m) with
    | None => Fatal "cannot decode the snapshot"
    | Some v =>
        _ ← checkCommitted (SnapshotIndex m) (ICmd v) cfg;
        if CondInstallSnapshot (SnapshotTerm m) (SnapshotIndex m) (Snapshot m) rf then
          next ← go_store (c_nextIndex cfg) server (SnapshotIndex m + 1);
          Ok (mkConfig (c_logs cfg) next (numCommands cfg) (maxIndex cfg), rf)
        else Ok (cfg, rf)
    end
  else
    cfg ← apply server m cfg;
    k ← go_index (numCommands cfg) server;
    if CommandValid m && bool_decide (Z.rem k SnapshotInterval = 0) then
      match Command m with
      | ICmd c => rf ← SnapshotAt (CommandIndex m) (gob_encode c) rf; Ok (cfg, rf)
      | _ => Panic "interface conversion"
      end
    else Ok (cfg, rf).
End snapshots.

(** ** Leaders and terms *)

(** [GetState] of a connected server: its number, term and whether it leads. *)
Record Answer := mkAnswer { a_server : nat; a_term : Z; a_leads : bool }.

(** One round of [checkOneLeader]: the leaders of every term. *)
Definition leadersByTerm (states : list Answer) : gmap Z (list nat) :=
  foldl (λ leaders a,
    if a_leads a then <[a_term a := default [] (leaders !! a_term a) ++ [a_server a]]> leaders else leaders) ∅ states.

Definition oneLeaderRound (states : list Answer) : Res (option nat) :=
  let leaders := leadersByTerm states in
  lastTermWithLeader ← go_for (λ lastTerm '(term, ls),
    if decide (1 < length (ls : list nat))%nat then Fatal "term has >1 leaders"
    else Ok (if decide (lastTerm < term) then term else lastTerm)) (-1) (map_to_list leaders);
  if decide (leaders = ∅) then Ok None
  else
    match default [] (leaders !! lastTermWithLeader) with
    | l :: _ => Ok (Some l)
    | [] => Panic "index out of range"
    end.

(** Ten rounds; between them the peers go on. *)
Fixpoint checkOneLeader (rounds : list (list Answer)) : Res nat :=
  match rounds with
  | [] => Fatal "expected one leader, got none"
  | states :: rounds => r ← oneLeaderRound states; match r with Some l => Ok l | None => checkOneLeader rounds end
  end.

Definition checkTerms (states : list Answer) : Res Z :=
  go_for (λ term a,
    if decide (term = -1) then Ok (a_term a)
    else if decide (term ≠ a_term a) then Fatal "servers disagree on term" else Ok term) (-1) states.

Definition checkNoLeader (states : list Answer) : Res unit :=
  go_for (λ _ a, if a_leads a then Fatal "expected no leader" else Ok tt) tt states.

(** ** A run of the harness *)

(** What happens to server [i]: it sends a message, or it is started again. *)
Inductive Heard (Cmd : Type) := Applied (i : nat) (m : ApplyMsg Cmd) | Restarted (i : nat).
Arguments Applied {Cmd}.
Arguments Restarted {Cmd}.

Section judgement.
Context {Cmd : Type} `{EqDecision Cmd}.
Implicit Types (m : ApplyMsg Cmd) (e : logEntry Cmd) (cfg : config Cmd) (l : list (Heard Cmd)).

Definition hear (ev : Heard Cmd) cfg : Res (config Cmd) :=
  match ev with Applied i m => apply (Z.of_nat i) m cfg | Restarted i => start1 (Z.of_nat i) cfg end.

Definition harness l cfg : Res (config Cmd) := go_for (λ cfg ev, hear ev cfg) cfg l.

Definition serverOf (ev : Heard Cmd) : nat := match ev with Applied i _ | Restarted i => i end.
Definition said m : logEntry Cmd := mkLogEntry (CommandValid m) (Command m).

(** How many messages server [i] has sent since it started. *)
Definition sent (i : nat) l : Z :=
  foldl (λ k ev, match ev with
    | Applied j _ => if decide (j = i) then k + 1 else k
    | Restarted j => if decide (j = i) then 0 else k
    end) 0 l.

(** Every server sends the indices 0, 1, 2, ... from every start on. *)
Definition in_order l : Prop := ∀ pre i m post, l = pre ++ Applied i m :: post → CommandIndex m = sent i pre.

(** No two messages differ in what they say of an index. *)
Definition agree l : Prop :=
  ∀ i j m m', Applied i m ∈ l → Applied j m' ∈ l → CommandIndex m = CommandIndex m' → said m = said m'.

Lemma sent_snoc i l ev :
  sent i (l ++ [ev]) = match ev with
    | Applied j _ => if decide (j = i) then sent i l + 1 else sent i l
    | Restarted j => if decide (j = i) then 0 else sent i l
    end.
Proof using Type. unfold sent. rewrite foldl_snoc. done. Qed.

Lemma in_order_snoc l ev :
  in_order (l ++ [ev]) ↔ in_order l ∧ match ev with Applied i m => CommandIndex m = sent i l | Restarted _ => True end.
Proof using Type.
  split.
  - intros Ho. split.
    + intros pre i m post ->. apply (Ho pre i m (post ++ [ev])). by rewrite <- app_assoc.
    + destruct ev as [i m|]; [|done]. by apply (Ho l i m []).
  - intros [Ho Hev] pre i m post Heq. destruct post as [|ev' post _] using rev_ind.
    + apply app_inj_tail in Heq as [-> ->]. done.
    + rewrite app_comm_cons, app_assoc in Heq. apply app_inj_tail in Heq as [-> ->]. by apply (Ho pre i m post).
Qed.

Record harness_inv (n : nat) l cfg : Prop := mkHarnessInv {
  hi_lengths : length (c_logs cfg) = n ∧ length (c_nextIndex cfg) = n ∧ length (numCommands cfg) = n;
  hi_next : ∀ i, (i < n)%nat → c_nextIndex cfg !! i = Some (sent i l);
  hi_said : ∀ i log k e, c_logs cfg !! i = Some log → log !! k = Some e → ∃ j m, Applied j m ∈ l ∧ CommandIndex m = k ∧ said m = e;
  hi_logged : ∀ i m, Applied i m ∈ l → ∃ log, c_logs cfg !! i = Some log ∧ log !! CommandIndex m = Some (said m);
}.

(** [checkConsistency] looks at everything that was said before. *)
Lemma checkConsistency_ok n l cfg k e :
  harness_inv n l cfg →
  checkConsistency k e cfg = Ok tt ∧ (∀ j m, Applied j m ∈ l → CommandIndex m = k → said m = e) ∨
  (∃ why, checkConsistency k e cfg = Fatal why) ∧ ∃ j m, Applied j m ∈ l ∧ CommandIndex m = k ∧ said m ≠ e.
Proof using Type.
  intros Hi. unfold checkConsistency.
  assert (∀ logs, (∀ log, log ∈ logs → log ∈ c_logs cfg) →
    let r := go_for (λ _ log, match (log : gmap Z (logEntry Cmd)) !! k with
      | Some e' => if decide (e' ≠ e) then Fatal "has already committed another entry for the same index" else Ok tt
      | None => Ok tt end) tt logs in
    r = Ok tt ∧ (∀ log e', log ∈ logs → log !! k = Some e' → e' = e) ∨
    (∃ why, r = Fatal why) ∧ ∃ log e', log ∈ c_logs cfg ∧ log !! k = Some e' ∧ e' ≠ e) as Hgo.
  { induction logs as [|log logs IH]; intros Hin; cbn.
    - left. split; [done|]. by intros log e' ?%elem_of_nil.
    - destruct (log !! k) as [e'|] eqn:Hk; [case_decide as Hne|]; cbn.
      + right. split; [by eexists|]. exists log, e'. split; [apply Hin; left|done].
      + destruct (IH (λ log' H, Hin log' (list_elem_of_further _ _ _ H))) as [[-> Hall]|Hf]; [left|by right].
        split; [done|]. intros log' e2 [->|Hl]%elem_of_cons He2; [congruence|by eapply Hall].
      + destruct (IH (λ log' H, Hin log' (list_elem_of_further _ _ _ H))) as [[-> Hall]|Hf]; [left|by right].
        split; [done|]. intros log' e2 [->|Hl]%elem_of_cons He2; [congruence|by eapply Hall]. }
  destruct (Hgo (c_logs cfg) (λ _ H, H)) as [[-> Hall]|[Hf (log & e' & Hl & Hk & Hne)]].
  - left. split; [done|]. intros j m Hm <-. destruct (hi_logged _ _ _ Hi j m Hm) as (log & Hlog & Hsaid).
    eapply Hall; [by eapply list_elem_of_lookup_2|done].
  - right. split; [done|]. apply list_elem_of_lookup in Hl as [i Hl].
    destruct (hi_said _ _ _ Hi i log k e' Hl Hk) as (j & m & Hm & Hmk & <-). eauto.
Qed.

Lemma store_in_range {A} (xs : list A) (i n : nat) x :
  length xs = n → (i < n)%nat → go_store xs (Z.of_nat i) x = Ok (<[i := x]> xs).
Proof using Type. intros Hl Hi. apply go_store_Ok. rewrite Nat2Z.id. split; [lia|done]. Qed.

Lemma index_in_range {A} (xs : list A) (i n : nat) :
  length xs = n → (i < n)%nat → ∃ x, go_index xs (Z.of_nat i) = Ok x ∧ xs !! i = Some x.
Proof using Type.
  intros Hl Hi. destruct (go_index_in_range xs (Z.of_nat i)) as (x & Hx & Hk); [lia|]. rewrite Nat2Z.id in Hk. eauto.
Qed.

Lemma start1_ok n l cfg i :
  harness_inv n l cfg → (i < n)%nat →
  ∃ cfg', start1 (Z.of_nat i) cfg = Ok cfg' ∧ harness_inv n (l ++ [Restarted i]) cfg'.
Proof using Type.
  intros [(L1 & L2 & L3) Hn Hs Hl] Hi. unfold start1. rewrite (store_in_range _ _ n) by done. cbn [mbind Res_bind].
  eexists. split; [done|]. split; cbn.
  - by rewrite length_insert.
  - intros j Hj. rewrite sent_snoc. case_decide as Hij; [subst; by rewrite list_lookup_insert_eq by lia|].
    rewrite list_lookup_insert_ne by done. by apply Hn.
  - intros j log k e Hj Hk. destruct (Hs j log k e Hj Hk) as (j' & m & ? & ?). exists j', m. split; [set_solver|done].
  - intros j m [Hm|Hm%list_elem_of_singleton]%elem_of_app; [by apply Hl|done].
Qed.

Lemma apply_ok n l cfg i m :
  harness_inv n l cfg → (i < n)%nat →
  (∃ cfg', apply (Z.of_nat i) m cfg = Ok cfg' ∧ harness_inv n (l ++ [Applied i m]) cfg' ∧ CommandIndex m = sent i l ∧
    ∀ j m', Applied j m' ∈ l → CommandIndex m' = CommandIndex m → said m' = said m) ∨
  (∃ why, apply (Z.of_nat i) m cfg = Fatal why) ∧
    (CommandIndex m ≠ sent i l ∨ ∃ j m', Applied j m' ∈ l ∧ CommandIndex m' = CommandIndex m ∧ said m' ≠ said m).
Proof using Type.
  intros Hinv Hi. pose proof Hinv as [(L1 & L2 & L3) Hn Hs Hl]. unfold apply.
  destruct (index_in_range (c_nextIndex cfg) i n L2 Hi) as (next & -> & Hnext). cbn [mbind Res_bind].
  rewrite (Hn i Hi) in Hnext. injection Hnext as <-. case_decide as Hidx; [right; split; [by eexists|by left]|].
  rewrite (store_in_range _ _ n) by done. cbn [mbind Res_bind]. fold (said m).
  destruct (checkConsistency_ok n l cfg (CommandIndex m) (said m) Hinv) as [[-> Hall]|[(why & ->) Hno]];
    [left|right; split; [by eexists|by right]]. cbn [mbind Res_bind].
  destruct (index_in_range (c_logs cfg) i n L1 Hi) as (log & -> & Hlog). cbn [mbind Res_bind].
  rewrite (store_in_range _ _ n) by done. cbn [mbind Res_bind].
  assert (∃ nums, (if CommandValid m then k ← go_index (numCommands cfg) (Z.of_nat i);
      go_store (numCommands cfg) (Z.of_nat i) (k + 1) else Ok (numCommands cfg)) = Ok nums ∧ length nums = n) as (nums & -> & L4).
  { destruct (CommandValid m); [|eauto]. destruct (index_in_range (numCommands cfg) i n L3 Hi) as (k & -> & _).
    cbn [mbind Res_bind]. rewrite (store_in_range _ _ n) by done. eexists. split; [done|]. by rewrite length_insert. }
  cbn [mbind Res_bind]. eexists. split; [done|]. split; [|done]. split; cbn.
  - by rewrite !length_insert.
  - intros j Hj. rewrite sent_snoc. case_decide as Hij; [subst; by rewrite list_lookup_insert_eq by lia|].
    rewrite list_lookup_insert_ne by done. by apply Hn.
  - intros j log' k e Hj Hk. destruct (decide (j = i)) as [->|Hne].
    + rewrite list_lookup_insert_eq in Hj by lia. injection Hj as <-.
      apply lookup_insert_Some in Hk as [[<- <-]|[_ Hk]]; [exists i, m; split; [set_solver|done]|].
      destruct (Hs i log k e Hlog Hk) as (j' & m' & ? & ?). exists j', m'. split; [set_solver|done].
    + rewrite list_lookup_insert_ne in Hj by done. destruct (Hs j log' k e Hj Hk) as (j' & m' & ? & ?).
      exists j', m'. split; [set_solver|done].
  - intros j m' [Hm|Hm%list_elem_of_singleton]%elem_of_app.
    + destruct (Hl j m' Hm) as (log' & Hlog' & Hk). destruct (decide (j = i)) as [->|Hne].
      * exists (<[CommandIndex m := said m]> log). rewrite list_lookup_insert_eq by lia. split; [done|].
        replace log' with log in Hk by congruence.
        destruct (decide (CommandIndex m' = CommandIndex m)) as [Heq|Hne]; [|by rewrite lookup_insert_ne].
        rewrite Heq, lookup_insert_eq. f_equal. symmetry. by apply (Hall i).
      * exists log'. by rewrite list_lookup_insert_ne.
    + injection Hm as -> ->. exists (<[CommandIndex m := said m]> log). rewrite list_lookup_insert_eq by lia.
      by rewrite lookup_insert_eq.
Qed.

Lemma harness_inv_initial n : harness_inv n [] (make_config n).
Proof using Type.
  split; cbn.
  - by rewrite !length_replicate.
  - intros i Hi. by rewrite lookup_replicate_2.
  - intros i log k e Hi Hk. apply lookup_replicate in Hi as [-> _]. by rewrite lookup_empty in Hk.
  - intros i m Hm. by apply elem_of_nil in Hm.
Qed.

Lemma harness_snoc l ev cfg : harness (l ++ [ev]) cfg = (cfg' ← harness l cfg; hear ev cfg').
Proof using Type.
  unfold harness. revert cfg. induction l as [|ev' l IH]; intros cfg; cbn; [by destruct (hear ev cfg)|].
  destruct (hear ev' cfg); [|done..]. cbn. apply IH.
Qed.

Lemma harness_exact n l :
  Forall (λ ev, (serverOf ev < n)%nat) l →
  (∃ cfg, harness l (make_config n) = Ok cfg ∧ harness_inv n l cfg ∧ in_order l ∧ agree l) ∨
  (∃ why, harness l (make_config n) = Fatal why) ∧ ¬ (in_order l ∧ agree l).
Proof using Type.
  induction l as [|ev l IH] using rev_ind; intros Hr.
  { left. exists (make_config n). split; [done|]. split; [apply harness_inv_initial|]. split.
    - intros pre i m post Heq. by destruct pre.
    - intros i j m m' Hm. by apply elem_of_nil in Hm. }
  apply Forall_app in Hr as [Hr Hev]. apply Forall_cons in Hev as [Hev _]. rewrite harness_snoc.
  assert (∀ i j m m', Applied i m ∈ l → Applied j m' ∈ l → agree (l ++ [ev]) → CommandIndex m = CommandIndex m' → said m = said m') as Hsub.
  { intros i j m m' Hm Hm' Ha. apply (Ha i j); apply elem_of_app; by left. }
  destruct (IH Hr) as [(cfg & -> & Hi & Ho & Ha)|[(why & ->) Hno]]; cbn [mbind Res_bind].
  - destruct ev as [i m|i]; cbn [hear serverOf] in *.
    + destruct (apply_ok n l cfg i m Hi Hev) as [(cfg' & -> & Hi' & Hidx & Hall)|[Hf Hbad]].
      * left. exists cfg'. split; [done|]. split; [done|]. split; [by apply in_order_snoc|].
        intros a b x y Hx Hy Hxy. apply elem_of_app in Hx as [Hx|[= -> ->]%list_elem_of_singleton], Hy as [Hy|[= -> ->]%list_elem_of_singleton].
        -- by apply (Ha a b).
        -- by apply (Hall a).
        -- symmetry. by apply (Hall b).
        -- done.
      * right. split; [done|]. intros [Ho' Ha']. apply in_order_snoc in Ho' as [_ Hidx]. destruct Hbad as [Hbad|(j & m' & Hm' & Hk & Hne)]; [done|].
        apply Hne, (Ha' j i); [set_solver|set_solver|done].
    + left. destruct (start1_ok n l cfg i Hi Hev) as (cfg' & -> & Hi'). exists cfg'. split; [done|]. split; [done|].
      split; [by apply in_order_snoc|]. intros a b x y Hx Hy.
      apply elem_of_app in Hx as [Hx|Hx%list_elem_of_singleton], Hy as [Hy|Hy%list_elem_of_singleton]; try done. by apply (Ha a b).
  - right. split; [by eexists|]. intros [Ho Ha]. apply Hno. apply in_order_snoc in Ho as [Ho _]. split; [done|].
    intros i j m m' Hm Hm'. by apply (Hsub i j).
Qed.
End judgement.

(** ** The harness and the cluster *)

Section cluster.
Context {Cmd : Type} `{EqDecision Cmd, !LabGob (PersistData Cmd)}.
Implicit Types (m : ApplyMsg Cmd) (l : list (Heard Cmd)) (w : World Cmd).

(** What server [i] sends in [l]. *)
Definition messagesOf (i : nat) l : list (ApplyMsg Cmd) :=
  omap (λ ev, match ev with Applied j m => if decide (j = i) then Some m else None | Restarted _ => None end) l.

(** The harness reads what the peers of [w] have sent, in any interleaving. *)
Definition reads w l : Prop :=
  Forall (λ ev, match ev with Applied i _ => (i < length (servers w))%nat | Restarted _ => False end) l ∧
  ∀ i s, servers w !! i = Some s → messagesOf i l = applyCh s.

(** The service takes no snapshots. *)
Definition no_snapshots w : Prop :=
  ∀ i s, servers w !! i = Some s → snapshotEntriesAmount (raft s) = 0 ∧ Forall (λ m, SnapshotValid m = false) (applyCh s).

(** Without snapshots a peer sends the indices from 0 on. *)
Lemma indices_from_0 n w i s :
  reachable n w → no_snapshots w → servers w !! i = Some s →
  CommandIndex <$> applyCh s = seqZ 0 (lastApplied (raft s) + 1).
Proof using Type.
  intros Hw Hno Hi. destruct (reachable_inv n w Hw) as [_ Hinv]. destruct (inv_history _ _ _ (Hinv i s Hi)) as [Hs Hb Hc].
  destruct (Hno i s Hi) as [H0 Hval].
  assert (msgIndex <$> applyCh s = CommandIndex <$> applyCh s) as Heq.
  { apply list_fmap_ext. intros k m Hm. unfold msgIndex. eapply Forall_lookup_1 in Hval; [|exact Hm]. by rewrite Hval. }
  rewrite Heq in *. apply (StronglySorted_unique_strong Z.lt); [intros x y _ _ Hxy Hyx; lia|done|apply seqZ_sorted|].
  apply NoDup_Permutation; [|apply NoDup_seqZ|].
  - clear -Hs. induction Hs as [|x xs Hs IH Hx]; constructor; [|done]. rewrite Forall_forall in Hx. intros Hin. specialize (Hx x Hin). lia.
  - intros k. rewrite elem_of_seqZ. split; [intros Hk; specialize (Hb k Hk); lia|]. intros Hk. destruct (Hc k) as [?|?]; [lia|lia|done].
Qed.

Lemma sent_messages i l :
  Forall (λ ev, match ev with Applied _ _ => True | Restarted _ => False end) l → sent i l = zlen (messagesOf i l).
Proof using Type.
  induction l as [|ev l IH] using rev_ind; intros Hl; [done|]. apply Forall_app in Hl as [Hl Hev]. apply Forall_cons in Hev as [Hev _].
  destruct ev as [j m|]; [|done]. rewrite sent_snoc. unfold messagesOf. rewrite omap_app, length_app. fold (messagesOf i l).
  cbn. rewrite IH by done. case_decide; cbn; lia.
Qed.

Lemma messagesOf_elem i m l : m ∈ messagesOf i l ↔ Applied i m ∈ l.
Proof using Type.
  unfold messagesOf. rewrite list_elem_of_omap. split.
  - intros ([j m'|j] & Hin & Heq); [|done]. case_decide; [|done]. congruence.
  - intros Hin. exists (Applied i m). split; [done|]. by rewrite decide_True.
Qed.

(** What a cluster sends is in order. *)
Lemma cluster_in_order n w l : reachable n w → no_snapshots w → reads w l → in_order l.
Proof using Type.
  intros Hw Hno [Hr Hm] pre i m post ->. apply Forall_app in Hr as [Hpre Hr]. apply Forall_cons in Hr as [Hi _].
  destruct (lookup_lt_is_Some_2 _ _ Hi) as [s Hs].
  rewrite sent_messages; [|eapply Forall_impl; [exact Hpre|]; by intros []].
  pose proof (indices_from_0 n w i s Hw Hno Hs) as Hidx. rewrite <- (Hm i s Hs) in Hidx.
  unfold messagesOf in Hidx at 1. rewrite omap_app in Hidx. fold (messagesOf i pre) in Hidx. cbn in Hidx.
  rewrite decide_True in Hidx by done. apply (f_equal (lookup (length (messagesOf i pre)))) in Hidx.
  rewrite list_lookup_fmap, list_lookup_middle in Hidx by done. cbn in Hidx. symmetry in Hidx.
  apply lookup_seqZ in Hidx as [-> _]. lia.
Qed.
End cluster.

(** ** Snapshots *)

(** The first log that has the index speaks for all. *)
Lemma checkCommitted_said {Cmd : Type} `{EqDecision Cmd} n l (cfg : config Cmd) i m c v :
  harness_inv n l cfg → agree l → Applied i m ∈ l → said m = mkLogEntry true (ICmd c) →
  if decide (v = c) then checkCommitted (CommandIndex m) (ICmd v) cfg = Ok tt
  else ∃ why, checkCommitted (CommandIndex m) (ICmd v) cfg = Fatal why.
Proof.
  intros Hi Ha Hm Hc. unfold checkCommitted.
  assert (∀ e, e ∈ omap (λ log : gmap Z (logEntry Cmd), log !! CommandIndex m) (c_logs cfg) → e = mkLogEntry true (ICmd c)) as Hall.
  { intros e (log & Hlog & He)%list_elem_of_omap. apply list_elem_of_lookup in Hlog as [k Hlog].
    destruct (hi_said _ _ _ Hi k log _ e Hlog He) as (j & m' & Hm' & Heq & <-). rewrite <- Hc. by apply (Ha j i). }
  destruct (hi_logged _ _ _ Hi i m Hm) as (log & Hlog & He).
  destruct (omap _ (c_logs cfg)) as [|e es] eqn:Ho.
  { assert (said m ∈ ([] : list (logEntry Cmd))) as Hn; [|by apply elem_of_nil in Hn]. rewrite <- Ho. apply list_elem_of_omap.
    exists log. split; [by eapply list_elem_of_lookup_2|done]. }
  rewrite (Hall e) by left. cbn [valid command negb]. destruct (decide (v = c)) as [->|Hv].
  - rewrite decide_False; [done|]. intros Hn. by apply Hn.
  - rewrite decide_True by congruence. by eexists.
Qed.

(** The harness knows its own snapshots: after a run that it accepted, a
    snapshot of a command's index passes, and moves the server behind it, if
    it holds that command, and ends the test if it holds another. *)
Theorem snapshot_recognised {Cmd : Type} `{EqDecision Cmd, !LabGob (PersistData Cmd), !LabGob Cmd}
    n l (cfg : config Cmd) i m c server ms v rf :
  Forall (λ ev, (serverOf ev < n)%nat) l → harness l (make_config n) = Ok cfg →
  Applied i m ∈ l → said m = mkLogEntry true (ICmd c) → (server < n)%nat →
  SnapshotValid ms = true → SnapshotIndex ms = CommandIndex m → Snapshot ms = gob_encode v →
  if decide (v = c) then
    applySnap (Z.of_nat server) ms rf cfg =
    Ok (mkConfig (c_logs cfg) (<[server := SnapshotIndex ms + 1]> (c_nextIndex cfg)) (numCommands cfg) (maxIndex cfg), rf)
  else ∃ why, applySnap (Z.of_nat server) ms rf cfg = Fatal why.
Proof.
  intros Hl Hrun Hm Hc Hs Hv Hidx Hsnap.
  destruct (harness_exact n l Hl) as [(cfg' & Heq & Hi & _ & Ha)|[(why & Heq) _]]; rewrite Hrun in Heq; [|done].
  injection Heq as <-. unfold applySnap. rewrite Hv, Hsnap, gob_decode_encode, Hidx.
  pose proof (checkCommitted_said n l cfg i m c v Hi Ha Hm Hc) as Hck. case_decide.
  - rewrite Hck. cbn [mbind Res_bind CondInstallSnapshot]. pose proof (hi_lengths _ _ _ Hi) as (_ & L2 & _).
    by rewrite (store_in_range _ _ n).
  - destruct Hck as (why & ->). by eexists.
Qed.

(** ** Agreement *)

(** The entries of an index on the servers that are past it. *)
Definition entriesAt {Cmd : Type} (index : Z) (cfg : config Cmd) : list (logEntry Cmd) :=
  omap (λ '(log, next), e ← (log : gmap Z (logEntry Cmd)) !! index; if decide (index < next) then Some e else None)
    (zip (c_logs cfg) (c_nextIndex cfg)).

Lemma nCommitted_counts {Cmd : Type} index (cfg : config Cmd) :
  nCommitted index cfg = (length (entriesAt index cfg), last (entriesAt index cfg)).
Proof.
  unfold nCommitted, entriesAt. induction (zip _ _) as [|[log next] l IH] using rev_ind; [done|].
  rewrite foldl_snoc, IH, omap_app, length_app, last_app. cbn.
  destruct (log !! index) as [e|]; cbn; [case_decide; cbn|]; by rewrite ?Nat.add_1_r, ?Nat.add_0_r.
Qed.

(** What [wait] and [one] are told: as long as the harness has not complained,
    the entry that [nCommitted] answers is what every server that applied the
    index has applied. *)
Theorem nCommitted_entry {Cmd : Type} `{EqDecision Cmd} n l (cfg : config Cmd) index count e i m :
  Forall (λ ev, (serverOf ev < n)%nat) l → harness l (make_config n) = Ok cfg →
  nCommitted index cfg = (count, Some e) → Applied i m ∈ l → CommandIndex m = index → said m = e.
Proof.
  intros Hl Hrun Hn Hm Hidx. destruct (harness_exact n l Hl) as [(cfg' & Heq & Hi & _ & Ha)|[(why & Heq) _]];
    rewrite Hrun in Heq; [|done]. injection Heq as <-.
  rewrite nCommitted_counts in Hn. injection Hn as _ He. apply last_Some_elem_of in He.
  apply list_elem_of_omap in He as ([log next] & Hz & He). destruct (log !! index) as [e'|] eqn:Hlog; cbn in He; [|done].
  case_decide; [injection He as ->|done]. apply elem_of_zip_l, list_elem_of_lookup in Hz as [k Hk].
  destruct (hi_said _ _ _ Hi k log index e Hk Hlog) as (j & m' & Hm' & Heq & <-). apply (Ha i j); [done..|congruence].
Qed.

(** ** One leader *)

Section leaders.
Implicit Types (states : list Answer) (a : Answer).

Definition leadsIn (t : Z) a : Prop := a_leads a = true ∧ a_term a = t.

#[local] Instance leadsIn_dec t a : Decision (leadsIn t a).
Proof using Type. unfold leadsIn. apply _. Defined.

Lemma leadersByTerm_lookup states t :
  default [] (leadersByTerm states !! t) = a_server <$> filter (leadsIn t) states ∧
  (is_Some (leadersByTerm states !! t) ↔ ∃ a, a ∈ states ∧ leadsIn t a).
Proof using Type.
  unfold leadersByTerm. induction states as [|a states [IH1 IH2]] using rev_ind.
  { cbn. rewrite lookup_empty. split; [done|]. split; [by intros []|]. by intros (a & ?%elem_of_nil & _). }
  rewrite foldl_snoc, filter_app, filter_cons, filter_nil, fmap_app.
  assert (∀ b, b ∈ states ++ [a] ↔ b ∈ states ∨ b = a) as Hin by set_solver. setoid_rewrite Hin.
  destruct (a_leads a) eqn:Hl.
  - destruct (decide (a_term a = t)) as [<-|Hne].
    + rewrite lookup_insert_eq, decide_True by done. cbn. rewrite IH1. split; [done|]. split; [|by eexists].
      intros _. exists a. split; [by right|done].
    + rewrite lookup_insert_ne, decide_False, app_nil_r by (try done; by intros [_ ?]). split; [done|]. rewrite IH2.
      split; [intros (b & ? & ?); eauto|intros (b & [?| ->] & Hb); [eauto|by destruct Hb]].
  - rewrite decide_False, app_nil_r by (intros [? _]; congruence). split; [done|]. rewrite IH2.
    split; [intros (b & ? & ?); eauto|intros (b & [?| ->] & Hb); [eauto|destruct Hb; congruence]].
Qed.

(** Two answers of one term lead. *)
Definition contested states : Prop := ∃ t, (1 < length (filter (leadsIn t) states))%nat.

(** [s] alone leads in its term, and nobody leads in a later one. *)
Definition sole_leader states (s : nat) : Prop :=
  ∃ a, filter (leadsIn (a_term a)) states = [a] ∧ a_server a = s ∧
    ∀ b, b ∈ states → a_leads b = true → a_term b ≤ a_term a.

Lemma lastTerm_loop (l : list (Z * list nat)) t0 :
  let r := go_for (λ lastTerm '(term, ls),
    if decide (1 < length (ls : list nat))%nat then Fatal "term has >1 leaders"
    else Ok (if decide (lastTerm < term) then term else lastTerm)) t0 l in
  (∃ t, r = Ok t ∧ Forall (λ p, length p.2 ≤ 1)%nat l ∧ t0 ≤ t ∧ Forall (λ p, p.1 ≤ t) l ∧ (t = t0 ∨ t ∈ l.*1)) ∨
  (∃ why, r = Fatal why) ∧ ∃ p, p ∈ l ∧ (1 < length p.2)%nat.
Proof using Type.
  revert t0. induction l as [|[term ls] l IH]; intros t0; cbn.
  - left. exists t0. split_and!; [done|constructor|lia|constructor|by left].
  - case_decide as Hls; cbn; [right; split; [by eexists|]; exists (term, ls); split; [left|done]|].
    destruct (IH (if decide (t0 < term) then term else t0)) as [(t & -> & H1 & H2 & H3 & H4)|[Hf (p & Hp & Hlen)]].
    + left. exists t. split; [done|]. split; [constructor; [cbn; lia|done]|]. case_decide as Ht.
      * split_and!; [lia|constructor; [cbn; lia|done]|]. right. destruct H4 as [->|H4]; [left|by right].
      * split_and!; [lia|constructor; [cbn; lia|done]|]. destruct H4 as [->|H4]; [by left|right; by right].
    + right. split; [done|]. exists p. split; [by right|done].
Qed.

Lemma oneLeaderRound_ok states :
  Forall (λ a, 0 ≤ a_term a) states →
  match oneLeaderRound states with
  | Ok (Some s) => sole_leader states s
  | Ok None => ∀ a, a ∈ states → a_leads a = false
  | Fatal _ => contested states
  | Panic _ => False
  end.
Proof using Type.
  intros Hpos. unfold oneLeaderRound. set (leaders := leadersByTerm states).
  assert (∀ t ls, (t, ls) ∈ map_to_list leaders → ls = a_server <$> filter (leadsIn t) states) as Hls.
  { intros t ls Hin%elem_of_map_to_list. destruct (leadersByTerm_lookup states t) as [H1 _].
    unfold leaders in Hin. by rewrite Hin in H1. }
  assert (∀ b, b ∈ states → a_leads b = true → ∃ ls, (a_term b, ls) ∈ map_to_list leaders) as Hin.
  { intros b Hb Hl. destruct (leadersByTerm_lookup states (a_term b)) as [_ H2]. destruct (proj2 H2) as [ls Hls']; [by exists b|].
    exists ls. by apply elem_of_map_to_list. }
  destruct (lastTerm_loop (map_to_list leaders) (-1)) as [(t & -> & H1 & _ & H3 & H4)|[(why & ->) ([t ls] & Hp & Hlen)]];
    cbn [mbind Res_bind]; cycle 1.
  { exists t. rewrite (Hls t ls Hp) in Hlen. cbn in Hlen. by rewrite length_fmap in Hlen. }
  rewrite Forall_forall in H1, H3. case_decide as Hemp.
  { intros a Ha. destruct (a_leads a) eqn:Hl; [|done]. destruct (Hin a Ha Hl) as [ls Hp]. rewrite Hemp, map_to_list_empty in Hp.
    by apply elem_of_nil in Hp. }
  destruct H4 as [->|Ht].
  { exfalso. apply map_choose in Hemp as (t & ls & Ht). pose proof (proj2 (elem_of_map_to_list _ _ _) Ht) as Hp.
    specialize (H3 _ Hp). cbn in H3. destruct (leadersByTerm_lookup states t) as [_ H2].
    destruct (proj1 H2) as (a & Ha & _ & <-); [by eexists|]. rewrite Forall_forall in Hpos. specialize (Hpos a Ha). lia. }
  apply list_elem_of_fmap in Ht as ([t' ls] & -> & Hp). cbn in *. pose proof (proj1 (elem_of_map_to_list _ _ _) Hp) as Hlk.
  rewrite Hlk. cbn. specialize (H1 _ Hp). cbn in H1. pose proof (Hls t' ls Hp) as Heq.
  destruct (leadersByTerm_lookup states t') as [_ H2]. destruct (proj1 H2) as (a & Ha & Hla); [by eexists|].
  destruct (filter (leadsIn t') states) as [|a' l] eqn:Hf.
  { assert (a ∈ filter (leadsIn t') states) as Hn by by apply list_elem_of_filter. rewrite Hf in Hn. by apply elem_of_nil in Hn. }
  rewrite Heq in *. cbn in *. rewrite length_fmap in H1. destruct l; [|cbn in H1; lia].
  assert (a' ∈ filter (leadsIn t') states) as [[_ Hta] _]%list_elem_of_filter by (rewrite Hf; left).
  exists a'. rewrite Hta. split; [done|]. split; [done|]. intros b Hb Hlb. destruct (Hin b Hb Hlb) as [ls' Hp']. by apply (H3 _ Hp').
Qed.

(** [checkOneLeader] answers a leader, alone in its term and the latest, of some
    round; it ends the test if two peers lead in one term, or nobody ever does. *)
Lemma checkOneLeader_ok rounds :
  Forall (Forall (λ a, 0 ≤ a_term a)) rounds →
  match checkOneLeader rounds with
  | Ok s => ∃ states, states ∈ rounds ∧ sole_leader states s
  | Fatal _ => (∃ states, states ∈ rounds ∧ contested states) ∨
               ∀ states a, states ∈ rounds → a ∈ states → a_leads a = false
  | Panic _ => False
  end.
Proof using Type.
  induction 1 as [|states rounds Hs Hr IH]; cbn; [right; by intros states a ?%elem_of_nil|].
  pose proof (oneLeaderRound_ok states Hs) as Hone. destruct (oneLeaderRound states) as [[s|]|why|why]; cbn; [| | |done].
  - exists states. split; [left|done].
  - destruct (checkOneLeader rounds) as [s|why|why]; [|..|done].
    + destruct IH as (st & ? & ?). exists st. split; [by right|done].
    + destruct IH as [(st & ? & ?)|Hno]; [left; exists st; split; [by right|done]|right].
      intros st a [->|Hst]%elem_of_cons Ha; [by apply Hone|by eapply Hno].
  - left. exists states. split; [left|done].
Qed.

Lemma checkNoLeader_ok states :
  (checkNoLeader states = Ok tt ∧ ∀ a, a ∈ states → a_leads a = false) ∨
  ((∃ why, checkNoLeader states = Fatal why) ∧ ∃ a, a ∈ states ∧ a_leads a = true).
Proof using Type.
  unfold checkNoLeader. induction states as [|a states IH]; cbn; [left; split; [done|]; by intros a ?%elem_of_nil|].
  destruct (a_leads a) eqn:Ha; cbn; [right; split; [by eexists|]; exists a; split; [left|done]|].
  destruct IH as [[-> IH]|[Hf (b & Hb & Hl)]]; [left|right]; (split; [done|]).
  - intros b [->|Hb]%elem_of_cons; [done|by apply IH].
  - exists b. split; [by right|done].
Qed.

(** [checkTerms] answers the one term of everybody (-1 of nobody). *)
Lemma checkTerms_ok states :
  Forall (λ a, 0 ≤ a_term a) states →
  (∃ t, checkTerms states = Ok t ∧ Forall (λ a, a_term a = t) states) ∨
  ((∃ why, checkTerms states = Fatal why) ∧ ∃ a b, a ∈ states ∧ b ∈ states ∧ a_term a ≠ a_term b).
Proof using Type.
  unfold checkTerms. intros Hpos.
  assert (∀ l t, t ≠ -1 → let r := go_for (λ term a, if decide (term = -1) then Ok (a_term a)
      else if decide (term ≠ a_term a) then Fatal "servers disagree on term" else Ok term) t l in
    (r = Ok t ∧ Forall (λ a, a_term a = t) l) ∨ ((∃ why, r = Fatal why) ∧ ∃ b, b ∈ l ∧ t ≠ a_term b)) as Hgo.
  { induction l as [|a l IH]; intros t Ht; cbn; [left; split; [done|constructor]|]. rewrite decide_False by done.
    case_decide as Hne; cbn; [right; split; [by eexists|]; exists a; split; [left|done]|].
    destruct (IH t Ht) as [[-> IH']|[Hf (b & Hb & Hd)]]; [left; split; [done|]; constructor; [lia|done]|right].
    split; [done|]. exists b. split; [by right|done]. }
  destruct Hpos as [|a states Ha Hpos]; [left; exists (-1); split; [done|constructor]|]. cbn [go_for]. rewrite decide_True by done.
  cbn [mbind Res_bind]. destruct (Hgo states (a_term a)) as [[-> Hall]|[Hf (b & Hb & Hd)]]; [lia| |].
  - left. exists (a_term a). split; [done|]. by constructor.
  - right. split; [done|]. exists a, b. split; [left|]. split; [by right|done].
Qed.
End leaders.

(** ** Properties *)

(** The harness of the raft tests complains exactly when it should.
    Whatever messages [n] servers send, started again at any point, [harness]
    ends without a panic: it goes on if every server sent the indices 0, 1, 2,
    ... from each of its starts on and no two messages ever differed in what
    they say of an index, and it ends the test otherwise. *)
Theorem harness_complains_exactly {Cmd : Type} `{EqDecision Cmd} n (l : list (Heard Cmd)) :
  Forall (λ ev, (serverOf ev < n)%nat) l →
  ((∃ cfg, harness l (make_config n) = Ok cfg) ↔ in_order l ∧ agree l) ∧
  ((∃ why, harness l (make_config n) = Fatal why) ↔ ¬ (in_order l ∧ agree l)).
Proof.
  intros Hl. destruct (harness_exact n l Hl) as [(cfg & -> & _ & Ho & Ha)|[(why & ->) Hno]]; naive_solver.
Qed.

(** Server 0 applies, fails and applies again; server 1 agrees. *)
Definition sampleHeard : list (Heard Z) :=
  let msg c k := mkApplyMsg true c k false [] 0 0 in
  [Applied 0 (msg (IInt (-1)) 0); Applied 0 (msg (ICmd 7) 1); Restarted 0; Applied 0 (msg (IInt (-1)) 0);
   Applied 1 (msg (IInt (-1)) 0); Applied 0 (msg (ICmd 7) 1)].

Lemma harness_complains_exactly_witness :
  ((∃ cfg, harness sampleHeard (make_config 2) = Ok cfg) ↔ in_order sampleHeard ∧ agree sampleHeard) ∧
  ((∃ why, harness sampleHeard (make_config 2) = Fatal why) ↔ ¬ (in_order sampleHeard ∧ agree sampleHeard)).
Proof. apply (harness_complains_exactly 2 sampleHeard). repeat constructor; cbn; lia. Defined.

Example sampleHeard_accepted : is_ok (harness sampleHeard (make_config 2)) = true.
Proof. vm_compute. reflexivity. Qed.

(** C23: a test of a cluster passes exactly if its peers agree.  In a reachable
    cluster whose peers take no snapshots, and in whatever interleaving the
    harness reads what they have sent, it never complains about an index: it
    accepts if and only if no two peers have applied different entries at one
    index. *)
Theorem harness_judges_agreement {Cmd : Type} `{EqDecision Cmd, !LabGob (PersistData Cmd)} n (w : World Cmd) l :
  reachable n w → no_snapshots w → reads w l →
  (∃ cfg, harness l (make_config n) = Ok cfg) ↔
  (∀ i j s s' m m', servers w !! i = Some s → servers w !! j = Some s' → m ∈ applyCh s → m' ∈ applyCh s' →
    CommandIndex m = CommandIndex m' → said m = said m').
Proof.
  intros Hw Hno Hrd. pose proof Hrd as [Hr Hm]. destruct (reachable_inv n w Hw) as [Hlen _].
  destruct (harness_exact n l) as [(cfg & -> & _ & _ & Ha)|[(why & ->) Hbad]].
  { eapply Forall_impl; [exact Hr|]. intros [i m|i] Hi; [cbn; lia|done]. }
  - split; [|by eexists]. intros _ i j s s' m m' Hi Hj Hin Hin'.
    rewrite <- (Hm i s Hi) in Hin. rewrite <- (Hm j s' Hj) in Hin'. apply messagesOf_elem in Hin, Hin'. by apply (Ha i j).
  - split; [by intros [? ?]|]. intros Hall. destruct Hbad. split; [by eapply cluster_in_order|].
    intros i j m m' Hin Hin'. rewrite Forall_forall in Hr. pose proof (Hr _ Hin) as Hi. pose proof (Hr _ Hin') as Hj.
    destruct (lookup_lt_is_Some_2 _ _ Hi) as [s Hs], (lookup_lt_is_Some_2 _ _ Hj) as [s' Hs'].
    apply (Hall i j s s'); [done|done|rewrite <- (Hm i s Hs)|rewrite <- (Hm j s' Hs')]; by apply messagesOf_elem.
Qed.

Lemma harness_judges_agreement_witness :
  let w := initial (Cmd := Z) 2 (mkEnv 0 0) in
  (∃ cfg, harness [] (make_config (Cmd := Z) 2) = Ok cfg) ↔
  (∀ i j s s' m m', servers w !! i = Some s → servers w !! j = Some s' → m ∈ applyCh s → m' ∈ applyCh s' →
    CommandIndex m = CommandIndex m' → said m = said m').
Proof.
  intros w. apply (harness_judges_agreement 2 w []).
  - apply reachable_init.
  - intros [|[|i]] s Hs; cbn in Hs; [injection Hs as <-; split; [reflexivity|constructor]..|discriminate Hs].
  - split; [constructor|]. intros [|[|i]] s Hs; cbn in Hs; [injection Hs as <-; reflexivity..|discriminate Hs].
Defined.

(** Why the test ends. *)
Definition is_fatal {A} (r : Res A) : option string := match r with Fatal why => Some why | _ => None end.

(** Everything a cluster has sent, one server after the other. *)
Definition allSent {Cmd} (w : World Cmd) : list (Heard Cmd) :=
  imap (λ i s, (i, s)) (servers w) ≫= λ p, Applied p.1 <$> applyCh p.2.

(** What the connected servers answer to [GetState]; all are connected. *)
Definition getStates {Cmd} (w : World Cmd) : list Answer :=
  imap (λ i s, let '(term, leader) := GetState (raft s) in mkAnswer i term leader) (servers w).

(** The harness finds what is wrong with this Raft.  Clusters of five
    peers are reachable in which [checkOneLeader] ends the test, because two
    peers lead in one term, and in which [apply] ends it, because two peers
    have applied different commands at one index ([RaftScenarios]). *)
Theorem harness_finds_divergence :
  (∃ w : World Z, reachable 5 w ∧ ∀ rounds, checkOneLeader (getStates w :: rounds) = Fatal "term has >1 leaders") ∧
  (∃ w : World Z, reachable 5 w ∧
    harness (allSent w) (make_config 5) = Fatal "has already committed another entry for the same index").
Proof.
  split.
  - destruct (after_reachable 5 (elect0 ++ elect3 ++ heartbeat0 ++ elect4)
      (λ w, bool_decide (is_fatal (oneLeaderRound (getStates w)) = Some "term has >1 leaders"%string))) as (w & Hw & Hf).
    + vm_compute. reflexivity.
    + exists w. split; [exact Hw|]. intros rounds. cbn. apply bool_decide_eq_true in Hf.
      destruct (oneLeaderRound (getStates w)); [done| |done]. by injection Hf as ->.
  - destruct (after_reachable 5
      (elect0 ++ elect3 ++ heartbeat0 ++ elect4 ++ replicate_from 3 10 ++ replicate_from 4 20)
      (λ w, bool_decide (is_fatal (harness (allSent w) (make_config 5)) =
        Some "has already committed another entry for the same index"%string))) as (w & Hw & Hf).
    + vm_compute. reflexivity.
    + exists w. split; [exact Hw|]. apply bool_decide_eq_true in Hf. destruct (harness _ _); [done| |done].
      by injection Hf as ->.
Qed.
