(* ===== verification/RaftService.v ===== *)
(** * What a service may rely on from its Raft peer

    The key/value servers and the shard controller hold a [*raft.Raft] and
    call [GetState], [Start], [Snapshot], [CondInstallSnapshot], [Kill] and
    [GetPersister().RaftStateSize].  [RaftService] states these operations and
    the laws the services use; the services are modelled over any instance,
    and [Raft_service] shows that the peer of [RaftState] is one.

    [Snapshot] can end the process: a peer that is told to compact an index
    beyond its log calls [log.Fatal].  [rs_ready] is what it needs of the peer;
    for the peer of [RaftState] that its commit index lies inside its log. *)

From S2P Require Import Prelude Gob Persister RaftState RaftLog RaftAppend RaftSnapshot.
Open Scope Z_scope.

Class RaftService (R Cmd : Type) := {
  rs_GetState : R → Z * bool;
  rs_Start : Iface Cmd → R → R * (Z * Z * bool);
  rs_Snapshot : Z → bytes → R → Res R;
  rs_CondInstallSnapshot : Z → Z → bytes → R → bool;
  rs_Kill : R → R;
  rs_RaftStateSize : R → Z;
  rs_ready : R → Prop;
  (** [Start] answers with the term and leadership of the peer, *)
  rs_Start_state r c : (rs_Start c r).2.1.2 = (rs_GetState r).1 ∧ (rs_Start c r).2.2 = (rs_GetState r).2;
  (** does nothing when the peer is not leader, *)
  rs_Start_follower r c : (rs_GetState r).2 = false → (rs_Start c r).1 = r;
  (** and does not change term or leadership. *)
  rs_Start_keeps r c : rs_GetState (rs_Start c r).1 = rs_GetState r;
  rs_Snapshot_keeps r r' i b : rs_Snapshot i b r = Ok r' → rs_GetState r' = rs_GetState r;
  (** A peer that is ready can take a snapshot at any index, and stays ready;
      a new command keeps it ready. *)
  rs_Snapshot_ready r i b : rs_ready r → ∃ r', rs_Snapshot i b r = Ok r' ∧ rs_ready r';
  rs_Start_ready r c : rs_ready r → rs_ready (rs_Start c r).1;
  (** [CondInstallSnapshot] accepts every snapshot. *)
  rs_CondInstallSnapshot_true t i b r : rs_CondInstallSnapshot t i b r = true;
  rs_Kill_keeps r : rs_GetState (rs_Kill r) = rs_GetState r;
}.

Section raft_service.
Context {Cmd : Type} `{!LabGob (PersistData Cmd)}.
Implicit Types rf : Raft Cmd.

Lemma Start_state rf (c : Iface Cmd) :
  (Start c rf).2.1.2 = (GetState rf).1 ∧ (Start c rf).2.2 = (GetState rf).2.
Proof. unfold Start. by case_decide. Qed.

Lemma Start_follower rf (c : Iface Cmd) : (GetState rf).2 = false → (Start c rf).1 = rf.
Proof.
  cbn. intros Hl%bool_decide_eq_false. unfold Start. by rewrite decide_True.
Qed.

Lemma Start_keeps rf (c : Iface Cmd) : GetState (Start c rf).1 = GetState rf.
Proof. unfold Start. by case_decide. Qed.

Lemma SnapshotAt_keeps rf rf' (i : Z) (b : bytes) :
  SnapshotAt i b rf = Ok rf' → GetState rf' = GetState rf.
Proof.
  unfold SnapshotAt. intros H. case_decide; go_inv; [done|].
  case_decide; done.
Qed.

(** The commit index lies inside the log. *)
Definition commit_in_log rf : Prop := ∃ L, rep L rf ∧ commitIndex rf < zlen L.

Lemma SnapshotAt_ready rf (i : Z) (b : bytes) :
  commit_in_log rf → ∃ rf', SnapshotAt i b rf = Ok rf' ∧ commit_in_log rf'.
Proof.
  intros (L & R & Hc). destruct (SnapshotAt_eq L rf i b R) as (H1 & H2 & _).
  destruct (decide (snapshotEntriesAmount rf ≤ i ≤ commitIndex rf)) as [Hi|Hi].
  - destruct H1 as [E R']; [done|lia|]. eexists. split; [exact E|]. by exists L.
  - rewrite H2 by lia. exists rf. split; [done|]. by exists L.
Qed.

Lemma Start_ready rf (c : Iface Cmd) : commit_in_log rf → commit_in_log (Start c rf).1.
Proof.
  intros (L & R & Hc). destruct (decide (status rf = Leader)) as [Hl|Hl].
  - exists (L ++ [mkLogEntity (currentTerm rf) c]). split; [by apply Start_rep|]. rewrite length_app.
    assert (commitIndex (Start c rf).1 = commitIndex rf) as -> by (unfold Start; by rewrite decide_False by auto). lia.
  - rewrite Start_follower by (by apply bool_decide_eq_false). by exists L.
Qed.

#[export] Instance Raft_service : RaftService (Raft Cmd) Cmd := {|
  rs_GetState := GetState;
  rs_Start := Start;
  rs_Snapshot := SnapshotAt;
  rs_CondInstallSnapshot := CondInstallSnapshot;
  rs_Kill := Kill;
  rs_RaftStateSize rf := RaftStateSize (persister rf);
  rs_ready := commit_in_log;
  rs_Snapshot_ready := SnapshotAt_ready;
  rs_Start_ready := Start_ready;
  rs_Start_state := Start_state;
  rs_Start_follower := Start_follower;
  rs_Start_keeps := Start_keeps;
  rs_Snapshot_keeps := SnapshotAt_keeps;
  rs_CondInstallSnapshot_true _ _ _ _ := eq_refl;
  rs_Kill_keeps _ := eq_refl;
|}.
End raft_service.

(** A peer that never does anything, to evaluate services with: its term and
    whether it leads. *)
Definition IdlePeer : Type := Z * bool.

#[export] Instance Idle_service {Cmd : Type} : RaftService IdlePeer Cmd := {|
  rs_GetState r := r;
  rs_Start _ r := (r, (1, r.1, r.2));
  rs_Snapshot _ _ r := Ok r;
  rs_CondInstallSnapshot _ _ _ _ := true;
  rs_Kill r := r;
  rs_RaftStateSize _ := 0;
  rs_ready _ := True;
  rs_Snapshot_ready r _ _ _ := ex_intro _ r (conj eq_refl I);
  rs_Start_ready _ _ _ := I;
  rs_Start_state _ _ := conj eq_refl eq_refl;
  rs_Start_follower _ _ _ := eq_refl;
  rs_Start_keeps _ _ := eq_refl;
  rs_Snapshot_keeps r r' _ _ H := match H in _ = x return (match x with Ok y => y = r | _ => True end) with eq_refl => eq_refl end;
  rs_CondInstallSnapshot_true _ _ _ _ := eq_refl;
  rs_Kill_keeps _ := eq_refl;
|}.
