(* ===== verification/KvServer.v ===== *)
(** * The key/value server (code/src/kvraft)

    common.go, utils.go, server.go, kvServerApplyTicker.go,
    kvServerSnapshot.go, and the critical sections of kvServerGet.go and
    kvServerPutAppend.go.  Every function of this file runs under [kv.mu].
    The peer underneath is any [RaftService].

    [startChannels] holds references to channels.  A channel is a number that
    indexes [channels], the flags of the channels made so far: [false] open,
    [true] closed.  The send of [signalStartCh] on an unbuffered channel waits
    for its receiver, so [handleCommandApply] ends with the send it is about
    to make; [KvSystem] runs handlers, timers and the apply loop together. *)

From S2P Require Import Prelude Gob Persister RaftState RaftService.
Open Scope Z_scope.

(** ** common.go *)

Definition OK : string := "OK".
Definition ErrNoKey : string := "ErrNoKey".
Definition ErrWrongLeader : string := "ErrWrongLeader".
Definition ErrOther : string := "ErrOther".
Definition ErrTimeout : string := "ErrTimeout".
Definition ErrFiller : string := "ErrFiller".

(** [OpType] is a Go string type with three constants. *)
Definition OpType : Type := string.
Definition GET : OpType := "GET".
Definition APPEND : OpType := "APPEND".
Definition PUT : OpType := "PUT".

Record Op := mkOp {
  ServerId : Z;
  OpIndex : Z;
  OpKind : OpType;
  Key : string;
  Value : string;
  ClientId : Z;
  RequestIndex : Z;
}.

#[export] Instance Op_eq_dec : EqDecision Op.
Proof. solve_decision. Defined.
#[export] Instance Op_countable : Countable Op.
Proof.
  refine (inj_countable'
    (λ o, (ServerId o, OpIndex o, OpKind o : string, Key o, Value o, ClientId o, RequestIndex o))
    (λ p, let '(a, b, c, d, e, f, g) := p in mkOp a b c d e f g) _).
  by intros [].
Defined.

Record KVReplyMsg := mkKVReplyMsg { Error : string; ReplyValue : string }.

(** What a receive from a closed channel yields. *)
Definition zeroReply : KVReplyMsg := mkKVReplyMsg "" "".

Record OpKVReplyChannel := mkOpKVReplyChannel { Operation : Op; ReplyChannel : nat }.

(** ** server.go *)

Record State := mkState {
  KeyValueStore : gmap string string;
  ClientLastRequest : gmap Z Z;
}.
#[export] Instance State_eta : Settable State :=
  λ s, mkState (KeyValueStore s) (ClientLastRequest s).
#[export] Instance set_KeyValueStore : Setter KeyValueStore := ltac:(derive_setter).
#[export] Instance set_ClientLastRequest : Setter ClientLastRequest := ltac:(derive_setter).
#[export] Instance State_eq_dec : EqDecision State.
Proof. solve_decision. Defined.
#[export] Instance State_countable : Countable State.
Proof.
  refine (inj_countable' (λ s, (KeyValueStore s, ClientLastRequest s))
    (λ p, mkState p.1 p.2) _).
  by intros [].
Defined.

Definition makeState : State := mkState ∅ ∅.

(** The three values [makeSnapshot] encodes. *)
Definition SnapshotData : Type := State * Z * Z.

Record KVServer (R : Type) := mkKVServer {
  me : Z;
  rf : R;
  dead : bool;
  maxraftstate : Z;
  instoreLogCount : Z;
  totalLogCount : Z;
  state : State;
  startChannels : gmap Z (gmap Z OpKVReplyChannel);
  opIndex : Z;
  channels : list bool;
}.
Arguments mkKVServer {R}.
Arguments me {R}.
Arguments rf {R}.
Arguments dead {R}.
Arguments maxraftstate {R}.
Arguments instoreLogCount {R}.
Arguments totalLogCount {R}.
Arguments state {R}.
Arguments startChannels {R}.
Arguments opIndex {R}.
Arguments channels {R}.

#[export] Instance KVServer_eta {R} : Settable (KVServer R) := λ kv,
  mkKVServer (me kv) (rf kv) (dead kv) (maxraftstate kv) (instoreLogCount kv)
    (totalLogCount kv) (state kv) (startChannels kv) (opIndex kv) (channels kv).
#[export] Instance set_rf {R} : Setter (@rf R) := ltac:(derive_setter).
#[export] Instance set_kv_dead {R} : Setter (@dead R) := ltac:(derive_setter).
#[export] Instance set_instoreLogCount {R} : Setter (@instoreLogCount R) := ltac:(derive_setter).
#[export] Instance set_totalLogCount {R} : Setter (@totalLogCount R) := ltac:(derive_setter).
#[export] Instance set_state {R} : Setter (@state R) := ltac:(derive_setter).
#[export] Instance set_startChannels {R} : Setter (@startChannels R) := ltac:(derive_setter).
#[export] Instance set_opIndex {R} : Setter (@opIndex R) := ltac:(derive_setter).
#[export] Instance set_channels {R} : Setter (@channels R) := ltac:(derive_setter).

Ltac kv_simpl :=
  cbn [setf set_KeyValueStore set_ClientLastRequest set_rf set_kv_dead set_instoreLogCount
       set_totalLogCount set_state set_startChannels set_opIndex set_channels
       KeyValueStore ClientLastRequest me rf dead maxraftstate instoreLogCount
       totalLogCount state startChannels opIndex channels Error ReplyValue fst snd] in *.

(** ** The replicated state machine *)

Definition getValue (op : Op) (st : State) : Res (string * string) :=
  if decide (OpKind op ≠ GET) then Fatal "In geValue(), op type not GET"
  else match KeyValueStore st !! Key op with
       | Some val => Ok (val, OK)
       | None => Ok ("", ErrNoKey)
       end.

Definition isDuplicateOp (op : Op) (st : State) : bool :=
  match ClientLastRequest st !! ClientId op with
  | Some lastRequestIndex =>
      if decide (RequestIndex op ≤ lastRequestIndex) then true else false
  | None => false
  end.

(** The first part of [handleCommandApply]: the effect of an operation on the
    state, and the answer to it. *)
Definition applyOp (op : Op) (st : State) : Res (State * KVReplyMsg) :=
  if isDuplicateOp op st then
    if decide (OpKind op = GET) then
      '(v, e) ← getValue op st; Ok (st, mkKVReplyMsg e v)
    else Ok (st, mkKVReplyMsg OK "")
  else
    let st := st <| ClientLastRequest := <[ClientId op := RequestIndex op]> (ClientLastRequest st) |> in
    if decide (OpKind op = GET) then
      '(v, e) ← getValue op st; Ok (st, mkKVReplyMsg e v)
    else if decide (OpKind op = PUT) then
      Ok (st <| KeyValueStore := <[Key op := Value op]> (KeyValueStore st) |>, mkKVReplyMsg OK "")
    else if decide (OpKind op = APPEND) then
      let new := match KeyValueStore st !! Key op with
                 | Some val => (val ++ Value op)%string
                 | None => Value op
                 end in
      Ok (st <| KeyValueStore := <[Key op := new]> (KeyValueStore st) |>, mkKVReplyMsg OK "")
    else Fatal "In handleCommandApply(), op.Type not in [GET, PUT, APPEND]".

Section kv_server.
Context {R : Type} `{!RaftService R Op} `{!LabGob SnapshotData}.
Implicit Types kv : KVServer R.

(** [m.Command.(Op)]. *)
Definition asOp (c : Iface Op) : Res Op :=
  match c with ICmd op => Ok op | _ => Panic "interface conversion" end.

Definition Kill (kv : KVServer R) : KVServer R :=
  kv <| dead := true |> <| rf := rs_Kill (rf kv) |>.

Definition killed (kv : KVServer R) : bool := dead kv.

(** ** Channels (utils.go) *)

Definition createStartCh (op : Op) (kv : KVServer R) : KVServer R * OpKVReplyChannel :=
  let chans := default ∅ (startChannels kv !! ClientId op) in
  let opChannel := mkOpKVReplyChannel op (length (channels kv)) in
  (kv <| startChannels :=
           <[ClientId op := <[RequestIndex op := opChannel]> chans]> (startChannels kv) |>
      <| channels := channels kv ++ [false] |>, opChannel).

Definition getStartCh (op : Op) (kv : KVServer R) : option OpKVReplyChannel :=
  clientMap ← startChannels kv !! ClientId op;
  clientMap !! RequestIndex op.

(** [close] panics on a closed channel. *)
Definition close (ch : nat) (kv : KVServer R) : Res (KVServer R) :=
  match channels kv !! ch with
  | Some false => Ok (kv <| channels := <[ch := true]> (channels kv) |>)
  | _ => Panic "close of closed channel"
  end.

Definition deleteStartCh (op : Op) (kv : KVServer R) : Res (KVServer R) :=
  match startChannels kv !! ClientId op with
  | None => Ok kv
  | Some clientMap =>
      match clientMap !! RequestIndex op with
      | None => Ok kv
      | Some startCh =>
          kv ← close (ReplyChannel startCh) kv;
          Ok (kv <| startChannels :=
                <[ClientId op := delete (RequestIndex op) clientMap]> (startChannels kv) |>)
      end
  end.

(** ** Snapshots (kvServerSnapshot.go) *)

Definition makeSnapshot (kv : KVServer R) : bytes :=
  gob_encode ((state kv, opIndex kv, totalLogCount kv) : SnapshotData).

(** The operation index of the snapshot is decoded and dropped. *)
Definition readSnapshot (data : bytes) : Res (State * Z) :=
  match gob_decode data : option SnapshotData with
  | None => Fatal "read persist error"
  | Some (newState, _, snapShotTotalLogCount) => Ok (newState, snapShotTotalLogCount)
  end.

Definition installSnapshot (data : bytes) (kv : KVServer R) : Res (KVServer R) :=
  match data with
  | [] => Ok kv
  | _ =>
      '(st, total) ← readSnapshot data;
      Ok (kv <| state := st |> <| totalLogCount := total |> <| instoreLogCount := 0 |>)
  end.

(** ** Applying (kvServerApplyTicker.go) *)

Definition opChannelMatch (op : Op) (kv : KVServer R) : bool :=
  if decide (ServerId op ≠ me kv) then false
  else match getStartCh op kv with
       | None => false
       | Some startCh =>
           let originalOp := Operation startCh in
           if decide (Key originalOp ≠ Key op ∨ Value originalOp ≠ Value op ∨
                      OpKind originalOp ≠ OpKind op ∨ ClientId originalOp ≠ ClientId op ∨
                      RequestIndex originalOp ≠ RequestIndex op)
           then false else true
       end.

(** A send [signalStartCh] is about to make: the channel, the message, and
    the operation whose channel is deleted after it. *)
Record Sending := mkSending { toChannel : nat; message : KVReplyMsg; sentOp : Op }.

Definition signalStartCh (op : Op) (replyMsg : KVReplyMsg) (kv : KVServer R) : option Sending :=
  match getStartCh op kv with
  | None => None
  | Some startCh => Some (mkSending (ReplyChannel startCh) replyMsg op)
  end.

Definition handleCommandApply (m : ApplyMsg Op) (kv : KVServer R)
    : Res (KVServer R * option Sending) :=
  op ← asOp (Command m);
  '(st, replyMsg) ← applyOp op (state kv);
  let kv := kv <| state := st |> in
  kv ← (if decide (maxraftstate kv ≠ -1 ∧ rs_RaftStateSize (rf kv) >= maxraftstate kv) then
          let snapshot := makeSnapshot kv in
          rf' ← rs_Snapshot (CommandIndex m) snapshot (rf kv);
          Ok (kv <| rf := rf' |>)
        else Ok kv);
  let replyMsg := if (rs_GetState (rf kv)).2 then replyMsg
                  else mkKVReplyMsg ErrWrongLeader (ReplyValue replyMsg) in
  Ok (kv, if opChannelMatch op kv then signalStartCh op replyMsg kv else None).

Definition handleApplyMessage (m : ApplyMsg Op) (kv : KVServer R)
    : Res (KVServer R * option Sending) :=
  if SnapshotValid m then
    if rs_CondInstallSnapshot (SnapshotTerm m) (SnapshotIndex m) (Snapshot m) (rf kv)
    then (kv ← installSnapshot (Snapshot m) kv; Ok (kv, None))
    else Ok (kv, None)
  else if CommandValid m then handleCommandApply m kv
  else if decide (CommandIndex m ≠ 0)
  then Panic "not snapshot, not command, and index not 0"
  else Ok (kv, None).

(** ** The handlers' critical sections (kvServerGet.go, kvServerPutAppend.go) *)

Record GetArgs := mkGetArgs { GA_Key : string; GA_ClientId : Z; GA_RequestIndex : Z }.

Record PutAppendArgs := mkPutAppendArgs {
  PA_Key : string; PA_Value : string; PA_Op : OpType; PA_ClientId : Z; PA_RequestIndex : Z }.

Definition createGetOp (args : GetArgs) (kv : KVServer R) : KVServer R * Op :=
  (kv <| opIndex := opIndex kv + 1 |>,
   mkOp (me kv) (opIndex kv) GET (GA_Key args) "" (GA_ClientId args) (GA_RequestIndex args)).

Definition createPutAppendOp (args : PutAppendArgs) (kv : KVServer R) : KVServer R * Op :=
  (kv <| opIndex := opIndex kv + 1 |>,
   mkOp (me kv) (opIndex kv) (PA_Op args) (PA_Key args) (PA_Value args) (PA_ClientId args)
     (PA_RequestIndex args)).

(** [None] for the channel: stop, with [ErrWrongLeader] in the reply. *)
Definition preGetStart (args : GetArgs) (kv : KVServer R)
    : KVServer R * Op * option OpKVReplyChannel :=
  let '(kv, op) := createGetOp args kv in
  if killed kv then (kv, op, None)
  else let '(kv, startCh) := createStartCh op kv in (kv, op, Some startCh).

Definition prePutAppendStart (args : PutAppendArgs) (kv : KVServer R)
    : KVServer R * Op * option OpKVReplyChannel :=
  let '(kv, op) := createPutAppendOp args kv in
  if killed kv then (kv, op, None)
  else let '(kv, startCh) := createStartCh op kv in (kv, op, Some startCh).

(** The reply of a handler: [Err] and, for Get, [Value]. *)
Definition handleGetResult (op : Op) (responseMsg : KVReplyMsg) (kv : KVServer R)
    : Res (KVServer R * KVReplyMsg) :=
  kv ← deleteStartCh op kv;
  if decide (Error responseMsg = ErrFiller)
  then Fatal "In handleGetResult(), response error is ErrFiller, which should not be"
  else Ok (kv, responseMsg).

Definition handlePutAppendResult (op : Op) (responseMsg : KVReplyMsg) (kv : KVServer R)
    : Res (KVServer R * string) :=
  kv ← deleteStartCh op kv;
  if decide (Error responseMsg = ErrFiller)
  then Fatal "In handlePutAppendResult(), response error is ErrFiller, which should not be"
  else Ok (kv, Error responseMsg).

Definition getTimeout (op : Op) (kv : KVServer R) : Res (KVServer R * string) :=
  kv ← deleteStartCh op kv; Ok (kv, ErrTimeout).

Definition putAppendTimeout (op : Op) (kv : KVServer R) : Res (KVServer R * string) :=
  kv ← deleteStartCh op kv; Ok (kv, ErrTimeout).

(** ** Start *)

Definition StartKVServer (me : Z) (rf : R) (maxraftstate : Z) (snapshot : bytes)
    : Res (KVServer R) :=
  installSnapshot snapshot
    (mkKVServer me rf false maxraftstate 0 0 makeState ∅ 0 []).
End kv_server.
