(* ===== verification/ReplyServer.v ===== *)
(** * Replying over channels: handlers and the apply loop

    The key/value server, the shard controller and the sharded key/value
    server answer an RPC in the same way.  The handler checks that the Raft
    peer leads, registers a reply channel under the lock, starts the operation
    without the lock, and waits in a [select] for a message on its channel or
    a time-out; the apply loop, holding the lock, applies an operation and
    sends its result on the channel registered for it, which blocks until a
    receiver is there; both sides then remove the channel from the table.

    [Table]: the table of channels ([startChannels]) and the channels made so
    far, each with whether it is closed.  [ReplyServer] states the pieces a
    server brings, [ReplyLaws] what is promised of them; the steps, the
    invariant and the theorems of the composition are stated once over these
    classes ([KvSystem], [ShardCtrlerSystem], [ShardKvSystem] have the
    instances). *)

From S2P Require Import Prelude.

(** ** The table of reply channels *)

Record Table (C : Type) := mkTable { entries : gmap Z (gmap Z C); chans : list bool }.
Arguments mkTable {C}.
Arguments entries {C}.
Arguments chans {C}.

Section table.
Context {C : Type} (chanOf : C → nat).
Implicit Types (T : Table C) (id : Z * Z) (c : C).

Definition t_get id T : option C := entries T !! id.1 ≫= (.!! id.2).

(** [createStartCh]: a new channel. *)
Definition t_add id c T : Table C :=
  mkTable (<[id.1 := <[id.2 := c]> (default ∅ (entries T !! id.1))]> (entries T)) (chans T ++ [false]).

(** [deleteStartCh]: closing a closed channel panics. *)
Definition t_delete id T : Res (Table C) :=
  match entries T !! id.1 with
  | None => Ok T
  | Some clientMap =>
      match clientMap !! id.2 with
      | None => Ok T
      | Some c =>
          match chans T !! chanOf c with
          | Some false => Ok (mkTable (<[id.1 := delete id.2 clientMap]> (entries T))
                                (<[chanOf c := true]> (chans T)))
          | _ => Panic "close of closed channel"
          end
      end
  end.

(** Every registered channel is open, and no two entries share one. *)
Record table_ok T : Prop := mkTableOk {
  to_open : ∀ id c, t_get id T = Some c → chans T !! chanOf c = Some false;
  to_inj : ∀ id id' c c', t_get id T = Some c → t_get id' T = Some c' → chanOf c = chanOf c' → id = id';
}.

Lemma table_ok_empty : table_ok (mkTable ∅ []).
Proof. by split. Qed.

Lemma t_get_add id id' c T : t_get id' (t_add id c T) = if decide (id' = id) then Some c else t_get id' T.
Proof.
  unfold t_get, t_add. destruct id as [i j], id' as [i' j']. cbn. case_decide as Hid.
  - injection Hid as -> ->. by rewrite lookup_insert_eq; cbn; rewrite lookup_insert_eq.
  - destruct (decide (i' = i)) as [->|Hi]; [|by rewrite lookup_insert_ne].
    rewrite lookup_insert_eq. cbn. rewrite lookup_insert_ne by congruence. by destruct (entries T !! i).
Qed.

Lemma table_ok_fresh T id c : table_ok T → t_get id T = Some c → (chanOf c < length (chans T))%nat.
Proof. intros [Ho _] H. by eapply lookup_lt_Some, Ho. Qed.

Lemma table_ok_add id c T : table_ok T → chanOf c = length (chans T) → table_ok (t_add id c T).
Proof.
  intros Hok Hc. pose proof (table_ok_fresh T) as Hlt. split.
  - intros id' c'. rewrite t_get_add. cbn. case_decide.
    + intros [= <-]. rewrite Hc. by rewrite lookup_app_r, Nat.sub_diag by lia.
    + intros Hc'. apply lookup_app_l_Some. by eapply to_open.
  - intros id1 id2 c1 c2. rewrite !t_get_add. repeat case_decide; [congruence|..]; intros H1 H2 E.
    + injection H1 as <-. specialize (Hlt _ _ Hok H2). lia.
    + injection H2 as <-. specialize (Hlt _ _ Hok H1). lia.
    + by eapply to_inj.
Qed.

(** Deleting an entry never panics; it closes its channel and leaves the
    other entries. *)
Lemma t_delete_ok id T :
  table_ok T → ∃ T', t_delete id T = Ok T' ∧ table_ok T' ∧ length (chans T') = length (chans T) ∧
    ∀ id', t_get id' T' = if decide (id' = id) then None else t_get id' T.
Proof.
  intros [Ho Hi]. destruct id as [i j]. unfold t_delete. cbn.
  assert (t_get (i, j) T = None → ∃ T', Ok T = Ok T' ∧ table_ok T' ∧ length (chans T') = length (chans T) ∧
    ∀ id', t_get id' T' = if decide (id' = (i, j)) then None else t_get id' T) as Hnone.
  { intros Hn. exists T. split_and!; try done. intros id'. case_decide; by subst. }
  destruct (entries T !! i) as [m|] eqn:Em; [|apply Hnone; unfold t_get; cbn; by rewrite Em].
  destruct (m !! j) as [c|] eqn:Ec; [|apply Hnone; unfold t_get; cbn; by rewrite Em].
  assert (t_get (i, j) T = Some c) as Hc by (unfold t_get; cbn; by rewrite Em).
  rewrite (Ho _ _ Hc). eexists. split; [done|]. set (T' := mkTable _ _).
  assert (∀ id', t_get id' T' = if decide (id' = (i, j)) then None else t_get id' T) as Hget.
  { intros [i' j']. unfold t_get, T'. cbn. case_decide as Hid.
    - injection Hid as -> ->. rewrite lookup_insert_eq. cbn. apply lookup_delete_eq.
    - destruct (decide (i' = i)) as [->|?]; [|by rewrite lookup_insert_ne].
      rewrite lookup_insert_eq, Em. cbn. apply lookup_delete_ne. congruence. }
  split_and!; [|unfold T'; cbn; apply length_insert|done]. split.
  - intros id' c'. rewrite Hget. case_decide as Hid; [done|]. intros Hc'. unfold T'. cbn.
    rewrite list_lookup_insert_ne; [by eapply Ho|]. intros E. apply Hid. symmetry. by eapply Hi.
  - intros id1 id2 c1 c2. rewrite !Hget. repeat case_decide; try done. by apply Hi.
Qed.

(** An entry of [T'] is one of [T], or has a channel made since. *)
Definition table_step T T' : Prop :=
  (length (chans T) ≤ length (chans T'))%nat ∧
  ∀ id c, t_get id T' = Some c → t_get id T = Some c ∨ (length (chans T) ≤ chanOf c)%nat.

#[export] Instance table_step_refl : Reflexive table_step.
Proof. intros T. split; [done|by left]. Qed.

Lemma table_step_add id c T : chanOf c = length (chans T) → table_step T (t_add id c T).
Proof.
  intros Hc. split; [cbn; rewrite length_app; lia|]. intros id' c'. rewrite t_get_add.
  case_decide; [|by left]. intros [= <-]. right. lia.
Qed.

Lemma table_step_delete id T T' : table_ok T → t_delete id T = Ok T' → table_ok T' ∧ table_step T T'.
Proof.
  intros Hok H. destruct (t_delete_ok id T Hok) as (T1 & E & ? & Hl & Hget).
  rewrite H in E. injection E as <-.
  split; [done|]. split; [lia|]. intros id' c. rewrite Hget. case_decide; [done|by left].
Qed.
End table.

(** ** What a server brings *)

(** The apply loop in the middle of a send. *)
Record Sent (Op Msg : Type) := mkSent { sentTo : nat; sentMsg : Msg; sentFor : Op }.
Arguments mkSent {Op Msg}.
Arguments sentTo {Op Msg}.
Arguments sentMsg {Op Msg}.
Arguments sentFor {Op Msg}.

Class ReplyServer (S Req Op Chan Msg Reply Item Env : Type) := {
  (** [rf.GetState()] *)
  h_leads : S → bool;
  (** [pre...Start], under the lock: a reply, or an operation and its channel *)
  h_pre : Req → S → Res (S * (Reply + Op * Chan));
  (** [rf.Start(op)], without the lock *)
  h_start : Op → S → S * bool;
  (** [deleteStartCh] *)
  h_drop : Op → S → Res S;
  (** [handle...Result] and [...Timeout], under the lock *)
  h_result : Req → Op → Msg → S → Res (S * Reply);
  h_timeout : Req → Op → S → Res (S * Reply);
  h_wrongLeader : Reply;
  (** what is received from a closed channel *)
  h_zero : Msg;
  (** [handleApplyMessage], up to the send it ends in *)
  h_deliver : Item → S → Res (S * option (Sent Op Msg));
  (** what else changes the server, and whether it takes the lock *)
  h_env : Env → S → Res S;
  h_envLocks : Env → bool;
  h_table : S → Table Chan;
  h_chan : Chan → nat;
}.

(** ** The steps *)

(** Where a handler is. *)
Inductive Phase (Op Chan Msg Reply : Type) :=
  (** before [rf.GetState()] *)
  | HCheck
  (** before [pre...Start] *)
  | HPre
  (** before [rf.Start(op)] *)
  | HStart (op : Op) (sc : Chan)
  (** before [deleteStartChLocked] *)
  | HDelete (op : Op)
  (** in the [select] *)
  | HSelect (op : Op) (sc : Chan)
  (** before [handle...Result] *)
  | HGot (op : Op) (msg : Msg)
  (** before [...Timeout] *)
  | HTimedOut (op : Op)
  | HDone (reply : Reply).
Arguments HCheck {Op Chan Msg Reply}.
Arguments HPre {Op Chan Msg Reply}.
Arguments HStart {Op Chan Msg Reply}.
Arguments HDelete {Op Chan Msg Reply}.
Arguments HSelect {Op Chan Msg Reply}.
Arguments HGot {Op Chan Msg Reply}.
Arguments HTimedOut {Op Chan Msg Reply}.
Arguments HDone {Op Chan Msg Reply}.

Record Sys (S Req Op Chan Msg Reply : Type) := mkSys {
  server : S;
  handlers : list (Req * Phase Op Chan Msg Reply);
  (** set while the apply loop waits in a send, holding the lock *)
  sending : option (Sent Op Msg);
}.
Arguments mkSys {S Req Op Chan Msg Reply}.
Arguments server {S Req Op Chan Msg Reply}.
Arguments handlers {S Req Op Chan Msg Reply}.
Arguments sending {S Req Op Chan Msg Reply}.

Inductive Label (Req Item Env : Type) :=
  | New (req : Req)
  | Handler (k : nat)
  | Timeout (k : nat)
  | Apply (it : Item)
  | Send (k : nat)
  | Other (e : Env).
Arguments New {Req Item Env}.
Arguments Handler {Req Item Env}.
Arguments Timeout {Req Item Env}.
Arguments Apply {Req Item Env}.
Arguments Send {Req Item Env}.
Arguments Other {Req Item Env}.

Definition notEnabled {A} : Res A := Panic "label not enabled".

Section system.
Context {S Req Op Chan Msg Reply Item Env : Type} `{!ReplyServer S Req Op Chan Msg Reply Item Env}.
Local Abbreviation Ph := (Phase Op Chan Msg Reply).
Local Abbreviation System := (Sys S Req Op Chan Msg Reply).
Implicit Types (s : S) (sys : System) (l : Label Req Item Env) (ph : Ph).

(** A critical section: nobody waits in a send with the lock. *)
Definition locked {A} (sys : System) (m : Res A) : Res A :=
  match sending sys with None => m | Some _ => notEnabled end.

Definition goto (k : nat) (req : Req) (ph : Ph) (s : S) (sys : System) : System :=
  mkSys s (<[k := (req, ph)]> (handlers sys)) (sending sys).

(** One step of handler [k]. *)
Definition stepHandler (k : nat) (req : Req) (ph : Ph) (sys : System) : Res System :=
  let s := server sys in
  match ph with
  | HCheck =>
      if h_leads s then Ok (goto k req HPre s sys)
      else Ok (goto k req (HDone h_wrongLeader) s sys)
  | HPre => locked sys (
      '(s, x) ← h_pre req s;
      Ok (goto k req (match x with inl r => HDone r | inr (op, sc) => HStart op sc end) s sys))
  | HStart op sc =>
      let '(s, isLeader) := h_start op s in
      Ok (goto k req (if isLeader : bool then HSelect op sc else HDelete op) s sys)
  | HDelete op => locked sys (
      s ← h_drop op s;
      Ok (goto k req (HDone h_wrongLeader) s sys))
  | HSelect op sc =>
      if decide (chans (h_table s) !! h_chan sc = Some true)
      then Ok (goto k req (HGot op h_zero) s sys) else notEnabled
  | HGot op msg => locked sys (
      '(s, r) ← h_result req op msg s;
      Ok (goto k req (HDone r) s sys))
  | HTimedOut op => locked sys (
      '(s, r) ← h_timeout req op s;
      Ok (goto k req (HDone r) s sys))
  | HDone _ => notEnabled
  end.

Definition exec (l : Label Req Item Env) (sys : System) : Res System :=
  match l with
  | New req => Ok (mkSys (server sys) (handlers sys ++ [(req, HCheck)]) (sending sys))
  | Handler k =>
      match handlers sys !! k with
      | Some (req, ph) => stepHandler k req ph sys
      | None => notEnabled
      end
  | Timeout k =>
      match handlers sys !! k with
      | Some (req, HSelect op sc) => Ok (goto k req (HTimedOut op) (server sys) sys)
      | _ => notEnabled
      end
  | Apply it => locked sys (
      '(s, x) ← h_deliver it (server sys);
      Ok (mkSys s (handlers sys) x))
  | Send k =>
      match sending sys, handlers sys !! k with
      | Some m, Some (req, HSelect op sc) =>
          if decide (h_chan sc = sentTo m) then
            s ← h_drop (sentFor m) (server sys);
            Ok (mkSys s (<[k := (req, HGot op (sentMsg m))]> (handlers sys)) None)
          else notEnabled
      | _, _ => notEnabled
      end
  | Other e =>
      let step := s ← h_env e (server sys); Ok (mkSys s (handlers sys) (sending sys)) in
      if h_envLocks e then locked sys step else step
  end.

Definition run (ls : list (Label Req Item Env)) (sys : System) : Res System :=
  go_for (λ sys l, exec l sys) sys ls.
End system.

(** ** What a server promises *)

Class ReplyLaws (S Req Op Chan Msg Reply Item Env : Type) `{!ReplyServer S Req Op Chan Msg Reply Item Env} := {
  (** the operation a channel was made for; client and request of an
      operation; when two operations are the same request *)
  h_op : Chan → Op;
  h_id : Op → Z * Z;
  h_same : Op → Op → Prop;
  (** the messages that the apply loop sends *)
  h_good : Msg → Prop;
  (** the server's own invariant *)
  h_ok : S → Prop;
  h_itemOk : Item → Prop;
  h_envOk : Env → Prop;
  l_pre req s s' x : h_ok s → h_pre req s = Ok (s', x) →
    h_ok s' ∧ match x with
              | inl _ => h_table s' = h_table s
              | inr (op, sc) => h_op sc = op ∧ h_chan sc = length (chans (h_table s)) ∧
                  h_table s' = t_add (h_id op) sc (h_table s)
              end;
  l_start op s : h_ok s → h_ok (h_start op s).1;
  l_start_table op s : h_table (h_start op s).1 = h_table s;
  l_drop op s T : h_ok s → t_delete h_chan (h_id op) (h_table s) = Ok T →
    ∃ s', h_drop op s = Ok s' ∧ h_ok s' ∧ h_table s' = T;
  l_result req op msg s T : h_ok s → h_good msg → t_delete h_chan (h_id op) (h_table s) = Ok T →
    ∃ s' r, h_result req op msg s = Ok (s', r) ∧ h_ok s' ∧ h_table s' = T;
  l_timeout req op s T : h_ok s → t_delete h_chan (h_id op) (h_table s) = Ok T →
    ∃ s' r, h_timeout req op s = Ok (s', r) ∧ h_ok s' ∧ h_table s' = T;
  l_zero : h_good h_zero;
  l_deliver it s s' x : h_ok s → h_itemOk it → h_deliver it s = Ok (s', x) →
    h_ok s' ∧ h_table s' = h_table s ∧
    ∀ m, x = Some m → h_good (sentMsg m) ∧
      ∃ sc, t_get (h_id (sentFor m)) (h_table s) = Some sc ∧ h_chan sc = sentTo m ∧
        h_same (h_op sc) (sentFor m);
  l_env e s s' : h_ok s → h_envOk e → h_env e s = Ok s' → h_ok s';
  l_env_table e s s' : h_env e s = Ok s' → h_table s' = h_table s;
}.

(** What does not end the process. *)
Class ReplyTotal (S Req Op Chan Msg Reply Item Env : Type) `{ReplyLaws S Req Op Chan Msg Reply Item Env} := {
  (** taking snapshots succeeds *)
  h_ready : S → Prop;
  t_pre req s : h_ok s → ∃ y, h_pre req s = Ok y;
  t_deliver it s : h_ok s → h_ready s → h_itemOk it → ∃ y, h_deliver it s = Ok y;
  t_env e s : h_ok s → h_envOk e → ∃ s', h_env e s = Ok s';
}.

(** ** The composition *)
Section theory.
Context {S Req Op Chan Msg Reply Item Env : Type} `{!ReplyServer S Req Op Chan Msg Reply Item Env}.
Context `{HLaws : !ReplyLaws S Req Op Chan Msg Reply Item Env}.
Local Abbreviation Ph := (Phase Op Chan Msg Reply).
Local Abbreviation System := (Sys S Req Op Chan Msg Reply).
Implicit Types (s : S) (sys : System) (l : Label Req Item Env) (ph : Ph) (T : Table Chan).

Definition label_ok l : Prop :=
  match l with Apply it => h_itemOk it | Other e => h_envOk e | _ => True end.

(** A server that starts: no channel has been made. *)
Inductive reachable : System → Prop :=
  | r_initial s : h_ok s → h_table s = mkTable ∅ [] → reachable (mkSys s [] None)
  | r_step l sys sys' : reachable sys → label_ok l → exec l sys = Ok sys' → reachable sys'.

(** The channel of a handler that is about to wait or waits. *)
Definition waits ph : option (Op * Chan) :=
  match ph with HStart op sc | HSelect op sc => Some (op, sc) | _ => None end.

Definition got ph : option Msg := match ph with HGot _ msg => Some msg | _ => None end.

(** A channel belongs to one operation: the handler that made it and the
    table entry agree on it; and a handler only receives good messages. *)
Definition phase_ok T ph : Prop :=
  (∀ op sc, waits ph = Some (op, sc) →
     h_op sc = op ∧ (h_chan sc < length (chans T))%nat ∧
     ∀ id sc', t_get id T = Some sc' → h_chan sc' = h_chan sc → h_op sc' = op) ∧
  (∀ msg, got ph = Some msg → h_good msg).

(** A send under way goes to the channel registered for its operation. *)
Definition send_ok T (m : Sent Op Msg) : Prop :=
  h_good (sentMsg m) ∧
  ∃ sc, t_get (h_id (sentFor m)) T = Some sc ∧ h_chan sc = sentTo m ∧ h_same (h_op sc) (sentFor m).

Record sys_inv sys : Prop := mkSysInv {
  si_ok : h_ok (server sys);
  si_table : table_ok h_chan (h_table (server sys));
  si_phase : ∀ k req ph, handlers sys !! k = Some (req, ph) → phase_ok (h_table (server sys)) ph;
  si_send : ∀ m, sending sys = Some m → send_ok (h_table (server sys)) m;
}.

Lemma phase_ok_step T T' ph : table_step h_chan T T' → phase_ok T ph → phase_ok T' ph.
Proof.
  intros [Hlen Ht] [Hw Hg]. split; [|done]. intros op sc Hph.
  destruct (Hw op sc Hph) as (Hop & Hlt & Htab). split_and!; [done|lia|].
  intros id sc' Hsc' E. destruct (Ht _ _ Hsc') as [?|?]; [by eapply Htab|lia].
Qed.

Lemma phase_ok_plain T ph : waits ph = None → got ph = None → phase_ok T ph.
Proof. intros Hw Hg. split; [by rewrite Hw|by rewrite Hg]. Qed.

(** The general step: handlers keep their phase or move to a good one. *)
Lemma inv_move sys s' hs' x :
  sys_inv sys → h_ok s' → table_ok h_chan (h_table s') →
  table_step h_chan (h_table (server sys)) (h_table s') →
  (∀ k req ph, hs' !! k = Some (req, ph) →
     (∃ req', handlers sys !! k = Some (req', ph)) ∨ phase_ok (h_table s') ph) →
  (∀ m, x = Some m → send_ok (h_table s') m) →
  sys_inv (mkSys s' hs' x).
Proof.
  intros [_ _ Hp _] Ho Hc' Ht Hh Hs'. split; cbn; [done..| |done].
  intros k req ph Hk. destruct (Hh _ _ _ Hk) as [[req' Hk']|Hok]; [|done].
  eapply phase_ok_step; [done|]. by eapply Hp.
Qed.

(** A step that keeps the table. *)
Lemma inv_same_table sys s' hs' :
  sys_inv sys → h_ok s' → h_table s' = h_table (server sys) →
  (∀ k req ph, hs' !! k = Some (req, ph) →
     (∃ req', handlers sys !! k = Some (req', ph)) ∨ phase_ok (h_table s') ph) →
  sys_inv (mkSys s' hs' (sending sys)).
Proof.
  intros Hi Ho E Hh. apply (inv_move sys); [done..| | |done|]; rewrite E; [apply Hi|done|apply Hi].
Qed.

Lemma insert_phase sys k req ph T (hs' := <[k := (req, ph)]> (handlers sys)) :
  phase_ok T ph →
  ∀ k' req' ph', hs' !! k' = Some (req', ph') →
    (∃ req'', handlers sys !! k' = Some (req'', ph')) ∨ phase_ok T ph'.
Proof.
  intros Hok k' req' ph' Hk. unfold hs' in Hk.
  apply list_lookup_insert_Some in Hk as [(<- & [= -> ->] & _)|[_ Hk]]; eauto.
Qed.

Lemma phase_ok_add T id op sc :
  table_ok h_chan T → h_op sc = op → h_chan sc = length (chans T) → phase_ok (t_add id sc T) (HStart op sc).
Proof.
  intros Hok Hop Hc. split; [|done]. intros op0 sc0 [= <- <-]. split_and!; [done|..].
  - cbn. rewrite length_app. cbn. lia.
  - intros id' sc'. rewrite t_get_add. case_decide; [by intros [= <-]|].
    intros Hsc' E. pose proof (table_ok_fresh _ _ _ _ Hok Hsc'). lia.
Qed.

Lemma locked_Ok {A} sys (m : Res A) a : locked sys m = Ok a → sending sys = None ∧ m = Ok a.
Proof. unfold locked. by destruct (sending sys). Qed.

(** Removing the channel of [op] is possible. *)
Lemma can_delete sys op : sys_inv sys →
  ∃ T, t_delete h_chan (h_id op) (h_table (server sys)) = Ok T ∧ table_ok h_chan T ∧
    table_step h_chan (h_table (server sys)) T.
Proof.
  intros Hi. destruct (t_delete_ok h_chan (h_id op) _ (si_table _ Hi)) as (T & E & _).
  exists T. split; [done|]. apply (table_step_delete _ _ _ _ (si_table _ Hi) E).
Qed.

(** *** The invariant is kept *)

Lemma stepHandler_inv k req ph sys sys' :
  sys_inv sys → handlers sys !! k = Some (req, ph) →
  stepHandler k req ph sys = Ok sys' → sys_inv sys'.
Proof.
  intros Hi Hk H. pose proof (si_phase _ Hi _ _ _ Hk) as Hp. pose proof (si_ok _ Hi) as Ho.
  destruct ph as [| |op sc|op|op sc|op msg|op|reply]; cbn [stepHandler] in H.
  - destruct (h_leads _); injection H as <-; apply inv_same_table; try done;
      apply insert_phase; by apply phase_ok_plain.
  - apply locked_Ok in H as [Hs H]. apply bind_Ok in H as ([s' x] & E & H). injection H as <-.
    unfold goto. rewrite Hs. destruct (l_pre _ _ _ _ Ho E) as [Ho' HT]. destruct x as [r|[op sc]].
    + apply (inv_move sys); [done..| | | |done]; [by rewrite HT; apply Hi|by rewrite HT|].
      apply insert_phase. by apply phase_ok_plain.
    + destruct HT as (Hop & Hc & HT). apply (inv_move sys); [done..| | | |done]; rewrite HT.
      * apply table_ok_add; [apply Hi|done].
      * by apply table_step_add.
      * apply insert_phase. apply phase_ok_add; [apply Hi|done..].
  - destruct (h_start op (server sys)) as [s' b] eqn:E. injection H as <-.
    pose proof (l_start op _ Ho) as Ho'. pose proof (l_start_table op (server sys)) as HT.
    rewrite E in Ho', HT. cbn in Ho', HT.
    apply inv_same_table; [done..|]. rewrite HT. apply insert_phase.
    destruct b; [|by apply phase_ok_plain]. by split; [apply Hp|].
  - apply locked_Ok in H as [Hs H]. apply bind_Ok in H as (s' & E & H). injection H as <-.
    destruct (can_delete sys op Hi) as (T & HT & ? & ?).
    destruct (l_drop op _ T Ho HT) as (s1 & E1 & Ho' & <-). rewrite E in E1. injection E1 as <-.
    unfold goto. rewrite Hs. apply (inv_move sys); [done..| |done].
    apply insert_phase. by apply phase_ok_plain.
  - case_decide; [|done]. injection H as <-. apply inv_same_table; [done..|].
    apply insert_phase. split; [done|]. intros msg [= <-]. apply l_zero.
  - apply locked_Ok in H as [Hs H]. apply bind_Ok in H as ([s' r] & E & H). injection H as <-.
    destruct (can_delete sys op Hi) as (T & HT & ? & ?).
    destruct (l_result req op msg _ T Ho) as (s1 & r1 & E1 & Ho' & <-); [by apply Hp|done|].
    rewrite E in E1. injection E1 as <- <-.
    unfold goto. rewrite Hs. apply (inv_move sys); [done..| |done].
    apply insert_phase. by apply phase_ok_plain.
  - apply locked_Ok in H as [Hs H]. apply bind_Ok in H as ([s' r] & E & H). injection H as <-.
    destruct (can_delete sys op Hi) as (T & HT & ? & ?).
    destruct (l_timeout req op _ T Ho HT) as (s1 & r1 & E1 & Ho' & <-).
    rewrite E in E1. injection E1 as <- <-.
    unfold goto. rewrite Hs. apply (inv_move sys); [done..| |done].
    apply insert_phase. by apply phase_ok_plain.
  - done.
Qed.

(** A send finds a handler in its [select]. *)
Lemma send_cases sys k sys' : exec (Send k) sys = Ok sys' →
  ∃ m req op sc s', sending sys = Some m ∧ handlers sys !! k = Some (req, HSelect op sc) ∧
    h_chan sc = sentTo m ∧ h_drop (sentFor m) (server sys) = Ok s' ∧
    sys' = mkSys s' (<[k := (req, HGot op (sentMsg m))]> (handlers sys)) None.
Proof.
  cbn [exec]. destruct (sending sys) as [m|]; [|done].
  destruct (handlers sys !! k) as [[req [| |op sc|op|op sc|op msg|op|reply]]|]; try done.
  case_decide; [|done]. intros (s' & E & [= <-])%bind_Ok. exists m, req, op, sc, s'. done.
Qed.

Lemma timeout_cases sys k sys' : exec (Timeout k) sys = Ok sys' →
  ∃ req op sc, handlers sys !! k = Some (req, HSelect op sc) ∧ sys' = goto k req (HTimedOut op) (server sys) sys.
Proof.
  cbn [exec]. destruct (handlers sys !! k) as [[req [| |op sc|op|op sc|op msg|op|reply]]|]; try done.
  intros [= <-]. by exists req, op, sc.
Qed.

Lemma other_cases e sys sys' : exec (Other e) sys = Ok sys' →
  ∃ s', h_env e (server sys) = Ok s' ∧ sys' = mkSys s' (handlers sys) (sending sys) ∧
    (h_envLocks e = true → sending sys = None).
Proof.
  cbn [exec]. destruct (h_envLocks e).
  - intros [? (s' & ? & [= <-])%bind_Ok]%locked_Ok. by exists s'.
  - intros (s' & ? & [= <-])%bind_Ok. by exists s'.
Qed.

Lemma exec_inv l sys sys' : sys_inv sys → label_ok l → exec l sys = Ok sys' → sys_inv sys'.
Proof.
  intros Hi Hl H. pose proof (si_ok _ Hi) as Ho. destruct l as [req|k|k|it|k|e].
  - injection H as <-. apply inv_same_table; [done..|].
    intros k req' ph Hk. apply lookup_app_Some in Hk as [Hk|[_ Hk]]; [eauto|].
    right. apply list_lookup_singleton_Some in Hk as [_ [= <- <-]]. by apply phase_ok_plain.
  - cbn [exec] in H. destruct (handlers sys !! k) as [[req ph]|] eqn:Hk; [|done]. by eapply stepHandler_inv.
  - apply timeout_cases in H as (req & op & sc & _ & ->). apply inv_same_table; [done..|].
    apply insert_phase. by apply phase_ok_plain.
  - cbn [exec] in H. apply locked_Ok in H as [_ H]. apply bind_Ok in H as ([s' x] & E & H). injection H as <-.
    destruct (l_deliver _ _ _ _ Ho Hl E) as (Ho' & HT & Hx).
    apply (inv_move sys); [done..| | |eauto|]; rewrite HT; [apply Hi|done|]. exact Hx.
  - apply send_cases in H as (m & req & op & sc & s' & Hm & Hk & _ & E & ->).
    destruct (can_delete sys (sentFor m) Hi) as (T & HT & ? & ?).
    destruct (l_drop _ _ T Ho HT) as (s1 & E1 & Ho' & <-). rewrite E in E1. injection E1 as <-.
    apply (inv_move sys); [done..| |done]. apply insert_phase. split; [done|].
    intros msg [= <-]. by apply (si_send _ Hi).
  - apply other_cases in H as (s' & E & -> & _). pose proof (l_env _ _ _ Ho Hl E) as Ho'.
    pose proof (l_env_table _ _ _ E) as HT. apply inv_same_table; [done..|eauto].
Qed.

Lemma server_reachable_inv sys : reachable sys → sys_inv sys.
Proof.
  induction 1 as [s Ho HT|l sys sys' _ IH Hl H]; [|by eapply exec_inv].
  split; cbn; [done| |done|done]. rewrite HT. apply table_ok_empty.
Qed.

Lemma run_reachable ls sys sys' :
  reachable sys → Forall label_ok ls → run ls sys = Ok sys' → reachable sys'.
Proof.
  intros Hr Hl. revert sys Hr. induction Hl as [|l ls Hl Hls IH]; intros sys Hr H; cbn in H;
    [by injection H as <-|]. apply bind_Ok in H as (sys1 & H1 & H). eapply IH; [|done]. by eapply r_step.
Qed.

(** The state after a run. *)
Definition runTo ls sys : System := match run ls sys with Ok sys' => sys' | _ => sys end.

Lemma runTo_reachable ls sys : reachable sys → Forall label_ok ls → reachable (runTo ls sys).
Proof.
  intros Hr Hl. unfold runTo. destruct (run ls sys) as [sys'| |] eqn:E; [|done..]. by eapply run_reachable.
Qed.

(** *** A message reaches the handler of its request *)
Lemma delivered it sys sys1 k sys2 :
  reachable sys → h_itemOk it → exec (Apply it) sys = Ok sys1 → exec (Send k) sys1 = Ok sys2 →
  ∃ req op sc m s', h_deliver it (server sys) = Ok (server sys1, Some m) ∧
    handlers sys1 !! k = Some (req, HSelect op sc) ∧ h_chan sc = sentTo m ∧
    h_same op (sentFor m) ∧ h_drop (sentFor m) (server sys1) = Ok s' ∧
    sys2 = mkSys s' (<[k := (req, HGot op (sentMsg m))]> (handlers sys1)) None ∧
    handlers sys2 !! k = Some (req, HGot op (sentMsg m)).
Proof.
  intros Hr Hit H1 H2. pose proof (server_reachable_inv _ Hr) as Hi.
  pose proof (exec_inv (Apply it) _ _ Hi Hit H1) as Hi1.
  apply send_cases in H2 as (m & req & op & sc & s' & Hm & Hk & Hc & E & ->).
  exists req, op, sc, m, s'. cbn [handlers]. rewrite list_lookup_insert_eq by (by eapply lookup_lt_Some).
  destruct (si_phase _ Hi1 _ _ _ Hk) as [Hw _]. destruct (Hw op sc eq_refl) as (_ & _ & Htab).
  destruct (si_send _ Hi1 m Hm) as (_ & sc' & Hg & Hc' & Hsame).
  rewrite (Htab _ _ Hg) in Hsame by congruence.
  cbn [exec] in H1. apply locked_Ok in H1 as [_ H1]. apply bind_Ok in H1 as ([s1 x] & E1 & H1).
  injection H1 as <-. cbn in *. by subst x.
Qed.

(** *** A send nobody will receive *)

Definition blocked sys : Prop :=
  ∃ m, sending sys = Some m ∧ (sentTo m < length (chans (h_table (server sys))))%nat ∧
    ∀ k req ph op sc, handlers sys !! k = Some (req, ph) → waits ph = Some (op, sc) →
      h_chan sc ≠ sentTo m.

Lemma blocked_goto m k req ph s sys :
  sending sys = Some m → (sentTo m < length (chans (h_table s)))%nat →
  (∀ k req ph op sc, handlers sys !! k = Some (req, ph) → waits ph = Some (op, sc) →
    h_chan sc ≠ sentTo m) →
  (∀ op sc, waits ph = Some (op, sc) → h_chan sc ≠ sentTo m) →
  blocked (goto k req ph s sys).
Proof.
  intros Hs Hlt Hw Hph. exists m. split_and!; [done..|].
  intros k' req' ph' op sc Hk Hwt. unfold goto in Hk. cbn in Hk.
  apply list_lookup_insert_Some in Hk as [(<- & [= -> ->] & _)|[_ Hk]]; eauto.
Qed.

(** A part of the server that only critical sections change. *)
Context {X : Type} (part : S → X).
Context (part_start : ∀ op s, part (h_start op s).1 = part s).
Context (part_env : ∀ e s s', h_envLocks e = false → h_env e s = Ok s' → part s' = part s).

Lemma blocked_step l sys sys' :
  blocked sys → exec l sys = Ok sys' →
  blocked sys' ∧ sending sys' = sending sys ∧ part (server sys') = part (server sys).
Proof using HLaws part_start part_env.
  intros (m & Hs & Hlt & Hw) H. destruct l as [req|k|k|it|k|e].
  - injection H as <-. split; [|done]. exists m. split_and!; [done..|].
    intros k req' ph op sc Hk Hwt. apply lookup_app_Some in Hk as [Hk|[_ Hk]]; [eauto|].
    by apply list_lookup_singleton_Some in Hk as [_ [= <- <-]].
  - cbn [exec] in H. destruct (handlers sys !! k) as [[req ph]|] eqn:Hk; [|done].
    destruct ph as [| |op sc|op|op sc|op msg|op|reply]; cbn [stepHandler] in H;
      try (apply locked_Ok in H as [? _]; congruence).
    + destruct (h_leads _); injection H as <-; (split; [by eapply blocked_goto|done]).
    + pose proof (part_start op (server sys)) as Hpart. pose proof (l_start_table op (server sys)) as HT.
      destruct (h_start op (server sys)) as [s' b]. injection H as <-. cbn in HT, Hpart.
      split; [|done]. eapply blocked_goto; [done|by rewrite HT|done|]. intros op' sc'.
      destruct b; [|done]. intros [= <- <-]. by eapply Hw.
    + case_decide; [|done]. injection H as <-. split; [by eapply blocked_goto|done].
    + done.
  - apply timeout_cases in H as (req & op & sc & _ & ->). split; [by eapply blocked_goto|done].
  - cbn [exec] in H. apply locked_Ok in H as [? _]. congruence.
  - apply send_cases in H as (m' & req & op & sc & s' & Hm & Hk & Hc & _). exfalso.
    rewrite Hs in Hm. injection Hm as <-. by eapply Hw.
  - apply other_cases in H as (s' & E & -> & He). pose proof (l_env_table _ _ _ E) as HT.
    destruct (h_envLocks e) eqn:El; [naive_solver congruence|]. split; [|split; [done|]].
    + exists m. cbn. by rewrite HT.
    + by eapply part_env.
Qed.

(** Once blocked, blocked for ever: nothing is applied any more. *)
Lemma blocked_run ls sys sys' :
  blocked sys → run ls sys = Ok sys' →
  sending sys' = sending sys ∧ part (server sys') = part (server sys).
Proof using HLaws part_start part_env.
  revert sys. induction ls as [|l ls IH]; intros sys Hb H; cbn in H; [by injection H as <-|].
  apply bind_Ok in H as (sys1 & H1 & H).
  destruct (blocked_step l sys sys1 Hb H1) as (Hb' & <- & <-). by apply IH.
Qed.
End theory.

(** ** Nothing panics, and handlers end *)
Section total.
Context {S Req Op Chan Msg Reply Item Env : Type} `{!ReplyServer S Req Op Chan Msg Reply Item Env}.
Context `{!ReplyLaws S Req Op Chan Msg Reply Item Env} `{HTot : !ReplyTotal S Req Op Chan Msg Reply Item Env}.
Implicit Types (sys : Sys S Req Op Chan Msg Reply) (l : Label Req Item Env).

Lemma locked_cases {A} sys (m : Res A) :
  (∃ a, m = Ok a) → (∃ a, locked sys m = Ok a) ∨ locked sys m = notEnabled.
Proof. unfold locked. destruct (sending sys); [by right|by left]. Qed.

(** The critical sections of a handler. *)
Lemma sections_ok sys op : sys_inv sys →
  (∃ s', h_drop op (server sys) = Ok s') ∧
  (∀ req, ∃ s' r, h_timeout req op (server sys) = Ok (s', r)) ∧
  (∀ req msg, h_good msg → ∃ s' r, h_result req op msg (server sys) = Ok (s', r)).
Proof.
  intros Hi. pose proof (si_ok _ Hi) as Ho. destruct (can_delete sys op Hi) as (T & HT & _).
  split_and!.
  - destruct (l_drop op _ T Ho HT) as (s' & ? & _). eauto.
  - intros req. destruct (l_timeout req op _ T Ho HT) as (s' & r & ? & _). eauto.
  - intros req msg Hg. destruct (l_result req op msg _ T Ho Hg HT) as (s' & r & ? & _). eauto.
Qed.

Lemma stepHandler_total k req ph sys :
  sys_inv sys → handlers sys !! k = Some (req, ph) →
  (∃ sys', stepHandler k req ph sys = Ok sys') ∨ stepHandler k req ph sys = notEnabled.
Proof using HTot.
  intros Hi Hk. destruct (si_phase _ Hi _ _ _ Hk) as [_ Hg].
  destruct ph as [| |op sc|op|op sc|op msg|op|reply]; cbn [stepHandler].
  - left. destruct (h_leads _); eauto.
  - apply locked_cases. destruct (t_pre req _ (si_ok _ Hi)) as [[s x] ->]. cbn. eauto.
  - left. destruct (h_start op (server sys)) as [s b]. eauto.
  - apply locked_cases. destruct (sections_ok sys op Hi) as [(s' & ->) _]. cbn. eauto.
  - case_decide; [left; eauto|by right].
  - apply locked_cases. destruct (sections_ok sys op Hi) as (_ & _ & Hr).
    destruct (Hr req msg (Hg msg eq_refl)) as (s' & r & ->). cbn. eauto.
  - apply locked_cases. destruct (sections_ok sys op Hi) as (_ & Ht & _).
    destruct (Ht req) as (s' & r & ->). cbn. eauto.
  - by right.
Qed.

(** Every step is executed or not enabled. *)
Lemma exec_total l sys :
  sys_inv sys → h_ready (server sys) → label_ok l →
  (∃ sys', exec l sys = Ok sys') ∨ exec l sys = notEnabled.
Proof.
  intros Hi Hr Hl. pose proof (si_ok _ Hi) as Ho. destruct l as [req|k|k|it|k|e]; cbn [exec]; [by eauto|..].
  - destruct (handlers sys !! k) as [[req ph]|] eqn:Hk; [|by right]. by apply stepHandler_total.
  - destruct (handlers sys !! k) as [[req [| |op sc|op|op sc|op msg|op|reply]]|]; by eauto.
  - apply locked_cases. destruct (t_deliver it _ Ho Hr Hl) as [[s x] ->]. cbn. eauto.
  - destruct (sending sys) as [m|]; [|by right].
    destruct (handlers sys !! k) as [[req [| |op sc|op|op sc|op msg|op|reply]]|]; try by right.
    case_decide; [|by right]. left. destruct (sections_ok sys (sentFor m) Hi) as [(s' & ->) _]. cbn. eauto.
  - destruct (t_env e _ Ho Hl) as [s' ->]. cbn [mbind Res_bind].
    destruct (h_envLocks e); [apply locked_cases|left]; eauto.
Qed.

(** How far a handler is from its reply. *)
Definition stepsLeft (ph : Phase Op Chan Msg Reply) : nat :=
  match ph with
  | HCheck => 5 | HPre => 4 | HStart _ _ => 3 | HSelect _ _ => 2
  | HDelete _ | HGot _ _ | HTimedOut _ => 1
  | HDone _ => 0
  end.

(** While the lock is free, a handler gets one step closer by itself. *)
Lemma handler_step sys k req ph :
  sys_inv sys → sending sys = None → handlers sys !! k = Some (req, ph) → stepsLeft ph ≠ 0%nat →
  ∃ l sys' ph', (l = Handler k ∨ l = Timeout k) ∧ exec l sys = Ok sys' ∧ sending sys' = None ∧
    handlers sys' !! k = Some (req, ph') ∧ (stepsLeft ph' < stepsLeft ph)%nat.
Proof using HTot.
  intros Hi Hs Hk Hn. destruct (si_phase _ Hi _ _ _ Hk) as [_ Hg].
  pose proof (lookup_lt_Some _ _ _ Hk) as Hlt.
  assert (∀ l ph' s', (l = Handler k ∨ l = Timeout k) → exec l sys = Ok (goto k req ph' s' sys) →
    (stepsLeft ph' < stepsLeft ph)%nat → ∃ l sys' ph', (l = Handler k ∨ l = Timeout k) ∧
    exec l sys = Ok sys' ∧ sending sys' = None ∧ handlers sys' !! k = Some (req, ph') ∧
    (stepsLeft ph' < stepsLeft ph)%nat) as Hgo.
  { intros l ph' s' Hl He Hle. exists l, (goto k req ph' s' sys), ph'. split_and!; try done.
    unfold goto. cbn. by rewrite list_lookup_insert_eq. }
  destruct ph as [| |op sc|op|op sc|op msg|op|reply]; [..|done].
  - destruct (h_leads (server sys)) eqn:E.
    + apply (Hgo (Handler k) HPre (server sys)); [by left|cbn [exec]; rewrite Hk; cbn [stepHandler]; by rewrite E|cbn; lia].
    + apply (Hgo (Handler k) (HDone h_wrongLeader) (server sys)); [by left|cbn [exec]; rewrite Hk; cbn [stepHandler]; by rewrite E|cbn; lia].
  - destruct (t_pre req _ (si_ok _ Hi)) as [[s x] E].
    eapply (Hgo (Handler k) _ s); [by left| |].
    + cbn. rewrite Hk. cbn. unfold locked. rewrite Hs, E. cbn. done.
    + destruct x as [r|[op sc]]; cbn; lia.
  - destruct (h_start op (server sys)) as [s b] eqn:E.
    eapply (Hgo (Handler k) _ s); [by left|cbn; rewrite Hk; cbn; by rewrite E|destruct b; cbn; lia].
  - destruct (sections_ok sys op Hi) as [(s' & E) _].
    eapply (Hgo (Handler k) _ s'); [by left|cbn; rewrite Hk; cbn; unfold locked; by rewrite Hs, E|cbn; lia].
  - eapply (Hgo (Timeout k) _ (server sys)); [by right|cbn; by rewrite Hk|cbn; lia].
  - destruct (sections_ok sys op Hi) as (_ & _ & Hr). destruct (Hr req msg (Hg msg eq_refl)) as (s' & r & E).
    eapply (Hgo (Handler k) _ s'); [by left|cbn; rewrite Hk; cbn; unfold locked; by rewrite Hs, E|cbn; lia].
  - destruct (sections_ok sys op Hi) as (_ & Ht & _). destruct (Ht req) as (s' & r & E).
    eapply (Hgo (Handler k) _ s'); [by left|cbn; rewrite Hk; cbn; unfold locked; by rewrite Hs, E|cbn; lia].
Qed.

(** While nobody waits in a send, a handler ends by itself, in at most five
    steps: it replies, whatever the Raft peer does. *)
Lemma handler_ends sys k req ph :
  sys_inv sys → sending sys = None → handlers sys !! k = Some (req, ph) →
  ∃ ls sys' r, Forall (λ l, l = Handler k ∨ l = Timeout k) ls ∧ (length ls ≤ 5)%nat ∧
    run ls sys = Ok sys' ∧ handlers sys' !! k = Some (req, HDone r).
Proof using HTot.
  intros Hi Hs Hk. assert (stepsLeft ph ≤ 5)%nat as Hle by (destruct ph; cbn; lia).
  enough (∃ ls sys' r, Forall (λ l, l = Handler k ∨ l = Timeout k) ls ∧ (length ls ≤ stepsLeft ph)%nat ∧
    run ls sys = Ok sys' ∧ handlers sys' !! k = Some (req, HDone r)) as (ls & sys' & r & ? & ? & ?).
  { exists ls, sys', r. split_and!; [done|lia|naive_solver..]. }
  clear Hle. remember (stepsLeft ph) as n eqn:E. revert sys ph Hi Hs Hk E.
  induction (lt_wf n) as [n _ IH]; intros sys ph Hi Hs Hk ->.
  destruct (decide (stepsLeft ph = 0%nat)) as [E|E].
  { destruct ph as [| |op sc|op|op sc|op msg|op|reply]; try done. exists [], sys, reply. by split_and!. }
  destruct (handler_step sys k req ph Hi Hs Hk E) as (l & sys1 & ph1 & Hl & He & Hs1 & Hk1 & Hlt).
  assert (sys_inv sys1) as Hi1 by (eapply exec_inv; [done| |done]; by destruct Hl as [->| ->]).
  destruct (IH _ Hlt sys1 ph1 Hi1 Hs1 Hk1 eq_refl) as (ls & sys' & r & Hls & Hlen & Hrun & Hd).
  exists (l :: ls), sys', r. split_and!; [by constructor|cbn; lia| |done].
  unfold run in *. cbn. by rewrite He.
Qed.
End total.
