(* ===== verification/KvModel.v ===== *)
(** * The model the tests check histories against (code/src/models/kv.go)

    [KvModel] is the specification of a key/value store that the tests hand to
    porcupine: histories are split by key ([Partition]), and each part is run
    from [Init] by [Step].  The replies of a server of kvraft, in the order in
    which it applies operations, are a history this model accepts. *)

From S2P Require Import Prelude.
From S2P Require Import PorcBitset.
From S2P Require Import Porcupine.
From S2P Require Import Gob.
From S2P Require Import Persister.
From S2P Require Import RaftState.
From S2P Require Import RaftService.
From S2P Require Import KvServer.
From S2P Require Import KvSpec.
Open Scope Z_scope.

(** [In_Op]: 0 is get, 1 put, anything else append. *)
Record KvInput := mkKvInput { In_Op : Z; In_Key : string; In_Value : string }.

Record KvOutput := mkKvOutput { Out_Value : string }.

Abbreviation Operation := (Porcupine.Operation KvInput KvOutput).

Definition keyOf (v : Operation) : string := In_Key (Input v).

Definition byKey (history : list Operation) : gmap string (list Operation) :=
  foldl (λ m v, <[keyOf v := default [] (m !! keyOf v) ++ [v]]> m) ∅ history.

Definition Partition (history : list Operation) : list (list Operation) :=
  let m := byKey history in
  let keys := merge_sort String.le (map_to_list m).*1 in
  (λ k, default [] (m !! k)) <$> keys.

Definition Init : string := "".

Definition Step (st : string) (inp : KvInput) (out : KvOutput) : bool * string :=
  if decide (In_Op inp = 0) then (bool_decide (Out_Value out = st), st)
  else if decide (In_Op inp = 1) then (true, In_Value inp)
  else (true, (st ++ In_Value inp)%string).

(** The model takes every step of [l], from [st]. *)
Fixpoint accepts (st : string) (l : list Operation) : bool :=
  match l with
  | [] => true
  | v :: l => let '(ok, st) := Step st (Input v) (Output v) in ok && accepts st l
  end.

(** ** Partition *)

Lemma byKey_lookup history k :
  default [] (byKey history !! k) = filter (λ v, keyOf v = k) history ∧
  (is_Some (byKey history !! k) ↔ ∃ v, v ∈ history ∧ keyOf v = k).
Proof.
  unfold byKey. induction history as [|v history [IH1 IH2]] using rev_ind.
  { cbn [foldl]. rewrite lookup_empty. split; [done|]. split; [by intros []|]. intros (v & Hv & _). set_solver. }
  rewrite foldl_app, filter_app, filter_cons, filter_nil. cbn [foldl].
  destruct (decide (keyOf v = k)) as [<-|Hne].
  - rewrite lookup_insert_eq. cbn. rewrite IH1. split; [done|]. split; [|done]. intros _. exists v. set_solver.
  - rewrite lookup_insert_ne, app_nil_r by done. split; [done|]. rewrite IH2. set_solver.
Qed.

(** One part per key that occurs, with its operations in their order. *)
Lemma Partition_parts history part :
  part ∈ Partition history ↔
  ∃ k, (∃ v, v ∈ history ∧ keyOf v = k) ∧ part = filter (λ v, keyOf v = k) history.
Proof.
  unfold Partition. rewrite list_elem_of_fmap. setoid_rewrite merge_sort_Permutation.
  setoid_rewrite list_elem_of_fmap. split.
  - intros (k & -> & [k' x] & -> & Hx%elem_of_map_to_list). cbn. exists k'.
    destruct (byKey_lookup history k') as [H1 H2]. split; [|done]. apply H2. by eexists.
  - intros (k & Hk & ->). destruct (byKey_lookup history k) as [H1 H2]. apply H2 in Hk as [x Hx].
    exists k. split; [done|]. exists (k, x). split; [done|]. by apply elem_of_map_to_list.
Qed.

(** ** The history of a server *)

Definition inputOf (op : Op) : KvInput :=
  mkKvInput (if decide (OpKind op = GET) then 0 else if decide (OpKind op = PUT) then 1 else 2)
    (Key op) (Value op).

(** What a client sees of an operation answered with [msg], called at [call]
    and returned at [ret]. *)
Definition observed (times : Op → Z * Z) (op : Op) (msg : KVReplyMsg) : Operation :=
  mkOperation (ClientId op) (inputOf op) (times op).1 (mkKvOutput (ReplyValue msg)) (times op).2.

(** The replies of a server, repeated Puts and Appends left out: they are
    acknowledged again and not executed. *)
Fixpoint serverHistory (times : Op → Z * Z) (ops : list Op) (st : State) : Res (list Operation) :=
  match ops with
  | [] => Ok []
  | op :: ops =>
      '(st', msg) ← applyOp op st;
      h ← serverHistory times ops st';
      Ok (if isDuplicateOp op st && negb (bool_decide (OpKind op = GET)) then h
          else observed times op msg :: h)
  end.

(** Decide what is a comparison of constants. *)
Ltac decided :=
  repeat match goal with
  | H : context [decide ?P] |- _ => first [rewrite (decide_True (P := P)) in H by done | rewrite (decide_False (P := P)) in H by done]
  | |- context [decide ?P] => first [rewrite (decide_True (P := P)) by done | rewrite (decide_False (P := P)) by done]
  end.

Lemma serverHistory_accepted times ops st k :
  Forall valid ops →
  ∃ h, serverHistory times ops st = Ok h ∧
    accepts (default "" (KeyValueStore st !! k)) (filter (λ v, keyOf v = k) h) = true.
Proof.
  intros Hv. revert st. induction Hv as [|op ops Hop Hv IH]; intros st; cbn [serverHistory]; [by eexists|].
  rewrite applyOp_eq by done. cbn [mbind Res_bind]. rewrite isDuplicateOp_executed.
  set (st' := if executed _ _ then _ else _). destruct (IH st') as (h & -> & Hacc). cbn [mbind Res_bind].
  eexists. split; [done|].
  assert (OpKind op = GET → KeyValueStore st' = KeyValueStore st) as Hget.
  { intros HG. unfold st', plain. destruct (executed _ _); [done|]. cbn. by rewrite HG. }
  destruct (executed (ClientLastRequest st) op) eqn:He; cbn [andb].
  - case_bool_decide as HG; cbn [negb]; [|done]. rewrite filter_cons. case_decide as Hk; [|done].
    cbn [accepts]. unfold observed, inputOf, Step. cbn [Input Output In_Op]. rewrite (decide_True (P := OpKind op = GET)) by done.
    rewrite decide_True by done. subst st'. unfold keyOf, observed, inputOf in Hk. cbn in Hk. subst k.
    apply andb_true_iff. split; [|done]. apply bool_decide_eq_true_2. cbn. unfold plainReply. rewrite HG. cbn.
    by destruct (KeyValueStore st !! Key op).
  - rewrite filter_cons. destruct (valid_cases op Hop) as [HG|HW].
    + rewrite Hget in Hacc by done. case_decide as Hk; [|done]. unfold keyOf, observed, inputOf in Hk. cbn in Hk. subst k.
      cbn [accepts]. unfold observed, inputOf, Step. cbn [Input Output In_Op]. rewrite (decide_True (P := OpKind op = GET)) by done.
      rewrite decide_True by done. apply andb_true_iff. split; [|done]. apply bool_decide_eq_true_2. cbn.
      unfold plainReply. rewrite HG. cbn. by destruct (KeyValueStore st !! Key op).
    + destruct (decide (keyOf _ = k)) as [Hk|Hk]; unfold keyOf, observed, inputOf in Hk; cbn in Hk;
        unfold st' in Hacc; cbn [KeyValueStore] in Hacc; unfold plain in Hacc.
      * subst k. cbn [accepts]. unfold observed, inputOf, Step. cbn [Input Output In_Op In_Value].
        destruct HW as [HW|HW]; rewrite HW in Hacc |- *; decided; rewrite lookup_insert_eq in Hacc; exact Hacc.
      * destruct HW as [HW|HW]; rewrite HW in Hacc; decided; by rewrite lookup_insert_ne in Hacc.
Qed.

(** The model itself; the drawing of operations is left out. *)
Definition KvModel : Model KvInput KvOutput string := mkModel (Some Partition) None Init Step None.
