(* ===== verification/KvLinear.v ===== *)
(** * Key/value histories, by key and as a whole

    [KvModel] checks the operations of every key for themselves.  That is
    right: a history is linearizable against one map exactly if the parts of
    its keys are ([partition_local]).  Every linearization has linearization
    points, times that grow along it and lie within its operations ([points]),
    and orders with points merge.  So what porcupine answers for [KvModel] is
    whether the history is that of a map, and for the replies of a kvraft
    server it is always yes. *)

From S2P Require Import Prelude PorcBitset Porcupine PorcList PorcupineSpec PorcCheck.
From S2P Require Import KvServer KvSpec KvModel.
Open Scope Z_scope.

(** One store for all keys. *)
Definition MapModel : Model KvInput KvOutput (gmap string string) :=
  mkModel None None ∅ (λ st i o,
    let '(ok, v) := KvModel.Step (default "" (st !! In_Key i)) i o in (ok, <[In_Key i := v]> st)) None.

(** ** Linearization points *)

Definition earlier (x y : Z * Operation) : Prop := x.1 ≤ y.1.

#[export] Instance earlier_dec x y : Decision (earlier x y).
Proof. unfold earlier. apply _. Defined.
#[export] Instance earlier_trans : Transitive earlier.
Proof. intros x y z. unfold earlier. lia. Qed.
#[export] Instance earlier_total : Total earlier.
Proof. intros x y. unfold earlier. lia. Qed.

Section points.
Context (before : Z → Z → Prop) (Hmono : ∀ r c c', before r c → c ≤ c' → before r c').
Context (Hlate : ∀ r c, c < r → ¬ before r c).
Implicit Types (o : Operation) (h l : list Operation) (t : list (Z * Operation)).

Definition within (x : Z * Operation) : Prop := Call x.2 ≤ x.1 ∧ ¬ before (Return x.2) x.1.

Definition points t : Prop := StronglySorted earlier t ∧ Forall within t.

Definition ordered l : Prop :=
  ∀ i j a b, (i < j)%nat → l !! i = Some a → l !! j = Some b → ¬ before (Return b) (Call a).

Lemma ordered_cons o l : ordered (o :: l) → Forall (λ b, ¬ before (Return b) (Call o)) l ∧ ordered l.
Proof using Type.
  intros Ho. split.
  - apply Forall_lookup. intros j b Hj. by apply (Ho 0%nat (S j) o b); [lia|..].
  - intros i j a b Hij Ha Hb. by apply (Ho (S i) (S j) a b); [lia|..].
Qed.

(** The greatest time of a call so far is a point. *)
Lemma ordered_points_from p l :
  timed l → ordered l → Forall (λ o, ¬ before (Return o) p) l →
  ∃ t, t.*2 = l ∧ points t ∧ Forall (λ x, p ≤ x.1) t.
Proof using Hlate.
  revert p. induction l as [|o l IH]; intros p Ht Ho Hp.
  { exists []. split; [done|]. split; [|done]. split; constructor. }
  apply Forall_cons in Ht as [Hto Ht], Hp as [Hpo Hp]. apply ordered_cons in Ho as [Hol Ho].
  assert (¬ before (Return o) (p `max` Call o)) as Hmax by (destruct (Z.max_spec p (Call o)) as [[_ ->]|[_ ->]]; auto).
  destruct (IH (p `max` Call o) Ht Ho) as (t & <- & [Hs Hw] & Hge).
  { rewrite Forall_forall in *. intros b Hb. destruct (Z.max_spec p (Call o)) as [[_ ->]|[_ ->]]; auto. }
  exists ((p `max` Call o, o) :: t). split; [done|]. split.
  - split; constructor; [done|exact Hge| |done]. split; cbn; [lia|done].
  - constructor; [cbn; lia|]. eapply Forall_impl; [exact Hge|]. cbn. lia.
Qed.

Lemma ordered_points l : timed l → ordered l → ∃ t, t.*2 = l ∧ points t.
Proof using Hlate.
  intros Ht Ho. destruct l as [|o l]; [exists []; split; [done|]; split; constructor|].
  destruct (ordered_points_from (Call o) (o :: l) Ht Ho) as (t & ? & ? & _); [|eauto].
  constructor; [|by apply ordered_cons in Ho as [? _]]. apply Forall_cons in Ht as [? _]. by apply Hlate.
Qed.

Lemma points_ordered t : points t → ordered t.*2.
Proof using Hmono Hlate.
  intros [Hs Hw] i j a b Hij Ha Hb Hbf.
  apply list_lookup_fmap_Some in Ha as ([pa a'] & -> & Ha). apply list_lookup_fmap_Some in Hb as ([pb b'] & -> & Hb).
  destruct (split_two _ i j _ _ Hij Ha Hb) as (U & V & W & ->).
  apply StronglySorted_app_1_r, StronglySorted_inv in Hs as [_ Hle]. rewrite Forall_forall in Hle.
  specialize (Hle (pb, b') ltac:(apply elem_of_app; right; left)). unfold earlier in Hle.
  rewrite Forall_forall in Hw. destruct (Hw (pa, a')) as [Hc _]; [set_solver|]. destruct (Hw (pb, b')) as [_ Hr]; [set_solver|].
  cbn in *. apply Hr. eapply Hmono; [exact Hbf|lia].
Qed.

(** [h] has an order with points that the model accepts. *)
Lemma linearizable_points {State} (m : Model KvInput KvOutput State) h :
  timed h → linearizableOps m before h ↔
  ∃ t, points t ∧ t.*2 ≡ₚ h ∧ is_Some (runOps m (Porcupine.Init m) (io <$> t.*2)).
Proof using Hmono Hlate.
  intros Ht. split.
  - intros (l & Hl & Hr & Ho). destruct (ordered_points l) as (t & <- & Hp); [by unfold timed; rewrite Hl|done|]. eauto.
  - intros (t & Hp & Hl & Hr). exists t.*2. split_and!; [done..|]. by apply points_ordered.
Qed.

Lemma points_filter (P : Z * Operation → Prop) `{!∀ x, Decision (P x)} t : points t → points (filter P t).
Proof using Type.
  intros [Hs Hw]. split; [|by apply Forall_filter]. clear Hw. induction Hs as [|x t Hs IH Hx]; [constructor|].
  rewrite filter_cons. case_decide; [|done]. constructor; [done|]. by apply Forall_filter.
Qed.

Lemma points_merge t t' : points t → points t' → points (list_merge earlier t t') ∧ list_merge earlier t t' ≡ₚ t ++ t'.
Proof using Type.
  intros [Hs Hw] [Hs' Hw']. pose proof (merge_Permutation earlier t t') as HP. split; [|done]. split.
  - apply (Sorted_StronglySorted _), Sorted_list_merge; [exact earlier_total|..]; by apply StronglySorted_Sorted.
  - rewrite HP. by apply Forall_app.
Qed.

(** ** By key *)

Lemma filter_merge_right (P : Z * Operation → Prop) `{!∀ x, Decision (P x)} t t' :
  Forall (λ x, ¬ P x) t → filter P (list_merge earlier t t') = filter P t'.
Proof using Type.
  intros Ht. revert t'. induction Ht as [|x t Hx Ht IH]; intros t'; [by rewrite list_merge_nil_l|].
  induction t' as [|y t' IH'].
  - rewrite list_merge_nil_r, filter_cons_False by done. specialize (IH []). by rewrite list_merge_nil_r in IH.
  - rewrite list_merge_cons. case_decide; rewrite filter_cons; [rewrite decide_False by done; apply IH|].
    by rewrite filter_cons, IH'.
Qed.

Lemma filter_merge_left (P : Z * Operation → Prop) `{!∀ x, Decision (P x)} t t' :
  Forall (λ x, ¬ P x) t' → filter P (list_merge earlier t t') = filter P t.
Proof using Type.
  revert t'. induction t as [|x t IH]; intros t' Ht'.
  - rewrite list_merge_nil_l. induction Ht'; [done|]. by rewrite filter_cons_False.
  - induction Ht' as [|y t' Hy Ht' IH']; [by rewrite list_merge_nil_r|].
    rewrite list_merge_cons. case_decide; [|by rewrite filter_cons_False].
    rewrite !filter_cons, IH by (by constructor). done.
Qed.
End points.

Lemma filter_snd k (t : list (Z * Operation)) :
  filter (λ v, keyOf v = k) t.*2 = (filter (λ x : Z * Operation, keyOf x.2 = k) t).*2.
Proof. induction t as [|x t IH]; [done|]. cbn [fmap list_fmap]. rewrite !filter_cons, IH. by case_decide. Qed.

(** The store takes a step if the part of its key does; the other keys do not
    notice. *)
Lemma runOps_keys st l :
  is_Some (runOps MapModel st (io <$> l)) ↔
  ∀ k, is_Some (runOps KvModel (default "" (st !! k)) (io <$> filter (λ v, keyOf v = k) l)).
Proof.
  revert st. induction l as [|o l IH]; intros st; [split; by eexists|].
  assert (∀ k st', (keyOf o = k → default "" (st !! k) = st') →
    is_Some (runOps KvModel (default "" (st !! k)) (io <$> filter (λ v, keyOf v = k) (o :: l))) ↔
    if decide (keyOf o = k) then is_Some (st' ← take1 KvModel st' (io o); runOps KvModel st' (io <$> filter (λ v, keyOf v = k) l))
    else is_Some (runOps KvModel (default "" (st !! k)) (io <$> filter (λ v, keyOf v = k) l))) as Hk.
  { intros k st' Hst. rewrite filter_cons. case_decide; [|done]. by rewrite Hst. }
  cbn [fmap list_fmap runOps]. unfold take1 at 1. cbn [Porcupine.Step MapModel io fst snd]. fold (keyOf o).
  destruct (Step (default "" (st !! keyOf o)) (Input o) (Output o)) as [ok v] eqn:Hstep.
  assert (take1 KvModel (default "" (st !! keyOf o)) (io o) = if ok then Some v else None) as Htk.
  { unfold take1. cbn. by rewrite Hstep. }
  destruct ok; cbn [mbind option_bind].
  - rewrite IH. apply forall_proper. intros k. rewrite (Hk k (default "" (st !! k))) by done. case_decide as Hd.
    + subst k. rewrite Htk. cbn. by rewrite lookup_insert_eq.
    + by rewrite lookup_insert_ne.
  - split; [by intros []|]. intros Hall. specialize (Hall (keyOf o)).
    rewrite (Hk (keyOf o) _ (λ _, eq_refl)), decide_True, Htk in Hall by done. by destruct Hall.
Qed.

Section locality.
Context (before : Z → Z → Prop) (Hmono : ∀ r c c', before r c → c ≤ c' → before r c').
Context (Hlate : ∀ r c, c < r → ¬ before r c).
Implicit Types (h : list Operation).

Definition ofKey (k : string) h : list Operation := filter (λ v, keyOf v = k) h.

Lemma merge_keys ks h :
  timed h → NoDup ks → (∀ k, linearizableOps KvModel before (ofKey k h)) →
  ∃ t, points before t ∧ t.*2 ≡ₚ filter (λ v, keyOf v ∈ ks) h ∧
    ∀ k, k ∈ ks → is_Some (runOps KvModel "" (io <$> ofKey k t.*2)).
Proof using Hmono Hlate.
  intros Ht Hks Hl. induction Hks as [|k ks Hk Hks (t & Hp & HP & Hr)].
  { exists []. split; [split; constructor|]. split; [|by intros k ?%elem_of_nil].
    clear. induction h as [|o h IH]; [done|]. rewrite filter_cons_False by apply not_elem_of_nil. exact IH. }
  destruct (proj1 (linearizable_points before Hmono Hlate KvModel (ofKey k h) (Forall_filter _ _ _ Ht)) (Hl k)) as (tk & Hpk & HPk & Hrk).
  destruct (points_merge before tk t Hpk Hp) as [Hm HPm].
  assert (Forall (λ x : Z * Operation, keyOf x.2 = k) tk) as Hin.
  { change (Forall ((λ v, keyOf v = k) ∘ snd) tk). rewrite <- Forall_fmap, HPk. apply Forall_forall. by intros v [? _]%list_elem_of_filter. }
  assert (Forall (λ x : Z * Operation, keyOf x.2 ≠ k) t) as Hout.
  { change (Forall ((λ v, keyOf v ≠ k) ∘ snd) t). rewrite <- Forall_fmap, HP. apply Forall_forall.
    intros v [Hv _]%list_elem_of_filter Hv2. apply Hk. by rewrite <- Hv2. }
  exists (list_merge earlier tk t). split; [done|]. split.
  - rewrite HPm, fmap_app, HPk, HP. clear -Hk. unfold ofKey. induction h as [|o h IH]; [done|].
    rewrite !filter_cons. destruct (decide (keyOf o = k)) as [Ho|Ho].
    + rewrite (decide_False (P := keyOf o ∈ ks)) by congruence. rewrite decide_True by (rewrite Ho; left).
      cbn [app]. by rewrite IH.
    + destruct (decide (keyOf o ∈ ks)).
      * rewrite decide_True by (by right). by rewrite <- Permutation_middle, IH.
      * rewrite decide_False by (by rewrite not_elem_of_cons). done.
  - intros k' Hk'. unfold ofKey. rewrite filter_snd. destruct (decide (k' = k)) as [->|Hne].
    + rewrite filter_merge_left by (by eapply Forall_impl; [exact Hout|]).
      rewrite <- filter_snd. assert (filter (λ v, keyOf v = k) tk.*2 = tk.*2) as ->; [|done].
      clear -Hin. induction Hin as [|x tk Hx _ IH]; [done|]. cbn [fmap list_fmap]. rewrite filter_cons_True by done. by f_equal.
    + apply elem_of_cons in Hk' as [|Hk']; [done|]. rewrite filter_merge_right.
      * rewrite <- filter_snd. by apply Hr.
      * eapply Forall_impl; [exact Hin|]. cbn. congruence.
Qed.

(** A history is linearizable as a whole exactly if it is by key. *)
Lemma locality h :
  timed h → linearizableOps MapModel before h ↔ ∀ k, linearizableOps KvModel before (ofKey k h).
Proof using Hmono Hlate.
  intros Ht. rewrite (linearizable_points before Hmono Hlate) by done. split.
  - intros (t & Hp & HP & Hr) k. apply (linearizable_points before Hmono Hlate); [by apply Forall_filter|].
    exists (filter (λ x : Z * Operation, keyOf x.2 = k) t). split; [by apply points_filter|].
    rewrite <- filter_snd. split; [unfold ofKey; by rewrite HP|].
    apply (proj1 (runOps_keys _ _)) with (k := k) in Hr. cbn in Hr. by rewrite lookup_empty in Hr.
  - intros Hl. destruct (merge_keys (remove_dups (keyOf <$> h)) h Ht (NoDup_remove_dups _) Hl) as (t & Hp & HP & Hr).
    assert (t.*2 ≡ₚ h) as HP'.
    { rewrite HP. clear. assert (∀ l, l ⊆ h → filter (λ v, keyOf v ∈ remove_dups (keyOf <$> h)) l = l) as Hf; [|by rewrite (Hf h (λ x Hx, Hx))].
      induction l as [|o l IH]; intros Hl; [done|]. rewrite filter_cons_True; [f_equal; apply IH; set_solver|].
      apply elem_of_remove_dups, list_elem_of_fmap. exists o. split; [done|]. apply Hl. left. }
    exists t. split; [done|]. split; [done|]. apply runOps_keys. intros k. cbn. rewrite lookup_empty. cbn.
    destruct (decide (k ∈ keyOf <$> h)) as [Hk|Hk]; [by apply Hr, elem_of_remove_dups|].
    fold (ofKey k t.*2). destruct (ofKey k t.*2) as [|v l] eqn:Hf; [by eexists|]. exfalso. apply Hk, list_elem_of_fmap. exists v.
    assert (v ∈ ofKey k t.*2) as [Hv Hv']%list_elem_of_filter by (rewrite Hf; left).
    split; [done|]. by rewrite <- HP'.
Qed.

Lemma parts_keys (P : list Operation → Prop) h :
  P [] → Forall P (Partition h) ↔ ∀ k, P (ofKey k h).
Proof using Type.
  intros Hnil. rewrite Forall_forall. split.
  - intros Hall k. destruct (ofKey k h) as [|v l] eqn:Hf; [done|]. rewrite <- Hf. apply Hall, Partition_parts.
    exists k. split; [|done]. exists v. assert (v ∈ ofKey k h) as Hv by (rewrite Hf; left).
    by apply list_elem_of_filter in Hv as [??].
  - intros Hall p (k & _ & ->)%Partition_parts. apply Hall.
Qed.
End locality.

(** ** The replies of a server *)

(** What clients take of the replies: a Get that was asked again is answered
    again, and only one answer counts. *)
Inductive heard : list Operation → list Operation → Prop :=
| heard_nil : heard [] []
| heard_take v h0 h : heard h0 h → heard (v :: h0) (v :: h)
| heard_drop v h0 h : In_Op (Input v) = 0 → heard h0 h → heard (v :: h0) h.

Lemma heard_ofKey k h0 h : heard h0 h → heard (ofKey k h0) (ofKey k h).
Proof.
  unfold ofKey. induction 1 as [|v h0 h Hh IH|v h0 h Hv Hh IH]; [constructor| |];
    rewrite !filter_cons; case_decide; by try constructor.
Qed.

Lemma heard_accepted h0 h st :
  heard h0 h → accepts st h0 = true → is_Some (runOps KvModel st (io <$> h)).
Proof.
  intros Hh. revert st. induction Hh as [|v h0 h Hh IH|v h0 h Hv Hh IH]; intros st Ha; [by eexists|..]; cbn in Ha.
  - cbn [fmap list_fmap runOps]. unfold take1. cbn. destruct (Step st (Input v) (Output v)) as [[] st']; [by apply IH|done].
  - unfold Step in Ha. rewrite decide_True in Ha by done. apply andb_true_iff in Ha as [_ Ha]. by apply IH.
Qed.

Definition pointIn (o : Operation) (p : Z) : Prop := Call o < p < Return o.

Lemma points_linearizable {State} (m : Model KvInput KvOutput State) h pts :
  StronglySorted Z.le pts → Forall2 pointIn h pts → is_Some (runOps m (Porcupine.Init m) (io <$> h)) →
  linearizableOps m Z.le h ∧ timed h.
Proof.
  intros Hs Hp Hr. assert (timed h) as Ht.
  { clear Hr Hs. unfold timed. induction Hp as [|o p h pts Hop]; constructor; [unfold pointIn in Hop; lia|done]. }
  split; [|done]. apply (linearizable_points Z.le); [intros r c c' ? ?; by etrans|intros r c ? ?; lia|done|].
  exists (zip pts h). assert ((zip pts h).*2 = h) as E.
  { rewrite snd_zip; [done|]. by rewrite (Forall2_length _ _ _ Hp). }
  rewrite E. split; [|done]. clear Hr E Ht. split.
  - clear -Hs Hp. revert h Hp. induction Hs as [|p pts Hs IH Hle]; intros h Hp; [constructor|].
    inversion Hp as [|o ? h' ? Hop Hp' Eq1 Eq2]; subst. cbn. constructor; [by apply IH|].
    apply Forall_lookup. intros i [q b] Hi. apply lookup_zip_Some in Hi as [Hi _].
    by eapply Forall_lookup_1 in Hle.
  - clear Hs. induction Hp as [|o p h pts Hop Hp IH]; constructor; [|done]. unfold within, pointIn in *. cbn [fst snd]. lia.
Qed.

(** ** Properties *)

Lemma Partition_timed h : timed h → Forall timed (Partition h).
Proof. intros Ht. apply parts_keys; [constructor|]. intros k. by apply Forall_filter. Qed.

Lemma Partition_nonempty h : h ≠ [] → Partition h ≠ [].
Proof.
  intros Hh Hp. destruct h as [|v h]; [done|].
  assert (filter (λ w, keyOf w = keyOf v) (v :: h) ∈ Partition (v :: h)) as Hin.
  { apply Partition_parts. exists (keyOf v). split; [|done]. exists v. split; [left|done]. }
  rewrite Hp in Hin. by apply elem_of_nil in Hin.
Qed.

Lemma partition_both h :
  timed h →
  (linearizableOps MapModel Z.lt h ↔ Forall (linearizableOps KvModel Z.lt) (Partition h)) ∧
  (linearizableOps MapModel Z.le h ↔ Forall (linearizableOps KvModel Z.le) (Partition h)).
Proof.
  intros Ht. assert (∀ before, linearizableOps KvModel before []) as Hnil.
  { intros before. exists []. split; [done|]. split; [by eexists|]. by intros i j a b _ Ha. }
  rewrite !parts_keys by apply Hnil. split.
  - apply (locality Z.lt); [intros r c c'; lia|intros r c; lia|done].
  - apply (locality Z.le); [intros r c c'; lia|intros r c; lia|done].
Qed.

Lemma KvModel_answer arrivals kill h :
  timed h → h ≠ [] → schedule (length (Partition h)) arrivals →
  length (searches arrivals) = length (Partition h) →
  ∃ b, CheckOperations arrivals kill KvModel h = Ok (Some b) ∧
    (b = true → linearizableOps MapModel Z.lt h) ∧ (linearizableOps MapModel Z.le h → b = true).
Proof.
  intros Ht Hne Hs Hall. destruct (partition_both h Ht) as [Hlt Hle].
  destruct (CheckOperations_answer KvModel arrivals kill h) as (b & Hb & H1 & H2);
    [done|by apply Partition_timed|by apply Partition_nonempty|done..|].
  exists b. rewrite Hlt, Hle. done.
Qed.

(** C19: the keys can be checked one by one.  A history of the key/value store,
    whose operations return after they are called, is linearizable against one
    map exactly if every part of [Partition] is linearizable against the string
    of [KvModel]: orders of the parts merge into one of the whole, whether an
    operation called when another returns counts as later or not. *)
Theorem partition_local h :
  timed h →
  (linearizableOps MapModel Z.lt h ↔ Forall (linearizableOps KvModel Z.lt) (Partition h)) ∧
  (linearizableOps MapModel Z.le h ↔ Forall (linearizableOps KvModel Z.le) (Partition h)).
Proof. apply partition_both. Qed.

(** Two keys: a Put and an overlapping Append of the first, a Get of the
    second in between. *)
Definition sampleKv : list Operation :=
  [mkOperation 0 (mkKvInput 1 "a" "x") 0 (mkKvOutput "") 10;
   mkOperation 1 (mkKvInput 2 "a" "y") 5 (mkKvOutput "") 15;
   mkOperation 2 (mkKvInput 0 "b" "") 11 (mkKvOutput "") 12;
   mkOperation 2 (mkKvInput 0 "a" "") 20 (mkKvOutput "xy") 21].

Lemma sampleKv_timed : timed sampleKv.
Proof. repeat constructor. Qed.

Lemma partition_local_witness :
  timed sampleKv ∧
  (linearizableOps MapModel Z.lt sampleKv ↔ Forall (linearizableOps KvModel Z.lt) (Partition sampleKv)) ∧
  (linearizableOps MapModel Z.le sampleKv ↔ Forall (linearizableOps KvModel Z.le) (Partition sampleKv)).
Proof. split; [exact sampleKv_timed|exact (partition_local sampleKv sampleKv_timed)]. Defined.

(** C20: what the tests of kvraft and shardkv check.  For a history that is not
    empty and whose operations return after they are called, [CheckOperations]
    with [KvModel] returns, whatever order the searches of the keys end in: true
    only if the whole history is linearizable against one map, and true if it is
    linearizable even when an operation called at the time another returns
    counts as called later. *)
Theorem KvModel_checks_map arrivals kill h :
  timed h → h ≠ [] → schedule (length (Partition h)) arrivals →
  length (searches arrivals) = length (Partition h) →
  ∃ b, CheckOperations arrivals kill KvModel h = Ok (Some b) ∧
    (b = true → linearizableOps MapModel Z.lt h) ∧ (linearizableOps MapModel Z.le h → b = true).
Proof. apply KvModel_answer. Qed.

Lemma sample_schedule : schedule 2 [FromSearch 1; FromSearch 0].
Proof. split; [apply NoDup_ListNoDup|]; repeat constructor; cbn; intuition lia. Qed.

Lemma KvModel_checks_map_witness :
  ∃ b, CheckOperations [FromSearch 1; FromSearch 0] (λ _, never) KvModel sampleKv = Ok (Some b) ∧
    (b = true → linearizableOps MapModel Z.lt sampleKv) ∧ (linearizableOps MapModel Z.le sampleKv → b = true).
Proof.
  apply (KvModel_checks_map [FromSearch 1; FromSearch 0] (λ _, never) sampleKv);
    [exact sampleKv_timed|done|exact sample_schedule|reflexivity].
Defined.

(** An empty history has no key, so [CheckOperations] starts no search and
    waits for ever for the first answer. *)
Theorem KvModel_empty_waits arrivals kill :
  searches arrivals = [] → CheckOperations arrivals kill KvModel [] = Ok None.
Proof. intros Hs. apply no_partition_waits; [done|]. split; rewrite Hs; constructor. Qed.

Lemma KvModel_empty_waits_witness : CheckOperations [FromTimer; FromTimer] (λ _, never) KvModel [] = Ok None.
Proof. apply (KvModel_empty_waits [FromTimer; FromTimer] (λ _, never)). reflexivity. Defined.

(** C21: the histories of a kvraft server pass the tests' check.  Whatever valid
    operations a new server applies, repetitions included: if clients hear all
    its replies but some of Gets, and every operation heard was applied after
    its call and before its return -- at times [pts], which do not go back along
    the log -- then [CheckOperations] with [KvModel] answers true. *)
Theorem server_history_checked arrivals kill times ops h0 h pts :
  Forall valid ops → serverHistory times ops makeState = Ok h0 → heard h0 h → h ≠ [] →
  StronglySorted Z.le pts → Forall2 pointIn h pts →
  schedule (length (Partition h)) arrivals → length (searches arrivals) = length (Partition h) →
  CheckOperations arrivals kill KvModel h = Ok (Some true).
Proof.
  intros Hv Hh0 Hh Hne Hs Hp Hsch Hall.
  assert (is_Some (runOps MapModel ∅ (io <$> h))) as Hr.
  { apply runOps_keys. intros k. rewrite lookup_empty. cbn.
    destruct (serverHistory_accepted times ops makeState k Hv) as (h' & Hh' & Hacc).
    rewrite Hh0 in Hh'. injection Hh' as <-. cbn in Hacc. rewrite lookup_empty in Hacc.
    eapply heard_accepted; [by apply (heard_ofKey k)|done]. }
  destruct (points_linearizable MapModel h pts Hs Hp Hr) as [Hlin Ht].
  destruct (KvModel_answer arrivals kill h Ht Hne Hsch Hall) as (b & -> & _ & Hb). by rewrite Hb.
Qed.

(** A Put, an Append twice, a Get. *)
Definition sampleServed : list Operation :=
  [mkOperation 7 (mkKvInput 1 "k" "a") 0 (mkKvOutput "") 10; mkOperation 7 (mkKvInput 2 "k" "b") 0 (mkKvOutput "") 10;
   mkOperation 7 (mkKvInput 0 "k" "") 0 (mkKvOutput "ab") 10].

Lemma server_history_checked_witness :
  CheckOperations [FromSearch 0] (λ _, never) KvModel sampleServed = Ok (Some true).
Proof.
  apply (server_history_checked [FromSearch 0] (λ _, never) (λ _, (0, 10)) sampleOps sampleServed sampleServed [1; 2; 3]).
  - repeat constructor; unfold valid; by repeat first [left; reflexivity | right].
  - reflexivity.
  - repeat constructor.
  - done.
  - repeat constructor; done.
  - repeat constructor.
  - split; repeat constructor. apply not_elem_of_nil.
  - reflexivity.
Defined.
