(* ===== verification/KvTestChecks.v ===== *)
(** * What the tests of kvraft check of appended values (kvraft/test_test.go)

    The clients of the tests append marks "x <client> <number> y" to a key; in
    the end the tests look for every mark with [strings.Index] and
    [strings.LastIndex] ([checkClntAppends], [checkConcurrentAppends]).  The
    checks accept a value exactly if every mark is there once and those of one
    client are in order ([checkConcurrentAppends_exact]); and as a mark cannot
    be found anywhere but where it was appended, they judge the order of the
    appends ([appends_judged]). *)

From stdpp Require Import pretty.
From Stdlib Require Import Ascii.
From S2P Require Import Prelude.
Open Scope Z_scope.

(** ** Strings *)

(** [strings.Index] and [strings.LastIndex]. *)
Fixpoint Index (v w : string) : Z :=
  if String.prefix w v then 0
  else match v with
       | EmptyString => -1
       | String _ v => let k := Index v w in if k <? 0 then -1 else k + 1
       end.

Fixpoint LastIndex (v w : string) : Z :=
  match v with
  | EmptyString => if String.prefix w v then 0 else -1
  | String _ v' => let k := LastIndex v' w in if 0 <=? k then k + 1 else if String.prefix w v then 0 else -1
  end.

(** [w] is in [v] at [i]. *)
Fixpoint occurs (v w : string) (i : nat) : Prop :=
  match i, v with
  | O, _ => String.prefix w v = true
  | S i, String _ v => occurs v w i
  | S _, EmptyString => False
  end.

Lemma occurs_0 v w : occurs v w 0 = (String.prefix w v = true).
Proof. by destruct v. Qed.

Lemma Index_ok v w :
  (Index v w = -1 ∧ ∀ i, ¬ occurs v w i) ∨ ∃ i, Index v w = Z.of_nat i ∧ occurs v w i ∧ ∀ j, occurs v w j → (i ≤ j)%nat.
Proof.
  induction v as [|c v IH]; cbn [Index]; destruct (String.prefix w _) eqn:Hp.
  - right. exists 0%nat. split; [done|]. split; [done|]. intros. lia.
  - left. split; [done|]. intros [|i] Ho; [rewrite occurs_0 in Ho; congruence|done].
  - right. exists 0%nat. split; [done|]. split; [done|]. intros. lia.
  - destruct IH as [[-> Hno]|(i & -> & Hi & Hmin)].
    + left. split; [done|]. intros [|i] Ho; [rewrite occurs_0 in Ho; congruence|by apply (Hno i)].
    + right. exists (S i). split; [|split; [done|]].
      * destruct (Z.ltb_spec (Z.of_nat i) 0); lia.
      * intros [|j] Hj; [rewrite occurs_0 in Hj; congruence|]. specialize (Hmin j Hj). lia.
Qed.

Lemma LastIndex_ok v w :
  (LastIndex v w = -1 ∧ ∀ i, ¬ occurs v w i) ∨ ∃ i, LastIndex v w = Z.of_nat i ∧ occurs v w i ∧ ∀ j, occurs v w j → (j ≤ i)%nat.
Proof.
  induction v as [|c v IH]; cbn [LastIndex].
  - destruct (String.prefix w "") eqn:Hp.
    + right. exists 0%nat. split; [done|]. split; [done|]. intros [|j] Hj; [lia|done].
    + left. split; [done|]. intros [|i] Ho; [rewrite occurs_0 in Ho; congruence|done].
  - destruct IH as [[-> Hno]|(i & -> & Hi & Hmax)]; cbn [Z.leb Z.compare].
    + destruct (String.prefix w (String c v)) eqn:Hp.
      * right. exists 0%nat. split; [done|]. split; [done|]. intros [|j] Hj; [lia|by destruct (Hno j)].
      * left. split; [done|]. intros [|i] Ho; [rewrite occurs_0 in Ho; congruence|by apply (Hno i)].
    + right. exists (S i). destruct (Z.leb_spec 0 (Z.of_nat i)); [|lia]. split; [lia|]. split; [done|].
      intros [|j] Hj; [lia|]. specialize (Hmax j Hj). lia.
Qed.

(** ** The checks *)

Definition NextValue (prev val : string) : string := prev +:+ val.

(** The mark of append [j] of client [clnt]. *)
Definition wanted (clnt j : nat) : string := "x " +:+ pretty clnt +:+ " " +:+ pretty j +:+ " y".

Definition checkMark (v w : string) (lastoff : Z) : Res Z :=
  let off := Index v w in
  if decide (off < 0) then Fatal "missing element in Append result"
  else
    let off1 := LastIndex v w in
    if decide (off1 ≠ off) then Fatal "duplicate element in Append result"
    else if decide (off ≤ lastoff) then Fatal "wrong order for element in Append result"
    else Ok off.

Definition checkClntAppends (clnt : nat) (v : string) (count : nat) : Res unit :=
  _ ← go_for (λ lastoff j, checkMark v (wanted clnt j) lastoff) (-1) (seq 0 count); Ok tt.

Definition checkConcurrentAppends (v : string) (counts : list nat) : Res unit :=
  go_for (λ _ i, count ← go_index counts (Z.of_nat i); checkClntAppends i v count) tt (seq 0 (length counts)).

(** The marks [ws] are in [v], each once, at the places [ps]. *)
Definition once_at (v : string) (ws : list string) (ps : list nat) : Prop :=
  Forall2 (λ w p, ∀ i, occurs v w i ↔ i = p) ws ps.

Lemma checkMark_ok v w lastoff :
  (∃ p, checkMark v w lastoff = Ok (Z.of_nat p) ∧ (∀ i, occurs v w i ↔ i = p) ∧ lastoff < Z.of_nat p) ∨
  (∃ why, checkMark v w lastoff = Fatal why) ∧ ¬ ∃ p, (∀ i, occurs v w i ↔ i = p) ∧ lastoff < Z.of_nat p.
Proof.
  unfold checkMark. destruct (Index_ok v w) as [[-> Hno]|(i & -> & Hi & Hmin)].
  { right. rewrite decide_True by lia. split; [by eexists|]. intros (p & Hp & _). apply (Hno p). by apply Hp. }
  rewrite decide_False by lia. destruct (LastIndex_ok v w) as [[_ Hno]|(k & -> & Hk & Hmax)]; [by destruct (Hno i)|].
  case_decide as Hne.
  { right. split; [by eexists|]. intros (p & Hp & _). apply Hne. f_equal. apply Hp in Hi, Hk. congruence. }
  assert (k = i) as -> by lia.
  assert (∀ j, occurs v w j ↔ j = i) as Hocc.
  { intros j. split; [|by intros ->]. intros Hj. specialize (Hmin j Hj). specialize (Hmax j Hj). lia. }
  case_decide as Hlt.
  - right. split; [by eexists|]. intros (p & Hp & Hlt'). apply Hp in Hi. subst. lia.
  - left. exists i. split; [done|]. split; [done|lia].
Qed.

Lemma checkMarks_ok v (f : nat → string) (js : list nat) lastoff :
  let r := go_for (λ lastoff j, checkMark v (f j) lastoff) lastoff js in
  (∃ off, r = Ok off) ∧ (∃ ps, once_at v (f <$> js) ps ∧ StronglySorted lt ps ∧ Forall (λ p, lastoff < Z.of_nat p) ps) ∨
  (∃ why, r = Fatal why) ∧ ¬ ∃ ps, once_at v (f <$> js) ps ∧ StronglySorted lt ps ∧ Forall (λ p, lastoff < Z.of_nat p) ps.
Proof.
  revert lastoff. induction js as [|j js IH]; intros lastoff; cbn.
  { left. split; [by eexists|]. exists []. split; [constructor|]. split; constructor. }
  destruct (checkMark_ok v (f j) lastoff) as [(p & -> & Hp & Hlt)|[(why & ->) Hno]]; cbn.
  - destruct (IH (Z.of_nat p)) as [[Hr (ps & Ho & Hs & Hall)]|[Hr Hno]]; [left|right]; (split; [done|]).
    + exists (p :: ps). split; [by constructor|]. split; constructor.
      * done.
      * eapply Forall_impl; [exact Hall|]. cbn. lia.
      * done.
      * eapply Forall_impl; [exact Hall|]. cbn. lia.
    + intros (ps & Ho & Hs & Hall). inversion Ho as [|? q ? ps' Hq Ho' E1 E2]; subst. apply Hno. exists ps'. split; [done|].
      apply StronglySorted_inv in Hs as [Hs Hlt']. split; [done|]. assert (q = p) as -> by (symmetry; apply Hq; by apply Hp).
      eapply Forall_impl; [exact Hlt'|]. cbn. lia.
  - right. split; [by eexists|]. intros (ps & Ho & Hs & Hall). inversion Ho as [|? q ? ps' Hq Ho' E1 E2]; subst.
    apply Forall_cons in Hall as [? _]. apply Hno. by exists q.
Qed.

(** Every mark of the client once, and in order. *)
Definition appends_ok (v : string) (clnt count : nat) : Prop :=
  ∃ ps, once_at v (wanted clnt <$> seq 0 count) ps ∧ StronglySorted lt ps.

Lemma checkClntAppends_exact clnt v count :
  checkClntAppends clnt v count = Ok tt ∧ appends_ok v clnt count ∨
  (∃ why, checkClntAppends clnt v count = Fatal why) ∧ ¬ appends_ok v clnt count.
Proof.
  assert (∀ ps : list nat, Forall (λ p, -1 < Z.of_nat p) ps) as Hps by (intros; apply Forall_forall; lia).
  unfold checkClntAppends, appends_ok.
  destruct (checkMarks_ok v (wanted clnt) (seq 0 count) (-1)) as [[(off & ->) (ps & Ho & Hs & _)]|[(why & ->) Hno]]; cbn.
  - left. split; [done|]. by exists ps.
  - right. split; [by eexists|]. intros (ps & Ho & Hs). apply Hno. by exists ps.
Qed.

Lemma checkConcurrentAppends_exact v counts :
  (checkConcurrentAppends v counts = Ok tt ∧ ∀ i c, counts !! i = Some c → appends_ok v i c) ∨
  (∃ why, checkConcurrentAppends v counts = Fatal why) ∧ ∃ i c, counts !! i = Some c ∧ ¬ appends_ok v i c.
Proof.
  unfold checkConcurrentAppends.
  assert (∀ js, Forall (λ i, i < length counts)%nat js →
    let r := go_for (λ _ i, count ← go_index counts (Z.of_nat i); checkClntAppends i v count) tt js in
    r = Ok tt ∧ (∀ i c, i ∈ js → counts !! i = Some c → appends_ok v i c) ∨
    (∃ why, r = Fatal why) ∧ ∃ i c, counts !! i = Some c ∧ ¬ appends_ok v i c) as Hgo.
  { induction 1 as [|i js Hi His IH]; cbn; [left; split; [done|]; by intros i c ?%elem_of_nil|].
    destruct (go_index_in_range counts (Z.of_nat i)) as (c & -> & Hc); [lia|]. rewrite Nat2Z.id in Hc. cbn.
    destruct (checkClntAppends_exact i v c) as [[-> Ha]|[(why & ->) Hno]]; cbn; [|right; split; [by eexists|eauto]].
    destruct IH as [[-> IH]|IH]; [left|by right]. split; [done|].
    intros k d [->|Hk]%elem_of_cons Hd; [by replace d with c by congruence|by apply IH]. }
  destruct (Hgo (seq 0 (length counts))) as [[-> Hall]|Hf]; [|left|by right].
  - apply Forall_forall. intros i Hi%elem_of_seq. lia.
  - split; [done|]. intros i c Hc. apply Hall; [|done]. apply elem_of_seq. apply lookup_lt_Some in Hc. lia.
Qed.

(** ** Marks in a value *)

Fixpoint all_chars (P : ascii → Prop) (s : string) : Prop :=
  match s with EmptyString => True | String c s => P c ∧ all_chars P s end.

Lemma app_empty (s : string) : "" +:+ s = s.
Proof. done. Qed.

Lemma all_chars_app P s s' : all_chars P (s +:+ s') ↔ all_chars P s ∧ all_chars P s'.
Proof.
  induction s as [|c s IH]; [rewrite app_empty; cbn; tauto|]. rewrite append_cons. cbn [all_chars]. rewrite IH. tauto.
Qed.

Definition digit (c : ascii) : Prop := c ∈ ["0"; "1"; "2"; "3"; "4"; "5"; "6"; "7"; "8"; "9"]%char.

Lemma pretty_digit (n : nat) : all_chars digit (pretty n).
Proof.
  assert (∀ x s, all_chars digit s → all_chars digit (pretty_N_go x s)) as Hgo.
  { intros x. induction (N.lt_wf_0 x) as [x _ IH]; intros s Hs.
    assert (x = 0 ∨ 0 < x)%N as [->|Hx] by lia; [done|]. rewrite pretty_N_go_step by done. apply IH; [by apply N.div_lt|].
    split; [|done]. unfold digit, pretty_N_char. repeat case_match; repeat first [left|right]. }
  unfold pretty, pretty_nat, pretty, pretty_N. case_decide; [|by apply Hgo]. repeat split. left.
Qed.

(** Between the x and the y. *)
Definition body (clnt j : nat) : string := " " +:+ pretty clnt +:+ " " +:+ pretty j +:+ " ".

Lemma wanted_body clnt j : wanted clnt j = String "x" (body clnt j +:+ "y").
Proof. unfold wanted, body. rewrite <- !append_assoc. done. Qed.

Lemma body_chars clnt j : all_chars (λ c, c ≠ "x"%char ∧ c ≠ "y"%char) (body clnt j).
Proof.
  assert (∀ s, all_chars digit s → all_chars (λ c, c ≠ "x"%char ∧ c ≠ "y"%char) s) as Hd.
  { induction s as [|c s IH]; [done|]. intros [Hc Hs]. split; [|by apply IH]. split; intros ->; unfold digit in Hc; set_solver. }
  unfold body. rewrite !all_chars_app. repeat split; try done; apply Hd, pretty_digit.
Qed.

(** A string up to its first space. *)
Lemma space_inj a b s s' :
  all_chars digit a → all_chars digit b → a +:+ String " " s = b +:+ String " " s' → a = b ∧ s = s'.
Proof.
  assert (∀ c, digit c → c ≠ " "%char) as Hsp by (intros c Hc ->; unfold digit in Hc; set_solver).
  revert b. induction a as [|c a IH]; intros [|d b] Ha Hb Heq; rewrite ?append_cons, ?app_empty in Heq.
  - by injection Heq as ->.
  - injection Heq as Hc _. destruct Hb as [Hb _]. by destruct (Hsp d).
  - injection Heq as Hc _. destruct Ha as [Ha _]. by destruct (Hsp c).
  - injection Heq as -> Heq. destruct Ha as [_ Ha], Hb as [_ Hb]. by destruct (IH b Ha Hb Heq) as [-> ->].
Qed.

Lemma body_inj c j c' j' : body c j = body c' j' → c = c' ∧ j = j'.
Proof.
  unfold body. intros Heq. rewrite !append_cons, !app_empty in Heq. injection Heq as Heq.
  apply (space_inj (pretty c) (pretty c')) in Heq as [Hc Heq]; [|apply pretty_digit..].
  apply (space_inj (pretty j) (pretty j')) in Heq as [Hj _]; [|apply pretty_digit..].
  split; by apply (inj pretty).
Qed.

(** What appends leave in an empty value. *)
Definition appended (l : list (nat * nat)) : string := foldl (λ v p, NextValue v (wanted p.1 p.2)) "" l.

Fixpoint marks (l : list (nat * nat)) : string :=
  match l with [] => "" | p :: l => wanted p.1 p.2 +:+ marks l end.

Lemma appended_marks l : appended l = marks l.
Proof.
  unfold appended, NextValue. assert (∀ v, foldl (λ v p, v +:+ wanted p.1 p.2) v l = v +:+ marks l) as Hf; [|apply Hf].
  induction l as [|p l IH]; intros v; cbn [foldl marks]; [by rewrite append_nil_r|]. by rewrite IH, <- append_assoc.
Qed.

Lemma prefix_cons c s d t : String.prefix (String c s) (String d t) = true ↔ c = d ∧ String.prefix s t = true.
Proof. cbn. destruct (ascii_dec c d) as [->|Hne]; split; [done|by intros [_ ?]|done|by intros [? _]]. Qed.

(** Two bodies that end in y. *)
Lemma body_prefix b b' R :
  all_chars (λ c, c ≠ "x"%char ∧ c ≠ "y"%char) b → all_chars (λ c, c ≠ "x"%char ∧ c ≠ "y"%char) b' →
  String.prefix (b +:+ "y") (b' +:+ String "y" R) = true ↔ b = b'.
Proof.
  revert b'. induction b as [|c b IH]; intros [|d b'] Hb Hb'; rewrite ?append_cons, ?app_empty, prefix_cons.
  - split; [done|]. split; [done|]. by destruct R.
  - destruct Hb' as [[_ Hd] _]. split; [by intros [<- _]|done].
  - destruct Hb as [[_ Hc] _]. split; [by intros [-> _]|done].
  - destruct Hb as [_ Hb], Hb' as [_ Hb']. rewrite (IH b' Hb Hb'). split; [by intros [-> ->]|by intros [= -> ->]].
Qed.

Lemma occurs_inside s R w i :
  all_chars (λ c, c ≠ "x"%char) s → (i < String.length s)%nat → ¬ occurs (s +:+ R) (String "x" w) i.
Proof.
  revert i. induction s as [|c s IH]; intros i Hs Hi; cbn [String.length] in Hi; [lia|]. rewrite append_cons. destruct Hs as [Hc Hs].
  destruct i as [|i].
  - rewrite occurs_0, prefix_cons. intros [<- _]. done.
  - apply (IH i Hs). lia.
Qed.

Lemma occurs_behind s R w i : occurs (s +:+ R) w (String.length s + i) = occurs R w i.
Proof. induction s as [|c s IH]; [by rewrite app_empty|]. rewrite append_cons. exact IH. Qed.

(** Where the mark of place [k] of [l] begins. *)
Definition offset (l : list (nat * nat)) (k : nat) : nat := String.length (marks (take k l)).

Lemma wanted_length c j : (0 < String.length (wanted c j))%nat.
Proof. rewrite wanted_body. cbn [String.length]. lia. Qed.

(** A mark is found where it was appended, and nowhere else. *)
Lemma occurs_marks l c j i : occurs (marks l) (wanted c j) i ↔ ∃ k, l !! k = Some (c, j) ∧ i = offset l k.
Proof.
  revert i. induction l as [|[c' j'] l IH]; intros i; cbn [marks fst snd].
  { rewrite wanted_body. destruct i; (split; [done|by intros (k & ? & _)]). }
  assert (occurs (wanted c' j' +:+ marks l) (wanted c j) 0 ↔ (c, j) = (c', j')) as H0.
  { rewrite occurs_0, !wanted_body, !append_cons, prefix_cons, <- append_assoc, append_cons, app_empty, body_prefix by apply body_chars.
    split; [intros [_ [-> ->]%body_inj]; done|by intros [= -> ->]]. }
  destruct (decide (i < String.length (wanted c' j'))%nat) as [Hlt|Hge].
  - split.
    + intros Ho. destruct i as [|i]; [exists 0%nat; split; [by rewrite (proj1 H0 Ho)|done]|exfalso].
      rewrite !wanted_body, append_cons in Ho. rewrite wanted_body in Hlt. cbn [String.length] in Hlt.
      revert Ho. apply (occurs_inside (body c' j' +:+ "y") (marks l) (body c j +:+ "y") i); [|lia].
      rewrite all_chars_app. split; [|done]. generalize (body_chars c' j'). generalize (body c' j'). clear.
      induction s as [|d s IH]; [done|]. intros [[Hd _] Hs]. split; [done|by apply IH].
    + intros ([|k] & Hk & ->); cbn in Hk.
      * apply H0. by injection Hk as -> ->.
      * exfalso. unfold offset in Hlt. cbn [take marks fst snd] in Hlt. rewrite length_app_str in Hlt. lia.
  - replace i with (String.length (wanted c' j') + (i - String.length (wanted c' j')))%nat at 1 by lia.
    rewrite occurs_behind, IH. split.
    + intros (k & Hk & Hi). exists (S k). split; [done|]. unfold offset in *. cbn [take marks fst snd]. rewrite length_app_str. lia.
    + intros ([|k] & Hk & ->); [unfold offset in Hge; cbn in Hge; pose proof (wanted_length c' j'); lia|].
      exists k. split; [done|]. unfold offset in *. cbn [take marks fst snd]. rewrite length_app_str. lia.
Qed.

Lemma offset_lt l k k' : (k' < length l)%nat → (k < k')%nat → (offset l k < offset l k')%nat.
Proof.
  revert k k'. induction l as [|[c j] l IH]; intros k [|k'] Hl Hk; cbn in Hl; [lia..|].
  pose proof (wanted_length c j). unfold offset in *. destruct k as [|k]; cbn [take marks fst snd]; rewrite ?length_app_str; cbn [String.length].
  - lia.
  - specialize (IH k k' ltac:(lia) ltac:(lia)). lia.
Qed.

(** ** Each once and in order *)

Section once.
Context {A : Type} `{EqDecision A} (P : A → Prop) `{!∀ x, Decision (P x)}.
Implicit Types (l xs : list A) (ks : list nat).

(** The places of [xs] in [l], each with one place, in order. *)
Definition placed l xs ks : Prop := Forall2 (λ x k, ∀ k', l !! k' = Some x ↔ k' = k) xs ks ∧ StronglySorted lt ks.

Lemma placed_S p l xs ks : p ∉ xs → placed l xs ks ↔ placed (p :: l) xs (S <$> ks).
Proof using Type.
  intros Hp. unfold placed. rewrite Forall2_fmap_r.
  assert (StronglySorted lt ks ↔ StronglySorted lt (S <$> ks)) as Hs.
  { induction ks as [|k ks IH]; [done|]. cbn. split; intros [H1 H2]%StronglySorted_inv; constructor; try tauto.
    - apply Forall_fmap. eapply Forall_impl; [exact H2|]. cbn. lia.
    - rewrite Forall_fmap in H2. eapply Forall_impl; [exact H2|]. cbn. lia. }
  rewrite <- Hs. assert (∀ x k, x ≠ p → (∀ k', l !! k' = Some x ↔ k' = k) ↔ (∀ k', (p :: l) !! k' = Some x ↔ k' = S k)) as Hx.
  { intros x k Hne. split; intros Hk.
    - intros [|k']; cbn; [split; [congruence|lia]|]. rewrite Hk. lia.
    - intros k'. specialize (Hk (S k')). cbn in Hk. rewrite Hk. lia. }
  assert (∀ (R R' : A → nat → Prop), (∀ x k, x ∈ xs → R x k → R' x k) → Forall2 R xs ks → Forall2 R' xs ks) as Himp.
  { intros R R' HR HF. revert HR. clear -HF. induction HF as [|x k xs ks Hk HF IH]; intros HR; constructor; [apply HR; [left|done]|].
    apply IH. intros y k' Hy. apply HR. by right. }
  split; intros [HF HS]; (split; [|done]); revert HF; apply Himp; intros x k Hin;
    [refine (proj1 (Hx x k _))|refine (proj2 (Hx x k _))]; by intros ->.
Qed.

Lemma filter_placed l xs :
  NoDup xs → Forall P xs → (∀ x, x ∈ l → P x → x ∈ xs) → filter P l = xs ↔ ∃ ks, placed l xs ks.
Proof using Type.
  revert xs. induction l as [|p l IH]; intros xs Hnd HP Hall.
  { rewrite filter_nil. split; [intros <-; exists []; split; constructor|].
    intros (ks & HF & _). destruct HF as [|x k xs ks Hk]; [done|]. specialize (Hk k). rewrite lookup_nil in Hk. destruct Hk as [_ Hk]. by specialize (Hk eq_refl). }
  rewrite filter_cons. case_decide as Hp.
  - split.
    + intros <-. apply NoDup_cons in Hnd as [Hn Hnd]. apply Forall_cons in HP as [_ HP].
      destruct (proj1 (IH (filter P l) Hnd HP (λ x Hx HPx, proj2 (list_elem_of_filter P l x) (conj HPx Hx))) eq_refl) as (ks & Hks).
      apply (placed_S p) in Hks as [HF HS]; [|done]. exists (0%nat :: (S <$> ks)). split; constructor; [|done|done|].
      * intros [|k']; cbn; [done|]. split; [|lia]. intros Hk'. destruct Hn. apply list_elem_of_filter. split; [done|].
        by eapply list_elem_of_lookup_2.
      * apply Forall_fmap, Forall_forall. intros. cbn. lia.
    + intros (ks & HF & HS). assert (p ∈ xs) as [a Ha]%list_elem_of_lookup by (apply Hall; [left|done]).
      destruct (Forall2_lookup_l _ _ _ _ _ HF Ha) as (k & Hk & Hiff). assert (k = 0)%nat as -> by (symmetry; by apply Hiff).
      destruct xs as [|x xs]; [done|]. destruct ks as [|k0 ks]; [by inversion HF|].
      assert (a = 0)%nat as ->.
      { destruct a as [|a]; [done|]. exfalso. cbn in Hk. apply StronglySorted_inv in HS as [_ HS]. rewrite Forall_forall in HS.
        specialize (HS 0%nat ltac:(by eapply list_elem_of_lookup_2)). lia. }
      cbn in Ha, Hk. injection Ha as ->. injection Hk as ->. f_equal.
      apply NoDup_cons in Hnd as [Hn Hnd]. apply Forall_cons in HP as [_ HP].
      apply Forall2_cons in HF as [_ HF]. apply StronglySorted_inv in HS as [HS Hlt].
      apply IH; [done|done| |].
      { intros x Hx HPx. assert (x ∈ p :: xs) as [->|]%elem_of_cons by (apply Hall; [by right|done]); [|done].
        apply list_elem_of_lookup in Hx as [b Hb]. specialize (Hiff (S b)). cbn in Hiff. by apply Hiff in Hb. }
      assert (ks = S <$> (pred <$> ks)) as Heq.
      { rewrite <- list_fmap_compose. clear -Hlt. induction Hlt as [|k ks Hk _ IH]; [done|]. cbn. rewrite <- IH. f_equal. lia. }
      exists (pred <$> ks). apply (placed_S p); [done|]. by rewrite <- Heq.
  - assert (p ∉ xs) as Hn by (intros Hin; rewrite Forall_forall in HP; by apply Hp, HP).
    rewrite IH; [|done|done|intros x Hx; apply Hall; by right]. split.
    + intros (ks & Hks). exists (S <$> ks). by apply placed_S.
    + intros (ks & HF & HS). assert (ks = S <$> (pred <$> ks)) as Heq.
      { rewrite <- list_fmap_compose. clear -HF Hn. induction HF as [|x k xs ks Hk HF IH]; [done|]. cbn.
        rewrite <- IH by set_solver. f_equal. destruct k as [|k]; [|done]. exfalso. apply Hn.
        specialize (Hk 0%nat). cbn in Hk. destruct Hk as [_ Hk]. injection (Hk eq_refl) as ->. left. }
      exists (pred <$> ks). apply (placed_S p); [done|]. by rewrite <- Heq.
Qed.
End once.

(** ** What the checks say about the appends *)

(** All the appends of the client up to its count, each once and in order. *)
Definition in_order (l : list (nat * nat)) (clnt count : nat) : Prop :=
  filter (λ p, p.1 = clnt ∧ (p.2 < count)%nat) l = pair clnt <$> seq 0 count.

Lemma offset_inj l k k' : (k < length l)%nat → (k' < length l)%nat → offset l k = offset l k' → k = k'.
Proof.
  intros Hk Hk' Heq. destruct (Nat.lt_trichotomy k k') as [Hlt|[|Hlt]]; [|done|]; apply (offset_lt l) in Hlt; lia.
Qed.

Lemma appends_ok_placed l clnt count :
  appends_ok (marks l) clnt count ↔ ∃ ks, placed l (pair clnt <$> seq 0 count) ks.
Proof.
  unfold appends_ok, once_at, placed. generalize (seq 0 count) as js. intros js. split.
  - intros (ps & HF & HS). revert ps HF HS. induction js as [|j js IH]; intros ps HF HS.
    { exists []. split; constructor. }
    rewrite fmap_cons in HF. destruct ps as [|p ps]; [by inversion HF|]. apply Forall2_cons in HF as [Hp HF].
    apply StronglySorted_inv in HS as [HS Hlt]. destruct (IH ps HF HS) as (ks & HFk & HSk).
    destruct (proj1 (occurs_marks l clnt j p) (proj2 (Hp p) eq_refl)) as (k & Hk & ->).
    assert (∀ k', l !! k' = Some (clnt, j) → k' = k) as Hone.
    { intros k' Hk'. apply (offset_inj l); [by eapply lookup_lt_Some..|]. apply Hp, occurs_marks. by exists k'. }
    exists (k :: ks). split; [rewrite fmap_cons; constructor; [|done]|constructor; [done|]].
    + intros k'. split; [apply Hone|by intros ->].
    + apply Forall_forall. intros k' Hin. apply list_elem_of_lookup in Hin as [a Ha].
      destruct (Forall2_lookup_r _ _ _ _ _ HFk Ha) as (x & Hx & Hiff). apply list_lookup_fmap_Some in Hx as (j' & -> & Hj').
      assert (occurs (marks l) (wanted clnt j') (offset l k')) as Ho by (apply occurs_marks; exists k'; split; [by apply Hiff|done]).
      destruct (Forall2_lookup_l _ _ _ a (wanted clnt j') HF) as (q & Hq & Hqiff); [by rewrite list_lookup_fmap, Hj'|].
      apply Hqiff in Ho. subst q. rewrite Forall_forall in Hlt. specialize (Hlt _ ltac:(by eapply list_elem_of_lookup_2)).
      destruct (decide (k < k')%nat) as [|Hge]; [done|]. assert (k = k' ∨ k' < k)%nat as [->|Hlt'] by lia; [lia|].
      apply (offset_lt l) in Hlt'; [lia|by eapply lookup_lt_Some].
  - intros (ks & HF & HS). exists (offset l <$> ks). split.
    + rewrite Forall2_fmap_l, Forall2_fmap_r. rewrite Forall2_fmap_l in HF. eapply Forall2_impl; [exact HF|].
      intros j k Hk i. cbn. rewrite occurs_marks. split; [by intros (k' & ->%Hk & ->)|]. intros ->. exists k. split; [by apply Hk|done].
    + assert (Forall (λ k, k < length l)%nat ks) as Hlen.
      { apply Forall_forall. intros k Hin. apply list_elem_of_lookup in Hin as [a Ha].
        destruct (Forall2_lookup_r _ _ _ _ _ HF Ha) as (x & _ & Hiff). eapply lookup_lt_Some. by apply Hiff. }
      clear HF. induction HS as [|k ks HS IH Hlt]; [constructor|]. apply Forall_cons in Hlen as [Hk Hlen]. cbn. constructor; [by apply IH|].
      rewrite Forall_fmap. rewrite Forall_forall in Hlt, Hlen |- *. intros k' Hin. cbn. apply offset_lt; auto.
Qed.

Lemma appends_ok_in_order l clnt count : appends_ok (marks l) clnt count ↔ in_order l clnt count.
Proof.
  rewrite appends_ok_placed. unfold in_order. symmetry. apply filter_placed.
  - apply NoDup_fmap_2; [by intros j j' [=]|apply NoDup_seq].
  - rewrite Forall_fmap. apply Forall_forall. intros j Hj%elem_of_seq. cbn. split; [done|lia].
  - intros [c j] _ [Hc Hj]. cbn in Hc, Hj. subst c. apply list_elem_of_fmap. exists j. split; [done|]. apply elem_of_seq. lia.
Qed.

(** What the check of the concurrent appends says about the appends of a
    value that was built by them: it passes if, of every client, all appends
    up to its count are among them, each once and in the order of their
    numbers; otherwise it fails the test. *)
Theorem appends_judged (l : list (nat * nat)) (counts : list nat) :
  checkConcurrentAppends (appended l) counts = Ok tt ∧ (∀ i c, counts !! i = Some c → in_order l i c) ∨
  (∃ why, checkConcurrentAppends (appended l) counts = Fatal why) ∧ (∃ i c, counts !! i = Some c ∧ ¬ in_order l i c).
Proof.
  rewrite appended_marks.
  destruct (checkConcurrentAppends_exact (marks l) counts) as [[-> Hall]|[Hf (i & c & Hc & Hno)]]; [left|right]; (split; [done|]).
  - intros i c Hc. by apply appends_ok_in_order, Hall.
  - exists i, c. by rewrite <- appends_ok_in_order.
Qed.

Example checkConcurrentAppends_runs :
  checkConcurrentAppends (appended [(0, 0); (1, 0); (0, 1)]%nat) [2; 1]%nat = Ok tt ∧
  checkConcurrentAppends (appended [(0, 1); (1, 0); (0, 0)]%nat) [2; 1]%nat = Fatal "wrong order for element in Append result" ∧
  checkConcurrentAppends (appended [(0, 0); (1, 0); (0, 0)]%nat) [1; 1]%nat = Fatal "duplicate element in Append result".
Proof. vm_compute. done. Qed.
