(* ===== verification/KvAppendTest.v ===== *)
(** * TestUnreliableOneKey3A (kvraft/test_test.go) on the modelled server

    Clients append their marks to one key of a server whose log may hold any
    request again and again; then the value of the key is checked.  The check
    of the test ([KvTestChecks]) meets the server ([KvServer], [KvSpec]): what
    a server that executes each request once returns cannot fail it. *)

From S2P Require Import Prelude Gob Persister RaftState RaftService KvServer KvSpec KvTestChecks.
Open Scope Z_scope.

(** ** The executed operations of a client *)

Definition client_order (op op' : Op) : Prop := ClientId op = ClientId op' → RequestIndex op < RequestIndex op'.

Lemma effective_ordered last ops : StronglySorted client_order (effective last ops).
Proof.
  revert last. induction ops as [|op ops IH]; intros last; cbn; [constructor|].
  destruct (executed last op); [apply IH|]. constructor; [apply IH|].
  apply Forall_forall. intros op' Hop' Hc. eapply effective_above; [exact Hop'|]. rewrite <- Hc. apply lookup_insert_eq.
Qed.

Lemma seq_of_sorted (js : list nat) count :
  StronglySorted lt js → (∀ j, j ∈ js ↔ (j < count)%nat) → js = seq 0 count.
Proof.
  intros Hs Hin. assert (∀ l : list nat, StronglySorted lt l → NoDup l) as Hnd.
  { induction 1 as [|j l _ IH Hlt]; constructor; [|done]. intros Hj. rewrite Forall_forall in Hlt. specialize (Hlt j Hj). lia. }
  assert (∀ n c, StronglySorted lt (seq n c)) as Hseq.
  { intros n c. revert n. induction c as [|c IH]; intros n; cbn; constructor; [apply IH|].
    apply Forall_forall. intros j Hj%elem_of_seq. lia. }
  apply (StronglySorted_unique_strong lt); [|done|done|].
  - intros x y _ _ ??. lia.
  - apply NoDup_Permutation; [by apply Hnd|apply NoDup_seq|]. intros j. rewrite Hin, elem_of_seq. lia.
Qed.

(** Marks that come in the order of each client, without a gap. *)
Lemma in_order_sorted l clnt count :
  StronglySorted (λ p q : nat * nat, p.1 = q.1 → (p.2 < q.2)%nat) l →
  (∀ j, (j < count)%nat → (clnt, j) ∈ l) → in_order l clnt count.
Proof.
  intros Hs Hall. unfold in_order.
  assert (∀ P `{!∀ p, Decision (P p)}, (∀ p, P p → p.1 = clnt) →
    StronglySorted lt (snd <$> filter P l) ∧ filter P l = pair clnt <$> (snd <$> filter P l)) as Hf.
  { intros P HP HPc. clear Hall. induction Hs as [|p l Hs IH Hlt]; [by split; [constructor|]|].
    destruct IH as [IH1 IH2]. rewrite filter_cons. case_decide as Hp; [|done]. rewrite !fmap_cons, <- IH2. split.
    - constructor; [done|]. rewrite Forall_fmap. rewrite Forall_forall in Hlt |- *. intros q [HPq Hq]%list_elem_of_filter.
      cbn. apply Hlt; [done|]. by rewrite (HPc p), (HPc q).
    - f_equal. destruct p as [c j]. by rewrite <- (HPc (c, j) Hp). }
  destruct (Hf (λ p, p.1 = clnt ∧ (p.2 < count)%nat) _ ltac:(naive_solver)) as [Hsf ->]. f_equal.
  apply seq_of_sorted; [done|]. intros j. rewrite list_elem_of_fmap. split.
  - intros (p & -> & [[_ Hp] _]%list_elem_of_filter). done.
  - intros Hj. exists (clnt, j). split; [done|]. apply list_elem_of_filter. split; [done|by apply Hall].
Qed.

(** [orderly] on a given log. *)
Fixpoint orderlyb (pre ops : list Op) : bool :=
  match ops with
  | [] => true
  | op :: ops =>
      (bool_decide (requestId op ∈ requestId <$> pre) ||
       forallb (λ op', negb (ClientId op' =? ClientId op) || (RequestIndex op' <? RequestIndex op)) pre) &&
      orderlyb (pre ++ [op]) ops
  end.

Lemma orderlyb_orderly ops : orderlyb [] ops = true → orderly ops.
Proof.
  assert (∀ pre mid op post, orderlyb pre (mid ++ op :: post) = true → requestId op ∉ requestId <$> (pre ++ mid) →
    ∀ op', op' ∈ pre ++ mid → ClientId op' = ClientId op → RequestIndex op' < RequestIndex op) as Hgo.
  { intros pre mid. revert pre. induction mid as [|m mid IH]; intros pre op post Hb Hn op' Hop' Hc; cbn in Hb;
      apply andb_true_iff in Hb as [Hb Hrest].
    - rewrite app_nil_r in Hn, Hop'. apply orb_true_iff in Hb as [Hb|Hb]; [by apply bool_decide_eq_true in Hb|].
      rewrite forallb_forall in Hb. specialize (Hb op' ltac:(by apply list_elem_of_In)).
      rewrite Hc, Z.eqb_refl in Hb. cbn in Hb. lia.
    - eapply (IH (pre ++ [m])); [exact Hrest|by rewrite <- app_assoc|by rewrite <- app_assoc|done]. }
  intros Hb pre op post -> Hn. by apply (Hgo [] pre op post).
Qed.

(** ** The requests of the test *)

Definition isPut (op : Op) : Prop := OpKind op = PUT ∧ Key op = "k" ∧ Value op = "".
Definition isGet (op : Op) : Prop := OpKind op = GET ∧ Key op = "k".

(** Append [p.2] of client [p.1], whose clerk has the identifier
    [cids !! p.1] and numbers its requests from 1. *)
Definition isAppend (cids : list Z) (op : Op) (p : nat * nat) : Prop :=
  OpKind op = APPEND ∧ Key op = "k" ∧ Value op = wanted p.1 p.2 ∧
  cids !! p.1 = Some (ClientId op) ∧ RequestIndex op = Z.of_nat p.2 + 1.

(** The check of the value that the test reads. *)
Definition checkOneKey (nclient upto : nat) (vx : string) : Res unit :=
  checkConcurrentAppends vx (replicate nclient upto).

Lemma isAppend_valid cids op p : isAppend cids op p → valid op.
Proof. intros (Hk & _). unfold valid. rewrite Hk. set_solver. Qed.

Lemma isAppend_same cids op op' p p' :
  NoDup cids → isAppend cids op p → isAppend cids op' p' → requestId op = requestId op' → p = p'.
Proof.
  intros Hnd (_ & _ & _ & Hc & Hr) (_ & _ & _ & Hc' & Hr'). unfold requestId. intros [= Heqc Heqr].
  destruct p as [i j], p' as [i' j']. cbn in *. f_equal; [|lia]. rewrite Heqc in Hc. by eapply NoDup_lookup.
Qed.

(** Appends alone, executed in their order, leave their marks. *)
Lemma appends_store cids ops l store v :
  Forall2 (isAppend cids) ops l → store !! "k" = Some v →
  foldl plain store ops !! "k" = Some (foldl (λ v p, NextValue v (wanted p.1 p.2)) v l).
Proof.
  intros HF. revert store v. induction HF as [|op p ops l (Hk & Hkey & Hv & _) HF IH]; intros store v Hs; cbn; [done|].
  apply IH. unfold plain. rewrite Hk, Hkey, Hv, Hs. rewrite decide_False by done. rewrite decide_True by done.
  by rewrite lookup_insert_eq.
Qed.

Lemma appends_sorted cids ops l :
  Forall2 (isAppend cids) ops l → StronglySorted client_order ops →
  StronglySorted (λ p q : nat * nat, p.1 = q.1 → (p.2 < q.2)%nat) l.
Proof.
  induction 1 as [|op p ops l Hp HF IH]; intros Hs; [constructor|]. apply StronglySorted_inv in Hs as [Hs Hlt].
  constructor; [by apply IH|]. apply Forall_forall. intros q Hq Heq. apply list_elem_of_lookup in Hq as [a Ha].
  destruct (Forall2_lookup_r _ _ _ _ _ HF Ha) as (op' & Hop' & Hq). rewrite Forall_forall in Hlt.
  specialize (Hlt op' ltac:(by eapply list_elem_of_lookup_2)). unfold client_order in Hlt.
  destruct Hp as (_ & _ & _ & Hc & Hr), Hq as (_ & _ & _ & Hc' & Hr'). rewrite Heq in Hc. rewrite Hc in Hc'.
  injection Hc' as Heqc. specialize (Hlt Heqc). lia.
Qed.

(** ** The test *)

Section test.
Context (cids : list Z) (put : Op) (ops : list Op) (upto : nat).

(** What the log holds behind the Put: the appends of the clients, and the
    Put again when it was sent again. *)
Definition test_log : Prop :=
  isPut put ∧ NoDup cids ∧ (ClientId put ∉ cids) ∧ orderly (put :: ops) ∧
  Forall (λ op, (valid op ∧ requestId op = requestId put) ∨ ∃ p, isAppend cids op p) ops ∧
  ∀ i j, (i < length cids)%nat → (j < upto)%nat → ∃ op, op ∈ ops ∧ isAppend cids op (i, j).

Let last : gmap Z Z := <[ClientId put := RequestIndex put]> ∅.

Lemma effective_appends :
  test_log → ∃ l, Forall2 (isAppend cids) (effective last ops) l ∧
    ∀ i, (i < length cids)%nat → ∀ j, (j < upto)%nat → (i, j) ∈ l.
Proof using Type.
  intros (Hput & Hnd & Hpc & Hord & Hops & Hall).
  assert (∀ op, op ∈ effective last ops → ∃ p, isAppend cids op p) as Heff.
  { intros op Hop. rewrite Forall_forall in Hops.
    destruct (Hops op) as [[_ Hid]|?]; [eapply elem_of_sublist; [exact Hop|apply effective_sublist]| |done].
    unfold requestId in Hid. injection Hid as Hc Hr.
    assert (RequestIndex put < RequestIndex op); [|lia]. eapply effective_above; [exact Hop|]. rewrite Hc. apply lookup_insert_eq. }
  assert (∃ l, Forall2 (isAppend cids) (effective last ops) l) as (l & HF).
  { revert Heff. generalize (effective last ops). clear. induction l as [|op ops IH]; intros Heff; [by exists []|].
    destruct (Heff op) as (p & Hp); [left|]. destruct IH as (l & Hl); [intros; apply Heff; by right|]. exists (p :: l). by constructor. }
  exists l. split; [done|]. intros i Hi j Hj. destruct (Hall i j Hi Hj) as (op & Hop & Ha).
  destruct (effective_complete (put :: ops) [put] ops last op) as [Hin|Hin]; [done|done| |done| |].
  - split.
    + intros c k [[<- <-]|[_ Hk]]%lookup_insert_Some; [by left|by rewrite lookup_empty in Hk].
    + intros op' ->%list_elem_of_singleton. exists (RequestIndex put). split; [apply lookup_insert_eq|lia].
  - apply list_elem_of_singleton in Hin. unfold requestId in Hin. injection Hin as Hc _. destruct Hpc. rewrite <- Hc.
    destruct Ha as (_ & _ & _ & Hc' & _). by eapply list_elem_of_lookup_2.
  - apply list_elem_of_fmap in Hin as (op' & Hid & Hop'). apply list_elem_of_lookup in Hop' as [a Ha'].
    destruct (Forall2_lookup_l _ _ _ _ _ HF Ha') as (p & Hp & Hp'). rewrite (isAppend_same cids op op' (i, j) p) by done.
    by eapply list_elem_of_lookup_2.
Qed.

(** C22: the test of the concurrent appends and the server fit.  When a log
    holds the Put of "" and behind it the appends of all the clients, each
    any number of times and mixed in any way that keeps the order in which a
    clerk makes its requests, then the server applies it and answers the
    following Get with a value that passes the check of
    TestUnreliableOneKey3A: no append missing, none twice, none in the wrong
    order. *)
Theorem one_key_test_passes get :
  test_log → isGet get →
  ∃ st st' vx, applyOps (put :: ops) makeState = Ok st ∧ applyOp get st = Ok (st', mkKVReplyMsg OK vx) ∧
    checkOneKey (length cids) upto vx = Ok tt.
Proof using Type.
  intros Hlog [Hget Hgetk]. destruct (effective_appends Hlog) as (l & HF & Hl).
  destruct Hlog as ((Hk & Hkey & Hv) & _ & _ & _ & Hops & _).
  assert (Forall valid (put :: ops)) as Hvalid.
  { constructor; [unfold valid; rewrite Hk; set_solver|]. eapply Forall_impl; [exact Hops|].
    intros op [[? _]|[p Hp]]; [done|by eapply isAppend_valid]. }
  rewrite applyOps_eq by done. eexists. rewrite applyOp_eq by (unfold valid; rewrite Hget; set_solver).
  eexists _, (appended l). split; [done|]. split.
  - do 2 f_equal. unfold plainReply. rewrite Hget, Hgetk, decide_True by done. cbn [KeyValueStore ClientLastRequest makeState].
    change (effective ∅ (put :: ops)) with (put :: effective last ops). cbn [foldl].
    by rewrite (appends_store cids _ l _ "" HF) by (unfold plain; rewrite Hk, Hkey, Hv, decide_True by done; by rewrite lookup_insert_eq).
  - unfold checkOneKey. rewrite appended_marks.
    destruct (checkConcurrentAppends_exact (marks l) (replicate (length cids) upto)) as [[Hok _]|[_ (i & c & [-> Hi]%lookup_replicate & Hno)]];
      [done|]. destruct Hno. apply appends_ok_in_order, in_order_sorted; [|by apply Hl].
    eapply appends_sorted; [exact HF|apply effective_ordered].
Qed.
End test.

(** Two clients, of which one has its request in the log twice, as has the
    Put. *)
Definition one_key_put : Op := mkOp 0 0 PUT "k" "" 7 1.
Definition one_key_ops : list Op :=
  [mkOp 0 1 APPEND "k" "x 1 0 y" 9 1; one_key_put; mkOp 0 2 APPEND "k" "x 0 0 y" 8 1;
   mkOp 1 1 APPEND "k" "x 1 0 y" 9 1; mkOp 0 3 APPEND "k" "x 0 1 y" 8 2; mkOp 1 3 APPEND "k" "x 1 1 y" 9 2].
Definition one_key_get : Op := mkOp 0 4 GET "k" "" 7 2.

Lemma one_key_test_passes_witness :
  ∃ st st' vx, applyOps (one_key_put :: one_key_ops) makeState = Ok st ∧
    applyOp one_key_get st = Ok (st', mkKVReplyMsg OK vx) ∧ checkOneKey 2 2 vx = Ok tt.
Proof.
  apply (one_key_test_passes [8; 9] one_key_put one_key_ops 2 one_key_get); [|done].
  split; [done|]. split; [apply (bool_decide_unpack _); vm_compute; done|].
  split; [apply (bool_decide_unpack _); vm_compute; done|]. split; [by apply orderlyb_orderly|]. split.
  - unfold one_key_ops. constructor; [right; by exists (1, 0)%nat|].
    constructor; [left; split; [|done]; apply (bool_decide_unpack _); vm_compute; done|].
    constructor; [right; by exists (0, 0)%nat|]. constructor; [right; by exists (1, 0)%nat|].
    constructor; [right; by exists (0, 1)%nat|]. constructor; [right; by exists (1, 1)%nat|]. constructor.
  - intros i j Hi Hj. assert ((i = 0 ∨ i = 1) ∧ (j = 0 ∨ j = 1))%nat as [[-> | ->] [-> | ->]] by (cbn in Hi; lia);
      [exists (mkOp 0 2 APPEND "k" "x 0 0 y" 8 1)|exists (mkOp 0 3 APPEND "k" "x 0 1 y" 8 2)
      |exists (mkOp 0 1 APPEND "k" "x 1 0 y" 9 1)|exists (mkOp 1 3 APPEND "k" "x 1 1 y" 9 2)];
      (split; [|done]); unfold one_key_ops; repeat first [left; done|right].
Defined.
