(* ===== verification/KvReplica.v ===== *)
(** * A key/value server as a replica

    The messages of [applyCh] drive a server.  [applyMsg] is one iteration of
    the apply loop with the send it ends in; [chan_ok] is the invariant of the
    channel table that makes closing safe; [applyAll_state] says that what a
    server computes from a history depends on the history alone. *)

From S2P Require Import Prelude Gob Persister RaftState RaftService ReplyServer KvServer KvSpec.
Open Scope Z_scope.

Section kv_replica.
Context {R : Type} `{!RaftService R Op} `{!LabGob SnapshotData}.
Implicit Types kv : KVServer R.

(** ** The channel table *)

Definition table kv : Table OpKVReplyChannel := mkTable (startChannels kv) (channels kv).

(** Every registered channel is open, and no two entries share one. *)
Definition chan_ok kv : Prop := table_ok ReplyChannel (table kv).

(** The operations on the table. *)
Lemma createStartCh_table op kv :
  table (createStartCh op kv).1 = t_add (requestId op) (createStartCh op kv).2 (table kv).
Proof. done. Qed.

Lemma getStartCh_table op kv : getStartCh op kv = t_get (requestId op) (table kv).
Proof. done. Qed.

Lemma deleteStartCh_table op kv T :
  t_delete ReplyChannel (requestId op) (table kv) = Ok T →
  deleteStartCh op kv = Ok (kv <| startChannels := entries T |> <| channels := chans T |>).
Proof.
  unfold t_delete, deleteStartCh, close. cbn.
  destruct (startChannels kv !! ClientId op) as [m|]; [|intros [= <-]; by destruct kv].
  destruct (m !! RequestIndex op) as [sc|]; [|intros [= <-]; by destruct kv].
  destruct (channels kv !! ReplyChannel sc) as [[]|]; [done| |done]. by intros [= <-].
Qed.

(** Deleting an entry changes the table only. *)
Lemma deleteStartCh_ok op kv :
  chan_ok kv →
  ∃ kv', deleteStartCh op kv = Ok kv' ∧ chan_ok kv' ∧
    state kv' = state kv ∧ rf kv' = rf kv ∧ me kv' = me kv ∧ maxraftstate kv' = maxraftstate kv.
Proof.
  intros Hc. destruct (t_delete_ok ReplyChannel (requestId op) (table kv) Hc) as ([es cs] & E & Hok & _).
  rewrite (deleteStartCh_table _ _ _ E). eexists. split; [done|]. by split_and!.
Qed.

(** ** One message *)

(** Snapshots do not fail: none is ever taken, or the peer is ready for them. *)
Definition snapshots_succeed kv : Prop := maxraftstate kv = -1 ∨ rs_ready (rf kv).

Lemma handleCommandApply_ok (m : ApplyMsg Op) op kv :
  Command m = ICmd op → valid op → snapshots_succeed kv →
  ∃ r' s, handleCommandApply m kv =
    Ok (kv <| state := (if executed (ClientLastRequest (state kv)) op then state kv
           else mkState (plain (KeyValueStore (state kv)) op)
             (<[ClientId op := RequestIndex op]> (ClientLastRequest (state kv)))) |>
           <| rf := r' |>, s) ∧
    rs_GetState r' = rs_GetState (rf kv) ∧ (rs_ready (rf kv) → rs_ready r') ∧
    s = (if opChannelMatch op kv then
           signalStartCh op
             (if (rs_GetState (rf kv)).2 then plainReply (KeyValueStore (state kv)) op
              else mkKVReplyMsg ErrWrongLeader (ReplyValue (plainReply (KeyValueStore (state kv)) op)))
             kv
         else None).
Proof.
  intros Hm Hv Hs. unfold handleCommandApply. rewrite Hm. cbn [asOp mbind Res_bind].
  rewrite applyOp_eq by done. cbn [mbind Res_bind].
  set (st := if executed _ _ then _ else _). clearbody st.
  assert (∃ r', (if decide (maxraftstate (kv <| state := st |>) ≠ -1 ∧
      rs_RaftStateSize (rf (kv <| state := st |>)) >= maxraftstate (kv <| state := st |>))
      then rf' ← rs_Snapshot (CommandIndex m) (makeSnapshot (kv <| state := st |>)) (rf (kv <| state := st |>));
           Ok ((kv <| state := st |>) <| rf := rf' |>)
      else Ok (kv <| state := st |>)) = Ok ((kv <| state := st |>) <| rf := r' |>) ∧
      rs_GetState r' = rs_GetState (rf kv) ∧ (rs_ready (rf kv) → rs_ready r')) as (r' & -> & Hr' & Hr'').
  { case_decide as Hd.
    - destruct Hs as [?|Hs]; [kv_simpl; naive_solver|].
      destruct (rs_Snapshot_ready (rf kv) (CommandIndex m) (makeSnapshot (kv <| state := st |>)) Hs) as (r' & Hr & Hr').
      exists r'. split; [|split; [by eapply rs_Snapshot_keeps|done]]. kv_simpl. by rewrite Hr.
    - exists (rf kv). split; [|done]. by destruct kv. }
  cbn [mbind Res_bind]. exists r'. eexists. split; [done|]. split; [done|]. split; [done|].
  kv_simpl. rewrite Hr'. by destruct (rs_GetState (rf kv)) as [? []].
Qed.

Definition finishSend (s : option Sending) kv : Res (KVServer R) :=
  match s with None => Ok kv | Some s => deleteStartCh (sentOp s) kv end.

(** One iteration of the apply loop, with the send and the deletion of the
    channel after it. *)
Definition applyMsg (m : ApplyMsg Op) kv : Res (KVServer R) :=
  '(kv, s) ← handleApplyMessage m kv; finishSend s kv.

Definition applyAll (ms : list (ApplyMsg Op)) kv : Res (KVServer R) :=
  go_for (λ kv m, applyMsg m kv) kv ms.

Lemma finishSend_ok s kv :
  chan_ok kv → ∃ kv', finishSend s kv = Ok kv' ∧ chan_ok kv' ∧ state kv' = state kv ∧
    rf kv' = rf kv ∧ me kv' = me kv ∧ maxraftstate kv' = maxraftstate kv.
Proof.
  intros Hc. destruct s as [s|]; cbn; [|by exists kv].
  destruct (deleteStartCh_ok (sentOp s) kv Hc) as (kv' & -> & Hc' & ? & ? & ? & ?).
  exists kv'. by split_and!.
Qed.

(** ** A history of messages *)

(** The messages a Raft peer sends: commands of the service, the filler at
    index 0, and snapshots a server has made. *)
Inductive Item := ICommand (op : Op) | IFiller | ISnapshot (st : State) (opIdx total : Z).

Definition item_msg (it : Item) (i : Z) : ApplyMsg Op :=
  match it with
  | ICommand op => mkApplyMsg true (ICmd op) i false [] 0 0
  | IFiller => mkApplyMsg false (IInt (-1)) 0 false [] 0 0
  | ISnapshot st o n => mkApplyMsg false INil 0 true (gob_encode ((st, o, n) : SnapshotData)) 0 i
  end.

Definition item_ok (it : Item) : Prop := match it with ICommand op => valid op | _ => True end.

(** What a history computes, from a state. *)
Definition item_state (st : State) (it : Item) : State :=
  match it with
  | ICommand op =>
      if executed (ClientLastRequest st) op then st
      else mkState (plain (KeyValueStore st) op)
             (<[ClientId op := RequestIndex op]> (ClientLastRequest st))
  | IFiller => st
  | ISnapshot st' _ _ => st'
  end.

Lemma installSnapshot_encoded kv st o n :
  installSnapshot (gob_encode ((st, o, n) : SnapshotData)) kv =
  Ok (kv <| state := st |> <| totalLogCount := n |> <| instoreLogCount := 0 |>).
Proof.
  unfold installSnapshot. destruct (gob_encode _) eqn:E; [by apply gob_encode_nonempty in E|].
  rewrite <- E. unfold readSnapshot. by rewrite gob_decode_encode.
Qed.

Lemma applyMsg_item it i kv :
  item_ok it → chan_ok kv → snapshots_succeed kv →
  ∃ kv', applyMsg (item_msg it i) kv = Ok kv' ∧ chan_ok kv' ∧
    state kv' = item_state (state kv) it ∧
    me kv' = me kv ∧ snapshots_succeed kv' ∧
    rs_GetState (rf kv') = rs_GetState (rf kv).
Proof.
  intros Hit Hc Hs. unfold applyMsg, handleApplyMessage. destruct it as [op| |st o n];
    cbn [item_msg SnapshotValid CommandValid Snapshot SnapshotTerm SnapshotIndex CommandIndex].
  - destruct (handleCommandApply_ok (item_msg (ICommand op) i) op kv eq_refl Hit Hs)
      as (r' & s & H & Hr & Hr' & _). cbn [item_msg] in H. rewrite H. cbn [mbind Res_bind].
    match goal with |- context [finishSend s ?k] => set (kv1 := k) end.
    destruct (finishSend_ok s kv1) as (kv' & -> & Hc' & E1 & E2 & E3 & E4).
    { exact Hc. }
    exists kv'. split_and!; try done; [|by rewrite E2].
    unfold snapshots_succeed. rewrite E2, E4. destruct Hs; [by left|right; by apply Hr'].
  - by exists kv.
  - rewrite rs_CondInstallSnapshot_true, installSnapshot_encoded. cbn.
    eexists. split; [done|]. split_and!; try done.
Qed.

Lemma applyAll_state (h : list (Item * Z)) kv :
  Forall (λ x, item_ok x.1) h → chan_ok kv → snapshots_succeed kv →
  ∃ kv', applyAll ((λ x, item_msg x.1 x.2) <$> h) kv = Ok kv' ∧ chan_ok kv' ∧
    state kv' = foldl item_state (state kv) h.*1.
Proof.
  intros Hh. revert kv. induction Hh as [|[it i] h Hit Hh IH]; intros kv Hc Hs; cbn; [by exists kv|].
  destruct (applyMsg_item it i kv Hit Hc Hs) as (kv1 & H & Hc1 & Est & _ & Hs1 & _).
  unfold applyAll in *. cbn in *. rewrite H. cbn.
  destruct (IH kv1 Hc1 Hs1) as (kv' & -> & Hc' & Est').
  exists kv'. split_and!; [done..|]. by rewrite Est', Est.
Qed.

Lemma item_state_commands st ops :
  Forall valid ops → applyOps ops st = Ok (foldl item_state st (ICommand <$> ops)).
Proof.
  intros Hv. revert st. induction Hv as [|op ops Hop Hv IH]; intros st; cbn; [done|].
  rewrite applyOp_eq by done. cbn. rewrite IH. done.
Qed.
(** ** The theorems *)

(** C15: replicas agree.  Take two servers in the same state with sound tables
    of channels ([chan_ok], which every reachable server has), each of which
    takes no snapshots or has a Raft peer ready for them (for the peers of this
    repository: the commit index lies inside the log).  If both apply the same
    history of Gets, Puts, Appends, fillers and snapshots made by servers, both
    get through it and end in the same state: their indices, their pending
    handlers, their thresholds for snapshots and the indices of the messages do
    not matter, nor does anything else about their peers. *)
Theorem replicas_agree (h : list Item) (is1 is2 : list Z) kv1 kv2 :
  length is1 = length h → length is2 = length h →
  Forall item_ok h → chan_ok kv1 → chan_ok kv2 →
  snapshots_succeed kv1 → snapshots_succeed kv2 → state kv1 = state kv2 →
  ∃ kv1' kv2', applyAll (zip_with item_msg h is1) kv1 = Ok kv1' ∧
    applyAll (zip_with item_msg h is2) kv2 = Ok kv2' ∧ state kv1' = state kv2'.
Proof.
  intros H1 H2 Hh Hc1 Hc2 Hs1 Hs2 E.
  assert (∀ js, length js = length h → zip_with item_msg h js = (λ x, item_msg x.1 x.2) <$> zip h js ∧
    (zip h js).*1 = h ∧ Forall (λ x, item_ok x.1) (zip h js)) as Hz.
  { intros js Hl. assert ((zip h js).*1 = h) as Hf by (apply fst_zip; lia).
    split_and!; [|done|].
    - by rewrite zip_with_zip; apply list_fmap_ext; intros ? [].
    - apply Forall_forall. intros x Hx. rewrite Forall_forall in Hh. apply Hh.
      rewrite <- Hf. by apply list_elem_of_fmap_2. }
  destruct (Hz is1 H1) as (-> & F1 & O1), (Hz is2 H2) as (-> & F2 & O2).
  destruct (applyAll_state _ kv1 O1 Hc1 Hs1) as (kv1' & -> & _ & E1).
  destruct (applyAll_state _ kv2 O2 Hc2 Hs2) as (kv2' & -> & _ & E2).
  exists kv1', kv2'. split_and!; [done..|]. by rewrite E1, E2, F1, F2, E.
Qed.

Definition commandMsgs (ops : list Op) : list (ApplyMsg Op) :=
  imap (λ k op, item_msg (ICommand op) (Z.of_nat k)) ops.

Definition snapshotMessage (data : bytes) (i : Z) : ApplyMsg Op :=
  mkApplyMsg false INil 0 true data 0 i.

Lemma applyAll_commands ops kv :
  Forall valid ops → chan_ok kv → snapshots_succeed kv →
  ∃ kv', applyAll (commandMsgs ops) kv = Ok kv' ∧ chan_ok kv' ∧
    applyOps ops (state kv) = Ok (state kv').
Proof.
  intros Hv Hc Hs.
  destruct (applyAll_state (imap (λ k op, (ICommand op, Z.of_nat k)) ops) kv) as (kv' & H & Hc' & E).
  - apply Forall_forall. intros x (k & op & -> & Hop)%elem_of_lookup_imap. cbn.
    rewrite Forall_forall in Hv. apply Hv. by eapply list_elem_of_lookup_2.
  - done.
  - done.
  - exists kv'. rewrite fmap_imap in H, E. split; [exact H|]. split; [done|].
    rewrite item_state_commands by done. f_equal. rewrite E. f_equal.
    apply list_eq. intros k. rewrite list_lookup_fmap, list_lookup_imap. by destruct (ops !! k).
Qed.

(** C24: a snapshot stands for the operations before it.  Take two servers
    with sound tables of channels ([chan_ok]), each of which takes no snapshots
    by itself or has a Raft peer ready for them (for the peers of this
    repository: the commit index lies inside the log), and Gets, Puts and
    Appends [ops1] and [ops2].  The first applies [ops1] and makes a snapshot.
    The second, whatever its state, installs it and applies [ops2]; it ends in
    the state in which applying [ops1 ++ ops2] would have left the first.  A
    server that starts from the snapshot has the state after [ops1]. *)
Theorem snapshot_stands_for_prefix ops1 ops2 kv1 kv2 i :
  Forall valid ops1 → Forall valid ops2 → chan_ok kv1 → chan_ok kv2 →
  snapshots_succeed kv1 → snapshots_succeed kv2 →
  ∃ kv1' kv2' kv3, applyAll (commandMsgs ops1) kv1 = Ok kv1' ∧
    applyAll (snapshotMessage (makeSnapshot kv1') i :: commandMsgs ops2) kv2 = Ok kv2' ∧
    applyOps (ops1 ++ ops2) (state kv1) = Ok (state kv2') ∧
    StartKVServer (me kv2) (rf kv2) (maxraftstate kv2) (makeSnapshot kv1') = Ok kv3 ∧
    state kv3 = state kv1'.
Proof.
  intros Hv1 Hv2 Hc1 Hc2 Hs1 Hs2.
  destruct (applyAll_commands ops1 kv1 Hv1 Hc1 Hs1) as (kv1' & H1 & _ & E1).
  destruct (applyMsg_item (ISnapshot (state kv1') (opIndex kv1') (totalLogCount kv1')) i kv2
    I Hc2 Hs2) as (kv & Hm & Hc & Est & _ & Hs & _).
  destruct (applyAll_commands ops2 kv Hv2 Hc Hs) as (kv2' & H2 & _ & E2).
  cbn in Est. exists kv1', kv2'. eexists. split_and!.
  - exact H1.
  - unfold applyAll in *. cbn [go_for]. unfold snapshotMessage, makeSnapshot.
    cbn [item_msg] in Hm. rewrite Hm. exact H2.
  - rewrite applyOps_app, E1. cbn. by rewrite <- Est.
  - unfold StartKVServer, makeSnapshot. apply installSnapshot_encoded.
  - done.
Qed.
End kv_replica.

(** ** Samples *)

Definition soloPeer : Raft Op := freshRaft 1 0 MakePersister (mkEnv 0 0).

(** It takes a snapshot after every command. *)
Definition sampleServer (me : Z) : KVServer (Raft Op) :=
  mkKVServer me soloPeer false 0 0 0 makeState ∅ 0 [].

Lemma sampleServer_ready i : snapshots_succeed (sampleServer i).
Proof. right. exists [fillerEntry]. split; [|done]. split; cbn; [done|lia|done|done]. Qed.

Lemma sampleServer_chan_ok i : chan_ok (sampleServer i).
Proof. apply table_ok_empty. Qed.

Lemma sampleOps_valid : Forall valid sampleOps.
Proof. repeat constructor; unfold valid; by repeat first [left; reflexivity | right]. Qed.

Lemma replicas_agree_witness :
  ∃ kv1' kv2', applyAll (zip_with item_msg (ICommand <$> sampleOps) [1; 2; 3; 4]) (sampleServer 0) = Ok kv1' ∧
    applyAll (zip_with item_msg (ICommand <$> sampleOps) [1; 2; 3; 4]) (sampleServer 1) = Ok kv2' ∧
    state kv1' = state kv2'.
Proof.
  apply (replicas_agree (ICommand <$> sampleOps) [1; 2; 3; 4] [1; 2; 3; 4]
    (sampleServer 0) (sampleServer 1)).
  - reflexivity.
  - reflexivity.
  - repeat constructor; cbn; unfold valid; by repeat first [left; reflexivity | right].
  - apply sampleServer_chan_ok.
  - apply sampleServer_chan_ok.
  - apply sampleServer_ready.
  - apply sampleServer_ready.
  - reflexivity.
Defined.

Lemma snapshot_stands_for_prefix_witness :
  ∃ kv1' kv2', applyAll (commandMsgs sampleOps) (sampleServer 0) = Ok kv1' ∧
    applyAll (snapshotMessage (makeSnapshot kv1') 4 :: commandMsgs sampleOps) (sampleServer 1) = Ok kv2' ∧
    applyOps (sampleOps ++ sampleOps) makeState = Ok (state kv2').
Proof.
  destruct (snapshot_stands_for_prefix sampleOps sampleOps (sampleServer 0) (sampleServer 1) 4
    sampleOps_valid sampleOps_valid (sampleServer_chan_ok 0) (sampleServer_chan_ok 1)
    (sampleServer_ready 0) (sampleServer_ready 1)) as (kv1' & kv2' & kv3 & H1 & H2 & H3 & _).
  exists kv1', kv2'. exact (conj H1 (conj H2 H3)).
Defined.
