(* ===== verification/KvSystem.v ===== *)
(** * A key/value server with its handlers and its apply loop

    The Get and PutAppend handlers (kvServerGet.go, kvServerPutAppend.go) run
    as goroutines next to the apply loop (kvServerApplyTicker.go): an instance
    of [ReplyServer].  Meanwhile the Raft peer moves on by itself, and the
    server may be killed, neither under [kv.mu]. *)

From S2P Require Import Prelude Gob Persister RaftState RaftService ReplyServer KvServer KvSpec KvReplica.
Open Scope Z_scope.

Inductive Req := RGet (args : GetArgs) | RPutAppend (args : PutAppendArgs).

(** What happens next to the handlers and the apply loop. *)
Inductive KvEnv (R : Type) :=
  (** the Raft peer moves on by itself *)
  | KRaft (r : R)
  | KKill.
Arguments KRaft {R}.
Arguments KKill {R}.

Abbreviation KvSys R := (Sys (KVServer R) Req Op OpKVReplyChannel KVReplyMsg KVReplyMsg).
Abbreviation KvLabel R := (Label Req (Item * Z) (KvEnv R)).

Section kv_server_steps.
Context {R : Type} `{!RaftService R Op} `{!LabGob SnapshotData}.
Implicit Types (kv : KVServer R).

Definition kvPre (req : Req) kv : Res (KVServer R * (KVReplyMsg + Op * OpKVReplyChannel)) :=
  let '(kv, op, sc) := match req with
                       | RGet args => preGetStart args kv
                       | RPutAppend args => prePutAppendStart args kv
                       end in
  Ok (kv, match sc with
          | None => inl (mkKVReplyMsg ErrWrongLeader "")
          | Some sc => inr (op, sc)
          end).

Definition kvStart (op : Op) kv : KVServer R * bool :=
  let '(r, (_, _, isLeader)) := rs_Start (ICmd op) (rf kv) in (kv <| rf := r |>, isLeader).

Definition kvResult (req : Req) (op : Op) (msg : KVReplyMsg) kv : Res (KVServer R * KVReplyMsg) :=
  match req with
  | RGet _ => handleGetResult op msg kv
  | RPutAppend _ => '(kv, e) ← handlePutAppendResult op msg kv; Ok (kv, mkKVReplyMsg e "")
  end.

Definition kvTimeout (req : Req) (op : Op) kv : Res (KVServer R * KVReplyMsg) :=
  '(kv, e) ← match req with
             | RGet _ => getTimeout op kv
             | RPutAppend _ => putAppendTimeout op kv
             end;
  Ok (kv, mkKVReplyMsg e "").

(** [handleApplyMessage] up to its send. *)
Definition kvDeliver (x : Item * Z) kv : Res (KVServer R * option (Sent Op KVReplyMsg)) :=
  '(kv, s) ← handleApplyMessage (item_msg x.1 x.2) kv;
  Ok (kv, match s with
          | Some s => Some (mkSent (toChannel s) (message s) (sentOp s))
          | None => None
          end).

Definition kvOther (e : KvEnv R) kv : Res (KVServer R) :=
  Ok (match e with KRaft r => kv <| rf := r |> | KKill => Kill kv end).

#[export] Instance kv_reply_server :
  ReplyServer (KVServer R) Req Op OpKVReplyChannel KVReplyMsg KVReplyMsg (Item * Z) (KvEnv R) := {|
  h_leads kv := (rs_GetState (rf kv)).2;
  h_pre := kvPre;
  h_start := kvStart;
  h_drop := deleteStartCh;
  h_result := kvResult;
  h_timeout := kvTimeout;
  h_wrongLeader := mkKVReplyMsg ErrWrongLeader "";
  h_zero := zeroReply;
  h_deliver := kvDeliver;
  h_env := kvOther;
  h_envLocks _ := false;
  h_table := table;
  h_chan := ReplyChannel;
|}.

(** ** What the pieces do to the table *)

(** Same operation up to the server's own numbering. *)
Definition same_op (o o' : Op) : Prop :=
  Key o = Key o' ∧ Value o = Value o' ∧ OpKind o = OpKind o' ∧
  ClientId o = ClientId o' ∧ RequestIndex o = RequestIndex o'.

Lemma opChannelMatch_same op kv sc :
  opChannelMatch op kv = true → getStartCh op kv = Some sc → same_op (Operation sc) op.
Proof.
  unfold opChannelMatch. case_decide; [done|]. intros Hm Hsc. rewrite Hsc in Hm.
  case_decide as Hd; [done|]. unfold same_op.
  split_and!; apply dec_stable; naive_solver.
Qed.

Lemma plainReply_not_filler store op : Error (plainReply store op) ≠ ErrFiller.
Proof. unfold plainReply. case_decide; [destruct (_ !! _)|]; done. Qed.

(** What applying an operation does to the table, and what it sends. *)
Lemma handleCommandApply_sends (m : ApplyMsg Op) op kv kv' s :
  Command m = ICmd op → handleCommandApply m kv = Ok (kv', s) → valid op →
  table kv' = table kv ∧ me kv' = me kv ∧ ∀ s1, s = Some s1 →
    opChannelMatch op kv' = true ∧ sentOp s1 = op ∧
    (∃ sc, getStartCh op kv' = Some sc ∧ ReplyChannel sc = toChannel s1) ∧
    message s1 = (let r := plainReply (KeyValueStore (state kv)) op in
      if (rs_GetState (rf kv')).2 then r else mkKVReplyMsg ErrWrongLeader (ReplyValue r)).
Proof.
  unfold handleCommandApply. intros Hm H Hv. rewrite Hm in H. cbn [asOp mbind Res_bind] in H.
  rewrite applyOp_eq in H by done. cbn [mbind Res_bind] in H.
  match type of H with context [kv <| state := ?x |>] => set (st := x) in H end. clearbody st.
  apply bind_Ok in H as (kv1 & H1 & H).
  assert (table kv1 = table kv ∧ me kv1 = me kv) as [Ht Hme] by (case_decide; go_inv; done).
  injection H as <- <-. split_and!; [done..|]. intros s1.
  destruct (opChannelMatch op kv1) eqn:Em; [|done]. unfold signalStartCh.
  destruct (getStartCh op kv1) as [sc|] eqn:Esc; [|done]. intros [= <-]. split_and!; [done..| |done].
  by exists sc.
Qed.

(** A message that is no operation sends nothing. *)
Lemma handleApplyMessage_sends it i kv kv' s :
  item_ok it → handleApplyMessage (item_msg it i) kv = Ok (kv', s) →
  table kv' = table kv ∧ me kv' = me kv ∧ ∀ s1, s = Some s1 →
    it = ICommand (sentOp s1) ∧ opChannelMatch (sentOp s1) kv' = true ∧
    (∃ sc, getStartCh (sentOp s1) kv' = Some sc ∧ ReplyChannel sc = toChannel s1) ∧
    message s1 = (let r := plainReply (KeyValueStore (state kv)) (sentOp s1) in
      if (rs_GetState (rf kv')).2 then r else mkKVReplyMsg ErrWrongLeader (ReplyValue r)).
Proof.
  unfold handleApplyMessage.
  destruct it as [op| |st o n]; intros Hit H;
    cbn [item_msg SnapshotValid CommandValid Snapshot SnapshotTerm SnapshotIndex CommandIndex] in H.
  - apply (handleCommandApply_sends _ op) in H as (Ht & Hme & Hs); [|done..]. split_and!; [done..|].
    intros s1 E. destruct (Hs s1 E) as (Hm & <- & Hc & Hr). by split_and!.
  - cbn in H. case_decide; [done|]. by go_inv.
  - rewrite rs_CondInstallSnapshot_true, installSnapshot_encoded in H. cbn in H. by go_inv.
Qed.

(** The two [pre...] sections have one shape. *)
Lemma kvPre_shape req kv :
  ∃ op kv1, table kv1 = table kv ∧
    kvPre req kv = Ok (if killed kv1 then (kv1, inl (mkKVReplyMsg ErrWrongLeader ""))
      else ((createStartCh op kv1).1, inr (op, (createStartCh op kv1).2))).
Proof.
  unfold kvPre. destruct req as [args|args].
  - unfold preGetStart. destruct (createGetOp args kv) as [kv1 op] eqn:E.
    exists op, kv1. unfold createGetOp in E. injection E as <- <-. split; [done|]. by destruct (killed _).
  - unfold prePutAppendStart. destruct (createPutAppendOp args kv) as [kv1 op] eqn:E.
    exists op, kv1. unfold createPutAppendOp in E. injection E as <- <-. split; [done|]. by destruct (killed _).
Qed.

#[export] Program Instance kv_reply_laws :
  ReplyLaws (KVServer R) Req Op OpKVReplyChannel KVReplyMsg KVReplyMsg (Item * Z) (KvEnv R) := {|
  h_op := Operation;
  h_id := requestId;
  h_same := same_op;
  h_good msg := Error msg ≠ ErrFiller;
  h_ok _ := True;
  h_itemOk x := item_ok x.1;
  h_envOk _ := True;
|}.
Next Obligation.
  intros req kv kv' x _ H. destruct (kvPre_shape req kv) as (op & kv1 & Ht & E).
  change (kvPre req kv = Ok (kv', x)) in H. rewrite E in H. split; [done|].
  change (h_table kv) with (table kv). rewrite <- Ht. by destruct (killed kv1); injection H as <- <-.
Qed.
Next Obligation. done. Qed.
Next Obligation. intros op kv. cbn. unfold kvStart. by destruct (rs_Start _ _) as [r [[i t] b]]. Qed.
Next Obligation.
  intros op kv T _ H. cbn in *. rewrite (deleteStartCh_table _ _ _ H). eexists. split_and!; [done..|].
  by destruct T.
Qed.
Next Obligation.
  intros req op msg kv T _ Hg H. cbn in *. unfold kvResult, handleGetResult, handlePutAppendResult.
  rewrite (deleteStartCh_table _ _ _ H). cbn [mbind Res_bind]. rewrite !decide_False by done.
  destruct T. destruct req; eexists _, _; by split_and!.
Qed.
Next Obligation.
  intros req op kv T _ H. cbn in *. unfold kvTimeout, getTimeout, putAppendTimeout.
  rewrite (deleteStartCh_table _ _ _ H). destruct T. destruct req; eexists _, _; by split_and!.
Qed.
Next Obligation. done. Qed.
Next Obligation.
  intros [it i] kv kv' x _ Hit H. cbn in *. unfold kvDeliver in H.
  apply bind_Ok in H as ([kv1 s] & H & [= <- <-]).
  destruct (handleApplyMessage_sends _ _ _ _ _ Hit H) as (Ht & _ & Hs). split_and!; [done..|].
  destruct s as [s|]; [|done]. intros m [= <-]. cbn.
  destruct (Hs s eq_refl) as (_ & Hm & (sc & Hsc & Hc) & Hr). split.
  - rewrite Hr. cbn. destruct (rs_GetState (rf kv1)).2; [apply plainReply_not_filler|done].
  - exists sc. rewrite <- Ht. split_and!; [done..|]. by eapply opChannelMatch_same.
Qed.
Next Obligation. done. Qed.
Next Obligation. intros [r|] kv kv' H; cbn in H; by injection H as <-. Qed.

#[export] Program Instance kv_reply_total :
  ReplyTotal (KVServer R) Req Op OpKVReplyChannel KVReplyMsg KVReplyMsg (Item * Z) (KvEnv R) := {|
  h_ready := snapshots_succeed;
|}.
Next Obligation. intros req kv _. cbn. destruct (kvPre_shape req kv) as (op & kv1 & _ & ->). eauto. Qed.
Next Obligation.
  intros [it i] kv _ Hs Hit. cbn [h_deliver kv_reply_server h_itemOk kv_reply_laws fst] in *.
  unfold kvDeliver. cbn [fst snd].
  enough (∃ y, handleApplyMessage (item_msg it i) kv = Ok y) as [[kv' s] ->] by (cbn; eauto).
  destruct it as [op| |st o n]; unfold handleApplyMessage;
    cbn [item_msg SnapshotValid CommandValid Snapshot SnapshotTerm SnapshotIndex CommandIndex].
  - destruct (handleCommandApply_ok (item_msg (ICommand op) i) op kv eq_refl Hit Hs)
      as (r & s & H & _). cbn [item_msg] in H. rewrite H. eauto.
  - cbn. eauto.
  - rewrite rs_CondInstallSnapshot_true, installSnapshot_encoded. cbn. eauto.
Qed.
Next Obligation. intros e kv _ _. cbn. eauto. Qed.

(** A server as [StartKVServer] leaves it, whatever the snapshot. *)
Definition kv_initial (me : Z) (r : R) (maxraftstate : Z) (st : State) (total : Z) : KvSys R :=
  mkSys (mkKVServer me r false maxraftstate 0 total st ∅ 0 []) [] None.

Lemma kv_initial_reachable me r maxraftstate st total : reachable (kv_initial me r maxraftstate st total).
Proof. by apply r_initial. Qed.

(** ** The theorems *)

(** C9: a reply reaches the right handler.  When the apply loop hands a reply
    to a waiting handler, the operation it has just applied is the handler's
    own: same key, value, type, client and request; and the reply is what the
    abstract service answers to it, or [ErrWrongLeader]. *)
Theorem reply_is_of_the_request (sys : KvSys R) it i sys1 k sys2 :
  reachable sys → item_ok it →
  exec (Apply (it, i)) sys = Ok sys1 → exec (Send k) sys1 = Ok sys2 →
  ∃ req op sc applied msg,
    handlers sys1 !! k = Some (req, HSelect op sc) ∧
    handlers sys2 !! k = Some (req, HGot op msg) ∧
    it = ICommand applied ∧ same_op op applied ∧ ServerId applied = me (server sys1) ∧
    msg = (let r := plainReply (KeyValueStore (state (server sys))) applied in
           if (rs_GetState (rf (server sys1))).2 then r
           else mkKVReplyMsg ErrWrongLeader (ReplyValue r)).
Proof.
  intros Hr Hit H1 H2.
  destruct (delivered (it, i) sys sys1 k sys2 Hr Hit H1 H2)
    as (req & op & sc & m & s' & Hd & Hk1 & _ & Hsame & _ & _ & Hk2).
  cbn in Hd. unfold kvDeliver in Hd. apply bind_Ok in Hd as ([kv s] & Ha & Hd).
  destruct s as [s|]; [|done]. cbn in Hd. injection Hd as -> <-. cbn in *.
  destruct (handleApplyMessage_sends _ _ _ _ _ Hit Ha) as (_ & _ & Hs).
  destruct (Hs s eq_refl) as (-> & Hm & _ & Hr').
  exists req, op, sc, (sentOp s), (message s). split_and!; [done..| |done].
  unfold opChannelMatch in Hm. destruct (decide (ServerId (sentOp s) ≠ me (server sys1))) as [|Hd]; [done|].
  by apply dec_stable.
Qed.

(** C37: a server does not panic.  In every reachable state in which no
    snapshots are taken or the Raft peer is ready for them (for the peer of this
    repository: its commit index lies inside its log), every step is either
    executed or not enabled, as long as the messages applied carry Gets, Puts
    and Appends, fillers, and snapshots that servers have made: no channel is
    closed twice, the filler error never reaches a handler, no message is
    malformed.  (An operation of another type ends the process, and so does a
    snapshot of entries that the peer does not have.) *)
Theorem server_never_panics (sys : KvSys R) (l : KvLabel R) :
  reachable sys → snapshots_succeed (server sys) → label_ok l →
  (∃ sys', exec l sys = Ok sys') ∨ exec l sys = notEnabled.
Proof. intros Hr Hs Hl. exact (exec_total l sys (server_reachable_inv _ Hr) Hs Hl). Qed.
End kv_server_steps.

(** ** The apply loop can block for ever *)

Definition soloLeader : Raft Op :=
  (freshRaft 1 0 MakePersister (mkEnv 0 0)) <| RaftState.status := Leader |>.

Definition timed_out_get : list (KvLabel (Raft Op)) :=
  [New (RGet (mkGetArgs "k" 7 1)); Handler 0; Handler 0; Handler 0; Timeout 0;
   Apply (ICommand (mkOp 0 0 GET "k" "" 7 1), 1)].

(** C39: the apply loop can block for ever.  A server reaches a state in which
    the apply loop, holding [kv.mu], waits to send on the channel of a
    handler that has timed out and itself waits for [kv.mu]: whatever happens
    from there on, the send never completes and nothing is applied again. *)
Theorem apply_loop_blocks_forever :
  ∃ sys : KvSys (Raft Op), reachable sys ∧ sending sys ≠ None ∧
    ∀ ls sys', run ls sys = Ok sys' →
      sending sys' = sending sys ∧ state (server sys') = state (server sys).
Proof.
  pose (s0 := kv_initial 0 soloLeader (-1) makeState 0).
  destruct (run timed_out_get s0) as [sys| |] eqn:E; [|vm_compute in E; discriminate..].
  assert (reachable sys) as Hr.
  { eapply run_reachable; [apply kv_initial_reachable| |exact E].
    repeat constructor; cbn; unfold valid; by repeat first [left; reflexivity | right]. }
  exists sys. split; [done|].
  assert (blocked sys) as Hb.
  { vm_compute in E. injection E as <-. eexists. split_and!; [reflexivity|cbn; lia|].
    intros [|k] req ph op sc Hk Hwt; cbn in Hk; [|done].
    injection Hk as <- <-. discriminate Hwt. }
  split; [destruct Hb as (? & -> & _); discriminate|].
  intros ls sys' H. eapply (blocked_run state); [..|exact Hb|exact H].
  - intros op kv. cbn. unfold kvStart. by destruct (rs_Start _ _) as [r [[i t] b]].
  - intros [r|] kv kv' _ H'; cbn in H'; by injection H' as <-.
Qed.

(** ** Samples *)

Definition soloStart : KvSys IdlePeer := kv_initial 0 (1, true) (-1) makeState 0.

(** A handler that waits in its [select]. *)
Definition waiting_get : list (KvLabel IdlePeer) :=
  [New (RGet (mkGetArgs "k" 7 1)); Handler 0; Handler 0; Handler 0].

Definition sampleGet : Item := ICommand (mkOp 0 0 GET "k" "" 7 1).

Lemma sampleGet_ok : item_ok sampleGet.
Proof. unfold sampleGet, item_ok, valid. cbn. left. Qed.

Lemma waiting_reachable : reachable (runTo waiting_get soloStart).
Proof. apply runTo_reachable; [apply kv_initial_reachable|]. repeat constructor. Qed.

Lemma reply_is_of_the_request_witness :
  ∃ (req : Req) (op : Op) (sc : OpKVReplyChannel) (applied : Op) (msg : KVReplyMsg),
    handlers (runTo [Apply (sampleGet, 1)] (runTo waiting_get soloStart)) !! 0%nat =
      Some (req, HSelect op sc) ∧
    handlers (runTo [Apply (sampleGet, 1); Send 0] (runTo waiting_get soloStart)) !! 0%nat =
      Some (req, HGot op msg) ∧
    sampleGet = ICommand applied ∧ same_op op applied.
Proof.
  destruct (reply_is_of_the_request (runTo waiting_get soloStart) sampleGet 1
    (runTo [Apply (sampleGet, 1)] (runTo waiting_get soloStart)) 0
    (runTo [Apply (sampleGet, 1); Send 0] (runTo waiting_get soloStart)))
    as (req & op & sc & applied & msg & H1 & H2 & H3 & H4 & _).
  - exact waiting_reachable.
  - exact sampleGet_ok.
  - vm_compute. reflexivity.
  - vm_compute. reflexivity.
  - exists req, op, sc, applied, msg. exact (conj H1 (conj H2 (conj H3 H4))).
Defined.

Lemma server_never_panics_witness :
  (∃ sys', exec (Apply (sampleGet, 1)) (runTo waiting_get soloStart) = Ok sys') ∨
  exec (Apply (sampleGet, 1)) (runTo waiting_get soloStart) = notEnabled.
Proof.
  apply (server_never_panics (runTo waiting_get soloStart) (Apply (sampleGet, 1))).
  - exact waiting_reachable.
  - left. vm_compute. reflexivity.
  - exact sampleGet_ok.
Defined.
