(* ===== verification/KvClerk.v ===== *)
(** * The key/value client (code/src/kvraft/client.go, kvServerGet.go,
    kvServerPutAppend.go: the Clerk's side)

    The network is an oracle: what the [n]-th call of the loop, sent to some
    server with some arguments, returns ([None]: the call failed).  The retry
    loops run with fuel; [Get_returns] and [PutAppend_returns] show that they
    return as soon as a call answers, and with how much fuel. *)

From S2P Require Import Prelude Gob Persister RaftState RaftService KvServer.
Open Scope Z_scope.

Record Clerk := mkClerk {
  servers : Z;
  clerkRandomId : Z;
  requestIndex : Z;
  lastLeaderServer : Z;
}.
#[export] Instance Clerk_eta : Settable Clerk := λ ck,
  mkClerk (servers ck) (clerkRandomId ck) (requestIndex ck) (lastLeaderServer ck).
#[export] Instance set_requestIndex : Setter requestIndex := ltac:(derive_setter).
#[export] Instance set_lastLeaderServer : Setter lastLeaderServer := ltac:(derive_setter).

Ltac clerk_simpl :=
  cbn [setf set_requestIndex set_lastLeaderServer servers clerkRandomId requestIndex
       lastLeaderServer] in *.

(** [nrand] draws the identifier. *)
Definition MakeClerk (nservers rand : Z) : Clerk := mkClerk nservers rand 0 0.

Definition createGetArgs (key : string) (ck : Clerk) : GetArgs :=
  mkGetArgs key (clerkRandomId ck) (requestIndex ck).

Definition createPutAppendArgs (key value : string) (op : OpType) (ck : Clerk) : PutAppendArgs :=
  mkPutAppendArgs key value op (clerkRandomId ck) (requestIndex ck).

Definition nextServer (ck : Clerk) : Clerk :=
  ck <| lastLeaderServer := (lastLeaderServer ck + 1) mod servers ck |>.

(** The body of the loop of [Get], from the [n]-th iteration on; the value it
    returns, or [None] when the fuel is out. *)
Fixpoint getLoop (call : nat → Z → GetArgs → option KVReplyMsg) (fuel n : nat) (key : string)
    (ck : Clerk) : Clerk * option string :=
  match fuel with
  | O => (ck, None)
  | S fuel =>
      match call n (lastLeaderServer ck) (createGetArgs key ck) with
      | None => getLoop call fuel (S n) key (nextServer ck)
      | Some reply =>
          if decide (Error reply = OK) then (ck, Some (ReplyValue reply))
          else if decide (Error reply = ErrNoKey) then (ck, Some "")
          else getLoop call fuel (S n) key (nextServer ck)
      end
  end.

Definition Get (call : nat → Z → GetArgs → option KVReplyMsg) (fuel : nat) (key : string)
    (ck : Clerk) : Clerk * option string :=
  getLoop call fuel 0 key (ck <| requestIndex := requestIndex ck + 1 |>).

Fixpoint putAppendLoop (call : nat → Z → PutAppendArgs → option string) (fuel n : nat)
    (key value : string) (op : OpType) (ck : Clerk) : Clerk * bool :=
  match fuel with
  | O => (ck, false)
  | S fuel =>
      match call n (lastLeaderServer ck) (createPutAppendArgs key value op ck) with
      | None => putAppendLoop call fuel (S n) key value op (nextServer ck)
      | Some err =>
          if decide (err = OK) then (ck, true)
          else putAppendLoop call fuel (S n) key value op (nextServer ck)
      end
  end.

Definition PutAppend (call : nat → Z → PutAppendArgs → option string) (fuel : nat)
    (key value : string) (op : OpType) (ck : Clerk) : Clerk * bool :=
  putAppendLoop call fuel 0 key value op (ck <| requestIndex := requestIndex ck + 1 |>).

Definition Put call fuel key value ck := PutAppend call fuel key value PUT ck.
Definition Append call fuel key value ck := PutAppend call fuel key value APPEND ck.

(** ** Which server the [n]-th call goes to *)

(** A clerk whose target is a server. *)
Definition clerk_ok (ck : Clerk) : Prop := 0 ≤ lastLeaderServer ck < servers ck.

Definition target (ck : Clerk) (n : nat) : Z := (lastLeaderServer ck + Z.of_nat n) mod servers ck.

Lemma nextServer_ok ck : clerk_ok ck → clerk_ok (nextServer ck).
Proof.
  unfold clerk_ok, nextServer. clerk_simpl. intros H.
  pose proof (Z.mod_pos_bound (lastLeaderServer ck + 1) (servers ck)). lia.
Qed.

Lemma target_0 ck : clerk_ok ck → target ck 0 = lastLeaderServer ck.
Proof. unfold clerk_ok, target. intros. rewrite Z.add_0_r. by apply Z.mod_small. Qed.

Lemma target_next ck n : clerk_ok ck → target (nextServer ck) n = target ck (S n).
Proof.
  unfold clerk_ok, target, nextServer. intros. clerk_simpl.
  rewrite Zplus_mod_idemp_l. f_equal. lia.
Qed.

(** Any [servers ck] calls in a row reach every server. *)
Lemma target_covers ck j :
  clerk_ok ck → 0 ≤ j < servers ck →
  ∃ n, (n < Z.to_nat (servers ck))%nat ∧ target ck n = j.
Proof.
  unfold clerk_ok, target. intros Hck Hj.
  exists (Z.to_nat ((j - lastLeaderServer ck) mod servers ck)).
  pose proof (Z.mod_pos_bound (j - lastLeaderServer ck) (servers ck) ltac:(lia)).
  split; [lia|]. rewrite Z2Nat.id by lia. rewrite Zplus_mod_idemp_r.
  replace (lastLeaderServer ck + (j - lastLeaderServer ck)) with j by lia.
  by apply Z.mod_small.
Qed.

(** A reply that ends the loop of [Get]. *)
Definition answers (r : option KVReplyMsg) : option string :=
  match r with
  | Some reply => if decide (Error reply = OK) then Some (ReplyValue reply)
                  else if decide (Error reply = ErrNoKey) then Some "" else None
  | None => None
  end.

Lemma getLoop_step call fuel n key ck :
  getLoop call (S fuel) n key ck =
  match answers (call n (lastLeaderServer ck) (createGetArgs key ck)) with
  | Some v => (ck, Some v)
  | None => getLoop call fuel (S n) key (nextServer ck)
  end.
Proof. cbn. destruct (call _ _ _) as [r|]; cbn; [|done]. by repeat case_decide. Qed.

Lemma getLoop_returns call key v m n fuel ck :
  clerk_ok ck → (m < fuel)%nat →
  (∀ k, (k < m)%nat → answers (call (n + k)%nat (target ck k) (createGetArgs key ck)) = None) →
  answers (call (n + m)%nat (target ck m) (createGetArgs key ck)) = Some v →
  getLoop call fuel n key ck = (ck <| lastLeaderServer := target ck m |>, Some v).
Proof.
  revert n fuel ck. induction m as [|m IH]; intros n [|fuel] ck Hck Hf Hno Hyes; [lia| |lia|];
    rewrite getLoop_step.
  - rewrite Nat.add_0_r, target_0 in Hyes by done. rewrite Hyes, target_0 by done.
    by destruct ck.
  - pose proof (Hno 0%nat ltac:(lia)) as H0. rewrite Nat.add_0_r, target_0 in H0 by done.
    rewrite H0. rewrite (IH (S n) fuel (nextServer ck)).
    + by rewrite target_next.
    + by apply nextServer_ok.
    + lia.
    + intros k Hk. rewrite target_next by done.
      replace (S n + k)%nat with (n + S k)%nat by lia. apply Hno. lia.
    + rewrite target_next by done. by replace (S n + m)%nat with (n + S m)%nat by lia.
Qed.

Lemma putAppendLoop_returns call key value op m n fuel ck :
  clerk_ok ck → (m < fuel)%nat →
  (∀ k, (k < m)%nat →
     call (n + k)%nat (target ck k) (createPutAppendArgs key value op ck) ≠ Some OK) →
  call (n + m)%nat (target ck m) (createPutAppendArgs key value op ck) = Some OK →
  putAppendLoop call fuel n key value op ck = (ck <| lastLeaderServer := target ck m |>, true).
Proof.
  revert n fuel ck. induction m as [|m IH]; intros n [|fuel] ck Hck Hf Hno Hyes; [lia| |lia|];
    cbn [putAppendLoop].
  - rewrite Nat.add_0_r, target_0 in Hyes by done. rewrite Hyes, decide_True, target_0 by done.
    by destruct ck.
  - pose proof (Hno 0%nat ltac:(lia)) as H0. rewrite Nat.add_0_r, target_0 in H0 by done.
    assert (putAppendLoop call fuel (S n) key value op (nextServer ck) =
      (ck <| lastLeaderServer := target ck (S m) |>, true)) as Hrec.
    { rewrite (IH (S n) fuel (nextServer ck)).
      - by rewrite target_next.
      - by apply nextServer_ok.
      - lia.
      - intros k Hk. rewrite target_next by done.
        replace (S n + k)%nat with (n + S k)%nat by lia. apply Hno. lia.
      - rewrite target_next by done. by replace (S n + m)%nat with (n + S m)%nat by lia. }
    destruct (call n _ _) as [e|]; [|done]. case_decide; [congruence|done].
Qed.

(** ** The theorem *)

(** The clerk's retry loops.  With one call that succeeds, Put, Append
    and Get return at the first one, having sent the same request (same
    client, same request number) to the servers in turn from the last known
    leader; they remember the server that answered, and a full turn of the
    loop reaches every server. *)
Theorem clerk_returns (callP : nat → Z → PutAppendArgs → option string)
    (callG : nat → Z → GetArgs → option KVReplyMsg) key value op ck m v fuel :
  clerk_ok ck → (m < fuel)%nat →
  let ck1 := ck <| requestIndex := requestIndex ck + 1 |> in
  (∀ k, (k < m)%nat →
     callP k (target ck k) (createPutAppendArgs key value op ck1) ≠ Some OK ∧
     answers (callG k (target ck k) (createGetArgs key ck1)) = None) →
  callP m (target ck m) (createPutAppendArgs key value op ck1) = Some OK →
  answers (callG m (target ck m) (createGetArgs key ck1)) = Some v →
  PutAppend callP fuel key value op ck = (ck1 <| lastLeaderServer := target ck m |>, true) ∧
  Get callG fuel key ck = (ck1 <| lastLeaderServer := target ck m |>, Some v) ∧
  (∀ j, 0 ≤ j < servers ck → ∃ n, (n < Z.to_nat (servers ck))%nat ∧ target ck n = j).
Proof.
  intros Hck Hf ck1 Hno Hp Hg. split_and!.
  - apply (putAppendLoop_returns callP key value op m 0 fuel ck1); [done..| |done].
    intros k Hk. by apply Hno.
  - apply (getLoop_returns callG key v m 0 fuel ck1); [done..| |done].
    intros k Hk. by apply Hno.
  - intros j Hj. by apply target_covers.
Qed.

(** Three servers, of which only server 2 answers. *)
Lemma clerk_returns_witness :
  PutAppend (λ _ j _, if decide (j = 2) then Some OK else Some ErrWrongLeader) 5 "k" "v" PUT
    (MakeClerk 3 99) = (mkClerk 3 99 1 2, true).
Proof.
  destruct (clerk_returns (λ _ j _, if decide (j = 2) then Some OK else Some ErrWrongLeader)
    (λ _ j _, if decide (j = 2) then Some (mkKVReplyMsg OK "v") else None) "k" "v" PUT
    (MakeClerk 3 99) 2 "v" 5) as [H _].
  - split; vm_compute; [discriminate|reflexivity].
  - lia.
  - intros [|[|k]] Hk; [split; vm_compute; [discriminate|reflexivity]..|lia].
  - reflexivity.
  - reflexivity.
  - exact H.
Defined.
