(* ===== verification/ShardBalance.v ===== *)
(** * Rebalancing is correct

    The proofs about [getMinMaxGroup], [redistributeShards] and
    [assignVoidShards] of [ShardConfig], in terms of [count], the number of
    shards of a group. *)

From S2P Require Import Prelude ShardConfig.
Open Scope Z_scope.

Definition count (g : Z) (shards : list Z) : Z := zlen (filter (λ x, x = g) shards).

Lemma count_nil g : count g [] = 0.
Proof. done. Qed.

Lemma count_cons g x shards :
  count g (x :: shards) = (if decide (x = g) then 1 else 0) + count g shards.
Proof. unfold count. rewrite filter_cons. case_decide; cbn; lia. Qed.

Lemma count_nonneg g shards : 0 ≤ count g shards.
Proof. unfold count. lia. Qed.

Lemma count_le g shards : count g shards ≤ zlen shards.
Proof. unfold count. pose proof (length_filter (λ x, x = g) shards). lia. Qed.

Lemma countShards_lookup shards g : default 0 (countShards shards !! g) = count g shards.
Proof.
  unfold countShards.
  assert (∀ (m : gmap Z Z), default 0
    (foldl (λ counts g, <[g := default 0 (counts !! g) + 1]> counts) m shards !! g) =
    default 0 (m !! g) + count g shards) as H.
  { induction shards as [|x shards IH]; intros m; cbn [foldl].
    - rewrite count_nil. lia.
    - rewrite IH, count_cons. case_decide as E.
      + subst. rewrite lookup_insert_eq. cbn. lia.
      + rewrite lookup_insert_ne by done. lia. }
  rewrite H, lookup_empty. done.
Qed.

(** ** The extreme groups *)

(** [min] and [max] bound the counts of the groups in [gids], and are the
    counts of [minGroup] and [maxGroup]. *)
Definition extremes (c : Z → Z) (gids : list Z) (acc : Z * Z * Z * Z) : Prop :=
  let '(min, minGroup, max, maxGroup) := acc in
  (∀ g, g ∈ gids → min ≤ c g ≤ max) ∧ min ≤ 257 ∧ 0 ≤ max ∧
  (min = 257 ∨ minGroup ∈ gids ∧ c minGroup = min) ∧
  (max = 0 ∨ maxGroup ∈ gids ∧ c maxGroup = max).

Lemma extremes_fold counts (c : Z → Z) gids :
  (∀ g, default 0 (counts !! g) = c g) → (∀ g, 0 ≤ c g < 257) →
  extremes c gids (foldl (minMaxStep counts) (257, 0, 0, 0) gids).
Proof.
  intros Hc Hb. induction gids as [|g gids IH] using rev_ind.
  - cbn. split_and!; try lia. intros g Hg. by apply elem_of_nil in Hg.
  - rewrite foldl_snoc.
    destruct (foldl _ _ gids) as [[[min minGroup] max] maxGroup].
    destruct IH as (Hall & Hmin & Hmax & Hming & Hmaxg).
    unfold minMaxStep. rewrite Hc. specialize (Hb g).
    assert (g ∈ gids ++ [g]) as Hg by (apply elem_of_app; right; by left).
    destruct (decide (c g > max)), (decide (c g < min)); cbn; (split_and!; [|lia..| |]);
      try (intros g' [Hg'%Hall|Hg'%list_elem_of_singleton]%elem_of_app; subst; lia);
      rewrite ?elem_of_app; first [tauto | right; split; [right; by apply list_elem_of_singleton|done]].
Qed.

Lemma getMinMaxGroup_extremes config :
  zlen (Shards config) < 257 →
  extremes (λ g, count g (Shards config)) (getSortedKeys (Groups config)) (getMinMaxGroup config).
Proof.
  intros Hlen. apply extremes_fold; [apply countShards_lookup|].
  intros g. pose proof (count_nonneg g (Shards config)). pose proof (count_le g (Shards config)). lia.
Qed.

(** ** Moving one shard *)

Lemma count_insert g x (k : nat) y shards :
  shards !! k = Some y →
  count g (<[k := x]> shards) =
  count g shards + (if decide (x = g) then 1 else 0) - (if decide (y = g) then 1 else 0).
Proof.
  revert k. induction shards as [|z shards IH]; intros [|k] Hk; try done.
  - injection Hk as ->. change (<[0%nat := x]> (y :: shards)) with (x :: shards).
    rewrite !count_cons. lia.
  - cbn in Hk. change (<[S k := x]> (z :: shards)) with (z :: <[k := x]> shards). rewrite !count_cons, (IH k) by done. lia.
Qed.

Lemma moveOne_spec a b shards :
  0 < count a shards →
  ∃ k, shards !! k = Some a ∧ moveOne a b shards = <[k := b]> shards.
Proof.
  intros Hc. unfold moveOne. destruct (list_find (λ g, g = a) shards) as [[k y]|] eqn:E.
  - apply list_find_Some in E as (Hk & -> & _). eauto.
  - apply list_find_None in E. exfalso. revert Hc. unfold count.
    destruct (filter (λ x, x = a) shards) as [|x l] eqn:Ef; [cbn; lia|]. intros _.
    assert (x ∈ filter (λ x, x = a) shards) as [Hx Hin]%list_elem_of_filter by (rewrite Ef; left).
    rewrite Forall_forall in E. by eapply E.
Qed.

(** ** Termination *)

(** The sum of the squared counts over the groups. *)
Definition spread (gids : list Z) (shards : list Z) : Z :=
  foldr (λ g s, count g shards * count g shards + s) 0 gids.

Lemma spread_nonneg gids shards : 0 ≤ spread gids shards.
Proof. unfold spread. induction gids as [|g gids IH]; cbn; [done|]. nia. Qed.

(** Changing the counts of [a] and [b] only. *)
Lemma spread_change gids shards shards' a b :
  NoDup gids → a ≠ b →
  (∀ g, count g shards' = count g shards + (if decide (b = g) then 1 else 0)
                          - (if decide (a = g) then 1 else 0)) →
  spread gids shards' = spread gids shards
    + (if decide (b ∈ gids) then 2 * count b shards + 1 else 0)
    - (if decide (a ∈ gids) then 2 * count a shards - 1 else 0).
Proof.
  intros Hnd Hab Hc. induction Hnd as [|g gids Hg Hnd IH].
  - unfold spread. cbn. rewrite !decide_False by (by intros ?%elem_of_nil). lia.
  - cbn [spread foldr]. fold (spread gids shards') (spread gids shards).
    rewrite IH, Hc. clear IH.
    destruct (decide (b = g)) as [->|Hb], (decide (a = g)) as [->|Ha]; try done.
    + rewrite (decide_False (P := g ∈ gids)) by done.
      rewrite (decide_True (P := g ∈ g :: gids)) by left.
      rewrite (decide_ext (a ∈ g :: gids) (a ∈ gids)) by set_solver. nia.
    + rewrite (decide_False (P := g ∈ gids)) by done.
      rewrite (decide_True (P := g ∈ g :: gids)) by left.
      rewrite (decide_ext (b ∈ g :: gids) (b ∈ gids)) by set_solver. nia.
    + rewrite (decide_ext (a ∈ g :: gids) (a ∈ gids)) by set_solver.
      rewrite (decide_ext (b ∈ g :: gids) (b ∈ gids)) by set_solver. nia.
Qed.

Lemma spread_bound gids shards :
  NoDup gids → spread gids shards ≤ zlen shards * zlen shards.
Proof.
  intros Hnd.
  assert (foldr (λ g s, count g shards + s) 0 gids ≤ zlen shards) as Hsum.
  { induction shards as [|x shards IH].
    - clear Hnd. induction gids as [|g gids IH]; cbn; [done|]. rewrite count_nil. cbn in IH. lia.
    - assert (foldr (λ g s, count g (x :: shards) + s) 0 gids =
        (if decide (x ∈ gids) then 1 else 0) + foldr (λ g s, count g shards + s) 0 gids) as ->.
      { clear IH. induction Hnd as [|g gids Hg Hnd IH]; [done|]. cbn [foldr]. rewrite IH, count_cons.
        destruct (decide (x = g)) as [->|Hx].
        - rewrite decide_False, decide_True by (done || left). lia.
        - rewrite (decide_ext (x ∈ g :: gids) (x ∈ gids)) by set_solver. lia. }
      cbn [length]. case_decide; lia. }
  assert (spread gids shards ≤
    foldr (λ g s, count g shards + s) 0 gids * zlen shards) as Hsq.
  { clear Hsum Hnd. unfold spread. induction gids as [|g gids IH]; cbn; [lia|].
    pose proof (count_le g shards). pose proof (count_nonneg g shards). nia. }
  nia.
Qed.

(** ** The rebalanced configuration *)

(** Two groups differ by at most one shard. *)
Definition balanced (config : Config) : Prop :=
  ∀ g1 g2, is_Some (Groups config !! g1) → is_Some (Groups config !! g2) →
    count g1 (Shards config) ≤ count g2 (Shards config) + 1.

(** A round of [redistributeShards] moves a shard between two groups of the
    configuration, and lowers the spread by two or more. *)
Lemma round_spec config min minGroup max maxGroup :
  zlen (Shards config) < 257 →
  getMinMaxGroup config = (min, minGroup, max, maxGroup) → max - min > 1 →
  ∃ k, Shards config !! k = Some maxGroup ∧
    moveOne maxGroup minGroup (Shards config) = <[k := minGroup]> (Shards config) ∧
    is_Some (Groups config !! minGroup) ∧ is_Some (Groups config !! maxGroup) ∧
    spread (getSortedKeys (Groups config)) (<[k := minGroup]> (Shards config)) + 2 ≤
    spread (getSortedKeys (Groups config)) (Shards config).
Proof.
  intros Hlen E Hgo. pose proof (getMinMaxGroup_extremes config Hlen) as Hext. rewrite E in Hext.
  destruct Hext as (Hall & Hmin & Hmax & Hming & Hmaxg).
  pose proof (count_nonneg minGroup (Shards config)).
  pose proof (count_le maxGroup (Shards config)).
  destruct Hmaxg as [?|[Hmaxin Hmaxc]]; [lia|]. pose proof (Hall _ Hmaxin).
  destruct Hming as [?|[Hminin Hminc]]; [lia|].
  destruct (moveOne_spec maxGroup minGroup (Shards config)) as (k & Hk & Hmove); [lia|].
  exists k. split_and!; [done..|by apply elem_of_getSortedKeys|by apply elem_of_getSortedKeys|].
  rewrite (spread_change _ (Shards config) _ maxGroup minGroup).
  - rewrite !decide_True by done. lia.
  - apply getSortedKeys_NoDup.
  - intros ->. lia.
  - intros g. by apply count_insert.
Qed.

Lemma stop_balanced config min minGroup max maxGroup :
  zlen (Shards config) < 257 →
  getMinMaxGroup config = (min, minGroup, max, maxGroup) → ¬ max - min > 1 → balanced config.
Proof.
  intros Hlen E Hstop. pose proof (getMinMaxGroup_extremes config Hlen) as Hext. rewrite E in Hext.
  destruct Hext as (Hall & _).
  intros g1 g2 H1%elem_of_getSortedKeys H2%elem_of_getSortedKeys.
  pose proof (Hall _ H1). pose proof (Hall _ H2). lia.
Qed.

(** Only the owners of shards change, and to groups of the configuration. *)
Record reassigned (config config' : Config) : Prop := mkReassigned {
  re_num : Num config' = Num config;
  re_groups : Groups config' = Groups config;
  re_length : length (Shards config') = length (Shards config);
  re_owner : ∀ (k : nat) g, Shards config' !! k = Some g →
    Shards config !! k = Some g ∨ is_Some (Groups config !! g);
  re_orphan : ∀ (k : nat) g, Shards config !! k = Some g → 0 < g → Groups config !! g = None →
    Shards config' !! k = Some g;
}.

Lemma reassigned_refl config : reassigned config config.
Proof. split; auto. Qed.

Lemma reassigned_trans c1 c2 c3 : reassigned c1 c2 → reassigned c2 c3 → reassigned c1 c3.
Proof.
  intros [E1 E2 E3 E4 E5] [F1 F2 F3 F4 F5]. split; [congruence..| |].
  - intros k g [Hk|Hg]%F4; [by apply E4|]. right. by rewrite <- E2.
  - intros k g Hk Hg Hn. apply F5; [by apply E5|done|]. by rewrite E2.
Qed.

Lemma redistribute_ok fuel config :
  zlen (Shards config) < 257 →
  spread (getSortedKeys (Groups config)) (Shards config) < 2 * Z.of_nat fuel + 2 →
  ∃ config', redistribute fuel config = Ok config' ∧ reassigned config config' ∧ balanced config'.
Proof.
  revert config. induction fuel as [|fuel IH]; intros config Hlen Hf; cbn [redistribute];
    destruct (getMinMaxGroup config) as [[[min minGroup] max] maxGroup] eqn:E;
    (destruct (decide (max - min > 1)) as [Hgo|Hstop];
      [destruct (round_spec config _ _ _ _ Hlen E Hgo) as (k & Hk & Hmove & Hin & Hmax & Hs)
      |exists config; split_and!; [done|apply reassigned_refl|by eapply stop_balanced]]).
  - pose proof (spread_nonneg (getSortedKeys (Groups config)) (<[k:=minGroup]> (Shards config))). lia.
  - rewrite Hmove. set (c1 := config <| Shards := <[k := minGroup]> (Shards config) |>).
    destruct (IH c1) as (config' & H & Hre & Hb).
    + unfold c1. config_simpl. by rewrite length_insert.
    + unfold c1. config_simpl. lia.
    + exists config'. split_and!; [done| |done]. eapply reassigned_trans; [|exact Hre].
      split; unfold c1; config_simpl; [done|done|apply length_insert|..].
      * intros j g [(_ & <- & _)|[_ Hj]]%list_lookup_insert_Some; [by right|by left].
      * intros j g Hj Hg Hn. rewrite list_lookup_insert_ne; [done|]. intros ->.
        rewrite Hk in Hj. injection Hj as <-. destruct Hmax as [? Hmax]. congruence.
Qed.

Lemma redistributeShards_ok config :
  length (Shards config) = NShards →
  ∃ config', redistributeShards config = Ok config' ∧ reassigned config config' ∧ balanced config'.
Proof.
  intros Hlen. apply redistribute_ok; [by rewrite Hlen|].
  pose proof (spread_bound (getSortedKeys (Groups config)) (Shards config) (getSortedKeys_NoDup _)).
  rewrite Hlen in *. change (Z.of_nat NShards) with 10 in *.
  change (Z.of_nat redistributeFuel) with 100. lia.
Qed.

(** ** Shards without a group *)

Lemma fillVoid_spec keys i shards :
  keys ≠ [] → (i < length keys)%nat →
  length (fillVoid keys i shards) = length shards ∧
  ∀ (k : nat) g, fillVoid keys i shards !! k = Some g →
    (shards !! k = Some g ∧ 0 < g) ∨ ∃ v, shards !! k = Some v ∧ v ≤ 0 ∧ g ∈ keys.
Proof.
  intros Hne. revert i. induction shards as [|v shards IH]; intros i Hi; cbn; [done|].
  assert ((i + 1) mod length keys < length keys)%nat as Hi'
    by (apply Nat.mod_upper_bound; destruct keys; cbn; [done|lia]).
  case_decide as Hv; cbn [length]; [destruct (IH _ Hi') as [Hl Hk]|destruct (IH _ Hi) as [Hl Hk]];
    (split; [by rewrite Hl|]); intros [|k] g; cbn; try apply Hk; intros [= <-].
  - right. exists v. split_and!; [done..|].
    destruct (lookup_lt_is_Some_2 keys i Hi) as [x Hx]. rewrite Hx. cbn.
    by eapply list_elem_of_lookup_2.
  - left. split; [done|lia].
Qed.

Lemma fillVoid_keeps keys i shards (k : nat) g :
  shards !! k = Some g → 0 < g → fillVoid keys i shards !! k = Some g.
Proof.
  revert i k. induction shards as [|v shards IH]; intros i [|k] Hk Hg; try done; cbn.
  - injection Hk as ->. by rewrite decide_False by lia.
  - case_decide; cbn; by apply IH.
Qed.

Lemma assignVoidShards_ok config :
  reassigned config (assignVoidShards config) ∧
  (Groups config ≠ ∅ → ∀ g, g ∈ Shards (assignVoidShards config) →
     (g ∈ Shards config ∧ 0 < g) ∨ is_Some (Groups config !! g)) ∧
  (Groups config = ∅ → assignVoidShards config = config).
Proof.
  unfold assignVoidShards. destruct (getSortedKeys (Groups config)) as [|x keys] eqn:Ek.
  - assert (Groups config = ∅) as Hemp.
    { apply map_empty. intros g. destruct (Groups config !! g) eqn:Eg; [|done].
      assert (g ∈ getSortedKeys (Groups config)) as Hin by (apply elem_of_getSortedKeys; eauto).
      rewrite Ek in Hin. by apply elem_of_nil in Hin. }
    split_and!; [apply reassigned_refl|done|done].
  - destruct (fillVoid_spec (x :: keys) 0 (Shards config)) as [Hl Hk]; [done|cbn; lia|].
    rewrite <- Ek in *. split_and!.
    + split; config_simpl; [done|done|done|..].
      * intros k g Hg. apply Hk in Hg as [[? _]|(v & _ & _ & Hg)]; [by left|right].
        by apply elem_of_getSortedKeys.
      * intros k g Hg Hpos _. by apply fillVoid_keeps.
    + intros _ g (k & Hg)%list_elem_of_lookup. config_simpl.
      apply Hk in Hg as [[Hg ?]|(v & _ & _ & Hg)].
      * left. split; [by eapply list_elem_of_lookup_2|done].
      * right. by apply elem_of_getSortedKeys.
    + intros Hemp. exfalso. assert (x ∈ getSortedKeys (Groups config)) as Hx by (rewrite Ek; left).
      apply elem_of_getSortedKeys in Hx as [v Hx]. by rewrite Hemp, lookup_empty in Hx.
Qed.
