(* ===== verification/ShardCtrler.v ===== *)
(** * The shard controller (code/src/shardctrler)

    server.go, applyTicker.go, snapshot.go, the channel functions of util.go,
    the handlers and the clerk of join.go, leave.go, move.go and query.go.
    The controller is a replicated state machine over a [RaftService] whose
    state is the list of all configurations so far.  Channels are modelled as
    in [KvServer].
    [ShardCtrlerSystem] runs handlers and the apply loop together. *)

From S2P Require Import Prelude Gob Persister RaftState RaftService ShardConfig.
Open Scope Z_scope.

(** ** common.go *)

Definition JOIN : string := "JOIN".
Definition LEAVE : string := "LEAVE".
Definition MOVE : string := "MOVE".
Definition QUERY : string := "QUERY".

Definition OK : string := "OK".
Definition ErrNoKey : string := "ErrNoKey".
Definition ErrWrongLeader : string := "ErrWrongLeader".
Definition ErrOther : string := "ErrOther".
Definition ErrTimeout : string := "ErrTimeout".
Definition ErrFiller : string := "ErrFiller".

Record Op := mkOp {
  ServerId : Z;
  OpIndex : Z;
  OpKind : string;
  Servers : gmap Z (list string);
  GIDs : list Z;
  Shard : Z;
  GID : Z;
  OpNum : Z;
  ClientId : Z;
  RequestIndex : Z;
}.

Record ReplyMsg := mkReplyMsg { Error : string; Value : string; ReturnConfig : Config }.

Record OpKVReplyChannel := mkOpKVReplyChannel { Operation : Op; ReplyChannel : nat }.

Record State := mkState { Configs : list Config; ClientLastRequest : gmap Z Z }.
#[export] Instance State_eta : Settable State := λ s, mkState (Configs s) (ClientLastRequest s).
#[export] Instance set_Configs : Setter Configs := ltac:(derive_setter).
#[export] Instance set_ClientLastRequest : Setter ClientLastRequest := ltac:(derive_setter).
#[export] Instance State_eq_dec : EqDecision State.
Proof. solve_decision. Defined.
#[export] Instance State_countable : Countable State.
Proof.
  refine (inj_countable' (λ s, (Configs s, ClientLastRequest s)) (λ p, mkState p.1 p.2) _).
  by intros [].
Defined.

Definition makeState : State := mkState [zeroConfig] ∅.

Record ShardCtrler (R : Type) := mkShardCtrler {
  me : Z;
  rf : R;
  state : State;
  startChannels : gmap Z (gmap Z OpKVReplyChannel);
  channels : list bool;
}.
Arguments mkShardCtrler {R}.
Arguments me {R}.
Arguments rf {R}.
Arguments state {R}.
Arguments startChannels {R}.
Arguments channels {R}.
#[export] Instance ShardCtrler_eta {R} : Settable (ShardCtrler R) :=
  λ sc, mkShardCtrler (me sc) (rf sc) (state sc) (startChannels sc) (channels sc).
#[export] Instance set_sc_rf {R} : Setter (@rf R) := ltac:(derive_setter).
#[export] Instance set_sc_state {R} : Setter (@state R) := ltac:(derive_setter).
#[export] Instance set_sc_startChannels {R} : Setter (@startChannels R) := ltac:(derive_setter).
#[export] Instance set_sc_channels {R} : Setter (@channels R) := ltac:(derive_setter).

Ltac sc_simpl :=
  cbn [setf set_Configs set_ClientLastRequest set_sc_rf set_sc_state set_sc_startChannels
       set_sc_channels Configs ClientLastRequest me rf state startChannels channels
       set_Num set_Shards set_Groups Num Shards Groups fst snd] in *.

(** ** The replicated state machine (util.go, applyTicker.go) *)

Definition isDuplicateOp (op : Op) (st : State) : bool :=
  match ClientLastRequest st !! ClientId op with
  | Some lastRequestIndex =>
      if decide (RequestIndex op ≤ lastRequestIndex) then true else false
  | None => false
  end.

Definition getLatestConfig (st : State) : Res Config :=
  go_index (Configs st) (zlen (Configs st) - 1).

Definition getValue (op : Op) (st : State) : Res Config :=
  if decide (OpKind op ≠ QUERY) then Fatal "In geValue(), op type not QUERY"
  else if decide (OpNum op < 0 ∨ OpNum op >= zlen (Configs st)) then getLatestConfig st
  else go_index (Configs st) (OpNum op).

Definition makeNextConfig (st : State) : Res Config :=
  latest ← getLatestConfig st;
  let nextConfig := makeShallowCopyConfig latest in
  Ok (nextConfig <| Num := Num nextConfig + 1 |>).

(** [assignVoidShards], then [redistributeShards] for two groups or more. *)
Definition rebalance (config : Config) : Res Config :=
  let newConfig := assignVoidShards config in
  if decide (1 < size (Groups newConfig))%nat then redistributeShards newConfig
  else Ok newConfig.

Definition addConfig (c : Config) (st : State) : State := st <| Configs := Configs st ++ [c] |>.

Definition handleJoin (servers : gmap Z (list string)) (st : State) : Res State :=
  newConfig ← makeNextConfig st;
  newConfig ← rebalance
    (newConfig <| Groups := addGroups (map_to_list servers) (Groups newConfig) |>);
  Ok (addConfig newConfig st).

Definition handleLeave (gids : list Z) (st : State) : Res State :=
  newConfig ← makeNextConfig st;
  newConfig ← rebalance
    (newConfig <| Groups := removeGroups gids (Groups newConfig) |>
               <| Shards := (λ gid, if contains gids gid then 0 else gid) <$> Shards newConfig |>);
  Ok (addConfig newConfig st).

Definition handleMove (shard gid : Z) (st : State) : Res State :=
  newConfig ← makeNextConfig st;
  shards ← go_store (Shards newConfig) shard gid;
  Ok (addConfig (newConfig <| Shards := shards |>) st).

(** The effect of an operation on the state, and the answer to it. *)
Definition applyOp (op : Op) (st : State) : Res (State * ReplyMsg) :=
  if isDuplicateOp op st then
    if decide (OpKind op = QUERY) then
      c ← getValue op st; Ok (st, mkReplyMsg OK "" c)
    else Ok (st, mkReplyMsg OK "" zeroConfig)
  else
    let st := st <| ClientLastRequest := <[ClientId op := RequestIndex op]> (ClientLastRequest st) |> in
    if decide (OpKind op = QUERY) then
      c ← getValue op st; Ok (st, mkReplyMsg OK "" c)
    else if decide (OpKind op = JOIN) then
      st ← handleJoin (Servers op) st; Ok (st, mkReplyMsg OK "" zeroConfig)
    else if decide (OpKind op = LEAVE) then
      st ← handleLeave (GIDs op) st; Ok (st, mkReplyMsg OK "" zeroConfig)
    else if decide (OpKind op = MOVE) then
      st ← handleMove (Shard op) (GID op) st; Ok (st, mkReplyMsg OK "" zeroConfig)
    else Fatal "In handleCommandApply(), op.Type not in [JOIN, LEAVE, MOVE, QUERY]".

Section shard_ctrler.
Context {R : Type} `{!RaftService R Op} `{!LabGob State}.
Implicit Types sc : ShardCtrler R.

Definition asOp (c : Iface Op) : Res Op :=
  match c with ICmd op => Ok op | _ => Panic "interface conversion" end.

Definition Kill (sc : ShardCtrler R) : ShardCtrler R := sc <| rf := rs_Kill (rf sc) |>.

(** ** Channels (util.go) *)

Definition createStartCh (op : Op) (sc : ShardCtrler R) : ShardCtrler R * OpKVReplyChannel :=
  let chans := default ∅ (startChannels sc !! ClientId op) in
  let opChannel := mkOpKVReplyChannel op (length (channels sc)) in
  (sc <| startChannels :=
           <[ClientId op := <[RequestIndex op := opChannel]> chans]> (startChannels sc) |>
      <| channels := channels sc ++ [false] |>, opChannel).

Definition getStartCh (op : Op) (sc : ShardCtrler R) : option OpKVReplyChannel :=
  clientMap ← startChannels sc !! ClientId op;
  clientMap !! RequestIndex op.

Definition close (ch : nat) (sc : ShardCtrler R) : Res (ShardCtrler R) :=
  match channels sc !! ch with
  | Some false => Ok (sc <| channels := <[ch := true]> (channels sc) |>)
  | _ => Panic "close of closed channel"
  end.

Definition deleteStartCh (op : Op) (sc : ShardCtrler R) : Res (ShardCtrler R) :=
  match startChannels sc !! ClientId op with
  | None => Ok sc
  | Some clientMap =>
      match clientMap !! RequestIndex op with
      | None => Ok sc
      | Some startCh =>
          sc ← close (ReplyChannel startCh) sc;
          Ok (sc <| startChannels :=
                <[ClientId op := delete (RequestIndex op) clientMap]> (startChannels sc) |>)
      end
  end.

(** [Servers] and [GIDs] are not compared. *)
Definition opChannelMatch (op : Op) (sc : ShardCtrler R) : bool :=
  if decide (ServerId op ≠ me sc) then false
  else match getStartCh op sc with
       | None => false
       | Some startCh =>
           let originalOp := Operation startCh in
           if decide (ServerId originalOp ≠ ServerId op ∨ OpIndex originalOp ≠ OpIndex op ∨
                      OpKind originalOp ≠ OpKind op ∨ Shard originalOp ≠ Shard op ∨
                      GID originalOp ≠ GID op ∨ OpNum originalOp ≠ OpNum op ∨
                      ClientId originalOp ≠ ClientId op ∨
                      RequestIndex originalOp ≠ RequestIndex op)
           then false else true
       end.

(** ** Snapshots (snapshot.go) *)

Definition makeSnapshot (sc : ShardCtrler R) : bytes := gob_encode (state sc).

Definition readSnapshot (data : bytes) : Res State :=
  match gob_decode data with
  | None => Fatal "read persist error"
  | Some newState => Ok newState
  end.

Definition installSnapshot (data : bytes) (sc : ShardCtrler R) : Res (ShardCtrler R) :=
  match data with
  | [] => Ok sc
  | _ => st ← readSnapshot data; Ok (sc <| state := st |>)
  end.

(** ** Applying (applyTicker.go) *)

Record Sending := mkSending { toChannel : nat; message : ReplyMsg; sentOp : Op }.

Definition signalStartCh (op : Op) (replyMsg : ReplyMsg) (sc : ShardCtrler R) : option Sending :=
  match getStartCh op sc with
  | None => None
  | Some startCh => Some (mkSending (ReplyChannel startCh) replyMsg op)
  end.

(** A snapshot is taken after every command. *)
Definition handleCommandApply (m : ApplyMsg Op) (sc : ShardCtrler R)
    : Res (ShardCtrler R * option Sending) :=
  op ← asOp (Command m);
  '(st, replyMsg) ← applyOp op (state sc);
  let sc := sc <| state := st |> in
  rf' ← rs_Snapshot (CommandIndex m) (makeSnapshot sc) (rf sc);
  let sc := sc <| rf := rf' |> in
  let replyMsg := if (rs_GetState (rf sc)).2 then replyMsg
                  else mkReplyMsg ErrWrongLeader (Value replyMsg) (ReturnConfig replyMsg) in
  Ok (sc, if opChannelMatch op sc then signalStartCh op replyMsg sc else None).

(** The installation of a snapshot is commented out. *)
Definition handleApplyMessage (m : ApplyMsg Op) (sc : ShardCtrler R)
    : Res (ShardCtrler R * option Sending) :=
  if SnapshotValid m then
    if rs_CondInstallSnapshot (SnapshotTerm m) (SnapshotIndex m) (Snapshot m) (rf sc)
    then Ok (sc, None) else Ok (sc, None)
  else if CommandValid m then handleCommandApply m sc
  else if decide (CommandIndex m ≠ 0)
  then Panic "not snapshot, not command, and index not 0"
  else Ok (sc, None).

(** ** The handlers (join.go, leave.go, move.go, query.go) *)

Record JoinArgs := mkJoinArgs {
  J_Servers : gmap Z (list string); J_ClientId : Z; J_RequestIndex : Z }.
Record LeaveArgs := mkLeaveArgs { L_GIDs : list Z; L_ClientId : Z; L_RequestIndex : Z }.
Record MoveArgs := mkMoveArgs { M_Shard : Z; M_GID : Z; M_ClientId : Z; M_RequestIndex : Z }.
Record QueryArgs := mkQueryArgs { Q_Num : Z; Q_ClientId : Z; Q_RequestIndex : Z }.

(** The replies of the four RPCs; only Query fills the configuration in. *)
Record CtrlReply := mkCtrlReply { WrongLeader : bool; Err : string; RConfig : Config }.

Definition creatJoinOp (args : JoinArgs) (sc : ShardCtrler R) : Op :=
  mkOp (me sc) 0 JOIN (J_Servers args) [] 0 0 0 (J_ClientId args) (J_RequestIndex args).
Definition creatLeaveOp (args : LeaveArgs) (sc : ShardCtrler R) : Op :=
  mkOp (me sc) 0 LEAVE ∅ (L_GIDs args) 0 0 0 (L_ClientId args) (L_RequestIndex args).
Definition creatMoveOp (args : MoveArgs) (sc : ShardCtrler R) : Op :=
  mkOp (me sc) 0 MOVE ∅ [] (M_Shard args) (M_GID args) 0 (M_ClientId args) (M_RequestIndex args).
Definition createQueryOp (args : QueryArgs) (sc : ShardCtrler R) : Op :=
  mkOp (me sc) 0 QUERY ∅ [] 0 0 (Q_Num args) (Q_ClientId args) (Q_RequestIndex args).

Definition preJoinStart (args : JoinArgs) (sc : ShardCtrler R)
    : ShardCtrler R * Op * OpKVReplyChannel :=
  let op := creatJoinOp args sc in
  let '(sc, startCh) := createStartCh op sc in (sc, op, startCh).
Definition preLeaveStart (args : LeaveArgs) (sc : ShardCtrler R)
    : ShardCtrler R * Op * OpKVReplyChannel :=
  let op := creatLeaveOp args sc in
  let '(sc, startCh) := createStartCh op sc in (sc, op, startCh).
Definition preMoveStart (args : MoveArgs) (sc : ShardCtrler R)
    : ShardCtrler R * Op * OpKVReplyChannel :=
  let op := creatMoveOp args sc in
  let '(sc, startCh) := createStartCh op sc in (sc, op, startCh).
Definition preQueryStart (args : QueryArgs) (sc : ShardCtrler R)
    : ShardCtrler R * Op * OpKVReplyChannel :=
  let op := createQueryOp args sc in
  let '(sc, startCh) := createStartCh op sc in (sc, op, startCh).

(** The common body of [handleJoinResult], [handleLeaveResult] and
    [handleMoveResult]. *)
Definition handleResult (op : Op) (responseMsg : ReplyMsg) (sc : ShardCtrler R)
    : Res (ShardCtrler R * CtrlReply) :=
  sc ← deleteStartCh op sc;
  if decide (Error responseMsg = ErrFiller)
  then Fatal "response error is ErrFiller, which should not be"
  else Ok (sc, mkCtrlReply (negb (bool_decide (Error responseMsg = OK))) (Error responseMsg) zeroConfig).

Definition handleJoinResult (op : Op) (msg : ReplyMsg) (sc : ShardCtrler R) := handleResult op msg sc.
Definition handleLeaveResult (op : Op) (msg : ReplyMsg) (sc : ShardCtrler R) := handleResult op msg sc.
Definition handleMoveResult (op : Op) (msg : ReplyMsg) (sc : ShardCtrler R) := handleResult op msg sc.
Definition handleQueryResult (op : Op) (msg : ReplyMsg) (sc : ShardCtrler R)
    : Res (ShardCtrler R * CtrlReply) :=
  '(sc, reply) ← handleResult op msg sc;
  Ok (sc, mkCtrlReply (WrongLeader reply) (Err reply) (ReturnConfig msg)).

Definition timeout (op : Op) (sc : ShardCtrler R) : Res (ShardCtrler R * CtrlReply) :=
  sc ← deleteStartCh op sc; Ok (sc, mkCtrlReply true ErrTimeout zeroConfig).

Definition joinTimeout (op : Op) (sc : ShardCtrler R) := timeout op sc.
Definition leaveTimeout (op : Op) (sc : ShardCtrler R) := timeout op sc.
Definition moveTimeout (op : Op) (sc : ShardCtrler R) := timeout op sc.
Definition queryTimeout (op : Op) (sc : ShardCtrler R) := timeout op sc.

(** The handlers, up to the [select] on the channel, run without interruption
    (the lock is free between the checks, [pre...Start] and [Start]): a reply,
    or the operation to wait for.  The [...End] are the two cases of the
    [select]: a message, or the time-out. *)
Definition serverStart (pre : ShardCtrler R → ShardCtrler R * Op * OpKVReplyChannel)
    (sc : ShardCtrler R) : Res (ShardCtrler R * (CtrlReply + Op * OpKVReplyChannel)) :=
  let wrongLeader := mkCtrlReply true ErrWrongLeader zeroConfig in
  if negb (rs_GetState (rf sc)).2 then Ok (sc, inl wrongLeader)
  else
    let '(sc, op, startCh) := pre sc in
    let '(rf', (_, _, isLeader)) := rs_Start (ICmd op) (rf sc) in
    let sc := sc <| rf := rf' |> in
    if negb isLeader then sc ← deleteStartCh op sc; Ok (sc, inl wrongLeader)
    else Ok (sc, inr (op, startCh)).

Definition serverJoin (args : JoinArgs) (sc : ShardCtrler R) := serverStart (preJoinStart args) sc.
Definition serverLeave (args : LeaveArgs) (sc : ShardCtrler R) := serverStart (preLeaveStart args) sc.
Definition serverMove (args : MoveArgs) (sc : ShardCtrler R) := serverStart (preMoveStart args) sc.
Definition serverQuery (args : QueryArgs) (sc : ShardCtrler R) := serverStart (preQueryStart args) sc.

Definition serverJoinEnd (op : Op) (response : option ReplyMsg) (sc : ShardCtrler R) :=
  match response with Some msg => handleJoinResult op msg sc | None => joinTimeout op sc end.
Definition serverLeaveEnd (op : Op) (response : option ReplyMsg) (sc : ShardCtrler R) :=
  match response with Some msg => handleLeaveResult op msg sc | None => leaveTimeout op sc end.
Definition serverMoveEnd (op : Op) (response : option ReplyMsg) (sc : ShardCtrler R) :=
  match response with Some msg => handleMoveResult op msg sc | None => moveTimeout op sc end.
Definition serverQueryEnd (op : Op) (response : option ReplyMsg) (sc : ShardCtrler R) :=
  match response with Some msg => handleQueryResult op msg sc | None => queryTimeout op sc end.

(** ** Start (server.go) *)

Definition StartServer (me : Z) (rf : R) (snapshot : bytes) : Res (ShardCtrler R) :=
  installSnapshot snapshot (mkShardCtrler me rf makeState ∅ []).
End shard_ctrler.

(** ** The clerk (client.go, and the client side of the four files)

    The network is an oracle: what the call of a round to a server returns
    ([None]: the call failed). *)

Record Clerk := mkClerk { servers : nat; clerkRandomId : Z; requestIndex : Z; lastLeaderServer : Z }.

Definition MakeClerk (nservers : nat) (rand : Z) : Clerk := mkClerk nservers rand 0 0.

Definition nextRequest (ck : Clerk) : Clerk :=
  mkClerk (servers ck) (clerkRandomId ck) (requestIndex ck + 1) (lastLeaderServer ck).

(** One round: [for i, srv := range ck.servers]. *)
Fixpoint tryServers (call : nat → option CtrlReply) (is_ : list nat) : Res (option CtrlReply) :=
  match is_ with
  | [] => Ok None
  | i :: is_ =>
      match call i with
      | Some reply =>
          if WrongLeader reply then tryServers call is_
          else if decide (Err reply ≠ OK)
          then Fatal "In client request side, wrong leader is true but err is not wrong leader bug."
          else Ok (Some reply)
      | None => tryServers call is_
      end
  end.

(** The [for] loop around it, one unit of fuel per round; [None]: the fuel is
    out. *)
Fixpoint callLoop (call : nat → nat → option CtrlReply) (fuel round nservers : nat)
    : Res (option CtrlReply) :=
  match fuel with
  | O => Ok None
  | S fuel =>
      r ← tryServers (call round) (seq 0 nservers);
      match r with
      | Some reply => Ok (Some reply)
      | None => callLoop call fuel (S round) nservers
      end
  end.

Section clerk.
(** What a call with the given arguments returns. *)
Context (callJoin : JoinArgs → nat → nat → option CtrlReply)
  (callLeave : LeaveArgs → nat → nat → option CtrlReply)
  (callMove : MoveArgs → nat → nat → option CtrlReply)
  (callQuery : QueryArgs → nat → nat → option CtrlReply).

Definition Join (fuel : nat) (groups : gmap Z (list string)) (ck : Clerk)
    : Clerk * Res (option CtrlReply) :=
  let args := mkJoinArgs groups (clerkRandomId ck) (requestIndex ck) in
  (nextRequest ck, callLoop (callJoin args) fuel 0 (servers ck)).

Definition Leave (fuel : nat) (gids : list Z) (ck : Clerk) : Clerk * Res (option CtrlReply) :=
  let args := mkLeaveArgs gids (clerkRandomId ck) (requestIndex ck) in
  (nextRequest ck, callLoop (callLeave args) fuel 0 (servers ck)).

Definition Move (fuel : nat) (shard gid : Z) (ck : Clerk) : Clerk * Res (option CtrlReply) :=
  let args := mkMoveArgs shard gid (clerkRandomId ck) (requestIndex ck) in
  (nextRequest ck, callLoop (callMove args) fuel 0 (servers ck)).

Definition Query (fuel : nat) (num : Z) (ck : Clerk) : Clerk * Res (option Config) :=
  let args := mkQueryArgs num (clerkRandomId ck) (requestIndex ck) in
  (nextRequest ck,
   r ← callLoop (callQuery args) fuel 0 (servers ck);
   Ok (match r with Some reply => Some (RConfig reply) | None => None end)).
End clerk.
