(* ===== verification/ShardCtrlerSpec.v ===== *)
(** * The shard controller is correct, and where it is not

    [ctrl_ok] is the invariant of a controller's state: a numbered history of
    configurations of ten shards.  Join and Leave rebalance and leave no shard
    without a group; operations are executed once; replicas agree on a
    history of commands.  Three defects are proved too: a snapshot that comes
    from the Raft peer is ignored, a Move to a shard out of range panics, and
    a shard moved to an unknown group is never given to a group again. *)

From S2P Require Import Prelude Gob Persister RaftState RaftService ShardConfig ShardBalance ShardCtrler.
Open Scope Z_scope.

Record ctrl_ok (st : State) : Prop := mkCtrlOk {
  co_nonempty : Configs st ≠ [];
  co_num : ∀ i c, Configs st !! i = Some c → Num c = Z.of_nat i;
  co_length : ∀ c, c ∈ Configs st → length (Shards c) = NShards;
}.

(** No shard is with a group that does not exist. *)
Definition assigned (c : Config) : Prop :=
  ∀ g, g ∈ Shards c → 0 < g → is_Some (Groups c !! g).

Lemma ctrl_ok_makeState : ctrl_ok makeState.
Proof.
  split; cbn; [done| |].
  - intros i c [-> <-]%list_lookup_singleton_Some. done.
  - intros c ->%list_elem_of_singleton. done.
Qed.

Lemma latest_eq st c : last (Configs st) = Some c → getLatestConfig st = Ok c.
Proof.
  rewrite last_lookup. intros Hc. apply go_index_Ok. pose proof (lookup_lt_Some _ _ _ Hc).
  split; [lia|]. rewrite <- Hc. f_equal. lia.
Qed.

Lemma latest_num st c : ctrl_ok st → last (Configs st) = Some c → Num c + 1 = zlen (Configs st).
Proof.
  intros [_ Hnum _]. rewrite last_lookup. intros Hc. pose proof (lookup_lt_Some _ _ _ Hc).
  rewrite (Hnum _ _ Hc). lia.
Qed.

Lemma last_elem st c : last (Configs st) = Some c → c ∈ Configs st.
Proof. rewrite last_lookup. apply list_elem_of_lookup_2. Qed.

Lemma ctrl_ok_last st : ctrl_ok st → ∃ c, last (Configs st) = Some c.
Proof. intros [Hne _ _]. destruct (last (Configs st)) eqn:E; [eauto|]. by apply last_None in E. Qed.

Lemma makeNextConfig_eq st c :
  last (Configs st) = Some c → makeNextConfig st = Ok (c <| Num := Num c + 1 |>).
Proof.
  intros Hc. unfold makeNextConfig. rewrite (latest_eq _ _ Hc). cbn.
  by rewrite makeShallowCopyConfig_eq.
Qed.

Lemma ctrl_ok_addConfig st c :
  ctrl_ok st → Num c = zlen (Configs st) → length (Shards c) = NShards → ctrl_ok (addConfig c st).
Proof.
  intros [Hne Hnum Hlen] Hn Hl. split; unfold addConfig; sc_simpl.
  - by destruct (Configs st).
  - intros i c' [Hi|[Hi Hc]]%lookup_app_Some; [auto|].
    apply list_lookup_singleton_Some in Hc as [Hi0 <-]. lia.
  - intros c' [Hc| ->%list_elem_of_singleton]%elem_of_app; auto.
Qed.

(** ** Rebalancing *)

Lemma rebalance_ok c :
  length (Shards c) = NShards →
  ∃ c', rebalance c = Ok c' ∧ reassigned c c' ∧ balanced c' ∧
    (Groups c ≠ ∅ → ∀ g, g ∈ Shards c' →
       (g ∈ Shards c ∧ 0 < g) ∨ is_Some (Groups c !! g)) ∧
    (Groups c = ∅ → Shards c' = Shards c).
Proof.
  intros Hlen. unfold rebalance. destruct (assignVoidShards_ok c) as (Hre & Hgr & Hemp).
  set (c1 := assignVoidShards c) in *. pose proof (re_groups _ _ Hre) as Eg.
  assert (length (Shards c1) = NShards) as Hlen1 by (rewrite <- Hlen; apply Hre).
  case_decide as Hsz.
  - destruct (redistributeShards_ok c1 Hlen1) as (c' & -> & Hre' & Hb).
    exists c'. split_and!; [done|by eapply reassigned_trans|done|..].
    + intros Hne g (k & Hk)%list_elem_of_lookup.
      apply (re_owner _ _ Hre') in Hk as [Hk|Hg].
      * apply Hgr; [done|]. by eapply list_elem_of_lookup_2.
      * right. by rewrite <- Eg.
    + intros E. rewrite Eg, E in Hsz. rewrite map_size_empty in Hsz. lia.
  - exists c1. split_and!; try done; [|intros E; by rewrite Hemp].
    intros g1 g2 [v1 H1] [v2 H2]. assert (g1 = g2) as ->; [|lia].
    destruct (decide (g1 = g2)) as [|Hne]; [done|]. exfalso. apply Hsz.
    rewrite <- (insert_delete_id _ _ _ H1), map_size_insert_None by apply lookup_delete_eq.
    assert (delete g1 (Groups c1) !! g2 = Some v2) as H2' by by rewrite lookup_delete_ne.
    assert (size (delete g1 (Groups c1)) ≠ 0)%nat; [|lia].
    intros Hz%map_size_empty_iff. by rewrite Hz, lookup_empty in H2'.
Qed.

(** What a new configuration after [c] satisfies, its groups being
    [groups]. *)
Record next_config (c c' : Config) (groups : gmap Z (list string)) : Prop := mkNextConfig {
  nc_num : Num c' = Num c + 1;
  nc_groups : Groups c' = groups;
  nc_length : length (Shards c') = NShards;
  nc_balanced : balanced c';
  nc_assigned : assigned c → groups ≠ ∅ → ∀ g, g ∈ Shards c' → is_Some (Groups c' !! g);
  nc_void : assigned c → groups = ∅ → ∀ g, g ∈ Shards c' → g ≤ 0;
}.

(** A shard of a group that does not exist stays where it is. *)
Definition orphans_stay (c c' : Config) (left_ : list Z) : Prop :=
  ∀ (k : nat) g, Shards c !! k = Some g → 0 < g → g ∉ left_ → Groups c' !! g = None →
    Shards c' !! k = Some g.

Lemma handleJoin_ok st c servers :
  ctrl_ok st → last (Configs st) = Some c →
  ∃ c', handleJoin servers st = Ok (addConfig c' st) ∧ ctrl_ok (addConfig c' st) ∧
    next_config c c' (servers ∪ Groups c) ∧ orphans_stay c c' [].
Proof.
  intros Hok Hc. pose proof (co_length _ Hok c (last_elem _ _ Hc)) as Hl.
  pose proof (latest_num _ _ Hok Hc) as Hn.
  unfold handleJoin. rewrite (makeNextConfig_eq _ _ Hc). cbn [mbind Res_bind]. sc_simpl.
  rewrite (addGroups_any_order servers) by done.
  set (c1 := _ <| Groups := _ |>).
  destruct (rebalance_ok c1 Hl) as (c' & -> & Hre & Hb & Hg & Hemp). cbn [mbind Res_bind].
  pose proof (re_orphan _ _ Hre) as Hor.
  destruct Hre as [E1 E2 E3 _ _]. unfold c1 in *. sc_simpl.
  exists c'. split_and!; [done|apply ctrl_ok_addConfig; [done|lia|congruence]| |].
  - split; [done|done|congruence|done|..].
    + intros Ha Hne g Hin. rewrite E2. destruct (Hg Hne g Hin) as [[Hin' Hpos]|?]; [|done].
      destruct (Ha g Hin' Hpos) as [v Hv]. apply lookup_union_is_Some. right. eauto.
    + intros Ha He g Hin. rewrite (Hemp He) in Hin.
      destruct (decide (0 < g)) as [Hpos|]; [|lia]. destruct (Ha g Hin Hpos) as [v Hv].
      assert ((servers ∪ Groups c) !! g = None) as Hx by by rewrite He.
      apply lookup_union_None in Hx as [_ Hx]. congruence.
  - intros k g Hk Hpos _ Hgn. apply Hor; [done|done|congruence].
Qed.

Lemma handleLeave_ok st c gids :
  ctrl_ok st → last (Configs st) = Some c →
  ∃ c', handleLeave gids st = Ok (addConfig c' st) ∧ ctrl_ok (addConfig c' st) ∧
    next_config c c' (removeGroups gids (Groups c)) ∧ orphans_stay c c' gids.
Proof.
  intros Hok Hc. pose proof (co_length _ Hok c (last_elem _ _ Hc)) as Hl.
  pose proof (latest_num _ _ Hok Hc) as Hn.
  unfold handleLeave. rewrite (makeNextConfig_eq _ _ Hc). cbn [mbind Res_bind]. sc_simpl.
  set (f := λ gid, if contains gids gid then 0 else gid).
  set (c1 := _ <| Shards := _ |>).
  assert (length (Shards c1) = NShards) as Hl1 by (unfold c1; sc_simpl; by rewrite length_fmap).
  destruct (rebalance_ok c1 Hl1) as (c' & -> & Hre & Hb & Hg & Hemp). cbn [mbind Res_bind].
  pose proof (re_orphan _ _ Hre) as Hor.
  destruct Hre as [E1 E2 E3 _ _]. unfold c1 in *. sc_simpl. rewrite length_fmap in E3.
  assert (∀ g, 0 < g → g ∈ f <$> Shards c → g ∈ Shards c ∧ g ∉ gids) as Hf.
  { intros g Hpos (y & -> & Hy)%list_elem_of_fmap. unfold f, contains in *.
    case_bool_decide; [lia|done]. }
  exists c'. split_and!; [done|apply ctrl_ok_addConfig; [done|lia|congruence]| |].
  - split; [done|done|congruence|done|..].
    + intros Ha Hne g Hin. rewrite E2. destruct (Hg Hne g Hin) as [[Hin' Hpos]|?]; [|done].
      destruct (Hf g Hpos Hin') as [Hin'' Hn']. destruct (Ha g Hin'' Hpos) as [v Hv].
      rewrite removeGroups_lookup. unfold contains. rewrite bool_decide_false by done. eauto.
    + intros Ha He g Hin. rewrite (Hemp He) in Hin.
      destruct (decide (0 < g)) as [Hpos|]; [|lia].
      destruct (Hf g Hpos Hin) as [Hin'' Hn']. destruct (Ha g Hin'' Hpos) as [v Hv].
      assert (removeGroups gids (Groups c) !! g = None) as Hx by by rewrite He.
      rewrite removeGroups_lookup in Hx. unfold contains in Hx.
      rewrite bool_decide_false in Hx by done. congruence.
  - intros k g Hk Hpos Hng Hgn. apply Hor; [|done|congruence].
    rewrite list_lookup_fmap, Hk. cbn. unfold f, contains. by rewrite bool_decide_false.
Qed.

Lemma handleMove_ok st c (k : Z) g :
  ctrl_ok st → last (Configs st) = Some c →
  handleMove k g st =
    if decide (0 ≤ k < Z.of_nat NShards)
    then Ok (addConfig (c <| Num := Num c + 1 |> <| Shards := <[Z.to_nat k := g]> (Shards c) |>) st)
    else Panic "index out of range".
Proof.
  intros Hok Hc. pose proof (co_length _ Hok c (last_elem _ _ Hc)) as Hl.
  unfold handleMove. rewrite (makeNextConfig_eq _ _ Hc). cbn [mbind Res_bind]. sc_simpl.
  unfold go_store. rewrite Hl. by case_decide.
Qed.

(** ** Operations *)

Definition in_range (op : Op) : Prop := 0 ≤ Shard op < Z.of_nat NShards.

Definition ctrl_valid (op : Op) : Prop :=
  OpKind op = QUERY ∨ OpKind op = JOIN ∨ OpKind op = LEAVE ∨ (OpKind op = MOVE ∧ in_range op).

Definition newRequest (op : Op) (st : State) : State :=
  st <| ClientLastRequest := <[ClientId op := RequestIndex op]> (ClientLastRequest st) |>.

Lemma ctrl_ok_newRequest op st : ctrl_ok st → ctrl_ok (newRequest op st).
Proof. intros []. by split. Qed.

Lemma getValue_ok op st :
  ctrl_ok st → OpKind op = QUERY →
  ∃ c, getValue op st = Ok c ∧
    (if decide (0 ≤ OpNum op < zlen (Configs st)) then Configs st !! Z.to_nat (OpNum op) = Some c
     else last (Configs st) = Some c).
Proof.
  intros Hok Hq. unfold getValue. rewrite decide_False by (intros E; by apply E).
  destruct (decide (0 ≤ OpNum op < zlen (Configs st))) as [Hin|Hout].
  - rewrite decide_False by lia.
    destruct (go_index_in_range (Configs st) (OpNum op) Hin) as (c & ? & ?). eauto.
  - rewrite decide_True by lia. destruct (ctrl_ok_last st Hok) as [c Hc].
    rewrite (latest_eq _ _ Hc). eauto.
Qed.

(** The history after an operation: unchanged, or one configuration longer. *)
Lemma applyOp_ok op st :
  ctrl_ok st → ctrl_valid op →
  ∃ st' msg, applyOp op st = Ok (st', msg) ∧ ctrl_ok st' ∧ Error msg = OK ∧
    Configs st `prefix_of` Configs st' ∧
    length (Configs st') = (length (Configs st) +
      if (isDuplicateOp op st || bool_decide (OpKind op = QUERY))%bool then 0 else 1)%nat ∧
    ClientLastRequest st' = (if isDuplicateOp op st then ClientLastRequest st
      else <[ClientId op := RequestIndex op]> (ClientLastRequest st)).
Proof.
  intros Hok Hv. unfold applyOp. pose proof (ctrl_ok_newRequest op _ Hok) as Hok1.
  fold (newRequest op st).
  destruct (isDuplicateOp op st).
  - destruct (decide (OpKind op = QUERY)) as [Hq|Hq].
    + destruct (getValue_ok op st Hok Hq) as (c & -> & _). cbn. eexists _, _.
      split_and!; [done..|cbn; lia|done].
    + eexists _, _. split_and!; [done..| |done]. cbn. lia.
  - destruct (decide (OpKind op = QUERY)) as [Hq|Hq].
    { destruct (getValue_ok op _ Hok1 Hq) as (c & -> & _). cbn. eexists _, _.
      rewrite bool_decide_true by done. split_and!; [done..|cbn; lia|done]. }
    destruct (ctrl_ok_last _ Hok1) as [c Hc].
    assert (∀ c', Configs st `prefix_of` Configs (addConfig c' (newRequest op st)) ∧
      length (Configs (addConfig c' (newRequest op st))) = (length (Configs st) + 1)%nat) as Hadd.
    { intros c'. unfold addConfig, newRequest. sc_simpl. split; [by apply prefix_app_r|].
      by rewrite length_app. }
    rewrite (bool_decide_false (OpKind op = QUERY)) by done. cbn [orb].
    destruct Hv as [?|[Hj|[Hl|[Hm Hr]]]]; [done|..].
    + rewrite decide_True by done.
      destruct (handleJoin_ok _ _ (Servers op) Hok1 Hc) as (c' & -> & Hok' & _). cbn.
      eexists _, _. split_and!; [done..|apply Hadd|apply Hadd|done].
    + rewrite decide_False by (rewrite Hl; discriminate). rewrite decide_True by done.
      destruct (handleLeave_ok _ _ (GIDs op) Hok1 Hc) as (c' & -> & Hok' & _). cbn.
      eexists _, _. split_and!; [done..|apply Hadd|apply Hadd|done].
    + rewrite decide_False by (rewrite Hm; discriminate).
      rewrite decide_False by (rewrite Hm; discriminate). rewrite decide_True by done.
      rewrite (handleMove_ok _ _ _ _ Hok1 Hc), decide_True by done. cbn [mbind Res_bind].
      eexists _, _. split_and!; [done| |done|apply Hadd|apply Hadd|done].
      apply ctrl_ok_addConfig; [done|..]; sc_simpl.
      * by apply latest_num.
      * rewrite length_insert. apply Hok1. by apply last_elem.
Qed.

#[export] Instance ctrl_valid_dec op : Decision (ctrl_valid op).
Proof. unfold ctrl_valid, in_range. apply _. Defined.

(** Any other operation is a repeated one, which does nothing, or ends the
    process. *)
Lemma applyOp_invalid op st st' msg :
  ctrl_ok st → ¬ ctrl_valid op → applyOp op st = Ok (st', msg) → st' = st.
Proof.
  unfold ctrl_valid. intros Hok Hv H. unfold applyOp in H. fold (newRequest op st) in H.
  rewrite !(decide_False (P := OpKind op = QUERY)) in H by tauto. destruct (isDuplicateOp op st).
  { by injection H as <- <-. }
  rewrite !decide_False in H by tauto. case_decide as Hm; [|done].
  destruct (ctrl_ok_last _ (ctrl_ok_newRequest op st Hok)) as [c Hc].
  rewrite (handleMove_ok _ c) in H by (done || by apply ctrl_ok_newRequest).
  rewrite decide_False in H; [done|]. intros Hr. apply Hv. by right; right; right.
Qed.

(** Whatever is applied without ending the process extends the history. *)
Lemma applyOp_keeps op st st' msg :
  ctrl_ok st → applyOp op st = Ok (st', msg) → ctrl_ok st' ∧ Configs st `prefix_of` Configs st'.
Proof.
  intros Hok H. destruct (decide (ctrl_valid op)) as [Hv|Hv].
  - destruct (applyOp_ok op st Hok Hv) as (st1 & msg1 & E & Hok1 & _ & Hp & _). rewrite H in E.
    injection E as -> _. by split.
  - by rewrite (applyOp_invalid op st st' msg Hok Hv H).
Qed.

(** ** Sequences of operations *)

Fixpoint applyOps (ops : list Op) (st : State) : Res State :=
  match ops with
  | [] => Ok st
  | op :: ops => '(st, _) ← applyOp op st; applyOps ops st
  end.

(** An operation that does not name group [g]. *)
Definition leaves_alone (g : Z) (op : Op) : Prop :=
  OpKind op = QUERY ∨ (OpKind op = JOIN ∧ Servers op !! g = None) ∨
  (OpKind op = LEAVE ∧ g ∉ GIDs op).

Definition orphan (k : nat) (g : Z) (st : State) : Prop :=
  ∃ c, last (Configs st) = Some c ∧ Shards c !! k = Some g ∧ Groups c !! g = None.

Lemma last_addConfig c st : last (Configs (addConfig c st)) = Some c.
Proof. unfold addConfig. sc_simpl. by rewrite last_snoc. Qed.

Lemma applyOp_orphan op st k g :
  ctrl_ok st → 0 < g → leaves_alone g op → orphan k g st →
  ∃ st' msg, applyOp op st = Ok (st', msg) ∧ ctrl_ok st' ∧ orphan k g st'.
Proof.
  intros Hok Hpos Hop (c & Hc & Hk & Hn).
  assert (ctrl_valid op) as Hv by (unfold ctrl_valid; destruct Hop as [?|[[? _]|[? _]]]; auto).
  destruct (applyOp_ok op st Hok Hv) as (st' & msg & H & Hok' & _).
  exists st', msg. split_and!; [done..|].
  pose proof (ctrl_ok_newRequest op _ Hok) as Hok1. unfold applyOp in H. fold (newRequest op st) in H.
  assert (orphan k g st ∧ orphan k g (newRequest op st)) as [Ho Ho1] by (split; by exists c).
  destruct (isDuplicateOp op st).
  { destruct (decide (OpKind op = QUERY)); go_inv; done. }
  destruct (decide (OpKind op = QUERY)); [go_inv; done|].
  destruct Hop as [?|[[Hj Hs]|[Hl Hg]]]; [done|..].
  - rewrite decide_True in H by done.
    destruct (handleJoin_ok _ c (Servers op) Hok1 Hc) as (c' & E & _ & Hnext & Hst).
    rewrite E in H. cbn in H. go_inv. exists c'. split; [apply last_addConfig|].
    assert (Groups c' !! g = None) as Hg'.
    { rewrite (nc_groups _ _ _ Hnext). by apply lookup_union_None. }
    split; [|done]. apply Hst; [done|done|by intros ?%elem_of_nil|done].
  - rewrite decide_False in H by (rewrite Hl; discriminate). rewrite decide_True in H by done.
    destruct (handleLeave_ok _ c (GIDs op) Hok1 Hc) as (c' & E & _ & Hnext & Hst).
    rewrite E in H. cbn in H. go_inv. exists c'. split; [apply last_addConfig|].
    assert (Groups c' !! g = None) as Hg'.
    { rewrite (nc_groups _ _ _ Hnext), removeGroups_lookup. by case_match. }
    split; [|done]. by apply Hst.
Qed.

(** ** The clerk *)

(** A reply a clerk accepts. *)
Definition accepted_reply (r : option CtrlReply) : bool :=
  match r with Some reply => negb (WrongLeader reply) | None => false end.

Lemma tryServers_none call is_ :
  (∀ i, i ∈ is_ → accepted_reply (call i) = false) → tryServers call is_ = Ok None.
Proof.
  induction is_ as [|i is_ IH]; intros H; cbn; [done|].
  pose proof (H i ltac:(left)) as Hi. rewrite IH by (intros; apply H; by right).
  destruct (call i) as [reply|]; [|done]. cbn in Hi. by destruct (WrongLeader reply).
Qed.

Lemma tryServers_first call pre i post reply :
  (∀ j, j ∈ pre → accepted_reply (call j) = false) → call i = Some reply →
  WrongLeader reply = false → Err reply = OK →
  tryServers call (pre ++ i :: post) = Ok (Some reply).
Proof.
  intros Hpre Hi Hw He. induction pre as [|j pre IH]; cbn.
  - rewrite Hi, Hw. by rewrite decide_False by auto.
  - pose proof (Hpre j ltac:(left)) as Hj. rewrite IH by (intros; apply Hpre; by right).
    destruct (call j) as [r|]; [|done]. cbn in Hj. by destruct (WrongLeader r).
Qed.

Lemma callLoop_returns call n fuel round m i reply :
  (m < fuel)%nat → (i < n)%nat →
  (∀ r j, (r < m)%nat → (j < n)%nat → accepted_reply (call (round + r)%nat j) = false) →
  (∀ j, (j < i)%nat → accepted_reply (call (round + m)%nat j) = false) →
  call (round + m)%nat i = Some reply → WrongLeader reply = false → Err reply = OK →
  callLoop call fuel round n = Ok (Some reply).
Proof.
  revert fuel round. induction m as [|m IH]; intros [|fuel] round Hf Hi Hr Hj Hc Hw He; [lia| |lia|];
    cbn [callLoop].
  - rewrite Nat.add_0_r in *.
    replace n with (i + S (n - S i))%nat by lia. rewrite seq_app. cbn [seq Nat.add].
    rewrite (tryServers_first _ _ _ _ reply) by
      (done || (intros j Hin%elem_of_seq; apply Hj; lia)). done.
  - rewrite tryServers_none.
    + cbn. apply IH; [lia|done| | |by rewrite Nat.add_succ_comm|done|done].
      * intros r j Hr' Hj'. rewrite Nat.add_succ_comm. apply Hr; lia.
      * intros j Hj'. rewrite Nat.add_succ_comm. by apply Hj.
    + intros j Hin%elem_of_seq. rewrite <- (Nat.add_0_r round) at 1. apply Hr; lia.
Qed.

(** ** The theorems *)

(** C11: Join.  From any state of a controller, [handleJoin] terminates and
    appends one configuration: numbered next, with the new groups added,
    ten shards, no two groups differing by more than one shard, and, unless a
    shard had been moved to an unknown group, every shard with a group that
    exists. *)
Theorem Join_rebalances st c servers :
  ctrl_ok st → last (Configs st) = Some c →
  ∃ c', handleJoin servers st = Ok (addConfig c' st) ∧ ctrl_ok (addConfig c' st) ∧
    Num c' = Num c + 1 ∧ Groups c' = servers ∪ Groups c ∧ balanced c' ∧
    (assigned c → Groups c' ≠ ∅ → ∀ g, g ∈ Shards c' → is_Some (Groups c' !! g)).
Proof.
  intros Hok Hc. destruct (handleJoin_ok st c servers Hok Hc) as (c' & H & Hok' & Hn & _).
  exists c'. destruct Hn as [N1 N2 N3 N4 N5 N6]. split_and!; try done.
  intros Ha Hne. apply N5; [done|by rewrite <- N2].
Qed.

(** Leave.  The same for [handleLeave], with the groups removed; when no
    group is left, every shard is with the invalid group. *)
Theorem Leave_rebalances st c gids :
  ctrl_ok st → last (Configs st) = Some c →
  ∃ c', handleLeave gids st = Ok (addConfig c' st) ∧ ctrl_ok (addConfig c' st) ∧
    Num c' = Num c + 1 ∧ (∀ g, is_Some (Groups c' !! g) ↔ is_Some (Groups c !! g) ∧ g ∉ gids) ∧
    balanced c' ∧
    (assigned c → Groups c' ≠ ∅ → ∀ g, g ∈ Shards c' → is_Some (Groups c' !! g)) ∧
    (assigned c → Groups c' = ∅ → ∀ g, g ∈ Shards c' → g ≤ 0).
Proof.
  intros Hok Hc. destruct (handleLeave_ok st c gids Hok Hc) as (c' & H & Hok' & Hn & _).
  exists c'. destruct Hn as [N1 N2 N3 N4 N5 N6]. split_and!; try done.
  - intros g. rewrite N2, removeGroups_lookup. unfold contains. case_bool_decide.
    + split; [by intros []|by intros [_ ?]].
    + split; [done|by intros []].
  - intros Ha Hne. apply N5; [done|by rewrite <- N2].
  - intros Ha He. apply N6; [done|by rewrite <- N2].
Qed.

(** The new configuration does not depend on the order in which Go
    iterates over maps: neither the sorted keys that assignment and
    rebalancing run over, nor the groups after the loop that adds the new
    ones. *)
Theorem iteration_order_irrelevant (m : gmap Z (list string)) keys
    (servers groups : gmap Z (list string)) entries :
  keys ≡ₚ (map_to_list m).*1 → entries ≡ₚ map_to_list servers →
  sortKeys keys = getSortedKeys m ∧
  addGroups entries groups = addGroups (map_to_list servers) groups.
Proof.
  intros Hk He. split; [by apply getSortedKeys_any_order|].
  by rewrite !(addGroups_any_order servers) by done.
Qed.

(** C32: one operation.  Every valid operation is accepted from every state,
    keeps the configuration history (which only grows, one configuration per
    executed Join, Leave or Move, numbered from 0), and a repeated request
    changes nothing. *)
Theorem controller_history op st :
  ctrl_ok st → ctrl_valid op →
  ∃ st' msg, applyOp op st = Ok (st', msg) ∧ ctrl_ok st' ∧ Error msg = OK ∧
    Configs st `prefix_of` Configs st' ∧
    (∀ i c, Configs st' !! i = Some c → Num c = Z.of_nat i) ∧
    (isDuplicateOp op st = true → st' = st) ∧
    (isDuplicateOp op st = false → OpKind op ≠ QUERY →
       length (Configs st') = S (length (Configs st))) ∧
    isDuplicateOp op st' = true.
Proof.
  intros Hok Hv. destruct (applyOp_ok op st Hok Hv) as (st' & msg & H & Hok' & He & Hp & Hl & Hr).
  exists st', msg. split_and!; try done.
  - apply Hok'.
  - intros Hd. unfold applyOp in H. rewrite Hd in H.
    destruct (decide (OpKind op = QUERY)); by go_inv.
  - intros Hd Hq. rewrite Hd, bool_decide_false in Hl by done. cbn in Hl. lia.
  - unfold isDuplicateOp at 1. rewrite Hr. destruct (isDuplicateOp op st) eqn:Hd.
    + unfold isDuplicateOp in Hd. destruct (_ !! _); [|done]. done.
    + rewrite lookup_insert_eq. by rewrite decide_True by lia.
Qed.

(** A Query. *)
Lemma query_ok op st :
  ctrl_ok st → OpKind op = QUERY →
  ∃ st' msg, applyOp op st = Ok (st', msg) ∧ Configs st' = Configs st ∧
    (if decide (0 ≤ OpNum op < zlen (Configs st))
     then Configs st !! Z.to_nat (OpNum op) = Some (ReturnConfig msg)
     else last (Configs st) = Some (ReturnConfig msg)).
Proof.
  intros Hok Hq. unfold applyOp. fold (newRequest op st).
  rewrite !(decide_True (P := OpKind op = QUERY)) by done.
  destruct (isDuplicateOp op st).
  - destruct (getValue_ok op st Hok Hq) as (c & -> & Hc). cbn. eauto.
  - destruct (getValue_ok op (newRequest op st) (ctrl_ok_newRequest op st Hok) Hq) as (c & -> & Hc).
    cbn. eexists _, _. split; [done|]. split; [done|]. exact Hc.
Qed.

(** Query answers with the configuration of that number when there is
    one, and with the latest one for any other number. *)
Theorem Query_answers op st :
  ctrl_ok st → OpKind op = QUERY →
  ∃ st' msg, applyOp op st = Ok (st', msg) ∧ Configs st' = Configs st ∧
    (if decide (0 ≤ OpNum op < zlen (Configs st))
     then Configs st !! Z.to_nat (OpNum op) = Some (ReturnConfig msg)
     else last (Configs st) = Some (ReturnConfig msg)).
Proof. apply query_ok. Qed.

(** A Move whose shard is out of range ends every replica that applies
    it: the index is not checked before it is used. *)
Theorem Move_out_of_range_panics op st :
  ctrl_ok st → OpKind op = MOVE → isDuplicateOp op st = false → ¬ in_range op →
  ∃ why, applyOp op st = Panic why.
Proof.
  intros Hok Hm Hd Hr. destruct (ctrl_ok_last _ (ctrl_ok_newRequest op st Hok)) as [c Hc].
  unfold applyOp. rewrite Hd. fold (newRequest op st).
  rewrite !decide_False by (rewrite Hm; discriminate). rewrite decide_True by done.
  rewrite (handleMove_ok _ c) by (done || by apply ctrl_ok_newRequest).
  rewrite decide_False by done. by eexists.
Qed.

(** A shard that has been moved to a group that does not exist is not
    given to a group by any later Join, Leave or Query that does not name that
    group: neither assignment nor rebalancing sees it. *)
Theorem orphan_shard_stays ops st k g :
  ctrl_ok st → 0 < g → orphan k g st → Forall (leaves_alone g) ops →
  ∃ st', applyOps ops st = Ok st' ∧ orphan k g st'.
Proof.
  intros Hok Hpos Ho Hops. revert st Hok Ho.
  induction Hops as [|op ops Hop Hops IH]; intros st Hok Ho; cbn; [by exists st|].
  destruct (applyOp_orphan op st k g Hok Hpos Hop Ho) as (st1 & msg & -> & Hok1 & Ho1). cbn.
  by apply IH.
Qed.

(** The clerk of the controller returns with the first reply that is not
    [WrongLeader], servers being tried in order and round after round, all
    with the same request. *)
Theorem ctrl_clerk_returns call n fuel m i reply :
  (m < fuel)%nat → (i < n)%nat →
  (∀ r j, (r < m)%nat → (j < n)%nat → accepted_reply (call r j) = false) →
  (∀ j, (j < i)%nat → accepted_reply (call m j) = false) →
  call m i = Some reply → WrongLeader reply = false → Err reply = OK →
  callLoop call fuel 0 n = Ok (Some reply).
Proof. intros. by eapply (callLoop_returns call n fuel 0 m i reply). Qed.

(** ** Replicas and snapshots *)

Definition sampleJoin : Op := mkOp 0 0 JOIN {[ 1 := ["a"] ]} [] 0 0 0 7 0.

Definition sampleCtrler (i : Z) : ShardCtrler IdlePeer :=
  mkShardCtrler i (1, false) makeState ∅ [].

Definition commandMsg1 (op : Op) : ApplyMsg Op := mkApplyMsg true (ICmd op) 1 false [] 0 0.
Definition snapshotMsg1 (data : bytes) : ApplyMsg Op := mkApplyMsg false INil 0 true data 1 1.

(** A controller ignores the snapshots its Raft peer hands it: of two
    replicas in the same state, one applies a Join and takes a snapshot, the
    other receives that snapshot in place of the Join; they end with
    different configurations. *)
Theorem snapshot_from_raft_ignored :
  ∃ a b : ShardCtrler IdlePeer,
    fst <$> handleApplyMessage (commandMsg1 sampleJoin) (sampleCtrler 0) = Ok a ∧
    fst <$> handleApplyMessage (snapshotMsg1 (makeSnapshot a)) (sampleCtrler 1) = Ok b ∧
    state (sampleCtrler 0) = state (sampleCtrler 1) ∧
    length (Configs (state a)) = 2%nat ∧ length (Configs (state b)) = 1%nat.
Proof. eexists _, _. split_and!; vm_compute; reflexivity. Qed.

(** ** Witnesses *)

Definition oneGroup : Config := mkConfig 1 (replicate 10 1) {[ 1 := ["a"] ]}.
Definition oneGroupState : State := mkState [zeroConfig; oneGroup] {[ 7 := 0 ]}.

Lemma oneGroupState_ok : ctrl_ok oneGroupState.
Proof.
  split; cbn; [discriminate| |].
  - intros [|[|i]] c Hc; cbn in Hc; [injection Hc as <-; reflexivity..|discriminate Hc].
  - intros c Hc. apply elem_of_cons in Hc as [->|Hc%list_elem_of_singleton]; [done|by subst].
Qed.

Lemma Join_rebalances_witness :
  ∃ c', handleJoin {[ 2 := ["b"] ]} oneGroupState = Ok (addConfig c' oneGroupState) ∧
    Num c' = 2 ∧ balanced c'.
Proof.
  destruct (Join_rebalances oneGroupState oneGroup {[ 2 := ["b"] ]} oneGroupState_ok eq_refl)
    as (c' & H1 & _ & H2 & _ & H3 & _).
  exists c'. exact (conj H1 (conj H2 H3)).
Defined.

Lemma Leave_rebalances_witness :
  ∃ c', handleLeave [1] oneGroupState = Ok (addConfig c' oneGroupState) ∧ Num c' = 2.
Proof.
  destruct (Leave_rebalances oneGroupState oneGroup [1] oneGroupState_ok eq_refl)
    as (c' & H1 & _ & H2 & _).
  exists c'. exact (conj H1 H2).
Defined.

Lemma iteration_order_irrelevant_witness :
  sortKeys [2; 1] = getSortedKeys {[ 1 := ["a"]; 2 := ["b"] ]}.
Proof.
  refine (proj1 (iteration_order_irrelevant {[ 1 := ["a"]; 2 := ["b"] ]} [2; 1] ∅ ∅ [] _ _)).
  - assert ((map_to_list ({[ 1 := ["a"]; 2 := ["b"] ]} : gmap Z (list string))).*1 = [1; 2] ∨
            (map_to_list ({[ 1 := ["a"]; 2 := ["b"] ]} : gmap Z (list string))).*1 = [2; 1]) as [->| ->]
      by (vm_compute; auto); [apply perm_swap|reflexivity].
  - rewrite map_to_list_empty. reflexivity.
Defined.

Lemma controller_history_witness :
  ∃ st' msg, applyOp sampleJoin makeState = Ok (st', msg) ∧ ctrl_ok st'.
Proof.
  destruct (controller_history sampleJoin makeState ctrl_ok_makeState) as (st' & msg & H1 & H2 & _).
  - right. left. reflexivity.
  - exists st', msg. exact (conj H1 H2).
Defined.

Lemma Query_answers_witness :
  ∃ st' msg, applyOp (mkOp 0 0 QUERY ∅ [] 0 0 (-1) 8 0) oneGroupState = Ok (st', msg) ∧
    Configs st' = Configs oneGroupState.
Proof.
  destruct (Query_answers (mkOp 0 0 QUERY ∅ [] 0 0 (-1) 8 0) oneGroupState oneGroupState_ok eq_refl)
    as (st' & msg & H1 & H2 & _).
  exists st', msg. exact (conj H1 H2).
Defined.

Lemma Move_out_of_range_panics_witness :
  ∃ why, applyOp (mkOp 0 0 MOVE ∅ [] 10 1 0 8 0) oneGroupState = Panic why.
Proof.
  apply (Move_out_of_range_panics (mkOp 0 0 MOVE ∅ [] 10 1 0 8 0) oneGroupState oneGroupState_ok).
  - reflexivity.
  - reflexivity.
  - intros [_ H]. vm_compute in H. discriminate H.
Defined.

Lemma orphan_shard_stays_witness :
  ∃ st', applyOps [mkOp 0 0 JOIN {[ 2 := ["b"] ]} [] 0 0 0 8 0]
    (mkState [mkConfig 0 (9 :: replicate 9 1) {[ 1 := ["a"] ]}] ∅) = Ok st' ∧ orphan 0 9 st'.
Proof.
  apply (orphan_shard_stays [mkOp 0 0 JOIN {[ 2 := ["b"] ]} [] 0 0 0 8 0]
    (mkState [mkConfig 0 (9 :: replicate 9 1) {[ 1 := ["a"] ]}] ∅) 0 9).
  - split; cbn; [discriminate| |].
    + intros [|i] c Hc; cbn in Hc; [injection Hc as <-; reflexivity|discriminate Hc].
    + intros c Hc%list_elem_of_singleton. by subst.
  - reflexivity.
  - eexists. split; [reflexivity|]. split; reflexivity.
  - constructor; [|constructor]. right. left. split; reflexivity.
Defined.

Lemma ctrl_clerk_returns_witness :
  callLoop (λ r j, if decide (j = 1)%nat then Some (mkCtrlReply false OK zeroConfig) else None)
    3 0 2 = Ok (Some (mkCtrlReply false OK zeroConfig)).
Proof.
  apply (ctrl_clerk_returns _ 2 3 0 1); [lia|lia| | |reflexivity|reflexivity|reflexivity].
  - intros r j Hr. lia.
  - intros j Hj. replace j with 0%nat by lia. reflexivity.
Defined.
