(* ===== verification/ShardCtrlerSystem.v ===== *)
(** * A shard controller with its handlers and its apply loop

    The Join, Leave, Move and Query handlers (join.go, leave.go, move.go,
    query.go) run as goroutines next to the apply loop (applyTicker.go): an
    instance of [ReplyServer].  The snapshots that the Raft peer hands up are
    ignored; one is taken after every command. *)

From S2P Require Import Prelude Gob Persister RaftState RaftService ReplyServer ShardConfig ShardBalance.
From S2P Require Import ShardCtrler ShardCtrlerSpec.
Open Scope Z_scope.

Inductive Req :=
  | QJoin (args : JoinArgs)
  | QLeave (args : LeaveArgs)
  | QMove (args : MoveArgs)
  | QQuery (args : QueryArgs).

(** The messages of the Raft peer: a command at an index, the filler at
    index 0, a snapshot. *)
Inductive CtrlItem :=
  | CCommand (op : Op) (index : Z)
  | CFiller
  | CSnapshot (data : bytes) (term index : Z).

Definition ctrlMsg (it : CtrlItem) : ApplyMsg Op :=
  match it with
  | CCommand op i => mkApplyMsg true (ICmd op) i false [] 0 0
  | CFiller => mkApplyMsg false (IInt (-1)) 0 false [] 0 0
  | CSnapshot data t i => mkApplyMsg false INil 0 true data t i
  end.

Inductive CtrlEnv (R : Type) :=
  (** the Raft peer moves on by itself *)
  | CRaft (r : R)
  | CKill.
Arguments CRaft {R}.
Arguments CKill {R}.

Abbreviation CtrlSys R := (Sys (ShardCtrler R) Req Op OpKVReplyChannel ReplyMsg CtrlReply).
Abbreviation CtrlLabel R := (Label Req CtrlItem (CtrlEnv R)).

Section ctrl_steps.
Context {R : Type} `{!RaftService R Op} `{!LabGob State}.
Implicit Types (sc : ShardCtrler R).

Definition ctrlPre (req : Req) sc : Res (ShardCtrler R * (CtrlReply + Op * OpKVReplyChannel)) :=
  let '(sc, op, startCh) := match req with
                            | QJoin args => preJoinStart args sc
                            | QLeave args => preLeaveStart args sc
                            | QMove args => preMoveStart args sc
                            | QQuery args => preQueryStart args sc
                            end in
  Ok (sc, inr (op, startCh)).

Definition ctrlStart (op : Op) sc : ShardCtrler R * bool :=
  let '(r, (_, _, isLeader)) := rs_Start (ICmd op) (rf sc) in (sc <| rf := r |>, isLeader).

Definition ctrlResult (req : Req) : Op → ReplyMsg → ShardCtrler R → Res (ShardCtrler R * CtrlReply) :=
  match req with
  | QJoin _ => handleJoinResult
  | QLeave _ => handleLeaveResult
  | QMove _ => handleMoveResult
  | QQuery _ => handleQueryResult
  end.

Definition ctrlTimeout (req : Req) : Op → ShardCtrler R → Res (ShardCtrler R * CtrlReply) :=
  match req with
  | QJoin _ => joinTimeout
  | QLeave _ => leaveTimeout
  | QMove _ => moveTimeout
  | QQuery _ => queryTimeout
  end.

(** [handleApplyMessage] up to its send. *)
Definition ctrlDeliver (it : CtrlItem) sc : Res (ShardCtrler R * option (Sent Op ReplyMsg)) :=
  '(sc, s) ← handleApplyMessage (ctrlMsg it) sc;
  Ok (sc, match s with
          | Some s => Some (mkSent (toChannel s) (message s) (sentOp s))
          | None => None
          end).

Definition ctrlOther (e : CtrlEnv R) sc : Res (ShardCtrler R) :=
  Ok (match e with CRaft r => sc <| rf := r |> | CKill => Kill sc end).

Definition ctrlTable sc : Table OpKVReplyChannel := mkTable (startChannels sc) (channels sc).

#[export] Instance ctrl_reply_server :
  ReplyServer (ShardCtrler R) Req Op OpKVReplyChannel ReplyMsg CtrlReply CtrlItem (CtrlEnv R) := {|
  h_leads sc := (rs_GetState (rf sc)).2;
  h_pre := ctrlPre;
  h_start := ctrlStart;
  h_drop := deleteStartCh;
  h_result := ctrlResult;
  h_timeout := ctrlTimeout;
  h_wrongLeader := mkCtrlReply true ErrWrongLeader zeroConfig;
  h_zero := mkReplyMsg "" "" zeroConfig;
  h_deliver := ctrlDeliver;
  h_env := ctrlOther;
  h_envLocks _ := false;
  h_table := ctrlTable;
  h_chan := ReplyChannel;
|}.

(** ** What the pieces do to the table *)

Definition ctrlId (op : Op) : Z * Z := (ClientId op, RequestIndex op).

(** What the channel's operation and the one applied have in common. *)
Definition same_ctrl_op (o o' : Op) : Prop :=
  ServerId o = ServerId o' ∧ OpIndex o = OpIndex o' ∧ OpKind o = OpKind o' ∧ Shard o = Shard o' ∧
  GID o = GID o' ∧ OpNum o = OpNum o' ∧ ctrlId o = ctrlId o'.

Lemma ctrlMatch_same op sc ch :
  opChannelMatch op sc = true → getStartCh op sc = Some ch → same_ctrl_op (Operation ch) op.
Proof.
  unfold opChannelMatch. case_decide; [done|]. intros Hm Hch. rewrite Hch in Hm.
  case_decide as Hd; [done|]. unfold same_ctrl_op, ctrlId.
  assert (ClientId (Operation ch) = ClientId op ∧ RequestIndex (Operation ch) = RequestIndex op) as [-> ->]
    by (split; apply dec_stable; naive_solver).
  split_and!; try done; apply dec_stable; naive_solver.
Qed.

Lemma ctrlDelete_table op sc T :
  t_delete ReplyChannel (ctrlId op) (ctrlTable sc) = Ok T →
  deleteStartCh op sc = Ok (sc <| startChannels := entries T |> <| channels := chans T |>).
Proof.
  unfold t_delete, deleteStartCh, close. cbn.
  destruct (startChannels sc !! ClientId op) as [m|]; [|intros [= <-]; by destruct sc].
  destruct (m !! RequestIndex op) as [ch|]; [|intros [= <-]; by destruct sc].
  destruct (channels sc !! ReplyChannel ch) as [[]|]; [done| |done]. by intros [= <-].
Qed.

Lemma ctrlPre_shape req sc :
  ∃ op, ctrlPre req sc = Ok ((createStartCh op sc).1, inr (op, (createStartCh op sc).2)).
Proof. destruct req as [args|args|args|args]; by eexists. Qed.

(** Applying an operation: the state, the table and what is sent. *)
Lemma ctrlCommand_sends op i sc sc' s :
  handleCommandApply (ctrlMsg (CCommand op i)) sc = Ok (sc', s) →
  ∃ r, applyOp op (state sc) = Ok (state sc', r) ∧ ctrlTable sc' = ctrlTable sc ∧
    ∀ s1, s = Some s1 → opChannelMatch op sc' = true ∧ sentOp s1 = op ∧
      (∃ ch, getStartCh op sc' = Some ch ∧ ReplyChannel ch = toChannel s1) ∧
      message s1 = (if (rs_GetState (rf sc')).2 then r else mkReplyMsg ErrWrongLeader (Value r) (ReturnConfig r)).
Proof.
  unfold handleCommandApply. cbn [asOp ctrlMsg Command mbind Res_bind CommandIndex].
  destruct (applyOp op (state sc)) as [[st r]| |]; [|done..]. cbn [mbind Res_bind].
  destruct (rs_Snapshot _ _ _) as [r'| |]; [|done..]. cbn [mbind Res_bind]. intros [= <- <-].
  exists r. split_and!; [done..|]. intros s1. destruct (opChannelMatch _ _) eqn:Em; [|done].
  unfold signalStartCh. destruct (getStartCh _ _) as [ch|] eqn:Ech; [|done]. intros [= <-].
  split_and!; [done..| |done]. by exists ch.
Qed.

Lemma ctrlMessage_sends it sc sc' s :
  handleApplyMessage (ctrlMsg it) sc = Ok (sc', s) →
  match it with
  | CCommand op i => handleCommandApply (ctrlMsg it) sc = Ok (sc', s)
  | _ => sc' = sc ∧ s = None
  end.
Proof.
  unfold handleApplyMessage. destruct it as [op i| |data t i]; cbn; [done|..].
  - by intros [= <- <-].
  - case_match; by intros [= <- <-].
Qed.

Definition ctrlItem_ok (it : CtrlItem) : Prop := match it with CCommand op _ => ctrl_valid op | _ => True end.

#[export] Program Instance ctrl_reply_laws :
  ReplyLaws (ShardCtrler R) Req Op OpKVReplyChannel ReplyMsg CtrlReply CtrlItem (CtrlEnv R) := {|
  h_op := Operation;
  h_id := ctrlId;
  h_same := same_ctrl_op;
  h_good msg := Error msg ≠ ErrFiller;
  h_ok sc := ctrl_ok (state sc);
  h_itemOk := ctrlItem_ok;
  h_envOk _ := True;
|}.
Next Obligation.
  intros req sc sc' x Hok H. destruct (ctrlPre_shape req sc) as (op & E).
  change (ctrlPre req sc = Ok (sc', x)) in H. rewrite E in H. by injection H as <- <-.
Qed.
Next Obligation. intros op sc Hok. cbn. unfold ctrlStart. by destruct (rs_Start _ _) as [r [[i t] b]]. Qed.
Next Obligation. intros op sc. cbn. unfold ctrlStart. by destruct (rs_Start _ _) as [r [[i t] b]]. Qed.
Next Obligation.
  intros op sc T Hok H. cbn in *. rewrite (ctrlDelete_table _ _ _ H). destruct T. eexists. by split_and!.
Qed.
Next Obligation.
  intros req op msg sc T Hok Hg H. cbn in *.
  destruct req; cbn; unfold handleQueryResult, handleJoinResult, handleLeaveResult, handleMoveResult, handleResult;
    rewrite (ctrlDelete_table _ _ _ H); cbn [mbind Res_bind]; rewrite decide_False by done;
    destruct T; eexists _, _; by split_and!.
Qed.
Next Obligation.
  intros req op sc T Hok H. cbn in *.
  destruct req; cbn; unfold queryTimeout, joinTimeout, leaveTimeout, moveTimeout, timeout;
    rewrite (ctrlDelete_table _ _ _ H); destruct T; eexists _, _; by split_and!.
Qed.
Next Obligation. done. Qed.
Next Obligation.
  intros it sc sc' x Hok Hit H. cbn in Hok, Hit. change (ctrlDeliver it sc = Ok (sc', x)) in H. unfold ctrlDeliver in H.
  apply bind_Ok in H as ([sc1 s] & H & [= <- <-]). apply ctrlMessage_sends in H.
  destruct it as [op i| |data t i]; [|by destruct H as [-> ->]..].
  destruct (ctrlCommand_sends op i sc sc1 s H) as (r & Ha & Ht & Hs).
  destruct (applyOp_ok op _ Hok Hit) as (st' & r' & E & Hok' & He & _). rewrite Ha in E. injection E as <- <-.
  split_and!; [done..|]. destruct s as [s|]; [|done]. intros m [= <-]. cbn.
  destruct (Hs s eq_refl) as (Hm & <- & (ch & Hch & Hc) & Hr). split.
  - rewrite Hr. destruct (rs_GetState (rf sc1)).2; [by rewrite He|done].
  - exists ch. change (t_get _ (ctrlTable sc)) with (t_get (ctrlId (sentOp s)) (ctrlTable sc)). rewrite <- Ht.
    split_and!; [done..|]. by eapply ctrlMatch_same.
Qed.
Next Obligation. intros [r|] sc sc' Hok _ H; cbn in H; by injection H as <-. Qed.
Next Obligation. intros [r|] sc sc' H; cbn in H; by injection H as <-. Qed.

(** The peer is ready for a snapshot: one is taken after every command. *)
Definition ctrl_snapshots_succeed (sc : ShardCtrler R) : Prop := rs_ready (rf sc).

#[export] Program Instance ctrl_reply_total :
  ReplyTotal (ShardCtrler R) Req Op OpKVReplyChannel ReplyMsg CtrlReply CtrlItem (CtrlEnv R) := {|
  h_ready := ctrl_snapshots_succeed;
|}.
Next Obligation. intros req sc _. cbn. destruct (ctrlPre_shape req sc) as (op & ->). eauto. Qed.
Next Obligation.
  intros it sc Hok Hs Hit. cbn in Hok, Hit. change (∃ y, ctrlDeliver it sc = Ok y). unfold ctrlDeliver.
  enough (∃ y, handleApplyMessage (ctrlMsg it) sc = Ok y) as [[sc' s] ->] by (cbn; eauto).
  destruct it as [op i| |data t i]; unfold handleApplyMessage; cbn; [|by eauto|by case_match; eauto].
  unfold handleCommandApply. cbn [asOp Command mbind Res_bind CommandIndex].
  destruct (applyOp_ok op _ Hok Hit) as (st' & r & -> & _). cbn [mbind Res_bind].
  match goal with |- context [rs_Snapshot ?i ?b ?r] =>
    destruct (rs_Snapshot_ready r i b Hs) as (r' & -> & _) end. cbn. eauto.
Qed.
Next Obligation. intros e sc _ _. cbn. eauto. Qed.

(** A controller as [StartServer] leaves it, whatever the snapshot. *)
Definition ctrl_initial (me : Z) (r : R) (st : State) : CtrlSys R :=
  mkSys (mkShardCtrler me r st ∅ []) [] None.

Lemma ctrl_initial_reachable me r st : ctrl_ok st → reachable (ctrl_initial me r st).
Proof. intros Hst. by apply r_initial. Qed.

(** ** The theorems *)

(** A controller's reply is that of the request.  When the apply loop
    hands a message to a waiting handler, the operation it has just applied
    is the handler's own (kind, shard, group, number, client and request), and
    the message is what applying it to the configurations answered, marked
    [ErrWrongLeader] when the peer no longer leads. *)
Theorem ctrl_reply_is_of_the_request (sys : CtrlSys R) it sys1 k sys2 :
  reachable sys → ctrlItem_ok it →
  exec (Apply it) sys = Ok sys1 → exec (Send k) sys1 = Ok sys2 →
  ∃ req op ch applied i r,
    handlers sys1 !! k = Some (req, HSelect op ch) ∧
    handlers sys2 !! k = Some (req, HGot op
      (if (rs_GetState (rf (server sys1))).2 then r
       else mkReplyMsg ErrWrongLeader (Value r) (ReturnConfig r))) ∧
    it = CCommand applied i ∧ same_ctrl_op op applied ∧
    applyOp applied (state (server sys)) = Ok (state (server sys1), r).
Proof.
  intros Hr Hit H1 H2.
  destruct (delivered it sys sys1 k sys2 Hr Hit H1 H2) as (req & op & ch & m & s' & Hd & Hk1 & _ & Hsame & _ & _ & Hk2).
  change (ctrlDeliver it (server sys) = Ok (server sys1, Some m)) in Hd. unfold ctrlDeliver in Hd.
  apply bind_Ok in Hd as ([sc s] & Ha & Hd). destruct s as [s|]; [|done]. cbn in Hd. injection Hd as -> <-.
  apply ctrlMessage_sends in Ha. destruct it as [applied i| |data t i]; [|by destruct Ha..].
  destruct (ctrlCommand_sends _ _ _ _ _ Ha) as (r & Happ & _ & Hs).
  destruct (Hs s eq_refl) as (_ & E & _ & Hr'). cbn in Hk2, Hsame. rewrite Hr' in Hk2. rewrite E in Hsame.
  by exists req, op, ch, applied, i, r.
Qed.

(** No handler, and no valid command, ends the controller while its peer is
    ready for a snapshot: no channel is closed twice, the filler error never
    reaches a handler, and every step is either executed or not enabled. *)
Theorem ctrl_never_panics (sys : CtrlSys R) (l : CtrlLabel R) :
  reachable sys → ctrl_snapshots_succeed (server sys) → label_ok l →
  (∃ sys', exec l sys = Ok sys') ∨ exec l sys = notEnabled.
Proof. intros Hr Hs Hl. exact (exec_total l sys (server_reachable_inv _ Hr) Hs Hl). Qed.

(** C35: every handler replies.  Unless the apply loop waits in a send, any
    handler of a reachable controller reaches its reply by at most five steps
    of its own, whatever the Raft peer does and even when no operation is
    ever applied. *)
Theorem ctrl_handler_replies (sys : CtrlSys R) k req ph :
  reachable sys → sending sys = None → handlers sys !! k = Some (req, ph) →
  ∃ (ls : list (CtrlLabel R)) sys' r, Forall (λ l, l = Handler k ∨ l = Timeout k) ls ∧ (length ls ≤ 5)%nat ∧
    run ls sys = Ok sys' ∧ handlers sys' !! k = Some (req, HDone r).
Proof. intros Hr. apply handler_ends. by apply server_reachable_inv. Qed.
End ctrl_steps.

(** ** Samples *)

Definition ctrlStartState : CtrlSys IdlePeer := ctrl_initial 0 (1, true) makeState.

(** A Query that waits in its [select], and times out. *)
Definition waiting_query : list (CtrlLabel IdlePeer) :=
  [New (QQuery (mkQueryArgs (-1) 7 1)); Handler 0; Handler 0; Handler 0].

Definition sampleQuery : CtrlItem := CCommand (mkOp 0 0 QUERY ∅ [] 0 0 (-1) 7 1) 1.

Lemma waiting_query_reachable : reachable (runTo waiting_query ctrlStartState).
Proof. apply runTo_reachable; [apply ctrl_initial_reachable, ctrl_ok_makeState|]. repeat constructor. Qed.

Lemma sampleQuery_ok : ctrlItem_ok sampleQuery.
Proof. left. reflexivity. Qed.

Lemma ctrl_reply_is_of_the_request_witness :
  ∃ (req : Req) (op : Op) (ch : OpKVReplyChannel) (applied : Op) (i : Z),
    handlers (runTo [Apply sampleQuery] (runTo waiting_query ctrlStartState)) !! 0%nat = Some (req, HSelect op ch) ∧
    sampleQuery = CCommand applied i ∧ same_ctrl_op op applied.
Proof.
  destruct (ctrl_reply_is_of_the_request (runTo waiting_query ctrlStartState) sampleQuery
    (runTo [Apply sampleQuery] (runTo waiting_query ctrlStartState)) 0
    (runTo [Apply sampleQuery; Send 0] (runTo waiting_query ctrlStartState)))
    as (req & op & ch & applied & i & r & H1 & _ & H3 & H4 & _).
  - exact waiting_query_reachable.
  - exact sampleQuery_ok.
  - vm_compute. reflexivity.
  - vm_compute. reflexivity.
  - exists req, op, ch, applied, i. exact (conj H1 (conj H3 H4)).
Defined.

Lemma ctrl_never_panics_witness :
  (∃ sys', exec (Apply sampleQuery) (runTo waiting_query ctrlStartState) = Ok sys') ∨
  exec (Apply sampleQuery) (runTo waiting_query ctrlStartState) = notEnabled.
Proof.
  apply (ctrl_never_panics (runTo waiting_query ctrlStartState) (Apply sampleQuery)).
  - exact waiting_query_reachable.
  - exact I.
  - exact sampleQuery_ok.
Defined.

Lemma ctrl_handler_replies_witness :
  ∃ (ls : list (CtrlLabel IdlePeer)) sys' r, (length ls ≤ 5)%nat ∧
    run ls (runTo waiting_query ctrlStartState) = Ok sys' ∧
    handlers sys' !! 0%nat = Some (QQuery (mkQueryArgs (-1) 7 1), HDone r).
Proof.
  destruct (ctrl_handler_replies (runTo waiting_query ctrlStartState) 0
    (QQuery (mkQueryArgs (-1) 7 1)) (HSelect (mkOp 0 0 QUERY ∅ [] 0 0 (-1) 7 1)
       (mkOpKVReplyChannel (mkOp 0 0 QUERY ∅ [] 0 0 (-1) 7 1) 0)))
    as (ls & sys' & r & _ & H1 & H2 & H3).
  - exact waiting_query_reachable.
  - vm_compute. reflexivity.
  - vm_compute. reflexivity.
  - exists ls, sys', r. exact (conj H1 (conj H2 H3)).
Defined.

(** The apply loop of the controller can block for ever, as that of the
    key/value server. *)
Theorem ctrl_apply_loop_blocks_forever :
  ∃ sys : CtrlSys IdlePeer, reachable sys ∧ sending sys ≠ None ∧
    ∀ ls sys', run ls sys = Ok sys' →
      sending sys' = sending sys ∧ state (server sys') = state (server sys).
Proof.
  pose (sys := runTo (waiting_query ++ [Timeout 0; Apply sampleQuery]) ctrlStartState).
  exists sys. split_and!.
  - apply runTo_reachable; [apply ctrl_initial_reachable, ctrl_ok_makeState|]. repeat constructor.
  - vm_compute. discriminate.
  - intros ls sys' H. eapply (blocked_run state); [..|exact H].
    + done.
    + intros [r|] sc sc' _ H'; cbn in H'; by injection H' as <-.
    + eexists. split_and!; [vm_compute; reflexivity|vm_compute; lia|].
      intros [|k] req ph op ch Hk Hwt; vm_compute in Hk; [|discriminate Hk]. injection Hk as <- <-. discriminate Hwt.
Qed.
