(* ===== verification/ShardCtrlerTest.v ===== *)
(** * What the tests of the shard controller check (shardctrler/test_test.go)

    [check] reads the latest configuration and compares it with the groups
    the test has joined; [check_same_config] compares two configurations.
    Both are exact ([check_exact], [check_same_config_exact]), and whatever
    Joins, Leaves, Moves and Queries the controller has executed, repeated
    requests included, [check] accepts what it answers
    ([configurations_pass_check]). *)

From S2P Require Import Prelude Gob Persister RaftState RaftService.
From S2P Require Import ShardConfig ShardBalance ShardCtrler ShardCtrlerSpec.
Open Scope Z_scope.

(** ** The checks *)

(** [order] is the order in which Go ranges over the groups of [c]. *)
Definition check (groups order : list Z) (c : Config) : Res unit :=
  if decide (size (Groups c) ≠ length groups) then Fatal "wanted another number of groups"
  else
    _ ← go_for (λ _ g, if decide (Groups c !! g = None) then Fatal "missing group" else Ok tt) tt groups;
    _ ← (if decide (0 < length groups)%nat then
           go_for (λ _ g, if decide (Groups c !! g = None) then Fatal "shard -> invalid group" else Ok tt) tt (Shards c)
         else Ok tt);
    let counts := foldl (λ (counts : gmap Z Z) g, <[g := default 0 (counts !! g) + 1]> counts) ∅ (Shards c) in
    let '(min, max) := foldl (λ '(min, max) g,
      let n := default 0 (counts !! g) in
      (if decide (n < min) then n else min, if decide (n > max) then n else max)) (257, 0) order in
    if decide (max > min + 1) then Fatal "max too much larger than min" else Ok tt.

(** [order] is the order in which Go ranges over the groups of [c1]. *)
Definition check_same_config (order : list (Z * list string)) (c1 c2 : Config) : Res unit :=
  if decide (Num c1 ≠ Num c2) then Fatal "Num wrong"
  else if decide (Shards c1 ≠ Shards c2) then Fatal "Shards wrong"
  else if decide (size (Groups c1) ≠ size (Groups c2)) then Fatal "number of Groups is wrong"
  else go_for (λ _ '(gid, sa),
    match Groups c2 !! gid with
    | None => Fatal "len(Groups) wrong"
    | Some sa1 =>
        if decide (length sa1 ≠ length sa) then Fatal "len(Groups) wrong"
        else go_for (λ _ j, x ← go_index sa (Z.of_nat j); y ← go_index sa1 (Z.of_nat j);
          if decide (x ≠ y) then Fatal "Groups wrong" else Ok tt) tt (seq 0 (length sa))
    end) tt order.

(** ** They are exact *)

Lemma check_keys (m : gmap Z (list string)) (l : list Z) why :
  (go_for (λ _ g, if decide (m !! g = None) then Fatal why else Ok tt) tt l = Ok tt ∧ ∀ g, g ∈ l → is_Some (m !! g)) ∨
  ((∃ why', go_for (λ _ g, if decide (m !! g = None) then Fatal why else Ok tt) tt l = Fatal why') ∧ ¬ ∀ g, g ∈ l → is_Some (m !! g)).
Proof.
  apply (go_for_check (λ g, if decide (m !! g = None) then Fatal why else Ok tt)). intros g _. case_decide as Hg.
  - right. split; [by eexists|]. rewrite Hg. by intros [].
  - left. split; [done|]. by apply not_eq_None_Some.
Qed.

Definition minmax (c : Z → Z) (order : list Z) : Z * Z :=
  foldl (λ '(min, max) g,
    let n := c g in (if decide (n < min) then n else min, if decide (n > max) then n else max)) (257, 0) order.

Lemma minmax_ok c order :
  (∀ g, g ∈ order → 0 ≤ c g ≤ 257) →
  let '(min, max) := minmax c order in
  (∀ g, g ∈ order → min ≤ c g ≤ max) ∧
  (order = [] ∧ min = 257 ∧ max = 0 ∨ ∃ g1 g2, g1 ∈ order ∧ g2 ∈ order ∧ min = c g1 ∧ max = c g2).
Proof.
  unfold minmax. induction order as [|g order IH] using rev_ind; intros Hc; [cbn; split; [by intros g ?%elem_of_nil|by left]|].
  rewrite foldl_snoc. assert (0 ≤ c g ≤ 257) as Hg by (apply Hc; set_solver).
  specialize (IH ltac:(intros; apply Hc; set_solver)). destruct (foldl _ _ order) as [min max].
  destruct IH as [Hb Ho]. cbn. split.
  - intros g' [Hg'| ->%list_elem_of_singleton]%elem_of_app; [specialize (Hb g' Hg')|]; repeat case_decide; lia.
  - right. destruct Ho as [(-> & -> & ->)|(g1 & g2 & H1 & H2 & -> & ->)].
    + exists g, g. split; [left|]. split; [left|]. repeat case_decide; lia.
    + exists (if decide (c g < c g1) then g else g1), (if decide (c g > c g2) then g else g2).
      split_and!; repeat case_decide; (done || set_solver).
Qed.

(** What the test wants of a configuration. *)
Record wanted (groups : list Z) (c : Config) : Prop := mkWanted {
  w_number : size (Groups c) = length groups;
  w_groups : ∀ g, g ∈ groups → is_Some (Groups c !! g);
  w_shards : groups ≠ [] → ∀ g, g ∈ Shards c → is_Some (Groups c !! g);
  w_balanced : balanced c;
}.

Lemma check_exact groups order c :
  (length (Shards c) ≤ 256)%nat → order ≡ₚ (map_to_list (Groups c)).*1 →
  (check groups order c = Ok tt ∧ wanted groups c) ∨ ((∃ why, check groups order c = Fatal why) ∧ ¬ wanted groups c).
Proof.
  intros Hlen Ho. unfold check. case_decide as Hsz; [right; split; [by eexists|]; by intros []|].
  destruct (check_keys (Groups c) groups "missing group") as [[-> Hg]|[(why & ->) Hg]];
    [|right; split; [by eexists|]; by intros []]. cbn [mbind Res_bind].
  assert (((if decide (0 < length groups)%nat then
      go_for (λ _ g, if decide (Groups c !! g = None) then Fatal "shard -> invalid group" else Ok tt) tt (Shards c)
      else Ok tt) = Ok tt ∧ (groups ≠ [] → ∀ g, g ∈ Shards c → is_Some (Groups c !! g))) ∨
    ((∃ why, (if decide (0 < length groups)%nat then
      go_for (λ _ g, if decide (Groups c !! g = None) then Fatal "shard -> invalid group" else Ok tt) tt (Shards c)
      else Ok tt) = Fatal why) ∧ ¬ (groups ≠ [] → ∀ g, g ∈ Shards c → is_Some (Groups c !! g)))) as Hsh.
  { case_decide as Hne; [|left; split; [done|]; by destruct groups; cbn in Hne; [|lia]].
    assert (groups ≠ []) as Hnil by (by intros ->; cbn in Hne; lia).
    destruct (check_keys (Groups c) (Shards c) "shard -> invalid group") as [[-> Hs]|[Hw Hs]]; [by left|right].
    split; [done|]. intros Hn. by apply Hs, Hn. }
  destruct Hsh as [[-> Hs]|[(why & ->) Hs]]; [|right; split; [by eexists|]; by intros []]. cbn [mbind Res_bind].
  assert (∀ g, g ∈ order ↔ is_Some (Groups c !! g)) as Hin.
  { intros g. rewrite Ho, list_elem_of_fmap. split.
    - intros ([g' v] & -> & Hg'%elem_of_map_to_list). by exists v.
    - intros [v Hv]. exists (g, v). split; [done|]. by apply elem_of_map_to_list. }
  pose proof (minmax_ok (λ g, count g (Shards c)) order) as Hmm. unfold minmax in Hmm.
  rewrite (foldl_eq _ (λ '(min, max) g, let n := count g (Shards c) in
      (if decide (n < min) then n else min, if decide (n > max) then n else max)) order (257, 0));
    [|intros [min max] g; by rewrite <- countShards_lookup].
  destruct (foldl _ _ order) as [min max]. destruct Hmm as [Hb Hmm].
  { intros g _. pose proof (count_nonneg g (Shards c)). pose proof (count_le g (Shards c)). lia. }
  case_decide as Hmax; [right; split; [by eexists|]; intros [_ _ _ Hbal]|left; split; [done|]; split; try done].
  - destruct Hmm as [(-> & -> & ->)|(g1 & g2 & H1 & H2 & -> & ->)]; [lia|].
    specialize (Hbal g2 g1 ltac:(by apply Hin) ltac:(by apply Hin)). lia.
  - intros g1 g2 H1%Hin%Hb H2%Hin%Hb. lia.
Qed.

Lemma check_same_config_exact order c1 c2 :
  order ≡ₚ map_to_list (Groups c1) →
  (check_same_config order c1 c2 = Ok tt ∧ c1 = c2) ∨ ((∃ why, check_same_config order c1 c2 = Fatal why) ∧ c1 ≠ c2).
Proof.
  intros Ho. unfold check_same_config. destruct c1 as [n1 s1 m1], c2 as [n2 s2 m2]. cbn [Num Shards Groups] in *.
  destruct (decide (n1 ≠ n2)) as [Hn|Hn]; [right; split; [by eexists|congruence]|].
  destruct (decide (s1 ≠ s2)) as [Hs|Hs]; [right; split; [by eexists|congruence]|].
  destruct (decide (size m1 ≠ size m2)) as [Hz|Hz]; [right; split; [by eexists|congruence]|].
  apply dec_stable in Hn, Hs, Hz. subst.
  match goal with |- context [go_for (λ _ p, @?f p) tt order] => destruct (go_for_check f (λ p, m2 !! p.1 = Some p.2) order) as [[Hg Hall]|[Hw Hno]] end.
  - intros [gid sa] _. cbn. destruct (m2 !! gid) as [sa1|]; [|right; split; [by eexists|done]].
    case_decide as Hl; [right; split; [by eexists|]; congruence|].
    destruct (go_for_check (λ j, x ← go_index sa (Z.of_nat j); y ← go_index sa1 (Z.of_nat j);
      if decide (x ≠ y) then Fatal "Groups wrong" else Ok tt) (λ j, sa !! j = sa1 !! j) (seq 0 (length sa))) as [[-> Hall]|[Hw Hno]].
    + intros j Hj%elem_of_seq.
      destruct (go_index_in_range sa (Z.of_nat j)) as (x & -> & Hx); [lia|]. destruct (go_index_in_range sa1 (Z.of_nat j)) as (y & -> & Hy); [lia|].
      rewrite Nat2Z.id in Hx, Hy. rewrite Hx, Hy. cbn. case_decide as Hxy; [right; split; [by eexists|congruence]|left].
      by subst.
    + left. split; [done|]. f_equal. symmetry. apply list_eq. intros j. destruct (decide (j < length sa)%nat) as [Hj|Hj].
      * apply Hall, elem_of_seq. lia.
      * by rewrite !lookup_ge_None_2 by lia.
    + right. split; [done|]. intros [= ->]. by apply Hno.
  - left. split; [exact Hg|]. f_equal. apply map_subseteq_size_eq; [|lia].
    apply map_subseteq_spec. intros gid sa Hsa. apply (Hall (gid, sa)). rewrite Ho. by apply elem_of_map_to_list.
  - right. split; [exact Hw|]. intros [= ->]. apply Hno. intros [gid sa] Hsa. cbn. rewrite Ho in Hsa. by apply elem_of_map_to_list.
Qed.

(** ** What a test expects *)

(** The groups that have joined and not left, and whether the last change was
    a Join or a Leave. *)
Definition expect (e : gset Z * bool) (op : Op) : gset Z * bool :=
  if decide (OpKind op = JOIN) then (dom (Servers op) ∪ e.1, true)
  else if decide (OpKind op = LEAVE) then (e.1 ∖ list_to_set (GIDs op), true)
  else if decide (OpKind op = MOVE) then (e.1, false) else e.

Definition repeated (last : gmap Z Z) (op : Op) : bool :=
  match last !! ClientId op with Some k => bool_decide (RequestIndex op ≤ k) | None => false end.

(** After the operations, of which the repeated ones do nothing. *)
Fixpoint expected (last : gmap Z Z) (e : gset Z * bool) (ops : list Op) : gset Z * bool :=
  match ops with
  | [] => e
  | op :: ops =>
      if repeated last op then expected last e ops
      else expected (<[ClientId op := RequestIndex op]> last) (expect e op) ops
  end.

(** Queries, Joins, Leaves, and Moves of one of the shards to a group that
    has joined. *)
Definition legal (e : gset Z * bool) (op : Op) : Prop :=
  OpKind op = QUERY ∨ OpKind op = JOIN ∨ OpKind op = LEAVE ∨ (OpKind op = MOVE ∧ in_range op ∧ GID op ∈ e.1).

Fixpoint lawful (last : gmap Z Z) (e : gset Z * bool) (ops : list Op) : Prop :=
  match ops with
  | [] => True
  | op :: ops =>
      if repeated last op then lawful last e ops
      else legal e op ∧ lawful (<[ClientId op := RequestIndex op]> last) (expect e op) ops
  end.

#[local] Instance legal_dec e op : Decision (legal e op).
Proof. unfold legal, in_range. apply _. Defined.

#[local] Instance lawful_dec last e ops : Decision (lawful last e ops).
Proof.
  revert last e. induction ops as [|op ops IH]; intros last e; cbn; [apply _|]. destruct (repeated last op); [apply IH|].
  specialize (IH (<[ClientId op := RequestIndex op]> last) (expect e op)). apply _.
Defined.

Lemma isDuplicateOp_repeated op st : isDuplicateOp op st = repeated (ClientLastRequest st) op.
Proof. unfold isDuplicateOp, repeated. destruct (_ !! _); [|done]. by case_decide; case_bool_decide. Qed.

(** The latest configuration is as expected. *)
Record tested (st : State) (e : gset Z * bool) (c : Config) : Prop := mkTested {
  t_ok : ctrl_ok st;
  t_last : last (Configs st) = Some c;
  t_members : dom (Groups c) = e.1;
  t_assigned : assigned c;
  t_settled : e.2 = true → balanced c ∧ (Groups c ≠ ∅ → ∀ g, g ∈ Shards c → is_Some (Groups c !! g));
}.

Lemma tested_makeState : tested makeState (∅, true) zeroConfig.
Proof.
  split; cbn; [apply ctrl_ok_makeState|done|done| |].
  - intros g Hg Hpos. apply elem_of_replicate in Hg as [-> _]. lia.
  - intros _. split; [|done]. intros g1 g2 [v Hv]. cbn in Hv. by rewrite lookup_empty in Hv.
Qed.

Lemma assigned_all c : (∀ g, g ∈ Shards c → is_Some (Groups c !! g)) → assigned c.
Proof. intros Hall g Hg _. by apply Hall. Qed.

(** What Join and Leave make of it. *)
Lemma tested_next st c c' groups gs :
  ctrl_ok (addConfig c' st) → assigned c → next_config c c' groups → dom groups = gs →
  tested (addConfig c' st) (gs, true) c'.
Proof.
  intros Hok Ha [_ Hgr _ Hb Has Hv] Hd.
  assert (groups ≠ ∅ → ∀ g, g ∈ Shards c' → is_Some (Groups c' !! g)) as Hall by by apply Has.
  split; [done|apply last_addConfig|by rewrite Hgr| |].
  - destruct (decide (groups = ∅)) as [He|Hne]; [|by apply assigned_all, Hall].
    intros g Hg Hpos. specialize (Hv Ha He g Hg). lia.
  - intros _. split; [done|]. intros Hne. apply Hall. by rewrite <- Hgr.
Qed.

Lemma applyOp_tested op st e c :
  tested st e c → repeated (ClientLastRequest st) op = false → legal e op →
  ∃ st' msg c', applyOp op st = Ok (st', msg) ∧
    ClientLastRequest st' = <[ClientId op := RequestIndex op]> (ClientLastRequest st) ∧ tested st' (expect e op) c'.
Proof.
  intros [Hok Hc Hm Ha Hs] Hd Hl. pose proof (ctrl_ok_newRequest op _ Hok) as Hok1.
  unfold applyOp, expect. rewrite isDuplicateOp_repeated, Hd. fold (newRequest op st).
  destruct Hl as [Hq|[Hj|[Hle|(Hmv & Hr & Hg)]]].
  - rewrite Hq, decide_True by done. rewrite !decide_False by done.
    destruct (getValue_ok op _ Hok1 Hq) as (v & -> & _). cbn. eexists _, _, c. split; [done|]. split; [done|]. by split.
  - rewrite Hj, decide_False, !decide_True by done.
    destruct (handleJoin_ok _ c (Servers op) Hok1 Hc) as (c' & -> & Hok' & Hn & _). cbn. eexists _, _, c'.
    split; [done|]. split; [done|]. eapply tested_next; [done..|]. by rewrite dom_union_L, Hm.
  - rewrite Hle. do 2 rewrite decide_False by done. rewrite decide_True by done.
    rewrite (decide_False (P := LEAVE = JOIN)), decide_True by done.
    destruct (handleLeave_ok _ c (GIDs op) Hok1 Hc) as (c' & -> & Hok' & Hn & _). cbn. eexists _, _, c'.
    split; [done|]. split; [done|]. eapply tested_next; [done..|]. apply set_eq. intros g.
    rewrite elem_of_dom, removeGroups_lookup, <- Hm, elem_of_difference, elem_of_list_to_set, elem_of_dom.
    unfold contains. case_bool_decide; [|by intuition]. split; [by intros []|by intros [_ ?]].
  - rewrite Hmv. do 3 rewrite decide_False by done. rewrite decide_True by done.
    rewrite (decide_False (P := MOVE = JOIN)), (decide_False (P := MOVE = LEAVE)), decide_True by done.
    rewrite (handleMove_ok _ _ _ _ Hok1 Hc), decide_True by done. cbn [mbind Res_bind].
    eexists _, _, _. split; [done|]. split; [done|]. split.
    + apply ctrl_ok_addConfig; [done|..]; sc_simpl; [by apply latest_num|].
      rewrite length_insert. apply Hok1. by apply last_elem.
    + apply last_addConfig.
    + done.
    + intros g Hin Hpos. sc_simpl. apply list_elem_of_lookup in Hin as [j [(_ & <- & _)|[_ Hin]]%list_lookup_insert_Some];
        [|apply Ha; [by eapply list_elem_of_lookup_2|done]].
      apply elem_of_dom. by rewrite Hm.
    + done.
Qed.

Lemma applyOps_tested ops st e c :
  tested st e c → lawful (ClientLastRequest st) e ops →
  ∃ st' c', applyOps ops st = Ok st' ∧ tested st' (expected (ClientLastRequest st) e ops) c' ∧
    Configs st `prefix_of` Configs st'.
Proof.
  revert st e c. induction ops as [|op ops IH]; intros st e c Ht Hl; cbn; [by exists st, c|]. cbn in Hl.
  destruct (repeated (ClientLastRequest st) op) eqn:Hd.
  - assert (∃ msg, applyOp op st = Ok (st, msg)) as (msg & ->).
    { unfold applyOp. rewrite isDuplicateOp_repeated, Hd. case_decide as Hq; [|by eexists].
      destruct (getValue_ok op st (t_ok _ _ _ Ht) Hq) as (v & -> & _). by eexists. }
    cbn. by apply (IH st e c).
  - destruct Hl as [Hleg Hl]. destruct (applyOp_tested op st e c Ht Hd Hleg) as (st1 & msg & c1 & Hop & Hr & Ht1).
    destruct (applyOp_ok op st (t_ok _ _ _ Ht)) as (st2 & msg2 & Hop2 & _ & _ & Hp & _).
    { unfold ctrl_valid, legal in *. tauto. }
    rewrite Hop in Hop2. injection Hop2 as <- <-. rewrite Hop. cbn. rewrite <- Hr in Hl |- *.
    destruct (IH st1 _ c1 Ht1 Hl) as (st' & c' & -> & Ht' & Hp'). exists st', c'. split; [done|]. split; [done|].
    by etrans.
Qed.

(** ** The properties *)

(** C13: the tests of the controller pass.  After any lawful operations --
    Joins, Leaves, Moves to groups that have joined, Queries, with any request
    repeated later -- the controller answers a Query for the latest
    configuration, and if the last change was not a Move, [check] with the
    groups that have joined and not left accepts the answer, in whatever order
    it ranges over the groups. *)
Theorem configurations_pass_check ops query :
  lawful ∅ (∅, true) ops → OpKind query = QUERY → OpNum query = -1 →
  ∃ st st' msg, applyOps ops makeState = Ok st ∧ applyOp query st = Ok (st', msg) ∧
    ((expected ∅ (∅, true) ops).2 = true → ∀ groups order, NoDup groups →
      list_to_set groups = (expected ∅ (∅, true) ops).1 → order ≡ₚ (map_to_list (Groups (ReturnConfig msg))).*1 →
      check groups order (ReturnConfig msg) = Ok tt).
Proof.
  intros Hl Hq Hnum. destruct (applyOps_tested ops makeState _ _ tested_makeState Hl) as (st & c & Hops & [Hok Hc Hm _ Hs] & _).
  change (ClientLastRequest makeState) with (∅ : gmap Z Z) in *.
  destruct (query_ok query st Hok Hq) as (st' & msg & Hquery & _ & Hans). rewrite decide_False, Hc in Hans by lia.
  injection Hans as ->. exists st, st', msg. split; [done|]. split; [done|]. intros Hset groups order Hnd Hgs Hord.
  destruct (Hs Hset) as [Hb Hall].
  destruct (check_exact groups order (ReturnConfig msg)) as [[Hok' _]|[_ Hno]]; [|done|done|].
  - rewrite (co_length _ Hok (ReturnConfig msg)) by (by apply last_elem). unfold NShards. lia.
  - destruct Hno. assert (∀ g, g ∈ groups ↔ is_Some (Groups (ReturnConfig msg) !! g)) as Hin.
    { intros g. rewrite <- elem_of_dom, Hm, <- Hgs. by rewrite elem_of_list_to_set. }
    split; [|by intros g; apply Hin| |done].
    + rewrite <- size_dom, Hm, <- Hgs. by apply size_list_to_set.
    + intros Hne. apply Hall. intros He. destruct groups as [|g groups]; [done|].
      assert (is_Some (Groups (ReturnConfig msg) !! g)) as [v Hv] by (apply Hin; left). by rewrite He, lookup_empty in Hv.
Qed.

(** The historical queries of the test: what was answered for a number is
    answered for it after any further operations. *)
Theorem historical_queries_same ops e c st query c0 order :
  tested st e c → lawful (ClientLastRequest st) e ops → OpKind query = QUERY →
  0 ≤ OpNum query → Configs st !! Z.to_nat (OpNum query) = Some c0 →
  ∃ st' st2 msg, applyOps ops st = Ok st' ∧ applyOp query st' = Ok (st2, msg) ∧
    (order ≡ₚ map_to_list (Groups (ReturnConfig msg)) → check_same_config order (ReturnConfig msg) c0 = Ok tt).
Proof.
  intros Ht Hl Hq Hpos Hc0. destruct (applyOps_tested ops st e c Ht Hl) as (st' & c' & -> & Ht' & Hp).
  destruct (query_ok query st' (t_ok _ _ _ Ht') Hq) as (st2 & msg & Hquery & _ & Hans). exists st', st2, msg.
  split; [done|]. split; [done|]. pose proof (prefix_lookup_Some _ _ _ _ Hc0 Hp) as Hc'.
  rewrite decide_True in Hans by (apply lookup_lt_Some in Hc'; lia). intros Ho.
  destruct (check_same_config_exact order (ReturnConfig msg) c0 Ho) as [[-> _]|[_ Hne]]; [done|]. congruence.
Qed.

(** Two groups join, a shard is moved, one group leaves; two requests are
    repeated. *)
Definition basicOps : list Op :=
  [mkOp 0 0 JOIN {[ 1 := ["x"; "y"; "z"] ]} [] 0 0 0 7 0; mkOp 0 1 JOIN {[ 2 := ["a"; "b"; "c"] ]} [] 0 0 0 7 1;
   mkOp 1 1 JOIN {[ 1 := ["x"; "y"; "z"] ]} [] 0 0 0 7 0; mkOp 0 2 MOVE ∅ [] 3 2 0 7 2;
   mkOp 0 3 LEAVE ∅ [1] 0 0 0 7 3; mkOp 1 3 JOIN {[ 2 := ["a"; "b"; "c"] ]} [] 0 0 0 7 1].
Definition basicQuery : Op := mkOp 0 4 QUERY ∅ [] 0 0 (-1) 7 4.

Lemma configurations_pass_check_witness :
  ∃ st st' msg, applyOps basicOps makeState = Ok st ∧ applyOp basicQuery st = Ok (st', msg) ∧
    ((expected ∅ (∅, true) basicOps).2 = true → ∀ groups order, NoDup groups →
      list_to_set groups = (expected ∅ (∅, true) basicOps).1 → order ≡ₚ (map_to_list (Groups (ReturnConfig msg))).*1 →
      check groups order (ReturnConfig msg) = Ok tt).
Proof.
  apply (configurations_pass_check basicOps basicQuery); [|reflexivity..].
  apply (bool_decide_unpack _). vm_compute. exact I.
Defined.

Example basicOps_expected :
  bool_decide (expected ∅ (∅, true) basicOps = ({[ 2 ]}, true)) = true ∧
  match applyOps basicOps makeState with Ok st => match last (Configs st) with
    | Some c => check [2] [2] c = Ok tt ∧ check [1; 2] [2] c = Fatal "wanted another number of groups" | None => False end | _ => False end.
Proof. vm_compute. done. Qed.
