(* ===== verification/ShardMinimal.v ===== *)
(** * How many shards a Join and a Leave move (shardctrler/join.go, leave.go)

    The tests of the controller ask for "minimal transfers" after Joins and
    Leaves.  A Join satisfies it: shards go to the new groups only, and no
    balanced assignment for the same groups would move fewer
    ([Join_moves_fewest]).  A Leave does not: the shards of the groups that
    leave are dealt out in turn whatever the others hold already, and
    rebalancing then moves shards between groups that stay
    ([Leave_moves_remaining]).  The loops of the tests
    ([minimalAfterJoins], [minimalAfterLeaves]) would notice, but they look
    at the groups 1 to 10, which the tests never create
    ([minimal_checks_vacuous]). *)

From S2P Require Import Prelude Gob Persister RaftState RaftService.
From S2P Require Import ShardConfig ShardBalance ShardCtrler ShardCtrlerSpec ShardCtrlerTest.
Open Scope Z_scope.

(** ** The checks of the tests *)

Definition minimalAfterJoins (npara : Z) (c1 c2 : Config) : Res unit :=
  go_for (λ _ i, go_for (λ _ j,
    o2 ← go_index (Shards c2) (Z.of_nat j);
    if decide (o2 = i) then
      o1 ← go_index (Shards c1) (Z.of_nat j);
      if decide (o1 ≠ i) then Fatal "non-minimal transfer after Join()s" else Ok tt
    else Ok tt) tt (seq 0 (length (Shards c1)))) tt (seqZ 1 npara).

Definition minimalAfterLeaves (npara : Z) (c1 c2 c3 : Config) : Res unit :=
  go_for (λ _ i, go_for (λ _ j,
    o2 ← go_index (Shards c2) (Z.of_nat j);
    if decide (o2 = i) then
      o3 ← go_index (Shards c3) (Z.of_nat j);
      if decide (o3 ≠ i) then Fatal "non-minimal transfer after Leave()s" else Ok tt
    else Ok tt) tt (seq 0 (length (Shards c1)))) tt (seqZ 1 npara).

(** ** Counting the shards of several groups *)

Definition owned (P : Z → Prop) `{!∀ g, Decision (P g)} (shards : list Z) : Z := zlen (filter P shards).

Definition sumCount (gids shards : list Z) : Z := foldr (λ g s, count g shards + s) 0 gids.

Lemma sumCount_owned gids shards : NoDup gids → sumCount gids shards = owned (λ g, g ∈ gids) shards.
Proof.
  intros Hnd. unfold sumCount, owned. induction shards as [|x shards IH].
  - clear. induction gids as [|g gids IH]; cbn; [done|]. rewrite count_nil. cbn in IH. lia.
  - rewrite filter_cons.
    assert (foldr (λ g s, count g (x :: shards) + s) 0 gids =
      (if decide (x ∈ gids) then 1 else 0) + foldr (λ g s, count g shards + s) 0 gids) as ->.
    { clear IH. induction Hnd as [|g gids Hg Hnd IH]; [done|]. cbn [foldr]. rewrite IH, count_cons.
      destruct (decide (x = g)) as [->|Hx].
      - rewrite decide_False, decide_True by (done || left). lia.
      - rewrite (decide_ext (x ∈ g :: gids) (x ∈ gids)) by set_solver. lia. }
    rewrite IH. case_decide; cbn [length]; lia.
Qed.

Lemma sumCount_le gids s s' : (∀ g, g ∈ gids → count g s ≤ count g s') → sumCount gids s ≤ sumCount gids s'.
Proof.
  intros Hle. unfold sumCount. induction gids as [|g gids IH]; cbn; [lia|].
  specialize (Hle g ltac:(left)) as Hg. specialize (IH ltac:(intros; apply Hle; by right)). lia.
Qed.

Lemma sumCount_app l1 l2 s : sumCount (l1 ++ l2) s = sumCount l1 s + sumCount l2 s.
Proof. unfold sumCount. induction l1 as [|g l1 IH]; cbn; lia. Qed.

(** How many shards have another owner. *)
Definition moved (s s' : list Z) : Z := zlen (filter (λ p, p.1 ≠ p.2) (zip s s')).

Lemma moved_ge (P : Z → Prop) `{!∀ g, Decision (P g)} s s' :
  length s = length s' → (∀ g, g ∈ s → ¬ P g) → owned P s' ≤ moved s s'.
Proof.
  unfold owned, moved. revert s'. induction s as [|x s IH]; intros [|x' s'] Hl Hno; cbn in Hl; try done.
  specialize (IH s' ltac:(lia) ltac:(intros; apply Hno; by right)). cbn [zip zip_with]. rewrite !filter_cons.
  pose proof (Hno x ltac:(left)) as Hx. cbn [fst snd]. repeat case_decide; cbn [length]; try lia. congruence.
Qed.

Lemma moved_eq (P : Z → Prop) `{!∀ g, Decision (P g)} s s' :
  length s = length s' → (∀ g, g ∈ s → ¬ P g) →
  (∀ k g, s' !! k = Some g → ¬ P g → s !! k = Some g) → moved s s' = owned P s'.
Proof.
  unfold owned, moved. revert s'. induction s as [|x s IH]; intros [|x' s'] Hl Hno Hk; cbn in Hl; try done.
  specialize (IH s' ltac:(lia) ltac:(intros; apply Hno; by right) (λ k, Hk (S k))). cbn [zip zip_with]. rewrite !filter_cons.
  pose proof (Hno x ltac:(left)) as Hx. pose proof (Hk 0%nat x' eq_refl) as H0. cbn in H0. cbn [fst snd].
  repeat case_decide; cbn [length]; try lia; naive_solver.
Qed.

(** ** Rebalancing after new groups *)

Section rebalance.
Context (old : Z → Prop).

(** The old groups are balanced, the new ones are, and no new one has more
    shards than an old one. *)
Record filling (config : Config) : Prop := mkFilling {
  fl_old : ∀ g g', is_Some (Groups config !! g) → is_Some (Groups config !! g') → old g → old g' →
    count g (Shards config) ≤ count g' (Shards config) + 1;
  fl_new : ∀ g g', is_Some (Groups config !! g) → is_Some (Groups config !! g') → ¬ old g → ¬ old g' →
    count g (Shards config) ≤ count g' (Shards config) + 1;
  fl_below : ∀ g g', is_Some (Groups config !! g) → is_Some (Groups config !! g') → ¬ old g → old g' →
    count g (Shards config) ≤ count g' (Shards config);
}.

Context `{!∀ g, Decision (old g)}.

(** A round moves a shard of an old group to a new one. *)
Lemma round_filling config min minGroup max maxGroup k :
  zlen (Shards config) < 257 → filling config →
  getMinMaxGroup config = (min, minGroup, max, maxGroup) → max - min > 1 →
  Shards config !! k = Some maxGroup → is_Some (Groups config !! minGroup) → is_Some (Groups config !! maxGroup) →
  ¬ old minGroup ∧ filling (config <| Shards := <[k := minGroup]> (Shards config) |>).
Proof using All.
  intros Hlen [Ho Hn Hb] E Hgo Hk Hmin Hmax. pose proof (getMinMaxGroup_extremes config Hlen) as Hext. rewrite E in Hext.
  destruct Hext as (Hall & _ & _ & Hming & Hmaxg).
  assert (count minGroup (Shards config) = min) as Hcm.
  { destruct Hming as [->|[_ ?]]; [|done]. pose proof (count_le maxGroup (Shards config)). destruct Hmaxg as [?|[_ ?]]; lia. }
  assert (count maxGroup (Shards config) = max) as HcM.
  { destruct Hmaxg as [->|[_ ?]]; [|done]. pose proof (count_nonneg minGroup (Shards config)). lia. }
  assert (∀ g, is_Some (Groups config !! g) → min ≤ count g (Shards config) ≤ max) as Hr.
  { intros g Hg. by apply Hall, elem_of_getSortedKeys. }
  assert (¬ old minGroup) as Hnew.
  { intros Hom. destruct (decide (old maxGroup)) as [HoM|HnM].
    - pose proof (Ho maxGroup minGroup Hmax Hmin HoM Hom). lia.
    - pose proof (Hb maxGroup minGroup Hmax Hmin HnM Hom). lia. }
  assert (old maxGroup) as Hold.
  { destruct (decide (old maxGroup)) as [|HnM]; [done|]. pose proof (Hn maxGroup minGroup Hmax Hmin HnM Hnew). lia. }
  split; [done|]. split; config_simpl; intros g g' Hg Hg' Hog Hog'; rewrite !(count_insert _ _ k maxGroup) by done;
    pose proof (Hr g Hg); pose proof (Hr g' Hg').
  - pose proof (Ho g g' Hg Hg' Hog Hog'). pose proof (Ho maxGroup g' Hmax Hg' Hold Hog').
    repeat case_decide; subst; (done || lia).
  - pose proof (Hn g g' Hg Hg' Hog Hog'). pose proof (Hn g minGroup Hg Hmin Hog Hnew). repeat case_decide; subst; (done || lia).
  - pose proof (Hb g g' Hg Hg' Hog Hog'). pose proof (Ho maxGroup g' Hmax Hg' Hold Hog').
    pose proof (Hn g minGroup Hg Hmin Hog Hnew). repeat case_decide; subst; (done || lia).
Qed.

(** So no shard goes to an old group. *)
Lemma redistribute_filling fuel config config' :
  zlen (Shards config) < 257 → filling config → redistribute fuel config = Ok config' →
  filling config' ∧ ∀ k g, Shards config' !! k = Some g → old g → Shards config !! k = Some g.
Proof using All.
  revert config. induction fuel as [|fuel IH]; intros config Hlen Hf Hr; cbn [redistribute] in Hr;
    destruct (getMinMaxGroup config) as [[[min minGroup] max] maxGroup] eqn:E;
    (destruct (decide (max - min > 1)) as [Hgo|Hstop]; [|injection Hr as <-; by split]); [done|].
  destruct (round_spec config _ _ _ _ Hlen E Hgo) as (k & Hk & Hmove & Hin & Hmax & _). rewrite Hmove in Hr.
  destruct (round_filling config min minGroup max maxGroup k Hlen Hf E Hgo Hk Hin Hmax) as [Hnew Hf'].
  edestruct IH as [Hf2 Hkeep]; [|exact Hf'|exact Hr|]; [config_simpl; by rewrite length_insert|]. split; [done|].
  intros j g Hj Hg. specialize (Hkeep j g Hj Hg). config_simpl.
  apply list_lookup_insert_Some in Hkeep as [(_ & <- & _)|[_ ?]]; [done|done].
Qed.
End rebalance.

(** ** Join *)

Lemma sumCount_lt gids s s' : sumCount gids s < sumCount gids s' → ∃ g, g ∈ gids ∧ count g s < count g s'.
Proof.
  intros Hlt. destruct (decide (Forall (λ g, count g s' ≤ count g s) gids)) as [Hall|Hex].
  - rewrite Forall_forall in Hall. pose proof (sumCount_le gids s' s Hall). lia.
  - apply not_Forall_Exists, Exists_exists in Hex as (g & Hg & Hn); [|apply _]. exists g. split; [done|]. cbn in Hn. lia.
Qed.

Lemma sumCount_split (P : Z → Prop) `{!∀ g, Decision (P g)} gids s :
  sumCount gids s = sumCount (filter P gids) s + sumCount (filter (λ g, ¬ P g) gids) s.
Proof.
  induction gids as [|g gids IH]; [done|]. rewrite !filter_cons. unfold sumCount in *. cbn [foldr].
  repeat case_decide; cbn [foldr]; try lia; naive_solver.
Qed.

Lemma owned_ext (P Q : Z → Prop) `{!∀ g, Decision (P g), !∀ g, Decision (Q g)} s :
  (∀ g, g ∈ s → P g ↔ Q g) → owned P s = owned Q s.
Proof.
  intros Hpq. unfold owned. do 2 f_equal. apply filter_ext_in. exact Hpq.
Qed.

Lemma owned_all (P : Z → Prop) `{!∀ g, Decision (P g)} s : (∀ g, g ∈ s → P g) → owned P s = zlen s.
Proof.
  unfold owned. induction s as [|x s IH]; intros Hp; [done|]. rewrite filter_cons, decide_True by (apply Hp; left). cbn [length].
  rewrite !Nat2Z.inj_succ, IH; [done|]. intros. apply Hp. by right.
Qed.

(** Every shard is with a group. *)
Definition served (c : Config) : Prop := ∀ g, g ∈ Shards c → is_Some (Groups c !! g).

Section join.
Context (old : Z → Prop) `{!∀ g, Decision (old g)}.

(** A configuration that is filled up gives the new groups as few shards as
    any balanced one. *)
Lemma filling_fewest c1 c2 :
  Groups c2 = Groups c1 → length (Shards c2) = length (Shards c1) → served c1 → served c2 →
  filling old c1 → balanced c2 → owned (λ g, ¬ old g) (Shards c1) ≤ owned (λ g, ¬ old g) (Shards c2).
Proof using All.
  intros Hg Hl Hs1 Hs2 [_ _ Hb] Hbal. set (keys := getSortedKeys (Groups c1)).
  assert (∀ c, Groups c = Groups c1 → served c → sumCount keys (Shards c) = zlen (Shards c) ∧
    owned (λ g, ¬ old g) (Shards c) = sumCount (filter (λ g, ¬ old g) keys) (Shards c)) as Hsum.
  { intros c Hc Hs. assert (∀ g, g ∈ Shards c → g ∈ keys) as Hin.
    { intros g Hgs. apply elem_of_getSortedKeys. rewrite <- Hc. by apply Hs. }
    rewrite !sumCount_owned by (try apply NoDup_filter; apply getSortedKeys_NoDup). split; [by apply owned_all|].
    apply owned_ext. intros g Hgs. rewrite list_elem_of_filter. specialize (Hin g Hgs). tauto. }
  destruct (Hsum c1 eq_refl Hs1) as [Ht1 ->], (Hsum c2 Hg Hs2) as [Ht2 ->].
  destruct (decide (sumCount (filter (λ g, ¬ old g) keys) (Shards c2) < sumCount (filter (λ g, ¬ old g) keys) (Shards c1)))
    as [Hlt|]; [exfalso|lia].
  rewrite (sumCount_split old) in Ht1, Ht2.
  destruct (sumCount_lt _ _ _ Hlt) as (n & [Hn Hnk]%list_elem_of_filter & Hcn).
  destruct (sumCount_lt (filter old keys) (Shards c1) (Shards c2)) as (o & [Ho Hok]%list_elem_of_filter & Hco); [lia|].
  apply elem_of_getSortedKeys in Hnk, Hok.
  pose proof (Hb n o Hnk Hok Hn Ho). pose proof (Hbal o n) as Hon. rewrite Hg in Hon. specialize (Hon Hok Hnk). lia.
Qed.
End join.

Lemma assignVoidShards_id c : (∀ g, g ∈ Shards c → 0 < g) → assignVoidShards c = c.
Proof.
  intros Hpos. unfold assignVoidShards. destruct (getSortedKeys (Groups c)) as [|x keys]; [done|].
  assert (fillVoid (x :: keys) 0 (Shards c) = Shards c) as ->; [|by destruct c].
  destruct c as [n s m]. config_simpl. apply list_eq. intros k.
  destruct (s !! k) as [g|] eqn:Hk.
  - apply fillVoid_keeps; [done|]. apply Hpos. by eapply list_elem_of_lookup_2.
  - destruct (fillVoid_spec (x :: keys) 0 s) as [Hl _]; [done|cbn; lia|]. apply lookup_ge_None_2. rewrite Hl. by apply lookup_ge_None.
Qed.

(** What the rebalancing makes of a configuration to which groups were
    added. *)
Lemma rebalance_filling old `{!∀ g, Decision (old g)} c c' :
  length (Shards c) = NShards → (∀ g, g ∈ Shards c → 0 < g) → filling old c → rebalance c = Ok c' →
  filling old c' ∧ ∀ k g, Shards c' !! k = Some g → old g → Shards c !! k = Some g.
Proof.
  intros Hl Hpos Hf. unfold rebalance. rewrite assignVoidShards_id by done. case_decide.
  - intros Hr. refine (redistribute_filling old redistributeFuel c c' _ Hf Hr). rewrite Hl. unfold NShards. lia.
  - intros [= <-]. by split.
Qed.

(** C12: a Join moves as few shards as possible.  In a controller whose latest
    configuration is balanced and has every shard with a group, [handleJoin]
    adds a balanced configuration in which no old group gets a shard it did
    not have, and there is no balanced configuration for these groups, with
    every shard with one of them, that moves fewer shards. *)
Theorem Join_moves_fewest st c servers :
  ctrl_ok st → last (Configs st) = Some c → balanced c → served c → (∀ g, g ∈ Shards c → 0 < g) →
  ∃ c', handleJoin servers st = Ok (addConfig c' st) ∧ Groups c' = servers ∪ Groups c ∧ balanced c' ∧ served c' ∧
    (∀ k g, Shards c' !! k = Some g → is_Some (Groups c !! g) → Shards c !! k = Some g) ∧
    ∀ c2, Groups c2 = Groups c' → length (Shards c2) = NShards → served c2 → balanced c2 →
      moved (Shards c) (Shards c') ≤ moved (Shards c) (Shards c2).
Proof.
  intros Hok Hc Hb Hs Hpos. pose proof (co_length _ Hok c (last_elem _ _ Hc)) as Hl.
  destruct (handleJoin_ok st c servers Hok Hc) as (c' & Hj & _ & [_ Hgr Hl' Hb' Has _] & _).
  set (old := λ g, is_Some (Groups c !! g)).
  assert (assigned c) as Ha by (intros g Hg _; by apply Hs).
  assert (Groups c ≠ ∅) as Hne.
  { intros He. destruct (Shards c) as [|g l] eqn:Hsh; [done|]. destruct (Hs g) as [v Hv]; [rewrite Hsh; left|].
    by rewrite He, lookup_empty in Hv. }
  assert (servers ∪ Groups c ≠ ∅) as Hne'.
  { intros He. apply Hne, map_empty. intros g. assert ((servers ∪ Groups c) !! g = None) as Hn by by rewrite He, lookup_empty.
    by apply lookup_union_None in Hn as [_ ?]. }
  pose proof (Has Ha Hne' : served c') as Hs'.
  set (c1 := c <| Num := Num c + 1 |> <| Groups := servers ∪ Groups c |>).
  assert (rebalance c1 = Ok c') as Hreb.
  { unfold handleJoin in Hj. rewrite (makeNextConfig_eq _ _ Hc) in Hj. cbn [mbind Res_bind] in Hj. sc_simpl.
    rewrite (addGroups_any_order servers) in Hj by done. fold c1 in Hj. destruct (rebalance c1) as [c2| |]; cbn in Hj; [|done|done].
    injection Hj as Hj. apply app_inj_tail in Hj as [_ ->]. done. }
  assert (filling old c1) as Hf.
  { assert (∀ g, ¬ old g → count g (Shards c) = 0) as Hz.
    { intros g Hg. unfold count. destruct (filter _ _) as [|x l] eqn:Hfl; [done|]. destruct Hg.
      assert (x ∈ filter (λ x, x = g) (Shards c)) as [-> Hin]%list_elem_of_filter by (rewrite Hfl; left). by apply Hs. }
    split; unfold c1; config_simpl; intros g g' _ _ Hg Hg'; rewrite ?(Hz g), ?(Hz g') by done; try lia; [by apply Hb|].
    pose proof (count_nonneg g' (Shards c)). lia. }
  destruct (rebalance_filling old c1 c' Hl Hpos Hf Hreb) as [Hf' Hkeep]. exists c'. split_and!; [done..|].
  intros c2 Hg2 Hl2 Hs2 Hb2.
  rewrite (moved_eq (λ g, ¬ old g)); [|congruence| |].
  - etrans; [|apply (moved_ge (λ g, ¬ old g)); [congruence|]].
    + apply filling_fewest; [done|congruence|done..].
    + intros g Hg Hn. by apply Hn, Hs.
  - intros g Hg Hn. by apply Hn, Hs.
  - intros k g Hk Hg. apply Hkeep; [done|]. by apply dec_stable.
Qed.

Lemma Join_moves_fewest_witness :
  ∃ c', handleJoin {[ 2 := ["b"] ]} oneGroupState = Ok (addConfig c' oneGroupState) ∧
    Groups c' = {[ 2 := ["b"] ]} ∪ Groups oneGroup ∧ balanced c' ∧ served c' ∧
    (∀ k g, Shards c' !! k = Some g → is_Some (Groups oneGroup !! g) → Shards oneGroup !! k = Some g) ∧
    ∀ c2, Groups c2 = Groups c' → length (Shards c2) = NShards → served c2 → balanced c2 →
      moved (Shards oneGroup) (Shards c') ≤ moved (Shards oneGroup) (Shards c2).
Proof.
  apply (Join_moves_fewest oneGroupState oneGroup {[ 2 := ["b"] ]}).
  - exact oneGroupState_ok.
  - reflexivity.
  - intros g1 g2 H1 H2. cbn in H1, H2. apply lookup_singleton_is_Some in H1, H2. subst. lia.
  - intros g Hg. apply elem_of_replicate in Hg as [-> _]. exists ["a"]. reflexivity.
  - intros g Hg. apply elem_of_replicate in Hg as [-> _]. lia.
Defined.

(** ** Leave *)

(** After three groups have joined, group 1 leaves. *)
Definition threeJoins : list Op :=
  [mkOp 0 0 JOIN {[ 1 := ["x"] ]} [] 0 0 0 7 0; mkOp 0 1 JOIN {[ 2 := ["a"] ]} [] 0 0 0 7 1;
   mkOp 0 2 JOIN {[ 3 := ["b"] ]} [] 0 0 0 7 2].

(** What the controller could have done: every shard of group 1, and no other,
    goes to group 2 or 3. *)
Definition betterLeave : Config := mkConfig 4 [3; 2; 2; 2; 2; 3; 3; 2; 3; 3] ({[ 2 := ["a"] ]} ∪ {[ 3 := ["b"] ]}).

(** A Leave may move more shards than it has to: of three groups, one with
    three of the ten shards leaves, and a shard moves between the two that
    stay, although a balanced configuration keeps theirs. *)
Theorem Leave_moves_remaining :
  ∃ st c c' st', applyOps threeJoins makeState = Ok st ∧ last (Configs st) = Some c ∧
    handleLeave [1] st = Ok st' ∧ last (Configs st') = Some c' ∧
    Shards c !! 1%nat = Some 2 ∧ Shards c' !! 1%nat = Some 3 ∧ is_Some (Groups c' !! 2) ∧
    Groups betterLeave = Groups c' ∧ wanted [2; 3] betterLeave ∧
    moved (Shards c) (Shards betterLeave) < moved (Shards c) (Shards c').
Proof.
  set (st := match applyOps threeJoins makeState with Ok st => st | _ => makeState end).
  set (st' := match handleLeave [1] st with Ok st' => st' | _ => makeState end).
  exists st, (default zeroConfig (last (Configs st))), (default zeroConfig (last (Configs st'))), st'.
  assert (wanted [2; 3] betterLeave) as Hw.
  { destruct (check_exact [2; 3] [3; 2] betterLeave) as [[_ ?]|[(why & Hf) _]]; [cbn; lia|vm_compute; reflexivity|done|].
    by vm_compute in Hf. }
  split; [vm_compute; reflexivity|]. split; [vm_compute; reflexivity|]. split; [vm_compute; reflexivity|].
  split; [vm_compute; reflexivity|]. split; [vm_compute; reflexivity|]. split; [vm_compute; reflexivity|].
  split; [vm_compute; by eexists|]. split; [vm_compute; reflexivity|]. split; [exact Hw|]. vm_compute. reflexivity.
Qed.

(** ** The checks again *)

(** The tests' loops pass whenever no group has a number from 1 to [npara]:
    TestBasic has the groups 100, 110, ..., 190 and 11 to 15, TestMulti 1000 to
    1009 and 11 to 15, and [npara] is 10. *)
Lemma minimal_checks_vacuous npara c1 c2 c3 :
  length (Shards c2) = length (Shards c1) → (∀ g, g ∈ Shards c2 → g ≤ 0 ∨ npara < g) →
  minimalAfterJoins npara c1 c2 = Ok tt ∧ minimalAfterLeaves npara c1 c2 c3 = Ok tt.
Proof.
  intros Hl Hg. unfold minimalAfterJoins, minimalAfterLeaves.
  split; apply go_for_ok; intros i Hi%elem_of_seqZ; apply go_for_ok; intros j Hj%elem_of_seq;
    (destruct (go_index_in_range (Shards c2) (Z.of_nat j)) as (o & -> & Ho); [lia|]); cbn;
    (rewrite decide_False; [done|]); intros ->; apply list_elem_of_lookup_2 in Ho; destruct (Hg i Ho); lia.
Qed.
