(* ===== verification/ShardKv.v ===== *)
(** * The sharded key/value server (code/src/shardkv)

    common.go, util.go, server.go, applyTicker.go, snapshot.go, get.go,
    putAppend.go, acquireShardTicker.go, shardConfigTicker.go and client.go.
    A group of servers replicates a [State]: the configurations it has
    installed, one store per shard, and for each shard the number of the
    configuration its contents belong to ([ShardTimestamp]).  Groups fetch
    shards from one another with the AcquireShards RPC.

    An array [[NShards]int] is a list of ten; maps read with their zero value
    are read with [default].  Channels are modelled as in [KvServer].
    [ShardKvSystem] runs handlers and the apply loop together. *)

From S2P Require Import Prelude Gob Persister RaftState RaftService ShardConfig.
From Stdlib Require Import Ascii.
Open Scope Z_scope.

(** ** common.go *)

Definition OK : string := "OK".
Definition ErrNoKey : string := "ErrNoKey".
Definition ErrWrongGroup : string := "ErrWrongGroup".
Definition ErrWrongLeader : string := "ErrWrongLeader".
Definition ErrNoConfig : string := "ErrNoConfig".
Definition ErrNotUpToDate : string := "ErrNotUpToDate".
Definition ErrTimeout : string := "ErrTimeout".
Definition ErrFiller : string := "ErrFiller".

Definition ASOK : string := "ASOK".
Definition ASBehind : string := "ASBehind".
Definition ASWrongLeader : string := "ASWrongLeader".
Definition ASFiller : string := "ASFiller".

Definition GET : string := "GET".
Definition APPEND : string := "APPEND".
Definition PUT : string := "PUT".
Definition InstallShardConfig : string := "InstallShardConfig".
Definition AcquireShard : string := "AcquireShard".

(** The contents of one shard. *)
Abbreviation KeyValueStore := (gmap string string).

Record Op := mkOp {
  ServerId : Z;
  OpIndex : Z;
  ClientId : Z;
  RequestIndex : Z;
  OpKind : string;
  NeedSendBackCh : bool;
  Key : string;
  Value : string;
  ShardConfig : Config;
  ShardId : Z;
  ShardConfigNum : Z;
  ShardData : KeyValueStore;
  OpClientLastRequest : gmap Z Z;
}.

Record AcquireShardArgs := mkAcquireShardArgs { Gid : Z; ConfigNum : Z; ShardIndex : Z }.

Record AcquireShardReply := mkAcquireShardReply {
  ASR_ConfigNum : Z;
  ASR_ShardTimestamp : Z;
  ASR_Error : string;
  ASR_ShardData : KeyValueStore;
  ASR_ClientLastRequest : gmap Z Z;
}.

Record State := mkState {
  AllConfigs : list Config;
  LatestConfig : Config;
  ShardKVStore : gmap Z KeyValueStore;
  ShardTimestamp : gmap Z Z;
  ClientLastRequest : gmap Z Z;
}.
#[export] Instance State_eta : Settable State := λ s,
  mkState (AllConfigs s) (LatestConfig s) (ShardKVStore s) (ShardTimestamp s) (ClientLastRequest s).
#[export] Instance set_AllConfigs : Setter AllConfigs := ltac:(derive_setter).
#[export] Instance set_LatestConfig : Setter LatestConfig := ltac:(derive_setter).
#[export] Instance set_ShardKVStore : Setter ShardKVStore := ltac:(derive_setter).
#[export] Instance set_ShardTimestamp : Setter ShardTimestamp := ltac:(derive_setter).
#[export] Instance set_ClientLastRequest : Setter ClientLastRequest := ltac:(derive_setter).
#[export] Instance State_eq_dec : EqDecision State.
Proof. solve_decision. Defined.
#[export] Instance State_countable : Countable State.
Proof.
  refine (inj_countable'
    (λ s, (AllConfigs s, LatestConfig s, ShardKVStore s, ShardTimestamp s, ClientLastRequest s))
    (λ p, let '(a, b, c, d, e) := p in mkState a b c d e) _).
  by intros [].
Defined.

Record KVReplyMsg := mkKVReplyMsg { Error : string; ReplyValue : string }.

Record OpKVReplyChannel := mkOpKVReplyChannel { Operation : Op; ReplyChannel : nat }.

Record ShardKV (R : Type) := mkShardKV {
  me : Z;
  rf : R;
  gid : Z;
  maxraftstate : Z;
  state : State;
  startChannels : gmap Z (gmap Z OpKVReplyChannel);
  channels : list bool;
}.
Arguments mkShardKV {R}.
Arguments me {R}.
Arguments rf {R}.
Arguments gid {R}.
Arguments maxraftstate {R}.
Arguments state {R}.
Arguments startChannels {R}.
Arguments channels {R}.
#[export] Instance ShardKV_eta {R} : Settable (ShardKV R) := λ kv,
  mkShardKV (me kv) (rf kv) (gid kv) (maxraftstate kv) (state kv) (startChannels kv) (channels kv).
#[export] Instance set_skv_rf {R} : Setter (@rf R) := ltac:(derive_setter).
#[export] Instance set_skv_state {R} : Setter (@state R) := ltac:(derive_setter).
#[export] Instance set_skv_startChannels {R} : Setter (@startChannels R) := ltac:(derive_setter).
#[export] Instance set_skv_channels {R} : Setter (@channels R) := ltac:(derive_setter).

Ltac skv_simpl :=
  cbn [setf set_AllConfigs set_LatestConfig set_ShardKVStore set_ShardTimestamp
       set_ClientLastRequest set_skv_rf set_skv_state set_skv_startChannels set_skv_channels
       AllConfigs LatestConfig ShardKVStore ShardTimestamp ClientLastRequest
       me rf gid maxraftstate state startChannels channels Error ReplyValue fst snd] in *.

Definition makeState : State := mkState [zeroConfig] zeroConfig ∅ ∅ ∅.

(** ** util.go, client.go: the state *)

Definition key2shard (key : string) : Z :=
  match key with
  | EmptyString => 0
  | String a _ => Z.of_nat (nat_of_ascii a) mod Z.of_nat NShards
  end.

(** [config.Shards[sid]]. *)
Definition owner (c : Config) (sid : Z) : Z := default 0 (Shards c !! Z.to_nat sid).

Definition clientLastRequestClone (source : gmap Z Z) : gmap Z Z :=
  foldl (λ r kv, <[kv.1 := kv.2]> r) ∅ (map_to_list source).

Definition createEmptyKeyValueStore : KeyValueStore := ∅.

Definition cloneStore (kvStore : KeyValueStore) : KeyValueStore :=
  foldl (λ r kv, <[kv.1 := kv.2]> r) ∅ (map_to_list kvStore).

Definition timestamp (st : State) (sid : Z) : Z := default 0 (ShardTimestamp st !! sid).

Definition isDuplicateOp (op : Op) (st : State) : bool :=
  match ClientLastRequest st !! ClientId op with
  | Some lastRequestIndex =>
      if decide (RequestIndex op ≤ lastRequestIndex) then true else false
  | None => false
  end.

Definition getValueWithKey (key : string) (st : State) : option string :=
  store ← ShardKVStore st !! key2shard key;
  (store : KeyValueStore) !! key.

Definition getValue (op : Op) (st : State) : Res (string * string) :=
  if decide (OpKind op ≠ GET) then Fatal "In geValue(), op type not GET"
  else match getValueWithKey (Key op) st with
       | Some val => Ok (val, OK)
       | None => Ok ("", ErrNoKey)
       end.

Definition setKeyValue (key value : string) (st : State) : State :=
  let store := default ∅ (ShardKVStore st !! key2shard key) in
  st <| ShardKVStore := <[key2shard key := <[key := value]> store]> (ShardKVStore st) |>.

Definition containShard (g : Z) (key : string) (st : State) : Res bool :=
  if decide (Num (LatestConfig st) = 0) then Fatal "Haven't receive config yet"
  else Ok (bool_decide (owner (LatestConfig st) (key2shard key) = g)).

Definition curShardUpToDate (g : Z) (sid : Z) (st : State) : Res bool :=
  if decide (owner (LatestConfig st) sid ≠ g)
  then Fatal "In curShardUpToDate(), not for this group"
  else Ok (bool_decide (timestamp st sid >= Num (LatestConfig st))).

(** [for sid, curGid := range Shards]. *)
Definition shardIds : list Z := seqZ 0 (Z.of_nat NShards).

Definition allShardsUpToDate (g : Z) (st : State) : Res (list Z * bool) :=
  go_for (λ acc sid,
    if decide (owner (LatestConfig st) sid = g) then
      upToDate ← curShardUpToDate g sid st;
      Ok (if upToDate : bool then acc else (acc.1 ++ [sid], false))
    else Ok acc) ([], true) shardIds.

(** ** The replicated state machine (applyTicker.go) *)

Definition handleInstallShardConfig (g : Z) (op : Op) (st : State) : State :=
  let newConfig := ShardConfig op in
  if decide (Num newConfig ≠ Num (LatestConfig st) + 1) then st
  else
    let oldConfig := LatestConfig st in
    let st := st <| LatestConfig := newConfig |> <| AllConfigs := AllConfigs st ++ [newConfig] |> in
    if decide (Num (LatestConfig st) = 1) then
      foldl (λ st i,
        st <| ShardTimestamp := <[i := if decide (owner (LatestConfig st) i = g)
                                       then Num (LatestConfig st) else 0]> (ShardTimestamp st) |>
           <| ShardKVStore := <[i := createEmptyKeyValueStore]> (ShardKVStore st) |>) st shardIds
    else
      foldl (λ st i,
        if decide (owner (LatestConfig st) i = g ∧ owner oldConfig i = g)
        then st <| ShardTimestamp := <[i := Num (LatestConfig st)]> (ShardTimestamp st) |>
        else st) st shardIds.

(** Reading an absent client gives 0. *)
Definition mergeLastRequest (last : gmap Z Z) (kv : Z * Z) : gmap Z Z :=
  if decide (default 0 (last !! kv.1) < kv.2) then <[kv.1 := kv.2]> last else last.

Definition handleAcquireShard (op : Op) (st : State) : State :=
  let st :=
    if decide (ShardConfigNum op > timestamp st (ShardId op)) then
      st <| ShardTimestamp := <[ShardId op := ShardConfigNum op]> (ShardTimestamp st) |>
         <| ShardKVStore := <[ShardId op := cloneStore (ShardData op)]> (ShardKVStore st) |>
    else st in
  st <| ClientLastRequest :=
        foldl mergeLastRequest (ClientLastRequest st) (map_to_list (OpClientLastRequest op)) |>.

(** [kv.setKeyValue], read back and checked. *)
Definition setChecked (key value : string) (st : State) : Res State :=
  let st := setKeyValue key value st in
  if decide (default "" (getValueWithKey key st) ≠ value)
  then Fatal "In apply ticker, set value does not work!"
  else Ok st.

(** A Get, Put or Append that passed the checks. *)
Definition applyClient (op : Op) (st : State) : Res (State * KVReplyMsg) :=
  let st := st <| ClientLastRequest := <[ClientId op := RequestIndex op]> (ClientLastRequest st) |> in
  if decide (OpKind op = GET) then
    '(v, e) ← getValue op st; Ok (st, mkKVReplyMsg e v)
  else if decide (OpKind op = PUT) then
    st ← setChecked (Key op) (Value op) st; Ok (st, mkKVReplyMsg OK "")
  else if decide (OpKind op = APPEND) then
    st ← setChecked (Key op)
           (match getValueWithKey (Key op) st with
            | Some val => (val ++ Value op)%string
            | None => Value op
            end) st;
    Ok (st, mkKVReplyMsg OK "")
  else Fatal "op.Type not in [GET, PUT, APPEND]".

(** The first part of [handleCommandApply]. *)
Definition applyOp (g : Z) (op : Op) (st : State) : Res (State * KVReplyMsg) :=
  if negb (NeedSendBackCh op) then
    if decide (OpKind op = InstallShardConfig) then
      Ok (handleInstallShardConfig g op st, mkKVReplyMsg ErrFiller "")
    else if decide (OpKind op = AcquireShard) then
      Ok (handleAcquireShard op st, mkKVReplyMsg ErrFiller "")
    else Fatal "op.Type not in [InstallShardConfig, AcquireShard]"
  else
    let targetShard := key2shard (Key op) in
    let targetGroup := owner (LatestConfig st) targetShard in
    if decide (g ≠ targetGroup) then Ok (st, mkKVReplyMsg ErrWrongGroup "")
    else
      '(_, allUpToDate) ← allShardsUpToDate g st;
      if negb allUpToDate then Ok (st, mkKVReplyMsg ErrNotUpToDate "")
      else if isDuplicateOp op st then
        if decide (OpKind op = GET) then
          '(v, e) ← getValue op st; Ok (st, mkKVReplyMsg e v)
        else Ok (st, mkKVReplyMsg OK "")
      else applyClient op st.

Section shard_kv.
Context {R : Type} `{!RaftService R Op} `{!LabGob State}.
Implicit Types kv : ShardKV R.

Definition asOp (c : Iface Op) : Res Op :=
  match c with ICmd op => Ok op | _ => Panic "interface conversion" end.

Definition Kill (kv : ShardKV R) : ShardKV R := kv <| rf := rs_Kill (rf kv) |>.

(** ** Channels (util.go) *)

Definition createStartCh (op : Op) (kv : ShardKV R) : ShardKV R * OpKVReplyChannel :=
  let chans := default ∅ (startChannels kv !! ClientId op) in
  let opChannel := mkOpKVReplyChannel op (length (channels kv)) in
  (kv <| startChannels :=
           <[ClientId op := <[RequestIndex op := opChannel]> chans]> (startChannels kv) |>
      <| channels := channels kv ++ [false] |>, opChannel).

Definition getStartCh (op : Op) (kv : ShardKV R) : option OpKVReplyChannel :=
  clientMap ← startChannels kv !! ClientId op;
  clientMap !! RequestIndex op.

Definition close (ch : nat) (kv : ShardKV R) : Res (ShardKV R) :=
  match channels kv !! ch with
  | Some false => Ok (kv <| channels := <[ch := true]> (channels kv) |>)
  | _ => Panic "close of closed channel"
  end.

Definition deleteStartCh (op : Op) (kv : ShardKV R) : Res (ShardKV R) :=
  match startChannels kv !! ClientId op with
  | None => Ok kv
  | Some clientMap =>
      match clientMap !! RequestIndex op with
      | None => Ok kv
      | Some startCh =>
          kv ← close (ReplyChannel startCh) kv;
          Ok (kv <| startChannels :=
                <[ClientId op := delete (RequestIndex op) clientMap]> (startChannels kv) |>)
      end
  end.

(** ** Snapshots (snapshot.go) *)

Definition makeSnapshot (kv : ShardKV R) : bytes := gob_encode (state kv).

Definition readSnapshot (data : bytes) : Res State :=
  match gob_decode data with
  | None => Fatal "read persist error"
  | Some newState => Ok newState
  end.

Definition installSnapshot (data : bytes) (kv : ShardKV R) : Res (ShardKV R) :=
  match data with
  | [] => Ok kv
  | _ => st ← readSnapshot data; Ok (kv <| state := st |>)
  end.

(** ** Applying (applyTicker.go) *)

Definition opChannelMatch (op : Op) (kv : ShardKV R) : bool :=
  if decide (ServerId op ≠ me kv) then false
  else match getStartCh op kv with
       | None => false
       | Some startCh =>
           let originalOp := Operation startCh in
           if decide (Key originalOp ≠ Key op ∨ Value originalOp ≠ Value op ∨
                      OpKind originalOp ≠ OpKind op ∨ ClientId originalOp ≠ ClientId op ∨
                      RequestIndex originalOp ≠ RequestIndex op)
           then false else true
       end.

Record Sending := mkSending { toChannel : nat; message : KVReplyMsg; sentOp : Op }.

Definition signalStartCh (op : Op) (replyMsg : KVReplyMsg) (kv : ShardKV R) : Res (option Sending) :=
  if decide (¬ (OpKind op = GET ∨ OpKind op = PUT ∨ OpKind op = APPEND))
  then Fatal "In signalStartCh, operation type not in [GET, PUT, APPEND]."
  else Ok (match getStartCh op kv with
           | None => None
           | Some startCh => Some (mkSending (ReplyChannel startCh) replyMsg op)
           end).

Definition handleCommandApply (m : ApplyMsg Op) (kv : ShardKV R)
    : Res (ShardKV R * option Sending) :=
  op ← asOp (Command m);
  '(st, replyMsg) ← applyOp (gid kv) op (state kv);
  let kv := kv <| state := st |> in
  kv ← (if decide (maxraftstate kv ≠ -1 ∧
              (NeedSendBackCh op = false ∨ rs_RaftStateSize (rf kv) >= maxraftstate kv)) then
          rf' ← rs_Snapshot (CommandIndex m) (makeSnapshot kv) (rf kv);
          Ok (kv <| rf := rf' |>)
        else Ok kv);
  let replyMsg := if (rs_GetState (rf kv)).2 then replyMsg
                  else mkKVReplyMsg ErrWrongLeader (ReplyValue replyMsg) in
  s ← (if NeedSendBackCh op && opChannelMatch op kv then signalStartCh op replyMsg kv
       else Ok None);
  Ok (kv, s).

Definition handleApplyMessage (m : ApplyMsg Op) (kv : ShardKV R)
    : Res (ShardKV R * option Sending) :=
  if SnapshotValid m then
    if rs_CondInstallSnapshot (SnapshotTerm m) (SnapshotIndex m) (Snapshot m) (rf kv)
    then (kv ← installSnapshot (Snapshot m) kv; Ok (kv, None))
    else Ok (kv, None)
  else if CommandValid m then handleCommandApply m kv
  else if decide (CommandIndex m ≠ 0)
  then Panic "not snapshot, not command, and index not 0"
  else Ok (kv, None).

(** ** The handlers (get.go, putAppend.go) *)

Record GetArgs := mkGetArgs { GA_Key : string; GA_ClientId : Z; GA_RequestIndex : Z }.

Record PutAppendArgs := mkPutAppendArgs {
  PA_Key : string; PA_Value : string; PA_Op : string; PA_ClientId : Z; PA_RequestIndex : Z }.

Definition clientOp (kv : ShardKV R) (kind key value : string) (client index : Z) : Op :=
  mkOp (me kv) 0 client index kind true key value zeroConfig 0 0 ∅ ∅.

Definition createGetOp (args : GetArgs) (kv : ShardKV R) : Op :=
  clientOp kv GET (GA_Key args) "" (GA_ClientId args) (GA_RequestIndex args).

Definition createPutAppendOp (args : PutAppendArgs) (kv : ShardKV R) : Op :=
  clientOp kv (PA_Op args) (PA_Key args) (PA_Value args) (PA_ClientId args) (PA_RequestIndex args).

(** The checks of [preGetStart] and [prePutAppendStart]: the error to reply
    with, if any. *)
Definition preCheck (key : string) (kv : ShardKV R) : Res (option string) :=
  if decide (Num (LatestConfig (state kv)) = 0) then Ok (Some ErrNoConfig)
  else if decide (gid kv ≠ owner (LatestConfig (state kv)) (key2shard key))
  then Ok (Some ErrWrongGroup)
  else
    '(_, allUpToDate) ← allShardsUpToDate (gid kv) (state kv);
    if negb allUpToDate then Ok (Some ErrNotUpToDate) else Ok None.

(** An error to reply with, or the operation to start and its channel. *)
Definition preGetStart (args : GetArgs) (kv : ShardKV R)
    : Res (ShardKV R * (string + Op * OpKVReplyChannel)) :=
  err ← preCheck (GA_Key args) kv;
  match err with
  | Some e => Ok (kv, inl e)
  | None =>
      let op := createGetOp args kv in
      let '(kv, startCh) := createStartCh op kv in Ok (kv, inr (op, startCh))
  end.

Definition prePutAppendStart (args : PutAppendArgs) (kv : ShardKV R)
    : Res (ShardKV R * (string + Op * OpKVReplyChannel)) :=
  err ← preCheck (PA_Key args) kv;
  match err with
  | Some e => Ok (kv, inl e)
  | None =>
      let op := createPutAppendOp args kv in
      let '(kv, startCh) := createStartCh op kv in Ok (kv, inr (op, startCh))
  end.

Definition handleGetResult (op : Op) (responseMsg : KVReplyMsg) (kv : ShardKV R)
    : Res (ShardKV R * KVReplyMsg) :=
  kv ← deleteStartCh op kv;
  if decide (Error responseMsg = ErrFiller)
  then Fatal "In handleGetResult(), response error is ErrFiller, which should not be"
  else Ok (kv, responseMsg).

Definition handlePutAppendResult (op : Op) (responseMsg : KVReplyMsg) (kv : ShardKV R)
    : Res (ShardKV R * string) :=
  kv ← deleteStartCh op kv;
  if decide (Error responseMsg = ErrFiller)
  then Fatal "In handlePutAppendResult(), response error is ErrFiller, which should not be"
  else Ok (kv, Error responseMsg).

Definition getTimeout (op : Op) (kv : ShardKV R) : Res (ShardKV R * string) :=
  kv ← deleteStartCh op kv; Ok (kv, ErrTimeout).

Definition putAppendTimeout (op : Op) (kv : ShardKV R) : Res (ShardKV R * string) :=
  kv ← deleteStartCh op kv; Ok (kv, ErrTimeout).

(** The handlers, up to the [select] on the channel, run without interruption
    (the lock is free between the checks, [preGetStart] and [Start]): a reply,
    or the operation to wait for.  [serverGetEnd] and [serverPutAppendEnd] are
    the two cases of the [select]: a message, or the time-out. *)
Definition startOp (op : Op) (startCh : OpKVReplyChannel) (kv : ShardKV R)
    : Res (ShardKV R * (string + Op * OpKVReplyChannel)) :=
  let '(rf', (_, _, isLeader)) := rs_Start (ICmd op) (rf kv) in
  let kv := kv <| rf := rf' |> in
  if negb isLeader then kv ← deleteStartCh op kv; Ok (kv, inl ErrWrongLeader)
  else Ok (kv, inr (op, startCh)).

Definition serverGet (args : GetArgs) (kv : ShardKV R)
    : Res (ShardKV R * (string + Op * OpKVReplyChannel)) :=
  if negb (rs_GetState (rf kv)).2 then Ok (kv, inl ErrWrongLeader)
  else
    '(kv, r) ← preGetStart args kv;
    match r with
    | inl e => Ok (kv, inl e)
    | inr (op, startCh) => startOp op startCh kv
    end.

Definition serverPutAppend (args : PutAppendArgs) (kv : ShardKV R)
    : Res (ShardKV R * (string + Op * OpKVReplyChannel)) :=
  if negb (rs_GetState (rf kv)).2 then Ok (kv, inl ErrWrongLeader)
  else
    '(kv, r) ← prePutAppendStart args kv;
    match r with
    | inl e => Ok (kv, inl e)
    | inr (op, startCh) => startOp op startCh kv
    end.

Definition serverGetEnd (op : Op) (response : option KVReplyMsg) (kv : ShardKV R)
    : Res (ShardKV R * KVReplyMsg) :=
  match response with
  | Some responseMsg => handleGetResult op responseMsg kv
  | None => '(kv, e) ← getTimeout op kv; Ok (kv, mkKVReplyMsg e "")
  end.

Definition serverPutAppendEnd (op : Op) (response : option KVReplyMsg) (kv : ShardKV R)
    : Res (ShardKV R * string) :=
  match response with
  | Some responseMsg => handlePutAppendResult op responseMsg kv
  | None => putAppendTimeout op kv
  end.

(** ** Moving shards (acquireShardTicker.go) *)

(** The handler of the RPC.  The check of the shard's own time stamp is
    commented out. *)
Definition AcquireShards (args : AcquireShardArgs) (kv : ShardKV R) : AcquireShardReply :=
  let st := state kv in
  if negb (rs_GetState (rf kv)).2 then mkAcquireShardReply 0 0 ASWrongLeader ∅ ∅
  else if decide (Num (LatestConfig st) = 0 ∨ Num (LatestConfig st) < ConfigNum args)
  then mkAcquireShardReply 0 0 ASBehind ∅ ∅
  else mkAcquireShardReply (Num (LatestConfig st)) (timestamp st (ShardIndex args)) ASOK
         (cloneStore (default ∅ (ShardKVStore st !! ShardIndex args)))
         (clientLastRequestClone (ClientLastRequest st)).

Definition createAcquireShards (sid : Z) (targetConfig : Config) (kv : ShardKV R) : AcquireShardArgs :=
  mkAcquireShardArgs (gid kv) (Num targetConfig) sid.

Definition createAcquireShardOp (sid : Z) (reply : AcquireShardReply) (kv : ShardKV R) : Op :=
  mkOp (me kv) 0 0 0 AcquireShard false "" "" zeroConfig sid (ASR_ConfigNum reply)
    (ASR_ShardData reply) (ASR_ClientLastRequest reply).

Definition handleAcquireShardReply (sid : Z) (reply : AcquireShardReply) (kv : ShardKV R) : ShardKV R :=
  if (rs_GetState (rf kv)).2
  then kv <| rf := (rs_Start (ICmd (createAcquireShardOp sid reply kv)) (rf kv)).1 |>
  else kv.

(** The loop of [acquireShards] over the servers of the previous owner, each
    call answered by an oracle; the reply to start an operation with. *)
Fixpoint acquireLoop (call : string → option AcquireShardReply) (servers : list string)
    : Res (option AcquireShardReply) :=
  match servers with
  | [] => Ok None
  | srv :: servers =>
      match call srv with
      | Some reply =>
          if decide (ASR_Error reply = ASFiller)
          then Fatal "In acquireShards(), reply.Error is ASFiller, shall not happen"
          else if decide (ASR_Error reply = ASOK) then Ok (Some reply)
          else acquireLoop call servers
      | None => acquireLoop call servers
      end
  end.

Definition acquireShards (call : AcquireShardArgs → string → option AcquireShardReply)
    (sid : Z) (targetConfig : Config) (kv : ShardKV R) : Res (ShardKV R) :=
  let args := createAcquireShards sid targetConfig kv in
  let servers := default [] (Groups targetConfig !! owner targetConfig sid) in
  reply ← acquireLoop (call args) servers;
  Ok (match reply with Some reply => handleAcquireShardReply sid reply kv | None => kv end).

(** One firing of the ticker: the calls of [acquireShards] it starts. *)
Definition acquireShardTicker (kv : ShardKV R) : Res (list (Z * Config)) :=
  if negb (rs_GetState (rf kv)).2 then Ok []
  else
    '(laggingShards, allShardsSynced) ← allShardsUpToDate (gid kv) (state kv);
    if negb allShardsSynced then
      targetConfig ← go_index (AllConfigs (state kv)) (zlen (AllConfigs (state kv)) - 2);
      Ok (map (λ sid, (sid, targetConfig)) laggingShards)
    else Ok [].

(** ** New configurations (shardConfigTicker.go) *)

Definition createInstallShardConfigOp (shardConfig : Config) (kv : ShardKV R) : Op :=
  mkOp (me kv) 0 0 0 InstallShardConfig false "" "" shardConfig 0 0 ∅ ∅.

(** One firing of the ticker; [query] is the controller's answer. *)
Definition shardConfigTicker (query : Z → Config) (kv : ShardKV R) : Res (ShardKV R) :=
  if negb (rs_GetState (rf kv)).2 then Ok kv
  else
    '(_, allUpToDate) ← allShardsUpToDate (gid kv) (state kv);
    if negb allUpToDate then Ok kv
    else
      let newConfig := query (Num (LatestConfig (state kv)) + 1) in
      if decide (Num newConfig ≠ Num (LatestConfig (state kv)) + 1) then Ok kv
      else if (rs_GetState (rf kv)).2
      then Ok (kv <| rf := (rs_Start (ICmd (createInstallShardConfigOp newConfig kv)) (rf kv)).1 |>)
      else Ok kv.

(** ** Start (server.go) *)

Definition StartServer (me : Z) (rf : R) (maxraftstate gid : Z) : ShardKV R :=
  mkShardKV me rf gid maxraftstate makeState ∅ [].
End shard_kv.

(** ** The clerk (client.go, and the client side of get.go, putAppend.go) *)

Record Clerk := mkClerk { config : Config; clerkRandomId : Z; requestIndex : Z }.

Definition createGetArgs (key : string) (ck : Clerk) : Clerk * GetArgs :=
  (mkClerk (config ck) (clerkRandomId ck) (requestIndex ck + 1),
   mkGetArgs key (clerkRandomId ck) (requestIndex ck)).

Definition createPutAppendArgs (key value op : string) (ck : Clerk) : Clerk * PutAppendArgs :=
  (mkClerk (config ck) (clerkRandomId ck) (requestIndex ck + 1),
   mkPutAppendArgs key value op (clerkRandomId ck) (requestIndex ck)).

(** The servers of a group tried in order; [Some v]: return [v]. *)
Fixpoint tryGroup (call : string → option KVReplyMsg) (accept : string → bool)
    (servers : list string) : option KVReplyMsg :=
  match servers with
  | [] => None
  | srv :: servers =>
      match call srv with
      | Some reply =>
          if accept (Error reply) then Some reply
          else if decide (Error reply = ErrWrongGroup) then None
          else tryGroup call accept servers
      | None => tryGroup call accept servers
      end
  end.

(** The [for] loop; the calls and the controller's answers are oracles
    indexed by the iteration. *)
Fixpoint clerkLoop (call : nat → string → option KVReplyMsg) (query : nat → Config)
    (accept : string → bool) (fuel n : nat) (key : string) (ck : Clerk)
    : Clerk * option KVReplyMsg :=
  match fuel with
  | O => (ck, None)
  | S fuel =>
      let servers := Groups (config ck) !! owner (config ck) (key2shard key) in
      match (match servers with
             | Some servers => tryGroup (call n) accept servers
             | None => None
             end) with
      | Some reply => (ck, Some reply)
      | None =>
          clerkLoop call query accept fuel (S n) key
            (mkClerk (query n) (clerkRandomId ck) (requestIndex ck))
      end
  end.

Definition Get (call : GetArgs → nat → string → option KVReplyMsg) (query : nat → Config)
    (fuel : nat) (key : string) (ck : Clerk) : Clerk * option KVReplyMsg :=
  let '(ck, args) := createGetArgs key ck in
  clerkLoop (call args) query (λ e, bool_decide (e = OK ∨ e = ErrNoKey)) fuel 0 key ck.

Definition PutAppend (call : PutAppendArgs → nat → string → option KVReplyMsg)
    (query : nat → Config) (fuel : nat) (key value op : string) (ck : Clerk)
    : Clerk * option KVReplyMsg :=
  let '(ck, args) := createPutAppendArgs key value op ck in
  clerkLoop (call args) query (λ e, bool_decide (e = OK)) fuel 0 key ck.

Definition Put call query fuel key value ck := PutAppend call query fuel key value PUT ck.
Definition Append call query fuel key value ck := PutAppend call query fuel key value APPEND ck.

(** [ck.sm] and [ck.make_end] are the oracles; [lastLeaderServer] is never
    used.  The configuration is the zero value until the first Query. *)
Definition MakeClerk (rand : Z) : Clerk := mkClerk zeroConfig rand 0.
