(* ===== verification/ShardKvSpec.v ===== *)
(** * The sharded server is correct, and where it is not

    What a group's replicated machine promises for a client's operation
    ([client_op_served_by_owner]), the history of installed configurations
    ([configs_in_order]), the choice of shards to fetch
    ([acquire_ticker_targets_previous]) and the transfer of a shard's contents
    ([transfer_copies_shard]).  Three runs, evaluated, in which acknowledged
    writes are lost or an append is executed twice. *)

From S2P Require Import Prelude Gob Persister RaftState RaftService ShardConfig ShardKv.
Open Scope Z_scope.

(** ** Shards behind the configuration *)

(** Owned by the group, contents older than the configuration. *)
Definition lagging (g : Z) (st : State) : list Z :=
  filter (λ sid, owner (LatestConfig st) sid = g ∧ timestamp st sid < Num (LatestConfig st)) shardIds.

Lemma allShardsUpToDate_eq g st :
  allShardsUpToDate g st = Ok (lagging g st, bool_decide (lagging g st = [])).
Proof.
  unfold allShardsUpToDate, lagging.
  rewrite (go_for_foldl _ (λ acc sid,
    if decide (owner (LatestConfig st) sid = g ∧ timestamp st sid < Num (LatestConfig st))
    then (acc.1 ++ [sid], false) else acc)).
  - generalize shardIds. intros l. f_equal.
    cut (∀ acc : list Z * bool, acc.2 = bool_decide (acc.1 = []) →
      foldl (λ acc sid,
        if decide (owner (LatestConfig st) sid = g ∧ timestamp st sid < Num (LatestConfig st))
        then (acc.1 ++ [sid], false) else acc) acc l =
      let r := acc.1 ++ filter (λ sid, owner (LatestConfig st) sid = g ∧
                 timestamp st sid < Num (LatestConfig st)) l in (r, bool_decide (r = []))).
    { intros Hc. by rewrite (Hc ([], true)). }
    induction l as [|sid l IH]; intros [r b] Hb; cbn [foldl fst snd] in *.
    + rewrite filter_nil, app_nil_r. by rewrite Hb.
    + rewrite filter_cons. case_decide.
      * rewrite IH; cbn [fst snd]; [by rewrite <- app_assoc|]. by rewrite bool_decide_false by (by destruct r).
      * by rewrite IH.
  - intros [r b] sid _. unfold curShardUpToDate. case_decide as Ho; cbn.
    + rewrite decide_False by (intros Hn; done). cbn.
      case_bool_decide.
      * rewrite decide_False by lia. done.
      * rewrite decide_True by (split; [done|lia]). done.
    + rewrite decide_False by (intros []; done). done.
Qed.

Lemma lagging_nil g st :
  lagging g st = [] ↔
  ∀ sid, sid ∈ shardIds → owner (LatestConfig st) sid = g → Num (LatestConfig st) ≤ timestamp st sid.
Proof.
  split.
  - intros Hn sid Hs Ho. destruct (decide (Num (LatestConfig st) ≤ timestamp st sid)); [done|].
    assert (sid ∈ lagging g st) as Hin by (apply list_elem_of_filter; split; [split|]; [done|lia|done]).
    rewrite Hn in Hin. by apply elem_of_nil in Hin.
  - intros Hall. destruct (lagging g st) as [|sid l] eqn:E; [done|exfalso].
    assert (sid ∈ lagging g st) as [[Ho Ht] Hs]%list_elem_of_filter by (rewrite E; left).
    specialize (Hall sid Hs Ho). lia.
Qed.

(** ** Copies *)

Lemma cloneStore_eq s : cloneStore s = s.
Proof. unfold cloneStore. rewrite (range_insert s ∅) by done. by rewrite map_union_empty. Qed.

Lemma clientLastRequestClone_eq m : clientLastRequestClone m = m.
Proof. unfold clientLastRequestClone. rewrite (range_insert m ∅) by done. by rewrite map_union_empty. Qed.

(** ** Reading and writing keys *)

Lemma getValueWithKey_set k v st k' :
  getValueWithKey k' (setKeyValue k v st) =
  if decide (k' = k) then Some v else getValueWithKey k' st.
Proof.
  unfold getValueWithKey, setKeyValue. skv_simpl.
  destruct (decide (key2shard k' = key2shard k)) as [E|Hne].
  - rewrite E, lookup_insert_eq. cbn. case_decide as Hk.
    + subst. by rewrite lookup_insert_eq.
    + rewrite lookup_insert_ne by done. destruct (ShardKVStore st !! key2shard k); cbn; [done|].
      by rewrite lookup_empty.
  - rewrite lookup_insert_ne by done. rewrite decide_False; [done|]. intros ->. done.
Qed.

Lemma setChecked_Ok k v st : setChecked k v st = Ok (setKeyValue k v st).
Proof.
  unfold setChecked. case_decide as Hn; [|done]. exfalso. apply Hn.
  rewrite getValueWithKey_set. by case_decide.
Qed.

Lemma setKeyValue_config k v st :
  AllConfigs (setKeyValue k v st) = AllConfigs st ∧
  LatestConfig (setKeyValue k v st) = LatestConfig st ∧
  ShardTimestamp (setKeyValue k v st) = ShardTimestamp st ∧
  ClientLastRequest (setKeyValue k v st) = ClientLastRequest st.
Proof. done. Qed.

(** ** A client's operation *)

(** The value a key has after an operation is executed. *)
Definition effect (op : Op) (old : option string) : option string :=
  if decide (OpKind op = GET) then old
  else if decide (OpKind op = PUT) then Some (Value op)
  else Some (match old with Some v => (v ++ Value op)%string | None => Value op end).

(** The reply to an operation that is served, from the value the key has. *)
Definition reply_of (op : Op) (v : option string) : KVReplyMsg :=
  if decide (OpKind op = GET) then
    match v with Some v => mkKVReplyMsg OK v | None => mkKVReplyMsg ErrNoKey "" end
  else mkKVReplyMsg OK "".

Definition client_kind (op : Op) : Prop := OpKind op = GET ∨ OpKind op = PUT ∨ OpKind op = APPEND.

Lemma getValue_Ok op st :
  OpKind op = GET →
  ('(v, e) ← getValue op st; Ok (st, mkKVReplyMsg e v)) =
  Ok (st, reply_of op (getValueWithKey (Key op) st)).
Proof.
  intros Hk. unfold getValue, reply_of. rewrite decide_False by (intros Hn; done).
  rewrite decide_True by done. by destruct (getValueWithKey (Key op) st).
Qed.

Lemma getValueWithKey_clients m st k :
  getValueWithKey k (st <| ClientLastRequest := m |>) = getValueWithKey k st.
Proof. done. Qed.

(** Executing an operation writes one key, or none. *)
Lemma applyClient_Ok op st :
  client_kind op →
  ∃ st', applyClient op st = Ok (st', reply_of op (getValueWithKey (Key op) st)) ∧
    AllConfigs st' = AllConfigs st ∧ LatestConfig st' = LatestConfig st ∧
    ShardTimestamp st' = ShardTimestamp st ∧
    ClientLastRequest st' = <[ClientId op := RequestIndex op]> (ClientLastRequest st) ∧
    ∀ k, getValueWithKey k st' =
         if decide (k = Key op) then effect op (getValueWithKey k st) else getValueWithKey k st.
Proof.
  intros Hk. unfold applyClient.
  set (st1 := st <| ClientLastRequest := _ |>).
  assert (∀ k, getValueWithKey k st1 = getValueWithKey k st) as Hg by done.
  unfold effect, reply_of. case_decide as HG.
  { exists st1. pose proof (getValue_Ok op st1 HG) as HO. unfold reply_of in HO.
    rewrite decide_True in HO by done. rewrite HO, Hg.
    split_and!; try done. intros k. rewrite Hg. by case_decide. }
  case_decide as HP.
  { rewrite setChecked_Ok. eexists. split_and!; [done..|].
    intros k. rewrite getValueWithKey_set, Hg. done. }
  case_decide as HA; [|by destruct Hk as [?|[?|?]]].
  rewrite setChecked_Ok. eexists. split_and!; [done..|].
  intros k. rewrite getValueWithKey_set, !Hg. case_decide; [by subst|done].
Qed.

(** C10: a Get, Put or Append that a group applies never ends the process, and
    leaves the configurations and the shards' time stamps alone.  If the
    key's shard belongs to another group it replies ErrWrongGroup, if some
    shard of the group is behind it replies ErrNotUpToDate, and the state does
    not change.  Otherwise an operation whose index is at most the client's
    last one does not change the state; a new one is recorded, the key gets
    the value the operation says and every other key keeps its value; and a
    Get's reply is the key's value, ErrNoKey if it has none. *)
Theorem client_op_served_by_owner g op st :
  NeedSendBackCh op = true → client_kind op →
  ∃ st' msg, applyOp g op st = Ok (st', msg) ∧
    AllConfigs st' = AllConfigs st ∧ LatestConfig st' = LatestConfig st ∧
    ShardTimestamp st' = ShardTimestamp st ∧
    if decide (owner (LatestConfig st) (key2shard (Key op)) ≠ g)
    then st' = st ∧ msg = mkKVReplyMsg ErrWrongGroup ""
    else if decide (lagging g st ≠ [])
    then st' = st ∧ msg = mkKVReplyMsg ErrNotUpToDate ""
    else
      msg = reply_of op (getValueWithKey (Key op) st) ∧
      if isDuplicateOp op st then st' = st
      else
        ClientLastRequest st' = <[ClientId op := RequestIndex op]> (ClientLastRequest st) ∧
        ∀ k, getValueWithKey k st' =
             if decide (k = Key op) then effect op (getValueWithKey k st) else getValueWithKey k st.
Proof.
  intros Hn Hk. unfold applyOp. rewrite Hn. cbn [negb].
  destruct (decide (owner (LatestConfig st) (key2shard (Key op)) ≠ g)) as [Ho|Ho].
  { rewrite decide_True by (intros ->; done). by eexists _, _. }
  apply dec_stable in Ho. rewrite decide_False by (intros Hc; by apply Hc).
  rewrite allShardsUpToDate_eq. cbn.
  destruct (decide (lagging g st ≠ [])) as [Hl|Hl].
  { rewrite bool_decide_false by done. by eexists _, _. }
  apply dec_stable in Hl. rewrite bool_decide_true by done. cbn.
  destruct (isDuplicateOp op st) eqn:Hd.
  - case_decide as HG.
    + rewrite (getValue_Ok op st HG). by eexists _, _.
    + eexists _, _. split_and!; [done..| |done]. unfold reply_of. by rewrite decide_False.
  - destruct (applyClient_Ok op st Hk) as (st' & -> & H1 & H2 & H3 & H4 & H5).
    by exists st', (reply_of op (getValueWithKey (Key op) st)).
Qed.

(** ** Configurations and time stamps *)

Fixpoint applyOps (g : Z) (ops : list Op) (st : State) : Res State :=
  match ops with
  | [] => Ok st
  | op :: ops => '(st, _) ← applyOp g op st; applyOps g ops st
  end.

(** The configurations a group holds are the controller's, in order from the
    empty one; a shard's time stamp is never negative. *)
Record skv_ok (st : State) : Prop := mkSkvOk {
  so_last : last (AllConfigs st) = Some (LatestConfig st);
  so_num : ∀ i c, AllConfigs st !! i = Some c → Num c = Z.of_nat i;
  so_first : AllConfigs st !! 0%nat = Some zeroConfig;
  so_stamps : ∀ sid, 0 ≤ timestamp st sid;
}.

Lemma skv_ok_makeState : skv_ok makeState.
Proof.
  split; cbn; [done| |done|].
  - intros i c [-> <-]%list_lookup_singleton_Some. done.
  - intros sid. unfold timestamp. cbn. by rewrite lookup_empty.
Qed.

Lemma skv_num st : skv_ok st → Num (LatestConfig st) + 1 = zlen (AllConfigs st).
Proof.
  intros [Hl Hn _ _]. rewrite last_lookup in Hl. pose proof (lookup_lt_Some _ _ _ Hl).
  rewrite (Hn _ _ Hl). lia.
Qed.

(** Only time stamps and stores change in [a]'s loops over the shards. *)
Definition same_configs (a b : State) : Prop :=
  AllConfigs b = AllConfigs a ∧ LatestConfig b = LatestConfig a.

Lemma foldl_inv {A B} (P : A → Prop) (f : A → B → A) l a :
  (∀ a b, P a → P (f a b)) → P a → P (foldl f a l).
Proof. intros Hf. revert a. induction l; cbn; auto. Qed.

Lemma timestamp_insert st (ts : gmap Z Z) i v sid :
  ts = ShardTimestamp st →
  timestamp (st <| ShardTimestamp := <[i := v]> ts |>) sid = if decide (sid = i) then v else timestamp st sid.
Proof.
  intros ->. unfold timestamp. skv_simpl. case_decide; [by subst; rewrite lookup_insert_eq|].
  by rewrite lookup_insert_ne.
Qed.

(** A loop that sets time stamps (and stores) keeps the configurations and
    does not make a time stamp negative. *)
Definition steady (a b : State) : Prop :=
  same_configs a b ∧ ((∀ sid, 0 ≤ timestamp a sid) → ∀ sid, 0 ≤ timestamp b sid).

#[export] Instance steady_preorder : PreOrder steady.
Proof.
  split; [done|]. intros a b c [[H1 H2] H3] [[H4 H5] H6]. split; [|auto].
  split; congruence.
Qed.

Lemma steady_stamp st i v : 0 ≤ v → steady st (st <| ShardTimestamp := <[i := v]> (ShardTimestamp st) |>).
Proof.
  intros Hv. split; [done|]. intros Ht sid. rewrite timestamp_insert by done. by case_decide.
Qed.

Lemma steady_store st s : steady st (st <| ShardKVStore := s |>).
Proof. split; [done|]. intros Ht sid. apply Ht. Qed.

Lemma steady_clients st m : steady st (st <| ClientLastRequest := m |>).
Proof. split; [done|]. intros Ht sid. apply Ht. Qed.

Lemma foldl_steady {B} (f : State → B → State) (l : list B) (st : State) :
  (∀ a b, steady st a → steady a (f a b)) → steady st (foldl f st l).
Proof.
  intros Hf. apply (foldl_inv (steady st)); [|reflexivity].
  intros a b Ha. etrans; [exact Ha|]. by apply Hf.
Qed.

Lemma handleInstallShardConfig_steady g op st :
  skv_ok st → Num (ShardConfig op) = Num (LatestConfig st) + 1 →
  steady (st <| LatestConfig := ShardConfig op |> <| AllConfigs := AllConfigs st ++ [ShardConfig op] |>)
    (handleInstallShardConfig g op st).
Proof.
  intros Hok Hn. unfold handleInstallShardConfig.
  rewrite decide_False by (intros Hc; by apply Hc).
  pose proof (skv_num _ Hok) as Hz. assert (0 ≤ Num (ShardConfig op)) as Hpos by lia.
  cbv zeta. set (st1 := st <| LatestConfig := _ |> <| AllConfigs := _ |>).
  assert (Num (LatestConfig st1) = Num (ShardConfig op)) as E by done.
  case_decide; apply foldl_steady; intros a i [[_ Ha] _].
  - etrans; [|apply steady_store]. apply steady_stamp. case_decide; [|done]. rewrite Ha, E. done.
  - case_decide; [|reflexivity]. apply steady_stamp. rewrite Ha, E. done.
Qed.

Lemma handleAcquireShard_steady op st :
  skv_ok st → steady st (handleAcquireShard op st).
Proof.
  intros Hok. unfold handleAcquireShard. etrans; [|apply steady_clients]. case_decide; [|done].
  etrans; [|apply steady_store]. apply steady_stamp.
  pose proof (so_stamps _ Hok (ShardId op)). lia.
Qed.

Lemma skv_ok_steady st st' : steady st st' → skv_ok st → skv_ok st'.
Proof.
  intros [[H1 H2] H3] [A B C D]. split; [by rewrite H1, H2|by rewrite H1|by rewrite H1|auto].
Qed.

(** The operations the servers start. *)
Definition started_op (op : Op) : Prop :=
  (NeedSendBackCh op = true ∧ client_kind op) ∨
  (NeedSendBackCh op = false ∧ (OpKind op = InstallShardConfig ∨ OpKind op = AcquireShard)).

Lemma applyOp_client_steady g op st :
  NeedSendBackCh op = true → client_kind op →
  ∃ st' msg, applyOp g op st = Ok (st', msg) ∧ steady st st'.
Proof.
  intros Hn Hk. unfold applyOp. rewrite Hn. cbn [negb].
  case_decide; [by eexists _, _|]. rewrite allShardsUpToDate_eq. cbn.
  case_bool_decide; cbn; [|by eexists _, _].
  destruct (isDuplicateOp op st).
  - case_decide as HG; [rewrite (getValue_Ok op st HG)|]; by eexists _, _.
  - destruct (applyClient_Ok op st Hk) as (st' & -> & H1 & H2 & H3 & _).
    eexists _, _. split; [done|]. split; [done|]. unfold timestamp. by rewrite H3.
Qed.

Lemma applyOp_config g op st :
  skv_ok st → started_op op →
  ∃ st' msg, applyOp g op st = Ok (st', msg) ∧ skv_ok st' ∧
    (AllConfigs st' = AllConfigs st ∨
     OpKind op = InstallShardConfig ∧ AllConfigs st' = AllConfigs st ++ [ShardConfig op]).
Proof.
  intros Hok [[Hn Hk]|[Hn Hk]].
  { destruct (applyOp_client_steady g op st Hn Hk) as (st' & msg & -> & Hs).
    eexists _, _. split_and!; [done|by eapply skv_ok_steady|left; apply Hs]. }
  unfold applyOp. rewrite Hn. cbn [negb]. case_decide as HI.
  - eexists _, _. split; [done|].
    destruct (decide (Num (ShardConfig op) = Num (LatestConfig st) + 1)) as [E|E].
    + pose proof (handleInstallShardConfig_steady g op st Hok E) as [[HA HL] HT].
      skv_simpl. split; [|right; done]. pose proof (skv_num _ Hok) as Hz. destruct Hok as [Hl Hnum Hf Ht].
      split.
      * rewrite HA, HL. apply last_snoc.
      * rewrite HA. intros i c [Hi|[Hi Hc]]%lookup_app_Some; [auto|].
        apply list_lookup_singleton_Some in Hc as [Hi0 <-]. lia.
      * rewrite HA. by apply lookup_app_l_Some.
      * apply HT. apply Ht.
    + unfold handleInstallShardConfig. rewrite decide_True by done. split; [done|by left].
  - rewrite decide_True by (by destruct Hk). eexists _, _. split; [done|].
    pose proof (handleAcquireShard_steady op st Hok) as Hs.
    split; [by eapply skv_ok_steady|left; apply Hs].
Qed.

(** Any sequence of operations. *)
Lemma applyOps_configs g ops st :
  skv_ok st → Forall started_op ops →
  ∃ st', applyOps g ops st = Ok st' ∧ skv_ok st' ∧
    ∃ added, AllConfigs st' = AllConfigs st ++ added ∧
      ∀ c, c ∈ added → ∃ op, op ∈ ops ∧ OpKind op = InstallShardConfig ∧ ShardConfig op = c.
Proof.
  intros Hok Hops. revert st Hok. induction Hops as [|op ops Hop _ IH]; intros st Hok; cbn.
  { exists st. split_and!; [done|done|]. exists []. rewrite app_nil_r. set_solver. }
  destruct (applyOp_config g op st Hok Hop) as (st1 & msg & -> & Hok1 & Hc). cbn.
  destruct (IH st1 Hok1) as (st' & -> & Hok' & added & HA & Hin).
  exists st'. split_and!; [done|done|]. destruct Hc as [Hc|[Hk Hc]]; rewrite Hc in HA.
  - exists added. split; [done|]. set_solver.
  - exists (ShardConfig op :: added). rewrite HA, <- app_assoc. split; [done|].
    intros c [->|Hc']%elem_of_cons; [|set_solver]. exists op. split_and!; [left|done|done].
Qed.

(** Whatever operations a group applies, in any order and any number of
    times, from any well-formed state: it never ends the process; the
    configurations it holds are numbered 0, 1, 2, ... without a gap, the last
    one is the latest; none is removed or replaced; every one added is that of
    an InstallShardConfig operation; and no time stamp becomes negative. *)
Theorem configs_in_order g ops st :
  skv_ok st → Forall started_op ops →
  ∃ st', applyOps g ops st = Ok st' ∧ skv_ok st' ∧
    ∃ added, AllConfigs st' = AllConfigs st ++ added ∧
      ∀ c, c ∈ added → ∃ op, op ∈ ops ∧ OpKind op = InstallShardConfig ∧ ShardConfig op = c.
Proof. apply applyOps_configs. Qed.

(** The calls the ticker starts. *)
Lemma acquireShardTicker_ok {R} `{!RaftService R Op} (kv : ShardKV R) :
  skv_ok (state kv) → (rs_GetState (rf kv)).2 = true →
  ∃ calls, acquireShardTicker kv = Ok calls ∧
    map fst calls = lagging (gid kv) (state kv) ∧
    ∀ sid c, (sid, c) ∈ calls →
      AllConfigs (state kv) !! Z.to_nat (Num (LatestConfig (state kv)) - 1) = Some c ∧
      Num c = Num (LatestConfig (state kv)) - 1 ∧
      owner (LatestConfig (state kv)) sid = gid kv ∧
      timestamp (state kv) sid < Num (LatestConfig (state kv)).
Proof.
  intros Hok Hl. unfold acquireShardTicker. rewrite Hl, allShardsUpToDate_eq. cbn.
  set (st := state kv) in *. case_bool_decide as Hlag; cbn.
  { exists []. rewrite Hlag. set_solver. }
  pose proof (skv_num _ Hok) as Hz.
  assert (∃ sid, sid ∈ lagging (gid kv) st) as [sid Hs] by (destruct (lagging _ st); [done|eexists; left]).
  apply list_elem_of_filter in Hs as [[_ Ht] _]. pose proof (so_stamps _ Hok sid).
  destruct (go_index_in_range (AllConfigs st) (zlen (AllConfigs st) - 2)) as (c & -> & Hc); [lia|].
  eexists. split; [done|]. split.
  { rewrite map_map. apply map_id. }
  intros sid' c' (s & [= <- <-] & [[Ho Hts] _]%list_elem_of_filter)%list_elem_of_fmap.
  replace (zlen (AllConfigs st) - 2) with (Num (LatestConfig st) - 1) in Hc by lia.
  split_and!; [done| |done|done]. rewrite (so_num _ Hok _ _ Hc). lia.
Qed.

(** The leader's ticker never reads its configurations out of range: from
    a well-formed state it starts one AcquireShards per shard that the latest
    configuration gives to the group and whose contents are older, and asks
    for it the group that owned the shard in the configuration before. *)
Theorem acquire_ticker_targets_previous {R} `{!RaftService R Op} (kv : ShardKV R) :
  skv_ok (state kv) → (rs_GetState (rf kv)).2 = true →
  ∃ calls, acquireShardTicker kv = Ok calls ∧
    map fst calls = lagging (gid kv) (state kv) ∧
    ∀ sid c, (sid, c) ∈ calls →
      AllConfigs (state kv) !! Z.to_nat (Num (LatestConfig (state kv)) - 1) = Some c ∧
      Num c = Num (LatestConfig (state kv)) - 1 ∧
      owner (LatestConfig (state kv)) sid = gid kv ∧
      timestamp (state kv) sid < Num (LatestConfig (state kv)).
Proof. apply acquireShardTicker_ok. Qed.

(** The tickers and acquireShards only start operations. *)
Definition only_raft {R} (kv kv' : ShardKV R) : Prop := ∃ r, kv' = kv <| rf := r |>.

Lemma only_raft_refl {R} (kv : ShardKV R) : only_raft kv kv.
Proof. exists (rf kv). by destruct kv. Qed.

Lemma shardConfigTicker_raft {R} `{!RaftService R Op} query (kv kv' : ShardKV R) :
  shardConfigTicker query kv = Ok kv' → only_raft kv kv'.
Proof.
  unfold shardConfigTicker. rewrite allShardsUpToDate_eq. cbn [mbind Res_bind].
  destruct (negb _); [intros [= <-]; apply only_raft_refl|].
  destruct (negb _); [intros [= <-]; apply only_raft_refl|].
  case_decide; [intros [= <-]; apply only_raft_refl|].
  destruct (rs_GetState (rf kv)).2; intros [= <-]; [by eexists|apply only_raft_refl].
Qed.

Lemma acquireShards_raft {R} `{!RaftService R Op} call sid target (kv kv' : ShardKV R) :
  acquireShards call sid target kv = Ok kv' → only_raft kv kv'.
Proof.
  unfold acquireShards. intros (reply & _ & [= <-])%bind_Ok. destruct reply as [reply|]; [|apply only_raft_refl].
  unfold handleAcquireShardReply. destruct (rs_GetState (rf kv)).2; [by eexists|apply only_raft_refl].
Qed.

(** No server answers ASFiller. *)
Lemma AcquireShards_not_filler {R} `{!RaftService R Op} args (kv : ShardKV R) :
  ASR_Error (AcquireShards args kv) ≠ ASFiller.
Proof. unfold AcquireShards. destruct (negb _); [done|]. by case_decide. Qed.

(** ** Moving a shard *)

Lemma mergeLastRequest_lookup (l : list (Z * Z)) (last : gmap Z Z) c :
  NoDup l.*1 →
  match (list_to_map l : gmap Z Z) !! c with
  | Some v => default 0 (foldl mergeLastRequest last l !! c) = default 0 (last !! c) `max` v
  | None => foldl mergeLastRequest last l !! c = last !! c
  end.
Proof.
  revert last. induction l as [|[c1 v1] l IH]; intros last Hnd; cbn; [by rewrite lookup_empty|].
  apply NoDup_cons in Hnd as [Hni Hnd]. specialize (IH (mergeLastRequest last (c1, v1)) Hnd).
  destruct (decide (c = c1)) as [->|Hne].
  - rewrite lookup_insert_eq. rewrite (not_elem_of_list_to_map_1 l c1 Hni) in IH. rewrite IH.
    unfold mergeLastRequest. cbn. case_decide; [rewrite lookup_insert_eq; cbn|]; lia.
  - rewrite lookup_insert_ne by done.
    assert (mergeLastRequest last (c1, v1) !! c = last !! c) as E.
    { unfold mergeLastRequest. case_decide; [by rewrite lookup_insert_ne|done]. }
    rewrite E in IH. exact IH.
Qed.

Lemma mergeLastRequest_map (m last : gmap Z Z) c :
  match m !! c with
  | Some v => default 0 (foldl mergeLastRequest last (map_to_list m) !! c) = default 0 (last !! c) `max` v
  | None => foldl mergeLastRequest last (map_to_list m) !! c = last !! c
  end.
Proof.
  pose proof (mergeLastRequest_lookup (map_to_list m) last c (NoDup_fst_map_to_list m)) as H.
  by rewrite list_to_map_to_list in H.
Qed.

(** An answered request, in the log of the acquirer. *)
Lemma AcquireShards_applied {R} `{!RaftService R Op}
    (args : AcquireShardArgs) (donor acquirer : ShardKV R) g (st : State) :
  ASR_Error (AcquireShards args donor) = ASOK →
  let sid := ShardIndex args in
  let n := Num (LatestConfig (state donor)) in
  ∃ st' msg,
    applyOp g (createAcquireShardOp sid (AcquireShards args donor) acquirer) st = Ok (st', msg) ∧
    ConfigNum args ≤ n ∧ n ≠ 0 ∧
    same_configs st st' ∧
    (∀ k, getValueWithKey k st' =
          if decide (key2shard k = sid ∧ timestamp st sid < n)
          then getValueWithKey k (state donor) else getValueWithKey k st) ∧
    (∀ s, timestamp st' s = if decide (s = sid ∧ timestamp st sid < n) then n else timestamp st s) ∧
    ∀ c, match ClientLastRequest (state donor) !! c with
         | Some v => default 0 (ClientLastRequest st' !! c) = default 0 (ClientLastRequest st !! c) `max` v
         | None => ClientLastRequest st' !! c = ClientLastRequest st !! c
         end.
Proof.
  intros HOK sid n. revert HOK. unfold AcquireShards.
  destruct (rs_GetState (rf donor)).2; cbn [negb]; [|done].
  case_decide as Hb; [done|]. intros _. rewrite clientLastRequestClone_eq.
  unfold applyOp. cbn [createAcquireShardOp NeedSendBackCh OpKind negb].
  rewrite decide_False by done. rewrite decide_True by done.
  eexists _, _. split; [done|]. fold n in Hb |- *. unfold handleAcquireShard.
  cbn [createAcquireShardOp ShardConfigNum ShardId ShardData OpClientLastRequest
       ASR_ConfigNum ASR_ShardData ASR_ClientLastRequest].
  rewrite !cloneStore_eq. fold sid. split; [lia|]. split; [naive_solver|].
  split_and!; [by case_decide|..].
  - intros k. rewrite getValueWithKey_clients. unfold getValueWithKey.
    destruct (decide (n > timestamp st sid)) as [Hgt|Hgt].
    + skv_simpl. destruct (decide (key2shard k = sid)) as [->|Hne].
      * rewrite lookup_insert_eq, decide_True by lia. cbn.
        destruct (ShardKVStore (state donor) !! sid); cbn; [done|]. by rewrite lookup_empty.
      * rewrite lookup_insert_ne, decide_False by naive_solver. done.
    + rewrite decide_False by lia. done.
  - intros s. unfold timestamp at 1. case_decide as Hgt; skv_simpl.
    + destruct (decide (s = sid)) as [->|Hne].
      * rewrite lookup_insert_eq, decide_True by lia. done.
      * rewrite lookup_insert_ne, decide_False by naive_solver. done.
    + rewrite decide_False by lia. done.
  - intros c.
    pose proof (mergeLastRequest_map (ClientLastRequest (state donor)) (ClientLastRequest st) c) as HM.
    skv_simpl. by case_decide.
Qed.

(** The AcquireShards reply of a donor, turned into an operation and
    applied.  If the donor's configuration is newer than the shard's time
    stamp, every key of the shard has the value it has at the donor, and the
    time stamp is the number of the donor's configuration; if not, no key and
    no time stamp changes.  Keys of other shards, their time stamps and the
    configurations do not change, and a client known to the donor has as last
    request the larger of the two groups' (0 when absent). *)
Theorem transfer_copies_shard {R} `{!RaftService R Op}
    (args : AcquireShardArgs) (donor acquirer : ShardKV R) g (st : State) :
  ASR_Error (AcquireShards args donor) = ASOK →
  let sid := ShardIndex args in
  let n := Num (LatestConfig (state donor)) in
  ∃ st' msg,
    applyOp g (createAcquireShardOp sid (AcquireShards args donor) acquirer) st = Ok (st', msg) ∧
    ConfigNum args ≤ n ∧ n ≠ 0 ∧
    same_configs st st' ∧
    (∀ k, getValueWithKey k st' =
          if decide (key2shard k = sid ∧ timestamp st sid < n)
          then getValueWithKey k (state donor) else getValueWithKey k st) ∧
    (∀ s, timestamp st' s = if decide (s = sid ∧ timestamp st sid < n) then n else timestamp st s) ∧
    ∀ c, match ClientLastRequest (state donor) !! c with
         | Some v => default 0 (ClientLastRequest st' !! c) = default 0 (ClientLastRequest st !! c) `max` v
         | None => ClientLastRequest st' !! c = ClientLastRequest st !! c
         end.
Proof. apply AcquireShards_applied. Qed.

(** ** Operations that are executed *)

(** A group serves an operation: it owns the key and lacks no shard. *)
Definition serves (g : Z) (op : Op) (st : State) : Prop :=
  owner (LatestConfig st) (key2shard (Key op)) = g ∧ lagging g st = [].

Definition executes (g : Z) (op : Op) (st : State) : bool :=
  bool_decide (serves g op st) && negb (isDuplicateOp op st).

(** An operation that is not executed changes nothing. *)
Lemma not_executed g op st :
  NeedSendBackCh op = true → client_kind op → executes g op st = false →
  ∃ msg, applyOp g op st = Ok (st, msg) ∧
    (serves g op st → msg = reply_of op (getValueWithKey (Key op) st)).
Proof.
  intros Hn Hk He. unfold applyOp. rewrite Hn. cbn [negb].
  destruct (decide (g = owner (LatestConfig st) (key2shard (Key op)))) as [Ho|Ho].
  2:{ rewrite decide_True by done. eexists. split; [done|]. intros [? _]. congruence. }
  rewrite decide_False by (intros Hc; by apply Hc). rewrite allShardsUpToDate_eq. cbn [mbind Res_bind].
  case_bool_decide as Hl; cbn [negb].
  2:{ eexists. split; [done|]. by intros [_ ?]. }
  unfold executes in He. rewrite bool_decide_true in He by done. cbn in He.
  destruct (isDuplicateOp op st); [|done]. case_decide as HG.
  - rewrite (getValue_Ok op st HG). by eexists.
  - eexists. split; [done|]. intros _. unfold reply_of. by rewrite decide_False.
Qed.

(** One that is executed writes its key and is recorded. *)
Lemma executed_effect g op st :
  NeedSendBackCh op = true → client_kind op → executes g op st = true →
  ∃ st', applyOp g op st = Ok (st', reply_of op (getValueWithKey (Key op) st)) ∧
    AllConfigs st' = AllConfigs st ∧ LatestConfig st' = LatestConfig st ∧ ShardTimestamp st' = ShardTimestamp st ∧
    ClientLastRequest st' = <[ClientId op := RequestIndex op]> (ClientLastRequest st) ∧
    ∀ k, getValueWithKey k st' =
         if decide (k = Key op) then effect op (getValueWithKey k st) else getValueWithKey k st.
Proof.
  intros Hn Hk [[Ho Hl]%bool_decide_eq_true Hd%negb_true_iff]%andb_prop. unfold applyOp. rewrite Hn. cbn [negb].
  rewrite decide_False by (intros Hc; by apply Hc). rewrite allShardsUpToDate_eq. cbn [mbind Res_bind].
  rewrite bool_decide_true by done. cbn [negb]. rewrite Hd. by apply applyClient_Ok.
Qed.

(** A group that serves an operation answers it. *)
Lemma serves_reply g op st :
  NeedSendBackCh op = true → client_kind op → serves g op st →
  ∃ st', applyOp g op st = Ok (st', reply_of op (getValueWithKey (Key op) st)).
Proof.
  intros Hn Hk Hs. destruct (executes g op st) eqn:He.
  - destruct (executed_effect g op st Hn Hk He) as (st' & -> & _). by exists st'.
  - destruct (not_executed g op st Hn Hk He) as (msg & -> & Hm). exists st. by rewrite Hm.
Qed.

(** ** Runs of two groups

    [QueuePeer] is a Raft group of one server, its leader: [Start] queues the
    command and nothing else happens.  [pump] delivers the queue. *)
Definition QueuePeer : Type := list (Iface Op).

#[export] Instance Queue_service : RaftService QueuePeer Op := {|
  rs_GetState _ := (1, true);
  rs_Start c r := (r ++ [c], (zlen r + 1, 1, true));
  rs_Snapshot _ _ r := Ok r;
  rs_CondInstallSnapshot _ _ _ _ := true;
  rs_Kill r := r;
  rs_RaftStateSize _ := 0;
  rs_ready _ := True;
  rs_Snapshot_ready r _ _ _ := ex_intro _ r (conj eq_refl I);
  rs_Start_ready _ _ _ := I;
  rs_Start_state _ _ := conj eq_refl eq_refl;
  rs_Start_follower _ _ H := match diff_true_false H with end;
  rs_Start_keeps _ _ := eq_refl;
  rs_Snapshot_keeps _ _ _ _ _ := eq_refl;
  rs_CondInstallSnapshot_true _ _ _ _ := eq_refl;
  rs_Kill_keeps _ := eq_refl;
|}.

Definition newGroup (g : Z) : ShardKV QueuePeer := StartServer 0 [] (-1) g.

Definition deliverOne (acc : ShardKV QueuePeer * list KVReplyMsg) (c : Iface Op)
    : Res (ShardKV QueuePeer * list KVReplyMsg) :=
  '(kv, s) ← handleApplyMessage (mkApplyMsg true c 1 false [] 0 0) acc.1;
  Ok (kv, acc.2 ++ match s with Some s => [message s] | None => [] end).

Definition pump (kv : ShardKV QueuePeer) : Res (ShardKV QueuePeer * list KVReplyMsg) :=
  go_for deliverOne (kv <| rf := [] |>, []) (rf kv).

(** One firing of a ticker, and the operations it started applied. *)
Definition tickConfig (query : Z → Config) (kv : ShardKV QueuePeer) : Res (ShardKV QueuePeer) :=
  kv ← shardConfigTicker query kv; fst <$> pump kv.

(** The previous owner is [donor]; every RPC is answered. *)
Definition tickAcquire (donor kv : ShardKV QueuePeer) : Res (ShardKV QueuePeer) :=
  calls ← acquireShardTicker kv;
  kv ← go_for (λ kv call, acquireShards (λ args _, Some (AcquireShards args donor)) call.1 call.2 kv)
         kv calls;
  fst <$> pump kv.

(** A handler that is not interrupted: started, its operation applied, its
    message received. *)
Definition servePutAppend (args : PutAppendArgs) (kv : ShardKV QueuePeer)
    : Res (ShardKV QueuePeer * string) :=
  '(kv, r) ← serverPutAppend args kv;
  match r with
  | inl e => Ok (kv, e)
  | inr (op, _) => '(kv, ms) ← pump kv; serverPutAppendEnd op (head ms) kv
  end.

Definition serveGet (args : GetArgs) (kv : ShardKV QueuePeer)
    : Res (ShardKV QueuePeer * KVReplyMsg) :=
  '(kv, r) ← serverGet args kv;
  match r with
  | inl e => Ok (kv, mkKVReplyMsg e "")
  | inr (op, _) => '(kv, ms) ← pump kv; serverGetEnd op (head ms) kv
  end.

(** A controller whose configuration [n] gives all the shards to the group at
    position [n] of the list. *)
Definition allTo (owners : list Z) (n : Z) : Config :=
  mkConfig n (replicate NShards (default 0 (owners !! Z.to_nat n))) {[ 1 := ["a"]; 2 := ["b"] ]}.

(** Group 1 owns the shards, acknowledges a Put, and the shards go to group 2
    and back to group 1. *)
Definition roundTrip : Res (string * KVReplyMsg) :=
  let query := allTo [0; 1; 2; 1] in
  a ← tickConfig query (newGroup 1);
  '(a, put) ← servePutAppend (mkPutAppendArgs "k" "v" PUT 7 1) a;
  a ← tickConfig query a;
  a ← tickConfig query a;
  b ← tickConfig query (newGroup 2);
  b ← tickConfig query b;
  a ← tickAcquire b a;
  b ← tickAcquire a b;
  b ← tickConfig query b;
  a ← tickAcquire b a;
  '(a, got) ← serveGet (mkGetArgs "k" 8 1) a;
  Ok (put, got).

(** Group 2 keeps the shards from configuration 2 on; a second reply from
    group 1, already at configuration 5, is handled late. *)
Definition lateReply : Res (string * KVReplyMsg) :=
  let query := allTo [0; 1; 2; 2; 2; 2] in
  a ← tickConfig query (newGroup 1);
  a ← tickConfig query a;
  a ← tickConfig query a;
  a ← tickConfig query a;
  a ← tickConfig query a;
  b ← tickConfig query (newGroup 2);
  b ← tickConfig query b;
  let late := AcquireShards (createAcquireShards 7 (query 1) b) a in
  b ← tickAcquire a b;
  b ← tickConfig query b;
  '(b, put) ← servePutAppend (mkPutAppendArgs "k" "v" PUT 7 1) b;
  '(b, _) ← pump (handleAcquireShardReply 7 late b);
  '(b, got) ← serveGet (mkGetArgs "k" 8 1) b;
  Ok (put, got).

(** A new clerk's first request is an Append; its reply is lost, the shards
    move to group 2 and the clerk sends the request again. *)
Definition retriedAppend : Res (string * string * KVReplyMsg) :=
  let query := allTo [0; 1; 2] in
  let '(ck, args) := createPutAppendArgs "k" "x" APPEND (MakeClerk 7) in
  a ← tickConfig query (newGroup 1);
  '(a, first) ← servePutAppend args a;
  a ← tickConfig query a;
  b ← tickConfig query (newGroup 2);
  b ← tickConfig query b;
  b ← tickAcquire a b;
  '(b, second) ← servePutAppend args b;
  '(b, got) ← serveGet (mkGetArgs "k" 8 0) b;
  Ok (first, second, got).

(** An acknowledged write is lost.  Group 1 owns every shard and
    acknowledges a Put; configuration 2 gives the shards to group 2 and
    configuration 3 gives them back.  Group 1 asks group 2 for them before
    group 2 has fetched them: group 2 answers with stores it does not have yet,
    under the number of its latest configuration, group 1 overwrites its own
    contents, and group 2 then fetches the loss.  A Get is answered
    ErrNoKey. *)
Theorem acknowledged_put_lost :
  roundTrip = Ok (OK, mkKVReplyMsg ErrNoKey "").
Proof. vm_compute. reflexivity. Qed.

(** A late AcquireShard operation destroys an acknowledged write.  A
    group that fetched a shard under configuration 5 while its own latest is 2
    installs configuration 3, which lowers the shard's time stamp to 3; a
    second reply under configuration 5, to the same request of the ticker,
    then overwrites the shard. *)
Theorem late_reply_overwrites :
  lateReply = Ok (OK, mkKVReplyMsg ErrNoKey "").
Proof. vm_compute. reflexivity. Qed.

(** A clerk's first request, number 0, can be executed twice.  The new
    owner of a shard merges the last requests of the previous one with [<]
    against 0 for an unknown client, so request 0 is not taken over; the
    retried Append is executed again and a Get returns the value twice. *)
Theorem first_append_executed_twice :
  retriedAppend = Ok (OK, OK, mkKVReplyMsg OK "xx").
Proof. vm_compute. reflexivity. Qed.

(** ** Witnesses *)

Definition ownAll : State :=
  mkState [zeroConfig; allTo [0; 1] 1] (allTo [0; 1] 1) {[ 7 := {[ "k" := "v" ]} ]}
    (list_to_map (map (λ i, (i, 1)) shardIds)) {[ 5 := 3 ]}.

Definition sampleAppend : Op := mkOp 0 0 5 4 APPEND true "k" "w" zeroConfig 0 0 ∅ ∅.

Lemma client_op_served_by_owner_witness :
  ∃ st', applyOp 1 sampleAppend ownAll = Ok (st', mkKVReplyMsg OK "") ∧
    getValueWithKey "k" st' = Some "vw".
Proof.
  destruct (client_op_served_by_owner 1 sampleAppend ownAll) as (st' & msg & H1 & _ & _ & _ & H2).
  - reflexivity.
  - right. right. reflexivity.
  - rewrite decide_False in H2 by (vm_compute; intros Hc; apply Hc; reflexivity).
    rewrite decide_False in H2 by (vm_compute; intros Hc; apply Hc; reflexivity).
    destruct H2 as [-> [_ H3]]. exists st'. split; [exact H1|]. rewrite H3. reflexivity.
Defined.

Definition sampleInstall : Op := mkOp 0 0 0 0 InstallShardConfig false "" "" (allTo [0; 1] 1) 0 0 ∅ ∅.

Lemma configs_in_order_witness :
  ∃ st', applyOps 1 [sampleInstall; sampleInstall; sampleAppend] makeState = Ok st' ∧ skv_ok st'.
Proof.
  destruct (configs_in_order 1 [sampleInstall; sampleInstall; sampleAppend] makeState
              skv_ok_makeState) as (st' & H1 & H2 & _).
  - constructor; [|constructor; [|constructor; [|constructor]]].
    + right. split; [reflexivity|left; reflexivity].
    + right. split; [reflexivity|left; reflexivity].
    + left. split; [reflexivity|right; right; reflexivity].
  - exists st'. exact (conj H1 H2).
Defined.

(** A group given the shards by configuration 2, with none of the contents. *)
Definition behind : ShardKV QueuePeer :=
  (newGroup 2) <| state := mkState [zeroConfig; allTo [0; 1; 2] 1; allTo [0; 1; 2] 2] (allTo [0; 1; 2] 2)
                           ∅ ∅ ∅ |>.

Lemma acquire_ticker_targets_previous_witness :
  ∃ calls, acquireShardTicker behind = Ok calls ∧ map fst calls = lagging 2 (state behind).
Proof.
  destruct (acquire_ticker_targets_previous behind) as (calls & H1 & H2 & _).
  - split.
    + reflexivity.
    + intros [|[|[|i]]] c Hc; cbn in Hc; [injection Hc as <-; reflexivity..|discriminate Hc].
    + reflexivity.
    + intros sid. cbn. unfold timestamp. cbn. rewrite lookup_empty. cbn. lia.
  - reflexivity.
  - exists calls. exact (conj H1 H2).
Defined.

Lemma transfer_copies_shard_witness :
  ∃ st' msg,
    applyOp 2 (createAcquireShardOp 7 (AcquireShards (mkAcquireShardArgs 2 1 7)
                ((newGroup 1) <| state := ownAll |>)) behind) makeState = Ok (st', msg) ∧
    getValueWithKey "k" st' = Some "v".
Proof.
  destruct (transfer_copies_shard (mkAcquireShardArgs 2 1 7) ((newGroup 1) <| state := ownAll |>)
              behind 2 makeState) as (st' & msg & H1 & _ & _ & _ & H2 & _).
  - vm_compute. reflexivity.
  - exists st', msg. split; [exact H1|]. rewrite H2.
    rewrite decide_True by (split; vm_compute; reflexivity). vm_compute. reflexivity.
Defined.
