(* ===== verification/ShardKvSystem.v ===== *)
(** * A server of a group with its handlers, its apply loop and its tickers

    The Get and PutAppend handlers (get.go, putAppend.go) run as goroutines
    next to the apply loop (applyTicker.go), the two tickers and the calls of
    acquireShards (shardConfigTicker.go, acquireShardTicker.go): an instance of
    [ReplyServer].  A firing of a ticker is one step under the lock, as is a
    call of acquireShards: what it reads before its reply never changes. *)

From S2P Require Import Prelude Gob Persister RaftState RaftService ReplyServer ShardConfig ShardKv ShardKvSpec.
Open Scope Z_scope.

Inductive Req := SGet (args : GetArgs) | SPutAppend (args : PutAppendArgs).

(** The messages of the Raft peer: a command at an index, the filler at
    index 0, a snapshot that a server has made. *)
Inductive ShardItem :=
  | SCommand (op : Op) (index : Z)
  | SFiller
  | SSnapshot (st : State) (term index : Z).

Definition shardMsg `{!LabGob State} (it : ShardItem) : ApplyMsg Op :=
  match it with
  | SCommand op i => mkApplyMsg true (ICmd op) i false [] 0 0
  | SFiller => mkApplyMsg false (IInt (-1)) 0 false [] 0 0
  | SSnapshot st t i => mkApplyMsg false INil 0 true (gob_encode st) t i
  end.

Inductive ShardEnv (R : Type) :=
  (** the Raft peer moves on by itself *)
  | SRaft (r : R)
  | SKill
  (** the tickers; the controller's answers *)
  | SConfigTick (query : Z → Config)
  | SAcquireTick
  (** acquireShards; the answers of the other group's servers *)
  | SAcquire (call : AcquireShardArgs → string → option AcquireShardReply) (sid : Z) (target : Config).
Arguments SRaft {R}.
Arguments SKill {R}.
Arguments SConfigTick {R}.
Arguments SAcquireTick {R}.
Arguments SAcquire {R}.

Abbreviation ShardSys R := (Sys (ShardKV R) Req Op OpKVReplyChannel KVReplyMsg KVReplyMsg).
Abbreviation ShardLabel R := (Label Req ShardItem (ShardEnv R)).

Section shard_steps.
Context {R : Type} `{!RaftService R Op} `{!LabGob State}.
Implicit Types (kv : ShardKV R).

Definition shardPre (req : Req) kv : Res (ShardKV R * (KVReplyMsg + Op * OpKVReplyChannel)) :=
  '(kv, x) ← match req with
             | SGet args => preGetStart args kv
             | SPutAppend args => prePutAppendStart args kv
             end;
  Ok (kv, match x with inl e => inl (mkKVReplyMsg e "") | inr y => inr y end).

Definition shardStart (op : Op) kv : ShardKV R * bool :=
  let '(r, (_, _, isLeader)) := rs_Start (ICmd op) (rf kv) in (kv <| rf := r |>, isLeader).

Definition shardResult (req : Req) (op : Op) (msg : KVReplyMsg) kv : Res (ShardKV R * KVReplyMsg) :=
  match req with
  | SGet _ => handleGetResult op msg kv
  | SPutAppend _ => '(kv, e) ← handlePutAppendResult op msg kv; Ok (kv, mkKVReplyMsg e "")
  end.

Definition shardTimeout (req : Req) (op : Op) kv : Res (ShardKV R * KVReplyMsg) :=
  '(kv, e) ← match req with
             | SGet _ => getTimeout op kv
             | SPutAppend _ => putAppendTimeout op kv
             end;
  Ok (kv, mkKVReplyMsg e "").

(** [handleApplyMessage] up to its send. *)
Definition shardDeliver (it : ShardItem) kv : Res (ShardKV R * option (Sent Op KVReplyMsg)) :=
  '(kv, s) ← handleApplyMessage (shardMsg it) kv;
  Ok (kv, match s with
          | Some s => Some (mkSent (toChannel s) (message s) (sentOp s))
          | None => None
          end).

Definition shardOther (e : ShardEnv R) kv : Res (ShardKV R) :=
  match e with
  | SRaft r => Ok (kv <| rf := r |>)
  | SKill => Ok (Kill kv)
  | SConfigTick query => shardConfigTicker query kv
  | SAcquireTick => _ ← acquireShardTicker kv; Ok kv
  | SAcquire call sid target => acquireShards call sid target kv
  end.

Definition takesLock (e : ShardEnv R) : bool := match e with SRaft _ | SKill => false | _ => true end.

Definition shardTable kv : Table OpKVReplyChannel := mkTable (startChannels kv) (channels kv).

#[export] Instance shard_reply_server :
  ReplyServer (ShardKV R) Req Op OpKVReplyChannel KVReplyMsg KVReplyMsg ShardItem (ShardEnv R) := {|
  h_leads kv := (rs_GetState (rf kv)).2;
  h_pre := shardPre;
  h_start := shardStart;
  h_drop := deleteStartCh;
  h_result := shardResult;
  h_timeout := shardTimeout;
  h_wrongLeader := mkKVReplyMsg ErrWrongLeader "";
  h_zero := mkKVReplyMsg "" "";
  h_deliver := shardDeliver;
  h_env := shardOther;
  h_envLocks := takesLock;
  h_table := shardTable;
  h_chan := ReplyChannel;
|}.

(** ** What the pieces do to the table *)

Definition shardOpId (op : Op) : Z * Z := (ClientId op, RequestIndex op).

(** What the channel's operation and the one applied have in common. *)
Definition same_shard_op (o o' : Op) : Prop :=
  Key o = Key o' ∧ Value o = Value o' ∧ OpKind o = OpKind o' ∧ shardOpId o = shardOpId o'.

Lemma shardMatch_same op kv ch :
  opChannelMatch op kv = true → getStartCh op kv = Some ch → same_shard_op (Operation ch) op.
Proof.
  unfold opChannelMatch. case_decide; [done|]. intros Hm Hch. rewrite Hch in Hm.
  case_decide as Hd; [done|]. unfold same_shard_op, shardOpId.
  assert (ClientId (Operation ch) = ClientId op ∧ RequestIndex (Operation ch) = RequestIndex op) as [-> ->]
    by (split; apply dec_stable; naive_solver).
  split_and!; try done; apply dec_stable; naive_solver.
Qed.

Lemma shardDelete_table op kv T :
  t_delete ReplyChannel (shardOpId op) (shardTable kv) = Ok T →
  deleteStartCh op kv = Ok (kv <| startChannels := entries T |> <| channels := chans T |>).
Proof.
  unfold t_delete, deleteStartCh, close. cbn.
  destruct (startChannels kv !! ClientId op) as [m|]; [|intros [= <-]; by destruct kv].
  destruct (m !! RequestIndex op) as [ch|]; [|intros [= <-]; by destruct kv].
  destruct (channels kv !! ReplyChannel ch) as [[]|]; [done| |done]. by intros [= <-].
Qed.

Lemma preCheck_total key kv : ∃ e, preCheck key kv = Ok e.
Proof.
  unfold preCheck. repeat (case_decide; [by eauto|]). rewrite allShardsUpToDate_eq. cbn.
  case_bool_decide; cbn; eauto.
Qed.

(** The two [pre...] sections have one shape. *)
Lemma shardPre_shape req kv :
  ∃ op e, shardPre req kv = Ok (match e with
    | Some e => (kv, inl (mkKVReplyMsg e ""))
    | None => ((createStartCh op kv).1, inr (op, (createStartCh op kv).2))
    end).
Proof.
  unfold shardPre. destruct req as [args|args].
  - exists (createGetOp args kv). destruct (preCheck_total (GA_Key args) kv) as [e He]. exists e.
    unfold preGetStart. rewrite He. cbn. by destruct e.
  - exists (createPutAppendOp args kv). destruct (preCheck_total (PA_Key args) kv) as [e He]. exists e.
    unfold prePutAppendStart. rewrite He. cbn. by destruct e.
Qed.

(** An operation that wants a reply gets a good one. *)
Lemma applyOp_good g op st st' r :
  NeedSendBackCh op = true → client_kind op → applyOp g op st = Ok (st', r) → Error r ≠ ErrFiller.
Proof.
  intros Hn Hk H. unfold applyOp in H. rewrite Hn in H. cbn [negb] in H.
  assert (∀ v, Error (reply_of op v) ≠ ErrFiller) as Hg.
  { intros v. clear H. unfold reply_of. case_decide; [destruct v|]; done. }
  case_decide; [by injection H as _ <-|]. rewrite allShardsUpToDate_eq in H. cbn [mbind Res_bind] in H.
  case_bool_decide; cbn [negb] in H; [|by injection H as _ <-]. destruct (isDuplicateOp op st).
  - case_decide as HG; [rewrite (getValue_Ok op st HG) in H|]; injection H as _ <-; [apply Hg|done].
  - destruct (applyClient_Ok op st Hk) as (st1 & E & _). rewrite E in H. injection H as _ <-. apply Hg.
Qed.

Lemma shardCommand_sends op i kv kv' s :
  handleCommandApply (shardMsg (SCommand op i)) kv = Ok (kv', s) →
  ∃ r, applyOp (gid kv) op (state kv) = Ok (state kv', r) ∧ shardTable kv' = shardTable kv ∧
    ∀ s1, s = Some s1 → NeedSendBackCh op = true ∧ client_kind op ∧ opChannelMatch op kv' = true ∧
      sentOp s1 = op ∧ (∃ ch, getStartCh op kv' = Some ch ∧ ReplyChannel ch = toChannel s1) ∧
      message s1 = (if (rs_GetState (rf kv')).2 then r else mkKVReplyMsg ErrWrongLeader (ReplyValue r)).
Proof.
  unfold handleCommandApply. cbn [asOp shardMsg Command mbind Res_bind CommandIndex].
  destruct (applyOp (gid kv) op (state kv)) as [[st r]| |]; [|done..]. cbn [mbind Res_bind].
  intros H. apply bind_Ok in H as (kv1 & H1 & H).
  assert (shardTable kv1 = shardTable kv ∧ state kv1 = st) as [Ht Hst].
  { case_decide; [|by injection H1 as <-]. apply bind_Ok in H1 as (r' & _ & [= <-]). done. }
  apply bind_Ok in H as (s' & H2 & [= <- <-]). rewrite Hst. exists r. split_and!; [done..|]. intros s1 ->.
  destruct (NeedSendBackCh op) eqn:En, (opChannelMatch op kv1) eqn:Em; cbn in H2; try done.
  unfold signalStartCh in H2. case_decide as Hk; [done|].
  destruct (getStartCh op kv1) as [ch|] eqn:Ech; [|done]. injection H2 as <-.
  split_and!; [done..| |done]. by exists ch.
Qed.

Lemma shardMessage_sends it kv kv' s :
  handleApplyMessage (shardMsg it) kv = Ok (kv', s) →
  match it with
  | SCommand op i => handleCommandApply (shardMsg it) kv = Ok (kv', s)
  | SFiller => kv' = kv ∧ s = None
  | SSnapshot st _ _ => kv' = kv <| state := st |> ∧ s = None
  end.
Proof.
  unfold handleApplyMessage. destruct it as [op i| |st t i]; cbn; [done|..].
  - by intros [= <- <-].
  - rewrite rs_CondInstallSnapshot_true. unfold installSnapshot. destruct (gob_encode st) eqn:E.
    { by apply gob_encode_nonempty in E. }
    rewrite <- E. unfold readSnapshot. rewrite gob_decode_encode. cbn. by intros [= <- <-].
Qed.

Lemma shardOther_raft e kv kv' : shardOther e kv = Ok kv' → only_raft kv kv'.
Proof.
  destruct e as [r| |query| |call sid target]; cbn [shardOther].
  - intros [= <-]. by eexists.
  - intros [= <-]. by eexists.
  - apply shardConfigTicker_raft.
  - intros (? & _ & [= <-])%bind_Ok. apply only_raft_refl.
  - apply acquireShards_raft.
Qed.

Definition shardItem_ok (it : ShardItem) : Prop :=
  match it with SCommand op _ => started_op op | SFiller => True | SSnapshot st _ _ => skv_ok st end.

(** No server of another group answers ASFiller ([AcquireShards_not_filler]). *)
Definition shardEnv_ok (e : ShardEnv R) : Prop :=
  match e with
  | SAcquire call _ _ => ∀ args srv reply, call args srv = Some reply → ASR_Error reply ≠ ASFiller
  | _ => True
  end.

#[export] Program Instance shard_reply_laws :
  ReplyLaws (ShardKV R) Req Op OpKVReplyChannel KVReplyMsg KVReplyMsg ShardItem (ShardEnv R) := {|
  h_op := Operation;
  h_id := shardOpId;
  h_same := same_shard_op;
  h_good msg := Error msg ≠ ErrFiller;
  h_ok kv := skv_ok (state kv);
  h_itemOk := shardItem_ok;
  h_envOk := shardEnv_ok;
|}.
Next Obligation.
  intros req kv kv' x Hok H. destruct (shardPre_shape req kv) as (op & e & E).
  change (shardPre req kv = Ok (kv', x)) in H. rewrite E in H. by destruct e; injection H as <- <-.
Qed.
Next Obligation. intros op kv Hok. cbn. unfold shardStart. by destruct (rs_Start _ _) as [r [[i t] b]]. Qed.
Next Obligation. intros op kv. cbn. unfold shardStart. by destruct (rs_Start _ _) as [r [[i t] b]]. Qed.
Next Obligation.
  intros op kv T Hok H. cbn in *. rewrite (shardDelete_table _ _ _ H). destruct T. eexists. by split_and!.
Qed.
Next Obligation.
  intros req op msg kv T Hok Hg H. cbn in *.
  destruct req; cbn; unfold handleGetResult, handlePutAppendResult;
    rewrite (shardDelete_table _ _ _ H); cbn [mbind Res_bind]; rewrite decide_False by done;
    destruct T; eexists _, _; by split_and!.
Qed.
Next Obligation.
  intros req op kv T Hok H. cbn in *.
  destruct req; cbn; unfold shardTimeout, getTimeout, putAppendTimeout;
    rewrite (shardDelete_table _ _ _ H); destruct T; eexists _, _; by split_and!.
Qed.
Next Obligation. done. Qed.
Next Obligation.
  intros it kv kv' x Hok Hit H. cbn in Hok, Hit. change (shardDeliver it kv = Ok (kv', x)) in H. unfold shardDeliver in H.
  apply bind_Ok in H as ([kv1 s] & H & [= <- <-]). apply shardMessage_sends in H.
  destruct it as [op i| |st t i]; [|by destruct H as [-> ->]..].
  destruct (shardCommand_sends op i kv kv1 s H) as (r & Ha & Ht & Hs).
  destruct (applyOp_config (gid kv) op _ Hok Hit) as (st' & r' & E & Hok' & _). rewrite Ha in E. injection E as <- <-.
  split_and!; [done..|]. destruct s as [s|]; [|done]. intros m [= <-]. cbn.
  destruct (Hs s eq_refl) as (Hn & Hk & Hm & <- & (ch & Hch & Hc) & Hr). split.
  - rewrite Hr. destruct (rs_GetState (rf kv1)).2; [by eapply applyOp_good|done].
  - exists ch. change (t_get _ (shardTable kv)) with (t_get (shardOpId (sentOp s)) (shardTable kv)). rewrite <- Ht.
    split_and!; [done..|]. by eapply shardMatch_same.
Qed.
Next Obligation. intros e kv kv' Hok _ H. destruct (shardOther_raft e kv kv' H) as [r ->]. done. Qed.
Next Obligation. intros e kv kv' H. destruct (shardOther_raft e kv kv' H) as [r ->]. done. Qed.

(** Snapshots do not fail: none is ever taken, or the peer is ready for them. *)
Definition shard_snapshots_succeed (kv : ShardKV R) : Prop := maxraftstate kv = -1 ∨ rs_ready (rf kv).

Lemma acquireLoop_total call servers :
  (∀ srv reply, call srv = Some reply → ASR_Error reply ≠ ASFiller) → ∃ r, acquireLoop call servers = Ok r.
Proof.
  intros Hc. induction servers as [|srv servers IH]; cbn; [by eauto|].
  destruct (call srv) as [reply|] eqn:E; [|done]. rewrite decide_False by (by eapply Hc).
  case_decide; [by eauto|done].
Qed.

#[export] Program Instance shard_reply_total :
  ReplyTotal (ShardKV R) Req Op OpKVReplyChannel KVReplyMsg KVReplyMsg ShardItem (ShardEnv R) := {|
  h_ready := shard_snapshots_succeed;
|}.
Next Obligation.
  intros req kv _. destruct (shardPre_shape req kv) as (op & e & E). by eexists.
Qed.
Next Obligation.
  intros it kv Hok Hs Hit. cbn in Hok, Hit. change (∃ y, shardDeliver it kv = Ok y). unfold shardDeliver.
  enough (∃ y, handleApplyMessage (shardMsg it) kv = Ok y) as [[kv' s] ->] by (cbn; eauto).
  destruct it as [op i| |st t i]; unfold handleApplyMessage; cbn; [|by eauto|].
  - unfold handleCommandApply. cbn [asOp Command mbind Res_bind CommandIndex].
    destruct (applyOp_config (gid kv) op _ Hok Hit) as (st' & r & -> & _). cbn [mbind Res_bind].
    match goal with |- context [mbind _ (if ?d then ?a else ?b)] =>
      assert (∃ kv1, (if d then a else b) = Ok kv1) as [kv1 ->] end.
    { case_decide as Hd; [|by eauto]. destruct Hs as [Hs|Hs]; [by destruct Hd as [Hd _]|].
      match goal with |- context [rs_Snapshot ?i ?b ?r] =>
        destruct (rs_Snapshot_ready r i b Hs) as (r' & -> & _) end. cbn. eauto. }
    cbn [mbind Res_bind]. destruct Hit as [[Hn Hk]|[Hn Hk]]; rewrite Hn; cbn; [|by eauto].
    destruct (opChannelMatch op kv1); cbn; [|by eauto]. unfold signalStartCh.
    rewrite decide_False by (intros Hc; by apply Hc). cbn. eauto.
  - rewrite rs_CondInstallSnapshot_true. unfold installSnapshot. destruct (gob_encode st) eqn:E.
    { by apply gob_encode_nonempty in E. }
    rewrite <- E. unfold readSnapshot. rewrite gob_decode_encode. cbn. eauto.
Qed.
Next Obligation.
  intros e kv Hok He. cbn in Hok, He. change (∃ s', shardOther e kv = Ok s').
  destruct e as [r| |query| |call sid target]; cbn [shardOther]; [by eauto..| | |].
  - unfold shardConfigTicker. rewrite allShardsUpToDate_eq. cbn [mbind Res_bind].
    destruct (negb _); [by eauto|]. destruct (negb _); [by eauto|]. case_decide; [by eauto|]. case_match; by eauto.
  - destruct (rs_GetState (rf kv)).2 eqn:El.
    + destruct (acquireShardTicker_ok kv Hok El) as (calls & -> & _). cbn. eauto.
    + unfold acquireShardTicker. rewrite El. cbn. eauto.
  - unfold acquireShards. cbn zeta.
    match goal with |- context [acquireLoop ?c ?l] => destruct (acquireLoop_total c l) as [r ->] end; [|cbn; eauto].
    intros srv reply. apply He.
Qed.

(** A server as [StartServer] leaves it and a snapshot restores it. *)
Definition shard_initial (me : Z) (r : R) (maxraftstate gid : Z) (st : State) : ShardSys R :=
  mkSys (mkShardKV me r gid maxraftstate st ∅ []) [] None.

Lemma shard_initial_reachable me r maxraftstate gid st :
  skv_ok st → reachable (shard_initial me r maxraftstate gid st).
Proof. intros Hst. by apply r_initial. Qed.

(** ** The theorems *)

(** A group's reply is that of the request.  When the apply loop hands a
    message to a waiting handler, the operation it has just applied is a
    client's, the handler's own (key, value, type, client and request), and
    the message is what applying it to the group's shards answered, marked
    [ErrWrongLeader] when the peer no longer leads; installing a
    configuration or a shard never answers a handler. *)
Theorem shard_reply_is_of_the_request (sys : ShardSys R) it sys1 k sys2 :
  reachable sys → shardItem_ok it →
  exec (Apply it) sys = Ok sys1 → exec (Send k) sys1 = Ok sys2 →
  ∃ req op ch applied i r,
    handlers sys1 !! k = Some (req, HSelect op ch) ∧
    handlers sys2 !! k = Some (req, HGot op
      (if (rs_GetState (rf (server sys1))).2 then r else mkKVReplyMsg ErrWrongLeader (ReplyValue r))) ∧
    it = SCommand applied i ∧ NeedSendBackCh applied = true ∧ same_shard_op op applied ∧
    applyOp (gid (server sys)) applied (state (server sys)) = Ok (state (server sys1), r).
Proof.
  intros Hr Hit H1 H2.
  destruct (delivered it sys sys1 k sys2 Hr Hit H1 H2) as (req & op & ch & m & s' & Hd & Hk1 & _ & Hsame & _ & _ & Hk2).
  change (shardDeliver it (server sys) = Ok (server sys1, Some m)) in Hd. unfold shardDeliver in Hd.
  apply bind_Ok in Hd as ([kv s] & Ha & Hd). destruct s as [s|]; [|done]. cbn in Hd. injection Hd as -> <-.
  apply shardMessage_sends in Ha. destruct it as [applied i| |st t i]; [|by destruct Ha..].
  destruct (shardCommand_sends _ _ _ _ _ Ha) as (r & Happ & _ & Hs).
  destruct (Hs s eq_refl) as (Hn & _ & _ & E & _ & Hr'). cbn in Hk2, Hsame. rewrite Hr' in Hk2. rewrite E in Hsame.
  by exists req, op, ch, applied, i, r.
Qed.

(** C34: a server of a group does not panic.  In every reachable state in
    which no snapshots are taken or the Raft peer is ready for them (for the
    peer of this repository: its commit index lies inside its log), every step
    -- of a handler, the apply loop, a ticker or a call for a shard -- is either
    executed or not enabled, as long as the messages applied carry Gets, Puts
    and Appends, configurations and shards to install, fillers, and snapshots of
    well-formed states, and no server answers a call for a shard with the
    filler error (which none does, [AcquireShards_not_filler]). *)
Theorem shard_server_never_panics (sys : ShardSys R) (l : ShardLabel R) :
  reachable sys → shard_snapshots_succeed (server sys) → label_ok l →
  (∃ sys', exec l sys = Ok sys') ∨ exec l sys = notEnabled.
Proof. intros Hr Hs Hl. exact (exec_total l sys (server_reachable_inv _ Hr) Hs Hl). Qed.
End shard_steps.

(** ** Samples *)

(** Group 1 owns every shard of configuration 1. *)
Definition shardSample : ShardSys IdlePeer :=
  shard_initial 0 (1, true) (-1) 1
    (mkState [zeroConfig; mkConfig 1 (replicate 10 1) {[ 1 := ["a"] ]}]
       (mkConfig 1 (replicate 10 1) {[ 1 := ["a"] ]}) ∅
       (list_to_map ((λ i, (i, 1)) <$> shardIds)) ∅).

Lemma shardSample_reachable : reachable shardSample.
Proof.
  apply shard_initial_reachable. split; [done| |done|].
  - intros [|[|i]] c Hc; cbn in Hc; [by injection Hc as <-..|done].
  - intros sid. unfold timestamp. destruct (_ !! sid) as [t|] eqn:E; [|done]. cbn in E.
    apply elem_of_list_to_map_2, list_elem_of_fmap in E as (i & [= _ ->] & _). done.
Qed.

Definition waiting_put : list (ShardLabel IdlePeer) :=
  [New (SPutAppend (mkPutAppendArgs "k" "v" PUT 7 1)); Handler 0; Handler 0; Handler 0].

Definition samplePut : ShardItem := SCommand (mkOp 0 0 7 1 PUT true "k" "v" zeroConfig 0 0 ∅ ∅) 1.

Lemma waiting_put_reachable : reachable (runTo waiting_put shardSample).
Proof. apply runTo_reachable; [apply shardSample_reachable|]. repeat constructor. Qed.

Lemma samplePut_ok : shardItem_ok samplePut.
Proof. left. split; [reflexivity|]. right. left. reflexivity. Qed.

Lemma shard_reply_is_of_the_request_witness :
  ∃ (req : Req) (op : Op) (ch : OpKVReplyChannel) (applied : Op) (i : Z),
    handlers (runTo [Apply samplePut] (runTo waiting_put shardSample)) !! 0%nat = Some (req, HSelect op ch) ∧
    samplePut = SCommand applied i ∧ same_shard_op op applied.
Proof.
  destruct (shard_reply_is_of_the_request (runTo waiting_put shardSample) samplePut
    (runTo [Apply samplePut] (runTo waiting_put shardSample)) 0
    (runTo [Apply samplePut; Send 0] (runTo waiting_put shardSample)))
    as (req & op & ch & applied & i & r & H1 & _ & H3 & _ & H4 & _).
  - exact waiting_put_reachable.
  - exact samplePut_ok.
  - vm_compute. reflexivity.
  - vm_compute. reflexivity.
  - exists req, op, ch, applied, i. exact (conj H1 (conj H3 H4)).
Defined.

Lemma shard_server_never_panics_witness :
  (∃ sys', exec (Apply samplePut) (runTo waiting_put shardSample) = Ok sys') ∨
  exec (Apply samplePut) (runTo waiting_put shardSample) = notEnabled.
Proof.
  apply (shard_server_never_panics (runTo waiting_put shardSample) (Apply samplePut)).
  - exact waiting_put_reachable.
  - left. vm_compute. reflexivity.
  - exact samplePut_ok.
Defined.

(** The apply loop of a group's server can block for ever, as that of the
    key/value server; it then holds the lock that the tickers and
    AcquireShards need. *)
Theorem shard_apply_loop_blocks_forever :
  ∃ sys : ShardSys IdlePeer, reachable sys ∧ sending sys ≠ None ∧
    ∀ ls sys', run ls sys = Ok sys' →
      sending sys' = sending sys ∧ state (server sys') = state (server sys).
Proof.
  pose (sys := runTo (waiting_put ++ [Timeout 0; Apply samplePut]) shardSample).
  exists sys. split_and!.
  - apply runTo_reachable; [apply shardSample_reachable|]. 
    repeat (constructor; [first [exact I|exact samplePut_ok]|]). constructor.
  - vm_compute. discriminate.
  - intros ls sys' H. eapply (blocked_run state); [..|exact H].
    + done.
    + intros e kv kv' _ H'. by destruct (shardOther_raft e kv kv' H') as [r ->].
    + eexists. split_and!; [vm_compute; reflexivity|vm_compute; lia|].
      intros [|k] req ph op ch Hk Hwt; vm_compute in Hk; [|discriminate Hk]. injection Hk as <- <-. discriminate Hwt.
Qed.
