(* ===== verification/ShardSystem.v ===== *)
(** * The controller and the groups together (code/src/shardctrler, code/src/shardkv)

    A controller ([ShardCtrler]) and any number of groups ([ShardKv]).  The
    leader of a group asks the controller for the next configuration and, when
    its own shards are up to date, puts it in its group's log; it asks the
    previous owners of the shards it lacks for their contents and puts the
    replies in its log; clients' operations go through the same log.

    Of Raft this file takes what it promises: the operations started at a
    leader are added to one log per group, and each replica applies a prefix
    of it ([RaftScenarios] shows that the Raft of this repository does not
    always keep the promise).  Everything else is loose: any replica may take
    itself for the leader, answers of the controller and replies of other
    groups are delayed, repeated or lost, and a replica may go back or forward
    to any prefix of its log (a restart, a snapshot). *)

From S2P Require Import Prelude.
From S2P Require Import Gob.
From S2P Require Import RaftState.
From S2P Require Import RaftService.
From S2P Require Import ShardConfig.
From S2P Require Import ShardCtrler.
From S2P Require Import ShardCtrlerSpec.
From S2P Require Import ShardKv.
From S2P Require Import ShardKvSpec.
Open Scope Z_scope.

(** A peer as a server sees it during one critical section: whether it leads,
    and the commands started. *)
Definition PeerView : Type := bool * list (Iface Op).

Definition viewStart (c : Iface Op) (r : PeerView) : PeerView := if r.1 then (true, r.2 ++ [c]) else r.

Lemma viewStart_keeps c r : (viewStart c r).1 = r.1.
Proof. by destruct r as [[] l]. Qed.

#[export] Instance View_service : RaftService PeerView Op.
Proof.
  refine {|
    rs_GetState r := (1, r.1);
    rs_Start c r := (viewStart c r, (zlen r.2 + 1, 1, r.1));
    rs_Snapshot _ _ r := Ok r;
    rs_CondInstallSnapshot _ _ _ _ := true;
    rs_Kill r := r;
    rs_RaftStateSize _ := 0;
    rs_ready _ := True;
  |}; try done.
  - by intros [[] l] c.
  - intros r c. cbn. by rewrite viewStart_keeps.
  - by intros r r' i b [= ->].
  - intros r i b _. by exists r.
Defined.

(** ** The system *)

Record Replica := mkReplica { applied : nat; rstate : State }.

Record Group := mkGroup { glog : list Op; replicas : list Replica }.

(** A request for a shard: the replica that asks (group and index), the shard
    and the configuration it was taken from. *)
Record Request := mkRequest { rqGroup : Z; rqReplica : nat; rqShard : Z; rqTarget : Config }.

Record World := mkWorld {
  ctrl : ShardCtrler.State;
  groups : gmap Z Group;
  (** answers of the controller: who asked, and the configuration *)
  answers : list (Z * nat * Config);
  requests : list Request;
  (** replies to requests, with the name of the server that answered *)
  replies : list (Request * string * AcquireShardReply);
}.
#[export] Instance World_eta : Settable World := λ w,
  mkWorld (ctrl w) (groups w) (answers w) (requests w) (replies w).
#[export] Instance set_ctrl : Setter ctrl := ltac:(derive_setter).
#[export] Instance set_groups : Setter groups := ltac:(derive_setter).
#[export] Instance set_answers : Setter answers := ltac:(derive_setter).
#[export] Instance set_requests : Setter requests := ltac:(derive_setter).
#[export] Instance set_replies : Setter replies := ltac:(derive_setter).

Ltac sys_simpl :=
  cbn [setf set_ctrl set_groups set_answers set_requests set_replies
       ctrl groups answers requests replies glog replicas applied rstate] in *.

Definition getReplica (w : World) (g : Z) (i : nat) : option Replica :=
  G ← groups w !! g; replicas G !! i.

(** The server of replica [i] of group [g] during a critical section. *)
Definition serverOf (lead : bool) (g : Z) (i : nat) (rep : Replica) : ShardKV PeerView :=
  mkShardKV (Z.of_nat i) (lead, []) g (-1) (rstate rep) ∅ [].

Definition startedOps (r : PeerView) : list Op :=
  omap (λ c, match c with ICmd op => Some op | _ => None end) r.2.

(** What was started at a server is added to its group's log. *)
Definition logStarted (g : Z) (kv : ShardKV PeerView) (w : World) : World :=
  w <| groups := alter (λ G, mkGroup (glog G ++ startedOps (rf kv)) (replicas G)) g (groups w) |>.

Definition setReplica (g : Z) (i : nat) (rep : Replica) (w : World) : World :=
  w <| groups := alter (λ G, mkGroup (glog G) (<[i := rep]> (replicas G))) g (groups w) |>.

Inductive Label :=
  (** an operation is applied by the controller *)
  | Control (op : ShardCtrler.Op)
  (** a replica's controller clerk asks for the configuration after its latest *)
  | AskConfig (g : Z) (i : nat) (client index : Z)
  (** its ticker gets answer [k] *)
  | ConfigTick (g : Z) (i : nat) (lead : bool) (k : nat)
  (** the ticker that asks for shards fires *)
  | AcquireTick (g : Z) (i : nat) (lead : bool)
  (** a server answers request [k] *)
  | Serve (k : nat) (server : string) (lead : bool)
  (** the asking replica gets reply [k] *)
  | Deliver (k : nat) (lead : bool)
  (** a client's operation is started *)
  | Client (g : Z) (i : nat) (kind key value : string) (client index : Z)
  (** a replica applies the next operation of its log *)
  | Apply (g : Z) (i : nat)
  (** a replica restarts, or takes a snapshot of the first [n] operations *)
  | Recover (g : Z) (i n : nat).

Section system.
(** The replica that listens at a name. *)
Context (host : string → option (Z * nat)).

Definition step (w : World) (l : Label) : Res World :=
  match l with
  | Control op =>
      '(st, _) ← ShardCtrler.applyOp op (ctrl w); Ok (w <| ctrl := st |>)
  | AskConfig g i client index =>
      match getReplica w g i with
      | Some rep =>
          let n := Num (LatestConfig (rstate rep)) + 1 in
          '(st, msg) ← ShardCtrler.applyOp
            (ShardCtrler.mkOp 0 0 QUERY ∅ [] 0 0 n client index) (ctrl w);
          Ok (w <| ctrl := st |> <| answers := answers w ++ [(g, i, ReturnConfig msg)] |>)
      | None => Ok w
      end
  | ConfigTick g i lead k =>
      match getReplica w g i, answers w !! k with
      | Some rep, Some (g', i', c) =>
          if decide (g' = g ∧ i' = i) then
            kv ← shardConfigTicker (λ _, c) (serverOf lead g i rep); Ok (logStarted g kv w)
          else Ok w
      | _, _ => Ok w
      end
  | AcquireTick g i lead =>
      match getReplica w g i with
      | Some rep =>
          calls ← acquireShardTicker (serverOf lead g i rep);
          Ok (w <| requests := requests w ++ map (λ c, mkRequest g i c.1 c.2) calls |>)
      | None => Ok w
      end
  | Serve k srv lead =>
      match requests w !! k, host srv with
      | Some rq, Some (g, i) =>
          match getReplica w g i, getReplica w (rqGroup rq) (rqReplica rq) with
          | Some donor, Some rep =>
              let args := createAcquireShards (rqShard rq) (rqTarget rq)
                            (serverOf true (rqGroup rq) (rqReplica rq) rep) in
              Ok (w <| replies := replies w ++ [(rq, srv, AcquireShards args (serverOf lead g i donor))] |>)
          | _, _ => Ok w
          end
      | _, _ => Ok w
      end
  | Deliver k lead =>
      match replies w !! k with
      | Some (rq, srv, reply) =>
          match getReplica w (rqGroup rq) (rqReplica rq) with
          | Some rep =>
              kv ← acquireShards (λ _ s, if decide (s = srv) then Some reply else None)
                     (rqShard rq) (rqTarget rq) (serverOf lead (rqGroup rq) (rqReplica rq) rep);
              Ok (logStarted (rqGroup rq) kv w)
          | None => Ok w
          end
      | None => Ok w
      end
  | Client g i kind key value client index =>
      match getReplica w g i with
      | Some rep =>
          if decide (kind = GET ∨ kind = PUT ∨ kind = APPEND) then
            let kv := serverOf true g i rep in
            Ok (logStarted g (kv <| rf := viewStart (ICmd (clientOp kv kind key value client index)) (rf kv) |>) w)
          else Ok w
      | None => Ok w
      end
  | Apply g i =>
      match groups w !! g with
      | Some G =>
          match replicas G !! i with
          | Some rep =>
              match glog G !! applied rep with
              | Some op =>
                  '(st, _) ← applyOp g op (rstate rep);
                  Ok (setReplica g i (mkReplica (S (applied rep)) st) w)
              | None => Ok w
              end
          | None => Ok w
          end
      | None => Ok w
      end
  | Recover g i n =>
      match groups w !! g with
      | Some G =>
          st ← applyOps g (take n (glog G)) makeState;
          Ok (setReplica g i (mkReplica (length (take n (glog G))) st) w)
      | None => Ok w
      end
  end.

Definition runs (w : World) (tr : list Label) : Res World := go_for step w tr.
End system.

(** Groups of new servers, [sizes g] in group [g]. *)
Definition initial (sizes : gmap Z nat) : World :=
  mkWorld ShardCtrler.makeState ((λ n, mkGroup [] (replicate n (mkReplica 0 makeState))) <$> sizes) [] [] [].

(** ** The invariant *)

(** What may be in a log when the controller's history is [h]. *)
Definition op_ok (h : list Config) (op : Op) : Prop :=
  started_op op ∧ (OpKind op = InstallShardConfig → ShardConfig op ∈ h).

Record replica_ok (g : Z) (log : list Op) (rep : Replica) : Prop := mkReplicaOk {
  ro_applied : (applied rep ≤ length log)%nat;
  ro_state : applyOps g (take (applied rep) log) makeState = Ok (rstate rep);
}.

Record sys_inv (w : World) : Prop := mkSysInv {
  si_ctrl : ctrl_ok (ctrl w);
  si_answers : ∀ g i c, (g, i, c) ∈ answers w → c ∈ Configs (ctrl w);
  si_log : ∀ g G, groups w !! g = Some G → Forall (op_ok (Configs (ctrl w))) (glog G);
  si_replicas : ∀ g G rep, groups w !! g = Some G → rep ∈ replicas G → replica_ok g (glog G) rep;
  si_replies : ∀ rq srv reply, (rq, srv, reply) ∈ replies w → ASR_Error reply ≠ ASFiller;
}.

Lemma op_ok_mono h h' op : h `prefix_of` h' → op_ok h op → op_ok h' op.
Proof.
  intros [k ->] [Hs Hc]. split; [done|]. intros Hk. apply elem_of_app. left. auto.
Qed.

Lemma log_started h ops : Forall (op_ok h) ops → Forall started_op ops.
Proof. intros Hops. eapply Forall_impl; [exact Hops|]. by intros op [? _]. Qed.

Lemma group_applyOps_app g a b st :
  applyOps g (a ++ b) st = (st ← applyOps g a st; applyOps g b st).
Proof.
  revert st. induction a as [|op a IH]; intros st; cbn; [done|].
  destruct (applyOp g op st) as [[st1 m]| |]; cbn; [apply IH|done..].
Qed.

Lemma firstn_all_take {A} n (l : list A) : take (length (take n l)) l = take n l.
Proof. rewrite length_take. destruct (Nat.le_gt_cases n (length l)); [by rewrite Nat.min_l|]. rewrite !take_ge; [done|lia..]. Qed.

(** The state of a replica: well formed, its configurations the controller's. *)
Lemma replica_state h g log rep :
  Forall (op_ok h) log → replica_ok g log rep →
  skv_ok (rstate rep) ∧ ∀ c, c ∈ AllConfigs (rstate rep) → c = zeroConfig ∨ c ∈ h.
Proof.
  intros Hlog [_ Hs]. set (ops := take (applied rep) log) in *.
  assert (Forall (op_ok h) ops) as Hops by by apply Forall_take.
  destruct (applyOps_configs g ops makeState skv_ok_makeState (log_started _ _ Hops))
    as (st & Hst & Hok & added & HA & Hin).
  rewrite Hs in Hst. injection Hst as <-. split; [done|]. rewrite HA.
  intros c [->%list_elem_of_singleton|Hc]%elem_of_app; [by left|right].
  destruct (Hin c Hc) as (op & Hop & Hk & <-). rewrite Forall_forall in Hops. by apply (Hops op Hop).
Qed.

Lemma getReplica_Some w g i rep :
  getReplica w g i = Some rep ↔ ∃ G, groups w !! g = Some G ∧ replicas G !! i = Some rep.
Proof. unfold getReplica. destruct (groups w !! g); cbn; naive_solver. Qed.

Lemma inv_replica w g i rep :
  sys_inv w → getReplica w g i = Some rep →
  skv_ok (rstate rep) ∧ ∀ c, c ∈ AllConfigs (rstate rep) → c = zeroConfig ∨ c ∈ Configs (ctrl w).
Proof.
  intros I (G & HG & Hr)%getReplica_Some. apply list_elem_of_lookup_2 in Hr.
  by eapply replica_state; [apply (si_log w I g G HG)|apply (si_replicas w I g G rep HG Hr)].
Qed.

(** ** What the steps keep *)

Lemma inv_ctrl w st : sys_inv w → ctrl_ok st → Configs (ctrl w) `prefix_of` Configs st →
  sys_inv (w <| ctrl := st |>).
Proof.
  intros [] Hok Hp. split; sys_simpl; try done.
  - intros g i c Hc. destruct Hp as [k ->]. apply elem_of_app. left. eauto.
  - intros g G HG. eapply Forall_impl; [by apply (si_log0 g)|]. intros op. by apply op_ok_mono.
Qed.

(** A group changes. *)
Lemma inv_alter w g f :
  sys_inv w →
  (∀ G, groups w !! g = Some G →
     Forall (op_ok (Configs (ctrl w))) (glog (f G)) ∧
     ∀ rep, rep ∈ replicas (f G) → replica_ok g (glog (f G)) rep) →
  sys_inv (w <| groups := alter f g (groups w) |>).
Proof.
  intros [] Hf. split; sys_simpl; try done.
  - intros g' G' [[<- (G & HG & ->)]|[_ HG]]%lookup_alter_Some; [by apply Hf|eauto].
  - intros g' G' rep [[<- (G & HG & ->)]|[_ HG]]%lookup_alter_Some; [by apply Hf|eauto].
Qed.

Lemma inv_logStarted w g kv :
  sys_inv w → Forall (op_ok (Configs (ctrl w))) (startedOps (rf kv)) → sys_inv (logStarted g kv w).
Proof.
  intros I Hops. apply inv_alter; [done|]. intros G HG. sys_simpl. split.
  - apply Forall_app. split; [by eapply si_log|done].
  - intros rep Hrep. destruct (si_replicas w I g G rep HG Hrep) as [Ha Hs]. split.
    + rewrite length_app. lia.
    + by rewrite take_app_le by lia.
Qed.

Lemma inv_setReplica w g i rep :
  sys_inv w → (∀ G, groups w !! g = Some G → replica_ok g (glog G) rep) → sys_inv (setReplica g i rep w).
Proof.
  intros I Hrep. apply inv_alter; [done|]. intros G HG. sys_simpl. split; [by eapply si_log|].
  intros rep' Hin. apply list_elem_of_lookup in Hin as [j [(-> & <- & _)|[_ Hj]]%list_lookup_insert_Some].
  - by apply Hrep.
  - eapply si_replicas; [done..|]. by eapply list_elem_of_lookup_2.
Qed.

(** ** What the tickers start *)

Lemma configTick_started query lead g i rep :
  ∃ kv, shardConfigTicker query (serverOf lead g i rep) = Ok kv ∧
    (startedOps (rf kv) = [] ∨
     let n := Num (LatestConfig (rstate rep)) + 1 in
     Num (query n) = n ∧ lagging g (rstate rep) = [] ∧
     startedOps (rf kv) = [createInstallShardConfigOp (query n) (serverOf lead g i rep)]).
Proof.
  unfold shardConfigTicker. cbn [serverOf rf state gid]. destruct lead; cbn [rs_GetState View_service snd fst negb];
    [|eexists; split; [done|by left]].
  rewrite allShardsUpToDate_eq. cbn [mbind Res_bind]. case_bool_decide as Hl; cbn [negb]; [|eexists; split; [done|by left]].
  case_decide as Hn; [eexists; split; [done|by left]|].
  eexists. split; [done|]. right. split; [exact Hn|]. split; [exact Hl|reflexivity].
Qed.

Lemma acquireLoop_one srv reply servers :
  ASR_Error reply ≠ ASFiller →
  acquireLoop (λ s, if decide (s = srv) then Some reply else None) servers =
  Ok (if decide (srv ∈ servers ∧ ASR_Error reply = ASOK) then Some reply else None).
Proof.
  intros Hf. induction servers as [|s servers IH]; cbn [acquireLoop].
  { rewrite decide_False; [done|]. set_solver. }
  destruct (decide (s = srv)) as [->|Hne].
  - rewrite decide_False by done. destruct (decide (ASR_Error reply = ASOK)).
    + rewrite decide_True; [done|]. split; [left|done].
    + rewrite IH, !decide_False; [done|by intros []..].
  - rewrite IH. f_equal. repeat case_decide; try done; set_solver.
Qed.

Lemma deliver_started lead g i sid target rep srv reply :
  ASR_Error reply ≠ ASFiller →
  ∃ kv, acquireShards (λ _ s, if decide (s = srv) then Some reply else None) sid target
          (serverOf lead g i rep) = Ok kv ∧
    (startedOps (rf kv) = [] ∨
     srv ∈ default [] (Groups target !! owner target sid) ∧ ASR_Error reply = ASOK ∧
     startedOps (rf kv) = [createAcquireShardOp sid reply (serverOf lead g i rep)]).
Proof.
  intros Hf. unfold acquireShards. rewrite acquireLoop_one by done. cbn [mbind Res_bind].
  case_decide as Hc; (eexists; split; [done|]); [|by left].
  unfold handleAcquireShardReply. destruct lead; cbn; [right|by left]. by destruct Hc.
Qed.

(** A Query is answered from the history, which it does not change. *)
Lemma query_in_history op st st' msg :
  ctrl_ok st → ShardCtrler.OpKind op = QUERY → ShardCtrler.applyOp op st = Ok (st', msg) →
  Configs st' = Configs st ∧ ReturnConfig msg ∈ Configs st.
Proof.
  intros Hok Hq Heq. destruct (query_ok op st Hok Hq) as (st1 & msg1 & Heq1 & HC & Hc).
  rewrite Heq in Heq1. injection Heq1 as <- <-. split; [done|].
  case_decide; [by eapply list_elem_of_lookup_2|by apply last_elem].
Qed.

(** What a run may contain: operations the controller's servers accept. *)
Definition label_ok (l : Label) : Prop :=
  match l with Control op => ctrl_valid op | _ => True end.

Lemma step_ok host w l :
  sys_inv w → label_ok l →
  ∃ w', step host w l = Ok w' ∧ sys_inv w' ∧ Configs (ctrl w) `prefix_of` Configs (ctrl w').
Proof.
  intros I Hl. destruct l as [op|g i cl ix|g i lead k|g i lead|k srv lead|k lead|g i kind key value cl ix|g i|g i n];
    cbn [step].
  - destruct (applyOp_ok op (ctrl w) (si_ctrl w I) Hl) as (st & msg & -> & Hok & _ & Hp & _).
    eexists. split; [done|]. split; [by apply inv_ctrl|done].
  - destruct (getReplica w g i) as [rep|]; [|by eexists].
    set (op := ShardCtrler.mkOp _ _ _ _ _ _ _ _ _ _).
    destruct (applyOp_ok op (ctrl w) (si_ctrl w I)) as (st & msg & Heq & Hok & _ & Hp & _); [by left|].
    destruct (query_in_history op (ctrl w) st msg (si_ctrl w I) eq_refl Heq) as [HC Hin].
    rewrite Heq. eexists. split; [done|]. pose proof (inv_ctrl w st I Hok Hp) as [].
    split; [|done]. split; sys_simpl; try done.
    intros g' i' c [Hc|Hc]%elem_of_app; [eauto|]. apply list_elem_of_singleton in Hc as [= -> -> ->].
    by rewrite HC.
  - destruct (getReplica w g i) as [rep|] eqn:Hr; [|by eexists].
    destruct (answers w !! k) as [[[g' i'] c]|] eqn:Ha; [|by eexists].
    case_decide; [|by eexists].
    destruct (configTick_started (λ _, c) lead g i rep) as (kv & -> & Hs). cbn [mbind Res_bind].
    eexists. split; [done|]. split; [|done]. apply inv_logStarted; [done|].
    destruct Hs as [->|(_ & _ & ->)]; [constructor|]. constructor; [|constructor].
    split; [by right; split; [|left]|]. intros _. apply list_elem_of_lookup_2 in Ha. by eapply si_answers.
  - destruct (getReplica w g i) as [rep|] eqn:Hr; [|by eexists].
    destruct (inv_replica w g i rep I Hr) as [Hok _].
    assert (∃ calls, acquireShardTicker (serverOf lead g i rep) = Ok calls) as [calls ->].
    { destruct lead; [|by eexists].
      destruct (acquireShardTicker_ok (serverOf true g i rep) Hok) as (cs & -> & _); [done|by eexists]. }
    eexists. split; [done|]. split; [by destruct I|done].
  - destruct (requests w !! k) as [rq|]; [|by eexists]. destruct (host srv) as [[g i]|]; [|by eexists].
    destruct (getReplica w g i) as [donor|]; [|by eexists].
    destruct (getReplica w _ _) as [rep|]; [|by eexists].
    eexists. split; [done|]. split; [|done]. destruct I; split; sys_simpl; try done.
    intros rq' srv' reply [Hin|Hin]%elem_of_app; [eauto|].
    apply list_elem_of_singleton in Hin as [= _ _ ->]. apply AcquireShards_not_filler.
  - destruct (replies w !! k) as [[[rq srv] reply]|] eqn:Hk; [|by eexists].
    destruct (getReplica w _ _) as [rep|]; [|by eexists]. apply list_elem_of_lookup_2 in Hk.
    destruct (deliver_started lead (rqGroup rq) (rqReplica rq) (rqShard rq) (rqTarget rq) rep srv reply)
      as (kv & -> & Hs); [by eapply si_replies|]. cbn [mbind Res_bind].
    eexists. split; [done|]. split; [|done]. apply inv_logStarted; [done|].
    destruct Hs as [->|(_ & _ & ->)]; [constructor|]. constructor; [|constructor].
    split; [by right; split; [|right]|]. done.
  - destruct (getReplica w g i) as [rep|] eqn:Hr; [|by eexists]. case_decide as Hkind; [|by eexists].
    eexists. split; [done|]. split; [|done]. apply inv_logStarted; [done|].
    constructor; [|constructor]. split; [by left|]. cbn. intros ->. by destruct Hkind as [?|[?|?]].
  - destruct (groups w !! g) as [G|] eqn:HG; [|by eexists].
    destruct (replicas G !! i) as [rep|] eqn:Hr; [|by eexists].
    destruct (glog G !! applied rep) as [op|] eqn:Hop; [|by eexists].
    pose proof (si_log w I g G HG) as Hlog. apply list_elem_of_lookup_2 in Hr.
    pose proof (si_replicas w I g G rep HG Hr) as Hrep.
    destruct (replica_state _ g _ rep Hlog Hrep) as [Hok _].
    assert (started_op op) as Hst.
    { apply log_started in Hlog. rewrite Forall_lookup in Hlog. by eapply Hlog. }
    destruct (applyOp_config g op (rstate rep) Hok Hst) as (st & msg & Heq & _). rewrite Heq.
    eexists. split; [done|]. split; [|done]. apply inv_setReplica; [done|]. intros G' HG'.
    rewrite HG in HG'. injection HG' as <-. split; cbn [applied rstate].
    + by apply lookup_lt_Some in Hop.
    + rewrite (take_S_r _ _ _ Hop), group_applyOps_app, (ro_state _ _ _ Hrep). cbn. by rewrite Heq.
  - destruct (groups w !! g) as [G|] eqn:HG; [|by eexists].
    pose proof (si_log w I g G HG) as Hlog.
    destruct (applyOps_configs g (take n (glog G)) makeState skv_ok_makeState) as (st & Heq & _).
    { apply Forall_take. by eapply log_started. }
    rewrite Heq. eexists. split; [done|]. split; [|done]. apply inv_setReplica; [done|]. intros G' HG'.
    rewrite HG in HG'. injection HG' as <-. split; cbn [applied rstate].
    + rewrite length_take. lia.
    + rewrite firstn_all_take. exact Heq.
Qed.

Lemma runs_ok host w tr :
  sys_inv w → Forall label_ok tr →
  ∃ w', runs host w tr = Ok w' ∧ sys_inv w' ∧ Configs (ctrl w) `prefix_of` Configs (ctrl w').
Proof.
  unfold runs. intros I Htr. revert w I. induction Htr as [|l tr Hl _ IH]; intros w I; [by eexists|].
  cbn. destruct (step_ok host w l I Hl) as (w1 & -> & I1 & Hp). cbn.
  destruct (IH w1 I1) as (w' & -> & I' & Hp'). eexists. split_and!; [done|done|by etrans].
Qed.

(** The same for any operations, of a run that gets through. *)
Lemma step_keeps host w l w' :
  sys_inv w → step host w l = Ok w' → sys_inv w' ∧ Configs (ctrl w) `prefix_of` Configs (ctrl w').
Proof.
  intros I H. assert ((∃ op, l = Control op) ∨ label_ok l) as [[op ->]|Hl] by (destruct l; cbn; eauto).
  - cbn in H. apply bind_Ok in H as ([st msg] & E & [= <-]).
    destruct (applyOp_keeps op (ctrl w) st msg (si_ctrl w I) E). split; [by apply inv_ctrl|done].
  - destruct (step_ok host w l I Hl) as (w1 & E & ?). rewrite H in E. by injection E as <-.
Qed.

Lemma runs_hold host w tr w' :
  sys_inv w → runs host w tr = Ok w' → sys_inv w' ∧ Configs (ctrl w) `prefix_of` Configs (ctrl w').
Proof.
  unfold runs. revert w. induction tr as [|l tr IH]; intros w I H; cbn in H; [by injection H as <-|].
  apply bind_Ok in H as (w1 & H1 & H). destruct (step_keeps host w l w1 I H1) as [I1 Hp].
  destruct (IH w1 I1 H) as [I' Hp']. split; [done|by etrans].
Qed.

Lemma initial_inv sizes : sys_inv (initial sizes).
Proof.
  split; cbn; [apply ctrl_ok_makeState|set_solver| | |set_solver].
  - intros g G (k & <- & _)%lookup_fmap_Some. constructor.
  - intros g G rep (k & <- & _)%lookup_fmap_Some Hrep. cbn in Hrep.
    apply list_elem_of_lookup in Hrep as [j Hj]. apply lookup_replicate in Hj as [-> _]. by split.
Qed.

(** ** The configurations of the groups *)

Lemma prefix_by_numbers (a h : list Config) :
  (∀ i c, a !! i = Some c → Num c = Z.of_nat i) → (∀ i c, h !! i = Some c → Num c = Z.of_nat i) →
  (∀ c, c ∈ a → c ∈ h) → a `prefix_of` h.
Proof.
  intros Ha Hh Hin.
  assert (∀ i c, a !! i = Some c → h !! i = Some c) as Hl.
  { intros i c Hc. assert (c ∈ h) as [j Hj]%list_elem_of_lookup by (by eapply Hin, list_elem_of_lookup_2).
    pose proof (Ha _ _ Hc). pose proof (Hh _ _ Hj). by replace i with j by lia. }
  exists (drop (length a) h). rewrite <- (take_drop (length a) h) at 1. f_equal. apply list_eq. intros i.
  destruct (a !! i) as [c|] eqn:Hc.
  - rewrite lookup_take_lt by (by eapply lookup_lt_Some). by apply Hl.
  - apply lookup_ge_None in Hc. by rewrite lookup_take_ge.
Qed.

(** What a replica has installed is the beginning of the controller's
    history. *)
Lemma inv_configs w g i rep :
  sys_inv w → [zeroConfig] `prefix_of` Configs (ctrl w) → getReplica w g i = Some rep →
  skv_ok (rstate rep) ∧ AllConfigs (rstate rep) `prefix_of` Configs (ctrl w).
Proof.
  intros I [k Hz] Hr. destruct (inv_replica w g i rep I Hr) as [Hok Hin]. split; [done|].
  apply prefix_by_numbers; [apply Hok|apply (si_ctrl w I)|].
  intros c Hc. destruct (Hin c Hc) as [->|?]; [|done]. rewrite Hz. left.
Qed.

Lemma latest_lookup w g i rep :
  sys_inv w → [zeroConfig] `prefix_of` Configs (ctrl w) → getReplica w g i = Some rep →
  0 ≤ Num (LatestConfig (rstate rep)) ∧
  Configs (ctrl w) !! Z.to_nat (Num (LatestConfig (rstate rep))) = Some (LatestConfig (rstate rep)).
Proof.
  intros I Hz Hr. destruct (inv_configs w g i rep I Hz Hr) as [Hok [k Hp]].
  pose proof (so_last _ Hok) as Hl. rewrite last_lookup in Hl.
  pose proof (so_num _ Hok _ _ Hl) as Hn. split; [lia|].
  rewrite Hp. apply lookup_app_l_Some. rewrite Hn, Nat2Z.id. done.
Qed.

(** C16: the groups follow the controller.  In every run, with answers and
    replies delayed, repeated and lost, several would-be leaders, restarts and
    snapshots: as long as the process of the controller has not ended, what any
    replica of any group has installed is a prefix of the controller's history,
    ending with its latest configuration, and two replicas, of one group or of
    two, whose latest configurations have the same number have the same one.
    And nothing ends the controller or a group while the controller is given
    only Joins, Leaves, Queries, and Moves of shards that exist (a Move of
    another shard ends it, [Move_out_of_range_panics]). *)
Theorem groups_follow_controller host sizes tr :
  (Forall label_ok tr → ∃ w, runs host (initial sizes) tr = Ok w) ∧
  ∀ w, runs host (initial sizes) tr = Ok w →
    ctrl_ok (ctrl w) ∧
    (∀ g i rep, getReplica w g i = Some rep →
       AllConfigs (rstate rep) `prefix_of` Configs (ctrl w) ∧
       last (AllConfigs (rstate rep)) = Some (LatestConfig (rstate rep))) ∧
    (∀ g i rep g' i' rep', getReplica w g i = Some rep → getReplica w g' i' = Some rep' →
       Num (LatestConfig (rstate rep)) = Num (LatestConfig (rstate rep')) →
       LatestConfig (rstate rep) = LatestConfig (rstate rep')).
Proof.
  split.
  { intros Htr. destruct (runs_ok host _ tr (initial_inv sizes) Htr) as (w & Hw & _). by exists w. }
  intros w Hw. destruct (runs_hold host _ tr w (initial_inv sizes) Hw) as [I Hz]. split_and!; [apply I| |].
  - intros g i rep Hr. destruct (inv_configs w g i rep I Hz Hr) as [Hok Hp]. split; [done|apply Hok].
  - intros g i rep g' i' rep' Hr Hr' Hn.
    destruct (latest_lookup w g i rep I Hz Hr) as [_ H1].
    destruct (latest_lookup w g' i' rep' I Hz Hr') as [_ H2]. rewrite Hn in H1. congruence.
Qed.

(** Who answers a client's operation other than with ErrWrongGroup is the
    owner of the key. *)
Lemma served_by_owner g op st st' msg :
  NeedSendBackCh op = true → applyOp g op st = Ok (st', msg) → Error msg ≠ ErrWrongGroup →
  owner (LatestConfig st) (key2shard (Key op)) = g.
Proof.
  intros Hn Heq He. unfold applyOp in Heq. rewrite Hn in Heq. cbn in Heq.
  destruct (decide (g = owner (LatestConfig st) (key2shard (Key op)))) as [->|Hne]; [done|].
  rewrite decide_True in Heq by done. injection Heq as <- <-. by destruct He.
Qed.

(** No key has two servers in one configuration.  When replicas of two
    groups that are at the same configuration number both apply an operation
    on a key of the same shard and neither refuses it as the wrong group, the
    groups are the same. *)
Theorem one_group_serves host sizes tr w g i rep g' i' rep' op op' st st' msg msg' :
  Forall label_ok tr → runs host (initial sizes) tr = Ok w →
  getReplica w g i = Some rep → getReplica w g' i' = Some rep' →
  Num (LatestConfig (rstate rep)) = Num (LatestConfig (rstate rep')) →
  NeedSendBackCh op = true → NeedSendBackCh op' = true → key2shard (Key op) = key2shard (Key op') →
  applyOp g op (rstate rep) = Ok (st, msg) → applyOp g' op' (rstate rep') = Ok (st', msg') →
  Error msg ≠ ErrWrongGroup → Error msg' ≠ ErrWrongGroup → g = g'.
Proof.
  intros Htr Hw Hr Hr' Hn Ho Ho' Hk H1 H2 He He'.
  destruct (runs_ok host _ tr (initial_inv sizes) Htr) as (w1 & Hw1 & I & Hz).
  rewrite Hw in Hw1. injection Hw1 as <-.
  destruct (latest_lookup w g i rep I Hz Hr) as [_ L1].
  destruct (latest_lookup w g' i' rep' I Hz Hr') as [_ L2]. rewrite Hn, L2 in L1. injection L1 as L1.
  apply served_by_owner in H1 as <-; [|done..]. apply served_by_owner in H2 as <-; [|done..].
  by rewrite Hk, L1.
Qed.

(** ** A group that can never catch up *)

Section stuck.
Context (host : string → option (Z * nat)).
(** The history of the controller; configuration [n] has a shard whose owner
    is not a group, the next one gives it to group [g], which did not have it
    before. *)
Context (h : list Config) (n : nat) (c c' : Config) (g sid : Z).

Record orphaned : Prop := mkOrphaned {
  or_n : (1 ≤ n)%nat;
  or_c : h !! n = Some c;
  or_c' : h !! S n = Some c';
  or_sid : sid ∈ shardIds;
  or_nobody : Groups c !! owner c sid = None;
  or_next : owner c' sid = g;
  or_before : ∀ i ci, (i ≤ n)%nat → h !! i = Some ci → owner ci sid ≠ g;
}.

(** What can get into the log of [g]. *)
Definition log_stuck (op : Op) : Prop :=
  (OpKind op = InstallShardConfig → Num (ShardConfig op) ≤ Z.of_nat (S n)) ∧
  (OpKind op = AcquireShard → NeedSendBackCh op = false → ShardId op ≠ sid).

Definition request_stuck (rq : Request) : Prop :=
  rqGroup rq = g → rqShard rq = sid → Groups (rqTarget rq) !! owner (rqTarget rq) sid = None.

Record stuck_inv (w : World) : Prop := mkStuckInv {
  su_log : ∀ G, groups w !! g = Some G → Forall log_stuck (glog G);
  su_requests : Forall request_stuck (requests w);
  su_replies : ∀ rq srv reply, (rq, srv, reply) ∈ replies w → request_stuck rq;
}.

(** The states a replica of [g] can be in. *)
Definition state_stuck (st : State) : Prop :=
  Num (LatestConfig st) ≤ Z.of_nat (S n) ∧ timestamp st sid = 0.

Lemma stuck_owner st :
  orphaned → skv_ok st → AllConfigs st `prefix_of` h → owner (LatestConfig st) sid = g →
  Z.of_nat (S n) ≤ Num (LatestConfig st).
Proof.
  intros O Hok [k Hp] Ho. pose proof (so_last _ Hok) as Hl. rewrite last_lookup in Hl.
  rewrite (so_num _ Hok _ _ Hl). destruct (decide (S n ≤ pred (length (AllConfigs st)))%nat); [lia|].
  exfalso. eapply (or_before O (pred (length (AllConfigs st))) (LatestConfig st)); [lia| |done].
  rewrite Hp. by apply lookup_app_l_Some.
Qed.

Lemma stamps_stuck (f : State → Z → State) (l : list Z) st new :
  LatestConfig st = new → timestamp st sid = 0 →
  (∀ a i, LatestConfig a = new → timestamp a sid = 0 → LatestConfig (f a i) = new ∧ timestamp (f a i) sid = 0) →
  timestamp (foldl f st l) sid = 0.
Proof.
  intros Hn Ht Hf.
  apply (foldl_inv (λ a, LatestConfig a = new ∧ timestamp a sid = 0) f l st); [|done].
  intros a b []. by apply Hf.
Qed.

Lemma install_stuck op st :
  orphaned → skv_ok st → AllConfigs st `prefix_of` h → state_stuck st →
  AllConfigs (handleInstallShardConfig g op st) `prefix_of` h →
  Num (ShardConfig op) ≤ Z.of_nat (S n) → state_stuck (handleInstallShardConfig g op st).
Proof.
  intros O Hok Hp [Hnum Ht] Hp' Hle.
  destruct (decide (Num (ShardConfig op) = Num (LatestConfig st) + 1)) as [E|E].
  2:{ unfold handleInstallShardConfig. rewrite decide_True by done. done. }
  pose proof (handleInstallShardConfig_steady g op st Hok E) as [[HA HL] _]. skv_simpl.
  split; [by rewrite HL|]. unfold handleInstallShardConfig.
  rewrite decide_False by (intros Hc; by apply Hc).
  cbv zeta. set (st1 := st <| LatestConfig := _ |> <| AllConfigs := _ |>).
  assert (owner (LatestConfig st) sid ≠ g) as Hold.
  { intros Ho. pose proof (stuck_owner st O Hok Hp Ho). lia. }
  case_decide as H1.
  - assert (owner (ShardConfig op) sid ≠ g) as Hnew.
    { apply (or_before O 1); [apply (or_n O)|]. destruct Hp' as [k Hp']. rewrite Hp', HA.
      apply lookup_app_l_Some, list_lookup_middle. pose proof (skv_num _ Hok). cbn in H1. lia. }
    apply stamps_stuck with (new := ShardConfig op); [done|done|]. intros a i Ha Hta. skv_simpl. split; [done|].
    unfold timestamp. skv_simpl. destruct (decide (i = sid)) as [->|Hne].
    + rewrite lookup_insert_eq, Ha, decide_False by done. done.
    + rewrite lookup_insert_ne by done. exact Hta.
  - apply stamps_stuck with (new := ShardConfig op); [done|done|]. intros a i Ha Hta.
    case_decide as Hown; [|done]. skv_simpl. split; [done|].
    rewrite timestamp_insert by done. case_decide; [subst i; by destruct Hown|done].
Qed.

Lemma acquire_stuck op st :
  ShardId op ≠ sid → state_stuck st → state_stuck (handleAcquireShard op st).
Proof.
  intros Hs [Hn Ht]. unfold handleAcquireShard. case_decide; [|done]. skv_simpl. split; [done|].
  unfold timestamp. skv_simpl. by rewrite lookup_insert_ne.
Qed.

Lemma client_stuck op st st' msg :
  NeedSendBackCh op = true → client_kind op → applyOp g op st = Ok (st', msg) →
  state_stuck st → state_stuck st'.
Proof.
  intros Hb Hk Heq [Hn Ht]. unfold applyOp in Heq. rewrite Hb in Heq. cbn in Heq.
  rewrite allShardsUpToDate_eq in Heq. cbn in Heq.
  case_decide; [by injection Heq as <- <-|].
  case_bool_decide; cbn in Heq; [|by injection Heq as <- <-].
  destruct (isDuplicateOp op st).
  - case_decide as HG; [rewrite (getValue_Ok op st HG) in Heq|]; by injection Heq as <- <-.
  - destruct (applyClient_Ok op st Hk) as (st1 & E & H1 & H2 & H3 & _). rewrite E in Heq.
    injection Heq as <- <-. split; [by rewrite H2|]. unfold timestamp. by rewrite H3.
Qed.

Lemma applyOp_stuck op st st' msg :
  orphaned → skv_ok st → AllConfigs st `prefix_of` h → state_stuck st →
  started_op op → log_stuck op → applyOp g op st = Ok (st', msg) → AllConfigs st' `prefix_of` h →
  state_stuck st'.
Proof.
  intros O Hok Hp Hst [[Hb Hk]|[Hb Hk]] [Hi Ha] Heq Hp'; [by eapply client_stuck|].
  unfold applyOp in Heq. rewrite Hb in Heq. cbn in Heq. case_decide as HI.
  - injection Heq as <- <-. apply install_stuck; auto.
  - destruct Hk as [?|Hk]; [done|]. rewrite decide_True in Heq by done. injection Heq as <- <-.
    apply acquire_stuck; auto.
Qed.

Lemma applyOps_stuck ops st st' :
  orphaned → skv_ok st → state_stuck st → Forall started_op ops → Forall log_stuck ops →
  applyOps g ops st = Ok st' → AllConfigs st' `prefix_of` h → state_stuck st'.
Proof.
  intros O Hok Hst Hops. revert st Hok Hst. induction Hops as [|op ops Hop Hops IH]; intros st Hok Hst Hlog Heq Hp.
  { by injection Heq as <-. }
  apply Forall_cons in Hlog as [Hl Hlog]. cbn in Heq.
  destruct (applyOp_config g op st Hok Hop) as (st1 & msg & H1 & Hok1 & Hc). rewrite H1 in Heq. cbn in Heq.
  destruct (applyOps_configs g ops st1 Hok1 Hops) as (st2 & H2 & _ & added & HA & _).
  rewrite Heq in H2. injection H2 as <-.
  assert (AllConfigs st1 `prefix_of` h) as Hp1.
  { etrans; [|exact Hp]. rewrite HA. by apply prefix_app_r. }
  apply (IH st1 Hok1); [|done..]. apply (applyOp_stuck op st st1 msg); [done..| |done|done|done|done|done].
  etrans; [|exact Hp1]. destruct Hc as [->|[_ ->]]; [done|by apply prefix_app_r].
Qed.

(** A replica of [g]. *)
Lemma replica_stuck w i rep :
  orphaned → sys_inv w → [zeroConfig] `prefix_of` Configs (ctrl w) → Configs (ctrl w) `prefix_of` h →
  stuck_inv w → getReplica w g i = Some rep →
  skv_ok (rstate rep) ∧ AllConfigs (rstate rep) `prefix_of` h ∧ state_stuck (rstate rep).
Proof.
  intros O I Hz Hh S Hr. destruct (inv_configs w g i rep I Hz Hr) as [Hok Hp].
  assert (AllConfigs (rstate rep) `prefix_of` h) as Hp' by (by etrans). split_and!; [done..|].
  apply getReplica_Some in Hr as (G & HG & Hr). apply list_elem_of_lookup_2 in Hr.
  destruct (si_replicas w I g G rep HG Hr) as [_ Hs].
  eapply applyOps_stuck; [done|apply skv_ok_makeState| | |by apply Forall_take, (su_log w S)|exact Hs|done].
  - split; [cbn; lia|]. unfold timestamp. cbn. by rewrite lookup_empty.
  - apply Forall_take. eapply log_started, si_log; done.
Qed.

(** At the configuration that gives it the shard, the shard is behind. *)
Lemma stuck_lagging st :
  orphaned → skv_ok st → AllConfigs st `prefix_of` h → state_stuck st →
  Num (LatestConfig st) = Z.of_nat (S n) → LatestConfig st = c' ∧ sid ∈ lagging g st.
Proof.
  intros O Hok [k Hp] [_ Ht] Hn. assert (LatestConfig st = c') as Hl.
  { pose proof (so_last _ Hok) as Hl. rewrite last_lookup in Hl. pose proof (so_num _ Hok _ _ Hl).
    pose proof (or_c' O) as Hc'. rewrite Hp in Hc'. apply lookup_app_l_Some with (l2 := k) in Hl.
    replace (pred (length (AllConfigs st))) with (S n) in Hl by lia. congruence. }
  split; [done|]. apply list_elem_of_filter. split; [|apply (or_sid O)].
  rewrite Hl. split; [apply (or_next O)|]. rewrite Ht, <- Hl. lia.
Qed.

Lemma stuck_logStarted w g' kv :
  stuck_inv w → (g' = g → Forall log_stuck (startedOps (rf kv))) → stuck_inv (logStarted g' kv w).
Proof.
  intros [] Hops. unfold logStarted. split; sys_simpl; try done.
  intros G' [[-> (G & HG & ->)]|[_ HG]]%lookup_alter_Some; [|by apply su_log0].
  sys_simpl. apply Forall_app. auto.
Qed.

Lemma stuck_setReplica w g' i rep : stuck_inv w → stuck_inv (setReplica g' i rep w).
Proof.
  intros []. unfold setReplica. split; sys_simpl; try done.
  intros G' [[-> (G & HG & ->)]|[_ HG]]%lookup_alter_Some; [exact (su_log0 G HG)|by apply su_log0].
Qed.

Lemma step_stuck w l w' :
  orphaned → sys_inv w → [zeroConfig] `prefix_of` Configs (ctrl w) → Configs (ctrl w) `prefix_of` h →
  label_ok l → stuck_inv w → step host w l = Ok w' → stuck_inv w'.
Proof.
  intros O I Hz Hh Hl S Heq.
  destruct l as [op|g1 i cl ix|g1 i lead k|g1 i lead|k srv lead|k lead|g1 i kind key value cl ix|g1 i|g1 i m];
    cbn [step] in Heq.
  - apply bind_Ok in Heq as ([st msg] & _ & Heq). injection Heq as <-. by destruct S.
  - destruct (getReplica w g1 i) as [rep|]; [|by injection Heq as <-].
    apply bind_Ok in Heq as ([st msg] & _ & Heq). injection Heq as <-. by destruct S.
  - destruct (getReplica w g1 i) as [rep|] eqn:Hr; [|by injection Heq as <-].
    destruct (answers w !! k) as [[[g' i'] cc]|]; [|by injection Heq as <-].
    case_decide; [|by injection Heq as <-].
    destruct (configTick_started (λ _, cc) lead g1 i rep) as (kv & Hk & Hs). rewrite Hk in Heq.
    injection Heq as <-. apply stuck_logStarted; [done|]. intros ->.
    destruct Hs as [->|(Hn & Hlag & ->)]; [constructor|]. constructor; [|constructor].
    destruct (replica_stuck w i rep O I Hz Hh S Hr) as (Hok & Hp & Hst).
    split; [|by intros ?]. intros _. cbn. rewrite Hn.
    destruct (decide (Num (LatestConfig (rstate rep)) = Z.of_nat (Datatypes.S n))) as [E|E]; [|destruct Hst; lia].
    destruct (stuck_lagging _ O Hok Hp Hst E) as [_ Hin]. rewrite Hlag in Hin. by apply elem_of_nil in Hin.
  - destruct (getReplica w g1 i) as [rep|] eqn:Hr; [|by injection Heq as <-].
    apply bind_Ok in Heq as (calls & Hcalls & Heq). injection Heq as <-.
    destruct S as [S1 S2 S3]. split; sys_simpl; try done. apply Forall_app. split; [done|].
    apply Forall_forall. intros rq (cl & -> & Hin)%list_elem_of_fmap Hg Hsid. cbn in Hg, Hsid |- *. subst g1.
    destruct (replica_stuck w i rep O I Hz Hh (mkStuckInv _ S1 S2 S3) Hr) as (Hok & [k Hp] & Hst).
    destruct lead; [|by injection Hcalls as <-; apply elem_of_nil in Hin].
    destruct (acquireShardTicker_ok (serverOf true g i rep) Hok) as (cs & Hcs & _ & Hall); [done|].
    rewrite Hcalls in Hcs. injection Hcs as <-. destruct cl as [s cc]. cbn in Hsid |- *. subst s.
    destruct (Hall sid cc Hin) as (Hprev & _ & Hown & _). cbn in Hprev, Hown.
    pose proof (stuck_owner _ O Hok (ex_intro _ k Hp) Hown) as Hge. destruct Hst as [Hle _].
    replace (Z.to_nat (Num (LatestConfig (rstate rep)) - 1)) with n in Hprev by lia.
    apply lookup_app_l_Some with (l2 := k) in Hprev. rewrite <- Hp, (or_c O) in Hprev. injection Hprev as <-.
    apply (or_nobody O).
  - destruct (requests w !! k) as [rq|] eqn:Hk; [|by injection Heq as <-].
    destruct (host srv) as [[g2 i2]|]; [|by injection Heq as <-].
    destruct (getReplica w g2 i2) as [donor|]; [|by injection Heq as <-].
    destruct (getReplica w _ _) as [rep|]; [|by injection Heq as <-].
    injection Heq as <-. destruct S as [S1 S2 S3]. split; sys_simpl; try done.
    intros rq' srv' reply [Hin|Hin]%elem_of_app; [eauto|].
    apply list_elem_of_singleton in Hin as [= -> _ _]. rewrite Forall_lookup in S2. by eapply S2.
  - destruct (replies w !! k) as [[[rq srv] reply]|] eqn:Hk; [|by injection Heq as <-].
    destruct (getReplica w _ _) as [rep|]; [|by injection Heq as <-]. apply list_elem_of_lookup_2 in Hk.
    destruct (deliver_started lead (rqGroup rq) (rqReplica rq) (rqShard rq) (rqTarget rq) rep srv reply)
      as (kv & Hkv & Hs); [by eapply si_replies|]. rewrite Hkv in Heq.
    injection Heq as <-. apply stuck_logStarted; [done|]. intros Hg.
    destruct Hs as [->|(Hsrv & _ & ->)]; [constructor|]. constructor; [|constructor].
    split; [done|]. intros _ _ Hsid. cbn in Hsid. pose proof (su_replies w S _ _ _ Hk Hg Hsid) as Hnone.
    rewrite Hsid, Hnone in Hsrv. by apply elem_of_nil in Hsrv.
  - destruct (getReplica w g1 i) as [rep|]; [|by injection Heq as <-].
    case_decide as Hkind; [|by injection Heq as <-]. injection Heq as <-. apply stuck_logStarted; [done|].
    intros _. constructor; [|constructor]. split; [|done]. cbn. intros ->. by destruct Hkind as [?|[?|?]].
  - destruct (groups w !! g1) as [G|]; [|by injection Heq as <-].
    destruct (replicas G !! i) as [rep|]; [|by injection Heq as <-].
    destruct (glog G !! applied rep) as [op|]; [|by injection Heq as <-].
    apply bind_Ok in Heq as ([st msg] & _ & Heq). injection Heq as <-. by apply stuck_setReplica.
  - destruct (groups w !! g1) as [G|]; [|by injection Heq as <-].
    apply bind_Ok in Heq as (st & _ & Heq). injection Heq as <-. by apply stuck_setReplica.
Qed.

Lemma runs_stuck w tr w' :
  orphaned → sys_inv w → [zeroConfig] `prefix_of` Configs (ctrl w) → Forall label_ok tr →
  runs host w tr = Ok w' → Configs (ctrl w') `prefix_of` h → stuck_inv w → stuck_inv w'.
Proof.
  intros O I Hz Htr. revert w I Hz. unfold runs.
  induction Htr as [|l tr Hl Htr IH]; intros w I Hz Heq Hp S; cbn in Heq; [by injection Heq as <-|].
  destruct (step_ok host w l I Hl) as (w1 & H1 & I1 & Hp1). rewrite H1 in Heq. cbn in Heq.
  destruct (runs_ok host w1 tr I1 Htr) as (w2 & H2 & _ & Hp2). unfold runs in H2. rewrite Heq in H2.
  injection H2 as <-. apply (IH w1); [done|by etrans|done|done|].
  apply (step_stuck w l w1); try done. etrans; [exact Hp1|]. by etrans.
Qed.
End stuck.

(** A group that joins after every group has left never serves.  When
    some configuration gives a shard to nobody (all groups have left, or a Move
    named an unknown group) and the next one gives it to a group that did not
    have it before, then in no run does a replica of that group get past that
    configuration, and at it the group answers every client operation with an
    error and changes nothing: it waits for the shard from a previous owner
    that does not exist. *)
Theorem join_after_leave_stuck host sizes tr w n c c' g sid i rep :
  Forall label_ok tr → runs host (initial sizes) tr = Ok w →
  orphaned (Configs (ctrl w)) n c c' g sid → getReplica w g i = Some rep →
  Num (LatestConfig (rstate rep)) ≤ Z.of_nat (S n) ∧
  (Num (LatestConfig (rstate rep)) = Z.of_nat (S n) →
   ∀ op, NeedSendBackCh op = true →
     ∃ e, applyOp g op (rstate rep) = Ok (rstate rep, mkKVReplyMsg e "") ∧
       (e = ErrNotUpToDate ∨ e = ErrWrongGroup)).
Proof.
  intros Htr Hw O Hr. destruct (runs_ok host _ tr (initial_inv sizes) Htr) as (w1 & Hw1 & I & Hz).
  rewrite Hw in Hw1. injection Hw1 as <-.
  assert (stuck_inv n g sid w) as S.
  { eapply runs_stuck; [done|apply initial_inv|done|done|exact Hw|done|].
    split; cbn; [|constructor|set_solver]. intros G (k & <- & _)%lookup_fmap_Some. constructor. }
  destruct (replica_stuck _ n c c' g sid w i rep O I Hz (reflexivity _) S Hr) as (Hok & Hp & Hst).
  split; [apply Hst|]. intros Hn op Hb.
  destruct (stuck_lagging _ n c c' g sid (rstate rep) O Hok Hp Hst Hn) as [_ Hin].
  unfold applyOp. rewrite Hb. cbn [negb]. case_decide; [eexists; split; [done|by right]|].
  rewrite allShardsUpToDate_eq. cbn [mbind Res_bind]. rewrite bool_decide_false.
  - eexists. split; [done|by left].
  - intros Hl. rewrite Hl in Hin. by apply elem_of_nil in Hin.
Qed.

(** ** Witnesses *)

(** Group 1 joins and leaves, group 2 joins and follows. *)
Definition follow (k : Z) : list Label := [AskConfig 2 0 8 k; ConfigTick 2 0 true (Z.to_nat k); Apply 2 0].

Definition joinLeaveJoin : list Label :=
  [Control (ShardCtrler.mkOp 0 0 JOIN {[ 1 := ["a"] ]} [] 0 0 0 7 0);
   Control (ShardCtrler.mkOp 0 0 LEAVE ∅ [1] 0 0 0 7 1);
   Control (ShardCtrler.mkOp 0 0 JOIN {[ 2 := ["b"] ]} [] 0 0 0 7 2)] ++
  follow 0 ++ follow 1 ++ follow 2.

Definition noHost (srv : string) : option (Z * nat) := None.
Definition twoGroups : gmap Z nat := {[ 1 := 1%nat; 2 := 1%nat ]}.

Definition stuckWorld : World :=
  match runs noHost (initial twoGroups) joinLeaveJoin with Ok w => w | _ => initial ∅ end.

Definition stuckReplica : Replica := default (mkReplica 0 makeState) (getReplica stuckWorld 2 0).

Lemma joinLeaveJoin_ok : Forall label_ok joinLeaveJoin.
Proof.
  unfold joinLeaveJoin, follow. cbn [app].
  repeat (apply Forall_cons; split); [..|constructor]; try exact I; unfold label_ok, ctrl_valid; cbn.
  - right. by left.
  - right. right. by left.
  - right. by left.
Qed.

Lemma stuck_runs : runs noHost (initial twoGroups) joinLeaveJoin = Ok stuckWorld.
Proof.
  unfold stuckWorld. destruct (runs _ _ _) eqn:E; [done| |];
    apply (f_equal is_ok) in E; vm_compute in E; discriminate.
Qed.

Lemma stuck_num : Num (LatestConfig (rstate stuckReplica)) = 3.
Proof. vm_compute. reflexivity. Qed.

Lemma stuck_orphaned :
  orphaned (Configs (ctrl stuckWorld)) 2
    (default zeroConfig (Configs (ctrl stuckWorld) !! 2%nat))
    (default zeroConfig (Configs (ctrl stuckWorld) !! 3%nat)) 2 0.
Proof.
  split; try (vm_compute; reflexivity).
  - lia.
  - apply elem_of_seqZ. split; vm_compute; [discriminate|reflexivity].
  - intros [|[|[|i]]] ci Hi Hc; [..|lia];
      vm_compute in Hc; injection Hc as <-; vm_compute; discriminate.
Qed.

Lemma groups_follow_controller_witness :
  ∃ w, runs noHost (initial twoGroups) joinLeaveJoin = Ok w ∧
    ∀ g i rep, getReplica w g i = Some rep →
      AllConfigs (rstate rep) `prefix_of` Configs (ctrl w).
Proof.
  destruct (groups_follow_controller noHost twoGroups joinLeaveJoin) as [H1 H2].
  destruct (H1 joinLeaveJoin_ok) as [w Hw]. exists w. split; [exact Hw|].
  intros g i rep Hr. exact (proj1 (proj1 (proj2 (H2 w Hw)) g i rep Hr)).
Defined.

Lemma join_after_leave_stuck_witness :
  ∃ e, applyOp 2 sampleAppend (rstate stuckReplica) = Ok (rstate stuckReplica, mkKVReplyMsg e "") ∧
    (e = ErrNotUpToDate ∨ e = ErrWrongGroup).
Proof.
  apply (proj2 (join_after_leave_stuck noHost twoGroups joinLeaveJoin stuckWorld 2
    (default zeroConfig (Configs (ctrl stuckWorld) !! 2%nat))
    (default zeroConfig (Configs (ctrl stuckWorld) !! 3%nat)) 2 0 0 stuckReplica
    joinLeaveJoin_ok stuck_runs stuck_orphaned ltac:(vm_compute; reflexivity))).
  - apply stuck_num.
  - reflexivity.
Defined.
