(* ===== verification/ShardContents.v ===== *)
(** * What the shards hold as they move between groups

    The code keeps its clients' data only under a schedule that its comments
    take for granted ([ShardKvSpec] has runs without it that lose data).  This
    file states the schedule and proves that under it the whole service is one
    map: a group goes on to the next configuration only when every group has
    installed the one before and has all its shards, and a request for a shard
    is answered while the group that asks still lacks it.  Replies may be
    delayed, repeated or lost, and clients may send anything to any group.

    A group is its replicated state machine: what its leader starts is applied
    ([ShardSystem] has the replicas and their logs). *)

From S2P Require Import Prelude.
From S2P Require Import RaftState.
From S2P Require Import RaftService.
From S2P Require Import ShardConfig.
From S2P Require ShardCtrler ShardCtrlerSpec.
From S2P Require Import ShardKv.
From S2P Require Import ShardKvSpec.
From S2P Require Import ShardSystem.
From Stdlib Require Import Ascii.
Open Scope Z_scope.

(** ** The abstract service: one map *)

(** The value of a key after the operations [E]. *)
Definition valueOf (k : string) (E : list Op) : option string :=
  foldl (λ v op, if decide (Key op = k) then effect op v else v) None E.

Lemma valueOf_snoc k E op :
  valueOf k (E ++ [op]) = if decide (Key op = k) then effect op (valueOf k E) else valueOf k E.
Proof. unfold valueOf. by rewrite foldl_app. Qed.

Lemma valueOf_none k E : (∀ op, op ∈ E → Key op ≠ k) → valueOf k E = None.
Proof.
  unfold valueOf. intros H. assert (None = None :> option string) as Hn by done. revert Hn.
  generalize (@None string) at 1 3. induction E as [|op E IH]; intros v ->; [done|]. cbn.
  rewrite decide_False by (apply H; left). apply IH; [|done]. intros op' Hop'. apply H. by right.
Qed.

(** ** The contents of a shard in a state *)

Definition storeOf (st : State) (sid : Z) : KeyValueStore := default ∅ (ShardKVStore st !! sid).

Lemma getValueWithKey_store k st : getValueWithKey k st = storeOf st (key2shard k) !! k.
Proof. unfold getValueWithKey, storeOf. destruct (ShardKVStore st !! key2shard k); cbn; [done|by rewrite lookup_empty]. Qed.

(** The last requests [tab] know the executed requests on a shard.  Request 0
    is left out: it is not taken over by [mergeLastRequest]. *)
Definition covers (tab : gmap Z Z) (sid : Z) (E : list Op) : Prop :=
  ∀ op, op ∈ E → key2shard (Key op) = sid → 0 < RequestIndex op →
    ∃ j, tab !! ClientId op = Some j ∧ RequestIndex op ≤ j.

(** Contents and last requests agree with the operations [E]. *)
Definition agrees (data : KeyValueStore) (tab : gmap Z Z) (sid : Z) (E : list Op) : Prop :=
  (∀ k, key2shard k = sid → data !! k = valueOf k E) ∧ covers tab sid E.

Definition agreesIn (st : State) (sid : Z) (E : list Op) : Prop :=
  agrees (storeOf st sid) (ClientLastRequest st) sid E.

(** Last requests only grow. *)
Definition tab_le (a b : gmap Z Z) : Prop := ∀ c i, a !! c = Some i → ∃ j, b !! c = Some j ∧ i ≤ j.

#[export] Instance tab_le_preorder : PreOrder tab_le.
Proof.
  split; [intros a c i H; by exists i|]. intros a b c H1 H2 x i Hx.
  destruct (H1 x i Hx) as (j & Hj & ?), (H2 x j Hj) as (l & Hl & ?). exists l. split; [done|lia].
Qed.

Lemma agrees_tab data a b sid E : tab_le a b → agrees data a sid E → agrees data b sid E.
Proof.
  intros Hab [Hd Hc]. split; [done|]. intros op Hop Hs Hi. destruct (Hc op Hop Hs Hi) as (j & Hj & ?).
  destruct (Hab _ _ Hj) as (l & Hl & ?). exists l. split; [done|lia].
Qed.

(** Operations on other shards do not matter. *)
Lemma agrees_other data tab sid E op :
  key2shard (Key op) ≠ sid → agrees data tab sid E → agrees data tab sid (E ++ [op]).
Proof.
  intros Hne [Hd Hc]. split.
  - intros k Hk. rewrite valueOf_snoc, decide_False by congruence. by apply Hd.
  - intros op' [Hop|Hop]%elem_of_app; [by apply Hc|]. apply list_elem_of_singleton in Hop as ->. done.
Qed.

(** Merging keeps the receiver's last requests and takes over the donor's
    from 1 on. *)
Lemma merge_le m last : tab_le last (foldl mergeLastRequest last (map_to_list m)).
Proof.
  intros c i Hi. pose proof (mergeLastRequest_map m last c) as H. destruct (m !! c) as [v|].
  - rewrite Hi in H. cbn in H. destruct (foldl _ _ _ !! c) as [j|] eqn:E; cbn in H; [exists j; split; [done|lia]|].
    exfalso. revert E. assert (∀ l (t : gmap Z Z), is_Some (t !! c) → foldl mergeLastRequest t l !! c ≠ None) as Hl.
    { induction l as [|[c1 v1] l IH]; intros t Ht; cbn; [by rewrite not_eq_None_Some|]. apply IH.
      unfold mergeLastRequest. cbn. case_decide; [|done]. destruct (decide (c = c1)) as [->|];
        [by rewrite lookup_insert_eq|by rewrite lookup_insert_ne]. }
    apply Hl. by exists i.
  - exists i. split; [congruence|lia].
Qed.

Lemma merge_covers m last sid E : covers m sid E → covers (foldl mergeLastRequest last (map_to_list m)) sid E.
Proof.
  intros Hc op Hop Hs Hi. destruct (Hc op Hop Hs Hi) as (j & Hj & Hle).
  pose proof (mergeLastRequest_map m last (ClientId op)) as H. rewrite Hj in H.
  destruct (foldl _ _ _ !! ClientId op) as [l|]; cbn in H; [exists l; split; [done|lia]|lia].
Qed.

(** ** What the operations do to a shard *)

(** A loop that changes what is observed of shard [i] in round [i] only. *)
Lemma foldl_observe {X} (P : State → Prop) (obs : State → Z → X) (v : Z → X → X) (f : State → Z → State) l st j :
  P st → (∀ a i, P a → P (f a i) ∧ ∀ j, obs (f a i) j = if decide (j = i) then v j (obs a j) else obs a j) →
  (∀ j x, v j (v j x) = v j x) →
  P (foldl f st l) ∧ obs (foldl f st l) j = if decide (j ∈ l) then v j (obs st j) else obs st j.
Proof.
  intros HP Hf Hv. revert st HP. induction l as [|i l IH]; intros st HP; cbn [foldl].
  { by rewrite decide_False by apply not_elem_of_nil. }
  destruct (Hf st i HP) as [HP' Ho]. destruct (IH _ HP') as [HP2 E]. split; [done|]. rewrite E, Ho.
  destruct (decide (j = i)) as [->|Hne].
  - rewrite (decide_True (P := i ∈ i :: l)) by left. case_decide; [apply Hv|done].
  - destruct (decide (j ∈ l)); [rewrite decide_True by by right|rewrite decide_False by set_solver]; done.
Qed.

(** Time stamp and contents of the shards after a configuration is installed. *)
Definition installedAt (g : Z) (old new : Config) (sid : Z) (x : Z * KeyValueStore) : Z * KeyValueStore :=
  if decide (Num new = 1) then (if decide (owner new sid = g) then 1 else 0, ∅)
  else if decide (owner new sid = g ∧ owner old sid = g) then (Num new, x.2) else x.

Lemma install_effect g op st sid :
  Num (ShardConfig op) = Num (LatestConfig st) + 1 → sid ∈ shardIds →
  let st' := handleInstallShardConfig g op st in
  LatestConfig st' = ShardConfig op ∧ ClientLastRequest st' = ClientLastRequest st ∧
  (timestamp st' sid, storeOf st' sid) =
    installedAt g (LatestConfig st) (ShardConfig op) sid (timestamp st sid, storeOf st sid).
Proof.
  intros Hn Hs. cbv zeta. unfold handleInstallShardConfig. rewrite decide_False by (intros Hc; by apply Hc).
  cbv zeta. set (st1 := st <| LatestConfig := _ |> <| AllConfigs := _ |>).
  set (P a := LatestConfig a = ShardConfig op ∧ ClientLastRequest a = ClientLastRequest st).
  assert (P st1) as HP by done.
  assert ((timestamp st1 sid, storeOf st1 sid) = (timestamp st sid, storeOf st sid)) as Hst by done.
  unfold installedAt. change (Num (LatestConfig st1)) with (Num (ShardConfig op)).
  case_decide as H1.
  - match goal with |- context [foldl ?f st1 shardIds] =>
      destruct (foldl_observe P (λ a j, (timestamp a j, storeOf a j))
        (λ j _, (if decide (owner (ShardConfig op) j = g) then 1 else 0, ∅)) f shardIds st1 sid HP) as [[HL HC] E] end.
    + intros a i [HL HC]. split; [by split|]. intros j. unfold timestamp, storeOf. skv_simpl. destruct (decide (j = i)) as [->|Hj].
      * rewrite !lookup_insert_eq. cbn. rewrite HL, H1. done.
      * by rewrite !lookup_insert_ne.
    + done.
    + split_and!; [exact HL|exact HC|]. rewrite decide_True in E by done. exact E.
  - match goal with |- context [foldl ?f st1 shardIds] =>
      destruct (foldl_observe P (λ a j, (timestamp a j, storeOf a j))
        (λ j x, if decide (owner (ShardConfig op) j = g ∧ owner (LatestConfig st) j = g)
                then (Num (ShardConfig op), x.2) else x) f shardIds st1 sid HP) as [[HL HC] E] end.
    + intros a i [HL HC]. rewrite HL. case_decide as Ho.
      * split; [by split|]. intros j. destruct (decide (j = i)) as [->|Hj].
        { rewrite decide_True by done. unfold storeOf, timestamp. skv_simpl. by rewrite lookup_insert_eq. }
        unfold storeOf, timestamp. skv_simpl. by rewrite lookup_insert_ne.
      * split; [by split|]. intros j. destruct (decide (j = i)) as [->|Hj]; [|done]. by rewrite decide_False.
    + intros j x. by case_decide.
    + split_and!; [exact HL|exact HC|]. rewrite decide_True in E by done. by rewrite E, Hst.
Qed.

(** The same for a shard that is acquired. *)
Lemma acquire_effect op st sid :
  let st' := handleAcquireShard op st in
  LatestConfig st' = LatestConfig st ∧
  ClientLastRequest st' = foldl mergeLastRequest (ClientLastRequest st) (map_to_list (OpClientLastRequest op)) ∧
  (timestamp st' sid, storeOf st' sid) =
    if decide (sid = ShardId op ∧ timestamp st sid < ShardConfigNum op)
    then (ShardConfigNum op, ShardData op) else (timestamp st sid, storeOf st sid).
Proof.
  cbv zeta. unfold handleAcquireShard. destruct (decide (ShardConfigNum op > timestamp st (ShardId op))) as [Hgt|Hle].
  - split_and!; [done..|]. unfold storeOf, timestamp in *. skv_simpl. destruct (decide (sid = ShardId op)) as [->|Hne].
    + rewrite !lookup_insert_eq, decide_True by (split; [done|lia]). cbn. by rewrite cloneStore_eq.
    + rewrite !lookup_insert_ne, decide_False by (done || by intros []). done.
  - split_and!; [done..|]. unfold storeOf, timestamp in *. skv_simpl. rewrite decide_False; [done|].
    intros [-> ?]. lia.
Qed.

(** A request that is executed is newer than the client's last one. *)
Lemma executes_newer g op st i :
  executes g op st = true → ClientLastRequest st !! ClientId op = Some i → i < RequestIndex op.
Proof.
  intros [_ Hd%negb_true_iff]%andb_prop Hi. unfold isDuplicateOp in Hd. rewrite Hi in Hd. case_decide; [done|lia].
Qed.

Lemma executed_tab g op st :
  executes g op st = true → tab_le (ClientLastRequest st) (<[ClientId op := RequestIndex op]> (ClientLastRequest st)).
Proof.
  intros He c i Hi. destruct (decide (c = ClientId op)) as [->|Hc].
  - rewrite lookup_insert_eq. eexists. split; [done|]. pose proof (executes_newer g op st i He Hi). lia.
  - rewrite lookup_insert_ne by done. by exists i.
Qed.

(** *** The agreement of a group's shards after it executes an operation *)
Lemma executed_agrees g op st st' sid E :
  executes g op st = true →
  ClientLastRequest st' = <[ClientId op := RequestIndex op]> (ClientLastRequest st) →
  (∀ k, getValueWithKey k st' =
        if decide (k = Key op) then effect op (getValueWithKey k st) else getValueWithKey k st) →
  agreesIn st sid E → agreesIn st' sid (E ++ [op]).
Proof.
  intros He Htab Hval [Hd Hc]. split.
  - intros k Hk. pose proof (Hval k) as Hv. rewrite !getValueWithKey_store, Hk in Hv. rewrite Hv, valueOf_snoc, (Hd k Hk).
    repeat case_decide; congruence.
  - intros op' [Hop|Hop]%elem_of_app Hs Hi; rewrite Htab.
    + destruct (Hc op' Hop Hs Hi) as (j & Hj & ?). destruct (executed_tab g op st He _ _ Hj) as (l & ? & ?).
      exists l. split; [done|lia].
    + apply list_elem_of_singleton in Hop as ->. rewrite lookup_insert_eq. by eexists.
Qed.

(** ** The cluster *)

(** A reply to a request for a shard: who asked, for which shard of which
    configuration, which server answered. *)
Record Flight := mkFlight { asker : Z; shard : Z; target : Config; server : string; reply : AcquireShardReply }.

(** The state of each group; the replies under way; and the operations
    executed so far, in their order. *)
Record Cluster := mkCluster { states : gmap Z State; flying : list Flight; executed : list Op }.

Inductive Step :=
  (** the ticker that asks for configurations fires *)
  | Reconfigure (g : Z)
  (** of the calls that the ticker asking for shards starts, the [j]-th is answered by [srv] *)
  | Fetch (g : Z) (j : nat) (srv : string)
  (** reply [k] is handled *)
  | Deliver (k : nat)
  (** a client's operation is applied *)
  | Client (g : Z) (kind key value : string) (client index : Z).

Section cluster.
(** The controller's configurations. *)
Context (h : list Config).

(** The controller's answer to Query. *)
Definition query (n : Z) : Config :=
  if decide (0 ≤ n < zlen h) then default zeroConfig (h !! Z.to_nat n) else default zeroConfig (last h).

Definition leaderOf (g : Z) (st : State) : ShardKV PeerView := serverOf true g 0 (mkReplica 0 st).

(** What a group's leader started is applied. *)
Definition commit (g : Z) (kv : ShardKV PeerView) (C : Cluster) : Res Cluster :=
  st ← applyOps g (startedOps (rf kv)) (state kv);
  Ok (mkCluster (<[g := st]> (states C)) (flying C) (executed C)).

Definition cluster_step (C : Cluster) (l : Step) : Res Cluster :=
  match l with
  | Reconfigure g =>
      match states C !! g with
      | Some st => kv ← shardConfigTicker query (leaderOf g st); commit g kv C
      | None => Ok C
      end
  | Fetch g j srv =>
      match states C !! g with
      | Some st =>
          calls ← acquireShardTicker (leaderOf g st);
          match calls !! j with
          | Some (sid, target) =>
              match states C !! owner target sid with
              | Some donor =>
                  let args := createAcquireShards sid target (leaderOf g st) in
                  Ok (mkCluster (states C)
                    (flying C ++ [mkFlight g sid target srv (AcquireShards args (leaderOf (owner target sid) donor))])
                    (executed C))
              | None => Ok C
              end
          | None => Ok C
          end
      | None => Ok C
      end
  | Deliver k =>
      match flying C !! k with
      | Some f =>
          match states C !! asker f with
          | Some st =>
              kv ← acquireShards (λ _ s, if decide (s = server f) then Some (reply f) else None)
                     (shard f) (target f) (leaderOf (asker f) st);
              commit (asker f) kv C
          | None => Ok C
          end
      | None => Ok C
      end
  | Client g kind key value client index =>
      match states C !! g with
      | Some st =>
          if decide (kind = GET ∨ kind = PUT ∨ kind = APPEND) then
            let op := clientOp (leaderOf g st) kind key value client index in
            '(st', _) ← applyOp g op st;
            Ok (mkCluster (<[g := st']> (states C)) (flying C)
              (if executes g op st then executed C ++ [op] else executed C))
          else Ok C
      | None => Ok C
      end
  end.

(** The schedule: a group goes on to the next configuration when no group is
    behind it, and those at its configuration have all their shards. *)
Definition settled (C : Cluster) (l : Step) : Prop :=
  match l with
  | Reconfigure g => ∀ st g' st', states C !! g = Some st → states C !! g' = Some st' →
      Num (LatestConfig st) ≤ Num (LatestConfig st') ∧
      (Num (LatestConfig st') = Num (LatestConfig st) → lagging g' st' = [])
  | _ => True
  end.

(** The groups [gs]; a configuration may also give a shard to nobody, or to a
    group that does not exist. *)
Context (gs : gset Z).

Definition cluster_initial : Cluster := mkCluster (gset_to_gmap makeState gs) [] [].

Inductive cluster_reachable : Cluster → Prop :=
  | cr_initial : cluster_reachable cluster_initial
  | cr_step C l C' : cluster_reachable C → settled C l → cluster_step C l = Ok C' → cluster_reachable C'.

Record history_ok : Prop := mkHistoryOk {
  ho_groups : ∀ g, g ∈ gs → 0 < g;
  ho_first : h !! 0%nat = Some zeroConfig;
  ho_num : ∀ i c, h !! i = Some c → Num c = Z.of_nat i;
}.

(** The owner of a shard in configuration [n]. *)
Definition ownerAt (n : Z) (sid : Z) : Z := owner (default zeroConfig (h !! Z.to_nat n)) sid.

Abbreviation num st := (Num (LatestConfig st)).

(** A group is all it should be by itself. *)
Record group_ok (g : Z) (st : State) : Prop := mkGroupOk {
  go_ok : skv_ok st;
  go_prefix : AllConfigs st `prefix_of` h;
  go_le : ∀ sid, sid ∈ shardIds → timestamp st sid ≤ num st;
  (** it has had every shard it owned *)
  go_past : ∀ sid n, sid ∈ shardIds → 0 < n < num st → ownerAt n sid = g → n ≤ timestamp st sid;
  (** a shard it kept, or had from the first configuration, it has *)
  go_kept : ∀ sid, sid ∈ shardIds → 0 < num st → ownerAt (num st) sid = g →
    num st = 1 ∨ ownerAt (num st - 1) sid = g → timestamp st sid = num st;
}.

(** The groups together, and the operations executed. *)
Record cluster_inv (C : Cluster) : Prop := mkClusterInv {
  ci_dom : dom (states C) = gs;
  ci_group : ∀ g st, states C !! g = Some st → group_ok g st;
  (** no group is more than one configuration ahead *)
  ci_near : ∀ g g' st st', states C !! g = Some st → states C !! g' = Some st' →
    num st' ≤ num st + 1 ∧ (num st' = num st + 1 → lagging g st = []);
  (** who has a shard has its contents *)
  ci_hold : ∀ g st sid, states C !! g = Some st → sid ∈ shardIds → 0 < num st → ownerAt (num st) sid = g →
    timestamp st sid = num st → agreesIn st sid (executed C);
  (** who has given a shard away has its contents until the new owner has them *)
  ci_give : ∀ d st r st' sid, states C !! d = Some st → states C !! r = Some st' → sid ∈ shardIds → 1 < num st →
    ownerAt (num st - 1) sid = d → ownerAt (num st) sid = r → d ≠ r → timestamp st' sid < num st →
    agreesIn st sid (executed C);
  (** who got a shard got it from a group that had given it away *)
  ci_came : ∀ r st d st' sid, states C !! r = Some st → states C !! d = Some st' → sid ∈ shardIds → 1 < num st →
    ownerAt (num st) sid = r → timestamp st sid = num st → ownerAt (num st - 1) sid = d → num st ≤ num st';
  ci_fly : ∀ f st, f ∈ flying C → ASR_Error (reply f) = ASOK → states C !! asker f = Some st →
    let n := Num (target f) + 1 in
    shard f ∈ shardIds ∧ 1 < n ≤ num st ∧ ASR_ConfigNum (reply f) ≤ n ∧
    (ownerAt n (shard f) = asker f ∧ ownerAt (n - 1) (shard f) ∈ gs) ∧
    (ASR_ConfigNum (reply f) = n →
      (∀ st', states C !! ownerAt (n - 1) (shard f) = Some st' → n ≤ num st') ∧
      (timestamp st (shard f) < n →
        agrees (ASR_ShardData (reply f)) (ASR_ClientLastRequest (reply f)) (shard f) (executed C)));
  ci_flyer : ∀ f, f ∈ flying C → is_Some (states C !! asker f) ∧ ASR_Error (reply f) ≠ ASFiller;
  (** nothing is executed for a group before its first configuration *)
  ci_new : ∀ g st op, states C !! g = Some st → num st = 0 → op ∈ executed C →
    ownerAt 1 (key2shard (Key op)) ≠ g;
  ci_once : ∀ i j op op', executed C !! i = Some op → executed C !! j = Some op' → (i < j)%nat →
    key2shard (Key op) = key2shard (Key op') → ClientId op = ClientId op' → 0 < RequestIndex op →
    RequestIndex op < RequestIndex op';
}.
End cluster.

(** ** The invariant is kept *)
Section kept.
Context (h : list Config) (gs : gset Z) (H : history_ok h gs).
Implicit Types (C : Cluster) (st : State) (sid : Z).
Local Abbreviation num st := (Num (LatestConfig st)).
Local Abbreviation own := (ownerAt h).
Local Abbreviation inv := (cluster_inv h gs).

Lemma key_shard k : key2shard k ∈ shardIds.
Proof.
  apply elem_of_seqZ. unfold key2shard. change (Z.of_nat NShards) with 10. destruct k as [|a k]; [lia|].
  pose proof (Z.mod_pos_bound (Z.of_nat (nat_of_ascii a)) 10). lia.
Qed.

Lemma go_latest g st : group_ok h g st → h !! Z.to_nat (num st) = Some (LatestConfig st).
Proof.
  intros [Hok [k Hp] _ _ _]. pose proof (so_last _ Hok) as Hl. rewrite last_lookup in Hl.
  pose proof (skv_num _ Hok). rewrite Hp. apply lookup_app_l_Some.
  replace (Z.to_nat (num st)) with (pred (length (AllConfigs st))) by lia. done.
Qed.

Lemma owner_latest g st sid : group_ok h g st → owner (LatestConfig st) sid = own (num st) sid.
Proof. intros G. unfold ownerAt. by rewrite (go_latest _ _ G). Qed.

Lemma num_nonneg g st : group_ok h g st → 0 ≤ num st.
Proof. intros G. pose proof (skv_num _ (go_ok _ _ _ G)) as Hn. destruct (AllConfigs st) eqn:E; [|cbn in Hn; lia].
  pose proof (so_first _ (go_ok _ _ _ G)) as Hf. by rewrite E in Hf. Qed.

Lemma owner_zero sid : owner zeroConfig sid = 0.
Proof.
  unfold owner. destruct (Shards zeroConfig !! Z.to_nat sid) as [o|] eqn:E; [|done].
  by apply lookup_replicate in E as [-> _].
Qed.

(** Nobody owns a shard before the first configuration. *)
Lemma owned_later g st sid : g ∈ gs → group_ok h g st → own (num st) sid = g → 0 < num st.
Proof using H.
  intros Hg G Ho. pose proof (num_nonneg g st G). destruct (decide (num st = 0)) as [E|]; [|lia].
  exfalso. pose proof (ho_groups _ _ H g Hg). unfold ownerAt in Ho.
  rewrite E in Ho. change (Z.to_nat 0) with 0%nat in Ho. rewrite (ho_first _ _ H) in Ho.
  change (owner zeroConfig sid = g) in Ho. rewrite owner_zero in Ho. lia.
Qed.

(** Who lacks no shard has those it owns. *)
Lemma has_shard g st sid :
  group_ok h g st → lagging g st = [] → sid ∈ shardIds → own (num st) sid = g → timestamp st sid = num st.
Proof.
  intros G Hl Hs Ho. pose proof (go_le _ _ _ G sid Hs).
  apply lagging_nil with (sid := sid) in Hl; [lia|done|]. by rewrite (owner_latest g).
Qed.

Lemma group_in C g st : inv C → states C !! g = Some st → g ∈ gs.
Proof. intros I Hg. rewrite <- (ci_dom _ _ _ I). by apply elem_of_dom_2 in Hg. Qed.

(** While some group has a shard, no other has it, *)
Lemma one_holder C g st r st' sid :
  inv C → states C !! g = Some st → states C !! r = Some st' → sid ∈ shardIds →
  own (num st) sid = g → timestamp st sid = num st → own (num st') sid = r → timestamp st' sid = num st' → g = r.
Proof using H.
  intros I Hg Hr Hs Hog Htg Hor Htr.
  pose proof (owned_later g st sid (group_in C g st I Hg) (ci_group _ _ _ I _ _ Hg) Hog).
  pose proof (owned_later r st' sid (group_in C r st' I Hr) (ci_group _ _ _ I _ _ Hr) Hor).
  destruct (ci_near _ _ _ I g r st st' Hg Hr) as [N1 _]. destruct (ci_near _ _ _ I r g st' st Hr Hg) as [N2 _].
  destruct (decide (num st = num st')) as [E|E]; [congruence|]. exfalso.
  destruct (decide (num st < num st')).
  - pose proof (ci_came _ _ _ I r st' g st sid Hr Hg Hs ltac:(lia) Hor Htr) as Hc.
    replace (num st' - 1) with (num st) in Hc by lia. specialize (Hc Hog). lia.
  - pose proof (ci_came _ _ _ I g st r st' sid Hg Hr Hs ltac:(lia) Hog Htg) as Hc.
    replace (num st - 1) with (num st') in Hc by lia. specialize (Hc Hor). lia.
Qed.

(** and none waits for it from a group that has given it away. *)
Lemma no_waiter C g st r st' d st'' n sid :
  inv C → states C !! g = Some st → states C !! r = Some st' → states C !! d = Some st'' → sid ∈ shardIds →
  own (num st) sid = g → timestamp st sid = num st →
  1 < n → own n sid = r → timestamp st' sid < n → own (n - 1) sid = d → n ≤ num st'' → False.
Proof.
  intros I Hg Hr Hd Hs Hog Htg Hn Hor Htr Hod Hle.
  destruct (ci_near _ _ _ I g d st st'' Hg Hd) as [N1 _].
  destruct (decide (num st = n - 1)) as [E|]; [rewrite E in Hog; simplify_eq; lia|].
  destruct (decide (num st = n)) as [E|]; [rewrite E in Hog; simplify_eq; lia|].
  destruct (ci_near _ _ _ I r g st' st Hr Hg) as [N2 N3]. pose proof (ci_group _ _ _ I _ _ Hr) as G.
  destruct (decide (num st' = n)) as [E|].
  - assert (timestamp st' sid = num st') by (apply (has_shard r); [done|apply N3; lia|done|by rewrite E]). lia.
  - pose proof (go_past _ _ _ G sid n Hs). lia.
Qed.

(** *** A client's operation *)

Lemma group_ok_same g st st' :
  AllConfigs st' = AllConfigs st → LatestConfig st' = LatestConfig st → ShardTimestamp st' = ShardTimestamp st →
  group_ok h g st → group_ok h g st'.
Proof.
  intros EA EL ET [Hok Hpre Hle Hpast Hkept].
  assert (∀ s, timestamp st' s = timestamp st s) as Et by (intros s; unfold timestamp; by rewrite ET).
  split; rewrite ?EL.
  - destruct Hok. split; [by rewrite EA, EL|by rewrite EA..|]. intros s. by rewrite Et.
  - by rewrite EA.
  - intros s. rewrite Et. apply Hle.
  - intros s n. rewrite Et. apply Hpast.
  - intros s. rewrite Et. apply Hkept.
Qed.

Lemma client_inv C g st op st' :
  inv C → states C !! g = Some st → executes g op st = true →
  AllConfigs st' = AllConfigs st → LatestConfig st' = LatestConfig st → ShardTimestamp st' = ShardTimestamp st →
  ClientLastRequest st' = <[ClientId op := RequestIndex op]> (ClientLastRequest st) →
  (∀ k, getValueWithKey k st' =
        if decide (k = Key op) then effect op (getValueWithKey k st) else getValueWithKey k st) →
  inv (mkCluster (<[g := st']> (states C)) (flying C) (executed C ++ [op])).
Proof using H.
  intros I Hg He EA EL ET EC EV. pose proof (ci_group _ _ _ I g st Hg) as G.
  set (sid0 := key2shard (Key op)). pose proof (key_shard (Key op)) as Hs0. fold sid0 in Hs0.
  assert (serves g op st) as [Ho Hl] by (by apply andb_prop in He as [He%bool_decide_eq_true _]).
  fold sid0 in Ho. rewrite (owner_latest g) in Ho by done.
  assert (timestamp st sid0 = num st) as Ht by (by apply (has_shard g)).
  pose proof (owned_later g st sid0 (group_in C g st I Hg) G Ho) as Hpos.
  (* every group is as it was, and agrees on the shards it did *)
  assert (∀ x s', <[g := st']> (states C) !! x = Some s' → ∃ s, states C !! x = Some s ∧
    LatestConfig s' = LatestConfig s ∧ (∀ i, timestamp s' i = timestamp s i) ∧ group_ok h x s' ∧
    (lagging x s = [] → lagging x s' = []) ∧
    ∀ sid, sid ∈ shardIds → x = g ∨ sid ≠ sid0 → agreesIn s sid (executed C) → agreesIn s' sid (executed C ++ [op]))
    as Hst.
  { intros x s' [[<- <-]|[Hne Hx]]%lookup_insert_Some.
    - assert (∀ i, timestamp st' i = timestamp st i) as Et by (intros i; unfold timestamp; by rewrite ET).
      exists st. split_and!; [done..|by apply (group_ok_same g st)| |].
      + intros Hlag. apply lagging_nil. intros i Hi. rewrite EL, Et. by apply lagging_nil.
      + intros sid _ _. by apply executed_agrees with (g := g).
    - exists s'. split_and!; [done..|by eapply ci_group|done|]. intros sid _ [->|Hn]; [done|].
      by apply agrees_other. }
  split; cbn [states flying executed].
  - rewrite dom_insert_lookup_L by eauto. apply I.
  - intros x s' Hx. by destruct (Hst x s' Hx) as (_ & _ & _ & _ & ? & _).
  - intros x y s t Hx Hy. destruct (Hst x s Hx) as (s1 & Hx1 & -> & _ & _ & Hlag & _).
    destruct (Hst y t Hy) as (t1 & Hy1 & -> & _). destruct (ci_near _ _ _ I x y s1 t1 Hx1 Hy1). auto.
  - intros x s sid Hx Hs. destruct (Hst x s Hx) as (s1 & Hx1 & -> & -> & _ & _ & Hag). intros Hn Hox Htx.
    apply Hag; [done| |by eapply ci_hold]. destruct (decide (sid = sid0)) as [->|]; [left|by right].
    symmetry. by eapply one_holder.
  - intros d s r t sid Hd Hr Hs. destruct (Hst d s Hd) as (s1 & Hd1 & -> & _ & _ & _ & Hag).
    destruct (Hst r t Hr) as (t1 & Hr1 & _ & Et & _). rewrite Et. intros Hn Hod Hor Hne Htr.
    apply Hag; [done| |by eapply ci_give]. destruct (decide (sid = sid0)) as [->|]; [exfalso|by right].
    eapply (no_waiter C g st r t1 d s1); [done..|lia].
  - intros r s d t sid Hr Hd Hs. destruct (Hst r s Hr) as (s1 & Hr1 & -> & -> & _).
    destruct (Hst d t Hd) as (t1 & Hd1 & -> & _). by eapply ci_came.
  - intros f s Hf Hok Hs. destruct (Hst _ s Hs) as (s1 & Hs1 & -> & Et & _). rewrite Et.
    destruct (ci_fly _ _ _ I f s1 Hf Hok Hs1) as (F1 & F2 & F3 & [F4 Hdon] & F5). cbv zeta. split_and!; [done|lia|lia|done|done|done|].
    intros E. destruct (F5 E) as [F6 F7]. split.
    + intros t Hd. destruct (Hst _ t Hd) as (t1 & Hd1 & -> & _). auto.
    + intros Hlt. apply agrees_other; [|by apply F7]. fold sid0. intros Esh. rewrite <- Esh in *.
      rewrite <- (ci_dom _ _ _ I) in Hdon. apply elem_of_dom in Hdon as [t Hd].
      eapply (no_waiter C g st (asker f) s1 _ t (Num (target f) + 1) sid0); [done..|lia|done|done|done|by apply F6].
  - intros f Hf. destruct (ci_flyer _ _ _ I f Hf) as [[s Hs] ?]. split; [|done].
    destruct (decide (asker f = g)) as [->|]; [rewrite lookup_insert_eq|rewrite lookup_insert_ne by done]; by eexists.
  - intros x s op' Hx. destruct (Hst x s Hx) as (s1 & Hx1 & -> & _). intros Hn [Hop|Hop]%elem_of_app.
    { by eapply ci_new. }
    apply list_elem_of_singleton in Hop as ->. fold sid0. intros Hox.
    destruct (ci_near _ _ _ I x g s1 st Hx1 Hg) as [N1 _]. replace (num st) with 1 in Ho by lia.
    assert (x = g) as -> by congruence. simplify_eq. lia.
  - intros i j op1 op2 Hi Hj Hij Hk Hc Hpos1.
    apply lookup_app_Some in Hj as [Hj|[Hle Hj]].
    { apply lookup_lt_Some in Hj as Hlt. rewrite lookup_app_l in Hi by lia. by eapply (ci_once _ _ _ I i j). }
    apply list_lookup_singleton_Some in Hj as [Hj <-]. rewrite lookup_app_l in Hi by lia.
    destruct (ci_hold _ _ _ I g st sid0 Hg Hs0 Hpos Ho Ht) as [_ Hcov].
    destruct (Hcov op1 (list_elem_of_lookup_2 _ _ _ Hi) Hk Hpos1) as (l & Hl1 & ?).
    rewrite Hc in Hl1. pose proof (executes_newer g op st l He Hl1). lia.
Qed.

(** *** A configuration is installed *)

Lemma install_facts g st op sid :
  group_ok h g st → Num (ShardConfig op) = num st + 1 → h !! Z.to_nat (num st + 1) = Some (ShardConfig op) →
  sid ∈ shardIds →
  let st' := handleInstallShardConfig g op st in
  timestamp st sid ≤ timestamp st' sid ≤ num st + 1 ∧
  (own (num st + 1) sid = g → num st = 0 ∨ own (num st) sid = g → timestamp st' sid = num st + 1) ∧
  (timestamp st' sid = num st + 1 → own (num st + 1) sid = g ∧ (num st = 0 ∨ own (num st) sid = g)) ∧
  storeOf st' sid = if decide (num st = 0) then ∅ else storeOf st sid.
Proof.
  intros G Hn Hc Hs. cbv zeta. pose proof (num_nonneg g st G). pose proof (go_le _ _ _ G sid Hs).
  pose proof (so_stamps _ (go_ok _ _ _ G) sid).
  destruct (install_effect g op st sid Hn Hs) as (_ & _ & E). unfold installedAt in E.
  assert (owner (ShardConfig op) sid = own (num st + 1) sid) as Ho by (unfold ownerAt; by rewrite Hc).
  rewrite Ho, (owner_latest g st sid G), Hn in E.
  destruct (decide (num st + 1 = 1)) as [E1|E1].
  - rewrite (decide_True (P := num st = 0)) by lia. injection E as Et ->. rewrite Et.
    case_decide; (split; [lia|]; split; [|split; [|done]]); intros; first [lia | done | split; [done|left; lia]].
  - rewrite (decide_False (P := num st = 0)) by lia. case_decide as Hk; injection E as Et ->; rewrite Et; cbn.
    + destruct Hk. split; [lia|]. split; [done|]. split; [|done]. intros _. split; [done|by right].
    + split; [lia|]. split; [|split; [lia|done]]. intros Ha [?|Hb]; [lia|]. by destruct Hk.
Qed.

Lemma reconfigure_inv C g st op :
  inv C → states C !! g = Some st → settled C (Reconfigure g) → lagging g st = [] →
  Num (ShardConfig op) = num st + 1 → h !! Z.to_nat (num st + 1) = Some (ShardConfig op) →
  skv_ok (handleInstallShardConfig g op st) →
  inv (mkCluster (<[g := handleInstallShardConfig g op st]> (states C)) (flying C) (executed C)).
Proof using H.
  intros I Hg Hset Hlag Hn Hc Hok'. pose proof (ci_group _ _ _ I g st Hg) as G.
  pose proof (num_nonneg g st G) as Hpos. pose proof (λ sid, install_facts g st op sid G Hn Hc) as F.
  destruct (install_effect g op st 0 Hn) as (EL & EC & _); [by apply elem_of_seqZ|].
  pose proof (handleInstallShardConfig_steady g op st (go_ok _ _ _ G) Hn) as [[EA _] _]. skv_simpl.
  set (st' := handleInstallShardConfig g op st) in *. cbv zeta in F.
  assert (num st' = num st + 1) as En by (by rewrite EL).
  assert (∀ sid, sid ∈ shardIds → own (num st) sid = g → timestamp st sid = num st) as Hhas
    by (intros; by apply (has_shard g)).
  assert (∀ sid, sid ∈ shardIds → own (num st) sid = g → 0 < num st → agreesIn st' sid (executed C)) as Hkeep.
  { intros sid Hs Ho Hp. pose proof (ci_hold _ _ _ I g st sid Hg Hs Hp Ho (Hhas sid Hs Ho)) as Ha.
    unfold agreesIn in *. rewrite EC. destruct (F sid Hs) as (_ & _ & _ & ->). by rewrite decide_False by lia. }
  assert (∀ x y, <[g := st']> (states C) !! x = Some y → x = g ∧ y = st' ∨ x ≠ g ∧ states C !! x = Some y) as Hst.
  { intros x y [[-> ->]|[? ?]]%lookup_insert_Some; [by left|right; by split]. }
  split; cbn [states flying executed].
  - rewrite dom_insert_lookup_L by eauto. apply I.
  - intros x s [[-> ->]|[_ Hx]]%Hst; [|by eapply ci_group]. split; [done|..]; rewrite ?En.
    + rewrite EA. destruct (go_prefix _ _ _ G) as [k Hk]. pose proof (skv_num _ (go_ok _ _ _ G)) as Hz.
      rewrite Hk in Hc |- *. destruct k as [|c k].
      { rewrite app_nil_r in Hc. apply lookup_lt_Some in Hc. lia. }
      rewrite lookup_app_r in Hc by lia. replace (Z.to_nat (num st + 1) - _)%nat with 0%nat in Hc by lia.
      injection Hc as ->. exists k. by rewrite <- app_assoc.
    + intros sid Hs. apply (F sid Hs).
    + intros sid m Hs Hm Ho. destruct (F sid Hs) as ([? _] & _). destruct (decide (m = num st)) as [->|].
      * rewrite (Hhas sid) in * by done. lia.
      * pose proof (go_past _ _ _ G sid m Hs). lia.
    + intros sid Hs _ Ho Hk. destruct (F sid Hs) as (_ & F2 & _). apply F2; [done|].
      destruct Hk as [?|Hk]; [left; lia|right]. by replace (num st + 1 - 1) with (num st) in Hk by lia.
  - intros x y s t [[-> ->]|[Hxg Hx]]%Hst [[-> ->]|[Hyg Hy]]%Hst; rewrite ?En.
    + split; [lia|]. lia.
    + destruct (ci_near _ _ _ I g y st t Hg Hy). split; [lia|]. lia.
    + destruct (Hset st x s Hg Hx) as [? Hl]. split; [lia|]. intros ?. apply Hl. lia.
    + by eapply ci_near.
  - intros x s sid [[-> ->]|[_ Hx]]%Hst Hs; [|by eapply ci_hold]. rewrite En. intros _ Ho Ht.
    destruct (F sid Hs) as (_ & _ & F3 & F4). destruct (F3 Ht) as [_ [Hz|Hk]].
    + rewrite Hz in Ho. assert (∀ o, o ∈ executed C → key2shard (Key o) ≠ sid) as Hno.
      { intros o Hoo <-. by eapply (ci_new _ _ _ I g st o). }
      split.
      * intros k Hk. rewrite F4, decide_True, lookup_empty by done. symmetry. apply valueOf_none.
        intros o Hoo <-. by apply (Hno o Hoo).
      * intros o Hoo Hk. by destruct (Hno o Hoo).
    + apply Hkeep; [done..|]. by eapply owned_later, Hk; [eapply group_in|].
  - intros d s r t sid [[-> ->]|[Hdg Hd]]%Hst Hr Hs.
    + rewrite En. replace (num st + 1 - 1) with (num st) by lia. intros. apply Hkeep; [done..|lia].
    + intros Hm Hod Hor Hne Htr. apply Hst in Hr as [[-> ->]|[_ Hr]]; [|by eapply ci_give].
      eapply (ci_give _ _ _ I d s g st); try done. destruct (F sid Hs) as ([? _] & _). lia.
  - intros r s d t sid [[-> ->]|[Hrg Hr]]%Hst Hd Hs.
    + rewrite En. intros Hm Ho Ht. replace (num st + 1 - 1) with (num st) by lia. intros Hod.
      destruct (F sid Hs) as (_ & _ & F3 & _). destruct (F3 Ht) as [_ [Hz|Hk]]; [lia|].
      apply Hst in Hd as [[-> ->]|[Hdg _]]; [lia|congruence].
    + intros Hm Ho Ht Hod. apply Hst in Hd as [[-> ->]|[_ Hd]]; [|by eapply ci_came].
      pose proof (ci_came _ _ _ I r s g st sid Hr Hg Hs Hm Ho Ht Hod). lia.
  - intros f s Hf Hok [[Ea ->]|[Hag Hs]]%Hst.
    + rewrite Ea, En. rewrite <- Ea in Hg.
      destruct (ci_fly _ _ _ I f st Hf Hok Hg) as (F1 & F2 & F3 & [F4 F4x] & F5). cbv zeta. rewrite Ea in F4.
      split_and!; [done|lia|lia|done|done|done|]. intros E. destruct (F5 E) as [F6 F7]. split.
      * intros t [[Ed ->]|[_ Hd]]%Hst; [|by apply F6]. rewrite Ea in Hg. rewrite Ed in F6. specialize (F6 st Hg). lia.
      * intros Hlt. apply F7. destruct (F _ F1) as ([? _] & _). lia.
    + destruct (ci_fly _ _ _ I f s Hf Hok Hs) as (F1 & F2 & F3 & [F4 F4x] & F5). cbv zeta.
      split_and!; [done|lia|lia|done|done|done|]. intros E. destruct (F5 E) as [F6 F7]. split; [|done].
      intros t [[Ed ->]|[_ Hd]]%Hst; [|by apply F6]. rewrite Ed in F6. specialize (F6 st Hg). lia.
  - intros f Hf. destruct (ci_flyer _ _ _ I f Hf) as [[s Hs] ?]. split; [|done].
    destruct (decide (asker f = g)) as [->|]; [rewrite lookup_insert_eq|rewrite lookup_insert_ne by done]; by eexists.
  - intros x s o [[-> ->]|[_ Hx]]%Hst; [lia|by eapply ci_new].
  - apply I.
Qed.

(** *** A shard is fetched *)

Lemma fetch_inv C g st d dst sid tgt srv :
  inv C → states C !! g = Some st → states C !! d = Some dst → owner tgt sid = d → sid ∈ shardIds →
  AllConfigs st !! Z.to_nat (num st - 1) = Some tgt → Num tgt = num st - 1 →
  owner (LatestConfig st) sid = g → timestamp st sid < num st →
  let rep := AcquireShards (createAcquireShards sid tgt (leaderOf g st)) (leaderOf d dst) in
  inv (mkCluster (states C) (flying C ++ [mkFlight g sid tgt srv rep]) (executed C)).
Proof using H.
  intros I Hg Hd Hod Hs Htar Hnt Hog Hlt rep. pose proof (ci_group _ _ _ I g st Hg) as G.
  rewrite (owner_latest g) in Hog by done.
  pose proof (owned_later g st sid (group_in C g st I Hg) G Hog) as Hpos.
  assert (own (num st - 1) sid = d) as Hdn.
  { destruct (go_prefix _ _ _ G) as [k Hk]. unfold ownerAt. rewrite Hk.
    by rewrite (lookup_app_l_Some _ _ _ _ Htar). }
  assert (1 < num st) as Hn1.
  { destruct (decide (num st = 1)) as [E|]; [|lia]. rewrite E in Hdn.
    change (owner (default zeroConfig (h !! 0%nat)) sid = d) in Hdn. rewrite (ho_first _ _ H) in Hdn. cbn in Hdn.
    rewrite owner_zero in Hdn. pose proof (ho_groups _ _ H d (group_in C d dst I Hd)). lia. }
  pose proof I as [I1 I2 I3 I4 I5 I6 I7 I8 I9 I10]. split; cbn [states flying executed]; try done.
  - intros f s [Hf|Hf]%elem_of_app; [by apply I7|]. apply list_elem_of_singleton in Hf as ->.
    cbn [asker shard target reply]. intros Hok Hs1. rewrite Hg in Hs1. injection Hs1 as <-. cbv zeta.
    unfold rep, AcquireShards in *. cbn [leaderOf serverOf rf state rs_GetState View_service snd fst negb rstate
      createAcquireShards gid ConfigNum ShardIndex] in *.
    destruct (decide (num dst = 0 ∨ num dst < Num tgt)) as [|Hge]; [done|]. cbn [ASR_ConfigNum ASR_ShardData ASR_ClientLastRequest] in *.
    replace (Num tgt + 1) with (num st) by lia. destruct (I3 g d st dst Hg Hd) as [N1 N2].
    assert (num dst ≠ num st + 1) as Hne.
    { intros E. pose proof (has_shard g st sid G (N2 E) Hs Hog). lia. }
    split_and!; [done|lia|lia|lia|done|rewrite Hdn; by eapply group_in|]. intros E. split.
    + intros t Ht. rewrite Hdn, Hd in Ht. injection Ht as <-. lia.
    + intros _. rewrite cloneStore_eq, clientLastRequestClone_eq.
      eapply (I5 d dst g st sid); try done; rewrite ?E; try done.
      intros ->. rewrite (go_kept _ _ _ G sid Hs Hpos Hog) in Hlt; [lia|by right].
  - intros f [Hf|Hf]%elem_of_app; [by apply I8|]. apply list_elem_of_singleton in Hf as ->.
    cbn [asker reply]. split; [by eexists|]. apply AcquireShards_not_filler.
Qed.

(** *** A reply is handled *)

Lemma deliver_inv C f st op :
  inv C → f ∈ flying C → states C !! asker f = Some st → ASR_Error (reply f) = ASOK →
  op = createAcquireShardOp (shard f) (reply f) (leaderOf (asker f) st) →
  inv (mkCluster (<[asker f := handleAcquireShard op st]> (states C)) (flying C) (executed C)).
Proof using H.
  intros I Hf Hg Hok Hop. set (g := asker f) in *. pose proof (ci_group _ _ _ I g st Hg) as G.
  pose proof (λ sid, acquire_effect op st sid) as F. set (st' := handleAcquireShard op st) in *.
  assert (LatestConfig st' = LatestConfig st) as EL by apply (F 0).
  assert (skv_ok st') as Hok' by (eapply skv_ok_steady; [by apply handleAcquireShard_steady, G|apply G]).
  assert (AllConfigs st' = AllConfigs st) as EA by apply (handleAcquireShard_steady op st (go_ok _ _ _ G)).
  assert (tab_le (ClientLastRequest st) (ClientLastRequest st')) as Htab.
  { destruct (F 0) as (_ & -> & _). apply merge_le. }
  destruct (ci_fly _ _ _ I f st Hf Hok Hg) as (F1 & F2 & F3 & F4 & F5).
  set (n := Num (target f) + 1) in *. set (m := ASR_ConfigNum (reply f)) in *.
  (* a shard changes only if the group waits for it *)
  assert (∀ sid, sid ∈ shardIds →
    (timestamp st' sid = timestamp st sid ∧ storeOf st' sid = storeOf st sid) ∨
    (sid = shard f ∧ n = num st ∧ timestamp st sid < m ∧ timestamp st' sid = m ∧ storeOf st' sid = ASR_ShardData (reply f)))
    as Hch.
  { intros sid Hs. destruct (F sid) as (_ & _ & E). rewrite Hop in E. cbn in E. case_decide as Hd.
    - right. injection E as Et Es. destruct Hd as [-> Hlt]. split_and!; try done.
      destruct (decide (n = num st)); [done|]. pose proof (go_past _ _ _ G (shard f) n F1). unfold m in *. lia.
    - left. by injection E as -> ->. }
  assert (∀ sid, sid ∈ shardIds → timestamp st sid ≤ timestamp st' sid ≤ num st) as Hmono.
  { intros sid Hs. pose proof (go_le _ _ _ G sid Hs). destruct (Hch sid Hs) as [[-> _]|(_ & ? & ? & -> & _)]; lia. }
  assert (∀ sid, sid ∈ shardIds → storeOf st' sid = storeOf st sid → agreesIn st sid (executed C) → agreesIn st' sid (executed C)) as Hkeep.
  { intros sid Hs Es Ha. unfold agreesIn. rewrite Es. by eapply agrees_tab. }
  assert (∀ x y, <[g := st']> (states C) !! x = Some y → x = g ∧ y = st' ∨ x ≠ g ∧ states C !! x = Some y) as Hst.
  { intros x y [[-> ->]|[? ?]]%lookup_insert_Some; [by left|right; by split]. }
  split; cbn [states flying executed].
  - rewrite dom_insert_lookup_L by eauto. apply I.
  - intros x s [[-> ->]|[_ Hx]]%Hst; [|by eapply ci_group]. split; rewrite ?EL; [done| |apply Hmono|..].
    + rewrite EA. apply G.
    + intros sid k Hs Hk Ho. pose proof (go_past _ _ _ G sid k Hs Hk Ho). pose proof (Hmono sid Hs). lia.
    + intros sid Hs Hp Ho Hk. pose proof (go_kept _ _ _ G sid Hs Hp Ho Hk). pose proof (Hmono sid Hs). lia.
  - intros x y s t [[-> ->]|[Hxg Hx]]%Hst [[-> ->]|[Hyg Hy]]%Hst; rewrite ?EL.
    + split; [lia|]. lia.
    + destruct (ci_near _ _ _ I g y st t Hg Hy) as [? Hl]. split; [lia|]. intros E. specialize (Hl E).
      apply lagging_nil. intros sid Hs Ho. rewrite EL in *. pose proof (Hmono sid Hs).
      assert (Num (LatestConfig st) ≤ timestamp st sid) by (by eapply lagging_nil). lia.
    + by apply (ci_near _ _ _ I x g s st).
    + by eapply ci_near.
  - intros x s sid [[-> ->]|[_ Hx]]%Hst Hs; [|by eapply ci_hold]. rewrite EL. intros Hp Ho Ht.
    destruct (Hch sid Hs) as [[Et Es]|(-> & En & Hlt & Et & Es)].
    + apply Hkeep; [done..|]. eapply (ci_hold _ _ _ I g); [done..|]. lia.
    + destruct F5 as [_ F7]; [lia|]. destruct F7 as [Hd Hcov]; [lia|]. unfold agreesIn. rewrite Es. split; [done|].
      destruct (F 0) as (_ & -> & _). rewrite Hop. by apply merge_covers.
  - intros d s r t sid [[-> ->]|[Hdg Hd]]%Hst Hr Hs.
    + rewrite EL. intros Hm Hod Hor Hne Htr. destruct (Hch sid Hs) as [[Et Es]|(-> & En & _)].
      2:{ exfalso. apply Hne. rewrite <- Hor, <- En. symmetry. apply F4. }
      apply Hkeep; [done..|]. apply Hst in Hr as [[-> _]|[_ Hr]]; [done|]. by eapply (ci_give _ _ _ I g st r t).
    + intros Hm Hod Hor Hne Htr. apply Hst in Hr as [[-> ->]|[_ Hr]]; [|by eapply ci_give].
      eapply (ci_give _ _ _ I d s g st); try done. pose proof (Hmono sid Hs). lia.
  - intros r s d t sid [[-> ->]|[Hrg Hr]]%Hst Hd Hs.
    + rewrite EL. intros Hm Ho Ht Hod. assert (∃ t', states C !! d = Some t' ∧ num t = num t') as (t' & Hd' & ->).
      { apply Hst in Hd as [[-> ->]|[_ Hd]]; [exists st; by rewrite EL|by exists t]. }
      destruct (Hch sid Hs) as [[Et Es]|(-> & En & Hlt & Et & Es)].
      * eapply (ci_came _ _ _ I g st d t'); try done. lia.
      * destruct F5 as [F6 _]; [lia|]. rewrite <- En. apply F6. rewrite En. by rewrite Hod.
    + intros Hm Ho Ht Hod. apply Hst in Hd as [[-> ->]|[_ Hd]]; [|by eapply ci_came].
      rewrite EL. by eapply (ci_came _ _ _ I r s g st).
  - intros f' s Hf' Hok1 [[Ea ->]|[Hag Hs]]%Hst.
    + rewrite Ea, EL. pose proof Hg as Hg'. rewrite <- Ea in Hg'.
      destruct (ci_fly _ _ _ I f' st Hf' Hok1 Hg') as (K1 & K2 & K3 & [K4 K4x] & K5). cbv zeta. rewrite Ea in K4.
      split_and!; [done|lia|lia|done|done|done|]. intros E. destruct (K5 E) as [K6 K7]. split.
      * intros t [[Ed ->]|[_ Hd]]%Hst; [|by apply K6]. rewrite Ed in K6. rewrite EL. by apply K6.
      * intros Hlt. apply K7. pose proof (Hmono _ K1). lia.
    + destruct (ci_fly _ _ _ I f' s Hf' Hok1 Hs) as (K1 & K2 & K3 & [K4 K4x] & K5). cbv zeta.
      split_and!; [done|lia|lia|done|done|done|]. intros E. destruct (K5 E) as [K6 K7]. split; [|done].
      intros t [[Ed ->]|[_ Hd]]%Hst; [|by apply K6]. rewrite Ed in K6. rewrite EL. by apply K6.
  - intros f' Hf'. destruct (ci_flyer _ _ _ I f' Hf') as [[s Hs] ?]. split; [|done].
    destruct (decide (asker f' = g)) as [->|]; [rewrite lookup_insert_eq|rewrite lookup_insert_ne by done]; by eexists.
  - intros x s o [[-> ->]|[_ Hx]]%Hst; [rewrite EL; by eapply ci_new|by eapply ci_new].
  - apply I.
Qed.

(** *** Every step *)

Lemma query_at n : 0 ≤ n → Num (query h n) = n → h !! Z.to_nat n = Some (query h n).
Proof using H.
  intros Hn E. unfold query in *. case_decide as Hr.
  - destruct (lookup_lt_is_Some_2 h (Z.to_nat n)) as [c Hc]; [lia|]. by rewrite Hc.
  - exfalso. pose proof (lookup_lt_Some _ _ _ (ho_first _ _ H)) as Hl.
    destruct (last h) as [c|] eqn:El; [|apply last_None in El; rewrite El in Hl; cbn in Hl; lia].
    rewrite last_lookup in El. pose proof (ho_num _ _ H _ _ El) as Hc. cbn in E. lia.
Qed.

(** What was started is applied to the group's own state. *)
Lemma commit_eq g st kv C :
  only_raft (leaderOf g st) kv →
  commit g kv C = (st ← applyOps g (startedOps (rf kv)) st; Ok (mkCluster (<[g := st]> (states C)) (flying C) (executed C))).
Proof. by intros [r ->]. Qed.

Lemma commit_nothing C g st : states C !! g = Some st → mkCluster (<[g := st]> (states C)) (flying C) (executed C) = C.
Proof. intros Hg. rewrite insert_id by done. by destruct C. Qed.

Lemma cluster_step_inv C l :
  inv C → settled C l → ∃ C', cluster_step h C l = Ok C' ∧ inv C'.
Proof using H.
  intros I Hset. destruct l as [g|g j srv|k|g kind key value client index]; cbn [cluster_step].
  - destruct (states C !! g) as [st|] eqn:Hg; [|by exists C]. pose proof (ci_group _ _ _ I g st Hg) as G.
    destruct (configTick_started (query h) true g 0 (mkReplica 0 st)) as (kv & Hkv & Hs).
    unfold leaderOf. rewrite Hkv. cbn [mbind Res_bind].
    rewrite (commit_eq g st) by (by eapply shardConfigTicker_raft). cbn [rstate] in Hs.
    destruct Hs as [->|(Hn & Hlag & ->)]; cbn [applyOps mbind Res_bind].
    { exists C. split; [|done]. by rewrite commit_nothing. }
    set (op := createInstallShardConfigOp _ _).
    assert (started_op op) as Hop by (right; by split; [|left]).
    destruct (applyOp_config g op st (go_ok _ _ _ G) Hop) as (st' & msg & E & Hok' & _).
    pose proof E as E'. unfold applyOp in E'. cbn in E'. injection E' as <- <-. rewrite E. cbn [mbind Res_bind].
    eexists. split; [done|]. pose proof (num_nonneg g st G).
    apply reconfigure_inv; try done. apply query_at; [lia|exact Hn].
  - destruct (states C !! g) as [st|] eqn:Hg; [|by exists C]. pose proof (ci_group _ _ _ I g st Hg) as G.
    destruct (acquireShardTicker_ok (leaderOf g st) (go_ok _ _ _ G)) as (calls & -> & Hlag & Hcalls); [done|].
    cbn [mbind Res_bind]. destruct (calls !! j) as [[sid tgt]|] eqn:Hj; [|by exists C].
    destruct (states C !! owner tgt sid) as [dst|] eqn:Hd; [|by exists C]. eexists. split; [done|].
    apply list_elem_of_lookup_2 in Hj. destruct (Hcalls sid tgt Hj) as (H1 & H2 & H3 & H4). cbn in H1, H2, H3, H4.
    apply fetch_inv; try done. assert (sid ∈ lagging g st) as [_ Hs]%list_elem_of_filter; [|done].
    change (gid (leaderOf g st)) with g in Hlag. change (state (leaderOf g st)) with st in Hlag. rewrite <- Hlag.
    apply list_elem_of_fmap. by exists (sid, tgt).
  - destruct (flying C !! k) as [f|] eqn:Hf; [|by exists C]. apply list_elem_of_lookup_2 in Hf.
    destruct (states C !! asker f) as [st|] eqn:Hg; [|by exists C]. pose proof (ci_group _ _ _ I _ st Hg) as G.
    destruct (deliver_started true (asker f) 0 (shard f) (target f) (mkReplica 0 st) (server f) (reply f))
      as (kv & Hkv & Hs); [by apply (ci_flyer _ _ _ I f Hf)|].
    unfold leaderOf. rewrite Hkv. cbn [mbind Res_bind].
    rewrite (commit_eq (asker f) st) by (by eapply acquireShards_raft). cbn [rstate] in Hs.
    destruct Hs as [->|(_ & Hok & ->)]; cbn [applyOps mbind Res_bind].
    { exists C. split; [|done]. by rewrite commit_nothing. }
    eexists. split; [done|]. by apply deliver_inv.
  - destruct (states C !! g) as [st|] eqn:Hg; [|by exists C]. case_decide as Hk; [|by exists C].
    set (op := clientOp _ _ _ _ _ _). destruct (executes g op st) eqn:He.
    + destruct (executed_effect g op st eq_refl Hk He) as (st' & -> & EA & EL & ET & EC & EV). cbn [mbind Res_bind].
      eexists. split; [done|]. by eapply client_inv.
    + destruct (not_executed g op st eq_refl Hk He) as (msg & -> & _). cbn [mbind Res_bind].
      exists C. split; [|done]. by rewrite commit_nothing.
Qed.

Lemma initial_kept : inv (cluster_initial gs).
Proof using H.
  assert (∀ g st, states (cluster_initial gs) !! g = Some st → g ∈ gs ∧ st = makeState) as Hst.
  { intros g st [? <-]%lookup_gset_to_gmap_Some. done. }
  split; cbn [flying executed cluster_initial]; try set_solver.
  - apply dom_gset_to_gmap.
  - intros g st [Hg ->]%Hst. split; [apply skv_ok_makeState| | | |]; cbn.
    + pose proof (ho_first _ _ H) as Hf. destruct h as [|c l]; [done|]. injection Hf as ->. by exists l.
    + intros sid _. unfold timestamp. cbn. by rewrite lookup_empty.
    + intros sid n _ Hn. lia.
    + intros sid _ Hp. lia.
  - intros g g' st st' [_ ->]%Hst [_ ->]%Hst. cbn. lia.
  - intros g st sid [_ ->]%Hst _ Hp. cbn in Hp. lia.
  - intros d st r st' sid [_ ->]%Hst _ _ Hp. cbn in Hp. lia.
  - intros d st r st' sid [_ ->]%Hst _ _ Hp. cbn in Hp. lia.
Qed.

Lemma cluster_reachable_inv C : cluster_reachable h gs C → inv C.
Proof using H.
  induction 1 as [|C l C' _ IH Hset Hs]; [apply initial_kept|].
  destruct (cluster_step_inv C l IH Hset) as (C1 & E & ?). rewrite Hs in E. by injection E as ->.
Qed.

(** A group that lacks no shard agrees on all it owns. *)
Lemma serving_agrees C g st k :
  inv C → states C !! g = Some st → lagging g st = [] → owner (LatestConfig st) (key2shard k) = g →
  agreesIn st (key2shard k) (executed C).
Proof using H.
  intros I Hg Hl Ho. pose proof (ci_group _ _ _ I g st Hg) as G. rewrite (owner_latest g) in Ho by done.
  pose proof (key_shard k). eapply ci_hold; try done.
  - eapply owned_later; [by eapply group_in|done|done].
  - by apply (has_shard g).
Qed.

Lemma serving_value C g st k :
  inv C → states C !! g = Some st → lagging g st = [] → owner (LatestConfig st) (key2shard k) = g →
  getValueWithKey k st = valueOf k (executed C).
Proof using H.
  intros I Hg Hl Ho. rewrite getValueWithKey_store. by apply (serving_agrees C g st k I Hg Hl Ho).
Qed.
End kept.

(** The history of a controller is such a list. *)
Lemma controller_history_ok (ctrl : ShardCtrler.State) (gs : gset Z) :
  ShardCtrlerSpec.ctrl_ok ctrl → [zeroConfig] `prefix_of` ShardCtrler.Configs ctrl → (∀ g, g ∈ gs → 0 < g) →
  history_ok (ShardCtrler.Configs ctrl) gs.
Proof.
  intros Hc [k Hk] Hg. split; [done|by rewrite Hk|apply Hc].
Qed.

(** ** The theorem *)

(** C17: under the schedule, the sharded service is one map.  The schedule is
    that a group goes on to its next configuration only when no group is behind
    it and those at its configuration have all their shards ([settled]), and
    that a request for a shard is answered while the asker lacks it ([Fetch]).
    Whatever numbered list of configurations the controller makes for groups
    with positive numbers (shards may be with nobody, or with groups that do not
    exist; [controller_history_ok]), whatever clients send and to which group,
    and with replies to requests for shards delayed, repeated and lost: a group
    that owns a key and lacks no shard replies what one map would, in which all
    operations executed so far by all groups have been executed in their order;
    afterwards every key of its shards has the value of that map; and on each
    shard a client's requests from 1 on are executed in increasing order, so
    none twice. *)
Theorem sharded_service_is_one_map h gs C g st op :
  history_ok h gs → cluster_reachable h gs C → states C !! g = Some st →
  NeedSendBackCh op = true → client_kind op → serves g op st →
  let E := if executes g op st then executed C ++ [op] else executed C in
  ∃ st', applyOp g op st = Ok (st', reply_of op (valueOf (Key op) (executed C))) ∧
    (∀ k, owner (LatestConfig st') (key2shard k) = g → getValueWithKey k st' = valueOf k E) ∧
    (∀ i j o o', E !! i = Some o → E !! j = Some o' → (i < j)%nat →
      key2shard (Key o) = key2shard (Key o') → ClientId o = ClientId o' → 0 < RequestIndex o →
      RequestIndex o < RequestIndex o').
Proof.
  intros H Hr Hg Hn Hk [Ho Hl] E. pose proof (cluster_reachable_inv h gs H C Hr) as I.
  assert (∀ k, owner (LatestConfig st) (key2shard k) = g → getValueWithKey k st = valueOf k (executed C)) as Hval
    by (intros k Hk'; by eapply serving_value).
  destruct (executes g op st) eqn:He; subst E.
  - destruct (executed_effect g op st Hn Hk He) as (st' & -> & EA & EL & ET & EC & EV).
    exists st'. rewrite Hval by done. split; [done|]. split.
    + intros k. rewrite EL, EV, valueOf_snoc. intros Hok. rewrite Hval by done. repeat case_decide; congruence.
    + apply (ci_once _ _ _ (client_inv h gs H C g st op st' I Hg He EA EL ET EC EV)).
  - destruct (not_executed g op st Hn Hk He) as (msg & -> & Hmsg). exists st. rewrite Hmsg, Hval by done.
    split; [done|]. split; [done|]. apply I.
Qed.

(** ** A run: group 1 serves a Put, group 2 fetches the shards and serves the Get *)

#[export] Instance settled_dec C l : Decision (settled C l).
Proof.
  destruct l as [g| | |]; [|by left..]. destruct (states C !! g) as [st|] eqn:Hg.
  - destruct (decide (map_Forall (λ g' st', Num (LatestConfig st) ≤ Num (LatestConfig st') ∧
      (Num (LatestConfig st') = Num (LatestConfig st) → lagging g' st' = [])) (states C))) as [Hf|Hf].
    + left. intros s g' st' Hs Hg'. rewrite Hg in Hs. injection Hs as <-. by apply Hf.
    + right. intros Hs. apply Hf. intros g' st' Hg'. by apply (Hs st g' st').
  - left. intros s g' st' Hs. by rewrite Hg in Hs.
Defined.

Definition settledStep (h : list Config) (C : Cluster) (l : Step) : Res Cluster :=
  if decide (settled C l) then cluster_step h C l else Panic "not settled".

Lemma settled_run h gs ls C C' :
  cluster_reachable h gs C → go_for (settledStep h) C ls = Ok C' → cluster_reachable h gs C'.
Proof.
  revert C. induction ls as [|l ls IH]; intros C Hr Hs; cbn in Hs; [by injection Hs as <-|].
  apply bind_Ok in Hs as (C1 & H1 & Hs). unfold settledStep in H1. case_decide; [|done].
  eapply IH; [|done]. by eapply cr_step.
Qed.

Definition movedHistory : list Config := [zeroConfig; allTo [0; 1; 2] 1; allTo [0; 1; 2] 2].
Definition twoGroupIds : gset Z := {[ 1; 2 ]}.

Definition movedRun : list Step :=
  [Reconfigure 1; Reconfigure 2; Client 1 PUT "k" "v" 7 1; Reconfigure 1; Reconfigure 2] ++
  (k ← seq 0 10; [Fetch 2 0 "a"; Deliver k; Deliver 0]).

Definition movedCluster : Cluster :=
  match go_for (settledStep movedHistory) (cluster_initial twoGroupIds) movedRun with
  | Ok C => C
  | _ => cluster_initial twoGroupIds
  end.

Definition movedState : State := default makeState (states movedCluster !! 2).
Definition movedGet : Op := clientOp (leaderOf 2 movedState) GET "k" "" 8 1.

Lemma movedHistory_ok : history_ok movedHistory twoGroupIds.
Proof.
  split.
  - intros g [->%elem_of_singleton| ->%elem_of_singleton]%elem_of_union; lia.
  - done.
  - intros [|[|[|i]]] c Hc; cbn in Hc; [by injection Hc as <-..|done].
Qed.

Lemma movedCluster_reachable : cluster_reachable movedHistory twoGroupIds movedCluster.
Proof.
  assert (go_for (settledStep movedHistory) (cluster_initial twoGroupIds) movedRun = Ok movedCluster) as E.
  { unfold movedCluster. destruct (go_for _ _ _) eqn:E; [done| |];
      apply (f_equal is_ok) in E; vm_compute in E; discriminate. }
  eapply settled_run; [apply cr_initial|exact E].
Qed.

Lemma sharded_service_is_one_map_witness :
  ∃ st', applyOp 2 movedGet movedState = Ok (st', mkKVReplyMsg OK "v").
Proof.
  destruct (sharded_service_is_one_map movedHistory twoGroupIds movedCluster 2 movedState movedGet)
    as (st' & H1 & _).
  - exact movedHistory_ok.
  - exact movedCluster_reachable.
  - vm_compute. reflexivity.
  - reflexivity.
  - left. reflexivity.
  - split; vm_compute; reflexivity.
  - exists st'. rewrite H1. vm_compute. reflexivity.
Defined.
