(* ===== verification/ShardProgress.v ===== *)
(** * The groups can catch up

    [ShardSystem] shows a group that waits for ever for a shard whose previous
    owner does not exist.  This file shows that nothing else stands in the way:
    as long as every shard of every configuration belongs to a group whose
    servers can be reached, every run can go on to a state in which all groups
    are at the controller's latest configuration with all their shards. *)

From S2P Require Import Prelude.
From S2P Require Import RaftState.
From S2P Require Import RaftService.
From S2P Require Import ShardConfig.
From S2P Require Import ShardCtrler.
From S2P Require Import ShardCtrlerSpec.
From S2P Require Import ShardKv.
From S2P Require Import ShardKvSpec.
From S2P Require Import ShardSystem.
Open Scope Z_scope.

(** ** One operation at the end of a log *)

(** Configuration 1 is installed with the shards' contents. *)
Definition first_stamped (g : Z) (st : State) : Prop :=
  Num (LatestConfig st) = 1 →
  ∀ sid, sid ∈ shardIds → owner (LatestConfig st) sid = g → 1 ≤ timestamp st sid.

Lemma first_install_stamps g new (l : list Z) (st : State) sid :
  LatestConfig st = new → Num new = 1 → owner new sid = g →
  (sid ∈ l ∨ 1 ≤ timestamp st sid) →
  1 ≤ timestamp (foldl (λ st i,
        st <| ShardTimestamp := <[i := if decide (owner (LatestConfig st) i = g)
                                       then Num (LatestConfig st) else 0]> (ShardTimestamp st) |>
           <| ShardKVStore := <[i := createEmptyKeyValueStore]> (ShardKVStore st) |>) st l) sid.
Proof.
  intros Hst Hn Ho. revert st Hst. induction l as [|i l IH]; intros st Hst Hin; cbn [foldl].
  { destruct Hin as [Hin|Ht]; [by apply elem_of_nil in Hin|done]. }
  apply IH; [done|]. destruct (decide (sid ∈ l)) as [|Hl]; [by left|right].
  unfold timestamp. skv_simpl. destruct (decide (i = sid)) as [->|Hne].
  - rewrite lookup_insert_eq, Hst, decide_True by done. cbn. lia.
  - rewrite lookup_insert_ne by done. destruct Hin as [[?|?]%elem_of_cons|Ht]; [done..|exact Ht].
Qed.

Lemma applyOp_first_stamped g op st st' msg :
  skv_ok st → started_op op → first_stamped g st → applyOp g op st = Ok (st', msg) → first_stamped g st'.
Proof.
  intros Hok Hop Hst Heq. destruct Hop as [[Hb Hk]|[Hb Hk]].
  - unfold applyOp in Heq. rewrite Hb in Heq. cbn in Heq.
    rewrite allShardsUpToDate_eq in Heq. cbn in Heq.
    case_decide; [by injection Heq as <- <-|].
    case_bool_decide; cbn in Heq; [|by injection Heq as <- <-].
    destruct (isDuplicateOp op st).
    + case_decide as HG; [rewrite (getValue_Ok op st HG) in Heq|]; by injection Heq as <- <-.
    + destruct (applyClient_Ok op st Hk) as (st1 & E & _ & H2 & H3 & _). rewrite E in Heq.
      injection Heq as <- <-. unfold first_stamped, timestamp in *. by rewrite H2, H3.
  - unfold applyOp in Heq. rewrite Hb in Heq. cbn in Heq. case_decide as HI.
    + injection Heq as <- <-.
      destruct (decide (Num (ShardConfig op) = Num (LatestConfig st) + 1)) as [E|E].
      2:{ unfold handleInstallShardConfig. by rewrite decide_True. }
      pose proof (handleInstallShardConfig_steady g op st Hok E) as [[_ HL] _]. skv_simpl.
      intros Hn sid Hs Ho. rewrite HL in Hn, Ho. unfold handleInstallShardConfig.
      rewrite decide_False by (intros Hc; by apply Hc). cbv zeta.
      rewrite decide_True by done. apply first_install_stamps with (new := ShardConfig op); auto.
    + destruct Hk as [?|Hk]; [done|]. rewrite decide_True in Heq by done. injection Heq as <- <-.
      intros Hn sid Hs Ho. pose proof (handleAcquireShard_steady op st Hok) as [[_ HL] _].
      rewrite HL in Hn, Ho. specialize (Hst Hn sid Hs Ho).
      unfold handleAcquireShard. case_decide as Hgt; [|done]. unfold timestamp. skv_simpl.
      destruct (decide (ShardId op = sid)) as [<-|Hne]; [rewrite lookup_insert_eq; cbn; lia|].
      by rewrite lookup_insert_ne.
Qed.

Lemma applyOps_first_stamped g ops st st' :
  skv_ok st → Forall started_op ops → first_stamped g st → applyOps g ops st = Ok st' → first_stamped g st'.
Proof.
  intros Hok Hops. revert st Hok. induction Hops as [|op ops Hop _ IH]; intros st Hok Hst Heq.
  { by injection Heq as <-. }
  cbn in Heq. destruct (applyOp_config g op st Hok Hop) as (st1 & msg & H1 & Hok1 & _).
  rewrite H1 in Heq. cbn in Heq. apply (IH st1); [done| |done]. by apply (applyOp_first_stamped g op st st1 msg).
Qed.

(** A shard that is behind is of a configuration after the first. *)
Lemma lagging_num g st sid :
  skv_ok st → first_stamped g st → sid ∈ lagging g st → 2 ≤ Num (LatestConfig st).
Proof.
  intros Hok Hst [[Ho Ht] Hs]%list_elem_of_filter. pose proof (so_stamps _ Hok sid).
  destruct (decide (Num (LatestConfig st) = 1)) as [E|E]; [|lia]. specialize (Hst E sid Hs Ho). lia.
Qed.

Lemma lagging_length g st : (length (lagging g st) ≤ 10)%nat.
Proof.
  unfold lagging. etrans; [apply length_filter|]. unfold shardIds. rewrite length_seqZ. vm_compute. lia.
Qed.

Lemma filter_length_lt {A} (P Q : A → Prop) `{!∀ x, Decision (P x), !∀ x, Decision (Q x)} (l : list A) x :
  (∀ y, Q y → P y) → x ∈ l → P x → ¬ Q x → (length (filter Q l) < length (filter P l))%nat.
Proof.
  intros Hsub Hin Hp Hq.
  assert (∀ l, length (filter Q l) ≤ length (filter P l))%nat as Hle.
  { intros l'. induction l' as [|y l' IH]; [done|]. rewrite !filter_cons.
    destruct (decide (Q y)) as [Hy|]; [rewrite decide_True by auto; cbn; lia|]. case_decide; cbn; lia. }
  induction l as [|y l IH]; [by apply elem_of_nil in Hin|]. rewrite !filter_cons.
  apply elem_of_cons in Hin as [<-|Hin].
  - rewrite decide_False, decide_True by done. cbn. specialize (Hle l). lia.
  - specialize (IH Hin). destruct (decide (Q y)) as [Hy|]; [rewrite decide_True by auto; cbn; lia|].
    case_decide; cbn; lia.
Qed.

(** Copying a shard that was behind leaves one shard less behind. *)
Lemma lagging_acquired g st st' sid n :
  same_configs st st' → sid ∈ lagging g st → Num (LatestConfig st) ≤ n →
  (∀ s, timestamp st' s = if decide (s = sid ∧ timestamp st sid < n) then n else timestamp st s) →
  (length (lagging g st') < length (lagging g st))%nat.
Proof.
  intros [_ HL] [[Ho Hlt] Hs]%list_elem_of_filter Hn Ht. unfold lagging. rewrite HL.
  apply (filter_length_lt _ _ _ sid); [|done|done|].
  - intros s [H1 H2]. split; [done|]. rewrite Ht in H2. case_decide; lia.
  - rewrite Ht, decide_True by (split; [done|lia]). intros [_ ?]. lia.
Qed.

(** ** One step of a group at the end of its log *)

Definition logs (w : World) : gmap Z (list Op) := glog <$> groups w.
Definition sizes (w : World) : gmap Z nat := (λ G, length (replicas G)) <$> groups w.

(** Replica [i] of group [g] has applied its whole log. *)
Definition current (w : World) (g : Z) (i : nat) (st : State) : Prop :=
  ∃ rep, getReplica w g i = Some rep ∧ rstate rep = st ∧ applied rep = length (default [] (logs w !! g)) ∧
    applyOps g (default [] (logs w !! g)) makeState = Ok st.

Lemma logs_setReplica g i rep w : logs (setReplica g i rep w) = logs w.
Proof.
  unfold logs, setReplica. sys_simpl. apply map_eq. intros g'. rewrite !lookup_fmap.
  destruct (decide (g = g')) as [<-|Hne]; [rewrite lookup_alter_eq|by rewrite lookup_alter_ne].
  by destruct (groups w !! g).
Qed.

Lemma sizes_setReplica g i rep w : sizes (setReplica g i rep w) = sizes w.
Proof.
  unfold sizes, setReplica. sys_simpl. apply map_eq. intros g'. rewrite !lookup_fmap.
  destruct (decide (g = g')) as [<-|Hne]; [rewrite lookup_alter_eq|by rewrite lookup_alter_ne].
  destruct (groups w !! g); cbn; [|done]. by rewrite length_insert.
Qed.

Lemma logs_logStarted g kv w : logs (logStarted g kv w) = alter (λ l, l ++ startedOps (rf kv)) g (logs w).
Proof.
  unfold logs, logStarted. sys_simpl. apply map_eq. intros g'. rewrite !lookup_fmap.
  destruct (decide (g = g')) as [<-|Hne]; [rewrite !lookup_alter_eq|rewrite !lookup_alter_ne by done]; rewrite lookup_fmap;
    by destruct (groups w !! _).
Qed.

Lemma sizes_logStarted g kv w : sizes (logStarted g kv w) = sizes w.
Proof.
  unfold sizes, logStarted. sys_simpl. apply map_eq. intros g'. rewrite !lookup_fmap.
  destruct (decide (g = g')) as [<-|Hne]; [rewrite lookup_alter_eq|by rewrite lookup_alter_ne].
  by destruct (groups w !! g).
Qed.

Lemma getReplica_setReplica g i rep w g' i' :
  getReplica (setReplica g i rep w) g' i' =
  if decide (g' = g ∧ i' = i) then (_ ← getReplica w g i; Some rep) else getReplica w g' i'.
Proof.
  unfold getReplica, setReplica. sys_simpl. destruct (decide (g' = g)) as [->|Hne].
  - rewrite lookup_alter_eq. destruct (groups w !! g) as [G|]; cbn; [|by case_decide].
    rewrite list_lookup_insert. destruct (decide (i' = i)) as [->|Hi].
    + rewrite (decide_True (P := g = g ∧ i = i)) by done.
      destruct (replicas G !! i) as [r|] eqn:Hr.
      * rewrite decide_True; [done|]. split; [done|]. by eapply lookup_lt_Some.
      * rewrite decide_False; [done|]. intros [_ Hlt]. apply lookup_lt_is_Some_2 in Hlt as [r Hr']. congruence.
    + rewrite !decide_False by naive_solver. done.
  - rewrite lookup_alter_ne, decide_False by naive_solver. done.
Qed.

Section progress.
Context (host : string → option (Z * nat)).

(** Steps that neither change the configuration nor restart a replica. *)
Definition quiet (l : Label) : Prop :=
  match l with Control _ | Recover _ _ _ => False | _ => True end.

Lemma quiet_ok tr : Forall quiet tr → Forall label_ok tr.
Proof. intros Hq. eapply Forall_impl; [exact Hq|]. by intros []. Qed.

(** [w'] is a continuation of [w] by such steps. *)
Record cont (w w' : World) : Prop := mkCont {
  co_run : ∃ tr, Forall quiet tr ∧ runs host w tr = Ok w';
  co_configs : Configs (ctrl w') = Configs (ctrl w);
  co_sizes : sizes w' = sizes w;
}.

Lemma runs_app w w1 tr tr' : runs host w tr = Ok w1 → runs host w (tr ++ tr') = runs host w1 tr'.
Proof.
  unfold runs. revert w. induction tr as [|l tr IH]; intros w; cbn; [by intros [= ->]|].
  intros (w2 & -> & Hr)%bind_Ok. cbn. by apply IH.
Qed.

#[local] Instance cont_preorder : PreOrder cont.
Proof.
  split; [by split; [exists []|..]|].
  intros a b c [(t1 & L1 & R1) C1 S1] [(t2 & L2 & R2) C2 S2]. split; [|congruence..].
  exists (t1 ++ t2). split; [by apply Forall_app|]. by rewrite (runs_app _ _ _ _ R1).
Qed.

Lemma cont_step w l w' :
  step host w l = Ok w' → quiet l → Configs (ctrl w') = Configs (ctrl w) → sizes w' = sizes w → cont w w'.
Proof.
  intros Hs Hl HC HS. split; [|done..]. exists [l]. split; [by repeat constructor|].
  unfold runs. cbn. by rewrite Hs.
Qed.

Lemma cont_inv w w' : sys_inv w → cont w w' → sys_inv w'.
Proof.
  intros I [(tr & Hl & Hr) _ _]. destruct (runs_ok host w tr I (quiet_ok _ Hl)) as (w1 & Hr1 & I1 & _).
  rewrite Hr in Hr1. by injection Hr1 as <-.
Qed.

Lemma sizes_group w g n : sizes w !! g = Some n → ∃ G, groups w !! g = Some G ∧ length (replicas G) = n.
Proof. intros (G & <- & HG)%lookup_fmap_Some. eauto. Qed.

(** One operation more is applied by a replica. *)
Lemma apply_next w g i G rep op :
  sys_inv w → groups w !! g = Some G → replicas G !! i = Some rep → glog G !! applied rep = Some op →
  ∃ st, let rep' := mkReplica (S (applied rep)) st in
    step host w (Apply g i) = Ok (setReplica g i rep' w) ∧ cont w (setReplica g i rep' w) ∧
    replica_ok g (glog G) rep'.
Proof.
  intros I HG Hrep Hop.
  assert (replica_ok g (glog G) rep) as [Hlen Hst].
  { apply (si_replicas w I g G rep HG). by eapply list_elem_of_lookup_2. }
  destruct (applyOps_configs g (take (S (applied rep)) (glog G)) makeState skv_ok_makeState) as (st & Heq & _).
  { apply Forall_take. by eapply log_started, si_log. }
  pose proof Heq as Hone. rewrite (take_S_r _ _ _ Hop), group_applyOps_app, Hst in Hone. cbn in Hone.
  destruct (applyOp g op (rstate rep)) as [[st1 msg]| |] eqn:Happ; [|done..]. injection Hone as ->.
  exists st. cbv zeta.
  assert (step host w (Apply g i) = Ok (setReplica g i (mkReplica (S (applied rep)) st) w)) as Hs.
  { cbn [step]. rewrite HG, Hrep, Hop, Happ. done. }
  split; [done|]. split; [by eapply cont_step; [exact Hs|..|apply sizes_setReplica]|].
  split; cbn; [by apply lookup_lt_Some in Hop|done].
Qed.

(** A replica applies the rest of its log. *)
Lemma replay_current w g i n :
  sys_inv w → sizes w !! g = Some n → (i < n)%nat →
  ∃ w' st, cont w w' ∧ logs w' = logs w ∧ current w' g i st ∧
    ∀ g' i' st', current w g' i' st' → current w' g' i' st'.
Proof.
  intros I (G & HG & Hlen)%sizes_group Hi.
  destruct (lookup_lt_is_Some_2 (replicas G) i) as [rep Hrep]; [lia|].
  remember (length (glog G) - applied rep)%nat as m eqn:Hm.
  revert w I G HG Hlen rep Hrep Hm. induction m as [|m IH]; intros w I G HG Hlen rep Hrep Hm.
  all: assert (replica_ok g (glog G) rep) as [Happ Hst]
    by (apply (si_replicas w I g G rep HG); by eapply list_elem_of_lookup_2).
  - exists w, (rstate rep). split; [done|]. split; [done|]. split; [|done].
    exists rep. unfold getReplica, logs. rewrite lookup_fmap, HG. cbn. split_and!; [done..|lia|].
    rewrite <- Hst, take_ge by lia. done.
  - destruct (lookup_lt_is_Some_2 (glog G) (applied rep)) as [op Hop]; [lia|].
    destruct (apply_next w g i G rep op I HG Hrep Hop) as (st & Hs & C1 & _).
    set (w1 := setReplica g i (mkReplica (S (applied rep)) st) w) in *.
    destruct (IH w1 (cont_inv _ _ I C1) (mkGroup (glog G) (<[i := mkReplica (S (applied rep)) st]> (replicas G))))
      with (rep := mkReplica (S (applied rep)) st) as (w' & st' & C & HL & Hcur & Hkeep).
    + unfold w1, setReplica. sys_simpl. rewrite lookup_alter_eq, HG. done.
    + cbn. by rewrite length_insert.
    + cbn. rewrite list_lookup_insert_eq; [done|lia].
    + cbn. lia.
    + exists w', st'. split; [by etrans|]. split; [rewrite HL; apply logs_setReplica|]. split; [done|].
      intros g' i' s (r & Hr & Hrs & Hap & Ha). apply Hkeep. unfold current, w1. rewrite getReplica_setReplica, logs_setReplica.
      case_decide as Hg; [|by exists r]. destruct Hg as [-> ->]. exfalso.
      unfold getReplica in Hr. rewrite HG in Hr. cbn in Hr. rewrite Hrep in Hr. injection Hr as <-.
      unfold logs in Hap. rewrite lookup_fmap, HG in Hap. cbn in Hap. lia.
Qed.

(** The next configuration is put in the log. *)
Lemma install_next w g st c :
  sys_inv w → current w g 0 st → lagging g st = [] →
  0 ≤ Num (LatestConfig st) → Configs (ctrl w) !! Z.to_nat (Num (LatestConfig st) + 1) = Some c →
  ∃ w' op, cont w w' ∧ logs w' = alter (λ l, l ++ [op]) g (logs w) ∧
    OpKind op = InstallShardConfig ∧ NeedSendBackCh op = false ∧ ShardConfig op = c.
Proof.
  intros I (rep & Hr & Hst & _) Hlag Hnum Hc. subst st.
  set (q := ShardCtrler.mkOp 0 0 QUERY ∅ [] 0 0 (Num (LatestConfig (rstate rep)) + 1) 0 0).
  destruct (query_ok q (ctrl w) (si_ctrl w I) eq_refl) as (cst & msg & Hq & HC & Hmsg).
  rewrite decide_True in Hmsg.
  2:{ cbn. apply lookup_lt_Some in Hc. lia. }
  cbn in Hmsg. rewrite Hc in Hmsg. injection Hmsg as Hmsg.
  set (w1 := w <| ctrl := cst |> <| answers := answers w ++ [(g, 0%nat, ReturnConfig msg)] |>).
  assert (step host w (AskConfig g 0 0 0) = Ok w1) as S1.
  { cbn [step]. rewrite Hr. fold q. by rewrite Hq. }
  assert (cont w w1) as C1 by by eapply cont_step.
  assert (Num c = Num (LatestConfig (rstate rep)) + 1) as Hn.
  { rewrite (co_num _ (si_ctrl w I) _ _ Hc). lia. }
  set (op := createInstallShardConfigOp c (serverOf true g 0 rep)).
  set (kv := (serverOf true g 0 rep) <| rf := viewStart (ICmd op) (true, []) |>).
  assert (step host w1 (ConfigTick g 0 true (length (answers w))) = Ok (logStarted g kv w1)) as S2.
  { cbn [step]. change (getReplica w1 g 0) with (getReplica w g 0). rewrite Hr.
    change (answers w1) with (answers w ++ [(g, 0%nat, ReturnConfig msg)]).
    rewrite list_lookup_middle, decide_True by done. rewrite <- Hmsg.
    unfold shardConfigTicker. cbn [serverOf rf state gid rs_GetState View_service snd fst negb].
    rewrite allShardsUpToDate_eq. cbn [mbind Res_bind]. rewrite bool_decide_true by done. cbn [negb].
    rewrite decide_False by (intros Hx; by apply Hx). done. }
  exists (logStarted g kv w1), op. split_and!; [|by rewrite logs_logStarted|done..].
  etrans; [exact C1|]. eapply cont_step; [exact S2|done|done|apply sizes_logStarted].
Qed.

(** A shard that is behind is fetched. *)
Lemma acquire_next w g st dst sid c srv l d j :
  sys_inv w → current w g 0 st → sid ∈ lagging g st → skv_ok st →
  AllConfigs st !! Z.to_nat (Num (LatestConfig st) - 1) = Some c →
  owner c sid = d → Groups c !! d = Some l → srv ∈ l → host srv = Some (d, j) → current w d j dst →
  2 ≤ Num (LatestConfig st) ≤ Num (LatestConfig dst) →
  ∃ w' op rep drep, cont w w' ∧ logs w' = alter (λ l, l ++ [op]) g (logs w) ∧ rstate drep = dst ∧
    let donor := serverOf true d j drep in
    let args := mkAcquireShardArgs g (Num c) sid in
    ASR_Error (AcquireShards args donor) = ASOK ∧
    op = createAcquireShardOp sid (AcquireShards args donor) (serverOf true g 0 rep).
Proof.
  intros I (rep & Hr & Hst & _) Hlag Hok Hprev Hown Hl Hsrv Hhost (drep & Hdr & Hdst & _) Hnum. subst st dst.
  destruct (acquireShardTicker_ok (serverOf true g 0 rep) Hok) as (calls & Hcalls & Hfst & Hall); [done|].
  assert ((sid, c) ∈ calls) as Hcall.
  { assert (sid ∈ map fst calls) as Hin by by rewrite Hfst.
    apply list_elem_of_fmap in Hin as ([s cc] & -> & Hin). destruct (Hall _ _ Hin) as (Hcc & _).
    cbn in Hcc. rewrite Hprev in Hcc. by injection Hcc as <-. }
  set (rqs := map (λ cl : Z * Config, mkRequest g 0 cl.1 cl.2) calls).
  set (w1 := w <| requests := requests w ++ rqs |>).
  assert (step host w (AcquireTick g 0 true) = Ok w1) as S1 by (cbn [step]; by rewrite Hr, Hcalls).
  assert (cont w w1) as C1 by by eapply cont_step.
  assert (mkRequest g 0 sid c ∈ requests w1) as [k Hk]%list_elem_of_lookup.
  { apply elem_of_app. right. apply list_elem_of_fmap. by exists (sid, c). }
  set (donor := serverOf true d j drep). set (args := mkAcquireShardArgs g (Num c) sid).
  set (reply := AcquireShards args donor).
  set (w2 := w1 <| replies := replies w1 ++ [(mkRequest g 0 sid c, srv, reply)] |>).
  assert (step host w1 (Serve k srv true) = Ok w2) as S2.
  { cbn [step]. rewrite Hk, Hhost. change (getReplica w1) with (getReplica w). cbn [rqGroup rqReplica].
    by rewrite Hdr, Hr. }
  assert (cont w1 w2) as C2 by by eapply cont_step.
  pose proof (so_num _ Hok _ _ Hprev) as Hcn.
  assert (ASR_Error reply = ASOK) as HOK.
  { unfold reply, AcquireShards, donor. cbn [serverOf rf state rs_GetState View_service snd fst negb ConfigNum args].
    rewrite decide_False; [done|]. intros [?|Hlt]; [lia|]. cbn in Hlt. lia. }
  set (op := createAcquireShardOp sid reply (serverOf true g 0 rep)).
  set (kv := (serverOf true g 0 rep) <| rf := viewStart (ICmd op) (true, []) |>).
  assert (step host w2 (Deliver (length (replies w1)) true) = Ok (logStarted g kv w2)) as S3.
  { cbn [step]. change (replies w2) with (replies w1 ++ [(mkRequest g 0 sid c, srv, reply)]).
    rewrite list_lookup_middle by done. change (getReplica w2) with (getReplica w). cbn [rqGroup rqReplica rqShard rqTarget].
    rewrite Hr. unfold acquireShards. rewrite acquireLoop_one by (rewrite HOK; discriminate).
    rewrite decide_True by (rewrite Hown, Hl; done). done. }
  exists (logStarted g kv w2), op, rep, drep. split_and!; [|by rewrite logs_logStarted|done..].
  etrans; [exact C1|]. etrans; [exact C2|]. eapply cont_step; [exact S3|done|done|apply sizes_logStarted].
Qed.

(** ** Progress *)

(** The state of a group at the end of its log. *)
Definition fullOf (w : World) (g : Z) : State :=
  match applyOps g (default [] (logs w !! g)) makeState with Ok st => st | _ => makeState end.

Definition latestNum (w : World) (g : Z) : Z := Num (LatestConfig (fullOf w g)).

(** Every shard of every configuration but the empty one is with a group that
    has a server that can be reached. *)
Definition owners_reachable (w : World) : Prop :=
  ∀ i c sid, (1 ≤ i)%nat → Configs (ctrl w) !! i = Some c → sid ∈ shardIds →
    ∃ l srv j k, Groups c !! owner c sid = Some l ∧ srv ∈ l ∧ host srv = Some (owner c sid, j) ∧
      sizes w !! owner c sid = Some k ∧ (j < k)%nat.

Definition populated (w : World) : Prop := ∀ g k, sizes w !! g = Some k → (0 < k)%nat.

(** At the controller's latest configuration, with all its shards. *)
Definition caught_up (w : World) (g : Z) : Prop :=
  last (Configs (ctrl w)) = Some (LatestConfig (fullOf w g)) ∧ lagging g (fullOf w g) = [].

Record full_ok (w : World) (g : Z) : Prop := mkFullOk {
  fo_state : applyOps g (default [] (logs w !! g)) makeState = Ok (fullOf w g);
  fo_ok : skv_ok (fullOf w g);
  fo_prefix : AllConfigs (fullOf w g) `prefix_of` Configs (ctrl w);
  fo_stamped : first_stamped g (fullOf w g);
}.

Lemma full_facts w g :
  sys_inv w → [zeroConfig] `prefix_of` Configs (ctrl w) → is_Some (sizes w !! g) → full_ok w g.
Proof.
  intros I [tl Hz] [k (G & HG & _)%sizes_group].
  assert (logs w !! g = Some (glog G)) as Hlog by (unfold logs; by rewrite lookup_fmap, HG).
  pose proof (si_log w I g G HG) as Hops.
  destruct (applyOps_configs g (glog G) makeState skv_ok_makeState (log_started _ _ Hops))
    as (st & Hst & Hok & added & HA & Hin).
  assert (fullOf w g = st) as Hfull by (unfold fullOf; rewrite Hlog; cbn; by rewrite Hst).
  split; rewrite ?Hfull, ?Hlog; [done|done| |].
  - apply prefix_by_numbers; [apply Hok|apply (si_ctrl w I)|]. rewrite HA.
    intros c [->%list_elem_of_singleton|Hc]%elem_of_app; [rewrite Hz; left|].
    destruct (Hin c Hc) as (op & Hop & Hk & <-). rewrite Forall_forall in Hops. by apply (Hops op Hop).
  - eapply applyOps_first_stamped; [apply skv_ok_makeState|by eapply log_started| |exact Hst]. done.
Qed.

Lemma full_latest w g :
  full_ok w g →
  0 ≤ latestNum w g < zlen (Configs (ctrl w)) ∧
  Configs (ctrl w) !! Z.to_nat (latestNum w g) = Some (LatestConfig (fullOf w g)).
Proof.
  intros [_ Hok [k Hp] _]. pose proof (so_last _ Hok) as Hl. rewrite last_lookup in Hl.
  pose proof (so_num _ Hok _ _ Hl) as Hn. unfold latestNum.
  apply lookup_app_l_Some with (l2 := k) in Hl. rewrite <- Hp in Hl.
  pose proof (lookup_lt_Some _ _ _ Hl). split; [lia|]. by rewrite Hn, Nat2Z.id.
Qed.

(** How far a group is behind. *)
Definition weight (w : World) (g : Z) : nat :=
  (Z.to_nat (zlen (Configs (ctrl w)) - 1 - latestNum w g) * 11 + length (lagging g (fullOf w g)))%nat.

Definition members (w : World) : list Z := elements (dom (sizes w)).

Definition total (w : World) : nat := sum_list (weight w <$> members w).

Lemma weight_zero w g : full_ok w g → weight w g = 0%nat → caught_up w g.
Proof.
  intros F Hw. destruct (full_latest w g F) as [Hn Hl]. unfold weight in Hw. split.
  - rewrite last_lookup, <- Hl. f_equal. lia.
  - apply nil_length_inv. lia.
Qed.

Lemma sum_list_lt {A} (f f' : A → nat) l x :
  (∀ y, y ∈ l → (f' y ≤ f y)%nat) → x ∈ l → (f' x < f x)%nat → (sum_list (f' <$> l) < sum_list (f <$> l))%nat.
Proof.
  intros Hle Hx Hlt. induction l as [|y l IH]; [by apply elem_of_nil in Hx|]. cbn.
  assert (sum_list (f' <$> l) ≤ sum_list (f <$> l))%nat as Hl.
  { assert (∀ y, y ∈ l → (f' y ≤ f y)%nat) as Hle' by (intros; apply Hle; by right). clear -Hle'.
    induction l as [|z l IH]; [done|]. cbn.
    pose proof (Hle' z (list_elem_of_here _ _)). assert (sum_list (f' <$> l) ≤ sum_list (f <$> l))%nat; [|lia].
    apply IH. intros. apply Hle'. by right. }
  pose proof (Hle y (list_elem_of_here _ _)). apply elem_of_cons in Hx as [<-|Hx]; [lia|].
  assert (sum_list (f' <$> l) < sum_list (f <$> l))%nat; [|lia].
  apply IH; [intros; apply Hle; by right|done].
Qed.

Lemma list_minimum {A} (f : A → Z) (l : list A) :
  l ≠ [] → ∃ x, x ∈ l ∧ ∀ y, y ∈ l → f x ≤ f y.
Proof.
  induction l as [|x l IH]; [done|]. intros _. destruct (decide (l = [])) as [->|Hne].
  - exists x. split; [left|]. by intros y ->%list_elem_of_singleton.
  - destruct (IH Hne) as (z & Hz & Hmin). destruct (decide (f x ≤ f z)).
    + exists x. split; [left|]. intros y [->|Hy]%elem_of_cons; [done|]. specialize (Hmin y Hy). lia.
    + exists z. split; [by right|]. intros y [->|Hy]%elem_of_cons; [lia|auto].
Qed.

(** One operation more in the log of one group. *)
Lemma logged_full w w' g op st' msg :
  logs w' = alter (λ l, l ++ [op]) g (logs w) → full_ok w g → is_Some (logs w !! g) →
  applyOp g op (fullOf w g) = Ok (st', msg) →
  fullOf w' g = st' ∧ ∀ g', g' ≠ g → fullOf w' g' = fullOf w g'.
Proof.
  intros HL F [log Hlog] Heq. split.
  - unfold fullOf at 1. rewrite HL, lookup_alter_eq, Hlog. cbn. rewrite group_applyOps_app.
    pose proof (fo_state w g F) as Hf. rewrite Hlog in Hf. cbn in Hf. rewrite Hf. cbn. by rewrite Heq.
  - intros g' Hne. unfold fullOf. by rewrite HL, lookup_alter_ne.
Qed.

Lemma logged_total w w' g :
  cont w w' → g ∈ members w → (∀ g', g' ≠ g → fullOf w' g' = fullOf w g') →
  (weight w' g < weight w g)%nat → (total w' < total w)%nat.
Proof.
  intros [_ HC HS] Hg Hother Hlt. unfold total, members. rewrite HS.
  apply (sum_list_lt _ _ _ g); [|done|done]. intros g' _. destruct (decide (g' = g)) as [->|Hne]; [lia|].
  unfold weight, latestNum. by rewrite HC, Hother.
Qed.

Lemma members_size w g : g ∈ members w ↔ is_Some (sizes w !! g).
Proof. unfold members. by rewrite elem_of_elements, elem_of_dom. Qed.

Lemma sizes_logs w g : is_Some (sizes w !! g) → is_Some (logs w !! g).
Proof. intros [k (G & HG & _)%sizes_group]. unfold logs. rewrite lookup_fmap, HG. by eexists. Qed.

Lemma same_logs_full w w' : logs w' = logs w → ∀ g, fullOf w' g = fullOf w g.
Proof. intros HL g. unfold fullOf. by rewrite HL. Qed.

Lemma current_full w g i st : current w g i st → st = fullOf w g.
Proof. intros (rep & _ & _ & _ & Ha). unfold fullOf. by rewrite Ha. Qed.

(** Some group that is behind gets less behind. *)
Lemma one_closer w :
  sys_inv w → [zeroConfig] `prefix_of` Configs (ctrl w) → owners_reachable w → populated w →
  total w ≠ 0%nat → ∃ w', cont w w' ∧ (total w' < total w)%nat.
Proof.
  intros I Hz Hown Hpop Ht.
  destruct (list_minimum (latestNum w) (filter (λ g, weight w g ≠ 0%nat) (members w))) as (g & Hg & Hmin).
  { intros Hnil. apply Ht. unfold total. clear -Hnil. induction (members w) as [|x l IH]; [done|].
    rewrite filter_cons in Hnil. case_decide as Hx; [done|]. cbn. rewrite IH by done. lia. }
  apply list_elem_of_filter in Hg as [Hw Hg]. pose proof Hg as Hsz. apply members_size in Hsz.
  pose proof (full_facts w g I Hz Hsz) as F. destruct (full_latest w g F) as [Hn Hl].
  destruct Hsz as [k Hk].
  destruct (replay_current w g 0 k I Hk (Hpop _ _ Hk)) as (w1 & st & C1 & L1 & Hcur & _).
  pose proof (current_full _ _ _ _ Hcur) as ->. rewrite (same_logs_full _ _ L1) in Hcur.
  pose proof (cont_inv _ _ I C1) as I1.
  destruct (lagging g (fullOf w g)) as [|sid ls] eqn:Hlag.
  - assert (latestNum w g < zlen (Configs (ctrl w)) - 1) as Hlt.
    { unfold weight in Hw. rewrite Hlag in Hw. cbn in Hw. lia. }
    destruct (lookup_lt_is_Some_2 (Configs (ctrl w)) (Z.to_nat (latestNum w g + 1))) as [c Hc]; [lia|].
    destruct (install_next w1 g (fullOf w g) c I1 Hcur Hlag) as (w2 & op & C2 & L2 & Hk1 & Hk2 & Hk3);
      [unfold latestNum in Hn; lia|by rewrite (co_configs _ _ C1)|].
    rewrite L1 in L2.
    assert (Num c = latestNum w g + 1) as Hcn by (rewrite (co_num _ (si_ctrl w I) _ _ Hc); lia).
    assert (∃ st' msg, applyOp g op (fullOf w g) = Ok (st', msg) ∧ LatestConfig st' = c) as (st' & msg & Hop & Hlat).
    { unfold applyOp. rewrite Hk2. cbn [negb]. rewrite decide_True by done. eexists _, _. split; [done|].
      pose proof (handleInstallShardConfig_steady g op (fullOf w g) (fo_ok w g F)) as Hst.
      rewrite Hk3 in Hst. destruct (Hst Hcn) as [[_ HL] _]. rewrite HL. done. }
    destruct (logged_full w w2 g op st' msg L2 F (sizes_logs w g (ex_intro _ _ Hk)) Hop) as [Hg2 Hother].
    assert (cont w w2) as C by by etrans. exists w2. split; [done|].
    apply (logged_total w w2 g C Hg Hother). unfold weight, latestNum. rewrite (co_configs _ _ C), Hg2, Hlat, Hcn.
    rewrite Hlag. pose proof (lagging_length g st'). fold (latestNum w g). cbn [length]. lia.
  - assert (sid ∈ lagging g (fullOf w g)) as Hsid by (rewrite Hlag; left).
    pose proof (lagging_num g _ sid (fo_ok w g F) (fo_stamped w g F) Hsid) as H2.
    pose proof (skv_num _ (fo_ok w g F)) as Hlen.
    destruct (lookup_lt_is_Some_2 (AllConfigs (fullOf w g)) (Z.to_nat (Num (LatestConfig (fullOf w g)) - 1))) as [c Hc]; [lia|].
    assert (Configs (ctrl w) !! Z.to_nat (Num (LatestConfig (fullOf w g)) - 1) = Some c) as Hcc.
    { destruct (fo_prefix w g F) as [tl ->]. by apply lookup_app_l_Some. }
    assert (sid ∈ shardIds) as Hsh by by apply list_elem_of_filter in Hsid as [_ ?].
    destruct (Hown (Z.to_nat (Num (LatestConfig (fullOf w g)) - 1)) c sid)
      as (l & srv & j & kd & Hgr & Hsrv & Hhost & Hkd & Hj); [lia|done|done|].
    set (d := owner c sid) in *.
    destruct (replay_current w1 d j kd I1) as (w2 & dst & C2 & L2 & Hdcur & Hkeep); [by rewrite (co_sizes _ _ C1)|done|].
    pose proof (current_full _ _ _ _ Hdcur) as ->. rewrite (same_logs_full _ _ L2), (same_logs_full _ _ L1) in Hdcur.
    pose proof (cont_inv _ _ I1 C2) as I2. apply Hkeep in Hcur.
    assert (Num (LatestConfig (fullOf w g)) ≤ Num (LatestConfig (fullOf w d))) as Hdn.
    { assert (d ∈ members w) as Hd by (apply members_size; by eexists).
      destruct (decide (weight w d = 0%nat)) as [Hz0|Hnz].
      - assert (full_ok w d) as Fd by (apply full_facts; [done..|by eexists]).
        destruct (full_latest w d Fd) as [Hnd _]. unfold weight, latestNum in *. lia.
      - apply Hmin, list_elem_of_filter. by split. }
    destruct (acquire_next w2 g (fullOf w g) (fullOf w d) sid c srv l d j I2 Hcur Hsid (fo_ok w g F) Hc eq_refl Hgr Hsrv
      Hhost Hdcur) as (w3 & op & rep & drep & C3 & L3 & Hdrep & HOK & Hop); [lia|].
    rewrite L2, L1 in L3.
    destruct (AcquireShards_applied _ _ (serverOf true g 0 rep) g (fullOf w g) HOK) as (st' & msg & Happ & _ & _ & Hsame & _ & Hts & _).
    cbn [ShardIndex] in Happ, Hts. rewrite <- Hop in Happ.
    destruct (logged_full w w3 g op st' msg L3 F (sizes_logs w g (ex_intro _ _ Hk)) Happ) as [Hg3 Hother].
    assert (cont w w3) as C by (etrans; [exact C1|]; by etrans). exists w3. split; [done|].
    apply (logged_total w w3 g C Hg Hother). unfold weight, latestNum. rewrite (co_configs _ _ C), Hg3.
    cbn [serverOf state] in Hts. rewrite Hdrep in Hts.
    pose proof (lagging_acquired g (fullOf w g) st' sid _ Hsame Hsid Hdn Hts) as Hless.
    destruct Hsame as [_ ->]. lia.
Qed.

Lemma all_caught_up w :
  sys_inv w → [zeroConfig] `prefix_of` Configs (ctrl w) → owners_reachable w → populated w →
  ∃ w', cont w w' ∧ ∀ g, g ∈ members w' → full_ok w' g ∧ caught_up w' g.
Proof.
  remember (total w) as m eqn:Hm. revert w Hm. induction (lt_wf m) as [m _ IH].
  intros w -> I Hz Hown Hpop. destruct (decide (total w = 0%nat)) as [H0|Hne].
  - exists w. split; [done|]. intros g Hg. pose proof Hg as Hsz. apply members_size in Hsz.
    pose proof (full_facts w g I Hz Hsz) as F. split; [done|]. apply weight_zero; [done|].
    unfold total in H0. clear -H0 Hg. induction (members w) as [|x l IH]; [by apply elem_of_nil in Hg|].
    cbn in H0. apply elem_of_cons in Hg as [->|Hg]; [lia|]. apply IH; [lia|done].
  - destruct (one_closer w I Hz Hown Hpop Hne) as (w1 & C1 & Hlt).
    destruct (IH _ Hlt w1 eq_refl (cont_inv _ _ I C1)) as (w' & C & Hall).
    + by rewrite (co_configs _ _ C1).
    + intros i c sid Hi Hc Hs. rewrite (co_configs _ _ C1) in Hc. rewrite (co_sizes _ _ C1). by eapply Hown.
    + intros g k Hk. rewrite (co_sizes _ _ C1) in Hk. by eapply Hpop.
    + exists w'. split; [by etrans|done].
Qed.
End progress.

(** The groups can always serve again.  Whatever happened before --
    messages lost and repeated, leaders deposed, replicas restarted -- as long
    as every group has a replica, and every shard of every configuration is with
    a group that has a server that can be reached, the run can go on, with neither new configurations nor restarts,
    to a state in which every group, at the end of its log, is at the
    controller's latest configuration and lacks no shard by its time stamps, so
    that it executes or answers every Get, Put and Append on a key of its
    shards.  (What the shards then hold depends on the schedule: contents can be
    lost, [acknowledged_put_lost]; [sharded_service_catches_up] is about the
    contents.) *)
Theorem groups_can_catch_up host sz tr w :
  runs host (initial sz) tr = Ok w →
  owners_reachable host w → populated w →
  ∃ tr' w', Forall quiet tr' ∧ runs host w tr' = Ok w' ∧ Configs (ctrl w') = Configs (ctrl w) ∧
    ∀ g G, groups w' !! g = Some G →
      ∃ st, applyOps g (glog G) makeState = Ok st ∧
        last (Configs (ctrl w')) = Some (LatestConfig st) ∧ lagging g st = [] ∧
        ∀ op, NeedSendBackCh op = true → client_kind op → owner (LatestConfig st) (key2shard (Key op)) = g →
          ∃ st', applyOp g op st = Ok (st', reply_of op (getValueWithKey (Key op) st)).
Proof.
  intros Hw Hown Hpop. destruct (runs_hold host _ tr w (initial_inv sz) Hw) as [I Hz].
  destruct (all_caught_up host w I Hz Hown Hpop) as (w' & [(tr' & Hl & Hr) HC _] & Hall).
  exists tr', w'. split_and!; [done..|]. intros g G HG.
  destruct (Hall g) as [F [H1 H2]].
  { apply members_size. unfold sizes. rewrite lookup_fmap, HG. by eexists. }
  exists (fullOf w' g). pose proof (fo_state w' g F) as Hs. unfold logs in Hs. rewrite lookup_fmap, HG in Hs.
  split_and!; [done..|]. intros op Hn Hk Ho. by apply serves_reply.
Qed.

(** Group 1 joins, group 2 joins; no group has looked at the controller. *)
Definition twoJoins : list Label :=
  [Control (ShardCtrler.mkOp 0 0 JOIN {[ 1 := ["a"] ]} [] 0 0 0 7 0);
   Control (ShardCtrler.mkOp 0 0 JOIN {[ 2 := ["b"] ]} [] 0 0 0 7 1)].

Definition oneServerEach (srv : string) : option (Z * nat) :=
  if decide (srv = "a") then Some (1, 0%nat) else if decide (srv = "b") then Some (2, 0%nat) else None.

Definition joinedWorld : World :=
  match runs oneServerEach (initial twoGroups) twoJoins with Ok w => w | _ => initial ∅ end.

Lemma twoJoins_ok : Forall label_ok twoJoins.
Proof. repeat (apply Forall_cons; split); [right; by left..|constructor]. Qed.

Lemma joined_runs : runs oneServerEach (initial twoGroups) twoJoins = Ok joinedWorld.
Proof.
  unfold joinedWorld. destruct (runs _ _ _) eqn:E; [done| |];
    apply (f_equal is_ok) in E; vm_compute in E; discriminate.
Qed.

Lemma joined_populated : populated joinedWorld.
Proof.
  intros g k Hk. assert (sizes joinedWorld = twoGroups) as HS by (vm_compute; reflexivity).
  rewrite HS in Hk. unfold twoGroups in Hk.
  apply lookup_insert_Some in Hk as [[_ <-]|[_ Hk]]; [lia|].
  apply lookup_singleton_Some in Hk as [_ <-]. lia.
Qed.

(** Each shard's owner has its one server listening. *)
Definition reachable_bool (w : World) (c : Config) (sid : Z) : bool :=
  match Groups c !! owner c sid, sizes w !! owner c sid with
  | Some (srv :: _), Some (S _) => bool_decide (oneServerEach srv = Some (owner c sid, 0%nat))
  | _, _ => false
  end.

Lemma reachable_bool_ok w c sid : reachable_bool w c sid = true →
  ∃ l srv j k, Groups c !! owner c sid = Some l ∧ srv ∈ l ∧ oneServerEach srv = Some (owner c sid, j) ∧
    sizes w !! owner c sid = Some k ∧ (j < k)%nat.
Proof.
  unfold reachable_bool. destruct (Groups c !! owner c sid) as [[|srv l]|]; [done| |done].
  destruct (sizes w !! owner c sid) as [[|k]|]; [done| |done]. intros Hb%bool_decide_eq_true.
  exists (srv :: l), srv, 0%nat, (S k). split_and!; [done|left|done|done|lia].
Qed.

Lemma joined_reachable : owners_reachable oneServerEach joinedWorld.
Proof.
  assert (forallb (λ c, forallb (reachable_bool joinedWorld c) shardIds)
            (drop 1 (Configs (ctrl joinedWorld))) = true) as Hall by (vm_compute; reflexivity).
  intros [|i] c sid Hi Hc Hs; [lia|].
  rewrite forallb_forall in Hall. specialize (Hall c). rewrite <- (lookup_drop _ 1 i) in Hc.
  apply list_elem_of_lookup_2, list_elem_of_In in Hc. specialize (Hall Hc).
  rewrite forallb_forall in Hall. specialize (Hall sid). apply list_elem_of_In in Hs. specialize (Hall Hs).
  by apply reachable_bool_ok.
Qed.

Lemma groups_can_catch_up_witness :
  ∃ tr' w', Forall quiet tr' ∧ runs oneServerEach joinedWorld tr' = Ok w' ∧
    Configs (ctrl w') = Configs (ctrl joinedWorld) ∧
    ∀ g G, groups w' !! g = Some G →
      ∃ st, applyOps g (glog G) makeState = Ok st ∧
        last (Configs (ctrl w')) = Some (LatestConfig st) ∧ lagging g st = [] ∧
        ∀ op, NeedSendBackCh op = true → client_kind op → owner (LatestConfig st) (key2shard (Key op)) = g →
          ∃ st', applyOp g op st = Ok (st', reply_of op (getValueWithKey (Key op) st)).
Proof.
  exact (groups_can_catch_up oneServerEach twoGroups twoJoins joinedWorld
    joined_runs joined_reachable joined_populated).
Defined.
