(* ===== verification/ShardCatchUp.v ===== *)
(** * The shards catch up, with their contents

    [ShardProgress] shows that all groups can reach the latest configuration
    with current time stamps; under any schedule, in which contents can be
    lost.  This file shows the same under the schedule of [ShardContents], for
    the contents: from every reachable state of the sharded service, the
    tickers alone lead to a state in which every group is at the latest
    configuration and every key of its shards has the value that one map has
    after the operations executed. *)

From S2P Require Import Prelude.
From S2P Require Import RaftState.
From S2P Require Import RaftService.
From S2P Require Import ShardConfig.
From S2P Require Import ShardKv.
From S2P Require Import ShardKvSpec.
From S2P Require Import ShardSystem.
From S2P Require Import ShardProgress.
From S2P Require Import ShardContents.
Open Scope Z_scope.

(** Every shard of every configuration after the first is with one of the
    groups, which has a server. *)
Definition served (h : list Config) (gs : gset Z) : Prop :=
  ∀ i c sid, h !! S i = Some c → sid ∈ shardIds →
    owner c sid ∈ gs ∧ default [] (Groups c !! owner c sid) ≠ [].

(** Steps of the tickers, and of the replies. *)
Definition no_client (l : Step) : Prop := match l with Client _ _ _ _ _ _ => False | _ => True end.

Section catch_up.
Context (h : list Config) (gs : gset Z) (H : history_ok h gs).
Implicit Types (C : Cluster) (st : State) (sid : Z).
Local Abbreviation num st := (Num (LatestConfig st)).
Local Abbreviation own := (ownerAt h).
Local Abbreviation inv := (cluster_inv h gs).

(** ** Continuations without clients *)

Definition goes C C' : Prop :=
  ∃ ls, Forall no_client ls ∧ go_for (settledStep h) C ls = Ok C'.

Lemma steps_app C C1 ls ls' :
  go_for (settledStep h) C ls = Ok C1 → go_for (settledStep h) C (ls ++ ls') = go_for (settledStep h) C1 ls'.
Proof.
  revert C. induction ls as [|l ls IH]; intros C; cbn; [by intros [= ->]|].
  intros (C2 & -> & Hr)%bind_Ok. cbn. by apply IH.
Qed.

#[local] Instance goes_preorder : PreOrder goes.
Proof.
  split; [by exists []|]. intros a b c (l1 & N1 & R1) (l2 & N2 & R2).
  exists (l1 ++ l2). split; [by apply Forall_app|]. by rewrite (steps_app _ _ _ _ R1).
Qed.

Lemma goes_step C l C' : settled C l → no_client l → cluster_step h C l = Ok C' → goes C C'.
Proof.
  intros Hs Hn E. exists [l]. split; [by constructor|]. cbn. unfold settledStep. rewrite decide_True by done. by rewrite E.
Qed.

Lemma goes_inv C C' : inv C → goes C C' → inv C'.
Proof using H.
  intros I (ls & _ & Hr). revert C I Hr. induction ls as [|l ls IH]; intros C I Hr; cbn in Hr; [by injection Hr as <-|].
  apply bind_Ok in Hr as (C1 & H1 & Hr). apply (IH C1); [|done]. unfold settledStep in H1. case_decide as Hs; [|done].
  destruct (cluster_step_inv h gs H C l I Hs) as (C2 & E & I2). rewrite H1 in E. by injection E as ->.
Qed.

Lemma step_executed C l C' : no_client l → cluster_step h C l = Ok C' → executed C' = executed C.
Proof.
  intros Hn E. destruct l as [g|g j srv|k|]; [..|done]; cbn [cluster_step] in E.
  - destruct (states C !! g); [|by injection E as <-]. apply bind_Ok in E as (kv & _ & E).
    by apply bind_Ok in E as (st & _ & [= <-]).
  - destruct (states C !! g); [|by injection E as <-]. apply bind_Ok in E as (calls & _ & E).
    destruct (calls !! j) as [[sid tgt]|]; [|by injection E as <-].
    destruct (states C !! owner tgt sid); by injection E as <-.
  - destruct (flying C !! k) as [f|]; [|by injection E as <-].
    destruct (states C !! asker f); [|by injection E as <-]. apply bind_Ok in E as (kv & _ & E).
    by apply bind_Ok in E as (st & _ & [= <-]).
Qed.

Lemma goes_executed C C' : goes C C' → executed C' = executed C.
Proof.
  intros (ls & Hn & Hr). revert C Hr. induction Hn as [|l ls Hl _ IH]; intros C Hr; cbn in Hr; [by injection Hr as <-|].
  apply bind_Ok in Hr as (C1 & H1 & Hr). unfold settledStep in H1. case_decide; [|done].
  rewrite (IH C1 Hr). by apply (step_executed C l).
Qed.

(** ** One step closer *)

Lemma num_bound g st : group_ok h g st → 0 ≤ num st ≤ zlen h - 1.
Proof.
  intros G. pose proof (num_nonneg h g st G). pose proof (lookup_lt_Some _ _ _ (go_latest h g st G)). lia.
Qed.

Lemma query_next n : 0 ≤ n < zlen h → h !! Z.to_nat n = Some (query h n) ∧ Num (query h n) = n.
Proof using H.
  intros Hn. unfold query. rewrite decide_True by lia.
  destruct (lookup_lt_is_Some_2 h (Z.to_nat n)) as [c Hc]; [lia|]. rewrite Hc. cbn.
  split; [done|]. rewrite (ho_num _ _ H _ _ Hc). lia.
Qed.

(** The next configuration is installed. *)
Lemma reconfigure_next C g st :
  inv C → states C !! g = Some st → settled C (Reconfigure g) → num st < zlen h - 1 →
  ∃ st', goes C (mkCluster (<[g := st']> (states C)) (flying C) (executed C)) ∧ num st' = num st + 1.
Proof using H.
  intros I Hg Hs Hn. pose proof (num_bound g st (ci_group _ _ _ I g st Hg)).
  assert (lagging g st = []) as Hlag by (by eapply (Hs st g st)).
  destruct (query_next (num st + 1)) as [_ Hq]; [lia|].
  set (op := createInstallShardConfigOp (query h (num st + 1)) (leaderOf g st)).
  destruct (install_effect g op st 0) as (EL & _); [exact Hq|by apply elem_of_seqZ|].
  exists (handleInstallShardConfig g op st). split; [|by rewrite EL].
  apply (goes_step _ (Reconfigure g)); [done..|]. cbn [cluster_step]. rewrite Hg.
  unfold shardConfigTicker. cbn [leaderOf serverOf rf state gid rs_GetState View_service snd fst negb rstate].
  rewrite allShardsUpToDate_eq. cbn [mbind Res_bind]. rewrite bool_decide_true by done. cbn [negb].
  rewrite decide_False by (intros Hx; by apply Hx). reflexivity.
Qed.

(** A shard that is behind is fetched from a group that is not. *)
Lemma fetch_next C g st dst sid :
  inv C → served h gs → states C !! g = Some st → sid ∈ lagging g st →
  states C !! own (num st - 1) sid = Some dst → num dst = num st →
  ∃ st' fl, goes C (mkCluster (<[g := st']> (states C)) fl (executed C)) ∧ num st' = num st ∧
    (length (lagging g st') < length (lagging g st))%nat.
Proof using H.
  intros I Hserved Hg Hlag Hd Hnd. pose proof (ci_group _ _ _ I g st Hg) as G.
  pose proof Hlag as [[Ho Hlt] Hs]%list_elem_of_filter. pose proof (so_stamps _ (go_ok _ _ _ G) sid).
  assert (1 < num st) as Hn1.
  { rewrite (owner_latest h g) in Ho by done. pose proof (go_kept _ _ _ G sid Hs). pose proof (num_nonneg h g st G). lia. }
  destruct (acquireShardTicker_ok (leaderOf g st) (go_ok _ _ _ G)) as (calls & Hcalls & Hfst & Hall); [done|].
  change (gid (leaderOf g st)) with g in *. change (state (leaderOf g st)) with st in *.
  assert (sid ∈ map fst calls) as ([s tgt] & Hs1 & Hin)%list_elem_of_fmap by by rewrite Hfst. cbn in Hs1. subst s.
  destruct (Hall sid tgt Hin) as (Htgt & Hnt & _). apply list_elem_of_lookup in Hin as [j Hj].
  assert (h !! Z.to_nat (num st - 1) = Some tgt) as Hh.
  { destruct (go_prefix _ _ _ G) as [k ->]. by apply lookup_app_l_Some. }
  assert (own (num st - 1) sid = owner tgt sid) as Eo by (unfold ownerAt; by rewrite Hh). rewrite Eo in Hd.
  replace (Z.to_nat (num st - 1)) with (S (Z.to_nat (num st - 2))) in Hh by lia.
  destruct (Hserved _ _ sid Hh Hs) as [_ Hsrv].
  destruct (default [] (Groups tgt !! owner tgt sid)) as [|srv servers] eqn:Esrv; [done|].
  set (args := createAcquireShards sid tgt (leaderOf g st)).
  set (reply := AcquireShards args (leaderOf (owner tgt sid) dst)).
  assert (ASR_Error reply = ASOK ∧ ASR_ConfigNum reply = num st) as [Hok Hnum].
  { unfold reply, AcquireShards. cbn [leaderOf serverOf rf state rs_GetState View_service snd fst negb rstate args
      createAcquireShards ConfigNum].
    rewrite decide_False by lia. done. }
  set (f := mkFlight g sid tgt srv reply).
  set (op := createAcquireShardOp sid reply (leaderOf g st)). set (st' := handleAcquireShard op st).
  assert (LatestConfig st' = LatestConfig st) as EL by apply (acquire_effect op st 0).
  exists st', (flying C ++ [f]). split; [|split; [by rewrite EL|]].
  - transitivity (mkCluster (states C) (flying C ++ [f]) (executed C)).
    + apply (goes_step _ (Fetch g j srv)); [done..|]. cbn [cluster_step]. rewrite Hg, Hcalls. cbn [mbind Res_bind].
      by rewrite Hj, Hd.
    + apply (goes_step _ (Deliver (length (flying C)))); [done..|]. cbn [cluster_step states flying executed].
      rewrite list_lookup_middle by done. change (asker f) with g. rewrite Hg.
      unfold acquireShards. cbv zeta. change (shard f) with sid. change (target f) with tgt.
      change (ShardContents.server f) with srv. change (ShardContents.reply f) with reply. rewrite Esrv.
      rewrite acquireLoop_one by by rewrite Hok. rewrite decide_True by (split; [left|done]). reflexivity.
  - apply (lagging_acquired g st st' sid (num st)); [|done|lia|].
    + apply (handleAcquireShard_steady op st (go_ok _ _ _ G)).
    + intros s. destruct (acquire_effect op st s) as (_ & _ & E). cbn [op createAcquireShardOp ShardId ShardConfigNum] in E.
      rewrite Hnum in E. apply (f_equal fst) in E. cbn [fst] in E. change (handleAcquireShard _ st) with st' in E.
      destruct (decide (s = sid)) as [->|Hne].
      * rewrite E. by repeat case_decide; naive_solver.
      * rewrite E, !decide_False by naive_solver. done.
Qed.

(** ** How far behind the groups are *)

Definition distance C (g : Z) : nat :=
  match states C !! g with
  | Some st => Z.to_nat (zlen h - 1 - num st) * 11 + length (lagging g st)
  | None => 0
  end.

Definition behindBy C : nat := sum_list_with (distance C) (elements gs).

Lemma sum_lt {A} (f f' : A → nat) (l : list A) x :
  x ∈ l → (∀ y, y ∈ l → f' y ≤ f y)%nat → (f' x < f x)%nat → (sum_list_with f' l < sum_list_with f l)%nat.
Proof.
  intros Hx Hle Hlt. induction l as [|y l IH]; [by apply elem_of_nil in Hx|]. cbn.
  assert (f' y ≤ f y)%nat as Hy by (apply Hle; left).
  assert (sum_list_with f' l ≤ sum_list_with f l)%nat as Hl.
  { clear -Hle. induction l as [|z l IH]; cbn; [done|]. 
    assert (f' z ≤ f z)%nat by (apply Hle; right; left). specialize (IH ltac:(intros w Hw; apply Hle; set_solver)). lia. }
  apply elem_of_cons in Hx as [->|Hx]; [lia|]. specialize (IH Hx ltac:(intros z Hz; apply Hle; by right)). lia.
Qed.

Lemma closer C g st' fl :
  g ∈ gs → (distance (mkCluster (<[g := st']> (states C)) fl (executed C)) g < distance C g)%nat →
  (behindBy (mkCluster (<[g := st']> (states C)) fl (executed C)) < behindBy C)%nat.
Proof.
  intros Hg Hlt. apply (sum_lt _ _ _ g); [by apply elem_of_elements| |done].
  intros x _. destruct (decide (x = g)) as [->|Hx]; [lia|]. unfold distance. cbn. by rewrite lookup_insert_ne.
Qed.

(** A group that no other is behind of. *)
Lemma last_group C g0 st0 :
  inv C → states C !! g0 = Some st0 →
  ∃ g st, states C !! g = Some st ∧ ∀ g' st', states C !! g' = Some st' → num st ≤ num st'.
Proof.
  intros I Hg0. destruct (decide (map_Forall (λ _ st, num st ≠ num st0 - 1) (states C))) as [Hf|Hf].
  - exists g0, st0. split; [done|]. intros g' st' Hg'. specialize (Hf g' st' Hg').
    destruct (ci_near _ _ _ I g' g0 st' st0 Hg' Hg0). cbn in Hf. lia.
  - apply map_not_Forall in Hf as (g & st & Hg & Hn); [|intros; apply _]. exists g, st. split; [done|].
    intros g' st' Hg'. destruct (ci_near _ _ _ I g' g0 st' st0 Hg' Hg0). cbn in Hn. lia.
Qed.

Definition doneAt g st : Prop := num st = zlen h - 1 ∧ lagging g st = [].
#[local] Instance doneAt_dec g st : Decision (doneAt g st).
Proof. unfold doneAt. apply _. Defined.

Lemma one_group_closer C g0 st0 :
  inv C → served h gs → states C !! g0 = Some st0 → ¬ doneAt g0 st0 →
  ∃ C', goes C C' ∧ (behindBy C' < behindBy C)%nat.
Proof using H.
  intros I Hserved Hg0 Hnd. destruct (last_group C g0 st0 I Hg0) as (g & st & Hg & Hmin).
  pose proof (num_bound g st (ci_group _ _ _ I g st Hg)) as Hb.
  destruct (decide (settled C (Reconfigure g))) as [Hs|Hs].
  - assert (num st < zlen h - 1) as Hn.
    { destruct (decide (num st = zlen h - 1)) as [E|]; [|lia]. exfalso. apply Hnd.
      pose proof (num_bound g0 st0 (ci_group _ _ _ I g0 st0 Hg0)). pose proof (Hmin g0 st0 Hg0).
      split; [lia|]. eapply (Hs st g0 st0); [done..|lia]. }
    destruct (reconfigure_next C g st I Hg Hs Hn) as (st' & Hgo & En). eexists. split; [exact Hgo|].
    apply closer; [by eapply group_in|]. unfold distance. cbn [states]. rewrite lookup_insert_eq, Hg, En.
    pose proof (lagging_length g st'). lia.
  - assert (∃ g' st', states C !! g' = Some st' ∧ num st' = num st ∧ lagging g' st' ≠ []) as (g' & st' & Hg' & En & Hl).
    { destruct (decide (map_Forall (λ g' st', num st' = num st → lagging g' st' = []) (states C))) as [Hf|Hf].
      - exfalso. apply Hs. intros s g' st' Hs' Hg'. rewrite Hg in Hs'. injection Hs' as <-. split; [by eapply Hmin|by apply Hf].
      - apply map_not_Forall in Hf as (g' & st' & Hg' & Hn); [|intros; apply _]. exists g', st'. split; [done|].
        destruct (decide (num st' = num st)); [|naive_solver]. split; [done|]. naive_solver. }
    assert (∀ x s, states C !! x = Some s → num s = num st) as Hall.
    { intros x s Hx. pose proof (Hmin x s Hx). destruct (ci_near _ _ _ I g' x st' s Hg' Hx) as [N1 N2].
      destruct (decide (num s = num st' + 1)) as [E|]; [by rewrite N2 in Hl|lia]. }
    destruct (lagging g' st') as [|sid l] eqn:El; [done|].
    assert (sid ∈ lagging g' st') as Hsid by (rewrite El; left).
    pose proof (ci_group _ _ _ I g' st' Hg') as G. pose proof Hsid as [[Ho Hlt] Hsh]%list_elem_of_filter.
    assert (own (num st' - 1) sid ∈ gs) as Hd.
    { assert (1 < num st') as Hn1.
      { rewrite (owner_latest h g') in Ho by done. pose proof (go_kept _ _ _ G sid Hsh).
        pose proof (num_nonneg h g' st' G). pose proof (so_stamps _ (go_ok _ _ _ G) sid). lia. }
      pose proof (num_bound g' st' G). unfold ownerAt.
      destruct (lookup_lt_is_Some_2 h (Z.to_nat (num st' - 1))) as [c Hc]; [lia|]. rewrite Hc. cbn.
      replace (Z.to_nat (num st' - 1)) with (S (Z.to_nat (num st' - 2))) in Hc by lia. by apply (Hserved _ _ sid Hc). }
    rewrite <- (ci_dom _ _ _ I) in Hd. apply elem_of_dom in Hd as [dst Hd].
    destruct (fetch_next C g' st' dst sid I Hserved Hg' Hsid Hd) as (st1 & fl & Hgo & En1 & Hlen).
    { by rewrite (Hall _ _ Hd), En. }
    eexists. split; [exact Hgo|]. apply closer; [by eapply group_in|].
    unfold distance. cbn [states]. rewrite lookup_insert_eq, Hg', En1. lia.
Qed.

Lemma all_groups_caught_up C :
  inv C → served h gs → ∃ C', goes C C' ∧ inv C' ∧ ∀ g st, states C' !! g = Some st → doneAt g st.
Proof using H.
  intros I Hserved. remember (behindBy C) as n eqn:E. revert C I E.
  induction (lt_wf n) as [n _ IH]. intros C I ->.
  destruct (decide (map_Forall doneAt (states C))) as [Hf|Hf].
  - exists C. by split_and!.
  - apply map_not_Forall in Hf as (g & st & Hg & Hn); [|intros; apply _].
    destruct (one_group_closer C g st I Hserved Hg Hn) as (C1 & Hgo & Hlt).
    destruct (IH _ Hlt C1 (goes_inv C C1 I Hgo) eq_refl) as (C' & Hgo' & I' & Hall).
    exists C'. split; [by etrans|by split].
Qed.
End catch_up.

(** ** The theorem *)

(** C30: the sharded service can always catch up.  Let every shard of every
    configuration after the first be with one of the groups, which has a server
    in that configuration.  Then from every state that the sharded service
    reaches under its schedule, with clients at work and replies delayed,
    repeated and lost, the tickers alone can lead, under the schedule, to a
    state in which every group is at the last configuration and lacks no shard,
    and every key of its shards has the value that one map has after all the
    operations executed. *)
Theorem sharded_service_catches_up h gs C :
  history_ok h gs → served h gs → cluster_reachable h gs C →
  ∃ ls C', Forall no_client ls ∧ go_for (settledStep h) C ls = Ok C' ∧
    executed C' = executed C ∧ dom (states C') = gs ∧
    ∀ g st, states C' !! g = Some st →
      last h = Some (LatestConfig st) ∧ lagging g st = [] ∧
      ∀ k, owner (LatestConfig st) (key2shard k) = g → getValueWithKey k st = valueOf k (executed C).
Proof.
  intros H Hserved Hr. pose proof (cluster_reachable_inv h gs H C Hr) as I.
  destruct (all_groups_caught_up h gs H C I Hserved) as (C' & Hgo & I' & Hall).
  pose proof (goes_executed h C C' Hgo) as E. destruct Hgo as (ls & Hn & Hls). exists ls, C'.
  split_and!; [done..|apply I'|]. intros g st Hg. destruct (Hall g st Hg) as [En Hl].
  pose proof (ci_group _ _ _ I' g st Hg) as G. split_and!; [|done|].
  - rewrite last_lookup, <- (go_latest h g st G). f_equal. lia.
  - intros k Hk. rewrite <- E. by eapply serving_value.
Qed.

(** ** A run: a Put before the shards are moved *)

Definition putRun : list Step := [Reconfigure 1; Reconfigure 2; Client 1 PUT "k" "v" 7 1; Reconfigure 1].

Definition putCluster : Cluster :=
  match go_for (settledStep movedHistory) (cluster_initial twoGroupIds) putRun with
  | Ok C => C
  | _ => cluster_initial twoGroupIds
  end.

Lemma putCluster_reachable : cluster_reachable movedHistory twoGroupIds putCluster.
Proof.
  assert (go_for (settledStep movedHistory) (cluster_initial twoGroupIds) putRun = Ok putCluster) as E.
  { unfold putCluster. destruct (go_for _ _ _) eqn:E; [done| |];
      apply (f_equal is_ok) in E; vm_compute in E; discriminate. }
  eapply settled_run; [apply cr_initial|exact E].
Qed.

Lemma movedHistory_served : served movedHistory twoGroupIds.
Proof.
  assert (∀ n sid, sid ∈ shardIds → owner (allTo [0; 1; 2] n) sid = default 0 ([0; 1; 2] !! Z.to_nat n)) as Ho.
  { intros n sid Hs%elem_of_seqZ. unfold owner, allTo. cbn [Shards]. rewrite lookup_replicate_2 by lia. done. }
  intros [|[|i]] c sid Hc Hs; cbn in Hc; [injection Hc as <-; rewrite Ho by done..|done];
    (split; [vm_compute; reflexivity|vm_compute; discriminate]).
Qed.

(** The value is at group 2 in the end. *)
Lemma sharded_service_catches_up_witness :
  ∃ ls C', go_for (settledStep movedHistory) putCluster ls = Ok C' ∧
    ∀ st, states C' !! 2 = Some st → owner (LatestConfig st) (key2shard "k") = 2 →
      getValueWithKey "k" st = Some "v".
Proof.
  destruct (sharded_service_catches_up movedHistory twoGroupIds putCluster movedHistory_ok movedHistory_served
    putCluster_reachable) as (ls & C' & _ & Hls & _ & _ & Hall).
  exists ls, C'. split; [exact Hls|]. intros st Hst Ho.
  rewrite (proj2 (proj2 (Hall 2 st Hst)) "k" Ho). vm_compute. reflexivity.
Defined.
