(* ===== verification/RecordedRun.v ===== *)
(** * A recorded run of the Raft peers (code/src/raft/2timesvote.ts)

    The file holds the debugging output, kept in the repository, of a run of
    TestFigure8Unreliable2C that failed.  The peers
    print a line at most steps of an election, of an AppendEntries exchange
    and of a commit ([DPrintf] in requestVotes.go, appendEntities.go,
    commit.go, raftUtils.go, raft.go); [Line] has one constructor per kind of
    line, with the numbers printed, in their order; the time stamps are left
    out.  The run was made with an earlier revision of the package: it has no
    snapshots, and its rules for votes differ in two places from the present
    code's, which is what the comparison shows ([RunCheck]).

    This file defines the events and, from a list of them, the records to
    compare with the model: a vote decided ([votes_of]), a vote counted
    ([counts_of]), a leader's commit ([commits_of]).  [RecordedRun1] to
    [RecordedRun5] hold the lines, all of them; [RunLog] prints them again with
    the formats of the file and proves that its text has no other reading. *)

From S2P Require Import Prelude Gob Persister RaftState RaftLog RaftVote RaftCommit.
Open Scope Z_scope.

Inductive Event :=
  (* raft.go *)
  | Initialized (index : Z)
  | StartElection
  | BecomeCandidate
  (* requestVotes.go, sender *)
  | RequestVoteTo (server : Z)
  | RequestVoteLost (server : Z)
  | VoteReply (from term : Z) (voteGranted : bool)
  | SenderCommit (commitIndex lastApplied : Z)
  | VoteGained (from : Z)
  | HigherTerm (from term : Z)
  (* requestVotes.go, receiver *)
  | ReceiveRequestVote (votedFor candidate term : Z)
  | VoteArgs (argsTerm argsLastLogIndex lastTerm lastIndex len : Z)
  | HandlerCommit (commitIndex lastApplied : Z)
  | SelfTermLower (candidate : Z)
  | CompareLogs (lastTerm argsLastLogTerm lastIndex argsLastLogIndex : Z)
  | SelfTermLarger
  | SelfLogNewer
  | Granted (argsTerm argsLastLogIndex lastTerm lastIndex len : Z)
  | Refused
  (* requestVotes.go and raftUtils.go, the election *)
  | CheckElection (votes npeers : Z)
  | NotCandidate
  | BecomesLeader
  (* appendEntities.go, sender *)
  | StartHeartBeat
  | AppendTo (server : Z)
  | SendAppend (server : Z) (nextIndex : list Z)
  | AppendLost (server : Z)
  | AppendSuccess (server : Z)
  | AppendNotSuccess (server prevLogIndex prevLogTerm nextIndex : Z)
  | AppendTermBigger (server term : Z)
  | AppendNotLeader (server : Z)
  (* appendEntities.go, receiver *)
  | AppendFrom (leader term : Z)
  | AppendTermSmaller
  | AppendMismatch (prevLogTerm prevLogIndex : Z)
  | AppendOutOfRange (prevLogIndex len : Z)
  | AppendDone (lastTerm lastIndex : Z)
  (* commit.go *)
  | TryUpdateCommit (commitIndex len : Z)
  | MatchIndexIs (matchIndex : list Z)
  | LogsAre (logs : list (Z * Z))
  | UpdateCommit (oldIndex newIndex count half entryTerm term : Z)
  | FinishUpdateCommit (commitIndex : Z)
  | TryApply (lastApplied commitIndex : Z)
  | Applied (command index term : Z).

(** A line of a peer, with the term and status it prints, a line of the test,
    or the remark someone put into the file. *)
Inductive Line :=
  | Peer (node term : Z) (status : RaftStatus) (event : Event)
  | TestStarts
  | TestLeader (leader : Z)
  | TestCommitted (index nd expectedServers : Z)
  | Remark_second_vote_here
  | TestServerStatus (server status : Z)
  | TestFails (server command index other committed : Z)
  | ProcessExit (code : Z).

(** ** Votes decided

    What the handler of RequestVote prints between its first line and the
    line of its decision, which carries the term afterwards. *)

Record VoteDecision := mkVoteDecision {
  d_node : Z; d_term : Z; d_status : RaftStatus; d_votedFor : Z;
  d_candidate : Z; d_argsTerm : Z; d_argsLastLogIndex : Z; d_argsLastLogTerm : Z;
  d_lastTerm : Z; d_lastIndex : Z;
  d_granted : bool; d_termAfter : Z;
}.

Definition decide_vote (d : VoteDecision) (granted : bool) (term : Z) : VoteDecision :=
  mkVoteDecision (d_node d) (d_term d) (d_status d) (d_votedFor d) (d_candidate d) (d_argsTerm d)
    (d_argsLastLogIndex d) (d_argsLastLogTerm d) (d_lastTerm d) (d_lastIndex d) granted term.

(** The handlers at work, one per node at most (they hold the node's lock),
    and the decisions so far. *)
Definition votes_step (acc : gmap Z VoteDecision * list VoteDecision) (l : Line)
    : gmap Z VoteDecision * list VoteDecision :=
  let '(open, done) := acc in
  let finish node term granted :=
    match open !! node with
    | Some d => (delete node open, done ++ [decide_vote d granted term])
    | None => acc
    end in
  match l with
  | Peer node term status (ReceiveRequestVote votedFor candidate argsTerm) =>
      (<[node := mkVoteDecision node term status votedFor candidate argsTerm 0 0 0 0 false 0]> open, done)
  | Peer node _ _ (VoteArgs _ argsLastLogIndex lastTerm lastIndex _) =>
      match open !! node with
      | Some d =>
          (<[node := mkVoteDecision (d_node d) (d_term d) (d_status d) (d_votedFor d) (d_candidate d)
               (d_argsTerm d) argsLastLogIndex 0 lastTerm lastIndex false 0]> open, done)
      | None => acc
      end
  | Peer node _ _ (CompareLogs _ argsLastLogTerm _ _) =>
      match open !! node with
      | Some d =>
          (<[node := mkVoteDecision (d_node d) (d_term d) (d_status d) (d_votedFor d) (d_candidate d)
               (d_argsTerm d) (d_argsLastLogIndex d) argsLastLogTerm (d_lastTerm d) (d_lastIndex d)
               false 0]> open, done)
      | None => acc
      end
  | Peer node term _ SelfTermLarger => finish node term false
  | Peer node term _ SelfLogNewer => finish node term false
  | Peer node term _ Refused => finish node term false
  | Peer node term _ (Granted _ _ _ _ _) => finish node term true
  | _ => acc
  end.

Definition votes_of (ls : list Line) : list VoteDecision := (foldl votes_step (∅, []) ls).2.

#[export] Instance VoteDecision_eq_dec : EqDecision VoteDecision.
Proof. solve_decision. Defined.

(** ** Votes counted

    A reply at a candidate, the votes it had, and what the node prints next:
    the votes it has, and whether it becomes leader and in which term. *)

Record Count := mkCount {
  c_node : Z; c_term : Z; c_status : RaftStatus; c_before : Z;
  c_replyTerm : Z; c_granted : bool;
  c_after : Z; c_leaderTerm : option Z;
}.

(** The votes each candidate has, the replies being treated, the counts so far
    (latest first).  A node that is no candidate any more has no votes: the
    changes of role reset them. *)
Definition counts_step (acc : gmap Z Z * gmap Z (Z * bool) * list Count) (l : Line)
    : gmap Z Z * gmap Z (Z * bool) * list Count :=
  let '(votes, open, done) := acc in
  match l with
  | Peer node _ _ BecomeCandidate => (<[node := 1]> votes, open, done)
  | Peer node _ _ (VoteReply _ term granted) => (votes, <[node := (term, granted)]> open, done)
  | Peer node term status (CheckElection n _) =>
      match open !! node, votes !! node with
      | Some (replyTerm, granted), Some before =>
          (<[node := n]> votes, delete node open,
           mkCount node term status (if decide (status = Candidate) then before else 0)
             replyTerm granted n None :: done)
      | _, _ => acc
      end
  | Peer node term _ BecomesLeader =>
      match done with
      | c :: done' =>
          if decide (c_node c = node) then
            (votes, open,
             mkCount (c_node c) (c_term c) (c_status c) (c_before c) (c_replyTerm c) (c_granted c)
               (c_after c) (Some term) :: done')
          else acc
      | [] => acc
      end
  | _ => acc
  end.

Definition counts_of (ls : list Line) : list Count := rev (foldl counts_step (∅, ∅, []) ls).2.

(** ** Commits of a leader

    The values [leaderUpdateCommit] prints before its loop, the commit index
    after it, the last entry applied, and the entries sent on the channel. *)

Record Commit := mkCommit {
  m_node : Z; m_term : Z; m_commitIndex : Z; m_matchIndex : list Z; m_logs : list (Z * Z);
  m_newCommitIndex : Z; m_lastApplied : Z; m_applied : list (Z * Z * Z);
}.

Definition commit_step (m : Commit) (e : Event) : Commit :=
  let '(mkCommit n t ci mi lg nci la ap) := m in
  match e with
  | MatchIndexIs mi => mkCommit n t ci mi lg nci la ap
  | LogsAre lg => mkCommit n t ci mi lg nci la ap
  | FinishUpdateCommit nci => mkCommit n t ci mi lg nci la ap
  | TryApply la _ => mkCommit n t ci mi lg nci la ap
  | Applied c i et => mkCommit n t ci mi lg nci la (ap ++ [(c, i, et)])
  | _ => m
  end.

(** The latest commit of each leader is open until the next one begins. *)
Definition commits_step (acc : gmap Z Commit * list Commit) (l : Line) : gmap Z Commit * list Commit :=
  let '(open, done) := acc in
  match l with
  | Peer node term Leader (TryUpdateCommit ci _) =>
      (<[node := mkCommit node term ci [] [] 0 0 []]> open,
       done ++ match open !! node with Some m => [m] | None => [] end)
  | Peer node term Leader e =>
      match open !! node with
      | Some m => (<[node := commit_step m e]> open, done)
      | None => acc
      end
  | _ => acc
  end.

Definition commits_of (ls : list Line) : list Commit :=
  let '(open, done) := foldl commits_step (∅, []) ls in done ++ (map_to_list open).*2.

(** ** The model on a record

    A peer in the state a record prints; the codec is a parameter. *)

Section on_record.
Context `{!LabGob (PersistData Z)}.

Definition recorded_peer (node term votes votedFor commitIndex lastApplied : Z)
    (status : RaftStatus) (logs : list (LogEntity Z)) (matchIndex : list Z) : Raft Z :=
  mkRaft 5 MakePersister node false status votes 0 term votedFor logs 0 (-1)
    commitIndex lastApplied [] matchIndex.

Definition env0 : Env := mkEnv 0 0.

(** A log with the last index and term printed; the handler reads no more. *)
Definition log_ending (lastTerm lastIndex : Z) : list (LogEntity Z) :=
  replicate (Z.to_nat lastIndex) (mkLogEntity 0 INil) ++ [mkLogEntity lastTerm INil].

Definition model_decision (d : VoteDecision) : Res (bool * Z) :=
  '(rf, reply) ← RequestVote env0
     (mkRequestVoteArgs (d_argsTerm d) (d_candidate d) (d_argsLastLogIndex d) (d_argsLastLogTerm d))
     (recorded_peer (d_node d) (d_term d) 0 (d_votedFor d) (-1) (-1) (d_status d)
        (log_ending (d_lastTerm d) (d_lastIndex d)) []);
  Ok (RVR_VoteGranted reply, currentTerm rf).

(** A candidate asked, in its own term, by one whose log is as good. *)
Definition own_vote_contested (d : VoteDecision) : bool :=
  bool_decide (d_status d = Candidate ∧ d_votedFor d = d_node d ∧ d_argsTerm d = d_term d ∧
    (d_lastTerm d < d_argsLastLogTerm d ∨
     d_lastTerm d = d_argsLastLogTerm d ∧ d_lastIndex d ≤ d_argsLastLogIndex d)).

(** [inl n]: does not become leader, [n] votes; [inr t]: becomes leader in
    term [t]. *)
Definition model_count (c : Count) : Z + Z :=
  let rf := (handleSendRequestVote env0 true (mkRequestVoteReply (c_replyTerm c) (c_granted c))
     (recorded_peer (c_node c) (c_term c) (c_before c) (c_node c) (-1) (-1) (c_status c)
        (log_ending 0 0) [])).1 in
  if decide (c_status c ≠ Leader ∧ status rf = Leader) then inr (currentTerm rf)
  else inl (numVoteGathered rf).

Definition recorded_count (c : Count) : Z + Z :=
  match c_leaderTerm c with Some t => inr t | None => inl (c_after c) end.

Definition recorded_logs (logs : list (Z * Z)) : list (LogEntity Z) :=
  map (λ e, mkLogEntity e.1 (if decide (e.1 = -1) then IInt e.2 else ICmd e.2)) logs.

Definition msg_of (logs : list (Z * Z)) (m : ApplyMsg Z) : Z * Z * Z :=
  (match Command m with INil => 0 | IInt z => z | ICmd z => z end, CommandIndex m,
   match logs !! Z.to_nat (CommandIndex m) with Some e => e.1 | None => 0 end).

(** The new commit index and the messages sent. *)
Definition model_commit (m : Commit) : Res (Z * list (Z * Z * Z)) :=
  rf ← leaderUpdateCommit
    (recorded_peer (m_node m) (m_term m) 0 (-1) (m_commitIndex m) (m_lastApplied m) Leader
       (recorded_logs (m_logs m)) (m_matchIndex m));
  '(_, msgs) ← commitToApplyChannelWithLock rf;
  Ok (commitIndex rf, map (msg_of (m_logs m)) msgs).
End on_record.
