(* ===== verification/RecordedRun1.v ===== *)
(** * The recorded run, part 1 of 5

    Lines 6 to 2105 of code/src/raft/2timesvote.ts in order, one event each
    (blank lines have none): terms 1 to 16, five leaders. *)

From S2P Require Import Prelude Gob Persister RaftState RecordedRun.
Open Scope Z_scope.

(** Lines 6 to 155. *)
Definition run_01 : list Line := [
  Peer 0 0 Follower (Initialized 0);
  Peer 1 0 Follower (Initialized 1);
  Peer 2 0 Follower (Initialized 2);
  Peer 3 0 Follower (Initialized 3);
  Peer 4 0 Follower (Initialized 4);
  TestStarts;
  Peer 4 0 Follower StartElection;
  Peer 4 1 Candidate BecomeCandidate;
  Peer 4 1 Candidate (RequestVoteTo 0);
  Peer 4 1 Candidate (RequestVoteTo 1);
  Peer 4 1 Candidate (RequestVoteTo 2);
  Peer 4 1 Candidate (RequestVoteTo 3);
  Peer 3 0 Follower (ReceiveRequestVote (-1) 4 1);
  Peer 3 0 Follower (VoteArgs 1 0 (-1) 0 1);
  Peer 3 0 Follower (HandlerCommit (-1) (-1));
  Peer 3 0 Follower (SelfTermLower 4);
  Peer 3 1 Follower (CompareLogs (-1) (-1) 0 0);
  Peer 3 1 Follower (Granted 1 0 (-1) 0 1);
  Peer 3 1 Follower (HandlerCommit (-1) (-1));
  Peer 4 1 Candidate (VoteReply 3 1 true);
  Peer 4 1 Candidate (SenderCommit (-1) (-1));
  Peer 4 1 Candidate (VoteGained 3);
  Peer 4 1 Candidate (CheckElection 2 5);
  Peer 1 0 Follower (ReceiveRequestVote (-1) 4 1);
  Peer 1 0 Follower (VoteArgs 1 0 (-1) 0 1);
  Peer 1 0 Follower (HandlerCommit (-1) (-1));
  Peer 1 0 Follower (SelfTermLower 4);
  Peer 1 1 Follower (CompareLogs (-1) (-1) 0 0);
  Peer 0 0 Follower (ReceiveRequestVote (-1) 4 1);
  Peer 1 1 Follower (Granted 1 0 (-1) 0 1);
  Peer 1 1 Follower (HandlerCommit (-1) (-1));
  Peer 2 0 Follower (ReceiveRequestVote (-1) 4 1);
  Peer 0 0 Follower (VoteArgs 1 0 (-1) 0 1);
  Peer 0 0 Follower (HandlerCommit (-1) (-1));
  Peer 2 0 Follower (VoteArgs 1 0 (-1) 0 1);
  Peer 0 0 Follower (SelfTermLower 4);
  Peer 2 0 Follower (HandlerCommit (-1) (-1));
  Peer 2 0 Follower (SelfTermLower 4);
  Peer 0 1 Follower (CompareLogs (-1) (-1) 0 0);
  Peer 2 1 Follower (CompareLogs (-1) (-1) 0 0);
  Peer 0 1 Follower (Granted 1 0 (-1) 0 1);
  Peer 0 1 Follower (HandlerCommit (-1) (-1));
  Peer 2 1 Follower (Granted 1 0 (-1) 0 1);
  Peer 4 1 Candidate (VoteReply 1 1 true);
  Peer 4 1 Candidate (SenderCommit (-1) (-1));
  Peer 2 1 Follower (HandlerCommit (-1) (-1));
  Peer 4 1 Candidate (VoteGained 1);
  Peer 4 1 Candidate (CheckElection 3 5);
  Peer 4 2 Leader BecomesLeader;
  Peer 4 2 Leader StartHeartBeat;
  Peer 4 2 Leader (AppendTo 0);
  Peer 4 2 Leader (AppendTo 1);
  Peer 4 2 Leader (AppendTo 2);
  Peer 4 2 Leader (AppendTo 3);
  Peer 4 2 Leader (RequestVoteLost 0);
  Peer 4 2 Leader (RequestVoteLost 2);
  Peer 4 2 Leader (SendAppend 1 [1; 1; 1; 1; 1]);
  Peer 4 2 Leader (SendAppend 3 [1; 1; 1; 1; 1]);
  Peer 4 2 Leader (SendAppend 0 [1; 1; 1; 1; 1]);
  Peer 4 2 Leader (SendAppend 2 [1; 1; 1; 1; 1]);
  Peer 1 1 Follower (AppendFrom 4 2);
  Peer 3 1 Follower (AppendFrom 4 2);
  Peer 0 1 Follower (AppendFrom 4 2);
  Peer 3 2 Follower (AppendDone (-1) 0);
  Peer 1 2 Follower (AppendDone (-1) 0);
  Peer 0 2 Follower (AppendDone (-1) 0);
  Peer 4 2 Leader (AppendSuccess 1);
  Peer 4 2 Leader (TryUpdateCommit (-1) 1);
  Peer 4 2 Leader (MatchIndexIs [-1; 0; -1; -1; -1]);
  Peer 4 2 Leader (LogsAre [(-1, -1)]);
  Peer 4 2 Leader (FinishUpdateCommit (-1));
  Peer 4 2 Leader (TryApply (-1) (-1));
  Peer 4 2 Leader (AppendSuccess 3);
  Peer 4 2 Leader (TryUpdateCommit (-1) 1);
  Peer 4 2 Leader (MatchIndexIs [-1; 0; -1; 0; -1]);
  Peer 4 2 Leader (LogsAre [(-1, -1)]);
  Peer 4 2 Leader (FinishUpdateCommit (-1));
  Peer 4 2 Leader (TryApply (-1) (-1));
  Peer 4 2 Leader (AppendSuccess 0);
  Peer 4 2 Leader (TryUpdateCommit (-1) 1);
  Peer 4 2 Leader (MatchIndexIs [0; 0; -1; 0; -1]);
  Peer 4 2 Leader (LogsAre [(-1, -1)]);
  Peer 4 2 Leader (FinishUpdateCommit (-1));
  Peer 4 2 Leader (TryApply (-1) (-1));
  Peer 2 1 Follower (AppendFrom 4 2);
  Peer 2 2 Follower (AppendDone (-1) 0);
  Peer 4 2 Leader (AppendSuccess 2);
  Peer 4 2 Leader (TryUpdateCommit (-1) 1);
  Peer 4 2 Leader (MatchIndexIs [0; 0; 0; 0; -1]);
  Peer 4 2 Leader (LogsAre [(-1, -1)]);
  Peer 4 2 Leader (FinishUpdateCommit (-1));
  Peer 4 2 Leader (TryApply (-1) (-1));
  TestLeader 3;
  TestCommitted 1 0 1;
  TestCommitted 1 0 1;
  Peer 4 2 Leader StartHeartBeat;
  Peer 4 2 Leader (AppendTo 0);
  Peer 4 2 Leader (AppendTo 1);
  Peer 4 2 Leader (AppendTo 2);
  Peer 4 2 Leader (AppendTo 3);
  Peer 4 2 Leader (SendAppend 0 [1; 1; 1; 1; 1]);
  Peer 4 2 Leader (SendAppend 3 [1; 1; 1; 1; 1]);
  Peer 4 2 Leader (SendAppend 2 [1; 1; 1; 1; 1]);
  Peer 4 2 Leader (SendAppend 1 [1; 1; 1; 1; 1]);
  Peer 3 2 Follower (AppendFrom 4 2);
  Peer 2 2 Follower (AppendFrom 4 2);
  Peer 3 2 Follower (AppendDone 2 1);
  Peer 2 2 Follower (AppendDone 2 1);
  Peer 4 2 Leader (AppendSuccess 3);
  Peer 4 2 Leader (TryUpdateCommit (-1) 2);
  Peer 4 2 Leader (MatchIndexIs [0; 0; 0; 1; -1]);
  Peer 4 2 Leader (LogsAre [(-1, -1); (2, 4416)]);
  Peer 4 2 Leader (FinishUpdateCommit (-1));
  Peer 4 2 Leader (TryApply (-1) (-1));
  Peer 4 2 Leader (AppendLost 2);
  TestCommitted 1 0 1;
  Peer 0 2 Follower (AppendFrom 4 2);
  Peer 1 2 Follower (AppendFrom 4 2);
  Peer 0 2 Follower (AppendDone 2 1);
  Peer 1 2 Follower (AppendDone 2 1);
  Peer 4 2 Leader (AppendSuccess 1);
  Peer 4 2 Leader (TryUpdateCommit (-1) 2);
  Peer 4 2 Leader (MatchIndexIs [0; 1; 0; 1; -1]);
  Peer 4 2 Leader (LogsAre [(-1, -1); (2, 4416)]);
  Peer 4 2 Leader (UpdateCommit (-1) 1 3 2 2 2);
  Peer 4 2 Leader (FinishUpdateCommit 1);
  Peer 4 2 Leader (TryApply (-1) 1);
  Peer 4 2 Leader (Applied (-1) 0 (-1));
  Peer 4 2 Leader (Applied 4416 1 2);
  Peer 4 2 Leader (AppendSuccess 0);
  Peer 4 2 Leader (TryUpdateCommit 1 2);
  Peer 4 2 Leader (MatchIndexIs [1; 1; 0; 1; -1]);
  Peer 4 2 Leader (LogsAre [(-1, -1); (2, 4416)]);
  Peer 4 2 Leader (UpdateCommit 1 1 4 2 2 2);
  Peer 4 2 Leader (FinishUpdateCommit 1);
  Peer 4 2 Leader (TryApply 1 1);
  TestCommitted 1 1 1;
  Peer 4 2 Leader StartHeartBeat;
  Peer 4 2 Leader (AppendTo 0);
  Peer 4 2 Leader (AppendTo 1);
  Peer 4 2 Leader (AppendTo 2);
  Peer 4 2 Leader (AppendTo 3);
  Peer 4 2 Leader (SendAppend 0 [2; 2; 1; 2; 1]);
  Peer 4 2 Leader (SendAppend 3 [2; 2; 1; 2; 1]);
  Peer 4 2 Leader (SendAppend 2 [2; 2; 1; 2; 1]);
  Peer 4 2 Leader (SendAppend 1 [2; 2; 1; 2; 1]);
  Peer 4 2 Leader (AppendLost 0);
  Peer 1 2 Follower (AppendFrom 4 2);
  Peer 1 2 Follower (TryApply (-1) 1);
  Peer 1 2 Follower (Applied (-1) 0 (-1))].

(** Lines 156 to 305. *)
Definition run_02 : list Line := [
  Peer 1 2 Follower (Applied 4416 1 2);
  Peer 1 2 Follower (AppendDone 2 2);
  Peer 4 2 Leader (AppendLost 1);
  Peer 2 2 Follower (AppendFrom 4 2);
  Peer 3 2 Follower (AppendFrom 4 2);
  Peer 2 2 Follower (TryApply (-1) 1);
  Peer 2 2 Follower (Applied (-1) 0 (-1));
  Peer 2 2 Follower (Applied 4416 1 2);
  Peer 3 2 Follower (TryApply (-1) 1);
  Peer 2 2 Follower (AppendDone 2 2);
  Peer 3 2 Follower (Applied (-1) 0 (-1));
  Peer 3 2 Follower (Applied 4416 1 2);
  Peer 3 2 Follower (AppendDone 2 2);
  Peer 4 2 Leader (AppendSuccess 2);
  Peer 4 2 Leader (TryUpdateCommit 1 4);
  Peer 4 2 Leader (MatchIndexIs [1; 1; 2; 1; -1]);
  Peer 4 2 Leader (LogsAre [(-1, -1); (2, 4416); (2, 1773); (2, 1309)]);
  Peer 4 2 Leader (UpdateCommit 1 1 5 2 2 2);
  Peer 4 2 Leader (FinishUpdateCommit 1);
  Peer 4 2 Leader (TryApply 1 1);
  Peer 4 2 Leader (AppendSuccess 3);
  Peer 4 2 Leader (TryUpdateCommit 1 4);
  Peer 4 2 Leader (MatchIndexIs [1; 1; 2; 2; -1]);
  Peer 4 2 Leader (LogsAre [(-1, -1); (2, 4416); (2, 1773); (2, 1309)]);
  Peer 4 2 Leader (UpdateCommit 1 1 5 2 2 2);
  Peer 4 2 Leader (UpdateCommit 1 2 3 2 2 2);
  Peer 4 2 Leader (FinishUpdateCommit 2);
  Peer 4 2 Leader (TryApply 1 2);
  Peer 4 2 Leader (Applied 1773 2 2);
  Peer 4 2 Leader StartHeartBeat;
  Peer 4 2 Leader (AppendTo 0);
  Peer 4 2 Leader (AppendTo 1);
  Peer 4 2 Leader (AppendTo 2);
  Peer 4 2 Leader (AppendTo 3);
  Peer 4 2 Leader (SendAppend 3 [2; 2; 3; 3; 1]);
  Peer 4 2 Leader (SendAppend 0 [2; 2; 3; 3; 1]);
  Peer 4 2 Leader (SendAppend 2 [2; 2; 3; 3; 1]);
  Peer 4 2 Leader (SendAppend 1 [2; 2; 3; 3; 1]);
  Peer 4 2 Leader (AppendLost 3);
  Peer 4 2 Leader (AppendLost 0);
  Peer 4 2 Leader (AppendLost 2);
  Peer 4 2 Leader (AppendLost 1);
  Peer 4 2 Leader StartHeartBeat;
  Peer 4 2 Leader (AppendTo 0);
  Peer 4 2 Leader (AppendTo 1);
  Peer 4 2 Leader (AppendTo 2);
  Peer 4 2 Leader (AppendTo 3);
  Peer 4 2 Leader (SendAppend 3 [2; 2; 3; 3; 1]);
  Peer 4 2 Leader (SendAppend 1 [2; 2; 3; 3; 1]);
  Peer 4 2 Leader (SendAppend 2 [2; 2; 3; 3; 1]);
  Peer 4 2 Leader (SendAppend 0 [2; 2; 3; 3; 1]);
  Peer 4 2 Leader (AppendLost 2);
  Peer 4 2 Leader (AppendLost 0);
  Peer 4 2 Leader (AppendLost 3);
  Peer 4 2 Leader StartHeartBeat;
  Peer 4 2 Leader (AppendTo 0);
  Peer 4 2 Leader (AppendTo 1);
  Peer 4 2 Leader (AppendTo 2);
  Peer 4 2 Leader (AppendTo 3);
  Peer 4 2 Leader (SendAppend 3 [2; 2; 3; 3; 1]);
  Peer 4 2 Leader (SendAppend 0 [2; 2; 3; 3; 1]);
  Peer 4 2 Leader (AppendLost 1);
  Peer 4 2 Leader (SendAppend 1 [2; 2; 3; 3; 1]);
  Peer 4 2 Leader (SendAppend 2 [2; 2; 3; 3; 1]);
  Peer 4 2 Leader (AppendLost 3);
  Peer 4 2 Leader (AppendLost 0);
  Peer 4 2 Leader (AppendLost 1);
  Peer 4 2 Leader (AppendLost 2);
  Peer 0 2 Follower StartElection;
  Peer 4 2 Leader StartHeartBeat;
  Peer 4 2 Leader (AppendTo 0);
  Peer 4 2 Leader (AppendTo 1);
  Peer 4 2 Leader (AppendTo 2);
  Peer 4 2 Leader (AppendTo 3);
  Peer 4 2 Leader (SendAppend 3 [2; 2; 3; 3; 1]);
  Peer 4 2 Leader (SendAppend 0 [2; 2; 3; 3; 1]);
  Peer 0 3 Candidate BecomeCandidate;
  Peer 4 2 Leader (SendAppend 2 [2; 2; 3; 3; 1]);
  Peer 0 3 Candidate (RequestVoteTo 1);
  Peer 0 3 Candidate (RequestVoteTo 2);
  Peer 0 3 Candidate (RequestVoteTo 3);
  Peer 0 3 Candidate (RequestVoteTo 4);
  Peer 4 2 Leader (SendAppend 1 [2; 2; 3; 3; 1]);
  Peer 4 2 Leader (AppendLost 1);
  Peer 0 3 Candidate (RequestVoteLost 3);
  Peer 2 2 Follower (ReceiveRequestVote (-1) 0 3);
  Peer 1 2 Follower (ReceiveRequestVote (-1) 0 3);
  Peer 2 2 Follower (VoteArgs 3 1 2 2 3);
  Peer 1 2 Follower (VoteArgs 3 1 2 2 3);
  Peer 2 2 Follower (HandlerCommit 1 1);
  Peer 2 2 Follower (SelfTermLower 0);
  Peer 1 2 Follower (HandlerCommit 1 1);
  Peer 1 2 Follower (SelfTermLower 0);
  Peer 2 3 Follower (CompareLogs 2 2 2 1);
  Peer 2 3 Follower SelfLogNewer;
  Peer 1 3 Follower (CompareLogs 2 2 2 1);
  Peer 1 3 Follower SelfLogNewer;
  Peer 0 3 Candidate (VoteReply 2 3 false);
  Peer 0 3 Candidate (SenderCommit (-1) (-1));
  Peer 0 3 Candidate (CheckElection 1 5);
  Peer 0 3 Candidate (VoteReply 1 3 false);
  Peer 0 3 Candidate (SenderCommit (-1) (-1));
  Peer 0 3 Candidate (CheckElection 1 5);
  Peer 0 3 Candidate (RequestVoteLost 4);
  Peer 4 2 Leader (AppendLost 2);
  Peer 4 2 Leader (AppendLost 3);
  Peer 3 2 Follower StartElection;
  Peer 4 2 Leader StartHeartBeat;
  Peer 4 2 Leader (AppendTo 0);
  Peer 3 3 Candidate BecomeCandidate;
  Peer 3 3 Candidate (RequestVoteTo 0);
  Peer 3 3 Candidate (RequestVoteTo 1);
  Peer 3 3 Candidate (RequestVoteTo 2);
  Peer 3 3 Candidate (RequestVoteTo 4);
  Peer 4 2 Leader (AppendTo 1);
  Peer 4 2 Leader (AppendTo 2);
  Peer 4 2 Leader (AppendTo 3);
  Peer 4 2 Leader (AppendLost 0);
  Peer 4 2 Leader (SendAppend 0 [2; 2; 3; 3; 1]);
  Peer 4 2 Leader (SendAppend 2 [2; 2; 3; 3; 1]);
  Peer 4 2 Leader (SendAppend 3 [2; 2; 3; 3; 1]);
  Peer 4 2 Leader (SendAppend 1 [2; 2; 3; 3; 1]);
  Peer 4 2 Leader (AppendLost 3);
  Peer 4 2 Leader (AppendLost 0);
  Peer 0 3 Candidate (ReceiveRequestVote 0 3 3);
  Peer 0 3 Candidate (VoteArgs 3 2 2 1 2);
  Peer 0 3 Candidate (HandlerCommit (-1) (-1));
  Peer 0 3 Candidate (CompareLogs 2 2 1 2);
  Peer 0 3 Candidate Refused;
  Peer 3 3 Candidate (VoteReply 0 3 false);
  Peer 3 3 Candidate (SenderCommit 1 1);
  Peer 3 3 Candidate (CheckElection 1 5);
  Peer 2 3 Follower (ReceiveRequestVote 0 3 3);
  Peer 2 3 Follower (VoteArgs 3 2 2 2 3);
  Peer 2 3 Follower (HandlerCommit 1 1);
  Peer 2 3 Follower (CompareLogs 2 2 2 2);
  Peer 2 3 Follower Refused;
  Peer 1 3 Follower (ReceiveRequestVote 0 3 3);
  Peer 1 3 Follower (VoteArgs 3 2 2 2 3);
  Peer 1 3 Follower (HandlerCommit 1 1);
  Peer 1 3 Follower (CompareLogs 2 2 2 2);
  Peer 1 3 Follower Refused;
  Peer 3 3 Candidate (VoteReply 2 3 false);
  Peer 3 3 Candidate (SenderCommit 1 1);
  Peer 3 3 Candidate (CheckElection 1 5);
  Peer 3 3 Candidate (VoteReply 1 3 false);
  Peer 3 3 Candidate (SenderCommit 1 1);
  Peer 3 3 Candidate (CheckElection 1 5);
  Peer 4 2 Leader (AppendLost 2);
  Peer 3 3 Candidate (RequestVoteLost 4)].

(** Lines 306 to 455. *)
Definition run_03 : list Line := [
  Peer 4 2 Leader (AppendLost 1);
  Peer 4 2 Leader StartHeartBeat;
  Peer 4 2 Leader (AppendTo 0);
  Peer 4 2 Leader (AppendTo 1);
  Peer 4 2 Leader (AppendTo 2);
  Peer 4 2 Leader (AppendTo 3);
  Peer 4 2 Leader (SendAppend 0 [2; 2; 3; 3; 1]);
  Peer 4 2 Leader (SendAppend 3 [2; 2; 3; 3; 1]);
  Peer 4 2 Leader (SendAppend 1 [2; 2; 3; 3; 1]);
  Peer 4 2 Leader (SendAppend 2 [2; 2; 3; 3; 1]);
  Peer 4 2 Leader (AppendLost 0);
  Peer 4 2 Leader (AppendLost 3);
  Peer 4 2 Leader (AppendLost 2);
  Peer 4 2 Leader (AppendLost 1);
  Peer 4 2 Leader StartHeartBeat;
  Peer 4 2 Leader (AppendTo 0);
  Peer 4 2 Leader (AppendTo 1);
  Peer 4 2 Leader (AppendTo 2);
  Peer 4 2 Leader (AppendTo 3);
  Peer 4 2 Leader (SendAppend 3 [2; 2; 3; 3; 1]);
  Peer 4 2 Leader (SendAppend 0 [2; 2; 3; 3; 1]);
  Peer 4 2 Leader (SendAppend 1 [2; 2; 3; 3; 1]);
  Peer 4 2 Leader (SendAppend 2 [2; 2; 3; 3; 1]);
  Peer 4 2 Leader (AppendLost 1);
  Peer 4 2 Leader (AppendLost 3);
  Peer 4 2 Leader (AppendLost 2);
  Peer 4 2 Leader (AppendLost 0);
  Peer 4 2 Leader StartHeartBeat;
  Peer 4 2 Leader (AppendTo 0);
  Peer 4 2 Leader (AppendTo 1);
  Peer 4 2 Leader (AppendTo 2);
  Peer 4 2 Leader (AppendTo 3);
  Peer 4 2 Leader (SendAppend 3 [2; 2; 3; 3; 1]);
  Peer 4 2 Leader (SendAppend 1 [2; 2; 3; 3; 1]);
  Peer 4 2 Leader (SendAppend 2 [2; 2; 3; 3; 1]);
  Peer 4 2 Leader (SendAppend 0 [2; 2; 3; 3; 1]);
  Peer 4 2 Leader (AppendLost 0);
  Peer 4 2 Leader (AppendLost 1);
  Peer 4 2 Leader (AppendLost 2);
  Peer 4 2 Leader (AppendLost 3);
  Peer 0 3 Candidate StartElection;
  Peer 4 2 Leader StartHeartBeat;
  Peer 1 3 Follower StartElection;
  Peer 4 2 Leader (AppendTo 0);
  Peer 4 2 Leader (AppendTo 1);
  Peer 4 2 Leader (AppendTo 2);
  Peer 4 2 Leader (AppendTo 3);
  Peer 0 4 Candidate BecomeCandidate;
  Peer 0 4 Candidate (RequestVoteTo 1);
  Peer 4 2 Leader (SendAppend 3 [2; 2; 3; 3; 1]);
  Peer 0 4 Candidate (RequestVoteTo 2);
  Peer 0 4 Candidate (RequestVoteTo 3);
  Peer 0 4 Candidate (RequestVoteTo 4);
  Peer 4 2 Leader (SendAppend 1 [2; 2; 3; 3; 1]);
  Peer 1 4 Candidate BecomeCandidate;
  Peer 1 4 Candidate (RequestVoteTo 0);
  Peer 1 4 Candidate (RequestVoteTo 2);
  Peer 1 4 Candidate (RequestVoteTo 3);
  Peer 1 4 Candidate (RequestVoteTo 4);
  Peer 4 2 Leader (SendAppend 0 [2; 2; 3; 3; 1]);
  Peer 4 2 Leader (SendAppend 2 [2; 2; 3; 3; 1]);
  Peer 4 2 Leader (AppendLost 1);
  Peer 1 4 Candidate (RequestVoteLost 4);
  Peer 0 4 Candidate (ReceiveRequestVote 0 1 4);
  Peer 2 3 Follower (ReceiveRequestVote 0 0 4);
  Peer 0 4 Candidate (VoteArgs 4 2 2 1 2);
  Peer 3 3 Candidate (ReceiveRequestVote 3 0 4);
  Peer 3 3 Candidate (VoteArgs 4 1 2 2 3);
  Peer 0 4 Candidate (HandlerCommit (-1) (-1));
  Peer 3 3 Candidate (HandlerCommit 1 1);
  Peer 3 3 Candidate (SelfTermLower 0);
  Peer 0 4 Candidate (CompareLogs 2 2 1 2);
  Peer 0 4 Candidate Refused;
  Peer 2 3 Follower (VoteArgs 4 1 2 2 3);
  Peer 2 3 Follower (HandlerCommit 1 1);
  Peer 2 3 Follower (SelfTermLower 0);
  Peer 3 4 Follower (CompareLogs 2 2 2 1);
  Peer 3 4 Follower SelfLogNewer;
  Peer 1 4 Candidate (RequestVoteLost 0);
  Peer 2 4 Follower (CompareLogs 2 2 2 1);
  Peer 2 4 Follower SelfLogNewer;
  Peer 0 4 Candidate (VoteReply 3 4 false);
  Peer 0 4 Candidate (SenderCommit (-1) (-1));
  Peer 0 4 Candidate (CheckElection 1 5);
  Peer 0 4 Candidate (VoteReply 2 4 false);
  Peer 0 4 Candidate (SenderCommit (-1) (-1));
  Peer 0 4 Candidate (CheckElection 1 5);
  Peer 1 4 Candidate (RequestVoteLost 3);
  Peer 0 4 Candidate (RequestVoteLost 4);
  Peer 2 4 Follower (ReceiveRequestVote 0 1 4);
  Peer 1 4 Candidate (ReceiveRequestVote 1 0 4);
  Peer 2 4 Follower (VoteArgs 4 2 2 2 3);
  Peer 1 4 Candidate (VoteArgs 4 1 2 2 3);
  Peer 2 4 Follower (HandlerCommit 1 1);
  Peer 2 4 Follower (CompareLogs 2 2 2 2);
  Peer 1 4 Candidate (HandlerCommit 1 1);
  Peer 1 4 Candidate (CompareLogs 2 2 2 1);
  Peer 2 4 Follower Refused;
  Peer 1 4 Candidate SelfLogNewer;
  Peer 1 4 Candidate (VoteReply 2 4 false);
  Peer 1 4 Candidate (SenderCommit 1 1);
  Peer 1 4 Candidate (CheckElection 1 5);
  Peer 0 4 Candidate (VoteReply 1 4 false);
  Peer 0 4 Candidate (SenderCommit (-1) (-1));
  Peer 0 4 Candidate (CheckElection 1 5);
  Peer 4 2 Leader (AppendLost 3);
  Peer 4 2 Leader (AppendLost 2);
  Peer 4 2 Leader (AppendLost 0);
  Peer 4 2 Leader StartHeartBeat;
  Peer 4 2 Leader (AppendTo 0);
  Peer 4 2 Leader (AppendTo 1);
  Peer 4 2 Leader (AppendTo 2);
  Peer 4 2 Leader (AppendTo 3);
  Peer 4 2 Leader (SendAppend 3 [2; 2; 3; 3; 1]);
  Peer 4 2 Leader (SendAppend 2 [2; 2; 3; 3; 1]);
  Peer 4 2 Leader (SendAppend 0 [2; 2; 3; 3; 1]);
  Peer 4 2 Leader (SendAppend 1 [2; 2; 3; 3; 1]);
  Peer 4 2 Leader (AppendLost 2);
  Peer 4 2 Leader (AppendLost 1);
  Peer 4 2 Leader (AppendLost 3);
  Peer 4 2 Leader (AppendLost 0);
  Peer 4 2 Leader StartHeartBeat;
  Peer 4 2 Leader (AppendTo 0);
  Peer 4 2 Leader (AppendTo 1);
  Peer 4 2 Leader (AppendTo 2);
  Peer 4 2 Leader (AppendTo 3);
  Peer 4 2 Leader (SendAppend 3 [2; 2; 3; 3; 1]);
  Peer 4 2 Leader (SendAppend 2 [2; 2; 3; 3; 1]);
  Peer 4 2 Leader (SendAppend 0 [2; 2; 3; 3; 1]);
  Peer 4 2 Leader (SendAppend 1 [2; 2; 3; 3; 1]);
  Peer 4 2 Leader (AppendLost 1);
  Peer 4 2 Leader (AppendLost 0);
  Peer 4 2 Leader (AppendLost 3);
  Peer 4 2 Leader StartHeartBeat;
  Peer 4 2 Leader (AppendTo 0);
  Peer 4 2 Leader (AppendTo 1);
  Peer 4 2 Leader (AppendTo 2);
  Peer 4 2 Leader (AppendTo 3);
  Peer 4 2 Leader (SendAppend 2 [2; 2; 3; 3; 1]);
  Peer 4 2 Leader (AppendLost 2);
  Peer 4 2 Leader (SendAppend 0 [2; 2; 3; 3; 1]);
  Peer 4 2 Leader (SendAppend 1 [2; 2; 3; 3; 1]);
  Peer 4 2 Leader (SendAppend 3 [2; 2; 3; 3; 1]);
  Peer 4 2 Leader (AppendLost 1);
  Peer 4 2 Leader (AppendLost 2);
  Peer 4 2 Leader (AppendLost 3);
  Peer 4 2 Leader (AppendLost 0);
  Peer 4 2 Leader StartHeartBeat;
  Peer 4 2 Leader (AppendTo 0);
  Peer 4 2 Leader (AppendTo 1)].

(** Lines 456 to 605. *)
Definition run_04 : list Line := [
  Peer 4 2 Leader (AppendTo 2);
  Peer 4 2 Leader (AppendTo 3);
  Peer 4 2 Leader (SendAppend 3 [2; 2; 3; 3; 1]);
  Peer 4 2 Leader (SendAppend 2 [2; 2; 3; 3; 1]);
  Peer 4 2 Leader (SendAppend 0 [2; 2; 3; 3; 1]);
  Peer 4 2 Leader (SendAppend 1 [2; 2; 3; 3; 1]);
  Peer 4 2 Leader (AppendLost 0);
  Peer 4 2 Leader (AppendLost 1);
  Peer 4 2 Leader (AppendLost 2);
  Peer 3 4 Follower StartElection;
  Peer 3 5 Candidate BecomeCandidate;
  Peer 3 5 Candidate (RequestVoteTo 0);
  Peer 3 5 Candidate (RequestVoteTo 1);
  Peer 3 5 Candidate (RequestVoteTo 2);
  Peer 3 5 Candidate (RequestVoteTo 4);
  Peer 4 2 Leader StartHeartBeat;
  Peer 4 2 Leader (AppendTo 0);
  Peer 4 2 Leader (AppendTo 1);
  Peer 4 2 Leader (AppendTo 2);
  Peer 4 2 Leader (AppendTo 3);
  Peer 4 2 Leader (AppendLost 3);
  Peer 4 2 Leader (SendAppend 0 [2; 2; 3; 3; 1]);
  Peer 4 2 Leader (SendAppend 2 [2; 2; 3; 3; 1]);
  Peer 4 2 Leader (SendAppend 1 [2; 2; 3; 3; 1]);
  Peer 4 2 Leader (SendAppend 3 [2; 2; 3; 3; 1]);
  Peer 4 2 Leader (AppendLost 1);
  Peer 4 2 Leader (AppendLost 2);
  Peer 1 4 Candidate (ReceiveRequestVote 1 3 5);
  Peer 1 4 Candidate (VoteArgs 5 2 2 2 3);
  Peer 2 4 Follower (ReceiveRequestVote 0 3 5);
  Peer 1 4 Candidate (HandlerCommit 1 1);
  Peer 1 4 Candidate (SelfTermLower 3);
  Peer 2 4 Follower (VoteArgs 5 2 2 2 3);
  Peer 2 4 Follower (HandlerCommit 1 1);
  Peer 2 4 Follower (SelfTermLower 3);
  Peer 2 5 Follower (CompareLogs 2 2 2 2);
  Peer 1 5 Follower (CompareLogs 2 2 2 2);
  Peer 2 5 Follower (Granted 5 2 2 2 3);
  Peer 2 5 Follower (HandlerCommit 1 1);
  Peer 1 5 Follower (Granted 5 2 2 2 3);
  Peer 1 5 Follower (HandlerCommit 1 1);
  Peer 3 5 Candidate (RequestVoteLost 1);
  Peer 3 5 Candidate (VoteReply 2 5 true);
  Peer 3 5 Candidate (SenderCommit 1 1);
  Peer 3 5 Candidate (VoteGained 2);
  Peer 3 5 Candidate (CheckElection 2 5);
  Peer 4 2 Leader (AppendLost 3);
  Peer 4 2 Leader (AppendLost 0);
  Peer 0 4 Candidate (ReceiveRequestVote 0 3 5);
  Peer 0 4 Candidate (VoteArgs 5 2 2 1 2);
  Peer 0 4 Candidate (HandlerCommit (-1) (-1));
  Peer 0 4 Candidate (SelfTermLower 3);
  Peer 0 5 Follower (CompareLogs 2 2 1 2);
  Peer 0 5 Follower (Granted 5 2 2 1 2);
  Peer 0 5 Follower (HandlerCommit (-1) (-1));
  Peer 3 5 Candidate (VoteReply 0 5 true);
  Peer 3 5 Candidate (SenderCommit 1 1);
  Peer 3 5 Candidate (VoteGained 0);
  Peer 3 5 Candidate (CheckElection 3 5);
  Peer 3 6 Leader BecomesLeader;
  Peer 3 6 Leader StartHeartBeat;
  Peer 3 6 Leader (AppendTo 0);
  Peer 3 6 Leader (AppendTo 1);
  Peer 3 6 Leader (AppendTo 2);
  Peer 3 6 Leader (AppendTo 4);
  Peer 3 6 Leader (SendAppend 4 [3; 3; 3; 3; 3]);
  Peer 3 6 Leader (SendAppend 2 [3; 3; 3; 3; 3]);
  Peer 3 6 Leader (SendAppend 1 [3; 3; 3; 3; 3]);
  Peer 3 6 Leader (SendAppend 0 [3; 3; 3; 3; 3]);
  Peer 3 6 Leader (AppendLost 1);
  Peer 3 6 Leader (AppendLost 4);
  Peer 2 5 Follower (AppendFrom 3 6);
  Peer 0 5 Follower (AppendFrom 3 6);
  Peer 0 6 Follower (AppendOutOfRange 2 2);
  Peer 2 6 Follower (AppendDone 2 2);
  Peer 3 6 Leader (AppendLost 0);
  Peer 3 6 Leader (AppendSuccess 2);
  Peer 3 6 Leader (TryUpdateCommit 1 3);
  Peer 3 6 Leader (MatchIndexIs [-1; -1; 2; -1; -1]);
  Peer 3 6 Leader (LogsAre [(-1, -1); (2, 4416); (2, 1773)]);
  Peer 3 6 Leader (FinishUpdateCommit 1);
  Peer 3 6 Leader (TryApply 1 1);
  Peer 3 6 Leader (RequestVoteLost 4);
  Peer 3 6 Leader StartHeartBeat;
  Peer 3 6 Leader (AppendTo 0);
  Peer 4 2 Leader StartHeartBeat;
  Peer 4 2 Leader (AppendTo 0);
  Peer 3 6 Leader (AppendTo 1);
  Peer 3 6 Leader (AppendTo 2);
  Peer 3 6 Leader (AppendTo 4);
  Peer 4 2 Leader (AppendTo 1);
  Peer 3 6 Leader (SendAppend 2 [3; 3; 3; 3; 3]);
  Peer 4 2 Leader (AppendTo 2);
  Peer 4 2 Leader (AppendTo 3);
  Peer 3 6 Leader (SendAppend 0 [3; 3; 3; 3; 3]);
  Peer 3 6 Leader (SendAppend 4 [3; 3; 3; 3; 3]);
  Peer 4 2 Leader (SendAppend 2 [2; 2; 3; 3; 1]);
  Peer 3 6 Leader (SendAppend 1 [3; 3; 3; 3; 3]);
  Peer 4 2 Leader (SendAppend 0 [2; 2; 3; 3; 1]);
  Peer 4 2 Leader (SendAppend 1 [2; 2; 3; 3; 1]);
  Peer 4 2 Leader (SendAppend 3 [2; 2; 3; 3; 1]);
  Peer 3 6 Leader (AppendLost 4);
  Peer 2 6 Follower (AppendFrom 3 6);
  Peer 2 6 Follower (AppendDone 2 2);
  Peer 3 6 Leader (AppendSuccess 2);
  Peer 3 6 Leader (TryUpdateCommit 1 3);
  Peer 3 6 Leader (MatchIndexIs [-1; -1; 2; -1; -1]);
  Peer 3 6 Leader (LogsAre [(-1, -1); (2, 4416); (2, 1773)]);
  Peer 3 6 Leader (FinishUpdateCommit 1);
  Peer 3 6 Leader (TryApply 1 1);
  Peer 3 6 Leader (AppendLost 0);
  Peer 1 5 Follower (AppendFrom 3 6);
  Peer 1 6 Follower (AppendDone 2 2);
  Peer 3 6 Leader (AppendSuccess 1);
  Peer 3 6 Leader (TryUpdateCommit 1 3);
  Peer 3 6 Leader (MatchIndexIs [-1; 2; 2; -1; -1]);
  Peer 3 6 Leader (LogsAre [(-1, -1); (2, 4416); (2, 1773)]);
  Peer 3 6 Leader (FinishUpdateCommit 1);
  Peer 3 6 Leader (TryApply 1 1);
  Peer 4 2 Leader (AppendLost 0);
  Peer 4 2 Leader (AppendLost 1);
  Peer 4 2 Leader (AppendLost 2);
  Peer 4 2 Leader (AppendLost 3);
  Peer 3 6 Leader StartHeartBeat;
  Peer 4 2 Leader StartHeartBeat;
  Peer 4 2 Leader (AppendTo 0);
  Peer 4 2 Leader (AppendTo 1);
  Peer 3 6 Leader (AppendTo 0);
  Peer 3 6 Leader (AppendTo 1);
  Peer 4 2 Leader (AppendTo 2);
  Peer 3 6 Leader (AppendTo 2);
  Peer 3 6 Leader (AppendTo 4);
  Peer 4 2 Leader (AppendTo 3);
  Peer 3 6 Leader (SendAppend 2 [3; 3; 3; 3; 3]);
  Peer 4 2 Leader (SendAppend 3 [2; 2; 3; 3; 1]);
  Peer 3 6 Leader (SendAppend 1 [3; 3; 3; 3; 3]);
  Peer 4 2 Leader (SendAppend 1 [2; 2; 3; 3; 1]);
  Peer 3 6 Leader (SendAppend 0 [3; 3; 3; 3; 3]);
  Peer 3 6 Leader (SendAppend 4 [3; 3; 3; 3; 3]);
  Peer 4 2 Leader (SendAppend 0 [2; 2; 3; 3; 1]);
  Peer 4 2 Leader (SendAppend 2 [2; 2; 3; 3; 1]);
  Peer 2 6 Follower (AppendFrom 3 6);
  Peer 2 6 Follower (AppendDone 2 2);
  Peer 3 6 Leader (AppendSuccess 2);
  Peer 3 6 Leader (TryUpdateCommit 1 3);
  Peer 3 6 Leader (MatchIndexIs [-1; 2; 2; -1; -1]);
  Peer 3 6 Leader (LogsAre [(-1, -1); (2, 4416); (2, 1773)]);
  Peer 3 6 Leader (FinishUpdateCommit 1);
  Peer 3 6 Leader (TryApply 1 1);
  Peer 4 2 Leader (AppendLost 1)].

(** Lines 606 to 755. *)
Definition run_05 : list Line := [
  Peer 1 6 Follower (AppendFrom 3 6);
  Peer 0 6 Follower (AppendFrom 3 6);
  Peer 1 6 Follower (AppendDone 2 2);
  Peer 0 6 Follower (AppendOutOfRange 2 2);
  Peer 3 6 Leader (AppendNotSuccess 0 2 2 3);
  Peer 3 6 Leader (AppendSuccess 1);
  Peer 3 6 Leader (TryUpdateCommit 1 3);
  Peer 3 6 Leader (MatchIndexIs [-1; 2; 2; -1; -1]);
  Peer 3 6 Leader (LogsAre [(-1, -1); (2, 4416); (2, 1773)]);
  Peer 3 6 Leader (FinishUpdateCommit 1);
  Peer 3 6 Leader (TryApply 1 1);
  Peer 4 2 Leader (AppendLost 3);
  Peer 3 6 Leader (AppendLost 4);
  Peer 4 2 Leader (AppendLost 0);
  Peer 4 2 Leader (AppendLost 2);
  Peer 4 2 Leader StartHeartBeat;
  Peer 4 2 Leader (AppendTo 0);
  Peer 3 6 Leader StartHeartBeat;
  Peer 3 6 Leader (AppendTo 0);
  Peer 3 6 Leader (AppendTo 1);
  Peer 3 6 Leader (AppendTo 2);
  Peer 4 2 Leader (AppendTo 1);
  Peer 4 2 Leader (AppendTo 2);
  Peer 4 2 Leader (AppendTo 3);
  Peer 3 6 Leader (AppendTo 4);
  Peer 4 2 Leader (SendAppend 3 [2; 2; 3; 3; 1]);
  Peer 3 6 Leader (SendAppend 4 [1; 3; 3; 3; 3]);
  Peer 3 6 Leader (SendAppend 2 [1; 3; 3; 3; 3]);
  Peer 4 2 Leader (SendAppend 0 [2; 2; 3; 3; 1]);
  Peer 3 6 Leader (SendAppend 0 [1; 3; 3; 3; 3]);
  Peer 4 2 Leader (SendAppend 1 [2; 2; 3; 3; 1]);
  Peer 3 6 Leader (SendAppend 1 [1; 3; 3; 3; 3]);
  Peer 4 2 Leader (SendAppend 2 [2; 2; 3; 3; 1]);
  Peer 0 6 Follower (AppendFrom 3 6);
  Peer 0 6 Follower (TryApply (-1) 1);
  Peer 0 6 Follower (Applied (-1) 0 (-1));
  Peer 0 6 Follower (Applied 4416 1 2);
  Peer 0 6 Follower (AppendDone 2 2);
  Peer 3 6 Leader (AppendSuccess 0);
  Peer 3 6 Leader (TryUpdateCommit 1 3);
  Peer 3 6 Leader (MatchIndexIs [2; 2; 2; -1; -1]);
  Peer 3 6 Leader (LogsAre [(-1, -1); (2, 4416); (2, 1773)]);
  Peer 3 6 Leader (FinishUpdateCommit 1);
  Peer 3 6 Leader (TryApply 1 1);
  Peer 1 6 Follower (AppendFrom 3 6);
  Peer 2 6 Follower (AppendFrom 3 6);
  Peer 1 6 Follower (AppendDone 2 2);
  Peer 2 6 Follower (AppendDone 2 2);
  Peer 3 6 Leader (AppendSuccess 1);
  Peer 3 6 Leader (TryUpdateCommit 1 3);
  Peer 3 6 Leader (MatchIndexIs [2; 2; 2; -1; -1]);
  Peer 3 6 Leader (LogsAre [(-1, -1); (2, 4416); (2, 1773)]);
  Peer 3 6 Leader (FinishUpdateCommit 1);
  Peer 3 6 Leader (TryApply 1 1);
  Peer 3 6 Leader (AppendSuccess 2);
  Peer 3 6 Leader (TryUpdateCommit 1 3);
  Peer 3 6 Leader (MatchIndexIs [2; 2; 2; -1; -1]);
  Peer 3 6 Leader (LogsAre [(-1, -1); (2, 4416); (2, 1773)]);
  Peer 3 6 Leader (FinishUpdateCommit 1);
  Peer 3 6 Leader (TryApply 1 1);
  Peer 4 2 Leader (AppendLost 2);
  Peer 3 6 Leader (AppendLost 4);
  Peer 4 2 Leader (AppendLost 1);
  Peer 4 2 Leader (AppendLost 3);
  Peer 4 2 Leader (AppendLost 0);
  Peer 3 6 Leader StartHeartBeat;
  Peer 4 2 Leader StartHeartBeat;
  Peer 4 2 Leader (AppendTo 0);
  Peer 4 2 Leader (AppendTo 1);
  Peer 3 6 Leader (AppendTo 0);
  Peer 4 2 Leader (AppendTo 2);
  Peer 3 6 Leader (AppendTo 1);
  Peer 3 6 Leader (AppendTo 2);
  Peer 3 6 Leader (AppendTo 4);
  Peer 4 2 Leader (AppendTo 3);
  Peer 3 6 Leader (SendAppend 2 [3; 3; 3; 3; 3]);
  Peer 4 2 Leader (SendAppend 1 [2; 2; 3; 3; 1]);
  Peer 3 6 Leader (SendAppend 1 [3; 3; 3; 3; 3]);
  Peer 4 2 Leader (SendAppend 3 [2; 2; 3; 3; 1]);
  Peer 3 6 Leader (SendAppend 0 [3; 3; 3; 3; 3]);
  Peer 4 2 Leader (SendAppend 0 [2; 2; 3; 3; 1]);
  Peer 4 2 Leader (SendAppend 2 [2; 2; 3; 3; 1]);
  Peer 3 6 Leader (SendAppend 4 [3; 3; 3; 3; 3]);
  Peer 4 2 Leader (AppendLost 3);
  Peer 3 6 Leader (AppendLost 4);
  Peer 1 6 Follower (AppendFrom 3 6);
  Peer 2 6 Follower (AppendFrom 3 6);
  Peer 1 6 Follower (AppendDone 2 2);
  Peer 0 6 Follower (AppendFrom 3 6);
  Peer 2 6 Follower (AppendDone 2 2);
  Peer 0 6 Follower (AppendDone 2 2);
  Peer 3 6 Leader (AppendSuccess 1);
  Peer 3 6 Leader (TryUpdateCommit 1 5);
  Peer 3 6 Leader (MatchIndexIs [2; 2; 2; -1; -1]);
  Peer 3 6 Leader (LogsAre [(-1, -1); (2, 4416); (2, 1773); (6, 1565); (6, 9839)]);
  Peer 3 6 Leader (FinishUpdateCommit 1);
  Peer 3 6 Leader (TryApply 1 1);
  Peer 3 6 Leader (AppendSuccess 2);
  Peer 3 6 Leader (TryUpdateCommit 1 5);
  Peer 3 6 Leader (MatchIndexIs [2; 2; 2; -1; -1]);
  Peer 3 6 Leader (LogsAre [(-1, -1); (2, 4416); (2, 1773); (6, 1565); (6, 9839)]);
  Peer 3 6 Leader (FinishUpdateCommit 1);
  Peer 3 6 Leader (TryApply 1 1);
  Peer 3 6 Leader (AppendSuccess 0);
  Peer 3 6 Leader (TryUpdateCommit 1 5);
  Peer 3 6 Leader (MatchIndexIs [2; 2; 2; -1; -1]);
  Peer 3 6 Leader (LogsAre [(-1, -1); (2, 4416); (2, 1773); (6, 1565); (6, 9839)]);
  Peer 3 6 Leader (FinishUpdateCommit 1);
  Peer 3 6 Leader (TryApply 1 1);
  Peer 4 2 Leader (AppendLost 1);
  Peer 4 2 Leader (AppendLost 0);
  Peer 4 2 Leader (AppendLost 2);
  Peer 4 2 Leader StartHeartBeat;
  Peer 4 2 Leader (AppendTo 0);
  Peer 3 6 Leader StartHeartBeat;
  Peer 4 2 Leader (AppendTo 1);
  Peer 3 6 Leader (AppendTo 0);
  Peer 3 6 Leader (AppendTo 1);
  Peer 3 6 Leader (AppendTo 2);
  Peer 3 6 Leader (AppendTo 4);
  Peer 4 2 Leader (AppendTo 2);
  Peer 4 2 Leader (AppendTo 3);
  Peer 3 6 Leader (SendAppend 1 [3; 3; 3; 3; 3]);
  Peer 4 2 Leader (SendAppend 3 [2; 2; 3; 3; 1]);
  Peer 3 6 Leader (SendAppend 0 [3; 3; 3; 3; 3]);
  Peer 4 2 Leader (SendAppend 1 [2; 2; 3; 3; 1]);
  Peer 3 6 Leader (SendAppend 2 [3; 3; 3; 3; 3]);
  Peer 4 2 Leader (SendAppend 0 [2; 2; 3; 3; 1]);
  Peer 4 2 Leader (SendAppend 2 [2; 2; 3; 3; 1]);
  Peer 3 6 Leader (SendAppend 4 [3; 3; 3; 3; 3]);
  Peer 4 2 Leader (AppendLost 3);
  Peer 3 6 Leader (AppendLost 4);
  Peer 4 2 Leader (AppendLost 0);
  Peer 3 6 Leader (AppendLost 1);
  Peer 3 6 Leader (AppendLost 2);
  Peer 4 2 Leader (AppendLost 2);
  Peer 3 6 Leader (AppendLost 0);
  Peer 3 6 Leader StartHeartBeat;
  Peer 4 2 Leader StartHeartBeat;
  Peer 4 2 Leader (AppendTo 0);
  Peer 3 6 Leader (AppendTo 0);
  Peer 3 6 Leader (AppendTo 1);
  Peer 4 2 Leader (AppendTo 1);
  Peer 3 6 Leader (AppendTo 2);
  Peer 3 6 Leader (AppendTo 4);
  Peer 4 2 Leader (AppendTo 2);
  Peer 4 2 Leader (AppendTo 3);
  Peer 4 2 Leader (AppendLost 1);
  Peer 3 6 Leader (SendAppend 1 [3; 3; 3; 3; 3]);
  Peer 4 2 Leader (SendAppend 0 [2; 2; 3; 3; 1])].

(** Lines 756 to 905. *)
Definition run_06 : list Line := [
  Peer 3 6 Leader (SendAppend 0 [3; 3; 3; 3; 3]);
  Peer 3 6 Leader (SendAppend 2 [3; 3; 3; 3; 3]);
  Peer 4 2 Leader (SendAppend 2 [2; 2; 3; 3; 1]);
  Peer 3 6 Leader (SendAppend 4 [3; 3; 3; 3; 3]);
  Peer 4 2 Leader (SendAppend 3 [2; 2; 3; 3; 1]);
  Peer 4 2 Leader (SendAppend 1 [2; 2; 3; 3; 1]);
  Peer 3 6 Leader (AppendLost 1);
  Peer 4 2 Leader (AppendLost 2);
  Peer 4 2 Leader (AppendLost 1);
  Peer 3 6 Leader (AppendLost 4);
  Peer 4 2 Leader (AppendLost 0);
  Peer 4 2 Leader (AppendLost 3);
  Peer 3 6 Leader (AppendLost 2);
  Peer 3 6 Leader (AppendLost 0);
  Peer 3 6 Leader StartHeartBeat;
  Peer 3 6 Leader (AppendTo 0);
  Peer 4 2 Leader StartHeartBeat;
  Peer 3 6 Leader (AppendTo 1);
  Peer 3 6 Leader (AppendTo 2);
  Peer 4 2 Leader (AppendTo 0);
  Peer 4 2 Leader (AppendTo 1);
  Peer 4 2 Leader (AppendTo 2);
  Peer 3 6 Leader (AppendTo 4);
  Peer 4 2 Leader (AppendTo 3);
  Peer 3 6 Leader (SendAppend 0 [3; 3; 3; 3; 3]);
  Peer 4 2 Leader (SendAppend 0 [2; 2; 3; 3; 1]);
  Peer 3 6 Leader (SendAppend 2 [3; 3; 3; 3; 3]);
  Peer 4 2 Leader (SendAppend 2 [2; 2; 3; 3; 1]);
  Peer 3 6 Leader (SendAppend 1 [3; 3; 3; 3; 3]);
  Peer 4 2 Leader (SendAppend 1 [2; 2; 3; 3; 1]);
  Peer 3 6 Leader (SendAppend 4 [3; 3; 3; 3; 3]);
  Peer 4 2 Leader (SendAppend 3 [2; 2; 3; 3; 1]);
  Peer 4 2 Leader (AppendLost 3);
  Peer 3 6 Leader (AppendLost 4);
  Peer 4 2 Leader (AppendLost 1);
  Peer 3 6 Leader (AppendLost 2);
  Peer 3 6 Leader (AppendLost 1);
  Peer 4 2 Leader (AppendLost 0);
  Peer 4 2 Leader (AppendLost 2);
  Peer 4 2 Leader StartHeartBeat;
  Peer 4 2 Leader (AppendTo 0);
  Peer 3 6 Leader StartHeartBeat;
  Peer 3 6 Leader (AppendTo 0);
  Peer 3 6 Leader (AppendTo 1);
  Peer 3 6 Leader (AppendTo 2);
  Peer 3 6 Leader (AppendTo 4);
  Peer 4 2 Leader (AppendTo 1);
  Peer 4 2 Leader (AppendTo 2);
  Peer 4 2 Leader (AppendTo 3);
  Peer 3 6 Leader (SendAppend 4 [3; 3; 3; 3; 3]);
  Peer 4 2 Leader (SendAppend 3 [2; 2; 3; 3; 1]);
  Peer 3 6 Leader (SendAppend 2 [3; 3; 3; 3; 3]);
  Peer 4 2 Leader (SendAppend 2 [2; 2; 3; 3; 1]);
  Peer 3 6 Leader (AppendLost 0);
  Peer 3 6 Leader (SendAppend 0 [3; 3; 3; 3; 3]);
  Peer 4 2 Leader (SendAppend 0 [2; 2; 3; 3; 1]);
  Peer 3 6 Leader (SendAppend 1 [3; 3; 3; 3; 3]);
  Peer 3 6 Leader (AppendLost 4);
  Peer 4 2 Leader (SendAppend 1 [2; 2; 3; 3; 1]);
  Peer 3 6 Leader (AppendLost 0);
  Peer 3 6 Leader (AppendLost 2);
  Peer 3 6 Leader (AppendLost 1);
  Peer 4 2 Leader (AppendLost 0);
  Peer 4 2 Leader (AppendLost 1);
  Peer 4 2 Leader (AppendLost 3);
  Peer 4 2 Leader (AppendLost 2);
  Peer 3 6 Leader StartHeartBeat;
  Peer 3 6 Leader (AppendTo 0);
  Peer 3 6 Leader (AppendTo 1);
  Peer 3 6 Leader (AppendTo 2);
  Peer 4 2 Leader StartHeartBeat;
  Peer 4 2 Leader (AppendTo 0);
  Peer 3 6 Leader (AppendTo 4);
  Peer 4 2 Leader (AppendTo 1);
  Peer 4 2 Leader (AppendTo 2);
  Peer 4 2 Leader (AppendTo 3);
  Peer 4 2 Leader (SendAppend 3 [2; 2; 3; 3; 1]);
  Peer 3 6 Leader (SendAppend 2 [3; 3; 3; 3; 3]);
  Peer 4 2 Leader (SendAppend 0 [2; 2; 3; 3; 1]);
  Peer 3 6 Leader (SendAppend 1 [3; 3; 3; 3; 3]);
  Peer 3 6 Leader (SendAppend 0 [3; 3; 3; 3; 3]);
  Peer 4 2 Leader (SendAppend 1 [2; 2; 3; 3; 1]);
  Peer 3 6 Leader (SendAppend 4 [3; 3; 3; 3; 3]);
  Peer 4 2 Leader (SendAppend 2 [2; 2; 3; 3; 1]);
  Peer 3 6 Leader (AppendLost 4);
  Peer 3 6 Leader (AppendLost 1);
  Peer 4 2 Leader (AppendLost 2);
  Peer 3 6 Leader (AppendLost 0);
  Peer 4 2 Leader (AppendLost 0);
  Peer 3 6 Leader (AppendLost 2);
  Peer 4 2 Leader (AppendLost 1);
  Peer 3 6 Leader StartHeartBeat;
  Peer 3 6 Leader (AppendTo 0);
  Peer 3 6 Leader (AppendTo 1);
  Peer 3 6 Leader (AppendTo 2);
  Peer 3 6 Leader (AppendTo 4);
  Peer 3 6 Leader (SendAppend 4 [3; 3; 3; 3; 3]);
  Peer 4 2 Leader StartHeartBeat;
  Peer 4 2 Leader (AppendTo 0);
  Peer 4 2 Leader (AppendTo 1);
  Peer 4 2 Leader (AppendTo 2);
  Peer 4 2 Leader (AppendTo 3);
  Peer 3 6 Leader (SendAppend 0 [3; 3; 3; 3; 3]);
  Peer 4 2 Leader (SendAppend 1 [2; 2; 3; 3; 1]);
  Peer 3 6 Leader (SendAppend 1 [3; 3; 3; 3; 3]);
  Peer 4 2 Leader (AppendLost 3);
  Peer 4 2 Leader (SendAppend 2 [2; 2; 3; 3; 1]);
  Peer 3 6 Leader (SendAppend 2 [3; 3; 3; 3; 3]);
  Peer 4 2 Leader (SendAppend 3 [2; 2; 3; 3; 1]);
  Peer 4 2 Leader (SendAppend 0 [2; 2; 3; 3; 1]);
  Peer 4 2 Leader (AppendLost 0);
  Peer 4 2 Leader (AppendLost 2);
  Peer 4 2 Leader (AppendLost 3);
  Peer 3 6 Leader (AppendLost 0);
  Peer 3 6 Leader (AppendLost 2);
  Peer 3 6 Leader (AppendLost 1);
  Peer 3 6 Leader (AppendLost 4);
  Peer 4 2 Leader (AppendLost 1);
  Peer 4 2 Leader StartHeartBeat;
  Peer 4 2 Leader (AppendTo 0);
  Peer 4 2 Leader (AppendTo 1);
  Peer 4 2 Leader (AppendTo 2);
  Peer 4 2 Leader (AppendTo 3);
  Peer 0 6 Follower StartElection;
  Peer 3 6 Leader StartHeartBeat;
  Peer 3 6 Leader (AppendTo 0);
  Peer 4 2 Leader (SendAppend 3 [2; 2; 3; 3; 1]);
  Peer 3 6 Leader (AppendTo 1);
  Peer 3 6 Leader (AppendTo 2);
  Peer 3 6 Leader (AppendTo 4);
  Peer 3 6 Leader (SendAppend 4 [3; 3; 3; 3; 3]);
  Peer 3 6 Leader (SendAppend 1 [3; 3; 3; 3; 3]);
  Peer 0 7 Candidate BecomeCandidate;
  Peer 0 7 Candidate (RequestVoteTo 1);
  Peer 0 7 Candidate (RequestVoteTo 2);
  Peer 0 7 Candidate (RequestVoteTo 3);
  Peer 0 7 Candidate (RequestVoteTo 4);
  Peer 3 6 Leader (SendAppend 2 [3; 3; 3; 3; 3]);
  Peer 3 6 Leader (SendAppend 0 [3; 3; 3; 3; 3]);
  Peer 0 7 Candidate (RequestVoteLost 2);
  Peer 4 2 Leader (SendAppend 0 [2; 2; 3; 3; 1]);
  Peer 4 2 Leader (SendAppend 1 [2; 2; 3; 3; 1]);
  Peer 4 2 Leader (SendAppend 2 [2; 2; 3; 3; 1]);
  Peer 1 6 Follower (ReceiveRequestVote (-1) 0 7);
  Peer 1 6 Follower (VoteArgs 7 2 2 2 3);
  Peer 1 6 Follower (HandlerCommit 1 1);
  Peer 1 6 Follower (SelfTermLower 0);
  Peer 1 7 Follower (CompareLogs 2 2 2 2);
  Peer 1 7 Follower (Granted 7 2 2 2 3);
  Peer 1 7 Follower (HandlerCommit 1 1)].

(** Lines 906 to 1055. *)
Definition run_07 : list Line := [
  Peer 0 7 Candidate (RequestVoteLost 1);
  Peer 3 6 Leader (AppendLost 1);
  Peer 3 6 Leader (AppendLost 0);
  Peer 0 7 Candidate (RequestVoteLost 4);
  Peer 4 2 Leader (AppendLost 2);
  Peer 0 7 Candidate (RequestVoteLost 3);
  Peer 4 2 Leader (AppendLost 0);
  Peer 4 2 Leader (AppendLost 1);
  Peer 4 2 Leader (AppendLost 3);
  Peer 3 6 Leader (AppendLost 4);
  Peer 3 6 Leader StartHeartBeat;
  Peer 3 6 Leader (AppendTo 0);
  Peer 3 6 Leader (AppendTo 1);
  Peer 3 6 Leader (AppendTo 2);
  Peer 3 6 Leader (AppendTo 4);
  Peer 4 2 Leader StartHeartBeat;
  Peer 4 2 Leader (AppendTo 0);
  Peer 4 2 Leader (AppendTo 1);
  Peer 4 2 Leader (AppendTo 2);
  Peer 3 6 Leader (SendAppend 0 [3; 3; 3; 3; 3]);
  Peer 4 2 Leader (AppendTo 3);
  Peer 3 6 Leader (AppendLost 2);
  Peer 3 6 Leader (SendAppend 1 [3; 3; 3; 3; 3]);
  Peer 4 2 Leader (SendAppend 2 [2; 2; 3; 3; 1]);
  Peer 3 6 Leader (SendAppend 2 [3; 3; 3; 3; 3]);
  Peer 4 2 Leader (SendAppend 1 [2; 2; 3; 3; 1]);
  Peer 3 6 Leader (AppendLost 0);
  Peer 4 2 Leader (SendAppend 0 [2; 2; 3; 3; 1]);
  Peer 3 6 Leader (SendAppend 4 [3; 3; 3; 3; 3]);
  Peer 4 2 Leader (SendAppend 3 [2; 2; 3; 3; 1]);
  Peer 3 6 Leader (AppendLost 2);
  Peer 3 6 Leader (AppendLost 4);
  Peer 4 2 Leader (AppendLost 0);
  Peer 3 6 Leader (AppendLost 1);
  Peer 4 2 Leader (AppendLost 1);
  Peer 4 2 Leader StartHeartBeat;
  Peer 4 2 Leader (AppendTo 0);
  Peer 4 2 Leader (AppendTo 1);
  Peer 4 2 Leader (AppendTo 2);
  Peer 3 6 Leader StartHeartBeat;
  Peer 3 6 Leader (AppendTo 0);
  Peer 3 6 Leader (AppendTo 1);
  Peer 4 2 Leader (AppendTo 3);
  Peer 2 6 Follower StartElection;
  Peer 4 2 Leader (AppendLost 3);
  Peer 3 6 Leader (AppendTo 2);
  Peer 3 6 Leader (AppendTo 4);
  Peer 4 2 Leader (SendAppend 3 [2; 2; 3; 3; 1]);
  Peer 3 6 Leader (SendAppend 1 [3; 3; 3; 3; 3]);
  Peer 2 7 Candidate BecomeCandidate;
  Peer 2 7 Candidate (RequestVoteTo 0);
  Peer 3 6 Leader (SendAppend 2 [3; 3; 3; 3; 3]);
  Peer 3 6 Leader (SendAppend 4 [3; 3; 3; 3; 3]);
  Peer 3 6 Leader (SendAppend 0 [3; 3; 3; 3; 3]);
  Peer 4 2 Leader (SendAppend 2 [2; 2; 3; 3; 1]);
  Peer 2 7 Candidate (RequestVoteTo 1);
  Peer 2 7 Candidate (RequestVoteTo 3);
  Peer 2 7 Candidate (RequestVoteTo 4);
  Peer 4 2 Leader (SendAppend 0 [2; 2; 3; 3; 1]);
  Peer 4 2 Leader (AppendLost 2);
  Peer 4 2 Leader (SendAppend 1 [2; 2; 3; 3; 1]);
  Peer 3 6 Leader (AppendLost 1);
  Peer 1 7 Follower (ReceiveRequestVote 0 2 7);
  Peer 1 7 Follower (VoteArgs 7 2 2 2 3);
  Peer 1 7 Follower (HandlerCommit 1 1);
  Peer 1 7 Follower (CompareLogs 2 2 2 2);
  Peer 1 7 Follower Refused;
  Peer 2 7 Candidate (RequestVoteLost 1);
  Peer 3 6 Leader (AppendLost 2);
  Peer 3 6 Leader (AppendLost 0);
  Peer 4 2 Leader (AppendLost 3);
  Peer 2 7 Candidate (RequestVoteLost 0);
  Peer 2 7 Candidate (RequestVoteLost 4);
  Peer 2 7 Candidate (RequestVoteLost 3);
  Peer 4 2 Leader (AppendLost 1);
  Peer 4 2 Leader (AppendLost 0);
  Peer 3 6 Leader (AppendLost 4);
  Peer 4 2 Leader (AppendLost 2);
  Peer 3 6 Leader StartHeartBeat;
  Peer 3 6 Leader (AppendTo 0);
  Peer 3 6 Leader (AppendTo 1);
  Peer 3 6 Leader (AppendTo 2);
  Peer 3 6 Leader (AppendTo 4);
  Peer 3 6 Leader (SendAppend 4 [3; 3; 3; 3; 3]);
  Peer 4 2 Leader StartHeartBeat;
  Peer 4 2 Leader (AppendTo 0);
  Peer 4 2 Leader (AppendTo 1);
  Peer 3 6 Leader (SendAppend 1 [3; 3; 3; 3; 3]);
  Peer 4 2 Leader (AppendTo 2);
  Peer 4 2 Leader (AppendTo 3);
  Peer 4 2 Leader (SendAppend 1 [2; 2; 3; 3; 1]);
  Peer 3 6 Leader (SendAppend 0 [3; 3; 3; 3; 3]);
  Peer 4 2 Leader (SendAppend 2 [2; 2; 3; 3; 1]);
  Peer 4 2 Leader (SendAppend 3 [2; 2; 3; 3; 1]);
  Peer 3 6 Leader (SendAppend 2 [3; 3; 3; 3; 3]);
  Peer 4 2 Leader (SendAppend 0 [2; 2; 3; 3; 1]);
  Peer 3 6 Leader (AppendLost 4);
  Peer 3 6 Leader (AppendLost 2);
  Peer 3 6 Leader (AppendLost 1);
  Peer 4 2 Leader (AppendLost 3);
  Peer 4 2 Leader (AppendLost 2);
  Peer 4 2 Leader (AppendLost 0);
  Peer 3 6 Leader (AppendLost 0);
  Peer 4 2 Leader (AppendLost 1);
  Peer 4 2 Leader StartHeartBeat;
  Peer 3 6 Leader StartHeartBeat;
  Peer 3 6 Leader (AppendTo 0);
  Peer 4 2 Leader (AppendTo 0);
  Peer 4 2 Leader (AppendTo 1);
  Peer 3 6 Leader (AppendTo 1);
  Peer 3 6 Leader (AppendTo 2);
  Peer 3 6 Leader (AppendTo 4);
  Peer 4 2 Leader (AppendTo 2);
  Peer 4 2 Leader (AppendTo 3);
  Peer 3 6 Leader (SendAppend 0 [3; 3; 3; 3; 3]);
  Peer 4 2 Leader (SendAppend 1 [2; 2; 3; 3; 1]);
  Peer 4 2 Leader (SendAppend 3 [2; 2; 3; 3; 1]);
  Peer 3 6 Leader (SendAppend 4 [3; 3; 3; 3; 3]);
  Peer 3 6 Leader (SendAppend 1 [3; 3; 3; 3; 3]);
  Peer 3 6 Leader (SendAppend 2 [3; 3; 3; 3; 3]);
  Peer 4 2 Leader (SendAppend 0 [2; 2; 3; 3; 1]);
  Peer 4 2 Leader (SendAppend 2 [2; 2; 3; 3; 1]);
  Peer 4 2 Leader (AppendLost 3);
  Peer 4 2 Leader (AppendLost 0);
  Peer 4 2 Leader (AppendLost 2);
  Peer 4 2 Leader (AppendLost 1);
  Peer 3 6 Leader (AppendLost 4);
  Peer 3 6 Leader (AppendLost 2);
  Peer 3 6 Leader (AppendLost 0);
  Peer 3 6 Leader (AppendLost 1);
  Peer 3 6 Leader StartHeartBeat;
  Peer 4 2 Leader StartHeartBeat;
  Peer 4 2 Leader (AppendTo 0);
  Peer 4 2 Leader (AppendTo 1);
  Peer 4 2 Leader (AppendTo 2);
  Peer 4 2 Leader (AppendTo 3);
  Peer 3 6 Leader (AppendTo 0);
  Peer 3 6 Leader (AppendTo 1);
  Peer 3 6 Leader (AppendTo 2);
  Peer 4 2 Leader (SendAppend 3 [2; 2; 3; 3; 1]);
  Peer 3 6 Leader (AppendTo 4);
  Peer 4 2 Leader (SendAppend 1 [2; 2; 3; 3; 1]);
  Peer 3 6 Leader (SendAppend 0 [3; 3; 3; 3; 3]);
  Peer 3 6 Leader (SendAppend 4 [3; 3; 3; 3; 3]);
  Peer 3 6 Leader (SendAppend 2 [3; 3; 3; 3; 3]);
  Peer 4 2 Leader (SendAppend 0 [2; 2; 3; 3; 1]);
  Peer 4 2 Leader (SendAppend 2 [2; 2; 3; 3; 1]);
  Peer 3 6 Leader (SendAppend 1 [3; 3; 3; 3; 3]);
  Peer 4 2 Leader (AppendLost 0);
  Peer 3 6 Leader (AppendLost 0)].

(** Lines 1056 to 1205. *)
Definition run_08 : list Line := [
  Peer 3 6 Leader (AppendLost 1);
  Peer 3 6 Leader (AppendLost 4);
  Peer 3 6 Leader (AppendLost 2);
  Peer 4 2 Leader (AppendLost 1);
  Peer 4 2 Leader (AppendLost 2);
  Peer 4 2 Leader StartHeartBeat;
  Peer 4 2 Leader (AppendTo 0);
  Peer 3 6 Leader StartHeartBeat;
  Peer 3 6 Leader (AppendTo 0);
  Peer 4 2 Leader (AppendTo 1);
  Peer 4 2 Leader (AppendTo 2);
  Peer 4 2 Leader (AppendTo 3);
  Peer 3 6 Leader (AppendTo 1);
  Peer 3 6 Leader (AppendTo 2);
  Peer 4 2 Leader (SendAppend 1 [2; 2; 3; 3; 1]);
  Peer 3 6 Leader (AppendTo 4);
  Peer 4 2 Leader (AppendLost 3);
  Peer 3 6 Leader (SendAppend 0 [3; 3; 3; 3; 3]);
  Peer 4 2 Leader (SendAppend 0 [2; 2; 3; 3; 1]);
  Peer 3 6 Leader (SendAppend 2 [3; 3; 3; 3; 3]);
  Peer 3 6 Leader (SendAppend 4 [3; 3; 3; 3; 3]);
  Peer 3 6 Leader (SendAppend 1 [3; 3; 3; 3; 3]);
  Peer 4 2 Leader (SendAppend 3 [2; 2; 3; 3; 1]);
  Peer 4 2 Leader (SendAppend 2 [2; 2; 3; 3; 1]);
  Peer 3 6 Leader (AppendLost 1);
  Peer 4 2 Leader (AppendLost 0);
  Peer 3 6 Leader (AppendLost 4);
  Peer 4 2 Leader (AppendLost 2);
  Peer 4 2 Leader (AppendLost 1);
  Peer 3 6 Leader (AppendLost 0);
  Peer 4 2 Leader (AppendLost 3);
  Peer 4 2 Leader StartHeartBeat;
  Peer 4 2 Leader (AppendTo 0);
  Peer 4 2 Leader (AppendTo 1);
  Peer 4 2 Leader (AppendTo 2);
  Peer 4 2 Leader (AppendTo 3);
  Peer 4 2 Leader (SendAppend 3 [2; 2; 3; 3; 1]);
  Peer 3 6 Leader StartHeartBeat;
  Peer 3 6 Leader (AppendTo 0);
  Peer 3 6 Leader (AppendTo 1);
  Peer 3 6 Leader (AppendTo 2);
  Peer 3 6 Leader (AppendTo 4);
  Peer 0 7 Candidate StartElection;
  Peer 3 6 Leader (SendAppend 4 [3; 3; 3; 3; 3]);
  Peer 3 6 Leader (SendAppend 0 [3; 3; 3; 3; 3]);
  Peer 0 8 Candidate BecomeCandidate;
  Peer 0 8 Candidate (RequestVoteTo 1);
  Peer 0 8 Candidate (RequestVoteTo 2);
  Peer 0 8 Candidate (RequestVoteTo 3);
  Peer 0 8 Candidate (RequestVoteTo 4);
  Peer 3 6 Leader (SendAppend 1 [3; 3; 3; 3; 3]);
  Peer 4 2 Leader (SendAppend 1 [2; 2; 3; 3; 1]);
  Peer 4 2 Leader (SendAppend 2 [2; 2; 3; 3; 1]);
  Peer 3 6 Leader (SendAppend 2 [3; 3; 3; 3; 3]);
  Peer 3 6 Leader (AppendLost 2);
  Peer 4 2 Leader (SendAppend 0 [2; 2; 3; 3; 1]);
  Peer 4 2 Leader (AppendLost 0);
  Peer 3 6 Leader (AppendLost 4);
  Peer 0 8 Candidate (RequestVoteLost 4);
  Peer 4 2 Leader (AppendLost 1);
  Peer 1 7 Follower (ReceiveRequestVote 0 0 8);
  Peer 1 7 Follower (VoteArgs 8 2 2 2 3);
  Peer 1 7 Follower (HandlerCommit 1 1);
  Peer 1 7 Follower (SelfTermLower 0);
  Peer 1 8 Follower (CompareLogs 2 2 2 2);
  Peer 1 8 Follower (Granted 8 2 2 2 3);
  Peer 1 8 Follower (HandlerCommit 1 1);
  Peer 0 8 Candidate (VoteReply 1 8 true);
  Peer 0 8 Candidate (SenderCommit 1 1);
  Peer 0 8 Candidate (VoteGained 1);
  Peer 0 8 Candidate (CheckElection 2 5);
  Peer 3 6 Leader (AppendLost 0);
  Peer 2 7 Candidate (ReceiveRequestVote 2 0 8);
  Peer 2 7 Candidate (VoteArgs 8 2 2 2 3);
  Peer 2 7 Candidate (HandlerCommit 1 1);
  Peer 2 7 Candidate (SelfTermLower 0);
  Peer 2 8 Follower (CompareLogs 2 2 2 2);
  Peer 2 8 Follower (Granted 8 2 2 2 3);
  Peer 2 8 Follower (HandlerCommit 1 1);
  Peer 0 8 Candidate (VoteReply 2 8 true);
  Peer 0 8 Candidate (SenderCommit 1 1);
  Peer 0 8 Candidate (VoteGained 2);
  Peer 0 8 Candidate (CheckElection 3 5);
  Peer 0 9 Leader BecomesLeader;
  Peer 0 9 Leader StartHeartBeat;
  Peer 0 9 Leader (AppendTo 1);
  Peer 0 9 Leader (AppendTo 2);
  Peer 0 9 Leader (AppendTo 3);
  Peer 0 9 Leader (AppendTo 4);
  Peer 3 6 Leader (AppendLost 1);
  Peer 0 9 Leader (SendAppend 1 [3; 3; 3; 3; 3]);
  Peer 0 9 Leader (SendAppend 4 [3; 3; 3; 3; 3]);
  Peer 0 9 Leader (SendAppend 2 [3; 3; 3; 3; 3]);
  Peer 0 9 Leader (SendAppend 3 [3; 3; 3; 3; 3]);
  Peer 4 2 Leader (AppendLost 2);
  Peer 3 6 Leader (AppendLost 2);
  Peer 2 8 Follower (AppendFrom 0 9);
  Peer 2 9 Follower (AppendDone 2 2);
  Peer 0 9 Leader (AppendSuccess 2);
  Peer 0 9 Leader (TryUpdateCommit 1 3);
  Peer 0 9 Leader (MatchIndexIs [-1; -1; 2; -1; -1]);
  Peer 0 9 Leader (LogsAre [(-1, -1); (2, 4416); (2, 1773)]);
  Peer 0 9 Leader (FinishUpdateCommit 1);
  Peer 0 9 Leader (TryApply 1 1);
  Peer 4 2 Leader (AppendLost 3);
  Peer 1 8 Follower (AppendFrom 0 9);
  Peer 1 9 Follower (AppendDone 2 2);
  Peer 0 9 Leader (AppendSuccess 1);
  Peer 0 9 Leader (TryUpdateCommit 1 4);
  Peer 0 9 Leader (MatchIndexIs [-1; 2; 2; -1; -1]);
  Peer 0 9 Leader (LogsAre [(-1, -1); (2, 4416); (2, 1773); (9, 6869)]);
  Peer 0 9 Leader (FinishUpdateCommit 1);
  Peer 0 9 Leader (TryApply 1 1);
  Peer 0 9 Leader (RequestVoteLost 3);
  Peer 4 2 Leader StartHeartBeat;
  Peer 4 2 Leader (AppendTo 0);
  Peer 3 6 Leader StartHeartBeat;
  Peer 4 2 Leader (AppendTo 1);
  Peer 3 6 Leader (AppendTo 0);
  Peer 4 2 Leader (AppendTo 2);
  Peer 3 6 Leader (AppendTo 1);
  Peer 3 6 Leader (AppendTo 2);
  Peer 3 6 Leader (AppendTo 4);
  Peer 0 9 Leader StartHeartBeat;
  Peer 0 9 Leader (AppendTo 1);
  Peer 3 6 Leader (SendAppend 4 [3; 3; 3; 3; 3]);
  Peer 4 2 Leader (AppendTo 3);
  Peer 0 9 Leader (AppendTo 2);
  Peer 3 6 Leader (SendAppend 0 [3; 3; 3; 3; 3]);
  Peer 0 9 Leader (AppendTo 3);
  Peer 0 9 Leader (AppendTo 4);
  Peer 0 9 Leader (SendAppend 1 [3; 3; 3; 3; 3]);
  Peer 3 6 Leader (SendAppend 1 [3; 3; 3; 3; 3]);
  Peer 4 2 Leader (SendAppend 0 [2; 2; 3; 3; 1]);
  Peer 0 9 Leader (SendAppend 2 [3; 3; 3; 3; 3]);
  Peer 0 9 Leader (SendAppend 3 [3; 3; 3; 3; 3]);
  Peer 3 6 Leader (SendAppend 2 [3; 3; 3; 3; 3]);
  Peer 0 9 Leader (SendAppend 4 [3; 3; 3; 3; 3]);
  Peer 4 2 Leader (SendAppend 2 [2; 2; 3; 3; 1]);
  Peer 4 2 Leader (SendAppend 1 [2; 2; 3; 3; 1]);
  Peer 4 2 Leader (SendAppend 3 [2; 2; 3; 3; 1]);
  Peer 0 9 Leader (AppendLost 2);
  Peer 0 9 Leader (AppendLost 4);
  Peer 2 9 Follower (AppendFrom 4 2);
  Peer 2 9 Follower AppendTermSmaller;
  Peer 1 9 Follower (AppendFrom 4 2);
  Peer 1 9 Follower AppendTermSmaller;
  Peer 4 2 Leader (AppendLost 2);
  Peer 4 2 Leader (AppendLost 1);
  Peer 3 6 Leader (AppendLost 1)].

(** Lines 1206 to 1355. *)
Definition run_09 : list Line := [
  Peer 3 6 Leader (AppendLost 4);
  Peer 0 9 Leader (AppendLost 3);
  Peer 0 9 Leader (AppendLost 3);
  Peer 0 9 Leader (AppendLost 4);
  Peer 4 2 Leader (AppendLost 0);
  Peer 4 2 Leader (AppendLost 3);
  Peer 3 6 Leader (AppendLost 2);
  Peer 3 6 Leader (AppendLost 0);
  Peer 0 9 Leader (AppendLost 1);
  Peer 4 2 Leader StartHeartBeat;
  Peer 4 2 Leader (AppendTo 0);
  Peer 0 9 Leader StartHeartBeat;
  Peer 4 2 Leader (AppendTo 1);
  Peer 0 9 Leader (AppendTo 1);
  Peer 0 9 Leader (AppendTo 2);
  Peer 0 9 Leader (AppendTo 3);
  Peer 3 6 Leader StartHeartBeat;
  Peer 4 2 Leader (AppendTo 2);
  Peer 3 6 Leader (AppendTo 0);
  Peer 3 6 Leader (AppendTo 1);
  Peer 3 6 Leader (AppendTo 2);
  Peer 0 9 Leader (AppendTo 4);
  Peer 4 2 Leader (AppendTo 3);
  Peer 3 6 Leader (AppendTo 4);
  Peer 4 2 Leader (SendAppend 0 [2; 2; 3; 3; 1]);
  Peer 0 9 Leader (SendAppend 3 [3; 3; 3; 3; 3]);
  Peer 4 2 Leader (SendAppend 1 [2; 2; 3; 3; 1]);
  Peer 3 6 Leader (SendAppend 2 [3; 3; 3; 3; 3]);
  Peer 0 9 Leader (SendAppend 1 [3; 3; 3; 3; 3]);
  Peer 3 6 Leader (SendAppend 0 [3; 3; 3; 3; 3]);
  Peer 0 9 Leader (SendAppend 2 [3; 3; 3; 3; 3]);
  Peer 4 2 Leader (SendAppend 2 [2; 2; 3; 3; 1]);
  Peer 3 6 Leader (SendAppend 1 [3; 3; 3; 3; 3]);
  Peer 0 9 Leader (SendAppend 4 [3; 3; 3; 3; 3]);
  Peer 3 6 Leader (SendAppend 4 [3; 3; 3; 3; 3]);
  Peer 4 2 Leader (SendAppend 3 [2; 2; 3; 3; 1]);
  Peer 4 2 Leader (AppendLost 3);
  Peer 4 2 Leader (AppendLost 0);
  Peer 3 6 Leader (AppendLost 2);
  Peer 3 6 Leader (AppendLost 0);
  Peer 3 6 Leader (AppendLost 1);
  Peer 4 2 Leader (AppendLost 1);
  Peer 0 9 Leader (AppendLost 2);
  Peer 3 6 Leader (AppendLost 4);
  Peer 4 2 Leader (AppendLost 2);
  Peer 0 9 Leader (AppendLost 3);
  Peer 0 9 Leader StartHeartBeat;
  Peer 0 9 Leader (AppendTo 1);
  Peer 0 9 Leader (AppendTo 2);
  Peer 0 9 Leader (AppendTo 3);
  Peer 0 9 Leader (AppendTo 4);
  Peer 0 9 Leader (AppendLost 1);
  Peer 4 2 Leader StartHeartBeat;
  Peer 4 2 Leader (AppendTo 0);
  Peer 4 2 Leader (AppendTo 1);
  Peer 4 2 Leader (AppendTo 2);
  Peer 0 9 Leader (SendAppend 3 [3; 3; 3; 3; 3]);
  Peer 4 2 Leader (AppendTo 3);
  Peer 4 2 Leader (SendAppend 2 [2; 2; 3; 3; 1]);
  Peer 0 9 Leader (SendAppend 4 [3; 3; 3; 3; 3]);
  Peer 0 9 Leader (AppendLost 4);
  Peer 3 6 Leader StartHeartBeat;
  Peer 3 6 Leader (AppendTo 0);
  Peer 3 6 Leader (AppendTo 1);
  Peer 3 6 Leader (AppendTo 2);
  Peer 3 6 Leader (AppendTo 4);
  Peer 4 2 Leader (SendAppend 0 [2; 2; 3; 3; 1]);
  Peer 3 6 Leader (SendAppend 4 [3; 3; 3; 3; 3]);
  Peer 0 9 Leader (SendAppend 1 [3; 3; 3; 3; 3]);
  Peer 3 6 Leader (SendAppend 1 [3; 3; 3; 3; 3]);
  Peer 0 9 Leader (SendAppend 2 [3; 3; 3; 3; 3]);
  Peer 4 2 Leader (SendAppend 1 [2; 2; 3; 3; 1]);
  Peer 3 6 Leader (SendAppend 2 [3; 3; 3; 3; 3]);
  Peer 4 2 Leader (SendAppend 3 [2; 2; 3; 3; 1]);
  Peer 3 6 Leader (SendAppend 0 [3; 3; 3; 3; 3]);
  Peer 3 6 Leader (AppendLost 1);
  Peer 1 9 Follower (AppendFrom 4 2);
  Peer 1 9 Follower AppendTermSmaller;
  Peer 4 2 Leader (AppendLost 1);
  Peer 3 6 Leader (AppendLost 2);
  Peer 2 9 Follower (AppendFrom 4 2);
  Peer 2 9 Follower AppendTermSmaller;
  Peer 4 2 Leader (AppendLost 2);
  Peer 3 6 Leader (AppendLost 0);
  Peer 0 9 Leader (AppendLost 1);
  Peer 3 6 Leader (AppendLost 4);
  Peer 0 9 Leader (AppendLost 3);
  Peer 0 9 Leader (AppendLost 2);
  Peer 4 2 Leader (AppendLost 3);
  Peer 0 9 Leader (AppendLost 4);
  Peer 4 2 Leader (AppendLost 0);
  Peer 0 9 Leader StartHeartBeat;
  Peer 0 9 Leader (AppendTo 1);
  Peer 0 9 Leader (AppendTo 2);
  Peer 0 9 Leader (AppendTo 3);
  Peer 3 6 Leader StartHeartBeat;
  Peer 4 2 Leader StartHeartBeat;
  Peer 4 2 Leader (AppendTo 0);
  Peer 3 6 Leader (AppendTo 0);
  Peer 3 6 Leader (AppendTo 1);
  Peer 0 9 Leader (AppendTo 4);
  Peer 4 2 Leader (AppendTo 1);
  Peer 4 2 Leader (AppendTo 2);
  Peer 4 2 Leader (AppendTo 3);
  Peer 3 6 Leader (AppendTo 2);
  Peer 3 6 Leader (AppendTo 4);
  Peer 4 2 Leader (SendAppend 0 [2; 2; 3; 3; 1]);
  Peer 0 9 Leader (SendAppend 3 [3; 3; 3; 3; 3]);
  Peer 3 6 Leader (SendAppend 1 [3; 3; 3; 3; 3]);
  Peer 0 9 Leader (SendAppend 4 [3; 3; 3; 3; 3]);
  Peer 3 6 Leader (SendAppend 2 [3; 3; 3; 3; 3]);
  Peer 4 2 Leader (SendAppend 1 [2; 2; 3; 3; 1]);
  Peer 4 2 Leader (SendAppend 3 [2; 2; 3; 3; 1]);
  Peer 0 9 Leader (SendAppend 2 [3; 3; 3; 3; 3]);
  Peer 3 6 Leader (SendAppend 4 [3; 3; 3; 3; 3]);
  Peer 4 2 Leader (SendAppend 2 [2; 2; 3; 3; 1]);
  Peer 0 9 Leader (SendAppend 1 [3; 3; 3; 3; 3]);
  Peer 3 6 Leader (SendAppend 0 [3; 3; 3; 3; 3]);
  Peer 3 6 Leader (AppendLost 2);
  Peer 4 2 Leader (AppendLost 3);
  Peer 3 6 Leader (AppendLost 1);
  Peer 4 2 Leader (AppendLost 0);
  Peer 0 9 Leader (AppendLost 4);
  Peer 0 9 Leader (AppendLost 3);
  Peer 0 9 Leader (AppendLost 1);
  Peer 4 2 Leader (AppendLost 2);
  Peer 3 6 Leader (AppendLost 4);
  Peer 4 2 Leader (AppendLost 1);
  Peer 3 6 Leader (AppendLost 0);
  Peer 0 9 Leader (AppendLost 2);
  Peer 0 9 Leader StartHeartBeat;
  Peer 0 9 Leader (AppendTo 1);
  Peer 0 9 Leader (AppendTo 2);
  Peer 0 9 Leader (AppendTo 3);
  Peer 0 9 Leader (AppendTo 4);
  Peer 0 9 Leader (SendAppend 4 [3; 3; 3; 3; 3]);
  Peer 0 9 Leader (SendAppend 1 [3; 3; 3; 3; 3]);
  Peer 3 6 Leader StartHeartBeat;
  Peer 3 6 Leader (AppendTo 0);
  Peer 4 2 Leader StartHeartBeat;
  Peer 4 2 Leader (AppendTo 0);
  Peer 4 2 Leader (AppendTo 1);
  Peer 3 6 Leader (AppendTo 1);
  Peer 0 9 Leader (SendAppend 2 [3; 3; 3; 3; 3]);
  Peer 4 2 Leader (AppendTo 2);
  Peer 4 2 Leader (AppendTo 3);
  Peer 3 6 Leader (AppendTo 2);
  Peer 4 2 Leader (SendAppend 0 [2; 2; 3; 3; 1]);
  Peer 3 6 Leader (AppendTo 4);
  Peer 4 2 Leader (SendAppend 3 [2; 2; 3; 3; 1])].

(** Lines 1356 to 1505. *)
Definition run_10 : list Line := [
  Peer 4 2 Leader (SendAppend 2 [2; 2; 3; 3; 1]);
  Peer 0 9 Leader (SendAppend 3 [3; 3; 3; 3; 3]);
  Peer 4 2 Leader (SendAppend 1 [2; 2; 3; 3; 1]);
  Peer 3 6 Leader (SendAppend 0 [3; 3; 3; 3; 3]);
  Peer 3 6 Leader (SendAppend 1 [3; 3; 3; 3; 3]);
  Peer 3 6 Leader (SendAppend 2 [3; 3; 3; 3; 3]);
  Peer 3 6 Leader (SendAppend 4 [3; 3; 3; 3; 3]);
  Peer 3 6 Leader (AppendLost 2);
  Peer 0 9 Leader (AppendLost 1);
  Peer 4 2 Leader (AppendLost 1);
  Peer 3 6 Leader (AppendLost 0);
  Peer 4 2 Leader (AppendLost 0);
  Peer 3 6 Leader (AppendLost 4);
  Peer 0 9 Leader (AppendLost 2);
  Peer 0 9 Leader (AppendLost 3);
  Peer 3 6 Leader (AppendLost 1);
  Peer 4 2 Leader (AppendLost 3);
  Peer 4 2 Leader (AppendLost 2);
  Peer 3 6 Leader StartHeartBeat;
  Peer 3 6 Leader (AppendTo 0);
  Peer 4 2 Leader StartHeartBeat;
  Peer 3 6 Leader (AppendTo 1);
  Peer 4 2 Leader (AppendTo 0);
  Peer 4 2 Leader (AppendTo 1);
  Peer 3 6 Leader (AppendTo 2);
  Peer 0 9 Leader (AppendLost 4);
  Peer 3 6 Leader (AppendTo 4);
  Peer 0 9 Leader StartHeartBeat;
  Peer 0 9 Leader (AppendTo 1);
  Peer 0 9 Leader (AppendTo 2);
  Peer 0 9 Leader (AppendTo 3);
  Peer 0 9 Leader (AppendTo 4);
  Peer 3 6 Leader (SendAppend 0 [3; 3; 3; 3; 3]);
  Peer 3 6 Leader (SendAppend 4 [3; 3; 3; 3; 3]);
  Peer 0 9 Leader (SendAppend 4 [3; 3; 3; 3; 3]);
  Peer 4 2 Leader (AppendTo 2);
  Peer 4 2 Leader (AppendTo 3);
  Peer 4 2 Leader (SendAppend 1 [2; 2; 3; 3; 1]);
  Peer 0 9 Leader (SendAppend 1 [3; 3; 3; 3; 3]);
  Peer 3 6 Leader (SendAppend 1 [3; 3; 3; 3; 3]);
  Peer 4 2 Leader (SendAppend 2 [2; 2; 3; 3; 1]);
  Peer 4 2 Leader (SendAppend 3 [2; 2; 3; 3; 1]);
  Peer 4 2 Leader (SendAppend 0 [2; 2; 3; 3; 1]);
  Peer 3 6 Leader (SendAppend 2 [3; 3; 3; 3; 3]);
  Peer 0 9 Leader (SendAppend 2 [3; 3; 3; 3; 3]);
  Peer 0 9 Leader (SendAppend 3 [3; 3; 3; 3; 3]);
  Peer 3 6 Leader (AppendLost 4);
  Peer 4 2 Leader (AppendLost 3);
  Peer 0 9 Leader (AppendLost 3);
  Peer 4 2 Leader (AppendLost 1);
  Peer 3 6 Leader (AppendLost 2);
  Peer 0 9 Leader (AppendLost 1);
  Peer 3 6 Leader (AppendLost 0);
  Peer 4 2 Leader (AppendLost 0);
  Peer 3 6 Leader (AppendLost 1);
  Peer 0 9 Leader (AppendLost 4);
  Peer 4 2 Leader (AppendLost 2);
  Peer 0 9 Leader (AppendLost 2);
  Peer 1 9 Follower StartElection;
  Peer 3 6 Leader StartHeartBeat;
  Peer 1 10 Candidate BecomeCandidate;
  Peer 1 10 Candidate (RequestVoteTo 0);
  Peer 3 6 Leader (AppendTo 0);
  Peer 3 6 Leader (AppendTo 1);
  Peer 1 10 Candidate (RequestVoteTo 2);
  Peer 1 10 Candidate (RequestVoteTo 3);
  Peer 1 10 Candidate (RequestVoteTo 4);
  Peer 3 6 Leader (AppendTo 2);
  Peer 3 6 Leader (AppendTo 4);
  Peer 4 2 Leader StartHeartBeat;
  Peer 4 2 Leader (AppendTo 0);
  Peer 0 9 Leader StartHeartBeat;
  Peer 0 9 Leader (AppendTo 1);
  Peer 0 9 Leader (AppendTo 2);
  Peer 4 2 Leader (AppendTo 1);
  Peer 4 2 Leader (AppendTo 2);
  Peer 4 2 Leader (AppendTo 3);
  Peer 0 9 Leader (AppendTo 3);
  Peer 3 6 Leader (SendAppend 1 [3; 3; 3; 3; 3]);
  Peer 4 2 Leader (SendAppend 0 [2; 2; 3; 3; 1]);
  Peer 0 9 Leader (AppendTo 4);
  Peer 3 6 Leader (SendAppend 0 [3; 3; 3; 3; 3]);
  Peer 0 9 Leader (SendAppend 2 [3; 3; 3; 3; 3]);
  Peer 0 9 Leader (SendAppend 4 [3; 3; 3; 3; 3]);
  Peer 0 9 Leader (SendAppend 1 [3; 3; 3; 3; 3]);
  Peer 4 2 Leader (SendAppend 3 [2; 2; 3; 3; 1]);
  Peer 0 9 Leader (SendAppend 3 [3; 3; 3; 3; 3]);
  Peer 4 2 Leader (SendAppend 1 [2; 2; 3; 3; 1]);
  Peer 3 6 Leader (SendAppend 2 [3; 3; 3; 3; 3]);
  Peer 4 2 Leader (SendAppend 2 [2; 2; 3; 3; 1]);
  Peer 3 6 Leader (SendAppend 4 [3; 3; 3; 3; 3]);
  Peer 3 6 Leader (AppendLost 2);
  Peer 3 6 Leader (AppendLost 1);
  Peer 1 10 Candidate (AppendFrom 4 2);
  Peer 2 9 Follower (AppendFrom 4 2);
  Peer 1 10 Candidate AppendTermSmaller;
  Peer 2 9 Follower AppendTermSmaller;
  Peer 4 2 Leader (AppendLost 2);
  Peer 4 2 Leader (AppendLost 1);
  Peer 1 10 Candidate (RequestVoteLost 0);
  Peer 0 9 Leader (AppendLost 3);
  Peer 0 9 Leader (AppendLost 2);
  Peer 0 9 Leader (AppendLost 1);
  Peer 2 9 Follower (ReceiveRequestVote (-1) 1 10);
  Peer 4 2 Leader (ReceiveRequestVote (-1) 1 10);
  Peer 2 9 Follower (VoteArgs 10 2 2 2 3);
  Peer 4 2 Leader (VoteArgs 10 2 2 99 100);
  Peer 2 9 Follower (HandlerCommit 1 1);
  Peer 4 2 Leader (HandlerCommit 2 2);
  Peer 4 2 Leader (SelfTermLower 1);
  Peer 2 9 Follower (SelfTermLower 1);
  Peer 2 10 Follower (CompareLogs 2 2 2 2);
  Peer 2 10 Follower (Granted 10 2 2 2 3);
  Peer 2 10 Follower (HandlerCommit 1 1);
  Peer 4 10 Follower (CompareLogs 2 2 99 2);
  Peer 4 10 Follower SelfLogNewer;
  Peer 1 10 Candidate (RequestVoteLost 4);
  Peer 1 10 Candidate (VoteReply 2 10 true);
  Peer 1 10 Candidate (SenderCommit 1 1);
  Peer 1 10 Candidate (VoteGained 2);
  Peer 1 10 Candidate (CheckElection 2 5);
  Peer 0 9 Leader (AppendLost 4);
  Peer 3 6 Leader (AppendLost 0);
  Peer 3 6 Leader (AppendLost 4);
  Peer 4 10 Follower (AppendLost 3);
  Peer 4 10 Follower (AppendLost 0);
  Peer 1 10 Candidate (RequestVoteLost 3);
  Peer 0 9 Leader StartHeartBeat;
  Peer 3 6 Leader StartHeartBeat;
  Peer 3 6 Leader (AppendTo 0);
  Peer 3 6 Leader (AppendTo 1);
  Peer 3 6 Leader (AppendTo 2);
  Peer 3 6 Leader (AppendTo 4);
  Peer 0 9 Leader (AppendTo 1);
  Peer 0 9 Leader (AppendTo 2);
  Peer 0 9 Leader (AppendTo 3);
  Peer 0 9 Leader (AppendTo 4);
  Peer 3 6 Leader (SendAppend 4 [3; 3; 3; 3; 3]);
  Peer 0 9 Leader (SendAppend 4 [3; 3; 3; 3; 3]);
  Peer 3 6 Leader (SendAppend 1 [3; 3; 3; 3; 3]);
  Peer 0 9 Leader (SendAppend 3 [3; 3; 3; 3; 3]);
  Peer 0 9 Leader (SendAppend 2 [3; 3; 3; 3; 3]);
  Peer 3 6 Leader (SendAppend 0 [3; 3; 3; 3; 3]);
  Peer 3 6 Leader (SendAppend 2 [3; 3; 3; 3; 3]);
  Peer 0 9 Leader (SendAppend 1 [3; 3; 3; 3; 3]);
  Peer 2 10 Follower (AppendFrom 3 6);
  Peer 2 10 Follower AppendTermSmaller;
  Peer 3 6 Leader (AppendTermBigger 2 10);
  Peer 1 10 Candidate (AppendFrom 3 6);
  Peer 1 10 Candidate AppendTermSmaller].

(** Lines 1506 to 1655. *)
Definition run_11 : list Line := [
  Peer 3 10 Follower (AppendNotLeader 1);
  Peer 0 9 Leader (AppendLost 3);
  Peer 3 10 Follower (AppendLost 0);
  Peer 0 9 Leader (AppendLost 2);
  Peer 0 9 Leader (AppendLost 4);
  Peer 0 9 Leader (AppendLost 1);
  Peer 3 10 Follower (AppendLost 4);
  Peer 0 9 Leader StartHeartBeat;
  Peer 0 9 Leader (AppendTo 1);
  Peer 0 9 Leader (AppendTo 2);
  Peer 0 9 Leader (AppendTo 3);
  Peer 0 9 Leader (AppendTo 4);
  Peer 0 9 Leader (SendAppend 1 [3; 3; 3; 3; 3]);
  Peer 0 9 Leader (SendAppend 4 [3; 3; 3; 3; 3]);
  Peer 0 9 Leader (SendAppend 2 [3; 3; 3; 3; 3]);
  Peer 0 9 Leader (SendAppend 3 [3; 3; 3; 3; 3]);
  Peer 0 9 Leader (AppendLost 2);
  Peer 0 9 Leader (AppendLost 1);
  Peer 0 9 Leader (AppendLost 4);
  Peer 0 9 Leader (AppendLost 3);
  Peer 0 9 Leader StartHeartBeat;
  Peer 0 9 Leader (AppendTo 1);
  Peer 0 9 Leader (AppendTo 2);
  Peer 0 9 Leader (AppendTo 3);
  Peer 0 9 Leader (AppendTo 4);
  Peer 0 9 Leader (SendAppend 4 [3; 3; 3; 3; 3]);
  Peer 0 9 Leader (SendAppend 2 [3; 3; 3; 3; 3]);
  Peer 0 9 Leader (SendAppend 1 [3; 3; 3; 3; 3]);
  Peer 0 9 Leader (SendAppend 3 [3; 3; 3; 3; 3]);
  Peer 0 9 Leader (AppendLost 4);
  Peer 0 9 Leader (AppendLost 1);
  Peer 0 9 Leader (AppendLost 3);
  Peer 0 9 Leader (AppendLost 2);
  Peer 0 9 Leader StartHeartBeat;
  Peer 0 9 Leader (AppendTo 1);
  Peer 0 9 Leader (AppendTo 2);
  Peer 0 9 Leader (AppendTo 3);
  Peer 0 9 Leader (AppendTo 4);
  Peer 0 9 Leader (SendAppend 4 [3; 3; 3; 3; 3]);
  Peer 0 9 Leader (SendAppend 1 [3; 3; 3; 3; 3]);
  Peer 0 9 Leader (SendAppend 3 [3; 3; 3; 3; 3]);
  Peer 0 9 Leader (SendAppend 2 [3; 3; 3; 3; 3]);
  Peer 0 9 Leader (AppendLost 4);
  Peer 0 9 Leader (AppendLost 1);
  Peer 0 9 Leader (AppendLost 3);
  Peer 0 9 Leader (AppendLost 2);
  Peer 0 9 Leader StartHeartBeat;
  Peer 0 9 Leader (AppendTo 1);
  Peer 0 9 Leader (AppendTo 2);
  Peer 0 9 Leader (AppendTo 3);
  Peer 0 9 Leader (AppendTo 4);
  Peer 0 9 Leader (SendAppend 4 [3; 3; 3; 3; 3]);
  Peer 0 9 Leader (SendAppend 2 [3; 3; 3; 3; 3]);
  Peer 0 9 Leader (SendAppend 1 [3; 3; 3; 3; 3]);
  Peer 0 9 Leader (SendAppend 3 [3; 3; 3; 3; 3]);
  Peer 0 9 Leader (AppendLost 3);
  Peer 0 9 Leader (AppendLost 1);
  Peer 0 9 Leader (AppendLost 4);
  Peer 0 9 Leader (AppendLost 2);
  Peer 2 10 Follower StartElection;
  Peer 0 9 Leader StartHeartBeat;
  Peer 0 9 Leader (AppendTo 1);
  Peer 0 9 Leader (AppendTo 2);
  Peer 0 9 Leader (AppendTo 3);
  Peer 0 9 Leader (AppendTo 4);
  Peer 2 11 Candidate BecomeCandidate;
  Peer 2 11 Candidate (RequestVoteTo 0);
  Peer 0 9 Leader (SendAppend 4 [3; 3; 3; 3; 3]);
  Peer 2 11 Candidate (RequestVoteTo 1);
  Peer 0 9 Leader (SendAppend 2 [3; 3; 3; 3; 3]);
  Peer 2 11 Candidate (RequestVoteTo 3);
  Peer 2 11 Candidate (RequestVoteTo 4);
  Peer 0 9 Leader (SendAppend 1 [3; 3; 3; 3; 3]);
  Peer 0 9 Leader (SendAppend 3 [3; 3; 3; 3; 3]);
  Peer 2 11 Candidate (RequestVoteLost 0);
  Peer 0 9 Leader (AppendLost 4);
  Peer 0 9 Leader (AppendLost 1);
  Peer 3 10 Follower (ReceiveRequestVote (-1) 2 11);
  Peer 1 10 Candidate (ReceiveRequestVote 1 2 11);
  Peer 3 10 Follower (VoteArgs 11 2 6 70 71);
  Peer 3 10 Follower (HandlerCommit 1 1);
  Peer 3 10 Follower (SelfTermLower 2);
  Peer 1 10 Candidate (VoteArgs 11 2 2 2 3);
  Peer 1 10 Candidate (HandlerCommit 1 1);
  Peer 1 10 Candidate (SelfTermLower 2);
  Peer 1 11 Follower (CompareLogs 2 2 2 2);
  Peer 1 11 Follower (Granted 11 2 2 2 3);
  Peer 1 11 Follower (HandlerCommit 1 1);
  Peer 3 11 Follower (CompareLogs 6 2 70 2);
  Peer 3 11 Follower SelfLogNewer;
  Peer 2 11 Candidate (VoteReply 1 11 true);
  Peer 2 11 Candidate (SenderCommit 1 1);
  Peer 2 11 Candidate (VoteGained 1);
  Peer 2 11 Candidate (CheckElection 2 5);
  Peer 2 11 Candidate (VoteReply 3 11 false);
  Peer 2 11 Candidate (SenderCommit 1 1);
  Peer 2 11 Candidate (CheckElection 2 5);
  Peer 0 9 Leader (AppendLost 2);
  Peer 2 11 Candidate (RequestVoteLost 4);
  Peer 0 9 Leader (AppendLost 3);
  Peer 0 9 Leader StartHeartBeat;
  Peer 0 9 Leader (AppendTo 1);
  Peer 0 9 Leader (AppendTo 2);
  Peer 0 9 Leader (AppendTo 3);
  Peer 0 9 Leader (AppendTo 4);
  Peer 0 9 Leader (SendAppend 4 [3; 3; 3; 3; 3]);
  Peer 0 9 Leader (SendAppend 1 [3; 3; 3; 3; 3]);
  Peer 4 10 Follower StartElection;
  Peer 0 9 Leader (SendAppend 2 [3; 3; 3; 3; 3]);
  Peer 0 9 Leader (SendAppend 3 [3; 3; 3; 3; 3]);
  Peer 4 11 Candidate BecomeCandidate;
  Peer 4 11 Candidate (RequestVoteTo 0);
  Peer 4 11 Candidate (RequestVoteTo 1);
  Peer 4 11 Candidate (RequestVoteTo 2);
  Peer 4 11 Candidate (RequestVoteTo 3);
  Peer 0 9 Leader (AppendLost 1);
  Peer 0 9 Leader (AppendLost 2);
  Peer 4 11 Candidate (RequestVoteLost 2);
  Peer 0 9 Leader (AppendLost 3);
  Peer 4 11 Candidate (RequestVoteLost 1);
  Peer 0 9 Leader (AppendLost 4);
  Peer 0 9 Leader StartHeartBeat;
  Peer 0 9 Leader (AppendTo 1);
  Peer 0 9 Leader (AppendTo 2);
  Peer 0 9 Leader (AppendTo 3);
  Peer 0 9 Leader (AppendTo 4);
  Peer 4 11 Candidate (RequestVoteLost 0);
  Peer 0 9 Leader (SendAppend 4 [3; 3; 3; 3; 3]);
  Peer 0 9 Leader (SendAppend 1 [3; 3; 3; 3; 3]);
  Peer 4 11 Candidate (RequestVoteLost 3);
  Peer 0 9 Leader (SendAppend 2 [3; 3; 3; 3; 3]);
  Peer 0 9 Leader (SendAppend 3 [3; 3; 3; 3; 3]);
  Peer 0 9 Leader (AppendLost 2);
  Peer 0 9 Leader (AppendLost 3);
  Peer 0 9 Leader (AppendLost 4);
  Peer 0 9 Leader (AppendLost 1);
  Peer 0 9 Leader StartHeartBeat;
  Peer 0 9 Leader (AppendTo 1);
  Peer 0 9 Leader (AppendTo 2);
  Peer 0 9 Leader (AppendTo 3);
  Peer 0 9 Leader (AppendTo 4);
  Peer 0 9 Leader (SendAppend 4 [3; 3; 3; 3; 3]);
  Peer 0 9 Leader (SendAppend 2 [3; 3; 3; 3; 3]);
  Peer 0 9 Leader (SendAppend 1 [3; 3; 3; 3; 3]);
  Peer 0 9 Leader (SendAppend 3 [3; 3; 3; 3; 3]);
  Peer 0 9 Leader (AppendLost 4);
  Peer 0 9 Leader (AppendLost 1);
  Peer 0 9 Leader (AppendLost 2);
  Peer 0 9 Leader (AppendLost 3);
  Peer 0 9 Leader StartHeartBeat].

(** Lines 1656 to 1805. *)
Definition run_12 : list Line := [
  Peer 0 9 Leader (AppendTo 1);
  Peer 0 9 Leader (AppendTo 2);
  Peer 0 9 Leader (AppendTo 3);
  Peer 0 9 Leader (AppendTo 4);
  Peer 0 9 Leader (SendAppend 4 [3; 3; 3; 3; 3]);
  Peer 0 9 Leader (SendAppend 1 [3; 3; 3; 3; 3]);
  Peer 0 9 Leader (SendAppend 2 [3; 3; 3; 3; 3]);
  Peer 0 9 Leader (SendAppend 3 [3; 3; 3; 3; 3]);
  Peer 0 9 Leader (AppendLost 3);
  Peer 0 9 Leader (AppendLost 2);
  Peer 0 9 Leader (AppendLost 4);
  Peer 0 9 Leader (AppendLost 1);
  Peer 0 9 Leader StartHeartBeat;
  Peer 0 9 Leader (AppendTo 1);
  Peer 3 11 Follower StartElection;
  Peer 0 9 Leader (AppendTo 2);
  Peer 0 9 Leader (AppendTo 3);
  Peer 0 9 Leader (AppendTo 4);
  Peer 0 9 Leader (SendAppend 1 [3; 3; 3; 3; 3]);
  Peer 0 9 Leader (SendAppend 4 [3; 3; 3; 3; 3]);
  Peer 0 9 Leader (SendAppend 3 [3; 3; 3; 3; 3]);
  Peer 3 12 Candidate BecomeCandidate;
  Peer 0 9 Leader (SendAppend 2 [3; 3; 3; 3; 3]);
  Peer 3 12 Candidate (RequestVoteTo 0);
  Peer 3 12 Candidate (RequestVoteTo 1);
  Peer 3 12 Candidate (RequestVoteTo 2);
  Peer 3 12 Candidate (RequestVoteTo 4);
  Peer 1 11 Follower (ReceiveRequestVote 2 3 12);
  Peer 1 11 Follower (VoteArgs 12 70 2 2 3);
  Peer 1 11 Follower (HandlerCommit 1 1);
  Peer 1 11 Follower (SelfTermLower 3);
  Peer 2 11 Candidate (ReceiveRequestVote 2 3 12);
  Peer 2 11 Candidate (VoteArgs 12 70 2 2 3);
  Peer 1 12 Follower (CompareLogs 2 6 2 70);
  Peer 2 11 Candidate (HandlerCommit 1 1);
  Peer 2 11 Candidate (SelfTermLower 3);
  Peer 1 12 Follower (Granted 12 70 2 2 3);
  Peer 1 12 Follower (HandlerCommit 1 1);
  Peer 3 12 Candidate (RequestVoteLost 1);
  Peer 2 12 Follower (CompareLogs 2 6 2 70);
  Peer 2 12 Follower (Granted 12 70 2 2 3);
  Peer 2 12 Follower (HandlerCommit 1 1);
  Peer 3 12 Candidate (VoteReply 2 12 true);
  Peer 3 12 Candidate (SenderCommit 1 1);
  Peer 3 12 Candidate (VoteGained 2);
  Peer 3 12 Candidate (CheckElection 2 5);
  Peer 0 9 Leader (AppendLost 1);
  Peer 3 12 Candidate (RequestVoteLost 0);
  Peer 0 9 Leader (AppendLost 3);
  Peer 0 9 Leader (AppendLost 2);
  Peer 0 9 Leader (AppendLost 4);
  Peer 3 12 Candidate (RequestVoteLost 4);
  Peer 0 9 Leader StartHeartBeat;
  Peer 0 9 Leader (AppendTo 1);
  Peer 0 9 Leader (AppendTo 2);
  Peer 0 9 Leader (AppendTo 3);
  Peer 0 9 Leader (AppendTo 4);
  Peer 0 9 Leader (SendAppend 1 [3; 3; 3; 3; 3]);
  Peer 0 9 Leader (SendAppend 4 [3; 3; 3; 3; 3]);
  Peer 0 9 Leader (SendAppend 2 [3; 3; 3; 3; 3]);
  Peer 0 9 Leader (SendAppend 3 [3; 3; 3; 3; 3]);
  Peer 0 9 Leader (AppendLost 3);
  Peer 0 9 Leader (AppendLost 1);
  Peer 0 9 Leader (AppendLost 4);
  Peer 0 9 Leader (AppendLost 2);
  Peer 0 9 Leader StartHeartBeat;
  Peer 0 9 Leader (AppendTo 1);
  Peer 4 11 Candidate StartElection;
  Peer 0 9 Leader (AppendTo 2);
  Peer 0 9 Leader (AppendTo 3);
  Peer 0 9 Leader (AppendTo 4);
  Peer 0 9 Leader (SendAppend 1 [3; 3; 3; 3; 3]);
  Peer 0 9 Leader (SendAppend 2 [3; 3; 3; 3; 3]);
  Peer 0 9 Leader (SendAppend 3 [3; 3; 3; 3; 3]);
  Peer 4 12 Candidate BecomeCandidate;
  Peer 4 12 Candidate (RequestVoteTo 0);
  Peer 0 9 Leader (SendAppend 4 [3; 3; 3; 3; 3]);
  Peer 4 12 Candidate (RequestVoteTo 1);
  Peer 4 12 Candidate (RequestVoteTo 2);
  Peer 4 12 Candidate (RequestVoteTo 3);
  Peer 0 9 Leader (AppendLost 4);
  Peer 0 9 Leader (AppendLost 3);
  Peer 4 12 Candidate (RequestVoteLost 1);
  Peer 4 12 Candidate (RequestVoteLost 0);
  Peer 0 9 Leader (AppendLost 1);
  Peer 4 12 Candidate (RequestVoteLost 3);
  Peer 4 12 Candidate (RequestVoteLost 2);
  Peer 0 9 Leader (AppendLost 2);
  Peer 0 9 Leader StartHeartBeat;
  Peer 0 9 Leader (AppendTo 1);
  Peer 0 9 Leader (AppendTo 2);
  Peer 0 9 Leader (AppendTo 3);
  Peer 0 9 Leader (AppendTo 4);
  Peer 0 9 Leader (SendAppend 1 [3; 3; 3; 3; 3]);
  Peer 0 9 Leader (SendAppend 4 [3; 3; 3; 3; 3]);
  Peer 0 9 Leader (SendAppend 3 [3; 3; 3; 3; 3]);
  Peer 0 9 Leader (SendAppend 2 [3; 3; 3; 3; 3]);
  Peer 0 9 Leader (AppendLost 2);
  Peer 0 9 Leader (AppendLost 4);
  Peer 0 9 Leader (AppendLost 3);
  Peer 0 9 Leader (AppendLost 1);
  Peer 0 9 Leader StartHeartBeat;
  Peer 0 9 Leader (AppendTo 1);
  Peer 0 9 Leader (AppendTo 2);
  Peer 0 9 Leader (AppendTo 3);
  Peer 0 9 Leader (AppendTo 4);
  Peer 0 9 Leader (SendAppend 4 [3; 3; 3; 3; 3]);
  Peer 0 9 Leader (SendAppend 1 [3; 3; 3; 3; 3]);
  Peer 0 9 Leader (SendAppend 3 [3; 3; 3; 3; 3]);
  Peer 0 9 Leader (SendAppend 2 [3; 3; 3; 3; 3]);
  Peer 0 9 Leader (AppendLost 1);
  Peer 0 9 Leader (AppendLost 2);
  Peer 0 9 Leader (AppendLost 4);
  Peer 0 9 Leader (AppendLost 3);
  Peer 0 9 Leader StartHeartBeat;
  Peer 0 9 Leader (AppendTo 1);
  Peer 0 9 Leader (AppendTo 2);
  Peer 0 9 Leader (AppendTo 3);
  Peer 0 9 Leader (AppendTo 4);
  Peer 0 9 Leader (SendAppend 4 [3; 3; 3; 3; 3]);
  Peer 0 9 Leader (SendAppend 1 [3; 3; 3; 3; 3]);
  Peer 0 9 Leader (AppendLost 1);
  Peer 0 9 Leader (SendAppend 2 [3; 3; 3; 3; 3]);
  Peer 0 9 Leader (SendAppend 3 [3; 3; 3; 3; 3]);
  Peer 0 9 Leader (AppendLost 3);
  Peer 0 9 Leader (AppendLost 2);
  Peer 0 9 Leader (AppendLost 4);
  Peer 0 9 Leader StartHeartBeat;
  Peer 0 9 Leader (AppendTo 1);
  Peer 0 9 Leader (AppendTo 2);
  Peer 0 9 Leader (AppendTo 3);
  Peer 0 9 Leader (AppendTo 4);
  Peer 0 9 Leader (SendAppend 4 [3; 3; 3; 3; 3]);
  Peer 0 9 Leader (SendAppend 2 [3; 3; 3; 3; 3]);
  Peer 0 9 Leader (SendAppend 3 [3; 3; 3; 3; 3]);
  Peer 0 9 Leader (SendAppend 1 [3; 3; 3; 3; 3]);
  Peer 0 9 Leader (AppendLost 4);
  Peer 0 9 Leader (AppendLost 1);
  Peer 0 9 Leader (AppendLost 3);
  Peer 0 9 Leader (AppendLost 2);
  Peer 3 12 Candidate StartElection;
  Peer 0 9 Leader StartHeartBeat;
  Peer 0 9 Leader (AppendTo 1);
  Peer 0 9 Leader (AppendTo 2);
  Peer 0 9 Leader (AppendTo 3);
  Peer 0 9 Leader (AppendTo 4);
  Peer 0 9 Leader (SendAppend 4 [3; 3; 3; 3; 3]);
  Peer 3 13 Candidate BecomeCandidate;
  Peer 3 13 Candidate (RequestVoteTo 0);
  Peer 0 9 Leader (SendAppend 1 [3; 3; 3; 3; 3])].

(** Lines 1806 to 1955. *)
Definition run_13 : list Line := [
  Peer 3 13 Candidate (RequestVoteTo 1);
  Peer 3 13 Candidate (RequestVoteTo 2);
  Peer 3 13 Candidate (RequestVoteTo 4);
  Peer 0 9 Leader (SendAppend 3 [3; 3; 3; 3; 3]);
  Peer 0 9 Leader (SendAppend 2 [3; 3; 3; 3; 3]);
  Peer 2 12 Follower (ReceiveRequestVote 3 3 13);
  Peer 2 12 Follower (VoteArgs 13 70 2 2 3);
  Peer 1 12 Follower (ReceiveRequestVote 3 3 13);
  Peer 2 12 Follower (HandlerCommit 1 1);
  Peer 1 12 Follower (VoteArgs 13 70 2 2 3);
  Peer 2 12 Follower (SelfTermLower 3);
  Peer 1 12 Follower (HandlerCommit 1 1);
  Peer 1 12 Follower (SelfTermLower 3);
  Peer 2 13 Follower (CompareLogs 2 6 2 70);
  Peer 1 13 Follower (CompareLogs 2 6 2 70);
  Peer 2 13 Follower (Granted 13 70 2 2 3);
  Peer 1 13 Follower (Granted 13 70 2 2 3);
  Peer 1 13 Follower (HandlerCommit 1 1);
  Peer 2 13 Follower (HandlerCommit 1 1);
  Peer 3 13 Candidate (VoteReply 1 13 true);
  Peer 3 13 Candidate (SenderCommit 1 1);
  Peer 3 13 Candidate (VoteGained 1);
  Peer 3 13 Candidate (CheckElection 2 5);
  Peer 3 13 Candidate (VoteReply 2 13 true);
  Peer 3 13 Candidate (SenderCommit 1 1);
  Peer 3 13 Candidate (VoteGained 2);
  Peer 3 13 Candidate (CheckElection 3 5);
  Peer 3 14 Leader BecomesLeader;
  Peer 3 14 Leader StartHeartBeat;
  Peer 3 14 Leader (AppendTo 0);
  Peer 3 14 Leader (AppendTo 1);
  Peer 3 14 Leader (AppendTo 2);
  Peer 3 14 Leader (AppendTo 4);
  Peer 3 14 Leader (SendAppend 4 [71; 71; 71; 71; 71]);
  Peer 3 14 Leader (SendAppend 0 [71; 71; 71; 71; 71]);
  Peer 3 14 Leader (SendAppend 1 [71; 71; 71; 71; 71]);
  Peer 3 14 Leader (SendAppend 2 [71; 71; 71; 71; 71]);
  Peer 3 14 Leader (RequestVoteLost 4);
  Peer 3 14 Leader (AppendLost 2);
  Peer 3 14 Leader (RequestVoteLost 0);
  Peer 1 13 Follower (AppendFrom 3 14);
  Peer 1 14 Follower (AppendOutOfRange 70 3);
  Peer 3 14 Leader (AppendNotSuccess 1 70 6 71);
  Peer 0 9 Leader (AppendLost 2);
  Peer 0 9 Leader (AppendLost 4);
  Peer 0 9 Leader (AppendLost 3);
  Peer 4 12 Candidate StartElection;
  Peer 3 14 Leader StartHeartBeat;
  Peer 3 14 Leader (AppendTo 0);
  Peer 3 14 Leader (AppendTo 1);
  Peer 3 14 Leader (AppendTo 2);
  Peer 3 14 Leader (AppendTo 4);
  Peer 3 14 Leader (AppendLost 4);
  Peer 3 14 Leader (AppendLost 0);
  Peer 3 14 Leader (SendAppend 1 [71; 2; 71; 71; 71]);
  Peer 3 14 Leader (SendAppend 2 [71; 2; 71; 71; 71]);
  Peer 0 9 Leader (AppendLost 1);
  Peer 4 13 Candidate BecomeCandidate;
  Peer 4 13 Candidate (RequestVoteTo 0);
  Peer 4 13 Candidate (RequestVoteTo 1);
  Peer 4 13 Candidate (RequestVoteTo 2);
  Peer 4 13 Candidate (RequestVoteTo 3);
  Peer 0 9 Leader StartHeartBeat;
  Peer 0 9 Leader (AppendTo 1);
  Peer 0 9 Leader (AppendTo 2);
  Peer 0 9 Leader (AppendTo 3);
  Peer 0 9 Leader (AppendTo 4);
  Peer 0 9 Leader (SendAppend 4 [3; 3; 3; 3; 3]);
  Peer 3 14 Leader (SendAppend 4 [71; 2; 71; 71; 71]);
  Peer 0 9 Leader (SendAppend 2 [3; 3; 3; 3; 3]);
  Peer 0 9 Leader (SendAppend 3 [3; 3; 3; 3; 3]);
  Peer 3 14 Leader (SendAppend 0 [71; 2; 71; 71; 71]);
  Peer 0 9 Leader (SendAppend 1 [3; 3; 3; 3; 3]);
  Peer 1 14 Follower (ReceiveRequestVote (-1) 4 13);
  Peer 1 14 Follower (VoteArgs 13 99 2 2 3);
  Peer 1 14 Follower (HandlerCommit 1 1);
  Peer 1 14 Follower SelfTermLarger;
  Peer 2 13 Follower (ReceiveRequestVote 3 4 13);
  Peer 2 13 Follower (VoteArgs 13 99 2 2 3);
  Peer 2 13 Follower (HandlerCommit 1 1);
  Peer 2 13 Follower (CompareLogs 2 2 2 99);
  Peer 2 13 Follower Refused;
  Peer 4 13 Candidate (VoteReply 1 13 false);
  Peer 4 13 Candidate (SenderCommit 2 2);
  Peer 4 13 Candidate (HigherTerm 1 13);
  Peer 4 14 Follower (CheckElection 0 5);
  Peer 4 14 Follower NotCandidate;
  Peer 4 14 Follower (VoteReply 2 13 false);
  Peer 4 14 Follower (SenderCommit 2 2);
  Peer 4 14 Follower (CheckElection 0 5);
  Peer 4 14 Follower NotCandidate;
  Peer 4 14 Follower (RequestVoteLost 3);
  Peer 0 9 Leader (AppendLost 1);
  Peer 3 14 Leader (AppendLost 0);
  Peer 3 14 Leader (AppendLost 4);
  Peer 0 9 Leader (AppendLost 3);
  Peer 3 14 Leader (AppendLost 1);
  Peer 0 9 Leader (AppendLost 4);
  Peer 4 14 Follower (RequestVoteLost 0);
  Peer 3 14 Leader (AppendLost 2);
  Peer 3 14 Leader StartHeartBeat;
  Peer 3 14 Leader (AppendTo 0);
  Peer 3 14 Leader (AppendTo 1);
  Peer 3 14 Leader (AppendTo 2);
  Peer 3 14 Leader (AppendTo 4);
  Peer 0 9 Leader (AppendLost 2);
  Peer 0 9 Leader StartHeartBeat;
  Peer 3 14 Leader (SendAppend 4 [71; 2; 71; 71; 71]);
  Peer 0 9 Leader (AppendTo 1);
  Peer 0 9 Leader (AppendTo 2);
  Peer 0 9 Leader (AppendTo 3);
  Peer 0 9 Leader (AppendTo 4);
  Peer 0 9 Leader (SendAppend 4 [3; 3; 3; 3; 3]);
  Peer 0 9 Leader (SendAppend 1 [3; 3; 3; 3; 3]);
  Peer 3 14 Leader (SendAppend 0 [71; 2; 71; 71; 71]);
  Peer 0 9 Leader (SendAppend 2 [3; 3; 3; 3; 3]);
  Peer 3 14 Leader (SendAppend 1 [71; 2; 71; 71; 71]);
  Peer 0 9 Leader (SendAppend 3 [3; 3; 3; 3; 3]);
  Peer 3 14 Leader (SendAppend 2 [71; 2; 71; 71; 71]);
  Peer 0 9 Leader (AppendLost 3);
  Peer 3 14 Leader (AppendLost 2);
  Peer 3 14 Leader (AppendLost 0);
  Peer 3 14 Leader (AppendLost 4);
  Peer 0 9 Leader (AppendLost 2);
  Peer 0 9 Leader (AppendLost 1);
  Peer 0 9 Leader (AppendLost 4);
  Peer 0 9 Leader StartHeartBeat;
  Peer 0 9 Leader (AppendTo 1);
  Peer 3 14 Leader StartHeartBeat;
  Peer 3 14 Leader (AppendTo 0);
  Peer 0 9 Leader (AppendTo 2);
  Peer 3 14 Leader (AppendTo 1);
  Peer 3 14 Leader (AppendTo 2);
  Peer 3 14 Leader (AppendTo 4);
  Peer 0 9 Leader (AppendTo 3);
  Peer 0 9 Leader (AppendTo 4);
  Peer 3 14 Leader (AppendLost 1);
  Peer 3 14 Leader (SendAppend 0 [71; 2; 71; 71; 71]);
  Peer 0 9 Leader (SendAppend 1 [3; 3; 3; 3; 3]);
  Peer 3 14 Leader (SendAppend 1 [71; 2; 71; 71; 71]);
  Peer 3 14 Leader (SendAppend 2 [71; 2; 71; 71; 71]);
  Peer 0 9 Leader (SendAppend 3 [3; 3; 3; 3; 3]);
  Peer 3 14 Leader (SendAppend 4 [71; 2; 71; 71; 71]);
  Peer 0 9 Leader (SendAppend 2 [3; 3; 3; 3; 3]);
  Peer 0 9 Leader (SendAppend 4 [3; 3; 3; 3; 3]);
  Peer 0 9 Leader (AppendLost 1);
  Peer 0 9 Leader (AppendLost 2);
  Peer 3 14 Leader (AppendLost 4);
  Peer 3 14 Leader (AppendLost 0);
  Peer 3 14 Leader (AppendLost 2)].

(** Lines 1956 to 2105. *)
Definition run_14 : list Line := [
  Peer 3 14 Leader (AppendLost 1);
  Peer 0 9 Leader (AppendLost 4);
  Peer 0 9 Leader (AppendLost 3);
  Peer 3 14 Leader StartHeartBeat;
  Peer 3 14 Leader (AppendTo 0);
  Peer 3 14 Leader (AppendTo 1);
  Peer 3 14 Leader (AppendTo 2);
  Peer 3 14 Leader (AppendTo 4);
  Peer 0 9 Leader StartHeartBeat;
  Peer 3 14 Leader (SendAppend 0 [71; 2; 71; 71; 71]);
  Peer 0 9 Leader (AppendTo 1);
  Peer 0 9 Leader (AppendTo 2);
  Peer 0 9 Leader (AppendTo 3);
  Peer 0 9 Leader (AppendTo 4);
  Peer 0 9 Leader (SendAppend 1 [3; 3; 3; 3; 3]);
  Peer 3 14 Leader (SendAppend 4 [71; 2; 71; 71; 71]);
  Peer 0 9 Leader (SendAppend 4 [3; 3; 3; 3; 3]);
  Peer 3 14 Leader (SendAppend 1 [71; 2; 71; 71; 71]);
  Peer 0 9 Leader (SendAppend 2 [3; 3; 3; 3; 3]);
  Peer 0 9 Leader (SendAppend 3 [3; 3; 3; 3; 3]);
  Peer 3 14 Leader (SendAppend 2 [71; 2; 71; 71; 71]);
  Peer 0 9 Leader (AppendLost 3);
  Peer 0 9 Leader (AppendLost 4);
  Peer 3 14 Leader (AppendLost 4);
  Peer 3 14 Leader (AppendLost 0);
  Peer 0 9 Leader (AppendLost 1);
  Peer 3 14 Leader (AppendLost 2);
  Peer 3 14 Leader (AppendLost 1);
  Peer 0 9 Leader (AppendLost 2);
  Peer 3 14 Leader StartHeartBeat;
  Peer 3 14 Leader (AppendTo 0);
  Peer 3 14 Leader (AppendTo 1);
  Peer 0 9 Leader StartHeartBeat;
  Peer 0 9 Leader (AppendTo 1);
  Peer 3 14 Leader (AppendTo 2);
  Peer 0 9 Leader (AppendTo 2);
  Peer 0 9 Leader (AppendTo 3);
  Peer 0 9 Leader (AppendTo 4);
  Peer 3 14 Leader (AppendTo 4);
  Peer 3 14 Leader (SendAppend 1 [71; 2; 71; 71; 71]);
  Peer 0 9 Leader (SendAppend 1 [3; 3; 3; 3; 3]);
  Peer 3 14 Leader (SendAppend 4 [71; 2; 71; 71; 71]);
  Peer 3 14 Leader (SendAppend 0 [71; 2; 71; 71; 71]);
  Peer 0 9 Leader (SendAppend 4 [3; 3; 3; 3; 3]);
  Peer 3 14 Leader (SendAppend 2 [71; 2; 71; 71; 71]);
  Peer 0 9 Leader (SendAppend 2 [3; 3; 3; 3; 3]);
  Peer 0 9 Leader (SendAppend 3 [3; 3; 3; 3; 3]);
  Peer 0 9 Leader (AppendLost 3);
  Peer 0 9 Leader (AppendLost 2);
  Peer 0 9 Leader (AppendLost 4);
  Peer 3 14 Leader (AppendLost 1);
  Peer 0 9 Leader (AppendLost 1);
  Peer 3 14 Leader (AppendLost 0);
  Peer 3 14 Leader (AppendLost 4);
  Peer 0 9 Leader StartHeartBeat;
  Peer 0 9 Leader (AppendTo 1);
  Peer 0 9 Leader (AppendTo 2);
  Peer 0 9 Leader (AppendTo 3);
  Peer 0 9 Leader (AppendTo 4);
  Peer 3 14 Leader StartHeartBeat;
  Peer 3 14 Leader (AppendTo 0);
  Peer 3 14 Leader (AppendTo 1);
  Peer 3 14 Leader (AppendTo 2);
  Peer 3 14 Leader (AppendTo 4);
  Peer 0 9 Leader (SendAppend 4 [3; 3; 3; 3; 3]);
  Peer 3 14 Leader (AppendLost 2);
  Peer 0 9 Leader (SendAppend 1 [3; 3; 3; 3; 3]);
  Peer 3 14 Leader (SendAppend 0 [71; 2; 71; 71; 71]);
  Peer 0 9 Leader (SendAppend 2 [3; 3; 3; 3; 3]);
  Peer 3 14 Leader (SendAppend 1 [71; 2; 71; 71; 71]);
  Peer 3 14 Leader (SendAppend 2 [71; 2; 71; 71; 71]);
  Peer 3 14 Leader (SendAppend 4 [71; 2; 71; 71; 71]);
  Peer 0 9 Leader (SendAppend 3 [3; 3; 3; 3; 3]);
  Peer 0 9 Leader (AppendLost 4);
  Peer 3 14 Leader (AppendLost 0);
  Peer 3 14 Leader (AppendLost 1);
  Peer 0 9 Leader (AppendLost 1);
  Peer 0 9 Leader (AppendLost 3);
  Peer 3 14 Leader (AppendLost 2);
  Peer 3 14 Leader (AppendLost 4);
  Peer 0 9 Leader StartHeartBeat;
  Peer 0 9 Leader (AppendTo 1);
  Peer 0 9 Leader (AppendTo 2);
  Peer 0 9 Leader (AppendTo 3);
  Peer 0 9 Leader (AppendTo 4);
  Peer 0 9 Leader (SendAppend 4 [3; 3; 3; 3; 3]);
  Peer 4 14 Follower StartElection;
  Peer 3 14 Leader StartHeartBeat;
  Peer 3 14 Leader (AppendTo 0);
  Peer 3 14 Leader (AppendTo 1);
  Peer 3 14 Leader (AppendTo 2);
  Peer 3 14 Leader (AppendTo 4);
  Peer 3 14 Leader (SendAppend 4 [71; 2; 71; 71; 71]);
  Peer 0 9 Leader (SendAppend 2 [3; 3; 3; 3; 3]);
  Peer 0 9 Leader (AppendLost 2);
  Peer 3 14 Leader (SendAppend 0 [71; 2; 71; 71; 71]);
  Peer 4 15 Candidate BecomeCandidate;
  Peer 4 15 Candidate (RequestVoteTo 0);
  Peer 4 15 Candidate (RequestVoteTo 1);
  Peer 3 14 Leader (SendAppend 1 [71; 2; 71; 71; 71]);
  Peer 0 9 Leader (SendAppend 3 [3; 3; 3; 3; 3]);
  Peer 3 14 Leader (SendAppend 2 [71; 2; 71; 71; 71]);
  Peer 0 9 Leader (SendAppend 1 [3; 3; 3; 3; 3]);
  Peer 4 15 Candidate (RequestVoteTo 2);
  Peer 4 15 Candidate (RequestVoteTo 3);
  Peer 0 9 Leader (AppendLost 3);
  Peer 2 13 Follower (ReceiveRequestVote 3 4 15);
  Peer 2 13 Follower (VoteArgs 15 99 2 2 3);
  Peer 2 13 Follower (HandlerCommit 1 1);
  Peer 2 13 Follower (SelfTermLower 4);
  Peer 1 14 Follower (ReceiveRequestVote (-1) 4 15);
  Peer 1 14 Follower (VoteArgs 15 99 2 2 3);
  Peer 1 14 Follower (HandlerCommit 1 1);
  Peer 1 14 Follower (SelfTermLower 4);
  Peer 2 15 Follower (CompareLogs 2 2 2 99);
  Peer 2 15 Follower (Granted 15 99 2 2 3);
  Peer 2 15 Follower (HandlerCommit 1 1);
  Peer 1 15 Follower (CompareLogs 2 2 2 99);
  Peer 1 15 Follower (Granted 15 99 2 2 3);
  Peer 1 15 Follower (HandlerCommit 1 1);
  Peer 4 15 Candidate (VoteReply 2 15 true);
  Peer 4 15 Candidate (SenderCommit 2 2);
  Peer 4 15 Candidate (VoteGained 2);
  Peer 4 15 Candidate (CheckElection 2 5);
  Peer 4 15 Candidate (VoteReply 1 15 true);
  Peer 4 15 Candidate (SenderCommit 2 2);
  Peer 4 15 Candidate (VoteGained 1);
  Peer 4 15 Candidate (CheckElection 3 5);
  Peer 4 16 Leader BecomesLeader;
  Peer 4 16 Leader StartHeartBeat;
  Peer 4 16 Leader (AppendTo 0);
  Peer 4 16 Leader (AppendTo 1);
  Peer 4 16 Leader (AppendTo 2);
  Peer 4 16 Leader (AppendTo 3);
  Peer 4 16 Leader (SendAppend 1 [100; 100; 100; 100; 100]);
  Peer 4 16 Leader (SendAppend 0 [100; 100; 100; 100; 100]);
  Peer 4 16 Leader (SendAppend 3 [100; 100; 100; 100; 100]);
  Peer 4 16 Leader (SendAppend 2 [100; 100; 100; 100; 100]);
  Peer 0 9 Leader (AppendLost 2);
  Peer 2 15 Follower (AppendFrom 4 16);
  Peer 1 15 Follower (AppendFrom 4 16);
  Peer 2 16 Follower (AppendOutOfRange 99 3);
  Peer 1 16 Follower (AppendOutOfRange 99 3);
  Peer 4 16 Leader (AppendNotSuccess 2 99 2 100);
  Peer 4 16 Leader (AppendNotSuccess 1 99 2 100);
  Peer 4 16 Leader (RequestVoteLost 0);
  Peer 3 14 Leader (AppendLost 1);
  Peer 0 9 Leader (AppendLost 1);
  Peer 0 9 Leader StartHeartBeat;
  Peer 0 9 Leader (AppendTo 1)].

Definition run_part1 : list Line :=
  run_01 ++ run_02 ++ run_03 ++ run_04 ++ run_05 ++ run_06 ++ run_07 ++ run_08 ++ run_09
  ++ run_10 ++ run_11 ++ run_12 ++ run_13 ++ run_14.
