(* ===== verification/RecordedRun2.v ===== *)
(** * The recorded run, part 2 of 5

    Lines 2106 to 4205 of code/src/raft/2timesvote.ts in order, one event each
    (blank lines have none): terms 16 to 28: node 2 becomes leader in term 28. *)

From S2P Require Import Prelude Gob Persister RaftState RecordedRun.
Open Scope Z_scope.

(** Lines 2106 to 2255. *)
Definition run_15 : list Line := [
  Peer 0 9 Leader (AppendTo 2);
  Peer 4 16 Leader (RequestVoteLost 3);
  Peer 3 14 Leader (AppendLost 2);
  Peer 4 16 Leader StartHeartBeat;
  Peer 3 14 Leader StartHeartBeat;
  Peer 3 14 Leader (AppendTo 0);
  Peer 3 14 Leader (AppendTo 1);
  Peer 3 14 Leader (AppendTo 2);
  Peer 3 14 Leader (AppendTo 4);
  Peer 3 14 Leader (AppendLost 4);
  Peer 3 14 Leader (AppendLost 0);
  Peer 4 16 Leader (AppendTo 0);
  Peer 4 16 Leader (AppendTo 1);
  Peer 4 16 Leader (AppendTo 2);
  Peer 4 16 Leader (AppendTo 3);
  Peer 4 16 Leader (SendAppend 3 [100; 1; 1; 100; 100]);
  Peer 0 9 Leader (AppendTo 3);
  Peer 0 9 Leader (AppendTo 4);
  Peer 0 9 Leader (AppendLost 4);
  Peer 3 14 Leader (SendAppend 4 [71; 2; 71; 71; 71]);
  Peer 0 9 Leader (SendAppend 2 [3; 3; 3; 3; 3]);
  Peer 3 14 Leader (SendAppend 2 [71; 2; 71; 71; 71]);
  Peer 3 14 Leader (SendAppend 1 [71; 2; 71; 71; 71]);
  Peer 4 16 Leader (SendAppend 2 [100; 1; 1; 100; 100]);
  Peer 0 9 Leader (SendAppend 3 [3; 3; 3; 3; 3]);
  Peer 4 16 Leader (SendAppend 1 [100; 1; 1; 100; 100]);
  Peer 3 14 Leader (SendAppend 0 [71; 2; 71; 71; 71]);
  Peer 4 16 Leader (SendAppend 0 [100; 1; 1; 100; 100]);
  Peer 0 9 Leader (SendAppend 4 [3; 3; 3; 3; 3]);
  Peer 0 9 Leader (SendAppend 1 [3; 3; 3; 3; 3]);
  Peer 4 16 Leader (AppendLost 1);
  Peer 4 16 Leader (AppendLost 0);
  Peer 4 16 Leader (AppendLost 3);
  Peer 4 16 Leader (AppendLost 3);
  Peer 3 14 Leader (AppendLost 1);
  Peer 0 9 Leader (AppendLost 4);
  Peer 2 16 Follower (AppendFrom 4 16);
  Peer 2 16 Follower (TryApply 1 2);
  Peer 2 16 Follower (Applied 1773 2 2);
  Peer 2 16 Follower (AppendDone 2 99);
  Peer 4 16 Leader (AppendSuccess 2);
  Peer 4 16 Leader (TryUpdateCommit 2 100);
  Peer 4 16 Leader (MatchIndexIs [-1; -1; 99; -1; -1]);
  Peer 4 16 Leader (LogsAre [(-1, -1); (2, 4416); (2, 1773); (2, 1309); (2, 4482); (2, 8379); (2, 5177); (2, 1164); (2, 6090); (2, 2806); (2, 7930); (2, 182); (2, 7181); (2, 6600); (2, 3793); (2, 9702); (2, 8908); (2, 8007); (2, 2989); (2, 6859); (2, 7889); (2, 5626); (2, 7728); (2, 8876); (2, 9884); (2, 2983); (2, 4028); (2, 4462); (2, 3792); (2, 4708); (2, 50); (2, 7013); (2, 9572); (2, 9602); (2, 7325); (2, 7361); (2, 8025); (2, 1579); (2, 1174); (2, 6091); (2, 7480); (2, 9838); (2, 6477); (2, 5487); (2, 3175); (2, 718); (2, 6549); (2, 971); (2, 3027); (2, 3157); (2, 7521); (2, 7804); (2, 8539); (2, 134); (2, 3767); (2, 8039); (2, 865); (2, 2886); (2, 4108); (2, 3168); (2, 2226); (2, 5469); (2, 7916); (2, 3985); (2, 4282); (2, 4492); (2, 6867); (2, 7676); (2, 1507); (2, 5470); (2, 3611); (2, 5973); (2, 6824); (2, 2676); (2, 3416); (2, 1503); (2, 5433); (2, 5416); (2, 5569); (2, 9230); (2, 3938); (2, 9594); (2, 2616); (2, 9730); (2, 9779); (2, 2625); (2, 9629); (2, 2057); (2, 1841); (2, 1227); (2, 5897); (2, 5876); (2, 2560); (2, 7642); (2, 2942); (2, 8772); (2, 1492); (2, 1909); (2, 7222); (2, 3473)]);
  Peer 4 16 Leader (FinishUpdateCommit 2);
  Peer 4 16 Leader (TryApply 2 2);
  Peer 3 14 Leader (AppendLost 4);
  Peer 3 14 Leader (AppendLost 2);
  Peer 0 9 Leader (AppendLost 1);
  Peer 3 14 Leader (AppendLost 0);
  Peer 0 9 Leader (AppendLost 3);
  Peer 0 9 Leader (AppendLost 2);
  Peer 4 16 Leader (AppendLost 0);
  Peer 3 14 Leader StartHeartBeat;
  Peer 3 14 Leader (AppendTo 0);
  Peer 3 14 Leader (AppendTo 1);
  Peer 3 14 Leader (AppendTo 2);
  Peer 3 14 Leader (AppendTo 4);
  Peer 3 14 Leader (SendAppend 4 [71; 2; 71; 71; 71]);
  Peer 3 14 Leader (SendAppend 0 [71; 2; 71; 71; 71]);
  Peer 0 9 Leader StartHeartBeat;
  Peer 3 14 Leader (SendAppend 2 [71; 2; 71; 71; 71]);
  Peer 0 9 Leader (AppendTo 1);
  Peer 4 16 Leader StartHeartBeat;
  Peer 4 16 Leader (AppendTo 0);
  Peer 4 16 Leader (AppendTo 1);
  Peer 4 16 Leader (AppendTo 2);
  Peer 4 16 Leader (AppendTo 3);
  Peer 4 16 Leader (SendAppend 3 [100; 1; 100; 100; 100]);
  Peer 3 14 Leader (SendAppend 1 [71; 2; 71; 71; 71]);
  Peer 4 16 Leader (SendAppend 0 [100; 1; 100; 100; 100]);
  Peer 4 16 Leader (SendAppend 1 [100; 1; 100; 100; 100]);
  Peer 0 9 Leader (AppendTo 2);
  Peer 0 9 Leader (AppendTo 3);
  Peer 0 9 Leader (AppendTo 4);
  Peer 4 16 Leader (SendAppend 2 [100; 1; 100; 100; 100]);
  Peer 0 9 Leader (SendAppend 1 [3; 3; 3; 3; 3]);
  Peer 0 9 Leader (SendAppend 2 [3; 3; 3; 3; 3]);
  Peer 0 9 Leader (SendAppend 3 [3; 3; 3; 3; 3]);
  Peer 0 9 Leader (SendAppend 4 [3; 3; 3; 3; 3]);
  Peer 0 9 Leader (AppendLost 1);
  Peer 0 9 Leader (AppendLost 4);
  Peer 3 14 Leader (AppendLost 0);
  Peer 4 16 Leader (AppendLost 3);
  Peer 2 16 Follower (AppendFrom 4 16);
  Peer 1 16 Follower (AppendFrom 4 16);
  Peer 1 16 Follower (TryApply 1 2);
  Peer 1 16 Follower (Applied 1773 2 2);
  Peer 2 16 Follower (AppendDone 2 99);
  Peer 1 16 Follower (AppendDone 2 99);
  Peer 4 16 Leader (AppendSuccess 2);
  Peer 4 16 Leader (TryUpdateCommit 2 100);
  Peer 4 16 Leader (MatchIndexIs [-1; -1; 99; -1; -1]);
  Peer 4 16 Leader (LogsAre [(-1, -1); (2, 4416); (2, 1773); (2, 1309); (2, 4482); (2, 8379); (2, 5177); (2, 1164); (2, 6090); (2, 2806); (2, 7930); (2, 182); (2, 7181); (2, 6600); (2, 3793); (2, 9702); (2, 8908); (2, 8007); (2, 2989); (2, 6859); (2, 7889); (2, 5626); (2, 7728); (2, 8876); (2, 9884); (2, 2983); (2, 4028); (2, 4462); (2, 3792); (2, 4708); (2, 50); (2, 7013); (2, 9572); (2, 9602); (2, 7325); (2, 7361); (2, 8025); (2, 1579); (2, 1174); (2, 6091); (2, 7480); (2, 9838); (2, 6477); (2, 5487); (2, 3175); (2, 718); (2, 6549); (2, 971); (2, 3027); (2, 3157); (2, 7521); (2, 7804); (2, 8539); (2, 134); (2, 3767); (2, 8039); (2, 865); (2, 2886); (2, 4108); (2, 3168); (2, 2226); (2, 5469); (2, 7916); (2, 3985); (2, 4282); (2, 4492); (2, 6867); (2, 7676); (2, 1507); (2, 5470); (2, 3611); (2, 5973); (2, 6824); (2, 2676); (2, 3416); (2, 1503); (2, 5433); (2, 5416); (2, 5569); (2, 9230); (2, 3938); (2, 9594); (2, 2616); (2, 9730); (2, 9779); (2, 2625); (2, 9629); (2, 2057); (2, 1841); (2, 1227); (2, 5897); (2, 5876); (2, 2560); (2, 7642); (2, 2942); (2, 8772); (2, 1492); (2, 1909); (2, 7222); (2, 3473)]);
  Peer 4 16 Leader (FinishUpdateCommit 2);
  Peer 4 16 Leader (TryApply 2 2);
  Peer 4 16 Leader (AppendSuccess 1);
  Peer 4 16 Leader (TryUpdateCommit 2 100);
  Peer 4 16 Leader (MatchIndexIs [-1; 99; 99; -1; -1]);
  Peer 4 16 Leader (LogsAre [(-1, -1); (2, 4416); (2, 1773); (2, 1309); (2, 4482); (2, 8379); (2, 5177); (2, 1164); (2, 6090); (2, 2806); (2, 7930); (2, 182); (2, 7181); (2, 6600); (2, 3793); (2, 9702); (2, 8908); (2, 8007); (2, 2989); (2, 6859); (2, 7889); (2, 5626); (2, 7728); (2, 8876); (2, 9884); (2, 2983); (2, 4028); (2, 4462); (2, 3792); (2, 4708); (2, 50); (2, 7013); (2, 9572); (2, 9602); (2, 7325); (2, 7361); (2, 8025); (2, 1579); (2, 1174); (2, 6091); (2, 7480); (2, 9838); (2, 6477); (2, 5487); (2, 3175); (2, 718); (2, 6549); (2, 971); (2, 3027); (2, 3157); (2, 7521); (2, 7804); (2, 8539); (2, 134); (2, 3767); (2, 8039); (2, 865); (2, 2886); (2, 4108); (2, 3168); (2, 2226); (2, 5469); (2, 7916); (2, 3985); (2, 4282); (2, 4492); (2, 6867); (2, 7676); (2, 1507); (2, 5470); (2, 3611); (2, 5973); (2, 6824); (2, 2676); (2, 3416); (2, 1503); (2, 5433); (2, 5416); (2, 5569); (2, 9230); (2, 3938); (2, 9594); (2, 2616); (2, 9730); (2, 9779); (2, 2625); (2, 9629); (2, 2057); (2, 1841); (2, 1227); (2, 5897); (2, 5876); (2, 2560); (2, 7642); (2, 2942); (2, 8772); (2, 1492); (2, 1909); (2, 7222); (2, 3473)]);
  Peer 4 16 Leader (FinishUpdateCommit 2);
  Peer 4 16 Leader (TryApply 2 2);
  Peer 0 9 Leader (AppendLost 2);
  Peer 3 14 Leader (AppendLost 1);
  Peer 3 14 Leader (AppendLost 2);
  Peer 4 16 Leader (AppendLost 0);
  Peer 3 14 Leader (AppendLost 4);
  Peer 4 16 Leader StartHeartBeat;
  Peer 4 16 Leader (AppendTo 0);
  Peer 0 9 Leader (AppendLost 3);
  Peer 4 16 Leader (AppendTo 1);
  Peer 0 9 Leader StartHeartBeat;
  Peer 4 16 Leader (AppendTo 2);
  Peer 3 14 Leader StartHeartBeat;
  Peer 3 14 Leader (AppendTo 0);
  Peer 4 16 Leader (AppendTo 3);
  Peer 0 9 Leader (AppendTo 1);
  Peer 0 9 Leader (AppendTo 2);
  Peer 0 9 Leader (AppendTo 3);
  Peer 0 9 Leader (AppendTo 4);
  Peer 3 14 Leader (AppendTo 1);
  Peer 3 14 Leader (AppendTo 2);
  Peer 3 14 Leader (AppendTo 4);
  Peer 3 14 Leader (SendAppend 0 [71; 2; 71; 71; 71]);
  Peer 0 9 Leader (SendAppend 1 [3; 3; 3; 3; 3]);
  Peer 0 9 Leader (SendAppend 2 [3; 3; 3; 3; 3]);
  Peer 4 16 Leader (SendAppend 0 [100; 100; 100; 100; 100]);
  Peer 3 14 Leader (SendAppend 1 [71; 2; 71; 71; 71]);
  Peer 0 9 Leader (SendAppend 4 [3; 3; 3; 3; 3]);
  Peer 0 9 Leader (SendAppend 3 [3; 3; 3; 3; 3]);
  Peer 3 14 Leader (SendAppend 4 [71; 2; 71; 71; 71]);
  Peer 4 16 Leader (SendAppend 2 [100; 100; 100; 100; 100]);
  Peer 4 16 Leader (SendAppend 1 [100; 100; 100; 100; 100]);
  Peer 3 14 Leader (SendAppend 2 [71; 2; 71; 71; 71]);
  Peer 4 16 Leader (SendAppend 3 [100; 100; 100; 100; 100]);
  Peer 4 16 Leader (AppendLost 1);
  Peer 0 9 Leader (AppendLost 2);
  Peer 3 14 Leader (AppendLost 1);
  Peer 3 14 Leader (AppendLost 2);
  Peer 0 9 Leader (AppendLost 4);
  Peer 2 16 Follower (AppendFrom 4 16);
  Peer 2 16 Follower (AppendDone 2 99);
  Peer 4 16 Leader (AppendSuccess 2);
  Peer 4 16 Leader (TryUpdateCommit 2 100);
  Peer 4 16 Leader (MatchIndexIs [-1; 99; 99; -1; -1]);
  Peer 4 16 Leader (LogsAre [(-1, -1); (2, 4416); (2, 1773); (2, 1309); (2, 4482); (2, 8379); (2, 5177); (2, 1164); (2, 6090); (2, 2806); (2, 7930); (2, 182); (2, 7181); (2, 6600); (2, 3793); (2, 9702); (2, 8908); (2, 8007); (2, 2989); (2, 6859); (2, 7889); (2, 5626); (2, 7728); (2, 8876); (2, 9884); (2, 2983); (2, 4028); (2, 4462); (2, 3792); (2, 4708); (2, 50); (2, 7013); (2, 9572); (2, 9602); (2, 7325); (2, 7361); (2, 8025); (2, 1579); (2, 1174); (2, 6091); (2, 7480); (2, 9838); (2, 6477); (2, 5487); (2, 3175); (2, 718); (2, 6549); (2, 971); (2, 3027); (2, 3157); (2, 7521); (2, 7804); (2, 8539); (2, 134); (2, 3767); (2, 8039); (2, 865); (2, 2886); (2, 4108); (2, 3168); (2, 2226); (2, 5469); (2, 7916); (2, 3985); (2, 4282); (2, 4492); (2, 6867); (2, 7676); (2, 1507); (2, 5470); (2, 3611); (2, 5973); (2, 6824); (2, 2676); (2, 3416); (2, 1503); (2, 5433); (2, 5416); (2, 5569); (2, 9230); (2, 3938); (2, 9594); (2, 2616); (2, 9730); (2, 9779); (2, 2625); (2, 9629); (2, 2057); (2, 1841); (2, 1227); (2, 5897); (2, 5876); (2, 2560); (2, 7642); (2, 2942); (2, 8772); (2, 1492); (2, 1909); (2, 7222); (2, 3473)]);
  Peer 4 16 Leader (FinishUpdateCommit 2);
  Peer 4 16 Leader (TryApply 2 2);
  Peer 4 16 Leader (AppendLost 0);
  Peer 3 14 Leader (AppendLost 0)].

(** Lines 2256 to 2405. *)
Definition run_16 : list Line := [
  Peer 3 14 Leader (AppendLost 4);
  Peer 4 16 Leader (AppendLost 3);
  Peer 0 9 Leader (AppendLost 1);
  Peer 0 9 Leader (AppendLost 3);
  Peer 3 14 Leader StartHeartBeat;
  Peer 3 14 Leader (AppendTo 0);
  Peer 3 14 Leader (AppendTo 1);
  Peer 3 14 Leader (AppendTo 2);
  Peer 3 14 Leader (AppendTo 4);
  Peer 4 16 Leader StartHeartBeat;
  Peer 3 14 Leader (SendAppend 0 [71; 2; 71; 71; 71]);
  Peer 4 16 Leader (AppendTo 0);
  Peer 4 16 Leader (AppendTo 1);
  Peer 4 16 Leader (AppendTo 2);
  Peer 0 9 Leader StartHeartBeat;
  Peer 0 9 Leader (AppendTo 1);
  Peer 0 9 Leader (AppendTo 2);
  Peer 4 16 Leader (AppendTo 3);
  Peer 0 9 Leader (AppendTo 3);
  Peer 4 16 Leader (SendAppend 2 [100; 100; 100; 100; 100]);
  Peer 4 16 Leader (SendAppend 3 [100; 100; 100; 100; 100]);
  Peer 0 9 Leader (AppendTo 4);
  Peer 0 9 Leader (SendAppend 2 [3; 3; 3; 3; 3]);
  Peer 0 9 Leader (SendAppend 4 [3; 3; 3; 3; 3]);
  Peer 3 14 Leader (SendAppend 4 [71; 2; 71; 71; 71]);
  Peer 4 16 Leader (SendAppend 0 [100; 100; 100; 100; 100]);
  Peer 4 16 Leader (SendAppend 1 [100; 100; 100; 100; 100]);
  Peer 3 14 Leader (SendAppend 1 [71; 2; 71; 71; 71]);
  Peer 3 14 Leader (SendAppend 2 [71; 2; 71; 71; 71]);
  Peer 0 9 Leader (SendAppend 1 [3; 3; 3; 3; 3]);
  Peer 0 9 Leader (SendAppend 3 [3; 3; 3; 3; 3]);
  Peer 4 16 Leader (AppendLost 3);
  Peer 0 9 Leader (AppendLost 1);
  Peer 2 16 Follower (AppendFrom 0 9);
  Peer 2 16 Follower AppendTermSmaller;
  Peer 0 9 Leader (AppendLost 2);
  Peer 4 16 Leader (AppendLost 1);
  Peer 3 14 Leader (AppendLost 0);
  Peer 4 16 Leader (AppendLost 2);
  Peer 0 9 Leader (AppendLost 4);
  Peer 0 9 Leader (AppendLost 3);
  Peer 4 16 Leader (AppendLost 0);
  Peer 3 14 Leader (AppendLost 2);
  Peer 3 14 Leader (AppendLost 4);
  Peer 3 14 Leader StartHeartBeat;
  Peer 3 14 Leader (AppendTo 0);
  Peer 3 14 Leader (AppendTo 1);
  Peer 3 14 Leader (AppendTo 2);
  Peer 3 14 Leader (AppendTo 4);
  Peer 3 14 Leader (AppendLost 1);
  Peer 3 14 Leader (SendAppend 0 [71; 2; 71; 71; 71]);
  Peer 4 16 Leader StartHeartBeat;
  Peer 4 16 Leader (AppendTo 0);
  Peer 4 16 Leader (AppendTo 1);
  Peer 4 16 Leader (AppendTo 2);
  Peer 4 16 Leader (AppendTo 3);
  Peer 4 16 Leader (SendAppend 3 [100; 100; 100; 100; 100]);
  Peer 4 16 Leader (SendAppend 0 [100; 100; 100; 100; 100]);
  Peer 3 14 Leader (SendAppend 1 [71; 2; 71; 71; 71]);
  Peer 4 16 Leader (SendAppend 1 [100; 100; 100; 100; 100]);
  Peer 4 16 Leader (SendAppend 2 [100; 100; 100; 100; 100]);
  Peer 0 9 Leader StartHeartBeat;
  Peer 0 9 Leader (AppendTo 1);
  Peer 0 9 Leader (AppendTo 2);
  Peer 0 9 Leader (AppendTo 3);
  Peer 0 9 Leader (AppendTo 4);
  Peer 3 14 Leader (SendAppend 2 [71; 2; 71; 71; 71]);
  Peer 0 9 Leader (SendAppend 1 [3; 3; 3; 3; 3]);
  Peer 3 14 Leader (SendAppend 4 [71; 2; 71; 71; 71]);
  Peer 0 9 Leader (SendAppend 2 [3; 3; 3; 3; 3]);
  Peer 0 9 Leader (SendAppend 3 [3; 3; 3; 3; 3]);
  Peer 0 9 Leader (SendAppend 4 [3; 3; 3; 3; 3]);
  Peer 0 9 Leader (AppendLost 1);
  Peer 0 9 Leader (AppendLost 4);
  Peer 4 16 Leader (AppendLost 2);
  Peer 3 14 Leader (AppendLost 4);
  Peer 3 14 Leader (AppendLost 2);
  Peer 3 14 Leader (AppendLost 0);
  Peer 4 16 Leader (AppendLost 0);
  Peer 0 9 Leader (AppendLost 3);
  Peer 3 14 Leader (AppendLost 1);
  Peer 4 16 Leader (AppendLost 1);
  Peer 4 16 Leader (AppendLost 3);
  Peer 0 9 Leader (AppendLost 2);
  Peer 3 14 Leader StartHeartBeat;
  Peer 3 14 Leader (AppendTo 0);
  Peer 4 16 Leader StartHeartBeat;
  Peer 3 14 Leader (AppendTo 1);
  Peer 4 16 Leader (AppendTo 0);
  Peer 4 16 Leader (AppendTo 1);
  Peer 3 14 Leader (AppendTo 2);
  Peer 4 16 Leader (AppendTo 2);
  Peer 4 16 Leader (AppendTo 3);
  Peer 3 14 Leader (AppendTo 4);
  Peer 4 16 Leader (SendAppend 2 [100; 100; 100; 100; 100]);
  Peer 3 14 Leader (SendAppend 1 [71; 2; 71; 71; 71]);
  Peer 4 16 Leader (SendAppend 1 [100; 100; 100; 100; 100]);
  Peer 4 16 Leader (SendAppend 0 [100; 100; 100; 100; 100]);
  Peer 0 9 Leader StartHeartBeat;
  Peer 0 9 Leader (AppendTo 1);
  Peer 0 9 Leader (AppendTo 2);
  Peer 0 9 Leader (AppendTo 3);
  Peer 0 9 Leader (AppendTo 4);
  Peer 3 14 Leader (SendAppend 0 [71; 2; 71; 71; 71]);
  Peer 0 9 Leader (SendAppend 4 [3; 3; 3; 3; 3]);
  Peer 3 14 Leader (SendAppend 2 [71; 2; 71; 71; 71]);
  Peer 0 9 Leader (SendAppend 1 [3; 3; 3; 3; 3]);
  Peer 4 16 Leader (SendAppend 3 [100; 100; 100; 100; 100]);
  Peer 3 14 Leader (SendAppend 4 [71; 2; 71; 71; 71]);
  Peer 0 9 Leader (SendAppend 2 [3; 3; 3; 3; 3]);
  Peer 0 9 Leader (SendAppend 3 [3; 3; 3; 3; 3]);
  Peer 0 9 Leader (AppendLost 2);
  Peer 3 14 Leader (AppendLost 4);
  Peer 3 14 Leader (AppendLost 0);
  Peer 4 16 Leader (AppendLost 3);
  Peer 4 16 Leader (AppendLost 1);
  Peer 4 16 Leader (AppendLost 2);
  Peer 0 9 Leader (AppendLost 3);
  Peer 4 16 Leader (AppendLost 0);
  Peer 0 9 Leader (AppendLost 4);
  Peer 3 14 Leader (AppendLost 1);
  Peer 3 14 Leader (AppendLost 2);
  Peer 3 14 Leader StartHeartBeat;
  Peer 4 16 Leader StartHeartBeat;
  Peer 4 16 Leader (AppendTo 0);
  Peer 0 9 Leader StartHeartBeat;
  Peer 4 16 Leader (AppendTo 1);
  Peer 3 14 Leader (AppendTo 0);
  Peer 4 16 Leader (AppendTo 2);
  Peer 0 9 Leader (AppendTo 1);
  Peer 3 14 Leader (AppendTo 1);
  Peer 3 14 Leader (AppendTo 2);
  Peer 3 14 Leader (AppendTo 4);
  Peer 0 9 Leader (AppendTo 2);
  Peer 0 9 Leader (AppendTo 3);
  Peer 0 9 Leader (AppendTo 4);
  Peer 4 16 Leader (AppendTo 3);
  Peer 3 14 Leader (SendAppend 1 [71; 2; 71; 71; 71]);
  Peer 0 9 Leader (SendAppend 2 [3; 3; 3; 3; 3]);
  Peer 4 16 Leader (SendAppend 0 [100; 100; 100; 100; 100]);
  Peer 3 14 Leader (SendAppend 0 [71; 2; 71; 71; 71]);
  Peer 0 9 Leader (AppendLost 1);
  Peer 0 9 Leader (SendAppend 1 [3; 3; 3; 3; 3]);
  Peer 3 14 Leader (SendAppend 2 [71; 2; 71; 71; 71]);
  Peer 4 16 Leader (SendAppend 1 [100; 100; 100; 100; 100]);
  Peer 0 9 Leader (SendAppend 3 [3; 3; 3; 3; 3]);
  Peer 3 14 Leader (SendAppend 4 [71; 2; 71; 71; 71]);
  Peer 4 16 Leader (SendAppend 2 [100; 100; 100; 100; 100]);
  Peer 4 16 Leader (SendAppend 3 [100; 100; 100; 100; 100]);
  Peer 0 9 Leader (SendAppend 4 [3; 3; 3; 3; 3])].

(** Lines 2406 to 2555. *)
Definition run_17 : list Line := [
  Peer 2 16 Follower (AppendFrom 4 16);
  Peer 2 16 Follower (AppendDone 16 122);
  Peer 4 16 Leader (AppendSuccess 2);
  Peer 4 16 Leader (TryUpdateCommit 2 123);
  Peer 4 16 Leader (MatchIndexIs [-1; 99; 122; -1; -1]);
  Peer 4 16 Leader (LogsAre [(-1, -1); (2, 4416); (2, 1773); (2, 1309); (2, 4482); (2, 8379); (2, 5177); (2, 1164); (2, 6090); (2, 2806); (2, 7930); (2, 182); (2, 7181); (2, 6600); (2, 3793); (2, 9702); (2, 8908); (2, 8007); (2, 2989); (2, 6859); (2, 7889); (2, 5626); (2, 7728); (2, 8876); (2, 9884); (2, 2983); (2, 4028); (2, 4462); (2, 3792); (2, 4708); (2, 50); (2, 7013); (2, 9572); (2, 9602); (2, 7325); (2, 7361); (2, 8025); (2, 1579); (2, 1174); (2, 6091); (2, 7480); (2, 9838); (2, 6477); (2, 5487); (2, 3175); (2, 718); (2, 6549); (2, 971); (2, 3027); (2, 3157); (2, 7521); (2, 7804); (2, 8539); (2, 134); (2, 3767); (2, 8039); (2, 865); (2, 2886); (2, 4108); (2, 3168); (2, 2226); (2, 5469); (2, 7916); (2, 3985); (2, 4282); (2, 4492); (2, 6867); (2, 7676); (2, 1507); (2, 5470); (2, 3611); (2, 5973); (2, 6824); (2, 2676); (2, 3416); (2, 1503); (2, 5433); (2, 5416); (2, 5569); (2, 9230); (2, 3938); (2, 9594); (2, 2616); (2, 9730); (2, 9779); (2, 2625); (2, 9629); (2, 2057); (2, 1841); (2, 1227); (2, 5897); (2, 5876); (2, 2560); (2, 7642); (2, 2942); (2, 8772); (2, 1492); (2, 1909); (2, 7222); (2, 3473); (16, 9249); (16, 7411); (16, 8552); (16, 8352); (16, 9240); (16, 811); (16, 4361); (16, 749); (16, 9334); (16, 6036); (16, 6085); (16, 8263); (16, 5985); (16, 349); (16, 7037); (16, 6647); (16, 1347); (16, 1977); (16, 9914); (16, 4295); (16, 7135); (16, 139); (16, 4689)]);
  Peer 4 16 Leader (FinishUpdateCommit 2);
  Peer 4 16 Leader (TryApply 2 2);
  Peer 1 16 Follower (AppendFrom 4 16);
  Peer 1 16 Follower (AppendDone 16 122);
  Peer 4 16 Leader (AppendSuccess 1);
  Peer 4 16 Leader (TryUpdateCommit 2 125);
  Peer 4 16 Leader (MatchIndexIs [-1; 122; 122; -1; -1]);
  Peer 4 16 Leader (LogsAre [(-1, -1); (2, 4416); (2, 1773); (2, 1309); (2, 4482); (2, 8379); (2, 5177); (2, 1164); (2, 6090); (2, 2806); (2, 7930); (2, 182); (2, 7181); (2, 6600); (2, 3793); (2, 9702); (2, 8908); (2, 8007); (2, 2989); (2, 6859); (2, 7889); (2, 5626); (2, 7728); (2, 8876); (2, 9884); (2, 2983); (2, 4028); (2, 4462); (2, 3792); (2, 4708); (2, 50); (2, 7013); (2, 9572); (2, 9602); (2, 7325); (2, 7361); (2, 8025); (2, 1579); (2, 1174); (2, 6091); (2, 7480); (2, 9838); (2, 6477); (2, 5487); (2, 3175); (2, 718); (2, 6549); (2, 971); (2, 3027); (2, 3157); (2, 7521); (2, 7804); (2, 8539); (2, 134); (2, 3767); (2, 8039); (2, 865); (2, 2886); (2, 4108); (2, 3168); (2, 2226); (2, 5469); (2, 7916); (2, 3985); (2, 4282); (2, 4492); (2, 6867); (2, 7676); (2, 1507); (2, 5470); (2, 3611); (2, 5973); (2, 6824); (2, 2676); (2, 3416); (2, 1503); (2, 5433); (2, 5416); (2, 5569); (2, 9230); (2, 3938); (2, 9594); (2, 2616); (2, 9730); (2, 9779); (2, 2625); (2, 9629); (2, 2057); (2, 1841); (2, 1227); (2, 5897); (2, 5876); (2, 2560); (2, 7642); (2, 2942); (2, 8772); (2, 1492); (2, 1909); (2, 7222); (2, 3473); (16, 9249); (16, 7411); (16, 8552); (16, 8352); (16, 9240); (16, 811); (16, 4361); (16, 749); (16, 9334); (16, 6036); (16, 6085); (16, 8263); (16, 5985); (16, 349); (16, 7037); (16, 6647); (16, 1347); (16, 1977); (16, 9914); (16, 4295); (16, 7135); (16, 139); (16, 4689); (16, 6732); (16, 7715)]);
  Peer 4 16 Leader (UpdateCommit 2 100 3 2 16 16);
  Peer 4 16 Leader (UpdateCommit 100 101 3 2 16 16);
  Peer 4 16 Leader (UpdateCommit 101 102 3 2 16 16);
  Peer 4 16 Leader (UpdateCommit 102 103 3 2 16 16);
  Peer 4 16 Leader (UpdateCommit 103 104 3 2 16 16);
  Peer 4 16 Leader (UpdateCommit 104 105 3 2 16 16);
  Peer 4 16 Leader (UpdateCommit 105 106 3 2 16 16);
  Peer 4 16 Leader (UpdateCommit 106 107 3 2 16 16);
  Peer 4 16 Leader (UpdateCommit 107 108 3 2 16 16);
  Peer 4 16 Leader (UpdateCommit 108 109 3 2 16 16);
  Peer 4 16 Leader (UpdateCommit 109 110 3 2 16 16);
  Peer 4 16 Leader (UpdateCommit 110 111 3 2 16 16);
  Peer 4 16 Leader (UpdateCommit 111 112 3 2 16 16);
  Peer 4 16 Leader (UpdateCommit 112 113 3 2 16 16);
  Peer 4 16 Leader (UpdateCommit 113 114 3 2 16 16);
  Peer 4 16 Leader (UpdateCommit 114 115 3 2 16 16);
  Peer 4 16 Leader (UpdateCommit 115 116 3 2 16 16);
  Peer 4 16 Leader (UpdateCommit 116 117 3 2 16 16);
  Peer 4 16 Leader (UpdateCommit 117 118 3 2 16 16);
  Peer 4 16 Leader (UpdateCommit 118 119 3 2 16 16);
  Peer 4 16 Leader (UpdateCommit 119 120 3 2 16 16);
  Peer 4 16 Leader (UpdateCommit 120 121 3 2 16 16);
  Peer 4 16 Leader (UpdateCommit 121 122 3 2 16 16);
  Peer 4 16 Leader (FinishUpdateCommit 122);
  Peer 4 16 Leader (TryApply 2 122);
  Peer 4 16 Leader (Applied 1309 3 2);
  Peer 4 16 Leader (Applied 4482 4 2);
  Peer 4 16 Leader (Applied 8379 5 2);
  Peer 4 16 Leader (Applied 5177 6 2);
  Peer 4 16 Leader (Applied 1164 7 2);
  Peer 4 16 Leader (Applied 6090 8 2);
  Peer 4 16 Leader (Applied 2806 9 2);
  Peer 4 16 Leader (Applied 7930 10 2);
  Peer 4 16 Leader (Applied 182 11 2);
  Peer 4 16 Leader (Applied 7181 12 2);
  Peer 4 16 Leader (Applied 6600 13 2);
  Peer 4 16 Leader (Applied 3793 14 2);
  Peer 4 16 Leader (Applied 9702 15 2);
  Peer 4 16 Leader (Applied 8908 16 2);
  Peer 4 16 Leader (Applied 8007 17 2);
  Peer 4 16 Leader (Applied 2989 18 2);
  Peer 4 16 Leader (Applied 6859 19 2);
  Peer 4 16 Leader (Applied 7889 20 2);
  Peer 4 16 Leader (Applied 5626 21 2);
  Peer 4 16 Leader (Applied 7728 22 2);
  Peer 4 16 Leader (Applied 8876 23 2);
  Peer 4 16 Leader (Applied 9884 24 2);
  Peer 4 16 Leader (Applied 2983 25 2);
  Peer 4 16 Leader (Applied 4028 26 2);
  Peer 4 16 Leader (Applied 4462 27 2);
  Peer 4 16 Leader (Applied 3792 28 2);
  Peer 4 16 Leader (Applied 4708 29 2);
  Peer 4 16 Leader (Applied 50 30 2);
  Peer 4 16 Leader (Applied 7013 31 2);
  Peer 4 16 Leader (Applied 9572 32 2);
  Peer 4 16 Leader (Applied 9602 33 2);
  Peer 4 16 Leader (Applied 7325 34 2);
  Peer 4 16 Leader (Applied 7361 35 2);
  Peer 4 16 Leader (Applied 8025 36 2);
  Peer 4 16 Leader (Applied 1579 37 2);
  Peer 4 16 Leader (Applied 1174 38 2);
  Peer 4 16 Leader (Applied 6091 39 2);
  Peer 4 16 Leader (Applied 7480 40 2);
  Peer 4 16 Leader (Applied 9838 41 2);
  Peer 4 16 Leader (Applied 6477 42 2);
  Peer 4 16 Leader (Applied 5487 43 2);
  Peer 4 16 Leader (Applied 3175 44 2);
  Peer 4 16 Leader (Applied 718 45 2);
  Peer 4 16 Leader (Applied 6549 46 2);
  Peer 4 16 Leader (Applied 971 47 2);
  Peer 4 16 Leader (Applied 3027 48 2);
  Peer 4 16 Leader (Applied 3157 49 2);
  Peer 4 16 Leader (Applied 7521 50 2);
  Peer 4 16 Leader (Applied 7804 51 2);
  Peer 4 16 Leader (Applied 8539 52 2);
  Peer 4 16 Leader (Applied 134 53 2);
  Peer 4 16 Leader (Applied 3767 54 2);
  Peer 4 16 Leader (Applied 8039 55 2);
  Peer 4 16 Leader (Applied 865 56 2);
  Peer 4 16 Leader (Applied 2886 57 2);
  Peer 4 16 Leader (Applied 4108 58 2);
  Peer 4 16 Leader (Applied 3168 59 2);
  Peer 4 16 Leader (Applied 2226 60 2);
  Peer 4 16 Leader (Applied 5469 61 2);
  Peer 4 16 Leader (Applied 7916 62 2);
  Peer 4 16 Leader (Applied 3985 63 2);
  Peer 4 16 Leader (Applied 4282 64 2);
  Peer 4 16 Leader (Applied 4492 65 2);
  Peer 4 16 Leader (Applied 6867 66 2);
  Peer 4 16 Leader (Applied 7676 67 2);
  Peer 4 16 Leader (Applied 1507 68 2);
  Peer 4 16 Leader (Applied 5470 69 2);
  Peer 4 16 Leader (Applied 3611 70 2);
  Peer 4 16 Leader (Applied 5973 71 2);
  Peer 4 16 Leader (Applied 6824 72 2);
  Peer 4 16 Leader (Applied 2676 73 2);
  Peer 4 16 Leader (Applied 3416 74 2);
  Peer 4 16 Leader (Applied 1503 75 2);
  Peer 4 16 Leader (Applied 5433 76 2);
  Peer 4 16 Leader (Applied 5416 77 2);
  Peer 4 16 Leader (Applied 5569 78 2);
  Peer 4 16 Leader (Applied 9230 79 2);
  Peer 4 16 Leader (Applied 3938 80 2);
  Peer 4 16 Leader (Applied 9594 81 2);
  Peer 4 16 Leader (Applied 2616 82 2);
  Peer 4 16 Leader (Applied 9730 83 2);
  Peer 4 16 Leader (Applied 9779 84 2);
  Peer 4 16 Leader (Applied 2625 85 2);
  Peer 4 16 Leader (Applied 9629 86 2);
  Peer 4 16 Leader (Applied 2057 87 2);
  Peer 4 16 Leader (Applied 1841 88 2);
  Peer 4 16 Leader (Applied 1227 89 2);
  Peer 4 16 Leader (Applied 5897 90 2);
  Peer 4 16 Leader (Applied 5876 91 2);
  Peer 4 16 Leader (Applied 2560 92 2);
  Peer 4 16 Leader (Applied 7642 93 2);
  Peer 4 16 Leader (Applied 2942 94 2);
  Peer 4 16 Leader (Applied 8772 95 2);
  Peer 4 16 Leader (Applied 1492 96 2);
  Peer 4 16 Leader (Applied 1909 97 2);
  Peer 4 16 Leader (Applied 7222 98 2);
  Peer 4 16 Leader (Applied 3473 99 2);
  Peer 4 16 Leader (Applied 9249 100 16);
  Peer 4 16 Leader (Applied 7411 101 16);
  Peer 4 16 Leader (Applied 8552 102 16);
  Peer 4 16 Leader (Applied 8352 103 16);
  Peer 4 16 Leader (Applied 9240 104 16);
  Peer 4 16 Leader (Applied 811 105 16);
  Peer 4 16 Leader (Applied 4361 106 16);
  Peer 4 16 Leader (Applied 749 107 16);
  Peer 4 16 Leader (Applied 9334 108 16);
  Peer 4 16 Leader (Applied 6036 109 16);
  Peer 4 16 Leader (Applied 6085 110 16);
  Peer 4 16 Leader (Applied 8263 111 16);
  Peer 4 16 Leader (Applied 5985 112 16);
  Peer 4 16 Leader (Applied 349 113 16)].

(** Lines 2556 to 2705. *)
Definition run_18 : list Line := [
  Peer 4 16 Leader (Applied 7037 114 16);
  Peer 4 16 Leader (Applied 6647 115 16);
  Peer 4 16 Leader (Applied 1347 116 16);
  Peer 4 16 Leader (Applied 1977 117 16);
  Peer 4 16 Leader (Applied 9914 118 16);
  Peer 4 16 Leader (Applied 4295 119 16);
  Peer 4 16 Leader (Applied 7135 120 16);
  Peer 4 16 Leader (Applied 139 121 16);
  Peer 4 16 Leader (Applied 4689 122 16);
  Peer 0 9 Leader (AppendLost 3);
  Peer 3 14 Leader (AppendLost 1);
  Peer 0 9 Leader (AppendLost 4);
  Peer 3 14 Leader (AppendLost 0);
  Peer 0 9 Leader (AppendLost 2);
  Peer 4 16 Leader (AppendLost 3);
  Peer 3 14 Leader (AppendLost 2);
  Peer 3 14 Leader (AppendLost 4);
  Peer 4 16 Leader (AppendLost 0);
  Peer 0 9 Leader (AppendLost 1);
  Peer 0 9 Leader StartHeartBeat;
  Peer 0 9 Leader (AppendTo 1);
  Peer 0 9 Leader (AppendTo 2);
  Peer 0 9 Leader (AppendTo 3);
  Peer 0 9 Leader (AppendTo 4);
  Peer 3 14 Leader StartHeartBeat;
  Peer 3 14 Leader (AppendTo 0);
  Peer 3 14 Leader (AppendTo 1);
  Peer 3 14 Leader (AppendTo 2);
  Peer 3 14 Leader (AppendTo 4);
  Peer 4 16 Leader StartHeartBeat;
  Peer 4 16 Leader (AppendTo 0);
  Peer 4 16 Leader (AppendTo 1);
  Peer 4 16 Leader (AppendTo 2);
  Peer 3 14 Leader (SendAppend 4 [71; 2; 71; 71; 71]);
  Peer 4 16 Leader (AppendTo 3);
  Peer 4 16 Leader (SendAppend 2 [100; 123; 123; 100; 100]);
  Peer 3 14 Leader (SendAppend 0 [71; 2; 71; 71; 71]);
  Peer 4 16 Leader (SendAppend 3 [100; 123; 123; 100; 100]);
  Peer 3 14 Leader (SendAppend 1 [71; 2; 71; 71; 71]);
  Peer 4 16 Leader (SendAppend 0 [100; 123; 123; 100; 100]);
  Peer 0 9 Leader (SendAppend 2 [3; 3; 3; 3; 3]);
  Peer 4 16 Leader (AppendLost 0);
  Peer 4 16 Leader (SendAppend 1 [100; 123; 123; 100; 100]);
  Peer 0 9 Leader (SendAppend 1 [3; 3; 3; 3; 3]);
  Peer 3 14 Leader (SendAppend 2 [71; 2; 71; 71; 71]);
  Peer 0 9 Leader (SendAppend 3 [3; 3; 3; 3; 3]);
  Peer 0 9 Leader (SendAppend 4 [3; 3; 3; 3; 3]);
  Peer 1 16 Follower (AppendFrom 0 9);
  Peer 1 16 Follower AppendTermSmaller;
  Peer 2 16 Follower (AppendFrom 0 9);
  Peer 2 16 Follower AppendTermSmaller;
  Peer 0 9 Leader (AppendLost 3);
  Peer 3 14 Leader (AppendLost 0);
  Peer 0 9 Leader (AppendLost 4);
  Peer 3 14 Leader (AppendLost 1);
  Peer 4 16 Leader (AppendLost 3);
  Peer 4 16 Leader (AppendLost 2);
  Peer 3 14 Leader (AppendLost 4);
  Peer 3 14 Leader (AppendLost 2);
  Peer 4 16 Leader (AppendLost 1);
  Peer 3 14 Leader StartHeartBeat;
  Peer 4 16 Leader StartHeartBeat;
  Peer 3 14 Leader (AppendTo 0);
  Peer 4 16 Leader (AppendTo 0);
  Peer 0 9 Leader StartHeartBeat;
  Peer 0 9 Leader (AppendTo 1);
  Peer 4 16 Leader (AppendTo 1);
  Peer 4 16 Leader (AppendTo 2);
  Peer 3 14 Leader (AppendTo 1);
  Peer 3 14 Leader (AppendTo 2);
  Peer 0 9 Leader (AppendTo 2);
  Peer 4 16 Leader (AppendTo 3);
  Peer 0 9 Leader (AppendTo 3);
  Peer 0 9 Leader (AppendTo 4);
  Peer 3 14 Leader (AppendTo 4);
  Peer 4 16 Leader (SendAppend 0 [100; 123; 123; 100; 100]);
  Peer 0 9 Leader (SendAppend 1 [3; 3; 3; 3; 3]);
  Peer 3 14 Leader (SendAppend 0 [71; 2; 71; 71; 71]);
  Peer 0 9 Leader (SendAppend 3 [3; 3; 3; 3; 3]);
  Peer 4 16 Leader (SendAppend 1 [100; 123; 123; 100; 100]);
  Peer 3 14 Leader (SendAppend 1 [71; 2; 71; 71; 71]);
  Peer 4 16 Leader (SendAppend 2 [100; 123; 123; 100; 100]);
  Peer 0 9 Leader (SendAppend 4 [3; 3; 3; 3; 3]);
  Peer 4 16 Leader (SendAppend 3 [100; 123; 123; 100; 100]);
  Peer 0 9 Leader (SendAppend 2 [3; 3; 3; 3; 3]);
  Peer 3 14 Leader (SendAppend 2 [71; 2; 71; 71; 71]);
  Peer 3 14 Leader (SendAppend 4 [71; 2; 71; 71; 71]);
  Peer 0 9 Leader (AppendLost 3);
  Peer 0 9 Leader (AppendLost 2);
  Peer 4 16 Leader (AppendLost 3);
  Peer 1 16 Follower (AppendFrom 0 9);
  Peer 1 16 Follower AppendTermSmaller;
  Peer 0 9 Leader (AppendLost 1);
  Peer 4 16 Leader (AppendLost 0);
  Peer 3 14 Leader (AppendLost 2);
  Peer 3 14 Leader (AppendLost 1);
  Peer 4 16 Leader (AppendLost 2);
  Peer 3 14 Leader (AppendLost 0);
  Peer 3 14 Leader (AppendLost 4);
  Peer 4 16 Leader (AppendLost 1);
  Peer 0 9 Leader (AppendLost 4);
  Peer 3 14 Leader StartHeartBeat;
  Peer 4 16 Leader StartHeartBeat;
  Peer 4 16 Leader (AppendTo 0);
  Peer 3 14 Leader (AppendTo 0);
  Peer 0 9 Leader StartHeartBeat;
  Peer 0 9 Leader (AppendTo 1);
  Peer 3 14 Leader (AppendTo 1);
  Peer 3 14 Leader (AppendTo 2);
  Peer 0 9 Leader (AppendTo 2);
  Peer 0 9 Leader (AppendTo 3);
  Peer 0 9 Leader (AppendTo 4);
  Peer 3 14 Leader (AppendTo 4);
  Peer 4 16 Leader (AppendTo 1);
  Peer 3 14 Leader (SendAppend 0 [71; 2; 71; 71; 71]);
  Peer 0 9 Leader (SendAppend 4 [3; 3; 3; 3; 3]);
  Peer 3 14 Leader (SendAppend 4 [71; 2; 71; 71; 71]);
  Peer 4 16 Leader (AppendTo 2);
  Peer 4 16 Leader (AppendTo 3);
  Peer 4 16 Leader (SendAppend 0 [100; 123; 123; 100; 100]);
  Peer 4 16 Leader (SendAppend 2 [100; 123; 123; 100; 100]);
  Peer 3 14 Leader (SendAppend 2 [71; 2; 71; 71; 71]);
  Peer 4 16 Leader (SendAppend 3 [100; 123; 123; 100; 100]);
  Peer 0 9 Leader (SendAppend 1 [3; 3; 3; 3; 3]);
  Peer 3 14 Leader (SendAppend 1 [71; 2; 71; 71; 71]);
  Peer 4 16 Leader (SendAppend 1 [100; 123; 123; 100; 100]);
  Peer 0 9 Leader (SendAppend 2 [3; 3; 3; 3; 3]);
  Peer 0 9 Leader (SendAppend 3 [3; 3; 3; 3; 3]);
  Peer 4 16 Leader (AppendLost 0);
  Peer 0 9 Leader (AppendLost 2);
  Peer 4 16 Leader (AppendLost 3);
  Peer 4 16 Leader (AppendLost 1);
  Peer 3 14 Leader (AppendLost 0);
  Peer 0 9 Leader (AppendTermBigger 2 16);
  Peer 3 14 Leader (AppendLost 2);
  Peer 0 16 Follower (AppendLost 4);
  Peer 1 16 Follower (AppendFrom 0 9);
  Peer 1 16 Follower AppendTermSmaller;
  Peer 0 16 Follower (AppendLost 1);
  Peer 4 16 Leader (AppendLost 2);
  Peer 0 16 Follower (AppendLost 3);
  Peer 3 14 Leader (AppendLost 1);
  Peer 3 14 Leader (AppendLost 4);
  Peer 4 16 Leader StartHeartBeat;
  Peer 4 16 Leader (AppendTo 0);
  Peer 3 14 Leader StartHeartBeat;
  Peer 4 16 Leader (AppendTo 1);
  Peer 3 14 Leader (AppendTo 0);
  Peer 4 16 Leader (AppendTo 2);
  Peer 4 16 Leader (AppendTo 3)].

(** Lines 2706 to 2855. *)
Definition run_19 : list Line := [
  Peer 3 14 Leader (AppendTo 1);
  Peer 4 16 Leader (SendAppend 2 [100; 123; 123; 100; 100]);
  Peer 3 14 Leader (AppendTo 2);
  Peer 3 14 Leader (AppendTo 4);
  Peer 4 16 Leader (SendAppend 3 [100; 123; 123; 100; 100]);
  Peer 3 14 Leader (SendAppend 2 [71; 2; 71; 71; 71]);
  Peer 4 16 Leader (SendAppend 0 [100; 123; 123; 100; 100]);
  Peer 4 16 Leader (SendAppend 1 [100; 123; 123; 100; 100]);
  Peer 3 14 Leader (SendAppend 0 [71; 2; 71; 71; 71]);
  Peer 3 14 Leader (SendAppend 1 [71; 2; 71; 71; 71]);
  Peer 3 14 Leader (SendAppend 4 [71; 2; 71; 71; 71]);
  Peer 3 14 Leader (AppendLost 4);
  Peer 4 16 Leader (AppendLost 3);
  Peer 1 16 Follower (AppendFrom 3 14);
  Peer 1 16 Follower AppendTermSmaller;
  Peer 2 16 Follower (AppendFrom 3 14);
  Peer 2 16 Follower AppendTermSmaller;
  Peer 3 14 Leader (AppendTermBigger 2 16);
  Peer 3 16 Follower (AppendLost 0);
  Peer 4 16 Leader (AppendLost 1);
  Peer 4 16 Leader (AppendLost 2);
  Peer 4 16 Leader (AppendLost 0);
  Peer 4 16 Leader StartHeartBeat;
  Peer 4 16 Leader (AppendTo 0);
  Peer 1 16 Follower StartElection;
  Peer 4 16 Leader (AppendTo 1);
  Peer 4 16 Leader (AppendTo 2);
  Peer 4 16 Leader (AppendTo 3);
  Peer 4 16 Leader (SendAppend 1 [100; 123; 123; 100; 100]);
  Peer 4 16 Leader (SendAppend 0 [100; 123; 123; 100; 100]);
  Peer 4 16 Leader (SendAppend 3 [100; 123; 123; 100; 100]);
  Peer 4 16 Leader (SendAppend 2 [100; 123; 123; 100; 100]);
  Peer 1 17 Candidate BecomeCandidate;
  Peer 1 17 Candidate (RequestVoteTo 0);
  Peer 1 17 Candidate (RequestVoteTo 2);
  Peer 1 17 Candidate (RequestVoteTo 3);
  Peer 1 17 Candidate (RequestVoteTo 4);
  Peer 4 16 Leader (AppendLost 0);
  Peer 3 16 Follower (ReceiveRequestVote (-1) 1 17);
  Peer 2 16 Follower (ReceiveRequestVote (-1) 1 17);
  Peer 3 16 Follower (VoteArgs 17 122 14 123 124);
  Peer 3 16 Follower (HandlerCommit 1 1);
  Peer 3 16 Follower (SelfTermLower 1);
  Peer 2 16 Follower (VoteArgs 17 122 16 122 123);
  Peer 2 16 Follower (HandlerCommit 2 2);
  Peer 2 16 Follower (SelfTermLower 1);
  Peer 2 17 Follower (CompareLogs 16 16 122 122);
  Peer 3 17 Follower (CompareLogs 14 16 123 122);
  Peer 2 17 Follower (Granted 17 122 16 122 123);
  Peer 2 17 Follower (HandlerCommit 2 2);
  Peer 3 17 Follower (Granted 17 122 14 123 124);
  Peer 3 17 Follower (HandlerCommit 1 1);
  Peer 1 17 Candidate (RequestVoteLost 2);
  Peer 1 17 Candidate (RequestVoteLost 0);
  Peer 4 16 Leader (AppendLost 1);
  Peer 4 16 Leader (AppendLost 2);
  Peer 4 16 Leader (AppendLost 3);
  Peer 1 17 Candidate (RequestVoteLost 4);
  Peer 4 16 Leader StartHeartBeat;
  Peer 4 16 Leader (AppendTo 0);
  Peer 4 16 Leader (AppendTo 1);
  Peer 4 16 Leader (AppendTo 2);
  Peer 4 16 Leader (AppendTo 3);
  Peer 4 16 Leader (SendAppend 0 [100; 123; 123; 100; 100]);
  Peer 4 16 Leader (SendAppend 3 [100; 123; 123; 100; 100]);
  Peer 4 16 Leader (SendAppend 1 [100; 123; 123; 100; 100]);
  Peer 4 16 Leader (SendAppend 2 [100; 123; 123; 100; 100]);
  Peer 4 16 Leader (AppendLost 1);
  Peer 4 16 Leader (AppendLost 0);
  Peer 0 16 Follower (AppendNotLeader 1);
  Peer 4 16 Leader (AppendLost 2);
  Peer 3 17 Follower (AppendNotLeader 1);
  Peer 4 16 Leader (AppendLost 3);
  Peer 4 16 Leader StartHeartBeat;
  Peer 1 17 Candidate (VoteReply 3 17 true);
  Peer 1 17 Candidate (SenderCommit 2 2);
  Peer 1 17 Candidate (VoteGained 3);
  Peer 1 17 Candidate (CheckElection 2 5);
  Peer 4 16 Leader (AppendTo 0);
  Peer 4 16 Leader (AppendTo 1);
  Peer 4 16 Leader (AppendTo 2);
  Peer 4 16 Leader (AppendTo 3);
  Peer 4 16 Leader (SendAppend 3 [100; 123; 123; 100; 100]);
  Peer 4 16 Leader (SendAppend 1 [100; 123; 123; 100; 100]);
  Peer 4 16 Leader (SendAppend 0 [100; 123; 123; 100; 100]);
  Peer 4 16 Leader (SendAppend 2 [100; 123; 123; 100; 100]);
  Peer 4 16 Leader (AppendLost 1);
  Peer 4 16 Leader (AppendLost 2);
  Peer 4 16 Leader (AppendLost 0);
  Peer 4 16 Leader (AppendLost 3);
  Peer 4 16 Leader StartHeartBeat;
  Peer 4 16 Leader (AppendTo 0);
  Peer 4 16 Leader (AppendTo 1);
  Peer 4 16 Leader (AppendTo 2);
  Peer 4 16 Leader (AppendTo 3);
  Peer 4 16 Leader (SendAppend 3 [100; 123; 123; 100; 100]);
  Peer 4 16 Leader (SendAppend 1 [100; 123; 123; 100; 100]);
  Peer 4 16 Leader (SendAppend 2 [100; 123; 123; 100; 100]);
  Peer 4 16 Leader (SendAppend 0 [100; 123; 123; 100; 100]);
  Peer 4 16 Leader (AppendLost 3);
  Peer 4 16 Leader (AppendLost 1);
  Peer 4 16 Leader (AppendLost 2);
  Peer 4 16 Leader (AppendLost 0);
  Peer 4 16 Leader StartHeartBeat;
  Peer 4 16 Leader (AppendTo 0);
  Peer 4 16 Leader (AppendTo 1);
  Peer 4 16 Leader (AppendTo 2);
  Peer 4 16 Leader (AppendTo 3);
  Peer 4 16 Leader (SendAppend 3 [100; 123; 123; 100; 100]);
  Peer 4 16 Leader (SendAppend 1 [100; 123; 123; 100; 100]);
  Peer 4 16 Leader (SendAppend 0 [100; 123; 123; 100; 100]);
  Peer 4 16 Leader (SendAppend 2 [100; 123; 123; 100; 100]);
  Peer 4 16 Leader (AppendLost 0);
  Peer 4 16 Leader (AppendLost 1);
  Peer 4 16 Leader (AppendLost 2);
  Peer 4 16 Leader (AppendLost 3);
  Peer 3 17 Follower StartElection;
  Peer 4 16 Leader StartHeartBeat;
  Peer 4 16 Leader (AppendTo 0);
  Peer 4 16 Leader (AppendTo 1);
  Peer 4 16 Leader (AppendTo 2);
  Peer 4 16 Leader (AppendTo 3);
  Peer 4 16 Leader (SendAppend 3 [100; 123; 123; 100; 100]);
  Peer 4 16 Leader (SendAppend 1 [100; 123; 123; 100; 100]);
  Peer 4 16 Leader (SendAppend 0 [100; 123; 123; 100; 100]);
  Peer 4 16 Leader (SendAppend 2 [100; 123; 123; 100; 100]);
  Peer 3 18 Candidate BecomeCandidate;
  Peer 3 18 Candidate (RequestVoteTo 0);
  Peer 3 18 Candidate (RequestVoteTo 1);
  Peer 3 18 Candidate (RequestVoteTo 2);
  Peer 3 18 Candidate (RequestVoteTo 4);
  Peer 3 18 Candidate (RequestVoteLost 2);
  Peer 4 16 Leader (AppendLost 3);
  Peer 1 17 Candidate (ReceiveRequestVote 1 3 18);
  Peer 1 17 Candidate (VoteArgs 18 123 16 122 123);
  Peer 1 17 Candidate (HandlerCommit 2 2);
  Peer 1 17 Candidate (SelfTermLower 3);
  Peer 1 18 Follower (CompareLogs 16 14 122 123);
  Peer 1 18 Follower SelfLogNewer;
  Peer 4 16 Leader (AppendLost 1);
  Peer 3 18 Candidate (RequestVoteLost 0);
  Peer 4 16 Leader (AppendLost 2);
  Peer 4 16 Leader (AppendLost 0);
  Peer 3 18 Candidate (RequestVoteLost 4);
  Peer 4 16 Leader StartHeartBeat;
  Peer 4 16 Leader (AppendTo 0);
  Peer 4 16 Leader (AppendTo 1);
  Peer 4 16 Leader (AppendTo 2);
  Peer 4 16 Leader (AppendTo 3);
  Peer 4 16 Leader (SendAppend 0 [100; 123; 123; 100; 100])].

(** Lines 2856 to 3005. *)
Definition run_20 : list Line := [
  Peer 4 16 Leader (SendAppend 3 [100; 123; 123; 100; 100]);
  Peer 4 16 Leader (SendAppend 2 [100; 123; 123; 100; 100]);
  Peer 4 16 Leader (SendAppend 1 [100; 123; 123; 100; 100]);
  Peer 4 16 Leader (AppendLost 3);
  Peer 4 16 Leader (AppendLost 0);
  Peer 4 16 Leader (AppendLost 1);
  Peer 4 16 Leader (AppendLost 2);
  Peer 4 16 Leader StartHeartBeat;
  Peer 4 16 Leader (AppendTo 0);
  Peer 4 16 Leader (AppendTo 1);
  Peer 0 16 Follower StartElection;
  Peer 4 16 Leader (AppendTo 2);
  Peer 4 16 Leader (AppendTo 3);
  Peer 4 16 Leader (SendAppend 1 [100; 123; 123; 100; 100]);
  Peer 4 16 Leader (SendAppend 3 [100; 123; 123; 100; 100]);
  Peer 4 16 Leader (SendAppend 0 [100; 123; 123; 100; 100]);
  Peer 4 16 Leader (SendAppend 2 [100; 123; 123; 100; 100]);
  Peer 0 17 Candidate BecomeCandidate;
  Peer 0 17 Candidate (RequestVoteTo 1);
  Peer 0 17 Candidate (RequestVoteTo 2);
  Peer 0 17 Candidate (RequestVoteTo 3);
  Peer 0 17 Candidate (RequestVoteTo 4);
  Peer 0 17 Candidate (RequestVoteLost 2);
  Peer 0 17 Candidate (RequestVoteLost 3);
  Peer 4 16 Leader (AppendLost 1);
  Peer 4 16 Leader (AppendLost 2);
  Peer 3 18 Candidate (VoteReply 1 18 false);
  Peer 3 18 Candidate (SenderCommit 1 1);
  Peer 3 18 Candidate (CheckElection 1 5);
  Peer 4 16 Leader (AppendLost 0);
  Peer 0 17 Candidate (RequestVoteLost 4);
  Peer 4 16 Leader (AppendLost 3);
  Peer 0 17 Candidate (RequestVoteLost 1);
  Peer 2 17 Follower StartElection;
  Peer 4 16 Leader StartHeartBeat;
  Peer 4 16 Leader (AppendTo 0);
  Peer 4 16 Leader (AppendTo 1);
  Peer 4 16 Leader (AppendTo 2);
  Peer 4 16 Leader (AppendTo 3);
  Peer 4 16 Leader (SendAppend 0 [100; 123; 123; 100; 100]);
  Peer 4 16 Leader (SendAppend 3 [100; 123; 123; 100; 100]);
  Peer 2 18 Candidate BecomeCandidate;
  Peer 2 18 Candidate (RequestVoteTo 0);
  Peer 2 18 Candidate (RequestVoteTo 1);
  Peer 2 18 Candidate (RequestVoteTo 3);
  Peer 2 18 Candidate (RequestVoteTo 4);
  Peer 4 16 Leader (SendAppend 1 [100; 123; 123; 100; 100]);
  Peer 4 16 Leader (SendAppend 2 [100; 123; 123; 100; 100]);
  Peer 2 18 Candidate (RequestVoteLost 0);
  Peer 3 18 Candidate (ReceiveRequestVote 3 2 18);
  Peer 3 18 Candidate (VoteArgs 18 122 14 123 124);
  Peer 3 18 Candidate (HandlerCommit 1 1);
  Peer 3 18 Candidate (CompareLogs 14 16 123 122);
  Peer 3 18 Candidate Refused;
  Peer 1 18 Follower (ReceiveRequestVote 3 2 18);
  Peer 2 18 Candidate (VoteReply 3 18 false);
  Peer 2 18 Candidate (SenderCommit 2 2);
  Peer 1 18 Follower (VoteArgs 18 122 16 122 123);
  Peer 1 18 Follower (HandlerCommit 2 2);
  Peer 2 18 Candidate (CheckElection 1 5);
  Peer 1 18 Follower (CompareLogs 16 16 122 122);
  Peer 1 18 Follower Refused;
  Peer 4 16 Leader (AppendLost 1);
  Peer 4 16 Leader (AppendLost 2);
  Peer 4 16 Leader (AppendLost 0);
  Peer 2 18 Candidate (RequestVoteLost 4);
  Peer 4 16 Leader (AppendLost 3);
  Peer 4 16 Leader StartHeartBeat;
  Peer 4 16 Leader (AppendTo 0);
  Peer 4 16 Leader (AppendTo 1);
  Peer 4 16 Leader (AppendTo 2);
  Peer 4 16 Leader (AppendTo 3);
  Peer 4 16 Leader (SendAppend 3 [100; 123; 123; 100; 100]);
  Peer 4 16 Leader (SendAppend 1 [100; 123; 123; 100; 100]);
  Peer 4 16 Leader (SendAppend 2 [100; 123; 123; 100; 100]);
  Peer 4 16 Leader (SendAppend 0 [100; 123; 123; 100; 100]);
  Peer 4 16 Leader (AppendLost 3);
  Peer 4 16 Leader (AppendLost 1);
  Peer 4 16 Leader (AppendLost 0);
  Peer 4 16 Leader (AppendLost 2);
  Peer 4 16 Leader StartHeartBeat;
  Peer 4 16 Leader (AppendTo 0);
  Peer 4 16 Leader (AppendTo 1);
  Peer 4 16 Leader (AppendTo 2);
  Peer 4 16 Leader (AppendTo 3);
  Peer 4 16 Leader (SendAppend 0 [100; 123; 123; 100; 100]);
  Peer 4 16 Leader (SendAppend 3 [100; 123; 123; 100; 100]);
  Peer 4 16 Leader (SendAppend 1 [100; 123; 123; 100; 100]);
  Peer 4 16 Leader (SendAppend 2 [100; 123; 123; 100; 100]);
  Peer 4 16 Leader (AppendLost 2);
  Peer 4 16 Leader (AppendLost 0);
  Peer 4 16 Leader (AppendLost 1);
  Peer 4 16 Leader (AppendLost 3);
  Peer 4 16 Leader StartHeartBeat;
  Peer 4 16 Leader (AppendTo 0);
  Peer 4 16 Leader (AppendTo 1);
  Peer 4 16 Leader (AppendTo 2);
  Peer 4 16 Leader (AppendTo 3);
  Peer 4 16 Leader (SendAppend 3 [100; 123; 123; 100; 100]);
  Peer 4 16 Leader (SendAppend 1 [100; 123; 123; 100; 100]);
  Peer 4 16 Leader (SendAppend 0 [100; 123; 123; 100; 100]);
  Peer 4 16 Leader (SendAppend 2 [100; 123; 123; 100; 100]);
  Peer 4 16 Leader (AppendLost 0);
  Peer 4 16 Leader (AppendLost 1);
  Peer 4 16 Leader (AppendLost 2);
  Peer 4 16 Leader (AppendLost 3);
  Peer 0 17 Candidate StartElection;
  Peer 4 16 Leader StartHeartBeat;
  Peer 4 16 Leader (AppendTo 0);
  Peer 4 16 Leader (AppendTo 1);
  Peer 4 16 Leader (AppendTo 2);
  Peer 4 16 Leader (AppendTo 3);
  Peer 0 18 Candidate BecomeCandidate;
  Peer 4 16 Leader (SendAppend 3 [100; 123; 123; 100; 100]);
  Peer 0 18 Candidate (RequestVoteTo 1);
  Peer 0 18 Candidate (RequestVoteTo 2);
  Peer 0 18 Candidate (RequestVoteTo 3);
  Peer 4 16 Leader (SendAppend 2 [100; 123; 123; 100; 100]);
  Peer 0 18 Candidate (RequestVoteTo 4);
  Peer 4 16 Leader (SendAppend 0 [100; 123; 123; 100; 100]);
  Peer 4 16 Leader (SendAppend 1 [100; 123; 123; 100; 100]);
  Peer 0 18 Candidate (RequestVoteLost 4);
  Peer 0 18 Candidate (RequestVoteLost 3);
  Peer 0 18 Candidate (RequestVoteLost 1);
  Peer 4 16 Leader (AppendLost 3);
  Peer 0 18 Candidate (RequestVoteLost 2);
  Peer 4 16 Leader (AppendLost 0);
  Peer 4 16 Leader (AppendLost 2);
  Peer 3 18 Candidate StartElection;
  Peer 4 16 Leader (AppendLost 1);
  Peer 1 18 Follower StartElection;
  Peer 3 19 Candidate BecomeCandidate;
  Peer 3 19 Candidate (RequestVoteTo 0);
  Peer 3 19 Candidate (RequestVoteTo 1);
  Peer 3 19 Candidate (RequestVoteTo 2);
  Peer 3 19 Candidate (RequestVoteTo 4);
  Peer 4 16 Leader StartHeartBeat;
  Peer 4 16 Leader (AppendTo 0);
  Peer 1 19 Candidate BecomeCandidate;
  Peer 1 19 Candidate (RequestVoteTo 0);
  Peer 1 19 Candidate (RequestVoteTo 2);
  Peer 1 19 Candidate (RequestVoteTo 3);
  Peer 1 19 Candidate (RequestVoteTo 4);
  Peer 4 16 Leader (AppendTo 1);
  Peer 4 16 Leader (AppendTo 2);
  Peer 4 16 Leader (AppendTo 3);
  Peer 4 16 Leader (SendAppend 0 [100; 123; 123; 100; 100]);
  Peer 4 16 Leader (SendAppend 1 [100; 123; 123; 100; 100]);
  Peer 4 16 Leader (SendAppend 3 [100; 123; 123; 100; 100]);
  Peer 4 16 Leader (SendAppend 2 [100; 123; 123; 100; 100])].

(** Lines 3006 to 3155. *)
Definition run_21 : list Line := [
  Peer 3 19 Candidate (ReceiveRequestVote 3 1 19);
  Peer 3 19 Candidate (VoteArgs 19 122 14 123 124);
  Peer 3 19 Candidate (HandlerCommit 1 1);
  Peer 3 19 Candidate (CompareLogs 14 16 123 122);
  Peer 3 19 Candidate Refused;
  Peer 1 19 Candidate (VoteReply 3 19 false);
  Peer 1 19 Candidate (SenderCommit 2 2);
  Peer 1 19 Candidate (CheckElection 1 5);
  Peer 1 19 Candidate (RequestVoteLost 4);
  Peer 3 19 Candidate (RequestVoteLost 1);
  Peer 2 18 Candidate (ReceiveRequestVote 2 3 19);
  Peer 2 18 Candidate (VoteArgs 19 123 16 122 123);
  Peer 2 18 Candidate (HandlerCommit 2 2);
  Peer 2 18 Candidate (SelfTermLower 3);
  Peer 2 19 Follower (CompareLogs 16 14 122 123);
  Peer 2 19 Follower SelfLogNewer;
  Peer 3 19 Candidate (RequestVoteLost 0);
  Peer 4 16 Leader (AppendLost 2);
  Peer 2 19 Follower (ReceiveRequestVote 3 1 19);
  Peer 2 19 Follower (VoteArgs 19 122 16 122 123);
  Peer 2 19 Follower (HandlerCommit 2 2);
  Peer 2 19 Follower (CompareLogs 16 16 122 122);
  Peer 2 19 Follower Refused;
  Peer 4 16 Leader (AppendLost 3);
  Peer 4 16 Leader (AppendLost 1);
  Peer 4 16 Leader (AppendLost 0);
  Peer 1 19 Candidate (RequestVoteLost 0);
  Peer 3 19 Candidate (RequestVoteLost 4);
  Peer 4 16 Leader StartHeartBeat;
  Peer 4 16 Leader (AppendTo 0);
  Peer 4 16 Leader (AppendTo 1);
  Peer 4 16 Leader (AppendTo 2);
  Peer 4 16 Leader (AppendTo 3);
  Peer 4 16 Leader (SendAppend 1 [100; 123; 123; 100; 100]);
  Peer 4 16 Leader (SendAppend 3 [100; 123; 123; 100; 100]);
  Peer 4 16 Leader (SendAppend 0 [100; 123; 123; 100; 100]);
  Peer 4 16 Leader (SendAppend 2 [100; 123; 123; 100; 100]);
  Peer 2 19 Follower (VoteReply 1 18 false);
  Peer 2 19 Follower (SenderCommit 2 2);
  Peer 2 19 Follower (CheckElection 0 5);
  Peer 2 19 Follower NotCandidate;
  Peer 4 16 Leader (AppendLost 3);
  Peer 4 16 Leader (AppendLost 2);
  Peer 4 16 Leader (AppendLost 0);
  Peer 4 16 Leader (AppendLost 1);
  Peer 4 16 Leader StartHeartBeat;
  Peer 4 16 Leader (AppendTo 0);
  Peer 4 16 Leader (AppendTo 1);
  Peer 4 16 Leader (AppendTo 2);
  Peer 4 16 Leader (AppendTo 3);
  Peer 4 16 Leader (SendAppend 3 [100; 123; 123; 100; 100]);
  Peer 4 16 Leader (SendAppend 0 [100; 123; 123; 100; 100]);
  Peer 4 16 Leader (SendAppend 2 [100; 123; 123; 100; 100]);
  Peer 4 16 Leader (SendAppend 1 [100; 123; 123; 100; 100]);
  Peer 4 16 Leader (AppendLost 0);
  Peer 4 16 Leader (AppendLost 3);
  Peer 4 16 Leader (AppendLost 1);
  Peer 4 16 Leader StartHeartBeat;
  Peer 4 16 Leader (AppendTo 0);
  Peer 4 16 Leader (AppendTo 1);
  Peer 4 16 Leader (AppendTo 2);
  Peer 4 16 Leader (AppendTo 3);
  Peer 4 16 Leader (SendAppend 3 [100; 123; 123; 100; 100]);
  Peer 4 16 Leader (SendAppend 2 [100; 123; 123; 100; 100]);
  Peer 4 16 Leader (AppendLost 2);
  Peer 4 16 Leader (SendAppend 0 [100; 123; 123; 100; 100]);
  Peer 4 16 Leader (SendAppend 1 [100; 123; 123; 100; 100]);
  Peer 4 16 Leader (AppendLost 3);
  Peer 4 16 Leader (AppendLost 2);
  Peer 4 16 Leader (AppendLost 1);
  Peer 4 16 Leader StartHeartBeat;
  Peer 4 16 Leader (AppendTo 0);
  Peer 4 16 Leader (AppendTo 1);
  Peer 4 16 Leader (AppendTo 2);
  Peer 4 16 Leader (AppendTo 3);
  Peer 4 16 Leader (SendAppend 0 [100; 123; 123; 100; 100]);
  Peer 4 16 Leader (AppendLost 0);
  Peer 4 16 Leader (SendAppend 1 [100; 123; 123; 100; 100]);
  Peer 4 16 Leader (SendAppend 2 [100; 123; 123; 100; 100]);
  Peer 4 16 Leader (SendAppend 3 [100; 123; 123; 100; 100]);
  Peer 4 16 Leader (AppendLost 0);
  Peer 4 16 Leader (AppendLost 3);
  Peer 3 19 Candidate (VoteReply 2 19 false);
  Peer 3 19 Candidate (SenderCommit 1 1);
  Peer 3 19 Candidate (CheckElection 1 5);
  Peer 4 16 Leader (AppendLost 2);
  Peer 4 16 Leader StartHeartBeat;
  Peer 4 16 Leader (AppendTo 0);
  Peer 4 16 Leader (AppendTo 1);
  Peer 4 16 Leader (AppendTo 2);
  Peer 4 16 Leader (AppendTo 3);
  Peer 4 16 Leader (AppendLost 1);
  Peer 4 16 Leader (SendAppend 0 [100; 123; 123; 100; 100]);
  Peer 4 16 Leader (SendAppend 1 [100; 123; 123; 100; 100]);
  Peer 4 16 Leader (SendAppend 2 [100; 123; 123; 100; 100]);
  Peer 4 16 Leader (SendAppend 3 [100; 123; 123; 100; 100]);
  Peer 4 16 Leader (AppendLost 3);
  Peer 4 16 Leader (AppendLost 0);
  Peer 4 16 Leader (AppendLost 1);
  Peer 4 16 Leader (AppendLost 2);
  Peer 1 19 Candidate StartElection;
  Peer 3 19 Candidate StartElection;
  Peer 0 18 Candidate StartElection;
  Peer 1 20 Candidate BecomeCandidate;
  Peer 1 20 Candidate (RequestVoteTo 0);
  Peer 1 20 Candidate (RequestVoteTo 2);
  Peer 0 19 Candidate BecomeCandidate;
  Peer 0 19 Candidate (RequestVoteTo 1);
  Peer 1 20 Candidate (RequestVoteTo 3);
  Peer 1 20 Candidate (RequestVoteTo 4);
  Peer 3 20 Candidate BecomeCandidate;
  Peer 4 16 Leader StartHeartBeat;
  Peer 3 20 Candidate (RequestVoteTo 0);
  Peer 4 16 Leader (AppendTo 0);
  Peer 4 16 Leader (AppendTo 1);
  Peer 0 19 Candidate (RequestVoteTo 2);
  Peer 0 19 Candidate (RequestVoteTo 3);
  Peer 0 19 Candidate (RequestVoteTo 4);
  Peer 3 20 Candidate (RequestVoteTo 1);
  Peer 3 20 Candidate (RequestVoteTo 2);
  Peer 3 20 Candidate (RequestVoteTo 4);
  Peer 4 16 Leader (AppendTo 2);
  Peer 4 16 Leader (AppendTo 3);
  Peer 4 16 Leader (SendAppend 1 [100; 123; 123; 100; 100]);
  Peer 4 16 Leader (SendAppend 2 [100; 123; 123; 100; 100]);
  Peer 4 16 Leader (SendAppend 3 [100; 123; 123; 100; 100]);
  Peer 2 19 Follower (ReceiveRequestVote 3 3 20);
  Peer 2 19 Follower (VoteArgs 20 123 16 122 123);
  Peer 2 19 Follower (HandlerCommit 2 2);
  Peer 2 19 Follower (SelfTermLower 3);
  Peer 4 16 Leader (SendAppend 0 [100; 123; 123; 100; 100]);
  Peer 2 20 Follower (CompareLogs 16 14 122 123);
  Peer 2 20 Follower SelfLogNewer;
  Peer 3 20 Candidate (VoteReply 2 20 false);
  Peer 3 20 Candidate (SenderCommit 1 1);
  Peer 3 20 Candidate (CheckElection 1 5);
  Peer 3 20 Candidate (RequestVoteLost 0);
  Peer 2 20 Follower (ReceiveRequestVote 3 1 20);
  Peer 2 20 Follower (VoteArgs 20 122 16 122 123);
  Peer 2 20 Follower (HandlerCommit 2 2);
  Peer 3 20 Candidate (ReceiveRequestVote 3 1 20);
  Peer 2 20 Follower (CompareLogs 16 16 122 122);
  Peer 2 20 Follower Refused;
  Peer 3 20 Candidate (VoteArgs 20 122 14 123 124);
  Peer 3 20 Candidate (HandlerCommit 1 1);
  Peer 3 20 Candidate (CompareLogs 14 16 123 122);
  Peer 3 20 Candidate Refused;
  Peer 1 20 Candidate (VoteReply 2 20 false);
  Peer 1 20 Candidate (SenderCommit 2 2);
  Peer 1 20 Candidate (CheckElection 1 5)].

(** Lines 3156 to 3305. *)
Definition run_22 : list Line := [
  Peer 0 19 Candidate (RequestVoteLost 1);
  Peer 1 20 Candidate (ReceiveRequestVote 1 3 20);
  Peer 1 20 Candidate (VoteArgs 20 123 16 122 123);
  Peer 1 20 Candidate (HandlerCommit 2 2);
  Peer 1 20 Candidate (CompareLogs 16 14 122 123);
  Peer 1 20 Candidate SelfLogNewer;
  Peer 4 16 Leader (AppendLost 0);
  Peer 4 16 Leader (AppendLost 3);
  Peer 3 20 Candidate (RequestVoteLost 4);
  Peer 1 20 Candidate (RequestVoteLost 4);
  Peer 1 20 Candidate (RequestVoteLost 0);
  Peer 4 16 Leader (AppendLost 1);
  Peer 0 19 Candidate (RequestVoteLost 4);
  Peer 4 16 Leader (AppendLost 2);
  Peer 0 19 Candidate (RequestVoteLost 2);
  Peer 0 19 Candidate (RequestVoteLost 3);
  Peer 4 16 Leader StartHeartBeat;
  Peer 4 16 Leader (AppendTo 0);
  Peer 4 16 Leader (AppendTo 1);
  Peer 4 16 Leader (AppendTo 2);
  Peer 4 16 Leader (AppendTo 3);
  Peer 4 16 Leader (SendAppend 3 [100; 123; 123; 100; 100]);
  Peer 4 16 Leader (SendAppend 0 [100; 123; 123; 100; 100]);
  Peer 4 16 Leader (SendAppend 1 [100; 123; 123; 100; 100]);
  Peer 4 16 Leader (SendAppend 2 [100; 123; 123; 100; 100]);
  Peer 4 16 Leader (AppendLost 2);
  Peer 4 16 Leader (AppendLost 1);
  Peer 4 16 Leader (AppendLost 3);
  Peer 4 16 Leader (AppendLost 0);
  Peer 4 16 Leader StartHeartBeat;
  Peer 4 16 Leader (AppendTo 0);
  Peer 4 16 Leader (AppendTo 1);
  Peer 4 16 Leader (AppendTo 2);
  Peer 4 16 Leader (AppendTo 3);
  Peer 4 16 Leader (SendAppend 1 [100; 123; 123; 100; 100]);
  Peer 4 16 Leader (SendAppend 2 [100; 123; 123; 100; 100]);
  Peer 4 16 Leader (SendAppend 3 [100; 123; 123; 100; 100]);
  Peer 4 16 Leader (SendAppend 0 [100; 123; 123; 100; 100]);
  Peer 4 16 Leader (AppendLost 3);
  Peer 4 16 Leader (AppendLost 2);
  Peer 4 16 Leader (AppendLost 1);
  Peer 4 16 Leader (AppendLost 0);
  Peer 1 20 Candidate (VoteReply 2 19 false);
  Peer 1 20 Candidate (SenderCommit 2 2);
  Peer 1 20 Candidate (CheckElection 1 5);
  Peer 4 16 Leader StartHeartBeat;
  Peer 4 16 Leader (AppendTo 0);
  Peer 4 16 Leader (AppendTo 1);
  Peer 4 16 Leader (AppendTo 2);
  Peer 4 16 Leader (AppendTo 3);
  Peer 4 16 Leader (SendAppend 3 [100; 123; 123; 100; 100]);
  Peer 4 16 Leader (SendAppend 2 [100; 123; 123; 100; 100]);
  Peer 4 16 Leader (SendAppend 1 [100; 123; 123; 100; 100]);
  Peer 4 16 Leader (SendAppend 0 [100; 123; 123; 100; 100]);
  Peer 4 16 Leader (AppendLost 3);
  Peer 4 16 Leader (AppendLost 0);
  Peer 4 16 Leader (AppendLost 2);
  Peer 4 16 Leader (AppendLost 1);
  Peer 4 16 Leader StartHeartBeat;
  Peer 4 16 Leader (AppendTo 0);
  Peer 4 16 Leader (AppendTo 1);
  Peer 4 16 Leader (AppendTo 2);
  Peer 4 16 Leader (AppendTo 3);
  Peer 4 16 Leader (SendAppend 3 [100; 123; 123; 100; 100]);
  Peer 4 16 Leader (SendAppend 0 [100; 123; 123; 100; 100]);
  Peer 4 16 Leader (SendAppend 1 [100; 123; 123; 100; 100]);
  Peer 4 16 Leader (SendAppend 2 [100; 123; 123; 100; 100]);
  Peer 4 16 Leader (AppendLost 0);
  Peer 4 16 Leader (AppendLost 2);
  Peer 4 16 Leader (AppendLost 1);
  Peer 4 16 Leader (AppendLost 3);
  Peer 0 19 Candidate StartElection;
  Peer 1 20 Candidate StartElection;
  Peer 2 20 Follower StartElection;
  Peer 1 21 Candidate BecomeCandidate;
  Peer 1 21 Candidate (RequestVoteTo 0);
  Peer 0 20 Candidate BecomeCandidate;
  Peer 0 20 Candidate (RequestVoteTo 1);
  Peer 1 21 Candidate (RequestVoteTo 2);
  Peer 0 20 Candidate (RequestVoteTo 2);
  Peer 0 20 Candidate (RequestVoteTo 3);
  Peer 0 20 Candidate (RequestVoteTo 4);
  Peer 2 21 Candidate BecomeCandidate;
  Peer 2 21 Candidate (RequestVoteTo 0);
  Peer 2 21 Candidate (RequestVoteTo 1);
  Peer 2 21 Candidate (RequestVoteTo 3);
  Peer 2 21 Candidate (RequestVoteTo 4);
  Peer 4 16 Leader StartHeartBeat;
  Peer 4 16 Leader (AppendTo 0);
  Peer 1 21 Candidate (RequestVoteTo 3);
  Peer 1 21 Candidate (RequestVoteTo 4);
  Peer 4 16 Leader (AppendTo 1);
  Peer 4 16 Leader (AppendTo 2);
  Peer 4 16 Leader (AppendTo 3);
  Peer 4 16 Leader (SendAppend 1 [100; 123; 123; 100; 100]);
  Peer 4 16 Leader (SendAppend 2 [100; 123; 123; 100; 100]);
  Peer 4 16 Leader (SendAppend 0 [100; 123; 123; 100; 100]);
  Peer 4 16 Leader (SendAppend 3 [100; 123; 123; 100; 100]);
  Peer 2 21 Candidate (RequestVoteLost 4);
  Peer 3 20 Candidate (ReceiveRequestVote 3 1 21);
  Peer 3 20 Candidate (VoteArgs 21 122 14 123 124);
  Peer 3 20 Candidate (HandlerCommit 1 1);
  Peer 3 20 Candidate (SelfTermLower 1);
  Peer 1 21 Candidate (ReceiveRequestVote 1 2 21);
  Peer 1 21 Candidate (VoteArgs 21 122 16 122 123);
  Peer 1 21 Candidate (HandlerCommit 2 2);
  Peer 1 21 Candidate (CompareLogs 16 16 122 122);
  Peer 2 21 Candidate (ReceiveRequestVote 2 1 21);
  Peer 1 21 Candidate Refused;
  Peer 2 21 Candidate (VoteArgs 21 122 16 122 123);
  Peer 2 21 Candidate (HandlerCommit 2 2);
  Peer 2 21 Candidate (CompareLogs 16 16 122 122);
  Peer 3 21 Follower (CompareLogs 14 16 123 122);
  Peer 2 21 Candidate Refused;
  Peer 3 21 Follower (Granted 21 122 14 123 124);
  Peer 3 21 Follower (HandlerCommit 1 1);
  Peer 1 21 Candidate (VoteReply 3 21 true);
  Peer 1 21 Candidate (SenderCommit 2 2);
  Peer 1 21 Candidate (VoteGained 3);
  Peer 3 21 Follower (ReceiveRequestVote 1 2 21);
  Peer 1 21 Candidate (CheckElection 2 5);
  Peer 3 21 Follower (VoteArgs 21 122 14 123 124);
  Peer 3 21 Follower (HandlerCommit 1 1);
  Peer 3 21 Follower (CompareLogs 14 16 123 122);
  Peer 3 21 Follower Refused;
  Peer 3 21 Follower (VoteReply 1 20 false);
  Peer 3 21 Follower (SenderCommit 1 1);
  Peer 3 21 Follower (CheckElection 0 5);
  Peer 3 21 Follower NotCandidate;
  Peer 4 16 Leader (AppendLost 3);
  Peer 4 16 Leader (AppendLost 0);
  Peer 1 21 Candidate (RequestVoteLost 0);
  Peer 1 21 Candidate (RequestVoteLost 4);
  Peer 0 20 Candidate (RequestVoteLost 2);
  Peer 4 16 Leader (AppendLost 1);
  Peer 4 16 Leader (AppendLost 2);
  Peer 0 20 Candidate (RequestVoteLost 4);
  Peer 0 20 Candidate (RequestVoteLost 3);
  Peer 2 21 Candidate (RequestVoteLost 0);
  Peer 0 20 Candidate (RequestVoteLost 1);
  Peer 4 16 Leader StartHeartBeat;
  Peer 4 16 Leader (AppendTo 0);
  Peer 4 16 Leader (AppendTo 1);
  Peer 4 16 Leader (AppendTo 2);
  Peer 4 16 Leader (AppendTo 3);
  Peer 4 16 Leader (SendAppend 3 [100; 123; 123; 100; 100]);
  Peer 4 16 Leader (SendAppend 1 [100; 123; 123; 100; 100]);
  Peer 4 16 Leader (SendAppend 0 [100; 123; 123; 100; 100]);
  Peer 4 16 Leader (SendAppend 2 [100; 123; 123; 100; 100]);
  Peer 4 16 Leader (AppendLost 2)].

(** Lines 3306 to 3455. *)
Definition run_23 : list Line := [
  Peer 4 16 Leader (AppendLost 3);
  Peer 4 16 Leader (AppendLost 0);
  Peer 4 16 Leader (AppendLost 1);
  Peer 4 16 Leader StartHeartBeat;
  Peer 4 16 Leader (AppendTo 0);
  Peer 4 16 Leader (AppendTo 1);
  Peer 4 16 Leader (AppendTo 2);
  Peer 4 16 Leader (AppendTo 3);
  Peer 4 16 Leader (SendAppend 3 [100; 123; 123; 100; 100]);
  Peer 4 16 Leader (SendAppend 1 [100; 123; 123; 100; 100]);
  Peer 4 16 Leader (SendAppend 2 [100; 123; 123; 100; 100]);
  Peer 4 16 Leader (SendAppend 0 [100; 123; 123; 100; 100]);
  Peer 4 16 Leader (AppendLost 1);
  Peer 4 16 Leader (AppendLost 3);
  Peer 4 16 Leader (AppendLost 2);
  Peer 4 16 Leader (AppendLost 0);
  Peer 4 16 Leader StartHeartBeat;
  Peer 4 16 Leader (AppendTo 0);
  Peer 4 16 Leader (AppendTo 1);
  Peer 4 16 Leader (AppendTo 2);
  Peer 4 16 Leader (AppendTo 3);
  Peer 4 16 Leader (SendAppend 0 [100; 123; 123; 100; 100]);
  Peer 4 16 Leader (SendAppend 3 [100; 123; 123; 100; 100]);
  Peer 4 16 Leader (SendAppend 1 [100; 123; 123; 100; 100]);
  Peer 4 16 Leader (SendAppend 2 [100; 123; 123; 100; 100]);
  Peer 4 16 Leader (AppendLost 1);
  Peer 4 16 Leader (AppendLost 3);
  Peer 4 16 Leader (AppendLost 0);
  Peer 4 16 Leader (AppendLost 2);
  Peer 4 16 Leader StartHeartBeat;
  Peer 4 16 Leader (AppendTo 0);
  Peer 4 16 Leader (AppendTo 1);
  Peer 4 16 Leader (AppendTo 2);
  Peer 4 16 Leader (AppendTo 3);
  Peer 4 16 Leader (SendAppend 3 [100; 123; 123; 100; 100]);
  Peer 4 16 Leader (SendAppend 1 [100; 123; 123; 100; 100]);
  Peer 4 16 Leader (SendAppend 2 [100; 123; 123; 100; 100]);
  Peer 4 16 Leader (SendAppend 0 [100; 123; 123; 100; 100]);
  Peer 4 16 Leader (AppendLost 3);
  Peer 4 16 Leader (AppendLost 0);
  Peer 4 16 Leader (AppendLost 2);
  Peer 4 16 Leader (AppendLost 1);
  Peer 4 16 Leader StartHeartBeat;
  Peer 4 16 Leader (AppendTo 0);
  Peer 4 16 Leader (AppendTo 1);
  Peer 4 16 Leader (AppendTo 2);
  Peer 4 16 Leader (AppendTo 3);
  Peer 4 16 Leader (SendAppend 0 [100; 123; 123; 100; 100]);
  Peer 3 21 Follower StartElection;
  Peer 4 16 Leader (SendAppend 3 [100; 123; 123; 100; 100]);
  Peer 4 16 Leader (SendAppend 1 [100; 123; 123; 100; 100]);
  Peer 4 16 Leader (SendAppend 2 [100; 123; 123; 100; 100]);
  Peer 3 22 Candidate BecomeCandidate;
  Peer 3 22 Candidate (RequestVoteTo 0);
  Peer 3 22 Candidate (RequestVoteTo 1);
  Peer 3 22 Candidate (RequestVoteTo 2);
  Peer 3 22 Candidate (RequestVoteTo 4);
  Peer 4 16 Leader (AppendLost 3);
  Peer 4 16 Leader (AppendLost 0);
  Peer 1 21 Candidate (ReceiveRequestVote 1 3 22);
  Peer 2 21 Candidate (ReceiveRequestVote 2 3 22);
  Peer 1 21 Candidate (VoteArgs 22 123 16 122 123);
  Peer 1 21 Candidate (HandlerCommit 2 2);
  Peer 1 21 Candidate (SelfTermLower 3);
  Peer 2 21 Candidate (VoteArgs 22 123 16 122 123);
  Peer 2 21 Candidate (HandlerCommit 2 2);
  Peer 2 21 Candidate (SelfTermLower 3);
  Peer 1 22 Follower (CompareLogs 16 14 122 123);
  Peer 1 22 Follower SelfLogNewer;
  Peer 2 22 Follower (CompareLogs 16 14 122 123);
  Peer 2 22 Follower SelfLogNewer;
  Peer 2 22 Follower (VoteReply 3 21 false);
  Peer 2 22 Follower (SenderCommit 2 2);
  Peer 2 22 Follower (CheckElection 0 5);
  Peer 2 22 Follower NotCandidate;
  Peer 3 22 Candidate (VoteReply 2 22 false);
  Peer 3 22 Candidate (SenderCommit 1 1);
  Peer 3 22 Candidate (CheckElection 1 5);
  Peer 4 16 Leader (AppendLost 1);
  Peer 3 22 Candidate (RequestVoteLost 0);
  Peer 4 16 Leader (AppendLost 2);
  Peer 3 22 Candidate (RequestVoteLost 4);
  Peer 4 16 Leader StartHeartBeat;
  Peer 4 16 Leader (AppendTo 0);
  Peer 4 16 Leader (AppendTo 1);
  Peer 4 16 Leader (AppendTo 2);
  Peer 4 16 Leader (AppendTo 3);
  Peer 4 16 Leader (SendAppend 0 [100; 123; 123; 100; 100]);
  Peer 4 16 Leader (SendAppend 3 [100; 123; 123; 100; 100]);
  Peer 4 16 Leader (SendAppend 1 [100; 123; 123; 100; 100]);
  Peer 4 16 Leader (SendAppend 2 [100; 123; 123; 100; 100]);
  Peer 4 16 Leader (AppendLost 0);
  Peer 4 16 Leader (AppendLost 2);
  Peer 4 16 Leader (AppendLost 1);
  Peer 4 16 Leader (AppendLost 3);
  Peer 4 16 Leader StartHeartBeat;
  Peer 4 16 Leader (AppendTo 0);
  Peer 4 16 Leader (AppendTo 1);
  Peer 4 16 Leader (AppendTo 2);
  Peer 4 16 Leader (AppendTo 3);
  Peer 4 16 Leader (SendAppend 3 [100; 123; 123; 100; 100]);
  Peer 4 16 Leader (SendAppend 1 [100; 123; 123; 100; 100]);
  Peer 4 16 Leader (SendAppend 0 [100; 123; 123; 100; 100]);
  Peer 4 16 Leader (SendAppend 2 [100; 123; 123; 100; 100]);
  Peer 4 16 Leader (AppendLost 2);
  Peer 4 16 Leader (AppendLost 1);
  Peer 4 16 Leader (AppendLost 0);
  Peer 4 16 Leader (AppendLost 3);
  Peer 4 16 Leader StartHeartBeat;
  Peer 4 16 Leader (AppendTo 0);
  Peer 4 16 Leader (AppendTo 1);
  Peer 4 16 Leader (AppendTo 2);
  Peer 4 16 Leader (AppendTo 3);
  Peer 4 16 Leader (SendAppend 3 [100; 123; 123; 100; 100]);
  Peer 4 16 Leader (SendAppend 1 [100; 123; 123; 100; 100]);
  Peer 4 16 Leader (SendAppend 2 [100; 123; 123; 100; 100]);
  Peer 3 22 Candidate (VoteReply 1 22 false);
  Peer 3 22 Candidate (SenderCommit 1 1);
  Peer 3 22 Candidate (CheckElection 1 5);
  Peer 4 16 Leader (SendAppend 0 [100; 123; 123; 100; 100]);
  Peer 4 16 Leader (AppendLost 0);
  Peer 4 16 Leader (AppendLost 3);
  Peer 4 16 Leader (AppendLost 1);
  Peer 4 16 Leader (AppendLost 2);
  Peer 4 16 Leader StartHeartBeat;
  Peer 0 20 Candidate StartElection;
  Peer 4 16 Leader (AppendTo 0);
  Peer 4 16 Leader (AppendTo 1);
  Peer 4 16 Leader (AppendTo 2);
  Peer 4 16 Leader (AppendTo 3);
  Peer 4 16 Leader (SendAppend 3 [100; 123; 123; 100; 100]);
  Peer 0 21 Candidate BecomeCandidate;
  Peer 0 21 Candidate (RequestVoteTo 1);
  Peer 0 21 Candidate (RequestVoteTo 2);
  Peer 0 21 Candidate (RequestVoteTo 3);
  Peer 0 21 Candidate (RequestVoteTo 4);
  Peer 4 16 Leader (SendAppend 0 [100; 123; 123; 100; 100]);
  Peer 4 16 Leader (SendAppend 1 [100; 123; 123; 100; 100]);
  Peer 4 16 Leader (SendAppend 2 [100; 123; 123; 100; 100]);
  Peer 0 21 Candidate (RequestVoteLost 2);
  Peer 2 22 Follower (VoteReply 1 21 false);
  Peer 2 22 Follower (SenderCommit 2 2);
  Peer 2 22 Follower (CheckElection 0 5);
  Peer 2 22 Follower NotCandidate;
  Peer 4 16 Leader (AppendLost 0);
  Peer 0 21 Candidate (RequestVoteLost 4);
  Peer 4 16 Leader (AppendLost 1);
  Peer 0 21 Candidate (RequestVoteLost 1);
  Peer 0 21 Candidate (RequestVoteLost 3);
  Peer 4 16 Leader (AppendLost 2)].

(** Lines 3456 to 3605. *)
Definition run_24 : list Line := [
  Peer 4 16 Leader StartHeartBeat;
  Peer 4 16 Leader (AppendTo 0);
  Peer 4 16 Leader (AppendTo 1);
  Peer 4 16 Leader (AppendTo 2);
  Peer 4 16 Leader (AppendTo 3);
  Peer 4 16 Leader (SendAppend 3 [100; 123; 123; 100; 100]);
  Peer 4 16 Leader (SendAppend 2 [100; 123; 123; 100; 100]);
  Peer 4 16 Leader (AppendLost 3);
  Peer 4 16 Leader (SendAppend 0 [100; 123; 123; 100; 100]);
  Peer 4 16 Leader (SendAppend 1 [100; 123; 123; 100; 100]);
  Peer 4 16 Leader (AppendLost 1);
  Peer 4 16 Leader (AppendLost 2);
  Peer 4 16 Leader (AppendLost 0);
  Peer 4 16 Leader (AppendLost 3);
  Peer 1 22 Follower StartElection;
  Peer 2 22 Follower StartElection;
  Peer 4 16 Leader StartHeartBeat;
  Peer 4 16 Leader (AppendTo 0);
  Peer 4 16 Leader (AppendTo 1);
  Peer 4 16 Leader (AppendTo 2);
  Peer 4 16 Leader (AppendTo 3);
  Peer 4 16 Leader (SendAppend 3 [100; 123; 123; 100; 100]);
  Peer 4 16 Leader (SendAppend 0 [100; 123; 123; 100; 100]);
  Peer 2 23 Candidate BecomeCandidate;
  Peer 2 23 Candidate (RequestVoteTo 0);
  Peer 2 23 Candidate (RequestVoteTo 1);
  Peer 2 23 Candidate (RequestVoteTo 3);
  Peer 2 23 Candidate (RequestVoteTo 4);
  Peer 1 23 Candidate BecomeCandidate;
  Peer 1 23 Candidate (RequestVoteTo 0);
  Peer 1 23 Candidate (RequestVoteTo 2);
  Peer 1 23 Candidate (RequestVoteTo 3);
  Peer 1 23 Candidate (RequestVoteTo 4);
  Peer 4 16 Leader (SendAppend 1 [100; 123; 123; 100; 100]);
  Peer 3 22 Candidate StartElection;
  Peer 4 16 Leader (SendAppend 2 [100; 123; 123; 100; 100]);
  Peer 3 23 Candidate BecomeCandidate;
  Peer 3 23 Candidate (RequestVoteTo 0);
  Peer 3 23 Candidate (RequestVoteTo 1);
  Peer 3 23 Candidate (RequestVoteTo 2);
  Peer 3 23 Candidate (RequestVoteTo 4);
  Peer 1 23 Candidate (RequestVoteLost 3);
  Peer 3 23 Candidate (RequestVoteLost 4);
  Peer 2 23 Candidate (ReceiveRequestVote 2 1 23);
  Peer 1 23 Candidate (ReceiveRequestVote 1 3 23);
  Peer 1 23 Candidate (VoteArgs 23 123 16 122 123);
  Peer 1 23 Candidate (HandlerCommit 2 2);
  Peer 1 23 Candidate (CompareLogs 16 14 122 123);
  Peer 1 23 Candidate SelfLogNewer;
  Peer 2 23 Candidate (VoteArgs 23 122 16 122 123);
  Peer 2 23 Candidate (HandlerCommit 2 2);
  Peer 2 23 Candidate (CompareLogs 16 16 122 122);
  Peer 2 23 Candidate Refused;
  Peer 2 23 Candidate (RequestVoteLost 0);
  Peer 4 16 Leader (AppendLost 0);
  Peer 1 23 Candidate (ReceiveRequestVote 1 2 23);
  Peer 3 23 Candidate (ReceiveRequestVote 3 2 23);
  Peer 2 23 Candidate (ReceiveRequestVote 2 3 23);
  Peer 3 23 Candidate (VoteArgs 23 122 14 123 124);
  Peer 2 23 Candidate (VoteArgs 23 123 16 122 123);
  Peer 2 23 Candidate (HandlerCommit 2 2);
  Peer 3 23 Candidate (HandlerCommit 1 1);
  Peer 2 23 Candidate (CompareLogs 16 14 122 123);
  Peer 3 23 Candidate (CompareLogs 14 16 123 122);
  Peer 3 23 Candidate Refused;
  Peer 1 23 Candidate (VoteArgs 23 122 16 122 123);
  Peer 1 23 Candidate (HandlerCommit 2 2);
  Peer 1 23 Candidate (CompareLogs 16 16 122 122);
  Peer 1 23 Candidate Refused;
  Peer 2 23 Candidate SelfLogNewer;
  Peer 2 23 Candidate (RequestVoteLost 4);
  Peer 4 16 Leader (AppendLost 1);
  Peer 3 23 Candidate (RequestVoteLost 0);
  Peer 1 23 Candidate (RequestVoteLost 4);
  Peer 1 23 Candidate (RequestVoteLost 0);
  Peer 4 16 Leader (AppendLost 2);
  Peer 4 16 Leader (AppendLost 3);
  Peer 4 16 Leader StartHeartBeat;
  Peer 4 16 Leader (AppendTo 0);
  Peer 4 16 Leader (AppendTo 1);
  Peer 4 16 Leader (AppendTo 2);
  Peer 4 16 Leader (AppendTo 3);
  Peer 4 16 Leader (SendAppend 3 [100; 123; 123; 100; 100]);
  Peer 4 16 Leader (SendAppend 1 [100; 123; 123; 100; 100]);
  Peer 4 16 Leader (SendAppend 0 [100; 123; 123; 100; 100]);
  Peer 4 16 Leader (SendAppend 2 [100; 123; 123; 100; 100]);
  Peer 4 16 Leader (AppendLost 1);
  Peer 4 16 Leader (AppendLost 2);
  Peer 4 16 Leader (AppendLost 3);
  Peer 4 16 Leader (AppendLost 0);
  Peer 4 16 Leader StartHeartBeat;
  Peer 4 16 Leader (AppendTo 0);
  Peer 4 16 Leader (AppendTo 1);
  Peer 4 16 Leader (AppendTo 2);
  Peer 4 16 Leader (AppendTo 3);
  Peer 4 16 Leader (SendAppend 3 [100; 123; 123; 100; 100]);
  Peer 4 16 Leader (SendAppend 1 [100; 123; 123; 100; 100]);
  Peer 4 16 Leader (SendAppend 2 [100; 123; 123; 100; 100]);
  Peer 4 16 Leader (SendAppend 0 [100; 123; 123; 100; 100]);
  Peer 1 23 Candidate (VoteReply 3 20 false);
  Peer 1 23 Candidate (SenderCommit 2 2);
  Peer 1 23 Candidate (CheckElection 1 5);
  Peer 4 16 Leader (AppendLost 1);
  Peer 4 16 Leader (AppendLost 2);
  Peer 3 23 Candidate (VoteReply 1 23 false);
  Peer 3 23 Candidate (SenderCommit 1 1);
  Peer 3 23 Candidate (CheckElection 1 5);
  Peer 4 16 Leader (AppendLost 3);
  Peer 4 16 Leader (AppendLost 0);
  Peer 4 16 Leader StartHeartBeat;
  Peer 4 16 Leader (AppendTo 0);
  Peer 4 16 Leader (AppendTo 1);
  Peer 4 16 Leader (AppendTo 2);
  Peer 4 16 Leader (AppendTo 3);
  Peer 4 16 Leader (SendAppend 1 [100; 123; 123; 100; 100]);
  Peer 4 16 Leader (SendAppend 0 [100; 123; 123; 100; 100]);
  Peer 4 16 Leader (SendAppend 2 [100; 123; 123; 100; 100]);
  Peer 4 16 Leader (SendAppend 3 [100; 123; 123; 100; 100]);
  Peer 4 16 Leader (AppendLost 3);
  Peer 4 16 Leader (AppendLost 2);
  Peer 4 16 Leader (AppendLost 0);
  Peer 4 16 Leader (AppendLost 1);
  Peer 4 16 Leader StartHeartBeat;
  Peer 4 16 Leader (AppendTo 0);
  Peer 4 16 Leader (AppendTo 1);
  Peer 4 16 Leader (AppendTo 2);
  Peer 4 16 Leader (AppendTo 3);
  Peer 4 16 Leader (SendAppend 3 [100; 123; 123; 100; 100]);
  Peer 4 16 Leader (SendAppend 1 [100; 123; 123; 100; 100]);
  Peer 4 16 Leader (SendAppend 2 [100; 123; 123; 100; 100]);
  Peer 4 16 Leader (SendAppend 0 [100; 123; 123; 100; 100]);
  Peer 4 16 Leader (AppendLost 0);
  Peer 4 16 Leader (AppendLost 2);
  Peer 4 16 Leader (AppendLost 1);
  Peer 2 23 Candidate (VoteReply 3 23 false);
  Peer 2 23 Candidate (SenderCommit 2 2);
  Peer 2 23 Candidate (CheckElection 1 5);
  Peer 4 16 Leader (AppendLost 3);
  Peer 4 16 Leader StartHeartBeat;
  Peer 4 16 Leader (AppendTo 0);
  Peer 4 16 Leader (AppendTo 1);
  Peer 4 16 Leader (AppendTo 2);
  Peer 4 16 Leader (AppendTo 3);
  Peer 4 16 Leader (SendAppend 3 [100; 123; 123; 100; 100]);
  Peer 2 23 Candidate (VoteReply 1 23 false);
  Peer 2 23 Candidate (SenderCommit 2 2);
  Peer 2 23 Candidate (CheckElection 1 5);
  Peer 4 16 Leader (SendAppend 1 [100; 123; 123; 100; 100]);
  Peer 4 16 Leader (SendAppend 2 [100; 123; 123; 100; 100]);
  Peer 4 16 Leader (SendAppend 0 [100; 123; 123; 100; 100])].

(** Lines 3606 to 3755. *)
Definition run_25 : list Line := [
  Peer 1 23 Candidate (VoteReply 2 23 false);
  Peer 1 23 Candidate (SenderCommit 2 2);
  Peer 1 23 Candidate (CheckElection 1 5);
  Peer 4 16 Leader (AppendLost 1);
  Peer 1 23 Candidate (VoteReply 2 21 false);
  Peer 1 23 Candidate (SenderCommit 2 2);
  Peer 1 23 Candidate (CheckElection 1 5);
  Peer 4 16 Leader (AppendLost 2);
  Peer 4 16 Leader (AppendLost 3);
  Peer 4 16 Leader (AppendLost 0);
  Peer 3 23 Candidate StartElection;
  Peer 2 23 Candidate StartElection;
  Peer 0 21 Candidate StartElection;
  Peer 3 24 Candidate BecomeCandidate;
  Peer 3 24 Candidate (RequestVoteTo 0);
  Peer 3 24 Candidate (RequestVoteTo 1);
  Peer 3 24 Candidate (RequestVoteTo 2);
  Peer 3 24 Candidate (RequestVoteTo 4);
  Peer 2 24 Candidate BecomeCandidate;
  Peer 2 24 Candidate (RequestVoteTo 0);
  Peer 2 24 Candidate (RequestVoteTo 1);
  Peer 2 24 Candidate (RequestVoteTo 3);
  Peer 2 24 Candidate (RequestVoteTo 4);
  Peer 4 16 Leader StartHeartBeat;
  Peer 4 16 Leader (AppendTo 0);
  Peer 4 16 Leader (AppendTo 1);
  Peer 4 16 Leader (AppendTo 2);
  Peer 4 16 Leader (AppendTo 3);
  Peer 4 16 Leader (SendAppend 3 [100; 123; 123; 100; 100]);
  Peer 4 16 Leader (SendAppend 1 [100; 123; 123; 100; 100]);
  Peer 4 16 Leader (SendAppend 2 [100; 123; 123; 100; 100]);
  Peer 4 16 Leader (SendAppend 0 [100; 123; 123; 100; 100]);
  Peer 0 22 Candidate BecomeCandidate;
  Peer 0 22 Candidate (RequestVoteTo 1);
  Peer 0 22 Candidate (RequestVoteTo 2);
  Peer 0 22 Candidate (RequestVoteTo 3);
  Peer 0 22 Candidate (RequestVoteTo 4);
  Peer 2 24 Candidate (RequestVoteLost 3);
  Peer 0 22 Candidate (RequestVoteLost 4);
  Peer 2 24 Candidate (RequestVoteLost 1);
  Peer 4 16 Leader (AppendLost 2);
  Peer 4 16 Leader (AppendLost 0);
  Peer 2 24 Candidate (ReceiveRequestVote 2 3 24);
  Peer 1 23 Candidate (ReceiveRequestVote 1 3 24);
  Peer 2 24 Candidate (VoteArgs 24 123 16 122 123);
  Peer 1 23 Candidate (VoteArgs 24 123 16 122 123);
  Peer 1 23 Candidate (HandlerCommit 2 2);
  Peer 2 24 Candidate (HandlerCommit 2 2);
  Peer 2 24 Candidate (CompareLogs 16 14 122 123);
  Peer 2 24 Candidate SelfLogNewer;
  Peer 1 23 Candidate (SelfTermLower 3);
  Peer 1 24 Follower (CompareLogs 16 14 122 123);
  Peer 1 24 Follower SelfLogNewer;
  Peer 4 16 Leader (AppendLost 1);
  Peer 2 24 Candidate (RequestVoteLost 0);
  Peer 3 24 Candidate (RequestVoteLost 4);
  Peer 2 24 Candidate (RequestVoteLost 4);
  Peer 0 22 Candidate (RequestVoteLost 2);
  Peer 0 22 Candidate (RequestVoteLost 1);
  Peer 0 22 Candidate (RequestVoteLost 3);
  Peer 3 24 Candidate (RequestVoteLost 0);
  Peer 4 16 Leader (AppendLost 3);
  Peer 4 16 Leader StartHeartBeat;
  Peer 4 16 Leader (AppendTo 0);
  Peer 4 16 Leader (AppendTo 1);
  Peer 4 16 Leader (AppendTo 2);
  Peer 4 16 Leader (AppendTo 3);
  Peer 4 16 Leader (SendAppend 3 [100; 123; 123; 100; 100]);
  Peer 4 16 Leader (SendAppend 2 [100; 123; 123; 100; 100]);
  Peer 4 16 Leader (SendAppend 1 [100; 123; 123; 100; 100]);
  Peer 4 16 Leader (SendAppend 0 [100; 123; 123; 100; 100]);
  Peer 4 16 Leader (AppendLost 0);
  Peer 4 16 Leader (AppendLost 3);
  Peer 4 16 Leader (AppendLost 1);
  Peer 4 16 Leader (AppendLost 2);
  Peer 4 16 Leader StartHeartBeat;
  Peer 4 16 Leader (AppendTo 0);
  Peer 4 16 Leader (AppendTo 1);
  Peer 4 16 Leader (AppendTo 2);
  Peer 4 16 Leader (AppendTo 3);
  Peer 4 16 Leader (SendAppend 3 [100; 123; 123; 100; 100]);
  Peer 4 16 Leader (SendAppend 0 [100; 123; 123; 100; 100]);
  Peer 4 16 Leader (SendAppend 2 [100; 123; 123; 100; 100]);
  Peer 4 16 Leader (SendAppend 1 [100; 123; 123; 100; 100]);
  Peer 4 16 Leader (AppendLost 2);
  Peer 4 16 Leader (AppendLost 1);
  Peer 3 24 Candidate (VoteReply 2 24 false);
  Peer 3 24 Candidate (SenderCommit 1 1);
  Peer 3 24 Candidate (CheckElection 1 5);
  Peer 4 16 Leader (AppendLost 3);
  Peer 4 16 Leader (AppendLost 0);
  Peer 4 16 Leader StartHeartBeat;
  Peer 4 16 Leader (AppendTo 0);
  Peer 4 16 Leader (AppendTo 1);
  Peer 4 16 Leader (AppendTo 2);
  Peer 4 16 Leader (AppendTo 3);
  Peer 4 16 Leader (SendAppend 1 [100; 123; 123; 100; 100]);
  Peer 4 16 Leader (SendAppend 3 [100; 123; 123; 100; 100]);
  Peer 4 16 Leader (SendAppend 2 [100; 123; 123; 100; 100]);
  Peer 4 16 Leader (SendAppend 0 [100; 123; 123; 100; 100]);
  Peer 4 16 Leader (AppendLost 2);
  Peer 4 16 Leader (AppendLost 1);
  Peer 4 16 Leader (AppendLost 0);
  Peer 3 24 Candidate (VoteReply 1 24 false);
  Peer 3 24 Candidate (SenderCommit 1 1);
  Peer 3 24 Candidate (CheckElection 1 5);
  Peer 3 24 Candidate (VoteReply 2 23 false);
  Peer 3 24 Candidate (SenderCommit 1 1);
  Peer 3 24 Candidate (CheckElection 1 5);
  Peer 4 16 Leader (AppendLost 3);
  Peer 4 16 Leader StartHeartBeat;
  Peer 4 16 Leader (AppendTo 0);
  Peer 4 16 Leader (AppendTo 1);
  Peer 4 16 Leader (AppendTo 2);
  Peer 4 16 Leader (AppendTo 3);
  Peer 4 16 Leader (SendAppend 3 [100; 123; 123; 100; 100]);
  Peer 4 16 Leader (SendAppend 1 [100; 123; 123; 100; 100]);
  Peer 4 16 Leader (SendAppend 2 [100; 123; 123; 100; 100]);
  Peer 4 16 Leader (SendAppend 0 [100; 123; 123; 100; 100]);
  Peer 4 16 Leader (AppendLost 0);
  Peer 4 16 Leader (AppendLost 1);
  Peer 4 16 Leader (AppendLost 2);
  Peer 4 16 Leader (AppendLost 3);
  Peer 4 16 Leader StartHeartBeat;
  Peer 4 16 Leader (AppendTo 0);
  Peer 4 16 Leader (AppendTo 1);
  Peer 4 16 Leader (AppendTo 2);
  Peer 4 16 Leader (AppendTo 3);
  Peer 4 16 Leader (SendAppend 3 [100; 123; 123; 100; 100]);
  Peer 4 16 Leader (SendAppend 1 [100; 123; 123; 100; 100]);
  Peer 4 16 Leader (SendAppend 0 [100; 123; 123; 100; 100]);
  Peer 4 16 Leader (SendAppend 2 [100; 123; 123; 100; 100]);
  Peer 4 16 Leader (AppendLost 0);
  Peer 4 16 Leader (AppendLost 3);
  Peer 4 16 Leader (AppendLost 1);
  Peer 4 16 Leader (AppendLost 2);
  Peer 3 24 Candidate StartElection;
  Peer 1 24 Follower StartElection;
  Peer 3 25 Candidate BecomeCandidate;
  Peer 4 16 Leader StartHeartBeat;
  Peer 4 16 Leader (AppendTo 0);
  Peer 3 25 Candidate (RequestVoteTo 0);
  Peer 3 25 Candidate (RequestVoteTo 1);
  Peer 4 16 Leader (AppendTo 1);
  Peer 4 16 Leader (AppendTo 2);
  Peer 4 16 Leader (AppendTo 3);
  Peer 3 25 Candidate (RequestVoteTo 2);
  Peer 4 16 Leader (SendAppend 0 [100; 123; 123; 100; 100]);
  Peer 1 25 Candidate BecomeCandidate;
  Peer 1 25 Candidate (RequestVoteTo 0)].

(** Lines 3756 to 3905. *)
Definition run_26 : list Line := [
  Peer 1 25 Candidate (RequestVoteTo 2);
  Peer 1 25 Candidate (RequestVoteTo 3);
  Peer 1 25 Candidate (RequestVoteTo 4);
  Peer 3 25 Candidate (RequestVoteTo 4);
  Peer 4 16 Leader (SendAppend 3 [100; 123; 123; 100; 100]);
  Peer 4 16 Leader (SendAppend 1 [100; 123; 123; 100; 100]);
  Peer 4 16 Leader (SendAppend 2 [100; 123; 123; 100; 100]);
  Peer 4 16 Leader (AppendLost 2);
  Peer 1 25 Candidate (RequestVoteLost 3);
  Peer 1 25 Candidate (ReceiveRequestVote 1 3 25);
  Peer 1 25 Candidate (VoteArgs 25 123 16 122 123);
  Peer 1 25 Candidate (HandlerCommit 2 2);
  Peer 1 25 Candidate (CompareLogs 16 14 122 123);
  Peer 1 25 Candidate SelfLogNewer;
  Peer 3 25 Candidate (VoteReply 1 25 false);
  Peer 3 25 Candidate (SenderCommit 1 1);
  Peer 3 25 Candidate (CheckElection 1 5);
  Peer 2 24 Candidate (ReceiveRequestVote 2 3 25);
  Peer 2 24 Candidate (VoteArgs 25 123 16 122 123);
  Peer 2 24 Candidate (HandlerCommit 2 2);
  Peer 2 24 Candidate (SelfTermLower 3);
  Peer 2 25 Follower (CompareLogs 16 14 122 123);
  Peer 2 25 Follower SelfLogNewer;
  Peer 2 25 Follower (ReceiveRequestVote 3 1 25);
  Peer 2 25 Follower (VoteArgs 25 122 16 122 123);
  Peer 2 25 Follower (HandlerCommit 2 2);
  Peer 2 25 Follower (CompareLogs 16 16 122 122);
  Peer 2 25 Follower Refused;
  Peer 3 25 Candidate (RequestVoteLost 0);
  Peer 1 25 Candidate (RequestVoteLost 0);
  Peer 4 16 Leader (AppendLost 3);
  Peer 4 16 Leader (AppendLost 1);
  Peer 3 25 Candidate (RequestVoteLost 4);
  Peer 4 16 Leader (AppendLost 0);
  Peer 4 16 Leader StartHeartBeat;
  Peer 4 16 Leader (AppendTo 0);
  Peer 4 16 Leader (AppendTo 1);
  Peer 4 16 Leader (AppendTo 2);
  Peer 4 16 Leader (AppendTo 3);
  Peer 1 25 Candidate (RequestVoteLost 4);
  Peer 0 22 Candidate StartElection;
  Peer 4 16 Leader (SendAppend 3 [100; 123; 123; 100; 100]);
  Peer 4 16 Leader (SendAppend 1 [100; 123; 123; 100; 100]);
  Peer 4 16 Leader (SendAppend 0 [100; 123; 123; 100; 100]);
  Peer 0 23 Candidate BecomeCandidate;
  Peer 0 23 Candidate (RequestVoteTo 1);
  Peer 0 23 Candidate (RequestVoteTo 2);
  Peer 4 16 Leader (SendAppend 2 [100; 123; 123; 100; 100]);
  Peer 0 23 Candidate (RequestVoteTo 3);
  Peer 0 23 Candidate (RequestVoteTo 4);
  Peer 0 23 Candidate (RequestVoteLost 3);
  Peer 0 23 Candidate (RequestVoteLost 2);
  Peer 0 23 Candidate (RequestVoteLost 1);
  Peer 4 16 Leader (AppendLost 0);
  Peer 4 16 Leader (AppendLost 3);
  Peer 4 16 Leader (AppendLost 1);
  Peer 4 16 Leader (AppendLost 2);
  Peer 0 23 Candidate (RequestVoteLost 4);
  Peer 4 16 Leader StartHeartBeat;
  Peer 4 16 Leader (AppendTo 0);
  Peer 4 16 Leader (AppendTo 1);
  Peer 4 16 Leader (AppendTo 2);
  Peer 4 16 Leader (AppendTo 3);
  Peer 4 16 Leader (SendAppend 3 [100; 123; 123; 100; 100]);
  Peer 4 16 Leader (SendAppend 1 [100; 123; 123; 100; 100]);
  Peer 4 16 Leader (SendAppend 2 [100; 123; 123; 100; 100]);
  Peer 4 16 Leader (SendAppend 0 [100; 123; 123; 100; 100]);
  Peer 4 16 Leader (AppendLost 0);
  Peer 4 16 Leader (AppendLost 2);
  Peer 4 16 Leader (AppendLost 3);
  Peer 4 16 Leader (AppendLost 1);
  Peer 4 16 Leader StartHeartBeat;
  Peer 4 16 Leader (AppendTo 0);
  Peer 4 16 Leader (AppendTo 1);
  Peer 4 16 Leader (AppendTo 2);
  Peer 4 16 Leader (AppendTo 3);
  Peer 4 16 Leader (SendAppend 3 [100; 123; 123; 100; 100]);
  Peer 4 16 Leader (SendAppend 2 [100; 123; 123; 100; 100]);
  Peer 4 16 Leader (SendAppend 1 [100; 123; 123; 100; 100]);
  Peer 4 16 Leader (SendAppend 0 [100; 123; 123; 100; 100]);
  Peer 4 16 Leader (AppendLost 3);
  Peer 4 16 Leader (AppendLost 1);
  Peer 4 16 Leader (AppendLost 0);
  Peer 4 16 Leader (AppendLost 2);
  Peer 4 16 Leader StartHeartBeat;
  Peer 4 16 Leader (AppendTo 0);
  Peer 4 16 Leader (AppendTo 1);
  Peer 4 16 Leader (AppendTo 2);
  Peer 4 16 Leader (AppendTo 3);
  Peer 4 16 Leader (SendAppend 1 [100; 123; 123; 100; 100]);
  Peer 4 16 Leader (SendAppend 0 [100; 123; 123; 100; 100]);
  Peer 4 16 Leader (SendAppend 3 [100; 123; 123; 100; 100]);
  Peer 4 16 Leader (SendAppend 2 [100; 123; 123; 100; 100]);
  Peer 4 16 Leader (AppendLost 1);
  Peer 4 16 Leader (AppendLost 0);
  Peer 4 16 Leader (AppendLost 2);
  Peer 4 16 Leader (AppendLost 3);
  Peer 4 16 Leader StartHeartBeat;
  Peer 4 16 Leader (AppendTo 0);
  Peer 3 25 Candidate StartElection;
  Peer 4 16 Leader (AppendTo 1);
  Peer 4 16 Leader (AppendTo 2);
  Peer 4 16 Leader (AppendTo 3);
  Peer 4 16 Leader (SendAppend 0 [100; 123; 123; 100; 100]);
  Peer 3 26 Candidate BecomeCandidate;
  Peer 3 26 Candidate (RequestVoteTo 0);
  Peer 3 26 Candidate (RequestVoteTo 1);
  Peer 3 26 Candidate (RequestVoteTo 2);
  Peer 3 26 Candidate (RequestVoteTo 4);
  Peer 4 16 Leader (SendAppend 2 [100; 123; 123; 100; 100]);
  Peer 4 16 Leader (SendAppend 1 [100; 123; 123; 100; 100]);
  Peer 4 16 Leader (SendAppend 3 [100; 123; 123; 100; 100]);
  Peer 4 16 Leader (AppendLost 1);
  Peer 4 16 Leader (AppendLost 3);
  Peer 1 25 Candidate (ReceiveRequestVote 1 3 26);
  Peer 1 25 Candidate (VoteArgs 26 123 16 122 123);
  Peer 2 25 Follower (ReceiveRequestVote 3 3 26);
  Peer 1 25 Candidate (HandlerCommit 2 2);
  Peer 2 25 Follower (VoteArgs 26 123 16 122 123);
  Peer 2 25 Follower (HandlerCommit 2 2);
  Peer 1 25 Candidate (SelfTermLower 3);
  Peer 2 25 Follower (SelfTermLower 3);
  Peer 2 26 Follower (CompareLogs 16 14 122 123);
  Peer 2 26 Follower SelfLogNewer;
  Peer 1 26 Follower (CompareLogs 16 14 122 123);
  Peer 1 26 Follower SelfLogNewer;
  Peer 3 26 Candidate (RequestVoteLost 2);
  Peer 3 26 Candidate (VoteReply 1 26 false);
  Peer 3 26 Candidate (SenderCommit 1 1);
  Peer 3 26 Candidate (CheckElection 1 5);
  Peer 3 26 Candidate (RequestVoteLost 4);
  Peer 4 16 Leader (AppendLost 0);
  Peer 4 16 Leader (AppendLost 2);
  Peer 3 26 Candidate (RequestVoteLost 0);
  Peer 4 16 Leader StartHeartBeat;
  Peer 4 16 Leader (AppendTo 0);
  Peer 4 16 Leader (AppendTo 1);
  Peer 4 16 Leader (AppendTo 2);
  Peer 4 16 Leader (AppendTo 3);
  Peer 4 16 Leader (SendAppend 0 [100; 123; 123; 100; 100]);
  Peer 4 16 Leader (SendAppend 3 [100; 123; 123; 100; 100]);
  Peer 4 16 Leader (SendAppend 1 [100; 123; 123; 100; 100]);
  Peer 4 16 Leader (SendAppend 2 [100; 123; 123; 100; 100]);
  Peer 4 16 Leader (AppendLost 2);
  Peer 4 16 Leader (AppendLost 0);
  Peer 4 16 Leader (AppendLost 3);
  Peer 4 16 Leader (AppendLost 1);
  Peer 4 16 Leader StartHeartBeat;
  Peer 4 16 Leader (AppendTo 0);
  Peer 4 16 Leader (AppendTo 1)].

(** Lines 3906 to 4055. *)
Definition run_27 : list Line := [
  Peer 4 16 Leader (AppendTo 2);
  Peer 4 16 Leader (AppendTo 3);
  Peer 4 16 Leader (SendAppend 3 [100; 123; 123; 100; 100]);
  Peer 4 16 Leader (SendAppend 2 [100; 123; 123; 100; 100]);
  Peer 4 16 Leader (SendAppend 0 [100; 123; 123; 100; 100]);
  Peer 4 16 Leader (SendAppend 1 [100; 123; 123; 100; 100]);
  Peer 4 16 Leader (AppendLost 3);
  Peer 4 16 Leader (AppendLost 1);
  Peer 1 26 Follower (VoteReply 2 25 false);
  Peer 1 26 Follower (SenderCommit 2 2);
  Peer 1 26 Follower (CheckElection 0 5);
  Peer 1 26 Follower NotCandidate;
  Peer 4 16 Leader (AppendLost 2);
  Peer 4 16 Leader (AppendLost 0);
  Peer 4 16 Leader StartHeartBeat;
  Peer 4 16 Leader (AppendTo 0);
  Peer 4 16 Leader (AppendTo 1);
  Peer 4 16 Leader (AppendTo 2);
  Peer 4 16 Leader (AppendTo 3);
  Peer 4 16 Leader (SendAppend 3 [100; 123; 123; 100; 100]);
  Peer 4 16 Leader (SendAppend 0 [100; 123; 123; 100; 100]);
  Peer 4 16 Leader (SendAppend 1 [100; 123; 123; 100; 100]);
  Peer 4 16 Leader (SendAppend 2 [100; 123; 123; 100; 100]);
  Peer 4 16 Leader (AppendLost 0);
  Peer 4 16 Leader (AppendLost 2);
  Peer 4 16 Leader (AppendLost 1);
  Peer 4 16 Leader (AppendLost 3);
  Peer 4 16 Leader StartHeartBeat;
  Peer 4 16 Leader (AppendTo 0);
  Peer 4 16 Leader (AppendTo 1);
  Peer 4 16 Leader (AppendTo 2);
  Peer 4 16 Leader (AppendTo 3);
  Peer 0 23 Candidate StartElection;
  Peer 4 16 Leader (SendAppend 3 [100; 123; 123; 100; 100]);
  Peer 4 16 Leader (SendAppend 0 [100; 123; 123; 100; 100]);
  Peer 0 24 Candidate BecomeCandidate;
  Peer 0 24 Candidate (RequestVoteTo 1);
  Peer 0 24 Candidate (RequestVoteTo 2);
  Peer 0 24 Candidate (RequestVoteTo 3);
  Peer 0 24 Candidate (RequestVoteTo 4);
  Peer 4 16 Leader (SendAppend 1 [100; 123; 123; 100; 100]);
  Peer 4 16 Leader (SendAppend 2 [100; 123; 123; 100; 100]);
  Peer 0 24 Candidate (RequestVoteLost 1);
  Peer 0 24 Candidate (RequestVoteLost 4);
  Peer 4 16 Leader (AppendLost 3);
  Peer 0 24 Candidate (RequestVoteLost 2);
  Peer 4 16 Leader (AppendLost 1);
  Peer 4 16 Leader (AppendLost 0);
  Peer 4 16 Leader (AppendLost 2);
  Peer 0 24 Candidate (RequestVoteLost 3);
  Peer 2 26 Follower StartElection;
  Peer 4 16 Leader StartHeartBeat;
  Peer 4 16 Leader (AppendTo 0);
  Peer 4 16 Leader (AppendTo 1);
  Peer 2 27 Candidate BecomeCandidate;
  Peer 4 16 Leader (AppendTo 2);
  Peer 4 16 Leader (AppendTo 3);
  Peer 2 27 Candidate (RequestVoteTo 0);
  Peer 2 27 Candidate (RequestVoteTo 1);
  Peer 4 16 Leader (SendAppend 1 [100; 123; 123; 100; 100]);
  Peer 2 27 Candidate (RequestVoteTo 3);
  Peer 2 27 Candidate (RequestVoteTo 4);
  Peer 4 16 Leader (SendAppend 3 [100; 123; 123; 100; 100]);
  Peer 3 26 Candidate (VoteReply 2 25 false);
  Peer 3 26 Candidate (SenderCommit 1 1);
  Peer 3 26 Candidate (CheckElection 1 5);
  Peer 4 16 Leader (SendAppend 0 [100; 123; 123; 100; 100]);
  Peer 4 16 Leader (SendAppend 2 [100; 123; 123; 100; 100]);
  Peer 4 16 Leader (AppendLost 3);
  Peer 1 26 Follower (ReceiveRequestVote 3 2 27);
  Peer 1 26 Follower (VoteArgs 27 122 16 122 123);
  Peer 1 26 Follower (HandlerCommit 2 2);
  Peer 1 26 Follower (SelfTermLower 2);
  Peer 3 26 Candidate (ReceiveRequestVote 3 2 27);
  Peer 3 26 Candidate (VoteArgs 27 122 14 123 124);
  Peer 3 26 Candidate (HandlerCommit 1 1);
  Peer 3 26 Candidate (SelfTermLower 2);
  Peer 1 27 Follower (CompareLogs 16 16 122 122);
  Peer 3 27 Follower (CompareLogs 14 16 123 122);
  Peer 3 27 Follower (Granted 27 122 14 123 124);
  Peer 3 27 Follower (HandlerCommit 1 1);
  Peer 1 27 Follower (Granted 27 122 16 122 123);
  Peer 1 27 Follower (HandlerCommit 2 2);
  Peer 4 16 Leader (AppendLost 1);
  Peer 4 16 Leader (AppendLost 2);
  Peer 2 27 Candidate (RequestVoteLost 4);
  Peer 4 16 Leader (AppendLost 0);
  Peer 2 27 Candidate (RequestVoteLost 0);
  Peer 4 16 Leader StartHeartBeat;
  Peer 4 16 Leader (AppendTo 0);
  Peer 4 16 Leader (AppendTo 1);
  Peer 4 16 Leader (AppendTo 2);
  Peer 4 16 Leader (AppendTo 3);
  Peer 4 16 Leader (SendAppend 3 [100; 123; 123; 100; 100]);
  Peer 4 16 Leader (SendAppend 0 [100; 123; 123; 100; 100]);
  Peer 4 16 Leader (SendAppend 1 [100; 123; 123; 100; 100]);
  Peer 4 16 Leader (SendAppend 2 [100; 123; 123; 100; 100]);
  Peer 4 16 Leader (AppendLost 0);
  Peer 4 16 Leader (AppendLost 1);
  Peer 4 16 Leader (AppendLost 2);
  Peer 4 16 Leader StartHeartBeat;
  Peer 4 16 Leader (AppendTo 0);
  Peer 4 16 Leader (AppendTo 1);
  Peer 4 16 Leader (AppendTo 2);
  Peer 4 16 Leader (AppendTo 3);
  Peer 4 16 Leader (AppendLost 3);
  Peer 4 16 Leader (SendAppend 2 [100; 123; 123; 100; 100]);
  Peer 4 16 Leader (SendAppend 1 [100; 123; 123; 100; 100]);
  Peer 4 16 Leader (SendAppend 0 [100; 123; 123; 100; 100]);
  Peer 4 16 Leader (SendAppend 3 [100; 123; 123; 100; 100]);
  Peer 4 16 Leader (AppendLost 1);
  Peer 4 16 Leader (AppendLost 0);
  Peer 4 16 Leader (AppendLost 3);
  Peer 4 16 Leader (AppendLost 2);
  Peer 2 27 Candidate (VoteReply 1 27 true);
  Peer 2 27 Candidate (SenderCommit 2 2);
  Peer 2 27 Candidate (VoteGained 1);
  Peer 2 27 Candidate (CheckElection 2 5);
  Peer 4 16 Leader StartHeartBeat;
  Peer 4 16 Leader (AppendTo 0);
  Peer 4 16 Leader (AppendTo 1);
  Peer 4 16 Leader (AppendTo 2);
  Peer 4 16 Leader (AppendTo 3);
  Peer 4 16 Leader (SendAppend 3 [100; 123; 123; 100; 100]);
  Peer 4 16 Leader (SendAppend 0 [100; 123; 123; 100; 100]);
  Peer 4 16 Leader (SendAppend 1 [100; 123; 123; 100; 100]);
  Peer 4 16 Leader (SendAppend 2 [100; 123; 123; 100; 100]);
  Peer 4 16 Leader (AppendLost 0);
  Peer 4 16 Leader (AppendLost 2);
  Peer 4 16 Leader (AppendLost 1);
  Peer 4 16 Leader (AppendLost 3);
  Peer 0 24 Candidate StartElection;
  Peer 4 16 Leader StartHeartBeat;
  Peer 4 16 Leader (AppendTo 0);
  Peer 4 16 Leader (AppendTo 1);
  Peer 4 16 Leader (AppendTo 2);
  Peer 4 16 Leader (AppendTo 3);
  Peer 4 16 Leader (SendAppend 3 [100; 123; 123; 100; 100]);
  Peer 4 16 Leader (SendAppend 0 [100; 123; 123; 100; 100]);
  Peer 4 16 Leader (SendAppend 1 [100; 123; 123; 100; 100]);
  Peer 0 25 Candidate BecomeCandidate;
  Peer 0 25 Candidate (RequestVoteTo 1);
  Peer 0 25 Candidate (RequestVoteTo 2);
  Peer 0 25 Candidate (RequestVoteTo 3);
  Peer 0 25 Candidate (RequestVoteTo 4);
  Peer 4 16 Leader (SendAppend 2 [100; 123; 123; 100; 100]);
  Peer 4 16 Leader (AppendLost 2);
  Peer 0 25 Candidate (RequestVoteLost 4);
  Peer 0 25 Candidate (RequestVoteLost 3);
  Peer 4 16 Leader (AppendLost 1)].

(** Lines 4056 to 4205. *)
Definition run_28 : list Line := [
  Peer 0 25 Candidate (RequestVoteLost 2);
  Peer 0 25 Candidate (RequestVoteLost 1);
  Peer 2 27 Candidate (VoteReply 3 27 true);
  Peer 2 27 Candidate (SenderCommit 2 2);
  Peer 2 27 Candidate (VoteGained 3);
  Peer 2 27 Candidate (CheckElection 3 5);
  Peer 2 28 Leader BecomesLeader;
  Peer 2 28 Leader StartHeartBeat;
  Peer 2 28 Leader (AppendTo 0);
  Peer 2 28 Leader (AppendTo 1);
  Peer 2 28 Leader (AppendTo 3);
  Peer 2 28 Leader (AppendTo 4);
  Peer 2 28 Leader (SendAppend 1 [123; 123; 123; 123; 123]);
  Peer 2 28 Leader (SendAppend 0 [123; 123; 123; 123; 123]);
  Peer 2 28 Leader (SendAppend 3 [123; 123; 123; 123; 123]);
  Peer 2 28 Leader (SendAppend 4 [123; 123; 123; 123; 123]);
  Peer 2 28 Leader (AppendLost 4);
  Peer 1 27 Follower (AppendFrom 2 28);
  Peer 1 28 Follower (AppendDone 16 122);
  Peer 4 16 Leader (AppendLost 0);
  Peer 4 16 Leader (AppendLost 3);
  Peer 3 27 Follower (AppendFrom 2 28);
  Peer 3 28 Follower (AppendMismatch 16 122);
  Peer 2 28 Leader (AppendNotSuccess 3 122 16 123);
  Peer 2 28 Leader StartHeartBeat;
  Peer 2 28 Leader (AppendTo 0);
  Peer 4 16 Leader StartHeartBeat;
  Peer 2 28 Leader (AppendTo 1);
  Peer 4 16 Leader (AppendTo 0);
  Peer 4 16 Leader (AppendTo 1);
  Peer 4 16 Leader (AppendTo 2);
  Peer 2 28 Leader (AppendTo 3);
  Peer 2 28 Leader (AppendTo 4);
  Peer 4 16 Leader (AppendTo 3);
  Peer 2 28 Leader (SendAppend 1 [123; 123; 123; 99; 123]);
  Peer 4 16 Leader (SendAppend 2 [100; 123; 123; 100; 100]);
  Peer 2 28 Leader (SendAppend 0 [123; 123; 123; 99; 123]);
  Peer 2 28 Leader (AppendLost 0);
  Peer 2 28 Leader (SendAppend 3 [123; 123; 123; 99; 123]);
  Peer 2 28 Leader (SendAppend 4 [123; 123; 123; 99; 123]);
  Peer 4 16 Leader (SendAppend 0 [100; 123; 123; 100; 100]);
  Peer 4 16 Leader (SendAppend 1 [100; 123; 123; 100; 100]);
  Peer 4 16 Leader (SendAppend 3 [100; 123; 123; 100; 100]);
  Peer 1 28 Follower (AppendFrom 2 28);
  Peer 3 28 Follower (AppendFrom 2 28);
  Peer 1 28 Follower (AppendDone 16 122);
  Peer 3 28 Follower (AppendMismatch 2 98);
  Peer 2 28 Leader (AppendLost 1);
  Peer 4 16 Leader (AppendLost 2);
  Peer 4 16 Leader (AppendLost 1);
  Peer 4 16 Leader (AppendLost 3);
  Peer 2 28 Leader (AppendLost 0);
  Peer 4 16 Leader (AppendLost 0);
  Peer 2 28 Leader (AppendLost 4);
  Peer 2 28 Leader StartHeartBeat;
  Peer 2 28 Leader (AppendTo 0);
  Peer 2 28 Leader (AppendTo 1);
  Peer 2 28 Leader (AppendTo 3);
  Peer 2 28 Leader (AppendTo 4);
  Peer 4 16 Leader StartHeartBeat;
  Peer 2 28 Leader (SendAppend 4 [123; 123; 123; 99; 123]);
  Peer 4 16 Leader (AppendTo 0);
  Peer 2 28 Leader (SendAppend 0 [123; 123; 123; 99; 123]);
  Peer 4 16 Leader (AppendTo 1);
  Peer 4 16 Leader (AppendTo 2);
  Peer 4 16 Leader (AppendTo 3);
  Peer 4 16 Leader (SendAppend 0 [100; 123; 123; 100; 100]);
  Peer 2 28 Leader (SendAppend 3 [123; 123; 123; 99; 123]);
  Peer 2 28 Leader (SendAppend 1 [123; 123; 123; 99; 123]);
  Peer 4 16 Leader (SendAppend 2 [100; 123; 123; 100; 100]);
  Peer 4 16 Leader (SendAppend 3 [100; 123; 123; 100; 100]);
  Peer 4 16 Leader (SendAppend 1 [100; 123; 123; 100; 100]);
  Peer 1 28 Follower (AppendFrom 2 28);
  Peer 1 28 Follower (AppendDone 16 122);
  Peer 3 28 Follower (AppendFrom 2 28);
  Peer 3 28 Follower (AppendMismatch 2 98);
  Peer 2 28 Leader (AppendLost 0);
  Peer 4 16 Leader (AppendLost 2);
  Peer 4 16 Leader (AppendLost 0);
  Peer 4 16 Leader (AppendLost 1);
  Peer 2 28 Leader (AppendLost 4);
  Peer 4 16 Leader (AppendLost 3);
  Peer 4 16 Leader StartHeartBeat;
  Peer 4 16 Leader (AppendTo 0);
  Peer 2 28 Leader StartHeartBeat;
  Peer 4 16 Leader (AppendTo 1);
  Peer 2 28 Leader (AppendTo 0);
  Peer 2 28 Leader (AppendTo 1);
  Peer 4 16 Leader (AppendTo 2);
  Peer 4 16 Leader (AppendTo 3);
  Peer 2 28 Leader (AppendTo 3);
  Peer 2 28 Leader (AppendTo 4);
  Peer 4 16 Leader (SendAppend 0 [100; 123; 123; 100; 100]);
  Peer 2 28 Leader (SendAppend 3 [123; 123; 123; 99; 123]);
  Peer 4 16 Leader (SendAppend 2 [100; 123; 123; 100; 100]);
  Peer 4 16 Leader (SendAppend 1 [100; 123; 123; 100; 100]);
  Peer 2 28 Leader (SendAppend 1 [123; 123; 123; 99; 123]);
  Peer 2 28 Leader (SendAppend 0 [123; 123; 123; 99; 123]);
  Peer 2 28 Leader (SendAppend 4 [123; 123; 123; 99; 123]);
  Peer 4 16 Leader (SendAppend 3 [100; 123; 123; 100; 100]);
  Peer 4 16 Leader (AppendLost 2);
  Peer 4 16 Leader (AppendLost 1);
  Peer 4 16 Leader (AppendLost 0);
  Peer 1 28 Follower (AppendFrom 2 28);
  Peer 2 28 Leader (AppendLost 0);
  Peer 1 28 Follower (AppendDone 28 123);
  Peer 2 28 Leader (AppendSuccess 1);
  Peer 2 28 Leader (TryUpdateCommit 2 125);
  Peer 2 28 Leader (MatchIndexIs [-1; 123; -1; -1; -1]);
  Peer 2 28 Leader (LogsAre [(-1, -1); (2, 4416); (2, 1773); (2, 1309); (2, 4482); (2, 8379); (2, 5177); (2, 1164); (2, 6090); (2, 2806); (2, 7930); (2, 182); (2, 7181); (2, 6600); (2, 3793); (2, 9702); (2, 8908); (2, 8007); (2, 2989); (2, 6859); (2, 7889); (2, 5626); (2, 7728); (2, 8876); (2, 9884); (2, 2983); (2, 4028); (2, 4462); (2, 3792); (2, 4708); (2, 50); (2, 7013); (2, 9572); (2, 9602); (2, 7325); (2, 7361); (2, 8025); (2, 1579); (2, 1174); (2, 6091); (2, 7480); (2, 9838); (2, 6477); (2, 5487); (2, 3175); (2, 718); (2, 6549); (2, 971); (2, 3027); (2, 3157); (2, 7521); (2, 7804); (2, 8539); (2, 134); (2, 3767); (2, 8039); (2, 865); (2, 2886); (2, 4108); (2, 3168); (2, 2226); (2, 5469); (2, 7916); (2, 3985); (2, 4282); (2, 4492); (2, 6867); (2, 7676); (2, 1507); (2, 5470); (2, 3611); (2, 5973); (2, 6824); (2, 2676); (2, 3416); (2, 1503); (2, 5433); (2, 5416); (2, 5569); (2, 9230); (2, 3938); (2, 9594); (2, 2616); (2, 9730); (2, 9779); (2, 2625); (2, 9629); (2, 2057); (2, 1841); (2, 1227); (2, 5897); (2, 5876); (2, 2560); (2, 7642); (2, 2942); (2, 8772); (2, 1492); (2, 1909); (2, 7222); (2, 3473); (16, 9249); (16, 7411); (16, 8552); (16, 8352); (16, 9240); (16, 811); (16, 4361); (16, 749); (16, 9334); (16, 6036); (16, 6085); (16, 8263); (16, 5985); (16, 349); (16, 7037); (16, 6647); (16, 1347); (16, 1977); (16, 9914); (16, 4295); (16, 7135); (16, 139); (16, 4689); (28, 6874); (28, 541)]);
  Peer 2 28 Leader (FinishUpdateCommit 2);
  Peer 2 28 Leader (TryApply 2 2);
  Peer 3 28 Follower (AppendFrom 2 28);
  Peer 3 28 Follower (AppendMismatch 2 98);
  Peer 4 16 Leader (AppendLost 3);
  Peer 4 16 Leader StartHeartBeat;
  Peer 4 16 Leader (AppendTo 0);
  Peer 4 16 Leader (AppendTo 1);
  Peer 4 16 Leader (AppendTo 2);
  Peer 4 16 Leader (AppendTo 3);
  Peer 4 16 Leader (SendAppend 3 [100; 123; 123; 100; 100]);
  Peer 2 28 Leader StartHeartBeat;
  Peer 2 28 Leader (AppendTo 0);
  Peer 4 16 Leader (SendAppend 0 [100; 123; 123; 100; 100]);
  Peer 4 16 Leader (SendAppend 2 [100; 123; 123; 100; 100]);
  Peer 2 28 Leader (AppendTo 1);
  Peer 2 28 Leader (AppendTo 3);
  Peer 2 28 Leader (AppendTo 4);
  Peer 2 28 Leader (AppendLost 4);
  Peer 2 28 Leader (SendAppend 0 [123; 124; 123; 99; 123]);
  Peer 2 28 Leader (SendAppend 1 [123; 124; 123; 99; 123]);
  Peer 2 28 Leader (SendAppend 3 [123; 124; 123; 99; 123]);
  Peer 2 28 Leader (SendAppend 4 [123; 124; 123; 99; 123]);
  Peer 4 16 Leader (SendAppend 1 [100; 123; 123; 100; 100]);
  Peer 4 16 Leader (AppendLost 2);
  Peer 4 16 Leader (AppendLost 3);
  Peer 2 28 Leader (AppendLost 3);
  Peer 2 28 Leader (AppendLost 4);
  Peer 4 16 Leader (AppendLost 0);
  Peer 4 16 Leader (AppendLost 1);
  Peer 2 28 Leader (AppendLost 0);
  Peer 0 25 Candidate StartElection;
  Peer 2 28 Leader StartHeartBeat;
  Peer 2 28 Leader (AppendTo 0);
  Peer 2 28 Leader (AppendTo 1);
  Peer 2 28 Leader (AppendTo 3);
  Peer 2 28 Leader (AppendTo 4);
  Peer 4 16 Leader StartHeartBeat;
  Peer 4 16 Leader (AppendTo 0);
  Peer 4 16 Leader (AppendTo 1)].

Definition run_part2 : list Line :=
  run_15 ++ run_16 ++ run_17 ++ run_18 ++ run_19 ++ run_20 ++ run_21 ++ run_22 ++ run_23
  ++ run_24 ++ run_25 ++ run_26 ++ run_27 ++ run_28.
