(* ===== verification/RecordedRun3.v ===== *)
(** * The recorded run, part 3 of 5

    Lines 4206 to 6305 of code/src/raft/2timesvote.ts in order, one event each
    (blank lines have none): terms 28 to 39: node 1 becomes leader in term 39. *)

From S2P Require Import Prelude Gob Persister RaftState RecordedRun.
Open Scope Z_scope.

(** Lines 4206 to 4355. *)
Definition run_29 : list Line := [
  Peer 4 16 Leader (AppendTo 2);
  Peer 4 16 Leader (AppendTo 3);
  Peer 4 16 Leader (SendAppend 3 [100; 123; 123; 100; 100]);
  Peer 4 16 Leader (SendAppend 0 [100; 123; 123; 100; 100]);
  Peer 4 16 Leader (SendAppend 2 [100; 123; 123; 100; 100]);
  Peer 0 26 Candidate BecomeCandidate;
  Peer 0 26 Candidate (RequestVoteTo 1);
  Peer 0 26 Candidate (RequestVoteTo 2);
  Peer 0 26 Candidate (RequestVoteTo 3);
  Peer 0 26 Candidate (RequestVoteTo 4);
  Peer 2 28 Leader (SendAppend 4 [123; 124; 123; 99; 123]);
  Peer 2 28 Leader (AppendLost 1);
  Peer 2 28 Leader (SendAppend 0 [123; 124; 123; 99; 123]);
  Peer 4 16 Leader (SendAppend 1 [100; 123; 123; 100; 100]);
  Peer 2 28 Leader (SendAppend 1 [123; 124; 123; 99; 123]);
  Peer 2 28 Leader (SendAppend 3 [123; 124; 123; 99; 123]);
  Peer 0 26 Candidate (RequestVoteLost 1);
  Peer 0 26 Candidate (RequestVoteLost 4);
  Peer 3 28 Follower (ReceiveRequestVote (-1) 0 26);
  Peer 3 28 Follower (VoteArgs 26 133 14 123 124);
  Peer 3 28 Follower (HandlerCommit 1 1);
  Peer 3 28 Follower SelfTermLarger;
  Peer 2 28 Leader (AppendLost 3);
  Peer 0 26 Candidate (VoteReply 3 26 false);
  Peer 0 26 Candidate (SenderCommit 1 1);
  Peer 0 26 Candidate (HigherTerm 3 26);
  Peer 0 28 Follower (CheckElection 0 5);
  Peer 0 28 Follower NotCandidate;
  Peer 4 16 Leader (AppendLost 1);
  Peer 4 16 Leader (AppendLost 3);
  Peer 0 28 Follower (RequestVoteLost 2);
  Peer 2 28 Leader (AppendSuccess 1);
  Peer 2 28 Leader (TryUpdateCommit 2 141);
  Peer 2 28 Leader (MatchIndexIs [-1; 122; -1; -1; -1]);
  Peer 2 28 Leader (LogsAre [(-1, -1); (2, 4416); (2, 1773); (2, 1309); (2, 4482); (2, 8379); (2, 5177); (2, 1164); (2, 6090); (2, 2806); (2, 7930); (2, 182); (2, 7181); (2, 6600); (2, 3793); (2, 9702); (2, 8908); (2, 8007); (2, 2989); (2, 6859); (2, 7889); (2, 5626); (2, 7728); (2, 8876); (2, 9884); (2, 2983); (2, 4028); (2, 4462); (2, 3792); (2, 4708); (2, 50); (2, 7013); (2, 9572); (2, 9602); (2, 7325); (2, 7361); (2, 8025); (2, 1579); (2, 1174); (2, 6091); (2, 7480); (2, 9838); (2, 6477); (2, 5487); (2, 3175); (2, 718); (2, 6549); (2, 971); (2, 3027); (2, 3157); (2, 7521); (2, 7804); (2, 8539); (2, 134); (2, 3767); (2, 8039); (2, 865); (2, 2886); (2, 4108); (2, 3168); (2, 2226); (2, 5469); (2, 7916); (2, 3985); (2, 4282); (2, 4492); (2, 6867); (2, 7676); (2, 1507); (2, 5470); (2, 3611); (2, 5973); (2, 6824); (2, 2676); (2, 3416); (2, 1503); (2, 5433); (2, 5416); (2, 5569); (2, 9230); (2, 3938); (2, 9594); (2, 2616); (2, 9730); (2, 9779); (2, 2625); (2, 9629); (2, 2057); (2, 1841); (2, 1227); (2, 5897); (2, 5876); (2, 2560); (2, 7642); (2, 2942); (2, 8772); (2, 1492); (2, 1909); (2, 7222); (2, 3473); (16, 9249); (16, 7411); (16, 8552); (16, 8352); (16, 9240); (16, 811); (16, 4361); (16, 749); (16, 9334); (16, 6036); (16, 6085); (16, 8263); (16, 5985); (16, 349); (16, 7037); (16, 6647); (16, 1347); (16, 1977); (16, 9914); (16, 4295); (16, 7135); (16, 139); (16, 4689); (28, 6874); (28, 541); (28, 3587); (28, 4690); (28, 3040); (28, 8322); (28, 1603); (28, 679); (28, 8161); (28, 9706); (28, 509); (28, 586); (28, 5996); (28, 4394); (28, 4011); (28, 7883); (28, 5637); (28, 8378)]);
  Peer 2 28 Leader (FinishUpdateCommit 2);
  Peer 2 28 Leader (TryApply 2 2);
  Peer 2 28 Leader (AppendLost 1);
  Peer 4 16 Leader (AppendLost 2);
  Peer 2 28 Leader (AppendLost 0);
  Peer 2 28 Leader (AppendLost 4);
  Peer 4 16 Leader (AppendLost 0);
  Peer 4 16 Leader StartHeartBeat;
  Peer 4 16 Leader (AppendTo 0);
  Peer 4 16 Leader (AppendTo 1);
  Peer 4 16 Leader (AppendTo 2);
  Peer 4 16 Leader (AppendTo 3);
  Peer 4 16 Leader (SendAppend 3 [100; 123; 123; 100; 100]);
  Peer 2 28 Leader StartHeartBeat;
  Peer 2 28 Leader (AppendTo 0);
  Peer 2 28 Leader (AppendTo 1);
  Peer 2 28 Leader (AppendTo 3);
  Peer 2 28 Leader (AppendTo 4);
  Peer 2 28 Leader (SendAppend 4 [123; 123; 123; 99; 123]);
  Peer 4 16 Leader (SendAppend 0 [100; 123; 123; 100; 100]);
  Peer 2 28 Leader (SendAppend 1 [123; 123; 123; 99; 123]);
  Peer 4 16 Leader (SendAppend 1 [100; 123; 123; 100; 100]);
  Peer 2 28 Leader (SendAppend 3 [123; 123; 123; 99; 123]);
  Peer 2 28 Leader (SendAppend 0 [123; 123; 123; 99; 123]);
  Peer 4 16 Leader (SendAppend 2 [100; 123; 123; 100; 100]);
  Peer 4 16 Leader (AppendLost 1);
  Peer 4 16 Leader (AppendLost 0);
  Peer 2 28 Leader (AppendLost 3);
  Peer 4 16 Leader (AppendLost 2);
  Peer 2 28 Leader (AppendLost 1);
  Peer 2 28 Leader (AppendLost 4);
  Peer 2 28 Leader (AppendLost 0);
  Peer 4 16 Leader StartHeartBeat;
  Peer 4 16 Leader (AppendTo 0);
  Peer 4 16 Leader (AppendTo 1);
  Peer 4 16 Leader (AppendTo 2);
  Peer 4 16 Leader (AppendTo 3);
  Peer 4 16 Leader (AppendLost 3);
  Peer 4 16 Leader (SendAppend 0 [100; 123; 123; 100; 100]);
  Peer 2 28 Leader StartHeartBeat;
  Peer 2 28 Leader (AppendTo 0);
  Peer 4 16 Leader (SendAppend 1 [100; 123; 123; 100; 100]);
  Peer 2 28 Leader (AppendTo 1);
  Peer 2 28 Leader (AppendTo 3);
  Peer 2 28 Leader (AppendTo 4);
  Peer 2 28 Leader (SendAppend 0 [123; 123; 123; 99; 123]);
  Peer 4 16 Leader (SendAppend 2 [100; 123; 123; 100; 100]);
  Peer 2 28 Leader (SendAppend 4 [123; 123; 123; 99; 123]);
  Peer 2 28 Leader (SendAppend 1 [123; 123; 123; 99; 123]);
  Peer 4 16 Leader (SendAppend 3 [100; 123; 123; 100; 100]);
  Peer 2 28 Leader (SendAppend 3 [123; 123; 123; 99; 123]);
  Peer 4 16 Leader (AppendLost 2);
  Peer 4 16 Leader (AppendLost 0);
  Peer 2 28 Leader (AppendLost 0);
  Peer 4 16 Leader (AppendLost 1);
  Peer 2 28 Leader (AppendLost 4);
  Peer 2 28 Leader (AppendLost 3);
  Peer 4 16 Leader (AppendLost 3);
  Peer 2 28 Leader (AppendLost 1);
  Peer 4 16 Leader StartHeartBeat;
  Peer 4 16 Leader (AppendTo 0);
  Peer 2 28 Leader StartHeartBeat;
  Peer 1 28 Follower StartElection;
  Peer 4 16 Leader (AppendTo 1);
  Peer 4 16 Leader (AppendTo 2);
  Peer 2 28 Leader (AppendTo 0);
  Peer 4 16 Leader (AppendTo 3);
  Peer 2 28 Leader (AppendTo 1);
  Peer 2 28 Leader (AppendTo 3);
  Peer 2 28 Leader (AppendTo 4);
  Peer 2 28 Leader (SendAppend 0 [123; 123; 123; 99; 123]);
  Peer 4 16 Leader (SendAppend 0 [100; 123; 123; 100; 100]);
  Peer 2 28 Leader (SendAppend 1 [123; 123; 123; 99; 123]);
  Peer 2 28 Leader (SendAppend 3 [123; 123; 123; 99; 123]);
  Peer 1 29 Candidate BecomeCandidate;
  Peer 1 29 Candidate (RequestVoteTo 0);
  Peer 2 28 Leader (SendAppend 4 [123; 123; 123; 99; 123]);
  Peer 1 29 Candidate (RequestVoteTo 2);
  Peer 1 29 Candidate (RequestVoteTo 3);
  Peer 1 29 Candidate (RequestVoteTo 4);
  Peer 4 16 Leader (SendAppend 2 [100; 123; 123; 100; 100]);
  Peer 4 16 Leader (SendAppend 1 [100; 123; 123; 100; 100]);
  Peer 4 16 Leader (SendAppend 3 [100; 123; 123; 100; 100]);
  Peer 4 16 Leader (AppendLost 3);
  Peer 2 28 Leader (AppendLost 0);
  Peer 4 16 Leader (AppendLost 1);
  Peer 0 28 Follower (ReceiveRequestVote (-1) 1 29);
  Peer 0 28 Follower (VoteArgs 29 123 9 133 134);
  Peer 0 28 Follower (HandlerCommit 1 1);
  Peer 0 28 Follower (SelfTermLower 1);
  Peer 0 29 Follower (CompareLogs 9 28 133 123);
  Peer 0 29 Follower (Granted 29 123 9 133 134);
  Peer 0 29 Follower (HandlerCommit 1 1);
  Peer 2 28 Leader (AppendLost 1);
  Peer 1 29 Candidate (RequestVoteLost 2);
  Peer 2 28 Leader (AppendLost 3);
  Peer 2 28 Leader (AppendLost 4);
  Peer 3 28 Follower (ReceiveRequestVote (-1) 1 29);
  Peer 3 28 Follower (VoteArgs 29 123 14 123 124);
  Peer 3 28 Follower (HandlerCommit 1 1);
  Peer 3 28 Follower (SelfTermLower 1);
  Peer 3 29 Follower (CompareLogs 14 28 123 123);
  Peer 3 29 Follower (Granted 29 123 14 123 124);
  Peer 3 29 Follower (HandlerCommit 1 1);
  Peer 1 29 Candidate (RequestVoteLost 3);
  Peer 4 16 Leader (AppendLost 0);
  Peer 4 16 Leader (AppendLost 2);
  Peer 2 28 Leader (AppendNotSuccess 3 98 2 99);
  Peer 1 29 Candidate (RequestVoteLost 4);
  Peer 2 28 Leader StartHeartBeat;
  Peer 2 28 Leader (AppendTo 0);
  Peer 2 28 Leader (AppendTo 1);
  Peer 2 28 Leader (AppendTo 3);
  Peer 2 28 Leader (AppendTo 4);
  Peer 4 16 Leader StartHeartBeat].

(** Lines 4356 to 4505. *)
Definition run_30 : list Line := [
  Peer 4 16 Leader (AppendTo 0);
  Peer 4 16 Leader (AppendTo 1);
  Peer 4 16 Leader (AppendTo 2);
  Peer 4 16 Leader (AppendTo 3);
  Peer 2 28 Leader (SendAppend 4 [123; 123; 123; 1; 123]);
  Peer 4 16 Leader (SendAppend 1 [100; 123; 123; 100; 100]);
  Peer 2 28 Leader (SendAppend 1 [123; 123; 123; 1; 123]);
  Peer 4 16 Leader (SendAppend 3 [100; 123; 123; 100; 100]);
  Peer 2 28 Leader (SendAppend 0 [123; 123; 123; 1; 123]);
  Peer 4 16 Leader (SendAppend 0 [100; 123; 123; 100; 100]);
  Peer 2 28 Leader (SendAppend 3 [123; 123; 123; 1; 123]);
  Peer 4 16 Leader (SendAppend 2 [100; 123; 123; 100; 100]);
  Peer 2 28 Leader (AppendLost 3);
  Peer 4 16 Leader (AppendLost 2);
  Peer 4 16 Leader (AppendLost 1);
  Peer 2 28 Leader (AppendLost 0);
  Peer 2 28 Leader (AppendLost 1);
  Peer 2 28 Leader (AppendLost 4);
  Peer 4 16 Leader (AppendLost 0);
  Peer 4 16 Leader (AppendLost 3);
  Peer 4 16 Leader StartHeartBeat;
  Peer 4 16 Leader (AppendTo 0);
  Peer 4 16 Leader (AppendTo 1);
  Peer 4 16 Leader (AppendTo 2);
  Peer 4 16 Leader (AppendTo 3);
  Peer 4 16 Leader (SendAppend 3 [100; 123; 123; 100; 100]);
  Peer 4 16 Leader (SendAppend 0 [100; 123; 123; 100; 100]);
  Peer 2 28 Leader StartHeartBeat;
  Peer 2 28 Leader (AppendTo 0);
  Peer 2 28 Leader (AppendTo 1);
  Peer 2 28 Leader (AppendTo 3);
  Peer 2 28 Leader (AppendTo 4);
  Peer 2 28 Leader (SendAppend 4 [123; 123; 123; 1; 123]);
  Peer 2 28 Leader (SendAppend 0 [123; 123; 123; 1; 123]);
  Peer 2 28 Leader (SendAppend 1 [123; 123; 123; 1; 123]);
  Peer 2 28 Leader (SendAppend 3 [123; 123; 123; 1; 123]);
  Peer 4 16 Leader (SendAppend 1 [100; 123; 123; 100; 100]);
  Peer 4 16 Leader (SendAppend 2 [100; 123; 123; 100; 100]);
  Peer 4 16 Leader (AppendLost 3);
  Peer 4 16 Leader (AppendLost 2);
  Peer 2 28 Leader (AppendLost 1);
  Peer 2 28 Leader (AppendNotSuccess 3 98 2 1);
  Peer 2 28 Leader (AppendLost 3);
  Peer 2 28 Leader (AppendLost 4);
  Peer 4 16 Leader (AppendLost 1);
  Peer 4 16 Leader (AppendLost 0);
  Peer 2 28 Leader (AppendLost 0);
  Peer 4 16 Leader StartHeartBeat;
  Peer 4 16 Leader (AppendTo 0);
  Peer 4 16 Leader (AppendTo 1);
  Peer 4 16 Leader (AppendTo 2);
  Peer 4 16 Leader (AppendTo 3);
  Peer 4 16 Leader (SendAppend 3 [100; 123; 123; 100; 100]);
  Peer 2 28 Leader StartHeartBeat;
  Peer 2 28 Leader (AppendTo 0);
  Peer 2 28 Leader (AppendTo 1);
  Peer 2 28 Leader (AppendTo 3);
  Peer 2 28 Leader (AppendTo 4);
  Peer 2 28 Leader (SendAppend 4 [123; 123; 123; 1; 123]);
  Peer 4 16 Leader (SendAppend 0 [100; 123; 123; 100; 100]);
  Peer 1 29 Candidate (VoteReply 0 29 true);
  Peer 1 29 Candidate (SenderCommit 2 2);
  Peer 1 29 Candidate (VoteGained 0);
  Peer 1 29 Candidate (CheckElection 2 5);
  Peer 2 28 Leader (SendAppend 1 [123; 123; 123; 1; 123]);
  Peer 2 28 Leader (SendAppend 3 [123; 123; 123; 1; 123]);
  Peer 2 28 Leader (SendAppend 0 [123; 123; 123; 1; 123]);
  Peer 4 16 Leader (SendAppend 1 [100; 123; 123; 100; 100]);
  Peer 4 16 Leader (SendAppend 2 [100; 123; 123; 100; 100]);
  Peer 4 16 Leader (AppendLost 2);
  Peer 2 28 Leader (AppendLost 4);
  Peer 2 28 Leader (AppendLost 0);
  Peer 4 16 Leader (AppendLost 1);
  Peer 2 28 Leader (AppendLost 1);
  Peer 4 16 Leader (AppendLost 0);
  Peer 4 16 Leader (AppendLost 3);
  Peer 4 16 Leader StartHeartBeat;
  Peer 4 16 Leader (AppendTo 0);
  Peer 4 16 Leader (AppendTo 1);
  Peer 4 16 Leader (AppendTo 2);
  Peer 4 16 Leader (AppendTo 3);
  Peer 2 28 Leader StartHeartBeat;
  Peer 4 16 Leader (SendAppend 0 [100; 123; 123; 100; 100]);
  Peer 2 28 Leader (AppendTo 0);
  Peer 2 28 Leader (AppendTo 1);
  Peer 2 28 Leader (AppendTo 3);
  Peer 2 28 Leader (AppendTo 4);
  Peer 2 28 Leader (AppendLost 3);
  Peer 2 28 Leader (SendAppend 3 [123; 123; 123; 1; 123]);
  Peer 2 28 Leader (SendAppend 0 [123; 123; 123; 1; 123]);
  Peer 4 16 Leader (SendAppend 3 [100; 123; 123; 100; 100]);
  Peer 2 28 Leader (SendAppend 1 [123; 123; 123; 1; 123]);
  Peer 2 28 Leader (AppendLost 3);
  Peer 2 28 Leader (SendAppend 4 [123; 123; 123; 1; 123]);
  Peer 4 16 Leader (SendAppend 1 [100; 123; 123; 100; 100]);
  Peer 4 16 Leader (SendAppend 2 [100; 123; 123; 100; 100]);
  Peer 4 16 Leader (AppendLost 2);
  Peer 2 28 Leader (AppendLost 4);
  Peer 2 28 Leader (AppendLost 1);
  Peer 4 16 Leader (AppendLost 3);
  Peer 4 16 Leader (AppendLost 1);
  Peer 4 16 Leader (AppendLost 0);
  Peer 2 28 Leader (AppendLost 0);
  Peer 2 28 Leader StartHeartBeat;
  Peer 2 28 Leader (AppendTo 0);
  Peer 2 28 Leader (AppendTo 1);
  Peer 2 28 Leader (AppendTo 3);
  Peer 2 28 Leader (AppendTo 4);
  Peer 3 29 Follower StartElection;
  Peer 2 28 Leader (SendAppend 4 [123; 123; 123; 1; 123]);
  Peer 4 16 Leader StartHeartBeat;
  Peer 4 16 Leader (AppendTo 0);
  Peer 4 16 Leader (AppendTo 1);
  Peer 4 16 Leader (AppendTo 2);
  Peer 0 29 Follower StartElection;
  Peer 2 28 Leader (SendAppend 0 [123; 123; 123; 1; 123]);
  Peer 4 16 Leader (AppendTo 3);
  Peer 4 16 Leader (SendAppend 2 [100; 123; 123; 100; 100]);
  Peer 2 28 Leader (SendAppend 3 [123; 123; 123; 1; 123]);
  Peer 0 30 Candidate BecomeCandidate;
  Peer 0 30 Candidate (RequestVoteTo 1);
  Peer 0 30 Candidate (RequestVoteTo 2);
  Peer 0 30 Candidate (RequestVoteTo 3);
  Peer 0 30 Candidate (RequestVoteTo 4);
  Peer 4 16 Leader (SendAppend 3 [100; 123; 123; 100; 100]);
  Peer 2 28 Leader (SendAppend 1 [123; 123; 123; 1; 123]);
  Peer 3 30 Candidate BecomeCandidate;
  Peer 3 30 Candidate (RequestVoteTo 0);
  Peer 3 30 Candidate (RequestVoteTo 1);
  Peer 3 30 Candidate (RequestVoteTo 2);
  Peer 3 30 Candidate (RequestVoteTo 4);
  Peer 4 16 Leader (SendAppend 0 [100; 123; 123; 100; 100]);
  Peer 4 16 Leader (SendAppend 1 [100; 123; 123; 100; 100]);
  Peer 2 28 Leader (AppendLost 1);
  Peer 0 30 Candidate (RequestVoteLost 4);
  Peer 1 29 Candidate (ReceiveRequestVote 1 0 30);
  Peer 3 30 Candidate (ReceiveRequestVote 3 0 30);
  Peer 3 30 Candidate (VoteArgs 30 133 14 123 124);
  Peer 1 29 Candidate (VoteArgs 30 133 28 123 124);
  Peer 3 30 Candidate (HandlerCommit 1 1);
  Peer 1 29 Candidate (HandlerCommit 2 2);
  Peer 3 30 Candidate (CompareLogs 14 9 123 133);
  Peer 1 29 Candidate (SelfTermLower 0);
  Peer 3 30 Candidate SelfLogNewer;
  Peer 1 30 Follower (CompareLogs 28 9 123 133);
  Peer 1 30 Follower SelfLogNewer;
  Peer 0 30 Candidate (VoteReply 1 30 false);
  Peer 0 30 Candidate (SenderCommit 1 1);
  Peer 0 30 Candidate (CheckElection 1 5);
  Peer 0 30 Candidate (ReceiveRequestVote 0 3 30)].

(** Lines 4506 to 4655. *)
Definition run_31 : list Line := [
  Peer 0 30 Candidate (VoteArgs 30 123 9 133 134);
  Peer 0 30 Candidate (HandlerCommit 1 1);
  Peer 0 30 Candidate (CompareLogs 9 14 133 123);
  Peer 4 16 Leader (AppendLost 2);
  Peer 0 30 Candidate Refused;
  Peer 1 30 Follower (ReceiveRequestVote 0 3 30);
  Peer 1 30 Follower (VoteArgs 30 123 28 123 124);
  Peer 1 30 Follower (HandlerCommit 2 2);
  Peer 1 30 Follower (CompareLogs 28 14 123 123);
  Peer 1 30 Follower SelfLogNewer;
  Peer 3 30 Candidate (VoteReply 1 30 false);
  Peer 3 30 Candidate (SenderCommit 1 1);
  Peer 3 30 Candidate (CheckElection 1 5);
  Peer 2 28 Leader (AppendLost 4);
  Peer 4 16 Leader (AppendLost 0);
  Peer 3 30 Candidate (RequestVoteLost 4);
  Peer 0 30 Candidate (RequestVoteLost 2);
  Peer 2 28 Leader (AppendNotSuccess 3 98 2 1);
  Peer 2 28 Leader (AppendLost 0);
  Peer 4 16 Leader (AppendLost 3);
  Peer 2 28 Leader (AppendLost 3);
  Peer 3 30 Candidate (RequestVoteLost 2);
  Peer 4 16 Leader StartHeartBeat;
  Peer 4 16 Leader (AppendTo 0);
  Peer 4 16 Leader (AppendTo 1);
  Peer 4 16 Leader (AppendTo 2);
  Peer 2 28 Leader StartHeartBeat;
  Peer 2 28 Leader (AppendTo 0);
  Peer 4 16 Leader (AppendTo 3);
  Peer 2 28 Leader (AppendTo 1);
  Peer 2 28 Leader (AppendTo 3);
  Peer 2 28 Leader (AppendTo 4);
  Peer 2 28 Leader (SendAppend 0 [123; 123; 123; 1; 123]);
  Peer 4 16 Leader (SendAppend 3 [100; 123; 123; 100; 100]);
  Peer 2 28 Leader (SendAppend 4 [123; 123; 123; 1; 123]);
  Peer 4 16 Leader (SendAppend 2 [100; 123; 123; 100; 100]);
  Peer 4 16 Leader (SendAppend 0 [100; 123; 123; 100; 100]);
  Peer 2 28 Leader (SendAppend 3 [123; 123; 123; 1; 123]);
  Peer 2 28 Leader (SendAppend 1 [123; 123; 123; 1; 123]);
  Peer 4 16 Leader (AppendLost 1);
  Peer 4 16 Leader (SendAppend 1 [100; 123; 123; 100; 100]);
  Peer 4 16 Leader (AppendLost 0);
  Peer 2 28 Leader (AppendLost 3);
  Peer 2 28 Leader (AppendLost 0);
  Peer 2 28 Leader (AppendLost 1);
  Peer 2 28 Leader (AppendLost 4);
  Peer 4 16 Leader (AppendLost 3);
  Peer 4 16 Leader (AppendLost 1);
  Peer 4 16 Leader (AppendLost 2);
  Peer 4 16 Leader StartHeartBeat;
  Peer 2 28 Leader StartHeartBeat;
  Peer 4 16 Leader (AppendTo 0);
  Peer 2 28 Leader (AppendTo 0);
  Peer 2 28 Leader (AppendTo 1);
  Peer 2 28 Leader (AppendTo 3);
  Peer 2 28 Leader (AppendTo 4);
  Peer 4 16 Leader (AppendTo 1);
  Peer 2 28 Leader (SendAppend 4 [123; 123; 123; 1; 123]);
  Peer 4 16 Leader (AppendTo 2);
  Peer 4 16 Leader (AppendTo 3);
  Peer 4 16 Leader (SendAppend 1 [100; 123; 123; 100; 100]);
  Peer 2 28 Leader (SendAppend 3 [123; 123; 123; 1; 123]);
  Peer 2 28 Leader (AppendSuccess 1);
  Peer 2 28 Leader (TryUpdateCommit 2 181);
  Peer 2 28 Leader (MatchIndexIs [-1; 122; -1; -1; -1]);
  Peer 4 16 Leader (SendAppend 0 [100; 123; 123; 100; 100]);
  Peer 2 28 Leader (LogsAre [(-1, -1); (2, 4416); (2, 1773); (2, 1309); (2, 4482); (2, 8379); (2, 5177); (2, 1164); (2, 6090); (2, 2806); (2, 7930); (2, 182); (2, 7181); (2, 6600); (2, 3793); (2, 9702); (2, 8908); (2, 8007); (2, 2989); (2, 6859); (2, 7889); (2, 5626); (2, 7728); (2, 8876); (2, 9884); (2, 2983); (2, 4028); (2, 4462); (2, 3792); (2, 4708); (2, 50); (2, 7013); (2, 9572); (2, 9602); (2, 7325); (2, 7361); (2, 8025); (2, 1579); (2, 1174); (2, 6091); (2, 7480); (2, 9838); (2, 6477); (2, 5487); (2, 3175); (2, 718); (2, 6549); (2, 971); (2, 3027); (2, 3157); (2, 7521); (2, 7804); (2, 8539); (2, 134); (2, 3767); (2, 8039); (2, 865); (2, 2886); (2, 4108); (2, 3168); (2, 2226); (2, 5469); (2, 7916); (2, 3985); (2, 4282); (2, 4492); (2, 6867); (2, 7676); (2, 1507); (2, 5470); (2, 3611); (2, 5973); (2, 6824); (2, 2676); (2, 3416); (2, 1503); (2, 5433); (2, 5416); (2, 5569); (2, 9230); (2, 3938); (2, 9594); (2, 2616); (2, 9730); (2, 9779); (2, 2625); (2, 9629); (2, 2057); (2, 1841); (2, 1227); (2, 5897); (2, 5876); (2, 2560); (2, 7642); (2, 2942); (2, 8772); (2, 1492); (2, 1909); (2, 7222); (2, 3473); (16, 9249); (16, 7411); (16, 8552); (16, 8352); (16, 9240); (16, 811); (16, 4361); (16, 749); (16, 9334); (16, 6036); (16, 6085); (16, 8263); (16, 5985); (16, 349); (16, 7037); (16, 6647); (16, 1347); (16, 1977); (16, 9914); (16, 4295); (16, 7135); (16, 139); (16, 4689); (28, 6874); (28, 541); (28, 3587); (28, 4690); (28, 3040); (28, 8322); (28, 1603); (28, 679); (28, 8161); (28, 9706); (28, 509); (28, 586); (28, 5996); (28, 4394); (28, 4011); (28, 7883); (28, 5637); (28, 8378); (28, 7196); (28, 4925); (28, 1408); (28, 1161); (28, 7787); (28, 6668); (28, 3457); (28, 8096); (28, 9561); (28, 4669); (28, 2479); (28, 2778); (28, 8650); (28, 3635); (28, 819); (28, 4889); (28, 528); (28, 8994); (28, 24); (28, 3084); (28, 9744); (28, 2547); (28, 1297); (28, 5086); (28, 1367); (28, 9894); (28, 3194); (28, 5764); (28, 6535); (28, 5949); (28, 606); (28, 2883); (28, 1251); (28, 8844); (28, 8887); (28, 8288); (28, 7126); (28, 7877); (28, 7147); (28, 2277)]);
  Peer 2 28 Leader (FinishUpdateCommit 2);
  Peer 4 16 Leader (SendAppend 2 [100; 123; 123; 100; 100]);
  Peer 4 16 Leader (SendAppend 3 [100; 123; 123; 100; 100]);
  Peer 2 28 Leader (TryApply 2 2);
  Peer 2 28 Leader (SendAppend 0 [123; 123; 123; 1; 123]);
  Peer 2 28 Leader (SendAppend 1 [123; 123; 123; 1; 123]);
  Peer 2 28 Leader (AppendLost 0);
  Peer 4 16 Leader (AppendLost 1);
  Peer 4 16 Leader (AppendLost 3);
  Peer 4 16 Leader (AppendLost 2);
  Peer 4 16 Leader (AppendLost 0);
  Peer 2 28 Leader (AppendLost 1);
  Peer 2 28 Leader (AppendLost 4);
  Peer 2 28 Leader StartHeartBeat;
  Peer 2 28 Leader (AppendTo 0);
  Peer 2 28 Leader (AppendTo 1);
  Peer 2 28 Leader (AppendTo 3);
  Peer 2 28 Leader (AppendTo 4);
  Peer 4 16 Leader StartHeartBeat;
  Peer 4 16 Leader (AppendTo 0);
  Peer 4 16 Leader (AppendTo 1);
  Peer 2 28 Leader (SendAppend 1 [123; 123; 123; 1; 123]);
  Peer 4 16 Leader (AppendTo 2);
  Peer 4 16 Leader (AppendTo 3);
  Peer 4 16 Leader (SendAppend 1 [100; 123; 123; 100; 100]);
  Peer 4 16 Leader (SendAppend 2 [100; 123; 123; 100; 100]);
  Peer 2 28 Leader (AppendLost 3);
  Peer 4 16 Leader (SendAppend 3 [100; 123; 123; 100; 100]);
  Peer 2 28 Leader (SendAppend 0 [123; 123; 123; 1; 123]);
  Peer 2 28 Leader (SendAppend 3 [123; 123; 123; 1; 123]);
  Peer 2 28 Leader (SendAppend 4 [123; 123; 123; 1; 123]);
  Peer 4 16 Leader (SendAppend 0 [100; 123; 123; 100; 100]);
  Peer 4 16 Leader (AppendLost 1);
  Peer 4 16 Leader (AppendLost 0);
  Peer 4 16 Leader (AppendLost 2);
  Peer 2 28 Leader (AppendLost 4);
  Peer 2 28 Leader (AppendLost 0);
  Peer 2 28 Leader (AppendLost 3);
  Peer 4 16 Leader (AppendLost 3);
  Peer 2 28 Leader (AppendLost 1);
  Peer 2 28 Leader StartHeartBeat;
  Peer 2 28 Leader (AppendTo 0);
  Peer 2 28 Leader (AppendTo 1);
  Peer 2 28 Leader (AppendTo 3);
  Peer 2 28 Leader (AppendTo 4);
  Peer 2 28 Leader (SendAppend 0 [123; 123; 123; 1; 123]);
  Peer 2 28 Leader (SendAppend 4 [123; 123; 123; 1; 123]);
  Peer 2 28 Leader (SendAppend 1 [123; 123; 123; 1; 123]);
  Peer 4 16 Leader StartHeartBeat;
  Peer 2 28 Leader (SendAppend 3 [123; 123; 123; 1; 123]);
  Peer 4 16 Leader (AppendTo 0);
  Peer 4 16 Leader (AppendTo 1);
  Peer 4 16 Leader (AppendTo 2);
  Peer 4 16 Leader (AppendTo 3);
  Peer 4 16 Leader (SendAppend 3 [100; 123; 123; 100; 100]);
  Peer 4 16 Leader (SendAppend 1 [100; 123; 123; 100; 100]);
  Peer 4 16 Leader (SendAppend 0 [100; 123; 123; 100; 100]);
  Peer 4 16 Leader (SendAppend 2 [100; 123; 123; 100; 100]);
  Peer 4 16 Leader (AppendLost 1);
  Peer 2 28 Leader (AppendLost 0);
  Peer 2 28 Leader (AppendLost 3);
  Peer 2 28 Leader (AppendLost 1);
  Peer 2 28 Leader (AppendLost 4);
  Peer 4 16 Leader (AppendLost 3);
  Peer 4 16 Leader (AppendLost 0);
  Peer 4 16 Leader (AppendLost 2);
  Peer 2 28 Leader StartHeartBeat;
  Peer 4 16 Leader StartHeartBeat;
  Peer 4 16 Leader (AppendTo 0);
  Peer 2 28 Leader (AppendTo 0);
  Peer 4 16 Leader (AppendTo 1);
  Peer 4 16 Leader (AppendTo 2);
  Peer 2 28 Leader (AppendTo 1);
  Peer 4 16 Leader (AppendTo 3);
  Peer 1 30 Follower StartElection;
  Peer 2 28 Leader (AppendTo 3);
  Peer 2 28 Leader (AppendTo 4);
  Peer 3 30 Candidate StartElection;
  Peer 4 16 Leader (SendAppend 0 [100; 123; 123; 100; 100]);
  Peer 2 28 Leader (SendAppend 4 [123; 123; 123; 1; 123]);
  Peer 1 31 Candidate BecomeCandidate;
  Peer 1 31 Candidate (RequestVoteTo 0);
  Peer 1 31 Candidate (RequestVoteTo 2)].

(** Lines 4656 to 4805. *)
Definition run_32 : list Line := [
  Peer 1 31 Candidate (RequestVoteTo 3);
  Peer 1 31 Candidate (RequestVoteTo 4);
  Peer 0 30 Candidate StartElection;
  Peer 2 28 Leader (SendAppend 1 [123; 123; 123; 1; 123]);
  Peer 3 31 Candidate BecomeCandidate;
  Peer 3 31 Candidate (RequestVoteTo 0);
  Peer 3 31 Candidate (RequestVoteTo 1);
  Peer 3 31 Candidate (RequestVoteTo 2);
  Peer 3 31 Candidate (RequestVoteTo 4);
  Peer 2 28 Leader (SendAppend 0 [123; 123; 123; 1; 123]);
  Peer 0 31 Candidate BecomeCandidate;
  Peer 0 31 Candidate (RequestVoteTo 1);
  Peer 0 31 Candidate (RequestVoteTo 2);
  Peer 0 31 Candidate (RequestVoteTo 3);
  Peer 4 16 Leader (SendAppend 3 [100; 123; 123; 100; 100]);
  Peer 2 28 Leader (SendAppend 3 [123; 123; 123; 1; 123]);
  Peer 0 31 Candidate (RequestVoteTo 4);
  Peer 4 16 Leader (SendAppend 1 [100; 123; 123; 100; 100]);
  Peer 4 16 Leader (SendAppend 2 [100; 123; 123; 100; 100]);
  Peer 2 28 Leader (AppendLost 1);
  Peer 3 31 Candidate (RequestVoteLost 2);
  Peer 1 31 Candidate (ReceiveRequestVote 1 0 31);
  Peer 1 31 Candidate (VoteArgs 31 133 28 123 124);
  Peer 0 31 Candidate (ReceiveRequestVote 0 3 31);
  Peer 1 31 Candidate (HandlerCommit 2 2);
  Peer 0 31 Candidate (VoteArgs 31 123 9 133 134);
  Peer 0 31 Candidate (HandlerCommit 1 1);
  Peer 1 31 Candidate (CompareLogs 28 9 123 133);
  Peer 0 31 Candidate (CompareLogs 9 14 133 123);
  Peer 1 31 Candidate SelfLogNewer;
  Peer 0 31 Candidate Refused;
  Peer 3 31 Candidate (VoteReply 0 31 false);
  Peer 3 31 Candidate (SenderCommit 1 1);
  Peer 3 31 Candidate (CheckElection 1 5);
  Peer 0 31 Candidate (RequestVoteLost 4);
  Peer 4 16 Leader (AppendLost 2);
  Peer 1 31 Candidate (ReceiveRequestVote 1 3 31);
  Peer 3 31 Candidate (ReceiveRequestVote 3 1 31);
  Peer 3 31 Candidate (VoteArgs 31 123 14 123 124);
  Peer 0 31 Candidate (VoteReply 3 30 false);
  Peer 0 31 Candidate (SenderCommit 1 1);
  Peer 0 31 Candidate (CheckElection 1 5);
  Peer 3 31 Candidate (HandlerCommit 1 1);
  Peer 0 31 Candidate (ReceiveRequestVote 0 1 31);
  Peer 0 31 Candidate (VoteArgs 31 123 9 133 134);
  Peer 0 31 Candidate (HandlerCommit 1 1);
  Peer 3 31 Candidate (CompareLogs 14 28 123 123);
  Peer 0 31 Candidate (CompareLogs 9 28 133 123);
  Peer 0 31 Candidate Refused;
  Peer 3 31 Candidate Refused;
  Peer 1 31 Candidate (VoteArgs 31 123 28 123 124);
  Peer 1 31 Candidate (HandlerCommit 2 2);
  Peer 1 31 Candidate (CompareLogs 28 14 123 123);
  Peer 1 31 Candidate SelfLogNewer;
  Peer 3 31 Candidate (ReceiveRequestVote 3 0 31);
  Peer 3 31 Candidate (VoteArgs 31 133 14 123 124);
  Peer 1 31 Candidate (RequestVoteLost 0);
  Peer 3 31 Candidate (HandlerCommit 1 1);
  Peer 3 31 Candidate (CompareLogs 14 9 123 133);
  Peer 3 31 Candidate SelfLogNewer;
  Peer 3 31 Candidate (RequestVoteLost 1);
  Peer 4 16 Leader (AppendLost 3);
  Peer 2 28 Leader (AppendLost 0);
  Peer 0 31 Candidate (RequestVoteLost 2);
  Peer 4 16 Leader (AppendLost 0);
  Peer 2 28 Leader (AppendLost 4);
  Peer 2 28 Leader (AppendLost 3);
  Peer 4 16 Leader (AppendLost 1);
  Peer 1 31 Candidate (RequestVoteLost 4);
  Peer 3 31 Candidate (RequestVoteLost 4);
  Peer 1 31 Candidate (RequestVoteLost 2);
  Peer 2 28 Leader StartHeartBeat;
  Peer 4 16 Leader StartHeartBeat;
  Peer 4 16 Leader (AppendTo 0);
  Peer 4 16 Leader (AppendTo 1);
  Peer 2 28 Leader (AppendTo 0);
  Peer 2 28 Leader (AppendTo 1);
  Peer 4 16 Leader (AppendTo 2);
  Peer 4 16 Leader (AppendTo 3);
  Peer 2 28 Leader (AppendTo 3);
  Peer 2 28 Leader (AppendTo 4);
  Peer 4 16 Leader (SendAppend 1 [100; 123; 123; 100; 100]);
  Peer 2 28 Leader (SendAppend 1 [123; 123; 123; 1; 123]);
  Peer 2 28 Leader (SendAppend 3 [123; 123; 123; 1; 123]);
  Peer 4 16 Leader (SendAppend 3 [100; 123; 123; 100; 100]);
  Peer 2 28 Leader (SendAppend 4 [123; 123; 123; 1; 123]);
  Peer 2 28 Leader (SendAppend 0 [123; 123; 123; 1; 123]);
  Peer 4 16 Leader (SendAppend 0 [100; 123; 123; 100; 100]);
  Peer 4 16 Leader (SendAppend 2 [100; 123; 123; 100; 100]);
  Peer 2 28 Leader (AppendLost 3);
  Peer 4 16 Leader (AppendLost 3);
  Peer 2 28 Leader (AppendLost 1);
  Peer 4 16 Leader (AppendLost 0);
  Peer 2 28 Leader (AppendLost 0);
  Peer 2 28 Leader (AppendLost 4);
  Peer 4 16 Leader (AppendLost 1);
  Peer 4 16 Leader (AppendLost 2);
  Peer 4 16 Leader StartHeartBeat;
  Peer 4 16 Leader (AppendTo 0);
  Peer 2 28 Leader StartHeartBeat;
  Peer 2 28 Leader (AppendTo 0);
  Peer 2 28 Leader (AppendTo 1);
  Peer 2 28 Leader (AppendTo 3);
  Peer 2 28 Leader (AppendTo 4);
  Peer 4 16 Leader (AppendTo 1);
  Peer 2 28 Leader (SendAppend 4 [123; 123; 123; 1; 123]);
  Peer 4 16 Leader (AppendTo 2);
  Peer 4 16 Leader (AppendTo 3);
  Peer 4 16 Leader (SendAppend 2 [100; 123; 123; 100; 100]);
  Peer 2 28 Leader (SendAppend 3 [123; 123; 123; 1; 123]);
  Peer 4 16 Leader (SendAppend 0 [100; 123; 123; 100; 100]);
  Peer 4 16 Leader (SendAppend 1 [100; 123; 123; 100; 100]);
  Peer 2 28 Leader (SendAppend 0 [123; 123; 123; 1; 123]);
  Peer 4 16 Leader (SendAppend 3 [100; 123; 123; 100; 100]);
  Peer 2 28 Leader (SendAppend 1 [123; 123; 123; 1; 123]);
  Peer 4 16 Leader (AppendLost 1);
  Peer 4 16 Leader (AppendLost 2);
  Peer 2 28 Leader (AppendLost 3);
  Peer 2 28 Leader (AppendLost 4);
  Peer 2 28 Leader (AppendLost 1);
  Peer 4 16 Leader (AppendLost 0);
  Peer 2 28 Leader (AppendLost 0);
  Peer 4 16 Leader (AppendLost 3);
  Peer 2 28 Leader StartHeartBeat;
  Peer 2 28 Leader (AppendTo 0);
  Peer 2 28 Leader (AppendTo 1);
  Peer 2 28 Leader (AppendTo 3);
  Peer 4 16 Leader StartHeartBeat;
  Peer 4 16 Leader (AppendTo 0);
  Peer 2 28 Leader (AppendTo 4);
  Peer 4 16 Leader (AppendTo 1);
  Peer 4 16 Leader (AppendTo 2);
  Peer 4 16 Leader (AppendTo 3);
  Peer 2 28 Leader (SendAppend 3 [123; 123; 123; 1; 123]);
  Peer 4 16 Leader (SendAppend 0 [100; 123; 123; 100; 100]);
  Peer 2 28 Leader (SendAppend 0 [123; 123; 123; 1; 123]);
  Peer 4 16 Leader (SendAppend 2 [100; 123; 123; 100; 100]);
  Peer 2 28 Leader (SendAppend 1 [123; 123; 123; 1; 123]);
  Peer 4 16 Leader (SendAppend 1 [100; 123; 123; 100; 100]);
  Peer 2 28 Leader (SendAppend 4 [123; 123; 123; 1; 123]);
  Peer 4 16 Leader (SendAppend 3 [100; 123; 123; 100; 100]);
  Peer 2 28 Leader (AppendLost 0);
  Peer 4 16 Leader (AppendLost 0);
  Peer 0 31 Candidate (VoteReply 1 31 false);
  Peer 0 31 Candidate (SenderCommit 1 1);
  Peer 0 31 Candidate (CheckElection 1 5);
  Peer 2 28 Leader (AppendLost 3);
  Peer 2 28 Leader (AppendLost 1);
  Peer 4 16 Leader (AppendLost 3);
  Peer 4 16 Leader (AppendLost 1)].

(** Lines 4806 to 4955. *)
Definition run_33 : list Line := [
  Peer 2 28 Leader (AppendLost 4);
  Peer 4 16 Leader (AppendLost 2);
  Peer 4 16 Leader StartHeartBeat;
  Peer 4 16 Leader (AppendTo 0);
  Peer 4 16 Leader (AppendTo 1);
  Peer 2 28 Leader StartHeartBeat;
  Peer 4 16 Leader (AppendTo 2);
  Peer 2 28 Leader (AppendTo 0);
  Peer 2 28 Leader (AppendTo 1);
  Peer 2 28 Leader (AppendTo 3);
  Peer 4 16 Leader (AppendTo 3);
  Peer 2 28 Leader (AppendTo 4);
  Peer 2 28 Leader (SendAppend 3 [123; 123; 123; 1; 123]);
  Peer 2 28 Leader (SendAppend 4 [123; 123; 123; 1; 123]);
  Peer 2 28 Leader (SendAppend 0 [123; 123; 123; 1; 123]);
  Peer 2 28 Leader (SendAppend 1 [123; 123; 123; 1; 123]);
  Peer 4 16 Leader (SendAppend 0 [100; 123; 123; 100; 100]);
  Peer 4 16 Leader (SendAppend 1 [100; 123; 123; 100; 100]);
  Peer 4 16 Leader (SendAppend 2 [100; 123; 123; 100; 100]);
  Peer 4 16 Leader (SendAppend 3 [100; 123; 123; 100; 100]);
  Peer 4 16 Leader (AppendLost 0);
  Peer 2 28 Leader (AppendLost 0);
  Peer 2 28 Leader (AppendLost 4);
  Peer 2 28 Leader (AppendLost 1);
  Peer 4 16 Leader (AppendLost 3);
  Peer 4 16 Leader (AppendLost 1);
  Peer 4 16 Leader (AppendLost 2);
  Peer 2 28 Leader (AppendLost 3);
  Peer 2 28 Leader StartHeartBeat;
  Peer 2 28 Leader (AppendTo 0);
  Peer 2 28 Leader (AppendTo 1);
  Peer 2 28 Leader (AppendTo 3);
  Peer 2 28 Leader (AppendTo 4);
  Peer 4 16 Leader StartHeartBeat;
  Peer 4 16 Leader (AppendTo 0);
  Peer 2 28 Leader (SendAppend 4 [123; 123; 123; 1; 123]);
  Peer 4 16 Leader (AppendTo 1);
  Peer 2 28 Leader (SendAppend 1 [123; 123; 123; 1; 123]);
  Peer 4 16 Leader (AppendTo 2);
  Peer 4 16 Leader (AppendTo 3);
  Peer 4 16 Leader (SendAppend 1 [100; 123; 123; 100; 100]);
  Peer 2 28 Leader (SendAppend 0 [123; 123; 123; 1; 123]);
  Peer 2 28 Leader (SendAppend 3 [123; 123; 123; 1; 123]);
  Peer 4 16 Leader (SendAppend 0 [100; 123; 123; 100; 100]);
  Peer 4 16 Leader (SendAppend 3 [100; 123; 123; 100; 100]);
  Peer 4 16 Leader (SendAppend 2 [100; 123; 123; 100; 100]);
  Peer 2 28 Leader (AppendLost 4);
  Peer 4 16 Leader (AppendLost 2);
  Peer 4 16 Leader (AppendLost 1);
  Peer 2 28 Leader (AppendLost 1);
  Peer 2 28 Leader (AppendLost 3);
  Peer 4 16 Leader (AppendLost 3);
  Peer 2 28 Leader (AppendLost 0);
  Peer 4 16 Leader (AppendLost 0);
  Peer 1 31 Candidate StartElection;
  Peer 2 28 Leader StartHeartBeat;
  Peer 2 28 Leader (AppendTo 0);
  Peer 2 28 Leader (AppendTo 1);
  Peer 2 28 Leader (AppendTo 3);
  Peer 4 16 Leader StartHeartBeat;
  Peer 2 28 Leader (AppendTo 4);
  Peer 4 16 Leader (AppendTo 0);
  Peer 4 16 Leader (AppendTo 1);
  Peer 4 16 Leader (AppendTo 2);
  Peer 4 16 Leader (AppendTo 3);
  Peer 2 28 Leader (SendAppend 3 [123; 123; 123; 1; 123]);
  Peer 4 16 Leader (SendAppend 3 [100; 123; 123; 100; 100]);
  Peer 4 16 Leader (SendAppend 2 [100; 123; 123; 100; 100]);
  Peer 1 32 Candidate BecomeCandidate;
  Peer 1 32 Candidate (RequestVoteTo 0);
  Peer 1 32 Candidate (RequestVoteTo 2);
  Peer 1 32 Candidate (RequestVoteTo 3);
  Peer 1 32 Candidate (RequestVoteTo 4);
  Peer 2 28 Leader (SendAppend 1 [123; 123; 123; 1; 123]);
  Peer 2 28 Leader (SendAppend 0 [123; 123; 123; 1; 123]);
  Peer 4 16 Leader (SendAppend 1 [100; 123; 123; 100; 100]);
  Peer 4 16 Leader (SendAppend 0 [100; 123; 123; 100; 100]);
  Peer 2 28 Leader (SendAppend 4 [123; 123; 123; 1; 123]);
  Peer 3 31 Candidate (ReceiveRequestVote 3 1 32);
  Peer 3 31 Candidate (VoteArgs 32 123 14 123 124);
  Peer 3 31 Candidate (HandlerCommit 1 1);
  Peer 3 31 Candidate (SelfTermLower 1);
  Peer 0 31 Candidate (ReceiveRequestVote 0 1 32);
  Peer 0 31 Candidate (VoteArgs 32 123 9 133 134);
  Peer 0 31 Candidate (HandlerCommit 1 1);
  Peer 0 31 Candidate (SelfTermLower 1);
  Peer 3 32 Follower (CompareLogs 14 28 123 123);
  Peer 0 32 Follower (CompareLogs 9 28 133 123);
  Peer 3 32 Follower (Granted 32 123 14 123 124);
  Peer 3 32 Follower (HandlerCommit 1 1);
  Peer 1 32 Candidate (RequestVoteLost 3);
  Peer 0 32 Follower (Granted 32 123 9 133 134);
  Peer 0 32 Follower (HandlerCommit 1 1);
  Peer 2 28 Leader (AppendLost 0);
  Peer 4 16 Leader (AppendLost 3);
  Peer 4 16 Leader (AppendLost 1);
  Peer 4 16 Leader (AppendLost 2);
  Peer 1 32 Candidate (RequestVoteLost 4);
  Peer 4 16 Leader (AppendLost 0);
  Peer 2 28 Leader (AppendLost 1);
  Peer 2 28 Leader (AppendLost 3);
  Peer 2 28 Leader (AppendLost 4);
  Peer 1 32 Candidate (RequestVoteLost 2);
  Peer 2 28 Leader StartHeartBeat;
  Peer 4 16 Leader StartHeartBeat;
  Peer 4 16 Leader (AppendTo 0);
  Peer 4 16 Leader (AppendTo 1);
  Peer 4 16 Leader (AppendTo 2);
  Peer 4 16 Leader (AppendTo 3);
  Peer 2 28 Leader (AppendTo 0);
  Peer 2 28 Leader (AppendTo 1);
  Peer 2 28 Leader (AppendTo 3);
  Peer 2 28 Leader (AppendTo 4);
  Peer 4 16 Leader (SendAppend 3 [100; 123; 123; 100; 100]);
  Peer 2 28 Leader (SendAppend 4 [123; 123; 123; 1; 123]);
  Peer 4 16 Leader (SendAppend 1 [100; 123; 123; 100; 100]);
  Peer 2 28 Leader (SendAppend 1 [123; 123; 123; 1; 123]);
  Peer 2 28 Leader (SendAppend 0 [123; 123; 123; 1; 123]);
  Peer 4 16 Leader (SendAppend 0 [100; 123; 123; 100; 100]);
  Peer 2 28 Leader (SendAppend 3 [123; 123; 123; 1; 123]);
  Peer 4 16 Leader (SendAppend 2 [100; 123; 123; 100; 100]);
  Peer 4 16 Leader (AppendLost 1);
  Peer 4 16 Leader (AppendLost 0);
  Peer 2 28 Leader (AppendLost 0);
  Peer 1 32 Candidate (VoteReply 3 31 false);
  Peer 1 32 Candidate (SenderCommit 2 2);
  Peer 1 32 Candidate (CheckElection 1 5);
  Peer 4 16 Leader (AppendLost 3);
  Peer 4 16 Leader (AppendLost 2);
  Peer 2 28 Leader (AppendLost 1);
  Peer 2 28 Leader (AppendLost 3);
  Peer 4 16 Leader StartHeartBeat;
  Peer 4 16 Leader (AppendTo 0);
  Peer 4 16 Leader (AppendTo 1);
  Peer 4 16 Leader (AppendTo 2);
  Peer 4 16 Leader (AppendTo 3);
  Peer 4 16 Leader (SendAppend 3 [100; 123; 123; 100; 100]);
  Peer 4 16 Leader (SendAppend 1 [100; 123; 123; 100; 100]);
  Peer 4 16 Leader (SendAppend 0 [100; 123; 123; 100; 100]);
  Peer 2 28 Leader StartHeartBeat;
  Peer 2 28 Leader (AppendTo 0);
  Peer 2 28 Leader (AppendTo 1);
  Peer 2 28 Leader (AppendTo 3);
  Peer 2 28 Leader (AppendTo 4);
  Peer 2 28 Leader (AppendLost 4);
  Peer 2 28 Leader (SendAppend 0 [123; 123; 123; 1; 123]);
  Peer 2 28 Leader (SendAppend 3 [123; 123; 123; 1; 123]);
  Peer 2 28 Leader (SendAppend 1 [123; 123; 123; 1; 123]);
  Peer 2 28 Leader (SendAppend 4 [123; 123; 123; 1; 123]);
  Peer 4 16 Leader (SendAppend 2 [100; 123; 123; 100; 100])].

(** Lines 4956 to 5105. *)
Definition run_34 : list Line := [
  Peer 4 16 Leader (AppendLost 1);
  Peer 4 16 Leader (AppendLost 2);
  Peer 4 16 Leader (AppendLost 3);
  Peer 4 16 Leader (AppendLost 0);
  Peer 2 28 Leader (AppendLost 4);
  Peer 2 28 Leader (AppendLost 3);
  Peer 2 28 Leader (AppendLost 1);
  Peer 2 28 Leader (AppendLost 0);
  Peer 4 16 Leader StartHeartBeat;
  Peer 4 16 Leader (AppendTo 0);
  Peer 4 16 Leader (AppendTo 1);
  Peer 4 16 Leader (AppendTo 2);
  Peer 4 16 Leader (AppendTo 3);
  Peer 4 16 Leader (SendAppend 3 [100; 123; 123; 100; 100]);
  Peer 2 28 Leader StartHeartBeat;
  Peer 2 28 Leader (AppendTo 0);
  Peer 2 28 Leader (AppendTo 1);
  Peer 2 28 Leader (AppendTo 3);
  Peer 2 28 Leader (AppendTo 4);
  Peer 2 28 Leader (SendAppend 4 [123; 123; 123; 1; 123]);
  Peer 2 28 Leader (SendAppend 1 [123; 123; 123; 1; 123]);
  Peer 4 16 Leader (SendAppend 1 [100; 123; 123; 100; 100]);
  Peer 2 28 Leader (SendAppend 3 [123; 123; 123; 1; 123]);
  Peer 2 28 Leader (SendAppend 0 [123; 123; 123; 1; 123]);
  Peer 4 16 Leader (SendAppend 0 [100; 123; 123; 100; 100]);
  Peer 4 16 Leader (SendAppend 2 [100; 123; 123; 100; 100]);
  Peer 2 28 Leader (AppendLost 3);
  Peer 4 16 Leader (AppendLost 0);
  Peer 2 28 Leader (AppendLost 4);
  Peer 4 16 Leader (AppendLost 2);
  Peer 4 16 Leader (AppendLost 1);
  Peer 2 28 Leader (AppendLost 0);
  Peer 2 28 Leader (AppendLost 1);
  Peer 4 16 Leader (AppendLost 3);
  Peer 4 16 Leader StartHeartBeat;
  Peer 4 16 Leader (AppendTo 0);
  Peer 4 16 Leader (AppendTo 1);
  Peer 4 16 Leader (AppendTo 2);
  Peer 4 16 Leader (AppendTo 3);
  Peer 4 16 Leader (SendAppend 3 [100; 123; 123; 100; 100]);
  Peer 4 16 Leader (SendAppend 1 [100; 123; 123; 100; 100]);
  Peer 3 32 Follower (VoteReply 0 30 false);
  Peer 3 32 Follower (SenderCommit 1 1);
  Peer 2 28 Leader StartHeartBeat;
  Peer 3 32 Follower (CheckElection 0 5);
  Peer 3 32 Follower NotCandidate;
  Peer 2 28 Leader (AppendTo 0);
  Peer 2 28 Leader (AppendTo 1);
  Peer 2 28 Leader (AppendTo 3);
  Peer 2 28 Leader (AppendTo 4);
  Peer 2 28 Leader (SendAppend 4 [123; 123; 123; 1; 123]);
  Peer 2 28 Leader (SendAppend 0 [123; 123; 123; 1; 123]);
  Peer 2 28 Leader (SendAppend 1 [123; 123; 123; 1; 123]);
  Peer 2 28 Leader (SendAppend 3 [123; 123; 123; 1; 123]);
  Peer 4 16 Leader (SendAppend 0 [100; 123; 123; 100; 100]);
  Peer 4 16 Leader (SendAppend 2 [100; 123; 123; 100; 100]);
  Peer 4 16 Leader (AppendLost 3);
  Peer 2 28 Leader (AppendLost 4);
  Peer 2 28 Leader (AppendLost 3);
  Peer 2 28 Leader (AppendLost 1);
  Peer 2 28 Leader (AppendLost 0);
  Peer 4 16 Leader (AppendLost 0);
  Peer 4 16 Leader (AppendLost 2);
  Peer 4 16 Leader (AppendLost 1);
  Peer 2 28 Leader StartHeartBeat;
  Peer 2 28 Leader (AppendTo 0);
  Peer 4 16 Leader StartHeartBeat;
  Peer 0 32 Follower StartElection;
  Peer 4 16 Leader (AppendTo 0);
  Peer 4 16 Leader (AppendTo 1);
  Peer 4 16 Leader (AppendTo 2);
  Peer 4 16 Leader (AppendTo 3);
  Peer 2 28 Leader (AppendTo 1);
  Peer 2 28 Leader (AppendTo 3);
  Peer 2 28 Leader (AppendTo 4);
  Peer 4 16 Leader (SendAppend 3 [100; 123; 123; 100; 100]);
  Peer 2 28 Leader (SendAppend 0 [123; 123; 123; 1; 123]);
  Peer 2 28 Leader (SendAppend 4 [123; 123; 123; 1; 123]);
  Peer 2 28 Leader (SendAppend 3 [123; 123; 123; 1; 123]);
  Peer 4 16 Leader (SendAppend 1 [100; 123; 123; 100; 100]);
  Peer 0 33 Candidate BecomeCandidate;
  Peer 0 33 Candidate (RequestVoteTo 1);
  Peer 0 33 Candidate (RequestVoteTo 2);
  Peer 0 33 Candidate (RequestVoteTo 3);
  Peer 0 33 Candidate (RequestVoteTo 4);
  Peer 4 16 Leader (SendAppend 0 [100; 123; 123; 100; 100]);
  Peer 2 28 Leader (SendAppend 1 [123; 123; 123; 1; 123]);
  Peer 4 16 Leader (SendAppend 2 [100; 123; 123; 100; 100]);
  Peer 3 32 Follower (ReceiveRequestVote 1 0 33);
  Peer 3 32 Follower (VoteArgs 33 133 14 123 124);
  Peer 0 33 Candidate (RequestVoteLost 2);
  Peer 3 32 Follower (HandlerCommit 1 1);
  Peer 3 32 Follower (SelfTermLower 0);
  Peer 1 32 Candidate (ReceiveRequestVote 1 0 33);
  Peer 1 32 Candidate (VoteArgs 33 133 28 123 124);
  Peer 1 32 Candidate (HandlerCommit 2 2);
  Peer 1 32 Candidate (SelfTermLower 0);
  Peer 3 33 Follower (CompareLogs 14 9 123 133);
  Peer 3 33 Follower SelfLogNewer;
  Peer 1 33 Follower (CompareLogs 28 9 123 133);
  Peer 1 33 Follower SelfLogNewer;
  Peer 2 28 Leader (AppendLost 3);
  Peer 4 16 Leader (AppendLost 0);
  Peer 2 28 Leader (AppendLost 1);
  Peer 4 16 Leader (AppendLost 3);
  Peer 4 16 Leader (AppendLost 1);
  Peer 2 28 Leader (AppendLost 0);
  Peer 0 33 Candidate (RequestVoteLost 4);
  Peer 2 28 Leader (AppendLost 4);
  Peer 4 16 Leader (AppendLost 2);
  Peer 2 28 Leader StartHeartBeat;
  Peer 2 28 Leader (AppendTo 0);
  Peer 2 28 Leader (AppendTo 1);
  Peer 2 28 Leader (AppendTo 3);
  Peer 4 16 Leader StartHeartBeat;
  Peer 4 16 Leader (AppendTo 0);
  Peer 2 28 Leader (AppendTo 4);
  Peer 4 16 Leader (AppendTo 1);
  Peer 2 28 Leader (SendAppend 4 [123; 123; 123; 1; 123]);
  Peer 4 16 Leader (AppendTo 2);
  Peer 4 16 Leader (AppendTo 3);
  Peer 4 16 Leader (SendAppend 0 [100; 123; 123; 100; 100]);
  Peer 4 16 Leader (SendAppend 1 [100; 123; 123; 100; 100]);
  Peer 4 16 Leader (SendAppend 3 [100; 123; 123; 100; 100]);
  Peer 2 28 Leader (SendAppend 3 [123; 123; 123; 1; 123]);
  Peer 4 16 Leader (SendAppend 2 [100; 123; 123; 100; 100]);
  Peer 2 28 Leader (SendAppend 0 [123; 123; 123; 1; 123]);
  Peer 2 28 Leader (SendAppend 1 [123; 123; 123; 1; 123]);
  Peer 2 28 Leader (AppendLost 3);
  Peer 2 28 Leader (AppendLost 4);
  Peer 2 28 Leader (AppendLost 0);
  Peer 4 16 Leader (AppendLost 0);
  Peer 2 28 Leader (AppendLost 1);
  Peer 4 16 Leader (AppendLost 2);
  Peer 4 16 Leader (AppendLost 3);
  Peer 4 16 Leader (AppendLost 1);
  Peer 0 33 Candidate (VoteReply 3 31 false);
  Peer 0 33 Candidate (SenderCommit 1 1);
  Peer 0 33 Candidate (CheckElection 1 5);
  Peer 4 16 Leader StartHeartBeat;
  Peer 4 16 Leader (AppendTo 0);
  Peer 2 28 Leader StartHeartBeat;
  Peer 4 16 Leader (AppendTo 1);
  Peer 2 28 Leader (AppendTo 0);
  Peer 2 28 Leader (AppendTo 1);
  Peer 2 28 Leader (AppendTo 3);
  Peer 4 16 Leader (AppendTo 2);
  Peer 4 16 Leader (AppendTo 3);
  Peer 2 28 Leader (AppendTo 4);
  Peer 4 16 Leader (SendAppend 0 [100; 123; 123; 100; 100])].

(** Lines 5106 to 5255. *)
Definition run_35 : list Line := [
  Peer 4 16 Leader (SendAppend 3 [100; 123; 123; 100; 100]);
  Peer 2 28 Leader (SendAppend 4 [123; 123; 123; 1; 123]);
  Peer 4 16 Leader (SendAppend 1 [100; 123; 123; 100; 100]);
  Peer 2 28 Leader (SendAppend 3 [123; 123; 123; 1; 123]);
  Peer 4 16 Leader (SendAppend 2 [100; 123; 123; 100; 100]);
  Peer 2 28 Leader (SendAppend 0 [123; 123; 123; 1; 123]);
  Peer 2 28 Leader (SendAppend 1 [123; 123; 123; 1; 123]);
  Peer 2 28 Leader (AppendLost 4);
  Peer 2 28 Leader (AppendLost 0);
  Peer 0 33 Candidate (VoteReply 1 33 false);
  Peer 0 33 Candidate (SenderCommit 1 1);
  Peer 0 33 Candidate (CheckElection 1 5);
  Peer 4 16 Leader (AppendLost 1);
  Peer 4 16 Leader (AppendLost 0);
  Peer 4 16 Leader (AppendLost 2);
  Peer 4 16 Leader (AppendLost 3);
  Peer 4 16 Leader StartHeartBeat;
  Peer 4 16 Leader (AppendTo 0);
  Peer 4 16 Leader (AppendTo 1);
  Peer 4 16 Leader (AppendTo 2);
  Peer 4 16 Leader (AppendTo 3);
  Peer 4 16 Leader (SendAppend 3 [100; 123; 123; 100; 100]);
  Peer 4 16 Leader (SendAppend 2 [100; 123; 123; 100; 100]);
  Peer 4 16 Leader (SendAppend 1 [100; 123; 123; 100; 100]);
  Peer 2 28 Leader (AppendLost 3);
  Peer 2 28 Leader StartHeartBeat;
  Peer 2 28 Leader (AppendTo 0);
  Peer 2 28 Leader (AppendTo 1);
  Peer 2 28 Leader (AppendTo 3);
  Peer 2 28 Leader (AppendTo 4);
  Peer 2 28 Leader (AppendLost 1);
  Peer 2 28 Leader (SendAppend 0 [123; 123; 123; 1; 123]);
  Peer 2 28 Leader (SendAppend 1 [123; 123; 123; 1; 123]);
  Peer 2 28 Leader (SendAppend 4 [123; 123; 123; 1; 123]);
  Peer 4 16 Leader (SendAppend 0 [100; 123; 123; 100; 100]);
  Peer 2 28 Leader (SendAppend 3 [123; 123; 123; 1; 123]);
  Peer 2 28 Leader (AppendLost 1);
  Peer 4 16 Leader (AppendLost 1);
  Peer 4 16 Leader (AppendLost 0);
  Peer 4 16 Leader (AppendLost 2);
  Peer 4 16 Leader (AppendLost 3);
  Peer 2 28 Leader (AppendLost 4);
  Peer 2 28 Leader (AppendLost 0);
  Peer 2 28 Leader (AppendLost 3);
  Peer 4 16 Leader StartHeartBeat;
  Peer 4 16 Leader (AppendTo 0);
  Peer 2 28 Leader StartHeartBeat;
  Peer 4 16 Leader (AppendTo 1);
  Peer 2 28 Leader (AppendTo 0);
  Peer 2 28 Leader (AppendTo 1);
  Peer 2 28 Leader (AppendTo 3);
  Peer 4 16 Leader (AppendTo 2);
  Peer 4 16 Leader (AppendTo 3);
  Peer 2 28 Leader (AppendTo 4);
  Peer 2 28 Leader (SendAppend 3 [123; 123; 123; 1; 123]);
  Peer 4 16 Leader (SendAppend 2 [100; 123; 123; 100; 100]);
  Peer 2 28 Leader (SendAppend 0 [123; 123; 123; 1; 123]);
  Peer 4 16 Leader (SendAppend 1 [100; 123; 123; 100; 100]);
  Peer 2 28 Leader (SendAppend 1 [123; 123; 123; 1; 123]);
  Peer 2 28 Leader (SendAppend 4 [123; 123; 123; 1; 123]);
  Peer 4 16 Leader (SendAppend 0 [100; 123; 123; 100; 100]);
  Peer 4 16 Leader (SendAppend 3 [100; 123; 123; 100; 100]);
  Peer 4 16 Leader (AppendLost 1);
  Peer 4 16 Leader (AppendLost 0);
  Peer 2 28 Leader (AppendLost 4);
  Peer 4 16 Leader (AppendLost 2);
  Peer 2 28 Leader (AppendLost 3);
  Peer 2 28 Leader (AppendLost 0);
  Peer 4 16 Leader (AppendLost 3);
  Peer 0 33 Candidate (VoteReply 3 33 false);
  Peer 0 33 Candidate (SenderCommit 1 1);
  Peer 0 33 Candidate (CheckElection 1 5);
  Peer 2 28 Leader StartHeartBeat;
  Peer 2 28 Leader (AppendTo 0);
  Peer 2 28 Leader (AppendTo 1);
  Peer 2 28 Leader (AppendTo 3);
  Peer 2 28 Leader (AppendTo 4);
  Peer 2 28 Leader (SendAppend 4 [123; 123; 123; 1; 123]);
  Peer 4 16 Leader StartHeartBeat;
  Peer 4 16 Leader (AppendTo 0);
  Peer 2 28 Leader (AppendLost 1);
  Peer 4 16 Leader (AppendTo 1);
  Peer 2 28 Leader (SendAppend 1 [123; 123; 123; 1; 123]);
  Peer 4 16 Leader (AppendTo 2);
  Peer 4 16 Leader (AppendTo 3);
  Peer 4 16 Leader (SendAppend 3 [100; 123; 123; 100; 100]);
  Peer 2 28 Leader (SendAppend 0 [123; 123; 123; 1; 123]);
  Peer 2 28 Leader (SendAppend 3 [123; 123; 123; 1; 123]);
  Peer 4 16 Leader (SendAppend 0 [100; 123; 123; 100; 100]);
  Peer 4 16 Leader (SendAppend 1 [100; 123; 123; 100; 100]);
  Peer 4 16 Leader (SendAppend 2 [100; 123; 123; 100; 100]);
  Peer 1 33 Follower (VoteReply 0 32 true);
  Peer 1 33 Follower (SenderCommit 2 2);
  Peer 1 33 Follower (VoteGained 0);
  Peer 1 33 Follower (CheckElection 0 5);
  Peer 1 33 Follower NotCandidate;
  Peer 2 28 Leader (AppendLost 4);
  Peer 2 28 Leader (AppendLost 0);
  Peer 2 28 Leader (AppendLost 1);
  Peer 4 16 Leader (AppendLost 2);
  Peer 4 16 Leader (AppendLost 1);
  Peer 4 16 Leader (AppendLost 3);
  Peer 4 16 Leader (AppendLost 0);
  Peer 2 28 Leader (AppendLost 3);
  Peer 4 16 Leader StartHeartBeat;
  Peer 3 33 Follower StartElection;
  Peer 4 16 Leader (AppendTo 0);
  Peer 4 16 Leader (AppendTo 1);
  Peer 4 16 Leader (AppendTo 2);
  Peer 4 16 Leader (AppendTo 3);
  Peer 0 33 Candidate StartElection;
  Peer 4 16 Leader (SendAppend 3 [100; 123; 123; 100; 100]);
  Peer 4 16 Leader (SendAppend 1 [100; 123; 123; 100; 100]);
  Peer 3 34 Candidate BecomeCandidate;
  Peer 3 34 Candidate (RequestVoteTo 0);
  Peer 3 34 Candidate (RequestVoteTo 1);
  Peer 3 34 Candidate (RequestVoteTo 2);
  Peer 3 34 Candidate (RequestVoteTo 4);
  Peer 0 34 Candidate BecomeCandidate;
  Peer 0 34 Candidate (RequestVoteTo 1);
  Peer 0 34 Candidate (RequestVoteTo 2);
  Peer 0 34 Candidate (RequestVoteTo 3);
  Peer 0 34 Candidate (RequestVoteTo 4);
  Peer 2 28 Leader StartHeartBeat;
  Peer 2 28 Leader (AppendTo 0);
  Peer 2 28 Leader (AppendTo 1);
  Peer 2 28 Leader (AppendTo 3);
  Peer 2 28 Leader (AppendTo 4);
  Peer 4 16 Leader (SendAppend 2 [100; 123; 123; 100; 100]);
  Peer 2 28 Leader (SendAppend 4 [123; 123; 123; 1; 123]);
  Peer 2 28 Leader (SendAppend 0 [123; 123; 123; 1; 123]);
  Peer 4 16 Leader (SendAppend 0 [100; 123; 123; 100; 100]);
  Peer 2 28 Leader (SendAppend 1 [123; 123; 123; 1; 123]);
  Peer 2 28 Leader (SendAppend 3 [123; 123; 123; 1; 123]);
  Peer 4 16 Leader (AppendLost 2);
  Peer 1 33 Follower (ReceiveRequestVote 0 0 34);
  Peer 1 33 Follower (VoteArgs 34 133 28 123 124);
  Peer 1 33 Follower (HandlerCommit 2 2);
  Peer 1 33 Follower (SelfTermLower 0);
  Peer 1 34 Follower (CompareLogs 28 9 123 133);
  Peer 1 34 Follower SelfLogNewer;
  Peer 3 34 Candidate (ReceiveRequestVote 3 0 34);
  Peer 3 34 Candidate (VoteArgs 34 133 14 123 124);
  Peer 3 34 Candidate (HandlerCommit 1 1);
  Peer 3 34 Candidate (CompareLogs 14 9 123 133);
  Peer 3 34 Candidate SelfLogNewer;
  Peer 0 34 Candidate (ReceiveRequestVote 0 3 34);
  Peer 0 34 Candidate (VoteArgs 34 123 9 133 134);
  Peer 0 34 Candidate (HandlerCommit 1 1);
  Peer 0 34 Candidate (CompareLogs 9 14 133 123)].

(** Lines 5256 to 5405. *)
Definition run_36 : list Line := [
  Peer 0 34 Candidate Refused;
  Peer 1 34 Follower (ReceiveRequestVote 0 3 34);
  Peer 1 34 Follower (VoteArgs 34 123 28 123 124);
  Peer 1 34 Follower (HandlerCommit 2 2);
  Peer 1 34 Follower (CompareLogs 28 14 123 123);
  Peer 1 34 Follower SelfLogNewer;
  Peer 3 34 Candidate (RequestVoteLost 0);
  Peer 2 28 Leader (AppendLost 4);
  Peer 4 16 Leader (AppendLost 0);
  Peer 2 28 Leader (AppendLost 3);
  Peer 4 16 Leader (AppendLost 3);
  Peer 3 34 Candidate (RequestVoteLost 4);
  Peer 2 28 Leader (AppendLost 1);
  Peer 4 16 Leader (AppendLost 1);
  Peer 3 34 Candidate (RequestVoteLost 2);
  Peer 0 34 Candidate (RequestVoteLost 4);
  Peer 0 34 Candidate (RequestVoteLost 2);
  Peer 2 28 Leader (AppendLost 0);
  Peer 4 16 Leader StartHeartBeat;
  Peer 4 16 Leader (AppendTo 0);
  Peer 4 16 Leader (AppendTo 1);
  Peer 4 16 Leader (AppendTo 2);
  Peer 4 16 Leader (AppendTo 3);
  Peer 4 16 Leader (SendAppend 2 [100; 123; 123; 100; 100]);
  Peer 4 16 Leader (SendAppend 0 [100; 123; 123; 100; 100]);
  Peer 4 16 Leader (SendAppend 1 [100; 123; 123; 100; 100]);
  Peer 2 28 Leader StartHeartBeat;
  Peer 2 28 Leader (AppendTo 0);
  Peer 2 28 Leader (AppendTo 1);
  Peer 2 28 Leader (AppendTo 3);
  Peer 2 28 Leader (AppendTo 4);
  Peer 2 28 Leader (SendAppend 4 [123; 123; 123; 1; 123]);
  Peer 2 28 Leader (SendAppend 0 [123; 123; 123; 1; 123]);
  Peer 2 28 Leader (SendAppend 3 [123; 123; 123; 1; 123]);
  Peer 2 28 Leader (SendAppend 1 [123; 123; 123; 1; 123]);
  Peer 4 16 Leader (SendAppend 3 [100; 123; 123; 100; 100]);
  Peer 4 16 Leader (AppendLost 2);
  Peer 2 28 Leader (AppendLost 1);
  Peer 2 28 Leader (AppendLost 4);
  Peer 4 16 Leader (AppendLost 3);
  Peer 2 28 Leader (AppendLost 0);
  Peer 2 28 Leader (AppendLost 3);
  Peer 4 16 Leader (AppendLost 0);
  Peer 4 16 Leader (AppendLost 1);
  Peer 4 16 Leader StartHeartBeat;
  Peer 4 16 Leader (AppendTo 0);
  Peer 2 28 Leader StartHeartBeat;
  Peer 2 28 Leader (AppendTo 0);
  Peer 4 16 Leader (AppendTo 1);
  Peer 4 16 Leader (AppendTo 2);
  Peer 2 28 Leader (AppendTo 1);
  Peer 2 28 Leader (AppendTo 3);
  Peer 2 28 Leader (AppendTo 4);
  Peer 4 16 Leader (AppendTo 3);
  Peer 2 28 Leader (SendAppend 4 [123; 123; 123; 1; 123]);
  Peer 4 16 Leader (SendAppend 0 [100; 123; 123; 100; 100]);
  Peer 2 28 Leader (SendAppend 0 [123; 123; 123; 1; 123]);
  Peer 4 16 Leader (SendAppend 2 [100; 123; 123; 100; 100]);
  Peer 4 16 Leader (SendAppend 1 [100; 123; 123; 100; 100]);
  Peer 2 28 Leader (SendAppend 1 [123; 123; 123; 1; 123]);
  Peer 2 28 Leader (SendAppend 3 [123; 123; 123; 1; 123]);
  Peer 4 16 Leader (SendAppend 3 [100; 123; 123; 100; 100]);
  Peer 4 16 Leader (AppendLost 2);
  Peer 2 28 Leader (AppendLost 1);
  Peer 2 28 Leader (AppendLost 3);
  Peer 4 16 Leader (AppendLost 3);
  Peer 4 16 Leader (AppendLost 1);
  Peer 2 28 Leader (AppendLost 0);
  Peer 4 16 Leader (AppendLost 0);
  Peer 2 28 Leader (AppendLost 4);
  Peer 2 28 Leader StartHeartBeat;
  Peer 2 28 Leader (AppendTo 0);
  Peer 2 28 Leader (AppendTo 1);
  Peer 2 28 Leader (AppendTo 3);
  Peer 2 28 Leader (AppendTo 4);
  Peer 4 16 Leader StartHeartBeat;
  Peer 4 16 Leader (AppendTo 0);
  Peer 4 16 Leader (AppendTo 1);
  Peer 4 16 Leader (AppendTo 2);
  Peer 4 16 Leader (AppendTo 3);
  Peer 2 28 Leader (SendAppend 4 [123; 123; 123; 1; 123]);
  Peer 4 16 Leader (SendAppend 0 [100; 123; 123; 100; 100]);
  Peer 2 28 Leader (SendAppend 1 [123; 123; 123; 1; 123]);
  Peer 4 16 Leader (SendAppend 3 [100; 123; 123; 100; 100]);
  Peer 2 28 Leader (SendAppend 0 [123; 123; 123; 1; 123]);
  Peer 2 28 Leader (SendAppend 3 [123; 123; 123; 1; 123]);
  Peer 4 16 Leader (SendAppend 1 [100; 123; 123; 100; 100]);
  Peer 4 16 Leader (SendAppend 2 [100; 123; 123; 100; 100]);
  Peer 4 16 Leader (AppendLost 2);
  Peer 2 28 Leader (AppendLost 3);
  Peer 2 28 Leader (AppendLost 1);
  Peer 4 16 Leader (AppendLost 0);
  Peer 2 28 Leader (AppendLost 0);
  Peer 4 16 Leader (AppendLost 3);
  Peer 4 16 Leader (AppendLost 1);
  Peer 4 16 Leader StartHeartBeat;
  Peer 4 16 Leader (AppendTo 0);
  Peer 4 16 Leader (AppendTo 1);
  Peer 4 16 Leader (AppendTo 2);
  Peer 2 28 Leader StartHeartBeat;
  Peer 2 28 Leader (AppendTo 0);
  Peer 4 16 Leader (AppendTo 3);
  Peer 2 28 Leader (AppendTo 1);
  Peer 2 28 Leader (AppendTo 3);
  Peer 2 28 Leader (AppendTo 4);
  Peer 2 28 Leader (AppendLost 4);
  Peer 2 28 Leader (SendAppend 0 [123; 123; 123; 1; 123]);
  Peer 4 16 Leader (SendAppend 2 [100; 123; 123; 100; 100]);
  Peer 2 28 Leader (SendAppend 4 [123; 123; 123; 1; 123]);
  Peer 2 28 Leader (SendAppend 3 [123; 123; 123; 1; 123]);
  Peer 4 16 Leader (SendAppend 0 [100; 123; 123; 100; 100]);
  Peer 4 16 Leader (SendAppend 1 [100; 123; 123; 100; 100]);
  Peer 2 28 Leader (SendAppend 1 [123; 123; 123; 1; 123]);
  Peer 4 16 Leader (SendAppend 3 [100; 123; 123; 100; 100]);
  Peer 0 34 Candidate (VoteReply 1 34 false);
  Peer 0 34 Candidate (SenderCommit 1 1);
  Peer 0 34 Candidate (CheckElection 1 5);
  Peer 4 16 Leader (AppendLost 2);
  Peer 4 16 Leader (AppendLost 1);
  Peer 2 28 Leader (AppendLost 0);
  Peer 2 28 Leader (AppendLost 1);
  Peer 4 16 Leader (AppendLost 0);
  Peer 2 28 Leader (AppendLost 3);
  Peer 2 28 Leader (AppendLost 4);
  Peer 2 28 Leader StartHeartBeat;
  Peer 2 28 Leader (AppendTo 0);
  Peer 4 16 Leader StartHeartBeat;
  Peer 4 16 Leader (AppendTo 0);
  Peer 0 34 Candidate StartElection;
  Peer 2 28 Leader (AppendTo 1);
  Peer 2 28 Leader (AppendTo 3);
  Peer 2 28 Leader (AppendTo 4);
  Peer 4 16 Leader (AppendTo 1);
  Peer 4 16 Leader (AppendTo 2);
  Peer 2 28 Leader (SendAppend 0 [123; 123; 123; 1; 123]);
  Peer 2 28 Leader (SendAppend 1 [123; 123; 123; 1; 123]);
  Peer 4 16 Leader (AppendTo 3);
  Peer 4 16 Leader (AppendLost 3);
  Peer 4 16 Leader (SendAppend 0 [100; 123; 123; 100; 100]);
  Peer 0 35 Candidate BecomeCandidate;
  Peer 0 35 Candidate (RequestVoteTo 1);
  Peer 0 35 Candidate (RequestVoteTo 2);
  Peer 0 35 Candidate (RequestVoteTo 3);
  Peer 0 35 Candidate (RequestVoteTo 4);
  Peer 2 28 Leader (SendAppend 3 [123; 123; 123; 1; 123]);
  Peer 4 16 Leader (SendAppend 3 [100; 123; 123; 100; 100]);
  Peer 2 28 Leader (SendAppend 4 [123; 123; 123; 1; 123]);
  Peer 4 16 Leader (SendAppend 2 [100; 123; 123; 100; 100]);
  Peer 4 16 Leader (SendAppend 1 [100; 123; 123; 100; 100]);
  Peer 0 35 Candidate (RequestVoteLost 2)].

(** Lines 5406 to 5555. *)
Definition run_37 : list Line := [
  Peer 4 16 Leader (AppendLost 2);
  Peer 2 28 Leader (AppendLost 0);
  Peer 4 16 Leader (AppendLost 3);
  Peer 0 35 Candidate (RequestVoteLost 4);
  Peer 3 34 Candidate (ReceiveRequestVote 3 0 35);
  Peer 1 34 Follower (ReceiveRequestVote 0 0 35);
  Peer 3 34 Candidate (VoteArgs 35 133 14 123 124);
  Peer 1 34 Follower (VoteArgs 35 133 28 123 124);
  Peer 3 34 Candidate (HandlerCommit 1 1);
  Peer 1 34 Follower (HandlerCommit 2 2);
  Peer 1 34 Follower (SelfTermLower 0);
  Peer 3 34 Candidate (SelfTermLower 0);
  Peer 1 35 Follower (CompareLogs 28 9 123 133);
  Peer 1 35 Follower SelfLogNewer;
  Peer 3 35 Follower (CompareLogs 14 9 123 133);
  Peer 3 35 Follower SelfLogNewer;
  Peer 0 35 Candidate (VoteReply 1 35 false);
  Peer 0 35 Candidate (SenderCommit 1 1);
  Peer 0 35 Candidate (CheckElection 1 5);
  Peer 3 35 Follower (VoteReply 1 34 false);
  Peer 3 35 Follower (SenderCommit 1 1);
  Peer 3 35 Follower (CheckElection 0 5);
  Peer 3 35 Follower NotCandidate;
  Peer 2 28 Leader (AppendLost 3);
  Peer 2 28 Leader (AppendLost 4);
  Peer 4 16 Leader (AppendLost 0);
  Peer 4 16 Leader (AppendLost 1);
  Peer 2 28 Leader StartHeartBeat;
  Peer 2 28 Leader (AppendTo 0);
  Peer 2 28 Leader (AppendTo 1);
  Peer 2 28 Leader (AppendTo 3);
  Peer 2 28 Leader (AppendTo 4);
  Peer 2 28 Leader (SendAppend 4 [123; 123; 123; 1; 123]);
  Peer 4 16 Leader StartHeartBeat;
  Peer 4 16 Leader (AppendTo 0);
  Peer 2 28 Leader (AppendLost 1);
  Peer 4 16 Leader (AppendTo 1);
  Peer 2 28 Leader (SendAppend 0 [123; 123; 123; 1; 123]);
  Peer 4 16 Leader (AppendTo 2);
  Peer 4 16 Leader (AppendTo 3);
  Peer 4 16 Leader (SendAppend 0 [100; 123; 123; 100; 100]);
  Peer 4 16 Leader (SendAppend 1 [100; 123; 123; 100; 100]);
  Peer 2 28 Leader (SendAppend 1 [123; 123; 123; 1; 123]);
  Peer 4 16 Leader (SendAppend 3 [100; 123; 123; 100; 100]);
  Peer 2 28 Leader (SendAppend 3 [123; 123; 123; 1; 123]);
  Peer 4 16 Leader (SendAppend 2 [100; 123; 123; 100; 100]);
  Peer 4 16 Leader (AppendLost 1);
  Peer 2 28 Leader (AppendLost 4);
  Peer 4 16 Leader (AppendLost 2);
  Peer 2 28 Leader (AppendLost 3);
  Peer 2 28 Leader (AppendLost 1);
  Peer 2 28 Leader (AppendLost 0);
  Peer 4 16 Leader (AppendLost 0);
  Peer 4 16 Leader (AppendLost 3);
  Peer 4 16 Leader StartHeartBeat;
  Peer 4 16 Leader (AppendTo 0);
  Peer 2 28 Leader StartHeartBeat;
  Peer 2 28 Leader (AppendTo 0);
  Peer 2 28 Leader (AppendTo 1);
  Peer 4 16 Leader (AppendTo 1);
  Peer 2 28 Leader (AppendTo 3);
  Peer 4 16 Leader (AppendTo 2);
  Peer 4 16 Leader (AppendTo 3);
  Peer 2 28 Leader (AppendTo 4);
  Peer 4 16 Leader (SendAppend 0 [100; 123; 123; 100; 100]);
  Peer 2 28 Leader (SendAppend 4 [123; 123; 123; 1; 123]);
  Peer 2 28 Leader (SendAppend 0 [123; 123; 123; 1; 123]);
  Peer 4 16 Leader (SendAppend 1 [100; 123; 123; 100; 100]);
  Peer 2 28 Leader (SendAppend 1 [123; 123; 123; 1; 123]);
  Peer 2 28 Leader (SendAppend 3 [123; 123; 123; 1; 123]);
  Peer 4 16 Leader (SendAppend 2 [100; 123; 123; 100; 100]);
  Peer 4 16 Leader (SendAppend 3 [100; 123; 123; 100; 100]);
  Peer 4 16 Leader (AppendLost 2);
  Peer 4 16 Leader (AppendLost 0);
  Peer 4 16 Leader (AppendLost 1);
  Peer 2 28 Leader (AppendLost 0);
  Peer 2 28 Leader (AppendLost 3);
  Peer 2 28 Leader (AppendLost 4);
  Peer 4 16 Leader (AppendLost 3);
  Peer 2 28 Leader (AppendLost 1);
  Peer 0 35 Candidate (VoteReply 3 35 false);
  Peer 0 35 Candidate (SenderCommit 1 1);
  Peer 0 35 Candidate (CheckElection 1 5);
  Peer 2 28 Leader StartHeartBeat;
  Peer 2 28 Leader (AppendTo 0);
  Peer 2 28 Leader (AppendTo 1);
  Peer 4 16 Leader StartHeartBeat;
  Peer 2 28 Leader (AppendTo 3);
  Peer 2 28 Leader (AppendTo 4);
  Peer 4 16 Leader (AppendTo 0);
  Peer 4 16 Leader (AppendTo 1);
  Peer 4 16 Leader (AppendTo 2);
  Peer 4 16 Leader (AppendTo 3);
  Peer 2 28 Leader (SendAppend 1 [123; 123; 123; 1; 123]);
  Peer 4 16 Leader (SendAppend 1 [100; 123; 123; 100; 100]);
  Peer 2 28 Leader (SendAppend 0 [123; 123; 123; 1; 123]);
  Peer 4 16 Leader (SendAppend 3 [100; 123; 123; 100; 100]);
  Peer 2 28 Leader (SendAppend 3 [123; 123; 123; 1; 123]);
  Peer 2 28 Leader (AppendLost 0);
  Peer 2 28 Leader (SendAppend 4 [123; 123; 123; 1; 123]);
  Peer 4 16 Leader (SendAppend 2 [100; 123; 123; 100; 100]);
  Peer 4 16 Leader (SendAppend 0 [100; 123; 123; 100; 100]);
  Peer 2 28 Leader (AppendLost 4);
  Peer 2 28 Leader (AppendLost 3);
  Peer 4 16 Leader (AppendLost 0);
  Peer 4 16 Leader (AppendLost 2);
  Peer 4 16 Leader (AppendLost 1);
  Peer 4 16 Leader (AppendLost 3);
  Peer 2 28 Leader (AppendLost 1);
  Peer 4 16 Leader StartHeartBeat;
  Peer 2 28 Leader StartHeartBeat;
  Peer 2 28 Leader (AppendTo 0);
  Peer 4 16 Leader (AppendTo 0);
  Peer 2 28 Leader (AppendTo 1);
  Peer 4 16 Leader (AppendTo 1);
  Peer 4 16 Leader (AppendTo 2);
  Peer 2 28 Leader (AppendTo 3);
  Peer 2 28 Leader (AppendTo 4);
  Peer 4 16 Leader (AppendTo 3);
  Peer 2 28 Leader (SendAppend 1 [123; 123; 123; 1; 123]);
  Peer 4 16 Leader (SendAppend 0 [100; 123; 123; 100; 100]);
  Peer 0 35 Candidate (VoteReply 3 34 false);
  Peer 0 35 Candidate (SenderCommit 1 1);
  Peer 2 28 Leader (SendAppend 3 [123; 123; 123; 1; 123]);
  Peer 2 28 Leader (SendAppend 4 [123; 123; 123; 1; 123]);
  Peer 2 28 Leader (SendAppend 0 [123; 123; 123; 1; 123]);
  Peer 4 16 Leader (SendAppend 2 [100; 123; 123; 100; 100]);
  Peer 4 16 Leader (SendAppend 1 [100; 123; 123; 100; 100]);
  Peer 4 16 Leader (SendAppend 3 [100; 123; 123; 100; 100]);
  Peer 0 35 Candidate (CheckElection 1 5);
  Peer 4 16 Leader (AppendLost 1);
  Peer 4 16 Leader (AppendLost 2);
  Peer 4 16 Leader (AppendLost 3);
  Peer 2 28 Leader (AppendLost 0);
  Peer 2 28 Leader (AppendLost 4);
  Peer 2 28 Leader (AppendLost 1);
  Peer 4 16 Leader (AppendLost 0);
  Peer 2 28 Leader (AppendLost 3);
  Peer 4 16 Leader StartHeartBeat;
  Peer 4 16 Leader (AppendTo 0);
  Peer 4 16 Leader (AppendTo 1);
  Peer 2 28 Leader StartHeartBeat;
  Peer 2 28 Leader (AppendTo 0);
  Peer 4 16 Leader (AppendTo 2);
  Peer 2 28 Leader (AppendTo 1);
  Peer 4 16 Leader (AppendTo 3);
  Peer 2 28 Leader (AppendTo 3);
  Peer 2 28 Leader (AppendTo 4);
  Peer 4 16 Leader (SendAppend 2 [100; 123; 123; 100; 100]);
  Peer 2 28 Leader (SendAppend 4 [123; 123; 123; 1; 123])].

(** Lines 5556 to 5705. *)
Definition run_38 : list Line := [
  Peer 2 28 Leader (SendAppend 0 [123; 123; 123; 1; 123]);
  Peer 4 16 Leader (SendAppend 0 [100; 123; 123; 100; 100]);
  Peer 2 28 Leader (SendAppend 1 [123; 123; 123; 1; 123]);
  Peer 2 28 Leader (SendAppend 3 [123; 123; 123; 1; 123]);
  Peer 4 16 Leader (SendAppend 1 [100; 123; 123; 100; 100]);
  Peer 4 16 Leader (SendAppend 3 [100; 123; 123; 100; 100]);
  Peer 2 28 Leader (AppendLost 4);
  Peer 4 16 Leader (AppendLost 1);
  Peer 2 28 Leader (AppendLost 3);
  Peer 2 28 Leader (AppendLost 1);
  Peer 4 16 Leader (AppendLost 3);
  Peer 4 16 Leader (AppendLost 2);
  Peer 4 16 Leader (AppendLost 0);
  Peer 2 28 Leader StartHeartBeat;
  Peer 3 35 Follower StartElection;
  Peer 4 16 Leader StartHeartBeat;
  Peer 4 16 Leader (AppendTo 0);
  Peer 4 16 Leader (AppendTo 1);
  Peer 0 35 Candidate StartElection;
  Peer 2 28 Leader (AppendTo 0);
  Peer 2 28 Leader (AppendTo 1);
  Peer 2 28 Leader (AppendTo 3);
  Peer 4 16 Leader (AppendTo 2);
  Peer 4 16 Leader (AppendTo 3);
  Peer 2 28 Leader (AppendTo 4);
  Peer 2 28 Leader (AppendLost 0);
  Peer 2 28 Leader (SendAppend 3 [123; 123; 123; 1; 123]);
  Peer 2 28 Leader (SendAppend 4 [123; 123; 123; 1; 123]);
  Peer 3 36 Candidate BecomeCandidate;
  Peer 3 36 Candidate (RequestVoteTo 0);
  Peer 3 36 Candidate (RequestVoteTo 1);
  Peer 3 36 Candidate (RequestVoteTo 2);
  Peer 3 36 Candidate (RequestVoteTo 4);
  Peer 0 36 Candidate BecomeCandidate;
  Peer 0 36 Candidate (RequestVoteTo 1);
  Peer 0 36 Candidate (RequestVoteTo 2);
  Peer 0 36 Candidate (RequestVoteTo 3);
  Peer 0 36 Candidate (RequestVoteTo 4);
  Peer 4 16 Leader (SendAppend 1 [100; 123; 123; 100; 100]);
  Peer 2 28 Leader (SendAppend 0 [123; 123; 123; 1; 123]);
  Peer 4 16 Leader (SendAppend 0 [100; 123; 123; 100; 100]);
  Peer 2 28 Leader (SendAppend 1 [123; 123; 123; 1; 123]);
  Peer 4 16 Leader (SendAppend 2 [100; 123; 123; 100; 100]);
  Peer 4 16 Leader (SendAppend 3 [100; 123; 123; 100; 100]);
  Peer 2 28 Leader (AppendLost 0);
  Peer 0 36 Candidate (RequestVoteLost 2);
  Peer 0 36 Candidate (RequestVoteLost 4);
  Peer 3 36 Candidate (ReceiveRequestVote 3 0 36);
  Peer 3 36 Candidate (VoteArgs 36 133 14 123 124);
  Peer 3 36 Candidate (HandlerCommit 1 1);
  Peer 1 35 Follower (ReceiveRequestVote 0 0 36);
  Peer 3 36 Candidate (CompareLogs 14 9 123 133);
  Peer 1 35 Follower (VoteArgs 36 133 28 123 124);
  Peer 1 35 Follower (HandlerCommit 2 2);
  Peer 3 36 Candidate SelfLogNewer;
  Peer 1 35 Follower (SelfTermLower 0);
  Peer 0 36 Candidate (RequestVoteLost 3);
  Peer 1 36 Follower (CompareLogs 28 9 123 133);
  Peer 1 36 Follower SelfLogNewer;
  Peer 0 36 Candidate (ReceiveRequestVote 0 3 36);
  Peer 0 36 Candidate (VoteArgs 36 123 9 133 134);
  Peer 0 36 Candidate (HandlerCommit 1 1);
  Peer 0 36 Candidate (CompareLogs 9 14 133 123);
  Peer 0 36 Candidate Refused;
  Peer 3 36 Candidate (RequestVoteLost 2);
  Peer 1 36 Follower (ReceiveRequestVote 0 3 36);
  Peer 1 36 Follower (VoteArgs 36 123 28 123 124);
  Peer 1 36 Follower (HandlerCommit 2 2);
  Peer 1 36 Follower (CompareLogs 28 14 123 123);
  Peer 1 36 Follower SelfLogNewer;
  Peer 4 16 Leader (AppendLost 0);
  Peer 4 16 Leader (AppendLost 1);
  Peer 3 36 Candidate (RequestVoteLost 4);
  Peer 2 28 Leader (AppendLost 3);
  Peer 4 16 Leader (AppendLost 3);
  Peer 4 16 Leader (AppendLost 2);
  Peer 2 28 Leader (AppendLost 1);
  Peer 2 28 Leader (AppendLost 4);
  Peer 2 28 Leader StartHeartBeat;
  Peer 2 28 Leader (AppendTo 0);
  Peer 2 28 Leader (AppendTo 1);
  Peer 2 28 Leader (AppendTo 3);
  Peer 4 16 Leader StartHeartBeat;
  Peer 4 16 Leader (AppendTo 0);
  Peer 4 16 Leader (AppendTo 1);
  Peer 4 16 Leader (AppendTo 2);
  Peer 2 28 Leader (AppendTo 4);
  Peer 4 16 Leader (AppendTo 3);
  Peer 2 28 Leader (SendAppend 3 [123; 123; 123; 1; 123]);
  Peer 4 16 Leader (SendAppend 2 [100; 123; 123; 100; 100]);
  Peer 2 28 Leader (SendAppend 0 [123; 123; 123; 1; 123]);
  Peer 4 16 Leader (SendAppend 0 [100; 123; 123; 100; 100]);
  Peer 2 28 Leader (SendAppend 1 [123; 123; 123; 1; 123]);
  Peer 2 28 Leader (SendAppend 4 [123; 123; 123; 1; 123]);
  Peer 4 16 Leader (SendAppend 1 [100; 123; 123; 100; 100]);
  Peer 4 16 Leader (SendAppend 3 [100; 123; 123; 100; 100]);
  Peer 2 28 Leader (AppendLost 3);
  Peer 4 16 Leader (AppendLost 3);
  Peer 2 28 Leader (AppendLost 0);
  Peer 2 28 Leader (AppendLost 1);
  Peer 4 16 Leader (AppendLost 1);
  Peer 4 16 Leader (AppendLost 2);
  Peer 4 16 Leader (AppendLost 0);
  Peer 2 28 Leader (AppendLost 4);
  Peer 4 16 Leader StartHeartBeat;
  Peer 4 16 Leader (AppendTo 0);
  Peer 2 28 Leader StartHeartBeat;
  Peer 4 16 Leader (AppendTo 1);
  Peer 2 28 Leader (AppendTo 0);
  Peer 2 28 Leader (AppendTo 1);
  Peer 2 28 Leader (AppendTo 3);
  Peer 4 16 Leader (AppendTo 2);
  Peer 4 16 Leader (AppendTo 3);
  Peer 2 28 Leader (AppendTo 4);
  Peer 4 16 Leader (SendAppend 0 [100; 123; 123; 100; 100]);
  Peer 2 28 Leader (SendAppend 3 [123; 123; 123; 1; 123]);
  Peer 2 28 Leader (SendAppend 0 [123; 123; 123; 1; 123]);
  Peer 4 16 Leader (SendAppend 1 [100; 123; 123; 100; 100]);
  Peer 2 28 Leader (SendAppend 1 [123; 123; 123; 1; 123]);
  Peer 2 28 Leader (SendAppend 4 [123; 123; 123; 1; 123]);
  Peer 4 16 Leader (SendAppend 2 [100; 123; 123; 100; 100]);
  Peer 4 16 Leader (SendAppend 3 [100; 123; 123; 100; 100]);
  Peer 4 16 Leader (AppendLost 3);
  Peer 4 16 Leader (AppendLost 2);
  Peer 4 16 Leader (AppendLost 0);
  Peer 2 28 Leader (AppendLost 4);
  Peer 4 16 Leader (AppendLost 1);
  Peer 2 28 Leader (AppendLost 1);
  Peer 3 36 Candidate (VoteReply 0 36 false);
  Peer 3 36 Candidate (SenderCommit 1 1);
  Peer 3 36 Candidate (CheckElection 1 5);
  Peer 2 28 Leader (AppendLost 0);
  Peer 2 28 Leader StartHeartBeat;
  Peer 2 28 Leader (AppendTo 0);
  Peer 2 28 Leader (AppendTo 1);
  Peer 2 28 Leader (AppendTo 3);
  Peer 2 28 Leader (AppendTo 4);
  Peer 2 28 Leader (SendAppend 4 [123; 123; 123; 1; 123]);
  Peer 4 16 Leader StartHeartBeat;
  Peer 4 16 Leader (AppendTo 0);
  Peer 4 16 Leader (AppendTo 1);
  Peer 4 16 Leader (AppendTo 2);
  Peer 4 16 Leader (AppendTo 3);
  Peer 2 28 Leader (AppendLost 3);
  Peer 4 16 Leader (SendAppend 3 [100; 123; 123; 100; 100]);
  Peer 2 28 Leader (SendAppend 1 [123; 123; 123; 1; 123]);
  Peer 2 28 Leader (SendAppend 3 [123; 123; 123; 1; 123]);
  Peer 2 28 Leader (SendAppend 0 [123; 123; 123; 1; 123]);
  Peer 4 16 Leader (SendAppend 0 [100; 123; 123; 100; 100]);
  Peer 4 16 Leader (SendAppend 1 [100; 123; 123; 100; 100])].

(** Lines 5706 to 5855. *)
Definition run_39 : list Line := [
  Peer 4 16 Leader (SendAppend 2 [100; 123; 123; 100; 100]);
  Peer 2 28 Leader (AppendLost 4);
  Peer 2 28 Leader (AppendLost 1);
  Peer 4 16 Leader (AppendLost 3);
  Peer 2 28 Leader (AppendLost 3);
  Peer 4 16 Leader (AppendLost 2);
  Peer 4 16 Leader (AppendLost 0);
  Peer 4 16 Leader (AppendLost 1);
  Peer 2 28 Leader (AppendLost 0);
  Peer 2 28 Leader StartHeartBeat;
  Peer 2 28 Leader (AppendTo 0);
  Peer 2 28 Leader (AppendTo 1);
  Peer 2 28 Leader (AppendTo 3);
  Peer 2 28 Leader (AppendTo 4);
  Peer 2 28 Leader (SendAppend 4 [123; 123; 123; 1; 123]);
  Peer 4 16 Leader StartHeartBeat;
  Peer 4 16 Leader (AppendTo 0);
  Peer 4 16 Leader (AppendTo 1);
  Peer 4 16 Leader (AppendTo 2);
  Peer 4 16 Leader (AppendTo 3);
  Peer 4 16 Leader (SendAppend 1 [100; 123; 123; 100; 100]);
  Peer 4 16 Leader (SendAppend 0 [100; 123; 123; 100; 100]);
  Peer 2 28 Leader (SendAppend 0 [123; 123; 123; 1; 123]);
  Peer 2 28 Leader (SendAppend 1 [123; 123; 123; 1; 123]);
  Peer 2 28 Leader (SendAppend 3 [123; 123; 123; 1; 123]);
  Peer 4 16 Leader (SendAppend 2 [100; 123; 123; 100; 100]);
  Peer 4 16 Leader (SendAppend 3 [100; 123; 123; 100; 100]);
  Peer 2 28 Leader (AppendLost 1);
  Peer 4 16 Leader (AppendLost 0);
  Peer 4 16 Leader (AppendLost 1);
  Peer 4 16 Leader (AppendLost 3);
  Peer 2 28 Leader (AppendLost 0);
  Peer 4 16 Leader StartHeartBeat;
  Peer 4 16 Leader (AppendTo 0);
  Peer 4 16 Leader (AppendTo 1);
  Peer 4 16 Leader (AppendTo 2);
  Peer 4 16 Leader (AppendTo 3);
  Peer 4 16 Leader (SendAppend 0 [100; 123; 123; 100; 100]);
  Peer 4 16 Leader (AppendLost 2);
  Peer 4 16 Leader (SendAppend 1 [100; 123; 123; 100; 100]);
  Peer 4 16 Leader (SendAppend 2 [100; 123; 123; 100; 100]);
  Peer 2 28 Leader StartHeartBeat;
  Peer 2 28 Leader (AppendTo 0);
  Peer 2 28 Leader (AppendTo 1);
  Peer 2 28 Leader (AppendTo 3);
  Peer 2 28 Leader (AppendTo 4);
  Peer 2 28 Leader (AppendLost 4);
  Peer 2 28 Leader (AppendLost 3);
  Peer 2 28 Leader (SendAppend 3 [123; 123; 123; 1; 123]);
  Peer 2 28 Leader (SendAppend 1 [123; 123; 123; 1; 123]);
  Peer 4 16 Leader (SendAppend 3 [100; 123; 123; 100; 100]);
  Peer 2 28 Leader (SendAppend 0 [123; 123; 123; 1; 123]);
  Peer 2 28 Leader (SendAppend 4 [123; 123; 123; 1; 123]);
  Peer 4 16 Leader (AppendLost 0);
  Peer 4 16 Leader (AppendLost 3);
  Peer 2 28 Leader (AppendLost 1);
  Peer 2 28 Leader (AppendLost 4);
  Peer 2 28 Leader (AppendLost 0);
  Peer 2 28 Leader (AppendLost 3);
  Peer 4 16 Leader (AppendLost 2);
  Peer 4 16 Leader StartHeartBeat;
  Peer 4 16 Leader (AppendTo 0);
  Peer 4 16 Leader (AppendTo 1);
  Peer 4 16 Leader (AppendTo 2);
  Peer 4 16 Leader (AppendTo 3);
  Peer 3 36 Candidate StartElection;
  Peer 4 16 Leader (SendAppend 3 [100; 123; 123; 100; 100]);
  Peer 4 16 Leader (AppendLost 1);
  Peer 4 16 Leader (SendAppend 0 [100; 123; 123; 100; 100]);
  Peer 3 37 Candidate BecomeCandidate;
  Peer 3 37 Candidate (RequestVoteTo 0);
  Peer 3 37 Candidate (RequestVoteTo 1);
  Peer 3 37 Candidate (RequestVoteTo 2);
  Peer 2 28 Leader StartHeartBeat;
  Peer 2 28 Leader (AppendTo 0);
  Peer 3 37 Candidate (RequestVoteTo 4);
  Peer 2 28 Leader (AppendTo 1);
  Peer 2 28 Leader (AppendTo 3);
  Peer 2 28 Leader (AppendTo 4);
  Peer 2 28 Leader (SendAppend 0 [123; 123; 123; 1; 123]);
  Peer 2 28 Leader (SendAppend 3 [123; 123; 123; 1; 123]);
  Peer 2 28 Leader (SendAppend 4 [123; 123; 123; 1; 123]);
  Peer 2 28 Leader (SendAppend 1 [123; 123; 123; 1; 123]);
  Peer 4 16 Leader (SendAppend 1 [100; 123; 123; 100; 100]);
  Peer 4 16 Leader (SendAppend 2 [100; 123; 123; 100; 100]);
  Peer 3 37 Candidate (RequestVoteLost 2);
  Peer 4 16 Leader (AppendLost 0);
  Peer 1 36 Follower (ReceiveRequestVote 0 3 37);
  Peer 1 36 Follower (VoteArgs 37 123 28 123 124);
  Peer 1 36 Follower (HandlerCommit 2 2);
  Peer 1 36 Follower (SelfTermLower 3);
  Peer 1 37 Follower (CompareLogs 28 14 123 123);
  Peer 1 37 Follower SelfLogNewer;
  Peer 2 28 Leader (AppendLost 1);
  Peer 3 37 Candidate (RequestVoteLost 1);
  Peer 4 16 Leader (AppendLost 2);
  Peer 4 16 Leader (AppendLost 1);
  Peer 0 36 Candidate (ReceiveRequestVote 0 3 37);
  Peer 0 36 Candidate (VoteArgs 37 123 9 133 134);
  Peer 0 36 Candidate (HandlerCommit 1 1);
  Peer 0 36 Candidate (SelfTermLower 3);
  Peer 0 37 Follower (CompareLogs 9 14 133 123);
  Peer 0 37 Follower (Granted 37 123 9 133 134);
  Peer 0 37 Follower (HandlerCommit 1 1);
  Peer 2 28 Leader (AppendLost 3);
  Peer 3 37 Candidate (RequestVoteLost 4);
  Peer 2 28 Leader (AppendLost 0);
  Peer 2 28 Leader (AppendLost 4);
  Peer 4 16 Leader StartHeartBeat;
  Peer 2 28 Leader StartHeartBeat;
  Peer 2 28 Leader (AppendTo 0);
  Peer 4 16 Leader (AppendTo 0);
  Peer 4 16 Leader (AppendTo 1);
  Peer 2 28 Leader (AppendTo 1);
  Peer 2 28 Leader (AppendTo 3);
  Peer 2 28 Leader (AppendTo 4);
  Peer 4 16 Leader (AppendTo 2);
  Peer 2 28 Leader (SendAppend 1 [123; 123; 123; 1; 123]);
  Peer 4 16 Leader (AppendTo 3);
  Peer 4 16 Leader (AppendLost 3);
  Peer 2 28 Leader (SendAppend 0 [123; 123; 123; 1; 123]);
  Peer 4 16 Leader (SendAppend 1 [100; 123; 123; 100; 100]);
  Peer 2 28 Leader (SendAppend 4 [123; 123; 123; 1; 123]);
  Peer 4 16 Leader (SendAppend 0 [100; 123; 123; 100; 100]);
  Peer 4 16 Leader (SendAppend 2 [100; 123; 123; 100; 100]);
  Peer 2 28 Leader (SendAppend 3 [123; 123; 123; 1; 123]);
  Peer 4 16 Leader (SendAppend 3 [100; 123; 123; 100; 100]);
  Peer 4 16 Leader (AppendLost 3);
  Peer 4 16 Leader (AppendLost 0);
  Peer 2 28 Leader (AppendLost 3);
  Peer 4 16 Leader (AppendLost 2);
  Peer 2 28 Leader (AppendLost 4);
  Peer 2 28 Leader (AppendLost 0);
  Peer 4 16 Leader (AppendLost 1);
  Peer 2 28 Leader (AppendLost 1);
  Peer 2 28 Leader StartHeartBeat;
  Peer 2 28 Leader (AppendTo 0);
  Peer 4 16 Leader StartHeartBeat;
  Peer 4 16 Leader (AppendTo 0);
  Peer 2 28 Leader (AppendTo 1);
  Peer 2 28 Leader (AppendTo 3);
  Peer 4 16 Leader (AppendTo 1);
  Peer 4 16 Leader (AppendTo 2);
  Peer 4 16 Leader (AppendTo 3);
  Peer 2 28 Leader (AppendTo 4);
  Peer 4 16 Leader (SendAppend 3 [100; 123; 123; 100; 100]);
  Peer 2 28 Leader (SendAppend 0 [123; 123; 123; 1; 123]);
  Peer 4 16 Leader (SendAppend 1 [100; 123; 123; 100; 100]);
  Peer 2 28 Leader (SendAppend 3 [123; 123; 123; 1; 123]);
  Peer 2 28 Leader (SendAppend 1 [123; 123; 123; 1; 123])].

(** Lines 5856 to 6005. *)
Definition run_40 : list Line := [
  Peer 4 16 Leader (SendAppend 2 [100; 123; 123; 100; 100]);
  Peer 2 28 Leader (AppendLost 3);
  Peer 4 16 Leader (SendAppend 0 [100; 123; 123; 100; 100]);
  Peer 2 28 Leader (SendAppend 4 [123; 123; 123; 1; 123]);
  Peer 2 28 Leader (AppendLost 4);
  Peer 4 16 Leader (AppendLost 1);
  Peer 4 16 Leader (AppendLost 3);
  Peer 2 28 Leader (AppendLost 0);
  Peer 4 16 Leader (AppendLost 0);
  Peer 2 28 Leader (AppendLost 1);
  Peer 2 28 Leader StartHeartBeat;
  Peer 2 28 Leader (AppendTo 0);
  Peer 2 28 Leader (AppendTo 1);
  Peer 2 28 Leader (AppendTo 3);
  Peer 4 16 Leader StartHeartBeat;
  Peer 4 16 Leader (AppendTo 0);
  Peer 2 28 Leader (AppendTo 4);
  Peer 4 16 Leader (AppendTo 1);
  Peer 4 16 Leader (AppendTo 2);
  Peer 4 16 Leader (AppendTo 3);
  Peer 2 28 Leader (SendAppend 3 [123; 123; 123; 1; 123]);
  Peer 4 16 Leader (SendAppend 1 [100; 123; 123; 100; 100]);
  Peer 4 16 Leader (AppendLost 2);
  Peer 4 16 Leader (SendAppend 3 [100; 123; 123; 100; 100]);
  Peer 2 28 Leader (SendAppend 1 [123; 123; 123; 1; 123]);
  Peer 2 28 Leader (SendAppend 0 [123; 123; 123; 1; 123]);
  Peer 2 28 Leader (SendAppend 4 [123; 123; 123; 1; 123]);
  Peer 4 16 Leader (SendAppend 0 [100; 123; 123; 100; 100]);
  Peer 4 16 Leader (SendAppend 2 [100; 123; 123; 100; 100]);
  Peer 4 16 Leader (AppendLost 0);
  Peer 2 28 Leader (AppendLost 1);
  Peer 2 28 Leader (AppendLost 4);
  Peer 4 16 Leader (AppendLost 2);
  Peer 0 37 Follower (VoteReply 1 36 false);
  Peer 0 37 Follower (SenderCommit 1 1);
  Peer 0 37 Follower (CheckElection 0 5);
  Peer 0 37 Follower NotCandidate;
  Peer 2 28 Leader (AppendLost 0);
  Peer 4 16 Leader (AppendLost 1);
  Peer 4 16 Leader (AppendLost 3);
  Peer 2 28 Leader StartHeartBeat;
  Peer 2 28 Leader (AppendTo 0);
  Peer 2 28 Leader (AppendTo 1);
  Peer 4 16 Leader StartHeartBeat;
  Peer 4 16 Leader (AppendTo 0);
  Peer 2 28 Leader (AppendTo 3);
  Peer 2 28 Leader (AppendTo 4);
  Peer 2 28 Leader (AppendLost 3);
  Peer 4 16 Leader (AppendTo 1);
  Peer 4 16 Leader (AppendTo 2);
  Peer 4 16 Leader (AppendTo 3);
  Peer 4 16 Leader (SendAppend 1 [100; 123; 123; 100; 100]);
  Peer 2 28 Leader (SendAppend 3 [123; 123; 123; 1; 123]);
  Peer 2 28 Leader (SendAppend 1 [123; 123; 123; 1; 123]);
  Peer 4 16 Leader (SendAppend 0 [100; 123; 123; 100; 100]);
  Peer 2 28 Leader (SendAppend 0 [123; 123; 123; 1; 123]);
  Peer 2 28 Leader (SendAppend 4 [123; 123; 123; 1; 123]);
  Peer 4 16 Leader (SendAppend 3 [100; 123; 123; 100; 100]);
  Peer 4 16 Leader (SendAppend 2 [100; 123; 123; 100; 100]);
  Peer 4 16 Leader (AppendLost 3);
  Peer 2 28 Leader (AppendLost 4);
  Peer 2 28 Leader (AppendLost 3);
  Peer 2 28 Leader (AppendLost 1);
  Peer 2 28 Leader (AppendLost 0);
  Peer 4 16 Leader (AppendLost 1);
  Peer 4 16 Leader (AppendLost 0);
  Peer 2 28 Leader StartHeartBeat;
  Peer 2 28 Leader (AppendTo 0);
  Peer 4 16 Leader StartHeartBeat;
  Peer 4 16 Leader (AppendTo 0);
  Peer 2 28 Leader (AppendTo 1);
  Peer 4 16 Leader (AppendTo 1);
  Peer 4 16 Leader (AppendTo 2);
  Peer 2 28 Leader (AppendTo 3);
  Peer 4 16 Leader (AppendTo 3);
  Peer 2 28 Leader (AppendTo 4);
  Peer 2 28 Leader (SendAppend 0 [123; 123; 123; 1; 123]);
  Peer 4 16 Leader (SendAppend 0 [100; 123; 123; 100; 100]);
  Peer 2 28 Leader (SendAppend 3 [123; 123; 123; 1; 123]);
  Peer 2 28 Leader (SendAppend 4 [123; 123; 123; 1; 123]);
  Peer 2 28 Leader (SendAppend 1 [123; 123; 123; 1; 123]);
  Peer 4 16 Leader (AppendLost 2);
  Peer 4 16 Leader (SendAppend 1 [100; 123; 123; 100; 100]);
  Peer 4 16 Leader (SendAppend 2 [100; 123; 123; 100; 100]);
  Peer 4 16 Leader (SendAppend 3 [100; 123; 123; 100; 100]);
  Peer 4 16 Leader (AppendLost 2);
  Peer 2 28 Leader (AppendLost 3);
  Peer 2 28 Leader (AppendLost 4);
  Peer 4 16 Leader (AppendLost 0);
  Peer 2 28 Leader (AppendLost 0);
  Peer 4 16 Leader (AppendLost 3);
  Peer 4 16 Leader (AppendLost 1);
  Peer 2 28 Leader (AppendLost 1);
  Peer 2 28 Leader StartHeartBeat;
  Peer 4 16 Leader StartHeartBeat;
  Peer 4 16 Leader (AppendTo 0);
  Peer 2 28 Leader (AppendTo 0);
  Peer 4 16 Leader (AppendTo 1);
  Peer 4 16 Leader (AppendTo 2);
  Peer 4 16 Leader (AppendTo 3);
  Peer 2 28 Leader (AppendTo 1);
  Peer 2 28 Leader (AppendTo 3);
  Peer 1 37 Follower StartElection;
  Peer 4 16 Leader (SendAppend 3 [100; 123; 123; 100; 100]);
  Peer 2 28 Leader (AppendTo 4);
  Peer 4 16 Leader (SendAppend 2 [100; 123; 123; 100; 100]);
  Peer 2 28 Leader (SendAppend 0 [123; 123; 123; 1; 123]);
  Peer 1 38 Candidate BecomeCandidate;
  Peer 1 38 Candidate (RequestVoteTo 0);
  Peer 1 38 Candidate (RequestVoteTo 2);
  Peer 1 38 Candidate (RequestVoteTo 3);
  Peer 1 38 Candidate (RequestVoteTo 4);
  Peer 2 28 Leader (SendAppend 4 [123; 123; 123; 1; 123]);
  Peer 4 16 Leader (SendAppend 0 [100; 123; 123; 100; 100]);
  Peer 2 28 Leader (SendAppend 3 [123; 123; 123; 1; 123]);
  Peer 4 16 Leader (SendAppend 1 [100; 123; 123; 100; 100]);
  Peer 2 28 Leader (SendAppend 1 [123; 123; 123; 1; 123]);
  Peer 4 16 Leader (AppendLost 0);
  Peer 4 16 Leader (AppendLost 2);
  Peer 4 16 Leader (AppendLost 3);
  Peer 0 37 Follower (ReceiveRequestVote 3 1 38);
  Peer 0 37 Follower (VoteArgs 38 123 9 133 134);
  Peer 0 37 Follower (HandlerCommit 1 1);
  Peer 0 37 Follower (SelfTermLower 1);
  Peer 0 38 Follower (CompareLogs 9 28 133 123);
  Peer 0 38 Follower (Granted 38 123 9 133 134);
  Peer 0 38 Follower (HandlerCommit 1 1);
  Peer 1 38 Candidate (VoteReply 0 38 true);
  Peer 1 38 Candidate (SenderCommit 2 2);
  Peer 1 38 Candidate (VoteGained 0);
  Peer 1 38 Candidate (CheckElection 2 5);
  Peer 3 37 Candidate (VoteReply 0 37 true);
  Peer 3 37 Candidate (SenderCommit 1 1);
  Peer 3 37 Candidate (VoteGained 0);
  Peer 3 37 Candidate (CheckElection 2 5);
  Peer 3 37 Candidate (ReceiveRequestVote 3 1 38);
  Peer 3 37 Candidate (VoteArgs 38 123 14 123 124);
  Peer 3 37 Candidate (HandlerCommit 1 1);
  Peer 3 37 Candidate (SelfTermLower 1);
  Peer 3 38 Follower (CompareLogs 14 28 123 123);
  Peer 3 38 Follower (Granted 38 123 14 123 124);
  Peer 3 38 Follower (HandlerCommit 1 1);
  Peer 1 38 Candidate (VoteReply 3 38 true);
  Peer 1 38 Candidate (SenderCommit 2 2);
  Peer 1 38 Candidate (VoteGained 3);
  Peer 1 38 Candidate (CheckElection 3 5);
  Peer 1 39 Leader BecomesLeader;
  Peer 1 39 Leader StartHeartBeat;
  Peer 1 39 Leader (AppendTo 0);
  Peer 1 39 Leader (AppendTo 2)].

(** Lines 6006 to 6155. *)
Definition run_41 : list Line := [
  Peer 1 39 Leader (AppendTo 3);
  Peer 1 39 Leader (AppendTo 4);
  Peer 1 39 Leader (SendAppend 4 [124; 124; 124; 124; 124]);
  Peer 1 39 Leader (SendAppend 0 [124; 124; 124; 124; 124]);
  Peer 1 39 Leader (SendAppend 2 [124; 124; 124; 124; 124]);
  Peer 1 39 Leader (SendAppend 3 [124; 124; 124; 124; 124]);
  Peer 3 38 Follower (VoteReply 1 36 false);
  Peer 3 38 Follower (SenderCommit 1 1);
  Peer 3 38 Follower (CheckElection 0 5);
  Peer 3 38 Follower NotCandidate;
  Peer 1 39 Leader (RequestVoteLost 4);
  Peer 2 28 Leader (AppendLost 1);
  Peer 1 39 Leader (AppendLost 4);
  Peer 3 38 Follower (AppendFrom 1 39);
  Peer 0 38 Follower (AppendFrom 1 39);
  Peer 3 39 Follower (AppendMismatch 28 123);
  Peer 1 39 Leader (AppendLost 3);
  Peer 0 39 Follower (AppendMismatch 28 123);
  Peer 1 39 Leader (AppendLost 0);
  Peer 2 28 Leader (AppendLost 4);
  Peer 2 28 Leader (AppendLost 0);
  Peer 1 39 Leader (AppendLost 2);
  Peer 1 39 Leader (RequestVoteLost 2);
  Peer 4 16 Leader (AppendLost 1);
  Peer 2 28 Leader (AppendLost 3);
  Peer 4 16 Leader StartHeartBeat;
  Peer 1 39 Leader StartHeartBeat;
  Peer 1 39 Leader (AppendTo 0);
  Peer 4 16 Leader (AppendTo 0);
  Peer 2 28 Leader StartHeartBeat;
  Peer 2 28 Leader (AppendTo 0);
  Peer 2 28 Leader (AppendTo 1);
  Peer 4 16 Leader (AppendTo 1);
  Peer 1 39 Leader (AppendTo 2);
  Peer 4 16 Leader (AppendTo 2);
  Peer 4 16 Leader (AppendTo 3);
  Peer 2 28 Leader (AppendTo 3);
  Peer 2 28 Leader (AppendTo 4);
  Peer 1 39 Leader (AppendTo 3);
  Peer 2 28 Leader (SendAppend 1 [123; 123; 123; 1; 123]);
  Peer 1 39 Leader (AppendTo 4);
  Peer 1 39 Leader (SendAppend 0 [124; 124; 124; 124; 124]);
  Peer 2 28 Leader (SendAppend 3 [123; 123; 123; 1; 123]);
  Peer 4 16 Leader (SendAppend 3 [100; 123; 123; 100; 100]);
  Peer 1 39 Leader (SendAppend 2 [124; 124; 124; 124; 124]);
  Peer 4 16 Leader (SendAppend 0 [100; 123; 123; 100; 100]);
  Peer 2 28 Leader (SendAppend 0 [123; 123; 123; 1; 123]);
  Peer 1 39 Leader (SendAppend 3 [124; 124; 124; 124; 124]);
  Peer 1 39 Leader (SendAppend 4 [124; 124; 124; 124; 124]);
  Peer 4 16 Leader (SendAppend 1 [100; 123; 123; 100; 100]);
  Peer 2 28 Leader (SendAppend 4 [123; 123; 123; 1; 123]);
  Peer 4 16 Leader (SendAppend 2 [100; 123; 123; 100; 100]);
  Peer 1 39 Leader (AppendLost 3);
  Peer 4 16 Leader (AppendLost 2);
  Peer 2 28 Leader (AppendLost 4);
  Peer 4 16 Leader (AppendLost 3);
  Peer 2 28 Leader (AppendLost 3);
  Peer 2 28 Leader (AppendLost 1);
  Peer 4 16 Leader (AppendLost 0);
  Peer 1 39 Leader (AppendLost 0);
  Peer 1 39 Leader (AppendLost 4);
  Peer 1 39 Leader (AppendLost 2);
  Peer 2 28 Leader (AppendLost 0);
  Peer 4 16 Leader StartHeartBeat;
  Peer 4 16 Leader (AppendTo 0);
  Peer 4 16 Leader (AppendTo 1);
  Peer 4 16 Leader (AppendTo 2);
  Peer 4 16 Leader (AppendTo 3);
  Peer 2 28 Leader StartHeartBeat;
  Peer 2 28 Leader (AppendTo 0);
  Peer 1 39 Leader StartHeartBeat;
  Peer 1 39 Leader (AppendTo 0);
  Peer 1 39 Leader (AppendTo 2);
  Peer 1 39 Leader (AppendTo 3);
  Peer 4 16 Leader (AppendLost 1);
  Peer 2 28 Leader (AppendTo 1);
  Peer 2 28 Leader (AppendTo 3);
  Peer 2 28 Leader (AppendTo 4);
  Peer 1 39 Leader (AppendTo 4);
  Peer 4 16 Leader (SendAppend 0 [100; 123; 123; 100; 100]);
  Peer 2 28 Leader (SendAppend 0 [123; 123; 123; 1; 123]);
  Peer 1 39 Leader (SendAppend 3 [124; 124; 124; 124; 124]);
  Peer 4 16 Leader (SendAppend 1 [100; 123; 123; 100; 100]);
  Peer 1 39 Leader (SendAppend 0 [124; 124; 124; 124; 124]);
  Peer 1 39 Leader (SendAppend 2 [124; 124; 124; 124; 124]);
  Peer 1 39 Leader (SendAppend 4 [124; 124; 124; 124; 124]);
  Peer 2 28 Leader (SendAppend 1 [123; 123; 123; 1; 123]);
  Peer 4 16 Leader (SendAppend 2 [100; 123; 123; 100; 100]);
  Peer 2 28 Leader (SendAppend 3 [123; 123; 123; 1; 123]);
  Peer 4 16 Leader (SendAppend 3 [100; 123; 123; 100; 100]);
  Peer 2 28 Leader (SendAppend 4 [123; 123; 123; 1; 123]);
  Peer 1 39 Leader (AppendLost 3);
  Peer 2 28 Leader (AppendLost 1);
  Peer 2 28 Leader (AppendLost 0);
  Peer 1 39 Leader (AppendLost 4);
  Peer 2 28 Leader (AppendLost 3);
  Peer 1 39 Leader (AppendLost 0);
  Peer 4 16 Leader (AppendLost 3);
  Peer 4 16 Leader (AppendLost 0);
  Peer 1 39 Leader (AppendLost 2);
  Peer 4 16 Leader (AppendLost 1);
  Peer 2 28 Leader (AppendLost 4);
  Peer 1 39 Leader StartHeartBeat;
  Peer 2 28 Leader StartHeartBeat;
  Peer 2 28 Leader (AppendTo 0);
  Peer 4 16 Leader (AppendLost 2);
  Peer 2 28 Leader (AppendTo 1);
  Peer 1 39 Leader (AppendTo 0);
  Peer 4 16 Leader StartHeartBeat;
  Peer 2 28 Leader (AppendTo 3);
  Peer 4 16 Leader (AppendTo 0);
  Peer 4 16 Leader (AppendTo 1);
  Peer 4 16 Leader (AppendTo 2);
  Peer 1 39 Leader (AppendTo 2);
  Peer 1 39 Leader (AppendTo 3);
  Peer 2 28 Leader (AppendTo 4);
  Peer 4 16 Leader (AppendTo 3);
  Peer 1 39 Leader (AppendTo 4);
  Peer 2 28 Leader (SendAppend 4 [123; 123; 123; 1; 123]);
  Peer 4 16 Leader (SendAppend 2 [100; 123; 123; 100; 100]);
  Peer 2 28 Leader (SendAppend 1 [123; 123; 123; 1; 123]);
  Peer 4 16 Leader (SendAppend 0 [100; 123; 123; 100; 100]);
  Peer 4 16 Leader (SendAppend 1 [100; 123; 123; 100; 100]);
  Peer 1 39 Leader (SendAppend 0 [124; 124; 124; 124; 124]);
  Peer 1 39 Leader (SendAppend 3 [124; 124; 124; 124; 124]);
  Peer 2 28 Leader (SendAppend 0 [123; 123; 123; 1; 123]);
  Peer 1 39 Leader (SendAppend 2 [124; 124; 124; 124; 124]);
  Peer 2 28 Leader (SendAppend 3 [123; 123; 123; 1; 123]);
  Peer 1 39 Leader (SendAppend 4 [124; 124; 124; 124; 124]);
  Peer 4 16 Leader (AppendLost 2);
  Peer 4 16 Leader (SendAppend 3 [100; 123; 123; 100; 100]);
  Peer 1 39 Leader (AppendLost 2);
  Peer 4 16 Leader (AppendLost 3);
  Peer 2 28 Leader (AppendLost 0);
  Peer 1 39 Leader (AppendLost 0);
  Peer 4 16 Leader (AppendLost 0);
  Peer 2 28 Leader (AppendLost 1);
  Peer 1 39 Leader (AppendLost 4);
  Peer 1 39 Leader (AppendLost 3);
  Peer 2 28 Leader (AppendLost 4);
  Peer 2 28 Leader (AppendLost 3);
  Peer 4 16 Leader StartHeartBeat;
  Peer 4 16 Leader (AppendTo 0);
  Peer 1 39 Leader StartHeartBeat;
  Peer 4 16 Leader (AppendTo 1);
  Peer 1 39 Leader (AppendTo 0);
  Peer 1 39 Leader (AppendTo 2);
  Peer 2 28 Leader StartHeartBeat;
  Peer 4 16 Leader (AppendTo 2);
  Peer 2 28 Leader (AppendTo 0)].

(** Lines 6156 to 6305. *)
Definition run_42 : list Line := [
  Peer 2 28 Leader (AppendTo 1);
  Peer 2 28 Leader (AppendTo 3);
  Peer 2 28 Leader (AppendTo 4);
  Peer 4 16 Leader (AppendTo 3);
  Peer 2 28 Leader (SendAppend 4 [123; 123; 123; 1; 123]);
  Peer 1 39 Leader (AppendTo 3);
  Peer 2 28 Leader (SendAppend 3 [123; 123; 123; 1; 123]);
  Peer 1 39 Leader (AppendTo 4);
  Peer 4 16 Leader (SendAppend 0 [100; 123; 123; 100; 100]);
  Peer 1 39 Leader (SendAppend 0 [124; 124; 124; 124; 124]);
  Peer 1 39 Leader (SendAppend 3 [124; 124; 124; 124; 124]);
  Peer 1 39 Leader (SendAppend 4 [124; 124; 124; 124; 124]);
  Peer 1 39 Leader (SendAppend 2 [124; 124; 124; 124; 124]);
  Peer 4 16 Leader (AppendLost 1);
  Peer 4 16 Leader (SendAppend 1 [100; 123; 123; 100; 100]);
  Peer 2 28 Leader (SendAppend 1 [123; 123; 123; 1; 123]);
  Peer 4 16 Leader (SendAppend 2 [100; 123; 123; 100; 100]);
  Peer 4 16 Leader (SendAppend 3 [100; 123; 123; 100; 100]);
  Peer 2 28 Leader (SendAppend 0 [123; 123; 123; 1; 123]);
  Peer 3 39 Follower (AppendFrom 1 39);
  Peer 3 39 Follower (AppendMismatch 28 123);
  Peer 1 39 Leader (AppendLost 0);
  Peer 4 16 Leader (AppendLost 0);
  Peer 2 28 Leader (AppendLost 3);
  Peer 2 28 Leader (AppendLost 4);
  Peer 2 28 Leader (AppendLost 1);
  Peer 2 28 Leader (AppendLost 0);
  Peer 1 39 Leader (AppendLost 4);
  Peer 4 16 Leader (AppendLost 3);
  Peer 1 39 Leader (AppendLost 2);
  Peer 4 16 Leader (AppendLost 2);
  Peer 4 16 Leader (AppendLost 1);
  Peer 4 16 Leader StartHeartBeat;
  Peer 4 16 Leader (AppendTo 0);
  Peer 4 16 Leader (AppendTo 1);
  Peer 4 16 Leader (AppendTo 2);
  Peer 4 16 Leader (AppendTo 3);
  Peer 4 16 Leader (SendAppend 3 [100; 123; 123; 100; 100]);
  Peer 2 28 Leader StartHeartBeat;
  Peer 2 28 Leader (AppendTo 0);
  Peer 2 28 Leader (AppendTo 1);
  Peer 2 28 Leader (AppendTo 3);
  Peer 2 28 Leader (AppendTo 4);
  Peer 2 28 Leader (SendAppend 4 [123; 123; 123; 1; 123]);
  Peer 2 28 Leader (SendAppend 1 [123; 123; 123; 1; 123]);
  Peer 1 39 Leader StartHeartBeat;
  Peer 1 39 Leader (AppendTo 0);
  Peer 1 39 Leader (AppendTo 2);
  Peer 1 39 Leader (AppendTo 3);
  Peer 1 39 Leader (AppendTo 4);
  Peer 1 39 Leader (SendAppend 4 [124; 124; 124; 124; 124]);
  Peer 1 39 Leader (SendAppend 0 [124; 124; 124; 124; 124]);
  Peer 2 28 Leader (SendAppend 0 [123; 123; 123; 1; 123]);
  Peer 2 28 Leader (SendAppend 3 [123; 123; 123; 1; 123]);
  Peer 1 39 Leader (SendAppend 2 [124; 124; 124; 124; 124]);
  Peer 1 39 Leader (SendAppend 3 [124; 124; 124; 124; 124]);
  Peer 4 16 Leader (SendAppend 0 [100; 123; 123; 100; 100]);
  Peer 4 16 Leader (SendAppend 1 [100; 123; 123; 100; 100]);
  Peer 4 16 Leader (SendAppend 2 [100; 123; 123; 100; 100]);
  Peer 0 39 Follower (AppendFrom 1 39);
  Peer 0 39 Follower (AppendMismatch 28 123);
  Peer 1 39 Leader (AppendLost 4);
  Peer 2 28 Leader (AppendLost 3);
  Peer 2 28 Leader (AppendLost 4);
  Peer 3 39 Follower (AppendFrom 1 39);
  Peer 3 39 Follower (AppendMismatch 28 123);
  Peer 2 28 Leader (AppendLost 1);
  Peer 4 16 Leader (AppendLost 0);
  Peer 2 28 Leader (AppendLost 0);
  Peer 4 16 Leader (AppendLost 1);
  Peer 4 16 Leader (AppendLost 2);
  Peer 4 16 Leader StartHeartBeat;
  Peer 4 16 Leader (AppendTo 0);
  Peer 4 16 Leader (AppendTo 1);
  Peer 4 16 Leader (AppendTo 2);
  Peer 4 16 Leader (AppendTo 3);
  Peer 1 39 Leader StartHeartBeat;
  Peer 1 39 Leader (AppendTo 0);
  Peer 1 39 Leader (AppendTo 2);
  Peer 1 39 Leader (AppendTo 3);
  Peer 1 39 Leader (AppendTo 4);
  Peer 4 16 Leader (SendAppend 3 [100; 123; 123; 100; 100]);
  Peer 1 39 Leader (SendAppend 4 [124; 124; 124; 124; 124]);
  Peer 4 16 Leader (SendAppend 2 [100; 123; 123; 100; 100]);
  Peer 2 28 Leader StartHeartBeat;
  Peer 2 28 Leader (AppendTo 0);
  Peer 2 28 Leader (AppendTo 1);
  Peer 2 28 Leader (AppendTo 3);
  Peer 2 28 Leader (AppendTo 4);
  Peer 2 28 Leader (SendAppend 4 [123; 123; 123; 1; 123]);
  Peer 1 39 Leader (AppendLost 2);
  Peer 1 39 Leader (SendAppend 0 [124; 124; 124; 124; 124]);
  Peer 1 39 Leader (SendAppend 2 [124; 124; 124; 124; 124]);
  Peer 1 39 Leader (SendAppend 3 [124; 124; 124; 124; 124]);
  Peer 2 28 Leader (SendAppend 1 [123; 123; 123; 1; 123]);
  Peer 2 28 Leader (SendAppend 0 [123; 123; 123; 1; 123]);
  Peer 2 28 Leader (SendAppend 3 [123; 123; 123; 1; 123]);
  Peer 4 16 Leader (SendAppend 0 [100; 123; 123; 100; 100]);
  Peer 4 16 Leader (AppendLost 3);
  Peer 4 16 Leader (SendAppend 1 [100; 123; 123; 100; 100]);
  Peer 4 16 Leader (AppendLost 2);
  Peer 0 39 Follower (AppendFrom 1 39);
  Peer 3 39 Follower (AppendFrom 1 39);
  Peer 0 39 Follower (AppendMismatch 28 123);
  Peer 3 39 Follower (AppendMismatch 28 123);
  Peer 1 39 Leader (AppendLost 3);
  Peer 4 16 Leader (AppendLost 1);
  Peer 4 16 Leader (AppendLost 3);
  Peer 2 28 Leader (AppendLost 0);
  Peer 1 39 Leader (AppendLost 2);
  Peer 2 28 Leader (AppendLost 3);
  Peer 4 16 Leader (AppendLost 0);
  Peer 2 28 Leader (AppendLost 4);
  Peer 2 28 Leader (AppendLost 1);
  Peer 2 28 Leader StartHeartBeat;
  Peer 2 28 Leader (AppendTo 0);
  Peer 2 28 Leader (AppendTo 1);
  Peer 2 28 Leader (AppendTo 3);
  Peer 2 28 Leader (AppendTo 4);
  Peer 2 28 Leader (SendAppend 4 [123; 123; 123; 1; 123]);
  Peer 4 16 Leader StartHeartBeat;
  Peer 4 16 Leader (AppendTo 0);
  Peer 4 16 Leader (AppendTo 1);
  Peer 4 16 Leader (AppendTo 2);
  Peer 4 16 Leader (AppendTo 3);
  Peer 4 16 Leader (SendAppend 3 [100; 123; 123; 100; 100]);
  Peer 1 39 Leader StartHeartBeat;
  Peer 1 39 Leader (AppendTo 0);
  Peer 1 39 Leader (AppendTo 2);
  Peer 1 39 Leader (AppendTo 3);
  Peer 1 39 Leader (AppendTo 4);
  Peer 2 28 Leader (SendAppend 0 [123; 123; 123; 1; 123]);
  Peer 2 28 Leader (SendAppend 1 [123; 123; 123; 1; 123]);
  Peer 2 28 Leader (SendAppend 3 [123; 123; 123; 1; 123]);
  Peer 4 16 Leader (SendAppend 1 [100; 123; 123; 100; 100]);
  Peer 1 39 Leader (SendAppend 2 [124; 124; 124; 124; 124]);
  Peer 1 39 Leader (AppendLost 4);
  Peer 1 39 Leader (SendAppend 0 [124; 124; 124; 124; 124]);
  Peer 1 39 Leader (SendAppend 3 [124; 124; 124; 124; 124]);
  Peer 1 39 Leader (SendAppend 4 [124; 124; 124; 124; 124]);
  Peer 4 16 Leader (SendAppend 0 [100; 123; 123; 100; 100]);
  Peer 4 16 Leader (SendAppend 2 [100; 123; 123; 100; 100]);
  Peer 4 16 Leader (AppendLost 2);
  Peer 1 39 Leader (AppendLost 2);
  Peer 3 39 Follower (AppendFrom 1 39);
  Peer 3 39 Follower (AppendMismatch 28 123);
  Peer 1 39 Leader (AppendLost 3);
  Peer 0 39 Follower (AppendFrom 1 39);
  Peer 0 39 Follower (AppendMismatch 28 123);
  Peer 1 39 Leader (AppendLost 0)].

Definition run_part3 : list Line :=
  run_29 ++ run_30 ++ run_31 ++ run_32 ++ run_33 ++ run_34 ++ run_35 ++ run_36 ++ run_37
  ++ run_38 ++ run_39 ++ run_40 ++ run_41 ++ run_42.
