(* ===== verification/RecordedRun4.v ===== *)
(** * The recorded run, part 4 of 5

    Lines 6306 to 8405 of code/src/raft/2timesvote.ts in order, one event each
    (blank lines have none): terms 39 to 48, no leader elected. *)

From S2P Require Import Prelude Gob Persister RaftState RecordedRun.
Open Scope Z_scope.

(** Lines 6306 to 6455. *)
Definition run_43 : list Line := [
  Peer 1 39 Leader (AppendNotSuccess 3 123 28 124);
  Peer 4 16 Leader (AppendLost 3);
  Peer 1 39 Leader (AppendLost 4);
  Peer 1 39 Leader (AppendNotSuccess 0 123 28 124);
  Peer 4 16 Leader (AppendLost 0);
  Peer 4 16 Leader (AppendLost 1);
  Peer 2 28 Leader (AppendLost 3);
  Peer 2 28 Leader (AppendLost 0);
  Peer 2 28 Leader (AppendLost 4);
  Peer 2 28 Leader (AppendLost 1);
  Peer 2 28 Leader StartHeartBeat;
  Peer 2 28 Leader (AppendTo 0);
  Peer 2 28 Leader (AppendTo 1);
  Peer 2 28 Leader (AppendTo 3);
  Peer 4 16 Leader StartHeartBeat;
  Peer 2 28 Leader (AppendTo 4);
  Peer 4 16 Leader (AppendTo 0);
  Peer 4 16 Leader (AppendTo 1);
  Peer 2 28 Leader (SendAppend 3 [123; 123; 123; 1; 123]);
  Peer 4 16 Leader (AppendTo 2);
  Peer 4 16 Leader (AppendTo 3);
  Peer 4 16 Leader (SendAppend 1 [100; 123; 123; 100; 100]);
  Peer 2 28 Leader (SendAppend 0 [123; 123; 123; 1; 123]);
  Peer 1 39 Leader StartHeartBeat;
  Peer 1 39 Leader (AppendTo 0);
  Peer 1 39 Leader (AppendTo 2);
  Peer 1 39 Leader (AppendTo 3);
  Peer 1 39 Leader (AppendTo 4);
  Peer 1 39 Leader (SendAppend 4 [122; 124; 124; 122; 124]);
  Peer 1 39 Leader (SendAppend 0 [122; 124; 124; 122; 124]);
  Peer 2 28 Leader (SendAppend 1 [123; 123; 123; 1; 123]);
  Peer 1 39 Leader (SendAppend 2 [122; 124; 124; 122; 124]);
  Peer 1 39 Leader (SendAppend 3 [122; 124; 124; 122; 124]);
  Peer 4 16 Leader (SendAppend 2 [100; 123; 123; 100; 100]);
  Peer 2 28 Leader (SendAppend 4 [123; 123; 123; 1; 123]);
  Peer 4 16 Leader (SendAppend 3 [100; 123; 123; 100; 100]);
  Peer 4 16 Leader (SendAppend 0 [100; 123; 123; 100; 100]);
  Peer 4 16 Leader (AppendLost 0);
  Peer 4 16 Leader (AppendLost 3);
  Peer 3 39 Follower (AppendFrom 1 39);
  Peer 3 39 Follower (AppendMismatch 16 121);
  Peer 1 39 Leader (AppendLost 4);
  Peer 0 39 Follower (AppendFrom 1 39);
  Peer 0 39 Follower (AppendMismatch 16 121);
  Peer 1 39 Leader (AppendNotSuccess 0 121 16 122);
  Peer 2 28 Leader (AppendLost 0);
  Peer 2 28 Leader (AppendLost 1);
  Peer 2 28 Leader (AppendLost 3);
  Peer 4 16 Leader (AppendLost 2);
  Peer 4 16 Leader (AppendLost 1);
  Peer 2 28 Leader (AppendLost 4);
  Peer 4 16 Leader StartHeartBeat;
  Peer 4 16 Leader (AppendTo 0);
  Peer 4 16 Leader (AppendTo 1);
  Peer 4 16 Leader (AppendTo 2);
  Peer 4 16 Leader (AppendTo 3);
  Peer 4 16 Leader (SendAppend 3 [100; 123; 123; 100; 100]);
  Peer 2 28 Leader StartHeartBeat;
  Peer 2 28 Leader (AppendTo 0);
  Peer 2 28 Leader (AppendTo 1);
  Peer 2 28 Leader (AppendTo 3);
  Peer 2 28 Leader (AppendTo 4);
  Peer 2 28 Leader (SendAppend 4 [123; 123; 123; 1; 123]);
  Peer 2 28 Leader (SendAppend 0 [123; 123; 123; 1; 123]);
  Peer 4 16 Leader (SendAppend 1 [100; 123; 123; 100; 100]);
  Peer 1 39 Leader (AppendLost 2);
  Peer 1 39 Leader StartHeartBeat;
  Peer 1 39 Leader (AppendTo 0);
  Peer 1 39 Leader (AppendTo 2);
  Peer 1 39 Leader (AppendTo 3);
  Peer 1 39 Leader (AppendTo 4);
  Peer 1 39 Leader (SendAppend 4 [99; 124; 124; 122; 124]);
  Peer 1 39 Leader (SendAppend 0 [99; 124; 124; 122; 124]);
  Peer 1 39 Leader (SendAppend 2 [99; 124; 124; 122; 124]);
  Peer 1 39 Leader (SendAppend 3 [99; 124; 124; 122; 124]);
  Peer 4 16 Leader (SendAppend 0 [100; 123; 123; 100; 100]);
  Peer 2 28 Leader (SendAppend 1 [123; 123; 123; 1; 123]);
  Peer 2 28 Leader (SendAppend 3 [123; 123; 123; 1; 123]);
  Peer 4 16 Leader (SendAppend 2 [100; 123; 123; 100; 100]);
  Peer 1 39 Leader (AppendLost 0);
  Peer 1 39 Leader (AppendLost 2);
  Peer 1 39 Leader (AppendLost 4);
  Peer 4 16 Leader (AppendLost 1);
  Peer 0 39 Follower (AppendFrom 4 16);
  Peer 0 39 Follower AppendTermSmaller;
  Peer 3 39 Follower (AppendFrom 4 16);
  Peer 3 39 Follower AppendTermSmaller;
  Peer 4 16 Leader (AppendLost 0);
  Peer 4 16 Leader (AppendTermBigger 3 39);
  Peer 2 28 Leader (AppendLost 3);
  Peer 2 28 Leader (AppendLost 0);
  Peer 4 39 Follower (AppendLost 2);
  Peer 2 28 Leader (AppendLost 4);
  Peer 2 28 Leader (AppendLost 1);
  Peer 1 39 Leader (AppendLost 3);
  Peer 1 39 Leader StartHeartBeat;
  Peer 1 39 Leader (AppendTo 0);
  Peer 1 39 Leader (AppendTo 2);
  Peer 1 39 Leader (AppendTo 3);
  Peer 1 39 Leader (AppendTo 4);
  Peer 1 39 Leader (SendAppend 4 [99; 124; 124; 122; 124]);
  Peer 2 28 Leader StartHeartBeat;
  Peer 2 28 Leader (AppendTo 0);
  Peer 2 28 Leader (AppendTo 1);
  Peer 2 28 Leader (AppendTo 3);
  Peer 2 28 Leader (AppendTo 4);
  Peer 1 39 Leader (SendAppend 2 [99; 124; 124; 122; 124]);
  Peer 1 39 Leader (SendAppend 0 [99; 124; 124; 122; 124]);
  Peer 1 39 Leader (SendAppend 3 [99; 124; 124; 122; 124]);
  Peer 2 28 Leader (SendAppend 1 [123; 123; 123; 1; 123]);
  Peer 2 28 Leader (SendAppend 4 [123; 123; 123; 1; 123]);
  Peer 2 28 Leader (SendAppend 0 [123; 123; 123; 1; 123]);
  Peer 2 28 Leader (SendAppend 3 [123; 123; 123; 1; 123]);
  Peer 1 39 Leader (AppendLost 2);
  Peer 1 39 Leader (AppendNotSuccess 3 121 16 122);
  Peer 1 39 Leader (AppendLost 4);
  Peer 2 28 Leader (AppendLost 4);
  Peer 1 39 Leader (AppendLost 0);
  Peer 2 28 Leader (AppendLost 0);
  Peer 2 28 Leader (AppendLost 3);
  Peer 2 28 Leader (AppendLost 1);
  Peer 2 28 Leader StartHeartBeat;
  Peer 2 28 Leader (AppendTo 0);
  Peer 2 28 Leader (AppendTo 1);
  Peer 2 28 Leader (AppendTo 3);
  Peer 2 28 Leader (AppendTo 4);
  Peer 1 39 Leader StartHeartBeat;
  Peer 1 39 Leader (AppendTo 0);
  Peer 1 39 Leader (AppendTo 2);
  Peer 1 39 Leader (AppendTo 3);
  Peer 1 39 Leader (AppendTo 4);
  Peer 2 28 Leader (SendAppend 4 [123; 123; 123; 1; 123]);
  Peer 2 28 Leader (SendAppend 0 [123; 123; 123; 1; 123]);
  Peer 2 28 Leader (SendAppend 1 [123; 123; 123; 1; 123]);
  Peer 1 39 Leader (SendAppend 0 [99; 124; 124; 99; 124]);
  Peer 1 39 Leader (SendAppend 3 [99; 124; 124; 99; 124]);
  Peer 1 39 Leader (AppendLost 3);
  Peer 1 39 Leader (SendAppend 2 [99; 124; 124; 99; 124]);
  Peer 2 28 Leader (SendAppend 3 [123; 123; 123; 1; 123]);
  Peer 1 39 Leader (SendAppend 4 [99; 124; 124; 99; 124]);
  Peer 1 39 Leader (AppendLost 3);
  Peer 2 28 Leader (AppendLost 3);
  Peer 1 39 Leader (AppendLost 2);
  Peer 2 28 Leader (AppendLost 4);
  Peer 2 28 Leader (AppendLost 1);
  Peer 2 28 Leader (AppendLost 0);
  Peer 1 39 Leader (AppendLost 4);
  Peer 1 39 Leader (AppendLost 0);
  Peer 2 28 Leader StartHeartBeat;
  Peer 2 28 Leader (AppendTo 0)].

(** Lines 6456 to 6605. *)
Definition run_44 : list Line := [
  Peer 2 28 Leader (AppendTo 1);
  Peer 2 28 Leader (AppendTo 3);
  Peer 2 28 Leader (AppendTo 4);
  Peer 2 28 Leader (SendAppend 4 [123; 123; 123; 1; 123]);
  Peer 1 39 Leader StartHeartBeat;
  Peer 1 39 Leader (AppendTo 0);
  Peer 1 39 Leader (AppendTo 2);
  Peer 1 39 Leader (AppendTo 3);
  Peer 1 39 Leader (AppendTo 4);
  Peer 2 28 Leader (SendAppend 1 [123; 123; 123; 1; 123]);
  Peer 1 39 Leader (SendAppend 4 [99; 124; 124; 99; 124]);
  Peer 2 28 Leader (SendAppend 3 [123; 123; 123; 1; 123]);
  Peer 1 39 Leader (SendAppend 2 [99; 124; 124; 99; 124]);
  Peer 1 39 Leader (SendAppend 3 [99; 124; 124; 99; 124]);
  Peer 1 39 Leader (SendAppend 0 [99; 124; 124; 99; 124]);
  Peer 2 28 Leader (SendAppend 0 [123; 123; 123; 1; 123]);
  Peer 1 39 Leader (AppendLost 2);
  Peer 2 28 Leader (AppendLost 3);
  Peer 2 28 Leader (AppendLost 0);
  Peer 2 28 Leader (AppendLost 4);
  Peer 1 39 Leader (AppendLost 3);
  Peer 2 28 Leader (AppendLost 1);
  Peer 1 39 Leader (AppendLost 0);
  Peer 1 39 Leader (AppendLost 4);
  Peer 2 28 Leader StartHeartBeat;
  Peer 2 28 Leader (AppendTo 0);
  Peer 2 28 Leader (AppendTo 1);
  Peer 2 28 Leader (AppendTo 3);
  Peer 2 28 Leader (AppendTo 4);
  Peer 2 28 Leader (SendAppend 4 [123; 123; 123; 1; 123]);
  Peer 1 39 Leader StartHeartBeat;
  Peer 1 39 Leader (AppendTo 0);
  Peer 1 39 Leader (AppendTo 2);
  Peer 2 28 Leader (SendAppend 1 [123; 123; 123; 1; 123]);
  Peer 1 39 Leader (AppendTo 3);
  Peer 1 39 Leader (AppendTo 4);
  Peer 1 39 Leader (SendAppend 0 [99; 124; 124; 99; 124]);
  Peer 1 39 Leader (SendAppend 3 [99; 124; 124; 99; 124]);
  Peer 1 39 Leader (SendAppend 4 [99; 124; 124; 99; 124]);
  Peer 1 39 Leader (SendAppend 2 [99; 124; 124; 99; 124]);
  Peer 2 28 Leader (SendAppend 0 [123; 123; 123; 1; 123]);
  Peer 2 28 Leader (SendAppend 3 [123; 123; 123; 1; 123]);
  Peer 1 39 Leader (AppendLost 2);
  Peer 1 39 Leader (AppendLost 3);
  Peer 1 39 Leader (AppendLost 4);
  Peer 1 39 Leader (AppendLost 0);
  Peer 2 28 Leader (AppendLost 3);
  Peer 2 28 Leader (AppendLost 1);
  Peer 1 39 Leader (AppendNotSuccess 3 123 28 99);
  Peer 2 28 Leader (AppendLost 0);
  Peer 1 39 Leader StartHeartBeat;
  Peer 1 39 Leader (AppendTo 0);
  Peer 1 39 Leader (AppendTo 2);
  Peer 1 39 Leader (AppendTo 3);
  Peer 1 39 Leader (AppendTo 4);
  Peer 2 28 Leader (AppendLost 4);
  Peer 1 39 Leader (SendAppend 4 [99; 124; 124; 1; 124]);
  Peer 2 28 Leader StartHeartBeat;
  Peer 2 28 Leader (AppendTo 0);
  Peer 2 28 Leader (AppendTo 1);
  Peer 2 28 Leader (AppendTo 3);
  Peer 2 28 Leader (AppendTo 4);
  Peer 1 39 Leader (SendAppend 0 [99; 124; 124; 1; 124]);
  Peer 2 28 Leader (SendAppend 4 [123; 123; 123; 1; 123]);
  Peer 2 28 Leader (SendAppend 3 [123; 123; 123; 1; 123]);
  Peer 1 39 Leader (SendAppend 2 [99; 124; 124; 1; 124]);
  Peer 2 28 Leader (SendAppend 0 [123; 123; 123; 1; 123]);
  Peer 1 39 Leader (SendAppend 3 [99; 124; 124; 1; 124]);
  Peer 2 28 Leader (SendAppend 1 [123; 123; 123; 1; 123]);
  Peer 1 39 Leader (AppendLost 2);
  Peer 2 28 Leader (AppendLost 0);
  Peer 2 28 Leader (AppendLost 1);
  Peer 1 39 Leader (AppendLost 3);
  Peer 2 28 Leader (AppendLost 4);
  Peer 1 39 Leader (AppendLost 4);
  Peer 1 39 Leader (AppendNotSuccess 0 123 28 99);
  Peer 2 28 Leader (AppendLost 3);
  Peer 1 39 Leader StartHeartBeat;
  Peer 1 39 Leader (AppendTo 0);
  Peer 1 39 Leader (AppendTo 2);
  Peer 1 39 Leader (AppendTo 3);
  Peer 0 39 Follower StartElection;
  Peer 2 28 Leader StartHeartBeat;
  Peer 2 28 Leader (AppendTo 0);
  Peer 2 28 Leader (AppendTo 1);
  Peer 2 28 Leader (AppendTo 3);
  Peer 2 28 Leader (AppendTo 4);
  Peer 1 39 Leader (AppendTo 4);
  Peer 2 28 Leader (SendAppend 0 [123; 123; 123; 1; 123]);
  Peer 1 39 Leader (AppendLost 0);
  Peer 1 39 Leader (SendAppend 3 [1; 124; 124; 1; 124]);
  Peer 0 40 Candidate BecomeCandidate;
  Peer 0 40 Candidate (RequestVoteTo 1);
  Peer 0 40 Candidate (RequestVoteTo 2);
  Peer 0 40 Candidate (RequestVoteTo 3);
  Peer 0 40 Candidate (RequestVoteTo 4);
  Peer 2 28 Leader (SendAppend 3 [123; 123; 123; 1; 123]);
  Peer 1 39 Leader (SendAppend 4 [1; 124; 124; 1; 124]);
  Peer 2 28 Leader (SendAppend 4 [123; 123; 123; 1; 123]);
  Peer 1 39 Leader (SendAppend 0 [1; 124; 124; 1; 124]);
  Peer 2 28 Leader (SendAppend 1 [123; 123; 123; 1; 123]);
  Peer 1 39 Leader (SendAppend 2 [1; 124; 124; 1; 124]);
  Peer 3 39 Follower (ReceiveRequestVote (-1) 0 40);
  Peer 3 39 Follower (VoteArgs 40 133 14 123 124);
  Peer 3 39 Follower (HandlerCommit 1 1);
  Peer 3 39 Follower (SelfTermLower 0);
  Peer 3 40 Follower (CompareLogs 14 9 123 133);
  Peer 3 40 Follower SelfLogNewer;
  Peer 2 28 Leader (AppendLost 3);
  Peer 4 39 Follower (ReceiveRequestVote (-1) 0 40);
  Peer 4 39 Follower (VoteArgs 40 133 16 520 521);
  Peer 4 39 Follower (HandlerCommit 122 122);
  Peer 4 39 Follower (SelfTermLower 0);
  Peer 4 40 Follower (CompareLogs 16 9 520 133);
  Peer 4 40 Follower SelfLogNewer;
  Peer 0 40 Candidate (VoteReply 4 40 false);
  Peer 0 40 Candidate (SenderCommit 1 1);
  Peer 0 40 Candidate (CheckElection 1 5);
  Peer 0 40 Candidate (RequestVoteLost 1);
  Peer 2 28 Leader (AppendLost 4);
  Peer 0 40 Candidate (RequestVoteLost 2);
  Peer 2 28 Leader (AppendLost 0);
  Peer 1 39 Leader (AppendLost 2);
  Peer 1 39 Leader (AppendLost 0);
  Peer 2 28 Leader (AppendLost 1);
  Peer 1 39 Leader (AppendLost 3);
  Peer 2 28 Leader StartHeartBeat;
  Peer 2 28 Leader (AppendTo 0);
  Peer 2 28 Leader (AppendTo 1);
  Peer 2 28 Leader (AppendTo 3);
  Peer 2 28 Leader (AppendTo 4);
  Peer 2 28 Leader (SendAppend 1 [123; 123; 123; 1; 123]);
  Peer 2 28 Leader (SendAppend 0 [123; 123; 123; 1; 123]);
  Peer 2 28 Leader (SendAppend 3 [123; 123; 123; 1; 123]);
  Peer 2 28 Leader (SendAppend 4 [123; 123; 123; 1; 123]);
  Peer 1 39 Leader (AppendLost 4);
  Peer 1 39 Leader StartHeartBeat;
  Peer 1 39 Leader (AppendTo 0);
  Peer 1 39 Leader (AppendTo 2);
  Peer 1 39 Leader (AppendTo 3);
  Peer 1 39 Leader (AppendTo 4);
  Peer 1 39 Leader (SendAppend 4 [1; 124; 124; 1; 124]);
  Peer 1 39 Leader (SendAppend 0 [1; 124; 124; 1; 124]);
  Peer 1 39 Leader (SendAppend 2 [1; 124; 124; 1; 124]);
  Peer 1 39 Leader (SendAppend 3 [1; 124; 124; 1; 124]);
  Peer 1 39 Leader (AppendLost 4);
  Peer 2 28 Leader (AppendLost 1);
  Peer 2 28 Leader (AppendLost 0);
  Peer 1 39 Leader (AppendLost 2);
  Peer 1 39 Leader (AppendLost 3)].

(** Lines 6606 to 6755. *)
Definition run_45 : list Line := [
  Peer 2 28 Leader (AppendLost 3);
  Peer 2 28 Leader (AppendLost 4);
  Peer 2 28 Leader StartHeartBeat;
  Peer 2 28 Leader (AppendTo 0);
  Peer 2 28 Leader (AppendTo 1);
  Peer 2 28 Leader (AppendTo 3);
  Peer 2 28 Leader (AppendTo 4);
  Peer 2 28 Leader (SendAppend 4 [123; 123; 123; 1; 123]);
  Peer 1 39 Leader StartHeartBeat;
  Peer 2 28 Leader (SendAppend 0 [123; 123; 123; 1; 123]);
  Peer 1 39 Leader (AppendTo 0);
  Peer 1 39 Leader (AppendTo 2);
  Peer 1 39 Leader (AppendTo 3);
  Peer 1 39 Leader (AppendTo 4);
  Peer 1 39 Leader (SendAppend 4 [1; 124; 124; 1; 124]);
  Peer 1 39 Leader (SendAppend 2 [1; 124; 124; 1; 124]);
  Peer 1 39 Leader (SendAppend 3 [1; 124; 124; 1; 124]);
  Peer 1 39 Leader (AppendLost 0);
  Peer 2 28 Leader (SendAppend 1 [123; 123; 123; 1; 123]);
  Peer 1 39 Leader (SendAppend 0 [1; 124; 124; 1; 124]);
  Peer 2 28 Leader (SendAppend 3 [123; 123; 123; 1; 123]);
  Peer 2 28 Leader (AppendLost 1);
  Peer 1 39 Leader (AppendLost 0);
  Peer 2 28 Leader (AppendLost 0);
  Peer 1 39 Leader (AppendLost 2);
  Peer 1 39 Leader (AppendLost 3);
  Peer 2 28 Leader (AppendLost 3);
  Peer 2 28 Leader (AppendLost 4);
  Peer 2 28 Leader StartHeartBeat;
  Peer 2 28 Leader (AppendTo 0);
  Peer 2 28 Leader (AppendTo 1);
  Peer 2 28 Leader (AppendTo 3);
  Peer 2 28 Leader (AppendTo 4);
  Peer 2 28 Leader (SendAppend 4 [123; 123; 123; 1; 123]);
  Peer 2 28 Leader (SendAppend 1 [123; 123; 123; 1; 123]);
  Peer 1 39 Leader StartHeartBeat;
  Peer 1 39 Leader (AppendTo 0);
  Peer 1 39 Leader (AppendTo 2);
  Peer 1 39 Leader (AppendTo 3);
  Peer 1 39 Leader (AppendTo 4);
  Peer 1 39 Leader (AppendLost 4);
  Peer 1 39 Leader (SendAppend 0 [1; 124; 124; 1; 124]);
  Peer 1 39 Leader (SendAppend 3 [1; 124; 124; 1; 124]);
  Peer 1 39 Leader (SendAppend 2 [1; 124; 124; 1; 124]);
  Peer 1 39 Leader (SendAppend 4 [1; 124; 124; 1; 124]);
  Peer 2 28 Leader (SendAppend 0 [123; 123; 123; 1; 123]);
  Peer 2 28 Leader (SendAppend 3 [123; 123; 123; 1; 123]);
  Peer 1 39 Leader (AppendLost 2);
  Peer 2 28 Leader (AppendLost 1);
  Peer 2 28 Leader (AppendLost 3);
  Peer 2 28 Leader (AppendLost 0);
  Peer 1 39 Leader (AppendLost 0);
  Peer 2 28 Leader (AppendLost 4);
  Peer 1 39 Leader (AppendLost 3);
  Peer 2 28 Leader StartHeartBeat;
  Peer 2 28 Leader (AppendTo 0);
  Peer 2 28 Leader (AppendTo 1);
  Peer 2 28 Leader (AppendTo 3);
  Peer 2 28 Leader (AppendTo 4);
  Peer 1 39 Leader (AppendLost 4);
  Peer 2 28 Leader (SendAppend 4 [123; 123; 123; 1; 123]);
  Peer 1 39 Leader StartHeartBeat;
  Peer 1 39 Leader (AppendTo 0);
  Peer 1 39 Leader (AppendTo 2);
  Peer 2 28 Leader (SendAppend 3 [123; 123; 123; 1; 123]);
  Peer 1 39 Leader (AppendTo 3);
  Peer 1 39 Leader (AppendTo 4);
  Peer 1 39 Leader (SendAppend 2 [1; 124; 124; 1; 124]);
  Peer 1 39 Leader (SendAppend 4 [1; 124; 124; 1; 124]);
  Peer 1 39 Leader (SendAppend 0 [1; 124; 124; 1; 124]);
  Peer 1 39 Leader (SendAppend 3 [1; 124; 124; 1; 124]);
  Peer 2 28 Leader (SendAppend 0 [123; 123; 123; 1; 123]);
  Peer 2 28 Leader (SendAppend 1 [123; 123; 123; 1; 123]);
  Peer 2 28 Leader (AppendLost 0);
  Peer 2 28 Leader (AppendLost 1);
  Peer 2 28 Leader (AppendLost 4);
  Peer 1 39 Leader (AppendLost 0);
  Peer 1 39 Leader (AppendLost 4);
  Peer 2 28 Leader (AppendLost 3);
  Peer 1 39 Leader (AppendLost 3);
  Peer 1 39 Leader (AppendLost 2);
  Peer 2 28 Leader StartHeartBeat;
  Peer 2 28 Leader (AppendTo 0);
  Peer 2 28 Leader (AppendTo 1);
  Peer 2 28 Leader (AppendTo 3);
  Peer 2 28 Leader (AppendTo 4);
  Peer 2 28 Leader (SendAppend 0 [123; 123; 123; 1; 123]);
  Peer 2 28 Leader (SendAppend 4 [123; 123; 123; 1; 123]);
  Peer 1 39 Leader StartHeartBeat;
  Peer 1 39 Leader (AppendTo 0);
  Peer 1 39 Leader (AppendTo 2);
  Peer 1 39 Leader (AppendTo 3);
  Peer 1 39 Leader (AppendTo 4);
  Peer 1 39 Leader (SendAppend 4 [1; 124; 124; 1; 124]);
  Peer 1 39 Leader (SendAppend 0 [1; 124; 124; 1; 124]);
  Peer 1 39 Leader (SendAppend 3 [1; 124; 124; 1; 124]);
  Peer 2 28 Leader (SendAppend 1 [123; 123; 123; 1; 123]);
  Peer 2 28 Leader (SendAppend 3 [123; 123; 123; 1; 123]);
  Peer 1 39 Leader (SendAppend 2 [1; 124; 124; 1; 124]);
  Peer 1 39 Leader (AppendLost 4);
  Peer 1 39 Leader (AppendLost 3);
  Peer 2 28 Leader (AppendLost 1);
  Peer 2 28 Leader (AppendLost 0);
  Peer 1 39 Leader (AppendLost 2);
  Peer 2 28 Leader (AppendLost 4);
  Peer 2 28 Leader (AppendLost 3);
  Peer 1 39 Leader (AppendLost 0);
  Peer 2 28 Leader StartHeartBeat;
  Peer 2 28 Leader (AppendTo 0);
  Peer 2 28 Leader (AppendTo 1);
  Peer 2 28 Leader (AppendTo 3);
  Peer 2 28 Leader (AppendTo 4);
  Peer 2 28 Leader (SendAppend 4 [123; 123; 123; 1; 123]);
  Peer 4 40 Follower StartElection;
  Peer 2 28 Leader (SendAppend 1 [123; 123; 123; 1; 123]);
  Peer 1 39 Leader StartHeartBeat;
  Peer 1 39 Leader (AppendTo 0);
  Peer 1 39 Leader (AppendTo 2);
  Peer 1 39 Leader (AppendTo 3);
  Peer 1 39 Leader (AppendTo 4);
  Peer 1 39 Leader (SendAppend 4 [1; 124; 124; 1; 124]);
  Peer 1 39 Leader (SendAppend 3 [1; 124; 124; 1; 124]);
  Peer 1 39 Leader (SendAppend 2 [1; 124; 124; 1; 124]);
  Peer 2 28 Leader (SendAppend 3 [123; 123; 123; 1; 123]);
  Peer 4 41 Candidate BecomeCandidate;
  Peer 4 41 Candidate (RequestVoteTo 0);
  Peer 4 41 Candidate (RequestVoteTo 1);
  Peer 4 41 Candidate (RequestVoteTo 2);
  Peer 4 41 Candidate (RequestVoteTo 3);
  Peer 1 39 Leader (SendAppend 0 [1; 124; 124; 1; 124]);
  Peer 2 28 Leader (SendAppend 0 [123; 123; 123; 1; 123]);
  Peer 1 39 Leader (AppendLost 0);
  Peer 2 28 Leader (AppendLost 3);
  Peer 3 40 Follower (ReceiveRequestVote 0 4 41);
  Peer 3 40 Follower (VoteArgs 41 520 14 123 124);
  Peer 3 40 Follower (HandlerCommit 1 1);
  Peer 3 40 Follower (SelfTermLower 4);
  Peer 1 39 Leader (AppendLost 3);
  Peer 3 41 Follower (CompareLogs 14 16 123 520);
  Peer 3 41 Follower (Granted 41 520 14 123 124);
  Peer 3 41 Follower (HandlerCommit 1 1);
  Peer 4 41 Candidate (RequestVoteLost 3);
  Peer 4 41 Candidate (RequestVoteLost 2);
  Peer 0 40 Candidate (ReceiveRequestVote 0 4 41);
  Peer 1 39 Leader (AppendLost 2);
  Peer 0 40 Candidate (VoteArgs 41 520 9 133 134);
  Peer 0 40 Candidate (HandlerCommit 1 1);
  Peer 0 40 Candidate (SelfTermLower 4);
  Peer 0 41 Follower (CompareLogs 9 16 133 520);
  Peer 0 41 Follower (Granted 41 520 9 133 134)].

(** Lines 6756 to 6905. *)
Definition run_46 : list Line := [
  Peer 0 41 Follower (HandlerCommit 1 1);
  Peer 2 28 Leader (AppendLost 0);
  Peer 4 41 Candidate (RequestVoteLost 1);
  Peer 1 39 Leader (AppendLost 4);
  Peer 2 28 Leader (AppendLost 1);
  Peer 2 28 Leader (AppendLost 4);
  Peer 1 39 Leader StartHeartBeat;
  Peer 1 39 Leader (AppendTo 0);
  Peer 2 28 Leader StartHeartBeat;
  Peer 2 28 Leader (AppendTo 0);
  Peer 1 39 Leader (AppendTo 2);
  Peer 2 28 Leader (AppendTo 1);
  Peer 2 28 Leader (AppendTo 3);
  Peer 2 28 Leader (AppendTo 4);
  Peer 1 39 Leader (AppendTo 3);
  Peer 1 39 Leader (AppendTo 4);
  Peer 2 28 Leader (SendAppend 4 [123; 123; 123; 1; 123]);
  Peer 1 39 Leader (SendAppend 3 [1; 124; 124; 1; 124]);
  Peer 2 28 Leader (SendAppend 0 [123; 123; 123; 1; 123]);
  Peer 2 28 Leader (SendAppend 1 [123; 123; 123; 1; 123]);
  Peer 1 39 Leader (SendAppend 0 [1; 124; 124; 1; 124]);
  Peer 1 39 Leader (SendAppend 2 [1; 124; 124; 1; 124]);
  Peer 2 28 Leader (SendAppend 3 [123; 123; 123; 1; 123]);
  Peer 1 39 Leader (SendAppend 4 [1; 124; 124; 1; 124]);
  Peer 1 39 Leader (AppendLost 2);
  Peer 2 28 Leader (AppendLost 1);
  Peer 1 39 Leader (AppendLost 3);
  Peer 2 28 Leader (AppendLost 3);
  Peer 1 39 Leader (AppendLost 0);
  Peer 1 39 Leader (AppendLost 4);
  Peer 2 28 Leader (AppendLost 0);
  Peer 2 28 Leader (AppendLost 4);
  Peer 1 39 Leader StartHeartBeat;
  Peer 1 39 Leader (AppendTo 0);
  Peer 1 39 Leader (AppendTo 2);
  Peer 2 28 Leader StartHeartBeat;
  Peer 2 28 Leader (AppendTo 0);
  Peer 1 39 Leader (AppendTo 3);
  Peer 1 39 Leader (AppendTo 4);
  Peer 2 28 Leader (AppendTo 1);
  Peer 2 28 Leader (AppendTo 3);
  Peer 2 28 Leader (AppendTo 4);
  Peer 2 28 Leader (SendAppend 0 [123; 123; 123; 1; 123]);
  Peer 1 39 Leader (SendAppend 0 [1; 124; 124; 1; 124]);
  Peer 2 28 Leader (SendAppend 3 [123; 123; 123; 1; 123]);
  Peer 1 39 Leader (SendAppend 2 [1; 124; 124; 1; 124]);
  Peer 1 39 Leader (SendAppend 3 [1; 124; 124; 1; 124]);
  Peer 1 39 Leader (SendAppend 4 [1; 124; 124; 1; 124]);
  Peer 2 28 Leader (SendAppend 1 [123; 123; 123; 1; 123]);
  Peer 2 28 Leader (SendAppend 4 [123; 123; 123; 1; 123]);
  Peer 1 39 Leader (AppendLost 3);
  Peer 2 28 Leader (AppendLost 3);
  Peer 1 39 Leader (AppendLost 4);
  Peer 0 41 Follower (VoteReply 3 40 false);
  Peer 0 41 Follower (SenderCommit 1 1);
  Peer 0 41 Follower (CheckElection 0 5);
  Peer 0 41 Follower NotCandidate;
  Peer 1 39 Leader (AppendLost 0);
  Peer 2 28 Leader (AppendLost 0);
  Peer 1 39 Leader (AppendLost 2);
  Peer 2 28 Leader (AppendLost 4);
  Peer 2 28 Leader (AppendLost 1);
  Peer 1 39 Leader StartHeartBeat;
  Peer 1 39 Leader (AppendTo 0);
  Peer 1 39 Leader (AppendTo 2);
  Peer 1 39 Leader (AppendTo 3);
  Peer 1 39 Leader (AppendTo 4);
  Peer 1 39 Leader (SendAppend 4 [1; 124; 124; 1; 124]);
  Peer 1 39 Leader (SendAppend 2 [1; 124; 124; 1; 124]);
  Peer 1 39 Leader (SendAppend 0 [1; 124; 124; 1; 124]);
  Peer 2 28 Leader StartHeartBeat;
  Peer 2 28 Leader (AppendTo 0);
  Peer 2 28 Leader (AppendTo 1);
  Peer 2 28 Leader (AppendTo 3);
  Peer 2 28 Leader (AppendTo 4);
  Peer 2 28 Leader (SendAppend 0 [123; 123; 123; 1; 123]);
  Peer 2 28 Leader (SendAppend 3 [123; 123; 123; 1; 123]);
  Peer 2 28 Leader (SendAppend 4 [123; 123; 123; 1; 123]);
  Peer 1 39 Leader (SendAppend 3 [1; 124; 124; 1; 124]);
  Peer 2 28 Leader (SendAppend 1 [123; 123; 123; 1; 123]);
  Peer 2 28 Leader (AppendLost 0);
  Peer 2 28 Leader (AppendLost 1);
  Peer 2 28 Leader (AppendLost 3);
  Peer 1 39 Leader (AppendLost 0);
  Peer 1 39 Leader (AppendLost 4);
  Peer 1 39 Leader (AppendLost 3);
  Peer 1 39 Leader (AppendLost 2);
  Peer 2 28 Leader (AppendLost 4);
  Peer 1 39 Leader StartHeartBeat;
  Peer 1 39 Leader (AppendTo 0);
  Peer 1 39 Leader (AppendTo 2);
  Peer 1 39 Leader (AppendTo 3);
  Peer 1 39 Leader (AppendTo 4);
  Peer 1 39 Leader (SendAppend 4 [1; 124; 124; 1; 124]);
  Peer 2 28 Leader StartHeartBeat;
  Peer 2 28 Leader (AppendTo 0);
  Peer 2 28 Leader (AppendTo 1);
  Peer 2 28 Leader (AppendTo 3);
  Peer 2 28 Leader (AppendTo 4);
  Peer 2 28 Leader (SendAppend 4 [123; 123; 123; 1; 123]);
  Peer 1 39 Leader (SendAppend 0 [1; 124; 124; 1; 124]);
  Peer 1 39 Leader (SendAppend 3 [1; 124; 124; 1; 124]);
  Peer 2 28 Leader (SendAppend 1 [123; 123; 123; 1; 123]);
  Peer 1 39 Leader (SendAppend 2 [1; 124; 124; 1; 124]);
  Peer 2 28 Leader (SendAppend 3 [123; 123; 123; 1; 123]);
  Peer 2 28 Leader (SendAppend 0 [123; 123; 123; 1; 123]);
  Peer 2 28 Leader (AppendLost 3);
  Peer 1 39 Leader (AppendLost 0);
  Peer 2 28 Leader (AppendLost 1);
  Peer 2 28 Leader (AppendLost 4);
  Peer 1 39 Leader (AppendLost 4);
  Peer 1 39 Leader (AppendLost 3);
  Peer 1 39 Leader (AppendLost 2);
  Peer 2 28 Leader StartHeartBeat;
  Peer 2 28 Leader (AppendTo 0);
  Peer 2 28 Leader (AppendTo 1);
  Peer 2 28 Leader (AppendTo 3);
  Peer 2 28 Leader (AppendTo 4);
  Peer 2 28 Leader (AppendLost 0);
  Peer 2 28 Leader (SendAppend 0 [123; 123; 123; 1; 123]);
  Peer 2 28 Leader (SendAppend 3 [123; 123; 123; 1; 123]);
  Peer 1 39 Leader StartHeartBeat;
  Peer 1 39 Leader (AppendTo 0);
  Peer 1 39 Leader (AppendTo 2);
  Peer 1 39 Leader (AppendTo 3);
  Peer 1 39 Leader (AppendTo 4);
  Peer 1 39 Leader (SendAppend 4 [1; 124; 124; 1; 124]);
  Peer 1 39 Leader (SendAppend 2 [1; 124; 124; 1; 124]);
  Peer 1 39 Leader (SendAppend 0 [1; 124; 124; 1; 124]);
  Peer 1 39 Leader (SendAppend 3 [1; 124; 124; 1; 124]);
  Peer 2 28 Leader (SendAppend 1 [123; 123; 123; 1; 123]);
  Peer 2 28 Leader (SendAppend 4 [123; 123; 123; 1; 123]);
  Peer 2 28 Leader (AppendLost 0);
  Peer 1 39 Leader (AppendLost 4);
  Peer 2 28 Leader (AppendLost 3);
  Peer 1 39 Leader (AppendLost 3);
  Peer 2 28 Leader (AppendLost 1);
  Peer 1 39 Leader (AppendLost 0);
  Peer 2 28 Leader (AppendLost 4);
  Peer 1 39 Leader (AppendLost 2);
  Peer 1 39 Leader StartHeartBeat;
  Peer 1 39 Leader (AppendTo 0);
  Peer 1 39 Leader (AppendTo 2);
  Peer 1 39 Leader (AppendTo 3);
  Peer 2 28 Leader StartHeartBeat;
  Peer 2 28 Leader (AppendTo 0);
  Peer 1 39 Leader (AppendTo 4);
  Peer 2 28 Leader (AppendTo 1);
  Peer 2 28 Leader (AppendTo 3);
  Peer 2 28 Leader (AppendTo 4)].

(** Lines 6906 to 7055. *)
Definition run_47 : list Line := [
  Peer 1 39 Leader (SendAppend 3 [1; 124; 124; 1; 124]);
  Peer 2 28 Leader (SendAppend 4 [123; 123; 123; 1; 123]);
  Peer 1 39 Leader (SendAppend 0 [1; 124; 124; 1; 124]);
  Peer 4 41 Candidate (VoteReply 0 41 true);
  Peer 4 41 Candidate (SenderCommit 122 122);
  Peer 4 41 Candidate (VoteGained 0);
  Peer 4 41 Candidate (CheckElection 2 5);
  Peer 1 39 Leader (SendAppend 2 [1; 124; 124; 1; 124]);
  Peer 2 28 Leader (SendAppend 0 [123; 123; 123; 1; 123]);
  Peer 1 39 Leader (SendAppend 4 [1; 124; 124; 1; 124]);
  Peer 2 28 Leader (SendAppend 1 [123; 123; 123; 1; 123]);
  Peer 2 28 Leader (SendAppend 3 [123; 123; 123; 1; 123]);
  Peer 1 39 Leader (AppendLost 0);
  Peer 1 39 Leader (AppendLost 4);
  Peer 2 28 Leader (AppendLost 0);
  Peer 2 28 Leader (AppendLost 3);
  Peer 1 39 Leader (AppendLost 3);
  Peer 1 39 Leader (AppendLost 2);
  Peer 2 28 Leader (AppendLost 1);
  Peer 2 28 Leader (AppendLost 4);
  Peer 2 28 Leader StartHeartBeat;
  Peer 2 28 Leader (AppendTo 0);
  Peer 2 28 Leader (AppendTo 1);
  Peer 2 28 Leader (AppendTo 3);
  Peer 2 28 Leader (AppendTo 4);
  Peer 2 28 Leader (SendAppend 4 [123; 123; 123; 1; 123]);
  Peer 4 41 Candidate StartElection;
  Peer 2 28 Leader (SendAppend 0 [123; 123; 123; 1; 123]);
  Peer 1 39 Leader StartHeartBeat;
  Peer 1 39 Leader (AppendTo 0);
  Peer 1 39 Leader (AppendTo 2);
  Peer 1 39 Leader (AppendTo 3);
  Peer 1 39 Leader (AppendTo 4);
  Peer 2 28 Leader (SendAppend 1 [123; 123; 123; 1; 123]);
  Peer 2 28 Leader (SendAppend 3 [123; 123; 123; 1; 123]);
  Peer 1 39 Leader (SendAppend 4 [1; 124; 124; 1; 124]);
  Peer 1 39 Leader (SendAppend 0 [1; 124; 124; 1; 124]);
  Peer 1 39 Leader (SendAppend 2 [1; 124; 124; 1; 124]);
  Peer 4 42 Candidate BecomeCandidate;
  Peer 4 42 Candidate (RequestVoteTo 0);
  Peer 4 42 Candidate (RequestVoteTo 1);
  Peer 4 42 Candidate (RequestVoteTo 2);
  Peer 4 42 Candidate (RequestVoteTo 3);
  Peer 1 39 Leader (SendAppend 3 [1; 124; 124; 1; 124]);
  Peer 4 42 Candidate (RequestVoteLost 2);
  Peer 2 28 Leader (AppendLost 3);
  Peer 1 39 Leader (AppendLost 0);
  Peer 1 39 Leader (AppendLost 3);
  Peer 2 28 Leader (AppendLost 1);
  Peer 0 41 Follower (ReceiveRequestVote 4 4 42);
  Peer 3 41 Follower (ReceiveRequestVote 4 4 42);
  Peer 0 41 Follower (VoteArgs 42 520 9 133 134);
  Peer 3 41 Follower (VoteArgs 42 520 14 123 124);
  Peer 0 41 Follower (HandlerCommit 1 1);
  Peer 3 41 Follower (HandlerCommit 1 1);
  Peer 0 41 Follower (SelfTermLower 4);
  Peer 3 41 Follower (SelfTermLower 4);
  Peer 0 42 Follower (CompareLogs 9 16 133 520);
  Peer 3 42 Follower (CompareLogs 14 16 123 520);
  Peer 0 42 Follower (Granted 42 520 9 133 134);
  Peer 0 42 Follower (HandlerCommit 1 1);
  Peer 3 42 Follower (Granted 42 520 14 123 124);
  Peer 3 42 Follower (HandlerCommit 1 1);
  Peer 1 39 Leader (AppendLost 2);
  Peer 2 28 Leader (AppendLost 4);
  Peer 1 39 Leader (AppendLost 4);
  Peer 4 42 Candidate (RequestVoteLost 1);
  Peer 2 28 Leader StartHeartBeat;
  Peer 2 28 Leader (AppendTo 0);
  Peer 2 28 Leader (AppendTo 1);
  Peer 2 28 Leader (AppendTo 3);
  Peer 2 28 Leader (AppendTo 4);
  Peer 2 28 Leader (SendAppend 0 [123; 123; 123; 1; 123]);
  Peer 2 28 Leader (AppendLost 0);
  Peer 2 28 Leader (SendAppend 4 [123; 123; 123; 1; 123]);
  Peer 1 39 Leader StartHeartBeat;
  Peer 1 39 Leader (AppendTo 0);
  Peer 1 39 Leader (AppendTo 2);
  Peer 1 39 Leader (AppendTo 3);
  Peer 1 39 Leader (AppendTo 4);
  Peer 1 39 Leader (SendAppend 4 [1; 124; 124; 1; 124]);
  Peer 1 39 Leader (SendAppend 2 [1; 124; 124; 1; 124]);
  Peer 1 39 Leader (SendAppend 3 [1; 124; 124; 1; 124]);
  Peer 1 39 Leader (SendAppend 0 [1; 124; 124; 1; 124]);
  Peer 2 28 Leader (SendAppend 1 [123; 123; 123; 1; 123]);
  Peer 2 28 Leader (SendAppend 3 [123; 123; 123; 1; 123]);
  Peer 1 39 Leader (AppendLost 2);
  Peer 2 28 Leader (AppendLost 4);
  Peer 2 28 Leader (AppendLost 3);
  Peer 2 28 Leader (AppendLost 1);
  Peer 1 39 Leader (AppendLost 4);
  Peer 1 39 Leader (AppendLost 0);
  Peer 2 28 Leader (AppendLost 0);
  Peer 1 39 Leader (AppendLost 3);
  Peer 1 39 Leader StartHeartBeat;
  Peer 1 39 Leader (AppendTo 0);
  Peer 1 39 Leader (AppendTo 2);
  Peer 1 39 Leader (AppendTo 3);
  Peer 2 28 Leader StartHeartBeat;
  Peer 2 28 Leader (AppendTo 0);
  Peer 2 28 Leader (AppendTo 1);
  Peer 2 28 Leader (AppendTo 3);
  Peer 2 28 Leader (AppendTo 4);
  Peer 1 39 Leader (AppendTo 4);
  Peer 2 28 Leader (SendAppend 4 [123; 123; 123; 1; 123]);
  Peer 1 39 Leader (SendAppend 3 [1; 124; 124; 1; 124]);
  Peer 2 28 Leader (SendAppend 1 [123; 123; 123; 1; 123]);
  Peer 1 39 Leader (SendAppend 4 [1; 124; 124; 1; 124]);
  Peer 2 28 Leader (SendAppend 3 [123; 123; 123; 1; 123]);
  Peer 1 39 Leader (SendAppend 2 [1; 124; 124; 1; 124]);
  Peer 2 28 Leader (SendAppend 0 [123; 123; 123; 1; 123]);
  Peer 1 39 Leader (SendAppend 0 [1; 124; 124; 1; 124]);
  Peer 1 39 Leader (AppendLost 0);
  Peer 1 39 Leader (AppendLost 3);
  Peer 2 28 Leader (AppendLost 1);
  Peer 2 28 Leader (AppendLost 3);
  Peer 2 28 Leader (AppendLost 0);
  Peer 2 28 Leader (AppendLost 4);
  Peer 1 39 Leader (AppendLost 2);
  Peer 1 39 Leader (AppendLost 4);
  Peer 1 39 Leader StartHeartBeat;
  Peer 1 39 Leader (AppendTo 0);
  Peer 2 28 Leader StartHeartBeat;
  Peer 2 28 Leader (AppendTo 0);
  Peer 1 39 Leader (AppendTo 2);
  Peer 1 39 Leader (AppendTo 3);
  Peer 1 39 Leader (AppendTo 4);
  Peer 2 28 Leader (AppendTo 1);
  Peer 2 28 Leader (AppendTo 3);
  Peer 2 28 Leader (AppendTo 4);
  Peer 2 28 Leader (SendAppend 1 [123; 123; 123; 1; 123]);
  Peer 1 39 Leader (SendAppend 0 [1; 124; 124; 1; 124]);
  Peer 1 39 Leader (SendAppend 4 [1; 124; 124; 1; 124]);
  Peer 1 39 Leader (SendAppend 2 [1; 124; 124; 1; 124]);
  Peer 1 39 Leader (SendAppend 3 [1; 124; 124; 1; 124]);
  Peer 2 28 Leader (SendAppend 0 [123; 123; 123; 1; 123]);
  Peer 2 28 Leader (SendAppend 3 [123; 123; 123; 1; 123]);
  Peer 2 28 Leader (SendAppend 4 [123; 123; 123; 1; 123]);
  Peer 2 28 Leader (AppendLost 3);
  Peer 1 39 Leader (AppendLost 4);
  Peer 2 28 Leader (AppendLost 1);
  Peer 1 39 Leader (AppendLost 3);
  Peer 2 28 Leader (AppendLost 4);
  Peer 1 39 Leader (AppendLost 0);
  Peer 2 28 Leader (AppendLost 0);
  Peer 2 28 Leader StartHeartBeat;
  Peer 2 28 Leader (AppendTo 0);
  Peer 2 28 Leader (AppendTo 1);
  Peer 2 28 Leader (AppendTo 3);
  Peer 2 28 Leader (AppendTo 4)].

(** Lines 7056 to 7205. *)
Definition run_48 : list Line := [
  Peer 2 28 Leader (SendAppend 4 [123; 123; 123; 1; 123]);
  Peer 2 28 Leader (SendAppend 3 [123; 123; 123; 1; 123]);
  Peer 1 39 Leader StartHeartBeat;
  Peer 1 39 Leader (AppendTo 0);
  Peer 1 39 Leader (AppendTo 2);
  Peer 1 39 Leader (AppendTo 3);
  Peer 1 39 Leader (AppendTo 4);
  Peer 1 39 Leader (AppendLost 2);
  Peer 1 39 Leader (SendAppend 0 [1; 124; 124; 1; 124]);
  Peer 2 28 Leader (SendAppend 1 [123; 123; 123; 1; 123]);
  Peer 1 39 Leader (SendAppend 4 [1; 124; 124; 1; 124]);
  Peer 2 28 Leader (SendAppend 0 [123; 123; 123; 1; 123]);
  Peer 1 39 Leader (SendAppend 3 [1; 124; 124; 1; 124]);
  Peer 1 39 Leader (SendAppend 2 [1; 124; 124; 1; 124]);
  Peer 1 39 Leader (AppendLost 2);
  Peer 1 39 Leader (AppendLost 0);
  Peer 2 28 Leader (AppendLost 0);
  Peer 2 28 Leader (AppendLost 3);
  Peer 2 28 Leader (AppendLost 4);
  Peer 2 28 Leader (AppendLost 1);
  Peer 2 28 Leader StartHeartBeat;
  Peer 2 28 Leader (AppendTo 0);
  Peer 2 28 Leader (AppendTo 1);
  Peer 2 28 Leader (AppendTo 3);
  Peer 2 28 Leader (AppendTo 4);
  Peer 2 28 Leader (SendAppend 4 [123; 123; 123; 1; 123]);
  Peer 1 39 Leader (AppendLost 3);
  Peer 1 39 Leader (AppendLost 4);
  Peer 1 39 Leader StartHeartBeat;
  Peer 1 39 Leader (AppendTo 0);
  Peer 2 28 Leader (SendAppend 0 [123; 123; 123; 1; 123]);
  Peer 1 39 Leader (AppendTo 2);
  Peer 1 39 Leader (AppendTo 3);
  Peer 1 39 Leader (AppendTo 4);
  Peer 2 28 Leader (SendAppend 1 [123; 123; 123; 1; 123]);
  Peer 1 39 Leader (SendAppend 0 [1; 124; 124; 1; 124]);
  Peer 1 39 Leader (SendAppend 4 [1; 124; 124; 1; 124]);
  Peer 2 28 Leader (SendAppend 3 [123; 123; 123; 1; 123]);
  Peer 1 39 Leader (SendAppend 3 [1; 124; 124; 1; 124]);
  Peer 1 39 Leader (SendAppend 2 [1; 124; 124; 1; 124]);
  Peer 2 28 Leader (AppendLost 3);
  Peer 2 28 Leader (AppendLost 4);
  Peer 1 39 Leader (AppendLost 2);
  Peer 1 39 Leader (AppendLost 3);
  Peer 1 39 Leader (AppendLost 0);
  Peer 2 28 Leader (AppendLost 0);
  Peer 2 28 Leader (AppendLost 1);
  Peer 1 39 Leader (AppendLost 4);
  Peer 2 28 Leader StartHeartBeat;
  Peer 2 28 Leader (AppendTo 0);
  Peer 1 39 Leader StartHeartBeat;
  Peer 1 39 Leader (AppendTo 0);
  Peer 1 39 Leader (AppendTo 2);
  Peer 2 28 Leader (AppendTo 1);
  Peer 3 42 Follower StartElection;
  Peer 2 28 Leader (AppendTo 3);
  Peer 2 28 Leader (AppendTo 4);
  Peer 2 28 Leader (SendAppend 0 [123; 123; 123; 1; 123]);
  Peer 1 39 Leader (AppendTo 3);
  Peer 1 39 Leader (AppendTo 4);
  Peer 2 28 Leader (SendAppend 4 [123; 123; 123; 1; 123]);
  Peer 1 39 Leader (SendAppend 2 [1; 124; 124; 1; 124]);
  Peer 3 43 Candidate BecomeCandidate;
  Peer 3 43 Candidate (RequestVoteTo 0);
  Peer 3 43 Candidate (RequestVoteTo 1);
  Peer 3 43 Candidate (RequestVoteTo 2);
  Peer 3 43 Candidate (RequestVoteTo 4);
  Peer 1 39 Leader (SendAppend 3 [1; 124; 124; 1; 124]);
  Peer 2 28 Leader (SendAppend 1 [123; 123; 123; 1; 123]);
  Peer 1 39 Leader (SendAppend 4 [1; 124; 124; 1; 124]);
  Peer 2 28 Leader (SendAppend 3 [123; 123; 123; 1; 123]);
  Peer 1 39 Leader (SendAppend 0 [1; 124; 124; 1; 124]);
  Peer 2 28 Leader (AppendLost 4);
  Peer 4 42 Candidate (VoteReply 0 42 true);
  Peer 4 42 Candidate (SenderCommit 122 122);
  Peer 4 42 Candidate (VoteGained 0);
  Peer 4 42 Candidate (CheckElection 2 5);
  Peer 1 39 Leader (AppendLost 4);
  Peer 1 39 Leader (AppendLost 0);
  Peer 0 42 Follower (ReceiveRequestVote 4 3 43);
  Peer 0 42 Follower (VoteArgs 43 123 9 133 134);
  Peer 0 42 Follower (HandlerCommit 1 1);
  Peer 0 42 Follower (SelfTermLower 3);
  Peer 0 43 Follower (CompareLogs 9 14 133 123);
  Peer 0 43 Follower (Granted 43 123 9 133 134);
  Peer 0 43 Follower (HandlerCommit 1 1);
  Peer 4 42 Candidate (ReceiveRequestVote 4 3 43);
  Peer 4 42 Candidate (VoteArgs 43 123 16 520 521);
  Peer 4 42 Candidate (HandlerCommit 122 122);
  Peer 4 42 Candidate (SelfTermLower 3);
  Peer 4 43 Follower (CompareLogs 16 14 520 123);
  Peer 4 43 Follower SelfLogNewer;
  Peer 1 39 Leader (AppendLost 2);
  Peer 2 28 Leader (AppendLost 3);
  Peer 2 28 Leader (AppendLost 1);
  Peer 2 28 Leader (AppendLost 0);
  Peer 3 43 Candidate (RequestVoteLost 2);
  Peer 3 43 Candidate (RequestVoteLost 1);
  Peer 2 28 Leader StartHeartBeat;
  Peer 2 28 Leader (AppendTo 0);
  Peer 2 28 Leader (AppendTo 1);
  Peer 2 28 Leader (AppendTo 3);
  Peer 2 28 Leader (AppendTo 4);
  Peer 2 28 Leader (SendAppend 4 [123; 123; 123; 1; 123]);
  Peer 2 28 Leader (SendAppend 0 [123; 123; 123; 1; 123]);
  Peer 2 28 Leader (SendAppend 1 [123; 123; 123; 1; 123]);
  Peer 2 28 Leader (SendAppend 3 [123; 123; 123; 1; 123]);
  Peer 1 39 Leader StartHeartBeat;
  Peer 1 39 Leader (AppendTo 0);
  Peer 1 39 Leader (AppendTo 2);
  Peer 1 39 Leader (AppendTo 3);
  Peer 1 39 Leader (AppendTo 4);
  Peer 1 39 Leader (AppendLost 3);
  Peer 1 39 Leader (SendAppend 0 [1; 124; 124; 1; 124]);
  Peer 1 39 Leader (SendAppend 3 [1; 124; 124; 1; 124]);
  Peer 1 39 Leader (SendAppend 4 [1; 124; 124; 1; 124]);
  Peer 1 39 Leader (SendAppend 2 [1; 124; 124; 1; 124]);
  Peer 1 39 Leader (AppendLost 4);
  Peer 2 28 Leader (AppendLost 4);
  Peer 1 39 Leader (AppendLost 2);
  Peer 1 39 Leader (AppendLost 0);
  Peer 2 28 Leader (AppendLost 1);
  Peer 2 28 Leader (AppendLost 3);
  Peer 2 28 Leader StartHeartBeat;
  Peer 2 28 Leader (AppendTo 0);
  Peer 1 39 Leader (AppendLost 3);
  Peer 2 28 Leader (AppendTo 1);
  Peer 1 39 Leader StartHeartBeat;
  Peer 2 28 Leader (AppendTo 3);
  Peer 1 39 Leader (AppendTo 0);
  Peer 1 39 Leader (AppendTo 2);
  Peer 2 28 Leader (AppendTo 4);
  Peer 2 28 Leader (AppendLost 0);
  Peer 1 39 Leader (AppendTo 3);
  Peer 2 28 Leader (SendAppend 4 [123; 123; 123; 1; 123]);
  Peer 1 39 Leader (AppendTo 4);
  Peer 2 28 Leader (SendAppend 0 [123; 123; 123; 1; 123]);
  Peer 1 39 Leader (SendAppend 3 [1; 124; 124; 1; 124]);
  Peer 1 39 Leader (SendAppend 2 [1; 124; 124; 1; 124]);
  Peer 1 39 Leader (SendAppend 0 [1; 124; 124; 1; 124]);
  Peer 2 28 Leader (SendAppend 1 [123; 123; 123; 1; 123]);
  Peer 1 39 Leader (SendAppend 4 [1; 124; 124; 1; 124]);
  Peer 2 28 Leader (SendAppend 3 [123; 123; 123; 1; 123]);
  Peer 2 28 Leader (AppendLost 1);
  Peer 1 39 Leader (AppendLost 2);
  Peer 2 28 Leader (AppendLost 3);
  Peer 2 28 Leader (AppendLost 0);
  Peer 1 39 Leader (AppendLost 4);
  Peer 1 39 Leader (AppendLost 3);
  Peer 2 28 Leader (AppendLost 4)].

(** Lines 7206 to 7355. *)
Definition run_49 : list Line := [
  Peer 1 39 Leader (AppendLost 0);
  Peer 2 28 Leader StartHeartBeat;
  Peer 2 28 Leader (AppendTo 0);
  Peer 1 39 Leader StartHeartBeat;
  Peer 2 28 Leader (AppendTo 1);
  Peer 1 39 Leader (AppendTo 0);
  Peer 1 39 Leader (AppendTo 2);
  Peer 1 39 Leader (AppendTo 3);
  Peer 1 39 Leader (AppendTo 4);
  Peer 2 28 Leader (AppendTo 3);
  Peer 2 28 Leader (AppendTo 4);
  Peer 1 39 Leader (SendAppend 4 [1; 124; 124; 1; 124]);
  Peer 1 39 Leader (SendAppend 0 [1; 124; 124; 1; 124]);
  Peer 2 28 Leader (SendAppend 3 [123; 123; 123; 1; 123]);
  Peer 2 28 Leader (SendAppend 1 [123; 123; 123; 1; 123]);
  Peer 1 39 Leader (SendAppend 2 [1; 124; 124; 1; 124]);
  Peer 1 39 Leader (SendAppend 3 [1; 124; 124; 1; 124]);
  Peer 2 28 Leader (SendAppend 0 [123; 123; 123; 1; 123]);
  Peer 2 28 Leader (SendAppend 4 [123; 123; 123; 1; 123]);
  Peer 1 39 Leader (AppendLost 4);
  Peer 2 28 Leader (AppendLost 4);
  Peer 1 39 Leader (AppendLost 3);
  Peer 2 28 Leader (AppendLost 1);
  Peer 1 39 Leader (AppendLost 0);
  Peer 2 28 Leader (AppendLost 3);
  Peer 2 28 Leader (AppendLost 0);
  Peer 1 39 Leader (AppendLost 2);
  Peer 1 39 Leader StartHeartBeat;
  Peer 1 39 Leader (AppendTo 0);
  Peer 1 39 Leader (AppendTo 2);
  Peer 1 39 Leader (AppendTo 3);
  Peer 1 39 Leader (AppendTo 4);
  Peer 1 39 Leader (SendAppend 4 [1; 124; 124; 1; 124]);
  Peer 1 39 Leader (SendAppend 0 [1; 124; 124; 1; 124]);
  Peer 1 39 Leader (SendAppend 2 [1; 124; 124; 1; 124]);
  Peer 2 28 Leader StartHeartBeat;
  Peer 2 28 Leader (AppendTo 0);
  Peer 1 39 Leader (SendAppend 3 [1; 124; 124; 1; 124]);
  Peer 2 28 Leader (AppendTo 1);
  Peer 2 28 Leader (AppendTo 3);
  Peer 2 28 Leader (AppendTo 4);
  Peer 2 28 Leader (SendAppend 0 [123; 123; 123; 1; 123]);
  Peer 2 28 Leader (SendAppend 3 [123; 123; 123; 1; 123]);
  Peer 2 28 Leader (SendAppend 1 [123; 123; 123; 1; 123]);
  Peer 2 28 Leader (SendAppend 4 [123; 123; 123; 1; 123]);
  Peer 2 28 Leader (AppendLost 3);
  Peer 1 39 Leader (AppendLost 2);
  Peer 2 28 Leader (AppendLost 0);
  Peer 1 39 Leader (AppendLost 3);
  Peer 1 39 Leader (AppendLost 4);
  Peer 2 28 Leader (AppendLost 1);
  Peer 1 39 Leader (AppendLost 0);
  Peer 4 43 Follower (VoteReply 3 42 true);
  Peer 4 43 Follower (SenderCommit 122 122);
  Peer 4 43 Follower (VoteGained 3);
  Peer 4 43 Follower (CheckElection 0 5);
  Peer 4 43 Follower NotCandidate;
  Peer 2 28 Leader (AppendLost 4);
  Peer 2 28 Leader StartHeartBeat;
  Peer 2 28 Leader (AppendTo 0);
  Peer 2 28 Leader (AppendTo 1);
  Peer 1 39 Leader StartHeartBeat;
  Peer 2 28 Leader (AppendTo 3);
  Peer 1 39 Leader (AppendTo 0);
  Peer 1 39 Leader (AppendTo 2);
  Peer 2 28 Leader (AppendTo 4);
  Peer 1 39 Leader (AppendTo 3);
  Peer 1 39 Leader (AppendTo 4);
  Peer 2 28 Leader (SendAppend 1 [123; 123; 123; 1; 123]);
  Peer 1 39 Leader (SendAppend 3 [1; 124; 124; 1; 124]);
  Peer 2 28 Leader (SendAppend 3 [123; 123; 123; 1; 123]);
  Peer 1 39 Leader (SendAppend 2 [1; 124; 124; 1; 124]);
  Peer 1 39 Leader (SendAppend 0 [1; 124; 124; 1; 124]);
  Peer 1 39 Leader (SendAppend 4 [1; 124; 124; 1; 124]);
  Peer 2 28 Leader (AppendLost 1);
  Peer 2 28 Leader (SendAppend 0 [123; 123; 123; 1; 123]);
  Peer 2 28 Leader (SendAppend 4 [123; 123; 123; 1; 123]);
  Peer 3 43 Candidate (VoteReply 0 43 true);
  Peer 3 43 Candidate (SenderCommit 1 1);
  Peer 3 43 Candidate (VoteGained 0);
  Peer 3 43 Candidate (CheckElection 2 5);
  Peer 1 39 Leader (AppendLost 2);
  Peer 2 28 Leader (AppendLost 0);
  Peer 1 39 Leader (AppendLost 0);
  Peer 1 39 Leader (AppendLost 3);
  Peer 2 28 Leader (AppendLost 4);
  Peer 2 28 Leader (AppendLost 3);
  Peer 1 39 Leader (AppendLost 4);
  Peer 1 39 Leader StartHeartBeat;
  Peer 1 39 Leader (AppendTo 0);
  Peer 1 39 Leader (AppendTo 2);
  Peer 3 43 Candidate StartElection;
  Peer 2 28 Leader StartHeartBeat;
  Peer 2 28 Leader (AppendTo 0);
  Peer 1 39 Leader (AppendTo 3);
  Peer 2 28 Leader (AppendTo 1);
  Peer 1 39 Leader (AppendTo 4);
  Peer 2 28 Leader (AppendTo 3);
  Peer 2 28 Leader (AppendTo 4);
  Peer 1 39 Leader (SendAppend 2 [1; 124; 124; 1; 124]);
  Peer 2 28 Leader (SendAppend 0 [123; 123; 123; 1; 123]);
  Peer 3 44 Candidate BecomeCandidate;
  Peer 3 44 Candidate (RequestVoteTo 0);
  Peer 3 44 Candidate (RequestVoteTo 1);
  Peer 3 44 Candidate (RequestVoteTo 2);
  Peer 3 44 Candidate (RequestVoteTo 4);
  Peer 1 39 Leader (SendAppend 4 [1; 124; 124; 1; 124]);
  Peer 1 39 Leader (SendAppend 0 [1; 124; 124; 1; 124]);
  Peer 2 28 Leader (SendAppend 3 [123; 123; 123; 1; 123]);
  Peer 2 28 Leader (SendAppend 4 [123; 123; 123; 1; 123]);
  Peer 1 39 Leader (SendAppend 3 [1; 124; 124; 1; 124]);
  Peer 2 28 Leader (SendAppend 1 [123; 123; 123; 1; 123]);
  Peer 3 44 Candidate (RequestVoteLost 4);
  Peer 2 28 Leader (AppendLost 3);
  Peer 1 39 Leader (AppendLost 2);
  Peer 1 39 Leader (AppendLost 4);
  Peer 1 39 Leader (AppendLost 3);
  Peer 0 43 Follower (ReceiveRequestVote 3 3 44);
  Peer 0 43 Follower (VoteArgs 44 123 9 133 134);
  Peer 0 43 Follower (HandlerCommit 1 1);
  Peer 0 43 Follower (SelfTermLower 3);
  Peer 0 44 Follower (CompareLogs 9 14 133 123);
  Peer 0 44 Follower (Granted 44 123 9 133 134);
  Peer 0 44 Follower (HandlerCommit 1 1);
  Peer 3 44 Candidate (VoteReply 0 44 true);
  Peer 3 44 Candidate (SenderCommit 1 1);
  Peer 3 44 Candidate (VoteGained 0);
  Peer 3 44 Candidate (CheckElection 2 5);
  Peer 1 39 Leader (AppendLost 0);
  Peer 2 28 Leader (AppendLost 4);
  Peer 3 44 Candidate (RequestVoteLost 1);
  Peer 2 28 Leader (AppendLost 0);
  Peer 2 28 Leader (AppendLost 1);
  Peer 4 43 Follower StartElection;
  Peer 2 28 Leader StartHeartBeat;
  Peer 3 44 Candidate (RequestVoteLost 2);
  Peer 2 28 Leader (AppendTo 0);
  Peer 2 28 Leader (AppendTo 1);
  Peer 2 28 Leader (AppendTo 3);
  Peer 2 28 Leader (AppendTo 4);
  Peer 1 39 Leader StartHeartBeat;
  Peer 1 39 Leader (AppendTo 0);
  Peer 1 39 Leader (AppendTo 2);
  Peer 2 28 Leader (SendAppend 4 [123; 123; 123; 1; 123]);
  Peer 1 39 Leader (AppendTo 3);
  Peer 1 39 Leader (AppendTo 4);
  Peer 2 28 Leader (SendAppend 1 [123; 123; 123; 1; 123]);
  Peer 1 39 Leader (SendAppend 2 [1; 124; 124; 1; 124]);
  Peer 1 39 Leader (SendAppend 0 [1; 124; 124; 1; 124]);
  Peer 2 28 Leader (SendAppend 0 [123; 123; 123; 1; 123])].

(** Lines 7356 to 7505. *)
Definition run_50 : list Line := [
  Peer 4 44 Candidate BecomeCandidate;
  Peer 4 44 Candidate (RequestVoteTo 0);
  Peer 4 44 Candidate (RequestVoteTo 1);
  Peer 4 44 Candidate (RequestVoteTo 2);
  Peer 4 44 Candidate (RequestVoteTo 3);
  Peer 1 39 Leader (SendAppend 3 [1; 124; 124; 1; 124]);
  Peer 2 28 Leader (SendAppend 3 [123; 123; 123; 1; 123]);
  Peer 1 39 Leader (SendAppend 4 [1; 124; 124; 1; 124]);
  Peer 4 44 Candidate (RequestVoteLost 1);
  Peer 3 44 Candidate (VoteReply 4 43 false);
  Peer 3 44 Candidate (SenderCommit 1 1);
  Peer 3 44 Candidate (CheckElection 2 5);
  Peer 2 28 Leader (AppendLost 4);
  Peer 3 44 Candidate (ReceiveRequestVote 3 4 44);
  Peer 3 44 Candidate (VoteArgs 44 520 14 123 124);
  Peer 3 44 Candidate (HandlerCommit 1 1);
  Peer 3 44 Candidate (CompareLogs 14 16 123 520);
  Peer 3 44 Candidate Refused;
  Peer 0 44 Follower (ReceiveRequestVote 3 4 44);
  Peer 0 44 Follower (VoteArgs 44 520 9 133 134);
  Peer 0 44 Follower (HandlerCommit 1 1);
  Peer 0 44 Follower (CompareLogs 9 16 133 520);
  Peer 0 44 Follower Refused;
  Peer 1 39 Leader (AppendLost 0);
  Peer 4 44 Candidate (VoteReply 0 44 false);
  Peer 4 44 Candidate (SenderCommit 122 122);
  Peer 4 44 Candidate (CheckElection 1 5);
  Peer 1 39 Leader (AppendLost 3);
  Peer 2 28 Leader (AppendLost 3);
  Peer 2 28 Leader (AppendLost 1);
  Peer 2 28 Leader (AppendLost 0);
  Peer 4 44 Candidate (RequestVoteLost 2);
  Peer 1 39 Leader (AppendLost 2);
  Peer 1 39 Leader (AppendLost 4);
  Peer 2 28 Leader StartHeartBeat;
  Peer 1 39 Leader StartHeartBeat;
  Peer 2 28 Leader (AppendTo 0);
  Peer 1 39 Leader (AppendTo 0);
  Peer 2 28 Leader (AppendTo 1);
  Peer 2 28 Leader (AppendTo 3);
  Peer 2 28 Leader (AppendTo 4);
  Peer 1 39 Leader (AppendTo 2);
  Peer 1 39 Leader (AppendTo 3);
  Peer 1 39 Leader (AppendTo 4);
  Peer 2 28 Leader (SendAppend 4 [123; 123; 123; 1; 123]);
  Peer 1 39 Leader (SendAppend 0 [1; 124; 124; 1; 124]);
  Peer 2 28 Leader (SendAppend 1 [123; 123; 123; 1; 123]);
  Peer 2 28 Leader (SendAppend 3 [123; 123; 123; 1; 123]);
  Peer 1 39 Leader (SendAppend 2 [1; 124; 124; 1; 124]);
  Peer 1 39 Leader (SendAppend 3 [1; 124; 124; 1; 124]);
  Peer 2 28 Leader (SendAppend 0 [123; 123; 123; 1; 123]);
  Peer 1 39 Leader (SendAppend 4 [1; 124; 124; 1; 124]);
  Peer 2 28 Leader (AppendLost 3);
  Peer 2 28 Leader (AppendLost 0);
  Peer 2 28 Leader (AppendLost 4);
  Peer 1 39 Leader (AppendLost 0);
  Peer 2 28 Leader (AppendLost 1);
  Peer 1 39 Leader (AppendLost 4);
  Peer 1 39 Leader (AppendLost 2);
  Peer 2 28 Leader StartHeartBeat;
  Peer 2 28 Leader (AppendTo 0);
  Peer 2 28 Leader (AppendTo 1);
  Peer 2 28 Leader (AppendTo 3);
  Peer 2 28 Leader (AppendTo 4);
  Peer 1 39 Leader (AppendLost 3);
  Peer 2 28 Leader (SendAppend 4 [123; 123; 123; 1; 123]);
  Peer 1 39 Leader StartHeartBeat;
  Peer 1 39 Leader (AppendTo 0);
  Peer 1 39 Leader (AppendTo 2);
  Peer 1 39 Leader (AppendTo 3);
  Peer 1 39 Leader (AppendTo 4);
  Peer 1 39 Leader (SendAppend 4 [1; 124; 124; 1; 124]);
  Peer 1 39 Leader (SendAppend 0 [1; 124; 124; 1; 124]);
  Peer 2 28 Leader (SendAppend 0 [123; 123; 123; 1; 123]);
  Peer 1 39 Leader (SendAppend 2 [1; 124; 124; 1; 124]);
  Peer 2 28 Leader (SendAppend 1 [123; 123; 123; 1; 123]);
  Peer 1 39 Leader (SendAppend 3 [1; 124; 124; 1; 124]);
  Peer 2 28 Leader (SendAppend 3 [123; 123; 123; 1; 123]);
  Peer 1 39 Leader (AppendLost 3);
  Peer 2 28 Leader (AppendLost 3);
  Peer 1 39 Leader (AppendLost 4);
  Peer 1 39 Leader (AppendLost 2);
  Peer 1 39 Leader (AppendLost 0);
  Peer 2 28 Leader (AppendLost 4);
  Peer 2 28 Leader (AppendLost 1);
  Peer 2 28 Leader StartHeartBeat;
  Peer 2 28 Leader (AppendTo 0);
  Peer 2 28 Leader (AppendTo 1);
  Peer 2 28 Leader (AppendTo 3);
  Peer 2 28 Leader (AppendTo 4);
  Peer 2 28 Leader (AppendLost 0);
  Peer 1 39 Leader StartHeartBeat;
  Peer 1 39 Leader (AppendTo 0);
  Peer 1 39 Leader (AppendTo 2);
  Peer 1 39 Leader (AppendTo 3);
  Peer 1 39 Leader (AppendTo 4);
  Peer 2 28 Leader (SendAppend 4 [123; 123; 123; 1; 123]);
  Peer 1 39 Leader (SendAppend 4 [1; 124; 124; 1; 124]);
  Peer 1 39 Leader (SendAppend 0 [1; 124; 124; 1; 124]);
  Peer 2 28 Leader (SendAppend 0 [123; 123; 123; 1; 123]);
  Peer 1 39 Leader (SendAppend 2 [1; 124; 124; 1; 124]);
  Peer 2 28 Leader (SendAppend 1 [123; 123; 123; 1; 123]);
  Peer 1 39 Leader (SendAppend 3 [1; 124; 124; 1; 124]);
  Peer 2 28 Leader (SendAppend 3 [123; 123; 123; 1; 123]);
  Peer 2 28 Leader (AppendLost 0);
  Peer 1 39 Leader (AppendLost 4);
  Peer 2 28 Leader (AppendLost 1);
  Peer 2 28 Leader (AppendLost 3);
  Peer 1 39 Leader (AppendLost 0);
  Peer 1 39 Leader (AppendLost 3);
  Peer 2 28 Leader (AppendLost 4);
  Peer 1 39 Leader (AppendLost 2);
  Peer 2 28 Leader StartHeartBeat;
  Peer 2 28 Leader (AppendTo 0);
  Peer 2 28 Leader (AppendTo 1);
  Peer 2 28 Leader (AppendTo 3);
  Peer 2 28 Leader (AppendTo 4);
  Peer 1 39 Leader StartHeartBeat;
  Peer 1 39 Leader (AppendTo 0);
  Peer 2 28 Leader (SendAppend 4 [123; 123; 123; 1; 123]);
  Peer 1 39 Leader (AppendTo 2);
  Peer 1 39 Leader (AppendTo 3);
  Peer 1 39 Leader (AppendTo 4);
  Peer 1 39 Leader (SendAppend 4 [1; 124; 124; 1; 124]);
  Peer 1 39 Leader (SendAppend 0 [1; 124; 124; 1; 124]);
  Peer 2 28 Leader (SendAppend 1 [123; 123; 123; 1; 123]);
  Peer 1 39 Leader (SendAppend 3 [1; 124; 124; 1; 124]);
  Peer 1 39 Leader (SendAppend 2 [1; 124; 124; 1; 124]);
  Peer 2 28 Leader (SendAppend 0 [123; 123; 123; 1; 123]);
  Peer 2 28 Leader (SendAppend 3 [123; 123; 123; 1; 123]);
  Peer 2 28 Leader (AppendLost 1);
  Peer 2 28 Leader (AppendLost 4);
  Peer 1 39 Leader (AppendLost 4);
  Peer 4 44 Candidate (VoteReply 3 44 false);
  Peer 4 44 Candidate (SenderCommit 122 122);
  Peer 4 44 Candidate (CheckElection 1 5);
  Peer 1 39 Leader (AppendLost 0);
  Peer 2 28 Leader (AppendLost 3);
  Peer 2 28 Leader (AppendLost 0);
  Peer 1 39 Leader (AppendLost 3);
  Peer 1 39 Leader (AppendLost 2);
  Peer 1 39 Leader StartHeartBeat;
  Peer 1 39 Leader (AppendTo 0);
  Peer 1 39 Leader (AppendTo 2);
  Peer 1 39 Leader (AppendTo 3);
  Peer 1 39 Leader (AppendTo 4);
  Peer 2 28 Leader StartHeartBeat;
  Peer 2 28 Leader (AppendTo 0);
  Peer 2 28 Leader (AppendTo 1);
  Peer 2 28 Leader (AppendTo 3)].

(** Lines 7506 to 7655. *)
Definition run_51 : list Line := [
  Peer 2 28 Leader (AppendTo 4);
  Peer 2 28 Leader (SendAppend 4 [123; 123; 123; 1; 123]);
  Peer 1 39 Leader (SendAppend 0 [1; 124; 124; 1; 124]);
  Peer 2 28 Leader (SendAppend 3 [123; 123; 123; 1; 123]);
  Peer 2 28 Leader (SendAppend 1 [123; 123; 123; 1; 123]);
  Peer 2 28 Leader (SendAppend 0 [123; 123; 123; 1; 123]);
  Peer 1 39 Leader (SendAppend 4 [1; 124; 124; 1; 124]);
  Peer 1 39 Leader (SendAppend 2 [1; 124; 124; 1; 124]);
  Peer 1 39 Leader (SendAppend 3 [1; 124; 124; 1; 124]);
  Peer 2 28 Leader (AppendLost 4);
  Peer 2 28 Leader (AppendLost 0);
  Peer 1 39 Leader (AppendLost 3);
  Peer 2 28 Leader (AppendLost 1);
  Peer 2 28 Leader (AppendLost 3);
  Peer 1 39 Leader (AppendLost 0);
  Peer 2 28 Leader StartHeartBeat;
  Peer 2 28 Leader (AppendTo 0);
  Peer 2 28 Leader (AppendTo 1);
  Peer 2 28 Leader (AppendTo 3);
  Peer 2 28 Leader (AppendTo 4);
  Peer 2 28 Leader (SendAppend 4 [123; 123; 123; 1; 123]);
  Peer 2 28 Leader (SendAppend 0 [123; 123; 123; 1; 123]);
  Peer 1 39 Leader StartHeartBeat;
  Peer 1 39 Leader (AppendTo 0);
  Peer 1 39 Leader (AppendTo 2);
  Peer 2 28 Leader (SendAppend 1 [123; 123; 123; 1; 123]);
  Peer 1 39 Leader (AppendTo 3);
  Peer 1 39 Leader (AppendTo 4);
  Peer 1 39 Leader (AppendLost 4);
  Peer 1 39 Leader (AppendLost 2);
  Peer 1 39 Leader (SendAppend 2 [1; 124; 124; 1; 124]);
  Peer 1 39 Leader (SendAppend 4 [1; 124; 124; 1; 124]);
  Peer 2 28 Leader (SendAppend 3 [123; 123; 123; 1; 123]);
  Peer 1 39 Leader (SendAppend 0 [1; 124; 124; 1; 124]);
  Peer 1 39 Leader (SendAppend 3 [1; 124; 124; 1; 124]);
  Peer 2 28 Leader (AppendLost 4);
  Peer 2 28 Leader (AppendLost 0);
  Peer 2 28 Leader (AppendLost 1);
  Peer 1 39 Leader (AppendLost 2);
  Peer 1 39 Leader (AppendLost 0);
  Peer 1 39 Leader (AppendLost 4);
  Peer 2 28 Leader (AppendLost 3);
  Peer 1 39 Leader (AppendLost 3);
  Peer 2 28 Leader StartHeartBeat;
  Peer 2 28 Leader (AppendTo 0);
  Peer 0 44 Follower StartElection;
  Peer 3 44 Candidate StartElection;
  Peer 1 39 Leader StartHeartBeat;
  Peer 1 39 Leader (AppendTo 0);
  Peer 1 39 Leader (AppendTo 2);
  Peer 1 39 Leader (AppendTo 3);
  Peer 1 39 Leader (AppendTo 4);
  Peer 1 39 Leader (SendAppend 4 [1; 124; 124; 1; 124]);
  Peer 3 45 Candidate BecomeCandidate;
  Peer 3 45 Candidate (RequestVoteTo 0);
  Peer 3 45 Candidate (RequestVoteTo 1);
  Peer 3 45 Candidate (RequestVoteTo 2);
  Peer 3 45 Candidate (RequestVoteTo 4);
  Peer 0 45 Candidate BecomeCandidate;
  Peer 0 45 Candidate (RequestVoteTo 1);
  Peer 0 45 Candidate (RequestVoteTo 2);
  Peer 0 45 Candidate (RequestVoteTo 3);
  Peer 0 45 Candidate (RequestVoteTo 4);
  Peer 1 39 Leader (SendAppend 0 [1; 124; 124; 1; 124]);
  Peer 1 39 Leader (SendAppend 2 [1; 124; 124; 1; 124]);
  Peer 2 28 Leader (AppendTo 1);
  Peer 2 28 Leader (AppendTo 3);
  Peer 2 28 Leader (AppendTo 4);
  Peer 2 28 Leader (SendAppend 0 [123; 123; 123; 1; 123]);
  Peer 1 39 Leader (SendAppend 3 [1; 124; 124; 1; 124]);
  Peer 3 45 Candidate (RequestVoteLost 1);
  Peer 2 28 Leader (SendAppend 3 [123; 123; 123; 1; 123]);
  Peer 2 28 Leader (SendAppend 4 [123; 123; 123; 1; 123]);
  Peer 2 28 Leader (SendAppend 1 [123; 123; 123; 1; 123]);
  Peer 4 44 Candidate (ReceiveRequestVote 4 3 45);
  Peer 4 44 Candidate (VoteArgs 45 123 16 520 521);
  Peer 4 44 Candidate (HandlerCommit 122 122);
  Peer 4 44 Candidate (SelfTermLower 3);
  Peer 0 45 Candidate (RequestVoteLost 3);
  Peer 1 39 Leader (AppendLost 2);
  Peer 4 45 Follower (CompareLogs 16 14 520 123);
  Peer 4 45 Follower SelfLogNewer;
  Peer 0 45 Candidate (RequestVoteLost 1);
  Peer 0 45 Candidate (ReceiveRequestVote 0 3 45);
  Peer 0 45 Candidate (VoteArgs 45 123 9 133 134);
  Peer 0 45 Candidate (HandlerCommit 1 1);
  Peer 0 45 Candidate (CompareLogs 9 14 133 123);
  Peer 0 45 Candidate Refused;
  Peer 4 45 Follower (ReceiveRequestVote 3 0 45);
  Peer 4 45 Follower (VoteArgs 45 133 16 520 521);
  Peer 4 45 Follower (HandlerCommit 122 122);
  Peer 4 45 Follower (CompareLogs 16 9 520 133);
  Peer 4 45 Follower SelfLogNewer;
  Peer 2 28 Leader (AppendLost 3);
  Peer 3 45 Candidate (RequestVoteLost 2);
  Peer 2 28 Leader (AppendLost 4);
  Peer 1 39 Leader (AppendLost 3);
  Peer 1 39 Leader (AppendLost 4);
  Peer 0 45 Candidate (RequestVoteLost 2);
  Peer 2 28 Leader (AppendLost 1);
  Peer 2 28 Leader (AppendLost 0);
  Peer 2 28 Leader StartHeartBeat;
  Peer 2 28 Leader (AppendTo 0);
  Peer 2 28 Leader (AppendTo 1);
  Peer 2 28 Leader (AppendTo 3);
  Peer 2 28 Leader (AppendTo 4);
  Peer 2 28 Leader (SendAppend 4 [123; 123; 123; 1; 123]);
  Peer 2 28 Leader (SendAppend 0 [123; 123; 123; 1; 123]);
  Peer 1 39 Leader (AppendLost 0);
  Peer 1 39 Leader StartHeartBeat;
  Peer 1 39 Leader (AppendTo 0);
  Peer 1 39 Leader (AppendTo 2);
  Peer 1 39 Leader (AppendTo 3);
  Peer 2 28 Leader (SendAppend 1 [123; 123; 123; 1; 123]);
  Peer 1 39 Leader (AppendTo 4);
  Peer 1 39 Leader (SendAppend 3 [1; 124; 124; 1; 124]);
  Peer 1 39 Leader (SendAppend 4 [1; 124; 124; 1; 124]);
  Peer 2 28 Leader (SendAppend 3 [123; 123; 123; 1; 123]);
  Peer 1 39 Leader (SendAppend 0 [1; 124; 124; 1; 124]);
  Peer 1 39 Leader (SendAppend 2 [1; 124; 124; 1; 124]);
  Peer 1 39 Leader (AppendLost 0);
  Peer 2 28 Leader (AppendLost 4);
  Peer 1 39 Leader (AppendLost 2);
  Peer 2 28 Leader (AppendLost 3);
  Peer 2 28 Leader (AppendLost 1);
  Peer 1 39 Leader (AppendLost 4);
  Peer 1 39 Leader (AppendLost 3);
  Peer 2 28 Leader StartHeartBeat;
  Peer 2 28 Leader (AppendTo 0);
  Peer 1 39 Leader StartHeartBeat;
  Peer 2 28 Leader (AppendTo 1);
  Peer 2 28 Leader (AppendTo 3);
  Peer 2 28 Leader (AppendTo 4);
  Peer 1 39 Leader (AppendTo 0);
  Peer 1 39 Leader (AppendTo 2);
  Peer 1 39 Leader (AppendTo 3);
  Peer 1 39 Leader (AppendTo 4);
  Peer 2 28 Leader (SendAppend 4 [123; 123; 123; 1; 123]);
  Peer 1 39 Leader (SendAppend 4 [1; 124; 124; 1; 124]);
  Peer 2 28 Leader (AppendLost 0);
  Peer 1 39 Leader (SendAppend 0 [1; 124; 124; 1; 124]);
  Peer 2 28 Leader (SendAppend 1 [123; 123; 123; 1; 123]);
  Peer 1 39 Leader (SendAppend 3 [1; 124; 124; 1; 124]);
  Peer 2 28 Leader (SendAppend 3 [123; 123; 123; 1; 123]);
  Peer 2 28 Leader (SendAppend 0 [123; 123; 123; 1; 123]);
  Peer 1 39 Leader (SendAppend 2 [1; 124; 124; 1; 124]);
  Peer 1 39 Leader (AppendLost 0);
  Peer 1 39 Leader (AppendLost 2);
  Peer 2 28 Leader (AppendLost 0);
  Peer 2 28 Leader (AppendLost 3)].

(** Lines 7656 to 7805. *)
Definition run_52 : list Line := [
  Peer 2 28 Leader (AppendLost 1);
  Peer 1 39 Leader (AppendLost 3);
  Peer 1 39 Leader (AppendLost 4);
  Peer 2 28 Leader (AppendLost 4);
  Peer 2 28 Leader StartHeartBeat;
  Peer 2 28 Leader (AppendTo 0);
  Peer 2 28 Leader (AppendTo 1);
  Peer 2 28 Leader (AppendTo 3);
  Peer 2 28 Leader (AppendTo 4);
  Peer 2 28 Leader (SendAppend 4 [123; 123; 123; 1; 123]);
  Peer 2 28 Leader (SendAppend 0 [123; 123; 123; 1; 123]);
  Peer 1 39 Leader StartHeartBeat;
  Peer 1 39 Leader (AppendTo 0);
  Peer 1 39 Leader (AppendTo 2);
  Peer 1 39 Leader (AppendTo 3);
  Peer 1 39 Leader (AppendTo 4);
  Peer 2 28 Leader (SendAppend 3 [123; 123; 123; 1; 123]);
  Peer 2 28 Leader (SendAppend 1 [123; 123; 123; 1; 123]);
  Peer 1 39 Leader (SendAppend 4 [1; 124; 124; 1; 124]);
  Peer 1 39 Leader (SendAppend 0 [1; 124; 124; 1; 124]);
  Peer 1 39 Leader (SendAppend 2 [1; 124; 124; 1; 124]);
  Peer 1 39 Leader (SendAppend 3 [1; 124; 124; 1; 124]);
  Peer 1 39 Leader (AppendLost 2);
  Peer 1 39 Leader (AppendLost 3);
  Peer 1 39 Leader (AppendLost 4);
  Peer 1 39 Leader (AppendLost 0);
  Peer 2 28 Leader (AppendLost 4);
  Peer 2 28 Leader (AppendLost 3);
  Peer 2 28 Leader (AppendLost 1);
  Peer 2 28 Leader (AppendLost 0);
  Peer 2 28 Leader StartHeartBeat;
  Peer 1 39 Leader StartHeartBeat;
  Peer 2 28 Leader (AppendTo 0);
  Peer 1 39 Leader (AppendTo 0);
  Peer 2 28 Leader (AppendTo 1);
  Peer 2 28 Leader (AppendTo 3);
  Peer 2 28 Leader (AppendTo 4);
  Peer 1 39 Leader (AppendTo 2);
  Peer 2 28 Leader (SendAppend 4 [123; 123; 123; 1; 123]);
  Peer 1 39 Leader (AppendTo 3);
  Peer 1 39 Leader (AppendTo 4);
  Peer 1 39 Leader (SendAppend 0 [1; 124; 124; 1; 124]);
  Peer 1 39 Leader (SendAppend 2 [1; 124; 124; 1; 124]);
  Peer 0 45 Candidate (VoteReply 4 45 false);
  Peer 0 45 Candidate (SenderCommit 1 1);
  Peer 0 45 Candidate (CheckElection 1 5);
  Peer 1 39 Leader (SendAppend 4 [1; 124; 124; 1; 124]);
  Peer 2 28 Leader (SendAppend 0 [123; 123; 123; 1; 123]);
  Peer 1 39 Leader (SendAppend 3 [1; 124; 124; 1; 124]);
  Peer 2 28 Leader (SendAppend 3 [123; 123; 123; 1; 123]);
  Peer 2 28 Leader (SendAppend 1 [123; 123; 123; 1; 123]);
  Peer 1 39 Leader (AppendLost 0);
  Peer 3 45 Candidate (VoteReply 0 45 false);
  Peer 3 45 Candidate (SenderCommit 1 1);
  Peer 3 45 Candidate (CheckElection 1 5);
  Peer 2 28 Leader (AppendLost 3);
  Peer 2 28 Leader (AppendLost 1);
  Peer 2 28 Leader (AppendLost 0);
  Peer 1 39 Leader (AppendLost 2);
  Peer 1 39 Leader (AppendLost 3);
  Peer 1 39 Leader (AppendLost 4);
  Peer 1 39 Leader StartHeartBeat;
  Peer 1 39 Leader (AppendTo 0);
  Peer 1 39 Leader (AppendTo 2);
  Peer 1 39 Leader (AppendTo 3);
  Peer 1 39 Leader (AppendTo 4);
  Peer 1 39 Leader (SendAppend 4 [1; 124; 124; 1; 124]);
  Peer 1 39 Leader (SendAppend 2 [1; 124; 124; 1; 124]);
  Peer 2 28 Leader StartHeartBeat;
  Peer 2 28 Leader (AppendTo 0);
  Peer 2 28 Leader (AppendTo 1);
  Peer 2 28 Leader (AppendTo 3);
  Peer 2 28 Leader (AppendTo 4);
  Peer 2 28 Leader (SendAppend 4 [123; 123; 123; 1; 123]);
  Peer 2 28 Leader (SendAppend 1 [123; 123; 123; 1; 123]);
  Peer 1 39 Leader (SendAppend 3 [1; 124; 124; 1; 124]);
  Peer 2 28 Leader (SendAppend 3 [123; 123; 123; 1; 123]);
  Peer 1 39 Leader (SendAppend 0 [1; 124; 124; 1; 124]);
  Peer 2 28 Leader (SendAppend 0 [123; 123; 123; 1; 123]);
  Peer 2 28 Leader (AppendLost 4);
  Peer 1 39 Leader (AppendLost 4);
  Peer 2 28 Leader (AppendLost 0);
  Peer 1 39 Leader (AppendLost 2);
  Peer 2 28 Leader (AppendLost 3);
  Peer 2 28 Leader (AppendLost 4);
  Peer 1 39 Leader (AppendLost 0);
  Peer 1 39 Leader (AppendLost 3);
  Peer 2 28 Leader (AppendLost 1);
  Peer 3 45 Candidate StartElection;
  Peer 2 28 Leader StartHeartBeat;
  Peer 2 28 Leader (AppendTo 0);
  Peer 2 28 Leader (AppendTo 1);
  Peer 2 28 Leader (AppendTo 3);
  Peer 2 28 Leader (AppendTo 4);
  Peer 2 28 Leader (SendAppend 4 [123; 123; 123; 1; 123]);
  Peer 3 46 Candidate BecomeCandidate;
  Peer 3 46 Candidate (RequestVoteTo 0);
  Peer 3 46 Candidate (RequestVoteTo 1);
  Peer 3 46 Candidate (RequestVoteTo 2);
  Peer 3 46 Candidate (RequestVoteTo 4);
  Peer 2 28 Leader (SendAppend 3 [123; 123; 123; 1; 123]);
  Peer 1 39 Leader StartHeartBeat;
  Peer 1 39 Leader (AppendTo 0);
  Peer 1 39 Leader (AppendTo 2);
  Peer 1 39 Leader (AppendTo 3);
  Peer 1 39 Leader (AppendTo 4);
  Peer 1 39 Leader (SendAppend 4 [1; 124; 124; 1; 124]);
  Peer 1 39 Leader (SendAppend 2 [1; 124; 124; 1; 124]);
  Peer 1 39 Leader (SendAppend 3 [1; 124; 124; 1; 124]);
  Peer 1 39 Leader (SendAppend 0 [1; 124; 124; 1; 124]);
  Peer 2 28 Leader (SendAppend 1 [123; 123; 123; 1; 123]);
  Peer 2 28 Leader (SendAppend 0 [123; 123; 123; 1; 123]);
  Peer 1 39 Leader (AppendLost 2);
  Peer 1 39 Leader (AppendLost 4);
  Peer 4 45 Follower (ReceiveRequestVote 3 3 46);
  Peer 2 28 Leader (AppendLost 4);
  Peer 4 45 Follower (VoteArgs 46 123 16 520 521);
  Peer 4 45 Follower (HandlerCommit 122 122);
  Peer 4 45 Follower (SelfTermLower 3);
  Peer 0 45 Candidate (ReceiveRequestVote 0 3 46);
  Peer 0 45 Candidate (VoteArgs 46 123 9 133 134);
  Peer 0 45 Candidate (HandlerCommit 1 1);
  Peer 0 45 Candidate (SelfTermLower 3);
  Peer 1 39 Leader (AppendLost 3);
  Peer 0 46 Follower (CompareLogs 9 14 133 123);
  Peer 0 46 Follower (Granted 46 123 9 133 134);
  Peer 0 46 Follower (HandlerCommit 1 1);
  Peer 3 46 Candidate (RequestVoteLost 0);
  Peer 4 46 Follower (CompareLogs 16 14 520 123);
  Peer 4 46 Follower SelfLogNewer;
  Peer 3 46 Candidate (VoteReply 4 46 false);
  Peer 3 46 Candidate (SenderCommit 1 1);
  Peer 3 46 Candidate (CheckElection 1 5);
  Peer 3 46 Candidate (RequestVoteLost 1);
  Peer 2 28 Leader (AppendLost 3);
  Peer 3 46 Candidate (RequestVoteLost 2);
  Peer 2 28 Leader (AppendLost 0);
  Peer 2 28 Leader (AppendLost 1);
  Peer 1 39 Leader (AppendLost 0);
  Peer 2 28 Leader StartHeartBeat;
  Peer 2 28 Leader (AppendTo 0);
  Peer 1 39 Leader StartHeartBeat;
  Peer 1 39 Leader (AppendTo 0);
  Peer 1 39 Leader (AppendTo 2);
  Peer 2 28 Leader (AppendTo 1);
  Peer 2 28 Leader (AppendTo 3);
  Peer 2 28 Leader (AppendTo 4);
  Peer 1 39 Leader (AppendTo 3);
  Peer 1 39 Leader (AppendTo 4);
  Peer 2 28 Leader (SendAppend 4 [123; 123; 123; 1; 123])].

(** Lines 7806 to 7955. *)
Definition run_53 : list Line := [
  Peer 1 39 Leader (SendAppend 4 [1; 124; 124; 1; 124]);
  Peer 1 39 Leader (SendAppend 0 [1; 124; 124; 1; 124]);
  Peer 2 28 Leader (SendAppend 0 [123; 123; 123; 1; 123]);
  Peer 2 28 Leader (SendAppend 1 [123; 123; 123; 1; 123]);
  Peer 2 28 Leader (SendAppend 3 [123; 123; 123; 1; 123]);
  Peer 1 39 Leader (SendAppend 2 [1; 124; 124; 1; 124]);
  Peer 1 39 Leader (SendAppend 3 [1; 124; 124; 1; 124]);
  Peer 1 39 Leader (AppendLost 2);
  Peer 1 39 Leader (AppendLost 0);
  Peer 2 28 Leader (AppendLost 3);
  Peer 2 28 Leader (AppendLost 0);
  Peer 1 39 Leader (AppendLost 3);
  Peer 2 28 Leader (AppendLost 1);
  Peer 2 28 Leader (AppendLost 4);
  Peer 1 39 Leader (AppendLost 4);
  Peer 3 46 Candidate (VoteReply 4 45 false);
  Peer 3 46 Candidate (SenderCommit 1 1);
  Peer 3 46 Candidate (CheckElection 1 5);
  Peer 2 28 Leader StartHeartBeat;
  Peer 2 28 Leader (AppendTo 0);
  Peer 1 39 Leader StartHeartBeat;
  Peer 1 39 Leader (AppendTo 0);
  Peer 1 39 Leader (AppendTo 2);
  Peer 2 28 Leader (AppendTo 1);
  Peer 2 28 Leader (AppendTo 3);
  Peer 1 39 Leader (AppendTo 3);
  Peer 1 39 Leader (AppendTo 4);
  Peer 2 28 Leader (AppendTo 4);
  Peer 1 39 Leader (SendAppend 0 [1; 124; 124; 1; 124]);
  Peer 2 28 Leader (SendAppend 0 [123; 123; 123; 1; 123]);
  Peer 1 39 Leader (SendAppend 2 [1; 124; 124; 1; 124]);
  Peer 2 28 Leader (SendAppend 3 [123; 123; 123; 1; 123]);
  Peer 1 39 Leader (SendAppend 3 [1; 124; 124; 1; 124]);
  Peer 1 39 Leader (SendAppend 4 [1; 124; 124; 1; 124]);
  Peer 2 28 Leader (SendAppend 1 [123; 123; 123; 1; 123]);
  Peer 2 28 Leader (SendAppend 4 [123; 123; 123; 1; 123]);
  Peer 2 28 Leader (AppendLost 0);
  Peer 1 39 Leader (AppendLost 3);
  Peer 2 28 Leader (AppendLost 4);
  Peer 2 28 Leader (AppendLost 1);
  Peer 1 39 Leader (AppendLost 4);
  Peer 1 39 Leader (AppendLost 2);
  Peer 2 28 Leader (AppendLost 3);
  Peer 1 39 Leader StartHeartBeat;
  Peer 2 28 Leader StartHeartBeat;
  Peer 2 28 Leader (AppendTo 0);
  Peer 1 39 Leader (AppendTo 0);
  Peer 2 28 Leader (AppendTo 1);
  Peer 2 28 Leader (AppendTo 3);
  Peer 1 39 Leader (AppendTo 2);
  Peer 1 39 Leader (AppendTo 3);
  Peer 1 39 Leader (AppendTo 4);
  Peer 2 28 Leader (AppendTo 4);
  Peer 1 39 Leader (SendAppend 0 [1; 124; 124; 1; 124]);
  Peer 2 28 Leader (SendAppend 4 [123; 123; 123; 1; 123]);
  Peer 1 39 Leader (AppendLost 0);
  Peer 2 28 Leader (SendAppend 3 [123; 123; 123; 1; 123]);
  Peer 1 39 Leader (SendAppend 4 [1; 124; 124; 1; 124]);
  Peer 1 39 Leader (SendAppend 2 [1; 124; 124; 1; 124]);
  Peer 2 28 Leader (SendAppend 0 [123; 123; 123; 1; 123]);
  Peer 2 28 Leader (SendAppend 1 [123; 123; 123; 1; 123]);
  Peer 1 39 Leader (SendAppend 3 [1; 124; 124; 1; 124]);
  Peer 1 39 Leader (AppendLost 4);
  Peer 1 39 Leader (AppendLost 0);
  Peer 2 28 Leader (AppendLost 4);
  Peer 2 28 Leader (AppendLost 1);
  Peer 2 28 Leader (AppendLost 0);
  Peer 1 39 Leader (AppendLost 3);
  Peer 2 28 Leader (AppendLost 3);
  Peer 1 39 Leader (AppendLost 2);
  Peer 2 28 Leader StartHeartBeat;
  Peer 2 28 Leader (AppendTo 0);
  Peer 2 28 Leader (AppendTo 1);
  Peer 2 28 Leader (AppendTo 3);
  Peer 2 28 Leader (AppendTo 4);
  Peer 2 28 Leader (SendAppend 0 [123; 123; 123; 1; 123]);
  Peer 2 28 Leader (SendAppend 4 [123; 123; 123; 1; 123]);
  Peer 2 28 Leader (SendAppend 1 [123; 123; 123; 1; 123]);
  Peer 1 39 Leader StartHeartBeat;
  Peer 1 39 Leader (AppendTo 0);
  Peer 1 39 Leader (AppendTo 2);
  Peer 1 39 Leader (AppendTo 3);
  Peer 1 39 Leader (AppendTo 4);
  Peer 1 39 Leader (SendAppend 4 [1; 124; 124; 1; 124]);
  Peer 1 39 Leader (SendAppend 0 [1; 124; 124; 1; 124]);
  Peer 1 39 Leader (SendAppend 3 [1; 124; 124; 1; 124]);
  Peer 1 39 Leader (SendAppend 2 [1; 124; 124; 1; 124]);
  Peer 2 28 Leader (SendAppend 3 [123; 123; 123; 1; 123]);
  Peer 2 28 Leader (AppendLost 3);
  Peer 1 39 Leader (AppendLost 0);
  Peer 2 28 Leader (AppendLost 4);
  Peer 1 39 Leader (AppendLost 4);
  Peer 1 39 Leader (AppendLost 3);
  Peer 2 28 Leader (AppendLost 0);
  Peer 2 28 Leader (AppendLost 1);
  Peer 1 39 Leader StartHeartBeat;
  Peer 1 39 Leader (AppendTo 0);
  Peer 1 39 Leader (AppendTo 2);
  Peer 1 39 Leader (AppendTo 3);
  Peer 1 39 Leader (AppendTo 4);
  Peer 2 28 Leader StartHeartBeat;
  Peer 2 28 Leader (AppendTo 0);
  Peer 1 39 Leader (AppendLost 2);
  Peer 2 28 Leader (AppendTo 1);
  Peer 2 28 Leader (AppendTo 3);
  Peer 2 28 Leader (AppendTo 4);
  Peer 1 39 Leader (SendAppend 0 [1; 124; 124; 1; 124]);
  Peer 1 39 Leader (SendAppend 2 [1; 124; 124; 1; 124]);
  Peer 2 28 Leader (SendAppend 1 [123; 123; 123; 1; 123]);
  Peer 2 28 Leader (SendAppend 0 [123; 123; 123; 1; 123]);
  Peer 1 39 Leader (SendAppend 3 [1; 124; 124; 1; 124]);
  Peer 2 28 Leader (SendAppend 3 [123; 123; 123; 1; 123]);
  Peer 1 39 Leader (SendAppend 4 [1; 124; 124; 1; 124]);
  Peer 2 28 Leader (SendAppend 4 [123; 123; 123; 1; 123]);
  Peer 1 39 Leader (AppendLost 3);
  Peer 2 28 Leader (AppendLost 3);
  Peer 1 39 Leader (AppendLost 4);
  Peer 2 28 Leader (AppendLost 1);
  Peer 2 28 Leader (AppendLost 0);
  Peer 1 39 Leader (AppendLost 2);
  Peer 1 39 Leader (AppendLost 0);
  Peer 2 28 Leader StartHeartBeat;
  Peer 2 28 Leader (AppendTo 0);
  Peer 2 28 Leader (AppendTo 1);
  Peer 1 39 Leader StartHeartBeat;
  Peer 1 39 Leader (AppendTo 0);
  Peer 2 28 Leader (AppendTo 3);
  Peer 2 28 Leader (AppendTo 4);
  Peer 2 28 Leader (AppendLost 4);
  Peer 1 39 Leader (AppendTo 2);
  Peer 1 39 Leader (AppendTo 3);
  Peer 2 28 Leader (SendAppend 1 [123; 123; 123; 1; 123]);
  Peer 1 39 Leader (AppendTo 4);
  Peer 2 28 Leader (SendAppend 0 [123; 123; 123; 1; 123]);
  Peer 1 39 Leader (SendAppend 0 [1; 124; 124; 1; 124]);
  Peer 1 39 Leader (SendAppend 4 [1; 124; 124; 1; 124]);
  Peer 1 39 Leader (SendAppend 2 [1; 124; 124; 1; 124]);
  Peer 2 28 Leader (SendAppend 4 [123; 123; 123; 1; 123]);
  Peer 1 39 Leader (SendAppend 3 [1; 124; 124; 1; 124]);
  Peer 2 28 Leader (SendAppend 3 [123; 123; 123; 1; 123]);
  Peer 2 28 Leader (AppendLost 1);
  Peer 1 39 Leader (AppendLost 0);
  Peer 2 28 Leader (AppendLost 4);
  Peer 2 28 Leader (AppendLost 0);
  Peer 1 39 Leader (AppendLost 2);
  Peer 1 39 Leader (AppendLost 4);
  Peer 2 28 Leader (AppendLost 3);
  Peer 1 39 Leader (AppendLost 3);
  Peer 1 39 Leader StartHeartBeat;
  Peer 1 39 Leader (AppendTo 0)].

(** Lines 7956 to 8105. *)
Definition run_54 : list Line := [
  Peer 1 39 Leader (AppendTo 2);
  Peer 1 39 Leader (AppendTo 3);
  Peer 1 39 Leader (AppendTo 4);
  Peer 1 39 Leader (SendAppend 4 [1; 124; 124; 1; 124]);
  Peer 2 28 Leader StartHeartBeat;
  Peer 2 28 Leader (AppendTo 0);
  Peer 2 28 Leader (AppendTo 1);
  Peer 1 39 Leader (SendAppend 0 [1; 124; 124; 1; 124]);
  Peer 0 46 Follower StartElection;
  Peer 2 28 Leader (AppendTo 3);
  Peer 2 28 Leader (AppendTo 4);
  Peer 2 28 Leader (SendAppend 1 [123; 123; 123; 1; 123]);
  Peer 1 39 Leader (SendAppend 3 [1; 124; 124; 1; 124]);
  Peer 0 47 Candidate BecomeCandidate;
  Peer 0 47 Candidate (RequestVoteTo 1);
  Peer 0 47 Candidate (RequestVoteTo 2);
  Peer 0 47 Candidate (RequestVoteTo 3);
  Peer 0 47 Candidate (RequestVoteTo 4);
  Peer 2 28 Leader (SendAppend 3 [123; 123; 123; 1; 123]);
  Peer 2 28 Leader (SendAppend 4 [123; 123; 123; 1; 123]);
  Peer 2 28 Leader (SendAppend 0 [123; 123; 123; 1; 123]);
  Peer 1 39 Leader (SendAppend 2 [1; 124; 124; 1; 124]);
  Peer 1 39 Leader (AppendLost 3);
  Peer 2 28 Leader (AppendLost 1);
  Peer 0 47 Candidate (RequestVoteLost 4);
  Peer 3 46 Candidate (ReceiveRequestVote 3 0 47);
  Peer 3 46 Candidate (VoteArgs 47 133 14 123 124);
  Peer 3 46 Candidate (HandlerCommit 1 1);
  Peer 3 46 Candidate (SelfTermLower 0);
  Peer 1 39 Leader (AppendLost 4);
  Peer 3 47 Follower (CompareLogs 14 9 123 133);
  Peer 3 47 Follower SelfLogNewer;
  Peer 0 47 Candidate (RequestVoteLost 1);
  Peer 2 28 Leader (AppendLost 3);
  Peer 0 47 Candidate (RequestVoteLost 2);
  Peer 2 28 Leader (AppendLost 0);
  Peer 1 39 Leader (AppendLost 2);
  Peer 2 28 Leader (AppendLost 4);
  Peer 1 39 Leader (AppendLost 0);
  Peer 2 28 Leader StartHeartBeat;
  Peer 2 28 Leader (AppendTo 0);
  Peer 2 28 Leader (AppendTo 1);
  Peer 2 28 Leader (AppendTo 3);
  Peer 1 39 Leader StartHeartBeat;
  Peer 1 39 Leader (AppendTo 0);
  Peer 4 46 Follower StartElection;
  Peer 2 28 Leader (AppendTo 4);
  Peer 1 39 Leader (AppendTo 2);
  Peer 1 39 Leader (AppendTo 3);
  Peer 1 39 Leader (AppendTo 4);
  Peer 1 39 Leader (SendAppend 2 [1; 124; 124; 1; 124]);
  Peer 2 28 Leader (SendAppend 3 [123; 123; 123; 1; 123]);
  Peer 1 39 Leader (SendAppend 0 [1; 124; 124; 1; 124]);
  Peer 4 47 Candidate BecomeCandidate;
  Peer 4 47 Candidate (RequestVoteTo 0);
  Peer 2 28 Leader (SendAppend 0 [123; 123; 123; 1; 123]);
  Peer 4 47 Candidate (RequestVoteTo 1);
  Peer 4 47 Candidate (RequestVoteTo 2);
  Peer 4 47 Candidate (RequestVoteTo 3);
  Peer 1 39 Leader (SendAppend 3 [1; 124; 124; 1; 124]);
  Peer 1 39 Leader (SendAppend 4 [1; 124; 124; 1; 124]);
  Peer 2 28 Leader (SendAppend 1 [123; 123; 123; 1; 123]);
  Peer 2 28 Leader (SendAppend 4 [123; 123; 123; 1; 123]);
  Peer 0 47 Candidate (ReceiveRequestVote 0 4 47);
  Peer 0 47 Candidate (VoteArgs 47 520 9 133 134);
  Peer 0 47 Candidate (HandlerCommit 1 1);
  Peer 0 47 Candidate (CompareLogs 9 16 133 520);
  Peer 0 47 Candidate Refused;
  Peer 4 47 Candidate (VoteReply 0 47 false);
  Peer 4 47 Candidate (SenderCommit 122 122);
  Peer 4 47 Candidate (CheckElection 1 5);
  Peer 3 47 Follower (ReceiveRequestVote 0 4 47);
  Peer 3 47 Follower (VoteArgs 47 520 14 123 124);
  Peer 3 47 Follower (HandlerCommit 1 1);
  Peer 3 47 Follower (CompareLogs 14 16 123 520);
  Peer 3 47 Follower Refused;
  Peer 4 47 Candidate (VoteReply 3 47 false);
  Peer 4 47 Candidate (SenderCommit 122 122);
  Peer 4 47 Candidate (CheckElection 1 5);
  Peer 4 47 Candidate (RequestVoteLost 2);
  Peer 1 39 Leader (AppendLost 0);
  Peer 1 39 Leader (AppendLost 4);
  Peer 2 28 Leader (AppendLost 0);
  Peer 2 28 Leader (AppendLost 4);
  Peer 2 28 Leader (AppendLost 1);
  Peer 1 39 Leader (AppendLost 2);
  Peer 4 47 Candidate (RequestVoteLost 1);
  Peer 2 28 Leader (AppendLost 3);
  Peer 1 39 Leader StartHeartBeat;
  Peer 1 39 Leader (AppendTo 0);
  Peer 1 39 Leader (AppendTo 2);
  Peer 1 39 Leader (AppendTo 3);
  Peer 1 39 Leader (AppendTo 4);
  Peer 2 28 Leader StartHeartBeat;
  Peer 2 28 Leader (AppendTo 0);
  Peer 1 39 Leader (AppendLost 3);
  Peer 2 28 Leader (AppendTo 1);
  Peer 2 28 Leader (AppendTo 3);
  Peer 2 28 Leader (AppendTo 4);
  Peer 1 39 Leader (SendAppend 0 [1; 124; 124; 1; 124]);
  Peer 2 28 Leader (SendAppend 1 [123; 123; 123; 1; 123]);
  Peer 1 39 Leader (SendAppend 2 [1; 124; 124; 1; 124]);
  Peer 2 28 Leader (SendAppend 0 [123; 123; 123; 1; 123]);
  Peer 1 39 Leader (SendAppend 3 [1; 124; 124; 1; 124]);
  Peer 1 39 Leader (SendAppend 4 [1; 124; 124; 1; 124]);
  Peer 2 28 Leader (SendAppend 4 [123; 123; 123; 1; 123]);
  Peer 2 28 Leader (SendAppend 3 [123; 123; 123; 1; 123]);
  Peer 1 39 Leader (AppendLost 2);
  Peer 2 28 Leader (AppendLost 0);
  Peer 1 39 Leader (AppendLost 0);
  Peer 2 28 Leader (AppendLost 3);
  Peer 2 28 Leader (AppendLost 4);
  Peer 2 28 Leader (AppendLost 1);
  Peer 1 39 Leader (AppendLost 4);
  Peer 1 39 Leader StartHeartBeat;
  Peer 1 39 Leader (AppendTo 0);
  Peer 2 28 Leader StartHeartBeat;
  Peer 2 28 Leader (AppendTo 0);
  Peer 1 39 Leader (AppendTo 2);
  Peer 2 28 Leader (AppendTo 1);
  Peer 2 28 Leader (AppendTo 3);
  Peer 1 39 Leader (AppendTo 3);
  Peer 1 39 Leader (AppendTo 4);
  Peer 2 28 Leader (AppendTo 4);
  Peer 1 39 Leader (AppendLost 3);
  Peer 2 28 Leader (SendAppend 0 [123; 123; 123; 1; 123]);
  Peer 1 39 Leader (SendAppend 3 [1; 124; 124; 1; 124]);
  Peer 1 39 Leader (SendAppend 0 [1; 124; 124; 1; 124]);
  Peer 1 39 Leader (SendAppend 2 [1; 124; 124; 1; 124]);
  Peer 1 39 Leader (SendAppend 4 [1; 124; 124; 1; 124]);
  Peer 2 28 Leader (SendAppend 3 [123; 123; 123; 1; 123]);
  Peer 2 28 Leader (SendAppend 1 [123; 123; 123; 1; 123]);
  Peer 2 28 Leader (SendAppend 4 [123; 123; 123; 1; 123]);
  Peer 2 28 Leader (AppendLost 0);
  Peer 1 39 Leader (AppendLost 3);
  Peer 2 28 Leader (AppendLost 4);
  Peer 1 39 Leader (AppendLost 0);
  Peer 2 28 Leader (AppendLost 3);
  Peer 1 39 Leader (AppendLost 4);
  Peer 2 28 Leader (AppendLost 1);
  Peer 1 39 Leader (AppendLost 2);
  Peer 2 28 Leader StartHeartBeat;
  Peer 2 28 Leader (AppendTo 0);
  Peer 1 39 Leader StartHeartBeat;
  Peer 1 39 Leader (AppendTo 0);
  Peer 1 39 Leader (AppendTo 2);
  Peer 1 39 Leader (AppendTo 3);
  Peer 2 28 Leader (AppendTo 1);
  Peer 1 39 Leader (AppendTo 4);
  Peer 1 39 Leader (SendAppend 4 [1; 124; 124; 1; 124])].

(** Lines 8106 to 8255. *)
Definition run_55 : list Line := [
  Peer 1 39 Leader (SendAppend 3 [1; 124; 124; 1; 124]);
  Peer 2 28 Leader (AppendTo 3);
  Peer 2 28 Leader (AppendTo 4);
  Peer 2 28 Leader (SendAppend 0 [123; 123; 123; 1; 123]);
  Peer 2 28 Leader (SendAppend 3 [123; 123; 123; 1; 123]);
  Peer 2 28 Leader (SendAppend 4 [123; 123; 123; 1; 123]);
  Peer 1 39 Leader (SendAppend 2 [1; 124; 124; 1; 124]);
  Peer 2 28 Leader (SendAppend 1 [123; 123; 123; 1; 123]);
  Peer 1 39 Leader (SendAppend 0 [1; 124; 124; 1; 124]);
  Peer 1 39 Leader (AppendLost 4);
  Peer 2 28 Leader (AppendLost 1);
  Peer 1 39 Leader (AppendLost 2);
  Peer 2 28 Leader (AppendLost 4);
  Peer 1 39 Leader (AppendLost 3);
  Peer 1 39 Leader (AppendLost 0);
  Peer 2 28 Leader (AppendLost 0);
  Peer 0 47 Candidate StartElection;
  Peer 2 28 Leader StartHeartBeat;
  Peer 2 28 Leader (AppendTo 0);
  Peer 2 28 Leader (AppendTo 1);
  Peer 2 28 Leader (AppendTo 3);
  Peer 2 28 Leader (AppendTo 4);
  Peer 1 39 Leader StartHeartBeat;
  Peer 1 39 Leader (AppendTo 0);
  Peer 1 39 Leader (AppendTo 2);
  Peer 1 39 Leader (AppendTo 3);
  Peer 1 39 Leader (AppendTo 4);
  Peer 3 47 Follower StartElection;
  Peer 1 39 Leader (SendAppend 4 [1; 124; 124; 1; 124]);
  Peer 1 39 Leader (SendAppend 0 [1; 124; 124; 1; 124]);
  Peer 0 48 Candidate BecomeCandidate;
  Peer 0 48 Candidate (RequestVoteTo 1);
  Peer 0 48 Candidate (RequestVoteTo 2);
  Peer 0 48 Candidate (RequestVoteTo 3);
  Peer 0 48 Candidate (RequestVoteTo 4);
  Peer 3 48 Candidate BecomeCandidate;
  Peer 3 48 Candidate (RequestVoteTo 0);
  Peer 3 48 Candidate (RequestVoteTo 1);
  Peer 3 48 Candidate (RequestVoteTo 2);
  Peer 3 48 Candidate (RequestVoteTo 4);
  Peer 2 28 Leader (AppendLost 3);
  Peer 1 39 Leader (SendAppend 2 [1; 124; 124; 1; 124]);
  Peer 2 28 Leader (SendAppend 0 [123; 123; 123; 1; 123]);
  Peer 1 39 Leader (SendAppend 3 [1; 124; 124; 1; 124]);
  Peer 2 28 Leader (SendAppend 1 [123; 123; 123; 1; 123]);
  Peer 1 39 Leader (AppendLost 4);
  Peer 2 28 Leader (SendAppend 3 [123; 123; 123; 1; 123]);
  Peer 2 28 Leader (SendAppend 4 [123; 123; 123; 1; 123]);
  Peer 2 28 Leader (AppendLost 0);
  Peer 3 48 Candidate (ReceiveRequestVote 3 0 48);
  Peer 3 48 Candidate (VoteArgs 48 133 14 123 124);
  Peer 3 48 Candidate (HandlerCommit 1 1);
  Peer 3 48 Candidate (CompareLogs 14 9 123 133);
  Peer 3 48 Candidate SelfLogNewer;
  Peer 0 48 Candidate (VoteReply 3 48 false);
  Peer 0 48 Candidate (SenderCommit 1 1);
  Peer 0 48 Candidate (CheckElection 1 5);
  Peer 1 39 Leader (AppendLost 3);
  Peer 4 47 Candidate (ReceiveRequestVote 4 0 48);
  Peer 4 47 Candidate (VoteArgs 48 133 16 520 521);
  Peer 4 47 Candidate (HandlerCommit 122 122);
  Peer 4 47 Candidate (SelfTermLower 0);
  Peer 0 48 Candidate (ReceiveRequestVote 0 3 48);
  Peer 0 48 Candidate (VoteArgs 48 123 9 133 134);
  Peer 0 48 Candidate (HandlerCommit 1 1);
  Peer 0 48 Candidate (CompareLogs 9 14 133 123);
  Peer 0 48 Candidate Refused;
  Peer 3 48 Candidate (VoteReply 0 48 false);
  Peer 3 48 Candidate (SenderCommit 1 1);
  Peer 3 48 Candidate (CheckElection 1 5);
  Peer 4 48 Follower (CompareLogs 16 9 520 133);
  Peer 4 48 Follower SelfLogNewer;
  Peer 0 48 Candidate (VoteReply 4 48 false);
  Peer 0 48 Candidate (SenderCommit 1 1);
  Peer 0 48 Candidate (CheckElection 1 5);
  Peer 4 48 Follower (ReceiveRequestVote 0 3 48);
  Peer 4 48 Follower (VoteArgs 48 123 16 520 521);
  Peer 4 48 Follower (HandlerCommit 122 122);
  Peer 4 48 Follower (CompareLogs 16 14 520 123);
  Peer 4 48 Follower SelfLogNewer;
  Peer 2 28 Leader (AppendLost 4);
  Peer 0 48 Candidate (RequestVoteLost 2);
  Peer 0 48 Candidate (RequestVoteLost 1);
  Peer 2 28 Leader (AppendLost 1);
  Peer 3 48 Candidate (RequestVoteLost 1);
  Peer 1 39 Leader (AppendLost 2);
  Peer 1 39 Leader (AppendLost 0);
  Peer 2 28 Leader (AppendLost 3);
  Peer 3 48 Candidate (RequestVoteLost 2);
  Peer 2 28 Leader StartHeartBeat;
  Peer 2 28 Leader (AppendTo 0);
  Peer 1 39 Leader StartHeartBeat;
  Peer 2 28 Leader (AppendTo 1);
  Peer 1 39 Leader (AppendTo 0);
  Peer 1 39 Leader (AppendTo 2);
  Peer 2 28 Leader (AppendTo 3);
  Peer 2 28 Leader (AppendTo 4);
  Peer 1 39 Leader (AppendTo 3);
  Peer 1 39 Leader (AppendTo 4);
  Peer 2 28 Leader (SendAppend 1 [123; 123; 123; 1; 123]);
  Peer 1 39 Leader (SendAppend 3 [1; 124; 124; 1; 124]);
  Peer 1 39 Leader (SendAppend 2 [1; 124; 124; 1; 124]);
  Peer 2 28 Leader (SendAppend 0 [123; 123; 123; 1; 123]);
  Peer 1 39 Leader (SendAppend 0 [1; 124; 124; 1; 124]);
  Peer 1 39 Leader (SendAppend 4 [1; 124; 124; 1; 124]);
  Peer 2 28 Leader (SendAppend 4 [123; 123; 123; 1; 123]);
  Peer 2 28 Leader (SendAppend 3 [123; 123; 123; 1; 123]);
  Peer 1 39 Leader (AppendLost 0);
  Peer 1 39 Leader (AppendLost 3);
  Peer 2 28 Leader (AppendLost 4);
  Peer 1 39 Leader (AppendLost 4);
  Peer 2 28 Leader (AppendLost 1);
  Peer 1 39 Leader (AppendLost 2);
  Peer 2 28 Leader (AppendLost 0);
  Peer 2 28 Leader StartHeartBeat;
  Peer 2 28 Leader (AppendTo 0);
  Peer 2 28 Leader (AppendTo 1);
  Peer 2 28 Leader (AppendTo 3);
  Peer 2 28 Leader (AppendTo 4);
  Peer 2 28 Leader (AppendLost 3);
  Peer 2 28 Leader (SendAppend 1 [123; 123; 123; 1; 123]);
  Peer 2 28 Leader (SendAppend 3 [123; 123; 123; 1; 123]);
  Peer 1 39 Leader StartHeartBeat;
  Peer 1 39 Leader (AppendTo 0);
  Peer 1 39 Leader (AppendTo 2);
  Peer 1 39 Leader (AppendTo 3);
  Peer 1 39 Leader (AppendTo 4);
  Peer 1 39 Leader (SendAppend 0 [1; 124; 124; 1; 124]);
  Peer 2 28 Leader (SendAppend 4 [123; 123; 123; 1; 123]);
  Peer 1 39 Leader (SendAppend 4 [1; 124; 124; 1; 124]);
  Peer 1 39 Leader (SendAppend 2 [1; 124; 124; 1; 124]);
  Peer 1 39 Leader (SendAppend 3 [1; 124; 124; 1; 124]);
  Peer 2 28 Leader (SendAppend 0 [123; 123; 123; 1; 123]);
  Peer 2 28 Leader (AppendLost 0);
  Peer 2 28 Leader (AppendLost 3);
  Peer 2 28 Leader (AppendLost 4);
  Peer 1 39 Leader (AppendLost 2);
  Peer 1 39 Leader (AppendLost 4);
  Peer 1 39 Leader (AppendLost 3);
  Peer 1 39 Leader (AppendLost 0);
  Peer 2 28 Leader StartHeartBeat;
  Peer 2 28 Leader (AppendTo 0);
  Peer 2 28 Leader (AppendTo 1);
  Peer 2 28 Leader (AppendTo 3);
  Peer 2 28 Leader (AppendTo 4);
  Peer 2 28 Leader (SendAppend 1 [123; 123; 123; 1; 123]);
  Peer 2 28 Leader (AppendLost 1);
  Peer 2 28 Leader (SendAppend 0 [123; 123; 123; 1; 123]);
  Peer 2 28 Leader (SendAppend 4 [123; 123; 123; 1; 123]);
  Peer 1 39 Leader StartHeartBeat].

(** Lines 8256 to 8405. *)
Definition run_56 : list Line := [
  Peer 1 39 Leader (AppendTo 0);
  Peer 1 39 Leader (AppendTo 2);
  Peer 1 39 Leader (AppendTo 3);
  Peer 1 39 Leader (AppendTo 4);
  Peer 1 39 Leader (SendAppend 4 [1; 124; 124; 1; 124]);
  Peer 1 39 Leader (SendAppend 0 [1; 124; 124; 1; 124]);
  Peer 1 39 Leader (SendAppend 3 [1; 124; 124; 1; 124]);
  Peer 2 28 Leader (SendAppend 3 [123; 123; 123; 1; 123]);
  Peer 1 39 Leader (SendAppend 2 [1; 124; 124; 1; 124]);
  Peer 1 39 Leader (AppendLost 2);
  Peer 2 28 Leader (AppendLost 3);
  Peer 2 28 Leader (AppendLost 0);
  Peer 1 39 Leader (AppendLost 3);
  Peer 2 28 Leader (AppendLost 1);
  Peer 2 28 Leader (AppendLost 4);
  Peer 1 39 Leader (AppendLost 0);
  Peer 1 39 Leader (AppendLost 4);
  Peer 1 39 Leader StartHeartBeat;
  Peer 1 39 Leader (AppendTo 0);
  Peer 2 28 Leader StartHeartBeat;
  Peer 2 28 Leader (AppendTo 0);
  Peer 1 39 Leader (AppendTo 2);
  Peer 1 39 Leader (AppendTo 3);
  Peer 1 39 Leader (AppendTo 4);
  Peer 2 28 Leader (AppendTo 1);
  Peer 1 39 Leader (SendAppend 2 [1; 124; 124; 1; 124]);
  Peer 2 28 Leader (AppendTo 3);
  Peer 2 28 Leader (AppendTo 4);
  Peer 2 28 Leader (SendAppend 3 [123; 123; 123; 1; 123]);
  Peer 1 39 Leader (SendAppend 4 [1; 124; 124; 1; 124]);
  Peer 2 28 Leader (SendAppend 0 [123; 123; 123; 1; 123]);
  Peer 1 39 Leader (SendAppend 3 [1; 124; 124; 1; 124]);
  Peer 2 28 Leader (SendAppend 1 [123; 123; 123; 1; 123]);
  Peer 2 28 Leader (SendAppend 4 [123; 123; 123; 1; 123]);
  Peer 1 39 Leader (SendAppend 0 [1; 124; 124; 1; 124]);
  Peer 2 28 Leader (AppendLost 0);
  Peer 1 39 Leader (AppendLost 3);
  Peer 2 28 Leader (AppendLost 1);
  Peer 1 39 Leader (AppendLost 2);
  Peer 1 39 Leader (AppendLost 0);
  Peer 2 28 Leader (AppendLost 3);
  Peer 1 39 Leader (AppendLost 4);
  Peer 1 39 Leader StartHeartBeat;
  Peer 2 28 Leader (AppendLost 4);
  Peer 2 28 Leader StartHeartBeat;
  Peer 2 28 Leader (AppendTo 0);
  Peer 1 39 Leader (AppendTo 0);
  Peer 1 39 Leader (AppendTo 2);
  Peer 1 39 Leader (AppendTo 3);
  Peer 2 28 Leader (AppendTo 1);
  Peer 2 28 Leader (AppendTo 3);
  Peer 2 28 Leader (AppendTo 4);
  Peer 1 39 Leader (AppendTo 4);
  Peer 1 39 Leader (SendAppend 2 [1; 124; 124; 1; 124]);
  Peer 2 28 Leader (SendAppend 3 [123; 123; 123; 1; 123]);
  Peer 2 28 Leader (SendAppend 0 [123; 123; 123; 1; 123]);
  Peer 1 39 Leader (SendAppend 0 [1; 124; 124; 1; 124]);
  Peer 2 28 Leader (SendAppend 1 [123; 123; 123; 1; 123]);
  Peer 1 39 Leader (SendAppend 3 [1; 124; 124; 1; 124]);
  Peer 1 39 Leader (SendAppend 4 [1; 124; 124; 1; 124]);
  Peer 2 28 Leader (SendAppend 4 [123; 123; 123; 1; 123]);
  Peer 1 39 Leader (AppendLost 0);
  Peer 1 39 Leader (AppendLost 3);
  Peer 2 28 Leader (AppendLost 3);
  Peer 2 28 Leader (AppendLost 0);
  Peer 2 28 Leader (AppendLost 4);
  Peer 1 39 Leader (AppendLost 4);
  Peer 1 39 Leader (AppendLost 2);
  Peer 2 28 Leader StartHeartBeat;
  Peer 2 28 Leader (AppendTo 0);
  Peer 2 28 Leader (AppendTo 1);
  Peer 2 28 Leader (AppendTo 3);
  Peer 2 28 Leader (AppendTo 4);
  Peer 1 39 Leader StartHeartBeat;
  Peer 1 39 Leader (AppendTo 0);
  Peer 1 39 Leader (AppendTo 2);
  Peer 1 39 Leader (AppendTo 3);
  Peer 1 39 Leader (AppendTo 4);
  Peer 2 28 Leader (AppendLost 1);
  Peer 1 39 Leader (SendAppend 4 [1; 124; 124; 1; 124]);
  Peer 2 28 Leader (SendAppend 0 [123; 123; 123; 1; 123]);
  Peer 1 39 Leader (SendAppend 2 [1; 124; 124; 1; 124]);
  Peer 1 39 Leader (SendAppend 3 [1; 124; 124; 1; 124]);
  Peer 1 39 Leader (SendAppend 0 [1; 124; 124; 1; 124]);
  Peer 2 28 Leader (SendAppend 1 [123; 123; 123; 1; 123]);
  Peer 2 28 Leader (SendAppend 3 [123; 123; 123; 1; 123]);
  Peer 2 28 Leader (SendAppend 4 [123; 123; 123; 1; 123]);
  Peer 1 39 Leader (AppendLost 2);
  Peer 2 28 Leader (AppendLost 3);
  Peer 2 28 Leader (AppendLost 1);
  Peer 1 39 Leader (AppendLost 4);
  Peer 1 39 Leader (AppendLost 0);
  Peer 4 48 Follower StartElection;
  Peer 2 28 Leader (AppendLost 4);
  Peer 2 28 Leader StartHeartBeat;
  Peer 2 28 Leader (AppendTo 0);
  Peer 2 28 Leader (AppendTo 1);
  Peer 2 28 Leader (AppendTo 3);
  Peer 2 28 Leader (AppendTo 4);
  Peer 2 28 Leader (SendAppend 0 [123; 123; 123; 1; 123]);
  Peer 0 48 Candidate StartElection;
  Peer 0 49 Candidate BecomeCandidate;
  Peer 0 49 Candidate (RequestVoteTo 1);
  Peer 0 49 Candidate (RequestVoteTo 2);
  Peer 0 49 Candidate (RequestVoteTo 3);
  Peer 0 49 Candidate (RequestVoteTo 4);
  Peer 1 39 Leader (AppendLost 3);
  Peer 1 39 Leader StartHeartBeat;
  Peer 1 39 Leader (AppendTo 0);
  Peer 1 39 Leader (AppendTo 2);
  Peer 1 39 Leader (AppendTo 3);
  Peer 1 39 Leader (AppendTo 4);
  Peer 2 28 Leader (AppendLost 0);
  Peer 1 39 Leader (SendAppend 4 [1; 124; 124; 1; 124]);
  Peer 2 28 Leader (SendAppend 4 [123; 123; 123; 1; 123]);
  Peer 4 49 Candidate BecomeCandidate;
  Peer 4 49 Candidate (RequestVoteTo 0);
  Peer 4 49 Candidate (RequestVoteTo 1);
  Peer 4 49 Candidate (RequestVoteTo 2);
  Peer 4 49 Candidate (RequestVoteTo 3);
  Peer 1 39 Leader (SendAppend 0 [1; 124; 124; 1; 124]);
  Peer 1 39 Leader (SendAppend 2 [1; 124; 124; 1; 124]);
  Peer 2 28 Leader (SendAppend 1 [123; 123; 123; 1; 123]);
  Peer 2 28 Leader (SendAppend 3 [123; 123; 123; 1; 123]);
  Peer 1 39 Leader (SendAppend 3 [1; 124; 124; 1; 124]);
  Peer 2 28 Leader (AppendLost 4);
  Peer 4 49 Candidate (ReceiveRequestVote 4 0 49);
  Peer 4 49 Candidate (VoteArgs 49 133 16 520 521);
  Peer 4 49 Candidate (HandlerCommit 122 122);
  Peer 4 49 Candidate (CompareLogs 16 9 520 133);
  Peer 4 49 Candidate SelfLogNewer;
  Peer 0 49 Candidate (VoteReply 4 49 false);
  Peer 0 49 Candidate (SenderCommit 1 1);
  Peer 0 49 Candidate (CheckElection 1 5);
  Peer 4 49 Candidate (RequestVoteLost 3);
  Peer 1 39 Leader (AppendLost 2);
  Peer 4 49 Candidate (RequestVoteLost 1);
  Peer 0 49 Candidate (RequestVoteLost 1);
  Peer 3 48 Candidate (ReceiveRequestVote 3 0 49);
  Peer 3 48 Candidate (VoteArgs 49 133 14 123 124);
  Peer 3 48 Candidate (HandlerCommit 1 1);
  Peer 3 48 Candidate (SelfTermLower 0);
  Peer 0 49 Candidate (ReceiveRequestVote 0 4 49);
  Peer 0 49 Candidate (VoteArgs 49 520 9 133 134);
  Peer 0 49 Candidate (HandlerCommit 1 1);
  Peer 0 49 Candidate (CompareLogs 9 16 133 520);
  Peer 0 49 Candidate Refused;
  Peer 3 49 Follower (CompareLogs 14 9 123 133);
  Peer 3 49 Follower SelfLogNewer;
  Peer 4 49 Candidate (VoteReply 0 49 false)].

Definition run_part4 : list Line :=
  run_43 ++ run_44 ++ run_45 ++ run_46 ++ run_47 ++ run_48 ++ run_49 ++ run_50 ++ run_51
  ++ run_52 ++ run_53 ++ run_54 ++ run_55 ++ run_56.
