(* ===== verification/RecordedRun5.v ===== *)
(** * The recorded run, part 5 of 5

    Lines 8406 to 10605 of code/src/raft/2timesvote.ts in order, one event each
    (blank lines have none): terms 49 to 59: the last two leaders and the failure of the test. *)

From S2P Require Import Prelude Gob Persister RaftState RecordedRun.
Open Scope Z_scope.

(** Lines 8406 to 8555. *)
Definition run_57 : list Line := [
  Peer 4 49 Candidate (SenderCommit 122 122);
  Peer 4 49 Candidate (CheckElection 1 5);
  Peer 0 49 Candidate (RequestVoteLost 3);
  Peer 2 28 Leader (AppendLost 3);
  Peer 2 28 Leader (AppendLost 0);
  Peer 1 39 Leader (AppendLost 3);
  Peer 1 39 Leader (AppendLost 0);
  Peer 4 49 Candidate (RequestVoteLost 2);
  Peer 0 49 Candidate (RequestVoteLost 2);
  Peer 1 39 Leader (AppendLost 4);
  Peer 2 28 Leader (AppendLost 1);
  Peer 2 28 Leader StartHeartBeat;
  Peer 2 28 Leader (AppendTo 0);
  Peer 1 39 Leader StartHeartBeat;
  Peer 2 28 Leader (AppendTo 1);
  Peer 1 39 Leader (AppendTo 0);
  Peer 1 39 Leader (AppendTo 2);
  Peer 2 28 Leader (AppendTo 3);
  Peer 1 39 Leader (AppendTo 3);
  Peer 2 28 Leader (AppendTo 4);
  Peer 1 39 Leader (AppendTo 4);
  Peer 2 28 Leader (SendAppend 1 [123; 123; 123; 1; 123]);
  Peer 1 39 Leader (SendAppend 2 [1; 124; 124; 1; 124]);
  Peer 2 28 Leader (SendAppend 4 [123; 123; 123; 1; 123]);
  Peer 2 28 Leader (SendAppend 0 [123; 123; 123; 1; 123]);
  Peer 1 39 Leader (SendAppend 0 [1; 124; 124; 1; 124]);
  Peer 2 28 Leader (SendAppend 3 [123; 123; 123; 1; 123]);
  Peer 1 39 Leader (SendAppend 3 [1; 124; 124; 1; 124]);
  Peer 1 39 Leader (SendAppend 4 [1; 124; 124; 1; 124]);
  Peer 1 39 Leader (AppendLost 2);
  Peer 1 39 Leader (AppendLost 0);
  Peer 2 28 Leader (AppendLost 4);
  Peer 2 28 Leader (AppendLost 1);
  Peer 1 39 Leader (AppendLost 4);
  Peer 1 39 Leader (AppendLost 3);
  Peer 2 28 Leader (AppendLost 0);
  Peer 2 28 Leader (AppendLost 3);
  Peer 0 49 Candidate (VoteReply 3 47 false);
  Peer 0 49 Candidate (SenderCommit 1 1);
  Peer 0 49 Candidate (CheckElection 1 5);
  Peer 1 39 Leader StartHeartBeat;
  Peer 2 28 Leader StartHeartBeat;
  Peer 1 39 Leader (AppendTo 0);
  Peer 2 28 Leader (AppendTo 0);
  Peer 1 39 Leader (AppendTo 2);
  Peer 1 39 Leader (AppendTo 3);
  Peer 1 39 Leader (AppendTo 4);
  Peer 2 28 Leader (AppendTo 1);
  Peer 1 39 Leader (SendAppend 4 [1; 124; 124; 1; 124]);
  Peer 2 28 Leader (AppendTo 3);
  Peer 1 39 Leader (SendAppend 3 [1; 124; 124; 1; 124]);
  Peer 2 28 Leader (AppendTo 4);
  Peer 2 28 Leader (SendAppend 0 [123; 123; 123; 1; 123]);
  Peer 2 28 Leader (SendAppend 4 [123; 123; 123; 1; 123]);
  Peer 1 39 Leader (SendAppend 0 [1; 124; 124; 1; 124]);
  Peer 1 39 Leader (SendAppend 2 [1; 124; 124; 1; 124]);
  Peer 2 28 Leader (SendAppend 1 [123; 123; 123; 1; 123]);
  Peer 2 28 Leader (SendAppend 3 [123; 123; 123; 1; 123]);
  Peer 2 28 Leader (AppendLost 3);
  Peer 2 28 Leader (AppendLost 0);
  Peer 2 28 Leader (AppendLost 1);
  Peer 1 39 Leader (AppendLost 2);
  Peer 1 39 Leader (AppendLost 0);
  Peer 1 39 Leader (AppendLost 4);
  Peer 2 28 Leader (AppendLost 4);
  Peer 1 39 Leader StartHeartBeat;
  Peer 1 39 Leader (AppendTo 0);
  Peer 1 39 Leader (AppendTo 2);
  Peer 1 39 Leader (AppendTo 3);
  Peer 1 39 Leader (AppendTo 4);
  Peer 1 39 Leader (SendAppend 4 [1; 124; 124; 1; 124]);
  Peer 1 39 Leader (SendAppend 2 [1; 124; 124; 1; 124]);
  Peer 2 28 Leader StartHeartBeat;
  Peer 2 28 Leader (AppendTo 0);
  Peer 2 28 Leader (AppendTo 1);
  Peer 2 28 Leader (AppendTo 3);
  Peer 2 28 Leader (AppendTo 4);
  Peer 1 39 Leader (AppendLost 3);
  Peer 2 28 Leader (SendAppend 4 [123; 123; 123; 1; 123]);
  Peer 1 39 Leader (SendAppend 3 [1; 124; 124; 1; 124]);
  Peer 2 28 Leader (SendAppend 1 [123; 123; 123; 1; 123]);
  Peer 2 28 Leader (SendAppend 3 [123; 123; 123; 1; 123]);
  Peer 1 39 Leader (SendAppend 0 [1; 124; 124; 1; 124]);
  Peer 2 28 Leader (SendAppend 0 [123; 123; 123; 1; 123]);
  Peer 2 28 Leader (AppendLost 0);
  Peer 1 39 Leader (AppendLost 0);
  Peer 2 28 Leader (AppendLost 1);
  Peer 2 28 Leader (AppendLost 3);
  Peer 1 39 Leader (AppendLost 3);
  Peer 2 28 Leader (AppendLost 4);
  Peer 1 39 Leader (AppendLost 4);
  Peer 1 39 Leader (AppendLost 2);
  Peer 1 39 Leader StartHeartBeat;
  Peer 1 39 Leader (AppendTo 0);
  Peer 1 39 Leader (AppendTo 2);
  Peer 2 28 Leader StartHeartBeat;
  Peer 2 28 Leader (AppendTo 0);
  Peer 2 28 Leader (AppendTo 1);
  Peer 2 28 Leader (AppendTo 3);
  Peer 2 28 Leader (AppendTo 4);
  Peer 1 39 Leader (AppendTo 3);
  Peer 2 28 Leader (SendAppend 4 [123; 123; 123; 1; 123]);
  Peer 1 39 Leader (AppendTo 4);
  Peer 2 28 Leader (SendAppend 1 [123; 123; 123; 1; 123]);
  Peer 1 39 Leader (SendAppend 2 [1; 124; 124; 1; 124]);
  Peer 1 39 Leader (SendAppend 3 [1; 124; 124; 1; 124]);
  Peer 1 39 Leader (SendAppend 4 [1; 124; 124; 1; 124]);
  Peer 2 28 Leader (SendAppend 3 [123; 123; 123; 1; 123]);
  Peer 2 28 Leader (SendAppend 0 [123; 123; 123; 1; 123]);
  Peer 1 39 Leader (SendAppend 0 [1; 124; 124; 1; 124]);
  Peer 1 39 Leader (AppendLost 3);
  Peer 2 28 Leader (AppendLost 1);
  Peer 2 28 Leader (AppendLost 0);
  Peer 1 39 Leader (AppendLost 0);
  Peer 1 39 Leader (AppendLost 2);
  Peer 1 39 Leader (AppendLost 4);
  Peer 2 28 Leader (AppendLost 4);
  Peer 2 28 Leader StartHeartBeat;
  Peer 2 28 Leader (AppendTo 0);
  Peer 1 39 Leader StartHeartBeat;
  Peer 1 39 Leader (AppendTo 0);
  Peer 2 28 Leader (AppendTo 1);
  Peer 1 39 Leader (AppendTo 2);
  Peer 1 39 Leader (AppendTo 3);
  Peer 1 39 Leader (AppendTo 4);
  Peer 2 28 Leader (AppendTo 3);
  Peer 2 28 Leader (AppendTo 4);
  Peer 1 39 Leader (SendAppend 4 [1; 124; 124; 1; 124]);
  Peer 2 28 Leader (SendAppend 3 [123; 123; 123; 1; 123]);
  Peer 1 39 Leader (SendAppend 3 [1; 124; 124; 1; 124]);
  Peer 2 28 Leader (AppendLost 3);
  Peer 2 28 Leader (SendAppend 0 [123; 123; 123; 1; 123]);
  Peer 2 28 Leader (SendAppend 1 [123; 123; 123; 1; 123]);
  Peer 1 39 Leader (SendAppend 0 [1; 124; 124; 1; 124]);
  Peer 2 28 Leader (SendAppend 4 [123; 123; 123; 1; 123]);
  Peer 1 39 Leader (SendAppend 2 [1; 124; 124; 1; 124]);
  Peer 1 39 Leader (AppendLost 4);
  Peer 2 28 Leader (AppendLost 4);
  Peer 3 49 Follower (VoteReply 4 48 false);
  Peer 3 49 Follower (SenderCommit 1 1);
  Peer 3 49 Follower (CheckElection 0 5);
  Peer 3 49 Follower NotCandidate;
  Peer 2 28 Leader (AppendLost 3);
  Peer 1 39 Leader (AppendLost 3);
  Peer 1 39 Leader (AppendLost 2);
  Peer 1 39 Leader (AppendLost 0);
  Peer 2 28 Leader (AppendLost 0);
  Peer 2 28 Leader (AppendLost 1);
  Peer 0 49 Candidate StartElection;
  Peer 1 39 Leader StartHeartBeat].

(** Lines 8556 to 8705. *)
Definition run_58 : list Line := [
  Peer 4 49 Candidate StartElection;
  Peer 1 39 Leader (AppendTo 0);
  Peer 1 39 Leader (AppendTo 2);
  Peer 1 39 Leader (AppendTo 3);
  Peer 2 28 Leader StartHeartBeat;
  Peer 2 28 Leader (AppendTo 0);
  Peer 2 28 Leader (AppendTo 1);
  Peer 2 28 Leader (AppendTo 3);
  Peer 1 39 Leader (AppendTo 4);
  Peer 2 28 Leader (AppendTo 4);
  Peer 1 39 Leader (SendAppend 3 [1; 124; 124; 1; 124]);
  Peer 2 28 Leader (SendAppend 3 [123; 123; 123; 1; 123]);
  Peer 0 50 Candidate BecomeCandidate;
  Peer 0 50 Candidate (RequestVoteTo 1);
  Peer 0 50 Candidate (RequestVoteTo 2);
  Peer 0 50 Candidate (RequestVoteTo 3);
  Peer 0 50 Candidate (RequestVoteTo 4);
  Peer 2 28 Leader (SendAppend 0 [123; 123; 123; 1; 123]);
  Peer 1 39 Leader (SendAppend 4 [1; 124; 124; 1; 124]);
  Peer 2 28 Leader (SendAppend 4 [123; 123; 123; 1; 123]);
  Peer 1 39 Leader (SendAppend 0 [1; 124; 124; 1; 124]);
  Peer 2 28 Leader (SendAppend 1 [123; 123; 123; 1; 123]);
  Peer 4 50 Candidate BecomeCandidate;
  Peer 4 50 Candidate (RequestVoteTo 0);
  Peer 4 50 Candidate (RequestVoteTo 1);
  Peer 4 50 Candidate (RequestVoteTo 2);
  Peer 4 50 Candidate (RequestVoteTo 3);
  Peer 1 39 Leader (SendAppend 2 [1; 124; 124; 1; 124]);
  Peer 2 28 Leader (AppendLost 1);
  Peer 1 39 Leader (AppendLost 4);
  Peer 3 49 Follower (ReceiveRequestVote 0 0 50);
  Peer 3 49 Follower (VoteArgs 50 133 14 123 124);
  Peer 3 49 Follower (HandlerCommit 1 1);
  Peer 3 49 Follower (SelfTermLower 0);
  Peer 4 50 Candidate (ReceiveRequestVote 4 0 50);
  Peer 4 50 Candidate (VoteArgs 50 133 16 520 521);
  Peer 4 50 Candidate (HandlerCommit 122 122);
  Peer 4 50 Candidate (CompareLogs 16 9 520 133);
  Peer 4 50 Candidate SelfLogNewer;
  Peer 3 50 Follower (CompareLogs 14 9 123 133);
  Peer 3 50 Follower SelfLogNewer;
  Peer 0 50 Candidate (VoteReply 4 50 false);
  Peer 0 50 Candidate (SenderCommit 1 1);
  Peer 0 50 Candidate (CheckElection 1 5);
  Peer 1 39 Leader (AppendLost 3);
  Peer 2 28 Leader (AppendLost 0);
  Peer 1 39 Leader (AppendLost 2);
  Peer 3 50 Follower (ReceiveRequestVote 0 4 50);
  Peer 0 50 Candidate (ReceiveRequestVote 0 4 50);
  Peer 3 50 Follower (VoteArgs 50 520 14 123 124);
  Peer 0 50 Candidate (VoteArgs 50 520 9 133 134);
  Peer 3 50 Follower (HandlerCommit 1 1);
  Peer 0 50 Candidate (HandlerCommit 1 1);
  Peer 3 50 Follower (CompareLogs 14 16 123 520);
  Peer 3 50 Follower Refused;
  Peer 0 50 Candidate (CompareLogs 9 16 133 520);
  Peer 0 50 Candidate Refused;
  Peer 4 50 Candidate (VoteReply 3 50 false);
  Peer 4 50 Candidate (SenderCommit 122 122);
  Peer 4 50 Candidate (CheckElection 1 5);
  Peer 2 28 Leader (AppendLost 3);
  Peer 1 39 Leader (AppendLost 0);
  Peer 4 50 Candidate (RequestVoteLost 2);
  Peer 4 50 Candidate (RequestVoteLost 1);
  Peer 2 28 Leader (AppendLost 4);
  Peer 0 50 Candidate (RequestVoteLost 1);
  Peer 0 50 Candidate (RequestVoteLost 2);
  Peer 2 28 Leader StartHeartBeat;
  Peer 1 39 Leader StartHeartBeat;
  Peer 2 28 Leader (AppendTo 0);
  Peer 1 39 Leader (AppendTo 0);
  Peer 2 28 Leader (AppendTo 1);
  Peer 2 28 Leader (AppendTo 3);
  Peer 2 28 Leader (AppendTo 4);
  Peer 1 39 Leader (AppendTo 2);
  Peer 1 39 Leader (AppendTo 3);
  Peer 1 39 Leader (AppendTo 4);
  Peer 2 28 Leader (SendAppend 4 [123; 123; 123; 1; 123]);
  Peer 1 39 Leader (SendAppend 0 [1; 124; 124; 1; 124]);
  Peer 2 28 Leader (SendAppend 0 [123; 123; 123; 1; 123]);
  Peer 1 39 Leader (SendAppend 3 [1; 124; 124; 1; 124]);
  Peer 2 28 Leader (SendAppend 1 [123; 123; 123; 1; 123]);
  Peer 1 39 Leader (SendAppend 2 [1; 124; 124; 1; 124]);
  Peer 2 28 Leader (SendAppend 3 [123; 123; 123; 1; 123]);
  Peer 1 39 Leader (SendAppend 4 [1; 124; 124; 1; 124]);
  Peer 1 39 Leader (AppendLost 3);
  Peer 2 28 Leader (AppendLost 4);
  Peer 1 39 Leader (AppendLost 2);
  Peer 1 39 Leader (AppendLost 0);
  Peer 2 28 Leader (AppendLost 1);
  Peer 2 28 Leader (AppendLost 3);
  Peer 2 28 Leader (AppendLost 0);
  Peer 1 39 Leader (AppendLost 4);
  Peer 1 39 Leader StartHeartBeat;
  Peer 1 39 Leader (AppendTo 0);
  Peer 2 28 Leader StartHeartBeat;
  Peer 2 28 Leader (AppendTo 0);
  Peer 2 28 Leader (AppendTo 1);
  Peer 2 28 Leader (AppendTo 3);
  Peer 1 39 Leader (AppendTo 2);
  Peer 2 28 Leader (AppendTo 4);
  Peer 1 39 Leader (AppendTo 3);
  Peer 1 39 Leader (AppendTo 4);
  Peer 1 39 Leader (SendAppend 0 [1; 124; 124; 1; 124]);
  Peer 2 28 Leader (SendAppend 3 [123; 123; 123; 1; 123]);
  Peer 2 28 Leader (SendAppend 1 [123; 123; 123; 1; 123]);
  Peer 1 39 Leader (SendAppend 2 [1; 124; 124; 1; 124]);
  Peer 2 28 Leader (SendAppend 0 [123; 123; 123; 1; 123]);
  Peer 1 39 Leader (SendAppend 3 [1; 124; 124; 1; 124]);
  Peer 1 39 Leader (SendAppend 4 [1; 124; 124; 1; 124]);
  Peer 2 28 Leader (SendAppend 4 [123; 123; 123; 1; 123]);
  Peer 1 39 Leader (AppendLost 3);
  Peer 1 39 Leader (AppendLost 0);
  Peer 1 39 Leader (AppendLost 4);
  Peer 2 28 Leader (AppendLost 0);
  Peer 2 28 Leader (AppendLost 4);
  Peer 4 50 Candidate (VoteReply 0 50 false);
  Peer 4 50 Candidate (SenderCommit 122 122);
  Peer 4 50 Candidate (CheckElection 1 5);
  Peer 1 39 Leader (AppendLost 2);
  Peer 1 39 Leader StartHeartBeat;
  Peer 1 39 Leader (AppendTo 0);
  Peer 1 39 Leader (AppendTo 2);
  Peer 1 39 Leader (AppendTo 3);
  Peer 1 39 Leader (AppendTo 4);
  Peer 1 39 Leader (SendAppend 4 [1; 124; 124; 1; 124]);
  Peer 2 28 Leader (AppendLost 3);
  Peer 1 39 Leader (SendAppend 0 [1; 124; 124; 1; 124]);
  Peer 1 39 Leader (SendAppend 2 [1; 124; 124; 1; 124]);
  Peer 2 28 Leader (AppendLost 1);
  Peer 2 28 Leader StartHeartBeat;
  Peer 2 28 Leader (AppendTo 0);
  Peer 2 28 Leader (AppendTo 1);
  Peer 2 28 Leader (AppendTo 3);
  Peer 2 28 Leader (AppendTo 4);
  Peer 2 28 Leader (SendAppend 4 [123; 123; 123; 1; 123]);
  Peer 2 28 Leader (SendAppend 0 [123; 123; 123; 1; 123]);
  Peer 1 39 Leader (SendAppend 3 [1; 124; 124; 1; 124]);
  Peer 2 28 Leader (SendAppend 3 [123; 123; 123; 1; 123]);
  Peer 2 28 Leader (SendAppend 1 [123; 123; 123; 1; 123]);
  Peer 2 28 Leader (AppendLost 4);
  Peer 1 39 Leader (AppendLost 3);
  Peer 2 28 Leader (AppendLost 1);
  Peer 1 39 Leader (AppendLost 2);
  Peer 1 39 Leader (AppendLost 0);
  Peer 2 28 Leader (AppendLost 3);
  Peer 2 28 Leader (AppendLost 0);
  Peer 0 50 Candidate (VoteReply 3 50 false);
  Peer 0 50 Candidate (SenderCommit 1 1);
  Peer 0 50 Candidate (CheckElection 1 5)].

(** Lines 8706 to 8855. *)
Definition run_59 : list Line := [
  Peer 1 39 Leader StartHeartBeat;
  Peer 2 28 Leader StartHeartBeat;
  Peer 2 28 Leader (AppendTo 0);
  Peer 1 39 Leader (AppendTo 0);
  Peer 1 39 Leader (AppendTo 2);
  Peer 1 39 Leader (AppendTo 3);
  Peer 2 28 Leader (AppendTo 1);
  Peer 2 28 Leader (AppendTo 3);
  Peer 1 39 Leader (AppendTo 4);
  Peer 2 28 Leader (AppendTo 4);
  Peer 1 39 Leader (AppendLost 4);
  Peer 2 28 Leader (SendAppend 0 [123; 123; 123; 1; 123]);
  Peer 1 39 Leader (SendAppend 3 [1; 124; 124; 1; 124]);
  Peer 1 39 Leader (SendAppend 0 [1; 124; 124; 1; 124]);
  Peer 2 28 Leader (SendAppend 3 [123; 123; 123; 1; 123]);
  Peer 1 39 Leader (SendAppend 2 [1; 124; 124; 1; 124]);
  Peer 2 28 Leader (SendAppend 1 [123; 123; 123; 1; 123]);
  Peer 1 39 Leader (SendAppend 4 [1; 124; 124; 1; 124]);
  Peer 2 28 Leader (SendAppend 4 [123; 123; 123; 1; 123]);
  Peer 2 28 Leader (AppendLost 4);
  Peer 1 39 Leader (AppendLost 3);
  Peer 2 28 Leader (AppendLost 3);
  Peer 1 39 Leader (AppendLost 0);
  Peer 1 39 Leader (AppendLost 2);
  Peer 2 28 Leader (AppendLost 0);
  Peer 2 28 Leader (AppendLost 1);
  Peer 2 28 Leader StartHeartBeat;
  Peer 2 28 Leader (AppendTo 0);
  Peer 1 39 Leader (AppendLost 4);
  Peer 1 39 Leader StartHeartBeat;
  Peer 1 39 Leader (AppendTo 0);
  Peer 2 28 Leader (AppendTo 1);
  Peer 1 39 Leader (AppendTo 2);
  Peer 1 39 Leader (AppendTo 3);
  Peer 1 39 Leader (AppendTo 4);
  Peer 2 28 Leader (AppendTo 3);
  Peer 1 39 Leader (SendAppend 4 [1; 124; 124; 1; 124]);
  Peer 2 28 Leader (AppendTo 4);
  Peer 2 28 Leader (SendAppend 0 [123; 123; 123; 1; 123]);
  Peer 1 39 Leader (SendAppend 0 [1; 124; 124; 1; 124]);
  Peer 2 28 Leader (SendAppend 4 [123; 123; 123; 1; 123]);
  Peer 1 39 Leader (SendAppend 2 [1; 124; 124; 1; 124]);
  Peer 2 28 Leader (SendAppend 1 [123; 123; 123; 1; 123]);
  Peer 1 39 Leader (SendAppend 3 [1; 124; 124; 1; 124]);
  Peer 2 28 Leader (SendAppend 3 [123; 123; 123; 1; 123]);
  Peer 1 39 Leader (AppendLost 2);
  Peer 2 28 Leader (AppendLost 4);
  Peer 1 39 Leader (AppendLost 0);
  Peer 1 39 Leader (AppendLost 4);
  Peer 2 28 Leader (AppendLost 3);
  Peer 2 28 Leader (AppendLost 1);
  Peer 2 28 Leader (AppendLost 0);
  Peer 1 39 Leader (AppendLost 3);
  Peer 2 28 Leader StartHeartBeat;
  Peer 2 28 Leader (AppendTo 0);
  Peer 1 39 Leader StartHeartBeat;
  Peer 1 39 Leader (AppendTo 0);
  Peer 1 39 Leader (AppendTo 2);
  Peer 2 28 Leader (AppendTo 1);
  Peer 2 28 Leader (AppendTo 3);
  Peer 1 39 Leader (AppendTo 3);
  Peer 1 39 Leader (AppendTo 4);
  Peer 2 28 Leader (AppendTo 4);
  Peer 1 39 Leader (SendAppend 2 [1; 124; 124; 1; 124]);
  Peer 2 28 Leader (SendAppend 0 [123; 123; 123; 1; 123]);
  Peer 2 28 Leader (SendAppend 4 [123; 123; 123; 1; 123]);
  Peer 1 39 Leader (SendAppend 4 [1; 124; 124; 1; 124]);
  Peer 1 39 Leader (SendAppend 0 [1; 124; 124; 1; 124]);
  Peer 1 39 Leader (SendAppend 3 [1; 124; 124; 1; 124]);
  Peer 2 28 Leader (SendAppend 3 [123; 123; 123; 1; 123]);
  Peer 2 28 Leader (SendAppend 1 [123; 123; 123; 1; 123]);
  Peer 2 28 Leader (AppendLost 1);
  Peer 1 39 Leader (AppendLost 3);
  Peer 2 28 Leader (AppendLost 0);
  Peer 1 39 Leader (AppendLost 4);
  Peer 1 39 Leader (AppendLost 2);
  Peer 2 28 Leader (AppendLost 3);
  Peer 1 39 Leader (AppendLost 0);
  Peer 2 28 Leader (AppendLost 4);
  Peer 2 28 Leader StartHeartBeat;
  Peer 2 28 Leader (AppendTo 0);
  Peer 0 50 Candidate StartElection;
  Peer 4 50 Candidate StartElection;
  Peer 2 28 Leader (AppendTo 1);
  Peer 2 28 Leader (AppendTo 3);
  Peer 2 28 Leader (AppendTo 4);
  Peer 2 28 Leader (SendAppend 0 [123; 123; 123; 1; 123]);
  Peer 0 51 Candidate BecomeCandidate;
  Peer 0 51 Candidate (RequestVoteTo 1);
  Peer 0 51 Candidate (RequestVoteTo 2);
  Peer 0 51 Candidate (RequestVoteTo 3);
  Peer 0 51 Candidate (RequestVoteTo 4);
  Peer 4 51 Candidate BecomeCandidate;
  Peer 4 51 Candidate (RequestVoteTo 0);
  Peer 4 51 Candidate (RequestVoteTo 1);
  Peer 4 51 Candidate (RequestVoteTo 2);
  Peer 4 51 Candidate (RequestVoteTo 3);
  Peer 1 39 Leader StartHeartBeat;
  Peer 1 39 Leader (AppendTo 0);
  Peer 1 39 Leader (AppendTo 2);
  Peer 1 39 Leader (AppendTo 3);
  Peer 1 39 Leader (AppendTo 4);
  Peer 1 39 Leader (SendAppend 4 [1; 124; 124; 1; 124]);
  Peer 1 39 Leader (SendAppend 0 [1; 124; 124; 1; 124]);
  Peer 2 28 Leader (SendAppend 3 [123; 123; 123; 1; 123]);
  Peer 2 28 Leader (SendAppend 1 [123; 123; 123; 1; 123]);
  Peer 1 39 Leader (SendAppend 3 [1; 124; 124; 1; 124]);
  Peer 2 28 Leader (SendAppend 4 [123; 123; 123; 1; 123]);
  Peer 1 39 Leader (SendAppend 2 [1; 124; 124; 1; 124]);
  Peer 4 51 Candidate (RequestVoteLost 0);
  Peer 3 50 Follower (ReceiveRequestVote 0 0 51);
  Peer 3 50 Follower (VoteArgs 51 133 14 123 124);
  Peer 3 50 Follower (HandlerCommit 1 1);
  Peer 3 50 Follower (SelfTermLower 0);
  Peer 4 51 Candidate (ReceiveRequestVote 4 0 51);
  Peer 4 51 Candidate (VoteArgs 51 133 16 520 521);
  Peer 4 51 Candidate (HandlerCommit 122 122);
  Peer 4 51 Candidate (CompareLogs 16 9 520 133);
  Peer 4 51 Candidate SelfLogNewer;
  Peer 3 51 Follower (CompareLogs 14 9 123 133);
  Peer 3 51 Follower SelfLogNewer;
  Peer 0 51 Candidate (VoteReply 4 51 false);
  Peer 0 51 Candidate (SenderCommit 1 1);
  Peer 0 51 Candidate (CheckElection 1 5);
  Peer 0 51 Candidate (VoteReply 3 51 false);
  Peer 0 51 Candidate (SenderCommit 1 1);
  Peer 0 51 Candidate (CheckElection 1 5);
  Peer 2 28 Leader (AppendLost 3);
  Peer 3 51 Follower (ReceiveRequestVote 0 4 51);
  Peer 3 51 Follower (VoteArgs 51 520 14 123 124);
  Peer 3 51 Follower (HandlerCommit 1 1);
  Peer 3 51 Follower (CompareLogs 14 16 123 520);
  Peer 3 51 Follower Refused;
  Peer 1 39 Leader (AppendLost 0);
  Peer 1 39 Leader (AppendLost 4);
  Peer 2 28 Leader (AppendLost 0);
  Peer 2 28 Leader (AppendLost 4);
  Peer 0 51 Candidate (RequestVoteLost 1);
  Peer 4 51 Candidate (RequestVoteLost 2);
  Peer 4 51 Candidate (RequestVoteLost 1);
  Peer 2 28 Leader (AppendLost 1);
  Peer 1 39 Leader (AppendLost 3);
  Peer 1 39 Leader (AppendLost 2);
  Peer 0 51 Candidate (RequestVoteLost 2);
  Peer 2 28 Leader StartHeartBeat;
  Peer 2 28 Leader (AppendTo 0);
  Peer 2 28 Leader (AppendTo 1);
  Peer 2 28 Leader (AppendTo 3);
  Peer 2 28 Leader (AppendTo 4);
  Peer 2 28 Leader (SendAppend 4 [123; 123; 123; 1; 123])].

(** Lines 8856 to 9005. *)
Definition run_60 : list Line := [
  Peer 2 28 Leader (SendAppend 3 [123; 123; 123; 1; 123]);
  Peer 2 28 Leader (SendAppend 1 [123; 123; 123; 1; 123]);
  Peer 1 39 Leader StartHeartBeat;
  Peer 1 39 Leader (AppendTo 0);
  Peer 1 39 Leader (AppendTo 2);
  Peer 1 39 Leader (AppendTo 3);
  Peer 1 39 Leader (AppendTo 4);
  Peer 1 39 Leader (SendAppend 4 [1; 124; 124; 1; 124]);
  Peer 1 39 Leader (SendAppend 2 [1; 124; 124; 1; 124]);
  Peer 1 39 Leader (SendAppend 3 [1; 124; 124; 1; 124]);
  Peer 1 39 Leader (SendAppend 0 [1; 124; 124; 1; 124]);
  Peer 2 28 Leader (SendAppend 0 [123; 123; 123; 1; 123]);
  Peer 2 28 Leader (AppendLost 4);
  Peer 1 39 Leader (AppendLost 2);
  Peer 2 28 Leader (AppendLost 1);
  Peer 1 39 Leader (AppendLost 3);
  Peer 2 28 Leader (AppendLost 3);
  Peer 2 28 Leader (AppendLost 0);
  Peer 1 39 Leader (AppendLost 4);
  Peer 1 39 Leader (AppendLost 0);
  Peer 2 28 Leader StartHeartBeat;
  Peer 2 28 Leader (AppendTo 0);
  Peer 2 28 Leader (AppendTo 1);
  Peer 2 28 Leader (AppendTo 3);
  Peer 2 28 Leader (AppendTo 4);
  Peer 1 39 Leader StartHeartBeat;
  Peer 1 39 Leader (AppendTo 0);
  Peer 1 39 Leader (AppendTo 2);
  Peer 1 39 Leader (AppendTo 3);
  Peer 1 39 Leader (AppendTo 4);
  Peer 1 39 Leader (SendAppend 4 [1; 124; 124; 1; 124]);
  Peer 1 39 Leader (SendAppend 0 [1; 124; 124; 1; 124]);
  Peer 1 39 Leader (SendAppend 2 [1; 124; 124; 1; 124]);
  Peer 2 28 Leader (SendAppend 1 [123; 123; 123; 1; 123]);
  Peer 1 39 Leader (SendAppend 3 [1; 124; 124; 1; 124]);
  Peer 2 28 Leader (SendAppend 3 [123; 123; 123; 1; 123]);
  Peer 1 39 Leader (AppendLost 3);
  Peer 2 28 Leader (SendAppend 4 [123; 123; 123; 1; 123]);
  Peer 2 28 Leader (SendAppend 0 [123; 123; 123; 1; 123]);
  Peer 2 28 Leader (AppendLost 3);
  Peer 2 28 Leader (AppendLost 0);
  Peer 1 39 Leader (AppendLost 4);
  Peer 2 28 Leader (AppendLost 4);
  Peer 4 51 Candidate (VoteReply 3 51 false);
  Peer 4 51 Candidate (SenderCommit 122 122);
  Peer 4 51 Candidate (CheckElection 1 5);
  Peer 2 28 Leader StartHeartBeat;
  Peer 2 28 Leader (AppendTo 0);
  Peer 2 28 Leader (AppendTo 1);
  Peer 2 28 Leader (AppendTo 3);
  Peer 2 28 Leader (AppendTo 4);
  Peer 2 28 Leader (AppendLost 1);
  Peer 1 39 Leader StartHeartBeat;
  Peer 1 39 Leader (AppendTo 0);
  Peer 1 39 Leader (AppendTo 2);
  Peer 2 28 Leader (SendAppend 4 [123; 123; 123; 1; 123]);
  Peer 1 39 Leader (AppendTo 3);
  Peer 1 39 Leader (AppendTo 4);
  Peer 1 39 Leader (AppendLost 2);
  Peer 1 39 Leader (SendAppend 4 [1; 124; 124; 1; 124]);
  Peer 2 28 Leader (SendAppend 0 [123; 123; 123; 1; 123]);
  Peer 1 39 Leader (AppendLost 0);
  Peer 1 39 Leader (SendAppend 2 [1; 124; 124; 1; 124]);
  Peer 2 28 Leader (SendAppend 1 [123; 123; 123; 1; 123]);
  Peer 1 39 Leader (SendAppend 0 [1; 124; 124; 1; 124]);
  Peer 1 39 Leader (SendAppend 3 [1; 124; 124; 1; 124]);
  Peer 2 28 Leader (SendAppend 3 [123; 123; 123; 1; 123]);
  Peer 2 28 Leader (AppendLost 0);
  Peer 1 39 Leader (AppendLost 2);
  Peer 1 39 Leader (AppendLost 3);
  Peer 2 28 Leader (AppendLost 4);
  Peer 1 39 Leader (AppendLost 0);
  Peer 2 28 Leader (AppendLost 1);
  Peer 2 28 Leader (AppendLost 3);
  Peer 2 28 Leader StartHeartBeat;
  Peer 2 28 Leader (AppendTo 0);
  Peer 2 28 Leader (AppendTo 1);
  Peer 1 39 Leader (AppendLost 4);
  Peer 2 28 Leader (AppendTo 3);
  Peer 1 39 Leader StartHeartBeat;
  Peer 1 39 Leader (AppendTo 0);
  Peer 1 39 Leader (AppendTo 2);
  Peer 2 28 Leader (AppendTo 4);
  Peer 1 39 Leader (AppendTo 3);
  Peer 1 39 Leader (AppendTo 4);
  Peer 2 28 Leader (SendAppend 1 [123; 123; 123; 1; 123]);
  Peer 1 39 Leader (SendAppend 4 [1; 124; 124; 1; 124]);
  Peer 2 28 Leader (SendAppend 4 [123; 123; 123; 1; 123]);
  Peer 1 39 Leader (SendAppend 2 [1; 124; 124; 1; 124]);
  Peer 2 28 Leader (SendAppend 0 [123; 123; 123; 1; 123]);
  Peer 2 28 Leader (SendAppend 3 [123; 123; 123; 1; 123]);
  Peer 1 39 Leader (SendAppend 0 [1; 124; 124; 1; 124]);
  Peer 1 39 Leader (SendAppend 3 [1; 124; 124; 1; 124]);
  Peer 1 39 Leader (AppendLost 3);
  Peer 2 28 Leader (AppendLost 0);
  Peer 1 39 Leader (AppendLost 4);
  Peer 2 28 Leader (AppendLost 1);
  Peer 1 39 Leader (AppendLost 0);
  Peer 2 28 Leader (AppendLost 4);
  Peer 1 39 Leader (AppendLost 2);
  Peer 2 28 Leader (AppendLost 3);
  Peer 2 28 Leader StartHeartBeat;
  Peer 2 28 Leader (AppendTo 0);
  Peer 3 51 Follower StartElection;
  Peer 2 28 Leader (AppendTo 1);
  Peer 2 28 Leader (AppendTo 3);
  Peer 2 28 Leader (AppendTo 4);
  Peer 2 28 Leader (SendAppend 4 [123; 123; 123; 1; 123]);
  Peer 2 28 Leader (SendAppend 0 [123; 123; 123; 1; 123]);
  Peer 3 52 Candidate BecomeCandidate;
  Peer 3 52 Candidate (RequestVoteTo 0);
  Peer 3 52 Candidate (RequestVoteTo 1);
  Peer 3 52 Candidate (RequestVoteTo 2);
  Peer 3 52 Candidate (RequestVoteTo 4);
  Peer 1 39 Leader StartHeartBeat;
  Peer 1 39 Leader (AppendTo 0);
  Peer 1 39 Leader (AppendTo 2);
  Peer 1 39 Leader (AppendTo 3);
  Peer 1 39 Leader (AppendTo 4);
  Peer 1 39 Leader (SendAppend 4 [1; 124; 124; 1; 124]);
  Peer 1 39 Leader (SendAppend 2 [1; 124; 124; 1; 124]);
  Peer 1 39 Leader (SendAppend 0 [1; 124; 124; 1; 124]);
  Peer 2 28 Leader (SendAppend 1 [123; 123; 123; 1; 123]);
  Peer 1 39 Leader (SendAppend 3 [1; 124; 124; 1; 124]);
  Peer 2 28 Leader (SendAppend 3 [123; 123; 123; 1; 123]);
  Peer 1 39 Leader (AppendLost 0);
  Peer 3 52 Candidate (RequestVoteLost 2);
  Peer 1 39 Leader (AppendLost 2);
  Peer 2 28 Leader (AppendLost 1);
  Peer 3 52 Candidate (RequestVoteLost 1);
  Peer 0 51 Candidate (ReceiveRequestVote 0 3 52);
  Peer 4 51 Candidate (ReceiveRequestVote 4 3 52);
  Peer 0 51 Candidate (VoteArgs 52 123 9 133 134);
  Peer 4 51 Candidate (VoteArgs 52 123 16 520 521);
  Peer 0 51 Candidate (HandlerCommit 1 1);
  Peer 0 51 Candidate (SelfTermLower 3);
  Peer 4 51 Candidate (HandlerCommit 122 122);
  Peer 4 51 Candidate (SelfTermLower 3);
  Peer 0 52 Follower (CompareLogs 9 14 133 123);
  Peer 0 52 Follower (Granted 52 123 9 133 134);
  Peer 0 52 Follower (HandlerCommit 1 1);
  Peer 4 52 Follower (CompareLogs 16 14 520 123);
  Peer 4 52 Follower SelfLogNewer;
  Peer 3 52 Candidate (RequestVoteLost 4);
  Peer 2 28 Leader (AppendLost 3);
  Peer 1 39 Leader (AppendLost 3);
  Peer 1 39 Leader (AppendLost 4);
  Peer 2 28 Leader (AppendLost 0);
  Peer 1 39 Leader StartHeartBeat;
  Peer 1 39 Leader (AppendTo 0)].

(** Lines 9006 to 9155. *)
Definition run_61 : list Line := [
  Peer 1 39 Leader (AppendTo 2);
  Peer 1 39 Leader (AppendTo 3);
  Peer 1 39 Leader (AppendTo 4);
  Peer 2 28 Leader (AppendLost 4);
  Peer 1 39 Leader (SendAppend 4 [1; 124; 124; 1; 124]);
  Peer 2 28 Leader StartHeartBeat;
  Peer 1 39 Leader (SendAppend 3 [1; 124; 124; 1; 124]);
  Peer 2 28 Leader (AppendTo 0);
  Peer 2 28 Leader (AppendTo 1);
  Peer 2 28 Leader (AppendTo 3);
  Peer 2 28 Leader (AppendTo 4);
  Peer 2 28 Leader (SendAppend 4 [123; 123; 123; 1; 123]);
  Peer 2 28 Leader (SendAppend 0 [123; 123; 123; 1; 123]);
  Peer 2 28 Leader (SendAppend 3 [123; 123; 123; 1; 123]);
  Peer 2 28 Leader (SendAppend 1 [123; 123; 123; 1; 123]);
  Peer 1 39 Leader (SendAppend 0 [1; 124; 124; 1; 124]);
  Peer 1 39 Leader (SendAppend 2 [1; 124; 124; 1; 124]);
  Peer 1 39 Leader (AppendLost 0);
  Peer 2 28 Leader (AppendLost 3);
  Peer 1 39 Leader (AppendLost 2);
  Peer 2 28 Leader (AppendLost 1);
  Peer 1 39 Leader (AppendLost 4);
  Peer 1 39 Leader (AppendLost 3);
  Peer 2 28 Leader (AppendLost 0);
  Peer 1 39 Leader StartHeartBeat;
  Peer 1 39 Leader (AppendTo 0);
  Peer 2 28 Leader StartHeartBeat;
  Peer 2 28 Leader (AppendTo 0);
  Peer 1 39 Leader (AppendTo 2);
  Peer 1 39 Leader (AppendTo 3);
  Peer 1 39 Leader (AppendTo 4);
  Peer 2 28 Leader (AppendTo 1);
  Peer 2 28 Leader (AppendTo 3);
  Peer 2 28 Leader (AppendTo 4);
  Peer 1 39 Leader (SendAppend 0 [1; 124; 124; 1; 124]);
  Peer 2 28 Leader (AppendLost 4);
  Peer 2 28 Leader (SendAppend 0 [123; 123; 123; 1; 123]);
  Peer 1 39 Leader (SendAppend 3 [1; 124; 124; 1; 124]);
  Peer 1 39 Leader (SendAppend 2 [1; 124; 124; 1; 124]);
  Peer 2 28 Leader (SendAppend 1 [123; 123; 123; 1; 123]);
  Peer 1 39 Leader (SendAppend 4 [1; 124; 124; 1; 124]);
  Peer 2 28 Leader (SendAppend 3 [123; 123; 123; 1; 123]);
  Peer 2 28 Leader (SendAppend 4 [123; 123; 123; 1; 123]);
  Peer 2 28 Leader (AppendLost 4);
  Peer 2 28 Leader (AppendLost 1);
  Peer 2 28 Leader (AppendLost 3);
  Peer 1 39 Leader (AppendLost 4);
  Peer 1 39 Leader (AppendLost 2);
  Peer 1 39 Leader (AppendLost 3);
  Peer 1 39 Leader (AppendLost 0);
  Peer 2 28 Leader (AppendLost 0);
  Peer 2 28 Leader StartHeartBeat;
  Peer 2 28 Leader (AppendTo 0);
  Peer 2 28 Leader (AppendTo 1);
  Peer 2 28 Leader (AppendTo 3);
  Peer 2 28 Leader (AppendTo 4);
  Peer 1 39 Leader StartHeartBeat;
  Peer 1 39 Leader (AppendTo 0);
  Peer 2 28 Leader (SendAppend 0 [123; 123; 123; 1; 123]);
  Peer 1 39 Leader (AppendTo 2);
  Peer 2 28 Leader (SendAppend 4 [123; 123; 123; 1; 123]);
  Peer 1 39 Leader (AppendTo 3);
  Peer 1 39 Leader (AppendTo 4);
  Peer 1 39 Leader (SendAppend 4 [1; 124; 124; 1; 124]);
  Peer 1 39 Leader (SendAppend 3 [1; 124; 124; 1; 124]);
  Peer 2 28 Leader (SendAppend 1 [123; 123; 123; 1; 123]);
  Peer 1 39 Leader (SendAppend 0 [1; 124; 124; 1; 124]);
  Peer 2 28 Leader (SendAppend 3 [123; 123; 123; 1; 123]);
  Peer 1 39 Leader (SendAppend 2 [1; 124; 124; 1; 124]);
  Peer 2 28 Leader (AppendLost 4);
  Peer 1 39 Leader (AppendLost 0);
  Peer 1 39 Leader (AppendLost 2);
  Peer 1 39 Leader (AppendLost 4);
  Peer 1 39 Leader (AppendLost 3);
  Peer 2 28 Leader (AppendLost 3);
  Peer 2 28 Leader (AppendLost 1);
  Peer 1 39 Leader StartHeartBeat;
  Peer 1 39 Leader (AppendTo 0);
  Peer 1 39 Leader (AppendTo 2);
  Peer 1 39 Leader (AppendTo 3);
  Peer 1 39 Leader (AppendTo 4);
  Peer 1 39 Leader (SendAppend 4 [1; 124; 124; 1; 124]);
  Peer 2 28 Leader StartHeartBeat;
  Peer 2 28 Leader (AppendTo 0);
  Peer 2 28 Leader (AppendTo 1);
  Peer 2 28 Leader (AppendTo 3);
  Peer 1 39 Leader (SendAppend 2 [1; 124; 124; 1; 124]);
  Peer 1 39 Leader (SendAppend 0 [1; 124; 124; 1; 124]);
  Peer 1 39 Leader (SendAppend 3 [1; 124; 124; 1; 124]);
  Peer 2 28 Leader (AppendTo 4);
  Peer 2 28 Leader (SendAppend 3 [123; 123; 123; 1; 123]);
  Peer 2 28 Leader (SendAppend 0 [123; 123; 123; 1; 123]);
  Peer 2 28 Leader (SendAppend 1 [123; 123; 123; 1; 123]);
  Peer 2 28 Leader (AppendLost 0);
  Peer 2 28 Leader (SendAppend 4 [123; 123; 123; 1; 123]);
  Peer 2 28 Leader (AppendLost 0);
  Peer 1 39 Leader (AppendLost 0);
  Peer 2 28 Leader (AppendLost 1);
  Peer 2 28 Leader (AppendLost 3);
  Peer 1 39 Leader (AppendLost 4);
  Peer 3 52 Candidate (VoteReply 0 52 true);
  Peer 3 52 Candidate (SenderCommit 1 1);
  Peer 3 52 Candidate (VoteGained 0);
  Peer 3 52 Candidate (CheckElection 2 5);
  Peer 1 39 Leader (AppendLost 2);
  Peer 2 28 Leader (AppendLost 4);
  Peer 1 39 Leader (AppendLost 3);
  Peer 2 28 Leader StartHeartBeat;
  Peer 2 28 Leader (AppendTo 0);
  Peer 2 28 Leader (AppendTo 1);
  Peer 2 28 Leader (AppendTo 3);
  Peer 2 28 Leader (AppendTo 4);
  Peer 2 28 Leader (SendAppend 4 [123; 123; 123; 1; 123]);
  Peer 2 28 Leader (SendAppend 3 [123; 123; 123; 1; 123]);
  Peer 0 52 Follower StartElection;
  Peer 1 39 Leader StartHeartBeat;
  Peer 1 39 Leader (AppendTo 0);
  Peer 1 39 Leader (AppendTo 2);
  Peer 1 39 Leader (AppendTo 3);
  Peer 1 39 Leader (AppendTo 4);
  Peer 0 53 Candidate BecomeCandidate;
  Peer 1 39 Leader (SendAppend 4 [1; 124; 124; 1; 124]);
  Peer 0 53 Candidate (RequestVoteTo 1);
  Peer 0 53 Candidate (RequestVoteTo 2);
  Peer 0 53 Candidate (RequestVoteTo 3);
  Peer 0 53 Candidate (RequestVoteTo 4);
  Peer 1 39 Leader (SendAppend 2 [1; 124; 124; 1; 124]);
  Peer 2 28 Leader (SendAppend 1 [123; 123; 123; 1; 123]);
  Peer 1 39 Leader (SendAppend 3 [1; 124; 124; 1; 124]);
  Peer 3 52 Candidate (ReceiveRequestVote 3 0 53);
  Peer 3 52 Candidate (VoteArgs 53 133 14 123 124);
  Peer 3 52 Candidate (HandlerCommit 1 1);
  Peer 3 52 Candidate (SelfTermLower 0);
  Peer 1 39 Leader (SendAppend 0 [1; 124; 124; 1; 124]);
  Peer 3 53 Follower (CompareLogs 14 9 123 133);
  Peer 3 53 Follower SelfLogNewer;
  Peer 2 28 Leader (SendAppend 0 [123; 123; 123; 1; 123]);
  Peer 0 53 Candidate (RequestVoteLost 1);
  Peer 0 53 Candidate (RequestVoteLost 2);
  Peer 4 52 Follower (ReceiveRequestVote 3 0 53);
  Peer 4 52 Follower (VoteArgs 53 133 16 520 521);
  Peer 4 52 Follower (HandlerCommit 122 122);
  Peer 4 52 Follower (SelfTermLower 0);
  Peer 4 53 Follower (CompareLogs 16 9 520 133);
  Peer 4 53 Follower SelfLogNewer;
  Peer 2 28 Leader (AppendLost 0);
  Peer 2 28 Leader (AppendLost 3);
  Peer 1 39 Leader (AppendLost 0);
  Peer 2 28 Leader (AppendLost 1);
  Peer 1 39 Leader (AppendLost 4)].

(** Lines 9156 to 9305. *)
Definition run_62 : list Line := [
  Peer 2 28 Leader (AppendLost 4);
  Peer 1 39 Leader (AppendLost 3);
  Peer 1 39 Leader (AppendLost 2);
  Peer 1 39 Leader StartHeartBeat;
  Peer 1 39 Leader (AppendTo 0);
  Peer 2 28 Leader StartHeartBeat;
  Peer 2 28 Leader (AppendTo 0);
  Peer 2 28 Leader (AppendTo 1);
  Peer 2 28 Leader (AppendTo 3);
  Peer 1 39 Leader (AppendTo 2);
  Peer 1 39 Leader (AppendTo 3);
  Peer 1 39 Leader (AppendTo 4);
  Peer 2 28 Leader (AppendTo 4);
  Peer 1 39 Leader (SendAppend 0 [1; 124; 124; 1; 124]);
  Peer 2 28 Leader (SendAppend 3 [123; 123; 123; 1; 123]);
  Peer 2 28 Leader (SendAppend 4 [123; 123; 123; 1; 123]);
  Peer 1 39 Leader (SendAppend 3 [1; 124; 124; 1; 124]);
  Peer 1 39 Leader (SendAppend 4 [1; 124; 124; 1; 124]);
  Peer 1 39 Leader (SendAppend 2 [1; 124; 124; 1; 124]);
  Peer 2 28 Leader (SendAppend 0 [123; 123; 123; 1; 123]);
  Peer 2 28 Leader (SendAppend 1 [123; 123; 123; 1; 123]);
  Peer 2 28 Leader (AppendLost 4);
  Peer 2 28 Leader (AppendLost 1);
  Peer 1 39 Leader (AppendLost 4);
  Peer 2 28 Leader (AppendLost 3);
  Peer 1 39 Leader (AppendLost 2);
  Peer 1 39 Leader (AppendLost 0);
  Peer 1 39 Leader (AppendLost 3);
  Peer 2 28 Leader (AppendLost 0);
  Peer 2 28 Leader StartHeartBeat;
  Peer 2 28 Leader (AppendTo 0);
  Peer 2 28 Leader (AppendTo 1);
  Peer 2 28 Leader (AppendTo 3);
  Peer 2 28 Leader (AppendTo 4);
  Peer 2 28 Leader (SendAppend 4 [123; 123; 123; 1; 123]);
  Peer 2 28 Leader (SendAppend 1 [123; 123; 123; 1; 123]);
  Peer 2 28 Leader (SendAppend 3 [123; 123; 123; 1; 123]);
  Peer 1 39 Leader StartHeartBeat;
  Peer 1 39 Leader (AppendTo 0);
  Peer 1 39 Leader (AppendTo 2);
  Peer 1 39 Leader (AppendTo 3);
  Peer 1 39 Leader (AppendTo 4);
  Peer 1 39 Leader (SendAppend 4 [1; 124; 124; 1; 124]);
  Peer 1 39 Leader (SendAppend 2 [1; 124; 124; 1; 124]);
  Peer 1 39 Leader (SendAppend 0 [1; 124; 124; 1; 124]);
  Peer 2 28 Leader (SendAppend 0 [123; 123; 123; 1; 123]);
  Peer 1 39 Leader (SendAppend 3 [1; 124; 124; 1; 124]);
  Peer 1 39 Leader (AppendLost 2);
  Peer 1 39 Leader (AppendLost 3);
  Peer 2 28 Leader (AppendLost 1);
  Peer 1 39 Leader (AppendLost 0);
  Peer 2 28 Leader (AppendLost 3);
  Peer 2 28 Leader (AppendLost 4);
  Peer 2 28 Leader (AppendLost 0);
  Peer 1 39 Leader (AppendLost 4);
  Peer 2 28 Leader StartHeartBeat;
  Peer 2 28 Leader (AppendTo 0);
  Peer 2 28 Leader (AppendTo 1);
  Peer 2 28 Leader (AppendTo 3);
  Peer 2 28 Leader (AppendTo 4);
  Peer 2 28 Leader (SendAppend 0 [123; 123; 123; 1; 123]);
  Peer 2 28 Leader (SendAppend 4 [123; 123; 123; 1; 123]);
  Peer 2 28 Leader (SendAppend 1 [123; 123; 123; 1; 123]);
  Peer 2 28 Leader (SendAppend 3 [123; 123; 123; 1; 123]);
  Peer 1 39 Leader StartHeartBeat;
  Peer 1 39 Leader (AppendTo 0);
  Peer 1 39 Leader (AppendTo 2);
  Peer 1 39 Leader (AppendTo 3);
  Peer 1 39 Leader (AppendTo 4);
  Peer 1 39 Leader (SendAppend 4 [1; 124; 124; 1; 124]);
  Peer 1 39 Leader (SendAppend 0 [1; 124; 124; 1; 124]);
  Peer 1 39 Leader (SendAppend 2 [1; 124; 124; 1; 124]);
  Peer 1 39 Leader (SendAppend 3 [1; 124; 124; 1; 124]);
  Peer 2 28 Leader (AppendLost 4);
  Peer 1 39 Leader (AppendLost 0);
  Peer 1 39 Leader (AppendLost 3);
  Peer 2 28 Leader (AppendLost 3);
  Peer 1 39 Leader (AppendLost 2);
  Peer 1 39 Leader (AppendLost 4);
  Peer 2 28 Leader (AppendLost 1);
  Peer 1 39 Leader StartHeartBeat;
  Peer 1 39 Leader (AppendTo 0);
  Peer 1 39 Leader (AppendTo 2);
  Peer 1 39 Leader (AppendTo 3);
  Peer 1 39 Leader (AppendTo 4);
  Peer 1 39 Leader (SendAppend 4 [1; 124; 124; 1; 124]);
  Peer 2 28 Leader (AppendLost 0);
  Peer 2 28 Leader StartHeartBeat;
  Peer 2 28 Leader (AppendTo 0);
  Peer 2 28 Leader (AppendTo 1);
  Peer 2 28 Leader (AppendTo 3);
  Peer 0 53 Candidate (VoteReply 3 53 false);
  Peer 0 53 Candidate (SenderCommit 1 1);
  Peer 0 53 Candidate (CheckElection 1 5);
  Peer 2 28 Leader (AppendTo 4);
  Peer 2 28 Leader (SendAppend 3 [123; 123; 123; 1; 123]);
  Peer 2 28 Leader (SendAppend 4 [123; 123; 123; 1; 123]);
  Peer 1 39 Leader (SendAppend 2 [1; 124; 124; 1; 124]);
  Peer 1 39 Leader (SendAppend 0 [1; 124; 124; 1; 124]);
  Peer 1 39 Leader (SendAppend 3 [1; 124; 124; 1; 124]);
  Peer 2 28 Leader (SendAppend 0 [123; 123; 123; 1; 123]);
  Peer 2 28 Leader (SendAppend 1 [123; 123; 123; 1; 123]);
  Peer 2 28 Leader (AppendLost 3);
  Peer 1 39 Leader (AppendLost 4);
  Peer 2 28 Leader (AppendLost 1);
  Peer 2 28 Leader (AppendLost 0);
  Peer 1 39 Leader (AppendLost 3);
  Peer 1 39 Leader (AppendLost 0);
  Peer 1 39 Leader (AppendLost 2);
  Peer 2 28 Leader (AppendLost 4);
  Peer 2 28 Leader StartHeartBeat;
  Peer 2 28 Leader (AppendTo 0);
  Peer 2 28 Leader (AppendTo 1);
  Peer 2 28 Leader (AppendTo 3);
  Peer 2 28 Leader (AppendTo 4);
  Peer 2 28 Leader (SendAppend 0 [123; 123; 123; 1; 123]);
  Peer 2 28 Leader (SendAppend 4 [123; 123; 123; 1; 123]);
  Peer 2 28 Leader (SendAppend 1 [123; 123; 123; 1; 123]);
  Peer 1 39 Leader StartHeartBeat;
  Peer 1 39 Leader (AppendTo 0);
  Peer 1 39 Leader (AppendTo 2);
  Peer 1 39 Leader (AppendTo 3);
  Peer 1 39 Leader (AppendTo 4);
  Peer 1 39 Leader (SendAppend 4 [1; 124; 124; 1; 124]);
  Peer 1 39 Leader (SendAppend 2 [1; 124; 124; 1; 124]);
  Peer 1 39 Leader (SendAppend 3 [1; 124; 124; 1; 124]);
  Peer 2 28 Leader (SendAppend 3 [123; 123; 123; 1; 123]);
  Peer 1 39 Leader (SendAppend 0 [1; 124; 124; 1; 124]);
  Peer 1 39 Leader (AppendLost 2);
  Peer 2 28 Leader (AppendLost 4);
  Peer 1 39 Leader (AppendLost 0);
  Peer 2 28 Leader (AppendLost 3);
  Peer 1 39 Leader (AppendLost 4);
  Peer 1 39 Leader (AppendLost 3);
  Peer 2 28 Leader (AppendLost 1);
  Peer 2 28 Leader (AppendLost 0);
  Peer 2 28 Leader StartHeartBeat;
  Peer 2 28 Leader (AppendTo 0);
  Peer 1 39 Leader StartHeartBeat;
  Peer 1 39 Leader (AppendTo 0);
  Peer 4 53 Follower StartElection;
  Peer 2 28 Leader (AppendTo 1);
  Peer 3 53 Follower StartElection;
  Peer 2 28 Leader (AppendTo 3);
  Peer 1 39 Leader (AppendTo 2);
  Peer 2 28 Leader (AppendTo 4);
  Peer 1 39 Leader (AppendTo 3);
  Peer 1 39 Leader (AppendTo 4);
  Peer 2 28 Leader (SendAppend 0 [123; 123; 123; 1; 123]);
  Peer 3 54 Candidate BecomeCandidate].

(** Lines 9306 to 9455. *)
Definition run_63 : list Line := [
  Peer 3 54 Candidate (RequestVoteTo 0);
  Peer 3 54 Candidate (RequestVoteTo 1);
  Peer 3 54 Candidate (RequestVoteTo 2);
  Peer 3 54 Candidate (RequestVoteTo 4);
  Peer 1 39 Leader (SendAppend 3 [1; 124; 124; 1; 124]);
  Peer 1 39 Leader (SendAppend 2 [1; 124; 124; 1; 124]);
  Peer 2 28 Leader (SendAppend 3 [123; 123; 123; 1; 123]);
  Peer 1 39 Leader (SendAppend 4 [1; 124; 124; 1; 124]);
  Peer 4 54 Candidate BecomeCandidate;
  Peer 4 54 Candidate (RequestVoteTo 0);
  Peer 4 54 Candidate (RequestVoteTo 1);
  Peer 4 54 Candidate (RequestVoteTo 2);
  Peer 4 54 Candidate (RequestVoteTo 3);
  Peer 1 39 Leader (SendAppend 0 [1; 124; 124; 1; 124]);
  Peer 2 28 Leader (SendAppend 4 [123; 123; 123; 1; 123]);
  Peer 2 28 Leader (SendAppend 1 [123; 123; 123; 1; 123]);
  Peer 1 39 Leader (AppendLost 0);
  Peer 0 53 Candidate (ReceiveRequestVote 0 3 54);
  Peer 4 54 Candidate (ReceiveRequestVote 4 3 54);
  Peer 0 53 Candidate (VoteArgs 54 123 9 133 134);
  Peer 4 54 Candidate (VoteArgs 54 123 16 520 521);
  Peer 4 54 Candidate (HandlerCommit 122 122);
  Peer 0 53 Candidate (HandlerCommit 1 1);
  Peer 4 54 Candidate (CompareLogs 16 14 520 123);
  Peer 0 53 Candidate (SelfTermLower 3);
  Peer 4 54 Candidate SelfLogNewer;
  Peer 3 54 Candidate (ReceiveRequestVote 3 4 54);
  Peer 3 54 Candidate (VoteArgs 54 520 14 123 124);
  Peer 3 54 Candidate (HandlerCommit 1 1);
  Peer 3 54 Candidate (CompareLogs 14 16 123 520);
  Peer 3 54 Candidate Refused;
  Peer 4 54 Candidate (RequestVoteLost 2);
  Peer 3 54 Candidate (VoteReply 4 54 false);
  Peer 3 54 Candidate (SenderCommit 1 1);
  Peer 0 54 Follower (CompareLogs 9 14 133 123);
  Peer 3 54 Candidate (CheckElection 1 5);
  Peer 0 54 Follower (Granted 54 123 9 133 134);
  Peer 0 54 Follower (HandlerCommit 1 1);
  Peer 2 28 Leader (AppendLost 1);
  Peer 3 54 Candidate (RequestVoteLost 2);
  Peer 0 54 Follower (ReceiveRequestVote 3 4 54);
  Peer 0 54 Follower (VoteArgs 54 520 9 133 134);
  Peer 0 54 Follower (HandlerCommit 1 1);
  Peer 0 54 Follower (CompareLogs 9 16 133 520);
  Peer 0 54 Follower Refused;
  Peer 4 54 Candidate (RequestVoteLost 0);
  Peer 2 28 Leader (AppendLost 4);
  Peer 2 28 Leader (AppendLost 0);
  Peer 1 39 Leader (AppendLost 3);
  Peer 1 39 Leader (AppendLost 4);
  Peer 3 54 Candidate (RequestVoteLost 1);
  Peer 2 28 Leader (AppendLost 3);
  Peer 4 54 Candidate (RequestVoteLost 1);
  Peer 1 39 Leader (AppendLost 2);
  Peer 2 28 Leader StartHeartBeat;
  Peer 2 28 Leader (AppendTo 0);
  Peer 2 28 Leader (AppendTo 1);
  Peer 2 28 Leader (AppendTo 3);
  Peer 2 28 Leader (AppendTo 4);
  Peer 2 28 Leader (SendAppend 4 [123; 123; 123; 1; 123]);
  Peer 2 28 Leader (SendAppend 1 [123; 123; 123; 1; 123]);
  Peer 2 28 Leader (SendAppend 3 [123; 123; 123; 1; 123]);
  Peer 1 39 Leader StartHeartBeat;
  Peer 1 39 Leader (AppendTo 0);
  Peer 1 39 Leader (AppendTo 2);
  Peer 1 39 Leader (AppendTo 3);
  Peer 1 39 Leader (AppendTo 4);
  Peer 1 39 Leader (SendAppend 0 [1; 124; 124; 1; 124]);
  Peer 2 28 Leader (SendAppend 0 [123; 123; 123; 1; 123]);
  Peer 1 39 Leader (SendAppend 4 [1; 124; 124; 1; 124]);
  Peer 2 28 Leader (AppendLost 1);
  Peer 1 39 Leader (SendAppend 2 [1; 124; 124; 1; 124]);
  Peer 1 39 Leader (SendAppend 3 [1; 124; 124; 1; 124]);
  Peer 1 39 Leader (AppendLost 3);
  Peer 1 39 Leader (AppendLost 2);
  Peer 1 39 Leader (AppendLost 4);
  Peer 1 39 Leader (AppendLost 0);
  Peer 2 28 Leader (AppendLost 4);
  Peer 2 28 Leader (AppendLost 3);
  Peer 2 28 Leader (AppendLost 0);
  Peer 1 39 Leader StartHeartBeat;
  Peer 2 28 Leader StartHeartBeat;
  Peer 2 28 Leader (AppendTo 0);
  Peer 1 39 Leader (AppendTo 0);
  Peer 1 39 Leader (AppendTo 2);
  Peer 2 28 Leader (AppendTo 1);
  Peer 2 28 Leader (AppendTo 3);
  Peer 2 28 Leader (AppendTo 4);
  Peer 1 39 Leader (AppendTo 3);
  Peer 1 39 Leader (AppendTo 4);
  Peer 2 28 Leader (SendAppend 3 [123; 123; 123; 1; 123]);
  Peer 2 28 Leader (SendAppend 0 [123; 123; 123; 1; 123]);
  Peer 2 28 Leader (SendAppend 4 [123; 123; 123; 1; 123]);
  Peer 1 39 Leader (SendAppend 2 [1; 124; 124; 1; 124]);
  Peer 1 39 Leader (SendAppend 0 [1; 124; 124; 1; 124]);
  Peer 1 39 Leader (SendAppend 3 [1; 124; 124; 1; 124]);
  Peer 1 39 Leader (SendAppend 4 [1; 124; 124; 1; 124]);
  Peer 2 28 Leader (SendAppend 1 [123; 123; 123; 1; 123]);
  Peer 2 28 Leader (AppendLost 4);
  Peer 2 28 Leader (AppendLost 0);
  Peer 1 39 Leader (AppendLost 3);
  Peer 1 39 Leader (AppendLost 2);
  Peer 1 39 Leader (AppendLost 4);
  Peer 1 39 Leader (AppendLost 0);
  Peer 2 28 Leader (AppendLost 1);
  Peer 2 28 Leader (AppendLost 3);
  Peer 2 28 Leader StartHeartBeat;
  Peer 1 39 Leader StartHeartBeat;
  Peer 1 39 Leader (AppendTo 0);
  Peer 1 39 Leader (AppendTo 2);
  Peer 2 28 Leader (AppendTo 0);
  Peer 1 39 Leader (AppendTo 3);
  Peer 1 39 Leader (AppendTo 4);
  Peer 2 28 Leader (AppendTo 1);
  Peer 2 28 Leader (AppendTo 3);
  Peer 2 28 Leader (AppendTo 4);
  Peer 1 39 Leader (SendAppend 2 [1; 124; 124; 1; 124]);
  Peer 1 39 Leader (SendAppend 4 [1; 124; 124; 1; 124]);
  Peer 1 39 Leader (SendAppend 3 [1; 124; 124; 1; 124]);
  Peer 2 28 Leader (SendAppend 4 [123; 123; 123; 1; 123]);
  Peer 1 39 Leader (SendAppend 0 [1; 124; 124; 1; 124]);
  Peer 2 28 Leader (SendAppend 0 [123; 123; 123; 1; 123]);
  Peer 2 28 Leader (SendAppend 1 [123; 123; 123; 1; 123]);
  Peer 2 28 Leader (SendAppend 3 [123; 123; 123; 1; 123]);
  Peer 2 28 Leader (AppendLost 0);
  Peer 2 28 Leader (AppendLost 1);
  Peer 1 39 Leader (AppendLost 2);
  Peer 1 39 Leader (AppendLost 3);
  Peer 2 28 Leader (AppendLost 3);
  Peer 2 28 Leader (AppendLost 4);
  Peer 4 54 Candidate (VoteReply 3 54 false);
  Peer 4 54 Candidate (SenderCommit 122 122);
  Peer 4 54 Candidate (CheckElection 1 5);
  Peer 1 39 Leader (AppendLost 4);
  Peer 1 39 Leader (AppendLost 0);
  Peer 1 39 Leader StartHeartBeat;
  Peer 1 39 Leader (AppendTo 0);
  Peer 1 39 Leader (AppendTo 2);
  Peer 2 28 Leader StartHeartBeat;
  Peer 1 39 Leader (AppendTo 3);
  Peer 2 28 Leader (AppendTo 0);
  Peer 2 28 Leader (AppendTo 1);
  Peer 1 39 Leader (AppendTo 4);
  Peer 2 28 Leader (AppendTo 3);
  Peer 1 39 Leader (SendAppend 2 [1; 124; 124; 1; 124]);
  Peer 2 28 Leader (AppendTo 4);
  Peer 2 28 Leader (SendAppend 1 [123; 123; 123; 1; 123]);
  Peer 2 28 Leader (SendAppend 3 [123; 123; 123; 1; 123]);
  Peer 1 39 Leader (SendAppend 0 [1; 124; 124; 1; 124]);
  Peer 1 39 Leader (SendAppend 3 [1; 124; 124; 1; 124])].

(** Lines 9456 to 9605. *)
Definition run_64 : list Line := [
  Peer 1 39 Leader (SendAppend 4 [1; 124; 124; 1; 124]);
  Peer 2 28 Leader (SendAppend 0 [123; 123; 123; 1; 123]);
  Peer 2 28 Leader (SendAppend 4 [123; 123; 123; 1; 123]);
  Peer 1 39 Leader (AppendLost 3);
  Peer 2 28 Leader (AppendLost 4);
  Peer 1 39 Leader (AppendLost 4);
  Peer 1 39 Leader (AppendLost 2);
  Peer 2 28 Leader (AppendLost 1);
  Peer 2 28 Leader (AppendLost 3);
  Peer 2 28 Leader (AppendLost 0);
  Peer 1 39 Leader (AppendLost 0);
  Peer 2 28 Leader StartHeartBeat;
  Peer 1 39 Leader StartHeartBeat;
  Peer 1 39 Leader (AppendTo 0);
  Peer 4 54 Candidate StartElection;
  Peer 1 39 Leader (AppendTo 2);
  Peer 2 28 Leader (AppendTo 0);
  Peer 2 28 Leader (AppendTo 1);
  Peer 1 39 Leader (AppendTo 3);
  Peer 2 28 Leader (AppendTo 3);
  Peer 2 28 Leader (AppendTo 4);
  Peer 1 39 Leader (AppendTo 4);
  Peer 2 28 Leader (SendAppend 1 [123; 123; 123; 1; 123]);
  Peer 1 39 Leader (SendAppend 0 [1; 124; 124; 1; 124]);
  Peer 2 28 Leader (SendAppend 3 [123; 123; 123; 1; 123]);
  Peer 2 28 Leader (SendAppend 4 [123; 123; 123; 1; 123]);
  Peer 4 55 Candidate BecomeCandidate;
  Peer 4 55 Candidate (RequestVoteTo 0);
  Peer 4 55 Candidate (RequestVoteTo 1);
  Peer 4 55 Candidate (RequestVoteTo 2);
  Peer 4 55 Candidate (RequestVoteTo 3);
  Peer 2 28 Leader (SendAppend 0 [123; 123; 123; 1; 123]);
  Peer 1 39 Leader (SendAppend 2 [1; 124; 124; 1; 124]);
  Peer 1 39 Leader (SendAppend 3 [1; 124; 124; 1; 124]);
  Peer 1 39 Leader (SendAppend 4 [1; 124; 124; 1; 124]);
  Peer 0 54 Follower (ReceiveRequestVote 3 4 55);
  Peer 0 54 Follower (VoteArgs 55 520 9 133 134);
  Peer 0 54 Follower (HandlerCommit 1 1);
  Peer 0 54 Follower (SelfTermLower 4);
  Peer 3 54 Candidate (ReceiveRequestVote 3 4 55);
  Peer 3 54 Candidate (VoteArgs 55 520 14 123 124);
  Peer 3 54 Candidate (HandlerCommit 1 1);
  Peer 3 54 Candidate (SelfTermLower 4);
  Peer 0 55 Follower (CompareLogs 9 16 133 520);
  Peer 3 55 Follower (CompareLogs 14 16 123 520);
  Peer 3 55 Follower (Granted 55 520 14 123 124);
  Peer 3 55 Follower (HandlerCommit 1 1);
  Peer 0 55 Follower (Granted 55 520 9 133 134);
  Peer 0 55 Follower (HandlerCommit 1 1);
  Peer 4 55 Candidate (VoteReply 0 55 true);
  Peer 4 55 Candidate (SenderCommit 122 122);
  Peer 4 55 Candidate (VoteGained 0);
  Peer 4 55 Candidate (CheckElection 2 5);
  Peer 4 55 Candidate (VoteReply 3 55 true);
  Peer 4 55 Candidate (SenderCommit 122 122);
  Peer 4 55 Candidate (VoteGained 3);
  Peer 4 55 Candidate (CheckElection 3 5);
  Peer 4 56 Leader BecomesLeader;
  Peer 4 56 Leader StartHeartBeat;
  Peer 4 56 Leader (AppendTo 0);
  Peer 4 56 Leader (AppendTo 1);
  Peer 4 56 Leader (AppendTo 2);
  Peer 4 56 Leader (AppendTo 3);
  Peer 4 56 Leader (SendAppend 0 [521; 521; 521; 521; 521]);
  Peer 4 56 Leader (SendAppend 1 [521; 521; 521; 521; 521]);
  Peer 4 56 Leader (SendAppend 3 [521; 521; 521; 521; 521]);
  Peer 4 56 Leader (SendAppend 2 [521; 521; 521; 521; 521]);
  Peer 0 55 Follower (AppendFrom 4 56);
  Peer 4 56 Leader (RequestVoteLost 2);
  Peer 4 56 Leader (RequestVoteLost 1);
  Peer 3 55 Follower (AppendFrom 4 56);
  Peer 0 56 Follower (AppendOutOfRange 520 134);
  Peer 3 56 Follower (AppendOutOfRange 520 124);
  Peer 2 28 Leader (AppendLost 3);
  Peer 2 28 Leader (AppendLost 4);
  Peer 1 39 Leader (AppendLost 4);
  Peer 2 28 Leader (AppendLost 1);
  Peer 1 39 Leader (AppendLost 3);
  Peer 2 28 Leader (AppendLost 0);
  Peer 4 56 Leader (AppendLost 1);
  Peer 1 39 Leader (AppendLost 0);
  Peer 4 56 Leader StartHeartBeat;
  Peer 4 56 Leader (AppendTo 0);
  Peer 4 56 Leader (AppendTo 1);
  Peer 4 56 Leader (AppendTo 2);
  Peer 4 56 Leader (AppendTo 3);
  Peer 1 39 Leader StartHeartBeat;
  Peer 1 39 Leader (AppendTo 0);
  Peer 4 56 Leader (SendAppend 3 [521; 521; 521; 521; 521]);
  Peer 4 56 Leader (SendAppend 0 [521; 521; 521; 521; 521]);
  Peer 2 28 Leader StartHeartBeat;
  Peer 2 28 Leader (AppendTo 0);
  Peer 2 28 Leader (AppendTo 1);
  Peer 4 56 Leader (AppendLost 2);
  Peer 2 28 Leader (AppendTo 3);
  Peer 2 28 Leader (AppendTo 4);
  Peer 4 56 Leader (SendAppend 2 [521; 521; 521; 521; 521]);
  Peer 4 56 Leader (SendAppend 1 [521; 521; 521; 521; 521]);
  Peer 2 28 Leader (SendAppend 1 [123; 123; 123; 1; 123]);
  Peer 1 39 Leader (AppendTo 2);
  Peer 1 39 Leader (AppendTo 3);
  Peer 1 39 Leader (AppendTo 4);
  Peer 1 39 Leader (SendAppend 0 [1; 124; 124; 1; 124]);
  Peer 1 39 Leader (SendAppend 4 [1; 124; 124; 1; 124]);
  Peer 1 39 Leader (AppendLost 2);
  Peer 1 39 Leader (SendAppend 2 [1; 124; 124; 1; 124]);
  Peer 1 39 Leader (SendAppend 3 [1; 124; 124; 1; 124]);
  Peer 2 28 Leader (SendAppend 0 [123; 123; 123; 1; 123]);
  Peer 2 28 Leader (SendAppend 3 [123; 123; 123; 1; 123]);
  Peer 2 28 Leader (SendAppend 4 [123; 123; 123; 1; 123]);
  Peer 1 39 Leader (AppendLost 4);
  Peer 3 56 Follower (AppendFrom 4 56);
  Peer 0 56 Follower (AppendFrom 4 56);
  Peer 3 56 Follower (AppendOutOfRange 520 124);
  Peer 0 56 Follower (AppendOutOfRange 520 134);
  Peer 4 56 Leader (AppendNotSuccess 0 520 16 521);
  Peer 2 28 Leader (AppendLost 1);
  Peer 2 28 Leader (AppendLost 4);
  Peer 2 28 Leader (AppendLost 0);
  Peer 4 56 Leader (AppendLost 2);
  Peer 1 39 Leader (AppendLost 0);
  Peer 2 28 Leader (AppendLost 3);
  Peer 4 56 Leader (AppendLost 1);
  Peer 1 39 Leader (AppendLost 3);
  Peer 2 28 Leader StartHeartBeat;
  Peer 4 56 Leader StartHeartBeat;
  Peer 4 56 Leader (AppendTo 0);
  Peer 4 56 Leader (AppendTo 1);
  Peer 4 56 Leader (AppendTo 2);
  Peer 2 28 Leader (AppendTo 0);
  Peer 2 28 Leader (AppendTo 1);
  Peer 1 39 Leader StartHeartBeat;
  Peer 1 39 Leader (AppendTo 0);
  Peer 1 39 Leader (AppendTo 2);
  Peer 1 39 Leader (AppendTo 3);
  Peer 4 56 Leader (AppendTo 3);
  Peer 1 39 Leader (AppendTo 4);
  Peer 4 56 Leader (SendAppend 2 [99; 521; 521; 521; 521]);
  Peer 1 39 Leader (AppendLost 2);
  Peer 2 28 Leader (AppendTo 3);
  Peer 2 28 Leader (AppendTo 4);
  Peer 4 56 Leader (SendAppend 1 [99; 521; 521; 521; 521]);
  Peer 2 28 Leader (SendAppend 1 [123; 123; 123; 1; 123]);
  Peer 1 39 Leader (SendAppend 4 [1; 124; 124; 1; 124]);
  Peer 4 56 Leader (SendAppend 0 [99; 521; 521; 521; 521]);
  Peer 2 28 Leader (SendAppend 3 [123; 123; 123; 1; 123]);
  Peer 2 28 Leader (SendAppend 4 [123; 123; 123; 1; 123]);
  Peer 4 56 Leader (SendAppend 3 [99; 521; 521; 521; 521]);
  Peer 1 39 Leader (SendAppend 0 [1; 124; 124; 1; 124]);
  Peer 1 39 Leader (SendAppend 2 [1; 124; 124; 1; 124])].

(** Lines 9606 to 9755. *)
Definition run_65 : list Line := [
  Peer 1 39 Leader (SendAppend 3 [1; 124; 124; 1; 124]);
  Peer 2 28 Leader (SendAppend 0 [123; 123; 123; 1; 123]);
  Peer 3 56 Follower (AppendFrom 4 56);
  Peer 3 56 Follower (AppendOutOfRange 520 124);
  Peer 4 56 Leader (AppendLost 3);
  Peer 0 56 Follower (AppendFrom 4 56);
  Peer 0 56 Follower (AppendMismatch 2 98);
  Peer 4 56 Leader (AppendLost 0);
  Peer 1 39 Leader (AppendLost 4);
  Peer 0 56 Follower (VoteReply 4 53 false);
  Peer 0 56 Follower (SenderCommit 1 1);
  Peer 0 56 Follower (CheckElection 0 5);
  Peer 0 56 Follower NotCandidate;
  Peer 2 28 Leader (AppendLost 1);
  Peer 2 28 Leader (AppendLost 4);
  Peer 1 39 Leader (AppendLost 0);
  Peer 2 28 Leader (AppendLost 3);
  Peer 1 39 Leader (AppendLost 3);
  Peer 4 56 Leader (AppendLost 1);
  Peer 2 28 Leader (AppendLost 0);
  Peer 1 39 Leader (AppendLost 2);
  Peer 4 56 Leader StartHeartBeat;
  Peer 4 56 Leader (AppendTo 0);
  Peer 4 56 Leader (AppendTo 1);
  Peer 4 56 Leader (AppendTo 2);
  Peer 4 56 Leader (AppendTo 3);
  Peer 4 56 Leader (SendAppend 3 [99; 521; 521; 521; 521]);
  Peer 2 28 Leader StartHeartBeat;
  Peer 2 28 Leader (AppendTo 0);
  Peer 2 28 Leader (AppendTo 1);
  Peer 2 28 Leader (AppendTo 3);
  Peer 2 28 Leader (AppendTo 4);
  Peer 4 56 Leader (SendAppend 0 [99; 521; 521; 521; 521]);
  Peer 1 39 Leader StartHeartBeat;
  Peer 1 39 Leader (AppendTo 0);
  Peer 1 39 Leader (AppendTo 2);
  Peer 1 39 Leader (AppendTo 3);
  Peer 1 39 Leader (AppendTo 4);
  Peer 4 56 Leader (SendAppend 1 [99; 521; 521; 521; 521]);
  Peer 4 56 Leader (SendAppend 2 [99; 521; 521; 521; 521]);
  Peer 4 56 Leader (AppendLost 2);
  Peer 2 28 Leader (SendAppend 4 [123; 123; 123; 1; 123]);
  Peer 2 28 Leader (SendAppend 3 [123; 123; 123; 1; 123]);
  Peer 2 28 Leader (SendAppend 0 [123; 123; 123; 1; 123]);
  Peer 1 39 Leader (SendAppend 2 [1; 124; 124; 1; 124]);
  Peer 1 39 Leader (SendAppend 0 [1; 124; 124; 1; 124]);
  Peer 1 39 Leader (SendAppend 3 [1; 124; 124; 1; 124]);
  Peer 1 39 Leader (SendAppend 4 [1; 124; 124; 1; 124]);
  Peer 2 28 Leader (SendAppend 1 [123; 123; 123; 1; 123]);
  Peer 4 56 Leader (AppendLost 0);
  Peer 0 56 Follower (AppendFrom 1 39);
  Peer 0 56 Follower AppendTermSmaller;
  Peer 1 39 Leader (AppendLost 0);
  Peer 4 56 Leader (AppendLost 1);
  Peer 2 28 Leader (AppendLost 1);
  Peer 3 56 Follower (AppendFrom 1 39);
  Peer 3 56 Follower AppendTermSmaller;
  Peer 1 39 Leader (AppendTermBigger 3 56);
  Peer 1 56 Follower (AppendLost 4);
  Peer 2 28 Leader (AppendLost 4);
  Peer 1 56 Follower (AppendLost 2);
  Peer 4 56 Leader (AppendLost 3);
  Peer 4 56 Leader (AppendLost 2);
  Peer 2 28 Leader (AppendLost 3);
  Peer 4 56 Leader (AppendNotSuccess 3 520 16 521);
  Peer 2 28 Leader (AppendLost 0);
  Peer 4 56 Leader StartHeartBeat;
  Peer 4 56 Leader (AppendTo 0);
  Peer 2 28 Leader StartHeartBeat;
  Peer 2 28 Leader (AppendTo 0);
  Peer 4 56 Leader (AppendTo 1);
  Peer 4 56 Leader (AppendTo 2);
  Peer 4 56 Leader (AppendTo 3);
  Peer 2 28 Leader (AppendTo 1);
  Peer 4 56 Leader (SendAppend 3 [99; 521; 521; 99; 521]);
  Peer 2 28 Leader (AppendTo 3);
  Peer 2 28 Leader (AppendTo 4);
  Peer 4 56 Leader (SendAppend 0 [99; 521; 521; 99; 521]);
  Peer 4 56 Leader (SendAppend 1 [99; 521; 521; 99; 521]);
  Peer 2 28 Leader (SendAppend 3 [123; 123; 123; 1; 123]);
  Peer 4 56 Leader (SendAppend 2 [99; 521; 521; 99; 521]);
  Peer 2 28 Leader (SendAppend 0 [123; 123; 123; 1; 123]);
  Peer 2 28 Leader (SendAppend 1 [123; 123; 123; 1; 123]);
  Peer 2 28 Leader (SendAppend 4 [123; 123; 123; 1; 123]);
  Peer 2 28 Leader (AppendLost 4);
  Peer 2 28 Leader (AppendLost 1);
  Peer 2 28 Leader (AppendLost 3);
  Peer 4 56 Leader (AppendLost 0);
  Peer 4 56 Leader (AppendLost 1);
  Peer 2 28 Leader (AppendLost 0);
  Peer 4 56 Leader (AppendLost 3);
  Peer 4 56 Leader (AppendLost 2);
  Peer 2 28 Leader StartHeartBeat;
  Peer 2 28 Leader (AppendTo 0);
  Peer 2 28 Leader (AppendTo 1);
  Peer 2 28 Leader (AppendTo 3);
  Peer 2 28 Leader (AppendTo 4);
  Peer 2 28 Leader (SendAppend 4 [123; 123; 123; 1; 123]);
  Peer 4 56 Leader StartHeartBeat;
  Peer 4 56 Leader (AppendTo 0);
  Peer 4 56 Leader (AppendTo 1);
  Peer 4 56 Leader (AppendTo 2);
  Peer 4 56 Leader (AppendTo 3);
  Peer 2 28 Leader (SendAppend 0 [123; 123; 123; 1; 123]);
  Peer 4 56 Leader (SendAppend 3 [99; 521; 521; 99; 521]);
  Peer 4 56 Leader (SendAppend 1 [99; 521; 521; 99; 521]);
  Peer 4 56 Leader (SendAppend 2 [99; 521; 521; 99; 521]);
  Peer 4 56 Leader (SendAppend 0 [99; 521; 521; 99; 521]);
  Peer 2 28 Leader (SendAppend 1 [123; 123; 123; 1; 123]);
  Peer 2 28 Leader (SendAppend 3 [123; 123; 123; 1; 123]);
  Peer 4 56 Leader (AppendLost 2);
  Peer 2 28 Leader (AppendLost 3);
  Peer 4 56 Leader (AppendLost 1);
  Peer 2 28 Leader (AppendLost 0);
  Peer 4 56 Leader (AppendLost 3);
  Peer 4 56 Leader (AppendLost 0);
  Peer 2 28 Leader (AppendLost 4);
  Peer 2 28 Leader (AppendLost 1);
  Peer 2 28 Leader StartHeartBeat;
  Peer 2 28 Leader (AppendTo 0);
  Peer 2 28 Leader (AppendTo 1);
  Peer 4 56 Leader StartHeartBeat;
  Peer 4 56 Leader (AppendTo 0);
  Peer 4 56 Leader (AppendTo 1);
  Peer 4 56 Leader (AppendTo 2);
  Peer 4 56 Leader (AppendTo 3);
  Peer 4 56 Leader (SendAppend 3 [99; 521; 521; 99; 521]);
  Peer 4 56 Leader (SendAppend 0 [99; 521; 521; 99; 521]);
  Peer 4 56 Leader (SendAppend 2 [99; 521; 521; 99; 521]);
  Peer 2 28 Leader (AppendTo 3);
  Peer 2 28 Leader (AppendTo 4);
  Peer 2 28 Leader (SendAppend 1 [123; 123; 123; 1; 123]);
  Peer 4 56 Leader (AppendNotSuccess 0 520 16 99);
  Peer 2 28 Leader (SendAppend 3 [123; 123; 123; 1; 123]);
  Peer 4 56 Leader (SendAppend 1 [1; 521; 521; 99; 521]);
  Peer 2 28 Leader (SendAppend 4 [123; 123; 123; 1; 123]);
  Peer 2 28 Leader (SendAppend 0 [123; 123; 123; 1; 123]);
  Peer 2 28 Leader (AppendLost 1);
  Peer 4 56 Leader (AppendLost 1);
  Peer 4 56 Leader (AppendLost 3);
  Peer 4 56 Leader (AppendLost 0);
  Peer 2 28 Leader (AppendLost 4);
  Peer 2 28 Leader (AppendLost 0);
  Peer 2 28 Leader (AppendLost 3);
  Peer 4 56 Leader (AppendLost 2);
  Peer 2 28 Leader StartHeartBeat;
  Peer 2 28 Leader (AppendTo 0);
  Peer 4 56 Leader StartHeartBeat;
  Peer 4 56 Leader (AppendTo 0);
  Peer 2 28 Leader (AppendTo 1)].

(** Lines 9756 to 9905. *)
Definition run_66 : list Line := [
  Peer 4 56 Leader (AppendTo 1);
  Peer 4 56 Leader (AppendTo 2);
  Peer 4 56 Leader (AppendTo 3);
  Peer 2 28 Leader (AppendTo 3);
  Peer 2 28 Leader (AppendTo 4);
  Peer 4 56 Leader (SendAppend 3 [1; 521; 521; 99; 521]);
  Peer 2 28 Leader (SendAppend 0 [123; 123; 123; 1; 123]);
  Peer 2 28 Leader (SendAppend 4 [123; 123; 123; 1; 123]);
  Peer 4 56 Leader (SendAppend 0 [1; 521; 521; 99; 521]);
  Peer 4 56 Leader (SendAppend 2 [1; 521; 521; 99; 521]);
  Peer 4 56 Leader (SendAppend 1 [1; 521; 521; 99; 521]);
  Peer 2 28 Leader (SendAppend 1 [123; 123; 123; 1; 123]);
  Peer 2 28 Leader (SendAppend 3 [123; 123; 123; 1; 123]);
  Peer 2 28 Leader (AppendLost 1);
  Peer 2 28 Leader (AppendLost 4);
  Peer 2 28 Leader (AppendLost 0);
  Peer 4 56 Leader (AppendLost 1);
  Peer 4 56 Leader (AppendLost 2);
  Peer 4 56 Leader (AppendLost 0);
  Peer 4 56 Leader (AppendLost 3);
  Peer 2 28 Leader (AppendLost 3);
  Peer 2 28 Leader StartHeartBeat;
  Peer 3 56 Follower StartElection;
  Peer 4 56 Leader StartHeartBeat;
  Peer 4 56 Leader (AppendTo 0);
  Peer 2 28 Leader (AppendTo 0);
  Peer 4 56 Leader (AppendTo 1);
  Peer 4 56 Leader (AppendTo 2);
  Peer 2 28 Leader (AppendTo 1);
  Peer 2 28 Leader (AppendTo 3);
  Peer 2 28 Leader (AppendTo 4);
  Peer 4 56 Leader (AppendTo 3);
  Peer 4 56 Leader (SendAppend 0 [1; 521; 521; 99; 521]);
  Peer 2 28 Leader (SendAppend 1 [123; 123; 123; 1; 123]);
  Peer 4 56 Leader (SendAppend 2 [1; 521; 521; 99; 521]);
  Peer 4 56 Leader (SendAppend 1 [1; 521; 521; 99; 521]);
  Peer 3 57 Candidate BecomeCandidate;
  Peer 3 57 Candidate (RequestVoteTo 0);
  Peer 3 57 Candidate (RequestVoteTo 1);
  Peer 3 57 Candidate (RequestVoteTo 2);
  Peer 3 57 Candidate (RequestVoteTo 4);
  Peer 4 56 Leader (SendAppend 3 [1; 521; 521; 99; 521]);
  Peer 2 28 Leader (SendAppend 0 [123; 123; 123; 1; 123]);
  Peer 2 28 Leader (SendAppend 4 [123; 123; 123; 1; 123]);
  Peer 2 28 Leader (SendAppend 3 [123; 123; 123; 1; 123]);
  Peer 4 56 Leader (AppendLost 2);
  Peer 3 57 Candidate (RequestVoteLost 1);
  Peer 0 56 Follower (ReceiveRequestVote (-1) 3 57);
  Peer 0 56 Follower (VoteArgs 57 123 9 133 134);
  Peer 0 56 Follower (HandlerCommit 1 1);
  Peer 0 56 Follower (SelfTermLower 3);
  Peer 0 57 Follower (CompareLogs 9 14 133 123);
  Peer 0 57 Follower (Granted 57 123 9 133 134);
  Peer 0 57 Follower (HandlerCommit 1 1);
  Peer 4 56 Leader (AppendLost 0);
  Peer 3 57 Candidate (RequestVoteLost 4);
  Peer 2 28 Leader (AppendLost 3);
  Peer 4 56 Leader (AppendLost 3);
  Peer 2 28 Leader (AppendLost 1);
  Peer 2 28 Leader (AppendLost 4);
  Peer 2 28 Leader (AppendLost 0);
  Peer 3 57 Candidate (RequestVoteLost 2);
  Peer 4 56 Leader (AppendLost 1);
  Peer 4 56 Leader StartHeartBeat;
  Peer 4 56 Leader (AppendTo 0);
  Peer 4 56 Leader (AppendTo 1);
  Peer 4 56 Leader (AppendTo 2);
  Peer 4 56 Leader (AppendTo 3);
  Peer 4 56 Leader (SendAppend 3 [1; 521; 521; 99; 521]);
  Peer 4 56 Leader (SendAppend 1 [1; 521; 521; 99; 521]);
  Peer 2 28 Leader StartHeartBeat;
  Peer 2 28 Leader (AppendTo 0);
  Peer 2 28 Leader (AppendTo 1);
  Peer 2 28 Leader (AppendTo 3);
  Peer 2 28 Leader (AppendTo 4);
  Peer 2 28 Leader (SendAppend 4 [123; 123; 123; 1; 123]);
  Peer 2 28 Leader (SendAppend 0 [123; 123; 123; 1; 123]);
  Peer 4 56 Leader (SendAppend 0 [1; 521; 521; 99; 521]);
  Peer 2 28 Leader (SendAppend 1 [123; 123; 123; 1; 123]);
  Peer 4 56 Leader (SendAppend 2 [1; 521; 521; 99; 521]);
  Peer 2 28 Leader (SendAppend 3 [123; 123; 123; 1; 123]);
  Peer 4 56 Leader (AppendNotSuccess 3 520 16 99);
  Peer 4 56 Leader (AppendLost 3);
  Peer 4 56 Leader (AppendLost 1);
  Peer 4 56 Leader (AppendLost 0);
  Peer 2 28 Leader (AppendLost 0);
  Peer 2 28 Leader (AppendLost 1);
  Peer 4 56 Leader (AppendLost 2);
  Peer 4 56 Leader StartHeartBeat;
  Peer 4 56 Leader (AppendTo 0);
  Peer 4 56 Leader (AppendTo 1);
  Peer 4 56 Leader (AppendTo 2);
  Peer 4 56 Leader (AppendTo 3);
  Peer 4 56 Leader (SendAppend 3 [1; 521; 521; 1; 521]);
  Peer 2 28 Leader StartHeartBeat;
  Peer 2 28 Leader (AppendTo 0);
  Peer 4 56 Leader (SendAppend 0 [1; 521; 521; 1; 521]);
  Peer 2 28 Leader (AppendTo 1);
  Peer 2 28 Leader (AppendTo 3);
  Peer 2 28 Leader (AppendTo 4);
  Peer 2 28 Leader (AppendLost 4);
  Peer 4 56 Leader (SendAppend 1 [1; 521; 521; 1; 521]);
  Peer 2 28 Leader (AppendLost 3);
  Peer 2 28 Leader (SendAppend 0 [123; 123; 123; 1; 123]);
  Peer 2 28 Leader (SendAppend 1 [123; 123; 123; 1; 123]);
  Peer 2 28 Leader (SendAppend 3 [123; 123; 123; 1; 123]);
  Peer 2 28 Leader (SendAppend 4 [123; 123; 123; 1; 123]);
  Peer 4 56 Leader (SendAppend 2 [1; 521; 521; 1; 521]);
  Peer 4 56 Leader (AppendLost 3);
  Peer 4 56 Leader (AppendLost 2);
  Peer 4 56 Leader (AppendLost 0);
  Peer 3 57 Candidate (VoteReply 0 57 true);
  Peer 3 57 Candidate (SenderCommit 1 1);
  Peer 3 57 Candidate (VoteGained 0);
  Peer 3 57 Candidate (CheckElection 2 5);
  Peer 2 28 Leader (AppendLost 1);
  Peer 4 56 Leader (AppendLost 1);
  Peer 2 28 Leader (AppendLost 0);
  Peer 4 56 Leader StartHeartBeat;
  Peer 4 56 Leader (AppendTo 0);
  Peer 2 28 Leader (AppendLost 3);
  Peer 4 56 Leader (AppendTo 1);
  Peer 2 28 Leader StartHeartBeat;
  Peer 2 28 Leader (AppendTo 0);
  Peer 2 28 Leader (AppendTo 1);
  Peer 2 28 Leader (AppendTo 3);
  Peer 2 28 Leader (AppendTo 4);
  Peer 4 56 Leader (AppendTo 2);
  Peer 4 56 Leader (AppendTo 3);
  Peer 4 56 Leader (SendAppend 0 [1; 521; 521; 1; 521]);
  Peer 2 28 Leader (SendAppend 4 [123; 123; 123; 1; 123]);
  Peer 4 56 Leader (SendAppend 1 [1; 521; 521; 1; 521]);
  Peer 2 28 Leader (SendAppend 0 [123; 123; 123; 1; 123]);
  Peer 4 56 Leader (SendAppend 2 [1; 521; 521; 1; 521]);
  Peer 4 56 Leader (SendAppend 3 [1; 521; 521; 1; 521]);
  Peer 2 28 Leader (AppendLost 4);
  Peer 2 28 Leader (SendAppend 1 [123; 123; 123; 1; 123]);
  Peer 2 28 Leader (SendAppend 3 [123; 123; 123; 1; 123]);
  Peer 4 56 Leader (AppendLost 3);
  Peer 2 28 Leader (AppendLost 3);
  Peer 2 28 Leader (AppendLost 4);
  Peer 4 56 Leader (AppendLost 1);
  Peer 4 56 Leader (AppendLost 2);
  Peer 2 28 Leader (AppendLost 1);
  Peer 2 28 Leader (AppendLost 0);
  Peer 1 56 Follower StartElection;
  Peer 2 28 Leader StartHeartBeat;
  Peer 2 28 Leader (AppendTo 0);
  Peer 2 28 Leader (AppendTo 1);
  Peer 2 28 Leader (AppendTo 3)].

(** Lines 9906 to 10055. *)
Definition run_67 : list Line := [
  Peer 2 28 Leader (AppendTo 4);
  Peer 4 56 Leader StartHeartBeat;
  Peer 2 28 Leader (SendAppend 4 [123; 123; 123; 1; 123]);
  Peer 4 56 Leader (AppendTo 0);
  Peer 4 56 Leader (AppendTo 1);
  Peer 4 56 Leader (AppendTo 2);
  Peer 4 56 Leader (AppendTo 3);
  Peer 4 56 Leader (SendAppend 0 [1; 521; 521; 1; 521]);
  Peer 2 28 Leader (SendAppend 1 [123; 123; 123; 1; 123]);
  Peer 1 57 Candidate BecomeCandidate;
  Peer 1 57 Candidate (RequestVoteTo 0);
  Peer 1 57 Candidate (RequestVoteTo 2);
  Peer 1 57 Candidate (RequestVoteTo 3);
  Peer 1 57 Candidate (RequestVoteTo 4);
  Peer 2 28 Leader (SendAppend 0 [123; 123; 123; 1; 123]);
  Peer 4 56 Leader (AppendLost 0);
  Peer 2 28 Leader (SendAppend 3 [123; 123; 123; 1; 123]);
  Peer 4 56 Leader (SendAppend 3 [1; 521; 521; 1; 521]);
  Peer 4 56 Leader (SendAppend 1 [1; 521; 521; 1; 521]);
  Peer 4 56 Leader (SendAppend 2 [1; 521; 521; 1; 521]);
  Peer 4 56 Leader (AppendLost 2);
  Peer 4 56 Leader (AppendLost 1);
  Peer 3 57 Candidate (ReceiveRequestVote 3 1 57);
  Peer 3 57 Candidate (VoteArgs 57 486 14 123 124);
  Peer 3 57 Candidate (HandlerCommit 1 1);
  Peer 1 57 Candidate (RequestVoteLost 2);
  Peer 1 57 Candidate (RequestVoteLost 4);
  Peer 3 57 Candidate (CompareLogs 14 39 123 486);
  Peer 3 57 Candidate Refused;
  Peer 0 57 Follower (ReceiveRequestVote 3 1 57);
  Peer 0 57 Follower (VoteArgs 57 486 9 133 134);
  Peer 0 57 Follower (HandlerCommit 1 1);
  Peer 0 57 Follower (CompareLogs 9 39 133 486);
  Peer 0 57 Follower Refused;
  Peer 1 57 Candidate (VoteReply 0 57 false);
  Peer 1 57 Candidate (SenderCommit 2 2);
  Peer 1 57 Candidate (CheckElection 1 5);
  Peer 4 56 Leader (AppendLost 0);
  Peer 2 28 Leader (AppendLost 4);
  Peer 2 28 Leader (AppendLost 1);
  Peer 2 28 Leader (AppendLost 0);
  Peer 2 28 Leader (AppendLost 3);
  Peer 4 56 Leader (AppendLost 3);
  Peer 4 56 Leader StartHeartBeat;
  Peer 4 56 Leader (AppendTo 0);
  Peer 2 28 Leader StartHeartBeat;
  Peer 2 28 Leader (AppendTo 0);
  Peer 4 56 Leader (AppendTo 1);
  Peer 2 28 Leader (AppendTo 1);
  Peer 2 28 Leader (AppendTo 3);
  Peer 4 56 Leader (AppendTo 2);
  Peer 4 56 Leader (AppendTo 3);
  Peer 2 28 Leader (AppendTo 4);
  Peer 4 56 Leader (SendAppend 0 [1; 521; 521; 1; 521]);
  Peer 2 28 Leader (SendAppend 3 [123; 123; 123; 1; 123]);
  Peer 4 56 Leader (SendAppend 2 [1; 521; 521; 1; 521]);
  Peer 2 28 Leader (SendAppend 0 [123; 123; 123; 1; 123]);
  Peer 4 56 Leader (SendAppend 1 [1; 521; 521; 1; 521]);
  Peer 4 56 Leader (SendAppend 3 [1; 521; 521; 1; 521]);
  Peer 2 28 Leader (SendAppend 1 [123; 123; 123; 1; 123]);
  Peer 2 28 Leader (SendAppend 4 [123; 123; 123; 1; 123]);
  Peer 2 28 Leader (AppendLost 0);
  Peer 2 28 Leader (AppendLost 1);
  Peer 4 56 Leader (AppendLost 3);
  Peer 4 56 Leader (AppendLost 2);
  Peer 2 28 Leader (AppendLost 4);
  Peer 4 56 Leader (AppendLost 1);
  Peer 4 56 Leader StartHeartBeat;
  Peer 2 28 Leader StartHeartBeat;
  Peer 2 28 Leader (AppendTo 0);
  Peer 2 28 Leader (AppendTo 1);
  Peer 2 28 Leader (AppendTo 3);
  Peer 2 28 Leader (AppendTo 4);
  Peer 3 57 Candidate StartElection;
  Peer 4 56 Leader (AppendTo 0);
  Peer 2 28 Leader (SendAppend 4 [123; 123; 123; 1; 123]);
  Peer 4 56 Leader (AppendTo 1);
  Peer 4 56 Leader (AppendTo 2);
  Peer 4 56 Leader (AppendTo 3);
  Peer 4 56 Leader (SendAppend 1 [1; 521; 521; 1; 521]);
  Peer 2 28 Leader (SendAppend 0 [123; 123; 123; 1; 123]);
  Peer 4 56 Leader (AppendLost 0);
  Peer 4 56 Leader (SendAppend 0 [1; 521; 521; 1; 521]);
  Peer 3 58 Candidate BecomeCandidate;
  Peer 3 58 Candidate (RequestVoteTo 0);
  Peer 3 58 Candidate (RequestVoteTo 1);
  Peer 3 58 Candidate (RequestVoteTo 2);
  Peer 3 58 Candidate (RequestVoteTo 4);
  Peer 4 56 Leader (SendAppend 3 [1; 521; 521; 1; 521]);
  Peer 2 28 Leader (AppendLost 3);
  Peer 2 28 Leader (SendAppend 1 [123; 123; 123; 1; 123]);
  Peer 4 56 Leader (SendAppend 2 [1; 521; 521; 1; 521]);
  Peer 2 28 Leader (SendAppend 3 [123; 123; 123; 1; 123]);
  Peer 3 58 Candidate (RequestVoteLost 2);
  Peer 2 28 Leader (AppendLost 1);
  Peer 1 57 Candidate (ReceiveRequestVote 1 3 58);
  Peer 1 57 Candidate (VoteArgs 58 123 39 486 487);
  Peer 1 57 Candidate (HandlerCommit 2 2);
  Peer 1 57 Candidate (SelfTermLower 3);
  Peer 0 57 Follower (ReceiveRequestVote 3 3 58);
  Peer 0 57 Follower (VoteArgs 58 123 9 133 134);
  Peer 0 57 Follower (HandlerCommit 1 1);
  Peer 0 57 Follower (SelfTermLower 3);
  Peer 0 58 Follower (CompareLogs 9 14 133 123);
  Peer 0 58 Follower (Granted 58 123 9 133 134);
  Peer 0 58 Follower (HandlerCommit 1 1);
  Peer 1 58 Follower (CompareLogs 39 14 486 123);
  Peer 1 58 Follower SelfLogNewer;
  Peer 3 58 Candidate (VoteReply 0 58 true);
  Peer 3 58 Candidate (SenderCommit 1 1);
  Remark_second_vote_here;
  Peer 3 58 Candidate (VoteGained 0);
  Peer 3 58 Candidate (CheckElection 2 5);
  Peer 2 28 Leader (AppendLost 3);
  Peer 2 28 Leader (AppendLost 0);
  Peer 4 56 Leader (AppendLost 3);
  Peer 3 58 Candidate (RequestVoteLost 4);
  Peer 4 56 Leader (AppendLost 2);
  Peer 4 56 Leader (AppendLost 0);
  Peer 2 28 Leader (AppendLost 4);
  Peer 4 56 Leader (AppendLost 1);
  Peer 3 58 Candidate (VoteReply 0 54 true);
  Peer 3 58 Candidate (SenderCommit 1 1);
  Peer 3 58 Candidate (VoteGained 0);
  Peer 4 56 Leader StartHeartBeat;
  Peer 4 56 Leader (AppendTo 0);
  Peer 3 58 Candidate (CheckElection 3 5);
  Peer 3 59 Leader BecomesLeader;
  Peer 4 56 Leader (AppendTo 1);
  Peer 3 59 Leader StartHeartBeat;
  Peer 3 59 Leader (AppendTo 0);
  Peer 4 56 Leader (AppendTo 2);
  Peer 3 59 Leader (AppendTo 1);
  Peer 3 59 Leader (AppendTo 2);
  Peer 3 59 Leader (AppendTo 4);
  Peer 4 56 Leader (AppendTo 3);
  Peer 2 28 Leader StartHeartBeat;
  Peer 2 28 Leader (AppendTo 0);
  Peer 2 28 Leader (AppendTo 1);
  Peer 4 56 Leader (SendAppend 1 [1; 521; 521; 1; 521]);
  Peer 2 28 Leader (AppendTo 3);
  Peer 2 28 Leader (AppendTo 4);
  Peer 4 56 Leader (SendAppend 0 [1; 521; 521; 1; 521]);
  Peer 3 59 Leader (SendAppend 0 [124; 124; 124; 124; 124]);
  Peer 2 28 Leader (SendAppend 1 [123; 123; 123; 1; 123]);
  Peer 2 28 Leader (SendAppend 3 [123; 123; 123; 1; 123]);
  Peer 3 59 Leader (SendAppend 2 [124; 124; 124; 124; 124]);
  Peer 3 59 Leader (SendAppend 1 [124; 124; 124; 124; 124]);
  Peer 2 28 Leader (SendAppend 4 [123; 123; 123; 1; 123]);
  Peer 2 28 Leader (SendAppend 0 [123; 123; 123; 1; 123])].

(** Lines 10056 to 10205. *)
Definition run_68 : list Line := [
  Peer 3 59 Leader (SendAppend 4 [124; 124; 124; 124; 124]);
  Peer 4 56 Leader (SendAppend 2 [1; 521; 521; 1; 521]);
  Peer 4 56 Leader (SendAppend 3 [1; 521; 521; 1; 521]);
  Peer 4 56 Leader (AppendLost 3);
  Peer 0 58 Follower (AppendFrom 3 59);
  Peer 1 58 Follower (AppendFrom 3 59);
  Peer 0 59 Follower (AppendMismatch 14 123);
  Peer 1 59 Follower (AppendMismatch 14 123);
  Peer 3 59 Leader (AppendNotSuccess 1 123 14 124);
  Peer 4 56 Leader (AppendLost 1);
  Peer 3 59 Leader (AppendLost 4);
  Peer 2 28 Leader (AppendLost 3);
  Peer 2 28 Leader (AppendLost 1);
  Peer 2 28 Leader (AppendLost 4);
  Peer 2 28 Leader (AppendLost 0);
  Peer 3 59 Leader (AppendLost 2);
  Peer 3 59 Leader StartHeartBeat;
  Peer 3 59 Leader (AppendTo 0);
  Peer 2 28 Leader StartHeartBeat;
  Peer 2 28 Leader (AppendTo 0);
  Peer 4 56 Leader StartHeartBeat;
  Peer 2 28 Leader (AppendTo 1);
  Peer 4 56 Leader (AppendTo 0);
  Peer 4 56 Leader (AppendTo 1);
  Peer 4 56 Leader (AppendTo 2);
  Peer 3 59 Leader (AppendTo 1);
  Peer 2 28 Leader (AppendTo 3);
  Peer 2 28 Leader (AppendTo 4);
  Peer 3 59 Leader (AppendTo 2);
  Peer 3 59 Leader (AppendTo 4);
  Peer 4 56 Leader (AppendTo 3);
  Peer 2 28 Leader (SendAppend 0 [123; 123; 123; 1; 123]);
  Peer 3 59 Leader (SendAppend 0 [124; 70; 124; 124; 124]);
  Peer 3 59 Leader (SendAppend 4 [124; 70; 124; 124; 124]);
  Peer 2 28 Leader (SendAppend 1 [123; 123; 123; 1; 123]);
  Peer 4 56 Leader (AppendLost 0);
  Peer 4 56 Leader (AppendLost 2);
  Peer 3 59 Leader (SendAppend 1 [124; 70; 124; 124; 124]);
  Peer 4 56 Leader (SendAppend 0 [1; 521; 521; 1; 521]);
  Peer 3 59 Leader (SendAppend 2 [124; 70; 124; 124; 124]);
  Peer 4 56 Leader (SendAppend 1 [1; 521; 521; 1; 521]);
  Peer 4 56 Leader (SendAppend 2 [1; 521; 521; 1; 521]);
  Peer 4 56 Leader (AppendLost 2);
  Peer 4 56 Leader (SendAppend 3 [1; 521; 521; 1; 521]);
  Peer 2 28 Leader (SendAppend 3 [123; 123; 123; 1; 123]);
  Peer 2 28 Leader (SendAppend 4 [123; 123; 123; 1; 123]);
  Peer 2 28 Leader (AppendLost 4);
  Peer 1 59 Follower (AppendFrom 3 59);
  Peer 1 59 Follower (AppendMismatch 6 69);
  Peer 4 56 Leader (AppendLost 1);
  Peer 0 59 Follower (AppendFrom 3 59);
  Peer 0 59 Follower (AppendMismatch 14 123);
  Peer 2 28 Leader (AppendLost 1);
  Peer 3 59 Leader (AppendLost 2);
  Peer 2 28 Leader (AppendLost 0);
  Peer 4 56 Leader (AppendLost 3);
  Peer 3 59 Leader (AppendLost 4);
  Peer 4 56 Leader (AppendLost 0);
  Peer 2 28 Leader (AppendLost 3);
  Peer 3 59 Leader StartHeartBeat;
  Peer 4 56 Leader StartHeartBeat;
  Peer 4 56 Leader (AppendTo 0);
  Peer 3 59 Leader (AppendTo 0);
  Peer 4 56 Leader (AppendTo 1);
  Peer 4 56 Leader (AppendTo 2);
  Peer 3 59 Leader (AppendTo 1);
  Peer 2 28 Leader StartHeartBeat;
  Peer 2 28 Leader (AppendTo 0);
  Peer 4 56 Leader (AppendTo 3);
  Peer 3 59 Leader (AppendTo 2);
  Peer 4 56 Leader (SendAppend 2 [1; 521; 521; 1; 521]);
  Peer 3 59 Leader (AppendTo 4);
  Peer 2 28 Leader (AppendTo 1);
  Peer 2 28 Leader (AppendTo 3);
  Peer 2 28 Leader (AppendTo 4);
  Peer 3 59 Leader (SendAppend 0 [124; 70; 124; 124; 124]);
  Peer 2 28 Leader (SendAppend 0 [123; 123; 123; 1; 123]);
  Peer 3 59 Leader (SendAppend 2 [124; 70; 124; 124; 124]);
  Peer 3 59 Leader (SendAppend 4 [124; 70; 124; 124; 124]);
  Peer 3 59 Leader (SendAppend 1 [124; 70; 124; 124; 124]);
  Peer 2 28 Leader (SendAppend 3 [123; 123; 123; 1; 123]);
  Peer 4 56 Leader (SendAppend 0 [1; 521; 521; 1; 521]);
  Peer 2 28 Leader (SendAppend 1 [123; 123; 123; 1; 123]);
  Peer 2 28 Leader (SendAppend 4 [123; 123; 123; 1; 123]);
  Peer 4 56 Leader (SendAppend 1 [1; 521; 521; 1; 521]);
  Peer 4 56 Leader (SendAppend 3 [1; 521; 521; 1; 521]);
  Peer 4 56 Leader (AppendLost 0);
  Peer 2 28 Leader (AppendLost 3);
  Peer 0 59 Follower (AppendFrom 3 59);
  Peer 1 59 Follower (AppendFrom 3 59);
  Peer 0 59 Follower (AppendMismatch 14 123);
  Peer 1 59 Follower (AppendMismatch 6 69);
  Peer 3 59 Leader (AppendLost 1);
  Peer 2 28 Leader (AppendLost 0);
  Peer 3 59 Leader (AppendLost 4);
  Peer 2 28 Leader (AppendLost 1);
  Peer 4 56 Leader (AppendLost 3);
  Peer 3 59 Leader (AppendLost 2);
  Peer 2 28 Leader (AppendLost 4);
  Peer 4 56 Leader (AppendLost 2);
  Peer 3 59 Leader StartHeartBeat;
  Peer 4 56 Leader (AppendLost 1);
  Peer 4 56 Leader StartHeartBeat;
  Peer 4 56 Leader (AppendTo 0);
  Peer 3 59 Leader (AppendTo 0);
  Peer 2 28 Leader StartHeartBeat;
  Peer 2 28 Leader (AppendTo 0);
  Peer 4 56 Leader (AppendTo 1);
  Peer 3 59 Leader (AppendTo 1);
  Peer 3 59 Leader (AppendTo 2);
  Peer 2 28 Leader (AppendTo 1);
  Peer 4 56 Leader (AppendTo 2);
  Peer 3 59 Leader (AppendTo 4);
  Peer 4 56 Leader (AppendTo 3);
  Peer 3 59 Leader (SendAppend 0 [124; 70; 124; 124; 124]);
  Peer 2 28 Leader (AppendTo 3);
  Peer 2 28 Leader (AppendTo 4);
  Peer 4 56 Leader (SendAppend 0 [1; 521; 521; 1; 521]);
  Peer 2 28 Leader (SendAppend 0 [123; 123; 123; 1; 123]);
  Peer 2 28 Leader (SendAppend 4 [123; 123; 123; 1; 123]);
  Peer 3 59 Leader (SendAppend 4 [124; 70; 124; 124; 124]);
  Peer 3 59 Leader (AppendNotSuccess 1 69 6 70);
  Peer 3 59 Leader (SendAppend 2 [124; 2; 124; 124; 124]);
  Peer 3 59 Leader (SendAppend 1 [124; 2; 124; 124; 124]);
  Peer 4 56 Leader (SendAppend 1 [1; 521; 521; 1; 521]);
  Peer 4 56 Leader (SendAppend 2 [1; 521; 521; 1; 521]);
  Peer 4 56 Leader (SendAppend 3 [1; 521; 521; 1; 521]);
  Peer 2 28 Leader (SendAppend 1 [123; 123; 123; 1; 123]);
  Peer 2 28 Leader (SendAppend 3 [123; 123; 123; 1; 123]);
  Peer 2 28 Leader (AppendLost 3);
  Peer 3 59 Leader (AppendLost 1);
  Peer 2 28 Leader (AppendLost 1);
  Peer 2 28 Leader (AppendLost 0);
  Peer 4 56 Leader (AppendLost 0);
  Peer 0 59 Follower (AppendFrom 3 59);
  Peer 0 59 Follower (AppendMismatch 14 123);
  Peer 2 28 Leader (AppendLost 4);
  Peer 4 56 Leader (AppendLost 3);
  Peer 4 56 Leader (AppendLost 2);
  Peer 3 59 Leader (AppendLost 2);
  Peer 4 56 Leader (AppendLost 1);
  Peer 4 56 Leader StartHeartBeat;
  Peer 4 56 Leader (AppendTo 0);
  Peer 2 28 Leader StartHeartBeat;
  Peer 2 28 Leader (AppendTo 0);
  Peer 2 28 Leader (AppendTo 1);
  Peer 4 56 Leader (AppendTo 1);
  Peer 4 56 Leader (AppendTo 2);
  Peer 4 56 Leader (AppendTo 3);
  Peer 3 59 Leader StartHeartBeat].

(** Lines 10206 to 10355. *)
Definition run_69 : list Line := [
  Peer 3 59 Leader (AppendTo 0);
  Peer 3 59 Leader (AppendTo 1);
  Peer 3 59 Leader (AppendTo 2);
  Peer 3 59 Leader (AppendTo 4);
  Peer 2 28 Leader (AppendTo 3);
  Peer 3 59 Leader (SendAppend 0 [124; 2; 124; 124; 124]);
  Peer 2 28 Leader (AppendTo 4);
  Peer 4 56 Leader (SendAppend 2 [1; 521; 521; 1; 521]);
  Peer 2 28 Leader (SendAppend 4 [123; 123; 123; 1; 123]);
  Peer 3 59 Leader (AppendLost 4);
  Peer 3 59 Leader (SendAppend 4 [124; 2; 124; 124; 124]);
  Peer 3 59 Leader (SendAppend 1 [124; 2; 124; 124; 124]);
  Peer 3 59 Leader (SendAppend 2 [124; 2; 124; 124; 124]);
  Peer 4 56 Leader (SendAppend 0 [1; 521; 521; 1; 521]);
  Peer 2 28 Leader (SendAppend 1 [123; 123; 123; 1; 123]);
  Peer 4 56 Leader (SendAppend 1 [1; 521; 521; 1; 521]);
  Peer 4 56 Leader (SendAppend 3 [1; 521; 521; 1; 521]);
  Peer 2 28 Leader (SendAppend 0 [123; 123; 123; 1; 123]);
  Peer 2 28 Leader (SendAppend 3 [123; 123; 123; 1; 123]);
  Peer 3 59 Leader (AppendLost 4);
  Peer 2 28 Leader (AppendLost 1);
  Peer 2 28 Leader (AppendLost 3);
  Peer 4 56 Leader (AppendLost 0);
  Peer 3 59 Leader (AppendLost 2);
  Peer 0 59 Follower (AppendFrom 3 59);
  Peer 1 59 Follower (AppendFrom 3 59);
  Peer 0 59 Follower (AppendMismatch 14 123);
  Peer 3 59 Leader (AppendNotSuccess 0 123 14 124);
  Peer 1 59 Follower (AppendDone 59 126);
  Peer 2 28 Leader (AppendLost 0);
  Peer 4 56 Leader (AppendLost 1);
  Peer 2 28 Leader (AppendLost 4);
  Peer 4 56 Leader (AppendLost 3);
  Peer 4 56 Leader (AppendLost 2);
  Peer 4 56 Leader StartHeartBeat;
  Peer 4 56 Leader (AppendTo 0);
  Peer 4 56 Leader (AppendTo 1);
  Peer 4 56 Leader (AppendTo 2);
  Peer 4 56 Leader (AppendTo 3);
  Peer 4 56 Leader (SendAppend 3 [1; 521; 521; 1; 521]);
  Peer 3 59 Leader (AppendNotSuccess 0 123 14 70);
  Peer 3 59 Leader StartHeartBeat;
  Peer 3 59 Leader (AppendTo 0);
  Peer 3 59 Leader (AppendTo 1);
  Peer 3 59 Leader (AppendTo 2);
  Peer 3 59 Leader (AppendTo 4);
  Peer 3 59 Leader (SendAppend 4 [2; 2; 124; 124; 124]);
  Peer 2 28 Leader StartHeartBeat;
  Peer 2 28 Leader (AppendTo 0);
  Peer 2 28 Leader (AppendTo 1);
  Peer 3 59 Leader (SendAppend 1 [2; 2; 124; 124; 124]);
  Peer 4 56 Leader (SendAppend 0 [1; 521; 521; 1; 521]);
  Peer 3 59 Leader (SendAppend 2 [2; 2; 124; 124; 124]);
  Peer 4 56 Leader (SendAppend 1 [1; 521; 521; 1; 521]);
  Peer 4 56 Leader (SendAppend 2 [1; 521; 521; 1; 521]);
  Peer 3 59 Leader (SendAppend 0 [2; 2; 124; 124; 124]);
  Peer 2 28 Leader (AppendTo 3);
  Peer 2 28 Leader (AppendTo 4);
  Peer 2 28 Leader (SendAppend 1 [123; 123; 123; 1; 123]);
  Peer 2 28 Leader (SendAppend 3 [123; 123; 123; 1; 123]);
  Peer 2 28 Leader (SendAppend 4 [123; 123; 123; 1; 123]);
  Peer 2 28 Leader (SendAppend 0 [123; 123; 123; 1; 123]);
  Peer 2 28 Leader (AppendLost 4);
  Peer 1 59 Follower (AppendFrom 3 59);
  Peer 0 59 Follower (AppendFrom 3 59);
  Peer 1 59 Follower (AppendDone 59 126);
  Peer 0 59 Follower (AppendDone 59 126);
  Peer 3 59 Leader (AppendSuccess 1);
  Peer 3 59 Leader (TryUpdateCommit 1 127);
  Peer 3 59 Leader (MatchIndexIs [-1; 126; -1; -1; -1]);
  Peer 3 59 Leader (LogsAre [(-1, -1); (2, 4416); (2, 1773); (6, 1565); (6, 9839); (6, 8884); (6, 1730); (6, 7856); (6, 3801); (6, 5962); (6, 601); (6, 7603); (6, 2561); (6, 1354); (6, 9073); (6, 8378); (6, 6357); (6, 4744); (6, 8770); (6, 5495); (6, 6522); (6, 6480); (6, 216); (6, 4004); (6, 7676); (6, 7306); (6, 5019); (6, 1798); (6, 7021); (6, 9495); (6, 6139); (6, 1267); (6, 7041); (6, 6140); (6, 607); (6, 9070); (6, 7386); (6, 72); (6, 6604); (6, 8243); (6, 7046); (6, 3880); (6, 7616); (6, 4955); (6, 4865); (6, 6739); (6, 6454); (6, 8604); (6, 4722); (6, 8891); (6, 8892); (6, 1624); (6, 2915); (6, 3879); (6, 4539); (6, 2530); (6, 338); (6, 3223); (6, 8553); (6, 5848); (6, 4011); (6, 1042); (6, 794); (6, 3165); (6, 3415); (6, 2492); (6, 2211); (6, 9387); (6, 650); (6, 128); (6, 198); (14, 1943); (14, 3700); (14, 3217); (14, 8424); (14, 333); (14, 4822); (14, 9515); (14, 320); (14, 209); (14, 7169); (14, 5812); (14, 2399); (14, 9933); (14, 9071); (14, 1487); (14, 6101); (14, 1581); (14, 7208); (14, 9608); (14, 7618); (14, 4656); (14, 8295); (14, 8041); (14, 7384); (14, 862); (14, 7586); (14, 5121); (14, 1426); (14, 6171); (14, 4502); (14, 732); (14, 3895); (14, 3835); (14, 1128); (14, 7173); (14, 9594); (14, 9000); (14, 2885); (14, 4717); (14, 6248); (14, 7434); (14, 1012); (14, 3762); (14, 4915); (14, 9645); (14, 7201); (14, 751); (14, 8649); (14, 9542); (14, 362); (14, 6669); (14, 5109); (14, 129); (59, 4333); (59, 655); (59, 6260)]);
  Peer 3 59 Leader (FinishUpdateCommit 1);
  Peer 3 59 Leader (TryApply 1 1);
  Peer 2 28 Leader (AppendLost 1);
  Peer 3 59 Leader (AppendLost 2);
  Peer 2 28 Leader (AppendLost 0);
  Peer 4 56 Leader (AppendLost 1);
  Peer 4 56 Leader (AppendLost 0);
  Peer 4 56 Leader (AppendLost 2);
  Peer 2 28 Leader (AppendLost 3);
  Peer 3 59 Leader (AppendLost 4);
  Peer 4 56 Leader (AppendLost 3);
  Peer 2 28 Leader StartHeartBeat;
  Peer 3 59 Leader StartHeartBeat;
  Peer 2 28 Leader (AppendTo 0);
  Peer 2 28 Leader (AppendTo 1);
  Peer 2 28 Leader (AppendTo 3);
  Peer 3 59 Leader (AppendTo 0);
  Peer 4 56 Leader StartHeartBeat;
  Peer 3 59 Leader (AppendTo 1);
  Peer 3 59 Leader (AppendTo 2);
  Peer 3 59 Leader (AppendTo 4);
  Peer 4 56 Leader (AppendTo 0);
  Peer 4 56 Leader (AppendTo 1);
  Peer 4 56 Leader (AppendTo 2);
  Peer 2 28 Leader (AppendTo 4);
  Peer 3 59 Leader (SendAppend 1 [2; 127; 124; 124; 124]);
  Peer 4 56 Leader (AppendTo 3);
  Peer 2 28 Leader (SendAppend 3 [123; 123; 123; 1; 123]);
  Peer 3 59 Leader (SendAppend 0 [2; 127; 124; 124; 124]);
  Peer 4 56 Leader (SendAppend 2 [1; 521; 521; 1; 521]);
  Peer 2 28 Leader (SendAppend 0 [123; 123; 123; 1; 123]);
  Peer 4 56 Leader (SendAppend 0 [1; 521; 521; 1; 521]);
  Peer 3 59 Leader (SendAppend 2 [2; 127; 124; 124; 124]);
  Peer 3 59 Leader (SendAppend 4 [2; 127; 124; 124; 124]);
  Peer 2 28 Leader (SendAppend 1 [123; 123; 123; 1; 123]);
  Peer 4 56 Leader (SendAppend 1 [1; 521; 521; 1; 521]);
  Peer 2 28 Leader (SendAppend 4 [123; 123; 123; 1; 123]);
  Peer 4 56 Leader (SendAppend 3 [1; 521; 521; 1; 521]);
  Peer 2 28 Leader (AppendLost 3);
  Peer 3 59 Leader (AppendNotSuccess 0 123 14 2);
  Peer 1 59 Follower (AppendFrom 3 59);
  Peer 0 59 Follower (AppendFrom 3 59);
  Peer 1 59 Follower (AppendDone 59 126);
  Peer 3 59 Leader (AppendSuccess 1);
  Peer 3 59 Leader (TryUpdateCommit 1 127);
  Peer 0 59 Follower (AppendDone 59 126);
  Peer 3 59 Leader (MatchIndexIs [-1; 126; -1; -1; -1]);
  Peer 3 59 Leader (LogsAre [(-1, -1); (2, 4416); (2, 1773); (6, 1565); (6, 9839); (6, 8884); (6, 1730); (6, 7856); (6, 3801); (6, 5962); (6, 601); (6, 7603); (6, 2561); (6, 1354); (6, 9073); (6, 8378); (6, 6357); (6, 4744); (6, 8770); (6, 5495); (6, 6522); (6, 6480); (6, 216); (6, 4004); (6, 7676); (6, 7306); (6, 5019); (6, 1798); (6, 7021); (6, 9495); (6, 6139); (6, 1267); (6, 7041); (6, 6140); (6, 607); (6, 9070); (6, 7386); (6, 72); (6, 6604); (6, 8243); (6, 7046); (6, 3880); (6, 7616); (6, 4955); (6, 4865); (6, 6739); (6, 6454); (6, 8604); (6, 4722); (6, 8891); (6, 8892); (6, 1624); (6, 2915); (6, 3879); (6, 4539); (6, 2530); (6, 338); (6, 3223); (6, 8553); (6, 5848); (6, 4011); (6, 1042); (6, 794); (6, 3165); (6, 3415); (6, 2492); (6, 2211); (6, 9387); (6, 650); (6, 128); (6, 198); (14, 1943); (14, 3700); (14, 3217); (14, 8424); (14, 333); (14, 4822); (14, 9515); (14, 320); (14, 209); (14, 7169); (14, 5812); (14, 2399); (14, 9933); (14, 9071); (14, 1487); (14, 6101); (14, 1581); (14, 7208); (14, 9608); (14, 7618); (14, 4656); (14, 8295); (14, 8041); (14, 7384); (14, 862); (14, 7586); (14, 5121); (14, 1426); (14, 6171); (14, 4502); (14, 732); (14, 3895); (14, 3835); (14, 1128); (14, 7173); (14, 9594); (14, 9000); (14, 2885); (14, 4717); (14, 6248); (14, 7434); (14, 1012); (14, 3762); (14, 4915); (14, 9645); (14, 7201); (14, 751); (14, 8649); (14, 9542); (14, 362); (14, 6669); (14, 5109); (14, 129); (59, 4333); (59, 655); (59, 6260)]);
  Peer 3 59 Leader (FinishUpdateCommit 1);
  Peer 3 59 Leader (TryApply 1 1);
  Peer 3 59 Leader (AppendLost 0);
  Peer 4 56 Leader (AppendLost 1);
  Peer 4 56 Leader (AppendLost 3);
  Peer 3 59 Leader (AppendLost 4);
  Peer 4 56 Leader (AppendLost 2);
  Peer 2 28 Leader (AppendLost 4);
  Peer 4 56 Leader (AppendLost 0);
  Peer 3 59 Leader (AppendLost 2);
  Peer 2 28 Leader (AppendLost 0);
  Peer 2 28 Leader StartHeartBeat;
  Peer 4 56 Leader StartHeartBeat;
  Peer 4 56 Leader (AppendTo 0);
  Peer 2 28 Leader (AppendTo 0);
  Peer 2 28 Leader (AppendTo 1);
  Peer 2 28 Leader (AppendTo 3);
  Peer 3 59 Leader StartHeartBeat;
  Peer 4 56 Leader (AppendTo 1);
  Peer 3 59 Leader (AppendTo 0);
  Peer 3 59 Leader (AppendTo 1);
  Peer 2 28 Leader (AppendTo 4);
  Peer 4 56 Leader (AppendTo 2);
  Peer 4 56 Leader (AppendTo 3);
  Peer 2 28 Leader (AppendLost 1);
  Peer 3 59 Leader (AppendTo 2);
  Peer 4 56 Leader (SendAppend 0 [1; 521; 521; 1; 521]);
  Peer 3 59 Leader (AppendTo 4);
  Peer 2 28 Leader (SendAppend 3 [123; 123; 123; 1; 123]);
  Peer 4 56 Leader (SendAppend 3 [1; 521; 521; 1; 521]);
  Peer 3 59 Leader (SendAppend 0 [1; 127; 124; 124; 124])].

(** Lines 10356 to 10505. *)
Definition run_70 : list Line := [
  Peer 3 59 Leader (SendAppend 2 [1; 127; 124; 124; 124]);
  Peer 3 59 Leader (SendAppend 4 [1; 127; 124; 124; 124]);
  Peer 3 59 Leader (SendAppend 1 [1; 127; 124; 124; 124]);
  Peer 2 28 Leader (SendAppend 0 [123; 123; 123; 1; 123]);
  Peer 4 56 Leader (SendAppend 1 [1; 521; 521; 1; 521]);
  Peer 2 28 Leader (SendAppend 1 [123; 123; 123; 1; 123]);
  Peer 4 56 Leader (SendAppend 2 [1; 521; 521; 1; 521]);
  Peer 2 28 Leader (SendAppend 4 [123; 123; 123; 1; 123]);
  Peer 2 28 Leader (AppendLost 0);
  Peer 1 59 Follower (VoteReply 3 57 false);
  Peer 1 59 Follower (SenderCommit 2 2);
  Peer 1 59 Follower (CheckElection 0 5);
  Peer 1 59 Follower NotCandidate;
  Peer 4 56 Leader (AppendLost 0);
  Peer 2 28 Leader (AppendLost 1);
  Peer 3 59 Leader (AppendLost 1);
  Peer 2 28 Leader (AppendLost 3);
  Peer 4 56 Leader (AppendLost 3);
  Peer 3 59 Leader (AppendLost 4);
  Peer 3 59 Leader (AppendNotSuccess 0 123 14 1);
  Peer 2 28 Leader (AppendLost 4);
  Peer 3 59 Leader (AppendLost 2);
  Peer 4 56 Leader (AppendLost 2);
  Peer 2 28 Leader StartHeartBeat;
  Peer 2 28 Leader (AppendTo 0);
  Peer 2 28 Leader (AppendTo 1);
  Peer 4 56 Leader StartHeartBeat;
  Peer 4 56 Leader (AppendTo 0);
  Peer 4 56 Leader (AppendTo 1);
  Peer 2 28 Leader (AppendTo 3);
  Peer 3 59 Leader (AppendLost 0);
  Peer 2 28 Leader (AppendTo 4);
  Peer 3 59 Leader StartHeartBeat;
  Peer 3 59 Leader (AppendTo 0);
  Peer 3 59 Leader (AppendTo 1);
  Peer 4 56 Leader (AppendTo 2);
  Peer 2 28 Leader (SendAppend 1 [123; 123; 123; 1; 123]);
  Peer 3 59 Leader (AppendTo 2);
  Peer 3 59 Leader (AppendTo 4);
  Peer 4 56 Leader (AppendTo 3);
  Peer 3 59 Leader (SendAppend 1 [1; 127; 124; 124; 124]);
  Peer 2 28 Leader (SendAppend 4 [123; 123; 123; 1; 123]);
  Peer 4 56 Leader (SendAppend 1 [1; 521; 521; 1; 521]);
  Peer 3 59 Leader (SendAppend 2 [1; 127; 124; 124; 124]);
  Peer 3 59 Leader (SendAppend 4 [1; 127; 124; 124; 124]);
  Peer 3 59 Leader (SendAppend 0 [1; 127; 124; 124; 124]);
  Peer 4 56 Leader (SendAppend 3 [1; 521; 521; 1; 521]);
  Peer 3 59 Leader (VoteReply 1 58 false);
  Peer 3 59 Leader (SenderCommit 1 1);
  Peer 3 59 Leader (CheckElection 0 5);
  Peer 3 59 Leader NotCandidate;
  Peer 4 56 Leader (SendAppend 0 [1; 521; 521; 1; 521]);
  Peer 4 56 Leader (AppendLost 1);
  Peer 4 56 Leader (SendAppend 2 [1; 521; 521; 1; 521]);
  Peer 2 28 Leader (SendAppend 0 [123; 123; 123; 1; 123]);
  Peer 2 28 Leader (SendAppend 3 [123; 123; 123; 1; 123]);
  Peer 3 59 Leader (AppendLost 0);
  Peer 4 56 Leader (AppendLost 0);
  Peer 4 56 Leader (AppendLost 2);
  Peer 1 59 Follower (AppendFrom 2 28);
  Peer 1 59 Follower AppendTermSmaller;
  Peer 0 59 Follower (AppendFrom 2 28);
  Peer 0 59 Follower AppendTermSmaller;
  Peer 3 59 Leader (AppendLost 2);
  Peer 2 28 Leader (AppendLost 4);
  Peer 4 56 Leader (AppendLost 3);
  Peer 3 59 Leader (AppendLost 4);
  Peer 3 59 Leader (AppendLost 1);
  Peer 4 56 Leader (AppendLost 1);
  Peer 2 28 Leader StartHeartBeat;
  Peer 2 28 Leader (AppendTo 0);
  Peer 2 28 Leader (AppendTo 1);
  Peer 4 56 Leader StartHeartBeat;
  Peer 3 59 Leader StartHeartBeat;
  Peer 3 59 Leader (AppendTo 0);
  Peer 3 59 Leader (AppendTo 1);
  Peer 3 59 Leader (AppendTo 2);
  Peer 4 56 Leader (AppendTo 0);
  Peer 4 56 Leader (AppendTo 1);
  Peer 4 56 Leader (AppendTo 2);
  Peer 2 28 Leader (AppendTo 3);
  Peer 3 59 Leader (AppendTo 4);
  Peer 4 56 Leader (AppendTo 3);
  Peer 3 59 Leader (SendAppend 2 [1; 127; 124; 124; 124]);
  Peer 4 56 Leader (SendAppend 0 [1; 521; 521; 1; 521]);
  Peer 2 28 Leader (AppendTo 4);
  Peer 2 28 Leader (AppendLost 3);
  Peer 3 59 Leader (SendAppend 0 [1; 127; 124; 124; 124]);
  Peer 2 28 Leader (SendAppend 0 [123; 123; 123; 1; 123]);
  Peer 2 28 Leader (SendAppend 4 [123; 123; 123; 1; 123]);
  Peer 3 59 Leader (SendAppend 1 [1; 127; 124; 124; 124]);
  Peer 3 59 Leader (SendAppend 4 [1; 127; 124; 124; 124]);
  Peer 4 56 Leader (SendAppend 3 [1; 521; 521; 1; 521]);
  Peer 4 56 Leader (SendAppend 2 [1; 521; 521; 1; 521]);
  Peer 4 56 Leader (SendAppend 1 [1; 521; 521; 1; 521]);
  Peer 2 28 Leader (SendAppend 1 [123; 123; 123; 1; 123]);
  Peer 2 28 Leader (SendAppend 3 [123; 123; 123; 1; 123]);
  Peer 4 56 Leader (AppendLost 2);
  Peer 2 28 Leader (AppendLost 4);
  Peer 2 28 Leader (AppendLost 1);
  Peer 4 56 Leader (AppendLost 3);
  Peer 3 59 Leader (AppendLost 0);
  Peer 3 59 Leader (AppendLost 1);
  Peer 0 59 Follower (AppendFrom 2 28);
  Peer 0 59 Follower AppendTermSmaller;
  Peer 3 59 Leader (AppendLost 4);
  Peer 2 28 Leader (AppendLost 3);
  Peer 4 56 Leader (AppendLost 1);
  Peer 4 56 Leader (AppendLost 0);
  Peer 3 59 Leader (AppendLost 2);
  Peer 4 56 Leader StartHeartBeat;
  Peer 4 56 Leader (AppendTo 0);
  Peer 4 56 Leader (AppendTo 1);
  Peer 4 56 Leader (AppendTo 2);
  Peer 4 56 Leader (AppendTo 3);
  Peer 4 56 Leader (SendAppend 3 [1; 521; 521; 1; 521]);
  Peer 3 59 Leader StartHeartBeat;
  Peer 3 59 Leader (AppendTo 0);
  Peer 3 59 Leader (AppendTo 1);
  Peer 3 59 Leader (AppendTo 2);
  Peer 2 28 Leader StartHeartBeat;
  Peer 2 28 Leader (AppendTo 0);
  Peer 2 28 Leader (AppendTo 1);
  Peer 2 28 Leader (AppendTo 3);
  Peer 2 28 Leader (AppendTo 4);
  Peer 4 56 Leader (SendAppend 0 [1; 521; 521; 1; 521]);
  Peer 4 56 Leader (SendAppend 1 [1; 521; 521; 1; 521]);
  Peer 4 56 Leader (SendAppend 2 [1; 521; 521; 1; 521]);
  Peer 3 59 Leader (AppendTo 4);
  Peer 3 59 Leader (SendAppend 2 [1; 127; 124; 124; 124]);
  Peer 3 59 Leader (SendAppend 4 [1; 127; 124; 124; 124]);
  Peer 3 59 Leader (SendAppend 0 [1; 127; 124; 124; 124]);
  Peer 3 59 Leader (SendAppend 1 [1; 127; 124; 124; 124]);
  Peer 2 28 Leader (SendAppend 4 [123; 123; 123; 1; 123]);
  Peer 2 28 Leader (SendAppend 0 [123; 123; 123; 1; 123]);
  Peer 2 28 Leader (SendAppend 1 [123; 123; 123; 1; 123]);
  Peer 2 28 Leader (SendAppend 3 [123; 123; 123; 1; 123]);
  Peer 4 56 Leader (AppendLost 2);
  Peer 1 59 Follower (AppendFrom 2 28);
  Peer 1 59 Follower AppendTermSmaller;
  Peer 0 59 Follower (AppendFrom 2 28);
  Peer 0 59 Follower AppendTermSmaller;
  Peer 3 59 Leader (AppendLost 4);
  Peer 3 59 Leader (AppendLost 0);
  Peer 3 59 Leader (AppendLost 2);
  Peer 2 28 Leader (AppendTermBigger 0 59);
  Peer 4 56 Leader (AppendLost 0);
  Peer 4 56 Leader (AppendLost 1);
  Peer 4 56 Leader (AppendLost 3);
  Peer 2 59 Follower (AppendLost 3)].

(** Lines 10506 to 10605. *)
Definition run_71 : list Line := [
  Peer 3 59 Leader (AppendLost 1);
  Peer 3 59 Leader (AppendSuccess 1);
  Peer 3 59 Leader (TryUpdateCommit 1 142);
  Peer 3 59 Leader (MatchIndexIs [-1; 126; -1; -1; -1]);
  Peer 3 59 Leader (LogsAre [(-1, -1); (2, 4416); (2, 1773); (6, 1565); (6, 9839); (6, 8884); (6, 1730); (6, 7856); (6, 3801); (6, 5962); (6, 601); (6, 7603); (6, 2561); (6, 1354); (6, 9073); (6, 8378); (6, 6357); (6, 4744); (6, 8770); (6, 5495); (6, 6522); (6, 6480); (6, 216); (6, 4004); (6, 7676); (6, 7306); (6, 5019); (6, 1798); (6, 7021); (6, 9495); (6, 6139); (6, 1267); (6, 7041); (6, 6140); (6, 607); (6, 9070); (6, 7386); (6, 72); (6, 6604); (6, 8243); (6, 7046); (6, 3880); (6, 7616); (6, 4955); (6, 4865); (6, 6739); (6, 6454); (6, 8604); (6, 4722); (6, 8891); (6, 8892); (6, 1624); (6, 2915); (6, 3879); (6, 4539); (6, 2530); (6, 338); (6, 3223); (6, 8553); (6, 5848); (6, 4011); (6, 1042); (6, 794); (6, 3165); (6, 3415); (6, 2492); (6, 2211); (6, 9387); (6, 650); (6, 128); (6, 198); (14, 1943); (14, 3700); (14, 3217); (14, 8424); (14, 333); (14, 4822); (14, 9515); (14, 320); (14, 209); (14, 7169); (14, 5812); (14, 2399); (14, 9933); (14, 9071); (14, 1487); (14, 6101); (14, 1581); (14, 7208); (14, 9608); (14, 7618); (14, 4656); (14, 8295); (14, 8041); (14, 7384); (14, 862); (14, 7586); (14, 5121); (14, 1426); (14, 6171); (14, 4502); (14, 732); (14, 3895); (14, 3835); (14, 1128); (14, 7173); (14, 9594); (14, 9000); (14, 2885); (14, 4717); (14, 6248); (14, 7434); (14, 1012); (14, 3762); (14, 4915); (14, 9645); (14, 7201); (14, 751); (14, 8649); (14, 9542); (14, 362); (14, 6669); (14, 5109); (14, 129); (59, 4333); (59, 655); (59, 6260); (59, 6); (59, 8718); (59, 3092); (59, 1210); (59, 6933); (59, 3458); (59, 6044); (59, 7886); (59, 2743); (59, 8834); (59, 4452); (59, 4997); (59, 196); (59, 6633); (59, 1219)]);
  Peer 3 59 Leader (FinishUpdateCommit 1);
  Peer 3 59 Leader (TryApply 1 1);
  Peer 0 59 Follower StartElection;
  Peer 4 56 Leader StartHeartBeat;
  Peer 4 56 Leader (AppendTo 0);
  Peer 2 59 Follower (AppendLost 4);
  Peer 4 56 Leader (AppendTo 1);
  Peer 3 59 Leader StartHeartBeat;
  Peer 3 59 Leader (AppendTo 0);
  Peer 3 59 Leader (AppendTo 1);
  Peer 3 59 Leader (AppendTo 2);
  Peer 3 59 Leader (AppendTo 4);
  Peer 4 56 Leader (AppendTo 2);
  Peer 4 56 Leader (AppendTo 3);
  Peer 3 59 Leader (SendAppend 0 [1; 127; 124; 124; 124]);
  Peer 4 56 Leader (SendAppend 1 [1; 521; 521; 1; 521]);
  Peer 3 59 Leader (SendAppend 4 [1; 127; 124; 124; 124]);
  Peer 0 60 Candidate BecomeCandidate;
  Peer 3 59 Leader (SendAppend 2 [1; 127; 124; 124; 124]);
  Peer 0 60 Candidate (RequestVoteTo 1);
  Peer 0 60 Candidate (RequestVoteTo 2);
  Peer 0 60 Candidate (RequestVoteTo 3);
  Peer 0 60 Candidate (RequestVoteTo 4);
  Peer 4 56 Leader (SendAppend 2 [1; 521; 521; 1; 521]);
  Peer 4 56 Leader (SendAppend 3 [1; 521; 521; 1; 521]);
  Peer 4 56 Leader (SendAppend 0 [1; 521; 521; 1; 521]);
  Peer 3 59 Leader (SendAppend 1 [1; 127; 124; 124; 124]);
  Peer 3 59 Leader (AppendLost 0);
  Peer 4 56 Leader (AppendLost 3);
  Peer 4 56 Leader (ReceiveRequestVote (-1) 0 60);
  Peer 4 56 Leader (VoteArgs 60 126 56 577 578);
  Peer 4 56 Leader (HandlerCommit 122 122);
  Peer 4 56 Leader (SelfTermLower 0);
  Peer 1 59 Follower (AppendFrom 4 56);
  Peer 1 59 Follower AppendTermSmaller;
  Peer 4 60 Follower (CompareLogs 56 59 577 126);
  Peer 4 60 Follower (Granted 60 126 56 577 578);
  Peer 4 60 Follower (HandlerCommit 122 122);
  Peer 0 60 Candidate (RequestVoteLost 4);
  Peer 4 60 Follower (AppendLost 1);
  Peer 1 59 Follower (ReceiveRequestVote (-1) 0 60);
  Peer 1 59 Follower (VoteArgs 60 126 59 126 127);
  Peer 1 59 Follower (HandlerCommit 2 2);
  Peer 1 59 Follower (SelfTermLower 0);
  Peer 1 60 Follower (CompareLogs 59 59 126 126);
  Peer 1 60 Follower (Granted 60 126 59 126 127);
  Peer 1 60 Follower (HandlerCommit 2 2);
  Peer 0 60 Candidate (AppendFrom 4 56);
  Peer 0 60 Candidate AppendTermSmaller;
  Peer 0 60 Candidate (RequestVoteLost 2);
  Peer 4 60 Follower (AppendLost 2);
  Peer 3 59 Leader (AppendLost 2);
  Peer 3 59 Leader (AppendLost 1);
  Peer 0 60 Candidate (RequestVoteLost 3);
  Peer 3 59 Leader (AppendLost 4);
  Peer 3 59 Leader StartHeartBeat;
  Peer 3 59 Leader (AppendTo 0);
  Peer 3 59 Leader (AppendTo 1);
  Peer 3 59 Leader (AppendTo 2);
  Peer 3 59 Leader (AppendTo 4);
  Peer 3 59 Leader (SendAppend 4 [1; 127; 124; 124; 124]);
  Peer 3 59 Leader (SendAppend 1 [1; 127; 124; 124; 124]);
  Peer 3 59 Leader (SendAppend 0 [1; 127; 124; 124; 124]);
  Peer 3 59 Leader (SendAppend 2 [1; 127; 124; 124; 124]);
  Peer 2 59 Follower (AppendNotLeader 1);
  Peer 3 59 Leader (AppendLost 2);
  Peer 3 59 Leader (AppendLost 1);
  Peer 3 59 Leader (AppendLost 4);
  Peer 3 59 Leader (AppendLost 0);
  Peer 3 59 Leader StartHeartBeat;
  Peer 3 59 Leader (AppendTo 0);
  Peer 3 59 Leader (AppendTo 1);
  Peer 3 59 Leader (AppendTo 2);
  Peer 3 59 Leader (AppendTo 4);
  Peer 3 59 Leader (SendAppend 0 [1; 127; 124; 124; 124]);
  Peer 3 59 Leader (SendAppend 4 [1; 127; 124; 124; 124]);
  Peer 3 59 Leader (SendAppend 1 [1; 127; 124; 124; 124]);
  Peer 3 59 Leader (SendAppend 2 [1; 127; 124; 124; 124]);
  Peer 3 59 Leader (AppendSuccess 0);
  Peer 3 59 Leader (TryUpdateCommit 1 148);
  Peer 3 59 Leader (MatchIndexIs [126; 126; -1; -1; -1]);
  Peer 3 59 Leader (LogsAre [(-1, -1); (2, 4416); (2, 1773); (6, 1565); (6, 9839); (6, 8884); (6, 1730); (6, 7856); (6, 3801); (6, 5962); (6, 601); (6, 7603); (6, 2561); (6, 1354); (6, 9073); (6, 8378); (6, 6357); (6, 4744); (6, 8770); (6, 5495); (6, 6522); (6, 6480); (6, 216); (6, 4004); (6, 7676); (6, 7306); (6, 5019); (6, 1798); (6, 7021); (6, 9495); (6, 6139); (6, 1267); (6, 7041); (6, 6140); (6, 607); (6, 9070); (6, 7386); (6, 72); (6, 6604); (6, 8243); (6, 7046); (6, 3880); (6, 7616); (6, 4955); (6, 4865); (6, 6739); (6, 6454); (6, 8604); (6, 4722); (6, 8891); (6, 8892); (6, 1624); (6, 2915); (6, 3879); (6, 4539); (6, 2530); (6, 338); (6, 3223); (6, 8553); (6, 5848); (6, 4011); (6, 1042); (6, 794); (6, 3165); (6, 3415); (6, 2492); (6, 2211); (6, 9387); (6, 650); (6, 128); (6, 198); (14, 1943); (14, 3700); (14, 3217); (14, 8424); (14, 333); (14, 4822); (14, 9515); (14, 320); (14, 209); (14, 7169); (14, 5812); (14, 2399); (14, 9933); (14, 9071); (14, 1487); (14, 6101); (14, 1581); (14, 7208); (14, 9608); (14, 7618); (14, 4656); (14, 8295); (14, 8041); (14, 7384); (14, 862); (14, 7586); (14, 5121); (14, 1426); (14, 6171); (14, 4502); (14, 732); (14, 3895); (14, 3835); (14, 1128); (14, 7173); (14, 9594); (14, 9000); (14, 2885); (14, 4717); (14, 6248); (14, 7434); (14, 1012); (14, 3762); (14, 4915); (14, 9645); (14, 7201); (14, 751); (14, 8649); (14, 9542); (14, 362); (14, 6669); (14, 5109); (14, 129); (59, 4333); (59, 655); (59, 6260); (59, 6); (59, 8718); (59, 3092); (59, 1210); (59, 6933); (59, 3458); (59, 6044); (59, 7886); (59, 2743); (59, 8834); (59, 4452); (59, 4997); (59, 196); (59, 6633); (59, 1219); (59, 2087); (59, 2357); (59, 5708); (59, 8396); (59, 3415); (59, 985)]);
  Peer 3 59 Leader (UpdateCommit 1 124 3 2 59 59);
  Peer 3 59 Leader (UpdateCommit 124 125 3 2 59 59);
  Peer 3 59 Leader (UpdateCommit 125 126 3 2 59 59);
  Peer 3 59 Leader (FinishUpdateCommit 126);
  Peer 3 59 Leader (TryApply 1 126);
  Peer 3 59 Leader (Applied 1773 2 2);
  TestServerStatus 3 2;
  TestFails 3 1565 3 4 1309;
  Peer 3 59 Leader (Applied 1565 3 6);
  ProcessExit 1].

Definition run_part5 : list Line :=
  run_57 ++ run_58 ++ run_59 ++ run_60 ++ run_61 ++ run_62 ++ run_63 ++ run_64 ++ run_65
  ++ run_66 ++ run_67 ++ run_68 ++ run_69 ++ run_70 ++ run_71.
