(* ===== verification/RunCheck.v ===== *)
(** * The recorded run against the model

    The model's functions are evaluated on every vote decided, every vote
    counted and every commit of a leader that code/src/raft/2timesvote.ts
    records.  The run is of an earlier revision; the theorems say exactly
    where the present code differs from it: a candidate gives up its own vote
    to a candidate of the same term ([recorded_votes_agree]), and a vote from
    an earlier term is not counted ([recorded_counts_agree]), which is the
    defect that made the recorded test fail.

    The functions are evaluated for any codec: the results do not depend on
    the bytes a peer persists. *)

From S2P Require Import Prelude Gob Persister RaftState RaftLog RaftVote RaftCommit.
From S2P Require Import RecordedRun RecordedRun1 RecordedRun2 RecordedRun3 RecordedRun4 RecordedRun5.
Open Scope Z_scope.

Definition run : list Line :=
  run_part1 ++ run_part2 ++ run_part3 ++ run_part4 ++ run_part5.

(** A decidable property checked on every element of a list. *)
Lemma check_all {A} (P : A → Prop) `{!∀ x, Decision (P x)} (l : list A) :
  forallb (λ x, bool_decide (P x)) l = true → ∀ x, x ∈ l → P x.
Proof.
  intros Hall x Hx. apply (bool_decide_eq_true_1 (P x)).
  apply (proj1 (forallb_forall _ l) Hall x). by apply list_elem_of_In.
Qed.

Section run.
Context `{!LabGob (PersistData Z)}.

(** The present RequestVote handler, evaluated in the state of each of the
    146 recorded handlers, gives the recorded decision and term, except in the
    24 cases where a candidate that has voted for itself is asked, in the same
    term, by a candidate whose log is as good as its own: there the record
    refuses and the handler grants. *)
Theorem recorded_votes_agree :
  length (votes_of run) = 146%nat ∧
  length (filter own_vote_contested (votes_of run)) = 24%nat ∧
  ∀ d, d ∈ votes_of run →
    model_decision d =
      (if own_vote_contested d then Ok (true, d_term d) else Ok (d_granted d, d_termAfter d)) ∧
    (own_vote_contested d = true → d_granted d = false).
Proof.
  split; [vm_compute; reflexivity|]. split; [vm_compute; reflexivity|].
  apply (check_all (λ d, _ ∧ _)). vm_compute. reflexivity.
Qed.

(** The vote of node 0 from term 54, counted by node 3 in its election of term
    58. *)
Definition stale_count : Count := mkCount 3 58 Candidate 2 54 true 3 (Some 59).

(** Of the 122 recorded replies to vote requests, each treated in the
    recorded state, the present code gives for all but one the recorded number
    of votes, and makes the node leader when and in the term the record says.
    The other is a vote of term 54 that arrives in the election of term 58:
    the record counts it, has a majority and a leader of term 59, and the test
    fails; the present code keeps two votes. *)
Theorem recorded_counts_agree :
  length (counts_of run) = 122%nat ∧
  filter (λ c, model_count c ≠ recorded_count c) (counts_of run) = [stale_count] ∧
  recorded_count stale_count = inr 59 ∧ model_count stale_count = inl 2.
Proof. split_and!; vm_compute; reflexivity. Qed.

(** The commit during which the recorded process ended. *)
Definition last_commit (m : Commit) : bool := bool_decide (m_node m = 3 ∧ m_newCommitIndex m = 126).

(** For each of the 35 recorded commits of a leader, with the logs and
    match indices it prints, the present code computes the recorded commit
    index and sends the recorded commands, in order; of the last commit the
    process saw only the first two before it ended. *)
Theorem recorded_commits_agree :
  length (commits_of run) = 35%nat ∧
  ∀ m, m ∈ commits_of run →
    (λ r, (r.1, if last_commit m then take 2 r.2 else r.2)) <$> model_commit m =
    Ok (m_newCommitIndex m, m_applied m).
Proof.
  split; [vm_compute; reflexivity|].
  apply (check_all (λ m, _ = _)). vm_compute. reflexivity.
Qed.
End run.
