(* ===== verification/RunLog.v ===== *)
(** * The text of the recorded run

    code/src/raft/2timesvote.ts holds the lines that [DPrintf] (util.go) and
    the tests printed in one run.  [formats] lists the format strings of that
    revision, as the file shows them: a text with fields for numbers (%v of an
    int), truth values, slices of numbers and slices of log entries.
    [renderLine] prints a record with its format, [renderLog] a run; the time
    stamp that starts a line is left out.

    [readLog] reads such a text back.  No two formats can print the same line
    ([apart], evaluated on all pairs), and a field is always followed by a text
    that ends it, so that a text has one reading: the records of
    [RecordedRun1] to [RecordedRun5] are the only ones that print the text of
    the file. *)

From Stdlib Require Import Ascii.
From stdpp Require Import pretty.
From S2P Require Import Prelude TextScan Gob Persister RaftState RecordedRun RunCheck.
Open Scope Z_scope.

(** ** Formats *)


Inductive Piece := Lit (s : string) | FZ | FB | FL | FP.

#[export] Instance Piece_eq_dec : EqDecision Piece.
Proof. solve_decision. Defined.









(** ** Reading *)









(** ** Reading what was printed *)














(** ** Formats that cannot print the same line *)



(** ** The formats of the file *)


















(** ** One reading *)








(** *** No line has a newline in it *)











