(* ===== verification/MrCoordinator.v ===== *)
(** * The MapReduce coordinator (code/src/mr/coordinator.go, rpc.go)

    The coordinator hands map tasks, and when all of them are finished reduce
    tasks, to the workers that ask, and hands a task out again when it has
    not been reported finished within ten seconds.  [HandleRequestTask] runs
    under the coordinator's lock and is one function of its state here.

    The handler reads the clock more than once: [clock] gives the successive
    readings, [2 * i] and [2 * i + 1] for the two it makes for task [i], in
    nanoseconds.  A panic in the handler ends the coordinator.  The socket the
    coordinator listens on and what it prints are left out. *)

From S2P Require Import Prelude.
Open Scope Z_scope.

(** ** rpc.go *)

Inductive TaskType := Map | Reduce | Wait | Done.
Inductive RequestType := Get | Put.

#[export] Instance TaskType_eq_dec : EqDecision TaskType.
Proof. solve_decision. Defined.
#[export] Instance RequestType_eq_dec : EqDecision RequestType.
Proof. solve_decision. Defined.

Record RequestTaskArgs := mkArgs {
  A_RequestType : RequestType;
  A_TaskType : TaskType;
  A_TaskInd : Z;
}.

Record RequestTaskReply := mkReply {
  Type_ : TaskType;
  TaskInd : Z;
  FileName : string;
  NReduce : Z;
  NMap : Z;
}.

(** The zero value. *)
Definition zeroReply : RequestTaskReply := mkReply Map 0 "" 0 0.

(** ** coordinator.go *)

Inductive TaskStatus := InStore | OnFly | Finished.

#[export] Instance TaskStatus_eq_dec : EqDecision TaskStatus.
Proof. solve_decision. Defined.

Record Coordinator := mkCoordinator {
  files : list string;
  nMap : Z;
  mapHandoutTime : list Z;
  mapStatus : list TaskStatus;
  nReduce : Z;
  reduceHandoutTime : list Z;
  reduceStatus : list TaskStatus;
  isDone : bool;
}.
#[export] Instance Coordinator_eta : Settable Coordinator := λ c,
  mkCoordinator (files c) (nMap c) (mapHandoutTime c) (mapStatus c) (nReduce c)
    (reduceHandoutTime c) (reduceStatus c) (isDone c).
#[export] Instance set_mapHandoutTime : Setter mapHandoutTime := ltac:(derive_setter).
#[export] Instance set_mapStatus : Setter mapStatus := ltac:(derive_setter).
#[export] Instance set_reduceHandoutTime : Setter reduceHandoutTime := ltac:(derive_setter).
#[export] Instance set_reduceStatus : Setter reduceStatus := ltac:(derive_setter).
#[export] Instance set_isDone : Setter isDone := ltac:(derive_setter).

Ltac mr_simpl :=
  cbn [setf set_mapHandoutTime set_mapStatus set_reduceHandoutTime set_reduceStatus set_isDone
       files nMap mapHandoutTime mapStatus nReduce reduceHandoutTime reduceStatus isDone
       Type_ TaskInd FileName NReduce NMap A_RequestType A_TaskType A_TaskInd fst snd] in *.

Definition allFinished (l : list TaskStatus) : bool :=
  forallb (λ s, bool_decide (s = Finished)) l.

Definition allMapDone (c : Coordinator) : bool := allFinished (mapStatus c).
Definition allReduceDone (c : Coordinator) : bool := allFinished (reduceStatus c).
Definition allDone (c : Coordinator) : bool := allMapDone c && allReduceDone c.

Definition tenSeconds : Z := 10 * 10 ^ 9.

(** The loop over the status of the tasks, from task [i] on: the first that
    is in store, or was handed out more than ten seconds ago. *)
Fixpoint pick (clock : nat → Z) (times : list Z) (i : nat) (l : list TaskStatus)
    : Res (option nat) :=
  match l with
  | [] => Ok None
  | InStore :: l => Ok (Some i)
  | OnFly :: l =>
      t ← go_index times (Z.of_nat i);
      if decide (t < clock (2 * i)%nat - tenSeconds) then Ok (Some i)
      else pick clock times (S i) l
  | Finished :: l => pick clock times (S i) l
  end.

(** The reply and the bookkeeping for the task picked. *)
Definition handOutMap (clock : nat → Z) (c : Coordinator) (reply : RequestTaskReply)
    : Res (Coordinator * RequestTaskReply) :=
  p ← pick clock (mapHandoutTime c) 0 (mapStatus c);
  match p with
  | Some i =>
      f ← go_index (files c) (Z.of_nat i);
      times ← go_store (mapHandoutTime c) (Z.of_nat i) (clock (2 * i + 1)%nat);
      status ← go_store (mapStatus c) (Z.of_nat i) OnFly;
      Ok (c <| mapHandoutTime := times |> <| mapStatus := status |>,
          mkReply (Type_ reply) (Z.of_nat i) f (NReduce reply) (NMap reply))
  | None => Ok (c, mkReply Wait (TaskInd reply) (FileName reply) (NReduce reply) (NMap reply))
  end.

Definition handOutReduce (clock : nat → Z) (c : Coordinator) (reply : RequestTaskReply)
    : Res (Coordinator * RequestTaskReply) :=
  p ← pick clock (reduceHandoutTime c) 0 (reduceStatus c);
  match p with
  | Some i =>
      times ← go_store (reduceHandoutTime c) (Z.of_nat i) (clock (2 * i + 1)%nat);
      status ← go_store (reduceStatus c) (Z.of_nat i) OnFly;
      Ok (c <| reduceHandoutTime := times |> <| reduceStatus := status |>,
          mkReply (Type_ reply) (Z.of_nat i) (FileName reply) (NReduce reply) (NMap reply))
  | None => Ok (c, mkReply Wait (TaskInd reply) (FileName reply) (NReduce reply) (NMap reply))
  end.

Definition HandleRequestTask (clock : nat → Z) (args : RequestTaskArgs) (c : Coordinator)
    : Res (Coordinator * RequestTaskReply) :=
  let reply := zeroReply in
  if decide (A_RequestType args = Put) then
    if decide (A_TaskType args = Map) then
      status ← go_store (mapStatus c) (A_TaskInd args) Finished;
      Ok (c <| mapStatus := status |>, reply)
    else
      status ← go_store (reduceStatus c) (A_TaskInd args) Finished;
      let c := c <| reduceStatus := status |> in
      Ok (if allDone c then c <| isDone := true |> else c, reply)
  else if allMapDone c && allReduceDone c then
    Ok (c <| isDone := true |>, mkReply Done 0 "" 0 0)
  else
    let reply := mkReply Map 0 "" (nReduce c) 0 in
    if negb (allMapDone c) then handOutMap clock c reply
    else
      let reply := mkReply Reduce 0 "" (nReduce c) (nMap c) in
      if negb (allReduceDone c) then handOutReduce clock c reply
      else Ok (c <| isDone := true |>, mkReply Done 0 "" (nReduce c) (nMap c)).

Definition Done_ (c : Coordinator) : bool := isDone c.

(** [make] panics on a negative length. *)
Definition MakeCoordinator (fs : list string) (nReduce : Z) : Res Coordinator :=
  let nMap := zlen fs in
  if decide (nReduce < 0) then Panic "makeslice: len out of range"
  else Ok (mkCoordinator fs nMap (replicate (length fs) 0) (replicate (length fs) InStore)
         nReduce (replicate (Z.to_nat nReduce) 0) (replicate (Z.to_nat nReduce) InStore) false).

(** ** Well-formed states *)

Record mr_wf (c : Coordinator) : Prop := mkMrWf {
  mw_nMap : nMap c = zlen (files c);
  mw_nReduce : 0 ≤ nReduce c;
  mw_mapStatus : length (mapStatus c) = length (files c);
  mw_mapTime : length (mapHandoutTime c) = length (files c);
  mw_reduceStatus : zlen (reduceStatus c) = nReduce c;
  mw_reduceTime : length (reduceHandoutTime c) = length (reduceStatus c);
  mw_done : isDone c = true → allDone c = true;
}.

Lemma allFinished_lookup l : allFinished l = true ↔ ∀ i s, l !! i = Some s → s = Finished.
Proof.
  unfold allFinished. rewrite forallb_forall. split.
  - intros Hall i s Hs. apply (bool_decide_eq_true_1 (s = Finished)). apply Hall.
    apply list_elem_of_In. by eapply list_elem_of_lookup_2.
  - intros Hall s Hs. apply bool_decide_eq_true_2.
    apply list_elem_of_In, list_elem_of_lookup in Hs as [i Hi]. by eapply Hall.
Qed.

Lemma allFinished_insert l i :
  allFinished l = true → allFinished (<[i := Finished]> l) = true.
Proof.
  rewrite !allFinished_lookup. intros Hall j s [(-> & <- & _)|[_ Hj]]%list_lookup_insert_Some; eauto.
Qed.

(** ** The task handed out *)

(** Task [i] with status [s] may be handed out. *)
Definition due (clock : nat → Z) (times : list Z) (i : nat) (s : TaskStatus) : Prop :=
  s = InStore ∨ s = OnFly ∧ ∃ t, times !! i = Some t ∧ t < clock (2 * i)%nat - tenSeconds.

(** [Some k]: [k] is the first task that is due; [None]: no task is. *)
Definition first_due (clock : nat → Z) (times : list Z) (l : list TaskStatus) (p : option nat) : Prop :=
  match p with
  | Some k => (∃ s, l !! k = Some s ∧ due clock times k s) ∧
              ∀ j s, (j < k)%nat → l !! j = Some s → ¬ due clock times j s
  | None => ∀ j s, l !! j = Some s → ¬ due clock times j s
  end.

Lemma pick_spec clock times l pre :
  length times = length (pre ++ l) →
  (∀ j s, pre !! j = Some s → ¬ due clock times j s) →
  ∃ p, pick clock times (length pre) l = Ok p ∧ first_due clock times (pre ++ l) p.
Proof.
  revert pre. induction l as [|s l IH]; intros pre Hlen Hpre; cbn [pick].
  { exists None. split; [done|]. by rewrite app_nil_r. }
  assert ((pre ++ s :: l) !! length pre = Some s) as Hhere by (by rewrite list_lookup_middle).
  assert (∀ P : Prop, due clock times (length pre) s →
    ∃ p, Ok (Some (length pre)) = Ok p ∧ first_due clock times (pre ++ s :: l) p) as Hyes.
  { intros _ Hd. eexists. split; [done|]. split; [by eauto|].
    intros j s' Hj. rewrite lookup_app_l by done. apply Hpre. }
  assert (¬ due clock times (length pre) s →
    ∃ p, pick clock times (S (length pre)) l = Ok p ∧ first_due clock times (pre ++ s :: l) p) as Hno.
  { intros Hd. rewrite (cons_middle s pre l), app_assoc.
    replace (S (length pre)) with (length (pre ++ [s])) by (rewrite length_app; cbn; lia).
    apply IH; [by rewrite <- app_assoc|].
    intros j s' [Hj|[Hj Hs]]%lookup_app_Some; [by apply Hpre|].
    apply list_lookup_singleton_Some in Hs as [Hj0 <-]. by replace j with (length pre) by lia. }
  destruct s.
  - apply (Hyes True). by left.
  - destruct (go_index_in_range times (Z.of_nat (length pre))) as (t & -> & Ht).
    { rewrite Hlen, length_app. cbn. lia. }
    rewrite Nat2Z.id in Ht. cbn [mbind Res_bind]. case_decide as Hc.
    + apply (Hyes True). right. by eauto.
    + apply Hno. intros [?|(_ & t' & Ht' & ?)]; [done|]. congruence.
  - apply Hno. by intros [?|[? _]].
Qed.

Lemma pick_first clock times l :
  length times = length l → ∃ p, pick clock times 0 l = Ok p ∧ first_due clock times l p.
Proof. intros Hl. apply (pick_spec clock times l []); [done|]. intros j s Hj. done. Qed.

Lemma go_store_in_range {A} (l : list A) (k : nat) (x : A) :
  (k < length l)%nat → go_store l (Z.of_nat k) x = Ok (<[k := x]> l).
Proof. intros Hk. apply go_store_Ok. split; [lia|]. by rewrite Nat2Z.id. Qed.

(** What the two hand-out loops do, from the first task due. *)
Lemma handOutMap_eq clock c reply :
  mr_wf c →
  ∃ p, first_due clock (mapHandoutTime c) (mapStatus c) p ∧
    handOutMap clock c reply =
    match p with
    | Some k =>
        Ok (c <| mapHandoutTime := <[k := clock (2 * k + 1)%nat]> (mapHandoutTime c) |>
              <| mapStatus := <[k := OnFly]> (mapStatus c) |>,
            mkReply (Type_ reply) (Z.of_nat k) (default "" (files c !! k)) (NReduce reply) (NMap reply))
    | None => Ok (c, mkReply Wait (TaskInd reply) (FileName reply) (NReduce reply) (NMap reply))
    end.
Proof.
  intros [_ _ Hs Ht _ _ _]. unfold handOutMap.
  destruct (pick_first clock (mapHandoutTime c) (mapStatus c)) as (p & -> & Hp); [lia|].
  exists p. split; [done|]. cbn [mbind Res_bind]. destruct p as [k|]; [|done].
  destruct Hp as [(s & Hk & _) _]. apply lookup_lt_Some in Hk.
  destruct (go_index_in_range (files c) (Z.of_nat k)) as (f & -> & Hf); [lia|].
  rewrite Nat2Z.id in Hf. rewrite Hf. cbn [mbind Res_bind].
  rewrite !go_store_in_range by lia. done.
Qed.

Lemma handOutReduce_eq clock c reply :
  mr_wf c →
  ∃ p, first_due clock (reduceHandoutTime c) (reduceStatus c) p ∧
    handOutReduce clock c reply =
    match p with
    | Some k =>
        Ok (c <| reduceHandoutTime := <[k := clock (2 * k + 1)%nat]> (reduceHandoutTime c) |>
              <| reduceStatus := <[k := OnFly]> (reduceStatus c) |>,
            mkReply (Type_ reply) (Z.of_nat k) (FileName reply) (NReduce reply) (NMap reply))
    | None => Ok (c, mkReply Wait (TaskInd reply) (FileName reply) (NReduce reply) (NMap reply))
    end.
Proof.
  intros [_ _ _ _ Hs Ht _]. unfold handOutReduce.
  destruct (pick_first clock (reduceHandoutTime c) (reduceStatus c)) as (p & -> & Hp); [lia|].
  exists p. split; [done|]. cbn [mbind Res_bind]. destruct p as [k|]; [|done].
  destruct Hp as [(s & Hk & _) _]. apply lookup_lt_Some in Hk.
  rewrite !go_store_in_range by lia. done.
Qed.

(** ** Every request *)

(** A report is of a task there is. *)
Definition in_range (args : RequestTaskArgs) (c : Coordinator) : Prop :=
  A_RequestType args = Put →
  0 ≤ A_TaskInd args < if decide (A_TaskType args = Map) then nMap c else nReduce c.

(** What a request may do to the state: tasks that are finished stay
    finished, and nothing but status, hand-out times and [isDone] changes. *)
Record mr_step (c c' : Coordinator) : Prop := mkMrStep {
  ms_files : files c' = files c;
  ms_nMap : nMap c' = nMap c;
  ms_nReduce : nReduce c' = nReduce c;
  ms_map : ∀ i, mapStatus c !! i = Some Finished → mapStatus c' !! i = Some Finished;
  ms_reduce : ∀ i, reduceStatus c !! i = Some Finished → reduceStatus c' !! i = Some Finished;
  ms_done : isDone c = true → isDone c' = true;
}.

#[export] Instance mr_step_preorder : PreOrder mr_step.
Proof.
  split; [done|]. intros a b c [] []. split; try congruence; eauto.
Qed.

Lemma mr_step_alldone c c' :
  mr_step c c' → length (mapStatus c') = length (mapStatus c) →
  length (reduceStatus c') = length (reduceStatus c) → allDone c = true → allDone c' = true.
Proof.
  unfold allDone, allMapDone, allReduceDone. rewrite !andb_true_iff, !allFinished_lookup.
  intros [_ _ _ Hm Hr _] Lm Lr [Am Ar]. split; intros i s Hs.
  - destruct (lookup_lt_is_Some_2 (mapStatus c) i) as [t Ht].
    { rewrite <- Lm. by eapply lookup_lt_Some. }
    pose proof (Am _ _ Ht); subst. apply Hm in Ht. congruence.
  - destruct (lookup_lt_is_Some_2 (reduceStatus c) i) as [t Ht].
    { rewrite <- Lr. by eapply lookup_lt_Some. }
    pose proof (Ar _ _ Ht); subst. apply Hr in Ht. congruence.
Qed.

Lemma insert_keeps_finished (l : list TaskStatus) k x i :
  (x = Finished ∨ ∃ s, l !! k = Some s ∧ s ≠ Finished) →
  l !! i = Some Finished → <[k := x]> l !! i = Some Finished.
Proof.
  intros Hx Hi. destruct (decide (k = i)) as [->|Hne]; [|by rewrite list_lookup_insert_ne].
  rewrite list_lookup_insert_eq by (by eapply lookup_lt_Some).
  destruct Hx as [->|(s & Hs & Hn)]; [done|]. congruence.
Qed.

Lemma due_not_finished clock times i s : due clock times i s → s ≠ Finished.
Proof. by intros [->|[-> _]]. Qed.

Ltac mr_wf_solve :=
  match goal with
  | W : mr_wf _ |- mr_wf _ =>
      destruct W; split; mr_simpl; rewrite ?length_insert; try done; try lia
  end.

(** A hand-out keeps the state well formed. *)
Lemma handed_map_ok clock c k :
  mr_wf c → first_due clock (mapHandoutTime c) (mapStatus c) (Some k) →
  let c' := c <| mapHandoutTime := <[k := clock (2 * k + 1)%nat]> (mapHandoutTime c) |>
              <| mapStatus := <[k := OnFly]> (mapStatus c) |> in
  mr_wf c' ∧ mr_step c c'.
Proof.
  intros W [(s & Hk & Hs) _] c'. pose proof (due_not_finished _ _ _ _ Hs) as Hn.
  assert (allDone c = false) as Hnd.
  { unfold allDone, allMapDone. destruct (allFinished (mapStatus c)) eqn:E; [|done].
    rewrite allFinished_lookup in E. by apply E in Hk. }
  subst c'. split; [mr_wf_solve; intros Hd; apply mw_done0 in Hd; congruence|].
  split; mr_simpl; try done. intros i. apply insert_keeps_finished. eauto.
Qed.

Lemma handed_reduce_ok clock c k :
  mr_wf c → first_due clock (reduceHandoutTime c) (reduceStatus c) (Some k) →
  let c' := c <| reduceHandoutTime := <[k := clock (2 * k + 1)%nat]> (reduceHandoutTime c) |>
              <| reduceStatus := <[k := OnFly]> (reduceStatus c) |> in
  mr_wf c' ∧ mr_step c c'.
Proof.
  intros W [(s & Hk & Hs) _] c'. pose proof (due_not_finished _ _ _ _ Hs) as Hn.
  assert (allDone c = false) as Hnd.
  { unfold allDone, allReduceDone. destruct (allFinished (reduceStatus c)) eqn:E; [|by rewrite andb_false_r].
    rewrite allFinished_lookup in E. by apply E in Hk. }
  subst c'. split; [mr_wf_solve; intros Hd; apply mw_done0 in Hd; congruence|].
  split; mr_simpl; try done. intros i. apply insert_keeps_finished. eauto.
Qed.

(** A report. *)
Lemma reported_ok c ms rs :
  mr_wf c →
  (ms = mapStatus c ∨ ∃ k, ms = <[k := Finished]> (mapStatus c)) →
  (rs = reduceStatus c ∨ ∃ k, rs = <[k := Finished]> (reduceStatus c)) →
  let c' := c <| mapStatus := ms |> <| reduceStatus := rs |> in
  mr_wf c' ∧ mr_step c c'.
Proof.
  intros W Hms Hrs c'.
  assert (mr_step c c') as Hst.
  { split; try done; intros i; subst c'; mr_simpl.
    - destruct Hms as [->|[k ->]]; [done|]. apply insert_keeps_finished. by left.
    - destruct Hrs as [->|[k ->]]; [done|]. apply insert_keeps_finished. by left. }
  assert (length ms = length (mapStatus c)) as L1
    by (destruct Hms as [->|[k ->]]; [done|by rewrite length_insert]).
  assert (length rs = length (reduceStatus c)) as L2
    by (destruct Hrs as [->|[k ->]]; [done|by rewrite length_insert]).
  split; [|done]. pose proof (mr_step_alldone c c' Hst L1 L2) as Hall.
  destruct W. split; subst c'; mr_simpl; try done; try lia. auto.
Qed.

Lemma done_ok c : mr_wf c → allDone c = true → mr_wf (c <| isDone := true |>) ∧ mr_step c (c <| isDone := true |>).
Proof. intros W Hd. split; [|split; done]. destruct W. split; mr_simpl; done. Qed.

Lemma HandleRequestTask_ok clock args c :
  mr_wf c → in_range args c →
  ∃ c' reply, HandleRequestTask clock args c = Ok (c', reply) ∧ mr_wf c' ∧ mr_step c c'.
Proof.
  intros W Hr. unfold HandleRequestTask. case_decide as HP.
  - specialize (Hr HP). case_decide as HM.
    + assert (0 ≤ A_TaskInd args < zlen (mapStatus c)) as Hi by (destruct W; lia).
      rewrite (proj2 (go_store_Ok _ _ _ _) (conj Hi eq_refl)). cbn [mbind Res_bind].
      eexists _, _. split; [done|].
      pose proof (reported_ok c _ (reduceStatus c) W (or_intror (ex_intro _ (Z.to_nat (A_TaskInd args)) eq_refl)) (or_introl eq_refl)) as HH.
      by destruct c.
    + assert (0 ≤ A_TaskInd args < zlen (reduceStatus c)) as Hi by (destruct W; lia).
      rewrite (proj2 (go_store_Ok _ _ _ _) (conj Hi eq_refl)). cbn [mbind Res_bind].
      eexists _, _. split; [done|].
      pose proof (reported_ok c (mapStatus c) _ W (or_introl eq_refl) (or_intror (ex_intro _ (Z.to_nat (A_TaskInd args)) eq_refl)))
        as [W1 S1].
      set (c1 := c <| reduceStatus := _ |>). change (c <| mapStatus := mapStatus c |> <| reduceStatus := _ |>)
        with c1 in W1, S1.
      destruct (allDone c1) eqn:Hd; [|done].
      destruct (done_ok c1 W1 Hd) as [W2 S2]. split; [done|]. by etrans.
  - destruct (allMapDone c && allReduceDone c) eqn:Hd.
    { eexists _, _. split; [done|]. by apply done_ok. }
    destruct (allMapDone c) eqn:Hm; cbn [negb andb] in *.
    + rewrite Hd. cbn [negb].
      destruct (handOutReduce_eq clock c (mkReply Reduce 0 "" (nReduce c) (nMap c)) W) as (p & Hp & ->).
      destruct p as [k|]; eexists _, _; (split; [done|]); [|done]. by eapply handed_reduce_ok.
    + destruct (handOutMap_eq clock c (mkReply Map 0 "" (nReduce c) 0) W) as (p & Hp & ->).
      destruct p as [k|]; eexists _, _; (split; [done|]); [|done]. by eapply handed_map_ok.
Qed.

Lemma first_due_unfinished clock times l k :
  first_due clock times l (Some k) → ∃ s, l !! k = Some s ∧ s ≠ Finished.
Proof. intros [(s & Hk & Hs) _]. exists s. split; [done|]. by eapply due_not_finished. Qed.

Lemma first_due_some clock times l p :
  length times = length l → allFinished l = false →
  (∀ i t, times !! i = Some t → t < clock (2 * i)%nat - tenSeconds) →
  first_due clock times l p → is_Some p.
Proof.
  intros Hlen Hnf Hold Hp. destruct p as [k|]; [done|]. exfalso.
  apply not_true_iff_false in Hnf. apply Hnf, allFinished_lookup. intros i s Hi.
  destruct s; [destruct (Hp i InStore Hi); by left| |done].
  destruct (lookup_lt_is_Some_2 times i) as [t Ht]; [rewrite Hlen; by eapply lookup_lt_Some|].
  destruct (Hp i OnFly Hi). right. eauto.
Qed.

(** What a request for a task is answered, and what is recorded. *)
Definition answered (clock : nat → Z) (c c' : Coordinator) (reply : RequestTaskReply) : Prop :=
  if allDone c then c' = c <| isDone := true |> ∧ reply = mkReply Done 0 "" 0 0
  else if allMapDone c then
    ∃ p, first_due clock (reduceHandoutTime c) (reduceStatus c) p ∧
      match p with
      | Some k =>
          c' = c <| reduceHandoutTime := <[k := clock (2 * k + 1)%nat]> (reduceHandoutTime c) |>
                 <| reduceStatus := <[k := OnFly]> (reduceStatus c) |> ∧
          reply = mkReply Reduce (Z.of_nat k) "" (nReduce c) (nMap c)
      | None => c' = c ∧ reply = mkReply Wait 0 "" (nReduce c) (nMap c)
      end
  else
    ∃ p, first_due clock (mapHandoutTime c) (mapStatus c) p ∧
      match p with
      | Some k =>
          c' = c <| mapHandoutTime := <[k := clock (2 * k + 1)%nat]> (mapHandoutTime c) |>
                 <| mapStatus := <[k := OnFly]> (mapStatus c) |> ∧
          reply = mkReply Map (Z.of_nat k) (default "" (files c !! k)) (nReduce c) 0
      | None => c' = c ∧ reply = mkReply Wait 0 "" (nReduce c) 0
      end.

Lemma Get_answered clock args c :
  mr_wf c → A_RequestType args = Get →
  ∃ c' reply, HandleRequestTask clock args c = Ok (c', reply) ∧ answered clock c c' reply.
Proof.
  intros W HG. unfold HandleRequestTask, answered. rewrite HG, decide_False by done.
  change (allMapDone c && allReduceDone c) with (allDone c).
  destruct (allDone c) eqn:Hd; [by eexists _, _|].
  destruct (allMapDone c) eqn:Hm; cbn [negb].
  - assert (allReduceDone c = false) as Hr by (unfold allDone in Hd; by rewrite Hm in Hd).
    rewrite Hr. cbn [negb].
    destruct (handOutReduce_eq clock c (mkReply Reduce 0 "" (nReduce c) (nMap c)) W) as (p & Hp & ->).
    destruct p as [k|]; eexists _, _; (split; [done|]); eexists; by split; [exact Hp|].
  - destruct (handOutMap_eq clock c (mkReply Map 0 "" (nReduce c) 0) W) as (p & Hp & ->).
    destruct p as [k|]; eexists _, _; (split; [done|]); eexists; by split; [exact Hp|].
Qed.

(** What the coordinator answers to a worker that asks for a task, on
    every branch.  When all tasks are finished it answers Done and is done; as
    long as a map task is not finished it hands out the first map task that is
    in store or was handed out more than ten seconds ago, with its file, and
    no reduce task; then the first such reduce task; when no task is due it
    answers Wait and changes nothing.  It never panics. *)
Theorem coordinator_answers clock args c :
  mr_wf c → A_RequestType args = Get →
  ∃ c' reply, HandleRequestTask clock args c = Ok (c', reply) ∧ answered clock c c' reply.
Proof. apply Get_answered. Qed.

(** C33: the state of the coordinator stays well formed under every request
    that names a task there is: as many status entries and hand-out times as
    tasks, done only when every task is finished; and a task that is finished
    stays finished. *)
Theorem coordinator_well_formed clock args c :
  mr_wf c → in_range args c →
  ∃ c' reply, HandleRequestTask clock args c = Ok (c', reply) ∧ mr_wf c' ∧ mr_step c c'.
Proof. apply HandleRequestTask_ok. Qed.

(** No task is lost.  When some task is not finished and everything handed
    out was handed out more than ten seconds ago, a worker that asks is given
    a task that is not finished. *)
Theorem overdue_task_handed_out clock args c :
  mr_wf c → A_RequestType args = Get → allDone c = false →
  (∀ i t, mapHandoutTime c !! i = Some t → t < clock (2 * i)%nat - tenSeconds) →
  (∀ i t, reduceHandoutTime c !! i = Some t → t < clock (2 * i)%nat - tenSeconds) →
  ∃ c' reply s, HandleRequestTask clock args c = Ok (c', reply) ∧ s ≠ Finished ∧
    ((Type_ reply = Map ∧ mapStatus c !! Z.to_nat (TaskInd reply) = Some s) ∨
     (Type_ reply = Reduce ∧ allMapDone c = true ∧
      reduceStatus c !! Z.to_nat (TaskInd reply) = Some s)).
Proof.
  intros W HG Hd Hm Hr. destruct (Get_answered clock args c W HG) as (c' & reply & Heq & Ha).
  unfold answered in Ha. rewrite Hd in Ha. destruct (allMapDone c) eqn:Em.
  - destruct Ha as (p & Hp & Ha).
    assert (allReduceDone c = false) as Hnr by (unfold allDone in Hd; by rewrite Em in Hd).
    destruct (first_due_some _ _ _ _ (mw_reduceTime _ W) Hnr Hr Hp) as [k ->].
    destruct Ha as [_ Hrep]. destruct (first_due_unfinished _ _ _ _ Hp) as (s & Hk & Hs).
    exists c', reply, s. split_and!; [done..|]. right. rewrite Hrep. mr_simpl. by rewrite Nat2Z.id.
  - destruct Ha as (p & Hp & Ha).
    assert (length (mapHandoutTime c) = length (mapStatus c)) as Hlen by (destruct W; lia).
    destruct (first_due_some _ _ _ _ Hlen Em Hm Hp) as [k ->].
    destruct Ha as [_ Hrep]. destruct (first_due_unfinished _ _ _ _ Hp) as (s & Hk & Hs).
    exists c', reply, s. split_and!; [done..|]. left. rewrite Hrep. mr_simpl. by rewrite Nat2Z.id.
Qed.

Lemma MakeCoordinator_wf fs n :
  0 ≤ n → ∃ c, MakeCoordinator fs n = Ok c ∧ mr_wf c ∧ files c = fs ∧ nReduce c = n ∧ nMap c = zlen fs ∧
    (∀ i s, mapStatus c !! i = Some s → s = InStore) ∧
    (∀ i s, reduceStatus c !! i = Some s → s = InStore) ∧ isDone c = false.
Proof.
  intros Hn. unfold MakeCoordinator. rewrite decide_False by lia. eexists. split; [done|]. split.
  { split; mr_simpl; rewrite ?length_replicate; try done; lia. }
  mr_simpl. split_and!; try done; intros i s [-> _]%lookup_replicate; done.
Qed.

(** ** Witnesses *)

(** Two files, one map task handed out at time 5, one reduce task. *)
Definition sampleCoordinator : Coordinator :=
  mkCoordinator ["a"; "b"] 2 [5; 0] [OnFly; Finished] 1 [0] [InStore] false.

Lemma sampleCoordinator_wf : mr_wf sampleCoordinator.
Proof. split; try reflexivity; discriminate. Qed.

Definition getArgs : RequestTaskArgs := mkArgs Get Map 0.

Lemma coordinator_answers_witness :
  ∃ c', HandleRequestTask (λ _, 6) getArgs sampleCoordinator = Ok (c', mkReply Wait 0 "" 1 0) ∧
    c' = sampleCoordinator.
Proof.
  destruct (coordinator_answers (λ _, 6) getArgs sampleCoordinator sampleCoordinator_wf eq_refl)
    as (c' & reply & H1 & p & Hp & H2).
  destruct p as [[|[|k]]|].
  - destruct Hp as [(s & [= <-] & [[=]|(_ & t & [= <-] & Ht)]) _]. vm_compute in Ht. discriminate Ht.
  - destruct Hp as [(s & [= <-] & [[=]|([=] & _)]) _].
  - destruct Hp as [(s & [=] & _) _].
  - destruct H2 as [H3 ->]. exists c'. exact (conj H1 H3).
Defined.

Lemma coordinator_well_formed_witness :
  ∃ c' reply, HandleRequestTask (λ _, 6) (mkArgs Put Reduce 0) sampleCoordinator = Ok (c', reply) ∧
    mr_wf c'.
Proof.
  destruct (coordinator_well_formed (λ _, 6) (mkArgs Put Reduce 0) sampleCoordinator
              sampleCoordinator_wf) as (c' & reply & H1 & H2 & _).
  - intros _. rewrite decide_False by discriminate. cbn. lia.
  - exists c', reply. exact (conj H1 H2).
Defined.

Lemma overdue_task_handed_out_witness :
  ∃ c' reply s, HandleRequestTask (λ _, 20 * 10 ^ 9) getArgs sampleCoordinator = Ok (c', reply) ∧
    s ≠ Finished ∧
    ((Type_ reply = Map ∧ mapStatus sampleCoordinator !! Z.to_nat (TaskInd reply) = Some s) ∨
     (Type_ reply = Reduce ∧ allMapDone sampleCoordinator = true ∧
      reduceStatus sampleCoordinator !! Z.to_nat (TaskInd reply) = Some s)).
Proof.
  apply (overdue_task_handed_out (λ _, 20 * 10 ^ 9) getArgs sampleCoordinator sampleCoordinator_wf).
  - reflexivity.
  - reflexivity.
  - intros [|[|i]] t Ht; [injection Ht as <-; reflexivity..|discriminate Ht].
  - intros [|i] t Ht; [injection Ht as <-; reflexivity|discriminate Ht].
Defined.
