(* ===== verification/MrWorker.v ===== *)
(** * The MapReduce worker (code/src/mr/worker.go) and the sequential program
    (code/src/main/mrsequential.go)

    [DoMap] splits what the application's map function makes of an input file
    into one intermediate file per reduce task, by a hash of the key; [DoReduce]
    reads the intermediate files of one reduce task, sorts the pairs by key and
    calls the application's reduce function on each run of equal keys.
    [sequential] is the one-process program the repository's tests compare the
    result with.

    The file system is a map from names to contents.  A temporary file is its
    contents until it is renamed ([TempFile] makes names of its own).  Of the
    errors of the file system only a missing file is modelled; the others end
    the process too.  encoding/json and sort enter as classes, with what the
    code relies on as their laws and one instance each; the application's two
    functions are variables. *)

From Stdlib Require Import Ascii.
From stdpp Require Import pretty.
From S2P Require Import Prelude.
Open Scope Z_scope.

Record KeyValue := mkKV { Key : string; Value : string }.

#[export] Instance KeyValue_eq_dec : EqDecision KeyValue.
Proof. solve_decision. Defined.

(** ** The hash of a key *)

(** hash/fnv, [New32a]. *)
Definition byte (c : Ascii.ascii) : Z := Z.of_N (Ascii.N_of_ascii c).

Fixpoint fnv32a (h : Z) (s : string) : Z :=
  match s with
  | "" => h
  | String c s => fnv32a ((Z.lxor h (byte c) * 16777619) mod 2 ^ 32) s
  end%string.

Definition ihash (key : string) : Z := Z.land (fnv32a 2166136261 key) 0x7fffffff.

Example ihash_a : ihash "a" = Z.land 0xe40c292c 0x7fffffff.
Proof. reflexivity. Qed.

Lemma ihash_range key : 0 ≤ ihash key < 2 ^ 31.
Proof.
  unfold ihash. change 0x7fffffff with (Z.ones 31). rewrite Z.land_ones by lia.
  apply Z.mod_pos_bound. lia.
Qed.

(** The reduce task of a key. *)
Definition bucket (nReduce : Z) (kv : KeyValue) : Z := Z.rem (ihash (Key kv)) nReduce.

Lemma bucket_range n kv : 0 < n → 0 ≤ bucket n kv < n.
Proof. intros Hn. apply Z.rem_bound_pos; [|done]. apply ihash_range. Qed.

(** One entry per task. *)
Lemma per_task_lookup {A} (f : Z → A) (n : Z) (i : nat) :
  (f <$> seqZ 0 n) !! i = if decide (i < Z.to_nat n)%nat then Some (f (Z.of_nat i)) else None.
Proof.
  rewrite list_lookup_fmap. case_decide as Hi.
  - by rewrite lookup_seqZ_lt by lia.
  - by rewrite lookup_seqZ_ge by lia.
Qed.

(** ** What is used of encoding/json and sort *)

(** [json_encode] is what an [Encoder] writes for a pair, [json_stream] the
    pairs a [Decoder] returns before its first error.  A pair comes back when
    its strings are valid ([json_ok]: for encoding/json, valid UTF-8). *)
Class JsonCodec := {
  json_encode : KeyValue → string;
  json_stream : string → list KeyValue;
  json_ok : KeyValue → Prop;
  json_roundtrip : ∀ l, Forall json_ok l →
    json_stream (foldr String.append "" (json_encode <$> l)) = l;
}.

(** The order [ByKey.Less] sorts by. *)
Definition key_le (a b : KeyValue) : Prop := String.le (Key a) (Key b).

#[export] Instance key_le_dec a b : Decision (key_le a b).
Proof. unfold key_le. apply _. Defined.
#[export] Instance key_le_trans : Transitive key_le.
Proof. intros a b c. unfold key_le. apply (transitivity (R := String.le)). Qed.
#[export] Instance key_le_total : Total key_le.
Proof. intros a b. unfold key_le. apply (total String.le). Qed.

(** [sort.Sort] does not keep the order of pairs with the same key. *)
Class SortByKey := {
  sort_by_key : list KeyValue → list KeyValue;
  sort_perm : ∀ l, sort_by_key l ≡ₚ l;
  sort_sorted : ∀ l, StronglySorted key_le (sort_by_key l);
}.

#[export] Instance merge_sort_by_key : SortByKey := {|
  sort_by_key := merge_sort key_le;
  sort_perm := merge_sort_Permutation key_le;
  sort_sorted := StronglySorted_merge_sort key_le;
|}.

(** ** File names *)

Definition GetIntermediateFileName (mapInd reduceInd : Z) : string :=
  "mr-" +:+ pretty mapInd +:+ "-" +:+ pretty reduceInd.

Definition GetOutputFileName (reduceInd : Z) : string := "mr-out-" +:+ pretty reduceInd.

(** Strings of decimal digits. *)
Fixpoint digits (s : string) : Prop :=
  match s with
  | "" => True
  | String c s => (∃ x, c = pretty_N_char x) ∧ digits s
  end%string.

Lemma pretty_N_char_plain x : pretty_N_char x ≠ "-"%char ∧ pretty_N_char x ≠ "o"%char.
Proof. unfold pretty_N_char. split; by repeat case_match. Qed.

Lemma digits_go x s : digits s → digits (pretty_N_go x s).
Proof.
  revert s. induction (N.lt_wf_0 x) as [x _ IH]; intros s Hs.
  destruct (decide (x = 0)%N) as [->|Hx]; [by rewrite pretty_N_go_0|].
  rewrite pretty_N_go_step by lia. apply IH; [apply N.div_lt; lia|]. split; [by eexists|done].
Qed.

Lemma pretty_digits (z : Z) : 0 ≤ z → digits (pretty z).
Proof.
  intros Hz. destruct z as [|p|p]; [| |lia]; cbn.
  - split; [by exists 0%N|done].
  - unfold pretty, pretty_positive, pretty, pretty_N. case_decide; [done|]. by apply digits_go.
Qed.

Lemma digits_head c s : digits (String c s) → c ≠ "-"%char ∧ c ≠ "o"%char.
Proof. intros [[x ->] _]. apply pretty_N_char_plain. Qed.

Lemma split_dash a b x y :
  digits a → digits b → a +:+ String "-" x = b +:+ String "-" y → a = b ∧ x = y.
Proof.
  revert b. induction a as [|c a IH]; intros [|d b] Ha Hb Heq; cbn [String.append] in Heq.
  - by simplify_eq.
  - destruct (digits_head _ _ Hb). by simplify_eq.
  - destruct (digits_head _ _ Ha). by simplify_eq.
  - destruct Ha as [_ Ha], Hb as [_ Hb]. injection Heq as -> Heq.
    by destruct (IH b Ha Hb Heq) as [-> ->].
Qed.

Lemma intermediate_inj m r m' r' :
  0 ≤ m → 0 ≤ r → 0 ≤ m' → 0 ≤ r' →
  GetIntermediateFileName m r = GetIntermediateFileName m' r' → m = m' ∧ r = r'.
Proof.
  intros Hm Hr Hm' Hr' Heq. unfold GetIntermediateFileName in Heq. cbn [String.append] in Heq.
  injection Heq as Heq. apply split_dash in Heq as [H1 H2]; [|by apply pretty_digits..].
  split; by apply (inj pretty).
Qed.

Lemma output_inj r r' : GetOutputFileName r = GetOutputFileName r' → r = r'.
Proof. intros Heq. unfold GetOutputFileName in Heq. cbn [String.append] in Heq. injection Heq as Heq. by apply (inj pretty). Qed.

Lemma intermediate_output m r r' :
  0 ≤ m → GetIntermediateFileName m r ≠ GetOutputFileName r'.
Proof.
  intros Hm Heq. unfold GetIntermediateFileName, GetOutputFileName in Heq. cbn [String.append] in Heq.
  injection Heq as Heq. pose proof (pretty_digits m Hm) as Hd.
  destruct (pretty m) as [|c s]; cbn [String.append] in Heq; [done|]. injection Heq as -> _.
  by destruct (digits_head _ _ Hd).
Qed.

(** An input file is not one the job writes. *)
Definition input_name (f : string) : Prop := String.prefix "mr-" f = false.

Lemma input_intermediate f m r : input_name f → f ≠ GetIntermediateFileName m r.
Proof. intros Hf ->. unfold input_name, GetIntermediateFileName in Hf. cbn in Hf. by destruct (pretty m). Qed.

Lemma input_output f r : input_name f → f ≠ GetOutputFileName r.
Proof. intros Hf ->. unfold input_name, GetOutputFileName in Hf. cbn in Hf. by destruct (pretty r). Qed.

(** ** The operations *)

Abbreviation fsys := (gmap string string).

(** Strings one after the other. *)
Definition cat : list string → string := foldr String.append "".

Lemma cat_app a b : cat (a ++ b) = cat a +:+ cat b.
Proof. induction a as [|x a IH]; [done|]. cbn [cat foldr app]. fold cat. by rewrite IH, append_assoc. Qed.

Section worker.
Context `{JsonCodec} `{SortByKey}.
Context (mapf : string → string → list KeyValue).
Context (reducef : string → list string → string).

(** Encode one pair to the temporary file of its reduce task. *)
Definition encodeKV (nReduce : Z) (tmpFiles : list string) (kv : KeyValue) : Res (list string) :=
  if decide (nReduce = 0) then Panic "integer divide by zero"
  else
    let reduceInd := bucket nReduce kv in
    s ← go_index tmpFiles reduceInd;
    go_store tmpFiles reduceInd (s +:+ json_encode kv).

(** [DoMap] up to its renames: the names and contents of the files. *)
Definition DoMapFiles (fs : fsys) (taskInd : Z) (fileName : string) (nReduce : Z)
    : Res (list (string * string)) :=
  match fs !! fileName with
  | None => Fatal "In worker.go, cannot open file"
  | Some content =>
      let kva := mapf fileName content in
      if decide (nReduce < 0) then Panic "makeslice: len out of range"
      else
        tmpFiles ← go_for (encodeKV nReduce) (replicate (Z.to_nat nReduce) "") kva;
        Ok (zip (GetIntermediateFileName taskInd <$> seqZ 0 nReduce) tmpFiles)
  end.

Definition rename (fs : fsys) (nc : string * string) : fsys := <[nc.1 := nc.2]> fs.

Definition DoMap (fs : fsys) (taskInd : Z) (fileName : string) (nReduce : Z) : Res fsys :=
  new ← DoMapFiles fs taskInd fileName nReduce;
  Ok (foldl rename fs new).

(** Open and decode the intermediate file of map task [i]. *)
Definition readIntermediate (fs : fsys) (taskInd : Z) (kva : list KeyValue) (i : Z)
    : Res (list KeyValue) :=
  match fs !! GetIntermediateFileName i taskInd with
  | None => Fatal "In worker.go, cannot open intermediate file"
  | Some s => Ok (kva ++ json_stream s)
  end.

(** [for j < len(kva) && kva[j].Key == kva[i].Key { j++ }] *)
Fixpoint scanKey (fuel : nat) (kva : list KeyValue) (i j : nat) : nat :=
  match fuel with
  | O => j
  | S fuel =>
      match kva !! j, kva !! i with
      | Some a, Some b => if decide (Key a = Key b) then scanKey fuel kva i (S j) else j
      | _, _ => j
      end
  end.

(** ["%v %v\n"] *)
Definition line (key output : string) : string :=
  key +:+ " " +:+ output +:+ String "010" "".

(** The loop over the sorted pairs. *)
Fixpoint reduceLoop (fuel : nat) (kva : list KeyValue) (i : nat) (out : string) : string :=
  match fuel with
  | O => out
  | S fuel =>
      match kva !! i with
      | None => out
      | Some kv =>
          let j := scanKey (length kva) kva i (S i) in
          let values := Value <$> take (j - i) (drop i kva) in
          let output := reducef (Key kv) values in
          reduceLoop fuel kva j (out +:+ line (Key kv) output)
      end
  end.

(** What is written for the pairs of one reduce task. *)
Definition reduceFile (kva : list KeyValue) : string :=
  let kva := sort_by_key kva in
  reduceLoop (length kva) kva 0 "".

Definition DoReduce (fs : fsys) (taskInd nMap : Z) : Res fsys :=
  kva ← go_for (readIntermediate fs taskInd) [] (seqZ 0 nMap);
  Ok (rename fs (GetOutputFileName taskInd, reduceFile kva)).

(** *** mrsequential.go *)

Definition readInput (fs : fsys) (intermediate : list KeyValue) (filename : string)
    : Res (list KeyValue) :=
  match fs !! filename with
  | None => Fatal "cannot open file"
  | Some content => Ok (intermediate ++ mapf filename content)
  end.

Definition sequential (fs : fsys) (inputs : list string) : Res fsys :=
  intermediate ← go_for (readInput fs) [] inputs;
  Ok (<["mr-out-0" := reduceFile intermediate]> fs).

(** ** What [DoMap] writes *)

(** The pairs of reduce task [r] among [kva]. *)
Definition part (nReduce r : Z) (kva : list KeyValue) : list KeyValue :=
  filter (λ kv, bucket nReduce kv = r) kva.

Lemma part_app n r a b : part n r (a ++ b) = part n r a ++ part n r b.
Proof. apply filter_app. Qed.

Definition partFile (nReduce r : Z) (kva : list KeyValue) : string :=
  cat (json_encode <$> part nReduce r kva).

Definition mapOutputs (taskInd nReduce : Z) (kva : list KeyValue) : list (string * string) :=
  (λ r, (GetIntermediateFileName taskInd r, partFile nReduce r kva)) <$> seqZ 0 nReduce.

Lemma lookup_replicate_if {A} n (x : A) i :
  replicate n x !! i = if decide (i < n)%nat then Some x else None.
Proof. case_decide; [by apply lookup_replicate|]. apply lookup_replicate_None. lia. Qed.

Lemma encode_all n kva :
  0 < n →
  go_for (encodeKV n) (replicate (Z.to_nat n) "") kva =
  Ok ((λ r, partFile n r kva) <$> seqZ 0 n).
Proof.
  intros Hn.
  destruct (go_for_inv (λ tmp pre, tmp = (λ r, partFile n r pre) <$> seqZ 0 n)
    (encodeKV n) kva (replicate (Z.to_nat n) "")) as (tmp & -> & ->); [| |done].
  - apply list_eq. intros i. rewrite per_task_lookup, lookup_replicate_if. by case_decide.
  - intros tmp pre kv post _ ->. unfold encodeKV. rewrite decide_False by lia.
    pose proof (bucket_range n kv Hn) as Hb.
    assert (go_index ((λ r, partFile n r pre) <$> seqZ 0 n) (bucket n kv) =
            Ok (partFile n (bucket n kv) pre)) as ->.
    { apply go_index_Ok. split; [lia|]. rewrite per_task_lookup, decide_True by lia.
      by rewrite Z2Nat.id by lia. }
    cbn [mbind Res_bind]. eexists. split.
    { apply go_store_Ok. split; [|done]. rewrite length_fmap, length_seqZ. lia. }
    apply list_eq. intros i. rewrite list_lookup_insert, !per_task_lookup, length_fmap, length_seqZ.
    unfold partFile. rewrite part_app, fmap_app, cat_app. unfold part at 4. rewrite filter_cons, filter_nil.
    repeat case_decide; cbn; rewrite ?append_nil_r; try done; try lia.
    by replace (Z.of_nat i) with (bucket n kv) by lia.
Qed.

Lemma DoMapFiles_eq fs taskInd f content n :
  0 < n → fs !! f = Some content →
  DoMapFiles fs taskInd f n = Ok (mapOutputs taskInd n (mapf f content)).
Proof.
  intros Hn Hf. unfold DoMapFiles. rewrite Hf, decide_False by lia.
  rewrite encode_all by done. cbn. f_equal. unfold mapOutputs.
  generalize (seqZ 0 n) as l. induction l as [|r l IH]; cbn; [done|by rewrite IH].
Qed.

End worker.

(** ** What [DoReduce] writes

    The reference: the runs of equal keys, each with its values. *)
Fixpoint groups (l : list KeyValue) : list (string * list string) :=
  match l with
  | [] => []
  | kv :: l =>
      match groups l with
      | (k, vs) :: g =>
          if decide (k = Key kv) then (k, Value kv :: vs) :: g
          else (Key kv, [Value kv]) :: (k, vs) :: g
      | [] => [(Key kv, [Value kv])]
      end
  end.

Lemma groups_cons kv l :
  groups (kv :: l) =
  match groups l with
  | (k, vs) :: g =>
      if decide (k = Key kv) then (k, Value kv :: vs) :: g
      else (Key kv, [Value kv]) :: (k, vs) :: g
  | [] => [(Key kv, [Value kv])]
  end.
Proof. reflexivity. Qed.

(** How many pairs at the front of [l] have key [k]. *)
Fixpoint runLength (k : string) (l : list KeyValue) : nat :=
  match l with
  | [] => 0
  | kv :: l => if decide (Key kv = k) then S (runLength k l) else 0
  end%nat.

Lemma groups_run kv l :
  groups (kv :: l) =
  (Key kv, Value <$> kv :: take (runLength (Key kv) l) l) :: groups (drop (runLength (Key kv) l) l).
Proof.
  revert kv. induction l as [|kv' l IH]; intros kv; [done|].
  cbn [groups] in *. specialize (IH kv'). cbn [runLength]. rewrite IH at 1.
  case_decide as Hk; [|cbn; by rewrite IH].
  by rewrite Hk.
Qed.

Lemma scanKey_run fuel kva i kv j :
  kva !! i = Some kv → (length kva ≤ fuel + j)%nat →
  scanKey fuel kva i j = (j + runLength (Key kv) (drop j kva))%nat.
Proof.
  intros Hi. revert j. induction fuel as [|fuel IH]; intros j Hf; cbn [scanKey].
  { rewrite drop_ge by lia. cbn. lia. }
  destruct (kva !! j) as [kv'|] eqn:Hj.
  - rewrite Hi, (drop_S _ _ _ Hj). cbn [runLength]. case_decide as Hk.
    + rewrite IH by lia. lia.
    + lia.
  - rewrite drop_ge by (by apply lookup_ge_None). cbn. lia.
Qed.

(** On pairs sorted by key every key has one group, of all its values. *)
Definition values (k : string) (l : list KeyValue) : list string :=
  Value <$> filter (λ kv, Key kv = k) l.

Lemma values_none k l : k ∉ Key <$> l → values k l = [].
Proof.
  unfold values. induction l as [|kv l IH]; [done|]. intros [Hne Hl]%not_elem_of_cons.
  rewrite filter_cons_False by congruence. by apply IH.
Qed.

Lemma groups_keys l k : k ∈ (groups l).*1 ↔ k ∈ Key <$> l.
Proof.
  induction l as [|kv l IH]; cbn [groups]; [done|]. rewrite fmap_cons, elem_of_cons, <- IH.
  destruct (groups l) as [|[k' vs] g]; cbn; [set_solver|].
  case_decide; subst; cbn; set_solver.
Qed.

Lemma groups_sorted l :
  StronglySorted key_le l →
  NoDup (groups l).*1 ∧ Forall (λ g, g.2 = values g.1 l) (groups l).
Proof.
  induction 1 as [|kv l Hs IH Hle]; [split; constructor|].
  destruct IH as [Hnd Hall]. pose proof (groups_keys l) as Hkeys. rewrite Forall_forall in Hall.
  assert (∀ g, g ∈ groups l → g.1 ≠ Key kv → g.2 = values g.1 (kv :: l)) as Hother.
  { intros g Hg Hne. rewrite (Hall g Hg). unfold values. by rewrite filter_cons_False. }
  assert (values (Key kv) (kv :: l) = Value kv :: values (Key kv) l) as Hhere.
  { unfold values. by rewrite filter_cons_True. }
  destruct l as [|kv' l].
  { split; [apply NoDup_singleton|]. constructor; [symmetry; exact Hhere|constructor]. }
  assert (Key kv ∈ Key <$> kv' :: l → Key kv' = Key kv) as Hmin.
  { intros (kv2 & Heq & Hin)%list_elem_of_fmap. apply (anti_symm String.le).
    - rewrite Heq. apply elem_of_cons in Hin as [->|Hin]; [apply (reflexivity (R := String.le))|].
      apply StronglySorted_inv in Hs as [_ Hs]. rewrite Forall_forall in Hs. by apply Hs.
    - apply Forall_cons in Hle as [Hle _]. exact Hle. }
  rewrite (groups_cons kv), groups_run in *. set (n := runLength _ _) in *.
  set (g := groups (drop n l)) in *. apply NoDup_cons in Hnd as [Hk Hnd].
  case_decide as Hkk.
  - split; [by constructor|]. constructor.
    + cbn [fst snd]. rewrite Hkk, Hhere. f_equal. rewrite <- Hkk. by apply (Hall (_, _)), list_elem_of_here.
    + apply Forall_forall. intros g' Hg'. apply Hother; [by right|].
      intros Heq. apply Hk. cbn. rewrite Hkk, <- Heq. by apply list_elem_of_fmap_2.
  - assert (Key kv ∉ Key <$> kv' :: l) as Hnew by naive_solver.
    split; [constructor; [by rewrite Hkeys|by constructor]|]. constructor; [|apply Forall_forall].
    + cbn [fst snd]. by rewrite Hhere, values_none.
    + intros g' Hg'. apply Hother; [done|]. intros Heq. apply Hnew, Hkeys.
      rewrite <- Heq. by apply list_elem_of_fmap_2.
Qed.

Lemma groups_increasing l :
  StronglySorted key_le l → StronglySorted (λ g g', String.le g.1 g'.1 ∧ g.1 ≠ g'.1) (groups l).
Proof.
  intros Hs. pose proof (groups_sorted l Hs) as [Hnd _]. revert Hnd.
  induction Hs as [|kv l Hs IH Hle]; [constructor|].
  assert (∀ g, g ∈ groups l → String.le (Key kv) g.1) as Hmin.
  { intros g Hg. assert (g.1 ∈ Key <$> l) as (kv' & -> & Hin)%list_elem_of_fmap
      by (apply groups_keys; by apply list_elem_of_fmap_2).
    rewrite Forall_forall in Hle. by apply Hle. }
  rewrite groups_cons. destruct (groups l) as [|[k vs] g]; [intros _; constructor; constructor|].
  case_decide as Hk; intros Hnd.
  - subst k. specialize (IH Hnd). apply StronglySorted_inv in IH as [IH Hall].
    constructor; [done|]. exact Hall.
  - pose proof Hnd as [Hn Hnd']%NoDup_cons. specialize (IH Hnd'). constructor; [done|].
    apply Forall_forall. intros g' Hg'. cbn. split; [by apply Hmin|].
    intros Heq. apply Hn. cbn [fst]. rewrite Heq. exact (list_elem_of_fmap_2 fst _ _ Hg').
Qed.

Lemma increasing_keys (gs : list (string * list string)) :
  StronglySorted (λ g g', String.le g.1 g'.1 ∧ g.1 ≠ g'.1) gs → StronglySorted String.le gs.*1.
Proof.
  induction 1 as [|g gs Hs IH Hall]; [constructor|]. constructor; [done|].
  apply Forall_fmap. eapply Forall_impl; [exact Hall|]. by intros g' [? _].
Qed.

(** The pairs of a reduce task hold all values of its keys. *)
Lemma part_key n r all k :
  k ∈ Key <$> part n r all ↔ k ∈ Key <$> all ∧ Z.rem (ihash k) n = r.
Proof.
  rewrite !list_elem_of_fmap. unfold part, bucket. setoid_rewrite list_elem_of_filter. naive_solver.
Qed.

Lemma part_values n r all k :
  Z.rem (ihash k) n = r → values k (part n r all) = values k all.
Proof.
  intros Hr. unfold values, part. f_equal. rewrite list_filter_filter.
  apply list_filter_iff. unfold bucket. intros kv. naive_solver.
Qed.

Section reduce.
Context `{SortByKey}.
Context (reducef : string → list string → string).

Definition render (g : string * list string) : string := line g.1 (reducef g.1 g.2).

(** The lines of the output for the pairs of a task. *)
Definition reduceLines (kva : list KeyValue) : list string := render <$> groups (sort_by_key kva).

Lemma reduceLoop_groups fuel kva i out :
  (length kva ≤ fuel + i)%nat →
  reduceLoop reducef fuel kva i out = out +:+ cat (render <$> groups (drop i kva)).
Proof.
  revert i out. induction fuel as [|fuel IH]; intros i out Hf; cbn [reduceLoop].
  { rewrite drop_ge by lia. cbn. by rewrite append_nil_r. }
  destruct (kva !! i) as [kv|] eqn:Hi.
  - rewrite (scanKey_run _ _ _ kv) by (done || lia).
    rewrite (drop_S _ _ _ Hi), groups_run. set (n := runLength _ _).
    rewrite IH by lia. rewrite drop_drop, <- append_assoc. cbn [fmap list_fmap cat foldr].
    replace (S i + n - i)%nat with (S n) by lia. cbn [take]. done.
  - rewrite drop_ge by (by apply lookup_ge_None). cbn. by rewrite append_nil_r.
Qed.

Lemma reduceFile_lines kva : reduceFile reducef kva = cat (reduceLines kva).
Proof. unfold reduceFile. rewrite reduceLoop_groups by lia. done. Qed.


(** A reduce function that does not depend on the order of the values. *)
Definition order_insensitive : Prop := ∀ k vs vs', vs ≡ₚ vs' → reducef k vs = reducef k vs'.

(** The line of a key, from all pairs. *)
Definition keyLine (all : list KeyValue) (k : string) : string :=
  line k (reducef k (values k all)).

Lemma reduceLines_groups all :
  order_insensitive → reduceLines all = keyLine all <$> (groups (sort_by_key all)).*1.
Proof.
  intros Hins. destruct (groups_sorted _ (sort_sorted all)) as [_ Hall].
  unfold reduceLines. rewrite <- list_fmap_compose.
  apply list_fmap_ext. intros i g Hg. apply list_elem_of_lookup_2 in Hg.
  rewrite Forall_forall in Hall. unfold render, keyLine. cbn. f_equal.
  apply Hins. rewrite (Hall g Hg). unfold values. by rewrite (sort_perm all).
Qed.

Lemma reduceLines_keys all :
  order_insensitive → reduceLines all ≡ₚ keyLine all <$> remove_dups (Key <$> all).
Proof.
  intros Hins. destruct (groups_sorted _ (sort_sorted all)) as [Hnd _].
  rewrite reduceLines_groups by done.
  apply fmap_Permutation, NoDup_Permutation; [done|apply NoDup_remove_dups|].
  intros k. rewrite groups_keys, elem_of_remove_dups. by rewrite (sort_perm all).
Qed.

(** Then the output does not depend on the order of the pairs either. *)
Lemma reduceLines_perm a b : order_insensitive → a ≡ₚ b → reduceLines a = reduceLines b.
Proof.
  intros Hins Hab. rewrite !reduceLines_groups by done.
  destruct (groups_sorted _ (sort_sorted a)) as [Hna _].
  destruct (groups_sorted _ (sort_sorted b)) as [Hnb _].
  assert ((groups (sort_by_key a)).*1 = (groups (sort_by_key b)).*1) as ->.
  { apply (StronglySorted_unique String.le);
      [apply increasing_keys, groups_increasing, sort_sorted..|].
    apply NoDup_Permutation; [done..|]. intros k. rewrite !groups_keys.
    by rewrite (sort_perm a), (sort_perm b), Hab. }
  apply list_fmap_ext. intros i k _. unfold keyLine, values. f_equal. apply Hins. by rewrite Hab.
Qed.

Lemma fmap_of_bind {A B C} (f : B → C) (g : A → list B) (l : list A) :
  f <$> (l ≫= g) = l ≫= λ x, f <$> g x.
Proof. induction l as [|x l IH]; cbn; [done|]. by rewrite fmap_app, IH. Qed.

Lemma partition_lines n all :
  0 < n → order_insensitive →
  (r ← seqZ 0 n; reduceLines (part n r all)) ≡ₚ reduceLines all.
Proof.
  intros Hn Hins. rewrite (reduceLines_keys all) by done.
  trans (r ← seqZ 0 n; keyLine all <$> remove_dups (Key <$> part n r all)).
  - induction (seqZ 0 n) as [|r rs IH]; [done|]. cbn. rewrite IH. f_equiv.
    rewrite reduceLines_keys by done.
    apply reflexive_eq, list_fmap_ext. intros i k Hk%list_elem_of_lookup_2.
    apply elem_of_remove_dups, part_key in Hk as [_ Hk]. unfold keyLine. by rewrite part_values.
  - rewrite <- fmap_of_bind. apply fmap_Permutation, NoDup_Permutation.
    + apply NoDup_bind; [|intros; apply NoDup_remove_dups|apply NoDup_seqZ].
      intros r1 r2 k _ _. rewrite !elem_of_remove_dups, !part_key. intros [_ <-] [_ <-]. done.
    + apply NoDup_remove_dups.
    + intros k. rewrite list_elem_of_bind, elem_of_remove_dups. setoid_rewrite elem_of_remove_dups.
      setoid_rewrite part_key. setoid_rewrite elem_of_seqZ. split; [naive_solver|].
      intros Hk. exists (Z.rem (ihash k) n). split; [done|].
      pose proof (bucket_range n (mkKV k "") Hn) as Hb. unfold bucket in Hb. cbn in Hb. lia.
Qed.

(** [mrsequential.go], when the inputs are there. *)
Lemma sequential_lines mapf fs inputs :
  (∀ f, f ∈ inputs → is_Some (fs !! f)) →
  sequential mapf reducef fs inputs =
  Ok (<["mr-out-0" := cat (reduceLines (f ← inputs; mapf f (default "" (fs !! f))))]> fs).
Proof.
  intros Hin. unfold sequential.
  rewrite (go_for_foldl _ (λ acc f, acc ++ mapf f (default "" (fs !! f)))).
  2:{ intros acc f Hf. unfold readInput. by destruct (Hin f Hf) as [s ->]. }
  cbn [mbind Res_bind]. rewrite reduceFile_lines. do 4 f_equal.
  change (foldl ?g [] ?l = ?r) with (foldl g [] l = [] ++ r).
  generalize (@nil KeyValue) as acc. clear Hin.
  induction inputs as [|f fs' IH]; intros acc; cbn; [by rewrite app_nil_r|].
  by rewrite IH, <- app_assoc.
Qed.

(** The pairs in the intermediate files of a reduce task. *)
Definition intermediates `{JsonCodec} (fs : fsys) (taskInd nMap : Z) : list KeyValue :=
  i ← seqZ 0 nMap; json_stream (default "" (fs !! GetIntermediateFileName i taskInd)).

Lemma read_all `{JsonCodec} fs taskInd nMap :
  (∀ i, 0 ≤ i < nMap → is_Some (fs !! GetIntermediateFileName i taskInd)) →
  go_for (readIntermediate fs taskInd) [] (seqZ 0 nMap) = Ok (intermediates fs taskInd nMap).
Proof.
  intros Hin. unfold intermediates.
  rewrite (go_for_foldl _ (λ acc i, acc ++ json_stream (default "" (fs !! GetIntermediateFileName i taskInd)))).
  2:{ intros acc i Hi%elem_of_seqZ. unfold readIntermediate. by destruct (Hin i) as [s ->]; [lia|]. }
  f_equal. change (foldl ?g [] ?l = ?r) with (foldl g [] l = [] ++ r).
  generalize (@nil KeyValue) as acc. clear Hin.
  induction (seqZ 0 nMap) as [|i l IH]; intros acc; cbn; [by rewrite app_nil_r|].
  by rewrite IH, <- app_assoc.
Qed.

Lemma read_missing `{JsonCodec} fs taskInd nMap :
  (∃ i, 0 ≤ i < nMap ∧ fs !! GetIntermediateFileName i taskInd = None) →
  ∃ why, go_for (readIntermediate fs taskInd) [] (seqZ 0 nMap) = Fatal why.
Proof.
  intros (i & Hi & Hf). assert (i ∈ seqZ 0 nMap) as Hin by (apply elem_of_seqZ; lia).
  clear Hi. generalize (@nil KeyValue) as acc.
  induction (seqZ 0 nMap) as [|j l IH]; intros acc; [by apply not_elem_of_nil in Hin|].
  cbn. destruct (decide (i = j)) as [<-|Hne].
  - assert (∃ why, readIntermediate fs taskInd acc i = Fatal why) as [why ->]; [|by eexists].
    unfold readIntermediate. rewrite Hf. by eexists.
  - apply elem_of_cons in Hin as [?|Hin]; [done|].
    assert (readIntermediate fs taskInd acc j = Fatal "In worker.go, cannot open intermediate file" ∨
            ∃ kva, readIntermediate fs taskInd acc j = Ok kva) as [->|[kva ->]]; [|by eexists|by apply IH].
    unfold readIntermediate. destruct (fs !! GetIntermediateFileName j taskInd); [right; by eexists|by left].
Qed.
End reduce.

(** A reduce task ([DoReduce]), on every branch.  When an intermediate file
    is missing the worker ends with a fatal error and writes nothing.
    Otherwise it writes one file: one line for every distinct key among the
    pairs of its intermediate files, in increasing order of the keys, with the
    application's output for all the values of that key. *)
Theorem DoReduce_by_key `{JsonCodec} `{SortByKey} reducef fs taskInd nMap :
  ((∃ i, 0 ≤ i < nMap ∧ fs !! GetIntermediateFileName i taskInd = None) →
   ∃ why, DoReduce reducef fs taskInd nMap = Fatal why) ∧
  ((∀ i, 0 ≤ i < nMap → is_Some (fs !! GetIntermediateFileName i taskInd)) →
   ∃ gs, DoReduce reducef fs taskInd nMap =
         Ok (<[GetOutputFileName taskInd := cat ((λ g, line g.1 (reducef g.1 g.2)) <$> gs)]> fs) ∧
     StronglySorted (λ g g', String.le g.1 g'.1 ∧ g.1 ≠ g'.1) gs ∧
     (∀ k, k ∈ gs.*1 ↔ k ∈ Key <$> intermediates fs taskInd nMap) ∧
     (∀ k vs, (k, vs) ∈ gs → vs ≡ₚ values k (intermediates fs taskInd nMap))).
Proof.
  unfold DoReduce. split.
  - intros Hm. destruct (read_missing fs taskInd nMap Hm) as [why ->]. by eexists.
  - intros Hin. rewrite read_all by done. set (all := intermediates _ _ _).
    exists (groups (sort_by_key all)). cbn [mbind Res_bind]. rewrite reduceFile_lines.
    destruct (groups_sorted _ (sort_sorted all)) as [Hnd Hall]. rewrite Forall_forall in Hall.
    split_and!; [done|by apply groups_increasing, sort_sorted| |].
    + intros k. rewrite groups_keys. by rewrite (sort_perm all).
    + intros k vs Hk. assert (vs = values k (sort_by_key all)) as -> by exact (Hall (k, vs) Hk). unfold values. by rewrite (sort_perm all).
Qed.
