(* ===== verification/MrJson.v ===== *)
(** * encoding/json on pairs of strings

    A codec for [MrWorker.JsonCodec]: what encoding/json writes for a [KeyValue]
    whose strings are ASCII, and a decoder for that format.  Quotes,
    backslashes and control characters are escaped, and the characters
    [<], [>] and [&] as encoding/json does by default. *)

From Stdlib Require Import Ascii.
From S2P Require Import Prelude.
From S2P Require Import MrWorker.
#[local] Open Scope string_scope.

Definition quote : ascii := "034".
Definition backslash : ascii := "092".

Definition hexDigit (n : nat) : ascii :=
  default "0"%char (String.get n "0123456789abcdef").

Definition hexValue (c : ascii) : nat :=
  let n := nat_of_ascii c in
  if decide (n <= 57)%nat then (n - 48)%nat else (n - 87)%nat.

(** The characters written as they are. *)
Definition plain (c : ascii) : bool :=
  bool_decide (32 <= nat_of_ascii c)%nat &&
  negb (bool_decide (c ∈ [quote; backslash; "<"; ">"; "&"]%char)).

Definition escape (c : ascii) : string :=
  if plain c then String c ""
  else if decide (c = quote ∨ c = backslash) then String backslash (String c "")
  else if decide (c = "010"%char) then String backslash "n"
  else if decide (c = "013"%char) then String backslash "r"
  else if decide (c = "009"%char) then String backslash "t"
  else String backslash ("u00" +:+
    String (hexDigit (nat_of_ascii c / 16)) (String (hexDigit (nat_of_ascii c mod 16)) "")).

Fixpoint escapes (s : string) : string :=
  match s with
  | "" => ""
  | String c s => escape c +:+ escapes s
  end.

Definition consTo (c : ascii) (r : option (string * string)) : option (string * string) :=
  '(a, b) ← r; Some (String c a, b).

(** The string up to the closing quote, and what follows. *)
Fixpoint unquote (s : string) : option (string * string) :=
  match s with
  | "" => None
  | String c s =>
      if decide (c = quote) then Some ("", s)
      else if decide (c = backslash) then
        match s with
        | String d s =>
            if decide (d = "n"%char) then consTo "010"%char (unquote s)
            else if decide (d = "r"%char) then consTo "013"%char (unquote s)
            else if decide (d = "t"%char) then consTo "009"%char (unquote s)
            else if decide (d = "u"%char) then
              match s with
              | String _ (String _ (String a (String b s))) =>
                  consTo (ascii_of_nat (16 * hexValue a + hexValue b)) (unquote s)
              | _ => None
              end
            else consTo d (unquote s)
        | "" => None
        end
      else consTo c (unquote s)
  end.

Definition asciiChar (c : ascii) : Prop := (nat_of_ascii c < 128)%nat.

Fixpoint asciiString (s : string) : Prop :=
  match s with
  | "" => True
  | String c s => asciiChar c ∧ asciiString s
  end.

Lemma unquote_escape c s : asciiChar c → unquote (escape c +:+ s) = consTo c (unquote s).
Proof.
  intros Hc. destruct c as [[] [] [] [] [] [] [] []]; try reflexivity;
    exfalso; unfold asciiChar in Hc; cbv in Hc; lia.
Qed.

Lemma unquote_escapes a s : asciiString a → unquote (escapes a +:+ String quote s) = Some (a, s).
Proof.
  induction a as [|c a IH]; [done|]. intros [Hc Ha]. cbn [escapes].
  rewrite <- append_assoc, unquote_escape by done. by rewrite IH.
Qed.

(** Remove a known beginning. *)
Fixpoint strip (p s : string) : option string :=
  match p, s with
  | "", _ => Some s
  | String c p, String d s => if decide (c = d) then strip p s else None
  | _, _ => None
  end.

Lemma strip_app p s : strip p (p +:+ s) = Some s.
Proof. induction p as [|c p IH]; [done|]. rewrite append_cons. cbn. by rewrite decide_True. Qed.

Definition q (s : string) : string := String quote (s +:+ String quote "").

Definition opening : string := "{" +:+ q "Key" +:+ ":" +:+ String quote "".
Definition middle : string := "," +:+ q "Value" +:+ ":" +:+ String quote "".
Definition closing : string := "}" +:+ String "010" "".

Definition encode (kv : KeyValue) : string :=
  opening +:+ escapes (Key kv) +:+ String quote (middle +:+ escapes (Value kv) +:+ String quote closing).

Definition decode (s : string) : option (KeyValue * string) :=
  s ← strip opening s;
  '(k, s) ← unquote s;
  s ← strip middle s;
  '(v, s) ← unquote s;
  s ← strip closing s;
  Some (mkKV k v, s).

(** Pairs until the first error; each takes up part of the string. *)
Fixpoint decodeAll (fuel : nat) (s : string) : list KeyValue :=
  match fuel with
  | O => []
  | S fuel =>
      match decode s with
      | Some (kv, s) => kv :: decodeAll fuel s
      | None => []
      end
  end.

Definition asciiKV (kv : KeyValue) : Prop := asciiString (Key kv) ∧ asciiString (Value kv).

Lemma decode_encode kv s : asciiKV kv → decode (encode kv +:+ s) = Some (kv, s).
Proof.
  intros [Hk Hv]. unfold decode, encode. rewrite <- !append_assoc, strip_app. cbn [mbind option_bind].
  rewrite append_cons, unquote_escapes by done. cbn [mbind option_bind].
  rewrite <- !append_assoc, strip_app. cbn [mbind option_bind].
  rewrite append_cons, unquote_escapes by done. cbn [mbind option_bind].
  rewrite strip_app. by destruct kv.
Qed.

Lemma decodeAll_encode l fuel :
  Forall asciiKV l → (String.length (cat (encode <$> l)) ≤ fuel)%nat →
  decodeAll fuel (cat (encode <$> l)) = l.
Proof.
  intros Hl. revert fuel. induction Hl as [|kv l Hkv Hl IH]; intros fuel Hf; [by destruct fuel|].
  change (cat (encode <$> kv :: l)) with (encode kv +:+ cat (encode <$> l)) in *.
  rewrite length_app_str in Hf. unfold encode in Hf at 1. rewrite length_app_str in Hf.
  change (String.length opening) with 8%nat in Hf.
  destruct fuel as [|fuel]; [lia|]. cbn [decodeAll]. rewrite decode_encode by done. f_equal. apply IH. lia.
Qed.

#[export] Instance ascii_json : JsonCodec := {|
  json_encode := encode;
  json_stream s := decodeAll (String.length s) s;
  json_ok := asciiKV;
  json_roundtrip l Hl := decodeAll_encode l _ Hl (le_n _);
|}.
