(* ===== verification/MrApps.v ===== *)
(** * The MapReduce applications (code/src/mrapps)

    wc.go counts words, indexer.go lists the files a word occurs in, crash.go,
    nocrash.go and early_exit.go are used to test recovery.  Their map and
    reduce functions are modelled; that crash.go may kill or delay its process
    is a step of the worker ([Kill] in [MrSystem]).  The applications that
    watch the workers are in [MrObservers].

    The tables of [unicode.IsLetter] are a variable. *)

From Stdlib Require Import Ascii.
From stdpp Require Import pretty.
From S2P Require Import Prelude.
From S2P Require Import MrWorker.
Open Scope Z_scope.

(** ** strings.FieldsFunc *)

(** Byte [b] is between [lo] and [hi]. *)
Definition within (lo b hi : Z) : bool := (lo <=? b) && (b <=? hi).

(** utf8.DecodeRuneInString on a string that starts with [c]: the rune, its
    bytes and the rest.  An invalid encoding is one byte, read as U+FFFD. *)
Definition decodeRune (c : ascii) (s : string) : Z * string * string :=
  let b0 := byte c in
  let invalid := (0xFFFD, String c "", s) in
  if b0 <? 0x80 then (b0, String c "", s)
  else
    match s with
    | EmptyString => invalid
    | String c1 s1 =>
        let b1 := byte c1 in
        if within 0xC2 b0 0xDF && within 0x80 b1 0xBF then
          (Z.lor (Z.shiftl (Z.land b0 0x1F) 6) (Z.land b1 0x3F), String c (String c1 ""), s1)
        else
          match s1 with
          | EmptyString => invalid
          | String c2 s2 =>
              let b2 := byte c2 in
              if within 0xE0 b0 0xEF && within 0x80 b2 0xBF &&
                 within (if b0 =? 0xE0 then 0xA0 else 0x80) b1 (if b0 =? 0xED then 0x9F else 0xBF) then
                (Z.lor (Z.shiftl (Z.land b0 0x0F) 12)
                   (Z.lor (Z.shiftl (Z.land b1 0x3F) 6) (Z.land b2 0x3F)),
                 String c (String c1 (String c2 "")), s2)
              else
                match s2 with
                | EmptyString => invalid
                | String c3 s3 =>
                    let b3 := byte c3 in
                    if within 0xF0 b0 0xF4 && within 0x80 b2 0xBF && within 0x80 b3 0xBF &&
                       within (if b0 =? 0xF0 then 0x90 else 0x80) b1 (if b0 =? 0xF4 then 0x8F else 0xBF) then
                      (Z.lor (Z.shiftl (Z.land b0 0x07) 18)
                         (Z.lor (Z.shiftl (Z.land b1 0x3F) 12)
                            (Z.lor (Z.shiftl (Z.land b2 0x3F) 6) (Z.land b3 0x3F))),
                       String c (String c1 (String c2 (String c3 ""))), s3)
                    else invalid
                end
          end
    end.

Definition emit (word : string) : list string :=
  if decide (word = ""%string) then [] else [word].

(** The maximal runs of runes that are not separators; [word] is the run so
    far.  Every step takes at least one byte of [s]. *)
Fixpoint fields (fuel : nat) (sep : Z → bool) (s word : string) : list string :=
  match fuel, s with
  | S fuel, String c s =>
      let '(r, bytes, s) := decodeRune c s in
      if sep r then emit word ++ fields fuel sep s ""
      else fields fuel sep s (word +:+ bytes)
  | _, _ => emit word
  end.

Definition FieldsFunc (s : string) (sep : Z → bool) : list string :=
  fields (String.length s) sep s "".

(** ** sort.Strings and strconv.Itoa *)

Definition Strings (l : list string) : list string := merge_sort String.le l.

Lemma Strings_perm l l' : l ≡ₚ l' → Strings l = Strings l'.
Proof.
  intros Hl. apply (StronglySorted_unique String.le).
  - apply (StronglySorted_merge_sort String.le).
  - apply (StronglySorted_merge_sort String.le).
  - unfold Strings. by rewrite !(merge_sort_Permutation String.le).
Qed.

Definition Itoa (n : nat) : string := pretty (Z.of_nat n).

(** ** The applications *)

Section apps.
Context (isLetter : Z → bool).

Definition wordsOf (contents : string) : list string :=
  FieldsFunc contents (λ r, negb (isLetter r)).

(** wc.go *)
Definition wc_Map (filename contents : string) : list KeyValue :=
  (λ w, mkKV w "1") <$> wordsOf contents.

Definition wc_Reduce (key : string) (vs : list string) : string := Itoa (length vs).

(** indexer.go: the map [m] of the words is iterated in some order. *)
Definition indexer_Map (order : list string → list string) (document value : string)
    : list KeyValue :=
  (λ w, mkKV w document) <$> order (remove_dups (wordsOf value)).

Definition indexer_Reduce (key : string) (vs : list string) : string :=
  Itoa (length vs) +:+ " " +:+ String.concat "," (Strings vs).
End apps.

(** crash.go and nocrash.go *)
Definition crash_Map (filename contents : string) : list KeyValue :=
  [mkKV "a" filename; mkKV "b" (Itoa (String.length filename));
   mkKV "c" (Itoa (String.length contents)); mkKV "d" "xyzzy"].

Definition crash_Reduce (key : string) (vs : list string) : string :=
  String.concat " " (Strings vs).

(** early_exit.go *)
Definition early_exit_Map (filename contents : string) : list KeyValue := [mkKV filename "1"].

Definition early_exit_Reduce (key : string) (vs : list string) : string := Itoa (length vs).

(** ** The reduce functions do not depend on the order of the values *)

Lemma wc_Reduce_insensitive : order_insensitive wc_Reduce.
Proof. intros k vs vs' Hvs. unfold wc_Reduce. by rewrite Hvs. Qed.

Lemma indexer_Reduce_insensitive : order_insensitive indexer_Reduce.
Proof. intros k vs vs' Hvs. unfold indexer_Reduce. by rewrite (Strings_perm _ _ Hvs), Hvs. Qed.

Lemma crash_Reduce_insensitive : order_insensitive crash_Reduce.
Proof. intros k vs vs' Hvs. unfold crash_Reduce. by rewrite (Strings_perm _ _ Hvs). Qed.

Lemma early_exit_Reduce_insensitive : order_insensitive early_exit_Reduce.
Proof. intros k vs vs' Hvs. unfold early_exit_Reduce. by rewrite Hvs. Qed.

(** The map function of indexer.go gives the same pairs in every order. *)
Lemma indexer_Map_perm isLetter order order' f s :
  (∀ l, order l ≡ₚ l) → (∀ l, order' l ≡ₚ l) →
  indexer_Map isLetter order f s ≡ₚ indexer_Map isLetter order' f s.
Proof. intros Ho Ho'. unfold indexer_Map. by rewrite Ho, Ho'. Qed.

(** How often a word occurs among words. *)
Definition count (w : string) (l : list string) : nat := length (filter (λ x, x = w) l).

(** What word count writes, from the words of all inputs. *)
Lemma wc_lines ws :
  keyLine wc_Reduce ((λ w, mkKV w "1") <$> ws) <$> remove_dups (Key <$> ((λ w, mkKV w "1") <$> ws)) =
  (λ w, line w (Itoa (count w ws))) <$> remove_dups ws.
Proof.
  rewrite <- list_fmap_compose. change (Key ∘ _) with (λ w : string, w). rewrite list_fmap_id.
  apply list_fmap_ext. intros i w _. unfold keyLine, wc_Reduce, count, values. do 2 f_equal.
  rewrite length_fmap. clear i. induction ws as [|x ws IH]; [done|].
  rewrite fmap_cons, !filter_cons. cbn. case_decide; cbn; by rewrite IH.
Qed.

(** ASCII letters, for examples. *)
Definition asciiLetter (r : Z) : bool := within 65 r 90 || within 97 r 122.

Example words_of_text : wordsOf asciiLetter "a dog, a cat." = ["a"; "dog"; "a"; "cat"].
Proof. vm_compute. reflexivity. Qed.
