(* ===== verification/MrObservers.v ===== *)
(** * The MapReduce applications that observe the workers (code/src/mrapps)

    jobcount.go counts how often map tasks are run, mtiming.go and rtiming.go
    how many workers run map or reduce tasks at the same time.  They talk
    through the names of the files in the working directory: a process leaves
    a file that carries its process id, and reads the directory.

    [Directory]: the names, and how they are read.  [JobCount]: jobcount.go.
    [Parallel]: [nparallel] of mtiming.go and rtiming.go, run by any number of
    processes that start, die and interleave at each call of the operating
    system.

    Parameters: the order in which the operating system lists a directory and
    which processes [kill(pid, 0)] reaches for a [pid] that is not positive. *)

From Stdlib Require Import Ascii.
From stdpp Require Import pretty.
From S2P Require Import Prelude TextScan.
From S2P Require Import MrWorker.
From S2P Require Import MrApps.
Open Scope Z_scope.

(** ** fmt.Sscanf with a format that is a text and [%d] *)
Module Directory.

(** fmt's [isSpace]. *)
Definition isSpace (r : Z) : bool :=
  within 0x09 r 0x0D || (r =? 0x20) || (r =? 0x85) || (r =? 0xA0) || (r =? 0x1680) ||
  within 0x2000 r 0x200A || within 0x2028 r 0x2029 || (r =? 0x202F) || (r =? 0x205F) || (r =? 0x3000).

(** [ss.SkipSpace]; a newline is an error. *)
Fixpoint SkipSpace (fuel : nat) (s : string) : option string :=
  match fuel, s with
  | S fuel, String c s' =>
      let '(r, _, rest) := decodeRune c s' in
      if r =? 0x0A then None else if isSpace r then SkipSpace fuel rest else Some s
  | _, _ => Some s
  end.

(** [ss.scanNumber] and [strconv.ParseInt]: at least one digit, 64 bits. *)
Definition scanNumber (sign : Z) (s : string) : option Z :=
  match s with
  | "" => None
  | String c s =>
      d ← digitOf c;
      let n := (sign * (readDigits d s).1)%Z in
      if ((- 2 ^ 63 <=? n) && (n <? 2 ^ 63))%Z then Some n else None
  end%string.

Definition scanInt (s : string) : option Z :=
  s ← SkipSpace (String.length s) s;
  match s with
  | "" => None
  | String c rest =>
      if Ascii.eqb c "+" then scanNumber 1 rest
      else if Ascii.eqb c "-" then scanNumber (-1) rest
      else scanNumber 1 s
  end%string.

(** The number read from [name] by the format [pat] followed by [%d]; [None]
    when fewer than one was read or there was an error. *)
Definition Sscanf (name pat : string) : option Z := afterPrefix pat name ≫= scanInt.

(** *** Reading back a printed number *)

Lemma scanInt_digit x s : (x < 10)%N →
  scanInt (String (pretty_N_char x) s) = scanNumber 1 (String (pretty_N_char x) s).
Proof.
  intros Hx. assert (x = 0 ∨ x = 1 ∨ x = 2 ∨ x = 3 ∨ x = 4 ∨ x = 5 ∨ x = 6 ∨ x = 7 ∨ x = 8 ∨ x = 9)%N
    as Hc by lia. by destruct_or! Hc; subst x.
Qed.

Lemma scanInt_pretty (p : Z) : 0 < p < 2 ^ 63 → scanInt (pretty p) = Some p.
Proof.
  intros Hp. rewrite pretty_Z_nonneg by lia. pose proof (digits_pretty (Z.to_N p) "" I) as Hd.
  rewrite append_nil_r in Hd. destruct (pretty_head (Z.to_N p)) as (x & s & Hx & E).
  rewrite E, scanInt_digit by done. rewrite E in Hd. cbn [readDigits] in Hd.
  unfold scanNumber. rewrite digitOf_pretty in Hd |- * by done. cbn [mbind option_bind].
  change (10 * 0 + Z.of_N x) with (Z.of_N x) in Hd. rewrite Hd. cbn [fst]. rewrite Z2N.id, Z.mul_1_l by lia.
  destruct (Z.leb_spec (- 2 ^ 63) p), (Z.ltb_spec p (2 ^ 63)); (done || lia).
Qed.

(** The round trip of [Sprintf] and [Sscanf]. *)
Lemma Sscanf_pretty pat (p : Z) : 0 < p < 2 ^ 63 → Sscanf (pat +:+ pretty p) pat = Some p.
Proof. intros Hp. unfold Sscanf. rewrite afterPrefix_app. by apply scanInt_pretty. Qed.
End Directory.

(** ** jobcount.go *)
Module JobCount.

Definition jobcount_prefix : string := "mr-worker-jobcount".

(** [Sprintf("mr-worker-jobcount-%d-%d", me, count)] *)
Definition countFile (me count : Z) : string :=
  jobcount_prefix +:+ "-" +:+ pretty me +:+ "-" +:+ pretty count.

(** The directory, and [count] of each process that has loaded the plugin. *)
Record Jobs := mkJobs { jobFiles : gset string; counts : gmap Z Z }.

Definition countOf (me : Z) (J : Jobs) : Z := default 0 (counts J !! me).

(** [Map] in process [me]. *)
Definition jobcount_Map (me : Z) (filename contents : string) (J : Jobs) : Jobs * list KeyValue :=
  let count := countOf me J in
  (mkJobs ({[countFile me count]} ∪ jobFiles J) (<[me := count + 1]> (counts J)), [mkKV "a" "x"]).

Definition HasPrefix (s pre : string) : bool := String.prefix pre s.

(** [Reduce]: [names] are those [ioutil.ReadDir] gives. *)
Definition jobcount_Reduce (names : list string) (key : string) (vs : list string) : string :=
  Itoa (length (filter (λ n, HasPrefix n jobcount_prefix) names)).

(** What happens in a job: a process runs a map task, or a file of another
    application or of the job itself comes or goes. *)
Inductive JobStep :=
  | JMap (me : Z) (filename contents : string)
  | JCreate (name : string)
  | JRemove (name : string).

Definition job_step (J : Jobs) (s : JobStep) : Jobs :=
  match s with
  | JMap me f c => (jobcount_Map me f c J).1
  | JCreate n => mkJobs ({[n]} ∪ jobFiles J) (counts J)
  | JRemove n => mkJobs (jobFiles J ∖ {[n]}) (counts J)
  end.

(** Process ids are not negative; other files are named otherwise. *)
Definition job_step_ok (s : JobStep) : Prop :=
  match s with
  | JMap me _ _ => 0 ≤ me
  | JCreate n | JRemove n => HasPrefix n jobcount_prefix = false
  end.

Definition isMap (s : JobStep) : bool := match s with JMap _ _ _ => true | _ => false end.

(** The files that jobcount counts. *)
Definition counted (J : Jobs) : gset string := filter (λ n, HasPrefix n jobcount_prefix) (jobFiles J).

Lemma countFile_prefix me c : HasPrefix (countFile me c) jobcount_prefix = true.
Proof. unfold HasPrefix, countFile. by apply String.prefix_correct. Qed.

Lemma countFile_inj me c me' c' :
  0 ≤ me → 0 ≤ me' → countFile me c = countFile me' c' → me = me' ∧ c = c'.
Proof.
  intros Hm Hm' E. unfold countFile in E. cbn [jobcount_prefix String.append] in E. injection E as E.
  apply split_dash in E as [H1 H2]; [|by apply pretty_digits..]. split; by apply (inj pretty).
Qed.

(** Every file counted is one of a task already run. *)
Record jobs_inv (J : Jobs) : Prop := mkJobsInv {
  ji_nonneg : ∀ me, 0 ≤ countOf me J;
  ji_files : ∀ n, n ∈ counted J → ∃ me c, n = countFile me c ∧ 0 ≤ me ∧ 0 ≤ c < countOf me J;
}.

Lemma countOf_map me f c J me' :
  countOf me' (jobcount_Map me f c J).1 = countOf me' J + (if decide (me' = me) then 1 else 0).
Proof.
  unfold countOf, jobcount_Map. cbn [fst counts]. case_decide as E.
  - subst. by rewrite lookup_insert_eq.
  - by rewrite lookup_insert_ne, Z.add_0_r by done.
Qed.

Lemma counted_map me f c J :
  counted (jobcount_Map me f c J).1 = {[countFile me (countOf me J)]} ∪ counted J.
Proof.
  unfold counted, jobcount_Map. cbn [fst jobFiles]. apply set_eq. intros x.
  rewrite elem_of_filter, !elem_of_union, elem_of_filter, elem_of_singleton.
  pose proof (countFile_prefix me (countOf me J)). naive_solver.
Qed.

Lemma counted_other J n (X : gset string) : HasPrefix n jobcount_prefix = false →
  (∀ x, x ≠ n → x ∈ X ↔ x ∈ jobFiles J) → counted (mkJobs X (counts J)) = counted J.
Proof.
  intros Hn HX. apply set_eq. intros x. unfold counted. rewrite !elem_of_filter. cbn [jobFiles].
  destruct (decide (x = n)) as [->|Hx]; [rewrite Hn; naive_solver|]. by rewrite HX.
Qed.

Lemma job_step_inv J s : job_step_ok s → jobs_inv J →
  jobs_inv (job_step J s) ∧
  size (counted (job_step J s)) = (size (counted J) + if isMap s then 1 else 0)%nat.
Proof.
  intros Hs [Hn Hf]. destruct s as [me f c|n|n]; cbn [job_step isMap job_step_ok] in *.
  - rewrite counted_map. split; [split|].
    + intros me'. rewrite countOf_map. pose proof (Hn me'). case_decide; lia.
    + intros x. rewrite counted_map, elem_of_union, elem_of_singleton. intros [->|Hx].
      * exists me, (countOf me J). rewrite countOf_map, decide_True by done. pose proof (Hn me).
        split; [done|lia].
      * destruct (Hf _ Hx) as (me' & c' & -> & ? & ?). exists me', c'. rewrite countOf_map.
        split; [done|]. case_decide; lia.
    + rewrite size_union, size_singleton; [lia|]. intros x ->%elem_of_singleton Hx.
      destruct (Hf _ Hx) as (me' & c' & E & ? & ?). apply countFile_inj in E as [<- <-]; [lia|done..].
  - rewrite (counted_other J n) by (done || set_solver). split; [|lia]. split; [done|].
    intros x. rewrite (counted_other J n) by (done || set_solver). apply Hf.
  - rewrite (counted_other J n) by (done || set_solver). split; [|lia]. split; [done|].
    intros x. rewrite (counted_other J n) by (done || set_solver). apply Hf.
Qed.

Lemma jobs_inv_start X :
  (∀ n, n ∈ X → HasPrefix n jobcount_prefix = false) →
  jobs_inv (mkJobs X ∅) ∧ counted (mkJobs X ∅) = ∅.
Proof.
  intros HX. assert (counted (mkJobs X ∅) = ∅) as E.
  { apply set_eq. intros x. unfold counted. rewrite elem_of_filter. split; [|set_solver].
    intros [H1 H2%HX]. cbn in *. by rewrite H2 in H1. }
  split; [|done]. split; [done|]. rewrite E. set_solver.
Qed.

(** [Reduce] only looks at which names there are. *)
Lemma Reduce_counted J names k vs : names ≡ₚ elements (jobFiles J) →
  jobcount_Reduce names k vs = Itoa (size (counted J)).
Proof.
  intros Hp. unfold jobcount_Reduce, counted. f_equal. unfold size, set_size. cbn.
  rewrite Hp. symmetry. apply Permutation_length, NoDup_Permutation.
  - apply NoDup_elements.
  - apply NoDup_filter, NoDup_elements.
  - intros x. by rewrite elem_of_elements, elem_of_filter, list_elem_of_filter, elem_of_elements.
Qed.

(** The count is right.  However processes run map tasks one after the
    other, the same task twice or a process again included, in a directory
    that held no file of jobcount, [Reduce] answers the number of map tasks
    that have been run. *)
Theorem jobcount_counts X ss names key vs :
  (∀ n, n ∈ X → HasPrefix n jobcount_prefix = false) → Forall job_step_ok ss →
  names ≡ₚ elements (jobFiles (foldl job_step (mkJobs X ∅) ss)) →
  jobcount_Reduce names key vs = Itoa (length (filter (λ s, isMap s) ss)).
Proof.
  intros HX Hss Hn. rewrite (Reduce_counted _ _ key vs Hn). f_equal. destruct (jobs_inv_start X HX) as [Hi E].
  assert (size (counted (mkJobs X ∅)) = O) as E0 by (by rewrite E).
  enough (∀ J, jobs_inv J →
    size (counted (foldl job_step J ss)) = (size (counted J) + length (filter (λ s, isMap s) ss))%nat)
    as He by (rewrite He by done; lia).
  clear X HX Hi E E0 names Hn. induction Hss as [|s ss Hs Hss IH]; intros J HJ; [cbn; lia|].
  destruct (job_step_inv J s Hs HJ) as [HJ' E]. cbn [foldl]. rewrite IH, E, filter_cons by done.
  case_decide; destruct (isMap s); cbn; done || lia.
Qed.

(** Two processes, three map tasks. *)
Definition sampleSteps : list JobStep :=
  [JMap 7 "a" ""; JCreate "mr-0-0"; JMap 8 "b" ""; JMap 7 "a" ""; JRemove "mr-0-0"].

Lemma jobcount_counts_witness :
  jobcount_Reduce (elements (jobFiles (foldl job_step (mkJobs {["pg.txt"]} ∅) sampleSteps))) "a" ["x"; "x"; "x"] =
  Itoa 3.
Proof.
  apply (jobcount_counts {["pg.txt"]} sampleSteps).
  - intros n ->%elem_of_singleton. reflexivity.
  - repeat constructor; cbn; lia.
  - reflexivity.
Defined.
End JobCount.

(** ** nparallel in mtiming.go and rtiming.go, and the two applications *)
Module Parallel.
Import Directory.

(** Where a process is: not in [nparallel], past [WriteFile], past
    [Readdirnames] with the names still to look at and [ret]. *)
Inductive At := Outside | Wrote | Scanning (names : list string) (ret : Z).

(** The directory and the live processes. *)
Record Procs := mkProcs { files : gset string; at_ : gmap Z At }.

(** A call of the operating system by one process.  A process id is free
    again when its process has died. *)
Inductive ProcStep :=
  | Spawn (pid : Z)
  | Die (pid : Z)
  | Write (pid : Z)
  | List (pid : Z)
  | Probe (pid : Z)
  | Remove (pid : Z)
  (** a file of another name comes or goes *)
  | Other (name : string) (present : bool).

#[export] Instance ProcStep_eq_dec : EqDecision ProcStep.
Proof. solve_decision. Defined.

Section nparallel.
Context (phase : string).
(** The order of a directory; whether [syscall.Kill(pid, 0)] succeeds when
    the live processes are those given. *)
Context (order : list string → list string) (kill : gset Z → Z → bool).
Implicit Types (P : Procs).

Definition format : string := "mr-worker-" +:+ phase +:+ "-".
Definition myfilename (pid : Z) : string := format +:+ pretty pid.

(** [File.Readdirnames(n)] *)
Definition Readdirnames (n : Z) (d : gset string) : list string :=
  let names := order (elements d) in
  if zlen names <=? n then names else take (Z.to_nat n) names.

Definition alive P : gset Z := dom (at_ P).

(** The body of the loop over the names, [live] the processes that live. *)
Definition probe (live : gset Z) (ret : Z) (name : string) : Z :=
  match Sscanf name format with
  | Some xpid => if kill live xpid then ret + 1 else ret
  | None => ret
  end.

Definition writeFile (pid : Z) P : Procs :=
  mkProcs ({[myfilename pid]} ∪ files P) (<[pid := Wrote]> (at_ P)).

Definition listDir (pid : Z) P : Procs :=
  mkProcs (files P) (<[pid := Scanning (Readdirnames 1000000 (files P)) 0]> (at_ P)).

(** One turn of the loop, in the processes that live by then. *)
Definition probeNext (pid : Z) (name : string) (names : list string) (ret : Z) P : Procs :=
  mkProcs (files P) (<[pid := Scanning names (probe (alive P) ret name)]> (at_ P)).

(** [os.Remove]; its error is a panic. *)
Definition removeFile (pid : Z) P : Res Procs :=
  if decide (myfilename pid ∈ files P) then
    Ok (mkProcs (files P ∖ {[myfilename pid]}) (<[pid := Outside]> (at_ P)))
  else Panic "remove: no such file or directory".

(** Without interruption. *)
Definition nparallel (pid : Z) P : Res (Procs * Z) :=
  let P := writeFile pid P in
  let names := Readdirnames 1000000 (files P) in
  let ret := foldl (probe (alive P)) 0 names in
  P ← removeFile pid P;
  Ok (P, ret).

(** One step of one process; a step that is not its next one does nothing. *)
Definition proc_step P (s : ProcStep) : Res Procs :=
  match s with
  | Spawn p => if decide (p ∈ alive P) then Ok P else Ok (mkProcs (files P) (<[p := Outside]> (at_ P)))
  | Die p => Ok (mkProcs (files P) (delete p (at_ P)))
  | Write p => match at_ P !! p with Some Outside => Ok (writeFile p P) | _ => Ok P end
  | List p => match at_ P !! p with Some Wrote => Ok (listDir p P) | _ => Ok P end
  | Probe p =>
      match at_ P !! p with
      | Some (Scanning (name :: names) ret) => Ok (probeNext p name names ret P)
      | _ => Ok P
      end
  | Remove p => match at_ P !! p with Some (Scanning [] _) => removeFile p P | _ => Ok P end
  | Other n b => Ok (mkProcs (if b : bool then {[n]} ∪ files P else files P ∖ {[n]}) (at_ P))
  end.

Lemma go_for_app {A B} (f : A → B → Res A) (l l' : list B) (a a' : A) :
  go_for f a l = Ok a' → go_for f a (l ++ l') = go_for f a' l'.
Proof using Type.
  revert a. induction l as [|b l IH]; intros a H; cbn [go_for app] in *; [by injection H as ->|].
  destruct (f a b) as [a1| |]; cbn [mbind Res_bind] in *; [by apply IH|done..].
Qed.

(** The turns of the loop, one after the other. *)
Lemma probes_run p names ret P : at_ P !! p = Some (Scanning names ret) →
  go_for proc_step P (replicate (length names) (Probe p)) =
  Ok (mkProcs (files P) (<[p := Scanning [] (foldl (probe (alive P)) ret names)]> (at_ P))).
Proof using Type.
  revert ret P. induction names as [|n names IH]; intros ret P Hp; cbn [length replicate go_for foldl].
  - rewrite insert_id by done. by destruct P.
  - cbn [proc_step]. rewrite Hp. cbn [mbind Res_bind].
    rewrite (IH (probe (alive P) ret n)) by (cbn; by rewrite lookup_insert_eq).
    assert (alive (probeNext p n names ret P) = alive P) as ->.
    { unfold alive, probeNext. cbn [at_]. by rewrite dom_insert_lookup_L by eauto. }
    unfold probeNext. cbn [files at_]. by rewrite insert_insert_eq.
Qed.

(** The steps of a process, when no other one moves, are its call. *)
Lemma nparallel_steps p P : at_ P !! p = Some Outside →
  go_for proc_step P
    ([Write p; List p] ++
     replicate (length (Readdirnames 1000000 (files (writeFile p P)))) (Probe p) ++ [Remove p]) =
  ('(P, _) ← nparallel p P; Ok P).
Proof using Type.
  intros Hp. cbn [app]. cbn [go_for proc_step]. rewrite Hp. cbn [mbind Res_bind].
  assert (at_ (writeFile p P) !! p = Some Wrote) as -> by (cbn; apply lookup_insert_eq).
  cbn [mbind Res_bind]. 
  assert (at_ (listDir p (writeFile p P)) !! p =
    Some (Scanning (Readdirnames 1000000 (files (writeFile p P))) 0)) as Hl by (cbn; apply lookup_insert_eq).
  rewrite (go_for_app _ _ _ _ _ (probes_run _ _ _ _ Hl)). cbn [go_for proc_step at_]. rewrite lookup_insert_eq.
  unfold nparallel, removeFile. cbn [files at_ listDir writeFile]. case_decide; [|done].
  cbn [mbind Res_bind]. by rewrite !insert_insert_eq.
Qed.

(** Process ids are positive and fit an [int]; other files do not look like
    the ones of this phase. *)
Definition proc_step_ok (s : ProcStep) : Prop :=
  match s with
  | Spawn p => 0 < p < 2 ^ 63
  | Other n _ => Sscanf n format = None
  | _ => True
  end.

Inductive proc_reachable : Procs → Prop :=
  | pr_start X : (∀ n, n ∈ X → Sscanf n format = None) → proc_reachable (mkProcs X ∅)
  | pr_step P s P' : proc_reachable P → proc_step_ok s → proc_step P s = Ok P' → proc_reachable P'.

(** A process is inside [nparallel] and has left its file. *)
Definition inside (a : At) : Prop := a ≠ Outside.

(** *** The files of this phase are named after processes *)

Record procs_inv P : Prop := mkProcsInv {
  pi_pid : ∀ p a, at_ P !! p = Some a → 0 < p < 2 ^ 63;
  pi_files : ∀ n x, n ∈ files P → Sscanf n format = Some x → n = myfilename x ∧ 0 < x < 2 ^ 63;
  pi_inside : ∀ p a, at_ P !! p = Some a → inside a → myfilename p ∈ files P;
}.

Lemma Sscanf_myfilename p : 0 < p < 2 ^ 63 → Sscanf (myfilename p) format = Some p.
Proof. apply Sscanf_pretty. Qed.

(** A process goes on, and its file is there if it is inside. *)
Lemma procs_inv_move P p a :
  procs_inv P → 0 < p < 2 ^ 63 → (inside a → myfilename p ∈ files P) →
  procs_inv (mkProcs (files P) (<[p := a]> (at_ P))).
Proof using Type.
  intros [Hp Hf Hi] Hpos Hin. split; cbn [files at_]; [|done|];
    intros q b [[<- <-]|[_ ?]]%lookup_insert_Some; eauto.
Qed.

Lemma procs_inv_other P n b : Sscanf n format = None → procs_inv P →
  procs_inv (mkProcs (if b : bool then {[n]} ∪ files P else files P ∖ {[n]}) (at_ P)).
Proof using Type.
  intros Hn [Hp Hf Hi]. split; cbn [files at_]; [done|..].
  - intros m x Hm Hx. apply Hf; [|done]. clear Hp Hf Hi.
    destruct b; [|by apply elem_of_difference in Hm as [? _]].
    apply elem_of_union in Hm as [->%elem_of_singleton|]; [by rewrite Hn in Hx|done].
  - intros q a Hq Ha. assert (myfilename q ≠ n) as Hne.
    { intros <-. rewrite Sscanf_myfilename in Hn; [done|eauto]. }
    pose proof (Hi q a Hq Ha). destruct b; [apply elem_of_union; by right|].
    apply elem_of_difference. split; [done|]. by intros ?%elem_of_singleton.
Qed.

Lemma procs_inv_write P p : at_ P !! p = Some Outside → procs_inv P → procs_inv (writeFile p P).
Proof using Type.
  intros Hp0 [Hp Hf Hi]. pose proof (Hp _ _ Hp0) as Hpos.
  assert (procs_inv (mkProcs ({[myfilename p]} ∪ files P) (at_ P))) as H.
  2: exact (procs_inv_move _ p Wrote H Hpos (λ _, elem_of_union_l _ _ _ (elem_of_singleton_2 _ _ eq_refl))).
  split; cbn [files at_]; [done| |].
  - intros n x [->%elem_of_singleton|Hn]%elem_of_union Hx; [|by eapply Hf].
    rewrite Sscanf_myfilename in Hx by done. by simplify_eq.
  - intros q a Hq Ha. apply elem_of_union. right. by eapply Hi.
Qed.

Lemma procs_inv_remove P p a : at_ P !! p = Some a → inside a → procs_inv P →
  ∃ P', removeFile p P = Ok P' ∧ procs_inv P'.
Proof using Type.
  intros Hp0 Ha [Hp Hf Hi]. unfold removeFile. rewrite decide_True by (by eapply Hi).
  eexists. split; [done|]. split; cbn [files at_].
  - intros q b [[<- <-]|[_ ?]]%lookup_insert_Some; eauto.
  - intros n x [Hn _]%elem_of_difference Hx. by apply Hf.
  - intros q b [[<- <-]|[Hne Hq]]%lookup_insert_Some Hb; [done|].
    apply elem_of_difference. split; [by eapply Hi|]. intros E%elem_of_singleton.
    assert (Some q = Some p) by (rewrite <- !Sscanf_myfilename, E by eauto; done). congruence.
Qed.

Lemma proc_step_total P s : procs_inv P → proc_step_ok s → ∃ P', proc_step P s = Ok P' ∧ procs_inv P'.
Proof using Type.
  intros Hinv Hs. pose proof Hinv as [Hp Hf Hi].
  destruct s as [p|p|p|p|p|p|n b]; cbn [proc_step].
  - case_decide; eauto. eexists. split; [done|]. by apply procs_inv_move.
  - eexists. split; [done|]. split; cbn [files at_]; [|done|]; intros q a [_ ?]%lookup_delete_Some; eauto.
  - destruct (at_ P !! p) as [[| |]|] eqn:E; eauto using procs_inv_write.
  - destruct (at_ P !! p) as [[| |]|] eqn:E; eauto. eexists. split; [done|]. apply procs_inv_move; eauto.
    intros _. by eapply Hi.
  - destruct (at_ P !! p) as [[| |[|m names] r]|] eqn:E; eauto. eexists. split; [done|].
    apply procs_inv_move; eauto. intros _. by eapply Hi.
  - destruct (at_ P !! p) as [[| |[|m names] r]|] eqn:E; eauto. by eapply procs_inv_remove.
  - eauto using procs_inv_other.
Qed.

Lemma proc_reachable_inv P : proc_reachable P → procs_inv P.
Proof using Type.
  induction 1 as [X HX|P s P' _ IH Hs H].
  - split; cbn [files at_]; [done| |done]. intros n x Hn Hx. by rewrite HX in Hx.
  - destruct (proc_step_total P s IH Hs) as (P1 & E & ?). rewrite H in E. by injection E as ->.
Qed.

(** *** What a scan answers *)
Context (order_perm : ∀ l, order l ≡ₚ l).
(** kill(2): signal 0 to a positive process id checks that it exists. *)
Context (kill_exists : ∀ X p, 0 < p → kill X p = bool_decide (p ∈ X)).

(** The process ids that names of this phase carry. *)
Definition pids (names : list string) : list Z := omap (λ n, Sscanf n format) names.

Lemma pids_cons n names :
  pids (n :: names) = match Sscanf n format with Some x => x :: pids names | None => pids names end.
Proof using Type. done. Qed.

(** A step of another kind leaves the scan of [p] as it is. *)
Lemma scan_keeps P p names k s P' :
  at_ P !! p = Some (Scanning names k) → proc_step P s = Ok P' →
  s ≠ Die p → s ≠ Remove p → s ≠ Probe p → at_ P' !! p = Some (Scanning names k).
Proof using Type.
  intros Hp H Hd Hr Hb. destruct s as [q|q|q|q|q|q|n b]; cbn [proc_step] in H.
  - case_decide as Hq; simplify_eq; [done|]. cbn [at_]. rewrite lookup_insert_ne; [done|].
    intros ->. destruct Hq. by eapply elem_of_dom_2.
  - simplify_eq. cbn [at_]. rewrite lookup_delete_ne; [done|]. congruence.
  - destruct (decide (q = p)) as [->|]; [by rewrite Hp in H; simplify_eq|].
    destruct (at_ P !! q) as [[| |]|]; simplify_eq; try done. cbn. by rewrite lookup_insert_ne.
  - destruct (decide (q = p)) as [->|]; [by rewrite Hp in H; simplify_eq|].
    destruct (at_ P !! q) as [[| |]|]; simplify_eq; try done. cbn. by rewrite lookup_insert_ne.
  - destruct (decide (q = p)) as [->|]; [done|].
    destruct (at_ P !! q) as [[| |[|m l] r]|]; simplify_eq; try done. cbn. by rewrite lookup_insert_ne.
  - destruct (decide (q = p)) as [->|]; [done|].
    destruct (at_ P !! q) as [[| |[|m l] r]|]; simplify_eq; try done. unfold removeFile in H.
    case_decide; simplify_eq. cbn. by rewrite lookup_insert_ne.
  - by simplify_eq.
Qed.

(** Processes only come by [Spawn] and only go by [Die]. *)
Lemma step_alive P s P' x : proc_step P s = Ok P' →
  (x ∈ alive P' → x ∈ alive P ∨ s = Spawn x) ∧ (x ∈ alive P → s ≠ Die x → x ∈ alive P').
Proof using Type.
  unfold alive. rewrite !elem_of_dom. intros H.
  assert (∀ q a b, at_ P !! q = Some b → at_ P' = <[q := a]> (at_ P) →
    is_Some (at_ P' !! x) ↔ is_Some (at_ P !! x)) as Hmove.
  { intros q a b Hq ->. rewrite lookup_insert_is_Some. destruct (decide (q = x)) as [->|]; naive_solver. }
  destruct s as [q|q|q|q|q|q|n b]; cbn [proc_step] in H.
  - clear Hmove. case_decide; simplify_eq; [naive_solver|]. cbn [at_]. rewrite lookup_insert_is_Some.
    destruct (decide (q = x)) as [->|]; naive_solver.
  - simplify_eq. cbn [at_]. rewrite lookup_delete_is_Some. split; [naive_solver|].
    intros ? Hne. split; congruence.
  - destruct (at_ P !! q) as [[| |]|] eqn:E; simplify_eq; try (clear Hmove; naive_solver).
    rewrite (Hmove q _ _ E eq_refl). naive_solver.
  - destruct (at_ P !! q) as [[| |]|] eqn:E; simplify_eq; try (clear Hmove; naive_solver).
    rewrite (Hmove q _ _ E eq_refl). naive_solver.
  - destruct (at_ P !! q) as [[| |[|m l] r]|] eqn:E; simplify_eq; try (clear Hmove; naive_solver).
    rewrite (Hmove q _ _ E eq_refl). naive_solver.
  - destruct (at_ P !! q) as [[| |[|m l] r]|] eqn:E; simplify_eq; try (clear Hmove; naive_solver).
    unfold removeFile in H. case_decide; simplify_eq. rewrite (Hmove q _ _ E eq_refl). naive_solver.
  - simplify_eq. clear Hmove. naive_solver.
Qed.

(** The processes that the rest of a scan counts. *)
Lemma scan_rest p steps P names k P' n :
  at_ P !! p = Some (Scanning names k) → Forall (λ x, 0 < x) (pids names) →
  Die p ∉ steps → Remove p ∉ steps →
  go_for proc_step P steps = Ok P' → at_ P' !! p = Some (Scanning [] n) →
  ∃ L, n = k + zlen L ∧ sublist L (pids names) ∧
    (∀ x, x ∈ L → x ∈ alive P ∨ Spawn x ∈ steps) ∧
    (∀ x, x ∈ pids names → x ∈ alive P → Die x ∉ steps → x ∈ L).
Proof using order_perm kill_exists.
  revert P names k. induction steps as [|s steps IH]; intros P names k Hp Hpos Hd Hr H Hn; cbn [go_for] in H.
  { assert (P = P') as <- by (by injection H). rewrite Hp in Hn. simplify_eq. exists [].
    split_and!; [cbn; lia|done|set_solver..]. }
  destruct (proc_step P s) as [P1| |] eqn:Hs; cbn [mbind Res_bind] in H; try done.
  apply not_elem_of_cons in Hd as [Hd Hds], Hr as [Hr Hrs].
  destruct (decide (s = Probe p)) as [->|Hb].
  - destruct names as [|m names].
    { cbn [proc_step] in Hs. rewrite Hp in Hs. simplify_eq.
      destruct (IH P1 [] k) as (L & ? & ? & H3 & H4); [done..|]. exists L. split_and!; [done..| |].
      - intros x Hx. destruct (H3 x Hx); [by left|right; set_solver].
      - intros x ? ? Hx. apply H4; [done..|set_solver]. }
    cbn [proc_step] in Hs. rewrite Hp in Hs. injection Hs as <-.
    assert (alive (probeNext p m names k P) = alive P) as Ha.
    { unfold alive, probeNext. cbn [at_]. by rewrite dom_insert_lookup_L by eauto. }
    rewrite pids_cons in Hpos |- *.
    destruct (IH (probeNext p m names k P) names (probe (alive P) k m)) as (L & E & Hsub & H3 & H4);
      [by cbn; rewrite lookup_insert_eq| |done..|].
    { destruct (Sscanf m format); [by apply Forall_cons in Hpos as []|done]. }
    rewrite Ha in H3, H4. unfold probe in E. destruct (Sscanf m format) as [y|].
    2:{ exists L. split_and!; [done..| |].
        - intros x Hx. destruct (H3 x Hx); [by left|right; set_solver].
        - intros x ? ? Hx. apply H4; [done..|set_solver]. }
    apply Forall_cons in Hpos as [Hy _]. rewrite kill_exists in E by done. case_bool_decide as Hyl.
    + exists (y :: L). split_and!; [rewrite length_cons; lia|by constructor|..].
      * intros x [->|Hx]%elem_of_cons; [by left|]. destruct (H3 x Hx); [by left|right; set_solver].
      * intros x [->|Hx]%elem_of_cons Hxl Hxd; [by left|]. right. apply H4; [done..|set_solver].
    + exists L. split_and!; [done|by constructor|..].
      * intros x Hx. destruct (H3 x Hx); [by left|right; set_solver].
      * intros x [->|Hx]%elem_of_cons Hxl Hxd; [done|]. apply H4; [done..|set_solver].
  - destruct (IH P1 names k) as (L & ? & ? & H3 & H4); [|done..|].
    { eapply scan_keeps; [exact Hp|exact Hs|congruence..]. }
    exists L. split_and!; [done..| |].
    + intros x Hx. destruct (H3 x Hx) as [Hx1|]; [|right; set_solver].
      destruct (step_alive P s P1 x Hs) as [Hl _]. destruct (Hl Hx1) as [?| ->]; [by left|right; set_solver].
    + intros x Hx Hxl Hxd. apply not_elem_of_cons in Hxd as [Hxd ?]. apply H4; [done| |done].
      apply (step_alive P s P1 x Hs); [done|congruence].
Qed.

(** The names listed carry each process id once. *)
Lemma pids_listed P : procs_inv P → zlen (elements (files P)) ≤ 1000000 →
  NoDup (pids (Readdirnames 1000000 (files P))) ∧
  ∀ x, x ∈ pids (Readdirnames 1000000 (files P)) ↔ 0 < x < 2 ^ 63 ∧ myfilename x ∈ files P.
Proof using order_perm kill_exists.
  intros [_ Hf _] Hsz. unfold Readdirnames. rewrite (Permutation_length (order_perm _)).
  destruct (Z.leb_spec (zlen (elements (files P))) 1000000) as [_|]; [|lia].
  set (names := order (elements (files P))).
  assert (∀ n, n ∈ names ↔ n ∈ files P) as Hn.
  { intros n. unfold names. by rewrite (order_perm _), elem_of_elements. }
  assert (NoDup names) as Hnd by (unfold names; rewrite (order_perm _); apply NoDup_elements).
  split.
  - assert (∀ n, n ∈ names → n ∈ files P) as Hsub by naive_solver. clear Hn. revert Hnd Hsub.
    generalize names. clear names. intros names Hnd Hsub.
    induction Hnd as [|n names Hni Hnd IH]; [constructor|]. rewrite pids_cons.
    assert (NoDup (pids names)) by (apply IH; set_solver).
    destruct (Sscanf n format) as [x|] eqn:E; [|done]. constructor; [|done].
    intros (m & Hm & Em)%list_elem_of_omap. destruct Hni.
    destruct (Hf n x) as [-> _]; [apply Hsub; set_solver|done|].
    by destruct (Hf m x) as [<- _]; [apply Hsub; set_solver|done|].
  - intros x. unfold pids. rewrite list_elem_of_omap. split.
    + intros (n & Hin & Hx). apply Hn in Hin. by destruct (Hf n x Hin Hx) as [<- ?].
    + intros [Hx Hin]. exists (myfilename x). rewrite Hn, Sscanf_myfilename by done. done.
Qed.

(** C36: What [nparallel] answers.  Processes start, die and interleave at
    every call of the operating system, the listing of the directory and each
    probe of a process being calls of their own, and the id of a dead process
    may be given to a new one.  If a process that goes through its scan
    answers [n], then [n] is the number of a set of processes, itself
    included: all that were inside [nparallel] when the directory was listed
    and did not die until the end of the scan are in it, and every one in it
    had a file of that phase at the listing and lived then or was started
    before the end of the scan.  The listing gives at most a million names. *)
Theorem nparallel_counts P p steps P' n :
  proc_reachable P → at_ P !! p = Some Wrote → zlen (elements (files P)) ≤ 1000000 →
  Die p ∉ steps → Remove p ∉ steps →
  go_for proc_step P (List p :: steps) = Ok P' → at_ P' !! p = Some (Scanning [] n) →
  ∃ counted : gset Z, n = Z.of_nat (size counted) ∧ p ∈ counted ∧
    (∀ q a, at_ P !! q = Some a → inside a → Die q ∉ steps → q ∈ counted) ∧
    (∀ q, q ∈ counted → myfilename q ∈ files P ∧ (q ∈ alive P ∨ Spawn q ∈ steps)).
Proof using order_perm kill_exists.
  intros Hr Hp Hsz Hd Hrm H Hn. pose proof (proc_reachable_inv P Hr) as Hi.
  destruct (pids_listed P Hi Hsz) as [Hnd Hpids]. cbn [go_for proc_step] in H. rewrite Hp in H.
  cbn [mbind Res_bind] in H. assert (alive (listDir p P) = alive P) as Ha.
  { unfold alive, listDir. cbn [at_]. by rewrite dom_insert_lookup_L by eauto. }
  destruct (scan_rest p steps (listDir p P) (Readdirnames 1000000 (files P)) 0 P' n)
    as (L & E & Hsub & H3 & H4); [cbn; apply lookup_insert_eq| |done..|].
  { apply Forall_forall. intros x [? _]%Hpids. lia. }
  rewrite Ha in H3, H4.
  assert (∀ q a, at_ P !! q = Some a → inside a → Die q ∉ steps → q ∈ L) as Hin.
  { intros q a Hq Hai Hqd. apply H4; [|by eapply elem_of_dom_2|done]. apply Hpids.
    split; [by eapply (pi_pid P Hi)|by eapply (pi_inside P Hi)]. }
  exists (list_to_set L). split_and!.
  - rewrite size_list_to_set by (by eapply sublist_NoDup). lia.
  - apply elem_of_list_to_set. by eapply (Hin p Wrote).
  - intros q a Hq Hai Hqd. apply elem_of_list_to_set. by eapply Hin.
  - intros q HqL%elem_of_list_to_set. split; [|by apply H3].
    apply Hpids. by eapply (sublist_subseteq _ _ Hsub).
Qed.

(** No call of [nparallel] panics: the file is there when it is removed. *)
Theorem nparallel_never_panics P s :
  proc_reachable P → proc_step_ok s → ∃ P', proc_step P s = Ok P'.
Proof using Type. intros Hr Hs. destruct (proc_step_total P s (proc_reachable_inv P Hr) Hs) as (P' & ? & _). eauto. Qed.
End nparallel.

(** *** The applications *)

(** mtiming.go: [ts] is the time as [%.1f] prints it, [n] what [nparallel]
    returned. *)
Definition mtiming_Map (ts : string) (pid n : Z) : list KeyValue :=
  [mkKV ("times-" +:+ pretty pid) ts; mkKV ("parallel-" +:+ pretty pid) (pretty n)].

Definition mtiming_Reduce (key : string) (vs : list string) : string := String.concat " " (Strings vs).

Lemma mtiming_Reduce_insensitive : order_insensitive mtiming_Reduce.
Proof. intros k vs vs' Hvs. unfold mtiming_Reduce. by rewrite (Strings_perm _ _ Hvs). Qed.

(** rtiming.go *)
Definition rtiming_Map (filename contents : string) : list KeyValue :=
  (λ k, mkKV k "1") <$> ["a"; "b"; "c"; "d"; "e"; "f"; "g"; "h"; "i"; "j"].

Definition rtiming_Reduce (n : Z) (key : string) (vs : list string) : string := pretty n.

(** *** A sample: 12 died inside and left its file; while 11 scans, 13 dies
    and 12 is given to a new process. *)
Definition sampleOrder (l : list string) : list string := l.
Definition sampleKill (X : gset Z) (p : Z) : bool := bool_decide (p ∈ X).

Definition samplePath : list ProcStep :=
  [Spawn 11; Spawn 12; Spawn 13; Spawn 14; Write 12; Other "mr-0-1" true; Write 13; Write 14; Die 12; Write 11].

Definition sampleScan : list ProcStep :=
  [Probe 11; Spawn 15; Die 13; Probe 11; Write 15; Probe 11; Spawn 12; Probe 11; Probe 11; Probe 11].

Definition sampleStep := proc_step "map" sampleOrder sampleKill.
Definition sampleProcs : Procs :=
  match go_for sampleStep (mkProcs {["pg.txt"]} ∅) samplePath with Ok P => P | _ => mkProcs ∅ ∅ end.

Definition sampleScanned : Procs :=
  match go_for sampleStep sampleProcs (List 11 :: sampleScan) with Ok P => P | _ => mkProcs ∅ ∅ end.

Lemma sample_reachable : proc_reachable "map" sampleOrder sampleKill sampleProcs.
Proof.
  assert (Forall (proc_step_ok "map") samplePath) as Hok.
  { repeat constructor; cbn; lia. }
  assert (go_for sampleStep (mkProcs {["pg.txt"]} ∅) samplePath = Ok sampleProcs) as E by (vm_compute; reflexivity).
  assert (proc_reachable "map" sampleOrder sampleKill (mkProcs {["pg.txt"]} ∅)) as Hr.
  { constructor. intros n ->%elem_of_singleton. reflexivity. }
  revert E Hr. generalize (mkProcs {["pg.txt"]} ∅). generalize sampleProcs.
  induction Hok as [|s l Hs _ IH]; intros P1 P0 E Hr; cbn [go_for] in E; [by go_inv|].
  go_inv. eapply IH; [done|]. by eapply pr_step.
Qed.

Lemma nparallel_counts_witness :
  ∃ counted : gset Z, 3 = Z.of_nat (size counted) ∧ 11 ∈ counted ∧ 14 ∈ counted ∧
    ∀ q, q ∈ counted → myfilename "map" q ∈ files sampleProcs.
Proof.
  destruct (nparallel_counts "map" sampleOrder sampleKill (λ l, reflexivity l) (λ X p _, eq_refl)
    sampleProcs 11 sampleScan sampleScanned 3) as (C & H1 & H2 & H3 & H4).
  - exact sample_reachable.
  - vm_compute. reflexivity.
  - vm_compute. discriminate.
  - set_solver.
  - set_solver.
  - vm_compute. reflexivity.
  - vm_compute. reflexivity.
  - exists C. split; [exact H1|]. split; [exact H2|]. split.
    + apply (H3 14 Wrote); [vm_compute; reflexivity|discriminate|set_solver].
    + intros q Hq. apply (H4 q Hq).
Defined.
End Parallel.
