(* ===== verification/MrSystem.v ===== *)
(** * A MapReduce job: coordinator, workers and files (code/src/mr)

    A coordinator ([MrCoordinator]), any number of workers and the file system
    they share.  A worker runs the loop of [Worker] (worker.go): it asks for a
    task, carries it out and reports it.  Its calls of the file system that
    others can observe -- opening a file, renaming a temporary file to its
    final name -- are steps of their own, so that workers interleave at them
    and can be killed between them; the rest of [DoMap] and [DoReduce] happens
    between two such steps.

    A worker may be killed at any time, its request may be handled while the
    reply is lost (it then returns from [Worker]), and the same task may be
    carried out by several workers at once, late ones included.  Clocks are
    arbitrary.  A fatal error or panic of a worker ends that worker; a panic
    of the coordinator ends the run. *)

From S2P Require Import Prelude.
From S2P Require Import MrCoordinator.
From S2P Require Import MrWorker.
From S2P Require Import MrJson.
From S2P Require Import MrApps.
Open Scope Z_scope.

(** Where a worker is in its loop. *)
Inductive Phase :=
  | Asking
  | Granted (reply : RequestTaskReply)
  | Renaming (taskInd : Z) (pending : list (string * string))
  | Reading (taskInd nMap i : Z) (kva : list KeyValue)
  | Reporting (t : TaskType) (taskInd : Z)
  | Stopped.

Record World := mkWorld {
  coord : Coordinator;
  fsOf : fsys;
  workers : gmap nat Phase;
}.

Inductive Label :=
  | Join (w : nat)
  | Kill (w : nat)
  | Ask (w : nat) (clock : nat → Z) (lost : bool)
  | Work (w : nat) (o : nat)
  | Report (w : nat) (clock : nat → Z) (lost : bool).

Section system.
Context `{JsonCodec} `{SortByKey}.
(** [mapf o]: the application's map function in execution [o] of it.  It need
    not give its pairs in the same order each time. *)
Context (mapf : nat → string → string → list KeyValue).
Context (reducef : string → list string → string).

(** The next thing a worker does on its own. *)
Definition workStep (o : nat) (p : Phase) (fs : fsys) : Res (Phase * fsys) :=
  match p with
  | Granted r =>
      match Type_ r with
      | Done => Ok (Stopped, fs)
      | Map =>
          new ← DoMapFiles (mapf o) fs (TaskInd r) (FileName r) (NReduce r);
          Ok (Renaming (TaskInd r) new, fs)
      | Reduce => Ok (Reading (TaskInd r) (NMap r) 0 [], fs)
      | Wait => Ok (Asking, fs)
      end
  | Renaming t (nc :: pending) => Ok (Renaming t pending, rename fs nc)
  | Renaming t [] => Ok (Reporting Map t, fs)
  | Reading t nMap i kva =>
      if decide (i < nMap) then
        kva ← readIntermediate fs t kva i;
        Ok (Reading t nMap (i + 1) kva, fs)
      else Ok (Reporting Reduce t, rename fs (GetOutputFileName t, reduceFile reducef kva))
  | _ => Ok (p, fs)
  end.

Definition world_step (W : World) (l : Label) : Res World :=
  match l with
  | Join w =>
      match workers W !! w with
      | None => Ok (mkWorld (coord W) (fsOf W) (<[w := Asking]> (workers W)))
      | Some _ => Ok W
      end
  | Kill w => Ok (mkWorld (coord W) (fsOf W) (alter (λ _, Stopped) w (workers W)))
  | Ask w clock lost =>
      match workers W !! w with
      | Some Asking =>
          '(c, reply) ← HandleRequestTask clock (mkArgs Get Map 0) (coord W);
          Ok (mkWorld c (fsOf W) (<[w := if lost : bool then Stopped else Granted reply]> (workers W)))
      | _ => Ok W
      end
  | Work w o =>
      match workers W !! w with
      | Some p =>
          match workStep o p (fsOf W) with
          | Ok (p, fs) => Ok (mkWorld (coord W) fs (<[w := p]> (workers W)))
          | _ => Ok (mkWorld (coord W) (fsOf W) (<[w := Stopped]> (workers W)))
          end
      | None => Ok W
      end
  | Report w clock lost =>
      match workers W !! w with
      | Some (Reporting t i) =>
          '(c, _) ← HandleRequestTask clock (mkArgs Put t i) (coord W);
          Ok (mkWorld c (fsOf W) (<[w := if lost : bool then Stopped else Asking]> (workers W)))
      | _ => Ok W
      end
  end.

Definition run (W : World) (tr : list Label) : Res World := go_for world_step W tr.

(** [main/mrcoordinator.go] starts a job. *)
Definition start (fs : fsys) (inputs : list string) (nReduce : Z) : Res World :=
  c ← MakeCoordinator inputs nReduce;
  Ok (mkWorld c fs ∅).
End system.

(** ** The steps of a worker are [DoMap] and [DoReduce]

    A worker that nobody interrupts, from a grant to its report. *)
Section alone.
Context `{JsonCodec} `{SortByKey}.
Context (mapf : nat → string → string → list KeyValue).
Context (reducef : string → list string → string).

Fixpoint workAlone (fuel o : nat) (p : Phase) (fs : fsys) : Res (Phase * fsys) :=
  match fuel with
  | O => Ok (p, fs)
  | S fuel => '(p, fs) ← workStep mapf reducef o p fs; workAlone fuel o p fs
  end.

Lemma renaming_alone o t pending fs :
  workAlone (S (length pending)) o (Renaming t pending) fs = Ok (Reporting Map t, foldl rename fs pending).
Proof.
  revert fs. induction pending as [|nc pending IH]; intros fs; [done|].
  change (workAlone (S (length pending)) o (Renaming t pending) (rename fs nc) = Ok (Reporting Map t, foldl rename fs (nc :: pending))).
  by rewrite IH.
Qed.

Lemma reading_alone o r nMap i kva fs m :
  m = Z.to_nat (nMap - i) →
  workAlone (S m) o (Reading r nMap i kva) fs =
  (kva ← go_for (readIntermediate fs r) kva (seqZ i (nMap - i));
   Ok (Reporting Reduce r, rename fs (GetOutputFileName r, reduceFile reducef kva))).
Proof.
  revert i kva. induction m as [|m IH]; intros i kva Hm.
  - rewrite seqZ_nil by lia. cbn. by rewrite decide_False by lia.
  - rewrite seqZ_cons by lia. cbn [workAlone workStep go_for]. rewrite decide_True by lia.
    destruct (readIntermediate fs r kva i) as [kva'| |]; [|done..]. cbn [mbind Res_bind].
    trans (workAlone (S m) o (Reading r nMap (i + 1) kva') fs); [done|]. rewrite IH by lia.
    by replace (nMap - (i + 1)) with (Z.pred (nMap - i)) by lia.
Qed.

(** Errors included. *)
Lemma map_alone o reply fs new :
  Type_ reply = Map → DoMapFiles (mapf o) fs (TaskInd reply) (FileName reply) (NReduce reply) = Ok new →
  workAlone (S (S (length new))) o (Granted reply) fs =
  (fs ← DoMap (mapf o) fs (TaskInd reply) (FileName reply) (NReduce reply); Ok (Reporting Map (TaskInd reply), fs)).
Proof.
  intros Ht Hn. unfold DoMap. rewrite Hn.
  change (workAlone (S (S (length new))) o (Granted reply) fs) with
    ('(p, fs) ← workStep mapf reducef o (Granted reply) fs; workAlone (S (length new)) o p fs).
  cbn [workStep]. rewrite Ht, Hn. cbn [mbind Res_bind]. apply renaming_alone.
Qed.

Lemma reduce_alone o reply fs :
  Type_ reply = Reduce →
  workAlone (S (S (Z.to_nat (NMap reply)))) o (Granted reply) fs =
  (fs ← DoReduce reducef fs (TaskInd reply) (NMap reply); Ok (Reporting Reduce (TaskInd reply), fs)).
Proof.
  intros Ht. unfold DoReduce.
  change (workAlone (S (S (Z.to_nat (NMap reply)))) o (Granted reply) fs) with
    ('(p, fs) ← workStep mapf reducef o (Granted reply) fs; workAlone (S (Z.to_nat (NMap reply))) o p fs).
  cbn [workStep]. rewrite Ht. cbn [mbind Res_bind]. rewrite reading_alone by (f_equal; lia).
  rewrite Z.sub_0_r. by destruct (go_for _ _ _).
Qed.
End alone.

(** ** What a job should leave in the files *)

Section job.
Context `{JsonCodec} `{SortByKey}.
Context (mapf : nat → string → string → list KeyValue).
Context (reducef : string → list string → string).
(** The files at the start, the names of the inputs, the reduce tasks. *)
Context (fs0 : fsys) (inputs : list string) (n : Z).

(** What the map function makes of an input, in one order. *)
Definition pairsOf (f : string) : list KeyValue := mapf 0 f (default "" (fs0 !! f)).
Definition allPairs : list KeyValue := inputs ≫= pairsOf.

Record job_ok : Prop := mkJobOk {
  jo_n : 0 < n;
  jo_inputs : ∀ f, f ∈ inputs → input_name f ∧ is_Some (fs0 !! f);
  jo_json : Forall json_ok allPairs;
  jo_map : ∀ o f, f ∈ inputs → mapf o f (default "" (fs0 !! f)) ≡ₚ pairsOf f;
}.

(** File [f] should hold [s]. *)
Inductive expected : string → string → Prop :=
  | expected_input f s : f ∈ inputs → fs0 !! f = Some s → expected f s
  | expected_intermediate (t : nat) r f kva :
      inputs !! t = Some f → 0 ≤ r < n → kva ≡ₚ pairsOf f →
      expected (GetIntermediateFileName (Z.of_nat t) r) (partFile n r kva)
  | expected_output r all :
      0 ≤ r < n → all ≡ₚ part n r allPairs →
      expected (GetOutputFileName r) (reduceFile reducef all).

Lemma intermediate_not_input t r : job_ok → GetIntermediateFileName t r ∉ inputs.
Proof. intros J Hin. by edestruct input_intermediate; [apply (jo_inputs J)|]. Qed.

Lemma output_not_input r : job_ok → GetOutputFileName r ∉ inputs.
Proof. intros J Hin. by edestruct input_output; [apply (jo_inputs J)|]. Qed.

(** What is expected of each kind of file. *)
Lemma expected_input_inv f s : job_ok → f ∈ inputs → expected f s → fs0 !! f = Some s.
Proof.
  intros J Hf He. destruct He as [g s Hg Hs|t r g kva Hg Hr Hk|r all Hr Ha]; [done|exfalso..].
  - by apply intermediate_not_input in Hf.
  - by apply output_not_input in Hf.
Qed.

Lemma expected_intermediate_inv (t : nat) r s :
  job_ok → 0 ≤ r → expected (GetIntermediateFileName (Z.of_nat t) r) s →
  ∃ f kva, inputs !! t = Some f ∧ kva ≡ₚ pairsOf f ∧ s = partFile n r kva.
Proof.
  intros J Hr He. remember (GetIntermediateFileName (Z.of_nat t) r) as name eqn:Hn.
  destruct He as [f s Hf _|t' r' f kva Hf Hr' Hk|r' all Hr' _].
  - subst. by apply intermediate_not_input in Hf.
  - apply intermediate_inj in Hn as [Ht ->]; [|lia..]. apply Nat2Z.inj in Ht as ->. by eexists _, _.
  - symmetry in Hn. by apply intermediate_output in Hn; [|lia].
Qed.

Lemma expected_output_inv r s :
  job_ok → expected (GetOutputFileName r) s →
  ∃ all, all ≡ₚ part n r allPairs ∧ s = reduceFile reducef all.
Proof.
  intros J He. remember (GetOutputFileName r) as name eqn:Hn.
  destruct He as [f s Hf _|t' r' f kva Hf Hr' _|r' all Hr' Ha].
  - subst. by apply output_not_input in Hf.
  - by apply intermediate_output in Hn; [|lia].
  - apply output_inj in Hn as ->. by eexists.
Qed.

(** File [f] holds what it should. *)
Definition holds (fs : fsys) (f : string) : Prop := ∃ s, expected f s ∧ fs !! f = Some s.

Lemma holds_rename fs f nc :
  expected nc.1 nc.2 → holds fs f → holds (rename fs nc) f.
Proof.
  intros Hnc (s & He & Hs). unfold rename. destruct (decide (nc.1 = f)) as [<-|Hne].
  - exists nc.2. by rewrite lookup_insert_eq.
  - exists s. by rewrite lookup_insert_ne.
Qed.

Lemma holds_renamed fs nc : expected nc.1 nc.2 → holds (rename fs nc) nc.1.
Proof. intros Hnc. exists nc.2. split; [done|]. unfold rename. by rewrite lookup_insert_eq. Qed.

(** ** The invariant of a job *)

Definition map_done (fs : fsys) (t : Z) : Prop :=
  0 ≤ t < zlen inputs ∧ ∀ r, 0 ≤ r < n → holds fs (GetIntermediateFileName t r).

Definition reduce_done (fs : fsys) (r : Z) : Prop :=
  0 ≤ r < n ∧ holds fs (GetOutputFileName r).

Definition all_mapped (fs : fsys) : Prop := ∀ t, 0 ≤ t < zlen inputs → map_done fs t.

Definition phase_ok (fs : fsys) (p : Phase) : Prop :=
  match p with
  | Granted r =>
      match Type_ r with
      | Map => ∃ t f, TaskInd r = Z.of_nat t ∧ inputs !! t = Some f ∧ FileName r = f ∧ NReduce r = n
      | Reduce => 0 ≤ TaskInd r < n ∧ NMap r = zlen inputs ∧ all_mapped fs
      | _ => True
      end
  | Renaming t pending =>
      ∃ t' f kva written, t = Z.of_nat t' ∧ inputs !! t' = Some f ∧ kva ≡ₚ pairsOf f ∧
        mapOutputs t n kva = written ++ pending ∧
        Forall (λ nc, holds fs nc.1) written
  | Reading r nMap i kva =>
      0 ≤ r < n ∧ nMap = zlen inputs ∧ all_mapped fs ∧ 0 ≤ i ≤ zlen inputs ∧
      kva ≡ₚ part n r (take (Z.to_nat i) inputs ≫= pairsOf)
  | Reporting t i => if decide (t = Map) then map_done fs i else reduce_done fs i ∧ all_mapped fs
  | Asking | Stopped => True
  end.

Record job_inv (W : World) : Prop := mkJobInv {
  ji_wf : mr_wf (coord W);
  ji_files : files (coord W) = inputs;
  ji_nReduce : nReduce (coord W) = n;
  ji_inputs : ∀ f, f ∈ inputs → holds (fsOf W) f;
  ji_map : ∀ t : nat, mapStatus (coord W) !! t = Some Finished → map_done (fsOf W) (Z.of_nat t);
  ji_reduce : ∀ r : nat, reduceStatus (coord W) !! r = Some Finished → reduce_done (fsOf W) (Z.of_nat r);
  ji_workers : ∀ w p, workers W !! w = Some p → phase_ok (fsOf W) p;
}.

(** What a write of the right contents keeps. *)
Record fs_ext (fs fs' : fsys) : Prop := mkFsExt { fe_holds : ∀ f, holds fs f → holds fs' f }.

Instance fs_ext_refl : Reflexive fs_ext.
Proof. by split. Qed.

Lemma map_done_ext fs fs' t : fs_ext fs fs' → map_done fs t → map_done fs' t.
Proof. intros [E] [? Hd]. split; [done|]. intros r Hr. by apply E, Hd. Qed.

Lemma reduce_done_ext fs fs' r : fs_ext fs fs' → reduce_done fs r → reduce_done fs' r.
Proof. intros [E] [? Hd]. split; [done|]. by apply E. Qed.

Lemma all_mapped_ext fs fs' : fs_ext fs fs' → all_mapped fs → all_mapped fs'.
Proof. intros E Ha t Ht. eapply map_done_ext; [done|]. by apply Ha. Qed.

Lemma phase_ok_ext fs fs' p : fs_ext fs fs' → phase_ok fs p → phase_ok fs' p.
Proof.
  intros E. destruct p as [|r|t pend|r m i kva|t i|]; cbn; try done.
  - destruct (Type_ r); naive_solver eauto using all_mapped_ext.
  - intros (t' & f & kva & wr & ? & ? & ? & ? & Hwr). exists t', f, kva, wr. split_and!; try done.
    eapply Forall_impl; [exact Hwr|]. cbn. intros nc. apply E.
  - naive_solver eauto using all_mapped_ext.
  - case_decide; naive_solver eauto using map_done_ext, reduce_done_ext, all_mapped_ext.
Qed.

Lemma rename_ext fs nc : expected nc.1 nc.2 → fs_ext fs (rename fs nc).
Proof. intros He. split. intros f. by apply holds_rename. Qed.

(** Change of the phase of one worker and of the files. *)
Lemma job_inv_worker W w p fs' :
  job_inv W → fs_ext (fsOf W) fs' → phase_ok fs' p →
  job_inv (mkWorld (coord W) fs' (<[w := p]> (workers W))).
Proof.
  intros [] E Hp. split; cbn; try done.
  - intros f Hf. by apply E; auto.
  - eauto using map_done_ext.
  - eauto using reduce_done_ext.
  - intros w' p' [[<- <-]|[_ Hw]]%lookup_insert_Some; [done|]. eauto using phase_ok_ext.
Qed.

Lemma mapOutputs_expected t f kva nc :
  inputs !! t = Some f → kva ≡ₚ pairsOf f → nc ∈ mapOutputs (Z.of_nat t) n kva → expected nc.1 nc.2.
Proof.
  intros Hf Hk (r & -> & Hr)%list_elem_of_fmap. apply elem_of_seqZ in Hr. cbn.
  by eapply expected_intermediate; [|lia|].
Qed.

Lemma input_pairs fs t f o :
  job_ok → (∀ f, f ∈ inputs → holds fs f) → inputs !! t = Some f →
  ∃ s, fs !! f = Some s ∧ mapf o f s ≡ₚ pairsOf f.
Proof.
  intros J Hin Hf%list_elem_of_lookup_2. destruct (Hin f Hf) as (s & He & Hs). exists s. split; [done|].
  apply expected_input_inv in He; [|done..]. pose proof (jo_map J o f Hf) as Hm. by rewrite He in Hm.
Qed.

Lemma json_part t f r kva :
  job_ok → inputs !! t = Some f → kva ≡ₚ pairsOf f → json_stream (partFile n r kva) = part n r kva.
Proof.
  intros J Hf Hk. apply json_roundtrip, Forall_forall.
  pose proof (jo_json J) as Hall. unfold allPairs in Hall. rewrite Forall_forall in Hall.
  intros kv [_ Hkv]%list_elem_of_filter. rewrite Hk in Hkv.
  apply Hall, list_elem_of_bind. eauto using list_elem_of_lookup_2.
Qed.

Lemma part_proper r a b : a ≡ₚ b → part n r a ≡ₚ part n r b.
Proof. intros Hab. unfold part. by rewrite Hab. Qed.

(** The intermediate file of map task [t], for reduce task [r]. *)
Lemma read_ok fs (t : nat) r f kva :
  job_ok → 0 ≤ r < n → all_mapped fs → inputs !! t = Some f →
  ∃ kva', readIntermediate fs r kva (Z.of_nat t) = Ok (kva ++ kva') ∧ kva' ≡ₚ part n r (pairsOf f).
Proof.
  intros J Hr Ha Hf. pose proof (lookup_lt_Some _ _ _ Hf).
  destruct (Ha (Z.of_nat t)) as [_ Hd]; [lia|]. destruct (Hd r Hr) as (s & He & Hs).
  apply expected_intermediate_inv in He as (f' & kva1 & Hf' & Hk & ->); [|done|lia].
  rewrite Hf in Hf'. injection Hf' as <-. exists (part n r kva1).
  unfold readIntermediate. rewrite Hs. split; [|by apply part_proper].
  do 2 f_equal. by eapply json_part.
Qed.

Lemma workStep_ok fs o p :
  job_ok → (∀ f, f ∈ inputs → holds fs f) → phase_ok fs p →
  ∃ p' fs', workStep mapf reducef o p fs = Ok (p', fs') ∧ fs_ext fs fs' ∧ phase_ok fs' p'.
Proof.
  intros J Hin Hp. destruct p as [|rep|t pending|r m i kva|t i|]; cbn [workStep].
  - by eexists _, _.
  - cbn in Hp. destruct (Type_ rep); [| |by eexists _, _..].
    + destruct Hp as (t & f & -> & Hf & -> & ->).
      destruct (input_pairs fs t f o J Hin Hf) as (s & Hs & Heq).
      rewrite (DoMapFiles_eq _ _ _ _ s) by (done || apply (jo_n J)). cbn.
      eexists _, _. split_and!; [done..|]. by exists t, f, (mapf o f s), [].
    + eexists _, _. split_and!; [done..|]. destruct Hp as (? & ? & ?).
      cbn. split_and!; try done; lia.
  - destruct Hp as (t' & f & kva & wr & -> & Hf & Hk & Hout & Hwr).
    destruct pending as [|nc pending]; (eexists _, _; split; [done|]).
    + split; [done|]. cbn. split; [apply lookup_lt_Some in Hf; lia|]. intros r Hr.
      rewrite app_nil_r in Hout. rewrite <- Hout in Hwr. rewrite Forall_forall in Hwr.
      apply (Hwr (GetIntermediateFileName (Z.of_nat t') r, partFile n r kva)).
      apply list_elem_of_fmap. exists r. split; [done|]. apply elem_of_seqZ. lia.
    + assert (expected nc.1 nc.2) as He.
      { eapply mapOutputs_expected; [exact Hf|exact Hk|]. rewrite Hout. set_solver. }
      pose proof (rename_ext fs nc He) as E. split; [done|].
      exists t', f, kva, (wr ++ [nc]). split_and!; [done..|by rewrite <- app_assoc|].
      apply Forall_app. split; [|by constructor; [apply holds_renamed|]].
      eapply Forall_impl; [exact Hwr|]. intros nc'. apply E.
  - destruct Hp as (Hr & -> & Ha & Hi & Hkva). case_decide as Hlt.
    + destruct (lookup_lt_is_Some_2 inputs (Z.to_nat i)) as [f Hf]; [lia|].
      destruct (read_ok fs (Z.to_nat i) r f kva J Hr Ha Hf) as (kva' & Hread & Hk).
      rewrite Z2Nat.id in Hread by lia. rewrite Hread. cbn [mbind Res_bind].
      eexists _, _. split_and!; [done..|]. split_and!; try done; try lia.
      replace (Z.to_nat (i + 1)) with (S (Z.to_nat i)) by lia.
      rewrite (take_S_r _ _ _ Hf), bind_app, part_app, Hkva, Hk. cbn. by rewrite app_nil_r.
    + eexists _, _. split; [done|]. replace i with (zlen inputs) in Hkva by lia.
      rewrite Nat2Z.id, firstn_all in Hkva.
      assert (expected (GetOutputFileName r) (reduceFile reducef kva)) as He by by constructor.
      pose proof (rename_ext fs (_, _) He) as E. split; [done|]. split.
      * split; [done|]. by apply (holds_renamed fs (_, _)).
      * by eapply all_mapped_ext.
  - by eexists _, _.
  - by eexists _, _.
Qed.

Lemma all_mapped_done W : job_inv W → allMapDone (coord W) = true → all_mapped (fsOf W).
Proof.
  intros I Hd t Ht. destruct I as [Wf Hf _ _ Hm _ _].
  assert (Z.to_nat t < length (mapStatus (coord W)))%nat as Hlt by (rewrite mw_mapStatus, Hf by done; lia).
  apply lookup_lt_is_Some_2 in Hlt as [s Hs].
  apply allFinished_lookup with (i := Z.to_nat t) (s := s) in Hd; [subst s|done].
  apply Hm in Hs. by rewrite Z2Nat.id in Hs by lia.
Qed.

(** Handing out finishes no task. *)
Lemma onfly_finished (l : list TaskStatus) k i :
  <[k := OnFly]> l !! i = Some Finished → l !! i = Some Finished.
Proof. intros [(_ & ? & _)|[_ ?]]%list_lookup_insert_Some; done. Qed.

(** A request for a task. *)
Lemma ask_ok W clock args :
  job_inv W → A_RequestType args = Get →
  ∃ c reply, HandleRequestTask clock args (coord W) = Ok (c, reply) ∧
    job_inv (mkWorld c (fsOf W) (workers W)) ∧ phase_ok (fsOf W) (Granted reply).
Proof.
  intros I HG. pose proof I as [Wf Hf Hn Hin Hm Hr Hw].
  destruct (Get_answered clock args (coord W) Wf HG) as (c & reply & Heq & Ha).
  destruct (HandleRequestTask_ok clock args (coord W) Wf) as (c1 & reply1 & Heq1 & Wf1 & St).
  { intros HP. congruence. }
  rewrite Heq in Heq1. injection Heq1 as <- <-. exists c, reply. split; [done|].
  pose proof (ms_files _ _ St) as Ef. pose proof (ms_nReduce _ _ St) as En.
  unfold answered in Ha. destruct (allDone (coord W)) eqn:Hd; [|destruct (allMapDone (coord W)) eqn:Hmd].
  - destruct Ha as [-> ->]. done.
  - pose proof (all_mapped_done W I Hmd) as Hall. destruct Ha as (p & Hp & Ha).
    destruct p as [k|]; destruct Ha as [-> ->]; [|by split; [destruct W|]].
    split; [split; mr_simpl; cbn; try done; try congruence; intros r Hr'; eauto using onfly_finished|].
    destruct Hp as [(s & Hk & _) _]. apply lookup_lt_Some in Hk. pose proof (mw_reduceStatus _ Wf).
    cbn. split_and!; [lia|lia|by rewrite mw_nMap, Hf|done].
  - destruct Ha as (p & Hp & Ha).
    destruct p as [k|]; destruct Ha as [-> ->]; [|by split; [destruct W|]].
    split; [split; mr_simpl; cbn; try done; try congruence; intros r Hr'; eauto using onfly_finished|].
    destruct Hp as [(s & Hk & _) _]. apply lookup_lt_Some in Hk.
    rewrite mw_mapStatus in Hk by done. apply lookup_lt_is_Some_2 in Hk as [f Hf'].
    cbn. exists k, f. rewrite <- Hf, Hf'. done.
Qed.

(** A report. *)
Lemma report_ok W clock t i :
  job_inv W → phase_ok (fsOf W) (Reporting t i) →
  ∃ c reply, HandleRequestTask clock (mkArgs Put t i) (coord W) = Ok (c, reply) ∧
    job_inv (mkWorld c (fsOf W) (workers W)).
Proof.
  intros I Hp. pose proof I as [Wf Hf Hn Hin Hm Hr Hw]. cbn in Hp.
  destruct (HandleRequestTask_ok clock (mkArgs Put t i) (coord W) Wf) as (c & reply & Heq & Wf1 & St).
  { intros _. cbn. rewrite (mw_nMap _ Wf), Hf, Hn.
    case_decide; [by destruct Hp|]. by destruct Hp as [[? _] _]. }
  exists c, reply. split; [done|].
  pose proof (ms_files _ _ St) as Ef. pose proof (ms_nReduce _ _ St) as En.
  unfold HandleRequestTask in Heq. cbn in Heq. rewrite decide_True in Heq by done.
  assert (∀ (P : Z → Prop) (l : list TaskStatus) (k : nat), P i →
    (∀ j : nat, l !! j = Some Finished → P (Z.of_nat j)) → 0 ≤ i →
    <[Z.to_nat i := Finished]> l !! k = Some Finished → P (Z.of_nat k)) as Hput.
  { intros P l k Hi Hl H0' [(<- & _ & _)|[_ Hk]]%list_lookup_insert_Some; [|by apply Hl].
    by rewrite Z2Nat.id. }
  case_decide as Ht; apply bind_Ok in Heq as (l & Hs & Heq); apply go_store_Ok in Hs as [Hi ->].
  - injection Heq as <- <-. split; mr_simpl; cbn; try done; try congruence.
    intros k. apply Hput; [done..|lia].
  - destruct Hp as [Hp _]. injection Heq as Hc <-.
    match type of Hc with (if ?b then _ else _) = _ => destruct b end; subst c;
      (split; mr_simpl; cbn; try done; try congruence; intros k; apply Hput; [done..|lia]).
Qed.

Lemma world_step_ok W l :
  job_ok → job_inv W → ∃ W', world_step mapf reducef W l = Ok W' ∧ job_inv W'.
Proof.
  intros J I. pose proof (ji_workers W I) as Hw. destruct l as [w|w|w clock lost|w o|w clock lost]; cbn [world_step].
  - destruct (workers W !! w) as [p|] eqn:Hp; (eexists; split; [done|]); [done|].
    by apply job_inv_worker.
  - eexists. split; [done|]. destruct (workers W !! w) as [p|] eqn:Hp.
    + assert (alter (λ _, Stopped) w (workers W) = <[w := Stopped]> (workers W)) as ->.
      { apply map_eq. intros w'. destruct (decide (w = w')) as [->|].
        - by rewrite lookup_alter_eq, Hp, lookup_insert_eq.
        - by rewrite lookup_alter_ne, lookup_insert_ne. }
      by apply job_inv_worker.
    + rewrite alter_id' by done. by destruct W.
  - destruct (workers W !! w) as [[]|] eqn:Hp; try (by eexists).
    destruct (ask_ok W clock (mkArgs Get Map 0) I eq_refl) as (c & reply & -> & I' & Hgr).
    eexists. split; [done|]. apply (job_inv_worker _ _ _ _ I'); [done|]. by destruct lost.
  - destruct (workers W !! w) as [p|] eqn:Hp; [|by eexists].
    destruct (workStep_ok (fsOf W) o p J (ji_inputs W I) (Hw w p Hp)) as (p' & fs' & -> & E & Hp').
    eexists. split; [done|]. by apply job_inv_worker.
  - destruct (workers W !! w) as [[| | | |t i|]|] eqn:Hp; try (by eexists).
    destruct (report_ok W clock t i I (Hw w _ Hp)) as (c & reply & -> & I').
    eexists. split; [done|]. apply (job_inv_worker _ _ _ _ I'); [done|]. by destruct lost.
Qed.

Lemma run_ok W tr :
  job_ok → job_inv W → ∃ W', run mapf reducef W tr = Ok W' ∧ job_inv W'.
Proof.
  intros J. unfold run. revert W. induction tr as [|l tr IH]; intros W I; [by eexists|].
  cbn. destruct (world_step_ok W l J I) as (W1 & -> & I1). by apply IH.
Qed.

Lemma start_ok :
  job_ok → ∃ W, start fs0 inputs n = Ok W ∧ job_inv W.
Proof.
  intros J. pose proof (jo_n J).
  destruct (MakeCoordinator_wf inputs n) as (c & Hc & Wf & Hf & Hn & _ & Hm & Hr & _); [lia|].
  unfold start. rewrite Hc. eexists. split; [done|]. split; cbn; try done.
  - intros f Hin. destruct (proj2 (jo_inputs J f Hin)) as [s Hs]. exists s. split; [by constructor|done].
  - intros t Ht. by apply Hm in Ht.
  - intros r Hr'. by apply Hr in Hr'.
Qed.

(** A finished job has its output files. *)
Lemma finished_outputs W r :
  job_inv W → isDone (coord W) = true → job_ok → 0 ≤ r < n →
  ∃ all, all ≡ₚ part n r allPairs ∧ fsOf W !! GetOutputFileName r = Some (reduceFile reducef all).
Proof.
  intros I Hd J Hr. pose proof (mw_done _ (ji_wf W I) Hd) as Ha.
  unfold allDone, allReduceDone in Ha. apply andb_true_iff in Ha as [_ Ha].
  assert (Z.to_nat r < length (reduceStatus (coord W)))%nat as Hlt.
  { pose proof (mw_reduceStatus _ (ji_wf W I)). pose proof (ji_nReduce W I). lia. }
  apply lookup_lt_is_Some_2 in Hlt as [s Hs].
  apply allFinished_lookup with (i := Z.to_nat r) (s := s) in Ha; [subst s|done].
  destruct (ji_reduce W I _ Hs) as [_ (s & He & Hf)]. rewrite Z2Nat.id in He, Hf by lia.
  apply expected_output_inv in He as (all & Ha & ->); [|done]. by exists all.
Qed.
End job.

(** ** Every job can be finished

    The tasks not finished. *)
Definition unfinishedIn (l : list TaskStatus) : nat := length (filter (λ s, s ≠ Finished) l).
Definition unfinished (c : Coordinator) : nat :=
  (unfinishedIn (mapStatus c) + unfinishedIn (reduceStatus c))%nat.

Lemma unfinishedIn_insert l k s x :
  l !! k = Some s → s ≠ Finished →
  unfinishedIn (<[k := x]> l) = if decide (x = Finished) then pred (unfinishedIn l) else unfinishedIn l.
Proof.
  intros Hk Hs. rewrite insert_take_drop by (by eapply lookup_lt_Some).
  pose proof (take_drop_middle l k s Hk) as Hl. revert Hl. generalize (take k l) as l1, (drop (S k) l) as l2.
  intros l1 l2 <-. unfold unfinishedIn. rewrite !filter_app, !filter_cons, !length_app.
  rewrite (decide_True (P := s ≠ Finished)) by done.
  destruct (decide (x = Finished)) as [->|Hx].
  - rewrite decide_False by naive_solver. cbn. lia.
  - by rewrite decide_True by done.
Qed.

Lemma unfinishedIn_pos l k s : l !! k = Some s → s ≠ Finished → (0 < unfinishedIn l)%nat.
Proof.
  intros Hk Hs. unfold unfinishedIn. rewrite <- (take_drop_middle l k s Hk).
  rewrite filter_app, filter_cons_True, length_app by done. cbn. lia.
Qed.

(** The status of the tasks of a kind. *)
Definition statusOf (t : TaskType) (c : Coordinator) : list TaskStatus :=
  if decide (t = Map) then mapStatus c else reduceStatus c.

Lemma times_bounded (l : list Z) : ∃ T, ∀ i t, l !! i = Some t → t < T.
Proof.
  induction l as [|x l [T IH]]; [by exists 0|]. exists (Z.max (x + 1) T).
  intros [|i] t Ht; [injection Ht as <-; lia|]. apply IH in Ht. lia.
Qed.

(** Late enough, a worker that asks is given a task that is not finished. *)
Lemma late_ask_grants c args :
  mr_wf c → A_RequestType args = Get → allDone c = false →
  ∃ clock c' reply k, HandleRequestTask clock args c = Ok (c', reply) ∧
    (Type_ reply = Map ∨ Type_ reply = Reduce) ∧ TaskInd reply = Z.of_nat k ∧
    statusOf (Type_ reply) c' !! k = Some OnFly ∧ unfinished c' = unfinished c.
Proof.
  intros W HG Hd. destruct (times_bounded (mapHandoutTime c ++ reduceHandoutTime c)) as [T HT].
  exists (λ _, T + tenSeconds). destruct (Get_answered (λ _, T + tenSeconds) args c W HG) as (c' & reply & Heq & Ha).
  unfold answered in Ha. rewrite Hd in Ha. exists c', reply. destruct (allMapDone c) eqn:Em.
  - destruct Ha as (p & Hp & Ha).
    assert (allReduceDone c = false) as Hnr by (unfold allDone in Hd; by rewrite Em in Hd).
    destruct (first_due_some (λ _, T + tenSeconds) (reduceHandoutTime c) (reduceStatus c) p) as [k ->];
      [apply (mw_reduceTime _ W)|done| |done|].
    { intros i t Ht. enough (t < T) by lia. apply (HT (length (mapHandoutTime c) + i)%nat).
      by rewrite lookup_app_r, Nat.add_sub' by lia. }
    destruct (first_due_unfinished _ _ _ _ Hp) as (s & Hk & Hs). destruct Ha as [-> ->].
    exists k. mr_simpl. split_and!; [done|by right|done| |].
    + cbn. apply list_lookup_insert_eq. by eapply lookup_lt_Some.
    + unfold unfinished. mr_simpl. by rewrite (unfinishedIn_insert _ k s).
  - destruct Ha as (p & Hp & Ha).
    assert (length (mapHandoutTime c) = length (mapStatus c)) as Hlen by (destruct W; lia).
    destruct (first_due_some (λ _, T + tenSeconds) (mapHandoutTime c) (mapStatus c) p) as [k ->];
      [done|done| |done|].
    { intros i t Ht. enough (t < T) by lia. apply (HT i).
      by rewrite lookup_app_l by (by eapply lookup_lt_Some). }
    destruct (first_due_unfinished _ _ _ _ Hp) as (s & Hk & Hs). destruct Ha as [-> ->].
    exists k. mr_simpl. split_and!; [done|by left|done| |].
    + cbn. apply list_lookup_insert_eq. by eapply lookup_lt_Some.
    + unfold unfinished. mr_simpl. by rewrite (unfinishedIn_insert _ k s).
Qed.

(** A report of such a task leaves one task less. *)
Lemma report_counts c clock t k s c' reply :
  (t = Map ∨ t = Reduce) → statusOf t c !! k = Some s → s ≠ Finished →
  HandleRequestTask clock (mkArgs Put t (Z.of_nat k)) c = Ok (c', reply) →
  (unfinished c' < unfinished c)%nat.
Proof.
  intros Ht Hk Hs Heq. pose proof (unfinishedIn_pos _ _ _ Hk Hs) as Hpos.
  unfold HandleRequestTask in Heq. cbn in Heq. rewrite decide_True in Heq by done.
  unfold statusOf in *. case_decide as Hm; apply bind_Ok in Heq as (l & Hl & Heq);
    apply go_store_Ok in Hl as [_ ->]; rewrite Nat2Z.id in Heq; injection Heq as Hc <-.
  - subst c'. unfold unfinished. mr_simpl. rewrite (unfinishedIn_insert _ k s), decide_True by done. lia.
  - match type of Hc with (if ?b then _ else _) = _ => destruct b end; subst c';
      unfold unfinished; mr_simpl; (rewrite (unfinishedIn_insert _ k s), decide_True by done); lia.
Qed.

Section completion.
Context `{JsonCodec} `{SortByKey}.
Context (mapf : nat → string → string → list KeyValue).
Context (reducef : string → list string → string).
Context (fs0 : fsys) (inputs : list string) (n : Z).
Context (J : job_ok mapf fs0 inputs n).

Abbreviation job_inv := (job_inv mapf reducef fs0 inputs n).
Abbreviation run := (run mapf reducef).

Lemma run_cons W l tr W1 : world_step mapf reducef W l = Ok W1 → run W (l :: tr) = run W1 tr.
Proof. intros Hs. unfold MrSystem.run. cbn. by rewrite Hs. Qed.

Lemma run_app W W1 tr tr' : run W tr = Ok W1 → run W (tr ++ tr') = run W1 tr'.
Proof.
  unfold MrSystem.run. revert W. induction tr as [|l tr IH]; intros W; cbn; [by intros [= ->]|].
  intros (W2 & -> & Hr)%bind_Ok. cbn. by apply IH.
Qed.

(** A step of a worker on its own. *)
Lemma work_one W w p :
  job_inv W → workers W !! w = Some p →
  ∃ p' fs', workStep mapf reducef 0 p (fsOf W) = Ok (p', fs') ∧
    world_step mapf reducef W (Work w 0) = Ok (mkWorld (coord W) fs' (<[w := p']> (workers W))) ∧
    job_inv (mkWorld (coord W) fs' (<[w := p']> (workers W))).
Proof using J.
  intros I Hw.
  destruct (workStep_ok mapf reducef fs0 inputs n (fsOf W) 0 p J (ji_inputs _ _ _ _ _ W I)
    (ji_workers _ _ _ _ _ W I w p Hw)) as (p' & fs' & Hs & E & Hp).
  exists p', fs'. split; [done|]. split; [cbn; by rewrite Hw, Hs|]. by apply job_inv_worker.
Qed.

(** Left alone, a worker reports the task [i] of kind [t] it was granted. *)
Definition reports (W : World) (w : nat) (t : TaskType) (i : Z) : Prop :=
  ∃ tr W', run W tr = Ok W' ∧ job_inv W' ∧ coord W' = coord W ∧
    workers W' !! w = Some (Reporting t i).

Lemma reports_step W w t i p' fs' :
  world_step mapf reducef W (Work w 0) = Ok (mkWorld (coord W) fs' (<[w := p']> (workers W))) →
  reports (mkWorld (coord W) fs' (<[w := p']> (workers W))) w t i → reports W w t i.
Proof.
  intros Hs (tr & W' & Hr & I & Hc & Hp). exists (Work w 0 :: tr), W'.
  by rewrite (run_cons _ _ _ _ Hs).
Qed.

Lemma renaming_reports W w i pending :
  job_inv W → workers W !! w = Some (Renaming i pending) → reports W w Map i.
Proof using J.
  revert W. induction pending as [|nc pending IH]; intros W I Hw;
    destruct (work_one W w _ I Hw) as (p' & fs' & Hs & Hstep & I'); cbn in Hs; injection Hs as <- <-;
    apply (reports_step _ _ _ _ _ _ Hstep).
  - eexists [], _. split_and!; [done..|]. apply lookup_insert_eq.
  - apply IH; [done|]. apply lookup_insert_eq.
Qed.

Lemma reading_reports m W w r nMap i kva :
  m = Z.to_nat (nMap - i) → job_inv W → workers W !! w = Some (Reading r nMap i kva) → reports W w Reduce r.
Proof using J.
  revert W i kva. induction m as [|m IH]; intros W i kva Hm I Hw;
    destruct (work_one W w _ I Hw) as (p' & fs' & Hs & Hstep & I'); cbn in Hs;
    apply (reports_step _ _ _ _ _ _ Hstep).
  - rewrite decide_False in Hs by lia. injection Hs as <- <-.
    eexists [], _. split_and!; [done..|]. apply lookup_insert_eq.
  - rewrite decide_True in Hs by lia. apply bind_Ok in Hs as (kva' & _ & Hs). injection Hs as <- <-.
    apply (IH _ (i + 1) kva'); [lia|done|]. apply lookup_insert_eq.
Qed.

Lemma granted_reports W w reply :
  job_inv W → workers W !! w = Some (Granted reply) →
  (Type_ reply = Map ∨ Type_ reply = Reduce) → reports W w (Type_ reply) (TaskInd reply).
Proof using J.
  intros I Hw Ht. destruct (work_one W w _ I Hw) as (p' & fs' & Hs & Hstep & I'); cbn in Hs.
  apply (reports_step _ _ _ _ _ _ Hstep). destruct Ht as [Ht|Ht]; rewrite Ht in *.
  - apply bind_Ok in Hs as (new & _ & Hs). injection Hs as <- <-.
    eapply renaming_reports; [done|]. apply lookup_insert_eq.
  - injection Hs as <- <-. eapply reading_reports; [done..|]. apply lookup_insert_eq.
Qed.

(** A new worker finishes one task more. *)
Lemma one_more W :
  job_inv W → allDone (coord W) = false →
  ∃ tr W', run W tr = Ok W' ∧ job_inv W' ∧ (unfinished (coord W') < unfinished (coord W))%nat.
Proof using J.
  intros I Hd. set (w := fresh (dom (workers W))).
  assert (workers W !! w = None) as Hw by (apply not_elem_of_dom, is_fresh).
  destruct (late_ask_grants (coord W) (mkArgs Get Map 0) (ji_wf _ _ _ _ _ W I) eq_refl Hd)
    as (clock & c & reply & k & Heq & Ht & Hk & Hon & Hcount).
  set (W1 := mkWorld (coord W) (fsOf W) (<[w := Asking]> (workers W))).
  assert (world_step mapf reducef W (Join w) = Ok W1) as S1 by (cbn; by rewrite Hw).
  set (W2 := mkWorld c (fsOf W) (<[w := Granted reply]> (workers W1))).
  assert (world_step mapf reducef W1 (Ask w clock false) = Ok W2) as S2.
  { cbn. by rewrite lookup_insert_eq, Heq. }
  destruct (run_ok mapf reducef fs0 inputs n W [Join w; Ask w clock false] J I) as (W2' & R2 & I2).
  rewrite (run_cons _ _ _ _ S1), (run_cons _ _ _ _ S2) in R2. injection R2 as <-.
  destruct (granted_reports W2 w reply I2 (lookup_insert_eq _ _ _) Ht) as (tr & W3 & R3 & I3 & Hc3 & Hw3).
  destruct (report_ok mapf reducef fs0 inputs n W3 clock (Type_ reply) (TaskInd reply) I3
    (ji_workers _ _ _ _ _ W3 I3 w _ Hw3)) as (c4 & rep4 & Heq4 & I4).
  exists ([Join w; Ask w clock false] ++ tr ++ [Report w clock false]).
  destruct (world_step_ok mapf reducef fs0 inputs n W3 (Report w clock false) J I3) as (W4 & S4 & I4').
  exists W4. split; [|split; [done|]].
  - cbn [app]. rewrite (run_cons _ _ _ _ S1), (run_cons _ _ _ _ S2), (run_app _ _ _ _ R3), (run_cons _ _ _ _ S4).
    done.
  - cbn in S4. rewrite Hw3, Heq4 in S4. injection S4 as <-. cbn [coord].
    rewrite Hc3, Hk in Heq4. cbn [coord W2] in Heq4.
    pose proof (report_counts c clock (Type_ reply) k OnFly c4 rep4 Ht Hon) as Hlt. subst W2. cbn in Hlt, Heq4.
    rewrite <- Hcount. by apply Hlt.
Qed.

Lemma can_finish W :
  job_inv W → ∃ tr W', run W tr = Ok W' ∧ isDone (coord W') = true.
Proof using J.
  remember (unfinished (coord W)) as m eqn:Hm. revert W Hm.
  induction (lt_wf m) as [m _ IH]. intros W -> I. destruct (allDone (coord W)) eqn:Hd.
  - set (w := fresh (dom (workers W))).
    assert (workers W !! w = None) as Hw by (apply not_elem_of_dom, is_fresh).
    exists [Join w; Ask w (λ _, 0) false]. eexists. cbn. rewrite Hw. cbn. rewrite lookup_insert_eq.
    unfold HandleRequestTask. cbn. unfold allDone in Hd. rewrite Hd. cbn. split; [done|]. done.
  - destruct (one_more W I Hd) as (tr & W1 & Hr & I1 & Hlt).
    destruct (IH _ Hlt W1 eq_refl I1) as (tr' & W' & Hr' & Hd').
    exists (tr ++ tr'), W'. by rewrite (run_app _ _ _ _ Hr).
Qed.
End completion.

(** The result of a MapReduce job.  Whatever the number of workers, however
    they interleave, whichever are killed or lose a reply, and however often a
    task is carried out twice: the coordinator does not panic, and when it says
    the job is done, every output file holds the lines that one reduce task
    writes for all the pairs of its keys, from all inputs, in some order. *)
Theorem job_output `{JsonCodec} `{SortByKey} mapf reducef fs0 inputs n tr :
  job_ok mapf fs0 inputs n →
  ∃ W0 W, start fs0 inputs n = Ok W0 ∧ run mapf reducef W0 tr = Ok W ∧
    (isDone (coord W) = true → ∀ r, 0 ≤ r < n →
      ∃ all, all ≡ₚ part n r (allPairs mapf fs0 inputs) ∧
        fsOf W !! GetOutputFileName r = Some (cat (reduceLines reducef all))).
Proof.
  intros J. destruct (start_ok mapf reducef fs0 inputs n J) as (W0 & Hs & I0).
  destruct (run_ok mapf reducef fs0 inputs n W0 tr J I0) as (W & Hr & I).
  exists W0, W. split_and!; [done..|]. intros Hd r Hb.
  destruct (finished_outputs mapf reducef fs0 inputs n W r I Hd J Hb) as (all & Ha & Hf).
  exists all. by rewrite <- reduceFile_lines.
Qed.

(** The pairs of all inputs, from one execution of the map function for each. *)
Lemma all_pairs_perm `{JsonCodec} mapf fs0 inputs n o :
  job_ok mapf fs0 inputs n →
  (f ← inputs; mapf o f (default "" (fs0 !! f))) ≡ₚ allPairs mapf fs0 inputs.
Proof.
  intros J. pose proof (jo_map _ _ _ _ J o) as Hm. unfold allPairs. clear J.
  induction inputs as [|f l IH]; [done|]. cbn. rewrite IH by (intros; apply Hm; by right).
  by rewrite Hm by left.
Qed.

(** The output files of a job that is done, for a reduce function that does
    not depend on the order of its values. *)
Lemma job_lines `{JsonCodec} `{SortByKey} mapf reducef fs0 inputs n tr W0 W r :
  job_ok mapf fs0 inputs n → order_insensitive reducef →
  start fs0 inputs n = Ok W0 → run mapf reducef W0 tr = Ok W → isDone (coord W) = true → 0 ≤ r < n →
  fsOf W !! GetOutputFileName r =
  Some (cat (reduceLines reducef (part n r (allPairs mapf fs0 inputs)))).
Proof.
  intros J Hins Hs Hr Hd Hb. destruct (start_ok mapf reducef fs0 inputs n J) as (W0' & Hs' & I0).
  rewrite Hs in Hs'. injection Hs' as <-.
  destruct (run_ok mapf reducef fs0 inputs n W0 tr J I0) as (W' & Hr' & I).
  rewrite Hr in Hr'. injection Hr' as <-.
  destruct (finished_outputs mapf reducef fs0 inputs n W r I Hd J Hb) as (all & Ha & ->).
  by rewrite reduceFile_lines, (reduceLines_perm _ _ _ Hins Ha).
Qed.

(** C14: a job computes what the sequential program computes.  When the
    application's reduce function does not depend on the order of the values,
    the lines of the output files of a job that is done are, up to their order,
    the lines that mrsequential.go writes for the same inputs. *)
Theorem job_equals_sequential `{JsonCodec} `{SortByKey} mapf reducef fs0 inputs n tr W0 W o :
  job_ok mapf fs0 inputs n → order_insensitive reducef →
  start fs0 inputs n = Ok W0 → run mapf reducef W0 tr = Ok W → isDone (coord W) = true →
  ∃ (linesOf : Z → list string) (all : list string),
    (∀ r, 0 ≤ r < n → fsOf W !! GetOutputFileName r = Some (cat (linesOf r))) ∧
    sequential (mapf o) reducef fs0 inputs = Ok (<["mr-out-0" := cat all]> fs0) ∧
    (∀ l, l ∈ all → ∃ k vs, l = line k (reducef k vs)) ∧
    (r ← seqZ 0 n; linesOf r) ≡ₚ all.
Proof.
  intros J Hins Hs Hr Hd.
  exists (λ r, reduceLines reducef (part n r (allPairs mapf fs0 inputs))),
    (reduceLines reducef (f ← inputs; mapf o f (default "" (fs0 !! f)))).
  split_and!; [| |intros l (g & -> & _)%list_elem_of_fmap; by eexists _, _|].
  - intros r Hb. by apply (job_lines mapf reducef fs0 inputs n tr W0 W).
  - apply sequential_lines. intros f Hf. apply (jo_inputs _ _ _ _ J f Hf).
  - rewrite (reduceLines_perm _ _ _ Hins (all_pairs_perm mapf fs0 inputs n o J)).
    by apply partition_lines; [apply (jo_n _ _ _ _ J)|].
Qed.

(** C31: a job is never stuck.  Whatever happened before -- workers killed with a
    task in hand, replies lost -- the run can go on to a state in which the
    coordinator says the job is done. *)
Theorem job_can_finish `{JsonCodec} `{SortByKey} mapf reducef fs0 inputs n tr :
  job_ok mapf fs0 inputs n →
  ∃ W0 W tr' W', start fs0 inputs n = Ok W0 ∧ run mapf reducef W0 tr = Ok W ∧
    run mapf reducef W tr' = Ok W' ∧ isDone (coord W') = true.
Proof.
  intros J. destruct (start_ok mapf reducef fs0 inputs n J) as (W0 & Hs & I0).
  destruct (run_ok mapf reducef fs0 inputs n W0 tr J I0) as (W & Hr & I).
  destruct (can_finish mapf reducef fs0 inputs n J W I) as (tr' & W' & Hr' & Hd).
  by exists W0, W, tr', W'.
Qed.

(** Word count.  When a job with the map and reduce functions of wc.go is
    done, its output files hold one line for every distinct word of the inputs
    and the number of times it occurs in all of them. *)
Theorem wc_job_counts `{JsonCodec} `{SortByKey} isLetter fs0 inputs n tr W0 W :
  let ws := f ← inputs; wordsOf isLetter (default "" (fs0 !! f)) in
  job_ok (λ _, wc_Map isLetter) fs0 inputs n →
  start fs0 inputs n = Ok W0 → run (λ _, wc_Map isLetter) wc_Reduce W0 tr = Ok W →
  isDone (coord W) = true →
  ∃ linesOf : Z → list string,
    (∀ r, 0 ≤ r < n → fsOf W !! GetOutputFileName r = Some (cat (linesOf r))) ∧
    (r ← seqZ 0 n; linesOf r) ≡ₚ (λ w, line w (Itoa (count w ws))) <$> remove_dups ws.
Proof.
  intros ws J Hs Hr Hd. set (all := allPairs (λ _, wc_Map isLetter) fs0 inputs).
  exists (λ r, reduceLines wc_Reduce (part n r all)). split.
  - intros r Hb. by apply (job_lines _ _ _ _ _ _ _ _ _ J wc_Reduce_insensitive Hs Hr Hd).
  - rewrite partition_lines by (apply (jo_n _ _ _ _ J) || apply wc_Reduce_insensitive).
    rewrite reduceLines_keys by apply wc_Reduce_insensitive.
    assert (all = (λ w, mkKV w "1") <$> ws) as -> by (symmetry; apply fmap_of_bind).
    by rewrite wc_lines.
Qed.

(** ** A word-count job, for the witnesses *)

Definition sampleFiles : fsys := {[ "x" := "a dog"; "y" := "a" ]}.
Definition sampleInputs : list string := ["x"; "y"].
Definition wcMap (o : nat) : string → string → list KeyValue := wc_Map asciiLetter.

Lemma sample_ok : job_ok wcMap sampleFiles sampleInputs 2.
Proof.
  split; [lia| | |done].
  - intros f Hf. apply list_elem_of_In in Hf as [<-|[<-|[]]]; (split; [done|by eexists]).
  - assert (allPairs wcMap sampleFiles sampleInputs = [mkKV "a" "1"; mkKV "dog" "1"; mkKV "a" "1"]) as ->
      by (vm_compute; reflexivity).
    repeat constructor; unfold asciiChar; vm_compute; lia.
Qed.

(** One worker carries out the four tasks; another is killed with a task in
    hand, which is handed out again. *)
Definition oneTask : list Label :=
  [Ask 0 (λ _, 60 * 10 ^ 9) false] ++ replicate 4 (Work 0 0) ++ [Report 0 (λ _, 60 * 10 ^ 9) false].

Definition sampleTrace : list Label :=
  [Join 0; Join 1; Ask 1 (λ _, 0) false; Work 1 0; Work 1 0; Kill 1] ++ concat (replicate 4 oneTask).

Definition worldOf (m : Res World) : World :=
  match m with Ok W => W | _ => mkWorld (mkCoordinator [] 0 [] [] 0 [] [] false) ∅ ∅ end.

Definition sampleStart : World := worldOf (start sampleFiles sampleInputs 2).
Definition sampleEnd : World := worldOf (run wcMap wc_Reduce sampleStart sampleTrace).

Lemma sample_starts : start sampleFiles sampleInputs 2 = Ok sampleStart.
Proof. reflexivity. Qed.

Lemma sample_runs : run wcMap wc_Reduce sampleStart sampleTrace = Ok sampleEnd.
Proof.
  unfold sampleEnd. destruct (run _ _ _ _) eqn:E; [done| |];
    apply (f_equal is_ok) in E; vm_compute in E; discriminate.
Qed.

Lemma sample_done : isDone (coord sampleEnd) = true.
Proof. vm_compute. reflexivity. Qed.

Lemma job_output_witness :
  ∃ W0 W, start sampleFiles sampleInputs 2 = Ok W0 ∧ run wcMap wc_Reduce W0 sampleTrace = Ok W ∧
    (isDone (coord W) = true → ∀ r, 0 ≤ r < 2 →
      ∃ all, all ≡ₚ part 2 r (allPairs wcMap sampleFiles sampleInputs) ∧
        fsOf W !! GetOutputFileName r = Some (cat (reduceLines wc_Reduce all))).
Proof. apply (job_output wcMap wc_Reduce sampleFiles sampleInputs 2 sampleTrace), sample_ok. Defined.

Lemma job_equals_sequential_witness :
  ∃ (linesOf : Z → list string) (all : list string),
    (∀ r, 0 ≤ r < 2 → fsOf sampleEnd !! GetOutputFileName r = Some (cat (linesOf r))) ∧
    sequential (wcMap 0) wc_Reduce sampleFiles sampleInputs = Ok (<["mr-out-0" := cat all]> sampleFiles) ∧
    (∀ l, l ∈ all → ∃ k vs, l = line k (wc_Reduce k vs)) ∧
    (r ← seqZ 0 2; linesOf r) ≡ₚ all.
Proof.
  apply (job_equals_sequential wcMap wc_Reduce sampleFiles sampleInputs 2 sampleTrace sampleStart sampleEnd 0).
  - apply sample_ok.
  - apply wc_Reduce_insensitive.
  - apply sample_starts.
  - apply sample_runs.
  - apply sample_done.
Defined.

Lemma job_can_finish_witness :
  ∃ W0 W tr' W', start sampleFiles sampleInputs 2 = Ok W0 ∧
    run wcMap wc_Reduce W0 [Join 0; Ask 0 (λ _, 0) true; Join 1; Ask 1 (λ _, 0) false; Kill 1] = Ok W ∧
    run wcMap wc_Reduce W tr' = Ok W' ∧ isDone (coord W') = true.
Proof. apply (job_can_finish wcMap wc_Reduce), sample_ok. Defined.

Lemma wc_job_counts_witness :
  ∃ linesOf : Z → list string,
    (∀ r, 0 ≤ r < 2 → fsOf sampleEnd !! GetOutputFileName r = Some (cat (linesOf r))) ∧
    (r ← seqZ 0 2; linesOf r) ≡ₚ [line "dog" "1"; line "a" "2"].
Proof.
  apply (wc_job_counts asciiLetter sampleFiles sampleInputs 2 sampleTrace sampleStart sampleEnd).
  - apply sample_ok.
  - apply sample_starts.
  - apply sample_runs.
  - apply sample_done.
Defined.
